(* ===== verification/_CoqProject ===== *)
-Q . S2P
Prelude.v
Ring.v
KMutex.v
Frames.v
Vm.v
Keyhelp.v
Keyboard.v
Console.v
Machine.v
CtrlBlk.v
Kernel.v
Sched.v
UserMem.v
Elf.v
Loader.v
Fork.v
Syscall.v
VirtInt.v
Exceptions.v
Blocking.v
ThreadFork.v
Readline.v
Vanish.v
TaskVanish.v
Family.v
Wait.v
ForkCopy.v
Guest.v
Interrupt.v
UAutostack.v
Steady.v
Kmachine.v
Task.v
TaskLogic.v
UMutex.v
UList.v
UCond.v
USem.v
Alone.v
Critical.v
URwlock.v
URwSpec.v
RwCritical.v
UThread.v
UJoin.v
Parallel.v
UFaults.v
