(* ===== verification/Prelude.v ===== *)
(** A verification library for the Pebbles kernel, its hypervisor and its thread
    library

    The program is a 32-bit x86 kernel ([src/kern]) that runs user programs and,
    under a small hypervisor, guest kernels; with it comes the thread library its
    user programs are linked with ([src/user/libthread]).  This library models
    the kernel, the two pieces of course code it is built on (scancode translation
    and the ELF reader of [src/410kern]) and the thread library, and proves what
    their parts promise.

    * The parts and how they interact

    A frame pool feeds page directories ([vm.c]); the page directory of a process
    is what user memory means, and the page fault handler ([fault_handler.c])
    completes it on demand.  Threads and processes are control blocks
    ([ctrl_blk.c]) threaded on one circular list per thread state; the scheduler
    ([scheduler.c], [timer.c]) chooses, and the context switch
    ([context_switcher.c], [context.S]) moves the two threads between lists and
    changes stacks.  The kernel mutex ([mutex.c]) yields to its holder.  System
    calls ([system_call.c]) combine all of these with the console and the
    keyboard; the loader ([loader.c]) builds address spaces out of executables;
    the hypervisor ([virtual_interrupt.c]) delivers virtual interrupts to a guest
    and serves its calls.  [interrupt.c] dispatches to all of them.

    The thread library is a program of its own above the system calls: mutexes
    ([mutex.c], an [xchange] loop that yields), condition variables ([cond.c],
    [deschedule] and [make_runnable] around a queue of waiters), semaphores
    ([sem.c]) and readers/writers locks ([rwlock.c]) on top of them, all with
    lists on a heap behind a locked [malloc], and threads ([thread.c]) that are
    created, joined and buried through a chain of records.

    * The files, from the bottom up

    - [Prelude]: machine words, arrays with bounds, sequences, loops.
    - [Ring]: [inc/list.h], the list macros on a heap of nodes, each proved to
      implement the operation on sequences.
    - [KMutex]: the atomic steps of [mutex.c] ([xchange], the owner).
    - [Frames]: the frame pool of [vm.c], a strictly sorted list of frames.
    - [Vm]: page directories.  [view] is the abstract specification: what every
      page of every directory maps to.  [vm_ok] is the invariant.
    - [Keyhelp], [Keyboard], [Console]: the scancode automaton, the circular
      buffers and [extract_ch], the screen.
    - [Machine]: [ureg_t] and the constants of the processor.
    - [CtrlBlk]: control blocks, thread lists, [alter_state] and the scheduler.
      [sched_ok c LS] says that the pointers implement the sequences [LS], one per
      list; [place] says where each list admits a thread.
    - [Kernel]: the monad the handlers are written in.  A computation ends
      normally, or stops where the code gives up the processor: [Switch] carries
      the rest of the computation, to be resumed in the state another thread
      leaves; [Spinning] is a loop that ran out of rounds, [Halted], [UserMode],
      [RunHandler] and [Crashed] (an access outside every object, a failed
      [affirm]) are the other ways to stop.
    - [Sched]: the context switch, the mutex as the code locks it, the device
      handlers, and the system calls that touch no user memory.
    - [UserMem]: translation through the page directory in [%cr3], page faults
      taken by the kernel itself, range checks.
    - [Elf], [Loader], [Fork]: executables, [load_executable], creation of
      processes, fork and exec.
    - [Syscall]: the other system calls.  [VirtInt]: the hypervisor.
    - [Exceptions], [Blocking], [ThreadFork], [Readline], [Vanish], [TaskVanish],
      [Family], [Wait], [ForkCopy], [Guest]: theorems that need several of these:
      software exceptions and faults inside a call; sleep, deschedule and
      make_runnable; the birth of a thread; the line editor and its readers; a thread
      that leaves; a process that ends with all its threads; the lists of children of
      a process and what a parent does with them; the copy of an address space; the
      protection and the virtual interrupts of a guest.
    - [Interrupt]: the descriptor tables, the dispatch of [interrupt.c] and the
      boot sequence of [kernel.c].
    - [UAutostack]: the page fault handler of [libautostack] with its system calls,
      and the frame it is entered with.
    - [Steady]: the invariant of the kernel, and the rule by which calls are shown
      to keep it.  [Kmachine]: the kernel as a machine of threads that enter it,
      leave for one another in the midst of a call and go on with it later.

    - [Task]: the programs of a task as trees of atomic actions, and the step
      relation that interleaves its threads at every access to memory and every
      system call.  [TaskLogic]: a separation logic for them (Iris instantiated
      with this language), each action's rule proved from its step, and the
      adequacy theorem that turns proofs in it into facts about [Task.step].
    - [UMutex], [UList], [UCond], [USem], [URwlock], [UThread]: one file of the
      thread library each, definitions first, then (in [URwSpec] and [UJoin] for
      the last two) what each function does to the resources it is given.
    - [Alone]: programs that run by themselves on a region of memory; the closed
      theorems describe client code by it.  [Critical], [RwCritical], [Parallel]:
      clients of the locks and of the threads, and the theorems about every
      schedule, which mention no logic.  [UFaults]: executions that go wrong.

    Names are those of the source; a loop or a block of a long function that has
    a definition of its own is named after what it does.

    * What the theorems show

    - The whole: the kernel machine keeps its invariant for every sequence of
      interrupts, faults and calls that [Kmachine.enters] admits
      ([Kmachine.kernel_runs_safely]): no crash, no lock waited for in vain, no
      thread lost, one running.  Admitted are all calls but eight, if the user
      memory they read is mapped or refused, the memory they write is the caller's
      own, and task_vanish comes from a process that has lost no thread; the code
      checks none of this.
    - Memory: from boot, any sequence of operations keeps every user frame mapped
      at most once and never both mapped and free, with the kernel's pages where
      they belong ([Vm.vm_isolation]); each operation implements its one-page
      specification on [view]; the pool is exact.
    - User memory: stores are what loads read and touch nothing else; the fault
      handler repairs exactly what it should; the range checks are exact;
      [new_pages] is all or nothing; a call of [remove_pages] can remove only the
      lowest allocation.
    - Threads: [alter_state] implements the move between sequences and keeps the
      sleepers sorted; a context switch, yield, sleep, deschedule, make_runnable
      and the timer move exactly the threads they name; thread_fork adds one ready
      thread, or nothing when memory runs out; a free mutex is taken, for a taken
      one the processor goes to its holder if that is ready, and otherwise the call
      goes round until an interrupt changes something; deschedule, interrupted
      anywhere, sleeps only while the word it looks at is zero.
    - Processes: fork gives the child a copy of every user page and leaves the
      parent's alone; a thread that vanishes is on the terminated list, and the
      last of its process has woken who waits for it; task_vanish leaves no thread of
      the process and stores its status; wait takes the first child
      that has exited out of the family tree, hands its children to their new
      parent, frees it and empties the list of all terminated threads, or sleeps
      until a child exits.
    - Input, output and executables: readline delivers the line a reference editor
      makes of what is typed, however often it has to wait ([Readline.resumed]
      follows a call through its stops); the screen is an array of lines, the ELF
      reader agrees with a reference reader on every file and copies no byte from
      outside it.
    - Protection: the descriptor table lets user code raise exactly the system
      calls, a guest's segments lie in user memory, a virtual interrupt saves its
      guest word for word and [hv_iret] restores it.
    - The thread library, for every schedule and every choice of addresses by the
      allocator: threads that touch a region only under a mutex, a semaphore or a
      readers/writers lock keep its invariant and never crash
      ([Critical.mutex_excludes], [Critical.semaphore_excludes],
      [RwCritical.rwlock_excludes]): safety, not that waiters are woken; a program
      that forks jobs and joins them reads the results the jobs compute alone, its
      threads never storing outside their stacks or in freed memory
      ([Parallel.fork_join_delivers]).
    - User programs on the kernel: a fault below the stack of a program with
      libautostack ends with the stack grown and the instruction tried again, unless
      there is no room for the page ([UAutostack.stack_grows_on_fault]).
    - Behaviour at the edges that a user of the code should know of: see the
      theorems whose name says what goes wrong.

    * Conventions and bounds

    Words are [Z], reduced to their width where the code does arithmetic ([u32],
    [s32], [s8]; the kernel is compiled with [-fwrapv]).  A function that may go
    wrong returns [option]: [None] is an access outside every object, and the
    theorems exclude it.  [malloc] draws addresses from the pool of its node type,
    or answers from a list in the state, so that every failure is covered.

    The loops over lists run on a fuel the length of the heap, which
    [Ring.ring_fuel] shows to be enough; page and section loops have the source's
    bounds.  [Kernel.loop d] runs at most [2 ^ d] rounds and then spins: the waiting
    loops use [SPIN] = 64, more rounds than any machine will run, and every theorem
    about them says in which round they end, or that no number of rounds is enough.

    In the thread library a word of memory is one [Z] and lies at its byte
    address; each access is one step.  The logic of [TaskLogic] is for runs in
    which [malloc] finds memory ([may_fail = false]): the library does not check
    everywhere, and [UFaults.cond_wait_without_memory_crashes] shows what happens.
    [malloc] of no bytes answers [NULL]; [_free] does not look whether a block is
    allocated, and the model stops a thread that frees what is not, so that a
    theorem that nobody crashes says that nobody does.  A thread created by
    [thr_create] has its block as its stack: each call of its wrapper stores
    [frame_words] words below the stack pointer, at the moment of the call.
    Addresses are unbounded and thread ids are never used again.  Termination is
    not claimed under an arbitrary schedule; the witnesses run the programs to
    their ends under a given one.

    * Not modelled

    - Preemption inside a handler of the kernel: the code between two switches is
      one step, and the device handlers may be run between any two steps.  Two
      functions whose point is what they do with interrupts are modelled with them:
      [Sched.mutex_lock_with] takes them between the rounds of a lock and
      [Syscall.deschedule_with] at every statement where they are on
      ([Kernel.interruptible]); the functions as the other handlers call them are
      these with quiet devices.
    - The translation lookaside buffer, and what the assembly stubs push on the
      kernel's stacks: [handler_wrapper.S] but for the frame of a user's handler,
      [execution_state.S], [stop_stub.S].  A stub that leaves the kernel is an
      outcome of the model.
    - [malloc_wrappers.c] and [mem_allocation.c]: one lock around the course
      allocator, whose answers are part of the state.
    - In the thread library: function pointers are a parameter (the program run
      for an address), what frames hold and the returns from calls are left out
      (an exiting thread returns from its last [mutex_unlock] on a stack that may
      be freed by then, [UFaults.stack_freed_under_exiting_thread]), and [calloc] and
      [realloc], which nothing calls, are left out.
    - The course's C library, simulator interface, test programs and guest
      kernels; debugging output. *)
From Stdlib Require Export ZArith Lia.
From stdpp Require Export base strings gmap sets fin_maps option list.

#[export] Set Warnings "-clear-no-such-hyp,-level-tolerance".
#[global] Open Scope Z_scope.

(** * Machine integers

    The kernel is compiled for 32-bit x86 with [-fwrapv], so both signed and
    unsigned arithmetic wrap.  A machine word is a [Z]; [u32], [u64] and [u8]
    reduce to the unsigned range, [s32] and [s8] to the signed one (plain
    [char] is signed on this target). *)

Definition u8 (z : Z) : Z := z `mod` 2 ^ 8.
Definition u16 (z : Z) : Z := z `mod` 2 ^ 16.
Definition u32 (z : Z) : Z := z `mod` 2 ^ 32.
Definition u64 (z : Z) : Z := z `mod` 2 ^ 64.
Definition s32 (z : Z) : Z := (z + 2 ^ 31) `mod` 2 ^ 32 - 2 ^ 31.
Definition s8 (z : Z) : Z := (z + 2 ^ 7) `mod` 2 ^ 8 - 2 ^ 7.

(** An address; [NULL] is the null pointer. *)
Abbreviation addr := Z (only parsing).
Definition NULL : Z := 0.

Lemma u32_small z : 0 <= z < 2 ^ 32 -> u32 z = z.
Proof. intros. by apply Z.mod_small. Qed.

Lemma u32_range z : 0 <= u32 z < 2 ^ 32.
Proof. by apply Z.mod_pos_bound. Qed.

Lemma u8_range z : 0 <= u8 z < 2 ^ 8.
Proof. by apply Z.mod_pos_bound. Qed.

Lemma u8_small z : 0 <= z < 2 ^ 8 -> u8 z = z.
Proof. intros. by apply Z.mod_small. Qed.

Lemma s32_range z : - 2 ^ 31 <= s32 z < 2 ^ 31.
Proof. unfold s32. pose proof (Z.mod_pos_bound (z + 2 ^ 31) (2 ^ 32)). lia. Qed.

Lemma s32_small z : - 2 ^ 31 <= z < 2 ^ 31 -> s32 z = z.
Proof. intros. unfold s32. rewrite Z.mod_small; lia. Qed.

Lemma s8_range z : - 2 ^ 7 <= s8 z < 2 ^ 7.
Proof. unfold s8. pose proof (Z.mod_pos_bound (z + 2 ^ 7) (2 ^ 8)). lia. Qed.

Lemma s8_small z : - 2 ^ 7 <= z < 2 ^ 7 -> s8 z = z.
Proof. intros. unfold s8. rewrite Z.mod_small; lia. Qed.

(** * Fallible computations

    [None] is undefined behaviour (a NULL or dangling pointer dereference), a
    failed [affirm], or a loop that outlives its fuel.  Component operations
    are functions into [option]; stdpp's [x ← e; k] sequences them. *)

(** [affirm b; k] of [assert.h]: the kernel panics when [b] fails. *)
Notation "'affirm!' b ; k" := (if b then k else None)
  (at level 100, b at next level, k at level 200, right associativity,
   only parsing) : stdpp_scope.

(** Return codes of the C functions. *)
Definition OK : Z := 0.
Definition FAIL : Z := -1.

(** * Tactics *)

Create HintDb kern discriminated.
#[export] Hint Constants Opaque : kern.
#[export] Hint Resolve u32_range u8_range s32_range s8_range : kern.
Create Rewrite HintDb word.
#[export] Hint Rewrite u32_small u8_small s32_small s8_small using lia : word.

(** Invert one successful step of an [option] computation. *)
Ltac inv_bind :=
  repeat match goal with
  | H : (_ ≫= _) = Some _ |- _ =>
      apply bind_Some in H; destruct H as (? & ? & H)
  | H : mret _ = Some _ |- _ => injection H as H
  | H : Some _ = Some _ |- _ => injection H as H
  | H : (if ?b then _ else None) = Some _ |- _ =>
      let E := fresh "E" in destruct b eqn:E; [| discriminate H]
  | H : (let '(_, _) := ?x in _) = Some _ |- _ => destruct x
  end; simplify_eq/=.

(** Run a binding whose left-hand side is known to succeed. *)
Ltac run H := rewrite H; cbn [mbind option_bind fst snd].

(** Case analysis on the first [decide] of the goal (stdpp's [case_decide]
    prefers the hypotheses). *)
Tactic Notation "dec_goal" "as" simple_intropattern(H) :=
  match goal with |- context [@decide ?P ?d] => destruct (@decide P d) as H end.

(** Case analysis on every scrutinee of the goal, then [done]. *)
Ltac cases := repeat (case_match || case_decide); simplify_eq/=; try done.

(** * Lists *)

Section lists.
Context {A : Type}.
Implicit Types l : list A.

(** A sublist of a list without duplicates, cut at a member. *)
Lemma NoDup_split_at l x :
  x ∈ l -> NoDup l ->
  exists l1 l2, l = l1 ++ x :: l2 /\ x ∉ l1 /\ x ∉ l2.
Proof.
  intros Hx Hnd. apply list_elem_of_split in Hx as (l1 & l2 & ->).
  exists l1, l2. apply NoDup_app in Hnd as (_ & H1 & H2).
  apply NoDup_cons in H2 as [H2 _]. split_and!; [done| |done].
  intros Hx. apply (H1 _ Hx). left.
Qed.

(** Two decompositions of a list around the same element, which occurs once,
    are the same. *)
Lemma NoDup_split_unique l1 l2 k1 k2 x :
  NoDup (l1 ++ x :: l2) -> l1 ++ x :: l2 = k1 ++ x :: k2 ->
  l1 = k1 /\ l2 = k2.
Proof.
  revert k1. induction l1 as [|y l1 IH]; intros [|z k1] Hnd Heq; simplify_eq/=.
  - done.
  - exfalso. apply NoDup_cons in Hnd as [Hnd _]. set_solver.
  - exfalso. apply NoDup_cons in Hnd as [Hnd _]. set_solver.
  - apply NoDup_cons in Hnd as [_ Hnd]. destruct (IH k1) as [-> ->]; done.
Qed.

Lemma NoDup_rotate l1 l2 : NoDup (l1 ++ l2) -> NoDup (l2 ++ l1).
Proof. by rewrite Permutation_app_comm. Qed.

(** [list_find] style search: the first element satisfying [f]. *)
Fixpoint first_sat (f : A -> bool) (l : list A) : option A :=
  match l with
  | [] => None
  | x :: l => if f x then Some x else first_sat f l
  end.

Lemma first_sat_Some f l x :
  first_sat f l = Some x <->
  exists l1 l2, l = l1 ++ x :: l2 /\ f x = true /\ Forall (fun y => f y = false) l1.
Proof.
  split.
  - induction l as [|y l IH]; simpl; [done|]. destruct (f y) eqn:Hf.
    + intros [= ->]. exists [], l. auto.
    + intros (l1 & l2 & -> & ? & ?)%IH. exists (y :: l1), l2. auto.
  - intros (l1 & l2 & -> & Hx & Hl). induction Hl as [|y l1 Hy _ IH]; simpl.
    + by rewrite Hx.
    + by rewrite Hy.
Qed.

Lemma first_sat_None f l :
  first_sat f l = None <-> Forall (fun y => f y = false) l.
Proof.
  induction l as [|y l IH]; simpl; [done|]. rewrite Forall_cons, <- IH.
  destruct (f y); naive_solver.
Qed.

Lemma first_sat_elem f l x : first_sat f l = Some x -> x ∈ l /\ f x = true.
Proof. intros (l1 & l2 & -> & ? & _)%first_sat_Some. set_solver. Qed.

Lemma first_sat_app f l1 l2 :
  first_sat f (l1 ++ l2) =
  match first_sat f l1 with Some x => Some x | None => first_sat f l2 end.
Proof. induction l1 as [|y l1 IH]; simpl; [done|]. by destruct (f y). Qed.

Lemma first_sat_ext f g l :
  (forall x, x ∈ l -> f x = g x) -> first_sat f l = first_sat g l.
Proof.
  induction l as [|y l IH]; intros H; simpl; [done|].
  rewrite (H y) by left. destruct (g y); [done|].
  apply IH. intros. apply H. by right.
Qed.

End lists.

(** Splitting a list at the first element where [f] holds. *)
Fixpoint span_sat {A} (f : A -> bool) (l : list A) : list A * list A :=
  match l with
  | [] => ([], [])
  | x :: l' =>
      if f x then ([], l) else let '(a, b) := span_sat f l' in (x :: a, b)
  end.

Lemma span_sat_app {A} (f : A -> bool) l a b :
  span_sat f l = (a, b) -> l = a ++ b.
Proof.
  revert a b. induction l as [|x l IH]; intros a b; simpl; [by intros [= <- <-]|].
  destruct (f x); [by intros [= <- <-]|].
  destruct (span_sat f l) as [a' b']. intros [= <- <-]. simpl. f_equal. by apply IH.
Qed.

(** * Arrays

    A C array is the list of its elements.  An access out of bounds, negative
    indices included, is undefined behaviour. *)
Definition aget {A} (l : list A) (i : Z) : option A :=
  if decide (0 <= i) then l !! Z.to_nat i else None.
Definition aset {A} (i : Z) (x : A) (l : list A) : option (list A) :=
  if decide (0 <= i < Z.of_nat (length l)) then Some (<[Z.to_nat i := x]> l) else None.

Lemma aget_Some {A} (l : list A) i : 0 <= i < Z.of_nat (length l) ->
  exists x, aget l i = Some x /\ l !! Z.to_nat i = Some x.
Proof.
  intros Hi. unfold aget. rewrite decide_True by lia.
  destruct (lookup_lt_is_Some_2 l (Z.to_nat i)) as [x Hx]; [lia|]. eauto.
Qed.

Lemma aset_Some {A} (l : list A) i x : 0 <= i < Z.of_nat (length l) ->
  aset i x l = Some (<[Z.to_nat i := x]> l).
Proof. intros Hi. unfold aset. by rewrite decide_True. Qed.

(** ** Bits *)

Lemma testbit_small a n i : 0 <= a < 2 ^ n -> n <= i -> Z.testbit a i = false.
Proof.
  intros Ha Hi. destruct (Z.eq_dec a 0) as [->|Hne]; [by rewrite Z.bits_0|].
  apply Z.bits_above_log2; [lia|]. assert (Z.log2 a < n); [|lia].
  apply Z.log2_lt_pow2; lia.
Qed.

Lemma lor_bound a b n : 0 <= n -> 0 <= a < 2 ^ n -> 0 <= b < 2 ^ n -> 0 <= Z.lor a b < 2 ^ n.
Proof.
  intros Hn Ha Hb. assert (0 <= Z.lor a b) by (apply Z.lor_nonneg; lia). split; [done|].
  destruct (Z.eq_dec (Z.lor a b) 0) as [->|Hne]; [lia|]. apply Z.log2_lt_pow2; [lia|].
  rewrite Z.log2_lor by lia.
  destruct (Z.eq_dec n 0) as [->|]; [replace a with 0 in * by lia; replace b with 0 in * by lia; done|].
  assert (forall c, 0 <= c < 2 ^ n -> Z.log2 c < n) as Hlog.
  { intros c Hc. destruct (Z.eq_dec c 0) as [->|]; [simpl; lia|]. apply Z.log2_lt_pow2; lia. }
  specialize (Hlog a Ha) as H1. specialize (Hlog b Hb) as H2. lia.
Qed.

Lemma land_bound a b n : 0 <= a -> 0 <= b < 2 ^ n -> 0 <= Z.land a b < 2 ^ n.
Proof.
  intros Ha Hb. assert (0 <= Z.land a b) by (apply Z.land_nonneg; lia). split; [done|].
  destruct (Z.eq_dec (Z.land a b) 0) as [->|Hne]; [lia|]. apply Z.log2_lt_pow2; [lia|].
  pose proof (Z.log2_land a b Ha ltac:(lia)).
  assert (b <> 0) by (intros ->; by rewrite Z.land_0_r in Hne).
  assert (Z.log2 b < n) by (apply Z.log2_lt_pow2; lia). lia.
Qed.

(** A property decided on each natural number below a bound. *)
Lemma forall_below (n : nat) (P : nat -> bool) :
  forallb P (seq 0 n) = true -> forall i, (i < n)%nat -> P i = true.
Proof. intros H i Hi. rewrite forallb_forall in H. apply H. apply in_seq. lia. Qed.

Lemma forall_below_Z (n : Z) (P : Z -> bool) :
  forallb P (seqZ 0 n) = true -> forall i, 0 <= i < n -> P i = true.
Proof.
  intros H i Hi. rewrite forallb_forall in H. apply H.
  apply list_elem_of_In, elem_of_seqZ. lia.
Qed.

(** [for (i = lo; n more times; i++) body]. *)
Fixpoint for_loop {S : Type} (n : nat) (i : Z) (body : Z -> S -> option S) (s : S) : option S :=
  match n with
  | O => Some s
  | Datatypes.S n => s ← body i s; for_loop n (i + 1) body s
  end.

(** The loop invariant rule. *)
Lemma for_loop_inv {S : Type} (body : Z -> S -> option S) (I : Z -> S -> Prop) n : forall i s,
  I i s -> (forall j t, i <= j < i + Z.of_nat n -> I j t -> exists t', body j t = Some t' /\ I (j + 1) t') ->
  exists s', for_loop n i body s = Some s' /\ I (i + Z.of_nat n) s'.
Proof.
  induction n as [|n IH]; intros i s Hi Hb; cbn [for_loop].
  - exists s. split; [done|]. by replace (i + Z.of_nat 0) with i by lia.
  - destruct (Hb i s) as (t & -> & Ht); [lia|done|]. cbn [mbind option_bind].
    destruct (IH (i + 1) t Ht) as (s' & Hs' & HI). { intros j u Hj. apply Hb. lia. }
    exists s'. split; [done|]. by replace (i + Z.of_nat (Datatypes.S n)) with (i + 1 + Z.of_nat n) by lia.
Qed.
