(* ===== verification/Ring.v ===== *)
(** Circular doubly linked lists: [kern/inc/list.h] (the macros [DEFINE_NODE_T],
    [PUSH_FRONT], [PUSH_BACK], [POP_FRONT], [POP_BACK]) at pointer level.

    A node type is a [heap A] from addresses to nodes, together with the
    addresses [malloc] will hand out next: a [zone].  An empty pool is an
    exhausted allocator.  The representation predicate [ring h l] says that
    [l] is the sequence of node addresses met by following [next] from the
    front; the operations are proved to implement the list operations. *)
From S2P Require Import Prelude.

Record node (A : Type) : Type := Node {
  previous : addr;
  next : addr;
  data : A;
}.
Arguments Node {A}.
Arguments previous {A}.
Arguments next {A}.
Arguments data {A}.

Abbreviation heap A := (gmap Z (node A)).

Record zone (A : Type) : Type := Zone {
  cells : heap A;
  pool : list addr;
}.
Arguments Zone {A}.
Arguments cells {A}.
Arguments pool {A}.

(** * The operations of list.h *)

Section ops.
Context {A : Type}.
Implicit Types (h : heap A) (z : zone A) (p : addr).

(** [p->next = v] and [p->previous = v]. *)
Definition set_next p v h : option (heap A) :=
  n ← h !! p; Some (<[p := Node (previous n) v (data n)]> h).
Definition set_previous p v h : option (heap A) :=
  n ← h !! p; Some (<[p := Node v (next n) (data n)]> h).
(** [p->data = d]. *)
Definition set_data p d h : option (heap A) :=
  n ← h !! p; Some (<[p := Node (previous n) (next n) d]> h).

(** [free(p)]: the node is gone and its address may be handed out again. *)
Definition free_node p z : option (zone A) :=
  _ ← cells z !! p; Some (Zone (delete p (cells z)) (pool z ++ [p])).

(** The result of a push macro: the [success] flag, the new zone, [front]. *)
Definition PUSH_FRONT (front : addr) (new_data : A) z
    : option (bool * zone A * addr) :=
  match pool z with
  | [] => Some (false, z, front)
  | new_front :: rest =>
      if decide (front = NULL) then
        Some (true,
          Zone (<[new_front := Node new_front new_front new_data]> (cells z)) rest,
          new_front)
      else
        f ← cells z !! front;
        let h := <[new_front := Node (previous f) front new_data]> (cells z) in
        h ← set_next (previous f) new_front h;
        h ← set_previous front new_front h;
        Some (true, Zone h rest, new_front)
  end.

Definition PUSH_BACK (front : addr) (new_data : A) z
    : option (bool * zone A * addr) :=
  match pool z with
  | [] => Some (false, z, front)
  | new_back :: rest =>
      if decide (front = NULL) then
        Some (true,
          Zone (<[new_back := Node new_back new_back new_data]> (cells z)) rest,
          new_back)
      else
        f ← cells z !! front;
        let h := <[new_back := Node (previous f) front new_data]> (cells z) in
        h ← set_next (previous f) new_back h;
        h ← set_previous front new_back h;
        Some (true, Zone h rest, front)
  end.

(** [old->previous->next = old->next; old->next->previous = old->previous]. *)
Definition unlink p h : option (heap A) :=
  n ← h !! p;
  h ← set_next (previous n) (next n) h;
  n ← h !! p;
  set_previous (next n) (previous n) h.

Definition POP_FRONT (front : addr) z : option (zone A * addr) :=
  affirm! bool_decide (front ≠ NULL);
  n ← cells z !! front;
  let front' := if decide (front = next n) then NULL else next n in
  h ← unlink front (cells z);
  z ← free_node front (Zone h (pool z));
  Some (z, front').

Definition POP_BACK (front : addr) z : option (zone A * addr) :=
  affirm! bool_decide (front ≠ NULL);
  n ← cells z !! front;
  let old_back := previous n in
  let front' := if decide (front = previous n) then NULL else front in
  h ← unlink old_back (cells z);
  z ← free_node old_back (Zone h (pool z));
  Some (z, front').

(** The loop [do { body(node); node = node->next } while (node != stop)], with
    [inr] leaving the loop early.  [link] is [next], or [previous] for the
    loops that run backwards.  The fuel bounds the number of nodes visited. *)
Fixpoint walk {B R : Type} (link : node A -> addr)
    (body : addr -> node A -> B -> option (B + R))
    (fuel : nat) h (cur stop : addr) (b : B) : option (B + R) :=
  match fuel with
  | O => None
  | S fuel =>
      n ← h !! cur;
      r ← body cur n b;
      match r with
      | inr r => Some (inr r)
      | inl b =>
          if decide (link n = stop) then Some (inl b)
          else walk link body fuel h (link n) stop b
      end
  end.

(** The fuel every traversal is given: one unit per allocated node. *)
Definition nodes h : nat := size h.

(** Search loop: the address of the first node satisfying a test, [NULL] when
    the loop ends.  The test may dereference other heaps. *)
Definition search (link : node A -> addr) (test : addr -> node A -> option bool)
    h (cur stop : addr) : option addr :=
  r ← walk link (fun p n (_ : unit) => b ← test p n;
                   Some (if (b : bool) then inr p else inl tt))
        (nodes h) h cur stop tt;
  Some (match r with inr p => p | inl _ => NULL end).

End ops.

(** The loop body run over an explicit sequence of addresses. *)
Fixpoint fold_nodes {A B R} (body : addr -> node A -> B -> option (B + R))
    (h : heap A) (l : list addr) (b : B) : option (B + R) :=
  match l with
  | [] => Some (inl b)
  | p :: l =>
      n ← h !! p;
      r ← body p n b;
      match r with
      | inr r => Some (inr r)
      | inl b => fold_nodes body h l b
      end
  end.

(** * The representation predicate *)

Section ring.
Context {A : Type}.
Implicit Types (h : heap A) (z : zone A) (p x y : addr) (l : list addr).

(** [x] and [y] are neighbours: [x->next == y] and [y->previous == x]. *)
Definition linked h x y : Prop :=
  (next <$> h !! x) = Some y /\ (previous <$> h !! y) = Some x.

(** [x] is followed by the nodes of [l] and then by [y]. *)
Fixpoint chain h x l y : Prop :=
  match l with
  | [] => linked h x y
  | z :: l => linked h x z /\ chain h z l y
  end.

Definition ring h l : Prop :=
  NoDup l /\ NULL ∉ l /\
  match l with [] => True | x :: l => chain h x l x end.

(** The front pointer of the list whose nodes are [l]. *)
Definition front_of l : addr := default NULL (head l).

(** The nodes of [l] store the data [F], in order. *)
Definition contents h l (F : list A) : Prop :=
  Forall2 (fun p d => data <$> h !! p = Some d) l F.

(** Allocator well-formedness: fresh, distinct and non-NULL addresses. *)
Definition zone_ok z : Prop :=
  NoDup (pool z) /\ NULL ∉ pool z /\
  (forall p, p ∈ pool z -> cells z !! p = None) /\ cells z !! NULL = None.

Lemma chain_app h x l1 y l2 w :
  chain h x (l1 ++ y :: l2) w <-> chain h x l1 y /\ chain h y l2 w.
Proof. revert x. induction l1; intros; simpl; [done|]. rewrite IHl1. tauto. Qed.

Lemma linked_dom h x y : linked h x y -> is_Some (h !! x) /\ is_Some (h !! y).
Proof.
  intros [H1 H2]. apply fmap_Some in H1 as (? & -> & _).
  apply fmap_Some in H2 as (? & -> & _). eauto.
Qed.

Lemma chain_dom h x l y : chain h x l y -> forall p, p ∈ x :: l ++ [y] -> is_Some (h !! p).
Proof.
  revert x. induction l as [|z l IH]; intros x Hc p Hp; simpl in *.
  - apply linked_dom in Hc as []. set_solver.
  - destruct Hc as [[Hx _]%linked_dom Hc].
    apply elem_of_cons in Hp as [->|Hp]; [done|]. by eapply IH.
Qed.

Lemma ring_dom h l p : ring h l -> p ∈ l -> is_Some (h !! p).
Proof.
  intros (_ & _ & Hc) Hp. destruct l as [|x l]; [set_solver|].
  eapply chain_dom; [done|]. set_solver.
Qed.

Lemma ring_nil h : ring h [].
Proof. split_and!; [constructor|set_solver|done]. Qed.

(** A ring may be read from any of its nodes. *)
Lemma ring_rotate h l1 l2 : ring h (l1 ++ l2) -> ring h (l2 ++ l1).
Proof.
  intros (Hnd & Hnull & Hc). split_and!.
  - by apply NoDup_rotate.
  - set_solver.
  - destruct l1 as [|x l1], l2 as [|y l2]; simpl in *; rewrite ?app_nil_r in *; try done.
    rewrite chain_app in *. tauto.
Qed.

Lemma ring_rotate_iff h l1 l2 : ring h (l1 ++ l2) <-> ring h (l2 ++ l1).
Proof. split; apply ring_rotate. Qed.

Lemma front_of_nonnull h l : ring h l -> l <> [] -> front_of l <> NULL.
Proof. intros (_ & Hn & _) ?. destruct l; simpl; [done|]. set_solver. Qed.

Lemma front_of_null h l : ring h l -> front_of l = NULL -> l = [].
Proof.
  intros Hr Hf. destruct l as [|x l]; [done|]. exfalso.
  by eapply front_of_nonnull.
Qed.

(** The first node of a ring: its fields. *)
Lemma ring_head h x l :
  ring h (x :: l) ->
  exists n, h !! x = Some n /\ next n = front_of (l ++ [x]) /\
    previous n = default x (last l).
Proof.
  intros (_ & _ & Hc).
  assert (is_Some (h !! x)) as [n Hn] by (eapply chain_dom; [done|set_solver]).
  exists n. split; [done|]. split.
  - destruct l as [|y l]; simpl in *; destruct_and?; unfold linked in *;
      rewrite Hn in *; naive_solver.
  - destruct l as [|w l _] using rev_ind; simpl in *.
    + destruct Hc as [_ H]. rewrite Hn in H. naive_solver.
    + apply chain_app in Hc as [_ [_ H]]. rewrite Hn in H.
      rewrite last_snoc. naive_solver.
Qed.

(** Rings depend only on the link fields of their own nodes. *)
Definition same_links h h' p : Prop :=
  (next <$> h' !! p) = (next <$> h !! p) /\
  (previous <$> h' !! p) = (previous <$> h !! p).

Lemma chain_ext h h' x l y :
  (forall p, p ∈ x :: l -> (next <$> h' !! p) = (next <$> h !! p)) ->
  (forall p, p ∈ l ++ [y] -> (previous <$> h' !! p) = (previous <$> h !! p)) ->
  chain h x l y -> chain h' x l y.
Proof.
  revert x. induction l as [|z l IH]; intros x Hn Hp; simpl.
  - intros [? ?]. split; [rewrite Hn|rewrite Hp]; set_solver.
  - intros [[? ?] ?]. split; [split; [rewrite Hn|rewrite Hp]; set_solver|].
    apply IH; [| |done]; intros; [apply Hn|apply Hp]; set_solver.
Qed.

Lemma ring_ext h h' l :
  (forall p, p ∈ l -> same_links h h' p) -> ring h l -> ring h' l.
Proof.
  intros H (? & ? & Hc). split_and!; [done..|]. destruct l as [|x l]; [done|].
  eapply chain_ext; [..|done]; intros; apply H; set_solver.
Qed.

Lemma ring_frame h h' l :
  (forall p, p ∈ l -> h' !! p = h !! p) -> ring h l -> ring h' l.
Proof. intros H. apply ring_ext. intros p Hp. split; by rewrite H. Qed.

Lemma contents_frame h h' l F :
  (forall p, p ∈ l -> data <$> h' !! p = data <$> h !! p) ->
  contents h l F -> contents h' l F.
Proof.
  intros H HF. induction HF as [|p d l F Hp HF IH]; constructor.
  - rewrite H; [done|left].
  - apply IH. intros. apply H. by right.
Qed.

Lemma contents_app h l1 l2 F1 F2 :
  contents h l1 F1 -> contents h l2 F2 -> contents h (l1 ++ l2) (F1 ++ F2).
Proof. apply Forall2_app. Qed.

Lemma contents_cons h p d l F :
  contents h (p :: l) (d :: F) <-> data <$> h !! p = Some d /\ contents h l F.
Proof. split; [by inversion 1|]. intros [? ?]. by constructor. Qed.

(** Lookups after a field update. *)
Lemma set_next_ok h p v n :
  h !! p = Some n -> set_next p v h = Some (<[p := Node (previous n) v (data n)]> h).
Proof. intros H. unfold set_next. by rewrite H. Qed.

Lemma set_previous_ok h p v n :
  h !! p = Some n -> set_previous p v h = Some (<[p := Node v (next n) (data n)]> h).
Proof. intros H. unfold set_previous. by rewrite H. Qed.

Lemma set_next_spec h h' p v :
  set_next p v h = Some h' ->
  (forall q, next <$> h' !! q = if decide (q = p) then Some v else next <$> h !! q) /\
  (forall q, previous <$> h' !! q = previous <$> h !! q) /\
  (forall q, data <$> h' !! q = data <$> h !! q) /\
  (forall q, q <> p -> h' !! q = h !! q) /\ dom h' = dom h.
Proof.
  unfold set_next. intros. inv_bind. split_and!; intros.
  1-4: destruct (decide (q = p)) as [->|]; by simplify_map_eq.
  rewrite dom_insert_lookup_L; [done|eauto].
Qed.

Lemma set_previous_spec h h' p v :
  set_previous p v h = Some h' ->
  (forall q, previous <$> h' !! q = if decide (q = p) then Some v else previous <$> h !! q) /\
  (forall q, next <$> h' !! q = next <$> h !! q) /\
  (forall q, data <$> h' !! q = data <$> h !! q) /\
  (forall q, q <> p -> h' !! q = h !! q) /\ dom h' = dom h.
Proof.
  unfold set_previous. intros. inv_bind. split_and!; intros.
  1-4: destruct (decide (q = p)) as [->|]; by simplify_map_eq.
  rewrite dom_insert_lookup_L; [done|eauto].
Qed.

Lemma dom_lookup h h' p : dom h' = dom h -> is_Some (h !! p) -> is_Some (h' !! p).
Proof. rewrite <-!elem_of_dom. by intros ->. Qed.

(** Removing the first node of a ring. *)
Lemma unlink_head h x l :
  ring h (x :: l) ->
  exists h', unlink x h = Some h' /\ ring h' l /\ dom h' = dom h /\
    (forall q, data <$> h' !! q = data <$> h !! q) /\
    (forall q, q ∉ l -> q <> x -> h' !! q = h !! q).
Proof.
  intros Hr. pose proof Hr as (Hnd & Hnull & Hc).
  destruct (ring_head _ _ _ Hr) as (n & Hn & Hnext & Hprev).
  assert (Hdom : forall p, p ∈ x :: l -> is_Some (h !! p)) by (intros; by eapply ring_dom).
  assert (Hpin : previous n ∈ x :: l).
  { rewrite Hprev. destruct (last l) eqn:Hl; simpl; [|left].
    apply last_Some in Hl as [? ->]. set_solver. }
  assert (Hnin : next n ∈ x :: l).
  { rewrite Hnext. destruct l; simpl; set_solver. }
  unfold unlink. rewrite Hn. simpl.
  destruct (Hdom _ Hpin) as [np Hnp]. rewrite (set_next_ok _ _ _ _ Hnp). simpl.
  set (h1 := <[previous n := _]> h).
  destruct (set_next_spec h h1 (previous n) (next n)) as (Sn & Sp & Sd & Sf & Sdom).
  { unfold h1. by apply set_next_ok. }
  assert (exists n1, h1 !! x = Some n1 /\ previous n1 = previous n /\ next n1 = next n)
    as (n1 & Hn1 & Hp1 & Hx1).
  { assert (is_Some (h1 !! x)) as [n1 Hn1] by (eapply dom_lookup; [done|eauto]).
    exists n1. specialize (Sn x). specialize (Sp x). rewrite Hn1, Hn in *.
    simpl in *. case_decide; naive_solver. }
  rewrite Hn1. simpl.
  assert (is_Some (h1 !! next n1)) as [n2 Hn2].
  { eapply dom_lookup; [done|]. rewrite Hx1. auto. }
  rewrite (set_previous_ok _ _ _ _ Hn2).
  set (h2 := <[next n1 := _]> h1).
  destruct (set_previous_spec h1 h2 (next n1) (previous n1)) as (Tn & Tp & Td & Tf & Tdom).
  { unfold h2. by apply set_previous_ok. }
  exists h2. rewrite Hx1, Hp1 in *. split_and!; [done| |congruence| |].
  2:{ intros q. by rewrite Td, Sd. }
  2:{ intros q Hq Hqx. rewrite Tf, Sf; [done|set_solver..]. }
  apply NoDup_cons in Hnd as [Hx Hnd]. split_and!; [done|set_solver|].
  destruct l as [|y l]; [done|]. simpl in Hnext, Hc. destruct Hc as [_ Hc].
  destruct l as [|w l _] using rev_ind.
  - simpl in Hprev. rewrite Hnext, Hprev in *. split.
    + rewrite Tp, Sn. by rewrite decide_True.
    + rewrite Tn. by rewrite decide_True.
  - assert (previous n = w) as Hw.
    { rewrite Hprev, app_comm_cons, last_snoc. done. }
    rewrite Hnext, Hw in *. simpl in Hc. rewrite chain_app in Hc |- *.
    destruct Hc as [Hc _].
    apply NoDup_cons in Hnd as [Hy Hnd]. apply NoDup_app in Hnd as (_ & Hd & _).
    split.
    + eapply chain_ext; [..|done]; intros p Hp.
      * rewrite Tp, Sn. rewrite decide_False; [done|]. set_solver.
      * rewrite Tn, Sp. rewrite decide_False; [done|]. set_solver.
    + split.
      * rewrite Tp, Sn. by rewrite decide_True.
      * rewrite Tn. by rewrite decide_True.
Qed.

(** Splicing a fresh node [q] before the first node of a ring. *)
Lemma insert_head h x l q d f :
  ring h (x :: l) -> h !! q = None -> q <> NULL -> h !! x = Some f ->
  exists h1 h2,
    set_next (previous f) q (<[q := Node (previous f) x d]> h) = Some h1 /\
    set_previous x q h1 = Some h2 /\
    ring h2 (q :: x :: l) /\ dom h2 = {[q]} ∪ dom h /\
    data <$> h2 !! q = Some d /\
    (forall p, p <> q -> data <$> h2 !! p = data <$> h !! p) /\
    (forall p, p ∉ x :: l -> p <> q -> h2 !! p = h !! p).
Proof.
  intros Hr Hq Hqn Hf. pose proof Hr as (Hnd & Hnull & Hc).
  destruct (ring_head _ _ _ Hr) as (n & Hn & Hnext & Hprev).
  rewrite Hf in Hn. injection Hn as <-.
  assert (Hdom : forall p, p ∈ x :: l -> is_Some (h !! p)) by (intros; by eapply ring_dom).
  assert (Hqx : q ∉ x :: l).
  { intros [? ?]%Hdom. congruence. }
  assert (Hpin : previous f ∈ x :: l).
  { rewrite Hprev. destruct (last l) eqn:Hl; simpl; [|left].
    apply last_Some in Hl as [? ->]. set_solver. }
  set (h0 := <[q := _]> h).
  assert (H0 : forall p, p <> q -> h0 !! p = h !! p).
  { intros. unfold h0. by rewrite lookup_insert_ne. }
  assert (H0q : h0 !! q = Some (Node (previous f) x d)).
  { unfold h0. by rewrite lookup_insert_eq. }
  destruct (Hdom _ Hpin) as [np Hnp].
  assert (h0 !! previous f = Some np) as Hnp0 by (rewrite H0; [done|set_solver]).
  pose proof (set_next_ok _ _ q _ Hnp0) as Hs1.
  set (h1 := <[previous f := _]> h0) in Hs1.
  destruct (set_next_spec h0 h1 (previous f) q Hs1) as (Sn & Sp & Sd & Sf & Sdom).
  assert (is_Some (h1 !! x)) as [nx Hnx].
  { eapply dom_lookup; [done|]. rewrite H0; [eauto|set_solver]. }
  pose proof (set_previous_ok _ _ q _ Hnx) as Hs2.
  set (h2 := <[x := _]> h1) in Hs2.
  destruct (set_previous_spec h1 h2 x q Hs2) as (Tn & Tp & Td & Tf & Tdom).
  exists h1, h2. split; [done|]. split; [done|].
  assert (Hn' : forall p, p ∈ x :: l -> p <> previous f -> next <$> h2 !! p = next <$> h !! p).
  { intros p Hp Hne. rewrite Tp, Sn, decide_False by done. rewrite H0; [done|set_solver]. }
  assert (Hp' : forall p, p ∈ x :: l -> p <> x -> previous <$> h2 !! p = previous <$> h !! p).
  { intros p Hp Hne. rewrite Tn, decide_False, Sp by done. rewrite H0; [done|set_solver]. }
  split_and!.
  - split_and!; [by apply NoDup_cons|set_solver|].
    assert (Hqx' : linked h2 q x).
    { split.
      - rewrite Tp, Sn, decide_False by set_solver. by rewrite H0q.
      - rewrite Tn. by rewrite decide_True. }
    split; [done|].
    assert (Hq2 : previous <$> h2 !! q = Some (previous f)).
    { rewrite Tn, decide_False by set_solver. rewrite Sp. by rewrite H0q. }
    destruct l as [|w l _] using rev_ind; simpl in Hprev.
    + split; [rewrite Tp, Sn; rewrite decide_True; done|].
      by rewrite Hq2, Hprev.
    + rewrite last_snoc in Hprev. simpl in Hprev. rewrite chain_app in Hc |- *.
      destruct Hc as [Hc _]. split.
      * apply NoDup_cons in Hnd as [Hx Hnd]. apply NoDup_app in Hnd as (_ & Hd & _).
        eapply chain_ext; [..|done]; intros p Hp.
        -- apply Hn'; [set_solver|]. rewrite Hprev. set_solver.
        -- apply Hp'; set_solver.
      * split; [rewrite Tp, Sn; rewrite decide_True; done|].
        by rewrite Hq2, Hprev.
  - rewrite Tdom, Sdom. unfold h0. by rewrite dom_insert_L.
  - rewrite Td, Sd. by rewrite H0q.
  - intros p Hp. by rewrite Td, Sd, H0.
  - intros p Hp Hpq. rewrite Tf, Sf, H0; set_solver.
Qed.

(** What a successful push of [d] at address [q] next to the ring [l] changes. *)
Record pushed z z' q d l : Prop := {
  pushed_pool : pool z = q :: pool z';
  pushed_ok : zone_ok z';
  pushed_dom : dom (cells z') = {[q]} ∪ dom (cells z);
  pushed_data : data <$> cells z' !! q = Some d;
  pushed_other : forall p, p <> q -> data <$> cells z' !! p = data <$> cells z !! p;
  pushed_frame : forall p, p ∉ l -> p <> q -> cells z' !! p = cells z !! p;
}.

(** What removing the node [q] of the ring [l] changes. *)
Record popped z z' q l : Prop := {
  popped_pool : pool z' = pool z ++ [q];
  popped_ok : zone_ok z';
  popped_gone : cells z' !! q = None;
  popped_other : forall p, p <> q -> data <$> cells z' !! p = data <$> cells z !! p;
  popped_frame : forall p, p ∉ l -> p <> q -> cells z' !! p = cells z !! p;
}.

Lemma zone_ok_take z q rest (h : heap A) :
  zone_ok z -> pool z = q :: rest -> dom h = {[q]} ∪ dom (cells z) ->
  zone_ok (Zone h rest).
Proof.
  intros (Hnd & Hnn & Hfr & Hnull) Hp Hd. rewrite Hp in *.
  apply NoDup_cons in Hnd as [Hq Hnd].
  assert (Hnone : forall p, p <> q -> cells z !! p = None -> h !! p = None).
  { intros p ? ?%not_elem_of_dom. apply not_elem_of_dom. set_solver. }
  split_and!; simpl; [done|set_solver| |].
  - intros p Hin. apply Hnone; [set_solver|]. apply Hfr. by right.
  - apply Hnone; [set_solver|done].
Qed.

(** Pushing a node in front of any node of a ring, when the pool has one. *)
Lemma splice_spec z q rest x l d f :
  zone_ok z -> pool z = q :: rest -> ring (cells z) (x :: l) ->
  cells z !! x = Some f ->
  exists h1 h2,
    set_next (previous f) q (<[q := Node (previous f) x d]> (cells z)) = Some h1 /\
    set_previous x q h1 = Some h2 /\
    ring h2 (q :: x :: l) /\ pushed z (Zone h2 rest) q d (x :: l).
Proof.
  intros Hz Hp Hr Hf. pose proof Hz as (Hnd & Hnn & Hfr & Hnull).
  rewrite Hp in *.
  destruct (insert_head (cells z) x l q d f) as (h1 & h2 & ? & ? & ? & Hd & ? & ? & ?);
    [done|apply Hfr; left|set_solver|done|].
  exists h1, h2. split_and!; [done..|]. split; simpl; try done.
  by eapply zone_ok_take.
Qed.

Lemma ring_single h q d :
  q <> NULL -> ring (<[q := Node q q d]> h) [q].
Proof.
  intros. split_and!; [by apply NoDup_singleton|set_solver|].
  split; by rewrite lookup_insert_eq.
Qed.

Lemma pushed_single z q rest d :
  zone_ok z -> pool z = q :: rest ->
  pushed z (Zone (<[q := Node q q d]> (cells z)) rest) q d [].
Proof.
  intros Hz Hp. split; simpl; try done.
  - eapply zone_ok_take; [done..|]. by rewrite dom_insert_L.
  - by rewrite dom_insert_L.
  - by rewrite lookup_insert_eq.
  - intros. by rewrite lookup_insert_ne.
  - intros. by rewrite lookup_insert_ne.
Qed.

Lemma PUSH_FRONT_ok z l q rest d :
  zone_ok z -> ring (cells z) l -> pool z = q :: rest ->
  exists z', PUSH_FRONT (front_of l) d z = Some (true, z', q) /\
    ring (cells z') (q :: l) /\ pushed z z' q d l.
Proof.
  intros Hz Hr Hp. pose proof Hz as (Hnd & Hnn & Hfr & Hnull).
  unfold PUSH_FRONT. rewrite Hp in *. destruct l as [|x l]; simpl.
  - eexists; split_and!; [done| |by apply pushed_single].
    apply ring_single. set_solver.
  - change (front_of (x :: l)) with x.
    assert (x <> NULL) by (destruct Hr as (_ & Hr & _); set_solver).
    rewrite decide_False by done.
    destruct (ring_dom _ _ x Hr) as [f Hf]; [left|]. rewrite Hf. simpl.
    destruct (splice_spec z q rest x l d f) as (h1 & h2 & H1 & H2 & ? & ?); [done..|].
    rewrite H1. simpl. rewrite H2. simpl. eauto.
Qed.

Lemma PUSH_BACK_ok z l q rest d :
  zone_ok z -> ring (cells z) l -> pool z = q :: rest ->
  exists z', PUSH_BACK (front_of l) d z = Some (true, z', front_of (l ++ [q])) /\
    ring (cells z') (l ++ [q]) /\ pushed z z' q d l.
Proof.
  intros Hz Hr Hp. pose proof Hz as (Hnd & Hnn & Hfr & Hnull).
  unfold PUSH_BACK. rewrite Hp in *. destruct l as [|x l]; simpl.
  - eexists; split_and!; [done| |by apply pushed_single].
    apply ring_single. set_solver.
  - change (front_of (x :: l)) with x.
    assert (x <> NULL) by (destruct Hr as (_ & Hr & _); set_solver).
    rewrite decide_False by done.
    destruct (ring_dom _ _ x Hr) as [f Hf]; [left|]. rewrite Hf. simpl.
    destruct (splice_spec z q rest x l d f) as (h1 & h2 & H1 & H2 & Hr' & ?); [done..|].
    rewrite H1. simpl. rewrite H2. simpl. eexists. split_and!; [done| |done].
    apply (ring_rotate _ [q]) in Hr'. done.
Qed.

Lemma PUSH_FRONT_full z front d :
  pool z = [] -> PUSH_FRONT front d z = Some (false, z, front).
Proof. intros H. unfold PUSH_FRONT. by rewrite H. Qed.

Lemma PUSH_BACK_full z front d :
  pool z = [] -> PUSH_BACK front d z = Some (false, z, front).
Proof. intros H. unfold PUSH_BACK. by rewrite H. Qed.

(** Unlinking the first node and freeing it. *)
Lemma remove_head_spec z x l :
  zone_ok z -> ring (cells z) (x :: l) ->
  exists h' z', unlink x (cells z) = Some h' /\
    free_node x (Zone h' (pool z)) = Some z' /\
    ring (cells z') l /\ popped z z' x (x :: l).
Proof.
  intros (Hnd & Hnn & Hfr & Hnull) Hr.
  destruct (unlink_head _ _ _ Hr) as (h' & Hu & Hr' & Hdom & Hdata & Hframe).
  assert (is_Some (h' !! x)) as [n Hn].
  { eapply dom_lookup; [done|]. eapply ring_dom; [done|left]. }
  eexists h', _. split; [done|]. unfold free_node. simpl. rewrite Hn. split; [done|].
  assert (Hx : x ∉ pool z).
  { intros Hin%Hfr. destruct (ring_dom _ _ x Hr); [left|congruence]. }
  assert (Hxn : x <> NULL) by (destruct Hr as (_ & Hr & _); set_solver).
  assert (Hxl : x ∉ l) by (destruct Hr as (Hr & _); by apply NoDup_cons in Hr as []).
  assert (Hnone : forall p, cells z !! p = None -> delete x h' !! p = None).
  { intros p Hp. destruct (decide (p = x)) as [->|]; [by simplify_map_eq|].
    rewrite lookup_delete_ne by done. apply not_elem_of_dom. rewrite Hdom.
    by apply not_elem_of_dom. }
  split; simpl.
  - eapply ring_frame; [|done]. intros p Hp. rewrite lookup_delete_ne; set_solver.
  - split; simpl.
    + done.
    + split_and!; simpl.
      * apply NoDup_app. split_and!; [done|set_solver|by apply NoDup_singleton].
      * set_solver.
      * intros p [Hp|Hp]%elem_of_app; [auto|]. apply list_elem_of_singleton in Hp as ->.
        by simplify_map_eq.
      * auto.
    + by simplify_map_eq.
    + intros p Hp. by rewrite lookup_delete_ne.
    + intros p Hp Hpx. rewrite lookup_delete_ne by done. apply Hframe; set_solver.
Qed.

Lemma POP_FRONT_ok z x l :
  zone_ok z -> ring (cells z) (x :: l) ->
  exists z', POP_FRONT x z = Some (z', front_of l) /\ ring (cells z') l /\
    popped z z' x (x :: l).
Proof.
  intros Hz Hr. destruct (remove_head_spec z x l) as (h' & z' & Hu & Hf & ? & ?); [done..|].
  destruct (ring_head _ _ _ Hr) as (n & Hn & Hnext & _).
  assert (Hxn : x <> NULL) by (destruct Hr as (_ & Hr & _); set_solver).
  exists z'. split; [|done]. unfold POP_FRONT. rewrite bool_decide_true by done.
  rewrite Hn. simpl. rewrite Hu. simpl. rewrite Hf. simpl. do 2 f_equal.
  rewrite Hnext. destruct l as [|y l]; simpl; [by rewrite decide_True|].
  rewrite decide_False; [done|]. destruct Hr as (Hr & _). apply NoDup_cons in Hr. set_solver.
Qed.

Lemma POP_BACK_ok z l x :
  zone_ok z -> ring (cells z) (l ++ [x]) ->
  exists z', POP_BACK (front_of (l ++ [x])) z = Some (z', front_of l) /\
    ring (cells z') l /\ popped z z' x (l ++ [x]).
Proof.
  intros Hz Hr. pose proof (ring_rotate _ _ _ Hr) as Hr'.
  destruct (remove_head_spec z x l) as (h' & z' & Hu & Hf & ? & Hpop); [done..|].
  exists z'. split_and!; [|done|].
  2:{ destruct Hpop. split; try done. intros. apply popped_frame0; set_solver. }
  unfold POP_BACK.
  assert (Hnn : front_of (l ++ [x]) <> NULL).
  { eapply front_of_nonnull; [done|]. by destruct l. }
  rewrite bool_decide_true by done.
  assert (exists y l', l ++ [x] = y :: l' /\ default y (last l') = x) as (y & l' & Hl & Hlast).
  { destruct l as [|y l]; [by exists x, []|]. exists y, (l ++ [x]).
    by rewrite last_snoc. }
  rewrite Hl in *. destruct (ring_head _ _ _ Hr) as (n & Hn & _ & Hprev).
  change (front_of (y :: l')) with y.
  rewrite Hn. simpl. rewrite Hprev, Hlast, Hu. simpl. rewrite Hf. simpl. do 2 f_equal.
  destruct Hr as (Hnd & _). rewrite <-Hl in Hnd. clear Hlast.
  destruct l as [|z0 l]; injection Hl as <- <-; [by rewrite decide_True|].
  rewrite decide_False; [done|]. apply NoDup_cons in Hnd. set_solver.
Qed.

(** ** Traversals *)

Lemma ring_fuel h l : ring h l -> (length l <= nodes h)%nat.
Proof.
  intros Hr. unfold nodes. rewrite <-size_dom.
  assert (list_to_set l ⊆ dom h) as Hsub.
  { intros p Hp%elem_of_list_to_set. apply elem_of_dom. by eapply ring_dom. }
  apply subseteq_size in Hsub. destruct Hr as (Hnd & _).
  by rewrite size_list_to_set in Hsub.
Qed.

Section walk.
Context {B R : Type} (body : addr -> node A -> B -> option (B + R)).

Lemma walk_next_chain h l c s fuel b :
  chain h c l s -> s ∉ l -> (length (c :: l) <= fuel)%nat ->
  walk next body fuel h c s b = fold_nodes body h (c :: l) b.
Proof.
  revert c fuel b. induction l as [|z l IH]; intros c fuel b Hc Hs Hf;
    (destruct fuel as [|fuel]; simpl in Hf; [lia|]); simpl.
  - destruct Hc as [Hc _]. destruct (h !! c) as [n|]; simpl in *; [|done].
    destruct (body c n b) as [[?|?]|]; simpl; [|done..]. rewrite decide_True; naive_solver.
  - destruct Hc as [[Hc _] Hc']. destruct (h !! c) as [n|]; simpl in *; [|done].
    destruct (body c n b) as [[b'|?]|]; simpl; [|done..]. simplify_eq.
    rewrite decide_False by set_solver. rewrite IH; [done|done|set_solver|simpl;lia].
Qed.

Lemma walk_previous_chain h l c s fuel b :
  chain h s l c -> s ∉ l -> (length (c :: l) <= fuel)%nat ->
  walk previous body fuel h c s b = fold_nodes body h (c :: reverse l) b.
Proof.
  revert c fuel b. induction l as [|z l IH] using rev_ind; intros c fuel b Hc Hs Hf;
    (destruct fuel as [|fuel]; [simpl in Hf; lia|]); rewrite ?reverse_snoc; simpl.
  - destruct Hc as [_ Hc]. destruct (h !! c) as [n|]; simpl in *; [|done].
    destruct (body c n b) as [[?|?]|]; simpl; [|done..]. rewrite decide_True; naive_solver.
  - apply chain_app in Hc as [Hc' [_ Hc]]. destruct (h !! c) as [n|]; simpl in *; [|done].
    destruct (body c n b) as [[b'|?]|]; simpl; [|done..]. simplify_eq.
    rewrite decide_False by set_solver.
    rewrite IH; [done|done|set_solver|]. rewrite length_app in Hf. simpl in *. lia.
Qed.

Lemma walk_ring h x l b :
  ring h (x :: l) ->
  walk next body (nodes h) h x x b = fold_nodes body h (x :: l) b.
Proof.
  intros Hr. pose proof (ring_fuel _ _ Hr). destruct Hr as (Hnd & _ & Hc).
  apply NoDup_cons in Hnd as [Hx _]. by apply walk_next_chain.
Qed.

(** Backwards from the last node, as in [node = list->previous; do ... while]. *)
Lemma walk_ring_back h l x b :
  ring h (l ++ [x]) ->
  walk previous body (nodes h) h x x b = fold_nodes body h (reverse (l ++ [x])) b.
Proof.
  intros Hr. pose proof (ring_fuel _ _ Hr) as Hf. apply ring_rotate in Hr.
  destruct Hr as (Hnd & _ & Hc). apply NoDup_cons in Hnd as [Hx _].
  rewrite reverse_snoc. apply walk_previous_chain; [done..|].
  rewrite length_app in Hf. simpl in *. lia.
Qed.

End walk.

Lemma fold_search h (test : addr -> node A -> option bool) (f : addr -> bool) l :
  (forall p, p ∈ l -> exists n, h !! p = Some n /\ test p n = Some (f p)) ->
  (r ← fold_nodes (fun p n (_ : unit) => b ← test p n;
          Some (if (b : bool) then inr p else inl tt)) h l tt;
   Some (match r with inr p => p | inl _ => NULL end)) =
  Some (default NULL (first_sat f l)).
Proof.
  induction l as [|p l IH]; intros H; simpl; [done|].
  destruct (H p) as (n & Hn & Ht); [left|]. rewrite Hn. simpl. rewrite Ht. simpl.
  destruct (f p); [done|]. apply IH. intros. apply H. by right.
Qed.

Lemma search_ring h test (f : addr -> bool) x l :
  ring h (x :: l) ->
  (forall p, p ∈ x :: l -> exists n, h !! p = Some n /\ test p n = Some (f p)) ->
  search next test h x x = Some (default NULL (first_sat f (x :: l))).
Proof.
  intros Hr H. unfold search. rewrite (walk_ring _ _ _ l) by done. by apply fold_search.
Qed.

Lemma search_ring_back h test (f : addr -> bool) l x :
  ring h (l ++ [x]) ->
  (forall p, p ∈ l ++ [x] -> exists n, h !! p = Some n /\ test p n = Some (f p)) ->
  search previous test h x x = Some (default NULL (first_sat f (reverse (l ++ [x])))).
Proof.
  intros Hr H. unfold search. rewrite (walk_ring_back _ _ l x _ Hr).
  apply fold_search. intros p Hp. apply H. by rewrite elem_of_reverse in Hp.
Qed.

Lemma search_chain h test (f : addr -> bool) c l s :
  chain h c l s -> s ∉ l -> (length (c :: l) <= nodes h)%nat ->
  (forall p, p ∈ c :: l -> exists n, h !! p = Some n /\ test p n = Some (f p)) ->
  search next test h c s = Some (default NULL (first_sat f (c :: l))).
Proof.
  intros Hc Hs Hf H. unfold search. rewrite (walk_next_chain _ _ l) by assumption.
  by apply fold_search.
Qed.

End ring.

(** ** Moving a node between rings

    [alter_state] stores the links in another order than the macros; the two
    stores touch different fields, so they commute. *)
Section move.
Context {A : Type}.
Implicit Types (h : heap A) (l : list addr).

Lemma set_previous_next_comm h h1 h2 a v b w :
  set_next a v h = Some h1 -> set_previous b w h1 = Some h2 ->
  exists h1', set_previous b w h = Some h1' /\ set_next a v h1' = Some h2.
Proof.
  unfold set_next, set_previous. intros (n & Hn & [= <-])%bind_Some (m & Hm & [= <-])%bind_Some.
  destruct (decide (b = a)) as [->|Hne].
  - rewrite lookup_insert_eq in Hm. injection Hm as <-. rewrite Hn. cbn [mbind option_bind].
    eexists. split; [done|]. rewrite lookup_insert_eq. cbn. by rewrite !insert_insert_eq.
  - rewrite lookup_insert_ne in Hm by done. rewrite Hm. cbn [mbind option_bind].
    eexists. split; [done|]. rewrite lookup_insert_ne by done. rewrite Hn. cbn [mbind option_bind].
    by rewrite insert_insert_ne.
Qed.

(** Unlinking with the [previous] field stored first. *)
Lemma unlink_swapped h x l : ring h (x :: l) ->
  exists n h1 n1 h2, h !! x = Some n /\ next n = front_of (l ++ [x]) /\
    set_previous (next n) (previous n) h = Some h1 /\
    h1 !! x = Some n1 /\ set_next (previous n1) (next n1) h1 = Some h2 /\
    ring h2 l /\ dom h2 = dom h /\
    (forall q, data <$> h2 !! q = data <$> h !! q) /\
    (forall q, q ∉ l -> q <> x -> h2 !! q = h !! q).
Proof.
  intros Hr. destruct (unlink_head h x l Hr) as (h2 & Hu & Hrest).
  destruct (ring_head _ _ _ Hr) as (n & Hn & Hnext & _). exists n.
  unfold unlink in Hu. rewrite Hn in Hu. cbn [mbind option_bind] in Hu.
  destruct (set_next (previous n) (next n) h) as [h1|] eqn:H1; [|done]. cbn [mbind option_bind] in Hu.
  assert (exists n1, h1 !! x = Some n1 /\ next n1 = next n /\ previous n1 = previous n) as (n1 & Hn1 & E1 & E2).
  { unfold set_next in H1. apply bind_Some in H1 as (m & Hm & [= <-]).
    destruct (decide (previous n = x)) as [Heq|Hne].
    - rewrite Heq in *. rewrite lookup_insert_eq. eexists. split; [done|]. simpl.
      rewrite Hn in Hm. injection Hm as <-. done.
    - rewrite lookup_insert_ne by done. eauto. }
  rewrite Hn1 in Hu. cbn [mbind option_bind] in Hu. rewrite E1, E2 in Hu.
  destruct (set_previous_next_comm _ _ _ _ _ _ _ H1 Hu) as (h1' & Hp & Hx).
  assert (exists n2, h1' !! x = Some n2 /\ next n2 = next n /\ previous n2 = previous n) as (n2 & Hn2 & E3 & E4).
  { unfold set_previous in Hp. apply bind_Some in Hp as (m & Hm & [= <-]).
    destruct (decide (next n = x)) as [Heq|Hne].
    - rewrite Heq in *. rewrite lookup_insert_eq. eexists. split; [done|]. simpl.
      rewrite Hn in Hm. injection Hm as <-. done.
    - rewrite lookup_insert_ne by done. eauto. }
  exists h1', n2, h2. rewrite E3, E4. split_and!; try done; apply Hrest.
Qed.

(** Linking a node that has its cell already. *)
Lemma link_existing h x l q m :
  ring h (x :: l) -> q ∉ x :: l -> q <> NULL -> h !! q = Some m ->
  exists h1 f h2 n2 h3 n3 h4,
    set_next q x h = Some h1 /\ h1 !! x = Some f /\ set_previous q (previous f) h1 = Some h2 /\
    h2 !! q = Some n2 /\ set_previous (next n2) q h2 = Some h3 /\
    h3 !! q = Some n3 /\ set_next (previous n3) q h3 = Some h4 /\
    ring h4 (q :: x :: l) /\ dom h4 = dom h /\
    (forall p, data <$> h4 !! p = data <$> h !! p) /\
    (forall p, p ∉ x :: l -> p <> q -> h4 !! p = h !! p).
Proof.
  intros Hr Hq Hn Hm. destruct (ring_head _ _ _ Hr) as (f & Hf & _).
  assert (q <> x) as Hqx by set_solver.
  set (g := <[q := Node (previous f) x (data m)]> h).
  assert (ring (delete q h) (x :: l)) as Hr'.
  { eapply ring_frame; [|exact Hr]. intros p Hp. rewrite lookup_delete_ne; [done|]. set_solver. }
  destruct (insert_head (delete q h) x l q (data m) f Hr') as (h3 & h4 & H3 & H4 & Hring & Hdom & Hdq & Hdo & Hfr).
  { by rewrite lookup_delete_eq. } { done. } { by rewrite lookup_delete_ne. }
  rewrite insert_delete_eq in H3. fold g in H3.
  destruct (set_previous_next_comm _ _ _ _ _ _ _ H3 H4) as (h3' & Hp & Hx).
  unfold set_next at 1. rewrite Hm. cbn [mbind option_bind].
  eexists _, f, g, (Node (previous f) x (data m)), h3', (Node (previous f) x (data m)), h4.
  split; [done|]. split; [by rewrite lookup_insert_ne|]. split.
  { unfold set_previous. rewrite lookup_insert_eq. cbn. unfold g. by rewrite insert_insert_eq. }
  split; [by apply lookup_insert_eq|]. split; [done|]. split.
  { unfold set_previous in Hp. apply bind_Some in Hp as (m' & Hm' & [= <-]).
    rewrite lookup_insert_ne by done. by apply lookup_insert_eq. }
  split; [done|]. split; [done|]. split_and!.
  - rewrite Hdom, dom_delete_L. apply set_eq. intros p. rewrite elem_of_union, elem_of_difference, elem_of_singleton.
    destruct (decide (p = q)) as [->|]; [|tauto]. split; [|auto]. intros _. apply elem_of_dom. by eexists.
  - intros p. destruct (decide (p = q)) as [->|Hne]; [by rewrite Hdq, Hm|].
    rewrite Hdo by done. by rewrite lookup_delete_ne.
  - intros p Hp1 Hp2. rewrite Hfr by done. by rewrite lookup_delete_ne.
Qed.

End move.

(** ** Search with a stop condition *)

(** [while (node != stop && test(node)) node = node->next], from [node]. *)
Fixpoint seek {A} (fuel : nat) (test : node A -> option bool) (h : heap A)
    (cur stop : addr) : option addr :=
  match fuel with
  | O => None
  | S fuel =>
      if decide (cur = stop) then Some cur
      else n ← h !! cur; b ← test n;
           if (b : bool) then seek fuel test h (next n) stop else Some cur
  end.


Lemma seek_chain {A} (h : heap A) (test : node A -> option bool) (f : addr -> bool) stop l : forall c fuel,
  chain h c l stop -> stop ∉ l -> (length l < fuel)%nat ->
  (forall p, p ∈ l -> exists n, h !! p = Some n /\ test n = Some (negb (f p))) ->
  exists n, h !! c = Some n /\ seek fuel test h (next n) stop = Some (default stop (first_sat f l)).
Proof.
  induction l as [|p l IH]; intros c fuel Hc Hs Hf Ht; (destruct fuel as [|fuel]; [simpl in Hf; lia|]).
  - destruct Hc as [Hc _]. destruct (h !! c) as [n|]; [|done]. injection Hc as Hc.
    exists n. split; [done|]. cbn [seek]. rewrite Hc. by rewrite decide_True.
  - destruct Hc as [[Hc _] Hc']. destruct (h !! c) as [n|]; [|done]. injection Hc as Hc.
    exists n. split; [done|]. cbn [seek]. rewrite Hc. rewrite decide_False by set_solver.
    destruct (Ht p) as (m & Hm & Htm); [left|]. rewrite Hm. cbn [mbind option_bind].
    rewrite Htm. cbn [mbind option_bind]. cbn [first_sat].
    destruct (f p) eqn:Hfp; cbn [negb]; [done|].
    simpl in Hf. destruct (IH p fuel Hc') as (m' & Hm' & Hsk); [set_solver|lia| |].
    { intros q Hq. apply Ht. by right. }
    rewrite Hm in Hm'. injection Hm' as <-. done.
Qed.

Lemma seek_ring {A} (h : heap A) (test : node A -> option bool) (f : addr -> bool) stop l :
  ring h (stop :: l) ->
  (forall p, p ∈ l -> exists n, h !! p = Some n /\ test n = Some (negb (f p))) ->
  exists n, h !! stop = Some n /\
    seek (S (nodes h)) test h (next n) stop = Some (default stop (first_sat f l)).
Proof.
  intros Hr Ht. pose proof (ring_fuel _ _ Hr) as Hf. destruct Hr as (Hnd & _ & Hc).
  apply NoDup_cons in Hnd as [Hs _]. apply seek_chain; [done..| |done]. simpl in Hf. lia.
Qed.
