(* ===== verification/KMutex.v ===== *)
(** The kernel mutex: [kern/mutex.c] and [kern/xchange_stub.S]. *)
From S2P Require Import Prelude.

Definition UNLOCKED : Z := 0.
Definition LOCKED : Z := 1.

(** [mutex_t]. *)
Record mutex : Type := Mutex { lock_state : Z; owner_tid : Z }.

#[export] Instance mutex_eq_dec : EqDecision mutex.
Proof. solve_decision. Defined.

(** [xchange]: store a value in [lock_state] and return the old one. *)
Definition xchange (m : mutex) (val : Z) : Z * mutex :=
  (lock_state m, Mutex val (owner_tid m)).

Definition mutex_init : mutex := Mutex UNLOCKED (-1).

(** One evaluation of the loop condition of [mutex_lock] followed, when the
    lock was free, by the store of the owner; [None] when the caller has to
    yield to [owner_tid] and try again. *)
Definition mutex_lock (me : Z) (m : mutex) : option mutex :=
  let '(old, m) := xchange m LOCKED in
  if bool_decide (old ≠ UNLOCKED) then None else Some (Mutex (lock_state m) me).

Definition mutex_try_lock (me : Z) (m : mutex) : Z * mutex :=
  let '(old, m) := xchange m LOCKED in
  if bool_decide (old ≠ UNLOCKED) then (FAIL, m)
  else (OK, Mutex (lock_state m) me).

Definition mutex_unlock (m : mutex) : mutex :=
  let m := Mutex (lock_state m) (-1) in
  Mutex UNLOCKED (owner_tid m).

Lemma mutex_lock_unlocked me t : mutex_lock me (Mutex UNLOCKED t) = Some (Mutex LOCKED me).
Proof. reflexivity. Qed.

Lemma mutex_lock_free me m : lock_state m = UNLOCKED -> mutex_lock me m = Some (Mutex LOCKED me).
Proof. destruct m as [s t]. simpl. by intros ->. Qed.

Lemma mutex_lock_Some me m m' :
  mutex_lock me m = Some m' -> lock_state m = UNLOCKED /\ m' = Mutex LOCKED me.
Proof.
  unfold mutex_lock. simpl. case_bool_decide; [done|]. intros [= <-].
  split; [lia|done].
Qed.
