(* ===== verification/Frames.v ===== *)
(** The physical frame allocator of [kern/vm.c] ([alloc_list],
    [init_allocator], [alloc_frame], [free_frame], [get_zero_frame]).

    The free frames are a circular list of [frame_node]s sorted by address;
    the operations below manipulate the nodes, and the theorems show that they
    implement a strictly sorted set of frames that never holds the zero frame. *)
From S2P Require Import Prelude Ring KMutex.
From stdpp Require Import sorting.
#[local] Open Scope Z_scope.

(** [page.h], [common_kern.h] and [vm.h]. *)
Definition PAGE_SHIFT : Z := 12.
Definition PAGE_SIZE : Z := 4096.
Definition USER_MEM_START : Z := 0x01000000.
Definition USER_PAGE_START : Z := (USER_MEM_START + PAGE_SIZE - 1) / PAGE_SIZE * PAGE_SIZE.
Definition VIRTUAL_ADDR_END : Z := 2 ^ 32.
Definition ZERO_FRAME : Z := USER_PAGE_START.

(** [(a >> PAGE_SHIFT) << PAGE_SHIFT] on a 32-bit word. *)
Definition page_of (a : Z) : Z := u32 (Z.shiftl (Z.shiftr a PAGE_SHIFT) PAGE_SHIFT).

(** The state: the nodes, [alloc_list] and [vm_lock]. *)
Record frame_alloc : Type := FrameAlloc {
  frames : zone Z;
  alloc_list : addr;
  vm_lock : mutex;
}.

Definition get_zero_frame : Z := ZERO_FRAME.

Section frame_ops.
(** The thread id of the caller, recorded in the locks it takes. *)
Context (me : Z).

Definition lock_vm (s : frame_alloc) : option frame_alloc :=
  l ← mutex_lock me (vm_lock s); Some (FrameAlloc (frames s) (alloc_list s) l).
Definition unlock_vm (s : frame_alloc) : frame_alloc :=
  FrameAlloc (frames s) (alloc_list s) (mutex_unlock (vm_lock s)).

(** [while (alloc_list != NULL) POP_BACK(frame_node, alloc_list);] *)
Fixpoint drain (fuel : nat) (front : addr) (z : zone Z) : option (zone Z * addr) :=
  if decide (front = NULL) then Some (z, front)
  else match fuel with
  | O => None
  | S fuel => '(z, front) ← POP_BACK front z; drain fuel front z
  end.

(** The loop of [init_allocator] for the remaining [n] indices from [i]. *)
Fixpoint track_frames (n : nat) (i : Z) (z : zone Z) (front : addr)
    : option (Z * zone Z * addr) :=
  match n with
  | O => Some (OK, z, front)
  | S n =>
      let frame := u32 (USER_PAGE_START + i * PAGE_SIZE) in
      if decide (frame = ZERO_FRAME) then track_frames n (i + 1) z front
      else
        '(success, z, front) ← PUSH_BACK front frame z;
        if (success : bool) then track_frames n (i + 1) z front
        else
          '(z, front) ← drain (nodes (cells z)) front z;
          Some (FAIL, z, front)
  end.

(** [init_allocator], given [machine_phys_frames()]. *)
Definition init_allocator (machine_phys_frames : Z) (s : frame_alloc)
    : option (Z * frame_alloc) :=
  let lk := mutex_init in
  let frame_count := s32 (machine_phys_frames - USER_PAGE_START / PAGE_SIZE) in
  if decide (frame_count <= 0) then
    Some (FAIL, FrameAlloc (frames s) (alloc_list s) lk)
  else
    '(r, z, front) ← track_frames (Z.to_nat frame_count) 0 (frames s) (alloc_list s);
    Some (r, FrameAlloc z front lk).

(** [alloc_frame]: [-1], or [0] and the frame stored through [p_addr_ptr]. *)
Definition alloc_frame (s : frame_alloc) : option (Z * option Z * frame_alloc) :=
  s ← lock_vm s;
  if decide (alloc_list s = NULL) then Some (FAIL, None, unlock_vm s)
  else
    n ← cells (frames s) !! alloc_list s;
    let p_addr := data n in
    '(z, front) ← POP_FRONT (alloc_list s) (frames s);
    Some (OK, Some p_addr, unlock_vm (FrameAlloc z front (vm_lock s))).

(** [while (node->next != alloc_list && node->next->data <= frame) node = node->next;] *)
Fixpoint advance (fuel : nat) (h : heap Z) (front frame : Z) (node : addr) : option addr :=
  match fuel with
  | O => None
  | S fuel =>
      n ← h !! node;
      if decide (next n = front) then Some node
      else
        nn ← h !! next n;
        if decide (data nn <= frame) then advance fuel h front frame (next n)
        else Some node
  end.

Definition free_frame (p_addr : Z) (s : frame_alloc) : option (Z * frame_alloc) :=
  let frame := page_of p_addr in
  if bool_decide (frame >= USER_PAGE_START /\ frame <> ZERO_FRAME) then
    s ← lock_vm s;
    before ← (if decide (alloc_list s = NULL) then Some true
              else n ← cells (frames s) !! alloc_list s;
                   Some (bool_decide (data n > frame)));
    if (before : bool) then
      '(success, z, front) ← PUSH_FRONT (alloc_list s) frame (frames s);
      let s := FrameAlloc z front (vm_lock s) in
      Some (if (success : bool) then OK else FAIL, unlock_vm s)
    else
      node ← advance (nodes (cells (frames s))) (cells (frames s))
               (alloc_list s) frame (alloc_list s);
      n ← cells (frames s) !! node;
      if decide (data n <> frame) then
        '(success, z, _) ← PUSH_FRONT (next n) frame (frames s);
        let s := FrameAlloc z (alloc_list s) (vm_lock s) in
        Some (if (success : bool) then OK else FAIL, unlock_vm s)
      else Some (OK, unlock_vm s)
  else Some (OK, s).

End frame_ops.

(** * Specification: a strictly sorted pool of frames *)

(** A frame that the pool may hold. *)
Definition user_frame (f : Z) : Prop :=
  USER_PAGE_START < f < 2 ^ 32 /\ f `mod` PAGE_SIZE = 0.

Abbreviation sorted := (StronglySorted Z.lt).

(** The state [s] represents the pool [F], and [vm_lock] is free. *)
Definition pool_is (s : frame_alloc) (F : list Z) : Prop :=
  zone_ok (frames s) /\ lock_state (vm_lock s) = UNLOCKED /\
  sorted F /\ Forall user_frame F /\
  exists l, ring (cells (frames s)) l /\ alloc_list s = front_of l /\
    contents (cells (frames s)) l F.

(** Insertion into a sorted pool; a frame already there is left alone. *)
Fixpoint insert_frame (f : Z) (F : list Z) : list Z :=
  match F with
  | [] => [f]
  | g :: F' => if f <? g then f :: F
               else if f =? g then F else g :: insert_frame f F'
  end.

Lemma elem_of_insert_frame f g F : g ∈ insert_frame f F <-> g = f \/ g ∈ F.
Proof.
  induction F as [|h F IH]; simpl; [set_solver|].
  destruct (Z.ltb_spec f h); [set_solver|].
  destruct (Z.eqb_spec f h); set_solver.
Qed.

Lemma insert_frame_sorted f F : sorted F -> sorted (insert_frame f F).
Proof.
  induction 1 as [|g F HF IH Hg]; simpl; [repeat constructor|].
  destruct (Z.ltb_spec f g).
  - repeat constructor; [done..|]. eapply Forall_impl; [done|]. simpl. lia.
  - destruct (Z.eqb_spec f g); [by constructor|]. constructor; [done|].
    apply Forall_forall. intros x [->|Hx]%elem_of_insert_frame; [lia|].
    rewrite Forall_forall in Hg. auto.
Qed.

Lemma insert_frame_present f F : sorted F -> f ∈ F -> insert_frame f F = F.
Proof.
  induction 1 as [|g F HF IH Hg]; simpl; [set_solver|]. intros [->|Hf]%elem_of_cons.
  - rewrite Z.ltb_irrefl. by rewrite Z.eqb_refl.
  - rewrite Forall_forall in Hg. specialize (Hg _ Hf).
    rewrite (proj2 (Z.ltb_ge _ _)) by lia. rewrite (proj2 (Z.eqb_neq _ _)) by lia.
    by rewrite IH.
Qed.

Lemma insert_frame_split f F1 F2 :
  Forall (fun g => g < f) F1 -> Forall (fun g => f < g) F2 ->
  insert_frame f (F1 ++ F2) = F1 ++ f :: F2.
Proof.
  induction 1 as [|g F1 Hg _ IH]; intros H2; simpl.
  - destruct H2 as [|h F2 Hh _]; simpl; [done|].
    by rewrite (proj2 (Z.ltb_lt _ _)).
  - rewrite (proj2 (Z.ltb_ge _ _)) by lia. rewrite (proj2 (Z.eqb_neq _ _)) by lia.
    by rewrite IH.
Qed.

Lemma sorted_NoDup F : sorted F -> NoDup F.
Proof.
  induction 1 as [|g F HF IH Hg]; constructor; [|done].
  intros Hin. rewrite Forall_forall in Hg. specialize (Hg _ Hin). lia.
Qed.

Lemma sorted_app F1 F2 :
  sorted (F1 ++ F2) -> sorted F1 /\ sorted F2 /\
  (forall x y, x ∈ F1 -> y ∈ F2 -> x < y).
Proof.
  induction F1 as [|g F1 IH]; simpl.
  - intros. split_and!; [constructor|done|set_solver].
  - intros Hs. inversion Hs as [|? ? Hs' Hg]; subst.
    destruct (IH Hs') as (? & ? & ?). apply Forall_app in Hg as [Hg1 Hg2].
    split_and!; [by constructor|done|].
    intros x y [->|]%elem_of_cons Hy; [|auto]. rewrite Forall_forall in Hg2. auto.
Qed.

(** [page_of] clears the offset within the page. *)
Lemma page_of_eq a : 0 <= a < 2 ^ 32 -> page_of a = a - a `mod` PAGE_SIZE.
Proof.
  intros Ha. unfold page_of, PAGE_SHIFT, PAGE_SIZE.
  rewrite Z.shiftr_div_pow2, Z.shiftl_mul_pow2 by lia.
  change (2 ^ 12) with 4096. pose proof (Z.div_mod a 4096).
  pose proof (Z.mod_pos_bound a 4096). rewrite u32_small by lia. lia.
Qed.

Lemma page_of_aligned a : 0 <= a < 2 ^ 32 -> page_of a `mod` PAGE_SIZE = 0.
Proof.
  intros Ha. rewrite page_of_eq by done. unfold PAGE_SIZE.
  pose proof (Z.div_mod a 4096).
  replace (a - a `mod` 4096) with (a / 4096 * 4096) by lia. apply Z.mod_mul. lia.
Qed.

Lemma page_of_id a : 0 <= a < 2 ^ 32 -> a `mod` PAGE_SIZE = 0 -> page_of a = a.
Proof. intros Ha H. rewrite page_of_eq, H; lia. Qed.

Lemma page_of_range a : 0 <= a < 2 ^ 32 -> 0 <= page_of a <= a.
Proof.
  intros Ha. rewrite page_of_eq by done. unfold PAGE_SIZE.
  pose proof (Z.mod_pos_bound a 4096). pose proof (Z.mod_le a 4096). lia.
Qed.

Section frame_proofs.
Context (me : Z).

Lemma lock_vm_free s :
  lock_state (vm_lock s) = UNLOCKED ->
  lock_vm me s = Some (FrameAlloc (frames s) (alloc_list s) (Mutex LOCKED me)).
Proof. intros H. unfold lock_vm. by rewrite mutex_lock_free. Qed.

Lemma contents_head (h : heap Z) p l d F :
  contents h (p :: l) (d :: F) -> exists n, h !! p = Some n /\ data n = d.
Proof. intros [(n & ? & ?)%fmap_Some _]%contents_cons. eauto. Qed.

Lemma pool_is_head s F :
  pool_is s F -> (alloc_list s = NULL <-> F = []).
Proof.
  intros (_ & _ & _ & _ & l & Hr & -> & HF). split.
  - intros Hl. apply (front_of_null _ _ Hr) in Hl. subst. by inversion HF.
  - intros ->. inversion HF. done.
Qed.

(** Helper: [pool_is] depends only on the nodes and the list. *)
Lemma pool_is_intro z front lk F l :
  zone_ok z -> lock_state lk = UNLOCKED -> sorted F -> Forall user_frame F ->
  ring (cells z) l -> front = front_of l -> contents (cells z) l F ->
  pool_is (FrameAlloc z front lk) F.
Proof. intros. split_and!; [done..|]. exists l. auto. Qed.

(** Allocation takes the lowest free frame. *)
Lemma alloc_frame_cons s f F :
  pool_is s (f :: F) ->
  exists s', alloc_frame me s = Some (OK, Some f, s') /\ pool_is s' F /\
    exists q rest, pool (frames s') = q :: rest.
Proof.
  intros Hp. pose proof Hp as (Hz & Hlk & Hs & Hu & l & Hr & Ha & Hc).
  unfold alloc_frame. run (lock_vm_free s Hlk).
  assert (alloc_list s <> NULL) by (intros Hn%(pool_is_head _ _ Hp); done).
  rewrite decide_False by done. cbn [frames alloc_list vm_lock].
  destruct l as [|p l]; [inversion Hc|]. rewrite Ha. change (front_of (p :: l)) with p.
  destruct (contents_head _ _ _ _ _ Hc) as (n & Hn & <-). run Hn.
  destruct (POP_FRONT_ok _ _ _ Hz Hr) as (z' & Hpop & Hr' & Hpp). run Hpop.
  eexists. split; [done|]. inversion Hs; inversion Hu; subst. split.
  2:{ simpl. rewrite (popped_pool _ _ _ _ Hpp). destruct (pool (frames s)); simpl; eauto. }
  eapply pool_is_intro; [apply Hpp|done..|].
  apply contents_cons in Hc as [_ Hc]. eapply contents_frame; [|done].
  intros q Hq. apply (popped_other _ _ _ _ Hpp). destruct Hr as (Hnd & _).
  apply NoDup_cons in Hnd. set_solver.
Qed.

Lemma alloc_frame_nil s :
  pool_is s [] -> exists s', alloc_frame me s = Some (FAIL, None, s') /\ pool_is s' [].
Proof.
  intros Hp. pose proof Hp as (Hz & Hlk & Hs & Hu & l & Hr & Ha & Hc).
  unfold alloc_frame. run (lock_vm_free s Hlk).
  cbn [frames alloc_list vm_lock]. rewrite decide_True by (by apply (pool_is_head s [])).
  eexists. split; [done|]. by eapply pool_is_intro.
Qed.

(** The search loop of [free_frame] stops at the last node whose frame is not
    above the freed one. *)
Lemma advance_spec (h : heap Z) front frame l1 p l2 F1 d F2 fuel :
  ring h (l1 ++ p :: l2) -> front = front_of (l1 ++ p :: l2) ->
  contents h (l1 ++ p :: l2) (F1 ++ d :: F2) -> length l1 = length F1 ->
  Forall (fun g => g <= frame) (F1 ++ [d]) -> sorted (F1 ++ d :: F2) ->
  (length l2 < fuel)%nat ->
  exists k1 q k2 G1 e G2, advance fuel h front frame p = Some q /\
    l1 ++ p :: l2 = k1 ++ q :: k2 /\ F1 ++ d :: F2 = G1 ++ e :: G2 /\
    length k1 = length G1 /\
    Forall (fun g => g <= frame) (G1 ++ [e]) /\ Forall (fun g => frame < g) G2.
Proof.
  revert l1 p F1 d F2 fuel. induction l2 as [|p' l2 IH];
    intros l1 p F1 d F2 fuel Hr Hf Hc Hlen Hle Hs Hfuel;
    (destruct fuel as [|fuel]; simpl in Hfuel; [lia|]); simpl.
  - pose proof (ring_rotate _ _ _ Hr) as Hr'.
    destruct (ring_head _ _ _ Hr') as (n & Hn & Hnext & _). run Hn.
    rewrite decide_True by (by rewrite Hnext, Hf; destruct l1).
    apply Forall2_app_inv in Hc as [_ Hc]; [|done]. inversion Hc as [|? ? ? ? _ Hc']; subst.
    inversion Hc'; subst. eexists l1, p, [], F1, d, []. done.
  - pose proof (ring_rotate _ _ _ Hr) as Hr'.
    destruct (ring_head _ _ _ Hr') as (n & Hn & Hnext & _). run Hn.
    assert (next n = p') as Hnx by (rewrite Hnext; done). clear Hnext.
    rename Hnx into Hnext. rewrite decide_False; [|rewrite Hnext, Hf].
    2:{ destruct Hr as (Hnd & _). destruct l1 as [|y l1]; simpl.
        - apply NoDup_cons in Hnd. set_solver.
        - apply NoDup_cons in Hnd. set_solver. }
    rewrite Hnext. pose proof Hc as Hc0.
    apply Forall2_app_inv in Hc as [Hc1 Hc]; [|done].
    apply contents_cons in Hc as [Hd Hc]. destruct F2 as [|d' F2']; [by inversion Hc|].
    apply contents_head in Hc as (nn & Hnn & <-). run Hnn.
    case_decide as Hle'.
    + destruct (IH (l1 ++ [p]) p' (F1 ++ [d]) (data nn) F2' fuel) as
        (k1 & q & k2 & G1 & e & G2 & ? & ? & ? & ? & ? & ?).
      all: rewrite <-?(assoc_L (++)); simpl; try done.
      * rewrite !length_app. simpl. lia.
      * apply Forall_app in Hle as [? Hd1]. apply Forall_app. split; [done|].
        inversion Hd1; subst. by repeat constructor.
      * lia.
      * exists k1, q, k2, G1, e, G2. rewrite <-!(assoc_L (++)) in *. done.
    + exists l1, p, (p' :: l2), F1, d, (data nn :: F2'). split_and!; try done.
      apply sorted_app in Hs as (_ & Hs & _). inversion Hs as [|? ? Hs' _]; subst.
      inversion Hs' as [|? ? _ Hgt]; subst. constructor; [lia|].
      eapply Forall_impl; [done|]. simpl. lia.
Qed.

(** The two insertion points of [free_frame], as one list insertion. *)
Lemma free_frame_at s F l1 l2 F1 F2 f q rest :
  zone_ok (frames s) -> pool (frames s) = q :: rest ->
  ring (cells (frames s)) (l1 ++ l2) ->
  contents (cells (frames s)) l1 F1 -> contents (cells (frames s)) l2 F2 ->
  sorted F -> Forall user_frame F -> user_frame f -> F = F1 ++ F2 ->
  Forall (fun g => g < f) F1 -> Forall (fun g => f < g) F2 ->
  exists z', PUSH_FRONT (front_of (l2 ++ l1)) f (frames s) = Some (true, z', q) /\
    pool z' = rest /\ forall front lk, lock_state lk = UNLOCKED -> front = front_of (l1 ++ q :: l2) ->
      pool_is (FrameAlloc z' front lk) (insert_frame f F).
Proof.
  intros Hz Hq Hr Hc1 Hc2 Hs Hu Hf -> H1 H2. apply ring_rotate in Hr.
  destruct (PUSH_FRONT_ok _ _ _ _ f Hz Hr Hq) as (z' & Hp & Hr' & Hpu).
  exists z'. split; [done|]. split.
  { pose proof (pushed_pool _ _ _ _ _ Hpu) as Hpool. rewrite Hq in Hpool. by injection Hpool. }
  intros front lk Hlk ->.
  assert (Hfr : forall p, p ∈ l1 ++ l2 -> p <> q).
  { intros p Hp' ->. destruct Hz as (_ & _ & Hfresh & _).
    destruct (ring_dom _ _ q Hr) as [n Hn]; [set_solver|].
    rewrite Hfresh in Hn; [done|]. rewrite Hq. left. }
  eapply pool_is_intro; [apply Hpu|done|by apply insert_frame_sorted| | |done|].
  - apply Forall_forall. intros g [->|Hg]%elem_of_insert_frame; [done|].
    rewrite Forall_forall in Hu. auto.
  - apply (ring_rotate _ (q :: l2) l1). done.
  - rewrite insert_frame_split by done.
    assert (forall p, p ∈ l1 ++ l2 ->
      data <$> cells z' !! p = data <$> cells (frames s) !! p) as Hd.
    { intros p Hp'. apply (pushed_other _ _ _ _ _ Hpu). auto. }
    apply contents_app; [eapply contents_frame; [|done]; set_solver|].
    apply contents_cons. split; [apply Hpu|].
    eapply contents_frame; [|done]. set_solver.
Qed.

Lemma user_frame_page a :
  0 <= a < 2 ^ 32 -> page_of a >= USER_PAGE_START -> page_of a <> ZERO_FRAME ->
  user_frame (page_of a).
Proof.
  intros Ha H1 H2. pose proof (page_of_range a Ha). unfold ZERO_FRAME in *.
  split; [lia|]. by apply page_of_aligned.
Qed.

(** Outcome of [free_frame], given the pool [F] it starts from. *)
Definition free_outcome (s : frame_alloc) (F : list Z) (frame : Z)
    (r : Z) (s' : frame_alloc) : Prop :=
  if bool_decide (frame >= USER_PAGE_START /\ frame <> ZERO_FRAME) then
    if bool_decide (frame ∈ F)
    then r = OK /\ pool_is s' F /\ pool (frames s') = pool (frames s)
    else match pool (frames s) with
         | [] => r = FAIL /\ pool_is s' F /\ pool (frames s') = []
         | _ :: rest => r = OK /\ pool_is s' (insert_frame frame F) /\ pool (frames s') = rest
         end
  else r = OK /\ s' = s.

Lemma free_frame_front s F f l :
  pool_is s F -> user_frame f -> Forall (fun g => f < g) F ->
  ring (cells (frames s)) l -> alloc_list s = front_of l ->
  contents (cells (frames s)) l F ->
  forall lk, lock_state lk = UNLOCKED ->
  exists success z front, PUSH_FRONT (alloc_list s) f (frames s) = Some (success, z, front) /\
    match pool (frames s) with
    | [] => success = false /\ pool_is (FrameAlloc z front lk) F /\ pool z = []
    | _ :: rest => success = true /\ pool_is (FrameAlloc z front lk) (insert_frame f F) /\ pool z = rest
    end.
Proof.
  intros (Hz & _ & Hs & Hu & _) Hf Hlt Hr Ha Hc lk Hlk.
  destruct (pool (frames s)) as [|q rest] eqn:Hq.
  - rewrite PUSH_FRONT_full by done. do 3 eexists. split; [done|].
    split_and!; [done| |done]. by eapply pool_is_intro.
  - destruct (free_frame_at s F [] l [] F f q rest) as (z' & Hp & Hpool & Hpi); try done.
    { constructor. }
    rewrite app_nil_r in Hp. rewrite Ha, Hp. do 3 eexists. split; [done|]. split_and!; [done| |done].
    by apply Hpi.
Qed.

(** The frame goes behind the last one that is not above it, unless it is that
    one. *)
Lemma free_frame_behind s F f k1 q k2 G1 nq G2 lk : pool_is s F -> user_frame f -> f >= USER_PAGE_START /\ f <> ZERO_FRAME ->
  lock_state lk = UNLOCKED ->
  ring (cells (frames s)) (k1 ++ q :: k2) -> alloc_list s = front_of (k1 ++ q :: k2) ->
  contents (cells (frames s)) (k1 ++ q :: k2) F -> cells (frames s) !! q = Some nq ->
  F = G1 ++ data nq :: G2 -> length k1 = length G1 ->
  Forall (fun g => g <= f) (G1 ++ [data nq]) -> Forall (fun g => f < g) G2 ->
  exists r s', (if decide (data nq <> f) then
      '(success, z, _) ← PUSH_FRONT (next nq) f (frames s);
      Some (if (success : bool) then OK else FAIL, FrameAlloc z (alloc_list s) lk)
    else Some (OK, FrameAlloc (frames s) (alloc_list s) lk)) = Some (r, s') /\ free_outcome s F f r s'.
Proof.
  intros (Hz & _ & Hs & Hu & _) Hf Hpage Hlk Hr Hal Hc Hnq HF Hlen Hle Hgt. unfold free_outcome. rewrite (bool_decide_true _ Hpage).
  assert (Hsame : forall z', z' = frames s -> pool_is (FrameAlloc z' (alloc_list s) lk) F) by (intros z' ->; by eapply pool_is_intro).
  rewrite HF in Hs, Hu. pose proof (sorted_app _ _ Hs) as (_ & Hs2 & Hlt). inversion Hs2 as [|? ? _ Hes]; subst.
  apply Forall_app in Hle as [Hle He']. inversion He' as [|? ? Hef _]; subst. case_decide as Hcase.
  2:{ rewrite bool_decide_true by (apply elem_of_app; right; apply elem_of_cons; left; lia). do 2 eexists. split; [done|].
      split; [done|]. split; [by apply Hsame|done]. }
  rewrite bool_decide_false.
  2:{ rewrite Forall_forall in Hgt. intros [Hx|[Hx|Hx]%elem_of_cons]%elem_of_app; [|congruence|specialize (Hgt _ Hx); lia].
      assert (f < data nq) by (apply Hlt; [done|left]). lia. }
  destruct (pool (frames s)) as [|x rest] eqn:Hpool.
  - rewrite PUSH_FRONT_full by done. do 2 eexists. split; [done|]. split; [done|]. split; [by apply Hsame; destruct (frames s)|done].
  - apply Forall2_app_inv in Hc as [Hc1 Hc]; [|done]. apply contents_cons in Hc as [_ Hc2].
    destruct (ring_head _ _ _ (ring_rotate _ _ _ Hr)) as (n & Hn & Hnext & _). rewrite Hnq in Hn. injection Hn as <-.
    destruct (free_frame_at s (G1 ++ data nq :: G2) (k1 ++ [q]) k2 (G1 ++ [data nq]) G2 f x rest) as (z' & Hpf & Hpz & Hpi); try done.
    + by rewrite <-(assoc_L (++)).
    + apply contents_app; [done|]. apply contents_cons. rewrite Hnq. by repeat constructor.
    + by rewrite <-(assoc_L (++)).
    + apply Forall_app. split; [|constructor; [lia|constructor]]. rewrite Forall_forall in Hle |- *. intros y Hy.
      assert (y < data nq) by (apply Hlt; [done|left]). lia.
    + assert (next nq = front_of ((k2 ++ k1) ++ [q])) as Hnx by exact Hnext.
      rewrite (assoc_L (++)), <-Hnx in Hpf. run Hpf. do 2 eexists. split; [done|]. split_and!; [done| |done].
      apply Hpi; [done|]. rewrite <-(assoc_L (++)), Hal. by destruct k1.
Qed.

Lemma free_frame_correct s F a :
  pool_is s F -> 0 <= a < 2 ^ 32 ->
  exists r s', free_frame me a s = Some (r, s') /\ free_outcome s F (page_of a) r s'.
Proof.
  intros Hp Ha. pose proof Hp as (Hz & Hlk & Hs & Hu & l & Hr & Hal & Hc).
  unfold free_frame. case_bool_decide as Hpage; [|unfold free_outcome; rewrite bool_decide_false by done; eauto].
  pose proof (user_frame_page a Ha (proj1 Hpage) (proj2 Hpage)) as Hf.
  set (f := page_of a) in *. run (lock_vm_free s Hlk). cbn [frames alloc_list vm_lock].
  set (lk := mutex_unlock (Mutex LOCKED me)). destruct F as [|g F].
  { rewrite decide_True by (by apply (pool_is_head s [])). simpl.
    destruct (free_frame_front s [] f l) with (lk := lk) as (b & z & fr & Hpf & Hcase); try done.
    run Hpf. unfold free_outcome. rewrite (bool_decide_true _ Hpage), bool_decide_false by apply not_elem_of_nil.
    destruct (pool (frames s)); destruct Hcase as [-> ?]; eauto. }
  assert (alloc_list s <> NULL) by (intros Hn%(pool_is_head _ _ Hp); done).
  rewrite decide_False by done.
  destruct l as [|p l]; [inversion Hc|]. rewrite Hal. change (front_of (p :: l)) with p.
  destruct (contents_head _ _ _ _ _ Hc) as (n & Hn & Hdn). run Hn. rewrite Hdn.
  case_bool_decide as Hgt.
  - inversion Hs as [|? ? _ Hg]; subst.
    assert (Forall (fun x => f < x) (data n :: F)) as Hall.
    { constructor; [lia|]. eapply Forall_impl; [done|]. simpl. lia. }
    destruct (free_frame_front s (data n :: F) f (p :: l)) with (lk := lk) as (b & z & fr & Hpf & Hcase); try done.
    rewrite Hal in Hpf. change (front_of (p :: l)) with p in Hpf. run Hpf.
    unfold free_outcome. rewrite (bool_decide_true _ Hpage), bool_decide_false.
    2:{ intros Hx. rewrite Forall_forall in Hall. specialize (Hall _ Hx). lia. }
    destruct (pool (frames s)); destruct Hcase as [-> ?]; eauto.
  - destruct (advance_spec (cells (frames s)) p f [] p l [] g F (nodes (cells (frames s))))
      as (k1 & q & k2 & G1 & e & G2 & Hadv & Hl & HF & Hlen & Hle & Hgt2); try done.
    { constructor; [lia|constructor]. }
    { pose proof (ring_fuel _ _ Hr) as Hfu. simpl in Hfu. lia. }
    simpl in Hl, HF. run Hadv. assert (Hpa : p = alloc_list s) by (by rewrite Hal). rewrite Hl in Hr, Hc, Hal. destruct (ring_dom _ _ q Hr) as [nq Hnq]; [set_solver|]. run Hnq.
    assert (e = data nq) as ->.
    { rewrite HF in Hc. apply Forall2_app_inv in Hc as [_ Hc]; [|done]. apply contents_cons in Hc as [He _]. rewrite Hnq in He. by injection He. }
    rewrite Hpa. by apply (free_frame_behind s (g :: F) f k1 q k2 G1 nq G2 lk).
Qed.

(** ** Initialisation *)

Lemma drain_ok l : forall z fuel, zone_ok z -> ring (cells z) l -> (length l <= fuel)%nat ->
  exists z', drain fuel (front_of l) z = Some (z', NULL) /\ zone_ok z'.
Proof.
  induction l as [|x l IH] using rev_ind; intros z fuel Hz Hr Hlen.
  - exists z. by destruct fuel.
  - rewrite length_app in Hlen. simpl in Hlen. destruct fuel as [|fuel]; [lia|].
    destruct (POP_BACK_ok z l x Hz Hr) as (z' & Hp & Hr' & Hpp). simpl.
    rewrite decide_False by (apply (front_of_nonnull _ _ Hr); by destruct l).
    run Hp. apply IH; [apply Hpp|done|lia].
Qed.

(** The frames of the indices [i], ..., [i + n - 1], without the zero frame. *)
Definition frames_from (i : Z) (n : nat) : list Z :=
  filter (fun f => f <> ZERO_FRAME)
    ((fun j => USER_PAGE_START + j * PAGE_SIZE) <$> seqZ i (Z.of_nat n)).

Lemma frames_from_S i n :
  frames_from i (S n) =
  (if decide (USER_PAGE_START + i * PAGE_SIZE = ZERO_FRAME) then []
   else [USER_PAGE_START + i * PAGE_SIZE]) ++ frames_from (i + 1) n.
Proof.
  unfold frames_from. rewrite seqZ_cons by lia.
  replace (Z.pred (Z.of_nat (S n))) with (Z.of_nat n) by lia.
  rewrite fmap_cons, filter_cons. replace (Z.succ i) with (i + 1) by lia.
  destruct (decide (USER_PAGE_START + i * PAGE_SIZE = ZERO_FRAME)).
  - rewrite decide_False; naive_solver.
  - by rewrite decide_True.
Qed.

Lemma track_frames_ok n : forall i z l F,
  zone_ok z -> ring (cells z) l -> contents (cells z) l F ->
  0 <= i -> i + Z.of_nat n <= 2 ^ 20 - 2 ^ 12 ->
  exists z', zone_ok z' /\
    if decide (length (frames_from i n) <= length (pool z))%nat then
      exists l', track_frames n i z (front_of l) = Some (OK, z', front_of l') /\
        ring (cells z') l' /\ contents (cells z') l' (F ++ frames_from i n)
    else track_frames n i z (front_of l) = Some (FAIL, z', NULL).
Proof.
  induction n as [|n IH]; intros i z l F Hz Hr Hc Hi Hn.
  - exists z. split; [done|]. rewrite decide_True by (simpl; lia). exists l.
    unfold frames_from. simpl. by rewrite app_nil_r.
  - cbn [track_frames].
    assert (USER_PAGE_START + i * PAGE_SIZE < 2 ^ 32) as Hlt by
      (change USER_PAGE_START with 16777216; unfold PAGE_SIZE; lia).
    assert (0 <= USER_PAGE_START + i * PAGE_SIZE) as Hge by
      (change USER_PAGE_START with 16777216; unfold PAGE_SIZE; lia).
    rewrite u32_small by lia. rewrite frames_from_S.
    destruct (decide (USER_PAGE_START + i * PAGE_SIZE = ZERO_FRAME)) as [E|E].
    + apply IH; [done..|lia|lia].
    + destruct (pool z) as [|q rest] eqn:Hq.
      * rewrite PUSH_BACK_full by done. cbn [mbind option_bind].
        destruct (drain_ok l z (nodes (cells z)) Hz Hr (ring_fuel _ _ Hr)) as (z' & Hd & Hz').
        exists z'. split; [done|]. rewrite decide_False by (simpl; lia). by run Hd.
      * destruct (PUSH_BACK_ok z l q rest (USER_PAGE_START + i * PAGE_SIZE) Hz Hr Hq)
          as (z1 & Hp & Hr1 & Hpu). run Hp.
        assert (contents (cells z1) (l ++ [q]) (F ++ [USER_PAGE_START + i * PAGE_SIZE])) as Hc1.
        { apply contents_app.
          - eapply contents_frame; [|done]. intros p Hpl.
            apply (pushed_other _ _ _ _ _ Hpu). intros ->.
            destruct Hz as (_ & _ & Hfr & _). destruct (ring_dom _ _ q Hr Hpl) as [? Hx].
            rewrite Hfr in Hx; [done|]. rewrite Hq. left.
          - apply contents_cons. split; [apply Hpu|constructor]. }
        destruct (IH (i + 1) z1 _ _ (pushed_ok _ _ _ _ _ Hpu) Hr1 Hc1) as (z' & Hz' & IH');
          [lia|lia|]. exists z'. split; [done|].
        pose proof (pushed_pool _ _ _ _ _ Hpu) as Hpool. rewrite Hq in Hpool.
        injection Hpool as ->. simpl. rewrite <-(assoc_L (++)) in IH'. simpl in IH'.
        repeat case_decide; first [done | lia].
Qed.

Lemma frames_from_sorted i n :
  sorted (frames_from i n) /\
  Forall (fun f => USER_PAGE_START + i * PAGE_SIZE <= f) (frames_from i n).
Proof.
  revert i. induction n as [|n IH]; intros i; [by repeat constructor|].
  rewrite frames_from_S. destruct (IH (i + 1)) as [Hs Hl].
  assert (Forall (fun f => USER_PAGE_START + i * PAGE_SIZE < f) (frames_from (i + 1) n)) as Hl'.
  { eapply Forall_impl; [done|]. unfold PAGE_SIZE. simpl. lia. }
  destruct (decide _); simpl.
  - split; [done|]. eapply Forall_impl; [done|]. simpl. lia.
  - split; [by constructor|]. constructor; [lia|]. eapply Forall_impl; [done|]. simpl. lia.
Qed.

Lemma frames_from_user n :
  Z.of_nat n <= 2 ^ 20 - 2 ^ 12 -> Forall user_frame (frames_from 0 n).
Proof.
  intros Hn. apply Forall_forall. intros f Hf. unfold frames_from in Hf.
  apply list_elem_of_filter in Hf as [Hne Hf].
  apply list_elem_of_fmap in Hf as (j & -> & [Hj1 Hj2]%elem_of_seqZ).
  change USER_PAGE_START with (4096 * PAGE_SIZE) in *. unfold ZERO_FRAME in *.
  change USER_PAGE_START with (4096 * PAGE_SIZE) in *. split.
  - unfold PAGE_SIZE in *. change USER_PAGE_START with (16777216). lia.
  - rewrite <-Z.mul_add_distr_r. by apply Z.mod_mul.
Qed.

End frame_proofs.

(** The result of [init_allocator], by cases on the machine and on [malloc]. *)
Lemma init_allocator_ok (machine_phys_frames : Z) (s : frame_alloc)
    (Hz : zone_ok (frames s)) (Hnull : alloc_list s = NULL)
    (Hm : 0 <= machine_phys_frames <= 2 ^ 20) :
  let n := Z.to_nat (machine_phys_frames - 4096) in
  exists s', 
    if bool_decide (4096 < machine_phys_frames /\
                    (length (frames_from 0 n) <= length (pool (frames s)))%nat)
    then init_allocator machine_phys_frames s = Some (OK, s') /\ pool_is s' (frames_from 0 n)
    else init_allocator machine_phys_frames s = Some (FAIL, s') /\ pool_is s' [].
Proof.
  intros n. unfold init_allocator.
  change (USER_PAGE_START / PAGE_SIZE) with 4096. rewrite s32_small by lia. fold n.
  assert (Hempty : forall z lk, zone_ok z -> lock_state lk = UNLOCKED ->
    pool_is (FrameAlloc z NULL lk) []).
  { intros z lk Hz0 Hlk0. apply (pool_is_intro z NULL lk [] []); first [done | apply SSorted_nil | apply ring_nil | by apply Forall_nil | by apply Forall2_nil_2 ]. }
  case_decide as Hc.
  - eexists. rewrite bool_decide_false by lia. split; [done|]. rewrite Hnull. by apply Hempty.
  - destruct (track_frames_ok n 0 (frames s) [] [] Hz (ring_nil _)) as (z' & Hz' & Ht);
      [constructor|lia|lia|]. rewrite Hnull. change (front_of []) with NULL in Ht.
    case_decide as Hlen.
    + destruct Ht as (l' & Ht & Hr & Hcont). run Ht. eexists.
      rewrite bool_decide_true by (split; [lia|done]). split; [done|].
      destruct (frames_from_sorted 0 n) as [Hs _].
      eapply pool_is_intro; try done. apply frames_from_user. lia.
    + run Ht. eexists. rewrite bool_decide_false by tauto. split; [done|]. by apply Hempty.
Qed.

(** * Properties *)

(** [init_allocator] either puts every user frame of the machine except the
    zero frame in the pool, sorted, and returns [0], or (too few frames, or
    [malloc] fails) returns [-1] with an empty pool. *)
Theorem init_allocator_pool (machine_phys_frames : Z) (s : frame_alloc)
    (Hz : zone_ok (frames s)) (Hnull : alloc_list s = NULL)
    (Hm : 0 <= machine_phys_frames <= 2 ^ 20) :
  let n := Z.to_nat (machine_phys_frames - 4096) in
  exists s', 
    if bool_decide (4096 < machine_phys_frames /\
                    (length (frames_from 0 n) <= length (pool (frames s)))%nat)
    then init_allocator machine_phys_frames s = Some (OK, s') /\ pool_is s' (frames_from 0 n)
    else init_allocator machine_phys_frames s = Some (FAIL, s') /\ pool_is s' [].
Proof. by apply init_allocator_ok. Qed.

(** [alloc_frame] hands out the lowest free frame and removes exactly that
    frame from the pool, and reports failure without changing the pool when it
    is empty; it never returns the zero frame or a kernel frame. *)
Theorem alloc_frame_lowest (me : Z) (s : frame_alloc) (F : list Z) (Hp : pool_is s F) :
  match F with
  | [] => exists s', alloc_frame me s = Some (FAIL, None, s') /\ pool_is s' []
  | f :: F' =>
      (exists s', alloc_frame me s = Some (OK, Some f, s') /\ pool_is s' F') /\
      USER_PAGE_START < f /\ f <> get_zero_frame /\ Forall (Z.lt f) F'
  end.
Proof.
  destruct F as [|f F']; [by apply alloc_frame_nil|].
  split; [destruct (alloc_frame_cons me s f F' Hp) as (? & ? & ? & _); eauto|]. destruct Hp as (_ & _ & Hs & Hu & _).
  inversion Hs; inversion Hu as [|? ? [[? _] _]]; subst.
  split_and!; [done| |done]. unfold get_zero_frame, ZERO_FRAME. lia.
Qed.

(** [free_frame] of an address returns its frame to the sorted pool, at
    most once: freeing a free frame changes nothing, freeing the zero frame or
    a kernel address does nothing, and the only failure ([-1]) is that [malloc]
    has no node to give. *)
Theorem free_frame_returns (me : Z) (s : frame_alloc) (F : list Z) (a : Z)
    (Hp : pool_is s F) (Ha : 0 <= a < 2 ^ 32) :
  exists r s' F', free_frame me a s = Some (r, s') /\ pool_is s' F' /\
    (r = OK \/ (r = FAIL /\ pool (frames s) = [])) /\
    forall f, f ∈ F' <->
      f ∈ F \/ (r = OK /\ f = page_of a /\ user_frame (page_of a)).
Proof.
  destruct (free_frame_correct me s F a Hp Ha) as (r & s' & Hf & Ho).
  unfold free_outcome in Ho.
  exists r, s'. case_bool_decide as Hin.
  - destruct Hin as [H1 H2]. pose proof (user_frame_page a Ha H1 H2) as Hu.
    case_bool_decide as Hm.
    + destruct Ho as (-> & Ho & _). exists F. split_and!; [done..|auto|]. naive_solver.
    + destruct (pool (frames s)) eqn:Hpool; destruct Ho as (-> & Ho & _).
      * exists F. split_and!; [done..|auto|]. unfold OK, FAIL. naive_solver.
      * exists (insert_frame (page_of a) F). split_and!; [done..|auto|].
        intros f. rewrite elem_of_insert_frame. naive_solver.
  - destruct Ho as [-> ->]. exists F. split_and!; [done..|auto|].
    intros f. split; [auto|]. intros [?|(_ & _ & [[? _] _])]; [done|].
    exfalso. apply Hin. unfold ZERO_FRAME. lia.
Qed.

(** Freeing a frame just allocated restores the pool. *)
Theorem alloc_free_roundtrip (me : Z) (s s' : frame_alloc) (F : list Z) (f : Z)
    (Hp : pool_is s F) (Ha : alloc_frame me s = Some (OK, Some f, s')) :
  exists s'', free_frame me f s' = Some (OK, s'') /\ pool_is s'' F.
Proof.
  destruct F as [|g F].
  { destruct (alloc_frame_nil me s Hp) as (? & Hn & _). rewrite Hn in Ha. discriminate. }
  destruct (alloc_frame_cons me s g F Hp) as (s1 & Hn & Hp1 & q & rest & Hq). rewrite Hn in Ha.
  injection Ha as <- <-. pose proof Hp as (_ & _ & Hs & Hu & _).
  inversion Hs as [|? ? _ Hlt]; inversion Hu as [|? ? Hg _]; subst.
  destruct Hg as [Hrange Hmod].
  assert (0 <= g < 2 ^ 32) as Hg by (change USER_PAGE_START with 16777216 in Hrange; lia).
  destruct (free_frame_correct me s1 F g Hp1 Hg) as (r & s2 & Hf & Ho).
  rewrite page_of_id in Ho by (first [done | change USER_PAGE_START with 16777216 in Hrange; lia]).
  unfold free_outcome in Ho. rewrite bool_decide_true in Ho.
  2:{ unfold ZERO_FRAME. lia. }
  rewrite bool_decide_false in Ho.
  2:{ intros Hin. rewrite Forall_forall in Hlt. specialize (Hlt _ Hin). lia. }
  rewrite Hq in Ho. destruct Ho as (-> & Ho & _).
  exists s2. split; [done|]. replace (g :: F) with (insert_frame g F); [done|].
  by apply (insert_frame_split g [] F).
Qed.

(** ** A concrete machine: 12 user frames and 14 list nodes *)

Definition demo_zone : zone Z := Zone ∅ ((fun i => 4096 + i * 16) <$> seqZ 0 14).
Definition demo_alloc : frame_alloc :=
  match init_allocator 4109 (FrameAlloc demo_zone NULL mutex_init) with
  | Some (_, a) => a
  | None => FrameAlloc demo_zone NULL mutex_init
  end.

Lemma demo_zone_ok : zone_ok demo_zone.
Proof.
  split_and!; [by apply (bool_decide_unpack _)|by apply (bool_decide_unpack _)|done|done].
Qed.

Lemma demo_alloc_ok : pool_is demo_alloc (frames_from 0 13).
Proof.
  unfold demo_alloc. destruct (init_allocator_ok 4109 (FrameAlloc demo_zone NULL mutex_init)) as (s' & Hs);
    [apply demo_zone_ok|done|lia|]. rewrite bool_decide_true in Hs.
  - destruct Hs as [-> Hs]. exact Hs.
  - split; [lia|]. apply bool_decide_unpack with (dec := decide _). by vm_compute.
Qed.

Lemma init_allocator_pool_witness :
  exists s', init_allocator 4109 (FrameAlloc demo_zone NULL mutex_init) = Some (OK, s') /\
    pool_is s' (frames_from 0 13).
Proof.
  destruct (init_allocator_pool 4109 (FrameAlloc demo_zone NULL mutex_init)) as (s' & Hs);
    [apply demo_zone_ok|done|lia|]. exists s'.
  rewrite bool_decide_true in Hs; [exact Hs|].
  split; [lia|]. apply bool_decide_unpack with (dec := decide _). by vm_compute.
Defined.

Lemma alloc_frame_lowest_witness :
  exists s', alloc_frame 7 demo_alloc = Some (OK, Some (USER_PAGE_START + 4096), s') /\
    pool_is s' (frames_from 2 11).
Proof. exact (proj1 (alloc_frame_lowest 7 demo_alloc (frames_from 0 13) demo_alloc_ok)). Defined.

Lemma free_frame_returns_witness :
  exists r s' F', free_frame 7 0x1001234 demo_alloc = Some (r, s') /\ pool_is s' F'.
Proof.
  destruct (free_frame_returns 7 demo_alloc (frames_from 0 13) 0x1001234) as (r & s' & F' & H1 & H2 & _);
    [apply demo_alloc_ok|lia|]. exists r, s', F'. by split.
Defined.

Lemma alloc_free_roundtrip_witness :
  exists s'', free_frame 7 (USER_PAGE_START + 4096)
      (match alloc_frame 7 demo_alloc with Some (_, _, a) => a | None => demo_alloc end)
    = Some (OK, s'') /\ pool_is s'' (frames_from 0 13).
Proof.
  apply (alloc_free_roundtrip 7 demo_alloc _ (frames_from 0 13) (USER_PAGE_START + 4096) demo_alloc_ok).
  vm_compute. reflexivity.
Defined.
