(* ===== verification/Vm.v ===== *)
(** The page directory manager of [kern/vm.c] and the two entry types of
    [kern/inc/vm.h].

    A page directory or a page table is the list of its 1024 entries, stored at
    the address [smemalign] gave it; a pointer to an entry is that address with
    an index.  The specification [view] forgets directories and tables: it says
    for each directory and page number what the page maps to, and the theorems
    show each operation's effect on it, together with the invariant that no
    physical frame is mapped twice or mapped while free. *)
From S2P Require Import Prelude Ring KMutex Frames.
#[local] Open Scope Z_scope.

Definition PTE_COUNT : Z := PAGE_SIZE / 4.
Definition PDE_COUNT : Z := VIRTUAL_ADDR_END / PAGE_SIZE / PTE_COUNT.
Definition READ_ONLY : Z := 0.
Definition READ_WRITE : Z := 1.
Definition PAGE_UNAVAILABLE : Z := 0.
Definition PAGE_AVAILABLE : Z := 1.

(** The bit fields of [pde_t]. *)
Record pde_t : Type := Pde {
  pde_p : Z; pde_rw : Z; pde_us : Z; pde_write_through : Z; pde_pcd : Z;
  pde_accessed : Z; pde_reserved : Z; pde_ps : Z; pde_g : Z;
  pde_available : Z; pt_addr : Z;
}.

(** The bit fields of [pte_t]. *)
Record pte_t : Type := Pte {
  pte_p : Z; pte_rw : Z; pte_us : Z; pte_write_through : Z; pte_pcd : Z;
  pte_accessed : Z; pte_dirty : Z; pte_pat : Z; pte_g : Z;
  pte_available : Z; page_addr : Z;
}.

Inductive mapping_info_t : Type :=
  PDE_NOT_PRESENT | PTE_NOT_PRESENT | ZERO_FRAME_MAPPED | NEW_FRAME_MAPPED.

Inductive lookup_result_t : Type :=
  NULL_PAGE_DIR | NONPRESENT_PDE | NONPRESENT_PTE | PHYSICAL_FRAME_MAPPED.

#[export] Instance lookup_result_eq_dec : EqDecision lookup_result_t.
Proof. solve_decision. Defined.
#[export] Instance mapping_info_eq_dec : EqDecision mapping_info_t.
Proof. solve_decision. Defined.

(** The state: the frame allocator, the page directories and page tables by
    address, and the pages [smemalign] will hand out next. *)
Record vm : Type := Vm {
  allocator : frame_alloc;
  pdirs : gmap Z (list pde_t);
  ptabs : gmap Z (list pte_t);
  page_pool : list addr;
}.

Definition with_allocator (a : frame_alloc) (s : vm) : vm :=
  Vm a (pdirs s) (ptabs s) (page_pool s).

(** [smemalign(PAGE_SIZE, PAGE_SIZE)] and the cast of the page to an array. *)
Definition new_dir (content : list pde_t) (s : vm) : option (addr * vm) :=
  match page_pool s with
  | [] => None
  | q :: rest => Some (q, Vm (allocator s) (<[q := content]> (pdirs s)) (ptabs s) rest)
  end.
Definition new_table (content : list pte_t) (s : vm) : option (addr * vm) :=
  match page_pool s with
  | [] => None
  | q :: rest => Some (q, Vm (allocator s) (pdirs s) (<[q := content]> (ptabs s)) rest)
  end.

(** [sfree(page, PAGE_SIZE)]. *)
Definition free_dir (q : addr) (s : vm) : option vm :=
  _ ← pdirs s !! q;
  Some (Vm (allocator s) (delete q (pdirs s)) (ptabs s) (page_pool s ++ [q])).
Definition free_table (q : addr) (s : vm) : option vm :=
  _ ← ptabs s !! q;
  Some (Vm (allocator s) (pdirs s) (delete q (ptabs s)) (page_pool s ++ [q])).

(** Loads and stores of entries. *)
Definition get_pde (s : vm) (e : addr * nat) : option pde_t :=
  es ← pdirs s !! e.1; es !! e.2.
Definition get_pte (s : vm) (e : addr * nat) : option pte_t :=
  es ← ptabs s !! e.1; es !! e.2.
Definition set_pde (e : addr * nat) (v : pde_t) (s : vm) : option vm :=
  es ← pdirs s !! e.1; _ ← es !! e.2;
  Some (Vm (allocator s) (<[e.1 := <[e.2 := v]> es]> (pdirs s)) (ptabs s) (page_pool s)).
Definition set_pte (e : addr * nat) (v : pte_t) (s : vm) : option vm :=
  es ← ptabs s !! e.1; _ ← es !! e.2;
  Some (Vm (allocator s) (pdirs s) (<[e.1 := <[e.2 := v]> es]> (ptabs s)) (page_pool s)).

(** [(pte_t * ) (pde.pt_addr << PAGE_SHIFT)] and [pte.page_addr << PAGE_SHIFT]. *)
Definition table_of (e : pde_t) : addr := u32 (Z.shiftl (pt_addr e) PAGE_SHIFT).
Definition frame_of (e : pte_t) : Z := u32 (Z.shiftl (page_addr e) PAGE_SHIFT).

Definition pde_index (v_addr : Z) : nat :=
  Z.to_nat (Z.shiftr v_addr PAGE_SHIFT / PTE_COUNT).
Definition pte_index (v_addr : Z) : nat :=
  Z.to_nat (Z.shiftr v_addr PAGE_SHIFT `mod` PTE_COUNT).

(** What [find_frame] stores through its holders, each where it stores it. *)
Record lookup : Type := Lookup {
  found : lookup_result_t;
  pde_ptr : addr * nat;
  pte_ptr : addr * nat;
  found_p_addr : Z;
}.

Definition find_frame (s : vm) (page_dir v_addr : Z) : option lookup :=
  let no := (NULL, 0%nat) in
  if decide (page_dir = NULL) then Some (Lookup NULL_PAGE_DIR no no 0)
  else
    let pde_p_ := (page_dir, pde_index v_addr) in
    pde ← get_pde s pde_p_;
    if decide (pde_p pde = 0) then Some (Lookup NONPRESENT_PDE pde_p_ no 0)
    else
      let pte_p_ := (table_of pde, pte_index v_addr) in
      pte ← get_pte s pte_p_;
      if decide (pte_p pte = 0) then Some (Lookup NONPRESENT_PTE pde_p_ pte_p_ 0)
      else Some (Lookup PHYSICAL_FRAME_MAPPED pde_p_ pte_p_ (frame_of pte)).

(** The entry literals of the source; fields they leave out are zero. *)
Definition pte_absent : pte_t := Pte 0 0 0 0 0 0 0 0 0 0 0.
Definition pde_absent : pde_t := Pde 0 0 0 0 0 0 0 0 0 0 0.
Definition pte_inherit (available : Z) : pte_t := Pte 0 0 0 0 0 0 0 0 0 available 0.
Definition pte_kernel (page_idx : Z) : pte_t :=
  Pte 1 READ_WRITE 0 0 0 0 0 0 1 0 (page_idx `mod` 2 ^ 20).
Definition pte_user (p_addr rw : Z) : pte_t :=
  Pte 1 rw 1 0 0 0 0 0 0 0 (Z.shiftr p_addr PAGE_SHIFT `mod` 2 ^ 20).
Definition pde_user (page_table : addr) : pde_t :=
  Pde 1 READ_WRITE 1 0 0 0 0 0 0 0 (Z.shiftr page_table PAGE_SHIFT `mod` 2 ^ 20).
Definition pde_kernel (pt : addr) (user_page_involved : bool) : pde_t :=
  Pde 1 READ_WRITE (if user_page_involved then 1 else 0) 0 0 0 0 0
    (if user_page_involved then 0 else 1) 0 (Z.shiftr pt PAGE_SHIFT `mod` 2 ^ 20).

(** ** Directories *)

Definition kernel_page_count : Z := USER_PAGE_START / PAGE_SIZE.
Definition kernel_page_table_count : Z := (kernel_page_count + PTE_COUNT - 1) / PTE_COUNT.

(** Contents of the [i]-th kernel page table. *)
Definition kernel_table (i : Z) : list pte_t :=
  (fun j => let page_idx := i * PTE_COUNT + j in
            if page_idx <? kernel_page_count then pte_kernel page_idx else pte_absent)
  <$> seqZ 0 PTE_COUNT.

(** The first loop of [construct_page_dir] from [i]; [built] is
    [page_dir[0..i)].  On failure the tables built so far are freed. *)
Fixpoint free_tables (es : list pde_t) (s : vm) : option vm :=
  match es with
  | [] => Some s
  | e :: es => s ← free_table (table_of e) s; free_tables es s
  end.

Fixpoint kernel_tables (n : nat) (i : Z) (built : list pde_t) (s : vm)
    : option (bool * list pde_t * vm) :=
  match n with
  | O => Some (true, built, s)
  | S n =>
      match new_table (kernel_table i) s with
      | None => s ← free_tables built s; Some (false, [], s)
      | Some (pt, s) =>
          let user_page_involved := bool_decide ((i + 1) * PTE_COUNT > kernel_page_count) in
          kernel_tables n (i + 1) (built ++ [pde_kernel pt user_page_involved]) s
      end
  end.

(** [construct_page_dir]: the new directory, or [NULL]. *)
Definition construct_page_dir (s : vm) : option (addr * vm) :=
  match new_dir [] s with
  | None => Some (NULL, s)
  | Some (page_dir, s) =>
      '(ok, built, s) ← kernel_tables (Z.to_nat kernel_page_table_count) 0 [] s;
      if (ok : bool) then
        let es := built ++ replicate (Z.to_nat (PDE_COUNT - kernel_page_table_count)) pde_absent in
        Some (page_dir, Vm (allocator s) (<[page_dir := es]> (pdirs s)) (ptabs s) (page_pool s))
      else s ← free_dir page_dir s; Some (NULL, s)
  end.

Section vm_ops.
Context (me : Z).

Definition vm_alloc_frame (s : vm) : option (Z * option Z * vm) :=
  '(r, f, a) ← alloc_frame me (allocator s); Some (r, f, with_allocator a s).
Definition vm_free_frame (p_addr : Z) (s : vm) : option (Z * vm) :=
  '(r, a) ← free_frame me p_addr (allocator s); Some (r, with_allocator a s).

(** The inner loop of [destruct_page_dir]: the entries of table [i] from [j]. *)
Fixpoint free_mapped (es : list pte_t) (i j : Z) (s : vm) : option vm :=
  match es with
  | [] => Some s
  | e :: es =>
      s ← (if bool_decide (pte_p e = 1 /\ i * PTE_COUNT + j >= kernel_page_count)
           then '(_, s) ← vm_free_frame (frame_of e) s; Some s
           else Some s);
      free_mapped es i (j + 1) s
  end.

(** The outer loop, from the directory's entry [i]. *)
Fixpoint free_entries (es : list pde_t) (i : Z) (s : vm) : option vm :=
  match es with
  | [] => Some s
  | e :: es =>
      s ← (if decide (pde_p e = 1) then
             page_table ← ptabs s !! table_of e;
             s ← free_mapped page_table i 0 s;
             free_table (table_of e) s
           else Some s);
      free_entries es (i + 1) s
  end.

Definition destruct_page_dir (page_dir : addr) (s : vm) : option vm :=
  if decide (page_dir = NULL) then Some s
  else
    es ← pdirs s !! page_dir;
    s ← free_entries es 0 s;
    free_dir page_dir s.

(** ** User pages *)

(** The guard every user-page operation starts with. *)
Definition user_page_ok (page_dir v_addr : Z) : bool :=
  bool_decide (page_dir <> NULL) && bool_decide (USER_PAGE_START <= page_of v_addr).

(** The [NONPRESENT_PDE] case of the mapping operations: a page table whose
    entries inherit the PDE's available bits.  Result: the PTE's address, or
    [None] inside when [smemalign] fails. *)
Definition create_table (l : lookup) (v_addr : Z) (s : vm)
    : option (option (addr * nat) * vm) :=
  pde ← get_pde s (pde_ptr l);
  match new_table (replicate (Z.to_nat PTE_COUNT) (pte_inherit (pde_available pde))) s with
  | None => Some (None, s)
  | Some (page_table, s) =>
      s ← set_pde (pde_ptr l) (pde_user page_table) s;
      Some (Some (page_table, pte_index v_addr), s)
  end.

(** The PTE of a page not mapped yet, with its table created when needed;
    [None] inside: the caller returns [-1]. *)
Definition unmapped_pte (l : lookup) (v_addr : Z) (s : vm)
    : option (option (addr * nat) * vm) :=
  match found l with
  | NONPRESENT_PDE => create_table l v_addr s
  | NONPRESENT_PTE => Some (Some (pte_ptr l), s)
  | _ => Some (None, s)
  end.

Definition map_new_frame (page_dir v_addr : Z) (s : vm) : option (Z * vm) :=
  if user_page_ok page_dir v_addr then
    l ← find_frame s page_dir v_addr;
    '(pte, s) ← unmapped_pte l v_addr s;
    match pte with
    | None => Some (FAIL, s)
    | Some pte_ptr =>
        '(r, f, s) ← vm_alloc_frame s;
        match f with
        | None => Some (FAIL, s)
        | Some p_addr =>
            if decide (r < 0) then Some (FAIL, s)
            else s ← set_pte pte_ptr (pte_user p_addr READ_WRITE) s; Some (OK, s)
        end
    end
  else Some (FAIL, s).

Definition map_zero_frame (page_dir v_addr : Z) (s : vm) : option (Z * vm) :=
  if user_page_ok page_dir v_addr then
    l ← find_frame s page_dir v_addr;
    '(pte, s) ← unmapped_pte l v_addr s;
    match pte with
    | None => Some (FAIL, s)
    | Some pte_ptr =>
        s ← set_pte pte_ptr (pte_user get_zero_frame READ_ONLY) s; Some (OK, s)
    end
  else Some (FAIL, s).

(** [check_user_page]: [-1], or [0] and the mapping information. *)
Definition check_user_page (page_dir v_addr : Z) (s : vm)
    : option (Z * option mapping_info_t) :=
  if user_page_ok page_dir v_addr then
    l ← find_frame s page_dir v_addr;
    match found l with
    | NONPRESENT_PDE => Some (OK, Some PDE_NOT_PRESENT)
    | NONPRESENT_PTE => Some (OK, Some PTE_NOT_PRESENT)
    | PHYSICAL_FRAME_MAPPED =>
        Some (OK, Some (if decide (found_p_addr l = get_zero_frame)
                        then ZERO_FRAME_MAPPED else NEW_FRAME_MAPPED))
    | NULL_PAGE_DIR => Some (FAIL, None)
    end
  else Some (FAIL, None).

Definition unmap_frame (page_dir v_addr : Z) (s : vm) : option (Z * vm) :=
  if user_page_ok page_dir v_addr then
    l ← find_frame s page_dir v_addr;
    if decide (found l = PHYSICAL_FRAME_MAPPED) then
      s ← set_pte (pte_ptr l) (pte_inherit PAGE_AVAILABLE) s;
      '(_, s) ← vm_free_frame (found_p_addr l) s;
      Some (OK, s)
    else Some (FAIL, s)
  else Some (FAIL, s).

(** [pte_ptr->rw = access] and [pte_ptr->available = availability]. *)
Definition put_rw (rw : Z) (e : pte_t) : pte_t :=
  Pte (pte_p e) rw (pte_us e) (pte_write_through e) (pte_pcd e) (pte_accessed e)
    (pte_dirty e) (pte_pat e) (pte_g e) (pte_available e) (page_addr e).
Definition put_available (a : Z) (e : pte_t) : pte_t :=
  Pte (pte_p e) (pte_rw e) (pte_us e) (pte_write_through e) (pte_pcd e) (pte_accessed e)
    (pte_dirty e) (pte_pat e) (pte_g e) a (page_addr e).

Definition set_access (page_dir v_addr access : Z) (s : vm) : option (Z * vm) :=
  if user_page_ok page_dir v_addr then
    l ← find_frame s page_dir v_addr;
    if decide (found l = PHYSICAL_FRAME_MAPPED) then
      if bool_decide (access <> READ_ONLY /\ access <> READ_WRITE) then Some (FAIL, s)
      else
        e ← get_pte s (pte_ptr l);
        s ← set_pte (pte_ptr l) (put_rw access e) s;
        Some (OK, s)
    else Some (FAIL, s)
  else Some (FAIL, s).

Definition get_access (page_dir v_addr : Z) (s : vm) : option (Z * option Z) :=
  if user_page_ok page_dir v_addr then
    l ← find_frame s page_dir v_addr;
    if decide (found l = PHYSICAL_FRAME_MAPPED) then
      e ← get_pte s (pte_ptr l); Some (OK, Some (pte_rw e))
    else Some (FAIL, None)
  else Some (FAIL, None).

Definition set_availability (page_dir v_addr availability : Z) (s : vm) : option (Z * vm) :=
  if bool_decide (availability = PAGE_AVAILABLE \/ availability = PAGE_UNAVAILABLE)
     && user_page_ok page_dir v_addr then
    l ← find_frame s page_dir v_addr;
    same ← (if decide (found l = NONPRESENT_PDE) then
              pde ← get_pde s (pde_ptr l); Some (bool_decide (pde_available pde = availability))
            else Some false);
    if (same : bool) then Some (OK, s)
    else
      '(pte, s) ← unmapped_pte l v_addr s;
      match pte with
      | None => Some (FAIL, s)
      | Some pte_ptr =>
          e ← get_pte s pte_ptr;
          s ← set_pte pte_ptr (put_available availability e) s; Some (OK, s)
      end
  else Some (FAIL, s).

Definition get_availability (page_dir v_addr : Z) (s : vm) : option (Z * option Z) :=
  if user_page_ok page_dir v_addr then
    l ← find_frame s page_dir v_addr;
    match found l with
    | NONPRESENT_PDE => pde ← get_pde s (pde_ptr l); Some (OK, Some (pde_available pde))
    | NONPRESENT_PTE => e ← get_pte s (pte_ptr l); Some (OK, Some (pte_available e))
    | _ => Some (FAIL, None)
    end
  else Some (FAIL, None).

End vm_ops.

(** * Specification: what each page maps to *)

(** A user or kernel page of a directory: not present, with its availability,
    or mapped to a frame with its access bits. *)
Inductive page_view : Type :=
| Unmapped (available : Z)
| Mapped (frame rw us : Z).

Definition page_no (v : Z) : Z := Z.shiftr v PAGE_SHIFT.

Definition pte_view (e : pte_t) : page_view :=
  if decide (pte_p e = 0) then Unmapped (pte_available e)
  else Mapped (frame_of e) (pte_rw e) (pte_us e).

Definition view (s : vm) (d v : Z) : option page_view :=
  pde ← get_pde s (d, pde_index v);
  if decide (pde_p pde = 0) then Some (Unmapped (pde_available pde))
  else e ← get_pte s (table_of pde, pte_index v); Some (pte_view e).

(** The view with the page of [v] in [d] changed to [x]. *)
Definition view_upd (V : Z -> Z -> option page_view) (d v : Z) (x : page_view)
    : Z -> Z -> option page_view :=
  fun d' w => if decide (d' = d /\ page_no w = page_no v) then Some x else V d' w.

(** Equality of views on the 32-bit address space. *)
Definition vword (v : Z) : Prop := 0 <= v < 2 ^ 32.
Definition view_is (s : vm) (V : Z -> Z -> option page_view) : Prop :=
  forall d w, vword w -> view s d w = V d w.

Definition page_ok (q : addr) : Prop := 0 < q < 2 ^ 32 /\ q `mod` PAGE_SIZE = 0.
Definition pte_ok (e : pte_t) : Prop :=
  (pte_p e = 0 \/ pte_p e = 1) /\ 0 <= page_addr e < 2 ^ 20.

(** Well-formed directories: every present entry points to a table of its own. *)
Record tables_ok (s : vm) : Prop := {
  dir_ok : forall d es, pdirs s !! d = Some es ->
    page_ok d /\ length es = Z.to_nat PDE_COUNT /\ Forall (fun e => pde_p e = 0 \/ pde_p e = 1) es;
  tab_ok : forall t es, ptabs s !! t = Some es ->
    page_ok t /\ length es = Z.to_nat PTE_COUNT /\ Forall pte_ok es;
  present_ok : forall d i e, get_pde s (d, i) = Some e -> pde_p e <> 0 ->
    is_Some (ptabs s !! table_of e);
  own_ok : forall d i e d' i' e', get_pde s (d, i) = Some e -> get_pde s (d', i') = Some e' ->
    pde_p e <> 0 -> pde_p e' <> 0 -> table_of e = table_of e' -> d = d' /\ i = i';
  fresh_ok : NoDup (page_pool s) /\
    Forall (fun q => page_ok q /\ pdirs s !! q = None /\ ptabs s !! q = None) (page_pool s);
  apart_ok : forall q, is_Some (pdirs s !! q) -> ptabs s !! q = None;
}.

(** The pool of free frames is [F]; kernel pages are mapped to themselves, a
    user page maps the zero frame or a frame that is not free and that no
    other page maps. *)
Record frames_ok (s : vm) (F : list Z) : Prop := {
  pool_ok : pool_is (allocator s) F;
  kernel_ok : forall d v, is_Some (pdirs s !! d) -> 0 <= v < USER_PAGE_START ->
    view s d v = Some (Mapped (page_of v) READ_WRITE 0);
  mapped_ok : forall d v f rw us, vword v -> USER_PAGE_START <= v ->
    view s d v = Some (Mapped f rw us) ->
    f = ZERO_FRAME \/ (user_frame f /\ f ∉ F);
  unique_ok : forall d v f rw us d' v' rw' us', vword v -> vword v' ->
    USER_PAGE_START <= v -> USER_PAGE_START <= v' -> f <> ZERO_FRAME ->
    view s d v = Some (Mapped f rw us) -> view s d' v' = Some (Mapped f rw' us') ->
    d = d' /\ page_no v = page_no v';
}.

Definition vm_ok (s : vm) (F : list Z) : Prop := tables_ok s /\ frames_ok s F.

(** ** Address arithmetic *)

Lemma index_eq v w : 0 <= v -> 0 <= w ->
  (pde_index v = pde_index w /\ pte_index v = pte_index w) <-> page_no v = page_no w.
Proof.
  intros Hv Hw. unfold pde_index, pte_index, page_no.
  set (a := Z.shiftr v PAGE_SHIFT). set (b := Z.shiftr w PAGE_SHIFT).
  assert (0 <= a) by (by apply Z.shiftr_nonneg). assert (0 <= b) by (by apply Z.shiftr_nonneg).
  change PTE_COUNT with 1024. pose proof (Z.div_mod a 1024). pose proof (Z.div_mod b 1024).
  pose proof (Z.mod_pos_bound a 1024). pose proof (Z.mod_pos_bound b 1024).
  pose proof (Z.div_pos a 1024). pose proof (Z.div_pos b 1024).
  split; [intros [Hd Hm]|intros ->; done]. apply Z2Nat.inj in Hd; [|lia..].
  apply Z2Nat.inj in Hm; lia.
Qed.

Lemma page_no_div w : page_no w = w / PAGE_SIZE.
Proof. unfold page_no, PAGE_SHIFT. by rewrite Z.shiftr_div_pow2. Qed.

Lemma page_no_range a w : a `mod` PAGE_SIZE = 0 -> page_no w = page_no a <-> a <= w < a + PAGE_SIZE.
Proof.
  intros Ha. rewrite !page_no_div. change PAGE_SIZE with 4096 in *. pose proof (Z.div_mod a 4096 ltac:(lia)).
  pose proof (Z.div_mod w 4096 ltac:(lia)). pose proof (Z.mod_pos_bound w 4096 ltac:(lia)). lia.
Qed.

Lemma pde_index_bound v : vword v -> (pde_index v < Z.to_nat PDE_COUNT)%nat.
Proof.
  intros [Hv Hv']. unfold pde_index. change PDE_COUNT with 1024. change PTE_COUNT with 1024.
  rewrite Z.shiftr_div_pow2 by (unfold PAGE_SHIFT; lia).
  change (2 ^ PAGE_SHIFT) with 4096. rewrite Z.div_div by lia.
  assert (v / (4096 * 1024) < 1024) by (apply Z.div_lt_upper_bound; lia).
  pose proof (Z.div_pos v (4096 * 1024)). lia.
Qed.

Lemma pte_index_bound v : (pte_index v < Z.to_nat PTE_COUNT)%nat.
Proof.
  unfold pte_index. change PTE_COUNT with 1024.
  pose proof (Z.mod_pos_bound (Z.shiftr v PAGE_SHIFT) 1024). lia.
Qed.

Lemma page_round q : 0 <= q < 2 ^ 32 -> q `mod` PAGE_SIZE = 0 ->
  u32 (Z.shiftl (Z.shiftr q PAGE_SHIFT `mod` 2 ^ 20) PAGE_SHIFT) = q.
Proof.
  intros Hq Hm. unfold PAGE_SHIFT, PAGE_SIZE in *.
  rewrite Z.shiftr_div_pow2, Z.shiftl_mul_pow2 by lia. change (2 ^ 12) with 4096.
  pose proof (Z.div_mod q 4096). assert (0 <= q / 4096 < 2 ^ 20).
  { split; [apply Z.div_pos; lia|apply Z.div_lt_upper_bound; lia]. }
  rewrite (Z.mod_small (q / 4096)) by lia. rewrite u32_small; lia.
Qed.

Lemma table_of_user q : page_ok q -> table_of (pde_user q) = q.
Proof. intros [? ?]. apply page_round; lia. Qed.

Lemma table_of_kernel q b : page_ok q -> table_of (pde_kernel q b) = q.
Proof. intros [? ?]. apply page_round; lia. Qed.

Lemma frame_of_user f rw : 0 <= f < 2 ^ 32 -> f `mod` PAGE_SIZE = 0 -> frame_of (pte_user f rw) = f.
Proof. apply page_round. Qed.

Lemma page_no_page_of v : vword v -> page_no (page_of v) = page_no v.
Proof.
  intros Hv. rewrite page_of_eq by done. unfold page_no, PAGE_SHIFT, PAGE_SIZE.
  rewrite !Z.shiftr_div_pow2 by lia. change (2 ^ 12) with 4096.
  pose proof (Z.div_mod v 4096). replace (v - v `mod` 4096) with (v / 4096 * 4096) by lia.
  by rewrite Z.div_mul.
Qed.

Lemma user_page_start_le v : vword v -> USER_PAGE_START <= page_of v <-> USER_PAGE_START <= v.
Proof.
  intros Hv. rewrite page_of_eq by done. change USER_PAGE_START with (4096 * 4096).
  unfold PAGE_SIZE. pose proof (Z.div_mod v 4096). pose proof (Z.mod_pos_bound v 4096). lia.
Qed.

Lemma user_page_no v w : vword v -> vword w -> page_no v = page_no w ->
  USER_PAGE_START <= v -> USER_PAGE_START <= w.
Proof.
  intros Hv Hw. unfold page_no, PAGE_SHIFT. rewrite !Z.shiftr_div_pow2 by lia.
  change (2 ^ 12) with 4096. change USER_PAGE_START with (4096 * 4096).
  pose proof (Z.div_mod v 4096). pose proof (Z.mod_pos_bound v 4096).
  pose proof (Z.div_mod w 4096). pose proof (Z.mod_pos_bound w 4096). lia.
Qed.

Lemma page_of_no v w : vword v -> vword w -> page_no v = page_no w -> page_of v = page_of w.
Proof.
  intros Hv Hw. rewrite !page_of_eq by done. unfold page_no, PAGE_SHIFT, PAGE_SIZE.
  rewrite !Z.shiftr_div_pow2 by lia. change (2 ^ 12) with 4096.
  pose proof (Z.div_mod v 4096). pose proof (Z.div_mod w 4096). lia.
Qed.

(** ** Stores *)

Lemma get_pde_dir s d i e : get_pde s (d, i) = Some e -> exists es, pdirs s !! d = Some es /\ es !! i = Some e.
Proof. intros (es & ? & ?)%bind_Some. eauto. Qed.

Lemma get_pte_tab s t i e : get_pte s (t, i) = Some e -> exists es, ptabs s !! t = Some es /\ es !! i = Some e.
Proof. intros (es & ? & ?)%bind_Some. eauto. Qed.

Lemma get_pde_some s d v : tables_ok s -> is_Some (pdirs s !! d) -> vword v ->
  exists e, get_pde s (d, pde_index v) = Some e /\ (pde_p e = 0 \/ pde_p e = 1).
Proof.
  intros Ht [es Hes] Hv. destruct (dir_ok _ Ht _ _ Hes) as (_ & Hlen & Hall).
  destruct (lookup_lt_is_Some_2 es (pde_index v)) as [e He].
  { rewrite Hlen. by apply pde_index_bound. }
  exists e. unfold get_pde. simpl. rewrite Hes. simpl. split; [done|].
  by eapply Forall_lookup_1 in Hall.
Qed.

Lemma get_pte_some s d v e : tables_ok s -> get_pde s (d, pde_index v) = Some e ->
  pde_p e <> 0 -> exists e', get_pte s (table_of e, pte_index v) = Some e' /\ pte_ok e'.
Proof.
  intros Ht He Hp. destruct (present_ok _ Ht _ _ _ He Hp) as [es Hes].
  destruct (tab_ok _ Ht _ _ Hes) as (_ & Hlen & Hall).
  destruct (lookup_lt_is_Some_2 es (pte_index v)) as [e' He'].
  { rewrite Hlen. apply pte_index_bound. }
  exists e'. unfold get_pte. simpl. rewrite Hes. simpl. split; [done|].
  by eapply Forall_lookup_1 in Hall.
Qed.

Lemma set_pte_get s t i e e' : get_pte s (t, i) = Some e' ->
  exists s', set_pte (t, i) e s = Some s' /\ allocator s' = allocator s /\
    pdirs s' = pdirs s /\ page_pool s' = page_pool s /\
    (forall t', is_Some (ptabs s' !! t') <-> is_Some (ptabs s !! t')) /\
    (forall t' i', get_pte s' (t', i') = if decide (t' = t /\ i' = i) then Some e else get_pte s (t', i')) /\
    (forall t' es, ptabs s' !! t' = Some es -> exists es0, ptabs s !! t' = Some es0 /\
       length es = length es0 /\ forall P : pte_t -> Prop, Forall P es0 -> P e -> Forall P es).
Proof.
  intros (es & Hes & He)%get_pte_tab. unfold set_pte. simpl. rewrite Hes. simpl. rewrite He. simpl.
  eexists. split; [done|]. split_and!; try done; simpl.
  - intros t'. destruct (decide (t' = t)) as [->|].
    + rewrite lookup_insert_eq, Hes. by split.
    + by rewrite lookup_insert_ne.
  - intros t' i'. unfold get_pte. simpl. destruct (decide (t' = t)) as [->|].
    + rewrite lookup_insert_eq, Hes. simpl. destruct (decide (i' = i)) as [->|].
      * rewrite decide_True by done. rewrite list_lookup_insert_eq; [done|]. by eapply lookup_lt_Some.
      * rewrite decide_False by tauto. by rewrite list_lookup_insert_ne.
    + rewrite decide_False by tauto. by rewrite lookup_insert_ne.
  - intros t' es'. destruct (decide (t' = t)) as [->|].
    + rewrite lookup_insert_eq. intros [= <-]. exists es. split_and!; [done|by rewrite length_insert|].
      intros P HP Pe. by apply Forall_insert.
    + rewrite lookup_insert_ne by done. eauto.
Qed.

(** Storing a PTE changes the view of its page only. *)
Lemma set_pte_view s d v pde e0 e : tables_ok s -> vword v ->
  get_pde s (d, pde_index v) = Some pde -> pde_p pde <> 0 ->
  get_pte s (table_of pde, pte_index v) = Some e0 -> pte_ok e ->
  exists s', set_pte (table_of pde, pte_index v) e s = Some s' /\ tables_ok s' /\
    allocator s' = allocator s /\ page_pool s' = page_pool s /\ dom (pdirs s') = dom (pdirs s) /\
    view_is s' (view_upd (view s) d v (pte_view e)).
Proof.
  intros Ht Hv Hd Hp He0 He.
  destruct (set_pte_get s _ _ e _ He0) as (s' & Hs & Ha & Hdirs & Hpool & Hdom & Hget & Htab).
  exists s'. assert (forall d i, get_pde s' (d, i) = get_pde s (d, i)) as Hpde.
  { intros. unfold get_pde. by rewrite Hdirs. }
  split_and!; [done| |done|done|by rewrite Hdirs|].
  - destruct Ht as [T1 T2 T3 T4 [T5 T6] T7]. split.
    + by rewrite Hdirs.
    + intros t es (es0 & Hes0 & Hlen & HP)%Htab. destruct (T2 _ _ Hes0) as (? & ? & ?).
      split_and!; [done|congruence|]. by apply HP.
    + intros d' i e'. rewrite Hpde, Hdom. apply T3.
    + intros d1 i1 e1 d2 i2 e2. rewrite !Hpde. apply T4.
    + rewrite Hpool. split; [done|]. eapply Forall_impl; [done|]. simpl. rewrite Hdirs.
      intros q (? & ? & Hq). split_and!; [done..|]. apply eq_None_not_Some. rewrite Hdom, Hq.
      by intros [? [=]].
    + intros q. rewrite Hdirs. intros Hq%T7. apply eq_None_not_Some. rewrite Hdom, Hq.
      by intros [? [=]].
  - intros d' w Hw. unfold view_upd, view. rewrite Hpde.
    case_decide as Hc.
    + destruct Hc as [-> [Hi Hj]%index_eq]; [|apply Hw|apply Hv].
      rewrite Hi, Hd. simpl. rewrite decide_False by done. rewrite Hget, decide_True by done. done.
    + destruct (get_pde s (d', pde_index w)) as [pde'|] eqn:Hd'; simpl; [|done].
      case_decide as Hp'; [done|]. rewrite Hget, decide_False; [done|].
      intros [Heq Hj]. apply Hc. destruct (own_ok _ Ht _ _ _ _ _ _ Hd' Hd Hp' Hp Heq) as [-> Hi].
      split; [done|]. apply index_eq; [apply Hw|apply Hv|done].
Qed.

(** [find_frame] reports the view of the page, and where its entries are. *)
Definition found_as (s : vm) (d v : Z) (l : lookup) (x : page_view) : Prop :=
  pde_ptr l = (d, pde_index v) /\
  exists pde, get_pde s (d, pde_index v) = Some pde /\
    if decide (pde_p pde = 0) then
      found l = NONPRESENT_PDE /\ x = Unmapped (pde_available pde)
    else
      pte_ptr l = (table_of pde, pte_index v) /\
      exists e, get_pte s (table_of pde, pte_index v) = Some e /\ pte_ok e /\ x = pte_view e /\
        if decide (pte_p e = 0) then found l = NONPRESENT_PTE
        else found l = PHYSICAL_FRAME_MAPPED /\ found_p_addr l = frame_of e.

Lemma find_frame_found s d v : tables_ok s -> is_Some (pdirs s !! d) -> vword v ->
  exists l x, find_frame s d v = Some l /\ view s d v = Some x /\ found_as s d v l x.
Proof.
  intros Ht Hd Hv. destruct (get_pde_some s d v Ht Hd Hv) as (pde & Hpde & _).
  destruct Hd as [es Hes]. destruct (dir_ok _ Ht _ _ Hes) as [[? _] _].
  unfold find_frame, view, found_as. rewrite decide_False by (unfold NULL; lia). run Hpde.
  case_decide as Hp.
  - do 2 eexists. split_and!; [done..|]. exists pde. split; [done|]. by rewrite decide_True.
  - destruct (get_pte_some s d v pde Ht Hpde Hp) as (e & He & Hok). run He.
    exists (Lookup (if decide (pte_p e = 0) then NONPRESENT_PTE else PHYSICAL_FRAME_MAPPED)
              (d, pde_index v) (table_of pde, pte_index v)
              (if decide (pte_p e = 0) then 0 else frame_of e)), (pte_view e).
    split_and!; [by case_decide|done|done|]. exists pde. split; [done|].
    rewrite decide_False by done. split; [done|]. exists e. split_and!; [done..|].
    simpl. by case_decide.
Qed.

Lemma new_table_ok s q rest es : tables_ok s -> page_pool s = q :: rest ->
  length es = Z.to_nat PTE_COUNT -> Forall pte_ok es ->
  exists s', new_table es s = Some (q, s') /\ tables_ok s' /\ allocator s' = allocator s /\
    pdirs s' = pdirs s /\ page_pool s' = rest /\ ptabs s' = <[q := es]> (ptabs s) /\
    page_ok q /\ ptabs s !! q = None /\ pdirs s !! q = None /\
    (forall d i e, get_pde s (d, i) = Some e -> pde_p e <> 0 -> table_of e <> q).
Proof.
  intros [T1 T2 T3 T4 [T5 T6] T7] Hq Hlen Hes. unfold new_table. rewrite Hq in *.
  apply NoDup_cons in T5 as [Hnin T5]. apply Forall_cons in T6 as [(Hok & Hd & Htb) T6].
  eexists. split; [done|]. simpl.
  assert (forall d i e, get_pde s (d, i) = Some e -> pde_p e <> 0 -> table_of e <> q) as Hne.
  { intros d i e He Hp Heq. destruct (T3 _ _ _ He Hp) as [x Hx]. congruence. }
  split_and!; try done. split; simpl; [done| | |done| |].
  - intros t es' [[<- <-]|[? ?]]%lookup_insert_Some; [done|]. by eapply T2.
  - intros d i e He Hp. apply lookup_insert_is_Some. destruct (decide (q = table_of e)); [by left|].
    right. split; [done|]. by eapply T3.
  - split; [done|]. apply Forall_forall. intros p Hp. rewrite Forall_forall in T6.
    destruct (T6 _ Hp) as (? & ? & ?). split_and!; [done..|]. rewrite lookup_insert_ne; [done|].
    intros ->. done.
  - intros p Hp. rewrite lookup_insert_ne; [by apply T7|]. intros ->. rewrite Hd in Hp.
    by destruct Hp.
Qed.

Lemma set_pde_get s d i e e0 : get_pde s (d, i) = Some e0 ->
  exists s', set_pde (d, i) e s = Some s' /\ allocator s' = allocator s /\
    ptabs s' = ptabs s /\ page_pool s' = page_pool s /\ dom (pdirs s') = dom (pdirs s) /\
    (forall d' i', get_pde s' (d', i') = if decide (d' = d /\ i' = i) then Some e else get_pde s (d', i')) /\
    (forall d' es, pdirs s' !! d' = Some es -> exists es0, pdirs s !! d' = Some es0 /\
       length es = length es0 /\ forall P : pde_t -> Prop, Forall P es0 -> P e -> Forall P es).
Proof.
  intros (es & Hes & He)%get_pde_dir. unfold set_pde. simpl. rewrite Hes. simpl. rewrite He. simpl.
  eexists. split; [done|]. split_and!; try done; simpl.
  - apply dom_insert_lookup_L. by eexists.
  - intros t' i'. unfold get_pde. simpl. destruct (decide (t' = d)) as [->|].
    + rewrite lookup_insert_eq, Hes. simpl. destruct (decide (i' = i)) as [->|].
      * rewrite decide_True by done. rewrite list_lookup_insert_eq; [done|]. by eapply lookup_lt_Some.
      * rewrite decide_False by tauto. by rewrite list_lookup_insert_ne.
    + rewrite decide_False by tauto. by rewrite lookup_insert_ne.
  - intros t' es'. destruct (decide (t' = d)) as [->|].
    + rewrite lookup_insert_eq. intros [= <-]. exists es. split_and!; [done|by rewrite length_insert|].
      intros P HP Pe. by apply Forall_insert.
    + rewrite lookup_insert_ne by done. eauto.
Qed.

(** Adding a page table that inherits the availability changes no view. *)
Lemma create_table_ok s d v l pde : tables_ok s -> vword v ->
  pde_ptr l = (d, pde_index v) -> get_pde s (d, pde_index v) = Some pde -> pde_p pde = 0 ->
  match page_pool s with
  | [] => create_table l v s = Some (None, s)
  | q :: _ => exists s', create_table l v s = Some (Some (q, pte_index v), s') /\
      tables_ok s' /\ allocator s' = allocator s /\ dom (pdirs s') = dom (pdirs s) /\
      view_is s' (view s) /\ get_pde s' (d, pde_index v) = Some (pde_user q) /\
      table_of (pde_user q) = q /\
      get_pte s' (q, pte_index v) = Some (pte_inherit (pde_available pde))
  end.
Proof.
  intros Ht Hv Hl Hpde Hp. unfold create_table. rewrite Hl. run Hpde.
  set (es := replicate _ _). destruct (page_pool s) as [|q rest] eqn:Hq.
  { unfold new_table. by rewrite Hq. }
  assert (Forall pte_ok es) as Hes.
  { apply Forall_replicate. split; simpl; [by left|lia]. }
  destruct (new_table_ok s q rest es Ht Hq) as
    (s1 & Hn & Ht1 & Ha1 & Hd1 & Hp1 & Htab1 & Hqok & Hqn & _ & Hne); [apply length_replicate|done|].
  rewrite Hn. assert (get_pde s1 (d, pde_index v) = Some pde) as Hpde1.
  { unfold get_pde in *. by rewrite Hd1. }
  destruct (set_pde_get s1 d (pde_index v) (pde_user q) pde Hpde1)
    as (s2 & Hs2 & Ha2 & Htab2 & Hp2 & Hdom2 & Hget & Hdirs). run Hs2.
  assert (forall t' i', t' <> q -> get_pte s2 (t', i') = get_pte s (t', i')) as Hpte.
  { intros t' i' Ht'. unfold get_pte. simpl. by rewrite Htab2, Htab1, lookup_insert_ne. }
  assert (forall d' i', get_pde s1 (d', i') = get_pde s (d', i')) as Hpde'.
  { intros. unfold get_pde. by rewrite Hd1. }
  pose proof (table_of_user q Hqok) as Htq.
  assert (pte_index v < Z.to_nat PTE_COUNT)%nat as Hb by apply pte_index_bound.
  exists s2. split_and!; [done| |congruence|congruence| | |done|].
  - destruct Ht1 as [T1 T2 T3 T4 [T5 T6] T7]. split.
    + intros d' es' (es0 & Hes0 & Hlen & HP)%Hdirs. destruct (T1 _ _ Hes0) as (? & ? & ?).
      split_and!; [done|congruence|]. apply HP; [done|]. simpl. by right.
    + by rewrite Htab2.
    + intros d' i' e. rewrite Hget, Htab2. case_decide; [|by apply T3].
      intros [= <-] _. rewrite Htq, Htab1, lookup_insert_eq. by eexists.
    + intros d1 i1 e1 d2 i2 e2. rewrite !Hget.
      destruct (decide (d1 = d /\ i1 = _)) as [[-> ->]|], (decide (d2 = d /\ i2 = _)) as [[-> ->]|].
      * done.
      * rewrite Hpde'. intros [= <-] H2 _ Hp2' Heq. exfalso. eapply Hne; [exact H2|done|]. congruence.
      * rewrite Hpde'. intros H1 [= <-] Hp1' _ Heq. exfalso. eapply Hne; [exact H1|done|]. congruence.
      * apply T4.
    + rewrite Hp2. split; [done|]. eapply Forall_impl; [done|]. simpl. rewrite Htab2.
      intros q' (? & Hq' & ?). split_and!; [done| |done]. apply not_elem_of_dom. rewrite Hdom2.
      by apply not_elem_of_dom.
    + intros p Hpd. rewrite Htab2. apply T7. apply elem_of_dom. rewrite <-Hdom2. by apply elem_of_dom.
  - intros d' w Hw. unfold view. rewrite Hget. case_decide as Hc.
    + destruct Hc as [-> Hi]. rewrite Hi, Hpde. simpl. rewrite (decide_True (P := pde_p pde = 0)) by done.
      rewrite Htq. unfold get_pte. simpl. rewrite Htab2, Htab1, lookup_insert_eq. simpl.
      unfold es. rewrite (lookup_replicate_2 _ _ (pte_index w)) by apply pte_index_bound. done.
    + rewrite Hpde'. destruct (get_pde s (d', pde_index w)) as [e|] eqn:He; simpl; [|done].
      case_decide; [done|]. rewrite Hpte; [done|]. by eapply Hne.
  - rewrite Hget. by rewrite decide_True.
  - unfold get_pte. simpl. rewrite Htab2, Htab1, lookup_insert_eq. simpl.
    unfold es. by rewrite (lookup_replicate_2 _ _ (pte_index v)).
Qed.

(** The slot of an unmapped page, with its table created when needed. *)
(** There is no page table for [v] and no page to make one of. *)
Definition no_table (s : vm) (d v : Z) : bool :=
  match get_pde s (d, pde_index v) with
  | Some pde => bool_decide (pde_p pde = 0 /\ page_pool s = [])
  | None => false
  end.

Lemma no_table_pool s d v : no_table s d v = true -> page_pool s = [].
Proof. unfold no_table. destruct (get_pde _ _); [|done]. by intros [_ ?]%bool_decide_eq_true. Qed.

Lemma no_table_or s d v (P : Prop) : no_table s d v = true \/ P -> page_pool s = [] \/ P.
Proof. intros [?|?]; [left; by eapply no_table_pool|by right]. Qed.

Lemma unmapped_pte_ok s d v l a : tables_ok s -> vword v ->
  found_as s d v l (Unmapped a) ->
  (unmapped_pte l v s = Some (None, s) /\ no_table s d v = true /\ found l = NONPRESENT_PDE) \/
  no_table s d v = false /\
  exists pde e s', unmapped_pte l v s = Some (Some (table_of pde, pte_index v), s') /\
    tables_ok s' /\ allocator s' = allocator s /\ dom (pdirs s') = dom (pdirs s) /\
    view_is s' (view s) /\ get_pde s' (d, pde_index v) = Some pde /\ pde_p pde <> 0 /\
    get_pte s' (table_of pde, pte_index v) = Some e /\ pte_p e = 0 /\ pte_view e = Unmapped a /\ pte_ok e.
Proof.
  intros Ht Hv (Hl & pde & Hpde & Hcase). unfold unmapped_pte, no_table. rewrite Hpde. case_decide as Hp.
  - destruct Hcase as [Hf [= ->]]. rewrite Hf.
    pose proof (create_table_ok s d v l pde Ht Hv Hl Hpde Hp) as Hc.
    destruct (page_pool s) as [|q rest]; [left; by rewrite bool_decide_true|]. right. rewrite bool_decide_false by naive_solver. split; [done|].
    destruct Hc as (s' & H1 & H2 & H3 & H4 & H5 & H6 & H7 & H8).
    exists (pde_user q), (pte_inherit (pde_available pde)), s'. rewrite H7.
    split_and!; try done. split; simpl; [by left|lia].
  - destruct Hcase as (Hptr & e & He & Hok & Hx & Hf). unfold pte_view in *.
    case_decide as Hpe; [|done]. injection Hx as ->. rewrite Hf, Hptr. right. rewrite bool_decide_false by naive_solver. split; [done|].
    exists pde, e, s. split_and!; try done. by rewrite decide_True.
Qed.

(** ** Invariants from views *)

Lemma view_is_pdirs s V : view_is s V -> forall d w, vword w -> view s d w = V d w.
Proof. done. Qed.

Lemma frames_ok_ext s s' F F' :
  frames_ok s F -> pool_is (allocator s') F' -> (forall f, f ∈ F' -> f ∈ F) ->
  dom (pdirs s') = dom (pdirs s) -> view_is s' (view s) -> frames_ok s' F'.
Proof.
  intros [A B C D] Hp Hsub Hdom Hview. split.
  - done.
  - intros d v Hd Hv. assert (vword v) by (unfold vword; change USER_PAGE_START with 16777216 in Hv; lia).
    rewrite Hview by done. apply B; [|done]. apply elem_of_dom. rewrite <-Hdom. by apply elem_of_dom.
  - intros d v f rw us Hw Hv. rewrite Hview by done. intros [?|[? Hf]]%C; [by left| |done..].
    right. split; [done|]. intros ?%Hsub. done.
  - intros d v f rw us d' v' rw' us' ????. rewrite !Hview by done. by apply D.
Qed.

Lemma view_upd_kernel V d v x d' w : vword v -> USER_PAGE_START <= v ->
  0 <= w < USER_PAGE_START -> view_upd V d v x d' w = V d' w.
Proof.
  intros Hv Hu Hw. unfold view_upd. rewrite decide_False; [done|]. intros [_ Hn].
  assert (USER_PAGE_START <= w); [|lia]. eapply user_page_no; [exact Hv| |done|done].
  unfold vword. change USER_PAGE_START with 16777216 in Hw. lia.
Qed.

(** Changing one user page keeps the invariant when its new frame is the zero
    frame, or a frame that is neither free nor mapped. *)
Lemma frames_ok_upd s s' F F' d v x :
  frames_ok s F -> pool_is (allocator s') F' -> dom (pdirs s') = dom (pdirs s) ->
  vword v -> USER_PAGE_START <= v ->
  view_is s' (view_upd (view s) d v x) ->
  (forall d' w f rw us, vword w -> USER_PAGE_START <= w -> f <> ZERO_FRAME ->
     ~ (d' = d /\ page_no w = page_no v) ->
     view s d' w = Some (Mapped f rw us) -> f ∉ F' /\ forall rw' us', x <> Mapped f rw' us') ->
  (forall f rw us, x = Mapped f rw us -> f = ZERO_FRAME \/ (user_frame f /\ f ∉ F')) ->
  frames_ok s' F'.
Proof.
  intros [A B C D] Hp Hdom Hv Hu Hview Hother Hx. split.
  - done.
  - intros d' w Hd Hw. assert (vword w) by (unfold vword; change USER_PAGE_START with 16777216 in Hw; lia).
    rewrite Hview, view_upd_kernel by done. apply B; [|done].
    apply elem_of_dom. rewrite <-Hdom. by apply elem_of_dom.
  - intros d' w f rw us Hw Hwu. rewrite Hview by done. unfold view_upd. case_decide as Hc.
    + intros [= ->]. by eapply Hx.
    + intros Hm. destruct (decide (f = ZERO_FRAME)); [by left|]. right.
      destruct (C _ _ _ _ _ Hw Hwu Hm) as [?|[? _]]; [done|]. split; [done|]. by eapply Hother.
  - intros d1 v1 f rw1 us1 d2 v2 rw2 us2 Hw1 Hw2 Hu1 Hu2 Hf. rewrite !Hview by done. unfold view_upd.
    repeat case_decide.
    + intros _ _. destruct H as [-> H], H0 as [-> H0]. by rewrite H, H0.
    + intros [= ->] Hm. exfalso. eapply Hother; [exact Hw2|done..].
    + intros Hm [= ->]. exfalso. eapply Hother; [exact Hw1|done..].
    + intros Hm1 Hm2. by eapply D; [exact Hw1|..|exact Hm2].
Qed.

(** ** The operations on a user page *)

(** A user page of an existing directory. *)
Definition user_page (s : vm) (d v : Z) : Prop :=
  is_Some (pdirs s !! d) /\ vword v /\ USER_PAGE_START <= v.

Lemma user_page_ok_true s d v : tables_ok s -> user_page s d v -> user_page_ok d v = true.
Proof.
  intros Ht ([es Hd] & Hv & Hu). unfold user_page_ok.
  destruct (dir_ok _ Ht _ _ Hd) as [[? _] _].
  rewrite !bool_decide_true; [done|by apply user_page_start_le|unfold NULL; lia].
Qed.

Lemma user_page_dom s s' d v : dom (pdirs s') = dom (pdirs s) -> user_page s d v -> user_page s' d v.
Proof.
  intros Hdom (Hd & Hv & Hu). split; [|done]. apply elem_of_dom. rewrite Hdom. by apply elem_of_dom.
Qed.

Lemma pte_ok_user f rw : pte_ok (pte_user f rw).
Proof.
  split; simpl; [by right|]. by apply Z.mod_pos_bound.
Qed.

Lemma pte_view_user f rw : 0 <= f < 2 ^ 32 -> f `mod` PAGE_SIZE = 0 ->
  pte_view (pte_user f rw) = Mapped f rw 1.
Proof. intros. unfold pte_view. rewrite decide_False by done. by rewrite frame_of_user. Qed.

Lemma zero_frame_facts : 0 <= ZERO_FRAME < 2 ^ 32 /\ ZERO_FRAME `mod` PAGE_SIZE = 0.
Proof. by vm_compute. Qed.

Lemma user_frame_facts f : user_frame f -> 0 <= f < 2 ^ 32 /\ f `mod` PAGE_SIZE = 0 /\ f <> ZERO_FRAME.
Proof.
  intros [? ?]. unfold ZERO_FRAME. change USER_PAGE_START with 16777216 in *. split_and!; lia.
Qed.

Lemma view_upd_ext s s1 s2 d v x :
  view_is s1 (view s) -> view_is s2 (view_upd (view s1) d v x) -> view_is s2 (view_upd (view s) d v x).
Proof.
  intros H1 H2 d' w Hw. rewrite H2 by done. unfold view_upd. case_decide; [done|]. by apply H1.
Qed.

Lemma view_upd_here V d v x : view_upd V d v x d v = Some x.
Proof. unfold view_upd. by rewrite decide_True. Qed.

Lemma view_upd_id s d v x : vword v ->
  view s d v = Some x -> view_is s (view_upd (view s) d v x).
Proof.
  intros Hv Hx d' w Hw. unfold view_upd. case_decide as Hc; [|done].
  destruct Hc as [-> Hn]. rewrite <-Hx. apply index_eq in Hn as [Hi Hj]; [|apply Hw|apply Hv].
  unfold view. by rewrite Hi, Hj.
Qed.

Lemma pool_is_set s a F : pool_is a F -> pool_is (allocator (with_allocator a s)) F.
Proof. done. Qed.

Lemma tables_ok_allocator a s : tables_ok s -> tables_ok (with_allocator a s).
Proof. intros [T1 T2 T3 T4 T5 T6]. by split. Qed.

Lemma view_allocator a s d v : view (with_allocator a s) d v = view s d v.
Proof. reflexivity. Qed.

(** The list nodes [malloc] can still give to the frame allocator. *)
Abbreviation nodes_left s := (pool (frames (allocator s))).
Definition node_left (s : vm) : bool := bool_decide (nodes_left s <> []).

Section vm_proofs.
Context (me : Z).

(** What [map_new_frame] does on a user page. *)
Definition map_new_outcome (s : vm) (F : list Z) (d v : Z) (r : Z) (s' : vm) : Prop :=
  (r = OK /\ no_table s d v = false /\ exists f F', F = f :: F' /\ vm_ok s' F' /\
     view_is s' (view_upd (view s) d v (Mapped f READ_WRITE 1))) \/
  (r = FAIL /\ vm_ok s' F /\ view_is s' (view s) /\ (no_table s d v = true \/ F = [])).

Lemma map_new_frame_ok s F d v : vm_ok s F -> user_page s d v ->
  exists r s', map_new_frame me d v s = Some (r, s') /\ dom (pdirs s') = dom (pdirs s) /\
    match view s d v with
    | Some (Unmapped _) => map_new_outcome s F d v r s'
    | _ => r = FAIL /\ s' = s
    end.
Proof.
  intros [Ht Hf] Hup. unfold map_new_frame. rewrite (user_page_ok_true s) by done.
  pose proof Hup as (Hd & Hv & Hu).
  destruct (find_frame_found s d v Ht Hd Hv) as (l & x & Hl & Hx & Hfa). run Hl. rewrite Hx.
  destruct x as [a|f rw us].
  - destruct (unmapped_pte_ok s d v l a Ht Hv Hfa) as
      [(Hun & Hpool & _)|(Hnt & pde & e & s1 & Hun & Ht1 & Ha1 & Hdom1 & Hv1 & Hpde & Hp & He & Hpe & _ & _)].
    + run Hun. do 2 eexists. split_and!; [done..|]. right. split_and!; try done. by left.
    + run Hun. pose proof (pool_ok _ _ Hf) as Hpo. rewrite <-Ha1 in Hpo. unfold vm_alloc_frame.
      destruct F as [|f F].
      * destruct (alloc_frame_nil me _ Hpo) as (a' & Hal & Hpo'). run Hal.
        do 2 eexists. split_and!; [done..|]. right. split_and!; [done| |done|by right].
        split; [by apply tables_ok_allocator|]. by eapply frames_ok_ext.
      * destruct (alloc_frame_cons me _ _ _ Hpo) as (a' & Hal & Hpo' & _). run Hal.
        rewrite decide_False by done.
        pose proof (tables_ok_allocator a' _ Ht1) as Ht1'.
        destruct (set_pte_view (with_allocator a' s1) d v pde e (pte_user f READ_WRITE) Ht1' Hv Hpde Hp He)
          as (s2 & Hs2 & Ht2 & Ha2 & _ & Hdom2 & Hv2); [apply pte_ok_user|].
        run Hs2. do 2 eexists. split; [done|]. split; [by rewrite Hdom2|]. left. split; [done|]. split; [done|].
        destruct (pool_ok _ _ Hf) as (_ & _ & Hsort & Huf & _).
        apply Forall_cons in Huf as [Huf _]. pose proof (user_frame_facts f Huf) as (? & ? & ?).
        rewrite pte_view_user in Hv2 by done.
        assert (view_is s2 (view_upd (view s) d v (Mapped f READ_WRITE 1))) as Hv2'.
        { eapply view_upd_ext; [|exact Hv2]. done. }
        exists f, F. split_and!; [done| |done]. split; [done|].
        eapply (frames_ok_upd s s2 (f :: F) F d v); [done| |by rewrite Hdom2| |done|exact Hv2'| |].
        -- by rewrite Ha2.
        -- done.
        -- intros d' w g rw us Hw Hwu Hg _ Hm.
           destruct (mapped_ok _ _ Hf _ _ _ _ _ Hw Hwu Hm) as [?|[_ Hnin]]; [done|].
           split; [set_solver|]. intros rw' us' [= ->]. set_solver.
        -- intros g rw us [= <- <- <-]. right. split; [done|].
           apply sorted_NoDup, NoDup_cons in Hsort. by destruct Hsort.
  - unfold unmapped_pte. destruct Hfa as (_ & pde & _ & Hc). case_decide; [by destruct Hc|].
    destruct Hc as (_ & e & _ & _ & Hx' & Hf'). unfold pte_view in Hx'. case_decide; [done|].
    destruct Hf' as [Hf' _]. rewrite Hf'. simpl. do 2 eexists. by split_and!.
Qed.

(** What [map_zero_frame] does on a user page. *)
Lemma map_zero_frame_ok s F d v : vm_ok s F -> user_page s d v ->
  exists r s', map_zero_frame d v s = Some (r, s') /\ dom (pdirs s') = dom (pdirs s) /\ vm_ok s' F /\
    match view s d v with
    | Some (Unmapped _) =>
        (r = OK /\ no_table s d v = false /\ view_is s' (view_upd (view s) d v (Mapped ZERO_FRAME READ_ONLY 1))) \/
        (r = FAIL /\ s' = s /\ no_table s d v = true)
    | _ => r = FAIL /\ s' = s
    end.
Proof.
  intros [Ht Hf] Hup. unfold map_zero_frame. rewrite (user_page_ok_true s) by done.
  pose proof Hup as (Hd & Hv & Hu).
  destruct (find_frame_found s d v Ht Hd Hv) as (l & x & Hl & Hx & Hfa). run Hl. rewrite Hx.
  destruct x as [a|f rw us].
  - destruct (unmapped_pte_ok s d v l a Ht Hv Hfa) as
      [(Hun & Hpool & _)|(Hnt & pde & e & s1 & Hun & Ht1 & Ha1 & Hdom1 & Hv1 & Hpde & Hp & He & Hpe & _ & _)].
    + run Hun. do 2 eexists. split_and!; [done..|]. right. done.
    + run Hun.
      destruct (set_pte_view s1 d v pde e (pte_user get_zero_frame READ_ONLY) Ht1 Hv Hpde Hp He)
          as (s2 & Hs2 & Ht2 & Ha2 & _ & Hdom2 & Hv2); [apply pte_ok_user|].
      run Hs2. destruct zero_frame_facts as [? ?].
      unfold get_zero_frame in Hv2. rewrite pte_view_user in Hv2 by done.
      pose proof (view_upd_ext _ _ _ _ _ _ Hv1 Hv2) as Hv2'.
      assert (dom (pdirs s2) = dom (pdirs s)) by congruence.
      do 2 eexists. split_and!; [done|done| |by left]. split; [done|].
      eapply (frames_ok_upd s s2 F F d v); [done| |done|done|done|exact Hv2'| |].
      * rewrite Ha2, Ha1. apply Hf.
      * intros d' w g rw us Hw Hwu Hg _ Hm.
        destruct (mapped_ok _ _ Hf _ _ _ _ _ Hw Hwu Hm) as [?|[_ Hnin]]; [done|].
        split; [done|]. intros rw' us' Heq. apply Hg. by injection Heq.
      * intros g rw us Heq. injection Heq. intros; subst. by left.
  - unfold unmapped_pte. destruct Hfa as (_ & pde & _ & Hc). case_decide; [by destruct Hc|].
    destruct Hc as (_ & e & _ & _ & Hx' & Hf'). unfold pte_view in Hx'. case_decide; [done|].
    destruct Hf' as [Hf' _]. rewrite Hf'. simpl. do 2 eexists. by split_and!.
Qed.

Lemma check_user_page_ok s F d v : vm_ok s F -> user_page s d v ->
  exists m, check_user_page d v s = Some (OK, Some m) /\
    match view s d v with
    | Some (Unmapped _) => m = PDE_NOT_PRESENT \/ m = PTE_NOT_PRESENT
    | Some (Mapped f _ _) => m = if decide (f = ZERO_FRAME) then ZERO_FRAME_MAPPED else NEW_FRAME_MAPPED
    | None => False
    end.
Proof.
  intros [Ht Hf] Hup. unfold check_user_page. rewrite (user_page_ok_true s) by done.
  pose proof Hup as (Hd & Hv & Hu).
  destruct (find_frame_found s d v Ht Hd Hv) as (l & x & Hl & Hx & Hfa). run Hl. rewrite Hx.
  destruct Hfa as (_ & pde & _ & Hc). case_decide.
  - destruct Hc as [-> ->]. eauto.
  - destruct Hc as (_ & e & _ & _ & -> & Hf'). unfold pte_view. case_decide.
    + rewrite Hf'. eauto.
    + destruct Hf' as [-> ->]. eauto.
Qed.

(** A mapped page: its entries, and the view change of a store to its PTE. *)
Lemma mapped_found s d v l f rw us : found_as s d v l (Mapped f rw us) ->
  found l = PHYSICAL_FRAME_MAPPED /\ found_p_addr l = f /\
  exists pde e, get_pde s (d, pde_index v) = Some pde /\ pde_p pde <> 0 /\
    pte_ptr l = (table_of pde, pte_index v) /\ get_pte s (table_of pde, pte_index v) = Some e /\
    pte_ok e /\ pte_p e <> 0 /\ frame_of e = f /\ pte_rw e = rw /\ pte_us e = us.
Proof.
  intros (_ & pde & Hpde & Hc). case_decide; [by destruct Hc|].
  destruct Hc as (Hptr & e & He & Hok & Hx & Hf). unfold pte_view in Hx. case_decide; [done|].
  injection Hx as -> -> ->. destruct Hf as [-> ->]. split_and!; [done..|]. exists pde, e. done.
Qed.

Lemma unmapped_found s d v l a : found_as s d v l (Unmapped a) ->
  found l <> PHYSICAL_FRAME_MAPPED.
Proof.
  intros (_ & pde & Hpde & Hc). case_decide; [by destruct Hc as [-> _]|].
  destruct Hc as (Hptr & e & He & Hok & Hx & Hf). unfold pte_view in Hx.
  case_decide; [by rewrite Hf|done].
Qed.

Lemma vm_free_frame_ok s F a : pool_is (allocator s) F -> vword a ->
  exists r s' F', vm_free_frame me a s = Some (r, s') /\ s' = with_allocator (allocator s') s /\
    pool_is (allocator s') F' /\ (forall f, f ∈ F -> f ∈ F') /\ (forall f, f ∈ F' -> f ∈ F \/ f = page_of a) /\
    (pool (frames (allocator s)) <> [] -> USER_PAGE_START < page_of a -> page_of a ∈ F') /\
    (USER_PAGE_START < page_of a -> page_of a ∈ F' \/ nodes_left s' = []) /\
    (nodes_left s = [] -> nodes_left s' = []) /\
    F' = (if decide (USER_PAGE_START < page_of a /\ page_of a ∉ F /\ node_left s = true) then insert_frame (page_of a) F else F).
Proof.
  intros Hp Ha. unfold vm_free_frame, node_left.
  destruct (free_frame_correct me _ F a Hp Ha) as (r & a' & Hf & Ho). run Hf.
  exists r, (with_allocator a' s). unfold free_outcome in Ho. case_bool_decide as Hc.
  - case_bool_decide as Hin.
    + destruct Ho as (_ & Ho & Hn). exists F. simpl. rewrite Hn. split_and!; [done..|auto|auto|auto|auto|auto|]. by rewrite decide_False by naive_solver.
    + simpl. destruct (nodes_left s) eqn:Hpool; destruct Ho as (_ & Ho & Hn).
      * exists F. split_and!; [done..|auto|auto|done|auto|auto|]. by rewrite decide_False by naive_solver.
      * exists (insert_frame (page_of a) F). split_and!; [done..| | | | |done|].
        -- intros f. rewrite elem_of_insert_frame. auto.
        -- intros f. rewrite elem_of_insert_frame. tauto.
        -- intros. rewrite elem_of_insert_frame. auto.
        -- intros. rewrite elem_of_insert_frame. auto.
        -- rewrite decide_True; [done|]. split; [unfold ZERO_FRAME in *; lia|]. split; [done|]. by apply bool_decide_eq_true.
  - destruct Ho as [_ ->]. exists F. split_and!; [done..|auto|auto| | |auto|].
    1-2: intros; exfalso; apply Hc; unfold ZERO_FRAME; lia.
    rewrite decide_False; [done|]. intros [? _]. apply Hc; unfold ZERO_FRAME; lia.
Qed.

(** [unmap_frame] makes a mapped user page available and gives its frame back. *)
Lemma unmap_frame_ok s F d v : vm_ok s F -> user_page s d v ->
  exists r s' F', unmap_frame me d v s = Some (r, s') /\ dom (pdirs s') = dom (pdirs s) /\ vm_ok s' F' /\
    match view s d v with
    | Some (Mapped f _ _) =>
        r = OK /\ view_is s' (view_upd (view s) d v (Unmapped PAGE_AVAILABLE)) /\
        (forall g, g ∈ F -> g ∈ F') /\ (forall g, g ∈ F' -> g ∈ F \/ g = f) /\
        F' = (if decide (f <> ZERO_FRAME /\ node_left s = true) then insert_frame f F else F)
    | _ => r = FAIL /\ s' = s /\ F' = F
    end.
Proof.
  intros [Ht Hf] Hup. unfold unmap_frame. rewrite (user_page_ok_true s) by done.
  pose proof Hup as (Hd & Hv & Hu).
  destruct (find_frame_found s d v Ht Hd Hv) as (l & x & Hl & Hx & Hfa). run Hl. rewrite Hx.
  destruct x as [a|f rw us].
  { rewrite decide_False by (by eapply unmapped_found). do 3 eexists. by split_and!. }
  destruct (mapped_found _ _ _ _ _ _ _ Hfa) as
    (Hfound & Hpa & pde & e & Hpde & Hp & Hptr & He & Heok & _ & Hfr & _).
  rewrite decide_True by done. rewrite Hptr, Hpa.
  destruct (set_pte_view s d v pde e (pte_inherit PAGE_AVAILABLE) Ht Hv Hpde Hp He)
    as (s1 & Hs1 & Ht1 & Ha1 & Hpl1 & Hdom1 & Hv1); [split; simpl; [by left|lia]|]. run Hs1.
  assert (vword f) as Hfw by (rewrite <-Hfr; apply u32_range).
  assert (f = ZERO_FRAME \/ user_frame f /\ f ∉ F) as Hff by (by eapply (mapped_ok _ _ Hf); [| |exact Hx]).
  assert (page_of f = f) as Hpf.
  { apply page_of_id; [done|]. destruct Hff as [->|[[_ ?] _]]; done. }
  pose proof (pool_ok _ _ Hf) as Hpo. rewrite <-Ha1 in Hpo.
  destruct (vm_free_frame_ok s1 F f Hpo Hfw) as (r & s2 & F' & Hfree & Hs2 & Hpo2 & Hi1 & Hi2 & Hi3 & _ & _ & HF').
  run Hfree. rewrite Hpf in *.
  assert (view_is s2 (view_upd (view s) d v (Unmapped PAGE_AVAILABLE))) as Hv2.
  { intros d' w Hw. rewrite Hs2, view_allocator. by apply Hv1. }
  do 3 eexists. split; [done|]. split; [by rewrite Hs2|]. split.
  - split; [rewrite Hs2; by apply tables_ok_allocator|].
    eapply (frames_ok_upd s s2 F F' d v); [done|done|by rewrite Hs2|done|done|exact Hv2| |done].
    intros d' w g rw' us' Hw Hwu Hg Hne Hm. split; [|done].
    intros [Hin| ->]%Hi2.
    + destruct (mapped_ok _ _ Hf _ _ _ _ _ Hw Hwu Hm) as [?|[_ ?]]; done.
    + apply Hne. by eapply (unique_ok _ _ Hf); [exact Hw|exact Hv|..|exact Hm|exact Hx].
  - split_and!; [done|done|done|done|]. rewrite HF'. unfold node_left. rewrite Ha1.
    destruct Hff as [->|[[? ?] ?]]; [|].
    { rewrite (decide_False (P := ZERO_FRAME <> _ /\ _)) by (by intros [? _]). rewrite decide_False; [done|].
      intros [Hlt _]. unfold ZERO_FRAME in Hlt. lia. }
    assert (f <> ZERO_FRAME) by (unfold ZERO_FRAME; lia). apply decide_ext. tauto.
Qed.

(** Changing the flags of a mapped page, its frame left alone. *)
Lemma set_flags_ok s F d v pde e e' f rw us : vm_ok s F -> user_page s d v ->
  get_pde s (d, pde_index v) = Some pde -> pde_p pde <> 0 ->
  get_pte s (table_of pde, pte_index v) = Some e -> view s d v = Some (Mapped f rw us) ->
  pte_ok e' -> pte_view e' = Mapped f (pte_rw e') (pte_us e') ->
  exists s', set_pte (table_of pde, pte_index v) e' s = Some s' /\ dom (pdirs s') = dom (pdirs s) /\ vm_ok s' F /\
    view_is s' (view_upd (view s) d v (Mapped f (pte_rw e') (pte_us e'))).
Proof.
  intros [Ht Hf] (Hd & Hv & Hu) Hpde Hp He Hx Hok Hpv.
  destruct (set_pte_view s d v pde e e' Ht Hv Hpde Hp He) as (s1 & Hs1 & Ht1 & Ha1 & Hpl1 & Hdom1 & Hv1); [done|].
  rewrite Hpv in Hv1. exists s1. split; [done|]. split; [done|]. split; [|done]. split; [done|].
  eapply (frames_ok_upd s s1 F F d v); [done|rewrite Ha1; apply Hf|done|done|done|exact Hv1| |].
  - intros d' w g rw' us' Hw Hwu Hg Hne Hm. split.
    + destruct (mapped_ok _ _ Hf _ _ _ _ _ Hw Hwu Hm) as [?|[_ ?]]; done.
    + intros ?? [= -> _ _]. apply Hne. by eapply (unique_ok _ _ Hf); [exact Hw|exact Hv|..|exact Hm|exact Hx].
  - intros g rw' us' [= <- _ _]. by eapply (mapped_ok _ _ Hf); [| |exact Hx].
Qed.

Lemma set_access_ok s F d v access : vm_ok s F -> user_page s d v ->
  exists r s', set_access d v access s = Some (r, s') /\ dom (pdirs s') = dom (pdirs s) /\ vm_ok s' F /\
    match view s d v with
    | Some (Mapped f _ us) =>
        if decide (access = READ_ONLY \/ access = READ_WRITE)
        then r = OK /\ view_is s' (view_upd (view s) d v (Mapped f access us))
        else r = FAIL /\ s' = s
    | _ => r = FAIL /\ s' = s
    end.
Proof.
  intros [Ht Hf] Hup. unfold set_access. rewrite (user_page_ok_true s) by done.
  pose proof Hup as (Hd & Hv & Hu).
  destruct (find_frame_found s d v Ht Hd Hv) as (l & x & Hl & Hx & Hfa). run Hl. rewrite Hx.
  destruct x as [a|f rw us].
  { rewrite decide_False by (by eapply unmapped_found). do 2 eexists. by split_and!. }
  destruct (mapped_found _ _ _ _ _ _ _ Hfa) as
    (Hfound & Hpa & pde & e & Hpde & Hp & Hptr & He & Heok & Hpe & Hfr & _ & Hus).
  rewrite decide_True by done. rewrite Hptr. case_bool_decide as Hacc.
  { do 2 eexists. split_and!; [done..|]. rewrite decide_False by tauto. done. }
  assert (access = READ_ONLY \/ access = READ_WRITE) as Hacc' by (unfold READ_ONLY, READ_WRITE in *; lia).
  run He.
  assert (pte_view (put_rw access e) = Mapped f access us) as Hpv.
  { unfold pte_view, put_rw, frame_of in *. simpl. rewrite decide_False by done. by rewrite Hfr, Hus. }
  destruct (set_flags_ok s F d v pde e (put_rw access e) f rw us) as (s1 & Hs1 & Hdom1 & Hok1 & Hv1);
    [done|done|done|done|done|done|done|by cbn; rewrite Hpv, Hus|].
  run Hs1. cbn [put_rw pte_rw pte_us] in Hv1. rewrite Hus in Hv1.
  do 2 eexists. split_and!; [done..|]. by rewrite decide_True.
Qed.

Lemma get_access_ok s F d v : vm_ok s F -> user_page s d v ->
  get_access d v s = Some (match view s d v with
                           | Some (Mapped _ rw _) => (OK, Some rw)
                           | _ => (FAIL, None)
                           end).
Proof.
  intros [Ht Hf] Hup. unfold get_access. rewrite (user_page_ok_true s) by done.
  pose proof Hup as (Hd & Hv & Hu).
  destruct (find_frame_found s d v Ht Hd Hv) as (l & x & Hl & Hx & Hfa). run Hl. rewrite Hx.
  destruct x as [a|f rw us]; [by rewrite decide_False by (by eapply unmapped_found)|].
  destruct (mapped_found _ _ _ _ _ _ _ Hfa) as
    (Hfound & Hpa & pde & e & Hpde & Hp & Hptr & He & Heok & Hpe & Hfr & Hrw & Hus).
  rewrite decide_True by done. rewrite Hptr. run He. by rewrite Hrw.
Qed.

Lemma get_availability_ok s F d v : vm_ok s F -> user_page s d v ->
  get_availability d v s = Some (match view s d v with
                                 | Some (Unmapped a) => (OK, Some a)
                                 | _ => (FAIL, None)
                                 end).
Proof.
  intros [Ht Hf] Hup. unfold get_availability. rewrite (user_page_ok_true s) by done.
  pose proof Hup as (Hd & Hv & Hu).
  destruct (find_frame_found s d v Ht Hd Hv) as (l & x & Hl & Hx & Hfa). run Hl. rewrite Hx.
  destruct Hfa as (Hptr0 & pde & Hpde & Hc). case_decide.
  - destruct Hc as [-> ->]. rewrite Hptr0. by run Hpde.
  - destruct Hc as (Hptr & e & He & _ & -> & Hf'). unfold pte_view. case_decide.
    + rewrite Hf', Hptr. by run He.
    + by destruct Hf' as [-> _].
Qed.

Lemma set_availability_ok s F d v a : vm_ok s F -> user_page s d v ->
  exists r s', set_availability d v a s = Some (r, s') /\ dom (pdirs s') = dom (pdirs s) /\ vm_ok s' F /\
    match view s d v with
    | Some (Unmapped a0) =>
        if decide (a = PAGE_AVAILABLE \/ a = PAGE_UNAVAILABLE) then
          (r = OK /\ (a0 = a \/ no_table s d v = false) /\ view_is s' (view_upd (view s) d v (Unmapped a))) \/
          (r = FAIL /\ s' = s /\ a0 <> a /\ no_table s d v = true)
        else r = FAIL /\ s' = s
    | _ => r = FAIL /\ s' = s
    end.
Proof.
  intros [Ht Hf] Hup. unfold set_availability. case_bool_decide as Ha; cbn [andb].
  2:{ do 2 eexists. split_and!; [done..|].
    destruct (view s d v) as [[a0|]|]; [|done|done]. by rewrite (decide_False _ _ Ha). }
  rewrite (user_page_ok_true s) by done.
  pose proof Hup as (Hd & Hv & Hu).
  destruct (find_frame_found s d v Ht Hd Hv) as (l & x & Hl & Hx & Hfa). run Hl. rewrite Hx.
  destruct x as [a0|f rw us].
  - assert (exists same, (if decide (found l = NONPRESENT_PDE) then
              pde ← get_pde s (pde_ptr l); Some (bool_decide (pde_available pde = a))
              else Some false) = Some same /\ (same = true -> a0 = a) /\
              (found l = NONPRESENT_PDE -> a0 = a -> same = true)) as (same & Hsame & Heq & Hne).
    { destruct Hfa as (Hptr0 & pde & Hpde & Hc).
      destruct (decide (found l = NONPRESENT_PDE)) as [Hn|]; [|by eexists].
      assert (a0 = pde_available pde) as ->.
      { destruct (decide (pde_p pde = 0)) as [|]; [by destruct Hc as [_ [= ->]]|].
        destruct Hc as (_ & e & _ & _ & _ & Hf').
        destruct (decide (pte_p e = 0)); [congruence|]. destruct Hf'. congruence. }
      rewrite Hptr0. run Hpde. eexists. split; [done|]. split; [by intros Hb%bool_decide_eq_true|].
      intros _. apply bool_decide_eq_true_2. }
    run Hsame. destruct same.
    { rewrite (Heq eq_refl) in Hx |- *. do 2 eexists. split_and!; [done..|]. rewrite decide_True by done. left. split; [done|].
      split; [by left|]. by apply view_upd_id. }
    destruct (unmapped_pte_ok s d v l a0 Ht Hv Hfa) as
      [(Hun & Hpool & Hnp)|(Hnt & pde & e & s1 & Hun & Ht1 & Ha1 & Hdom1 & Hv1 & Hpde & Hp & He & Hpe & _ & Heok)].
    + run Hun. do 2 eexists. split_and!; [done..|]. rewrite decide_True by done. right. split; [done|]. split; [done|].
      split; [|done]. intros E. by specialize (Hne Hnp E).
    + run Hun. run He.
      destruct (set_pte_view s1 d v pde e (put_available a e) Ht1 Hv Hpde Hp He)
          as (s2 & Hs2 & Ht2 & Ha2 & _ & Hdom2 & Hv2); [done|].
      run Hs2. assert (pte_view (put_available a e) = Unmapped a) as Hpv.
      { unfold pte_view, put_available. simpl. by rewrite decide_True. }
      rewrite Hpv in Hv2. pose proof (view_upd_ext _ _ _ _ _ _ Hv1 Hv2) as Hv2'.
      assert (dom (pdirs s2) = dom (pdirs s)) by congruence.
      do 2 eexists. split_and!; [done|done| |rewrite decide_True by done; left; by auto]. split; [done|].
      eapply (frames_ok_upd s s2 F F d v); [done| |done|done|done|exact Hv2'| |done].
      * rewrite Ha2, Ha1. apply Hf.
      * intros d' w g rw us Hw Hwu Hg _ Hm.
        destruct (mapped_ok _ _ Hf _ _ _ _ _ Hw Hwu Hm) as [?|[_ Hnin]]; [done|]. by split.
  - destruct (mapped_found _ _ _ _ _ _ _ Hfa) as (Hfound & _). rewrite decide_False by congruence.
    cbn [mbind option_bind]. unfold unmapped_pte. rewrite Hfound. simpl. do 2 eexists. by split_and!.
Qed.


(** ** Destruction *)

(** From [s] to [s'] the pool grows by frames satisfying [P] only, and by all of
    them unless [malloc] runs out of nodes; nothing else of [s] changes. *)
Definition frees (P : Z -> Prop) (s s' : vm) : Prop :=
  s' = with_allocator (allocator s') s /\
  (nodes_left s = [] -> nodes_left s' = []) /\
  forall F, pool_is (allocator s) F -> exists F', pool_is (allocator s') F' /\
    (forall f, f ∈ F -> f ∈ F') /\ (forall f, f ∈ F' -> f ∈ F \/ P f) /\
    (forall f, P f -> USER_PAGE_START < f -> f ∈ F' \/ nodes_left s' = []).

Lemma frees_refl s : frees (fun _ => False) s s.
Proof. split; [by destruct s|]. split; [done|]. intros F HF. exists F. naive_solver. Qed.

Lemma frees_trans P Q s1 s2 s3 :
  frees P s1 s2 -> frees Q s2 s3 -> frees (fun f => P f \/ Q f) s1 s3.
Proof.
  intros (E1 & N1 & H1) (E2 & N2 & H2). split; [rewrite E2, E1; done|]. split; [auto|].
  intros F HF. destruct (H1 F HF) as (F1 & HF1 & A1 & B1 & C1).
  destruct (H2 F1 HF1) as (F2 & HF2 & A2 & B2 & C2). exists F2.
  split_and!; [done|auto| |].
  - intros f [Hf|?]%B2; [apply B1 in Hf|]; tauto.
  - intros f [HP|HQ] Hu; [|auto]. destruct (C1 f HP Hu); auto.
Qed.

Lemma frees_weaken (P Q : Z -> Prop) s s' : (forall f, P f <-> Q f) -> frees P s s' -> frees Q s s'.
Proof.
  intros HPQ (E & N & H). split; [done|]. split; [done|]. intros F HF.
  destruct (H F HF) as (F' & ? & ? & Hb & Hc). exists F'. split_and!; [done|done| |].
  - intros f [?|?%HPQ]%Hb; auto.
  - intros f ?%HPQ. auto.
Qed.

Lemma vm_free_frame_frees s F a : pool_is (allocator s) F -> vword a ->
  exists r s', vm_free_frame me a s = Some (r, s') /\ frees (fun f => f = page_of a) s s'.
Proof.
  intros HF Ha. destruct (vm_free_frame_ok s F a HF Ha)
    as (r & s' & _ & Hf & Hs & _ & _ & _ & _ & _ & Hn & _).
  exists r, s'. split; [done|]. split; [done|]. split; [done|]. intros F1 HF1.
  destruct (vm_free_frame_ok s F1 a HF1 Ha) as (r' & s1 & F' & Hf' & _ & ? & ? & ? & _ & ? & _ & _).
  rewrite Hf in Hf'. injection Hf' as <- <-. exists F'. split_and!; [done..|]. intros f ->. auto.
Qed.

(** The frames a run of [free_mapped] frees. *)
Definition user_frames (es : list pte_t) (i j : Z) (f : Z) : Prop :=
  exists k e, es !! k = Some e /\ pte_p e = 1 /\
    i * PTE_COUNT + (j + Z.of_nat k) >= kernel_page_count /\ page_of (frame_of e) = f.

Lemma user_frames_cons e es i j f : user_frames (e :: es) i j f <->
  (pte_p e = 1 /\ i * PTE_COUNT + j >= kernel_page_count /\ page_of (frame_of e) = f) \/
  user_frames es i (j + 1) f.
Proof.
  split.
  - intros ([|k] & e' & He & Hp & Hk & <-); simpl in He.
    + injection He as <-. left. split_and!; [done|lia|done].
    + right. exists k, e'. split_and!; [done|done|lia|done].
  - intros [(Hp & Hk & <-)|(k & e' & He & Hp & Hk & <-)].
    + exists 0%nat, e. split_and!; [done|done|lia|done].
    + exists (S k), e'. split_and!; [done|done|lia|done].
Qed.

Lemma free_mapped_frees es i : forall j s F, pool_is (allocator s) F ->
  exists s', free_mapped me es i j s = Some s' /\ frees (user_frames es i j) s s'.
Proof.
  induction es as [|e es IH]; intros j s F HF; cbn [free_mapped].
  - exists s. split; [done|]. eapply frees_weaken; [|apply frees_refl].
    intros f. split; [done|]. by intros ([|] & ? & ? & _).
  - case_bool_decide as Hc.
    + destruct (vm_free_frame_frees s F (frame_of e) HF) as (r & s1 & Hf & Hfr); [apply u32_range|].
      run Hf. pose proof Hfr as (_ & _ & H). destruct (H F HF) as (F1 & HF1 & _).
      destruct (IH (j + 1) s1 F1 HF1) as (s' & Hs' & Hfr'). exists s'. split; [done|].
      eapply frees_weaken; [|exact (frees_trans _ _ _ _ _ Hfr Hfr')].
      intros f. rewrite user_frames_cons. naive_solver.
    + cbn [mbind option_bind]. destruct (IH (j + 1) s F HF) as (s' & Hs' & Hfr'). exists s'.
      split; [done|]. eapply frees_weaken; [|exact Hfr']. intros f. rewrite user_frames_cons. tauto.
Qed.

(** The tables of the present entries of a directory. *)
Definition tables_in (es : list pde_t) : list addr :=
  table_of <$> filter (fun e => pde_p e = 1) es.

Lemma tables_in_cons e es :
  tables_in (e :: es) = if decide (pde_p e = 1) then table_of e :: tables_in es else tables_in es.
Proof. unfold tables_in. rewrite filter_cons. by case_decide. Qed.

(** The frames a run of [free_entries] frees. *)
Definition dir_frames (s : vm) (es : list pde_t) (i : Z) (f : Z) : Prop :=
  exists k e t, es !! k = Some e /\ pde_p e = 1 /\ ptabs s !! table_of e = Some t /\
    user_frames t (i + Z.of_nat k) 0 f.

Lemma dir_frames_absent s e es i f : pde_p e <> 1 -> dir_frames s (e :: es) i f <-> dir_frames s es (i + 1) f.
Proof.
  intros Hp. split.
  - intros ([|k] & e' & t & He & Hp' & Ht & Hu); simpl in He; [congruence|].
    exists k, e', t. by replace (i + 1 + Z.of_nat k) with (i + Z.of_nat (S k)) by lia.
  - intros (k & e' & t & He & Hp' & Ht & Hu). exists (S k), e', t.
    by replace (i + Z.of_nat (S k)) with (i + 1 + Z.of_nat k) by lia.
Qed.

Lemma dir_frames_present s s2 e t es i f : pde_p e = 1 -> ptabs s !! table_of e = Some t -> table_of e ∉ tables_in es ->
  ptabs s2 = delete (table_of e) (ptabs s) ->
  dir_frames s (e :: es) i f <-> user_frames t i 0 f \/ dir_frames s2 es (i + 1) f.
Proof.
  intros Hp Ht Hnin E2. split.
  - intros ([|k] & e' & t' & He' & Hp' & Ht' & Hu); simpl in He'.
    + injection He' as <-. left. rewrite Ht in Ht'. injection Ht' as <-. by replace (i + Z.of_nat 0) with i in Hu by lia.
    + right. exists k, e', t'. replace (i + 1 + Z.of_nat k) with (i + Z.of_nat (S k)) by lia.
      split_and!; [done|done| |done]. rewrite E2, lookup_delete_ne; [done|].
      intros Heq. apply Hnin. rewrite Heq. unfold tables_in. apply list_elem_of_fmap.
      exists e'. split; [done|]. apply list_elem_of_filter. split; [done|]. by eapply list_elem_of_lookup_2.
  - intros [Hu|(k & e' & t' & He' & Hp' & Ht' & Hu)].
    + exists 0%nat, e, t. by replace (i + Z.of_nat 0) with i by lia.
    + exists (S k), e', t'. rewrite E2 in Ht'. apply lookup_delete_Some in Ht' as [_ Ht'].
      by replace (i + Z.of_nat (S k)) with (i + 1 + Z.of_nat k) by lia.
Qed.

Lemma free_entries_ok es : forall i s F, pool_is (allocator s) F ->
  NoDup (tables_in es) -> (forall t, t ∈ tables_in es -> is_Some (ptabs s !! t)) ->
  exists s', free_entries me es i s = Some s' /\ pdirs s' = pdirs s /\
    page_pool s' = page_pool s ++ tables_in es /\
    (forall t, ptabs s' !! t = if decide (t ∈ tables_in es) then None else ptabs s !! t) /\
    (nodes_left s = [] -> nodes_left s' = []) /\
    exists F', pool_is (allocator s') F' /\
      (forall f, f ∈ F -> f ∈ F') /\ (forall f, f ∈ F' -> f ∈ F \/ dir_frames s es i f) /\
      (forall f, dir_frames s es i f -> USER_PAGE_START < f -> f ∈ F' \/ nodes_left s' = []).
Proof.
  induction es as [|e es IH]; intros i s F HF Hnd Hin; cbn [free_entries].
  - exists s. split_and!; try done. { by rewrite app_nil_r. }
    exists F. split_and!; [done|done|auto|]. intros f ([|] & ? & ? & ? & _); done.
  - rewrite tables_in_cons in *. destruct (decide (pde_p e = 1)) as [Hp|Hp].
    + destruct (Hin (table_of e)) as [t Ht]; [left|]. run Ht.
      destruct (free_mapped_frees t i 0 s F HF) as (s1 & Hs1 & E1 & N1 & H1). run Hs1.
      destruct (H1 F HF) as (F1 & HF1 & A1 & B1 & C1).
      unfold free_table. rewrite E1. cbn [ptabs with_allocator]. run Ht.
      set (s2 := Vm _ _ _ _). apply NoDup_cons in Hnd as [Hnin Hnd].
      destruct (IH (i + 1) s2 F1) as (s' & Hs' & Hdirs & Hpp & Htabs & N2 & F2 & HF2 & A2 & B2 & C2); [done|done| |].
      { intros t' Ht'. simpl. rewrite lookup_delete_ne; [apply Hin; by right|]. intros Heq. by rewrite <-Heq in Ht'. }
      pose proof (fun f => dir_frames_present s s2 e t es i f Hp Ht Hnin eq_refl) as Hdf.
      exists s'. split; [done|]. rewrite Hdirs, Hpp. split_and!; [done| | |auto|].
      * simpl. by rewrite <-(assoc_L (++)).
      * intros t'. rewrite Htabs. simpl. destruct (decide (t' = table_of e)) as [->|].
        { rewrite lookup_delete_eq, (decide_True (P := _ ∈ _ :: _)) by left. by case_decide. }
        rewrite lookup_delete_ne by done. repeat case_decide; set_solver.
      * exists F2. split_and!; [done|auto| |].
        -- intros f Hf. rewrite Hdf. apply B2 in Hf as [Hf|?]; [apply B1 in Hf as [?|?]|]; auto.
        -- intros f [Hf|Hf]%Hdf Hu; [|auto]. destruct (C1 f Hf Hu) as [?|Hn]; [auto|]. right. by apply N2.
    + cbn [mbind option_bind].
      destruct (IH (i + 1) s F HF Hnd Hin) as (s' & Hs' & Hdirs & Hpp & Htabs & N2 & F2 & HF2 & A2 & B2 & C2).
      exists s'. split_and!; try done. exists F2. split_and!; [done|auto| |].
      * intros f Hf. rewrite dir_frames_absent by done. auto.
      * intros f. rewrite dir_frames_absent by done. auto.
Qed.

(** A frame freed from a directory is one its pages map, and conversely. *)
Lemma page_of_index i j v : 0 <= i < PDE_COUNT -> 0 <= j < PTE_COUNT ->
  v = (i * PTE_COUNT + j) * PAGE_SIZE ->
  vword v /\ pde_index v = Z.to_nat i /\ pte_index v = Z.to_nat j.
Proof.
  change PDE_COUNT with 1024. unfold pde_index, pte_index. change PTE_COUNT with 1024.
  unfold PAGE_SIZE, PAGE_SHIFT, vword. intros Hi Hj ->. split; [lia|].
  rewrite Z.shiftr_div_pow2 by lia. change (2 ^ 12) with 4096. rewrite Z.div_mul by lia.
  rewrite Z.div_add_l, Z.div_small by lia. replace (i * 1024 + j) with (j + i * 1024) by lia.
  rewrite Z.mod_add, Z.mod_small by lia.
  split; f_equal; lia.
Qed.

Lemma index_page v : vword v ->
  Z.of_nat (pde_index v) * PTE_COUNT + Z.of_nat (pte_index v) = page_no v.
Proof.
  intros Hv. unfold pde_index, pte_index, page_no. change PTE_COUNT with 1024.
  assert (0 <= Z.shiftr v PAGE_SHIFT) by (apply Z.shiftr_nonneg; apply Hv).
  set (a := Z.shiftr v PAGE_SHIFT) in *. pose proof (Z.div_mod a 1024).
  pose proof (Z.mod_pos_bound a 1024). pose proof (Z.div_pos a 1024). lia.
Qed.

Lemma page_no_user v : vword v -> USER_PAGE_START <= v <-> kernel_page_count <= page_no v.
Proof.
  intros [? ?]. unfold page_no, PAGE_SHIFT. rewrite Z.shiftr_div_pow2 by lia.
  change (2 ^ 12) with 4096. change USER_PAGE_START with (4096 * 4096).
  change kernel_page_count with 4096. pose proof (Z.div_mod v 4096).
  pose proof (Z.mod_pos_bound v 4096). lia.
Qed.

Definition maps_frame (s : vm) (d f : Z) : Prop :=
  exists v rw us, vword v /\ USER_PAGE_START <= v /\ view s d v = Some (Mapped f rw us).

Lemma frame_of_page s F d v f rw us : frames_ok s F -> vword v -> USER_PAGE_START <= v ->
  view s d v = Some (Mapped f rw us) -> page_of f = f.
Proof.
  intros Hf Hv Hu Hm. destruct (mapped_ok _ _ Hf _ _ _ _ _ Hv Hu Hm) as [->|[[Hr Hm'] _]].
  - by vm_compute.
  - apply page_of_id; [|done]. change USER_PAGE_START with 16777216 in Hr. lia.
Qed.

Lemma dir_frames_maps s F d es f : vm_ok s F -> pdirs s !! d = Some es ->
  dir_frames s es 0 f <-> maps_frame s d f.
Proof.
  intros [Ht Hf] Hd. destruct (dir_ok _ Ht _ _ Hd) as (_ & Hlen & Hall). split.
  - intros (k & e & t & He & Hp & Htab & k' & e' & He' & Hp' & Hk & Hfe).
    destruct (tab_ok _ Ht _ _ Htab) as (_ & Hlen' & _).
    apply lookup_lt_Some in He as Hk1. apply lookup_lt_Some in He' as Hk2.
    rewrite Hlen in Hk1. rewrite Hlen' in Hk2.
    destruct (page_of_index (Z.of_nat k) (Z.of_nat k') _ ltac:(lia) ltac:(lia) eq_refl)
      as (Hv & Hi & Hj).
    set (v := (_ + _) * PAGE_SIZE) in *. rewrite Nat2Z.id in Hi, Hj.
    assert (view s d v = Some (Mapped (frame_of e') (pte_rw e') (pte_us e'))) as Hview.
    { unfold view, get_pde, get_pte. cbn [fst snd]. rewrite Hd, Hi. cbn [mbind option_bind]. rewrite He. cbn [mbind option_bind].
      rewrite decide_False by lia. rewrite Htab, Hj. cbn [mbind option_bind]. rewrite He'. cbn [mbind option_bind].
      unfold pte_view. by rewrite decide_False by lia. }
    assert (USER_PAGE_START <= v) as Hu.
    { apply page_no_user; [done|]. rewrite <-index_page by done. rewrite Hi, Hj. lia. }
    rewrite (frame_of_page _ _ _ _ _ _ _ Hf Hv Hu Hview) in Hfe. subst f.
    exists v, (pte_rw e'), (pte_us e'). done.
  - intros (v & rw & us & Hv & Hu & Hview). pose proof (frame_of_page _ _ _ _ _ _ _ Hf Hv Hu Hview) as Hpf.
    unfold view in Hview. destruct (get_pde s (d, pde_index v)) as [e|] eqn:He; [|done].
    cbn [mbind option_bind] in Hview. case_decide as Hp; [done|].
    destruct (get_pte s (table_of e, pte_index v)) as [e'|] eqn:He'; [|done].
    cbn [mbind option_bind] in Hview. injection Hview as Hview.
    apply get_pde_dir in He as (es' & Hes' & He). rewrite Hd in Hes'. injection Hes' as <-.
    apply get_pte_tab in He' as (t & Hes' & He'). unfold pte_view in Hview. case_decide; [done|].
    injection Hview as Hfr _ _.
    destruct (tab_ok _ Ht _ _ Hes') as (_ & _ & Hall').
    destruct (proj1 (Forall_lookup _ _) Hall' _ _ He') as [Hpte _].
    exists (pde_index v), e, t. split_and!; [done| |done|].
    + eapply Forall_lookup_1 in Hall; [|done]. destruct Hall; [done|done].
    + exists (pte_index v), e'. split_and!; [done|by destruct Hpte| |by rewrite Hfr].
      pose proof (index_page v Hv). pose proof (proj1 (page_no_user v Hv) Hu). lia.
Qed.

Lemma tables_in_present s d es t : tables_ok s -> pdirs s !! d = Some es -> t ∈ tables_in es ->
  exists i e, get_pde s (d, i) = Some e /\ pde_p e = 1 /\ table_of e = t.
Proof.
  intros Ht Hd Hin. unfold tables_in in Hin. apply list_elem_of_fmap in Hin as (e & -> & He).
  apply list_elem_of_filter in He as [Hp He]. apply list_elem_of_lookup_1 in He as [i Hi].
  exists i, e. unfold get_pde. simpl. by rewrite Hd.
Qed.

Lemma tables_in_NoDup s d es : tables_ok s -> pdirs s !! d = Some es -> NoDup (tables_in es).
Proof.
  intros Ht Hd. assert (forall i e i' e', es !! i = Some e -> es !! i' = Some e' -> pde_p e = 1 ->
    pde_p e' = 1 -> table_of e = table_of e' -> i = i') as Hinj.
  { intros i e i' e' Hi Hi' Hp Hp' Heq.
    eapply (own_ok _ Ht d i e d i' e'); [unfold get_pde; simpl; by rewrite Hd..|lia|lia|done]. }
  clear Ht Hd. induction es as [|e es IH]; [constructor|]. rewrite tables_in_cons.
  assert (NoDup (tables_in es)).
  { apply IH. intros i e1 i' e2 H1 H2 ???.
    enough (S i = S i') by lia. by eapply (Hinj (S i) e1 (S i') e2). }
  case_decide as Hp; [|done]. constructor; [|done]. intros Hin. unfold tables_in in Hin.
  apply list_elem_of_fmap in Hin as (e' & Heq & He').
  apply list_elem_of_filter in He' as [Hp' He']. apply list_elem_of_lookup_1 in He' as [i Hi].
  enough (0%nat = S i) by lia. by eapply (Hinj 0%nat e (S i) e').
Qed.

(** [destruct_page_dir] removes a directory with its tables and gives its
    frames back; no other directory changes. *)
(** The directory [d] and its tables [es] taken out. *)
Record destroyed (s : vm) (d : addr) (es : list pde_t) (s' : vm) : Prop := {
  dy_dirs : pdirs s' = delete d (pdirs s);
  dy_tabs : forall t, ptabs s' !! t = if decide (t ∈ tables_in es) then None else ptabs s !! t;
  dy_pool : page_pool s' = (page_pool s ++ tables_in es) ++ [d];
}.

Section destroyed.
Context (s : vm) (d : addr) (es : list pde_t) (s' : vm).
Context (Ht : tables_ok s) (Hd : pdirs s !! d = Some es) (Hdy : destroyed s d es s').

Lemma destroyed_other d' i e : d' <> d -> get_pde s (d', i) = Some e -> pde_p e <> 0 -> table_of e ∉ tables_in es.
Proof.
  intros Hne He Hp Hin. destruct (tables_in_present s d es _ Ht Hd Hin) as (i' & e' & He' & Hp' & Heq).
  destruct (own_ok _ Ht _ _ _ _ _ _ He He' Hp) as [? _]; [lia|done|done].
Qed.

Lemma destroyed_pde d' i : get_pde s' (d', i) = if decide (d' = d) then None else get_pde s (d', i).
Proof.
  unfold get_pde. cbn [fst snd]. rewrite (dy_dirs _ _ _ _ Hdy). case_decide as Hne; [subst d'; by rewrite lookup_delete_eq|].
  by rewrite lookup_delete_ne.
Qed.

Lemma destroyed_view d' v : view s' d' v = if decide (d' = d) then None else view s d' v.
Proof.
  unfold view. rewrite destroyed_pde. destruct (decide (d' = d)) as [|Hne]; [done|].
  destruct (get_pde s (d', pde_index v)) as [e|] eqn:He; [|done]. cbn [mbind option_bind].
  case_decide; [done|]. unfold get_pte. cbn [fst snd]. rewrite (dy_tabs _ _ _ _ Hdy).
  rewrite decide_False; [done|]. by eapply destroyed_other.
Qed.

Lemma destroyed_fresh : NoDup (page_pool s') /\
  Forall (fun q => page_ok q /\ pdirs s' !! q = None /\ ptabs s' !! q = None) (page_pool s').
Proof.
  pose proof (fun t => tables_in_present s d es t Ht Hd) as Htip. destruct (dir_ok _ Ht _ _ Hd) as (Hdok & _).
  pose proof Ht as [T1 T2 T3 T4 [T5 T6] T7]. rewrite Forall_forall in T6. rewrite (dy_pool _ _ _ _ Hdy), (dy_dirs _ _ _ _ Hdy).
  assert (Htab : forall t, t ∈ tables_in es -> exists x, ptabs s !! t = Some x).
  { intros t Hin. destruct (Htip t Hin) as (i & e & He & Hp & <-). eapply (T3 d i e He). lia. }
  assert (Hdis : forall t, t ∈ tables_in es -> t ∉ page_pool s).
  { intros t Hin Hpl. destruct (T6 _ Hpl) as (_ & _ & Htn). destruct (Htab t Hin). congruence. }
  assert (Hdp : d ∉ page_pool s) by (intros Hpl; destruct (T6 _ Hpl) as (_ & Hdn & _); congruence).
  assert (Hdt : d ∉ tables_in es) by (intros Hin; destruct (Htab d Hin) as [x Hx]; rewrite T7 in Hx; [done|by eexists]).
  split.
  - apply NoDup_app. split_and!; [|intros t Hin ->%list_elem_of_singleton; set_solver|apply NoDup_singleton].
    apply NoDup_app. split_and!; [done| |by apply (tables_in_NoDup s d)]. intros t Hpl Hin. by eapply Hdis.
  - rewrite !Forall_app, !Forall_forall. split_and!; intros q Hq; rewrite (dy_tabs _ _ _ _ Hdy).
    + destruct (T6 q Hq) as (? & Hqd & Hqt). split_and!; [done|rewrite lookup_delete_None; auto|by case_decide].
    + destruct (Htab q Hq) as [x Hx]. split_and!; [by eapply T2| |by rewrite decide_True].
      apply lookup_delete_None. right. apply eq_None_not_Some. intros Hs. by rewrite (T7 _ Hs) in Hx.
    + apply list_elem_of_singleton in Hq as ->. split; [done|]. split; [by apply lookup_delete_eq|].
      rewrite decide_False by done. apply T7. by eexists.
Qed.

Lemma destroyed_tables_ok : tables_ok s'.
Proof.
  pose proof Ht as [T1 T2 T3 T4 _ T7]. split; [| | | |exact destroyed_fresh|].
  - intros d' es' Hes'. rewrite (dy_dirs _ _ _ _ Hdy) in Hes'. apply lookup_delete_Some in Hes' as [_ ?]. by apply T1.
  - intros t es' Hes'. rewrite (dy_tabs _ _ _ _ Hdy) in Hes'. case_decide; [done|]. by apply T2.
  - intros d' i e He Hp. rewrite destroyed_pde in He. case_decide; [done|].
    rewrite (dy_tabs _ _ _ _ Hdy), decide_False; [by eapply T3|by eapply destroyed_other].
  - intros d1 i1 e1 d2 i2 e2. rewrite !destroyed_pde. repeat case_decide; [done..|apply T4].
  - intros q. rewrite (dy_dirs _ _ _ _ Hdy), (dy_tabs _ _ _ _ Hdy), lookup_delete_is_Some. intros [_ Hq].
    case_decide; [done|]. by apply T7.
Qed.

(** The frames that have become free are those of [d]. *)
Lemma destroyed_frames_ok F F' : frames_ok s F -> pool_is (allocator s') F' ->
  (forall f, f ∈ F' -> f ∈ F \/ maps_frame s d f) -> frames_ok s' F'.
Proof.
  intros Hf HF' HB. split; [done| | |].
  - intros d' v [es' Hes'] Hv. rewrite (dy_dirs _ _ _ _ Hdy) in Hes'. apply lookup_delete_Some in Hes' as [Hne Hes'].
    rewrite destroyed_view, decide_False by done. apply (kernel_ok _ _ Hf); [eauto|done].
  - intros d' v f rw us Hv Hu. rewrite destroyed_view. destruct (decide (d' = d)) as [|Hne]; [done|]. intros Hm.
    destruct (mapped_ok _ _ Hf _ _ _ _ _ Hv Hu Hm) as [?|[Hfu Hfn]]; [by left|].
    right. split; [done|]. intros [?|(v' & rw' & us' & Hv' & Hu' & Hm')]%HB; [done|].
    destruct (user_frame_facts f Hfu) as (_ & _ & Hz).
    destruct (unique_ok _ _ Hf _ _ _ _ _ _ _ _ _ Hv Hv' Hu Hu' Hz Hm Hm') as [? _]. done.
  - intros d1 v1 f rw1 us1 d2 v2 rw2 us2 Hw1 Hw2 Hu1 Hu2 Hz. rewrite !destroyed_view.
    repeat case_decide; [done..|]. by apply (unique_ok _ _ Hf).
Qed.

End destroyed.

Lemma destruct_page_dir_ok s F d : vm_ok s F -> is_Some (pdirs s !! d) ->
  exists s' F', destruct_page_dir me d s = Some s' /\ vm_ok s' F' /\
    dom (pdirs s') = dom (pdirs s) ∖ {[d]} /\
    (forall d' v, d' <> d -> view s' d' v = view s d' v) /\
    (forall f, f ∈ F -> f ∈ F') /\ (forall f, f ∈ F' -> f ∈ F \/ maps_frame s d f) /\
    (forall f, maps_frame s d f -> f <> ZERO_FRAME -> f ∈ F' \/ nodes_left s' = []).
Proof.
  intros Hok [es Hd]. pose proof Hok as [Ht Hf]. destruct (dir_ok _ Ht _ _ Hd) as ((Hd1 & Hd2) & Hlen & Hall).
  unfold destruct_page_dir. rewrite decide_False by (unfold NULL; lia). run Hd.
  destruct (free_entries_ok es 0 s F (pool_ok _ _ Hf) (tables_in_NoDup s d es Ht Hd)) as
    (s1 & Hs1 & Hdirs & Hpp & Htabs & _ & F' & HF' & A & B & C).
  { intros t Hin. destruct (tables_in_present s d es t Ht Hd Hin) as (i & e & He & Hp & <-).
    eapply present_ok; [done|done|lia]. }
  run Hs1. unfold free_dir. rewrite Hdirs. run Hd. set (s' := Vm _ _ _ _).
  assert (Hdy : destroyed s d es s') by (split; cbn; by rewrite ?Hpp).
  assert (HB : forall f, f ∈ F' -> f ∈ F \/ maps_frame s d f) by (intros f; rewrite <-(dir_frames_maps s F d es) by done; apply B).
  exists s', F'. split; [done|]. split; [|split_and!; [|intros; by rewrite (destroyed_view s d es), decide_False|done|done|]].
  - split; [by apply (destroyed_tables_ok s d es)|by apply (destroyed_frames_ok s d es s' Ht Hd Hdy F)].
  - cbn. by rewrite dom_delete_L.
  - intros f Hm Hz. apply (dir_frames_maps s F d es) in Hm as Hdf; [|done|done].
    apply C; [done|]. destruct Hm as (v & rw & us & Hv & Hu & Hm).
    destruct (mapped_ok _ _ Hf _ _ _ _ _ Hv Hu Hm) as [?|[[[? _] _] _]]; done.
Qed.

(** ** Construction *)

Definition kernel_pde (k : nat) (q : addr) : pde_t :=
  pde_kernel q (bool_decide ((Z.of_nat k + 1) * PTE_COUNT > kernel_page_count)).

(** The tables of a new directory, from index [k]. *)
Fixpoint add_tables (k : nat) (qs : list addr) (m : gmap Z (list pte_t)) : gmap Z (list pte_t) :=
  match qs with
  | [] => m
  | q :: qs => add_tables (S k) qs (<[q := kernel_table (Z.of_nat k)]> m)
  end.

Lemma add_tables_ne qs : forall k m t, t ∉ qs -> add_tables k qs m !! t = m !! t.
Proof.
  induction qs as [|q qs IH]; intros k m t Hin; [done|]. cbn [add_tables].
  rewrite IH by set_solver. rewrite lookup_insert_ne; [done|]. set_solver.
Qed.

Lemma add_tables_at qs : forall k m i q, NoDup qs -> qs !! i = Some q ->
  add_tables k qs m !! q = Some (kernel_table (Z.of_nat (k + i))).
Proof.
  induction qs as [|q0 qs IH]; intros k m i q Hnd Hi; [done|]. apply NoDup_cons in Hnd as [Hq Hnd].
  cbn [add_tables]. destruct i as [|i]; simpl in Hi.
  - injection Hi as ->. rewrite add_tables_ne by done. rewrite lookup_insert_eq.
    by replace (k + 0)%nat with k by lia.
  - erewrite IH; [|done|done]. do 3 f_equal. lia.
Qed.

Lemma free_tables_ok es : forall s, NoDup (table_of <$> es) ->
  (forall t, t ∈ table_of <$> es -> is_Some (ptabs s !! t)) ->
  exists s', free_tables es s = Some s' /\ pdirs s' = pdirs s /\ allocator s' = allocator s /\
    page_pool s' = page_pool s ++ (table_of <$> es) /\
    forall t, ptabs s' !! t = if decide (t ∈ table_of <$> es) then None else ptabs s !! t.
Proof.
  induction es as [|e es IH]; intros s Hnd Hin; cbn [free_tables].
  - exists s. split_and!; try done. by rewrite app_nil_r.
  - destruct (Hin (table_of e)) as [t Ht]; [left|]. unfold free_table. run Ht.
    apply NoDup_cons in Hnd as [Hnin Hnd].
    destruct (IH (Vm (allocator s) (pdirs s) (delete (table_of e) (ptabs s)) (page_pool s ++ [table_of e])))
      as (s' & Hs' & Hd & Ha & Hp & Ht'); [done| |].
    { intros t' Ht'. simpl. rewrite lookup_delete_ne; [apply Hin; by right|].
      intros Heq. by rewrite <-Heq in Ht'. }
    exists s'. split_and!; [done..| |].
    + rewrite Hp. simpl. by rewrite <-(assoc_L (++)).
    + intros t'. rewrite Ht'. simpl. destruct (decide (t' ∈ table_of <$> es)).
      { rewrite decide_True; [done|]. by right. }
      destruct (decide (t' = table_of e)) as [->|].
      { rewrite lookup_delete_eq, decide_True; [done|]. left. }
      rewrite lookup_delete_ne by done. rewrite decide_False; [done|]. set_solver.
Qed.

Lemma kernel_tables_ok n : forall i built s,
  NoDup (page_pool s) -> Forall page_ok (page_pool s) ->
  NoDup (table_of <$> built) -> (forall t, t ∈ page_pool s -> t ∉ table_of <$> built /\ ptabs s !! t = None) ->
  (forall t, t ∈ table_of <$> built -> is_Some (ptabs s !! t)) ->
  exists ok built' s', kernel_tables n (Z.of_nat i) built s = Some (ok, built', s') /\
    pdirs s' = pdirs s /\ allocator s' = allocator s /\
    if (ok : bool) then exists qs, page_pool s = qs ++ page_pool s' /\ length qs = n /\
      built' = built ++ imap (fun k q => kernel_pde (i + k) q) qs /\
      ptabs s' = add_tables i qs (ptabs s)
    else page_pool s' ≡ₚ page_pool s ++ (table_of <$> built) /\ (length (page_pool s) < n)%nat /\
      forall t, ptabs s' !! t = if decide (t ∈ table_of <$> built) then None else ptabs s !! t.
Proof.
  induction n as [|n IH]; intros i built s Hnd Hok Hb Hfresh Hin; cbn [kernel_tables].
  - exists true, built, s. split_and!; [done..|]. exists []. simpl. by rewrite app_nil_r.
  - unfold new_table. destruct (page_pool s) as [|q rest] eqn:Hq.
    + destruct (free_tables_ok built s Hb Hin) as (s' & Hs' & ? & ? & Hp & ?). run Hs'.
      exists false, [], s'. split_and!; try done; [by rewrite Hp, Hq|simpl; lia].
    + set (s1 := Vm _ _ _ _). apply NoDup_cons in Hnd as [Hnin Hnd].
      apply Forall_cons in Hok as [Hqok Hok]. pose proof (Hfresh q ltac:(left)) as [Hqb Hqn].
      set (e := pde_kernel q _).
      assert (table_of e = q) as Hte by (by apply table_of_kernel).
      destruct (IH (S i) (built ++ [e]) s1) as (ok & built' & s' & Hk & Hd & Ha & Hcase).
      * done.
      * done.
      * rewrite fmap_app. simpl. rewrite Hte. apply NoDup_app. split_and!; [done| |apply NoDup_singleton].
        intros t Ht Ht'%list_elem_of_singleton. subst t. done.
      * intros t Ht. simpl in Ht. destruct (Hfresh t) as [? ?]; [by right|].
        rewrite fmap_app. simpl. rewrite Hte. rewrite lookup_insert_ne by set_solver.
        split; [|done]. set_solver.
      * intros t. rewrite fmap_app. simpl. rewrite Hte. intros [Ht|Ht%list_elem_of_singleton]%elem_of_app.
        -- apply lookup_insert_is_Some. destruct (decide (q = t)); [by left|right]. auto.
        -- subst t. rewrite lookup_insert_eq. by eexists.
      * replace (Z.of_nat (S i)) with (Z.of_nat i + 1) in Hk by lia. exists ok, built', s'.
        split; [done|]. split; [done|]. split; [done|]. destruct ok.
        -- destruct Hcase as (qs & Hp & Hlen & -> & Ht). exists (q :: qs).
           change (page_pool s1) with rest in Hp.
           split_and!; [by rewrite Hp|simpl; lia| |done].
           rewrite <-(assoc_L (++)). f_equal. rewrite imap_cons. simpl. f_equal.
           { unfold e, kernel_pde. by replace (i + 0)%nat with i by lia. }
           apply imap_ext. intros k x _. simpl. f_equal. lia.
        -- destruct Hcase as (Hp & Hlen & Ht). change (page_pool s1) with rest in Hp, Hlen.
           rewrite fmap_app in Hp, Ht. simpl in Hp, Ht. rewrite Hte in Hp, Ht.
           split_and!; [|simpl in *; lia|].
           ++ rewrite Hp. simpl. rewrite (assoc_L (++)). by rewrite (Permutation_app_comm _ [q]).
           ++ intros t. rewrite Ht. simpl. destruct (decide (t ∈ table_of <$> built)).
              { rewrite decide_True; [done|]. set_solver. }
              destruct (decide (t = q)) as [->|].
              { rewrite decide_True; [done|]. set_solver. }
              rewrite decide_False by set_solver. by rewrite lookup_insert_ne.
Qed.

Lemma kernel_table_lookup i j : (j < Z.to_nat PTE_COUNT)%nat -> 
  kernel_table i !! j = Some (if i * PTE_COUNT + Z.of_nat j <? kernel_page_count
                              then pte_kernel (i * PTE_COUNT + Z.of_nat j) else pte_absent).
Proof.
  intros Hj. unfold kernel_table. rewrite list_lookup_fmap.
  rewrite (proj2 (lookup_seqZ _ _ _ (Z.of_nat j))); [done|lia].
Qed.

Lemma kernel_table_ok i : length (kernel_table i) = Z.to_nat PTE_COUNT /\ Forall pte_ok (kernel_table i).
Proof.
  split; [unfold kernel_table; by rewrite length_fmap, length_seqZ|].
  apply Forall_fmap, Forall_forall. intros j _. simpl. case_match.
  - split; simpl; [by right|by apply Z.mod_pos_bound].
  - split; simpl; [by left|lia].
Qed.

(** What a new directory maps: the kernel to itself and nothing else. *)
Definition fresh_view (v : Z) : page_view :=
  if v <? USER_PAGE_START then Mapped (page_of v) READ_WRITE 0 else Unmapped PAGE_UNAVAILABLE.

Lemma pte_kernel_view v : vword v -> v < USER_PAGE_START ->
  pte_view (pte_kernel (page_no v)) = Mapped (page_of v) READ_WRITE 0.
Proof.
  intros Hv Hu. unfold pte_view. rewrite decide_False by done. unfold frame_of, pte_kernel. simpl page_addr.
  f_equal. change (page_no v `mod` 2 ^ 20) with (Z.shiftr v PAGE_SHIFT `mod` 2 ^ 20).
  rewrite <-(page_round (page_of v)).
  - unfold page_no in *. pose proof (page_no_page_of v Hv) as Hp. unfold page_no in Hp. by rewrite Hp.
  - pose proof (page_of_range v Hv). unfold vword in *. lia.
  - by apply page_of_aligned.
Qed.

Lemma fresh_dir_entry qs i :
  length qs = Z.to_nat kernel_page_table_count ->
  (imap kernel_pde qs ++ replicate (Z.to_nat (PDE_COUNT - kernel_page_table_count)) pde_absent) !! i =
  if decide (i < length qs)%nat then kernel_pde i <$> qs !! i
  else if decide (i < Z.to_nat PDE_COUNT)%nat then Some pde_absent else None.
Proof.
  intros Hlen. case_decide as Hi.
  - rewrite lookup_app_l by (by rewrite length_imap). apply list_lookup_imap.
  - rewrite lookup_app_r by (rewrite length_imap; lia). rewrite length_imap, Hlen in *.
    change (Z.to_nat kernel_page_table_count) with 4%nat in *.
    change (Z.to_nat (PDE_COUNT - kernel_page_table_count)) with 1020%nat.
    change (Z.to_nat PDE_COUNT) with 1024%nat. case_decide.
    + apply lookup_replicate_2. lia.
    + apply lookup_ge_None_2. rewrite length_replicate. lia.
Qed.


(** A state [s'] that differs from [s] by the new directory [d] and its kernel
    tables [qs], taken from the page pool. *)
Section fresh_dir.
Context (s s' : vm) (F : list Z) (d : addr) (qs : list addr).
Context (Ht : tables_ok s) (Hf : frames_ok s F)
  (Hpool : page_pool s = d :: qs ++ page_pool s')
  (Hlen : length qs = Z.to_nat kernel_page_table_count)
  (Halloc : allocator s' = allocator s)
  (Hdirs : pdirs s' = <[d := imap kernel_pde qs ++
     replicate (Z.to_nat (PDE_COUNT - kernel_page_table_count)) pde_absent]> (pdirs s))
  (Htabs : ptabs s' = add_tables 0 qs (ptabs s)).

Lemma fresh_pages :
  (d ∉ qs /\ d ∉ page_pool s' /\ NoDup qs /\ NoDup (page_pool s') /\ (forall q, q ∈ qs -> q ∉ page_pool s')) /\
  forall q, q = d \/ q ∈ qs \/ q ∈ page_pool s' -> page_ok q /\ pdirs s !! q = None /\ ptabs s !! q = None.
Proof.
  destruct (fresh_ok _ Ht) as [Hnd Hall]. rewrite Hpool in Hnd, Hall.
  apply NoDup_cons in Hnd as [Hd Hnd]. apply NoDup_app in Hnd as (H1 & H2 & H3). split.
  - rewrite elem_of_app in Hd. split_and!; [tauto|tauto|done|done|done].
  - intros q Hq. rewrite Forall_forall in Hall. apply Hall.
    destruct Hq as [->|Hq]; [left|right; by apply elem_of_app].
Qed.

Lemma fresh_entry i : get_pde s' (d, i) =
  if decide (i < length qs)%nat then kernel_pde i <$> qs !! i
  else if decide (i < Z.to_nat PDE_COUNT)%nat then Some pde_absent else None.
Proof. unfold get_pde. cbn [fst snd]. rewrite Hdirs, lookup_insert_eq. by apply fresh_dir_entry. Qed.

Lemma fresh_entry_present i e : get_pde s' (d, i) = Some e -> pde_p e <> 0 ->
  exists q, qs !! i = Some q /\ e = kernel_pde i q /\ table_of e = q /\
    ptabs s' !! q = Some (kernel_table (Z.of_nat i)).
Proof.
  destruct fresh_pages as [(_ & _ & Hnd & _) Hpg].
  rewrite fresh_entry. case_decide; [|case_decide; [by intros [= <-]|done]].
  intros (q & Hq & ->)%fmap_Some _. exists q. split_and!; [done|done| |].
  - apply table_of_kernel. apply Hpg. right. left. by eapply list_elem_of_lookup_2.
  - rewrite Htabs. by apply (add_tables_at qs 0).
Qed.

Lemma fresh_other_pde d' i : d' <> d -> get_pde s' (d', i) = get_pde s (d', i).
Proof. intros Hne. unfold get_pde. cbn [fst snd]. by rewrite Hdirs, lookup_insert_ne. Qed.

Lemma fresh_other_table t : t ∉ qs -> ptabs s' !! t = ptabs s !! t.
Proof. intros Hin. rewrite Htabs. by apply add_tables_ne. Qed.

Lemma fresh_table t : t ∈ qs -> exists i, ptabs s' !! t = Some (kernel_table i).
Proof.
  destruct fresh_pages as [(_ & _ & Hnd & _) _]. intros [i Hi]%list_elem_of_lookup_1.
  exists (Z.of_nat i). rewrite Htabs. by apply (add_tables_at qs 0).
Qed.

Lemma old_table t : is_Some (ptabs s !! t) -> t ∉ qs.
Proof.
  intros [x Hx] Hin. destruct fresh_pages as [_ Hpg].
  destruct (Hpg t) as (_ & _ & Hn); [auto|congruence].
Qed.

Lemma old_dir d' : is_Some (pdirs s !! d') -> d' <> d.
Proof.
  intros Hd' ->. destruct fresh_pages as [_ Hpg].
  destruct (Hpg d) as (_ & Hn & _); [auto|]. rewrite Hn in Hd'. by destruct Hd'.
Qed.

Lemma fresh_view_other d' v : is_Some (pdirs s !! d') -> view s' d' v = view s d' v.
Proof.
  intros Hd'. unfold view. rewrite fresh_other_pde by (by apply old_dir).
  destruct (get_pde s (d', pde_index v)) as [e|] eqn:He; [|done].
  cbn [mbind option_bind]. case_decide; [done|]. unfold get_pte. cbn [fst snd].
  rewrite fresh_other_table; [done|]. apply old_table. by eapply present_ok.
Qed.

Lemma fresh_view_new v : vword v -> view s' d v = Some (fresh_view v).
Proof.
  intros Hv. pose proof (pde_index_bound v Hv) as Hb. pose proof (page_no_user v Hv) as Hpu.
  pose proof (index_page v Hv) as Hip. change kernel_page_count with 4096 in Hpu.
  pose proof (pte_index_bound v) as Hb'. change PTE_COUNT with 1024 in Hip, Hb'.
  assert (length qs = 4%nat) as Hl4 by exact Hlen.
  unfold view, fresh_view. destruct (decide (pde_index v < 4)%nat) as [Hi|Hi].
  - destruct (lookup_lt_is_Some_2 qs (pde_index v)) as [q Hq]; [by rewrite Hl4|].
    assert (get_pde s' (d, pde_index v) = Some (kernel_pde (pde_index v) q)) as Hg.
    { rewrite fresh_entry, decide_True by (by rewrite Hl4). by rewrite Hq. }
    destruct (fresh_entry_present _ _ Hg) as (q' & Hq' & _ & Htq & Htt); [done|].
    rewrite Hg. cbn [mbind option_bind]. rewrite decide_False by done.
    rewrite Hq in Hq'. injection Hq' as <-.
    unfold get_pte. cbn [fst snd]. rewrite Htq, Htt. cbn [mbind option_bind].
    rewrite kernel_table_lookup by apply pte_index_bound. cbn [mbind option_bind].
    change PTE_COUNT with 1024. rewrite Hip. change kernel_page_count with 4096.
    assert (v < USER_PAGE_START) by lia.
    rewrite (proj2 (Z.ltb_lt _ _)) by lia. rewrite (proj2 (Z.ltb_lt v _)) by done.
    by rewrite pte_kernel_view.
  - rewrite fresh_entry, decide_False by (by rewrite Hl4). rewrite decide_True by done.
    cbn [mbind option_bind]. rewrite decide_True by done.
    rewrite (proj2 (Z.ltb_ge _ _)); [done|]. apply Hpu. lia.
Qed.

Lemma fresh_tables_ok : tables_ok s'.
Proof.
  destruct fresh_pages as [(Hdq & Hdp & Hndq & Hndp & Hdis) Hpg].
  destruct (Hpg d (or_introl eq_refl)) as (Hdok & Hdd & Hdt).
  destruct Ht as [T1 T2 T3 T4 [T5 T6] T7]. split.
  - intros d' es'. rewrite Hdirs. intros [[<- <-]|[? ?]]%lookup_insert_Some; [|by apply T1].
    split; [done|]. split; [by rewrite length_app, length_imap, length_replicate, Hlen|].
    apply Forall_app. split; [|by apply Forall_replicate; left].
    apply Forall_lookup. intros i e. rewrite list_lookup_imap. intros (q & _ & ->)%fmap_Some.
    by right.
  - intros t es' Hes'. destruct (decide (t ∈ qs)) as [Hin|Hin].
    + destruct (fresh_table _ Hin) as [i Hi]. rewrite Hi in Hes'. injection Hes' as <-.
      destruct (kernel_table_ok i). split; [|done]. apply Hpg. auto.
    + rewrite fresh_other_table in Hes' by done. by apply T2.
  - intros d' i e He Hp. destruct (decide (d' = d)) as [->|].
    + destruct (fresh_entry_present _ _ He Hp) as (q & _ & _ & -> & ->). by eexists.
    + rewrite fresh_other_pde in He by done. pose proof (T3 _ _ _ He Hp) as Hs.
      by rewrite fresh_other_table by (by apply old_table).
  - intros d1 i1 e1 d2 i2 e2 H1 H2 Hp1 Hp2 Heq.
    destruct (decide (d1 = d)) as [->|], (decide (d2 = d)) as [->|].
    + split; [done|]. destruct (fresh_entry_present _ _ H1 Hp1) as (q1 & Hq1 & _ & E1 & _).
      destruct (fresh_entry_present _ _ H2 Hp2) as (q2 & Hq2 & _ & E2 & _).
      assert (q2 = q1) as -> by congruence. by apply (NoDup_lookup qs i1 i2 q1).
    + rewrite fresh_other_pde in H2 by done. exfalso.
      destruct (fresh_entry_present _ _ H1 Hp1) as (q1 & Hq1 & _ & E1 & _).
      apply (old_table (table_of e2)); [by eapply T3|]. rewrite <-Heq, E1. by eapply list_elem_of_lookup_2.
    + rewrite fresh_other_pde in H1 by done. exfalso.
      destruct (fresh_entry_present _ _ H2 Hp2) as (q1 & Hq1 & _ & E1 & _).
      apply (old_table (table_of e1)); [by eapply T3|]. rewrite Heq, E1. by eapply list_elem_of_lookup_2.
    + rewrite fresh_other_pde in H1, H2 by done. by eapply T4.
  - split; [done|]. apply Forall_forall. intros q Hq. destruct (Hpg q) as (? & Hqd & Hqt); [auto|].
    split; [done|]. split.
    + rewrite Hdirs, lookup_insert_ne; [done|]. intros ->. done.
    + rewrite fresh_other_table; [done|]. intros Hin. by apply (Hdis q).
  - intros q. rewrite Hdirs. intros [->|[_ Hq]]%lookup_insert_is_Some.
    + by rewrite fresh_other_table.
    + rewrite fresh_other_table; [by apply T7|]. intros Hin.
      destruct (Hpg q) as (_ & Hn & _); [auto|]. rewrite Hn in Hq. by destruct Hq.
Qed.

Lemma fresh_mapped_old d' v f rw us : vword v -> USER_PAGE_START <= v ->
  view s' d' v = Some (Mapped f rw us) -> view s d' v = Some (Mapped f rw us).
Proof.
  intros Hv Hu Hm. destruct (decide (d' = d)) as [->|Hne].
  - rewrite fresh_view_new in Hm by done. unfold fresh_view in Hm.
    by rewrite (proj2 (Z.ltb_ge _ _)) in Hm by done.
  - rewrite <-fresh_view_other; [done|]. unfold view in Hm. rewrite fresh_other_pde in Hm by done.
    destruct (get_pde s (d', pde_index v)) as [e|] eqn:He; [|done].
    apply get_pde_dir in He as (es' & Hes' & _). by eexists.
Qed.

Lemma fresh_frames_ok : frames_ok s' F.
Proof.
  split.
  - rewrite Halloc. apply Hf.
  - intros d' v [x Hx] Hv. rewrite Hdirs in Hx.
    assert (vword v) by (unfold vword; change USER_PAGE_START with 16777216 in Hv; lia).
    apply lookup_insert_Some in Hx as [[<- _]|[? ?]].
    + rewrite fresh_view_new by done. unfold fresh_view. by rewrite (proj2 (Z.ltb_lt _ _)) by lia.
    + rewrite fresh_view_other by (by eexists). apply (kernel_ok _ _ Hf); [by eexists|done].
  - intros d' v f rw us Hv Hu Hm%fresh_mapped_old; [|done..]. by eapply (mapped_ok _ _ Hf); [| |exact Hm].
  - intros d1 v1 f rw1 us1 d2 v2 rw2 us2 Hw1 Hw2 Hu1 Hu2 Hz Hm1%fresh_mapped_old Hm2%fresh_mapped_old; [|done..].
    by eapply (unique_ok _ _ Hf); [exact Hw1|exact Hw2|..|exact Hm1|exact Hm2].
Qed.

End fresh_dir.

(** What [construct_page_dir] returns: a directory that maps the kernel only,
    or, out of memory, [NULL] with every page given back. *)
Definition construct_outcome (s : vm) (d : addr) (s' : vm) : Prop :=
  if decide (d = NULL) then dom (pdirs s') = dom (pdirs s) /\ page_pool s' ≡ₚ page_pool s /\
    (length (page_pool s) <= Z.to_nat kernel_page_table_count)%nat
  else pdirs s !! d = None /\ dom (pdirs s') = {[d]} ∪ dom (pdirs s) /\
    forall v, vword v -> view s' d v = Some (fresh_view v).

(** The failure case: tables built so far and the directory are given back. *)
Lemma unchanged_vm_ok s s' F : vm_ok s F -> allocator s' = allocator s -> pdirs s' = pdirs s ->
  (forall t, ptabs s' !! t = ptabs s !! t) -> page_pool s' ≡ₚ page_pool s ->
  vm_ok s' F /\ forall d v, view s' d v = view s d v.
Proof.
  intros [Ht Hf] Ha Hd Htab Hperm.
  assert (forall d v, view s' d v = view s d v) as Hview.
  { intros d v. unfold view, get_pde. rewrite Hd. cbn [fst snd].
    destruct (pdirs s !! d) as [es|]; [|done]. cbn [mbind option_bind].
    destruct (es !! pde_index v); [|done]. cbn [mbind option_bind]. unfold get_pte. cbn [fst snd].
    by rewrite Htab. }
  split; [|done]. split.
  - destruct Ht as [T1 T2 T3 T4 [T5 T6] T7]. split; rewrite ?Hd; [done| | | | |].
    + intros t es. rewrite Htab. apply T2.
    + intros d i e. unfold get_pde. rewrite Hd, Htab. apply T3.
    + intros d i e d' i' e'. unfold get_pde. rewrite Hd. apply T4.
    + rewrite Hperm. split; [done|]. eapply Forall_impl; [done|]. simpl. intros q. by rewrite Htab.
    + intros q. rewrite Htab. apply T7.
  - eapply frames_ok_ext; [exact Hf|rewrite Ha; apply Hf|done|by rewrite Hd|by intros ? ? ?].
Qed.

Lemma construct_page_dir_ok s F : vm_ok s F ->
  exists d s', construct_page_dir s = Some (d, s') /\ vm_ok s' F /\ allocator s' = allocator s /\
    (forall d' v, is_Some (pdirs s !! d') -> view s' d' v = view s d' v) /\
    construct_outcome s d s'.
Proof.
  intros Hok. pose proof Hok as [Ht Hf]. unfold construct_page_dir, new_dir, construct_outcome.
  destruct (page_pool s) as [|d rest] eqn:Hpool.
  { exists NULL, s. rewrite decide_True by done. rewrite Hpool. split_and!; try done. apply Nat.le_0_l. }
  destruct (fresh_ok _ Ht) as [Hnd Hfr]. rewrite Hpool in Hnd, Hfr.
  apply NoDup_cons in Hnd as [Hdr Hnd]. apply Forall_cons in Hfr as [(Hdok & Hdd & Hdt) Hfr].
  destruct (kernel_tables_ok (Z.to_nat kernel_page_table_count) 0 []
    (Vm (allocator s) (<[d:=[]]> (pdirs s)) (ptabs s) rest)) as (ok & built & s2 & Hk & Hdirs & Ha & Hcase).
  { done. } { eapply Forall_impl; [exact Hfr|]. by intros ? (? & _). } { constructor. }
  { intros t Htr. rewrite Forall_forall in Hfr. split; [set_solver|]. by apply Hfr. }
  { intros t Hin. set_solver. }
  change (Z.of_nat 0) with 0 in Hk. run Hk. cbn [page_pool ptabs allocator pdirs] in *. destruct ok.
  - destruct Hcase as (qs & Hpp & Hlen & -> & Htabs). rewrite Hdirs, insert_insert_eq.
    assert (d <> NULL) as Hdn by (destruct Hdok; unfold NULL; lia).
    eexists d, (Vm _ _ _ _). split; [done|]. rewrite Hpp in Hpool.
    eassert (Hx := fresh_view_new s (Vm _ _ _ _) d qs Ht Hpool Hlen eq_refl Htabs).
    split; [split|split_and!].
    + by eapply (fresh_tables_ok s _ d qs Ht).
    + by eapply (fresh_frames_ok s _ F d qs Ht Hf).
    + done.
    + intros d' v Hd'. by eapply (fresh_view_other s _ d qs Ht).
    + rewrite decide_False by done. split_and!; [done| |exact Hx]. cbn [pdirs]. by rewrite dom_insert_L.
  - destruct Hcase as (Hpp & Hlen & Htabs). rewrite app_nil_r in Hpp.
    unfold free_dir. rewrite Hdirs, lookup_insert_eq. cbn [mbind option_bind].
    rewrite delete_insert_id by done. eexists NULL, (Vm _ _ _ _). split; [done|].
    rewrite decide_True by done.
    edestruct (unchanged_vm_ok s (Vm (allocator s2) (pdirs s) (ptabs s2) (page_pool s2 ++ [d])) F)
      as [Hok' Hv]; [done|done|done| | |].
    { intros t. cbn [ptabs]. rewrite Htabs. by rewrite decide_False by set_solver. }
    { cbn [page_pool]. rewrite Hpp, Hpool. by rewrite Permutation_app_comm. }
    split; [exact Hok'|]. split; [done|]. split; [done|]. split; [done|]. split; [|exact Hlen].
    cbn [page_pool]. rewrite Hpp, Permutation_app_comm. done.
Qed.

End vm_proofs.

(** [init_page_dir_manager]. *)
Definition init_page_dir_manager (machine_phys_frames : Z) (s : vm) : option (Z * vm) :=
  '(r, a) ← init_allocator machine_phys_frames (allocator s);
  if decide (r < 0) then Some (FAIL, with_allocator a s)
  else Some (OK, with_allocator a s).

(** * The manager as a sequence of operations *)

Inductive page_op : Type :=
  MapNew | MapZero | Unmap | SetAccess (access : Z) | SetAvailability (availability : Z).

Definition run_page_op (me : Z) (op : page_op) (d v : Z) (s : vm) : option (Z * vm) :=
  match op with
  | MapNew => map_new_frame me d v s
  | MapZero => map_zero_frame d v s
  | Unmap => unmap_frame me d v s
  | SetAccess a => set_access d v a s
  | SetAvailability a => set_availability d v a s
  end.

(** The specification of one operation on one page that looks like [x], as a
    function: the result, the new look of the page and the new pool of frames.
    [untabled] says that a page table would be needed and cannot be had,
    [noded] that the pool can record another frame. *)
Definition page_spec (untabled noded : bool) (op : page_op) (x : page_view) (F : list Z) : Z * page_view * list Z :=
  let refuse := (FAIL, x, F) in
  match op, x with
  | MapNew, Unmapped _ =>
      if untabled then refuse else match F with f :: F' => (OK, Mapped f READ_WRITE 1, F') | [] => refuse end
  | MapZero, Unmapped _ => if untabled then refuse else (OK, Mapped ZERO_FRAME READ_ONLY 1, F)
  | Unmap, Mapped f _ _ =>
      (OK, Unmapped PAGE_AVAILABLE, if decide (f <> ZERO_FRAME /\ noded = true) then insert_frame f F else F)
  | SetAccess a, Mapped f _ us =>
      if decide (a = READ_ONLY \/ a = READ_WRITE) then (OK, Mapped f a us, F) else refuse
  | SetAvailability a, Unmapped a0 =>
      if decide ((a = PAGE_AVAILABLE \/ a = PAGE_UNAVAILABLE) /\ (a0 = a \/ untabled = false))
      then (OK, Unmapped a, F) else refuse
  | _, _ => refuse
  end.

Lemma view_same s s' d v x : vword v -> view s d v = Some x -> view_is s' (view s) ->
  view_is s' (view_upd (view s) d v x).
Proof.
  intros Hv Hx H d' w Hw. rewrite H by done. by apply (view_upd_id s d v x).
Qed.

Lemma run_page_op_ok me op s F d v x : vm_ok s F -> user_page s d v -> view s d v = Some x ->
  exists r s' F' x', run_page_op me op d v s = Some (r, s') /\
    page_spec (no_table s d v) (node_left s) op x F = (r, x', F') /\
    vm_ok s' F' /\ dom (pdirs s') = dom (pdirs s) /\ view_is s' (view_upd (view s) d v x').
Proof.
  intros Hok Hup Hx. pose proof Hup as (_ & Hv & _).
  assert (forall s', s' = s -> view_is s' (view_upd (view s) d v x)) as Hsame.
  { intros ? ->. by apply view_upd_id. }
  assert (forall o r s', o = Some (r, s') -> r = FAIL /\ s' = s -> exists r1 s1 F' x', o = Some (r1, s1) /\ (FAIL, x, F) = (r1, x', F') /\
    vm_ok s1 F' /\ dom (pdirs s1) = dom (pdirs s) /\ view_is s1 (view_upd (view s) d v x')) as Href.
  { intros o r s' -> [-> ->]. exists FAIL, s, F, x. split_and!; auto. }
  destruct op as [| | |a|a]; cbn [run_page_op].
  - destruct (map_new_frame_ok me s F d v Hok Hup) as (r & s' & Hr & Hd & Hcase). rewrite Hx in Hcase.
    destruct x as [av|f rw us]; [|by eapply Href]. cbn [page_spec].
    destruct Hcase as [(-> & -> & f & F' & -> & Hok' & Hview)|(-> & Hok' & Hview & Hc)].
    + exists OK, s', F', (Mapped f READ_WRITE 1). done.
    + exists FAIL, s', F, (Unmapped av). split; [done|]. split; [by destruct Hc as [->| ->]; [|destruct (no_table _ _ _)]|].
      split; [done|]. split; [done|]. by apply view_same.
  - destruct (map_zero_frame_ok s F d v Hok Hup) as (r & s' & Hr & Hd & Hok' & Hcase). rewrite Hx in Hcase.
    destruct x as [av|f rw us]; [|by eapply Href]. cbn [page_spec].
    destruct Hcase as [(-> & -> & Hview)|(-> & -> & ->)]; [|by eapply Href].
    by exists OK, s', F, (Mapped ZERO_FRAME READ_ONLY 1).
  - destruct (unmap_frame_ok me s F d v Hok Hup) as (r & s' & F' & Hr & Hd & Hok' & Hcase). rewrite Hx in Hcase.
    destruct x as [av|f rw us]; [by destruct Hcase as (-> & -> & ->); eapply Href|]. cbn [page_spec].
    destruct Hcase as (-> & Hview & _ & _ & <-). by exists OK, s', F', (Unmapped PAGE_AVAILABLE).
  - destruct (set_access_ok s F d v a Hok Hup) as (r & s' & Hr & Hd & Hok' & Hcase). rewrite Hx in Hcase.
    destruct x as [av|f rw us]; [by eapply Href|]. cbn [page_spec]. case_decide; [|by eapply Href].
    destruct Hcase as [-> Hview]. by exists OK, s', F, (Mapped f a us).
  - destruct (set_availability_ok s F d v a Hok Hup) as (r & s' & Hr & Hd & Hok' & Hcase). rewrite Hx in Hcase.
    destruct x as [av|f rw us]; [|by eapply Href]. cbn [page_spec].
    destruct (decide (a = PAGE_AVAILABLE \/ a = PAGE_UNAVAILABLE)) as [Ha|Ha]; [|rewrite decide_False by naive_solver; by eapply Href].
    destruct Hcase as [(-> & Hc & Hview)|(-> & -> & Hne & Ht)].
    + rewrite decide_True by done. by exists OK, s', F, (Unmapped a).
    + rewrite decide_False by (rewrite Ht; naive_solver). by eapply Href.
Qed.

(** An operation on a page that is not a user page, or without a directory, is
    refused. *)
Lemma run_page_op_refused me op d v s : user_page_ok d v = false ->
  run_page_op me op d v s = Some (FAIL, s).
Proof.
  intros H. destruct op; cbn [run_page_op];
    unfold map_new_frame, map_zero_frame, unmap_frame, set_access, set_availability;
    rewrite ?H, ?andb_false_r; done.
Qed.

(** A request to the manager. *)
Inductive vm_op : Type :=
| Construct
| Destruct (d : addr)
| PageOp (op : page_op) (d v : Z).

Definition run_vm_op (me : Z) (op : vm_op) (s : vm) : option vm :=
  match op with
  | Construct => '(_, s) ← construct_page_dir s; Some s
  | Destruct d => destruct_page_dir me d s
  | PageOp op d v => '(_, s) ← run_page_op me op d v s; Some s
  end.

(** Callers pass [NULL] or a directory they have, and 32-bit addresses. *)
Definition vm_op_ok (op : vm_op) (s : vm) : Prop :=
  match op with
  | Construct => True
  | Destruct d => d = NULL \/ is_Some (pdirs s !! d)
  | PageOp _ d v => (d = NULL \/ is_Some (pdirs s !! d)) /\ vword v
  end.

Inductive vm_run (me : Z) : vm -> vm -> Prop :=
| vm_run_refl s : vm_run me s s
| vm_run_step s s1 s2 op : vm_op_ok op s -> run_vm_op me op s = Some s1 ->
    vm_run me s1 s2 -> vm_run me s s2.

Lemma run_vm_op_ok me op s F : vm_ok s F -> vm_op_ok op s ->
  exists s' F', run_vm_op me op s = Some s' /\ vm_ok s' F'.
Proof.
  intros Hok Harg. destruct op as [|d|op d v]; cbn [run_vm_op vm_op_ok] in *.
  - destruct (construct_page_dir_ok s F Hok) as (d & s' & Hc & Hok' & _). run Hc. eauto.
  - destruct Harg as [->|Hd].
    + unfold destruct_page_dir. rewrite decide_True by done. eauto.
    + destruct (destruct_page_dir_ok me s F d Hok Hd) as (s' & F' & Hc & Hok' & _). eauto.
  - destruct Harg as [Hd Hv]. destruct (user_page_ok d v) eqn:Hg.
    + unfold user_page_ok in Hg. apply andb_true_iff in Hg as [Hg1%bool_decide_eq_true Hg2%bool_decide_eq_true].
      destruct Hd as [->|Hd]; [done|]. apply (proj1 (user_page_start_le v Hv)) in Hg2.
      assert (user_page s d v) as Hup by done.
      destruct (find_frame_found s d v) as (l & x & _ & Hx & _); [apply Hok|done|done|].
      destruct (run_page_op_ok me op s F d v x Hok Hup Hx) as (r & s' & F' & x' & Hr & _ & Hok' & _).
      run Hr. eauto.
    + rewrite run_page_op_refused by done. eauto.
Qed.

Lemma vm_run_ok me s s' F : vm_run me s s' -> vm_ok s F -> exists F', vm_ok s' F'.
Proof.
  intros Hrun. revert F. induction Hrun as [|s s1 s2 op Harg Hs _ IH]; intros F Hok; [eauto|].
  destruct (run_vm_op_ok me op s F Hok Harg) as (s1' & F' & Hs' & Hok'). rewrite Hs in Hs'.
  injection Hs' as <-. eauto.
Qed.

(** The state before the first directory: no directories, an initialised
    allocator, and pages for [smemalign]. *)
Definition vm_boot (s : vm) (F : list Z) : Prop :=
  pdirs s = ∅ /\ ptabs s = ∅ /\ pool_is (allocator s) F /\
  NoDup (page_pool s) /\ Forall page_ok (page_pool s).

Lemma vm_boot_ok s F : vm_boot s F -> vm_ok s F.
Proof.
  intros (Hd & Ht & Hp & Hnd & Hall).
  assert (forall d v, view s d v = None) as Hv by (intros; unfold view, get_pde; by rewrite Hd, lookup_empty).
  split; split.
  - intros d es. by rewrite Hd, lookup_empty.
  - intros t es. by rewrite Ht, lookup_empty.
  - intros d i e. unfold get_pde. by rewrite Hd, lookup_empty.
  - intros d i e d' i' e'. unfold get_pde. by rewrite Hd, lookup_empty.
  - split; [done|]. eapply Forall_impl; [done|]. intros q Hq. by rewrite Hd, Ht, !lookup_empty.
  - intros q. rewrite Hd, lookup_empty. by intros [? ?].
  - done.
  - intros d v [? Hx]. by rewrite Hd, lookup_empty in Hx.
  - intros d v f rw us _ _. by rewrite Hv.
  - intros d v f rw us d' v' rw' us' _ _ _ _ _. by rewrite Hv.
Qed.

(** ** Pages that have a table

    On these no operation runs out of heap. *)

Definition has_table (s : vm) (d v : Z) : Prop :=
  exists pde, get_pde s (d, pde_index v) = Some pde /\ pde_p pde <> 0.

Lemma has_table_pdirs s s' d v : pdirs s' = pdirs s -> has_table s d v -> has_table s' d v.
Proof. unfold has_table, get_pde. by intros ->. Qed.

Lemma mapped_has_table s d v f rw us : view s d v = Some (Mapped f rw us) -> has_table s d v.
Proof.
  unfold view. intros (pde & Hpde & H)%bind_Some. exists pde. split; [done|]. intros Hp.
  by rewrite decide_True in H.
Qed.

Lemma find_frame_table s d v l : has_table s d v -> find_frame s d v = Some l ->
  found l <> NONPRESENT_PDE /\ (found l = NONPRESENT_PTE \/ found l = PHYSICAL_FRAME_MAPPED \/ found l = NULL_PAGE_DIR).
Proof.
  intros (pde & Hpde & Hp). unfold find_frame. case_decide; [by intros [= <-]; auto|]. rewrite Hpde. cbn [mbind option_bind].
  rewrite decide_False by done. intros (e & He & Hfl)%bind_Some. case_decide; injection Hfl as <-; cbn; auto.
Qed.

Lemma set_pte_pdirs e x s s' : set_pte e x s = Some s' -> pdirs s' = pdirs s.
Proof. unfold set_pte. intros. inv_bind. done. Qed.

Section has_table_ops.
Context (me : Z) (s s' : vm) (d v : Z) (r : Z).
Context (Ht : has_table s d v).

Lemma unmapped_pte_table l p s1 : find_frame s d v = Some l -> unmapped_pte l v s = Some (p, s1) ->
  s1 = s /\ (found l = NONPRESENT_PTE -> is_Some p).
Proof.
  intros Hl. destruct (find_frame_table s d v l Ht Hl) as [Hn [E|[E|E]]]; unfold unmapped_pte; rewrite E;
    intros [= <- <-]; (split; [done|]); by intros.
Qed.

Lemma map_new_frame_table : map_new_frame me d v s = Some (r, s') -> pdirs s' = pdirs s.
Proof.
  unfold map_new_frame. destruct (user_page_ok d v); [|by intros [= _ <-]].
  intros (l & Hl & H)%bind_Some. apply bind_Some in H as ([p s1] & Hp & H).
  apply unmapped_pte_table in Hp as [-> _]; [|done]. destruct p as [p|]; [|by injection H as _ <-].
  apply bind_Some in H as ([[r0 f] s2] & Hf & H). unfold vm_alloc_frame in Hf. inv_bind.
  destruct f as [f|]; [|by simplify_eq]. case_decide; simplify_eq; [done|].
  inv_bind. erewrite set_pte_pdirs by done. done.
Qed.

Lemma unmap_frame_table : unmap_frame me d v s = Some (r, s') -> pdirs s' = pdirs s.
Proof.
  unfold unmap_frame. destruct (user_page_ok d v); [|by intros [= _ <-]].
  intros (l & Hl & H)%bind_Some. case_decide; [|by injection H as _ <-].
  apply bind_Some in H as (s1 & H1 & H). unfold vm_free_frame in H. inv_bind. by eapply set_pte_pdirs.
Qed.

Lemma set_availability_table a av : user_page_ok d v = true -> view s d v = Some (Unmapped av) ->
  a = PAGE_AVAILABLE \/ a = PAGE_UNAVAILABLE ->
  set_availability d v a s = Some (r, s') -> r = OK /\ pdirs s' = pdirs s.
Proof.
  intros Hu Hv Ha. unfold set_availability. rewrite bool_decide_true, Hu by done. cbn [andb].
  intros (l & Hl & H)%bind_Some. destruct (find_frame_table s d v l Ht Hl) as [Hn Hc].
  rewrite decide_False in H by done. cbn [mbind option_bind] in H.
  apply bind_Some in H as ([p s1] & Hp & H). 
  assert (found l = NONPRESENT_PTE) as E.
  { destruct Hc as [E|[E|E]]; [done| |]; exfalso.
    - unfold find_frame in Hl. case_decide; [by simplify_eq|]. destruct Ht as (pde & Hpde & Hpp). rewrite Hpde in Hl.
      unfold view in Hv. rewrite Hpde in Hv. cbn [mbind option_bind] in *. rewrite decide_False in Hl by done. rewrite decide_False in Hv by done.
      destruct (get_pte s _) as [e|]; [|done]. cbn [mbind option_bind] in *. unfold pte_view in Hv.
      case_decide; [by simplify_eq/=|]. done.
    - unfold find_frame in Hl. case_decide; [|destruct Ht as (pde & Hpde & Hpp); rewrite Hpde in Hl; cbn [mbind option_bind] in Hl;
        rewrite decide_False in Hl by done; inv_bind; case_decide; by simplify_eq/=].
      unfold user_page_ok in Hu. apply andb_true_iff in Hu as [Hu _]. apply bool_decide_eq_true in Hu. done. }
  destruct (unmapped_pte_table l p s1 Hl Hp) as [-> Hq]. destruct (Hq E) as [q ->]. inv_bind. split; [done|]. by eapply set_pte_pdirs.
Qed.

End has_table_ops.

(** Making a page available gives it a table. *)
Lemma set_availability_has_table s s' F d v a av : vm_ok s F -> user_page s d v ->
  view s d v = Some (Unmapped av) -> av <> a -> set_availability d v a s = Some (OK, s') -> has_table s' d v.
Proof.
  intros Hok Hup Hv Hne Hs. unfold set_availability in Hs.
  destruct (bool_decide _ && _); [|done].
  apply bind_Some in Hs as (l & Hl & H). apply bind_Some in H as (same & Hsame & H).
  destruct (find_frame_found s d v (proj1 Hok) (proj1 Hup) (proj1 (proj2 Hup))) as (l' & x & Hl' & Hx & Hfa).
  rewrite Hl in Hl'. injection Hl' as <-. rewrite Hv in Hx. injection Hx as <-.
  destruct Hfa as (Hptr & pde & Hpde & Hc).
  destruct (decide (pde_p pde = 0)) as [Hp|Hp].
  - destruct Hc as [Hfo Hx]. injection Hx as Hx. rewrite decide_True in Hsame by done. rewrite Hptr in Hsame. 
    rewrite Hpde in Hsame. cbn [mbind option_bind] in Hsame. rewrite bool_decide_false in Hsame by congruence.
    injection Hsame as <-. unfold unmapped_pte in H. rewrite Hfo in H. unfold create_table in H. rewrite Hptr, Hpde in H.
    cbn [mbind option_bind] in H. destruct (new_table _ s) as [[t s1]|] eqn:Hnt; [|by inv_bind].
    apply bind_Some in H as ([p s2] & H2 & H). apply bind_Some in H2 as (s3 & H3 & H2). injection H2 as <- <-.
    apply bind_Some in H as (e & He & H). apply bind_Some in H as (s4 & H4 & H). injection H as <-.
    apply (has_table_pdirs s3); [by eapply set_pte_pdirs|].
    exists (pde_user t). split; [|done]. unfold set_pde in H3. inv_bind. unfold get_pde. cbn.
    rewrite lookup_insert_eq. cbn. apply list_lookup_insert_eq. by eapply lookup_lt_Some.
  - assert (has_table s d v) as Htab by (by exists pde).
    destruct same.
    + injection H as <-. done.
    + apply bind_Some in H as ([p s1] & Hp1 & H). apply (unmapped_pte_table s d v Htab) in Hp1 as [-> _]; [|done].
      destruct p as [p|]; [|by inv_bind]. inv_bind. eapply has_table_pdirs; [|exact Htab]. by eapply set_pte_pdirs.
Qed.

(** ** A heap that has run out stays so *)

Lemma unmapped_pte_empty l v s p s1 : page_pool s = [] -> unmapped_pte l v s = Some (p, s1) -> page_pool s1 = [].
Proof.
  intros Hp. unfold unmapped_pte. destruct (found l); try (by intros [= _ <-]).
  unfold create_table, new_table. rewrite Hp. intros. by inv_bind.
Qed.

Lemma set_pte_pool e x s s' : set_pte e x s = Some s' -> page_pool s' = page_pool s.
Proof. unfold set_pte. intros. inv_bind. done. Qed.

Section empty_heap.
Context (me : Z) (s s' : vm) (d v : Z) (r : Z).
Context (Hp : page_pool s = []).

Lemma map_new_frame_empty : map_new_frame me d v s = Some (r, s') -> page_pool s' = [].
Proof.
  unfold map_new_frame. destruct (user_page_ok d v); [|by intros [= _ <-]].
  intros (l & Hl & Hr)%bind_Some. apply bind_Some in Hr as ([p s1] & Hu & Hr).
  apply unmapped_pte_empty in Hu; [|done]. destruct p as [p|]; [|by injection Hr as _ <-].
  apply bind_Some in Hr as ([[r0 f] s2] & Hf & Hr). unfold vm_alloc_frame in Hf. inv_bind.
  destruct f as [f|]; [|by simplify_eq]. case_decide; simplify_eq; [done|].
  inv_bind. erewrite set_pte_pool by done. done.
Qed.

Lemma unmap_frame_empty : unmap_frame me d v s = Some (r, s') -> page_pool s' = [].
Proof.
  unfold unmap_frame. destruct (user_page_ok d v); [|by intros [= _ <-]].
  intros (l & Hl & Hr)%bind_Some. case_decide; [|by injection Hr as _ <-].
  apply bind_Some in Hr as (s1 & H1 & Hr). unfold vm_free_frame in Hr. inv_bind. cbn. by erewrite set_pte_pool.
Qed.

Lemma set_availability_empty a : set_availability d v a s = Some (r, s') -> page_pool s' = [].
Proof.
  unfold set_availability. destruct (_ && _); [|by intros [= _ <-]].
  intros (l & Hl & Hr)%bind_Some. apply bind_Some in Hr as (same & _ & Hr). destruct same; [by injection Hr as _ <-|].
  apply bind_Some in Hr as ([p s1] & Hu & Hr). apply unmapped_pte_empty in Hu; [|done].
  destruct p as [p|]; [|by injection Hr as _ <-]. inv_bind. by erewrite set_pte_pool.
Qed.

End empty_heap.

(** * Properties *)

(** C1. Isolation.  From boot, whatever sequence of operations the kernel
    performs on page directories (creation, destruction, mapping, unmapping,
    access and availability changes, on any page and even on kernel pages or
    [NULL]), no physical frame other than the shared zero frame is ever mapped
    at two user pages, no mapped frame is in the free pool, and the kernel's
    own pages stay identity-mapped and inaccessible to users; and the next
    operation never dereferences a bad pointer. *)
Theorem vm_isolation (me : Z) (s s' : vm) (F : list Z)
    (Hboot : vm_boot s F) (Hrun : vm_run me s s') :
  exists F', pool_is (allocator s') F' /\
    (forall d1 v1 f rw1 us1 d2 v2 rw2 us2,
       vword v1 -> vword v2 -> USER_PAGE_START <= v1 -> USER_PAGE_START <= v2 ->
       view s' d1 v1 = Some (Mapped f rw1 us1) -> view s' d2 v2 = Some (Mapped f rw2 us2) ->
       f = ZERO_FRAME \/ (f ∉ F' /\ d1 = d2 /\ page_no v1 = page_no v2)) /\
    (forall d v, is_Some (pdirs s' !! d) -> 0 <= v < USER_PAGE_START ->
       view s' d v = Some (Mapped (page_of v) READ_WRITE 0)) /\
    (forall op, vm_op_ok op s' -> is_Some (run_vm_op me op s')).
Proof.
  destruct (vm_run_ok me s s' F Hrun (vm_boot_ok s F Hboot)) as (F' & Hok).
  exists F'. pose proof Hok as [Ht Hf]. split_and!.
  - apply Hf.
  - intros d1 v1 f rw1 us1 d2 v2 rw2 us2 Hv1 Hv2 Hu1 Hu2 H1 H2.
    destruct (decide (f = ZERO_FRAME)) as [|Hz]; [by left|right].
    destruct (mapped_ok _ _ Hf _ _ _ _ _ Hv1 Hu1 H1) as [?|[_ Hn]]; [done|]. split; [done|].
    by eapply (unique_ok _ _ Hf); [exact Hv1|exact Hv2|..|exact H1|exact H2].
  - apply Hf.
  - intros op Harg. destruct (run_vm_op_ok me op s' F' Hok Harg) as (s2 & F2 & -> & _). by eexists.
Qed.

(** C7. Each operation on a user page implements its specification [page_spec] of
    that one page, a function of how the page looks, of the pool of frames and of
    what memory there is for tables and nodes: it returns the specified code,
    fails only when the specification does, takes from the pool or gives back to
    it exactly the specified frame, and leaves the mapping of every other page of
    every directory alone. *)
Theorem vm_page_op_refines (me : Z) (op : page_op) (s : vm) (F : list Z) (d v : Z)
    (Hok : vm_ok s F) (Hpage : user_page s d v) :
  exists x r s' F' x', view s d v = Some x /\ run_page_op me op d v s = Some (r, s') /\
    page_spec (no_table s d v) (node_left s) op x F = (r, x', F') /\ vm_ok s' F' /\
    view_is s' (view_upd (view s) d v x').
Proof.
  destruct (find_frame_found s d v) as (l & x & _ & Hx & _); [apply Hok|apply Hpage|apply Hpage|].
  destruct (run_page_op_ok me op s F d v x Hok Hpage Hx) as (r & s' & F' & x' & ? & ? & ? & _ & ?).
  exists x, r, s', F', x'. done.
Qed.

(** The queries read the view: [check_user_page] tells unmapped pages, the
    zero frame and other frames apart, [get_access] returns the rights of a
    mapped page and fails on the others, [get_availability] the converse. *)
Theorem vm_queries_read_view (s : vm) (F : list Z) (d v : Z)
    (Hok : vm_ok s F) (Hpage : user_page s d v) :
  match view s d v with
  | Some (Unmapped a) =>
      (exists m, check_user_page d v s = Some (OK, Some m) /\ (m = PDE_NOT_PRESENT \/ m = PTE_NOT_PRESENT)) /\
      get_availability d v s = Some (OK, Some a) /\ get_access d v s = Some (FAIL, None)
  | Some (Mapped f rw _) =>
      check_user_page d v s =
        Some (OK, Some (if decide (f = ZERO_FRAME) then ZERO_FRAME_MAPPED else NEW_FRAME_MAPPED)) /\
      get_availability d v s = Some (FAIL, None) /\ get_access d v s = Some (OK, Some rw)
  | None => False
  end.
Proof.
  destruct (check_user_page_ok s F d v Hok Hpage) as (m & Hm & Hcase).
  rewrite (get_access_ok s F d v Hok Hpage), (get_availability_ok s F d v Hok Hpage), Hm.
  destruct (view s d v) as [[a|f rw us]|]; [eauto| |done]. by rewrite Hcase.
Qed.

(** C32. [construct_page_dir] returns a new directory mapping exactly the kernel
    pages, or [NULL] with no page lost when memory runs out; either way the
    existing directories and the invariant are untouched. *)
Theorem construct_page_dir_fresh (s : vm) (F : list Z) (Hok : vm_ok s F) :
  exists d s', construct_page_dir s = Some (d, s') /\ vm_ok s' F /\
    (forall d' v, is_Some (pdirs s !! d') -> view s' d' v = view s d' v) /\
    construct_outcome s d s'.
Proof.
  destruct (construct_page_dir_ok s F Hok) as (d & s' & ? & ? & _ & ? & ?). eauto 10.
Qed.

(** C31. [destruct_page_dir] removes one directory, leaves the others alone and
    returns to the pool exactly the frames that directory mapped (short of
    [malloc] running out of list nodes), never the zero frame. *)
Theorem destruct_page_dir_releases (me : Z) (s : vm) (F : list Z) (d : addr)
    (Hok : vm_ok s F) (Hd : is_Some (pdirs s !! d)) :
  exists s' F', destruct_page_dir me d s = Some s' /\ vm_ok s' F' /\
    dom (pdirs s') = dom (pdirs s) ∖ {[d]} /\
    (forall d' v, d' <> d -> view s' d' v = view s d' v) /\
    (forall f, f ∈ F -> f ∈ F') /\ (forall f, f ∈ F' -> f ∈ F \/ maps_frame s d f) /\
    (forall f, maps_frame s d f -> f <> ZERO_FRAME -> f ∈ F' \/ nodes_left s' = []).
Proof. by apply destruct_page_dir_ok. Qed.

(** ** A concrete machine: 12 free frames, 16 pages of heap, one directory *)

Definition demo_boot : vm :=
  Vm demo_alloc ∅ ∅ ((fun i => 65536 + i * 4096) <$> seqZ 0 16).
Definition demo_vm : vm :=
  match construct_page_dir demo_boot with Some (_, s) => s | None => demo_boot end.
Definition demo_frames : list Z := frames_from 0 13.

Lemma demo_boot_ok : vm_boot demo_boot demo_frames.
Proof.
  split; [done|]. split; [done|]. split; [apply demo_alloc_ok|].
  split; apply bool_decide_unpack with (dec := decide _); by vm_compute.
Qed.

Lemma demo_vm_ok : vm_ok demo_vm demo_frames.
Proof.
  unfold demo_vm. destruct (construct_page_dir_ok demo_boot demo_frames) as (d & s' & Hc & Hok & _).
  { apply vm_boot_ok, demo_boot_ok. }
  by rewrite Hc.
Qed.

Lemma demo_page : user_page demo_vm 65536 0x1003abc.
Proof.
  split; [|split; [unfold vword; lia|by vm_compute]].
  apply bool_decide_unpack with (dec := decide _). by vm_compute.
Qed.

Lemma vm_isolation_witness :
  exists F', pool_is (allocator demo_vm) F' /\
    forall op, vm_op_ok op demo_vm -> is_Some (run_vm_op 1 op demo_vm).
Proof.
  destruct (vm_isolation 1 demo_boot demo_vm demo_frames demo_boot_ok) as (F' & H1 & _ & _ & H2); [|eauto].
  apply (vm_run_step 1 demo_boot demo_vm demo_vm Construct); [done| |apply vm_run_refl].
  destruct (construct_page_dir_ok demo_boot demo_frames) as (d & s' & Hc & _).
  { apply vm_boot_ok, demo_boot_ok. }
  unfold demo_vm. cbn [run_vm_op]. by rewrite Hc.
Defined.

Lemma vm_page_op_refines_witness :
  exists s', run_page_op 1 MapNew 65536 0x1003abc demo_vm = Some (OK, s') /\
    vm_ok s' (tail demo_frames) /\ view s' 65536 0x1003abc = Some (Mapped 0x1001000 READ_WRITE 1).
Proof.
  destruct (vm_page_op_refines 1 MapNew demo_vm demo_frames 65536 0x1003abc demo_vm_ok demo_page)
    as (x & r & s' & F' & x' & Hx & Hr & Hspec & Hok' & Hview).
  assert (view demo_vm 65536 0x1003abc = Some (Unmapped 0)) as E by (vm_compute; reflexivity).
  rewrite E in Hx. injection Hx as <-.
  assert (no_table demo_vm 65536 0x1003abc = false) as En by (vm_compute; reflexivity). rewrite En in Hspec.
  assert (demo_frames = 0x1001000 :: tail demo_frames) as Ef by (vm_compute; reflexivity). rewrite Ef in Hspec.
  cbn [page_spec] in Hspec. injection Hspec as <- <- <-. exists s'. split; [exact Hr|]. split; [exact Hok'|].
  rewrite Hview by (unfold vword; lia). apply view_upd_here.
Defined.

Lemma vm_queries_read_view_witness :
  get_access 65536 0x1003abc demo_vm = Some (FAIL, None).
Proof.
  pose proof (vm_queries_read_view demo_vm demo_frames 65536 0x1003abc demo_vm_ok demo_page) as H.
  destruct (view demo_vm 65536 0x1003abc) as [[a|f rw us]|] eqn:Hv; [apply H| |destruct H].
  vm_compute in Hv. discriminate Hv.
Defined.

Lemma construct_page_dir_fresh_witness :
  exists d s', construct_page_dir demo_vm = Some (d, s') /\ vm_ok s' demo_frames.
Proof.
  destruct (construct_page_dir_fresh demo_vm demo_frames demo_vm_ok) as (d & s' & H1 & H2 & _).
  exists d, s'. split; assumption.
Defined.

Lemma destruct_page_dir_releases_witness :
  exists s' F', destruct_page_dir 1 65536 demo_vm = Some s' /\ vm_ok s' F'.
Proof.
  destruct (destruct_page_dir_releases 1 demo_vm demo_frames 65536 demo_vm_ok (proj1 demo_page))
    as (s' & F' & H1 & H2 & _). exists s', F'. split; assumption.
Defined.
