(* ===== verification/Keyhelp.v ===== *)
(** Scancode translation: [410kern/x86/keyhelp.c] and [keylayout.c], which
    [kern/keyboard.c] calls for every scancode.

    A scancode is an [int]; [key_state] (a [short]) is its low 16 bits; results
    of type [kh_type] are signed 32-bit values. *)
From S2P Require Import Prelude.

(** ** keyhelp.h *)

Definition KHE_ESCAPE : Z := 0x1b.
Definition KHE_BACKSPACE : Z := 8.
Definition KHE_TAB : Z := 9.
Definition KHE_ENTER : Z := 10.
Definition KHE_DELETE : Z := 0x7f.
Definition KHE_UNDEFINED : Z := 0x80.
Definition KHE_ARROW_UP : Z := 0x81.
Definition KHE_ARROW_LEFT : Z := 0x82.
Definition KHE_ARROW_DOWN : Z := 0x83.
Definition KHE_ARROW_RIGHT : Z := 0x84.
Definition KHE_LALT : Z := 0x85.
Definition KHE_RALT : Z := 0x86.
Definition KHE_LCTL : Z := 0x87.
Definition KHE_RCTL : Z := 0x88.
Definition KHE_LSHIFT : Z := 0x89.
Definition KHE_RSHIFT : Z := 0x8a.
Definition KHE_CAPSLOCK : Z := 0x8b.
Definition KHE_NUMLOCK : Z := 0x8c.
Definition KHE_F1 : Z := 0x8d.
Definition KHE_F2 : Z := 0x8e.
Definition KHE_F3 : Z := 0x8f.
Definition KHE_F4 : Z := 0x90.
Definition KHE_F5 : Z := 0x91.
Definition KHE_F6 : Z := 0x92.
Definition KHE_F7 : Z := 0x93.
Definition KHE_F8 : Z := 0x94.
Definition KHE_F9 : Z := 0x95.
Definition KHE_F10 : Z := 0x96.
Definition KHE_F11 : Z := 0x97.
Definition KHE_F12 : Z := 0x98.
Definition KHE_PAUSE : Z := 0x99.
Definition KHE_PRINT_SCREEN : Z := 0x9a.
Definition KHE_BEGIN : Z := 0x9b.
Definition KHE_HOME : Z := 0x9c.
Definition KHE_END : Z := 0x9d.
Definition KHE_INSERT : Z := 0x9e.
Definition KHE_PAGE_UP : Z := 0x9f.
Definition KHE_PAGE_DOWN : Z := 0xa0.
Definition KHE_APPS : Z := 0xa1.

Definition KH_STATE_SHIFT : Z := 16.
Definition KH_STATE_SMASK : Z := 0xff00.
Definition KH_RMODS_SHIFT : Z := 16.
Definition KH_RAWCHAR_SHIFT : Z := 8.
Definition KH_CHAR_SHIFT : Z := 0.
Definition KH_CHAR_MASK : Z := 0xff.

Definition KH_LSHIFT_KEY : Z := 0x8000.
Definition KH_RSHIFT_KEY : Z := 0x4000.
Definition KH_LCONTROL_KEY : Z := 0x2000.
Definition KH_RCONTROL_KEY : Z := 0x1000.
Definition KH_LALT_KEY : Z := 0x0800.
Definition KH_RALT_KEY : Z := 0x0400.
Definition KH_CAPS_LOCK : Z := 0x0200.
Definition KH_NUM_LOCK : Z := 0x0100.

Definition KH_RESULT_HASRAW : Z := 8.
Definition KH_RESULT_HASDATA : Z := 4.
Definition KH_RESULT_NUMPAD : Z := 2.
Definition KH_RESULT_MAKE : Z := 1.

Definition KH_STATE (k : Z) : Z := Z.land (Z.shiftr k KH_STATE_SHIFT) KH_STATE_SMASK.
Definition KH_GETCHAR (k : Z) : Z := Z.land (Z.shiftr k KH_CHAR_SHIFT) KH_CHAR_MASK.
Definition KH_HASDATA (k : Z) : bool :=
  bool_decide (Z.land (Z.shiftr k KH_RMODS_SHIFT) KH_RESULT_HASDATA <> 0).
Definition KH_ISMAKE (k : Z) : bool :=
  bool_decide (Z.land (Z.shiftr k KH_RMODS_SHIFT) KH_RESULT_MAKE <> 0).

(** ** keylayout.h and keylayout.c *)

Definition KL_SIZE : Z := 128.
Inductive kb_layout_t : Type := KB_LAYOUT_QWERTY | KB_LAYOUT_DVORAK | KB_LAYOUT_COLEMAK.
Inductive kl_layer_t : Type := KL_BASE | KL_LOCK | KL_SHIFT | KL_CTL | KL_EXT.
#[export] Instance kl_layer_eq_dec : EqDecision kl_layer_t.
Proof. solve_decision. Defined.

Definition KLE_EMPTY : Z := 0x00.
Definition KLE_ZERO : Z := 0xfe.
Definition KLE_LOWER : Z := 0xff.

(** The designated initialisers: each layer is a list of runs, a first index
    and the keys from it on; the other keys are [KLE_EMPTY]. *)
Definition kb_qwerty : list (list (Z * list Z)) :=
  [[(0x01, [KHE_ESCAPE; 49; 50; 51; 52; 53; 54; 55; 56; 57; 48; 45; 61; 8; 9; 113; 119; 101;
    114; 116; 121; 117; 105; 111; 112; 91; 93; 10; KHE_LCTL; 97; 115; 100; 102; 103; 104;
    106; 107; 108; 59; 39; 96; KHE_LSHIFT; 92; 122; 120; 99; 118; 98; 110; 109; 44; 46; 47;
    KHE_RSHIFT; 42; KHE_LALT; 32; KHE_CAPSLOCK; KHE_F1; KHE_F2; KHE_F3; KHE_F4; KHE_F5;
    KHE_F6; KHE_F7; KHE_F8; KHE_F9; KHE_F10; KHE_NUMLOCK; KHE_UNDEFINED; KHE_HOME;
    KHE_ARROW_UP; KHE_PAGE_UP; 45; KHE_ARROW_LEFT; KHE_BEGIN; KHE_ARROW_RIGHT; 43; KHE_END;
    KHE_ARROW_DOWN; KHE_PAGE_DOWN; KHE_INSERT; KHE_DELETE; KHE_PRINT_SCREEN]);
    (0x57, [KHE_F11; KHE_F12])];
   [(0x10, [81; 87; 69; 82; 84; 89; 85; 73; 79; 80]);
    (0x1e, [65; 83; 68; 70; 71; 72; 74; 75; 76]);
    (0x2c, [90; 88; 67; 86; 66; 78; 77]);
    (0x47, [55; 56; 57]);
    (0x4b, [52; 53; 54]);
    (0x4f, [49; 50; 51; 48; 46])];
   [(0x02, [33; 64; 35; 36; 37; 94; 38; 42; 40; 41; 95; 43]);
    (0x1a, [123; 125]);
    (0x27, [58; 34; 126]);
    (0x2b, [124]);
    (0x33, [60; 62; 63])];
   [(0x03, [KLE_ZERO]);
    (0x07, [0x1E]);
    (0x0c, [0x1F]);
    (0x10, [0x11; 0x17; 0x05; 0x12; 0x14; 0x19; 0x15; 0x09; 0x0F; 0x10; 0x1B; 0x1D]);
    (0x1e, [0x01; 0x13; 0x04; 0x06; 0x07; 0x08; 0x0A; 0x0B; 0x0C]);
    (0x2b, [0x1C; 0x1A; 0x18; 0x03; 0x16; 0x02; 0x0E; 0x0D])];
   [(0x1c, [10; KHE_RCTL]);
    (0x35, [47]);
    (0x37, [KHE_PRINT_SCREEN; KHE_RALT]);
    (0x48, [KHE_ARROW_UP]);
    (0x4b, [KHE_ARROW_LEFT]);
    (0x4d, [KHE_ARROW_RIGHT]);
    (0x50, [KHE_ARROW_DOWN]);
    (0x53, [KHE_DELETE]);
    (0x5d, [KHE_APPS])]].

Definition kb_dvorak : list (list (Z * list Z)) :=
  [[(0x01, [KHE_ESCAPE; 49; 50; 51; 52; 53; 54; 55; 56; 57; 48; 91; 93; 8; 9; 39; 44; 46; 112;
    121; 102; 103; 99; 114; 108; 47; 61; 10; KHE_LCTL; 97; 111; 101; 117; 105; 100; 104;
    116; 110; 115; 45; 96; KHE_LSHIFT; 92; 59; 113; 106; 107; 120; 98; 109; 119; 118; 122;
    KHE_RSHIFT; 42; KHE_LALT; 32; KHE_CAPSLOCK; KHE_F1; KHE_F2; KHE_F3; KHE_F4; KHE_F5;
    KHE_F6; KHE_F7; KHE_F8; KHE_F9; KHE_F10; KHE_NUMLOCK; KHE_UNDEFINED; KHE_HOME;
    KHE_ARROW_UP; KHE_PAGE_UP; 45; KHE_ARROW_LEFT; KHE_BEGIN; KHE_ARROW_RIGHT; 43; KHE_END;
    KHE_ARROW_DOWN; KHE_PAGE_DOWN; KHE_INSERT; KHE_DELETE; KHE_PRINT_SCREEN]);
    (0x57, [KHE_F11; KHE_F12])];
   [(0x13, [80; 89; 70; 71; 67; 82; 76]);
    (0x1e, [65; 79; 69; 85; 73; 68; 72; 84; 78; 83]);
    (0x2d, [81; 74; 75; 88; 66; 77; 87; 86; 90]);
    (0x47, [55; 56; 57]);
    (0x4b, [52; 53; 54]);
    (0x4f, [49; 50; 51; 48; 46])];
   [(0x02, [33; 64; 35; 36; 37; 94; 38; 42; 40; 41; 123; 125]);
    (0x10, [34; 60; 62]);
    (0x1a, [63; 43]);
    (0x28, [95; 126]);
    (0x2b, [124; 58])];
   [(0x03, [KLE_ZERO]);
    (0x07, [0x1E]);
    (0x0c, [0x1F]);
    (0x10, [0x11; 0x17; 0x05; 0x12; 0x14; 0x19; 0x15; 0x09; 0x0F; 0x10; 0x1B; 0x1D]);
    (0x1e, [0x01; 0x13; 0x04; 0x06; 0x07; 0x08; 0x0A; 0x0B; 0x0C]);
    (0x2b, [0x1C; 0x1A; 0x18; 0x03; 0x16; 0x02; 0x0E; 0x0D])];
   [(0x1c, [10; KHE_RCTL]);
    (0x35, [47]);
    (0x37, [KHE_PRINT_SCREEN; KHE_RALT]);
    (0x48, [KHE_ARROW_UP]);
    (0x4b, [KHE_ARROW_LEFT]);
    (0x4d, [KHE_ARROW_RIGHT]);
    (0x50, [KHE_ARROW_DOWN]);
    (0x53, [KHE_DELETE]);
    (0x5d, [KHE_APPS])]].

Definition kb_colemak : list (list (Z * list Z)) :=
  [[(0x01, [KHE_ESCAPE; 49; 50; 51; 52; 53; 54; 55; 56; 57; 48; 45; 61; 8; 9; 113; 119; 102;
    112; 103; 106; 108; 117; 121; 59; 91; 93; 10; KHE_LCTL; 97; 114; 115; 116; 100; 104;
    110; 101; 105; 111; 39; 96; KHE_LSHIFT; 92; 122; 120; 99; 118; 98; 107; 109; 44; 46; 47;
    KHE_RSHIFT; 42; KHE_LALT; 32; KHE_CAPSLOCK; KHE_F1; KHE_F2; KHE_F3; KHE_F4; KHE_F5;
    KHE_F6; KHE_F7; KHE_F8; KHE_F9; KHE_F10; KHE_NUMLOCK; KHE_UNDEFINED; KHE_HOME;
    KHE_ARROW_UP; KHE_PAGE_UP; 45; KHE_ARROW_LEFT; KHE_BEGIN; KHE_ARROW_RIGHT; 43; KHE_END;
    KHE_ARROW_DOWN; KHE_PAGE_DOWN; KHE_INSERT; KHE_DELETE; KHE_PRINT_SCREEN]);
    (0x57, [KHE_F11; KHE_F12])];
   [(0x10, [81; 87; 70; 80; 71; 74; 76; 85; 89]);
    (0x1e, [65; 82; 83; 84; 68; 72; 78; 69; 73; 79]);
    (0x2c, [90; 88; 67; 86; 66; 75; 77]);
    (0x47, [55; 56; 57]);
    (0x4b, [52; 53; 54]);
    (0x4f, [49; 50; 51; 48; 46])];
   [(0x02, [33; 64; 35; 36; 37; 94; 38; 42; 40; 41; 95; 43]);
    (0x19, [58; 123; 125]);
    (0x28, [34; 126]);
    (0x2b, [124]);
    (0x33, [60; 62; 63])];
   [(0x03, [KLE_ZERO]);
    (0x07, [0x1E]);
    (0x0c, [0x1F]);
    (0x10, [0x11; 0x17; 0x05; 0x12; 0x14; 0x19; 0x15; 0x09; 0x0F; 0x10; 0x1B; 0x1D]);
    (0x1e, [0x01; 0x13; 0x04; 0x06; 0x07; 0x08; 0x0A; 0x0B; 0x0C]);
    (0x2b, [0x1C; 0x1A; 0x18; 0x03; 0x16; 0x02; 0x0E; 0x0D])];
   [(0x1c, [10; KHE_RCTL]);
    (0x35, [47]);
    (0x37, [KHE_PRINT_SCREEN; KHE_RALT]);
    (0x48, [KHE_ARROW_UP]);
    (0x4b, [KHE_ARROW_LEFT]);
    (0x4d, [KHE_ARROW_RIGHT]);
    (0x50, [KHE_ARROW_DOWN]);
    (0x53, [KHE_DELETE]);
    (0x5d, [KHE_APPS])]].


Definition kb_layouts (layout : kb_layout_t) : list (list (Z * list Z)) :=
  match layout with
  | KB_LAYOUT_QWERTY => kb_qwerty
  | KB_LAYOUT_DVORAK => kb_dvorak
  | KB_LAYOUT_COLEMAK => kb_colemak
  end.

Definition layer_index (layer : kl_layer_t) : nat :=
  match layer with KL_BASE => 0 | KL_LOCK => 1 | KL_SHIFT => 2 | KL_CTL => 3 | KL_EXT => 4 end.

(** The key of a layer: the last run that covers it wins, as in C. *)
Fixpoint run_lookup (runs : list (Z * list Z)) (keycode : Z) (acc : Z) : Z :=
  match runs with
  | [] => acc
  | (first, keys) :: runs =>
      run_lookup runs keycode
        (if bool_decide (first <= keycode < first + Z.of_nat (length keys))
         then default KLE_EMPTY (keys !! Z.to_nat (keycode - first)) else acc)
  end.

Definition kb_empty (layer : kl_layer_t) : Z :=
  match layer with
  | KL_BASE => KHE_UNDEFINED | KL_LOCK => KLE_LOWER | KL_SHIFT => KLE_LOWER
  | KL_CTL => KLE_LOWER | KL_EXT => KHE_UNDEFINED
  end.

Definition kl_get_key (active_layout : kb_layout_t) (layer : kl_layer_t) (keycode : Z) : option Z :=
  affirm! negb (bool_decide (keycode < 0 \/ keycode >= KL_SIZE));
  runs ← kb_layouts active_layout !! layer_index layer;
  let key := run_lookup runs keycode KLE_EMPTY in
  let key := if decide (key = KLE_EMPTY) then kb_empty layer else key in
  let key := if decide (key = KLE_ZERO) then 0 else key in
  Some key.

(** ** keyhelp.c *)

Definition SCANCODE_GET_PRESS (s : Z) : bool := bool_decide (Z.land s 0x80 = 0).
Definition SCANCODE_GET_CODE (s : Z) : Z := Z.land s 0x7f.

Inductive kb_state_t : Type := KS_SIMPLE | KS_EXT | KS_PAUSE | KS_CTL_PAUSE.
#[export] Instance kb_state_eq_dec : EqDecision kb_state_t.
Proof. solve_decision. Defined.

(** [key_state], [scan_state], [key_sequence] and [active_layout]. *)
Record keyhelp : Type := Keyhelp {
  key_state : Z;
  scan_state : kb_state_t;
  key_sequence : Z;
  active_layout : kb_layout_t;
}.

Definition set_key_state (v : Z) (k : keyhelp) : keyhelp :=
  Keyhelp v (scan_state k) (key_sequence k) (active_layout k).
Definition set_scan_state (v : kb_state_t) (k : keyhelp) : keyhelp :=
  Keyhelp (key_state k) v (key_sequence k) (active_layout k).
Definition set_key_sequence (v : Z) (k : keyhelp) : keyhelp :=
  Keyhelp (key_state k) (scan_state k) v (active_layout k).

Definition kl_set_layout (layout : kb_layout_t) (k : keyhelp) : keyhelp :=
  Keyhelp (key_state k) (scan_state k) (key_sequence k) layout.

Definition keyhelp_init : keyhelp := Keyhelp 0 KS_SIMPLE 0 KB_LAYOUT_QWERTY.

Definition is_numpad_scan (k : keyhelp) (scancode : Z) : bool :=
  match scan_state k with
  | KS_SIMPLE => bool_decide (scancode = 0x37 \/ (0x47 <= scancode /\ scancode <= 0x53))
  | KS_EXT => bool_decide (scancode = 0x1c \/ scancode = 0x35)
  | KS_PAUSE | KS_CTL_PAUSE => false
  end.

(** [(key_state & KH_STATE_SMASK) << KH_STATE_SHIFT]. *)
Definition state_bits (k : keyhelp) : Z :=
  s32 (Z.shiftl (Z.land (key_state k) KH_STATE_SMASK) KH_STATE_SHIFT).

Definition process_result (k : keyhelp) (pressed : bool) (keycode code rcode : Z) : option Z :=
  affirm! bool_decide (SCANCODE_GET_CODE keycode = keycode);
  let has := bool_decide (rcode <> KHE_UNDEFINED /\ code <> KHE_UNDEFINED) in
  let res := if has then Z.shiftl KH_RESULT_HASDATA KH_RMODS_SHIFT else 0 in
  let code := if has then code else 0 in
  let res := if pressed then Z.lor res (Z.shiftl KH_RESULT_MAKE KH_RMODS_SHIFT) else res in
  let res := if is_numpad_scan k keycode
             then Z.lor res (Z.shiftl KH_RESULT_NUMPAD KH_RMODS_SHIFT) else res in
  Some (Z.lor (Z.lor (Z.lor (Z.lor res
    (Z.shiftl (Z.land code KH_CHAR_MASK) KH_CHAR_SHIFT))
    (Z.shiftl (Z.land rcode KH_CHAR_MASK) KH_RAWCHAR_SHIFT))
    (Z.shiftl KH_RESULT_HASRAW KH_RMODS_SHIFT))
    (state_bits k)).

Definition mod_key_of (rcode : Z) : Z :=
  if decide (rcode = KHE_LCTL) then KH_LCONTROL_KEY
  else if decide (rcode = KHE_RCTL) then KH_RCONTROL_KEY
  else if decide (rcode = KHE_LSHIFT) then KH_LSHIFT_KEY
  else if decide (rcode = KHE_RSHIFT) then KH_RSHIFT_KEY
  else if decide (rcode = KHE_LALT) then KH_LALT_KEY
  else if decide (rcode = KHE_RALT) then KH_RALT_KEY
  else if decide (rcode = KHE_CAPSLOCK) then KH_CAPS_LOCK
  else if decide (rcode = KHE_NUMLOCK) then KH_NUM_LOCK
  else -1.

(** [process_mod_key]: the new code and state. *)
Definition process_mod_key (k : keyhelp) (code rcode : Z) (pressed : bool) : Z * keyhelp :=
  let mod_key := mod_key_of rcode in
  if decide (mod_key > 0) then
    let st := key_state k in
    (KHE_UNDEFINED,
     set_key_state
       (u16 (if bool_decide (mod_key = KH_CAPS_LOCK \/ mod_key = KH_NUM_LOCK)
             then if pressed then Z.lxor st mod_key else st
             else if pressed then Z.lor st mod_key else Z.land st (Z.lnot mod_key))) k)
  else (code, k).

Definition process_simple_layer (k : keyhelp) (keycode : Z) : option kl_layer_t :=
  let held m := bool_decide (Z.land (key_state k) m <> 0) in
  let shift_pressed := held (Z.lor KH_LSHIFT_KEY KH_RSHIFT_KEY) in
  let caps_locked := held KH_CAPS_LOCK in
  let num_locked := held KH_NUM_LOCK in
  let ctl_pressed := held (Z.lor KH_LCONTROL_KEY KH_RCONTROL_KEY) in
  let is_numpad := is_numpad_scan k keycode in
  affirm! bool_decide (SCANCODE_GET_CODE keycode = keycode);
  ctl ← kl_get_key (active_layout k) KL_CTL keycode;
  shift ← kl_get_key (active_layout k) KL_SHIFT keycode;
  lock ← kl_get_key (active_layout k) KL_LOCK keycode;
  Some (if ctl_pressed && bool_decide (ctl <> KLE_LOWER) then KL_CTL
        else if shift_pressed && bool_decide (shift <> KLE_LOWER) then KL_SHIFT
        else if ((xorb caps_locked shift_pressed && negb is_numpad) || (num_locked && is_numpad))
                && bool_decide (lock <> KLE_LOWER) then KL_LOCK
        else KL_BASE).

Definition process_simple_scan (keypress : Z) (k : keyhelp) : option (Z * keyhelp) :=
  let pressed := SCANCODE_GET_PRESS keypress in
  let keycode := SCANCODE_GET_CODE keypress in
  if decide (keypress = 0xe0) then Some (state_bits k, set_scan_state KS_EXT k)
  else if decide (keypress = 0xe1) then
    Some (state_bits k, set_key_sequence 0 (set_scan_state KS_PAUSE k))
  else
    code_layer ← process_simple_layer k keycode;
    rcode ← kl_get_key (active_layout k) KL_BASE keycode;
    code ← kl_get_key (active_layout k) code_layer keycode;
    let '(code, k) := process_mod_key k code rcode pressed in
    res ← process_result k pressed keycode code rcode;
    Some (res, k).

Definition process_extended_scan (keypress : Z) (k : keyhelp) : option (Z * keyhelp) :=
  let pressed := SCANCODE_GET_PRESS keypress in
  let keycode := SCANCODE_GET_CODE keypress in
  if bool_decide (keypress = 0x2a \/ keypress = 0xaa) then
    Some (state_bits k, set_scan_state KS_SIMPLE k)
  else if decide (keypress = 0x46) then
    Some (state_bits k, set_key_sequence 0 (set_scan_state KS_CTL_PAUSE k))
  else
    rcode ← kl_get_key (active_layout k) KL_EXT keycode;
    let '(code, k) := process_mod_key k rcode rcode pressed in
    res ← process_result k pressed keycode code rcode;
    Some (res, set_scan_state KS_SIMPLE k).

Definition pause_seq : list Z := [0x1d; 0x45; 0xe1; 0x9d; 0xc5].
Definition ctl_pause_seq : list Z := [0xe0; 0xc6].

Definition process_pause_scan (keypress : Z) (k : keyhelp) : option (Z * keyhelp) :=
  let seq := if decide (scan_state k = KS_PAUSE) then pause_seq else ctl_pause_seq in
  let seq_size := Z.of_nat (length seq) in
  let keycode := SCANCODE_GET_CODE keypress in
  affirm! bool_decide (scan_state k = KS_PAUSE \/ scan_state k = KS_CTL_PAUSE);
  affirm! bool_decide (0 <= key_sequence k /\ key_sequence k < seq_size);
  expected ← seq !! Z.to_nat (key_sequence k);
  if decide (expected = keypress) then
    let k1 := set_key_sequence (key_sequence k + 1) k in
    if decide (key_sequence k1 = seq_size) then
      res ← process_result k1 true keycode KHE_PAUSE KHE_PAUSE;
      Some (res, set_scan_state KS_SIMPLE k1)
    else Some (state_bits k, k1)
  else Some (state_bits k, set_scan_state KS_SIMPLE k).

Definition process_scancode (keypress : Z) (k : keyhelp) : option (Z * keyhelp) :=
  '(res, k) ← match scan_state k with
              | KS_SIMPLE => process_simple_scan keypress k
              | KS_EXT => process_extended_scan keypress k
              | KS_PAUSE | KS_CTL_PAUSE => process_pause_scan keypress k
              end;
  affirm! bool_decide (KH_STATE res = Z.land (key_state k) KH_STATE_SMASK);
  Some (res, k).
