(* ===== verification/Keyboard.v ===== *)
(** The keyboard driver, [kern/keyboard.c]: the character queue [buf_t] and the
    extraction of characters from scancodes.  ([handle_keyboard], which also
    switches threads, is with the other interrupt handlers.)

    A queue is represented by the list of its elements, oldest first. *)
From S2P Require Import Prelude Keyhelp.
#[local] Open Scope Z_scope.

Definition BUF_LEN : Z := 1024.

(** [buf_t]; the elements are [char]s, so signed bytes. *)
Record buf_t : Type := Buf { start_idx : Z; element_count : Z; array : list Z }.

Definition buf_init : buf_t := Buf 0 0 (replicate (Z.to_nat BUF_LEN) 0).

Definition push_tail (b : buf_t) (element : Z) : option (Z * buf_t) :=
  if decide (element_count b >= BUF_LEN) then Some (FAIL, b)
  else
    let element_idx := Z.rem (s32 (start_idx b + element_count b)) BUF_LEN in
    a ← aset element_idx (s8 element) (array b);
    Some (OK, Buf (start_idx b) (s32 (element_count b + 1)) a).

(** [pop_head] and [pop_tail]: the code, the element stored on success. *)
Definition pop_head (b : buf_t) : option (Z * option Z * buf_t) :=
  if decide (element_count b <= 0) then Some (FAIL, None, b)
  else
    e ← aget (array b) (start_idx b);
    Some (OK, Some e,
      Buf (Z.rem (s32 (start_idx b + 1)) BUF_LEN) (s32 (element_count b - 1)) (array b)).

Definition pop_tail (b : buf_t) : option (Z * option Z * buf_t) :=
  if decide (element_count b <= 0) then Some (FAIL, None, b)
  else
    let n := s32 (element_count b - 1) in
    let element_idx := Z.rem (s32 (start_idx b + n)) BUF_LEN in
    e ← aget (array b) element_idx;
    Some (OK, Some e, Buf (start_idx b) n (array b)).

(** [extract_ch]: scancodes are consumed until one makes a character. *)
Fixpoint extract_loop (fuel : nat) (b : buf_t) (k : keyhelp)
    : option (Z * option Z * buf_t * keyhelp) :=
  match fuel with
  | O => None
  | S fuel =>
      '(r, scancode, b) ← pop_head b;
      match scancode with
      | None => Some (FAIL, None, b, k)
      | Some scancode =>
          '(augmented_ch, k) ← process_scancode scancode k;
          if KH_ISMAKE augmented_ch && KH_HASDATA augmented_ch
          then Some (OK, Some (s8 (KH_GETCHAR augmented_ch)), b, k)
          else extract_loop fuel b k
      end
  end.

(** One unit of fuel per scancode, and one to find the buffer empty. *)
Definition extract_ch (b : buf_t) (k : keyhelp) : option (Z * option Z * buf_t * keyhelp) :=
  extract_loop (S (Z.to_nat (element_count b))) b k.

(** * The queue *)

Definition slot (b : buf_t) (i : nat) : nat :=
  Z.to_nat ((start_idx b + Z.of_nat i) `mod` BUF_LEN).

(** [b] holds the queue [q]. *)
Record buf_is (b : buf_t) (q : list Z) : Prop := {
  buf_array : length (array b) = Z.to_nat BUF_LEN;
  buf_start : 0 <= start_idx b < BUF_LEN;
  buf_count : element_count b = Z.of_nat (length q) /\ Z.of_nat (length q) <= BUF_LEN;
  buf_elems : forall i x, q !! i = Some x -> array b !! slot b i = Some x;
}.

Lemma buf_init_empty : buf_is buf_init [].
Proof. split; [done|unfold BUF_LEN; simpl; lia|simpl; unfold BUF_LEN; lia|]. intros i x. by rewrite lookup_nil. Qed.

Lemma slot_lt b i : 0 <= start_idx b -> (slot b i < Z.to_nat BUF_LEN)%nat.
Proof.
  intros H. unfold slot, BUF_LEN. pose proof (Z.mod_pos_bound (start_idx b + Z.of_nat i) 1024). lia.
Qed.

Lemma slot_inj b i j : 0 <= start_idx b -> Z.of_nat i < BUF_LEN -> Z.of_nat j < BUF_LEN ->
  slot b i = slot b j -> i = j.
Proof.
  unfold slot, BUF_LEN. intros Hs Hi Hj Heq.
  pose proof (Z.mod_pos_bound (start_idx b + Z.of_nat i) 1024).
  pose proof (Z.mod_pos_bound (start_idx b + Z.of_nat j) 1024).
  apply Z2Nat.inj in Heq; [|lia..].
  pose proof (Z.div_mod (start_idx b + Z.of_nat i) 1024).
  pose proof (Z.div_mod (start_idx b + Z.of_nat j) 1024). nia.
Qed.

Lemma rem_small_range a n : - 2 ^ 31 <= a < 2 ^ 31 -> 0 <= a -> 0 < n -> Z.rem (s32 a) n = a `mod` n.
Proof. intros. rewrite s32_small by lia. apply Z.rem_mod_nonneg; lia. Qed.

Lemma push_tail_ok b q x : buf_is b q ->
  exists r b', push_tail b x = Some (r, b') /\
    if decide (Z.of_nat (length q) < BUF_LEN) then r = OK /\ buf_is b' (q ++ [s8 x])
    else r = FAIL /\ b' = b.
Proof.
  intros [Ha Hs [Hc Hl] He]. unfold push_tail. rewrite Hc. case_decide.
  { do 2 eexists. split; [done|]. rewrite decide_False by lia. done. }
  unfold BUF_LEN in *. rewrite rem_small_range by lia.
  pose proof (Z.mod_pos_bound (start_idx b + Z.of_nat (length q)) 1024).
  rewrite aset_Some by lia. cbn [mbind option_bind]. do 2 eexists. split; [done|].
  rewrite decide_True by lia. split; [done|]. rewrite s32_small by lia.
  split; cbn [array start_idx element_count].
  - by rewrite length_insert.
  - done.
  - rewrite length_app. simpl. unfold BUF_LEN. lia.
  - intros i y. rewrite lookup_app. change (slot (Buf (start_idx b) _ _) i) with (slot b i).
    destruct (q !! i) as [z|] eqn:Hq.
    + intros [= <-]. pose proof (lookup_lt_Some _ _ _ Hq). rewrite list_lookup_insert_ne; [by apply He|].
      intros Heq. change (Z.to_nat ((start_idx b + Z.of_nat (length q)) `mod` 1024)) with (slot b (length q)) in Heq.
      apply slot_inj in Heq; unfold BUF_LEN; lia.
    + apply lookup_ge_None_1 in Hq. intros [Hi <-]%list_lookup_singleton_Some.
      replace i with (length q) by lia. unfold slot. apply list_lookup_insert_eq. lia.
Qed.

Lemma pop_head_ok b q : buf_is b q ->
  exists b', match q with
             | [] => pop_head b = Some (FAIL, None, b) /\ b' = b
             | x :: q' => pop_head b = Some (OK, Some x, b') /\ buf_is b' q'
             end.
Proof.
  intros [Ha Hs [Hc Hl] He]. unfold pop_head. rewrite Hc. destruct q as [|x q]; simpl length in *.
  { exists b. by rewrite decide_True by lia. }
  rewrite decide_False by lia. specialize (He 0%nat x eq_refl) as Hx. unfold slot, BUF_LEN in *.
  rewrite Z.add_0_r, Z.mod_small in Hx by lia. unfold aget. rewrite decide_True by lia.
  run Hx. rewrite rem_small_range by lia. rewrite s32_small by lia. eexists. split; [done|].
  split; cbn [array start_idx element_count]; unfold BUF_LEN.
  - done.
  - apply Z.mod_pos_bound. lia.
  - lia.
  - intros i y Hi. specialize (He (S i) y Hi). unfold slot, BUF_LEN. cbn [start_idx].
    rewrite Z.add_mod_idemp_l by lia.
    replace (start_idx b + 1 + Z.of_nat i) with (start_idx b + Z.of_nat (S i)) by lia. done.
Qed.

Lemma pop_tail_ok b q x : buf_is b (q ++ [x]) ->
  exists b', pop_tail b = Some (OK, Some x, b') /\ buf_is b' q.
Proof.
  intros [Ha Hs [Hc Hl] He]. unfold pop_tail. rewrite length_app in *. simpl length in *.
  rewrite Hc. rewrite decide_False by lia.
  assert ((q ++ [x]) !! length q = Some x) as Hx by (by rewrite lookup_app_r, Nat.sub_diag by done).
  specialize (He _ _ Hx) as Hx'. unfold slot, BUF_LEN in *.
  rewrite (s32_small (Z.of_nat (length q + 1) - 1)) by lia. rewrite rem_small_range by lia.
  replace (Z.of_nat (length q + 1) - 1) with (Z.of_nat (length q)) by lia.
  pose proof (Z.mod_pos_bound (start_idx b + Z.of_nat (length q)) 1024).
  unfold aget. rewrite decide_True by lia. run Hx'. eexists. split; [done|].
  split; cbn [array start_idx element_count]; unfold BUF_LEN; [done|done|lia|].
  intros i y Hi. apply He. by apply lookup_app_l_Some.
Qed.

Lemma pop_tail_empty b : buf_is b [] -> pop_tail b = Some (FAIL, None, b).
Proof. intros [_ _ [Hc _] _]. unfold pop_tail. rewrite Hc. by rewrite decide_True. Qed.

(** * Scancodes *)

(** A well-formed translation state: [key_state] is a half word and a pause
    sequence is within its bytes. *)
Definition kh_ok (k : keyhelp) : Prop :=
  0 <= key_state k < 2 ^ 16 /\
  match scan_state k with
  | KS_PAUSE => 0 <= key_sequence k < 5
  | KS_CTL_PAUSE => 0 <= key_sequence k < 2
  | _ => True
  end.

Lemma scancode_code s : 0 <= SCANCODE_GET_CODE s < 128 /\ SCANCODE_GET_CODE (SCANCODE_GET_CODE s) = SCANCODE_GET_CODE s.
Proof.
  unfold SCANCODE_GET_CODE. change 0x7f with (Z.ones 7). rewrite !Z.land_ones by lia.
  pose proof (Z.mod_pos_bound s (2 ^ 7)). split; [lia|]. apply Z.mod_small. lia.
Qed.

Lemma kl_get_key_some layout layer c : 0 <= c < 128 ->
  exists key, kl_get_key layout layer c = Some key /\ 0 <= key < 256.
Proof.
  intros Hc.
  assert (match kl_get_key layout layer c with
          | Some key => (0 <=? key) && (key <? 256) | None => false end = true) as H.
  { revert c Hc. apply (forall_below_Z 128). destruct layout, layer; by vm_compute. }
  destruct (kl_get_key layout layer c) as [key|]; [|done].
  apply andb_true_iff in H as [?%Z.leb_le ?%Z.ltb_lt]. eauto.
Qed.

(** The status bits of a result are those of the modifier state. *)
Lemma state_bits_testbit k i : 24 <= i < 32 ->
  Z.testbit (state_bits k) i = Z.testbit (key_state k) (i - 16).
Proof.
  intros Hi. unfold state_bits, KH_STATE_SMASK, KH_STATE_SHIFT, s32.
  set (a := Z.shiftl _ _).
  assert (Z.testbit ((a + 2 ^ 31) `mod` 2 ^ 32 - 2 ^ 31) i = Z.testbit a i) as ->.
  { rewrite <-(Z.mod_pow2_bits_low _ 32 i) by lia. rewrite <-(Z.mod_pow2_bits_low a 32 i) by lia.
    f_equal. rewrite Zminus_mod_idemp_l. f_equal. lia. }
  unfold a. rewrite Z.shiftl_spec by lia. rewrite Z.land_spec.
  assert (Z.testbit 0xff00 (i - 16) = true) as ->; [|apply andb_true_r].
  assert (i = 24 \/ i = 25 \/ i = 26 \/ i = 27 \/ i = 28 \/ i = 29 \/ i = 30 \/ i = 31) as Hc by lia.
  repeat (destruct Hc as [->|Hc]; [done|]). by subst.
Qed.

Lemma KH_STATE_result k a : 0 <= a < 2 ^ 20 ->
  KH_STATE (Z.lor a (state_bits k)) = Z.land (key_state k) KH_STATE_SMASK.
Proof.
  intros Ha. unfold KH_STATE, KH_STATE_SHIFT. apply Z.bits_inj'. intros i Hi.
  rewrite !Z.land_spec. destruct (Z.testbit KH_STATE_SMASK i) eqn:Hm; [|by rewrite !andb_false_r].
  rewrite !andb_true_r. rewrite Z.shiftr_spec by done. rewrite Z.lor_spec.
  assert (8 <= i < 16) as Hi'.
  { destruct (decide (i < 16)) as [Hlt|Hge].
    - destruct (decide (i < 8)); [|lia]. exfalso.
      assert (i = 0 \/ i = 1 \/ i = 2 \/ i = 3 \/ i = 4 \/ i = 5 \/ i = 6 \/ i = 7) as Hc by lia.
      repeat (destruct Hc as [->|Hc]; [done|]). by subst.
    - rewrite (testbit_small _ 16) in Hm; [done|unfold KH_STATE_SMASK; lia|lia]. }
  rewrite (testbit_small a 20) by lia. rewrite state_bits_testbit by lia. simpl. f_equal. lia.
Qed.

Lemma process_result_ok k p c code rcode : SCANCODE_GET_CODE c = c -> 0 <= code < 256 -> 0 <= rcode < 256 ->
  exists res, process_result k p c code rcode = Some res /\
    KH_STATE res = Z.land (key_state k) KH_STATE_SMASK.
Proof.
  intros Hc Hcode Hrcode. unfold process_result. rewrite bool_decide_true by done.
  eexists. split; [done|]. apply KH_STATE_result.
  apply lor_bound; [lia| |by vm_compute].
  apply lor_bound; [lia| |]. apply lor_bound; [lia| |].
  - destruct (is_numpad_scan k c), p, (bool_decide (rcode <> _ /\ code <> _)); by vm_compute.
  - unfold KH_CHAR_SHIFT. rewrite Z.shiftl_0_r.
    assert (0 <= Z.land (if bool_decide (rcode <> KHE_UNDEFINED /\ code <> KHE_UNDEFINED) then code else 0)
              KH_CHAR_MASK < 2 ^ 8); [|lia].
    apply land_bound; [case_bool_decide; lia|unfold KH_CHAR_MASK; lia].
  - unfold KH_RAWCHAR_SHIFT. rewrite Z.shiftl_mul_pow2 by lia.
    assert (0 <= Z.land rcode KH_CHAR_MASK < 2 ^ 8); [|lia].
    apply land_bound; [lia|unfold KH_CHAR_MASK; lia].
Qed.

Lemma process_mod_key_ok k code rcode p : kh_ok k -> 0 <= code < 256 ->
  let '(code', k') := process_mod_key k code rcode p in
  0 <= code' < 256 /\ kh_ok k' /\ scan_state k' = scan_state k.
Proof.
  intros Hk Hc. unfold process_mod_key. case_decide; [|done].
  split; [by vm_compute|]. split; [|done]. destruct Hk as [_ Hk]. split; [|done].
  by apply Z.mod_pos_bound.
Qed.

Lemma state_bits_ok k : KH_STATE (state_bits k) = Z.land (key_state k) KH_STATE_SMASK.
Proof. rewrite <-(Z.lor_0_l (state_bits k)). apply KH_STATE_result. lia. Qed.

Lemma process_simple_layer_ok k c : 0 <= c < 128 -> SCANCODE_GET_CODE c = c ->
  exists layer, process_simple_layer k c = Some layer.
Proof.
  intros Hc Hcc. unfold process_simple_layer. rewrite bool_decide_true by done.
  destruct (kl_get_key_some (active_layout k) KL_CTL c Hc) as (? & -> & _).
  destruct (kl_get_key_some (active_layout k) KL_SHIFT c Hc) as (? & -> & _).
  destruct (kl_get_key_some (active_layout k) KL_LOCK c Hc) as (? & -> & _).
  cbn [mbind option_bind]. by eexists.
Qed.

(** What every scan function guarantees. *)
Definition scan_ok (k : keyhelp) (r : option (Z * keyhelp)) : Prop :=
  exists res k', r = Some (res, k') /\ kh_ok k' /\
    KH_STATE res = Z.land (key_state k') KH_STATE_SMASK.

Lemma process_simple_scan_ok s k : kh_ok k -> scan_state k = KS_SIMPLE -> scan_ok k (process_simple_scan s k).
Proof.
  intros Hk Hs. unfold process_simple_scan. pose proof (scancode_code s) as [Hc Hcc].
  case_decide; [|case_decide].
  - do 2 eexists. split; [done|]. split; [|by rewrite state_bits_ok]. split; [apply Hk|done].
  - do 2 eexists. split; [done|]. split; [|by rewrite state_bits_ok]. split; [apply Hk|]. simpl. lia.
  - destruct (process_simple_layer_ok k _ Hc Hcc) as (layer & ->). cbn [mbind option_bind].
    destruct (kl_get_key_some (active_layout k) KL_BASE _ Hc) as (rcode & -> & Hr).
    destruct (kl_get_key_some (active_layout k) layer _ Hc) as (code & -> & Hcode).
    cbn [mbind option_bind].
    pose proof (process_mod_key_ok k code rcode (SCANCODE_GET_PRESS s) Hk Hcode) as Hm.
    destruct (process_mod_key k code rcode (SCANCODE_GET_PRESS s)) as [code' k'].
    destruct Hm as (Hc' & Hk' & _).
    destruct (process_result_ok k' (SCANCODE_GET_PRESS s) _ code' rcode Hcc Hc' Hr) as (res & -> & Hst).
    do 2 eexists. split; [done|]. done.
Qed.

Lemma process_extended_scan_ok s k : kh_ok k -> scan_ok k (process_extended_scan s k).
Proof.
  intros Hk. unfold process_extended_scan. pose proof (scancode_code s) as [Hc Hcc].
  case_bool_decide; [|case_decide].
  - do 2 eexists. split; [done|]. split; [|by rewrite state_bits_ok]. split; [apply Hk|done].
  - do 2 eexists. split; [done|]. split; [|by rewrite state_bits_ok]. split; [apply Hk|]. simpl. lia.
  - destruct (kl_get_key_some (active_layout k) KL_EXT _ Hc) as (rcode & -> & Hr). cbn [mbind option_bind].
    pose proof (process_mod_key_ok k rcode rcode (SCANCODE_GET_PRESS s) Hk Hr) as Hm.
    destruct (process_mod_key k rcode rcode (SCANCODE_GET_PRESS s)) as [code' k'].
    destruct Hm as (Hc' & Hk' & _).
    destruct (process_result_ok k' (SCANCODE_GET_PRESS s) _ code' rcode Hcc Hc' Hr) as (res & -> & Hst).
    do 2 eexists. split; [done|]. split; [|done]. split; [apply Hk'|done].
Qed.

Lemma process_pause_scan_ok s k : kh_ok k -> scan_state k = KS_PAUSE \/ scan_state k = KS_CTL_PAUSE ->
  scan_ok k (process_pause_scan s k).
Proof.
  intros Hk Hs. unfold process_pause_scan. pose proof (scancode_code s) as [Hc Hcc].
  rewrite bool_decide_true by done.
  assert (0 <= key_sequence k < Z.of_nat (length (if decide (scan_state k = KS_PAUSE) then pause_seq else ctl_pause_seq))) as Hseq.
  { destruct Hk as [_ Hk]. destruct Hs as [Hs|Hs]; rewrite Hs in *; done. }
  rewrite bool_decide_true by done.
  set (seq := if decide (scan_state k = KS_PAUSE) then pause_seq else ctl_pause_seq) in *.
  destruct (lookup_lt_is_Some_2 seq (Z.to_nat (key_sequence k))) as [e ->]; [lia|].
  cbn [mbind option_bind]. destruct Hk as [Hk1 Hk2]. case_decide.
  - cbn [key_sequence set_key_sequence]. case_decide as Hend.
    + destruct (process_result_ok (set_key_sequence (key_sequence k + 1) k) true _ KHE_PAUSE KHE_PAUSE Hcc)
        as (res & -> & Hst); [unfold KHE_PAUSE; lia..|].
      do 2 eexists. split; [done|]. done.
    + do 2 eexists. split; [done|]. split; [|by rewrite state_bits_ok]. split; [done|].
      cbn [scan_state key_sequence set_key_sequence].
      destruct Hs as [Hs|Hs]; rewrite Hs; unfold seq in Hseq, Hend; rewrite Hs in Hseq, Hend;
        simpl in Hseq, Hend; lia.
  - do 2 eexists. split; [done|]. split; [|by rewrite state_bits_ok]. by split.
Qed.

Lemma process_scancode_ok s k : kh_ok k ->
  exists res k', process_scancode s k = Some (res, k') /\ kh_ok k'.
Proof.
  intros Hk. unfold process_scancode.
  assert (scan_ok k (match scan_state k with
              | KS_SIMPLE => process_simple_scan s k
              | KS_EXT => process_extended_scan s k
              | KS_PAUSE | KS_CTL_PAUSE => process_pause_scan s k
              end)) as (res & k' & -> & Hk' & Hst).
  { destruct (scan_state k) eqn:Hs; [by apply process_simple_scan_ok|by apply process_extended_scan_ok|..];
      apply process_pause_scan_ok; auto. }
  cbn [mbind option_bind]. rewrite bool_decide_true by done. eauto.
Qed.

(** The specification of [extract_ch] on the list of pending scancodes: the
    character found, the scancodes left and the modifier state. *)
Fixpoint extract_spec (q : list Z) (k : keyhelp) : option (option Z * list Z * keyhelp) :=
  match q with
  | [] => Some (None, [], k)
  | s :: q =>
      '(res, k) ← process_scancode s k;
      if KH_ISMAKE res && KH_HASDATA res then Some (Some (s8 (KH_GETCHAR res)), q, k)
      else extract_spec q k
  end.

Lemma extract_loop_ok q : forall fuel b k, buf_is b q -> kh_ok k -> (length q < fuel)%nat ->
  exists c q' k' b', extract_spec q k = Some (c, q', k') /\ buf_is b' q' /\ kh_ok k' /\
    extract_loop fuel b k = Some (match c with Some _ => OK | None => FAIL end, c, b', k').
Proof.
  induction q as [|s q IH]; intros fuel b k Hb Hk Hf;
    (destruct fuel as [|fuel]; [lia|]); cbn [extract_loop extract_spec];
    destruct (pop_head_ok b _ Hb) as (b' & Hp & Hb').
  - run Hp. subst. exists None, [], k, b. done.
  - run Hp. destruct (process_scancode_ok s k Hk) as (res & k' & -> & Hk'). cbn [mbind option_bind].
    case_match; [by eexists _, q, k', b'|]. simpl in Hf. apply IH; [done..|lia].
Qed.

(** * Properties *)

(** The buffer is a bounded FIFO queue (and a stack from its tail): a push
    appends, or is refused when 1024 elements are held, with the buffer
    unchanged; a pop from the head returns the oldest element, a pop from the
    tail the newest; an empty buffer refuses both. *)
Theorem buffer_is_a_queue (b : buf_t) (q : list Z) (x : Z) (Hb : buf_is b q) :
  (exists r b', push_tail b x = Some (r, b') /\
     if decide (Z.of_nat (length q) < BUF_LEN) then r = OK /\ buf_is b' (q ++ [s8 x])
     else r = FAIL /\ b' = b) /\
  (exists b', match q with
     | [] => pop_head b = Some (FAIL, None, b) /\ b' = b
     | y :: q' => pop_head b = Some (OK, Some y, b') /\ buf_is b' q'
     end) /\
  (match last q with
   | None => pop_tail b = Some (FAIL, None, b)
   | Some y => exists b', pop_tail b = Some (OK, Some y, b') /\ buf_is b' (removelast q)
   end).
Proof.
  split; [by apply push_tail_ok|]. split; [by apply pop_head_ok|].
  destruct q as [|y q _] using rev_ind; [by apply pop_tail_empty|].
  rewrite last_snoc, removelast_last. by apply pop_tail_ok.
Qed.

(** C39. [extract_ch] terminates and consumes exactly the scancodes up to and
    including the first key press that has a character, which it returns; with
    no such scancode it consumes them all and fails.  It never panics: every
    assertion of the scancode translation holds for every byte. *)
Theorem extract_ch_consumes_prefix (b : buf_t) (q : list Z) (k : keyhelp)
    (Hb : buf_is b q) (Hk : kh_ok k) :
  exists c q' k' b', extract_spec q k = Some (c, q', k') /\
    extract_ch b k = Some (match c with Some _ => OK | None => FAIL end, c, b', k') /\
    buf_is b' q' /\ kh_ok k' /\ exists q0, q = q0 ++ q'.
Proof.
  unfold extract_ch. pose proof Hb as [_ _ [Hc _] _]. rewrite Hc, Nat2Z.id.
  destruct (extract_loop_ok q (S (length q)) b k Hb Hk) as (c & q' & k' & b' & Hs & ? & ? & ?); [lia|].
  exists c, q', k', b'. split_and!; [done..|].
  clear -Hs. revert k Hs. induction q as [|s q IH]; intros k; cbn [extract_spec].
  - intros [= <- <- <-]. by exists [].
  - destruct (process_scancode s k) as [[res k1]|]; [|done]. cbn [mbind option_bind].
    case_match.
    + intros [= <- <- <-]. by exists [s].
    + intros (q0 & ->)%IH. by exists (s :: q0).
Qed.

(** Scancodes reach the translation as signed [char]s, so the prefixes 0xE0
    and 0xE1 (which arrive as -32 and -31) are never recognised: from the
    simple state no byte ever starts an extended or pause sequence. *)
Theorem extended_prefix_lost (byte : Z) (k : keyhelp) (res : Z) (k' : keyhelp)
    (Hs : scan_state k = KS_SIMPLE) (Hr : process_scancode (s8 byte) k = Some (res, k')) :
  scan_state k' = KS_SIMPLE.
Proof.
  unfold process_scancode in Hr. rewrite Hs in Hr. unfold process_simple_scan in Hr.
  pose proof (s8_range byte). rewrite decide_False in Hr by lia. rewrite decide_False in Hr by lia.
  destruct (process_simple_layer k _) as [layer|]; [|done]. cbn [mbind option_bind] in Hr.
  destruct (kl_get_key _ KL_BASE _) as [rcode|]; [|done]. cbn [mbind option_bind] in Hr.
  destruct (kl_get_key _ layer _) as [code|]; [|done]. cbn [mbind option_bind] in Hr.
  unfold process_mod_key in Hr. case_decide.
  all: match type of Hr with context [process_result ?a ?b ?c ?d ?e] =>
         destruct (process_result a b c d e) as [r|] end; [|done];
       cbn [mbind option_bind] in Hr; case_bool_decide; [|done]; by injection Hr as _ <-.
Qed.

(** Pressing and releasing the a key, with room in the buffer. *)
Definition demo_buf : buf_t :=
  match push_tail buf_init 0x1e with Some (_, b) => b | None => buf_init end.

Lemma demo_buf_ok : buf_is demo_buf [0x1e].
Proof.
  unfold demo_buf. destruct (push_tail_ok buf_init [] 0x1e buf_init_empty) as (r & b' & H1 & H2).
  rewrite decide_True in H2 by (unfold BUF_LEN; simpl; lia). rewrite H1. apply H2.
Qed.

Lemma keyhelp_init_ok : kh_ok keyhelp_init.
Proof. split; [simpl; lia|done]. Qed.

Lemma buffer_is_a_queue_witness :
  exists b', pop_head demo_buf = Some (OK, Some 0x1e, b') /\ buf_is b' [].
Proof. exact (proj1 (proj2 (buffer_is_a_queue demo_buf [0x1e] 3 demo_buf_ok))). Defined.

Lemma extract_ch_consumes_prefix_witness :
  exists c q' k' b', extract_ch demo_buf keyhelp_init =
    Some (match c with Some _ => OK | None => FAIL end, c, b', k') /\ buf_is b' q'.
Proof.
  destruct (extract_ch_consumes_prefix demo_buf [0x1e] keyhelp_init demo_buf_ok keyhelp_init_ok)
    as (c & q' & k' & b' & _ & H1 & H2 & _). exists c, q', k', b'. split; assumption.
Defined.

Lemma extended_prefix_lost_witness :
  exists res k', process_scancode (s8 0xe0) keyhelp_init = Some (res, k') /\ scan_state k' = KS_SIMPLE.
Proof.
  destruct (process_scancode (s8 0xe0) keyhelp_init) as [[res k']|] eqn:H.
  - exists res, k'. split; [reflexivity|]. exact (extended_prefix_lost 0xe0 keyhelp_init res k' eq_refl H).
  - exfalso. vm_compute in H. discriminate H.
Defined.
