(* ===== verification/Console.v ===== *)
(** The console driver, [kern/console.c].

    Video memory is the array of the 25 * 80 pixels; [char]s are signed bytes.
    The specification sees the screen as that array and the cursor as a
    position on it. *)
From S2P Require Import Prelude.
#[local] Open Scope Z_scope.

(** [video_defines.h]. *)
Definition CONSOLE_WIDTH : Z := 80.
Definition CONSOLE_HEIGHT : Z := 25.
Definition CRTC_CURSOR_LSB_IDX : Z := 15.
Definition CRTC_CURSOR_MSB_IDX : Z := 14.

Record pixel_t : Type := Pixel { ch : Z; color : Z }.
Record cursor_t : Type := Cursor { visibility : bool; row : Z; col : Z }.
Record terminal_t : Type := Terminal { initial_color : Z; current_color : Z }.

(** The state: [cursor], [terminal], video memory and the CRTC registers. *)
Record console : Type := Console {
  cursor : cursor_t;
  terminal : terminal_t;
  video : list pixel_t;
  crtc : Z -> Z;
}.

Definition with_cursor (c : cursor_t) (s : console) : console :=
  Console c (terminal s) (video s) (crtc s).
Definition with_terminal (t : terminal_t) (s : console) : console :=
  Console (cursor s) t (video s) (crtc s).
Definition with_video (v : list pixel_t) (s : console) : console :=
  Console (cursor s) (terminal s) v (crtc s).
Definition move_cursor (r c : Z) (s : console) : console :=
  with_cursor (Cursor (visibility (cursor s)) r c) s.

Definition validate_pos (row col : Z) : bool :=
  bool_decide (0 <= row /\ row < CONSOLE_HEIGHT /\ 0 <= col /\ col < CONSOLE_WIDTH).

Definition convert_to_pixel_idx (row col : Z) : Z := s32 (row * CONSOLE_WIDTH + col).

Definition convert_to_pos (pixel_idx : Z) : Z * Z :=
  (Z.quot pixel_idx CONSOLE_WIDTH, Z.rem pixel_idx CONSOLE_WIDTH).

(** [outb(CRTC_IDX_REG, idx); outb(CRTC_DATA_REG, data)] and the [inb]. *)
Definition crtc_write (idx data : Z) (s : console) : console :=
  Console (cursor s) (terminal s) (video s)
    (fun i => if decide (i = idx) then u8 data else crtc s i).

Definition write_to_crtc (pixel_idx : Z) (s : console) : console :=
  let data := u32 pixel_idx in
  let s := crtc_write CRTC_CURSOR_LSB_IDX data s in
  crtc_write CRTC_CURSOR_MSB_IDX (Z.shiftr data 8) s.

Definition read_from_crtc (s : console) : Z :=
  let data := Z.lor 0 (u8 (crtc s CRTC_CURSOR_MSB_IDX)) in
  let data := u32 (Z.shiftl data 8) in
  s32 (Z.lor data (u8 (crtc s CRTC_CURSOR_LSB_IDX))).

Definition place_cursor (s : console) : console :=
  let c := cursor s in
  write_to_crtc (if visibility c then convert_to_pixel_idx (row c) (col c)
                 else convert_to_pixel_idx CONSOLE_HEIGHT CONSOLE_WIDTH) s.

Definition read_pixel (row col : Z) (s : console) : option pixel_t :=
  aget (video s) (convert_to_pixel_idx row col).

Definition write_pixel (row col : Z) (p : pixel_t) (s : console) : option console :=
  v ← aset (convert_to_pixel_idx row col) p (video s); Some (with_video v s).

Definition scroll_up (line_count fill_color : Z) (s : console) : option console :=
  if decide (line_count <= 0) then Some s
  else
    s ← for_loop (Z.to_nat (CONSOLE_HEIGHT - line_count)) 0 (fun i s =>
          for_loop (Z.to_nat CONSOLE_WIDTH) 0 (fun j s =>
            pixel ← read_pixel (i + line_count) j s;
            write_pixel i j pixel s) s) s;
    for_loop (Z.to_nat line_count) (CONSOLE_HEIGHT - line_count) (fun i s =>
      for_loop (Z.to_nat CONSOLE_WIDTH) 0 (fun j s =>
        write_pixel i j (Pixel 32 fill_color) s) s) s.

Definition install_console (s : console) : option console :=
  let '(r, c) := convert_to_pos (read_from_crtc s) in
  let s := with_cursor (Cursor true r c) s in
  pixel ← read_pixel r c s;
  Some (with_terminal (Terminal (color pixel) (color pixel)) s).

(** [draw_char]; [ch] and [color] are [int]s here. *)
Definition draw_char (row0 col0 ch color : Z) (s : console) : option console :=
  if negb (validate_pos row0 col0) then Some s
  else if bool_decide (u8 ch <> ch \/ u8 color <> color) then Some s
  else if decide (ch = 10) then
    let s := move_cursor (row0 + 1) 0 s in
    s ← (if negb (validate_pos (row (cursor s)) (col (cursor s))) then
           let s := move_cursor (row (cursor s) - 1) (col (cursor s)) s in
           scroll_up 1 (initial_color (terminal s)) s
         else Some s);
    Some (place_cursor s)
  else if decide (ch = 13) then Some (place_cursor (move_cursor row0 0 s))
  else if decide (ch = 8) then
    let '(row1, col1) := convert_to_pos (convert_to_pixel_idx row0 col0 - 1) in
    s ← (if negb (validate_pos row1 col1) then Some (move_cursor (row1 + 1) 0 s)
         else
           s ← write_pixel row1 col1 (Pixel 32 (initial_color (terminal s))) s;
           Some (move_cursor row1 col1 s));
    Some (place_cursor s)
  else
    s ← write_pixel row0 col0 (Pixel (s8 ch) (s8 color)) s;
    let '(r, c) := convert_to_pos (convert_to_pixel_idx row0 col0 + 1) in
    let s := move_cursor r c s in
    s ← (if negb (validate_pos r c) then
           s ← scroll_up 1 (initial_color (terminal s)) s;
           Some (move_cursor (row (cursor s) - 1) (col (cursor s)) s)
         else Some s);
    Some (place_cursor s).

(** [putbyte]: the [char]s [ch] and [current_color] are widened with their sign. *)
Definition putbyte (ch : Z) (s : console) : option (Z * console) :=
  s' ← draw_char (row (cursor s)) (col (cursor s)) (s8 ch) (current_color (terminal s)) s;
  Some (u8 ch, s').

Fixpoint putbytes (bytes : list Z) (s : console) : option console :=
  match bytes with
  | [] => Some s
  | b :: bytes => '(_, s) ← putbyte b s; putbytes bytes s
  end.

Definition set_term_color (color : Z) (s : console) : Z * console :=
  if decide (u8 color <> color) then (FAIL, s)
  else (OK, with_terminal (Terminal (initial_color (terminal s)) (s8 color)) s).

Definition get_term_color (s : console) : Z := u8 (current_color (terminal s)).

Definition set_cursor (row col : Z) (s : console) : Z * console :=
  if negb (validate_pos row col) then (FAIL, s)
  else (OK, place_cursor (move_cursor row col s)).

Definition get_cursor (s : console) : Z * Z := (row (cursor s), col (cursor s)).

Definition hide_cursor (s : console) : console :=
  place_cursor (with_cursor (Cursor false (row (cursor s)) (col (cursor s))) s).
Definition show_cursor (s : console) : console :=
  place_cursor (with_cursor (Cursor true (row (cursor s)) (col (cursor s))) s).

Definition clear_console (s : console) : option console :=
  s ← scroll_up CONSOLE_HEIGHT (initial_color (terminal s)) s;
  Some (place_cursor (move_cursor 0 0 s)).

Definition get_char (row col : Z) (s : console) : option Z :=
  if negb (validate_pos row col) then Some (-1)
  else p ← read_pixel row col s; Some (ch p).

(** * Specification *)

Definition SCREEN : nat := Z.to_nat (CONSOLE_HEIGHT * CONSOLE_WIDTH).

(** The screen has its size and the cursor is on it. *)
Definition console_ok (s : console) : Prop :=
  length (video s) = SCREEN /\ validate_pos (row (cursor s)) (col (cursor s)) = true.

(** The screen scrolled by one line. *)
Definition scrolled (n : Z) (fill : Z) (v : list pixel_t) : list pixel_t :=
  drop (Z.to_nat (n * CONSOLE_WIDTH)) v ++
  replicate (Z.to_nat (n * CONSOLE_WIDTH)) (Pixel 32 fill).

Lemma validate_pos_iff r c :
  validate_pos r c = true <-> 0 <= r < CONSOLE_HEIGHT /\ 0 <= c < CONSOLE_WIDTH.
Proof. unfold validate_pos. rewrite bool_decide_eq_true. tauto. Qed.

Lemma pixel_idx_eq r c : -10000 <= r <= 10000 -> -10000 <= c <= 10000 ->
  convert_to_pixel_idx r c = r * 80 + c.
Proof. intros. unfold convert_to_pixel_idx, CONSOLE_WIDTH. apply s32_small. lia. Qed.

Lemma read_pixel_ok s r c : length (video s) = SCREEN -> validate_pos r c = true ->
  exists p, read_pixel r c s = Some p /\ video s !! Z.to_nat (r * 80 + c) = Some p.
Proof.
  unfold SCREEN. intros Hl [Hr Hc]%validate_pos_iff. unfold CONSOLE_HEIGHT, CONSOLE_WIDTH in *.
  unfold read_pixel. rewrite pixel_idx_eq by lia. apply aget_Some. lia.
Qed.

Lemma write_pixel_ok s r c p : length (video s) = SCREEN -> validate_pos r c = true ->
  write_pixel r c p s = Some (with_video (<[Z.to_nat (r * 80 + c) := p]> (video s)) s).
Proof.
  unfold SCREEN. intros Hl [Hr Hc]%validate_pos_iff. unfold CONSOLE_HEIGHT, CONSOLE_WIDTH in *.
  unfold write_pixel. rewrite pixel_idx_eq by lia. by rewrite aset_Some by lia.
Qed.

(** Everything but the video memory. *)
Definition same_but_video (s s' : console) : Prop :=
  cursor s' = cursor s /\ terminal s' = terminal s /\ crtc s' = crtc s.

Lemma with_video_eq s s' : same_but_video s s' -> s' = with_video (video s') s.
Proof. destruct s, s'. by intros (?&?&?); simpl in *; subst. Qed.

(** One line of pixels rewritten from [f]: the state after columns [0..j). *)
Definition line_done (v : list pixel_t) (f : nat -> option pixel_t) (n : nat) (s0 s : console) : Prop :=
  same_but_video s0 s /\ length (video s) = SCREEN /\
  forall k, video s !! k = if decide (k < n)%nat then f k else v !! k.

Lemma line_done_write v f s0 s i j p :
  line_done v f (Z.to_nat (i * 80 + j)) s0 s -> validate_pos i j = true ->
  f (Z.to_nat (i * 80 + j)) = Some p ->
  exists s', write_pixel i j p s = Some s' /\ line_done v f (Z.to_nat (i * 80 + j + 1)) s0 s'.
Proof.
  intros (Hs & Hl & Hv) Hp Hf. pose proof Hp as Hp'. apply validate_pos_iff in Hp' as [Hr Hc].
  unfold CONSOLE_HEIGHT, CONSOLE_WIDTH in *.
  rewrite write_pixel_ok by done. eexists. split; [done|]. split; [|split].
  - destruct Hs as (?&?&?). done.
  - cbn [video with_video]. by rewrite length_insert.
  - intros k. cbn [video with_video]. destruct (decide (k = Z.to_nat (i * 80 + j))) as [->|Hk].
    + rewrite list_lookup_insert_eq by (rewrite Hl; unfold SCREEN, CONSOLE_HEIGHT, CONSOLE_WIDTH; lia).
      rewrite decide_True by lia. done.
    + rewrite list_lookup_insert_ne by done. rewrite Hv.
      destruct (decide (k < Z.to_nat (i * 80 + j))%nat), (decide (k < Z.to_nat (i * 80 + j + 1))%nat); try done; lia.
Qed.

(** Scrolling shifts the screen up and blanks the last lines. *)
Lemma scroll_up_ok n fill s : length (video s) = SCREEN -> 0 < n <= CONSOLE_HEIGHT ->
  scroll_up n fill s = Some (with_video (scrolled n fill (video s)) s).
Proof.
  intros Hl Hn. unfold scroll_up. rewrite decide_False by lia.
  unfold CONSOLE_HEIGHT in *. set (v := video s).
  set (f := fun k => scrolled n fill v !! k).
  assert (Hlv : length (drop (Z.to_nat (n * CONSOLE_WIDTH)) v) = Z.to_nat ((25 - n) * 80)).
  { rewrite length_drop. unfold v. rewrite Hl. unfold SCREEN, CONSOLE_WIDTH, CONSOLE_HEIGHT. lia. }
  assert (Hf1 : forall k, (k < Z.to_nat ((25 - n) * 80))%nat -> f k = v !! (Z.to_nat (n * 80) + k)%nat).
  { intros k Hk. unfold f, scrolled. rewrite lookup_app_l by lia. apply lookup_drop. }
  assert (Hf2 : forall k, (Z.to_nat ((25 - n) * 80) <= k < SCREEN)%nat -> f k = Some (Pixel 32 fill)).
  { intros k Hk. unfold f, scrolled. rewrite lookup_app_r by lia. apply lookup_replicate_2.
    unfold SCREEN, CONSOLE_HEIGHT, CONSOLE_WIDTH in *. lia. }
  destruct (for_loop_inv (fun i s => for_loop (Z.to_nat CONSOLE_WIDTH) 0 (fun j s =>
      pixel ← read_pixel (i + n) j s; write_pixel i j pixel s) s)
    (fun i t => line_done v f (Z.to_nat (i * 80)) s t) (Z.to_nat (25 - n)) 0 s) as (s1 & Hs1 & Hd1).
  { split; [done|]. split; [done|]. intros k. by rewrite decide_False by lia. }
  { intros i t Hi Hd.
    destruct (for_loop_inv (fun j s => pixel ← read_pixel (i + n) j s; write_pixel i j pixel s)
      (fun j t => line_done v f (Z.to_nat (i * 80 + j)) s t) (Z.to_nat CONSOLE_WIDTH) 0 t) as (t' & Ht' & Hd').
    - by rewrite Z.add_0_r.
    - unfold CONSOLE_WIDTH. intros j u Hj Hu. pose proof Hu as (_ & Hlu & Hvu).
      destruct (read_pixel_ok u (i + n) j Hlu) as (p & Hp & Hpv).
      { apply validate_pos_iff. unfold CONSOLE_HEIGHT, CONSOLE_WIDTH. lia. }
      run Hp. replace (i * 80 + (j + 1)) with (i * 80 + j + 1) by lia.
      apply line_done_write; [done|apply validate_pos_iff; unfold CONSOLE_HEIGHT, CONSOLE_WIDTH; lia|].
      rewrite Hvu in Hpv. rewrite decide_False in Hpv by lia. rewrite Hf1 by lia.
      rewrite <-Hpv. f_equal. lia.
    - exists t'. split; [done|]. unfold CONSOLE_WIDTH in Hd'.
      by replace ((i + 1) * 80) with (i * 80 + (0 + Z.of_nat (Z.to_nat 80))) by lia. }
  run Hs1. replace (0 + Z.of_nat (Z.to_nat (25 - n))) with (25 - n) in Hd1 by lia.
  destruct (for_loop_inv (fun i s => for_loop (Z.to_nat CONSOLE_WIDTH) 0 (fun j s =>
      write_pixel i j (Pixel 32 fill) s) s)
    (fun i t => line_done v f (Z.to_nat (i * 80)) s t) (Z.to_nat n) (25 - n) s1 Hd1) as (s2 & Hs2 & Hd2).
  { intros i t Hi Hd.
    destruct (for_loop_inv (fun j s => write_pixel i j (Pixel 32 fill) s)
      (fun j t => line_done v f (Z.to_nat (i * 80 + j)) s t) (Z.to_nat CONSOLE_WIDTH) 0 t) as (t' & Ht' & Hd').
    - by rewrite Z.add_0_r.
    - unfold CONSOLE_WIDTH. intros j u Hj Hu.
      replace (i * 80 + (j + 1)) with (i * 80 + j + 1) by lia.
      apply line_done_write; [done|apply validate_pos_iff; unfold CONSOLE_HEIGHT, CONSOLE_WIDTH; lia|].
      apply Hf2. unfold SCREEN, CONSOLE_HEIGHT, CONSOLE_WIDTH. lia.
    - exists t'. split; [done|]. unfold CONSOLE_WIDTH in Hd'.
      by replace ((i + 1) * 80) with (i * 80 + (0 + Z.of_nat (Z.to_nat 80))) by lia. }
  rewrite Hs2. f_equal. destruct Hd2 as (Hsame & Hl2 & Hv2).
  rewrite (with_video_eq s s2 Hsame). f_equal. apply list_eq. intros k. rewrite Hv2.
  replace (25 - n + Z.of_nat (Z.to_nat n)) with 25 by lia. case_decide as Hk; [done|].
  rewrite lookup_ge_None_2 by (unfold v; rewrite Hl; unfold SCREEN, CONSOLE_HEIGHT, CONSOLE_WIDTH; lia).
  symmetry. apply lookup_ge_None_2. unfold scrolled. rewrite length_app, length_replicate, Hlv.
  unfold CONSOLE_WIDTH. lia.
Qed.

(** What drawing a character at a valid position does to the screen and where
    it leaves the cursor. *)
Definition draw_spec (r c ch color fill : Z) (v : list pixel_t) : list pixel_t * (Z * Z) :=
  let idx := r * 80 + c in
  if decide (ch = 10) then
    if decide (r + 1 < CONSOLE_HEIGHT) then (v, (r + 1, 0)) else (scrolled 1 fill v, (r, 0))
  else if decide (ch = 13) then (v, (r, 0))
  else if decide (ch = 8) then
    if decide (0 < idx) then
      (<[Z.to_nat (idx - 1) := Pixel 32 fill]> v, ((idx - 1) / 80, (idx - 1) `mod` 80))
    else (v, (1, 0))
  else
    let v := <[Z.to_nat idx := Pixel (s8 ch) (s8 color)]> v in
    if decide (idx + 1 < CONSOLE_HEIGHT * CONSOLE_WIDTH)
    then (v, ((idx + 1) / 80, (idx + 1) `mod` 80)) else (scrolled 1 fill v, (24, 0)).

(** [s'] shows the screen [v] with the cursor at [(r, c)], in the CRTC too. *)
Definition shows (s : console) (v : list pixel_t) (rc : Z * Z) (s' : console) : Prop :=
  s' = place_cursor (move_cursor rc.1 rc.2 (with_video v s)).

Lemma scrolled_length n fill v : length v = SCREEN -> 0 <= n <= CONSOLE_HEIGHT ->
  length (scrolled n fill v) = SCREEN.
Proof.
  intros Hl Hn. unfold scrolled. rewrite length_app, length_drop, length_replicate, Hl.
  unfold SCREEN, CONSOLE_HEIGHT, CONSOLE_WIDTH in *. lia.
Qed.

Lemma convert_to_pos_eq i : 0 <= i -> convert_to_pos i = (i / 80, i `mod` 80).
Proof.
  intros Hi. unfold convert_to_pos, CONSOLE_WIDTH.
  by rewrite Z.quot_div_nonneg, Z.rem_mod_nonneg by lia.
Qed.

Lemma pos_valid i : 0 <= i -> validate_pos (i / 80) (i `mod` 80) = bool_decide (i < 2000).
Proof.
  intros Hi. pose proof (Z.mod_pos_bound i 80). pose proof (Z.div_mod i 80).
  pose proof (Z.div_pos i 80).
  unfold validate_pos, CONSOLE_HEIGHT, CONSOLE_WIDTH. apply bool_decide_ext. lia.
Qed.

Lemma draw_char_ok s r c ch color : length (video s) = SCREEN -> validate_pos r c = true ->
  0 <= ch < 256 -> 0 <= color < 256 ->
  let '(v, rc) := draw_spec r c ch color (initial_color (terminal s)) (video s) in
  exists s', draw_char r c ch color s = Some s' /\ shows s v rc s' /\
    length v = SCREEN /\ validate_pos rc.1 rc.2 = true.
Proof.
  intros Hl Hv Hch Hcol. pose proof Hv as Hv'. apply validate_pos_iff in Hv' as [Hr Hc].
  unfold CONSOLE_HEIGHT, CONSOLE_WIDTH in *. unfold draw_char, draw_spec.
  rewrite Hv. cbn [negb]. rewrite bool_decide_false by (rewrite !u8_small by lia; tauto).
  unfold shows. rewrite pixel_idx_eq by lia.
  assert (video s = video s) as Heta by done.
  destruct (decide (ch = 10)); [|destruct (decide (ch = 13)); [|destruct (decide (ch = 8))]].
  - cbn [row col cursor move_cursor with_cursor]. unfold CONSOLE_HEIGHT.
    assert (validate_pos (r + 1) 0 = bool_decide (r + 1 < 25)) as ->.
    { unfold validate_pos, CONSOLE_HEIGHT, CONSOLE_WIDTH. apply bool_decide_ext. lia. }
    case_bool_decide; cbn [negb].
    + rewrite decide_True by lia. cbn [mbind option_bind fst snd]. eexists. split; [done|].
      split; [by destruct s|]. split; [done|]. apply validate_pos_iff. unfold CONSOLE_HEIGHT, CONSOLE_WIDTH. lia.
    + rewrite decide_False by lia. rewrite scroll_up_ok by (unfold CONSOLE_HEIGHT; done || lia).
      cbn [mbind option_bind fst snd]. eexists. split; [done|]. split.
      * f_equal. unfold move_cursor, with_cursor, with_video. cbn. f_equal. f_equal. lia.
      * split; [by apply scrolled_length|]. apply validate_pos_iff. unfold CONSOLE_HEIGHT, CONSOLE_WIDTH. lia.
  - cbn [fst snd]. eexists. split; [done|]. split; [by destruct s|]. split; [done|].
    apply validate_pos_iff. unfold CONSOLE_HEIGHT, CONSOLE_WIDTH. lia.
  - case_decide as Hidx.
    + rewrite convert_to_pos_eq by lia. rewrite pos_valid by lia. rewrite bool_decide_true by lia.
      cbn [negb fst snd]. rewrite write_pixel_ok; [|done|rewrite pos_valid by lia; by apply bool_decide_true; lia].
      cbn [mbind option_bind]. eexists. split; [done|].
      replace ((r * 80 + c - 1) / 80 * 80 + (r * 80 + c - 1) `mod` 80) with (r * 80 + c - 1)
        by (pose proof (Z.div_mod (r * 80 + c - 1) 80); lia).
      split; [done|]. split; [by rewrite length_insert|]. rewrite pos_valid by lia. apply bool_decide_true. lia.
    + replace (r * 80 + c - 1) with (-1) by lia. change (convert_to_pos (-1)) with (0, -1).
      cbn [negb fst snd]. eexists. split; [done|]. split; [by destruct s|]. done.
  - rewrite write_pixel_ok by done. cbn [mbind option_bind].
    rewrite convert_to_pos_eq by lia. rewrite pos_valid by lia.
    unfold CONSOLE_HEIGHT, CONSOLE_WIDTH. case_bool_decide; cbn [negb].
    + rewrite decide_True by lia. cbn [mbind option_bind fst snd]. eexists. split; [done|].
      split; [done|]. split; [by rewrite length_insert|]. rewrite pos_valid by lia. by apply bool_decide_true.
    + rewrite decide_False by lia. rewrite scroll_up_ok; [|cbn; by rewrite length_insert|done].
      cbn [mbind option_bind fst snd]. eexists. split; [done|]. split.
      * f_equal. replace (r * 80 + c + 1) with (25 * 80) by lia. done.
      * split; [|done]. apply scrolled_length; [by rewrite length_insert|done].
Qed.

Lemma shows_ok s v rc s' : shows s v rc s' -> length v = SCREEN -> validate_pos rc.1 rc.2 = true ->
  console_ok s' /\ video s' = v /\ get_cursor s' = rc /\ terminal s' = terminal s.
Proof. intros -> Hl Hv. destruct rc. done. Qed.

Lemma putbyte_ok b s : console_ok s -> 
  exists s', putbyte b s = Some (u8 b, s') /\ console_ok s'.
Proof.
  intros [Hl Hv]. unfold putbyte.
  destruct (decide (0 <= s8 b < 256 /\ 0 <= current_color (terminal s) < 256)) as [[Hx Hy]|Hn].
  - pose proof (draw_char_ok s _ _ _ _ Hl Hv Hx Hy) as H.
    destruct (draw_spec _ _ _ _ _ _) as [v rc]. destruct H as (s' & -> & Hs & Hlv & Hrc).
    cbn [mbind option_bind]. eexists. split; [done|]. by destruct (shows_ok _ _ _ _ Hs Hlv Hrc).
  - assert (draw_char (row (cursor s)) (col (cursor s)) (s8 b) (current_color (terminal s)) s = Some s) as ->.
    { unfold draw_char. rewrite Hv. cbn [negb]. rewrite bool_decide_true; [done|].
      pose proof (u8_range (s8 b)). pose proof (u8_range (current_color (terminal s))).
      destruct (decide (0 <= s8 b < 256)); [right|left]; lia. }
    cbn [mbind option_bind]. eexists. split; [done|]. by split.
Qed.

Lemma putbytes_ok bytes : forall s, console_ok s -> exists s', putbytes bytes s = Some s' /\ console_ok s'.
Proof.
  induction bytes as [|b bytes IH]; intros s Hs; cbn [putbytes]; [eauto|].
  destruct (putbyte_ok b s Hs) as (s' & -> & Hs'). cbn [mbind option_bind]. by apply IH.
Qed.

(** * Properties *)

(** C40. [draw_char] at a position of the screen implements a terminal: a
    printable character is stored with its color and the cursor advances,
    newline and carriage return move it, backspace erases the character before
    it, and passing the last line scrolls the screen by one; the cursor stays
    on the screen and the CRTC registers follow it. *)
Theorem draw_char_screen (s : console) (r c ch color : Z)
    (Hl : length (video s) = SCREEN) (Hpos : validate_pos r c = true)
    (Hch : 0 <= ch < 256) (Hcol : 0 <= color < 256) :
  let '(v, rc) := draw_spec r c ch color (initial_color (terminal s)) (video s) in
  exists s', draw_char r c ch color s = Some s' /\ video s' = v /\ get_cursor s' = rc /\
    console_ok s' /\ terminal s' = terminal s /\
    (visibility (cursor s) = true -> read_from_crtc s' = rc.1 * 80 + rc.2).
Proof.
  pose proof (draw_char_ok s r c ch color Hl Hpos Hch Hcol) as H.
  destruct (draw_spec _ _ _ _ _ _) as [v rc]. destruct H as (s' & Hd & Hs & Hlv & Hrc).
  exists s'. destruct (shows_ok _ _ _ _ Hs Hlv Hrc) as (? & ? & ? & ?). split_and!; try done.
  intros Hvis. rewrite Hs. apply validate_pos_iff in Hrc as [Hr1 Hc1].
  unfold CONSOLE_HEIGHT, CONSOLE_WIDTH in *. unfold place_cursor.
  cbn [visibility cursor move_cursor with_cursor row col with_video]. rewrite Hvis.
  rewrite pixel_idx_eq by lia. set (i := rc.1 * 80 + rc.2). assert (0 <= i < 2000) as Hi by lia.
  unfold write_to_crtc, read_from_crtc, crtc_write. cbn [crtc].
  unfold CRTC_CURSOR_MSB_IDX, CRTC_CURSOR_LSB_IDX. rewrite !decide_True by done. rewrite decide_False by done.
  rewrite decide_True by done. clearbody i. clear -Hi.
  refine (proj1 (bool_decide_eq_true _) (forall_below_Z 2000 (fun i => bool_decide
    (s32 (Z.lor (u32 (Z.shiftl (Z.lor 0 (u8 (u8 (Z.shiftr (u32 i) 8)))) 8)) (u8 (u8 (u32 i)))) = i)) _ i Hi)).
  by vm_compute.
Qed.

(** Printing never fails: from a well-formed console any sequence of bytes
    (newlines, backspaces, bytes outside ASCII, any length) is processed without
    touching memory outside the screen, and leaves the console well-formed. *)
Theorem putbytes_safe (bytes : list Z) (s : console) (Hs : console_ok s) :
  exists s', putbytes bytes s = Some s' /\ console_ok s'.
Proof. by apply putbytes_ok. Qed.

(** [set_cursor] accepts exactly the positions of the screen, and
    [get_cursor] then returns the position set; otherwise nothing changes.
    [clear_console] blanks the screen and homes the cursor. *)
Theorem cursor_and_clear (s : console) (r c : Z) (Hs : console_ok s) :
  (if bool_decide (0 <= r < CONSOLE_HEIGHT /\ 0 <= c < CONSOLE_WIDTH)
   then (set_cursor r c s).1 = OK /\ get_cursor (set_cursor r c s).2 = (r, c) /\
        video (set_cursor r c s).2 = video s
   else set_cursor r c s = (FAIL, s)) /\
  exists s', clear_console s = Some s' /\ get_cursor s' = (0, 0) /\
    video s' = replicate SCREEN (Pixel 32 (initial_color (terminal s))).
Proof.
  destruct Hs as [Hl Hv]. split.
  - unfold set_cursor. destruct (validate_pos r c) eqn:Hp; cbn [negb].
    + apply validate_pos_iff in Hp. by rewrite bool_decide_true.
    + rewrite bool_decide_false; [done|]. intros Hx%validate_pos_iff. congruence.
  - unfold clear_console. rewrite scroll_up_ok by done. cbn [mbind option_bind].
    eexists. split; [done|]. split; [done|]. cbn [video place_cursor write_to_crtc crtc_write move_cursor with_cursor with_video].
    unfold scrolled. rewrite drop_ge by (rewrite Hl; unfold SCREEN; lia). done.
Qed.

(** Backspace at the top left corner does not stay there: the division of
    -1 truncates to row 0, so the cursor goes down to the start of line 1. *)
Theorem backspace_home_moves_down (s : console) (color : Z) (Hcol : 0 <= color < 256) :
  exists s', draw_char 0 0 8 color s = Some s' /\ get_cursor s' = (1, 0).
Proof.
  unfold draw_char. cbn [negb]. rewrite bool_decide_false by (rewrite (u8_small color) by lia; intros [Hx|Hx]; [by vm_compute in Hx|done]).
  by eexists.
Qed.

(** [set_term_color] accepts the colors 128 to 255, but the color is kept in
    a signed [char]; afterwards no output appears: [putbytes] leaves the screen,
    the cursor and everything else as they were. *)
Theorem high_color_mutes_output (s s' : console) (color : Z) (bytes : list Z)
    (Hs : console_ok s) (Hcol : 128 <= color < 256) (Hset : set_term_color color s = (OK, s')) :
  putbytes bytes s' = Some s'.
Proof.
  destruct Hs as [Hl Hv]. unfold set_term_color in Hset. rewrite u8_small in Hset by lia.
  rewrite decide_False in Hset by tauto. injection Hset as <-.
  assert (s8 color < 0) as Hneg.
  { unfold s8. rewrite <-(Z.mod_add _ (-1)) by lia. rewrite Z.mod_small; lia. }
  induction bytes as [|b bytes IH]; cbn [putbytes]; [done|].
  unfold putbyte, draw_char. cbn [row col cursor with_terminal terminal current_color]. rewrite Hv. cbn [negb].
  rewrite bool_decide_true; [exact IH|]. right. pose proof (u8_range (s8 color)). lia.
Qed.

Definition demo_console : console :=
  Console (Cursor true 24 79) (Terminal 7 7) (replicate SCREEN (Pixel 32 7)) (fun _ => 0).

Lemma demo_console_ok : console_ok demo_console.
Proof. split; [by vm_compute|done]. Qed.

Lemma draw_char_screen_witness :
  exists s', draw_char 24 79 65 7 demo_console = Some s' /\ get_cursor s' = (24, 0).
Proof.
  pose proof (draw_char_screen demo_console 24 79 65 7 (proj1 demo_console_ok) eq_refl
    ltac:(lia) ltac:(lia)) as H.
  destruct (draw_spec 24 79 65 7 (initial_color (terminal demo_console)) (video demo_console)) as [v rc] eqn:E.
  destruct H as (s' & H1 & _ & H2 & _). exists s'. split; [exact H1|]. rewrite H2.
  assert (rc = snd (draw_spec 24 79 65 7 (initial_color (terminal demo_console)) (video demo_console))) as ->
    by (rewrite E; reflexivity). vm_compute. reflexivity.
Defined.

Lemma putbytes_safe_witness : exists s', putbytes [72; 105; 10; 8; -56] demo_console = Some s' /\ console_ok s'.
Proof. exact (putbytes_safe [72; 105; 10; 8; -56] demo_console demo_console_ok). Defined.

Lemma cursor_and_clear_witness : get_cursor (set_cursor 3 4 demo_console).2 = (3, 4).
Proof. exact (proj1 (proj2 (proj1 (cursor_and_clear demo_console 3 4 demo_console_ok)))). Defined.

Lemma backspace_home_moves_down_witness :
  exists s', draw_char 0 0 8 7 demo_console = Some s' /\ get_cursor s' = (1, 0).
Proof. apply (backspace_home_moves_down demo_console 7). split; [discriminate|reflexivity]. Defined.

Lemma high_color_mutes_output_witness :
  putbytes [72; 105] (set_term_color 200 demo_console).2 = Some (set_term_color 200 demo_console).2.
Proof.
  apply (high_color_mutes_output demo_console _ 200 [72; 105] demo_console_ok); [split; [discriminate|reflexivity]|].
  reflexivity.
Defined.
