(* ===== verification/Machine.v ===== *)
(** The machine state the handlers work on: the saved registers [ureg_t] of
    [spec/ureg.h] and the constants of the x86 headers the kernel uses. *)
From S2P Require Import Prelude.
#[local] Open Scope Z_scope.

(** All fields are 32-bit words. *)
Record ureg_t : Type := Ureg {
  cause : Z;
  cr2 : Z;
  ds : Z;
  es : Z;
  fs : Z;
  gs : Z;
  edi : Z;
  esi : Z;
  ebp : Z;
  zero : Z;
  ebx : Z;
  edx : Z;
  ecx : Z;
  eax : Z;
  error_code : Z;
  eip : Z;
  cs : Z;
  eflags : Z;
  esp : Z;
  ss : Z;
}.

Definition set_cause (v : Z) (r : ureg_t) : ureg_t :=
  Ureg v (cr2 r) (ds r) (es r) (fs r) (gs r) (edi r) (esi r) (ebp r) (zero r) (ebx r)
    (edx r) (ecx r) (eax r) (error_code r) (eip r) (cs r) (eflags r) (esp r) (ss r).
Definition set_ds (v : Z) (r : ureg_t) : ureg_t :=
  Ureg (cause r) (cr2 r) v (es r) (fs r) (gs r) (edi r) (esi r) (ebp r) (zero r) (ebx r)
    (edx r) (ecx r) (eax r) (error_code r) (eip r) (cs r) (eflags r) (esp r) (ss r).
Definition set_es (v : Z) (r : ureg_t) : ureg_t :=
  Ureg (cause r) (cr2 r) (ds r) v (fs r) (gs r) (edi r) (esi r) (ebp r) (zero r) (ebx r)
    (edx r) (ecx r) (eax r) (error_code r) (eip r) (cs r) (eflags r) (esp r) (ss r).
Definition set_fs (v : Z) (r : ureg_t) : ureg_t :=
  Ureg (cause r) (cr2 r) (ds r) (es r) v (gs r) (edi r) (esi r) (ebp r) (zero r) (ebx r)
    (edx r) (ecx r) (eax r) (error_code r) (eip r) (cs r) (eflags r) (esp r) (ss r).
Definition set_gs (v : Z) (r : ureg_t) : ureg_t :=
  Ureg (cause r) (cr2 r) (ds r) (es r) (fs r) v (edi r) (esi r) (ebp r) (zero r) (ebx r)
    (edx r) (ecx r) (eax r) (error_code r) (eip r) (cs r) (eflags r) (esp r) (ss r).
Definition set_esi (v : Z) (r : ureg_t) : ureg_t :=
  Ureg (cause r) (cr2 r) (ds r) (es r) (fs r) (gs r) (edi r) v (ebp r) (zero r) (ebx r)
    (edx r) (ecx r) (eax r) (error_code r) (eip r) (cs r) (eflags r) (esp r) (ss r).
Definition set_ebx (v : Z) (r : ureg_t) : ureg_t :=
  Ureg (cause r) (cr2 r) (ds r) (es r) (fs r) (gs r) (edi r) (esi r) (ebp r) (zero r) v
    (edx r) (ecx r) (eax r) (error_code r) (eip r) (cs r) (eflags r) (esp r) (ss r).
Definition set_ecx (v : Z) (r : ureg_t) : ureg_t :=
  Ureg (cause r) (cr2 r) (ds r) (es r) (fs r) (gs r) (edi r) (esi r) (ebp r) (zero r)
    (ebx r) (edx r) v (eax r) (error_code r) (eip r) (cs r) (eflags r) (esp r) (ss r).
Definition set_eax (v : Z) (r : ureg_t) : ureg_t :=
  Ureg (cause r) (cr2 r) (ds r) (es r) (fs r) (gs r) (edi r) (esi r) (ebp r) (zero r)
    (ebx r) (edx r) (ecx r) v (error_code r) (eip r) (cs r) (eflags r) (esp r) (ss r).
Definition set_eip (v : Z) (r : ureg_t) : ureg_t :=
  Ureg (cause r) (cr2 r) (ds r) (es r) (fs r) (gs r) (edi r) (esi r) (ebp r) (zero r)
    (ebx r) (edx r) (ecx r) (eax r) (error_code r) v (cs r) (eflags r) (esp r) (ss r).
Definition set_cs (v : Z) (r : ureg_t) : ureg_t :=
  Ureg (cause r) (cr2 r) (ds r) (es r) (fs r) (gs r) (edi r) (esi r) (ebp r) (zero r)
    (ebx r) (edx r) (ecx r) (eax r) (error_code r) (eip r) v (eflags r) (esp r) (ss r).
Definition set_eflags (v : Z) (r : ureg_t) : ureg_t :=
  Ureg (cause r) (cr2 r) (ds r) (es r) (fs r) (gs r) (edi r) (esi r) (ebp r) (zero r)
    (ebx r) (edx r) (ecx r) (eax r) (error_code r) (eip r) (cs r) v (esp r) (ss r).
Definition set_esp (v : Z) (r : ureg_t) : ureg_t :=
  Ureg (cause r) (cr2 r) (ds r) (es r) (fs r) (gs r) (edi r) (esi r) (ebp r) (zero r)
    (ebx r) (edx r) (ecx r) (eax r) (error_code r) (eip r) (cs r) (eflags r) v (ss r).
Definition set_ss (v : Z) (r : ureg_t) : ureg_t :=
  Ureg (cause r) (cr2 r) (ds r) (es r) (fs r) (gs r) (edi r) (esi r) (ebp r) (zero r)
    (ebx r) (edx r) (ecx r) (eax r) (error_code r) (eip r) (cs r) (eflags r) (esp r) v.

(** [(ureg_t){0}]. *)
Definition ureg_zero : ureg_t := Ureg 0 0 0 0 0 0 0 0 0 0 0 0 0 0 0 0 0 0 0 0.

(** eflags.h, seg.h, idt.h, segmentation.h. *)
Definition EFL_RESV1 : Z := 0x2.
Definition EFL_IF : Z := 0x200.
Definition EFL_IOPL_SHIFT : Z := 12.
Definition USER_PL : Z := 3.
Definition KERNEL_PL : Z := 0.
Definition SEGSEL_KERNEL_CS : Z := 0x10.
Definition SEGSEL_USER_CS : Z := 0x23.
Definition SEGSEL_USER_DS : Z := 0x2b.
Definition SEGSEL_SPARE0_IDX : Z := 6.
Definition SEGSEL_SPARE1_IDX : Z := 7.
Definition SEGSEL_SPARE2_IDX : Z := 8.
Definition SEGSEL_SPARE3_IDX : Z := 9.
Definition SEGSEL_SPARE0 : Z := 0x30.
Definition SEGSEL_SPARE1 : Z := 0x38.
Definition SEGSEL_SPARE2 : Z := 0x40.
Definition SEGSEL_SPARE3 : Z := 0x48.
Definition SEGSEL_GUEST_RPL_MASK : Z := USER_PL.
Definition SEGSEL_GUEST_KERNEL_CS : Z := Z.lor SEGSEL_SPARE0 SEGSEL_GUEST_RPL_MASK.
Definition SEGSEL_GUEST_KERNEL_DS : Z := Z.lor SEGSEL_SPARE1 SEGSEL_GUEST_RPL_MASK.
Definition SEGSEL_GUEST_USER_CS : Z := Z.lor SEGSEL_SPARE2 SEGSEL_GUEST_RPL_MASK.
Definition SEGSEL_GUEST_USER_DS : Z := Z.lor SEGSEL_SPARE3 SEGSEL_GUEST_RPL_MASK.
Definition IDT_DE : Z := 0.
Definition IDT_NP : Z := 11.
Definition IDT_SS : Z := 12.
Definition IDT_GP : Z := 13.
Definition IDT_PF : Z := 14.
Definition IDT_ENTS : Z := 256.
Definition TIMER_IDT_ENTRY : Z := 0x20.
Definition KEY_IDT_ENTRY : Z := 0x21.
