(* ===== verification/CtrlBlk.v ===== *)
(** Threads and processes: [kern/ctrl_blk.c], [kern/inc/ctrl_blk.h] and the
    scheduler [kern/scheduler.c].

    A [tcb_t] and a [pcb_t] are embedded in list nodes and identified by the
    address of the node.  [thread_lists] holds for every thread state (for the
    waiting state: every blocking reason) the front of a circular list of
    pointers to threads.  [alter_state], the only function that moves a thread
    between lists, is proved to implement the move on the lists seen as
    sequences, in the order each list keeps. *)
From S2P Require Import Prelude Ring KMutex Machine.
From stdpp Require Import sorting.
#[local] Open Scope Z_scope.

Definition NEW_STATE : Z := 0.
Definition READY_STATE : Z := 1.
Definition RUNNING_STATE : Z := 2.
Definition WAITING_STATE : Z := 3.
Definition TERMINATED_STATE : Z := 4.
Definition SLEEP : Z := 5.
Definition READLINE : Z := 6.
Definition DESCHEDULE : Z := 7.
Definition VANISH_WAIT : Z := 8.
Definition THREAD_LIST_COUNT : Z := 9.
Definition VIRTUAL_IDT_LEN : Z := 0x22.

(** The union of [wakeup_time] and [first_reader] is one 32-bit word; the flag
    is its low byte. *)
Record blocking_detail_t : Type := BlockingDetail { reason : Z; detail : Z }.
Definition wakeup_time (d : blocking_detail_t) : Z := u32 (detail d).
Definition first_reader (d : blocking_detail_t) : bool := bool_decide (u8 (detail d) <> 0).
Definition blocking_none : blocking_detail_t := BlockingDetail 0 0.

Record page_allocation_t : Type := PageAllocation { base : Z; len : Z }.

(** [kernel_stack] is the frame [save_ureg] left on the thread's kernel stack
    for its first run; the [esp] field of the C structure is not modelled. *)
Record tcb_t : Type := Tcb {
  tcb_pcb : addr;
  tid : Z;
  state : Z;
  kernel_stack : option ureg_t;
  exception_stack : Z;
  handler : Z;
  handler_arg : Z;
  blocking_detail : blocking_detail_t;
}.

Definition set_tcb_pcb (v : addr) (r : tcb_t) : tcb_t :=
  Tcb v (tid r) (state r) (kernel_stack r) (exception_stack r) (handler r) (handler_arg
    r) (blocking_detail r).
Definition set_tid (v : Z) (r : tcb_t) : tcb_t :=
  Tcb (tcb_pcb r) v (state r) (kernel_stack r) (exception_stack r) (handler r)
    (handler_arg r) (blocking_detail r).
Definition set_state (v : Z) (r : tcb_t) : tcb_t :=
  Tcb (tcb_pcb r) (tid r) v (kernel_stack r) (exception_stack r) (handler r)
    (handler_arg r) (blocking_detail r).
Definition set_kernel_stack (v : option ureg_t) (r : tcb_t) : tcb_t :=
  Tcb (tcb_pcb r) (tid r) (state r) v (exception_stack r) (handler r) (handler_arg r)
    (blocking_detail r).
Definition set_exception_stack (v : Z) (r : tcb_t) : tcb_t :=
  Tcb (tcb_pcb r) (tid r) (state r) (kernel_stack r) v (handler r) (handler_arg r)
    (blocking_detail r).
Definition set_handler (v : Z) (r : tcb_t) : tcb_t :=
  Tcb (tcb_pcb r) (tid r) (state r) (kernel_stack r) (exception_stack r) v (handler_arg
    r) (blocking_detail r).
Definition set_handler_arg (v : Z) (r : tcb_t) : tcb_t :=
  Tcb (tcb_pcb r) (tid r) (state r) (kernel_stack r) (exception_stack r) (handler r) v
    (blocking_detail r).
Definition set_blocking_detail (v : blocking_detail_t) (r : tcb_t) : tcb_t :=
  Tcb (tcb_pcb r) (tid r) (state r) (kernel_stack r) (exception_stack r) (handler r)
    (handler_arg r) v.

Record guest_resource_t : Type := GuestResource {
  interrupt_enable_flag : bool;
  esp0 : Z;
  virtual_idt : list Z;
}.

Definition set_interrupt_enable_flag (v : bool) (r : guest_resource_t) : guest_resource_t :=
  GuestResource v (esp0 r) (virtual_idt r).
Definition set_esp0 (v : Z) (r : guest_resource_t) : guest_resource_t :=
  GuestResource (interrupt_enable_flag r) v (virtual_idt r).
Definition set_virtual_idt (v : list Z) (r : guest_resource_t) : guest_resource_t :=
  GuestResource (interrupt_enable_flag r) (esp0 r) v.

Record pcb_t : Type := Pcb {
  parent_pcb_ptr : addr;
  child_pcb_list : addr;
  tcb_list : addr;
  status : Z;
  page_directory : addr;
  page_allocation_list : addr;
  lock : mutex;
  guest : bool;
  guest_resource : guest_resource_t;
}.

Definition set_parent_pcb_ptr (v : addr) (r : pcb_t) : pcb_t :=
  Pcb v (child_pcb_list r) (tcb_list r) (status r) (page_directory r)
    (page_allocation_list r) (lock r) (guest r) (guest_resource r).
Definition set_child_pcb_list (v : addr) (r : pcb_t) : pcb_t :=
  Pcb (parent_pcb_ptr r) v (tcb_list r) (status r) (page_directory r)
    (page_allocation_list r) (lock r) (guest r) (guest_resource r).
Definition set_tcb_list (v : addr) (r : pcb_t) : pcb_t :=
  Pcb (parent_pcb_ptr r) (child_pcb_list r) v (status r) (page_directory r)
    (page_allocation_list r) (lock r) (guest r) (guest_resource r).
Definition set_status (v : Z) (r : pcb_t) : pcb_t :=
  Pcb (parent_pcb_ptr r) (child_pcb_list r) (tcb_list r) v (page_directory r)
    (page_allocation_list r) (lock r) (guest r) (guest_resource r).
Definition set_page_directory (v : addr) (r : pcb_t) : pcb_t :=
  Pcb (parent_pcb_ptr r) (child_pcb_list r) (tcb_list r) (status r) v
    (page_allocation_list r) (lock r) (guest r) (guest_resource r).
Definition set_page_allocation_list (v : addr) (r : pcb_t) : pcb_t :=
  Pcb (parent_pcb_ptr r) (child_pcb_list r) (tcb_list r) (status r) (page_directory r) v
    (lock r) (guest r) (guest_resource r).
Definition set_lock (v : mutex) (r : pcb_t) : pcb_t :=
  Pcb (parent_pcb_ptr r) (child_pcb_list r) (tcb_list r) (status r) (page_directory r)
    (page_allocation_list r) v (guest r) (guest_resource r).
Definition set_guest (v : bool) (r : pcb_t) : pcb_t :=
  Pcb (parent_pcb_ptr r) (child_pcb_list r) (tcb_list r) (status r) (page_directory r)
    (page_allocation_list r) (lock r) v (guest_resource r).
Definition set_guest_resource (v : guest_resource_t) (r : pcb_t) : pcb_t :=
  Pcb (parent_pcb_ptr r) (child_pcb_list r) (tcb_list r) (status r) (page_directory r)
    (page_allocation_list r) (lock r) (guest r) v.

(** The global variables of [ctrl_blk.c] and the nodes of the four kinds. *)
Record ctrl : Type := Ctrl {
  tcbs : zone tcb_t;
  pcbs : zone pcb_t;
  links : zone addr;
  allocations : zone page_allocation_t;
  thread_lists : list addr;
  thread_count : Z;
  thread_manager_lock : mutex;
  root_pcb_node_ptr : addr;
}.

Definition set_tcbs (v : zone tcb_t) (r : ctrl) : ctrl :=
  Ctrl v (pcbs r) (links r) (allocations r) (thread_lists r) (thread_count r)
    (thread_manager_lock r) (root_pcb_node_ptr r).
Definition set_pcbs (v : zone pcb_t) (r : ctrl) : ctrl :=
  Ctrl (tcbs r) v (links r) (allocations r) (thread_lists r) (thread_count r)
    (thread_manager_lock r) (root_pcb_node_ptr r).
Definition set_links (v : zone addr) (r : ctrl) : ctrl :=
  Ctrl (tcbs r) (pcbs r) v (allocations r) (thread_lists r) (thread_count r)
    (thread_manager_lock r) (root_pcb_node_ptr r).
Definition set_allocations (v : zone page_allocation_t) (r : ctrl) : ctrl :=
  Ctrl (tcbs r) (pcbs r) (links r) v (thread_lists r) (thread_count r)
    (thread_manager_lock r) (root_pcb_node_ptr r).
Definition set_thread_lists (v : list addr) (r : ctrl) : ctrl :=
  Ctrl (tcbs r) (pcbs r) (links r) (allocations r) v (thread_count r)
    (thread_manager_lock r) (root_pcb_node_ptr r).
Definition set_thread_count (v : Z) (r : ctrl) : ctrl :=
  Ctrl (tcbs r) (pcbs r) (links r) (allocations r) (thread_lists r) v
    (thread_manager_lock r) (root_pcb_node_ptr r).
Definition set_thread_manager_lock (v : mutex) (r : ctrl) : ctrl :=
  Ctrl (tcbs r) (pcbs r) (links r) (allocations r) (thread_lists r) (thread_count r) v
    (root_pcb_node_ptr r).
Definition set_root_pcb_node_ptr (v : addr) (r : ctrl) : ctrl :=
  Ctrl (tcbs r) (pcbs r) (links r) (allocations r) (thread_lists r) (thread_count r)
    (thread_manager_lock r) v.

(** Loads and stores of control blocks and list fronts. *)
Definition get_tcb (c : ctrl) (p : addr) : option tcb_t := data <$> cells (tcbs c) !! p.
Definition get_pcb (c : ctrl) (p : addr) : option pcb_t := data <$> cells (pcbs c) !! p.
Definition put_tcb (p : addr) (t : tcb_t) (c : ctrl) : option ctrl :=
  h ← Ring.set_data p t (cells (tcbs c)); Some (set_tcbs (Zone h (pool (tcbs c))) c).
Definition put_pcb (p : addr) (b : pcb_t) (c : ctrl) : option ctrl :=
  h ← Ring.set_data p b (cells (pcbs c)); Some (set_pcbs (Zone h (pool (pcbs c))) c).
Definition upd_pcb (p : addr) (f : pcb_t -> pcb_t) (c : ctrl) : option ctrl :=
  b ← get_pcb c p; put_pcb p (f b) c.
Definition upd_tcb (p : addr) (f : tcb_t -> tcb_t) (c : ctrl) : option ctrl :=
  t ← get_tcb c p; put_tcb p (f t) c.
Definition thread_list (c : ctrl) (idx : Z) : option addr := aget (thread_lists c) idx.
Definition set_thread_list (idx : Z) (p : addr) (c : ctrl) : option ctrl :=
  l ← aset idx p (thread_lists c); Some (set_thread_lists l c).
Definition set_links_heap (h : heap addr) (c : ctrl) : ctrl := set_links (Zone h (pool (links c))) c.

(** [thread_lists[RUNNING_STATE]->data]. *)
Definition running (c : ctrl) : option addr :=
  front ← thread_list c RUNNING_STATE; data <$> cells (links c) !! front.

(** The thread a link node points to. *)
Definition link_tcb (c : ctrl) (n : node addr) : option tcb_t := get_tcb c (data n).

(** ** [alter_state] *)

(** [node = front; do { if (node->data == tcb) found } while (...)]. *)
Definition find_source (c : ctrl) (t : tcb_t) (tcb_ptr : addr) : option (addr * Z) :=
  if bool_decide (READY_STATE <= state t <= TERMINATED_STATE /\
       (state t <> WAITING_STATE \/
        (reason (blocking_detail t) > TERMINATED_STATE /\ reason (blocking_detail t) < THREAD_LIST_COUNT)))
  then
    let original_list_idx :=
      if decide (state t = WAITING_STATE) then reason (blocking_detail t) else state t in
    front ← thread_list c original_list_idx;
    if decide (front = NULL) then Some (NULL, original_list_idx)
    else
      source ← search next (fun _ n => Some (bool_decide (data n = tcb_ptr)))
                 (cells (links c)) front front;
      Some (source, original_list_idx)
  else Some (NULL, 0).

(** Where the thread goes: the node it is put before ([NULL]: an empty list),
    whether it becomes the front, and the list; [None] inside: [return -1]. *)
Definition find_destination (c : ctrl) (t : tcb_t) (state : Z) (bd : option blocking_detail_t)
    : option (option (addr * bool * Z)) :=
  let h := cells (links c) in
  if decide (state = WAITING_STATE) then
    bd ← bd;
    let r := reason bd in
    if decide (r = SLEEP) then
      front ← thread_list c r;
      if decide (front = NULL) then Some (Some (front, true, r))
      else
        fn ← h !! front; ft ← link_tcb c fn;
        if decide (wakeup_time (blocking_detail ft) >= wakeup_time bd)
        then Some (Some (front, true, r))
        else
          dest ← seek (S (nodes h))
            (fun n => t ← link_tcb c n;
               Some (bool_decide (wakeup_time (blocking_detail t) < wakeup_time bd)))
            h (next fn) front;
          Some (Some (dest, false, r))
    else if bool_decide (r = DESCHEDULE \/ r = VANISH_WAIT) then
      front ← thread_list c r; Some (Some (front, false, r))
    else if decide (r = READLINE) then
      front ← thread_list c r; Some (Some (front, first_reader bd, r))
    else Some None
  else if decide (state = READY_STATE) then
    front ← thread_list c state;
    if decide (front = NULL) then Some (Some (front, false, state))
    else
      fn ← h !! front;
      same ← search previous
        (fun _ n => t' ← link_tcb c n; Some (bool_decide (tcb_pcb t' = tcb_pcb t)))
        h (previous fn) (previous fn);
      if decide (same = NULL) then Some (Some (front, false, state))
      else n ← h !! same; Some (Some (next n, false, state))
  else if decide (state = RUNNING_STATE) then
    front ← thread_list c state; Some (Some (front, true, state))
  else if decide (state = TERMINATED_STATE) then
    front ← thread_list c state; Some (Some (front, false, state))
  else Some None.

(** Take the node out of its list. *)
Definition unlink_source (source : addr) (idx : Z) (c : ctrl) : option ctrl :=
  front ← thread_list c idx;
  n ← cells (links c) !! source;
  c ← (if decide (source = front) then
         set_thread_list idx (if decide (front = next n) then NULL else next n) c
       else Some c);
  h ← set_previous (next n) (previous n) (cells (links c));
  n ← h !! source;
  h ← set_next (previous n) (next n) h;
  Some (set_links_heap h c).

(** Put the node before [dest]. *)
Definition link_source (source dest : addr) (front_pushed : bool) (idx : Z) (c : ctrl) : option ctrl :=
  let h := cells (links c) in
  if decide (dest = NULL) then
    h ← set_next source source h;
    h ← set_previous source source h;
    set_thread_list idx source (set_links_heap h c)
  else
    h ← set_next source dest h;
    d ← h !! dest;
    h ← set_previous source (previous d) h;
    n ← h !! source;
    h ← set_previous (next n) source h;
    n ← h !! source;
    h ← set_next (previous n) source h;
    let c := set_links_heap h c in
    if (front_pushed : bool) then set_thread_list idx source c else Some c.

Definition alter_state (tcb_ptr state : Z) (bd : option blocking_detail_t) (c : ctrl)
    : option (Z * ctrl) :=
  if bool_decide (tcb_ptr = NULL \/ ~ (READY_STATE <= state <= TERMINATED_STATE))
  then Some (FAIL, c)
  else if bool_decide (state = WAITING_STATE /\ bd = None) then Some (FAIL, c)
  else
    t ← get_tcb c tcb_ptr;
    '(source, original_list_idx) ← find_source c t tcb_ptr;
    if decide (source = NULL) then Some (FAIL, c)
    else
      dest ← find_destination c t state bd;
      match dest with
      | None => Some (FAIL, c)
      | Some (dest, front_pushed, target_list_idx) =>
          c ← unlink_source source original_list_idx c;
          c ← link_source source dest front_pushed target_list_idx c;
          let t := match bd with
                   | Some d => if decide (state = WAITING_STATE) then set_blocking_detail d t else t
                   | None => t
                   end in
          c ← put_tcb tcb_ptr (set_state state t) c;
          Some (OK, c)
      end.

(** ** Queries *)

Definition get_thread_alive_count (c : ctrl) (pcb_ptr : addr) : option (Z * Z) :=
  if decide (pcb_ptr = NULL) then Some (FAIL, 0)
  else
    b ← get_pcb c pcb_ptr;
    if decide (tcb_list b = NULL) then Some (OK, 0)
    else
      r ← walk next (fun _ n (count : Z) =>
            Some (inl (if decide (state (data n) = TERMINATED_STATE) then count else s32 (count + 1))
                  : Z + unit))
          (nodes (cells (tcbs c))) (cells (tcbs c)) (tcb_list b) (tcb_list b) 0;
      match r with inl count => Some (OK, count) | inr _ => None end.

(** [value] is a process for [VANISH_WAIT] and a thread id for other lists. *)
Definition find_tcb_in_list (c : ctrl) (value state : Z) : option addr :=
  current ← thread_list c state;
  if decide (current = NULL) then Some NULL
  else
    p ← search next (fun _ n =>
          t ← link_tcb c n;
          Some (if decide (state = VANISH_WAIT) then bool_decide (tcb_pcb t = value)
                else bool_decide (tid t = s32 value)))
        (cells (links c)) current current;
    if decide (p = NULL) then Some NULL else data <$> cells (links c) !! p.

(** [unlock_children]: up to and including [node], or all children. *)
Definition unlock_children (pcb node_ : addr) (c : ctrl) : option (Z * ctrl) :=
  b ← get_pcb c pcb;
  let current := child_pcb_list b in
  if decide (current = NULL) then Some (OK, c)
  else
    last_node ← (if decide (node_ = NULL) then Some current
                 else next <$> cells (pcbs c) !! node_);
    r ← walk next (fun p _ c => c ← upd_pcb p (fun b => set_lock (mutex_unlock (lock b)) b) c;
                             Some (inl c : ctrl + unit))
        (nodes (cells (pcbs c))) (cells (pcbs c)) current last_node c;
    match r with inl c => Some (OK, c) | inr _ => None end.

(** ** The scheduler *)

Definition round_robin (c : ctrl) : option (addr * ctrl) :=
  front ← thread_list c READY_STATE;
  if decide (front = NULL) then Some (NULL, c)
  else
    let h := cells (links c) in
    fn ← h !! front;
    ft ← link_tcb c fn;
    let tcb_ptr := data fn in
    other ← seek (S (nodes h))
      (fun n => t ← link_tcb c n; Some (bool_decide (tcb_pcb t = tcb_pcb ft)))
      h (next fn) front;
    if decide (other = front) then Some (tcb_ptr, c)
    else c ← set_thread_list READY_STATE other c; Some (tcb_ptr, c).

Definition find_next_thread (c : ctrl) : option (addr * ctrl) :=
  me ← running c;
  t ← get_tcb c me;
  b ← get_pcb c (tcb_pcb t);
  if decide (tcb_list b = NULL) then round_robin c
  else
    p ← search next (fun _ n => Some (bool_decide (state (data n) = READY_STATE)))
        (cells (tcbs c)) (tcb_list b) (tcb_list b);
    if decide (p = NULL) then round_robin c else Some (p, c).

(** * The thread lists as sequences *)

(** Functions on list indices, updated at one index. *)
Definition upd {A} (i : Z) (x : A) (f : Z -> A) : Z -> A :=
  fun j => if decide (j = i) then x else f j.

Lemma upd_eq {A} i (x : A) f : upd i x f i = x.
Proof. unfold upd. by rewrite decide_True. Qed.
Lemma upd_ne {A} i j (x : A) f : j <> i -> upd i x f j = f j.
Proof. intros. unfold upd. by rewrite decide_False. Qed.

Definition list_index (i : Z) : Prop := 0 <= i < THREAD_LIST_COUNT.

(** The [i]-th list consists of the link nodes [ns i], pointing to [LS i]. *)
Record lists_are (c : ctrl) (ns LS : Z -> list addr) : Prop := {
  la_len : length (thread_lists c) = Z.to_nat THREAD_LIST_COUNT;
  la_zone : zone_ok (links c);
  la_ring : forall i, list_index i -> ring (cells (links c)) (ns i);
  la_front : forall i, list_index i -> thread_list c i = Some (front_of (ns i));
  la_data : forall i, list_index i -> contents (cells (links c)) (ns i) (LS i);
  la_disj : forall i j p, list_index i -> list_index j -> p ∈ ns i -> p ∈ ns j -> i = j;
}.

(** The list a thread belongs to, from its state. *)
Definition home_list (t : tcb_t) : option Z :=
  if bool_decide (READY_STATE <= state t <= TERMINATED_STATE) then
    if decide (state t = WAITING_STATE) then
      if bool_decide (TERMINATED_STATE < reason (blocking_detail t) < THREAD_LIST_COUNT)
      then Some (reason (blocking_detail t)) else None
    else Some (state t)
  else None.

(** The scheduler's state: every thread of a list is listed once, and belongs
    there. *)
Definition sched_ok (c : ctrl) (LS : Z -> list addr) : Prop :=
  (exists ns, lists_are c ns LS) /\
  (forall i, list_index i -> NoDup (LS i) /\
     forall p, p ∈ LS i -> p <> NULL /\ exists t, get_tcb c p = Some t /\ home_list t = Some i).

Lemma contents_split {A} (h : heap A) l L1 x L2 :
  contents h l (L1 ++ x :: L2) ->
  exists l1 p l2, l = l1 ++ p :: l2 /\ length l1 = length L1 /\
    contents h l1 L1 /\ data <$> h !! p = Some x /\ contents h l2 L2.
Proof.
  intros H. apply Forall2_app_inv_r in H as (l1 & l' & H1 & H2 & ->).
  apply Forall2_cons_inv_r in H2 as (p & l2 & Hp & H2 & ->).
  exists l1, p, l2. split_and!; try done. by eapply Forall2_length.
Qed.

Lemma thread_list_set c i p : length (thread_lists c) = Z.to_nat THREAD_LIST_COUNT -> list_index i ->
  exists c', set_thread_list i p c = Some c' /\ 
    c' = set_thread_lists (thread_lists c') c /\ length (thread_lists c') = length (thread_lists c) /\
    forall j, list_index j -> thread_list c' j = if decide (j = i) then Some p else thread_list c j.
Proof.
  intros Hl Hi. unfold set_thread_list. unfold list_index, THREAD_LIST_COUNT in *.
  rewrite aset_Some by lia. cbn [mbind option_bind]. eexists. split; [done|].
  cbn [thread_lists set_thread_lists]. split; [done|]. split; [by rewrite length_insert|].
  intros j Hj. unfold thread_list, aget. cbn [thread_lists set_thread_lists].
  rewrite !(decide_True (P := 0 <= j)) by lia. destruct (decide (j = i)) as [->|Hne].
  - apply list_lookup_insert_eq. lia.
  - apply list_lookup_insert_ne. lia.
Qed.

(** States that differ in the links and fronts of the lists only. *)
Definition same_blocks (c c' : ctrl) : Prop :=
  c' = set_thread_lists (thread_lists c') (set_links (links c') c) /\ pool (links c') = pool (links c).

Lemma same_blocks_trans c1 c2 c3 : same_blocks c1 c2 -> same_blocks c2 c3 -> same_blocks c1 c3.
Proof. intros [E1 P1] [E2 P2]. split; [|congruence]. rewrite E2, E1. done. Qed.

Lemma zone_ok_same_dom {A} (z z' : zone A) : zone_ok z -> pool z' = pool z ->
  dom (cells z') = dom (cells z) -> zone_ok z'.
Proof.
  intros (H1 & H2 & H3 & H4) Hp Hd. rewrite <-Hp in *. split_and!; [done|done| |].
  - intros p Hin. apply not_elem_of_dom. rewrite Hd. apply not_elem_of_dom. auto.
  - apply not_elem_of_dom. rewrite Hd. by apply not_elem_of_dom.
Qed.

Section moves.
Context (c : ctrl) (ns LS : Z -> list addr).
Context (Hla : lists_are c ns LS).

(** Taking a node out of the list [i]. *)
Lemma unlink_source_ok i n1 s n2 L1 t L2 :
  list_index i -> ns i = n1 ++ s :: n2 -> LS i = L1 ++ t :: L2 -> length n1 = length L1 ->
  exists c', unlink_source s i c = Some c' /\ same_blocks c c' /\
    lists_are c' (upd i (n1 ++ n2) ns) (upd i (L1 ++ L2) LS) /\
    (data <$> cells (links c') !! s = Some t) /\ s <> NULL /\
    (forall j, list_index j -> s ∉ upd i (n1 ++ n2) ns j).
Proof.
  intros Hi Hns HLS Hlen. destruct Hla as [Hl Hz Hr Hfr Hd Hdis].
  pose proof (Hr i Hi) as Hri. pose proof (Hd i Hi) as Hdi. rewrite Hns in Hri. rewrite Hns, HLS in Hdi.
  apply Forall2_app_inv in Hdi as [Hd1 Hd2]; [|done]. apply Forall2_cons_1 in Hd2 as [Hds Hd2].
  pose proof Hri as (Hnd & Hnull & _).
  assert (s ∉ n1 ++ n2) as Hs.
  { apply NoDup_app in Hnd as (_ & Hx & Hy). apply NoDup_cons in Hy as [Hy _].
    intros [Hin|Hin]%elem_of_app; [apply (Hx s Hin); left|done]. }
  pose proof (ring_rotate _ _ _ Hri) as Hrot. cbn [app] in Hrot.
  destruct (unlink_swapped _ _ _ Hrot) as (n & h1 & n1' & h2 & Hn & Hnext & H1 & Hn1' & H2 & Hr2 & Hdom & Hdata & Hframe).
  apply ring_rotate in Hr2. unfold unlink_source. rewrite (Hfr i Hi), Hns. cbn [mbind option_bind].
  run Hn.
  assert (exists c1, (if decide (s = front_of (n1 ++ s :: n2)) then
            set_thread_list i (if decide (front_of (n1 ++ s :: n2) = next n) then NULL else next n) c
          else Some c) = Some c1 /\ c1 = set_thread_lists (thread_lists c1) c /\
          length (thread_lists c1) = length (thread_lists c) /\
          forall j, list_index j -> thread_list c1 j = if decide (j = i) then Some (front_of (n1 ++ n2)) else thread_list c j)
    as (c1 & Hc1 & Hc1e & Hc1l & Hc1f).
  { dec_goal as [Hfront|Hfront].
    - assert (n1 = []) as ->.
      { destruct n1 as [|x n1]; [done|]. exfalso. simpl in Hfront. unfold front_of in Hfront. simpl in Hfront.
        subst x. apply Hs. left. }
      cbn [app] in *. change (front_of (s :: n2)) with s. rewrite Hnext. rewrite app_nil_r.
      destruct n2 as [|y n2]; cbn [app].
      + change (front_of [s]) with s. rewrite decide_True by done. by apply thread_list_set.
      + change (front_of (y :: (n2 ++ [s]))) with y. change (front_of (y :: n2)) with y.
        rewrite decide_False; [by apply thread_list_set|]. intros ->. apply Hs. left.
    - exists c. split; [done|]. split; [by destruct c|]. split; [done|]. intros j Hj. dec_goal as [Hji|Hji]; [|done].
      subst j. rewrite (Hfr i Hi), Hns. destruct n1 as [|x n1]; [|done]. exfalso. by apply Hfront. }
  run Hc1. assert (cells (links c1) = cells (links c)) as Hcells by (rewrite Hc1e; done).
  rewrite Hcells. run H1. run Hn1'. run H2. eexists. split; [done|].
  assert (same_blocks c (set_links_heap h2 c1)) as Hsame.
  { split; [|rewrite Hc1e; done]. rewrite Hc1e. done. }
  split; [done|]. split; [|split; [|split]].
  - split.
    + cbn. by rewrite Hc1l.
    + apply (zone_ok_same_dom (links c)); [done|by rewrite Hc1e|done].
    + intros j Hj. unfold upd. dec_goal as [Hji|Hji]; [exact Hr2|]. eapply ring_frame; [|by apply Hr].
      intros p Hp. assert (p ∉ ns i) as Hpi by (intros Hin; apply Hji; by apply (Hdis j i p)).
      rewrite Hns in Hpi. apply Hframe; set_solver.
    + intros j Hj. change (thread_list (set_links_heap h2 c1) j) with (thread_list c1 j). rewrite Hc1f by done.
      unfold upd. dec_goal as [?|?]; [done|]. by apply Hfr.
    + intros j Hj. apply (contents_frame (cells (links c))); [by intros; apply Hdata|].
      unfold upd. dec_goal as [?|?]; [by apply Forall2_app|by apply Hd].
    + intros j k p Hj Hk. unfold upd. destruct (decide (j = i)) as [->|], (decide (k = i)) as [->|]; try done.
      * intros Hp Hp'. apply (Hdis i k p); [done..| |done]. rewrite Hns. set_solver.
      * intros Hp Hp'. apply (Hdis j i p); [done..|]. rewrite Hns. set_solver.
      * by apply Hdis.
  - cbn. by rewrite Hdata.
  - intros ->. apply Hnull. set_solver.
  - intros j Hj. unfold upd. dec_goal as [Hji|Hji]; [done|]. intros Hin. apply Hji.
    apply (Hdis j i s); [done..|]. rewrite Hns. set_solver.
Qed.

(** Putting a free node into the list [j], before the node [dest]. *)
Lemma link_source_ok j m1 m2 s M1 t M2 (fp : bool) :
  list_index j -> ns j = m1 ++ m2 -> LS j = M1 ++ M2 -> length m1 = length M1 ->
  (if fp then m1 = [] else m1 <> [] \/ m2 = []) ->
  data <$> cells (links c) !! s = Some t -> s <> NULL -> (forall i, list_index i -> s ∉ ns i) ->
  exists c', link_source s (front_of (m2 ++ m1)) fp j c = Some c' /\ same_blocks c c' /\
    lists_are c' (upd j (m1 ++ s :: m2) ns) (upd j (M1 ++ t :: M2) LS).
Proof.
  intros Hj Hns HLS Hlen Hfp Hs Hsn Hsout. destruct Hla as [Hl Hz Hr Hfr Hd Hdis].
  pose proof (Hr j Hj) as Hrj. pose proof (Hd j Hj) as Hdj. rewrite Hns in Hrj. rewrite Hns, HLS in Hdj.
  apply Forall2_app_inv in Hdj as [Hd1 Hd2]; [|done].
  apply fmap_Some in Hs as (m & Hm & Hmt).
  (* the common conclusion, from the new heap and the new front *)
  assert (Hconc : forall h c1, c1 = set_thread_lists (thread_lists c1) (set_links_heap h c) ->
    length (thread_lists c1) = length (thread_lists c) ->
    (forall i, list_index i -> thread_list c1 i =
       if decide (i = j) then Some (front_of (m1 ++ s :: m2)) else thread_list c i) ->
    ring h (m1 ++ s :: m2) -> dom h = dom (cells (links c)) ->
    (forall p, data <$> h !! p = data <$> cells (links c) !! p) ->
    (forall p, p ∉ m1 ++ m2 -> p <> s -> h !! p = cells (links c) !! p) ->
    same_blocks c c1 /\ lists_are c1 (upd j (m1 ++ s :: m2) ns) (upd j (M1 ++ t :: M2) LS)).
  { intros h c1 Hc1 Hc1l Hc1f Hrh Hdom Hdata Hframe.
    assert (links c1 = Zone h (pool (links c))) as Hlinks by (rewrite Hc1; done).
    split; [split; [rewrite Hc1; done|by rewrite Hlinks]|]. split.
    - by rewrite Hc1l.
    - apply (zone_ok_same_dom (links c)); [done|by rewrite Hlinks|by rewrite Hlinks].
    - rewrite Hlinks. intros i Hi. unfold upd. dec_goal as [Hij|Hij]; [done|]. eapply ring_frame; [|by apply Hr].
      intros p Hp. apply Hframe.
      + rewrite <-Hns. intros Hin. apply Hij. by apply (Hdis i j p).
      + intros ->. by apply (Hsout i).
    - intros i Hi. rewrite Hc1f by done. unfold upd. dec_goal as [?|?]; [done|]. by apply Hfr.
    - rewrite Hlinks. intros i Hi. apply (contents_frame (cells (links c))); [by intros; apply Hdata|].
      unfold upd. dec_goal as [?|?]; [|by apply Hd]. apply Forall2_app; [done|]. constructor; [|done]. by rewrite Hm, Hmt.
    - intros i k p Hi Hk. unfold upd. destruct (decide (i = j)) as [->|], (decide (k = j)) as [->|]; try done.
      + intros Hp Hp'. destruct (decide (p = s)) as [->|]; [by exfalso; apply (Hsout k)|].
        apply (Hdis j k p); [done..| |done]. rewrite Hns. set_solver.
      + intros Hp Hp'. destruct (decide (p = s)) as [->|]; [by exfalso; apply (Hsout i)|].
        apply (Hdis i j p); [done..|]. rewrite Hns. set_solver.
      + by apply Hdis. }
  unfold link_source. destruct (m2 ++ m1) as [|x l] eqn:Hrot.
  - apply app_eq_nil in Hrot as [-> ->]. rewrite decide_True by done.
    unfold set_next, set_previous. rewrite Hm. cbn [mbind option_bind]. rewrite lookup_insert_eq. cbn [mbind option_bind].
    rewrite insert_insert_eq. cbn [next data].
    set (h := <[s := Node s s (data m)]> (cells (links c))).
    destruct (thread_list_set (set_links_heap h c) j s Hl Hj) as (c1 & -> & Hc1 & Hc1l & Hc1f).
    exists c1. split; [done|]. apply (Hconc h c1); [done|done|exact Hc1f| | | |].
    + by apply ring_single.
    + apply dom_insert_lookup_L. by eexists.
    + intros p. unfold h. destruct (decide (p = s)) as [->|]; [by rewrite lookup_insert_eq, Hm|by rewrite lookup_insert_ne].
    + intros p _ Hp. unfold h. by rewrite lookup_insert_ne.
  - apply ring_rotate in Hrj. rewrite Hrot in Hrj. change (front_of (x :: l)) with x.
    assert (s ∉ x :: l) as Hsl.
    { rewrite <-Hrot. intros Hin. apply (Hsout j Hj). rewrite Hns. set_solver. }
    rewrite decide_False.
    2:{ intros ->. destruct Hrj as (_ & Hnull & _). apply Hnull. left. }
    destruct (link_existing _ _ _ _ _ Hrj Hsl Hsn Hm)
      as (h1 & f & h2 & n2 & h3 & n3 & h4 & E1 & E2 & E3 & E4 & E5 & E6 & E7 & Hr4 & Hdom & Hdata & Hframe).
    run E1. run E2. run E3. run E4. run E5. run E6. run E7.
    rewrite <-Hrot in Hr4. change (s :: (m2 ++ m1)) with ((s :: m2) ++ m1) in Hr4. apply ring_rotate in Hr4.
    assert (Hframe' : forall p, p ∉ m1 ++ m2 -> p <> s -> h4 !! p = cells (links c) !! p).
    { intros p Hp. apply Hframe. rewrite <-Hrot. set_solver. }
    destruct fp.
    + subst m1. cbn [app] in *.
      destruct (thread_list_set (set_links_heap h4 c) j s Hl Hj) as (c1 & -> & Hc1 & Hc1l & Hc1f).
      exists c1. split; [done|]. apply (Hconc h4 c1); [done|done|exact Hc1f|done|done|done|done].
    + eexists. split; [done|]. apply (Hconc h4); [done|done| |done|done|done|done].
      intros i Hi. change (thread_list (set_links_heap h4 c) i) with (thread_list c i). dec_goal as [Hij|Hij]; [|done].
      subst i. rewrite (Hfr j Hj), Hns. destruct m1 as [|y m1]; [|done].
      destruct Hfp as [?| ->]; [done|]. done.
Qed.

End moves.

(** ** Finding the places in the lists *)

(** A test on the datum of a node. *)
Definition on_data {A} (h : heap A) (f : A -> bool) (q : addr) : bool :=
  match h !! q with Some n => f (data n) | None => false end.

Lemma contents_span {A} (h : heap A) (f : A -> bool) l L M1 M2 :
  contents h l L -> span_sat f L = (M1, M2) ->
  exists m1 m2, l = m1 ++ m2 /\ length m1 = length M1 /\ length m2 = length M2 /\
    first_sat (on_data h f) l = head m2.
Proof.
  intros Hc. revert M1 M2. induction Hc as [|p x l L Hp Hc IH]; intros M1 M2; cbn [span_sat first_sat].
  - intros [= <- <-]. by exists [], [].
  - apply fmap_Some in Hp as (n & Hn & ->). unfold on_data at 1. rewrite Hn.
    destruct (f (data n)).
    + intros [= <- <-]. exists [], (p :: l). split_and!; try done. cbn. f_equal. by eapply Forall2_length.
    + destruct (span_sat f L) as [a b]. intros [= <- <-]. destruct (IH a b eq_refl) as (m1 & m2 & -> & E1 & E2 & E3).
      exists (p :: m1), m2. split_and!; try done. cbn. by f_equal.
Qed.

Lemma span_sat_true {A} (f : A -> bool) l a b :
  span_sat f l = (a, b) -> Forall (fun x => f x = false) a /\
    match b with [] => True | x :: _ => f x = true end.
Proof.
  revert a b. induction l as [|x l IH]; intros a b; simpl; [by intros [= <- <-]|].
  destruct (f x) eqn:Hf; [by intros [= <- <-]|].
  destruct (span_sat f l) as [a' b']. intros [= <- <-]. destruct (IH a' b' eq_refl). auto.
Qed.

(** The wake-up time and the process of a listed thread. *)
Definition wake (c : ctrl) (p : addr) : Z :=
  match get_tcb c p with Some t => wakeup_time (blocking_detail t) | None => 0 end.
Definition process_of (c : ctrl) (p : addr) : addr :=
  match get_tcb c p with Some t => tcb_pcb t | None => NULL end.

(** The list a state change leads to. *)
Definition target_list (state : Z) (bd : option blocking_detail_t) : option Z :=
  if decide (state = WAITING_STATE) then
    bd ← bd;
    if bool_decide (reason bd = SLEEP \/ reason bd = READLINE \/ reason bd = DESCHEDULE \/
                    reason bd = VANISH_WAIT)
    then Some (reason bd) else None
  else if bool_decide (state = READY_STATE \/ state = RUNNING_STATE \/ state = TERMINATED_STATE)
  then Some state else None.

(** Where in it: sleepers by wake-up time, after all earlier ones; runnable
    threads behind the last thread of their process; first readers and running
    threads in front; everything else at the back. *)
Definition place (c : ctrl) (pcb : addr) (state : Z) (bd : option blocking_detail_t) (l : list addr)
    : list addr * list addr :=
  if decide (state = READY_STATE) then
    let '(a, b) := span_sat (fun q => bool_decide (process_of c q = pcb)) (reverse l) in
    match b with [] => (l, []) | _ => (reverse b, reverse a) end
  else if decide (state = RUNNING_STATE) then ([], l)
  else match bd with
  | Some d =>
      if decide (state = WAITING_STATE) then
        if decide (reason d = SLEEP) then span_sat (fun q => bool_decide (wake c q >= wakeup_time d)) l
        else if bool_decide (reason d = READLINE /\ first_reader d = true) then ([], l)
        else (l, [])
      else (l, [])
  | None => (l, [])
  end.

Lemma place_split c pcb s bd l M1 M2 : place c pcb s bd l = (M1, M2) -> l = M1 ++ M2.
Proof.
  unfold place. repeat case_decide; try (intros [= <- <-]; by rewrite ?app_nil_r).
  - destruct (span_sat _ (reverse l)) as [a b] eqn:Hs. apply span_sat_app in Hs.
    destruct b; intros [= <- <-]; [by rewrite app_nil_r|].
    apply (f_equal reverse) in Hs. rewrite reverse_involutive, reverse_app in Hs. done.
  - destruct bd as [d|]; [|intros [= <- <-]; by rewrite app_nil_r].
    repeat case_decide; try case_bool_decide; try (intros [= <- <-]; by rewrite ?app_nil_r).
    apply span_sat_app.
  - destruct bd; intros [= <- <-]; by rewrite app_nil_r.
Qed.

Section places.
Context (c : ctrl) (ns LS : Z -> list addr).
Context (Hla : lists_are c ns LS).
Context (Hok : forall i, list_index i -> NoDup (LS i) /\
     forall p, p ∈ LS i -> p <> NULL /\ exists t, get_tcb c p = Some t /\ home_list t = Some i).

(** Every node met in a list has a datum, and it is a thread. *)
Lemma node_tcb i q : list_index i -> q ∈ ns i ->
  exists n t, cells (links c) !! q = Some n /\ data n ∈ LS i /\ get_tcb c (data n) = Some t.
Proof.
  intros Hi Hq. destruct Hla as [_ _ _ _ Hd _]. pose proof (Hd i Hi) as Hdi.
  apply list_elem_of_lookup in Hq as [k Hk]. 
  destruct (Forall2_lookup_l _ _ _ _ _ Hdi Hk) as (x & Hx & Hqx). apply fmap_Some in Hqx as (n & Hn & ->).
  apply list_elem_of_lookup_2 in Hx. destruct (Hok i Hi) as [_ Hall].
  destruct (Hall _ Hx) as (_ & t & Ht & _). eauto.
Qed.

Lemma home_list_guard t i : home_list t = Some i ->
  bool_decide (READY_STATE <= state t <= TERMINATED_STATE /\
       (state t <> WAITING_STATE \/
        (reason (blocking_detail t) > TERMINATED_STATE /\ reason (blocking_detail t) < THREAD_LIST_COUNT))) = true /\
  (if decide (state t = WAITING_STATE) then reason (blocking_detail t) else state t) = i /\ list_index i.
Proof.
  unfold home_list, list_index, THREAD_LIST_COUNT, READY_STATE, TERMINATED_STATE. intros H.
  unfold WAITING_STATE in *. destruct (bool_decide _) eqn:E in H; [|done]. apply bool_decide_eq_true in E.
  dec_goal as [Hw|Hw].
  - try (rewrite decide_True in H by done). destruct (bool_decide _) eqn:E2 in H; [|done].
    apply bool_decide_eq_true in E2. unfold THREAD_LIST_COUNT in E2. injection H as <-.
    split; [apply bool_decide_eq_true; lia|split; [done|lia]].
  - try (rewrite decide_False in H by done). injection H as <-.
    split; [apply bool_decide_eq_true; lia|split; [done|lia]].
Qed.

Lemma home_list_none t : home_list t = None ->
  bool_decide (READY_STATE <= state t <= TERMINATED_STATE /\
       (state t <> WAITING_STATE \/
        (reason (blocking_detail t) > TERMINATED_STATE /\ reason (blocking_detail t) < THREAD_LIST_COUNT))) = false.
Proof.
  unfold home_list. intros H. apply bool_decide_eq_false.
  destruct (bool_decide _) eqn:E in H; [|apply bool_decide_eq_false in E; tauto].
  destruct (decide (state t = WAITING_STATE)); [|done].
  destruct (bool_decide _) eqn:E2 in H; [done|]. apply bool_decide_eq_false in E2. lia.
Qed.

Lemma list_cases i : list_index i ->
  (ns i = [] /\ LS i = [] /\ thread_list c i = Some NULL) \/
  (exists x l, ns i = x :: l /\ thread_list c i = Some x /\ x <> NULL /\ ring (cells (links c)) (x :: l)).
Proof.
  intros Hi. destruct Hla as [_ _ Hr Hf Hd _]. specialize (Hr i Hi). specialize (Hf i Hi). specialize (Hd i Hi).
  destruct (ns i) as [|x l] eqn:E.
  - left. apply Forall2_nil_inv_l in Hd. done.
  - right. exists x, l. split_and!; try done. destruct Hr as (_ & Hn & _). set_solver.
Qed.

Lemma search_data i p : list_index i ->
  match ns i with [] => True | x :: l =>
    search next (fun _ n => Some (bool_decide (data n = p))) (cells (links c)) x x =
    Some (default NULL (first_sat (on_data (cells (links c)) (fun d => bool_decide (d = p))) (ns i))) end.
Proof.
  intros Hi. destruct (list_cases i Hi) as [(-> & _)|(x & l & E & _ & _ & Hr)]; [done|]. rewrite E.
  apply search_ring; [done|]. intros q Hq. rewrite <-E in Hq.
  destruct (node_tcb i q Hi Hq) as (n & t & Hn & _). exists n. split; [done|]. unfold on_data. by rewrite Hn.
Qed.

Lemma find_source_ok t p i L1 L2 : home_list t = Some i -> LS i = L1 ++ p :: L2 ->
  exists n1 s n2, ns i = n1 ++ s :: n2 /\ length n1 = length L1 /\ s <> NULL /\ list_index i /\
    find_source c t p = Some (s, i).
Proof.
  intros Hh HL. destruct (home_list_guard t i Hh) as (Hg & Hidx & Hi).
  unfold find_source. rewrite Hg, Hidx. clear Hg Hidx.
  pose proof Hla as [_ _ Hr Hf Hd _]. pose proof (Hd i Hi) as Hdi. rewrite HL in Hdi.
  destruct (contents_split _ _ _ _ _ Hdi) as (n1 & s & n2 & E & Hlen & Hc1 & Hs & Hc2).
  exists n1, s, n2. split; [done|]. split; [done|].
  assert (s <> NULL) as Hsn.
  { intros ->. specialize (Hr i Hi) as (_ & Hn & _). rewrite E in Hn. set_solver. }
  split; [done|]. split; [done|].
  destruct (list_cases i Hi) as [(E' & _)|(x & l & E' & Hfr & Hxn & Hring)].
  { rewrite E in E'. by destruct n1. }
  rewrite Hfr. cbn [mbind option_bind]. rewrite decide_False by done.
  pose proof (search_data i p Hi) as Hsd. rewrite E' in Hsd. rewrite Hsd, <-E'.
  cbn [mbind option_bind]. rewrite (proj2 (first_sat_Some _ _ s)); [done|].
  exists n1, n2. split; [done|]. apply fmap_Some in Hs as (n & Hn & Hp). split.
  { unfold on_data. rewrite Hn. by apply bool_decide_eq_true. }
  apply Forall_forall. intros q Hq. apply list_elem_of_lookup in Hq as [k Hk].
  destruct (Forall2_lookup_l _ _ _ _ _ Hc1 Hk) as (y & Hy & Hqy). apply fmap_Some in Hqy as (m & Hm & ->).
  unfold on_data. rewrite Hm. apply bool_decide_eq_false. intros Hdp.
  destruct (Hok i Hi) as [Hnd _]. rewrite HL in Hnd. apply NoDup_app in Hnd as (_ & Hnd & _).
  apply list_elem_of_lookup_2 in Hy. rewrite Hdp in Hy. apply (Hnd p Hy). left.
Qed.

Lemma find_source_none t p :
  (forall i, home_list t = Some i -> p ∉ LS i) -> exists i, find_source c t p = Some (NULL, i).
Proof.
  intros Hp. unfold find_source. destruct (home_list t) as [i|] eqn:Hh.
  2:{ rewrite (home_list_none t Hh). by eexists. }
  destruct (home_list_guard t i Hh) as (-> & -> & Hi). exists i.
  destruct (list_cases i Hi) as [(E' & _ & ->)|(x & l & E' & Hfr & Hxn & Hring)]; [done|].
  rewrite Hfr. cbn [mbind option_bind]. rewrite decide_False by done.
  pose proof (search_data i p Hi) as Hsd. rewrite E' in Hsd. rewrite Hsd, <-E'. cbn [mbind option_bind].
  rewrite (proj2 (first_sat_None _ _)); [done|]. apply Forall_forall. intros q Hq.
  destruct (node_tcb i q Hi Hq) as (n & t' & Hn & Hin & _). unfold on_data. rewrite Hn.
  apply bool_decide_eq_false. intros Hdp. rewrite Hdp in Hin. by apply (Hp i).
Qed.

Definition dest_ok j (M1 : list addr) (r : option (option (addr * bool * Z))) : Prop :=
  exists m1 m2 (fp : bool), ns j = m1 ++ m2 /\ length m1 = length M1 /\
    (if fp then m1 = [] else m1 <> [] \/ m2 = []) /\
    r = Some (Some (front_of (m2 ++ m1), fp, j)).

Lemma dest_back j : list_index j ->
  dest_ok j (LS j) (front ← thread_list c j; Some (Some (front, false, j))).
Proof.
  intros Hj. pose proof Hla as [_ _ _ Hf Hd _]. specialize (Hf j Hj). specialize (Hd j Hj).
  exists (ns j), [], false. rewrite app_nil_r. split_and!; [done|by eapply Forall2_length|by right|].
  by rewrite Hf.
Qed.

Lemma dest_front j : list_index j ->
  dest_ok j [] (front ← thread_list c j; Some (Some (front, true, j))).
Proof.
  intros Hj. pose proof Hla as [_ _ _ Hf _ _]. specialize (Hf j Hj).
  exists [], (ns j), true. rewrite app_nil_r. split_and!; try done. by rewrite Hf.
Qed.

End places.

Section destination.
Context (c : ctrl) (ns LS : Z -> list addr).
Context (Hla : lists_are c ns LS).
Context (Hok : forall i, list_index i -> NoDup (LS i) /\
     forall p, p ∈ LS i -> p <> NULL /\ exists t, get_tcb c p = Some t /\ home_list t = Some i).

Lemma dest_sleep t0 pcb bd M1 M2 : reason bd = SLEEP ->
  place c pcb WAITING_STATE (Some bd) (LS SLEEP) = (M1, M2) ->
  dest_ok ns SLEEP M1 (find_destination c t0 WAITING_STATE (Some bd)).
Proof.
  intros Hr Hp. assert (list_index SLEEP) as Hi by done.
  unfold place in Hp. cbn in Hp. rewrite Hr in Hp. cbn in Hp. 
  unfold find_destination. rewrite decide_True by done. cbn [mbind option_bind]. rewrite Hr.
  rewrite decide_True by done.
  pose proof Hla as [_ _ _ _ Hd _]. specialize (Hd SLEEP Hi).
  destruct (contents_span _ _ _ _ _ _ Hd Hp) as (m1 & m2 & Em & Hl1 & Hl2 & Hfs).
  destruct (list_cases c ns LS Hla Hok SLEEP Hi) as [(E1 & E2 & Hf)|(x & l & E & Hf & Hx & Hring)]; rewrite Hf;
    cbn [mbind option_bind].
  { rewrite decide_True by done. rewrite E1 in Em. symmetry in Em. apply app_eq_nil in Em as [-> ->].
    exists [], [], true. done. }
  rewrite decide_False by done.
  assert (Hnode : forall q, q ∈ ns SLEEP -> exists n t, cells (links c) !! q = Some n /\ link_tcb c n = Some t /\
            on_data (cells (links c)) (fun q => bool_decide (wake c q >= wakeup_time bd)) q =
            negb (bool_decide (wakeup_time (blocking_detail t) < wakeup_time bd))).
  { intros q Hq. destruct (node_tcb c ns LS Hla Hok SLEEP q Hi Hq) as (n & t & Hn & _ & Ht).
    exists n, t. unfold link_tcb, on_data, wake. rewrite Hn, Ht. split_and!; [done..|].
    rewrite <-bool_decide_not. apply bool_decide_ext. lia. }
  destruct (Hnode x) as (n & t & Hn & Ht & Hfx); [rewrite E; left|].
  run Hn. run Ht. rewrite E in Hfs, Em. cbn [first_sat] in Hfs. rewrite Hfx in Hfs.
  dec_goal as [Hge|Hge].
  - rewrite bool_decide_false in Hfs by lia. cbn in Hfs. destruct m2 as [|y m2]; [done|]. injection Hfs as <-.
    assert (m1 = []) as ->.
    { destruct m1 as [|z m1]; [done|]. exfalso. injection Em as -> ->. destruct Hring as (Hnd & _).
      apply NoDup_cons in Hnd as [Hnd _]. set_solver. }
    exists [], (x :: m2), true. rewrite app_nil_r. rewrite E. done.
  - rewrite bool_decide_true in Hfs by lia. cbn [negb] in Hfs.
    destruct (seek_ring (cells (links c))
      (fun n => t ← link_tcb c n; Some (bool_decide (wakeup_time (blocking_detail t) < wakeup_time bd)))
      (on_data (cells (links c)) (fun q => bool_decide (wake c q >= wakeup_time bd))) x l Hring) as (n' & Hn' & Hs).
    { intros q Hq. destruct (Hnode q) as (m & u & Hm & Hu & Hfq); [rewrite E; by right|].
      exists m. split; [done|]. rewrite Hu, Hfq. cbn [mbind option_bind]. by rewrite negb_involutive. }
    rewrite Hn in Hn'. injection Hn' as <-. run Hs. rewrite Hfs.
    exists m1, m2, false. rewrite E. split; [done|]. split; [done|].
    assert (m1 <> []) as Hm1.
    { intros ->. cbn in Em. subst m2. cbn in Hfs. apply first_sat_elem in Hfs as [Hin _].
      destruct Hring as (Hnd & _). apply NoDup_cons in Hnd as [Hnd _]. done. }
    split; [by left|]. do 3 f_equal. destruct m2 as [|y m2]; [|done].
    destruct m1 as [|z m1]; [done|]. injection Em as -> _. done.
Qed.

Lemma dest_ready t bd M1 M2 :
  place c (tcb_pcb t) READY_STATE bd (LS READY_STATE) = (M1, M2) ->
  dest_ok ns READY_STATE M1 (find_destination c t READY_STATE bd).
Proof.
  intros Hp. assert (list_index READY_STATE) as Hi by done.
  unfold place in Hp. rewrite decide_True in Hp by done.
  unfold find_destination. rewrite (decide_False (P := READY_STATE = WAITING_STATE)) by done.
  rewrite decide_True by done.
  destruct (span_sat _ (reverse (LS READY_STATE))) as [a b] eqn:Hsp.
  pose proof Hla as [_ _ _ _ Hd _]. specialize (Hd READY_STATE Hi).
  assert (contents (cells (links c)) (reverse (ns READY_STATE)) (reverse (LS READY_STATE))) as Hd'
    by (by apply Forall2_reverse).
  destruct (contents_span _ _ _ _ _ _ Hd' Hsp) as (m1 & m2 & Em & Hl1 & Hl2 & Hfs).
  pose proof (Forall2_length _ _ _ Hd) as Hlen.
  destruct (list_cases c ns LS Hla Hok READY_STATE Hi) as [(E1 & E2 & Hf)|(x & l & E & Hf & Hx & Hring)]; rewrite Hf;
    cbn [mbind option_bind].
  { rewrite decide_True by done. rewrite E2 in Hsp. injection Hsp as <- <-. injection Hp as <- <-.
    exists [], [], false. rewrite E1, E2. split_and!; try done. by right. }
  rewrite decide_False by done.
  destruct (ring_head _ _ _ Hring) as (n & Hn & _ & Hprev). run Hn.
  assert (exists l' y, x :: l = l' ++ [y] /\ previous n = y) as (l' & y & Ey & ->).
  { destruct l as [|w l0 _] using rev_ind; [by exists [], x|].
    rewrite last_snoc in Hprev. exists (x :: l0), w. done. }
  rewrite (search_ring_back _ _ (on_data (cells (links c)) (fun q => bool_decide (process_of c q = tcb_pcb t))) l' y);
    cbn [mbind option_bind].
  2:{ by rewrite <-Ey. }
  2:{ intros q Hq. rewrite <-Ey, <-E in Hq.
      destruct (node_tcb c ns LS Hla Hok READY_STATE q Hi Hq) as (m & u & Hm & _ & Hu).
      exists m. split; [done|]. unfold on_data, link_tcb, process_of. by rewrite Hm, Hu. }
  rewrite <-Ey, <-E, Hfs.
  destruct m2 as [|q m2]; cbn [head default from_option]; unfold id.
  - destruct b as [|? ?]; [|done]. injection Hp as <- <-. rewrite decide_True by done.
    exists (ns READY_STATE), [], false. rewrite app_nil_r, E. split_and!; [done| |by left|done].
    by rewrite <-E, Hlen.
  - destruct b as [|? b]; [done|]. injection Hp as <- <-.
    assert (ns READY_STATE = (reverse m2 ++ [q]) ++ reverse m1) as Ens.
    { rewrite <-(reverse_involutive (ns READY_STATE)), Em, reverse_app, reverse_cons. done. }
    rewrite E in Ens. rewrite Ens in Hring.
    rewrite decide_False.
    2:{ intros ->. destruct Hring as (_ & Hnull & _). set_solver. }
    rewrite <-app_assoc in Hring. apply ring_rotate in Hring. cbn [app] in Hring.
    destruct (ring_head _ _ _ Hring) as (nq & Hnq & Hnext & _). run Hnq.
    exists (reverse m2 ++ [q]), (reverse m1), false. rewrite E, Ens. split; [done|]. split.
    { rewrite length_app, !length_reverse. cbn in *. lia. }
    split; [left; by destruct (reverse m2)|]. rewrite Hnext. by rewrite <-app_assoc.
Qed.

(** Every destination the code computes is the place of the specification. *)
Lemma find_destination_ok t state bd j M1 M2 :
  target_list state bd = Some j -> place c (tcb_pcb t) state bd (LS j) = (M1, M2) ->
  list_index j /\ dest_ok ns j M1 (find_destination c t state bd).
Proof.
  intros Hj Hp. unfold target_list in Hj.
  destruct (decide (state = WAITING_STATE)) as [->|Hw].
  - destruct bd as [bd|]; [|done]. cbn [mbind option_bind] in Hj.
    destruct (bool_decide _) eqn:Hb in Hj; [|done]. injection Hj as <-. apply bool_decide_eq_true in Hb.
    assert (list_index (reason bd)) as Hi by (destruct Hb as [->|[->|[->| ->]]]; done). split; [done|].
    destruct (decide (reason bd = SLEEP)) as [Hs|Hs].
    { rewrite Hs in *. by eapply dest_sleep. }
    unfold place in Hp. rewrite (decide_False (P := WAITING_STATE = READY_STATE)) in Hp by done.
    rewrite (decide_False (P := WAITING_STATE = RUNNING_STATE)) in Hp by done.
    rewrite (decide_True (P := WAITING_STATE = WAITING_STATE)), decide_False in Hp by done.
    unfold find_destination. rewrite (decide_True (P := WAITING_STATE = WAITING_STATE)) by done.
    cbn [mbind option_bind]. rewrite (decide_False (P := reason bd = SLEEP)) by done.
    destruct Hb as [Hb|[Hb|Hb]]; [done| |].
    + rewrite bool_decide_false by (rewrite Hb; by intros [?|?]). rewrite decide_True by done.
      destruct (first_reader bd) eqn:Hfr.
      * rewrite bool_decide_true in Hp by done. injection Hp as <- <-. by apply (dest_front c ns LS).
      * rewrite bool_decide_false in Hp by (by intros []). injection Hp as <- <-. by apply (dest_back c ns LS).
    + rewrite bool_decide_true by done.
      rewrite bool_decide_false in Hp by (by intros [Hx ?]; rewrite Hx in Hb; destruct Hb).
      injection Hp as <- <-. by apply (dest_back c ns LS).
  - destruct (bool_decide _) eqn:Hb in Hj; [|done]. injection Hj as <-. apply bool_decide_eq_true in Hb.
    assert (list_index state) as Hi by (destruct Hb as [->|[->| ->]]; done). split; [done|].
    destruct Hb as [->|[->| ->]].
    + by eapply dest_ready.
    + injection Hp as <- <-. by apply (dest_front c ns LS).
    + assert (M1 = LS TERMINATED_STATE) as ->.
      { unfold place in Hp. cbn in Hp. by destruct bd; injection Hp as <- <-. }
      by apply (dest_back c ns LS).
Qed.

End destination.

Lemma find_destination_none c t state bd :
  target_list state bd = None -> (state = WAITING_STATE -> bd <> None) -> find_destination c t state bd = Some None.
Proof.
  unfold target_list, find_destination. intros Hj Hbd.
  destruct (decide (state = WAITING_STATE)) as [->|Hw].
  - destruct bd as [bd|]; [|by destruct Hbd]. cbn [mbind option_bind] in *.
    destruct (bool_decide _) eqn:Hb in Hj; [done|]. apply bool_decide_eq_false in Hb.
    rewrite decide_False by tauto. rewrite bool_decide_false by tauto. by rewrite decide_False by tauto.
  - destruct (bool_decide _) eqn:Hb in Hj; [done|]. apply bool_decide_eq_false in Hb.
    rewrite !decide_False by tauto. done.
Qed.

(** ** The move *)

Lemma put_tcb_ok p t t' c : get_tcb c p = Some t ->
  exists h, put_tcb p t' c = Some (set_tcbs (Zone h (pool (tcbs c))) c) /\
    dom h = dom (cells (tcbs c)) /\
    (forall q, data <$> h !! q = if decide (q = p) then Some t' else data <$> cells (tcbs c) !! q) /\
    (forall q, q <> p -> h !! q = cells (tcbs c) !! q) /\
    (forall q, next <$> h !! q = next <$> cells (tcbs c) !! q) /\
    (forall q, previous <$> h !! q = previous <$> cells (tcbs c) !! q).
Proof.
  unfold get_tcb, put_tcb, set_data. intros (n & Hn & _)%fmap_Some. rewrite Hn. cbn [mbind option_bind].
  eexists. split; [done|]. split.
  { apply dom_insert_lookup_L. by eexists. }
  split_and!; intros q; destruct (decide (q = p)) as [->|Hne];
    rewrite ?lookup_insert_eq, ?Hn, ?(lookup_insert_ne _ p q) by done; done.
Qed.

Lemma get_tcb_put p t c h : (forall q, data <$> h !! q = if decide (q = p) then Some t else data <$> cells (tcbs c) !! q) ->
  forall q, get_tcb (set_tcbs (Zone h (pool (tcbs c))) c) q = if decide (q = p) then Some t else get_tcb c q.
Proof. intros H q. unfold get_tcb at 1. cbn. apply H. Qed.

Lemma filter_out (L1 L2 : list addr) p : NoDup (L1 ++ p :: L2) -> 
  filter (fun q => q <> p) (L1 ++ p :: L2) = L1 ++ L2.
Proof.
  intros Hnd. apply NoDup_app in Hnd as (_ & H1 & H2). apply NoDup_cons in H2 as [H2 _].
  rewrite filter_app, filter_cons. rewrite decide_False by (intros H; by apply H).
  assert (forall l : list addr, p ∉ l -> filter (fun q => q <> p) l = l) as Hall.
  { induction l as [|x l IH]; intros Hp; [done|]. rewrite filter_cons, decide_True by set_solver.
    f_equal. apply IH. set_solver. }
  rewrite !Hall; [done|done|]. intros Hin. apply (H1 _ Hin). left.
Qed.

(** [alter_state], seen on sequences: take the thread out of its list and put
    it in its place in the list of the new state. *)
Definition requeue (c : ctrl) (LS : Z -> list addr) (p : addr) (t : tcb_t) (state : Z)
    (bd : option blocking_detail_t) : option (Z -> list addr) :=
  i ← home_list t;
  j ← target_list state bd;
  if bool_decide (p ∈ LS i) then
    let '(M1, M2) := place c (tcb_pcb t) state bd (LS j) in
    Some (upd j (M1 ++ p :: M2) (upd i (filter (fun q => q <> p) (LS i)) LS))
  else None.

Definition with_state (state : Z) (bd : option blocking_detail_t) (t : tcb_t) : tcb_t :=
  set_state state (match bd with
                   | Some d => if decide (state = WAITING_STATE) then set_blocking_detail d t else t
                   | None => t end).

Lemma home_list_with_state st bd t : target_list st bd = home_list (with_state st bd t) \/
  target_list st bd = None.
Proof.
  unfold target_list. destruct (decide (st = WAITING_STATE)) as [->|Hw].
  - destruct bd as [bd|]; [|by right]. cbn [mbind option_bind].
    destruct (bool_decide (reason bd = SLEEP \/ _)) eqn:Hb; [|by right]. apply bool_decide_eq_true in Hb.
    left. unfold home_list, with_state. rewrite !decide_True by done. cbn [state set_state blocking_detail set_blocking_detail].
    rewrite ?decide_True by done.
    rewrite bool_decide_true by done. rewrite bool_decide_true; [done|].
    destruct Hb as [->|[->|[->| ->]]]; done.
  - destruct (bool_decide _) eqn:Hb; [|by right]. apply bool_decide_eq_true in Hb. left.
    unfold home_list, with_state.
    cbn [state set_state].
    rewrite bool_decide_true by (destruct Hb as [->|[->| ->]]; done). by rewrite decide_False.
Qed.

Lemma target_list_index state bd j : target_list state bd = Some j -> list_index j.
Proof.
  unfold target_list. destruct (decide _); [destruct bd as [bd|]; [cbn [mbind option_bind]|done]|];
    (destruct (bool_decide _) eqn:Hb; [|done]); intros [= <-]; apply bool_decide_eq_true in Hb.
  - by destruct Hb as [->|[->|[->| ->]]].
  - by destruct Hb as [->|[->| ->]].
Qed.

Lemma target_list_guard state bd j : target_list state bd = Some j ->
  READY_STATE <= state <= TERMINATED_STATE /\ ~ (state = WAITING_STATE /\ bd = None).
Proof.
  unfold target_list. destruct (decide _) as [->|Hw]; [destruct bd as [bd|]; [cbn [mbind option_bind]|done]|];
    (destruct (bool_decide _) eqn:Hb; [|done]); intros [= <-]; apply bool_decide_eq_true in Hb.
  - split; [done|]. by intros [_ ?].
  - split; [by destruct Hb as [->|[->| ->]]|]. by intros [? _].
Qed.

Lemma get_tcb_same c c' : same_blocks c c' -> get_tcb c' = get_tcb c.
Proof. intros [-> _]. done. Qed.

Lemma sched_not_elsewhere c LS p t i : sched_ok c LS -> get_tcb c p = Some t -> home_list t = Some i ->
  forall k, list_index k -> p ∈ LS k -> k = i.
Proof.
  intros [_ Hok] Ht Hh k Hk Hp. destruct (Hok k Hk) as [_ H]. destruct (H p Hp) as (_ & t' & Ht' & Hh').
  rewrite Ht in Ht'. injection Ht' as <-. congruence.
Qed.

Lemma alter_state_moves c LS p t state bd i j L1 L2 M1 M2 :
  sched_ok c LS -> get_tcb c p = Some t -> home_list t = Some i -> LS i = L1 ++ p :: L2 ->
  target_list state bd = Some j -> i <> j -> place c (tcb_pcb t) state bd (LS j) = (M1, M2) ->
  exists c', alter_state p state bd c = Some (OK, c') /\
    sched_ok c' (upd j (M1 ++ p :: M2) (upd i (L1 ++ L2) LS)) /\
    (forall q, get_tcb c' q = if decide (q = p) then Some (with_state state bd t) else get_tcb c q) /\
    c' = set_tcbs (tcbs c') (set_thread_lists (thread_lists c') (set_links (links c') c)).
Proof.
  intros Hsched Ht Hh HL Hj Hij Hpl. pose proof Hsched as [(ns & Hla) Hok].
  destruct (find_source_ok c ns LS Hla Hok t p i L1 L2 Hh HL) as (n1 & s & n2 & Ens & Hlen & Hsn & Hi & Hfs).
  destruct (find_destination_ok c ns LS Hla Hok t state bd j M1 M2 Hj Hpl)
    as (Hjj & m1 & m2 & fp & Ensj & Hlenj & Hfp & Hfd).
  destruct (unlink_source_ok c ns LS Hla i n1 s n2 L1 p L2 Hi Ens HL Hlen)
    as (c1 & Hc1 & Hs1 & Hla1 & Hds & _ & Hout).
  destruct (link_source_ok c1 _ _ Hla1 j m1 m2 s M1 p M2 fp Hjj) as (c2 & Hc2 & Hs2 & Hla2); try done.
  { rewrite upd_ne by done. done. }
  { rewrite upd_ne by done. by apply place_split in Hpl. }
  pose proof (same_blocks_trans _ _ _ Hs1 Hs2) as Hs.
  assert (get_tcb c2 p = Some t) as Ht2 by (by rewrite (get_tcb_same c c2)).
  destruct (put_tcb_ok p t (with_state state bd t) c2 Ht2) as (h & Hput & Hdom & Hdata & _).
  destruct (target_list_guard _ _ _ Hj) as [Hst Hbd].
  assert (p <> NULL) as Hpn by (destruct (Hok i Hi) as [_ H]; apply (H p); rewrite HL; set_solver).
  eexists. split.
  { unfold alter_state. rewrite bool_decide_false by (intros [?|?]; [done|lia]).
    rewrite bool_decide_false by done. run Ht. run Hfs. rewrite decide_False by done. run Hfd. run Hc1. run Hc2.
    unfold with_state in Hput. run Hput. done. }
  assert (Hget : forall q, get_tcb (set_tcbs (Zone h (pool (tcbs c2))) c2) q =
             if decide (q = p) then Some (with_state state bd t) else get_tcb c q).
  { intros q. rewrite (get_tcb_put p (with_state state bd t)) by done. by rewrite (get_tcb_same c c2). }
  split; [|split; [exact Hget|]].
  2:{ destruct Hs as [-> _]. done. }
  assert (Hpj : forall k, list_index k -> p ∈ LS k -> k = i) by (by eapply sched_not_elsewhere).
  apply place_split in Hpl.
  split.
  - eexists. destruct Hla2 as [A1 A2 A3 A4 A5 A6]. split; [exact A1|exact A2|exact A3|exact A4|exact A5|exact A6].
  - intros k Hk. destruct (Hok k Hk) as [Hnd Hin]. unfold upd. dec_goal as [->|Hkj].
    + split.
      * rewrite Hpl in Hnd. apply NoDup_app in Hnd as (N1 & N2 & N3). apply NoDup_app. split_and!; [done| |].
        -- intros q Hq [->|Hq']%elem_of_cons; [|by apply (N2 q)]. apply Hij. symmetry. apply (Hpj j Hk). rewrite Hpl. set_solver.
        -- constructor; [|done]. intros Hq. apply Hij. symmetry. apply (Hpj j Hk). rewrite Hpl. set_solver.
      * intros q Hq. rewrite Hget. destruct (decide (q = p)) as [->|Hqp].
        -- split; [done|]. eexists. split; [done|].
           destruct (home_list_with_state state bd t) as [<-|]; congruence.
        -- apply Hin. rewrite Hpl. set_solver.
    + destruct (decide (k = i)) as [->|Hki].
      * rewrite HL in Hnd, Hin. split.
        -- apply NoDup_app in Hnd as (N1 & N2 & N3). apply NoDup_cons in N3 as [N3 N4].
           apply NoDup_app. split_and!; [done| |done]. intros q Hq Hq'. apply (N2 q Hq). by right.
        -- intros q Hq. rewrite Hget. rewrite decide_False; [apply Hin; set_solver|].
           intros ->. apply NoDup_app in Hnd as (N1 & N2 & N3). apply NoDup_cons in N3 as [N3 N4].
           apply elem_of_app in Hq as [Hq|Hq]; [|done]. apply (N2 p Hq). left.
      * split; [done|]. intros q Hq. rewrite Hget. rewrite decide_False; [by apply Hin|].
        intros ->. by apply Hki, Hpj.
Qed.

Lemma alter_state_rejects c LS p t state bd :
  sched_ok c LS -> get_tcb c p = Some t ->
  target_list state bd = None \/ (forall i, home_list t = Some i -> p ∉ LS i) ->
  alter_state p state bd c = Some (FAIL, c).
Proof.
  intros [(ns & Hla) Hok] Ht Hbad. unfold alter_state. repeat (case_bool_decide; [done|]).
  run Ht. 
  destruct (home_list t) as [i|] eqn:Hh.
  2:{ destruct (find_source_none c ns LS Hla Hok t p) as (i & Hfs); [by rewrite Hh|]. run Hfs. done. }
  destruct (decide (p ∈ LS i)) as [Hp|Hp].
  2:{ destruct (find_source_none c ns LS Hla Hok t p) as (k & Hfs); [rewrite Hh; by intros ? [= <-]|]. run Hfs. done. }
  apply list_elem_of_split in Hp as (L1 & L2 & HL).
  destruct (find_source_ok c ns LS Hla Hok t p i L1 L2 Hh HL) as (n1 & s & n2 & Ens & Hlen & Hsn & Hi & Hfs).
  run Hfs. rewrite decide_False by done.
  destruct Hbad as [Hbad|Hbad]; [|exfalso; apply (Hbad i eq_refl); rewrite HL; set_solver].
  rewrite (find_destination_none c t state bd Hbad); [done|]. intros -> ->. by apply H0.
Qed.

(** The order of the sleep list: earliest wake-up first. *)
Definition sleep_sorted (c : ctrl) (LS : Z -> list addr) : Prop :=
  StronglySorted (fun p q => wake c p <= wake c q) (LS SLEEP).

Lemma sorted_filter (c : ctrl) (R : addr -> addr -> Prop) l (P : addr -> Prop) `{!forall x, Decision (P x)} :
  StronglySorted R l -> StronglySorted R (filter P l).
Proof.
  induction 1 as [|x l Hs IH Hf]; [constructor|]. rewrite filter_cons. case_decide; [|done].
  constructor; [done|]. apply Forall_forall. intros y Hy. apply list_elem_of_filter in Hy as [_ Hy].
  by eapply (proj1 (Forall_forall _ _)) in Hy.
Qed.

Lemma sorted_insert (w : addr -> Z) (v : Z) p M1 M2 l : StronglySorted (fun a b => w a <= w b) l ->
  span_sat (fun q => bool_decide (w q >= v)) l = (M1, M2) -> w p = v ->
  StronglySorted (fun a b => w a <= w b) (M1 ++ p :: M2).
Proof.
  intros Hs. revert M1 M2. induction Hs as [|x l Hs IH Hf]; intros M1 M2; cbn [span_sat].
  { intros [= <- <-] _. repeat constructor. }
  case_bool_decide as Hx.
  - intros [= <- <-] Hp. cbn. constructor; [by constructor|]. constructor; [lia|].
    apply Forall_forall. intros y Hy. eapply (proj1 (Forall_forall _ _)) in Hf; [|done]. simpl in Hf. lia.
  - destruct (span_sat _ l) as [a b] eqn:Hsp. intros [= <- <-] Hp. cbn. constructor; [by apply (IH a b)|].
    apply span_sat_app in Hsp. subst l. apply Forall_app in Hf as [Hf1 Hf2]. apply Forall_app. split; [done|].
    constructor; [lia|done].
Qed.

Lemma sorted_ext (w w' : addr -> Z) l : (forall q, q ∈ l -> w' q = w q) ->
  StronglySorted (fun a b => w a <= w b) l -> StronglySorted (fun a b => w' a <= w' b) l.
Proof.
  intros He Hs. induction Hs as [|x l Hs IH Hf]; constructor.
  - apply IH. intros. apply He. by right.
  - apply Forall_forall. intros y Hy. eapply (proj1 (Forall_forall _ _)) in Hf; [|done].
    rewrite !He; [done|by right|left].
Qed.

Lemma wake_of_others c c' p t' q :
  (forall q, get_tcb c' q = if decide (q = p) then Some t' else get_tcb c q) -> q <> p -> wake c' q = wake c q.
Proof. intros H Hq. unfold wake. rewrite H. by rewrite decide_False. Qed.

(** ** The scheduler *)

(** [round_robin] on sequences. *)
Definition rotate_ready (c : ctrl) (l : list addr) : list addr :=
  match l with
  | [] => []
  | x :: r =>
      let '(a, b) := span_sat (fun q => bool_decide (process_of c q <> process_of c x)) r in
      match b with [] => l | _ => b ++ x :: a end
  end.

Lemma set_front_ok c ns LS i n1 n2 L1 L2 : lists_are c ns LS -> list_index i ->
  ns i = n1 ++ n2 -> LS i = L1 ++ L2 -> length n1 = length L1 ->
  exists c', set_thread_list i (front_of (n2 ++ n1)) c = Some c' /\ same_blocks c c' /\
    lists_are c' (upd i (n2 ++ n1) ns) (upd i (L2 ++ L1) LS).
Proof.
  intros [Hl Hz Hr Hf Hd Hdis] Hi Hns HLS Hlen.
  destruct (thread_list_set c i (front_of (n2 ++ n1)) Hl Hi) as (c' & Hc' & E & El & Ef).
  exists c'. split; [done|]. split; [split; rewrite E; [by destruct c|done]|].
  assert (links c' = links c) as Elinks by (by rewrite E).
  split; rewrite ?Elinks.
  - by rewrite El.
  - done.
  - intros j Hj. unfold upd. dec_goal as [->|?]; [|by apply Hr]. apply ring_rotate. rewrite <-Hns. by apply Hr.
  - intros j Hj. rewrite Ef by done. unfold upd. dec_goal as [->|?]; [done|by apply Hf].
  - intros j Hj. unfold upd. dec_goal as [->|?]; [|by apply Hd]. specialize (Hd i Hi). rewrite Hns, HLS in Hd.
    apply Forall2_app_inv in Hd as [? ?]; [|done]. by apply Forall2_app.
  - intros j k p Hj Hk. unfold upd. destruct (decide (j = i)) as [->|], (decide (k = i)) as [->|]; try done.
    + intros Hp Hp'. apply (Hdis i k p); [done..| |done]. rewrite Hns. set_solver.
    + intros Hp Hp'. apply (Hdis j i p); [done..|]. rewrite Hns. set_solver.
    + by apply Hdis.
Qed.

Lemma sched_ok_permute c c' LS i L' : sched_ok c LS -> same_blocks c c' ->
  (exists ns, lists_are c' ns (upd i L' LS)) -> list_index i -> L' ≡ₚ LS i -> sched_ok c' (upd i L' LS).
Proof.
  intros [_ Hok] Hs Hla Hi Hp. split; [done|]. intros k Hk. destruct (Hok k Hk) as [Hnd Hin].
  rewrite (get_tcb_same c c' Hs). unfold upd. dec_goal as [->|?]; [|done].
  split; [by rewrite Hp|]. intros q Hq. apply Hin. by rewrite <-Hp.
Qed.

Lemma round_robin_ok c LS : sched_ok c LS ->
  exists c', round_robin c = Some (front_of (LS READY_STATE), c') /\ same_blocks c c' /\
    sched_ok c' (upd READY_STATE (rotate_ready c (LS READY_STATE)) LS).
Proof.
  intros Hsched. pose proof Hsched as [(ns & Hla) Hok]. assert (list_index READY_STATE) as Hi by done.
  assert (Hrefl : sched_ok c (upd READY_STATE (LS READY_STATE) LS)).
  { assert (forall j, upd READY_STATE (LS READY_STATE) LS j = LS j) as E
      by (intros j; unfold upd; dec_goal as [->|?]; done).
    split.
    - exists ns. destruct Hla as [A1 A2 A3 A4 A5 A6]. split; try done. intros j Hj. rewrite E. by apply A5.
    - intros j Hj. rewrite E. by apply Hok. }
  assert (Hsame : same_blocks c c) by (split; [by destruct c|done]).
  unfold round_robin. pose proof Hla as [_ _ Hr _ Hd _]. specialize (Hd READY_STATE Hi).
  destruct (list_cases c ns LS Hla Hok READY_STATE Hi) as [(E1 & E2 & Hf)|(x & l & E & Hf & Hx & Hring)]; rewrite Hf;
    cbn [mbind option_bind].
  { rewrite decide_True by done. exists c. rewrite E2 in Hrefl |- *. done. }
  rewrite decide_False by done. rewrite E in Hd.
  destruct (LS READY_STATE) as [|y r] eqn:EL; [by apply Forall2_nil_inv_r in Hd|].
  apply Forall2_cons_1 in Hd as [Hdx Hdl]. apply fmap_Some in Hdx as (n & Hn & Hny). subst y.
  destruct (node_tcb c ns LS Hla Hok READY_STATE x Hi) as (n' & t & Hn' & _ & Ht); [rewrite E; left|].
  rewrite Hn in Hn'. injection Hn' as <-. run Hn.
  assert (link_tcb c n = Some t) as Hlt by exact Ht. run Hlt.
  assert (process_of c (data n) = tcb_pcb t) as Hproc by (unfold process_of; by rewrite Ht).
  cbn [rotate_ready]. rewrite Hproc.
  destruct (span_sat _ r) as [a b] eqn:Hsp.
  destruct (contents_span _ _ _ _ _ _ Hdl Hsp) as (m1 & m2 & Em & Hl1 & Hl2 & Hfs).
  destruct (seek_ring (cells (links c))
     (fun n => t0 ← link_tcb c n; Some (bool_decide (tcb_pcb t0 = tcb_pcb t)))
     (on_data (cells (links c)) (fun q => bool_decide (process_of c q <> tcb_pcb t))) x l Hring) as (n' & Hn' & Hs).
  { intros q Hq. destruct (node_tcb c ns LS Hla Hok READY_STATE q Hi) as (m & u & Hm & _ & Hu); [rewrite E; by right|].
    exists m. split; [done|]. unfold link_tcb, on_data, process_of. rewrite Hm, Hu. cbn [mbind option_bind].
    rewrite <-bool_decide_not. f_equal. apply bool_decide_ext. split; [tauto|]. intros ?. by apply dec_stable. }
  rewrite Hn in Hn'. injection Hn' as <-. run Hs. rewrite Hfs.
  pose proof (span_sat_app _ _ _ _ Hsp) as Hr'.
  destruct m2 as [|z m2]; cbn [head default from_option]; unfold id.
  - destruct b; [|done]. rewrite decide_True by done. exists c. done.
  - destruct b as [|w b]; [done|]. rewrite decide_False.
    2:{ intros ->. destruct Hring as (Hnd & _). apply NoDup_cons in Hnd as [Hnd _]. apply Hnd. rewrite Em. set_solver. }
    destruct (set_front_ok c ns LS READY_STATE (x :: m1) (z :: m2) (data n :: a) (w :: b) Hla Hi)
      as (c' & Hc' & Hsb & Hla').
    { by rewrite E, Em. } { by rewrite EL, Hr'. } { cbn. by rewrite Hl1. }
    change (front_of ((z :: m2) ++ x :: m1)) with z in Hc'. run Hc'. exists c'. split; [done|]. split; [done|].
    eapply sched_ok_permute; [done|done|by eexists|done|]. rewrite EL, Hr'.
    change (data n :: a ++ w :: b) with ((data n :: a) ++ w :: b). apply Permutation_app_comm.
Qed.

(** ** Reading the lists *)

Lemma contents_first {A} (h : heap A) (f : A -> bool) l L : contents h l L ->
  (p ← first_sat (on_data h f) l; data <$> h !! p) = first_sat f L.
Proof.
  induction 1 as [|p x l L Hp _ IH]; [done|]. cbn [first_sat]. apply fmap_Some in Hp as (n & Hn & ->).
  unfold on_data at 1. rewrite Hn. destruct (f (data n)); [|exact IH]. cbn [mbind option_bind]. by rewrite Hn.
Qed.

(** The test of [find_tcb_in_list], on a thread. *)
Definition sought (c : ctrl) (value i : Z) (q : addr) : bool :=
  match get_tcb c q with
  | Some t => if decide (i = VANISH_WAIT) then bool_decide (tcb_pcb t = value)
              else bool_decide (tid t = s32 value)
  | None => false
  end.

Lemma find_tcb_in_list_ok c LS value i : sched_ok c LS -> list_index i ->
  find_tcb_in_list c value i = Some (default NULL (first_sat (sought c value i) (LS i))).
Proof.
  intros [(ns & Hla) Hok] Hi. pose proof Hla as [_ _ _ _ Hd _]. specialize (Hd i Hi).
  pose proof (contents_first _ (sought c value i) _ _ Hd) as Hfs.
  unfold find_tcb_in_list. destruct (list_cases c ns LS Hla Hok i Hi) as [(E1 & E2 & Hf)|(x & l & E & Hf & Hx & Hring)];
    rewrite Hf; cbn [mbind option_bind].
  { by rewrite decide_True, E2. }
  rewrite decide_False by done. rewrite (search_ring _ _ (on_data (cells (links c)) (sought c value i)) x l Hring).
  2:{ intros q Hq. rewrite <-E in Hq. destruct (node_tcb c ns LS Hla Hok i q Hi Hq) as (n & t & Hn & _ & Ht).
      exists n. split; [done|]. unfold on_data, sought, link_tcb. by rewrite Hn, Ht. }
  cbn [mbind option_bind]. rewrite <-Hfs, <-E. destruct (first_sat _ (ns i)) as [p|] eqn:Ep; cbn [default from_option]; unfold id.
  - apply first_sat_elem in Ep as [Hp _]. cbn [mbind option_bind].
    destruct (node_tcb c ns LS Hla Hok i p Hi Hp) as (n & t & Hn & _). rewrite decide_False; [by rewrite Hn|].
    intros ->. rewrite E in Hp. destruct Hring as (_ & Hnn & _). done.
  - by rewrite decide_True.
Qed.

Lemma thread_list_front c LS i : sched_ok c LS -> list_index i ->
  match LS i with
  | [] => thread_list c i = Some NULL
  | x :: _ => exists front, thread_list c i = Some front /\ front <> NULL /\
                data <$> cells (links c) !! front = Some x
  end.
Proof.
  intros [(ns & Hla) Hok] Hi. pose proof Hla as [_ _ _ _ Hd _]. specialize (Hd i Hi).
  destruct (list_cases c ns LS Hla Hok i Hi) as [(E1 & -> & Hf)|(x & l & E & Hf & Hx & Hring)]; [done|].
  rewrite E in Hd. destruct (LS i) as [|y r]; [by apply Forall2_nil_inv_r in Hd|].
  apply Forall2_cons_1 in Hd as [Hd _]. by exists x.
Qed.

Lemma running_ok c LS me r : sched_ok c LS -> LS RUNNING_STATE = me :: r -> running c = Some me.
Proof.
  intros Hs E. pose proof (thread_list_front c LS RUNNING_STATE Hs ltac:(done)) as H. rewrite E in H.
  destruct H as (f & Hf & _ & Hd). unfold running. by rewrite Hf.
Qed.

Lemma sched_ok_ext c LS LS' : (forall i, list_index i -> LS' i = LS i) -> sched_ok c LS -> sched_ok c LS'.
Proof.
  intros E [(ns & [A1 A2 A3 A4 A5 A6]) Hok]. split.
  - exists ns. split; try done. intros i Hi. rewrite E by done. by apply A5.
  - intros i Hi. rewrite E by done. by apply Hok.
Qed.

Lemma sched_thread c LS i p : sched_ok c LS -> list_index i -> p ∈ LS i ->
  p <> NULL /\ exists t, get_tcb c p = Some t /\ home_list t = Some i.
Proof. intros [_ H] Hi Hp. by apply (H i Hi). Qed.

Lemma sched_NoDup c LS i : sched_ok c LS -> list_index i -> NoDup (LS i).
Proof. intros [_ H] Hi. by apply (H i Hi). Qed.

(** [alter_state] on the lists seen as sequences, whatever the result. *)
Lemma alter_state_requeue c LS p t state bd i j : sched_ok c LS -> get_tcb c p = Some t ->
  p ∈ LS i -> list_index i -> target_list state bd = Some j -> i <> j ->
  exists c' M1 M2, alter_state p state bd c = Some (OK, c') /\ place c (tcb_pcb t) state bd (LS j) = (M1, M2) /\
    sched_ok c' (upd j (M1 ++ p :: M2) (upd i (filter (fun q => q <> p) (LS i)) LS)) /\
    (forall q, get_tcb c' q = if decide (q = p) then Some (with_state state bd t) else get_tcb c q) /\
    c' = set_tcbs (tcbs c') (set_thread_lists (thread_lists c') (set_links (links c') c)).
Proof.
  intros Hs Ht Hp Hi Hj Hij. destruct (sched_thread c LS i p Hs Hi Hp) as (_ & t' & Ht' & Hh).
  rewrite Ht in Ht'. injection Ht' as <-. pose proof (sched_NoDup c LS i Hs Hi) as Hnd.
  apply list_elem_of_split in Hp as (L1 & L2 & HL). destruct (place c (tcb_pcb t) state bd (LS j)) as [M1 M2] eqn:Hpl.
  destruct (alter_state_moves c LS p t state bd i j L1 L2 M1 M2) as (c' & H1 & H2 & H3 & H4); try done.
  exists c', M1, M2. split_and!; try done. rewrite HL in Hnd |- *. by rewrite filter_out.
Qed.

Lemma same_links_trans {A} (h1 h2 h3 : heap A) q : same_links h1 h2 q -> same_links h2 h3 q -> same_links h1 h3 q.
Proof. intros [A1 A2] [B1 B2]. split; congruence. Qed.

(** The nodes of the threads keep their links, and none comes or goes. *)
Definition same_threads (c c' : ctrl) : Prop :=
  pool (tcbs c') = pool (tcbs c) /\ dom (cells (tcbs c')) = dom (cells (tcbs c)) /\
  forall q, same_links (cells (tcbs c)) (cells (tcbs c')) q.

Lemma alter_state_threads p st bd c r c' : alter_state p st bd c = Some (r, c') -> same_threads c c'.
Proof.
  intros Halt. assert (same_threads c c) as Hrefl by done. unfold alter_state in Halt. repeat (case_bool_decide; [by injection Halt as _ <-|]).
  apply bind_Some in Halt as (t & _ & Halt). apply bind_Some in Halt as ([src i] & _ & Halt). destruct (decide (src = NULL)); [by injection Halt as _ <-|].
  apply bind_Some in Halt as (d & _ & Halt). destruct d as [[[d f] j]|]; [|by injection Halt as _ <-].
  apply bind_Some in Halt as (c1 & Hun & Halt). apply bind_Some in Halt as (c2 & Hln & Halt). apply bind_Some in Halt as (c3 & Hput & Halt). injection Halt as _ <-.
  assert (Hfront : forall i p c c', set_thread_list i p c = Some c' -> tcbs c' = tcbs c).
  { intros i0 p0 a a' Ha. unfold set_thread_list in Ha. by apply bind_Some in Ha as (l & _ & [= <-]). }
  assert (tcbs c1 = tcbs c) as E1.
  { unfold unlink_source in Hun. apply bind_Some in Hun as (fr & _ & Hun). apply bind_Some in Hun as (nd & _ & Hun).
    apply bind_Some in Hun as (c0 & Hfr & Hun). apply bind_Some in Hun as (h1 & _ & Hun). apply bind_Some in Hun as (n1 & _ & Hun).
    apply bind_Some in Hun as (h2 & _ & [= <-]). destruct (decide (src = fr)); [by apply Hfront in Hfr|by injection Hfr as <-]. }
  assert (tcbs c2 = tcbs c1) as E2.
  { unfold link_source in Hln. destruct (decide (d = NULL)).
    - apply bind_Some in Hln as (h1 & _ & Hln). apply bind_Some in Hln as (h2 & _ & Hln). by apply Hfront in Hln.
    - apply bind_Some in Hln as (h1 & _ & Hln). apply bind_Some in Hln as (n1 & _ & Hln). apply bind_Some in Hln as (h2 & _ & Hln).
      apply bind_Some in Hln as (n2 & _ & Hln). apply bind_Some in Hln as (h3 & _ & Hln). apply bind_Some in Hln as (n3 & _ & Hln).
      apply bind_Some in Hln as (h4 & _ & Hln). destruct f; [by apply Hfront in Hln|by injection Hln as <-]. }
  unfold put_tcb, Ring.set_data in Hput. apply bind_Some in Hput as (h & Hh & [= <-]). apply bind_Some in Hh as (m & Hn & [= <-]).
  rewrite E2, E1 in *. split; [done|]. cbn [tcbs set_tcbs cells pool]. split; [by apply dom_insert_lookup_L; exists m|].
  intros q. unfold same_links. destruct (decide (q = p)) as [->|Hq]; [by rewrite lookup_insert_eq, Hn|by rewrite lookup_insert_ne].
Qed.

Lemma same_threads_trans c1 c2 c3 : same_threads c1 c2 -> same_threads c2 c3 -> same_threads c1 c3.
Proof. intros (P1 & D1 & L1) (P2 & D2 & L2). split; [congruence|]. split; [congruence|]. intros q. by eapply same_links_trans. Qed.

Lemma same_threads_ring c c' l : same_threads c c' -> ring (cells (tcbs c)) l -> ring (cells (tcbs c')) l.
Proof. intros (_ & _ & Hl) Hr. eapply ring_ext; [|exact Hr]. intros q _. apply Hl. Qed.

Lemma same_threads_zone c c' : same_threads c c' -> zone_ok (tcbs c) -> zone_ok (tcbs c').
Proof.
  intros (Hp & Hd & _) (Z1 & Z2 & Z3 & Z4). assert (Hn : forall q, cells (tcbs c) !! q = None -> cells (tcbs c') !! q = None).
  { intros q Hq. apply not_elem_of_dom. rewrite Hd. by apply not_elem_of_dom. }
  split; [by rewrite Hp|]. split; [by rewrite Hp|]. split; [|by apply Hn]. intros q Hq. apply Hn, Z3. by rewrite <-Hp.
Qed.

(** ** The threads of a process *)

(** The nodes of [b]'s threads, in order. *)
Definition threads_of (c : ctrl) (b : pcb_t) (ts : list addr) : Prop :=
  ring (cells (tcbs c)) ts /\ tcb_list b = front_of ts.

(** The state of a thread. *)
Definition state_of (c : ctrl) (p : addr) : Z :=
  match get_tcb c p with Some t => state t | None => 0 end.

Lemma state_of_node c p n : cells (tcbs c) !! p = Some n -> state_of c p = state (data n).
Proof. intros Hn. unfold state_of, get_tcb. by rewrite Hn. Qed.

Lemma alive_fold c ts : forall k, (forall p, p ∈ ts -> is_Some (cells (tcbs c) !! p)) ->
  0 <= k -> k + Z.of_nat (length ts) < 2 ^ 31 ->
  fold_nodes (fun _ n (count : Z) =>
     Some (inl (if decide (state (data n) = TERMINATED_STATE) then count else s32 (count + 1)) : Z + unit))
    (cells (tcbs c)) ts k =
  Some (inl (k + Z.of_nat (length (filter (fun p => state_of c p <> TERMINATED_STATE) ts)))).
Proof.
  induction ts as [|p ts IH]; intros k H Hk Hlen; [simpl; by rewrite Z.add_0_r|]. cbn [fold_nodes length] in *.
  destruct (H p) as [n Hn]; [left|]. rewrite Hn. cbn [mbind option_bind]. rewrite filter_cons.
  rewrite (state_of_node c p n Hn).
  destruct (decide (state (data n) = TERMINATED_STATE)) as [He|He].
  - rewrite (decide_False (P := state (data n) <> TERMINATED_STATE)) by tauto.
    apply IH; [intros; apply H; by right|lia|lia].
  - rewrite (decide_True (P := state (data n) <> TERMINATED_STATE)) by done. rewrite s32_small by lia.
    rewrite IH; [|intros; apply H; by right|lia|lia]. cbn [length]. do 2 f_equal. lia.
Qed.

Lemma get_thread_alive_count_ok c p b ts : p <> NULL -> get_pcb c p = Some b -> threads_of c b ts ->
  Z.of_nat (length ts) < 2 ^ 31 ->
  get_thread_alive_count c p =
    Some (OK, Z.of_nat (length (filter (fun p => state_of c p <> TERMINATED_STATE) ts))).
Proof.
  intros Hp Hb [Hr Hf] Hlen. unfold get_thread_alive_count. rewrite decide_False by done. run Hb. rewrite Hf.
  destruct ts as [|x ts]; [done|]. change (front_of (x :: ts)) with x.
  rewrite decide_False by (intros ->; destruct Hr as (_ & Hn & _); set_solver).
  rewrite (walk_ring _ _ _ ts) by done. rewrite (alive_fold c) by (try lia; intros; by eapply ring_dom). done.
Qed.

(** The first runnable thread of the running one's process, or [round_robin]. *)
Lemma find_next_thread_ok c me t b ts : running c = Some me -> get_tcb c me = Some t ->
  get_pcb c (tcb_pcb t) = Some b -> threads_of c b ts ->
  find_next_thread c =
    match first_sat (fun p => bool_decide (state_of c p = READY_STATE)) ts with
    | Some p => Some (p, c)
    | None => round_robin c
    end.
Proof.
  intros Hme Ht Hb [Hr Hf]. unfold find_next_thread. run Hme. run Ht. run Hb. rewrite Hf.
  destruct ts as [|x ts]; [done|]. change (front_of (x :: ts)) with x.
  assert (NULL ∉ x :: ts) as Hn by apply Hr.
  rewrite decide_False by set_solver.
  rewrite (search_ring _ _ (fun p => bool_decide (state_of c p = READY_STATE)) x ts) by
    (try done; intros q Hq; destruct (ring_dom _ _ _ Hr Hq) as [n Hq']; exists n;
     by rewrite (state_of_node c q n Hq')).
  cbn [mbind option_bind]. destruct (first_sat _ (x :: ts)) as [p|] eqn:E; cbn [default from_option]; unfold id.
  - apply first_sat_elem in E as [E _]. rewrite decide_False; [done|]. set_solver.
  - by rewrite decide_True.
Qed.

(** A move keeps the sleep list sorted. *)
Lemma requeue_sorted (c c' : ctrl) LS p t state bd i j M1 M2 :
  sched_ok c LS -> sleep_sorted c LS -> get_tcb c p = Some t -> home_list t = Some i -> i <> j ->
  target_list state bd = Some j -> place c (tcb_pcb t) state bd (LS j) = (M1, M2) ->
  (forall q, get_tcb c' q = if decide (q = p) then Some (with_state state bd t) else get_tcb c q) ->
  sleep_sorted c' (upd j (M1 ++ p :: M2) (upd i (filter (fun q => q <> p) (LS i)) LS)).
Proof.
  intros Hsched Hsort Ht Hh Hij Hj Hpl Hget.
  pose proof (sched_not_elsewhere c LS p t i Hsched Ht Hh) as Hout. unfold sleep_sorted in *.
  assert (list_index SLEEP) as Hsl by done. destruct (home_list_guard t i Hh) as (_ & _ & Hi).
  assert (Hw : forall q, q <> p -> wake c' q = wake c q) by (intros; by eapply wake_of_others).
  unfold upd. dec_goal as [<-|Hs].
  - assert (p ∉ LS SLEEP) as Hpn by (intros Hin; apply Hout in Hin; [by subst i|done]).
    unfold place in Hpl. unfold target_list in Hj.
    destruct (decide (state = WAITING_STATE)) as [->|Hst].
    2:{ destruct (bool_decide _) eqn:Hb in Hj; [|done]. injection Hj as ->. by apply bool_decide_eq_true in Hb as [?|[?|?]]. }
    destruct bd as [d|]; [|done]. cbn [mbind option_bind] in Hj.
    destruct (bool_decide _) in Hj; [|done]. injection Hj as Hj. cbn in Hpl. rewrite Hj in Hpl.
    rewrite (decide_True (P := SLEEP = SLEEP)) in Hpl by done.
    change (span_sat (fun q => bool_decide (wake c q >= wakeup_time d)) (LS SLEEP) = (M1, M2)) in Hpl.
    set (w q := if decide (q = p) then wakeup_time d else wake c q).
    apply (sorted_ext w).
    { intros q Hq. unfold w. dec_goal as [->|?]; [|by apply Hw]. unfold wake. rewrite Hget, decide_True by done. done. }
    apply (sorted_insert w (wakeup_time d) p M1 M2 (LS SLEEP)); [| |unfold w; by rewrite decide_True].
    + apply (sorted_ext (wake c)); [|done]. intros q Hq. unfold w. rewrite decide_False; [done|]. by intros ->.
    + rewrite <-Hpl. clear -Hpn. induction (LS SLEEP) as [|x l IH]; [done|]. cbn [span_sat].
      rewrite IH by set_solver. unfold w. rewrite (decide_False (P := x = p)) by set_solver. done.
  - dec_goal as [<-|Hsi].
    + apply (sorted_ext (wake c)); [|by apply (sorted_filter c)].
      intros q Hq. apply Hw. by apply list_elem_of_filter in Hq as [? _].
    + apply (sorted_ext (wake c)); [|done]. intros q Hq. apply Hw. intros ->. by apply Hout in Hq.
Qed.

(** * The theorems *)

(** C18. [alter_state] implements the move on the lists seen as sequences: for a
    well-formed scheduler and an existing thread it takes the thread out of its
    list and puts it in the place the target list's order gives it (sleepers by
    wake-up time, runnable threads behind their process, first readers and the
    running thread in front, others at the back), updates only that thread's
    state and blocking detail and keeps the scheduler well-formed; when the
    thread is not listed or the target state or reason is invalid it returns
    [-1] and changes nothing. *)
Theorem alter_state_refines (c : ctrl) (LS : Z -> list addr) (p : addr) (t : tcb_t) (state : Z)
    (bd : option blocking_detail_t)
    (Hsched : sched_ok c LS) (Ht : get_tcb c p = Some t)
    (Hmove : target_list state bd = None \/ home_list t <> target_list state bd) :
  match requeue c LS p t state bd with
  | Some LS' => exists c', alter_state p state bd c = Some (OK, c') /\ sched_ok c' LS' /\
      (forall q, get_tcb c' q = if decide (q = p) then Some (with_state state bd t) else get_tcb c q) /\
      pcbs c' = pcbs c /\ allocations c' = allocations c /\ thread_count c' = thread_count c
  | None => alter_state p state bd c = Some (FAIL, c)
  end.
Proof.
  unfold requeue. destruct (home_list t) as [i|] eqn:Hh; cbn [mbind option_bind].
  2:{ eapply alter_state_rejects; [done|done|]. right. by rewrite Hh. }
  destruct (target_list state bd) as [j|] eqn:Hj; cbn [mbind option_bind].
  2:{ eapply alter_state_rejects; [done|done|]. by left. }
  case_bool_decide as Hp.
  2:{ eapply alter_state_rejects; [done|done|]. right. rewrite Hh. by intros ? [= <-]. }
  destruct (place c (tcb_pcb t) state bd (LS j)) as [M1 M2] eqn:Hpl.
  destruct Hmove as [?|Hij]; [done|]. apply list_elem_of_split in Hp as (L1 & L2 & HL).
  destruct (alter_state_moves c LS p t state bd i j L1 L2 M1 M2) as (c' & Hc' & Hok' & Hget & He); try done.
  { congruence. }
  exists c'. split; [done|]. split; [|split; [done|by rewrite He]].
  rewrite HL, filter_out; [done|]. rewrite <-HL. destruct Hsched as [_ Hok].
  destruct (home_list_guard t i Hh) as (_ & _ & Hi). by apply Hok.
Qed.

(** Whatever thread [alter_state] moves, and wherever to, the sleep list
    stays sorted by wake-up time, so that the timer finds the earliest sleeper
    at its front. *)
Theorem alter_state_keeps_sleep_order (c c' : ctrl) (LS : Z -> list addr) (p : addr) (t : tcb_t) (state : Z)
    (bd : option blocking_detail_t)
    (Hsched : sched_ok c LS) (Hsort : sleep_sorted c LS) (Ht : get_tcb c p = Some t)
    (Hmove : home_list t <> target_list state bd) (Hok : alter_state p state bd c = Some (OK, c')) :
  exists LS', sched_ok c' LS' /\ sleep_sorted c' LS'.
Proof.
  destruct (home_list t) as [i|] eqn:Hh.
  2:{ rewrite (alter_state_rejects c LS p t) in Hok; [done..|]. right. by rewrite Hh. }
  destruct (target_list state bd) as [j|] eqn:Hj.
  2:{ rewrite (alter_state_rejects c LS p t) in Hok; [done..|]. by left. }
  destruct (decide (p ∈ LS i)) as [Hp|Hp].
  2:{ rewrite (alter_state_rejects c LS p t) in Hok; [done..|]. right. rewrite Hh. by intros ? [= <-]. }
  destruct (home_list_guard t i Hh) as (_ & _ & Hi). 
  destruct (alter_state_requeue c LS p t state bd i j) as (c1 & M1 & M2 & Hc1 & Hpl & Hok1 & Hget & _); try done.
  { congruence. }
  rewrite Hc1 in Hok. injection Hok as ->. eexists. split; [exact Hok1|].
  eapply requeue_sorted; [done..| |done|done|done]. congruence.
Qed.

(** C29. The scheduler's choice: [round_robin] returns the front of the ready
    list ([NULL] when it is empty) and moves the front on to the first thread of
    another process, permuting no thread away; [find_next_thread] returns the
    first runnable thread of the running process if there is one and
    [round_robin]'s choice otherwise; [get_thread_alive_count] counts the
    threads of the process that have not terminated. *)
Theorem scheduler_choice (c : ctrl) (LS : Z -> list addr) (me : addr) (t : tcb_t) (b : pcb_t) (ts : list addr)
    (Hsched : sched_ok c LS) (Hme : running c = Some me) (Ht : get_tcb c me = Some t)
    (Hb : get_pcb c (tcb_pcb t) = Some b) (Hnull : tcb_pcb t <> NULL)
    (Hts : threads_of c b ts) (Hlen : Z.of_nat (length ts) < 2 ^ 31) :
  (exists c', round_robin c = Some (front_of (LS READY_STATE), c') /\ same_blocks c c' /\
     sched_ok c' (upd READY_STATE (rotate_ready c (LS READY_STATE)) LS) /\
     rotate_ready c (LS READY_STATE) ≡ₚ LS READY_STATE) /\
  find_next_thread c =
    match first_sat (fun p => bool_decide (state_of c p = READY_STATE)) ts with
    | Some p => Some (p, c)
    | None => round_robin c
    end /\
  get_thread_alive_count c (tcb_pcb t) =
    Some (OK, Z.of_nat (length (filter (fun p => state_of c p <> TERMINATED_STATE) ts))).
Proof.
  split_and!.
  - destruct (round_robin_ok c LS Hsched) as (c' & H1 & H2 & H3). exists c'. split_and!; try done.
    destruct (LS READY_STATE) as [|x r]; [done|]. cbn [rotate_ready].
    destruct (span_sat _ r) as [a0 b0] eqn:E. apply span_sat_app in E. destruct b0; [done|]. subst r.
    change (x :: a0 ++ z :: b0) with ((x :: a0) ++ z :: b0). apply Permutation_app_comm.
  - by eapply find_next_thread_ok.
  - by eapply get_thread_alive_count_ok.
Qed.

(** ** A concrete state: two processes, five threads *)

#[export] Instance chain_dec {A} (h : heap A) l : forall x y, Decision (chain h x l y).
Proof. induction l as [|z l IH]; intros x y; cbn [chain]; unfold linked; apply _. Defined.
#[export] Instance ring_dec {A} (h : heap A) l : Decision (ring h l).
Proof. unfold ring. destruct l; apply _. Defined.
#[export] Instance contents_dec {A} `{EqDecision A} (h : heap A) l L : Decision (contents h l L).
Proof. unfold contents. apply _. Defined.

Definition demo_tcb (pcb tid_ state_ : Z) (bd : blocking_detail_t) : tcb_t :=
  Tcb pcb tid_ state_ None 0 0 0 bd.
Definition demo_pcb (threads : addr) : pcb_t :=
  Pcb NULL NULL threads 0 65536 NULL mutex_init false (GuestResource false 0 (replicate 0x22 0)).

Definition demo_ctrl : ctrl := Ctrl
  (Zone (list_to_map [
     (100, Node 120 110 (demo_tcb 5000 1 RUNNING_STATE blocking_none));
     (110, Node 100 120 (demo_tcb 5000 2 READY_STATE blocking_none));
     (120, Node 110 100 (demo_tcb 5000 3 WAITING_STATE (BlockingDetail SLEEP 30)));
     (200, Node 210 210 (demo_tcb 5100 4 READY_STATE blocking_none));
     (210, Node 200 200 (demo_tcb 5100 5 WAITING_STATE (BlockingDetail SLEEP 50)))]) [900; 910])
  (Zone (list_to_map [(5000, Node 5000 5000 (demo_pcb 100)); (5100, Node 5100 5100 (demo_pcb 200))]) [5200; 5300])
  (Zone (list_to_map [
     (300, Node 310 310 110); (310, Node 300 300 200); (320, Node 320 320 100);
     (330, Node 340 340 120); (340, Node 330 330 210)]) [800; 810])
  (Zone ∅ [700; 710])
  [0; 300; 320; 0; 0; 330; 0; 0; 0] 6 mutex_init 5000.

Definition demo_ns (i : Z) : list addr :=
  if decide (i = READY_STATE) then [300; 310] else if decide (i = RUNNING_STATE) then [320]
  else if decide (i = SLEEP) then [330; 340] else [].
Definition demo_LS (i : Z) : list addr :=
  if decide (i = READY_STATE) then [110; 200] else if decide (i = RUNNING_STATE) then [100]
  else if decide (i = SLEEP) then [120; 210] else [].

Ltac decided := apply bool_decide_unpack with (dec := decide _); vm_compute; exact I.

(** The invariant of a concrete state, as one decidable check of the nine lists. *)
Definition sched_check (c : ctrl) (ns LS : Z -> list addr) : Prop :=
  (length (thread_lists c) = Z.to_nat THREAD_LIST_COUNT /\ NoDup (pool (links c)) /\ NULL ∉ pool (links c) /\
   Forall (fun p => cells (links c) !! p = None) (pool (links c)) /\ cells (links c) !! NULL = None) /\
  Forall (fun i => ring (cells (links c)) (ns i) /\ thread_list c i = Some (front_of (ns i)) /\
    contents (cells (links c)) (ns i) (LS i) /\ NoDup (LS i) /\
    Forall (fun p => p <> NULL /\ (get_tcb c p ≫= home_list) = Some i) (LS i) /\
    Forall (fun j => i = j \/ Forall (fun p => p ∉ ns j) (ns i)) (seqZ 0 THREAD_LIST_COUNT)) (seqZ 0 THREAD_LIST_COUNT).

Lemma sched_check_ok c ns LS : sched_check c ns LS -> sched_ok c LS.
Proof.
  intros [(H1 & H2 & H3 & H4 & H5) H]. rewrite Forall_forall in H4, H.
  assert (forall i, list_index i -> i ∈ seqZ 0 THREAD_LIST_COUNT) as Hi by (intros i Hi; by apply elem_of_seqZ).
  split.
  - exists ns. split; [done|done|by intros; apply H, Hi..|].
    intros i j p Hi1 Hj Hp Hq. destruct (H i (Hi i Hi1)) as (_ & _ & _ & _ & _ & Hd). rewrite Forall_forall in Hd.
    destruct (Hd j (Hi j Hj)) as [?|Hf]; [done|]. rewrite Forall_forall in Hf. by destruct (Hf p Hp).
  - intros i Hi1. destruct (H i (Hi i Hi1)) as (_ & _ & _ & Hnd & Hf & _). split; [done|].
    intros p Hp. rewrite Forall_forall in Hf. destruct (Hf p Hp) as [Hn Hh]. split; [done|].
    apply bind_Some in Hh as (t & Ht & Hh). by exists t.
Qed.

Lemma demo_sched_ok : sched_ok demo_ctrl demo_LS.
Proof. apply (sched_check_ok _ demo_ns). unfold sched_check. decided. Qed.

Lemma demo_threads : threads_of demo_ctrl (demo_pcb 100) [100; 110; 120].
Proof. split; [decided|reflexivity]. Qed.

Lemma alter_state_refines_witness : exists c', 
  alter_state 100 WAITING_STATE (Some (BlockingDetail SLEEP 40)) demo_ctrl = Some (OK, c') /\
  sched_ok c' (upd SLEEP [120; 100; 210] (upd RUNNING_STATE [] demo_LS)).
Proof.
  destruct (alter_state_refines demo_ctrl demo_LS 100 (demo_tcb 5000 1 RUNNING_STATE blocking_none)
    WAITING_STATE (Some (BlockingDetail SLEEP 40)) demo_sched_ok) as (c' & H1 & H2 & _);
    [reflexivity|right; vm_compute; discriminate|]. by exists c'.
Defined.

Lemma alter_state_keeps_sleep_order_witness : exists c' LS',
  alter_state 110 WAITING_STATE (Some (BlockingDetail SLEEP 20)) demo_ctrl = Some (OK, c') /\
  sched_ok c' LS' /\ sleep_sorted c' LS'.
Proof.
  assert (fst <$> alter_state 110 WAITING_STATE (Some (BlockingDetail SLEEP 20)) demo_ctrl = Some OK) as Hr
    by reflexivity.
  apply fmap_Some in Hr as ([r c'] & E & Hr). cbn in Hr. subst r.
  destruct (alter_state_keeps_sleep_order demo_ctrl c' demo_LS 110 (demo_tcb 5000 2 READY_STATE blocking_none)
    WAITING_STATE (Some (BlockingDetail SLEEP 20)) demo_sched_ok) as (LS' & H1 & H2);
    [repeat constructor; vm_compute; discriminate|reflexivity|vm_compute; discriminate|exact E|]. by exists c', LS'.
Defined.

Lemma scheduler_choice_witness :
  (exists c', round_robin demo_ctrl = Some (110, c') /\ sched_ok c' (upd READY_STATE [200; 110] demo_LS)) /\
  find_next_thread demo_ctrl = Some (110, demo_ctrl) /\
  get_thread_alive_count demo_ctrl 5000 = Some (OK, 3).
Proof.
  destruct (scheduler_choice demo_ctrl demo_LS 100 (demo_tcb 5000 1 RUNNING_STATE blocking_none) (demo_pcb 100)
    [100; 110; 120] demo_sched_ok) as ((c' & H1 & _ & H2 & _) & H3 & H4);
    [reflexivity|reflexivity|reflexivity|discriminate|exact demo_threads|reflexivity|].
  split; [by exists c'|]. split; [exact H3|exact H4].
Defined.
