(* ===== verification/Kernel.v ===== *)
(** The kernel as a state machine with resumptions.

    A function of the kernel is a computation [K A]: from the state of the
    machine it ends normally, or stops at one of the points where the code gives
    up the processor.  [Switch] is [save_and_load] of [context.S]: the computation
    goes on when some other thread switches back, in the state it left.  The
    code between two such points is one step; preemption by a device inside it is
    modelled only at the points a definition marks with [interruptible]. *)
From S2P Require Import Prelude Ring KMutex Frames Vm Keyhelp Keyboard Console Machine CtrlBlk.
#[local] Open Scope Z_scope.

(** What the machine and the image of the kernel provide: the number of physical
    frames, the executables compiled into the kernel ([exec2obj_userapp_TOC]:
    name and bytes) and whether [CR0.WP] is set, which the kernel never changes. *)
Class Platform : Type := {
  machine_phys_frames : Z;
  exec2obj_userapp_TOC : list (list Z * list Z);
  cr0_wp : bool;
}.

(** The state.  [mem] is physical memory by byte, zero where it says nothing;
    page directories and tables are in [kvm], the nodes of lists in [ctl].
    [cpu_esp0] is the thread whose kernel stack the processor uses, [mallocs] the
    answers [malloc] will give to requests for plain buffers (none left: failure)
    and [port] the scancodes the keyboard will deliver. *)
Record kstate : Type := KState {
  ctl : ctrl;
  kvm : vm;
  mem : gmap Z Z;
  cr3 : Z;
  int_flag : bool;
  cpu_esp0 : addr;
  tick_count : Z;
  ch_buf : buf_t;
  scancode_buf : buf_t;
  kh : keyhelp;
  input_lock : mutex;
  output_lock : mutex;
  kcon : console;
  mallocs : list bool;
  port : list Z;
}.

Definition with_ctl (v : ctrl) (r : kstate) : kstate :=
    KState v (kvm r) (mem r) (cr3 r) (int_flag r) (cpu_esp0 r) (tick_count r) (ch_buf r)
    (scancode_buf r) (kh r) (input_lock r) (output_lock r) (kcon r) (mallocs r) (port r).
Definition with_kvm (v : vm) (r : kstate) : kstate :=
    KState (ctl r) v (mem r) (cr3 r) (int_flag r) (cpu_esp0 r) (tick_count r) (ch_buf r)
    (scancode_buf r) (kh r) (input_lock r) (output_lock r) (kcon r) (mallocs r) (port r).
Definition with_mem (v : gmap Z Z) (r : kstate) : kstate :=
    KState (ctl r) (kvm r) v (cr3 r) (int_flag r) (cpu_esp0 r) (tick_count r) (ch_buf r)
    (scancode_buf r) (kh r) (input_lock r) (output_lock r) (kcon r) (mallocs r) (port r).
Definition with_cr3 (v : Z) (r : kstate) : kstate :=
    KState (ctl r) (kvm r) (mem r) v (int_flag r) (cpu_esp0 r) (tick_count r) (ch_buf r)
    (scancode_buf r) (kh r) (input_lock r) (output_lock r) (kcon r) (mallocs r) (port r).
Definition with_int_flag (v : bool) (r : kstate) : kstate :=
    KState (ctl r) (kvm r) (mem r) (cr3 r) v (cpu_esp0 r) (tick_count r) (ch_buf r)
    (scancode_buf r) (kh r) (input_lock r) (output_lock r) (kcon r) (mallocs r) (port r).
Definition with_cpu_esp0 (v : addr) (r : kstate) : kstate :=
    KState (ctl r) (kvm r) (mem r) (cr3 r) (int_flag r) v (tick_count r) (ch_buf r)
    (scancode_buf r) (kh r) (input_lock r) (output_lock r) (kcon r) (mallocs r) (port r).
Definition with_tick_count (v : Z) (r : kstate) : kstate :=
    KState (ctl r) (kvm r) (mem r) (cr3 r) (int_flag r) (cpu_esp0 r) v (ch_buf r)
    (scancode_buf r) (kh r) (input_lock r) (output_lock r) (kcon r) (mallocs r) (port r).
Definition with_ch_buf (v : buf_t) (r : kstate) : kstate :=
    KState (ctl r) (kvm r) (mem r) (cr3 r) (int_flag r) (cpu_esp0 r) (tick_count r) v
    (scancode_buf r) (kh r) (input_lock r) (output_lock r) (kcon r) (mallocs r) (port r).
Definition with_scancode_buf (v : buf_t) (r : kstate) : kstate :=
    KState (ctl r) (kvm r) (mem r) (cr3 r) (int_flag r) (cpu_esp0 r) (tick_count r)
    (ch_buf r) v (kh r) (input_lock r) (output_lock r) (kcon r) (mallocs r) (port r).
Definition with_kh (v : keyhelp) (r : kstate) : kstate :=
    KState (ctl r) (kvm r) (mem r) (cr3 r) (int_flag r) (cpu_esp0 r) (tick_count r)
    (ch_buf r) (scancode_buf r) v (input_lock r) (output_lock r) (kcon r) (mallocs r)
    (port r).
Definition with_input_lock (v : mutex) (r : kstate) : kstate :=
    KState (ctl r) (kvm r) (mem r) (cr3 r) (int_flag r) (cpu_esp0 r) (tick_count r)
    (ch_buf r) (scancode_buf r) (kh r) v (output_lock r) (kcon r) (mallocs r) (port r).
Definition with_output_lock (v : mutex) (r : kstate) : kstate :=
    KState (ctl r) (kvm r) (mem r) (cr3 r) (int_flag r) (cpu_esp0 r) (tick_count r)
    (ch_buf r) (scancode_buf r) (kh r) (input_lock r) v (kcon r) (mallocs r) (port r).
Definition with_kcon (v : console) (r : kstate) : kstate :=
    KState (ctl r) (kvm r) (mem r) (cr3 r) (int_flag r) (cpu_esp0 r) (tick_count r)
    (ch_buf r) (scancode_buf r) (kh r) (input_lock r) (output_lock r) v (mallocs r) (port
    r).
Definition with_mallocs (v : list bool) (r : kstate) : kstate :=
    KState (ctl r) (kvm r) (mem r) (cr3 r) (int_flag r) (cpu_esp0 r) (tick_count r)
    (ch_buf r) (scancode_buf r) (kh r) (input_lock r) (output_lock r) (kcon r) v (port r).
Definition with_port (v : list Z) (r : kstate) : kstate :=
    KState (ctl r) (kvm r) (mem r) (cr3 r) (int_flag r) (cpu_esp0 r) (tick_count r)
    (ch_buf r) (scancode_buf r) (kh r) (input_lock r) (output_lock r) (kcon r) (mallocs r)
    v.

(** ** Computations *)

Inductive outcome (A : Type) : Type :=
| Done (a : A) (s : kstate)
| Switch (original target : addr) (s : kstate) (k : kstate -> outcome A)
| Halted (s : kstate)
| UserMode (u : ureg_t) (s : kstate)
| RunHandler (u : ureg_t) (exception_stack handler arg : Z) (s : kstate)
| Spinning (s : kstate)
| Crashed.
Arguments Done {A}.
Arguments Switch {A}.
Arguments Halted {A}.
Arguments UserMode {A}.
Arguments RunHandler {A}.
Arguments Spinning {A}.
Arguments Crashed {A}.

Definition K (A : Type) : Type := kstate -> outcome A.

Fixpoint obind {A B} (f : A -> K B) (o : outcome A) : outcome B :=
  match o with
  | Done a s => f a s
  | Switch original target s k => Switch original target s (fun s => obind f (k s))
  | Halted s => Halted s
  | UserMode u s => UserMode u s
  | RunHandler u stack handler arg s => RunHandler u stack handler arg s
  | Spinning s => Spinning s
  | Crashed => Crashed
  end.

#[export] Instance K_ret : MRet K := fun A a s => Done a s.
#[export] Instance K_bind : MBind K := fun A B f m s => obind f (m s).

(** A computation given as a function of the state. *)
Definition primitive {A} (f : kstate -> outcome A) : K A := f.

(** A fallible value ([None]: undefined behaviour or a failed [affirm]). *)
Definition lift {A} (o : option A) : K A :=
  fun s => match o with Some a => Done a s | None => Crashed end.
Definition get : K kstate := fun s => Done s s.
Definition gets {A} (f : kstate -> A) : K A := fun s => Done (f s) s.
Definition modify (f : kstate -> kstate) : K unit := fun s => Done tt (f s).
Definition affirm (b : bool) : K unit := fun s => if b then Done tt s else Crashed.
Definition spin {A} : K A := fun s => Spinning s.
Definition when (b : bool) (m : K unit) : K unit := if b then m else mret tt.

(** Where an interrupt may be taken: [irq] is what the processor is made to do
    there, and it does it when interrupts are on. *)
Definition interruptible (irq : K unit) : K unit :=
  on ← gets int_flag; when on irq.

(** [while (true) body], left by [inr]; at most [2 ^ d] rounds. *)
Fixpoint rounds {S R} (d : nat) (body : S -> K (S + R)) (x : S) : K (S + R) :=
  match d with
  | O => body x
  | Datatypes.S d =>
      r ← rounds d body x;
      match r with inl x => rounds d body x | inr r => mret (inr r) end
  end.
Definition loop {S R} (d : nat) (body : S -> K (S + R)) (x : S) : K R :=
  r ← rounds d body x; match r with inr r => mret r | inl _ => spin end.

(** [for (i = lo; n more times; i++) body]. *)
Fixpoint kfor {S} (n : nat) (i : Z) (body : Z -> S -> K S) (x : S) : K S :=
  match n with
  | O => mret x
  | Datatypes.S n => x ← body i x; kfor n (i + 1) body x
  end.

(** ** Parts of the state *)

Definition ctl_op {A} (f : ctrl -> option (A * ctrl)) : K A :=
  fun s => match f (ctl s) with Some (a, c) => Done a (with_ctl c s) | None => Crashed end.
Definition ctl_upd (f : ctrl -> option ctrl) : K unit :=
  ctl_op (fun c => c ← f c; Some (tt, c)).
Definition ctl_get {A} (f : ctrl -> option A) : K A :=
  fun s => match f (ctl s) with Some a => Done a s | None => Crashed end.
Definition vm_get {A} (f : vm -> option A) : K A :=
  fun s => match f (kvm s) with Some a => Done a s | None => Crashed end.

Definition running_tcb : K addr := ctl_get running.
Definition tcb_at (p : addr) : K tcb_t := ctl_get (fun c => get_tcb c p).
Definition pcb_at (p : addr) : K pcb_t := ctl_get (fun c => get_pcb c p).
Definition update_tcb (p : addr) (f : tcb_t -> tcb_t) : K unit := ctl_upd (upd_tcb p f).
Definition update_pcb (p : addr) (f : pcb_t -> pcb_t) : K unit := ctl_upd (upd_pcb p f).
(** [thread_lists[RUNNING_STATE]->data->pcb_ptr]. *)
Definition running_pcb : K addr := me ← running_tcb; t ← tcb_at me; mret (tcb_pcb t).
(** [thread_lists[RUNNING_STATE]->data->tid]. *)
Definition running_tid : K Z := me ← running_tcb; t ← tcb_at me; mret (tid t).

(** An operation of [vm.c], which takes its locks as the running thread. *)
Definition vm_step {A} (f : vm -> option (A * vm)) : K A :=
  fun s => match f (kvm s) with Some (a, v) => Done a (with_kvm v s) | None => Crashed end.
Definition vm_op {A} (f : Z -> vm -> option (A * vm)) : K A :=
  me ← running_tid; vm_step (f me).

(** [malloc] of a plain buffer; [free] of one. *)
Definition malloc_buf : K bool :=
  fun s => match mallocs s with
           | [] => Done false s
           | b :: rest => Done b (with_mallocs rest s)
           end.

Definition disable_interrupts : K unit := modify (with_int_flag false).
Definition enable_interrupts : K unit := modify (with_int_flag true).
Definition set_cr3 (v : Z) : K unit := modify (with_cr3 v).
(** [(get_cr3() >> PAGE_SHIFT) << PAGE_SHIFT]. *)
Definition current_page_dir : K addr := gets (fun s => page_of (cr3 s)).

(** The mutexes of the kernel by name. *)
Inductive lock_id : Type := PcbLock (p : addr) | InputLock | OutputLock | ThreadManagerLock.

Definition get_lock (l : lock_id) (s : kstate) : option mutex :=
  match l with
  | PcbLock p => lock <$> get_pcb (ctl s) p
  | InputLock => Some (input_lock s)
  | OutputLock => Some (output_lock s)
  | ThreadManagerLock => Some (thread_manager_lock (ctl s))
  end.
Definition put_lock (l : lock_id) (m : mutex) (s : kstate) : option kstate :=
  match l with
  | PcbLock p => c ← upd_pcb p (CtrlBlk.set_lock m) (ctl s); Some (with_ctl c s)
  | InputLock => Some (with_input_lock m s)
  | OutputLock => Some (with_output_lock m s)
  | ThreadManagerLock => Some (with_ctl (set_thread_manager_lock m (ctl s)) s)
  end.

Definition load_lock (l : lock_id) : K mutex :=
  fun s => match get_lock l s with Some m => Done m s | None => Crashed end.
Definition store_lock (l : lock_id) (m : mutex) : K unit :=
  fun s => match put_lock l m s with Some s => Done tt s | None => Crashed end.

(** * Running computations *)

Section bind.
Context {A B : Type} (m : K A) (f : A -> K B).

Lemma bind_Done s a s' : m s = Done a s' -> (m ≫= f) s = f a s'.
Proof. intros H. unfold mbind, K_bind. by rewrite H. Qed.
Lemma bind_Switch s o t s' k : m s = Switch o t s' k -> (m ≫= f) s = Switch o t s' (fun s => obind f (k s)).
Proof. intros H. unfold mbind, K_bind. by rewrite H. Qed.
Lemma bind_Spinning s s' : m s = Spinning s' -> (m ≫= f) s = Spinning s'.
Proof. intros H. unfold mbind, K_bind. by rewrite H. Qed.
Lemma bind_Halted s s' : m s = Halted s' -> (m ≫= f) s = Halted s'.
Proof. intros H. unfold mbind, K_bind. by rewrite H. Qed.
Lemma bind_Crashed s : m s = Crashed -> (m ≫= f) s = Crashed.
Proof. intros H. unfold mbind, K_bind. by rewrite H. Qed.
Lemma bind_RunHandler s u st h arg s' : m s = RunHandler u st h arg s' ->
  (m ≫= f) s = RunHandler u st h arg s'.
Proof. intros H. unfold mbind, K_bind. by rewrite H. Qed.

Lemma bind_inv s b s' : (m ≫= f) s = Done b s' ->
  (exists a s1, m s = Done a s1 /\ f a s1 = Done b s').
Proof. unfold mbind, K_bind. destruct (m s) eqn:E; cbn; try done. eauto. Qed.

End bind.

Lemma ctl_get_ok {A} (f : ctrl -> option A) s a : f (ctl s) = Some a -> ctl_get f s = Done a s.
Proof. unfold ctl_get. by intros ->. Qed.
Lemma ctl_op_ok {A} (f : ctrl -> option (A * ctrl)) s a c :
  f (ctl s) = Some (a, c) -> ctl_op f s = Done a (with_ctl c s).
Proof. unfold ctl_op. by intros ->. Qed.
Lemma ctl_upd_ok (f : ctrl -> option ctrl) s c : f (ctl s) = Some c -> ctl_upd f s = Done tt (with_ctl c s).
Proof. intros H. unfold ctl_upd. apply ctl_op_ok. by rewrite H. Qed.
Lemma vm_get_ok {A} (f : vm -> option A) s a : f (kvm s) = Some a -> vm_get f s = Done a s.
Proof. unfold vm_get. by intros ->. Qed.
Lemma vm_step_ok {A} (f : vm -> option (A * vm)) s a v :
  f (kvm s) = Some (a, v) -> vm_step f s = Done a (with_kvm v s).
Proof. unfold vm_step. by intros ->. Qed.
Lemma load_lock_ok l s m : get_lock l s = Some m -> load_lock l s = Done m s.
Proof. unfold load_lock. by intros ->. Qed.
Lemma store_lock_ok l s m s' : put_lock l m s = Some s' -> store_lock l m s = Done tt s'.
Proof. unfold store_lock. by intros ->. Qed.

Lemma running_tcb_ok s me : running (ctl s) = Some me -> running_tcb s = Done me s.
Proof. apply ctl_get_ok. Qed.
Lemma tcb_at_ok s p t : get_tcb (ctl s) p = Some t -> tcb_at p s = Done t s.
Proof. apply (ctl_get_ok (fun c => get_tcb c p)). Qed.
Lemma pcb_at_ok s p b : get_pcb (ctl s) p = Some b -> pcb_at p s = Done b s.
Proof. apply (ctl_get_ok (fun c => get_pcb c p)). Qed.
Lemma running_pcb_ok s me t : running (ctl s) = Some me -> get_tcb (ctl s) me = Some t ->
  running_pcb s = Done (tcb_pcb t) s.
Proof.
  intros Hme Ht. unfold running_pcb. rewrite (bind_Done _ _ _ _ _ (running_tcb_ok _ _ Hme)).
  by rewrite (bind_Done _ _ _ _ _ (tcb_at_ok _ _ _ Ht)).
Qed.
Lemma running_tid_ok s me t : running (ctl s) = Some me -> get_tcb (ctl s) me = Some t ->
  running_tid s = Done (tid t) s.
Proof.
  intros Hme Ht. unfold running_tid. rewrite (bind_Done _ _ _ _ _ (running_tcb_ok _ _ Hme)).
  by rewrite (bind_Done _ _ _ _ _ (tcb_at_ok _ _ _ Ht)).
Qed.

(** Take a step whose result is known. *)
Ltac kstep H :=
  lazymatch type of H with
  | _ = Done _ _ => rewrite (bind_Done _ _ _ _ _ H)
  | _ = Switch _ _ _ _ => rewrite (bind_Switch _ _ _ _ _ _ _ H)
  | _ = Spinning _ => rewrite (bind_Spinning _ _ _ _ H)
  | _ = Halted _ => rewrite (bind_Halted _ _ _ _ H)
  | _ = Crashed => rewrite (bind_Crashed _ _ _ H)
  | _ = RunHandler _ _ _ _ _ => rewrite (bind_RunHandler _ _ _ _ _ _ _ _ H)
  end.

(** Steps that succeed whatever the state. *)
Lemma gets_ok {A} (f : kstate -> A) s : gets f s = Done (f s) s.
Proof. done. Qed.
Lemma modify_ok f s : modify f s = Done tt (f s).
Proof. done. Qed.
Lemma affirm_ok b s : b = true -> affirm b s = Done tt s.
Proof. by intros ->. Qed.
Lemma quiet_ok s : interruptible (mret tt) s = Done tt s.
Proof. unfold interruptible. rewrite (bind_Done _ _ _ _ _ (gets_ok _ _)). by destruct (int_flag s). Qed.
Ltac kpure :=
  repeat first
    [ rewrite (bind_Done _ _ _ _ _ (quiet_ok _))
    | rewrite (bind_Done _ _ _ _ _ (gets_ok _ _))
    | rewrite (bind_Done _ _ _ _ _ (modify_ok _ _))
    | rewrite (bind_Done (mret _) _ _ _ _ eq_refl) ].

(** ** Loops *)

Section loops.
Context {S R : Type} (body : S -> K (S + R)).

(** [n] rounds that go on. *)
Inductive steps : nat -> S -> kstate -> S -> kstate -> Prop :=
| steps_refl x s : steps 0 x s x s
| steps_step n x s x1 s1 x2 s2 :
    body x s = Done (inl x1) s1 -> steps n x1 s1 x2 s2 -> steps (Datatypes.S n) x s x2 s2.

Lemma steps_split n1 n2 x s x2 s2 : steps (n1 + n2) x s x2 s2 ->
  exists x1 s1, steps n1 x s x1 s1 /\ steps n2 x1 s1 x2 s2.
Proof.
  revert x s. induction n1 as [|n1 IH]; intros x s H; [exists x, s; split; [constructor|done]|].
  inversion H as [|? ? ? x3 s3 ? ? Hb Hs]; subst. destruct (IH _ _ Hs) as (x' & s' & H1 & H2).
  exists x', s'. split; [by econstructor|done].
Qed.

Lemma rounds_S d x : rounds (Datatypes.S d) body x =
  (r ← rounds d body x; match r with inl x => rounds d body x | inr r => mret (inr r) end).
Proof. reflexivity. Qed.

Lemma rounds_all d : forall x s x' s', steps (2 ^ d)%nat x s x' s' -> rounds d body x s = Done (inl x') s'.
Proof.
  induction d as [|d IH]; intros x s x' s' H.
  - cbn in H. inversion H as [|? ? ? ? ? ? ? Hb Hs]; subst. inversion Hs; subst. done.
  - rewrite rounds_S. replace (2 ^ Datatypes.S d)%nat with (2 ^ d + 2 ^ d)%nat in H by (cbn; lia).
    apply steps_split in H as (x1 & s1 & H1 & H2). kstep (IH _ _ _ _ H1). by apply IH.
Qed.

Lemma rounds_end d : forall n x s x' s' r s2, (n < 2 ^ d)%nat -> steps n x s x' s' ->
  body x' s' = Done (inr r) s2 -> rounds d body x s = Done (inr r) s2.
Proof.
  induction d as [|d IH]; intros n x s x' s' r s2 Hn H Hb.
  - cbn in Hn. assert (n = 0)%nat as -> by lia. inversion H; subst. done.
  - rewrite rounds_S. destruct (decide (n < 2 ^ d)%nat) as [Hlt|Hge].
    + rewrite (bind_Done _ _ _ _ _ (IH _ _ _ _ _ _ _ Hlt H Hb)). done.
    + replace n with (2 ^ d + (n - 2 ^ d))%nat in H by lia. apply steps_split in H as (x1 & s1 & H1 & H2).
      rewrite (bind_Done _ _ _ _ _ (rounds_all d _ _ _ _ H1)). eapply IH; [|exact H2|exact Hb]. cbn in Hn. lia.
Qed.

(** A round that gives up the processor. *)
Lemma rounds_switch d : forall x s o t s' k, body x s = Switch o t s' k ->
  exists k', rounds d body x s = Switch o t s' k'.
Proof.
  induction d as [|d IH]; intros x s o t s' k H; [by exists k|].
  rewrite rounds_S. destruct (IH _ _ _ _ _ _ H) as [k' Hk]. kstep Hk. by eexists.
Qed.

(** A round that gives up the processor and, resumed, goes on to a last one. *)
Lemma rounds_resume d : forall x s o t s' k, body x s = Switch o t s' k ->
  exists k', rounds (Datatypes.S d) body x s = Switch o t s' k' /\
    forall s2 x' s3 r s4, k s2 = Done (inl x') s3 -> body x' s3 = Done (inr r) s4 -> k' s2 = Done (inr r) s4.
Proof.
  induction d as [|d IH]; intros x s o t s' k H.
  - cbn [rounds]. kstep H. eexists. split; [reflexivity|]. intros s2 x' s3 r s4 Hk Hb. cbn beta. by rewrite Hk.
  - rewrite rounds_S. destruct (IH _ _ _ _ _ _ H) as (k' & Hk' & Hres). kstep Hk'. eexists. split; [reflexivity|].
    intros s2 x' s3 r s4 Hk Hb. cbn beta. by rewrite (Hres _ _ _ _ _ Hk Hb).
Qed.

Lemma loop_resume d x s o t s' k : body x s = Switch o t s' k ->
  exists k', loop (Datatypes.S d) body x s = Switch o t s' k' /\
    forall s2 x' s3 r s4, k s2 = Done (inl x') s3 -> body x' s3 = Done (inr r) s4 -> k' s2 = Done r s4.
Proof.
  intros H. destruct (rounds_resume d _ _ _ _ _ _ H) as (k' & Hk' & Hres). unfold loop. kstep Hk'.
  eexists. split; [reflexivity|]. intros s2 x' s3 r s4 Hk Hb. cbn beta. by rewrite (Hres _ _ _ _ _ Hk Hb).
Qed.

Lemma loop_end d n x s x' s' r s2 : (n < 2 ^ d)%nat -> steps n x s x' s' ->
  body x' s' = Done (inr r) s2 -> loop d body x s = Done r s2.
Proof. intros Hn H Hb. unfold loop. by rewrite (bind_Done _ _ _ _ _ (rounds_end d _ _ _ _ _ _ _ Hn H Hb)). Qed.

Lemma loop_now d x s r s2 : body x s = Done (inr r) s2 -> loop d body x s = Done r s2.
Proof.
  intros Hb. apply (loop_end d 0 x s x s); [|constructor|done].
  assert (2 ^ d <> 0)%nat by (apply Nat.pow_nonzero; lia). lia.
Qed.

Lemma loop_switch d x s o t s' k : body x s = Switch o t s' k -> exists k', loop d body x s = Switch o t s' k'.
Proof. intros H. destruct (rounds_switch d _ _ _ _ _ _ H) as [k' Hk]. unfold loop. kstep Hk. by eexists. Qed.

(** A round that spins, or enters a handler of the user. *)
Lemma rounds_spinning d : forall x s s', body x s = Spinning s' -> rounds d body x s = Spinning s'.
Proof. induction d as [|d IH]; intros x s s' H; [done|]. rewrite rounds_S. by kstep (IH _ _ _ H). Qed.

Lemma loop_spinning d x s s' : body x s = Spinning s' -> loop d body x s = Spinning s'.
Proof. intros H. unfold loop. by kstep (rounds_spinning d _ _ _ H). Qed.

Lemma loop_halted d x s s' : body x s = Halted s' -> loop d body x s = Halted s'.
Proof.
  intros H. assert (Hr : rounds d body x s = Halted s').
  { induction d as [|d IH]; [done|]. rewrite rounds_S. by kstep IH. }
  unfold loop. by kstep Hr.
Qed.

Lemma loop_handler d : forall x s u st h arg s', body x s = RunHandler u st h arg s' ->
  loop d body x s = RunHandler u st h arg s'.
Proof.
  assert (Hr : forall d x s u st h arg s', body x s = RunHandler u st h arg s' ->
    rounds d body x s = RunHandler u st h arg s').
  { clear d. induction d as [|d IH]; intros x s u st h arg s' H; [done|]. rewrite rounds_S. by kstep (IH _ _ _ _ _ _ _ H). }
  intros x s u st h arg s' H. unfold loop. by kstep (Hr d _ _ _ _ _ _ _ H).
Qed.

Lemma steps_inv (I : kstate -> Prop) x : (forall s, I s -> exists s', body x s = Done (inl x) s' /\ I s') ->
  forall n s, I s -> exists s', steps n x s x s' /\ I s'.
Proof.
  intros H n. induction n as [|n IH]; intros s Hs; [exists s; split; [constructor|done]|].
  destruct (H s Hs) as (s1 & Hb & H1). destruct (IH s1 H1) as (s2 & Hst & H2).
  exists s2. split; [by econstructor|done].
Qed.

(** A loop that never ends. *)
Lemma loop_spins (I : kstate -> Prop) d x s :
  (forall s, I s -> exists s', body x s = Done (inl x) s' /\ I s') -> I s ->
  exists s', loop d body x s = Spinning s' /\ I s'.
Proof.
  intros H Hs. destruct (steps_inv I x H (2 ^ d)%nat s Hs) as (s' & Hst & Hi). exists s'. split; [|done].
  unfold loop. by rewrite (bind_Done _ _ _ _ _ (rounds_all d _ _ _ _ Hst)).
Qed.

(** A loop whose rounds keep [I] and take [m] down ends, with what its last round
    gives. *)
Lemma loop_inv d (I : S -> kstate -> Prop) (Q : R -> kstate -> Prop) (m : S -> Z) x s :
  (forall x s, I x s -> 0 <= m x /\ exists r s', body x s = Done r s' /\
     match r with inl x' => I x' s' /\ m x' < m x | inr r => Q r s' end) ->
  I x s -> m x < 2 ^ Z.of_nat d -> exists r s', loop d body x s = Done r s' /\ Q r s'.
Proof.
  intros H Hi Hm. assert (Hst : exists n x' s' r s2, Z.of_nat n <= m x /\ steps n x s x' s' /\ body x' s' = Done (inr r) s2 /\ Q r s2).
  { clear Hm. destruct (H _ _ Hi) as [H0 _]. remember (Z.to_nat (m x)) as k eqn:Hk. assert (m x = Z.of_nat k) as Hmk by lia. clear Hk H0.
    revert x s Hi Hmk. induction k as [k IH] using lt_wf_ind. intros x s Hi Hmk.
    destruct (H _ _ Hi) as (H0 & [x1|r] & s1 & Hb & Hr).
    - destruct Hr as [Hi1 Hlt]. destruct (H _ _ Hi1) as [H1 _].
      destruct (IH (Z.to_nat (m x1)) ltac:(lia) x1 s1 Hi1 ltac:(lia)) as (n & x' & s' & r & s2 & Hn & Hs & Hb2 & HQ).
      exists (Datatypes.S n), x', s', r, s2. split_and!; [lia|by econstructor|done|done].
    - exists 0%nat, x, s, r, s1. split_and!; [lia|constructor|done|done]. }
  destruct Hst as (n & x' & s' & r & s2 & Hn & Hs & Hb & HQ). exists r, s2. split; [|done].
  eapply (loop_end d n); [|done|done]. apply Nat2Z.inj_lt. rewrite Nat2Z.inj_pow. change (Z.of_nat 2) with 2. lia.
Qed.

End loops.

(** [for] loops keep what each round keeps. *)
Lemma kfor_inv {S} (I : Z -> S -> kstate -> Prop) (body : Z -> S -> K S) n : forall lo x s,
  (forall i x s, lo <= i < lo + Z.of_nat n -> I i x s -> exists x' s', body i x s = Done x' s' /\ I (i + 1) x' s') ->
  I lo x s -> exists x' s', kfor n lo body x s = Done x' s' /\ I (lo + Z.of_nat n) x' s'.
Proof.
  induction n as [|n IH]; intros lo x s H Hi.
  - exists x, s. split; [done|]. by replace (lo + Z.of_nat 0) with lo by lia.
  - destruct (H lo x s) as (x1 & s1 & H1 & Hi1); [lia|done|]. cbn [kfor]. kstep H1.
    destruct (IH (lo + 1) x1 s1) as (x2 & s2 & H2 & Hi2); [|done|].
    + intros i x' s' Hr. apply H. lia.
    + exists x2, s2. split; [done|]. by replace (lo + Z.of_nat (Datatypes.S n)) with (lo + 1 + Z.of_nat n) by lia.
Qed.
