(* ===== verification/Sched.v ===== *)
(** Context switches, the kernel mutex as the code locks it, the system calls
    that neither read nor write user memory, and the two device handlers:
    [kern/context_switcher.c], [kern/mutex.c], [kern/timer.c],
    [kern/keyboard.c] and parts of [kern/system_call.c] and
    [kern/ctrl_blk.c]. *)
From S2P Require Import Prelude Ring KMutex Frames Vm Keyhelp Keyboard Console Machine CtrlBlk Kernel.
#[local] Open Scope Z_scope.

(** ** Switching *)

(** [save_and_load] of [context.S]: the flags and [%cr3] are part of what is
    saved and loaded; the thread goes on when another one switches to it. *)
Definition save_and_load (original target : addr) : K unit :=
  t ← tcb_at target;
  b ← pcb_at (tcb_pcb t);
  primitive (fun s =>
    let flags := int_flag s in
    Switch original target (with_cr3 (Z.lor (page_directory b) (Z.land (cr3 s) 4095)) s)
      (fun s => Done tt (with_int_flag flags s))).

Definition set_esp0 (target : addr) : K unit := modify (with_cpu_esp0 target).

Definition switch_context (target : addr) (state : Z) (bd : option blocking_detail_t) : K Z :=
  if decide (target = NULL) then mret FAIL
  else if bool_decide (~ (NEW_STATE <= state <= TERMINATED_STATE)) then mret FAIL
  else if bool_decide (state = WAITING_STATE /\ bd = None) then mret FAIL
  else
    original ← running_tcb;
    _ ← ctl_op (alter_state original state bd);
    _ ← ctl_op (alter_state target RUNNING_STATE None);
    set_esp0 target;;
    save_and_load original target;;
    mret OK.

(** [handle_yield]. *)
Definition handle_yield (u : ureg_t) : K ureg_t :=
  let tid := s32 (esi u) in
  disable_interrupts;;
  if decide (tid = -1) then
    next_tcb ← ctl_op round_robin;
    if decide (next_tcb = NULL) then enable_interrupts;; mret (set_eax (u32 (-1)) u)
    else
      switch_context next_tcb READY_STATE None;;
      enable_interrupts;; mret (set_eax 0 u)
  else
    tcb_ptr ← ctl_get (fun c => find_tcb_in_list c tid READY_STATE);
    if decide (tcb_ptr = NULL) then enable_interrupts;; mret (set_eax (u32 (-1)) u)
    else
      switch_context tcb_ptr READY_STATE None;;
      enable_interrupts;; mret (set_eax 0 u).

(** ** The mutex *)

(** A thread that finds the lock taken 2^64 times gives up in the model. *)
Definition SPIN : nat := 64.

(** One evaluation of the condition of the loop of [mutex_lock] and its body. *)
Definition lock_round (l : lock_id) (_ : unit) : K (unit + unit) :=
  m ← load_lock l;
  store_lock l (xchange m LOCKED).2;;
  if decide ((xchange m LOCKED).1 = UNLOCKED) then mret (inr tt)
  else
    m ← load_lock l;
    handle_yield (set_esi (u32 (owner_tid m)) ureg_zero);;
    mret (inl tt).

Definition set_owner (l : lock_id) : K unit :=
  tid ← running_tid;
  m ← load_lock l;
  store_lock l (Mutex (lock_state m) tid).

(** [mutex_lock] with what the devices do between its first rounds, one
    computation for each of them; [mutex_lock] when they keep quiet. *)
Fixpoint mutex_lock_with (irqs : list (K unit)) (l : lock_id) : K unit :=
  match irqs with
  | [] => loop SPIN (lock_round l) tt;; set_owner l
  | irq :: irqs =>
      r ← lock_round l tt;
      match r with
      | inr _ => set_owner l
      | inl _ => interruptible irq;; mutex_lock_with irqs l
      end
  end.
Definition mutex_lock : lock_id -> K unit := mutex_lock_with [].

Definition mutex_try_lock (l : lock_id) : K Z :=
  m ← load_lock l;
  store_lock l (xchange m LOCKED).2;;
  if decide ((xchange m LOCKED).1 = UNLOCKED) then set_owner l;; mret OK
  else mret FAIL.

Definition mutex_unlock (l : lock_id) : K unit :=
  m ← load_lock l;
  store_lock l (KMutex.mutex_unlock m).

(** ** Threads *)

Definition handle_gettid (u : ureg_t) : K ureg_t :=
  tid ← running_tid; mret (set_eax (u32 tid) u).

Definition handle_halt : K unit := fun s => Halted s.

Definition handle_make_runnable (u : ureg_t) : K ureg_t :=
  let tid := s32 (esi u) in
  disable_interrupts;;
  tcb_ptr ← ctl_get (fun c => find_tcb_in_list c tid DESCHEDULE);
  if decide (tcb_ptr = NULL) then enable_interrupts;; mret (set_eax (u32 (-1)) u)
  else
    ctl_op (alter_state tcb_ptr READY_STATE None);;
    enable_interrupts;;
    mret (set_eax 0 u).

Definition handle_sleep (u : ureg_t) : K ureg_t :=
  let ticks := s32 (esi u) in
  if decide (ticks < 0) then mret (set_eax (u32 (-1)) u)
  else if decide (ticks = 0) then mret (set_eax 0 u)
  else
    pcb ← running_pcb;
    mutex_lock (PcbLock pcb);;
    disable_interrupts;;
    target ← ctl_op find_next_thread;
    when (bool_decide (target = NULL)) handle_halt;;
    now ← gets tick_count;
    mutex_unlock (PcbLock pcb);;
    switch_context target WAITING_STATE (Some (BlockingDetail SLEEP (u32 (now + ticks))));;
    enable_interrupts;;
    mret (set_eax 0 u).

Definition handle_get_ticks (u : ureg_t) : K ureg_t :=
  now ← gets tick_count; mret (set_eax now u).

Definition handle_set_status (u : ureg_t) : K ureg_t :=
  pcb ← running_pcb;
  update_pcb pcb (set_status (s32 (esi u)));;
  mret u.

(** Wake the first thread of the process that waits for a child. *)
Definition wake_waiter (pcb : addr) : K unit :=
  t ← ctl_get (fun c => find_tcb_in_list c pcb VANISH_WAIT);
  when (bool_decide (t <> NULL)) (ctl_op (alter_state t READY_STATE None);; mret tt).

(** The last thread of the process: wake a waiting parent and leave the
    process. *)
Definition leave_process (pcb : addr) : K addr :=
  b ← pcb_at pcb;
  wake_waiter (parent_pcb_ptr b);;
  next_tcb ← ctl_op round_robin;
  when (bool_decide (next_tcb = NULL)) handle_halt;;
  mret next_tcb.

Definition handle_vanish : K unit :=
  pcb ← running_pcb;
  mutex_lock (PcbLock pcb);;
  '(r, alive) ← ctl_get (fun c => get_thread_alive_count c pcb);
  affirm (bool_decide (r = 0));;
  disable_interrupts;;
  next_tcb ← (if decide (alive = 1) then leave_process pcb else ctl_op find_next_thread);
  mutex_unlock (PcbLock pcb);;
  switch_context next_tcb TERMINATED_STATE None;;
  enable_interrupts.

(** The loop of [handle_task_vanish] over the threads of the process: one round,
    which ends in the next node, and all of them. *)
Definition terminate_round (me pcb node : addr) : K (addr + unit) :=
  when (bool_decide (node <> me)) (ctl_op (alter_state node TERMINATED_STATE None);; mret tt);;
  n ← ctl_get (fun c => cells (tcbs c) !! node);
  b ← pcb_at pcb;
  if decide (next n = tcb_list b) then mret (inr tt) else mret (inl (next n)).
Definition terminate_others (me pcb : addr) : K unit :=
  b ← pcb_at pcb;
  loop 32 (terminate_round me pcb) (tcb_list b).

Definition handle_task_vanish (u : ureg_t) : K unit :=
  let status := s32 (esi u) in
  me ← running_tcb;
  pcb ← running_pcb;
  mutex_lock (PcbLock pcb);;
  disable_interrupts;;
  terminate_others me pcb;;
  enable_interrupts;;
  mutex_unlock (PcbLock pcb);;
  update_pcb pcb (set_status status);;
  handle_vanish.

(** ** [thread_fork_ctrl_blk] *)

(** The node just allocated at [q] is put before [dest]. *)
Definition link_new (q dest : addr) (h : heap addr) : option (heap addr) :=
  d ← h !! dest;
  h ← set_next q dest h;
  h ← set_previous q (previous d) h;
  n ← h !! q;
  h ← set_previous (next n) q h;
  n ← h !! q;
  set_next (previous n) q h.

(** The node alone in the ready list. *)
Definition link_alone (q : addr) (c : ctrl) : option ctrl :=
  h ← set_next q q (cells (links c));
  h ← set_previous q q h;
  set_thread_list READY_STATE q (set_links_heap h c).

(** [malloc] of a list node holding [tcb]; its links are stored afterwards. *)
Definition new_link (tcb : addr) (c : ctrl) : option (addr * ctrl) :=
  match pool (links c) with
  | [] => Some (NULL, c)
  | q :: rest => Some (q, set_links (Zone (<[q := Node NULL NULL tcb]> (cells (links c))) rest) c)
  end.

(** Put the new node behind the last ready thread of the process, or at the
    end of the ready list. *)
Definition link_thread (q pcb : addr) (c : ctrl) : option ctrl :=
  front ← thread_list c READY_STATE;
  let h := cells (links c) in
  same ← (if decide (front = NULL) then Some NULL
          else
            fn ← h !! front;
            search previous (fun _ n => t ← link_tcb c n; Some (bool_decide (tcb_pcb t = pcb)))
              h (previous fn) (previous fn));
  if decide (same <> NULL) then
    n ← h !! same; h ← link_new q (next n) h; Some (set_links_heap h c)
  else if decide (front = NULL) then link_alone q c
  else h ← link_new q front h; Some (set_links_heap h c).

(** [PUSH_BACK(tcb_node_t, pcb->tcb_list, t, success)] and the address of the
    new node; [NULL] on failure. *)
Definition push_tcb (pcb : addr) (t : tcb_t) (c : ctrl) : option (addr * ctrl) :=
  b ← get_pcb c pcb;
  '(success, z, front) ← PUSH_BACK (tcb_list b) t (tcbs c);
  if (success : bool) then
    c ← upd_pcb pcb (set_tcb_list front) (set_tcbs z c);
    fn ← cells (tcbs c) !! front;
    Some (previous fn, c)
  else Some (NULL, c).

(** [POP_BACK(tcb_node_t, pcb->tcb_list)]. *)
Definition pop_tcb (pcb : addr) (c : ctrl) : option ctrl :=
  b ← get_pcb c pcb;
  '(z, front) ← POP_BACK (tcb_list b) (tcbs c);
  upd_pcb pcb (set_tcb_list front) (set_tcbs z c).

(** [save_ureg] of [context.S]: the frame the new thread starts from; the
    forking calls return 0 in it. *)
Definition save_ureg (tcb : addr) (u : ureg_t) : K unit :=
  update_tcb tcb (set_kernel_stack (Some (set_eax 0 u))).

(** [mutex_lock(&thread_manager_lock); int new_tid = thread_count++; mutex_unlock(...)]. *)
Definition fresh_tid : K Z :=
  mutex_lock ThreadManagerLock;;
  n ← gets (fun s => thread_count (ctl s));
  modify (fun s => with_ctl (set_thread_count (s32 (n + 1)) (ctl s)) s);;
  mutex_unlock ThreadManagerLock;;
  mret n.

Definition thread_fork_ctrl_blk (u : ureg_t) : K Z :=
  old_tcb ← running_tcb;
  t ← tcb_at old_tcb;
  let pcb := tcb_pcb t in
  new_tcb ← ctl_op (push_tcb pcb t);
  if decide (new_tcb = NULL) then mret FAIL
  else
    update_tcb new_tcb (fun t => set_state READY_STATE (set_exception_stack NULL t));;
    new_tid ← fresh_tid;
    update_tcb new_tcb (set_tid new_tid);;
    save_ureg new_tcb u;;
    q ← ctl_op (new_link new_tcb);
    if decide (q = NULL) then ctl_upd (pop_tcb pcb);; mret FAIL
    else
      disable_interrupts;;
      ctl_upd (link_thread q pcb);;
      enable_interrupts;;
      mret new_tid.

Definition handle_thread_fork (u : ureg_t) : K ureg_t :=
  pcb ← running_pcb;
  mutex_lock (PcbLock pcb);;
  new_tid ← thread_fork_ctrl_blk u;
  mutex_unlock (PcbLock pcb);;
  mret (set_eax (if decide (new_tid < 0) then u32 (-1) else new_tid) u).

(** One round of [find_exited_child]: the child itself, the end, or the next. *)
Definition visit_child (parent current : addr) : K (addr + addr) :=
  mutex_lock (PcbLock current);;
  '(r, alive_count) ← ctl_get (fun c => get_thread_alive_count c current);
  affirm (bool_decide (r = 0));;
  if decide (alive_count = 0) then mret (inr current)
  else
    n ← ctl_get (fun c => cells (pcbs c) !! current);
    b ← pcb_at parent;
    if decide (next n = child_pcb_list b) then mret (inr NULL) else mret (inl (next n)).

(** [find_exited_child]: locks the children it passes, the one found included. *)
Definition find_exited_child (parent : addr) : K addr :=
  b ← pcb_at parent;
  if decide (child_pcb_list b = NULL) then mret NULL
  else loop 32 (visit_child parent) (child_pcb_list b).

(** ** Devices *)

Definition TIMER_INTERRUPT_HZ : Z := 500.
Definition ROUND_ROBIN_HZ : Z := 500.

(** The front of a list, [NULL] if it is empty, and its thread. *)
Definition front_tcb (i : Z) : K addr :=
  front ← ctl_get (fun c => thread_list c i);
  if decide (front = NULL) then mret NULL
  else ctl_get (fun c => data <$> cells (links c) !! front).

(** [handle_timer]; [callback] is [NULL] since [install_timer(NULL)]. *)
Definition handle_timer : K unit :=
  modify (fun s => with_tick_count (u32 (tick_count s + 1)) s);;
  now ← gets tick_count;
  sleeper ← front_tcb SLEEP;
  due ← (if decide (sleeper = NULL) then mret false
         else t ← tcb_at sleeper; mret (bool_decide (wakeup_time (blocking_detail t) <= now)));
  if (due : bool) then switch_context sleeper READY_STATE None;; mret tt
  else if decide (now `mod` (TIMER_INTERRUPT_HZ / ROUND_ROBIN_HZ) = 0) then
    target ← ctl_op round_robin;
    when (bool_decide (target <> NULL)) (switch_context target READY_STATE None;; mret tt)
  else mret tt.

(** [inb(KEYBOARD_PORT)], stored in a [char]. *)
Definition read_port : K Z :=
  fun s => match port s with
           | [] => Done 0 s
           | b :: rest => Done (s8 b) (with_port rest s)
           end.

Definition push_scancode (x : Z) : K unit :=
  fun s => match push_tail (scancode_buf s) x with
           | Some (_, b) => Done tt (with_scancode_buf b s)
           | None => Crashed
           end.

Definition handle_keyboard : K unit :=
  scancode ← read_port;
  push_scancode scancode;;
  reader ← front_tcb READLINE;
  if decide (reader = NULL) then mret tt
  else
    t ← tcb_at reader;
    when (first_reader (blocking_detail t)) (switch_context reader READY_STATE None;; mret tt).

(** [fault_kill_thread]. *)
Definition fault_kill_thread : K unit :=
  pcb ← running_pcb;
  mutex_lock (PcbLock pcb);;
  '(_, alive) ← ctl_get (fun c => get_thread_alive_count c pcb);
  mutex_unlock (PcbLock pcb);;
  when (bool_decide (alive <= 1)) (update_pcb pcb (set_status (-2)));;
  handle_vanish.

(** * The scheduler's invariant *)

(** The lists are well-formed, one thread runs, and every listed thread belongs
    to a process. *)
Record scheduled (s : kstate) (LS : Z -> list addr) (me : addr) : Prop := {
  sc_sched : sched_ok (ctl s) LS;
  sc_running : LS RUNNING_STATE = [me];
  sc_process : forall i p t, list_index i -> p ∈ LS i -> get_tcb (ctl s) p = Some t ->
    is_Some (get_pcb (ctl s) (tcb_pcb t));
}.

(** The lists after the running thread went to the list of its new state and
    [target] became the running one. *)
Definition switched_lists (c : ctrl) (LS : Z -> list addr) (me : addr) (mt : tcb_t) (target state : Z)
    (bd : option blocking_detail_t) : Z -> list addr :=
  match target_list state bd with
  | None => LS
  | Some j =>
      let '(M1, M2) := place c (tcb_pcb mt) state bd (LS j) in
      upd RUNNING_STATE [target] (fun i => filter (fun q => q <> target) (upd j (M1 ++ me :: M2) LS i))
  end.

(** What a context switch does to the state. *)
Record switched (s : kstate) (LS : Z -> list addr) (me : addr) (mt : tcb_t) (target : addr) (t : tcb_t)
    (state : Z) (bd : option blocking_detail_t) (s' : kstate) : Prop := {
  sw_sched : scheduled s' (switched_lists (ctl s) LS me mt target state bd) target;
  sw_sorted : sleep_sorted (ctl s) LS -> sleep_sorted (ctl s') (switched_lists (ctl s) LS me mt target state bd);
  sw_tcb : forall q, get_tcb (ctl s') q =
    if decide (q = target) then Some (with_state RUNNING_STATE None t)
    else if decide (q = me) then Some (with_state state bd mt) else get_tcb (ctl s) q;
  sw_ctl : ctl s' = set_tcbs (tcbs (ctl s'))
    (set_thread_lists (thread_lists (ctl s')) (set_links (links (ctl s')) (ctl s)));
  sw_space : exists b, get_pcb (ctl s) (tcb_pcb t) = Some b /\
    cr3 s' = Z.lor (page_directory b) (Z.land (cr3 s) 4095);
  sw_stack : cpu_esp0 s' = target;
  sw_rest : s' = with_cr3 (cr3 s') (with_cpu_esp0 (cpu_esp0 s') (with_ctl (ctl s') s));
  sw_nodes : same_threads (ctl s) (ctl s');
}.

Lemma filter_ne_id (l : list addr) p : p ∉ l -> filter (fun q => q <> p) l = l.
Proof.
  induction l as [|x l IH]; intros Hp; [done|]. rewrite filter_cons, decide_True by set_solver.
  f_equal. apply IH. set_solver.
Qed.

Lemma tcb_pcb_with_state state bd t : tcb_pcb (with_state state bd t) = tcb_pcb t.
Proof. unfold with_state. destruct bd; [|done]. by case_decide. Qed.

Section switching.
Context (s : kstate) (LS : Z -> list addr) (me : addr).
Context (Hsc : scheduled s LS me).

Lemma running_is : running (ctl s) = Some me.
Proof. eapply running_ok; [apply Hsc|]. by rewrite (sc_running _ _ _ Hsc). Qed.

Lemma running_home : exists mt, me <> NULL /\ get_tcb (ctl s) me = Some mt /\ home_list mt = Some RUNNING_STATE.
Proof.
  destruct (sched_thread (ctl s) LS RUNNING_STATE me) as (Hn & mt & Ht & Hh); [apply Hsc|done| |by exists mt].
  rewrite (sc_running _ _ _ Hsc). left.
Qed.

Lemma not_running i p : list_index i -> i <> RUNNING_STATE -> p ∈ LS i -> p <> me.
Proof.
  intros Hi Hir Hp ->. destruct running_home as (mt & _ & Ht & Hh). apply Hir.
  eapply sched_not_elsewhere; [apply Hsc|exact Ht|exact Hh|done|done].
Qed.

(** The two calls of [alter_state] of a switch. *)
Lemma switch_lists_ok mt target t i j st bd :
  get_tcb (ctl s) me = Some mt -> get_tcb (ctl s) target = Some t ->
  list_index i -> i <> RUNNING_STATE -> target ∈ LS i -> target_list st bd = Some j -> j <> RUNNING_STATE ->
  exists c1 c2, alter_state me st bd (ctl s) = Some (OK, c1) /\
    alter_state target RUNNING_STATE None c1 = Some (OK, c2) /\
    sched_ok c2 (switched_lists (ctl s) LS me mt target st bd) /\
    (sleep_sorted (ctl s) LS -> sleep_sorted c2 (switched_lists (ctl s) LS me mt target st bd)) /\
    (forall q, get_tcb c2 q = if decide (q = target) then Some (with_state RUNNING_STATE None t)
                              else if decide (q = me) then Some (with_state st bd mt) else get_tcb (ctl s) q) /\
    c2 = set_tcbs (tcbs c2) (set_thread_lists (thread_lists c2) (set_links (links c2) (ctl s))).
Proof.
  intros Hmt Ht Hi Hir Hin Hj Hjr. pose proof (not_running i target Hi Hir Hin) as Hne.
  pose proof (target_list_index _ _ _ Hj) as Hji.
  destruct (alter_state_requeue (ctl s) LS me mt st bd RUNNING_STATE j) as (c1 & M1 & M2 & H1 & Hpl & Hs1 & Hg1 & He1);
    [apply Hsc|done| |done|done|done|].
  { rewrite (sc_running _ _ _ Hsc). left. }
  rewrite (sc_running _ _ _ Hsc), filter_cons, decide_False in Hs1 by tauto.
  pose proof (place_split _ _ _ _ _ _ _ Hpl) as HLj.
  set (LS1 := upd j (M1 ++ me :: M2) (upd RUNNING_STATE (filter (fun q => q <> me) []) LS)) in Hs1.
  assert (target ∈ LS1 i) as Hin1.
  { unfold LS1, upd. destruct (decide (i = j)) as [->|Hij]; [|by rewrite decide_False].
    rewrite HLj in Hin. set_solver. }
  destruct (alter_state_requeue c1 LS1 target t RUNNING_STATE None i RUNNING_STATE)
    as (c2 & N1 & N2 & H2 & Hpl2 & Hs2 & Hg2 & He2); try done.
  { rewrite Hg1. by rewrite decide_False. }
  assert (Heq : forall k, list_index k -> switched_lists (ctl s) LS me mt target st bd k =
    upd RUNNING_STATE (N1 ++ target :: N2) (upd i (filter (fun q => q <> target) (LS1 i)) LS1) k).
  { intros k Hk. unfold switched_lists. rewrite Hj, Hpl.
    apply place_split in Hpl2. unfold LS1 in *. unfold upd in *. destruct (decide (k = RUNNING_STATE)) as [->|Hkr].
    { rewrite decide_False in Hpl2 by done. rewrite decide_True in Hpl2 by done.
      rewrite filter_nil in Hpl2. symmetry in Hpl2. apply app_eq_nil in Hpl2 as [-> ->]. done. }
    destruct (decide (k = i)) as [->|Hki].
    { destruct (decide (i = j)); [done|]. by rewrite (decide_False (P := i = RUNNING_STATE)). }
    destruct (decide (k = j)) as [->|Hkj].
    + apply filter_ne_id. intros Hx. apply elem_of_app in Hx as [Hx|[Hx|Hx]%elem_of_cons]; [|done|].
      all: apply Hki; destruct (sched_thread (ctl s) LS i target) as (_ & t' & Ht' & Hh'); [apply Hsc|done..|];
        eapply sched_not_elsewhere; [apply Hsc|exact Ht'|exact Hh'|done|rewrite HLj; set_solver].
    + apply filter_ne_id. intros Hx. apply Hki.
      destruct (sched_thread (ctl s) LS i target) as (_ & t' & Ht' & Hh'); [apply Hsc|done..|].
      eapply sched_not_elsewhere; [apply Hsc|exact Ht'|exact Hh'|done|done]. }
  exists c1, c2. split; [done|]. split; [done|]. split; [by eapply sched_ok_ext|]. split; [|split].
  - intros Hsort. unfold sleep_sorted. rewrite Heq by done.
    destruct (sched_thread (ctl s) LS i target) as (_ & t' & Ht' & Hh'); [apply Hsc|done..|].
    rewrite Ht in Ht'. injection Ht' as <-. destruct running_home as (mt' & _ & Hmt' & Hmh).
    rewrite Hmt in Hmt'. injection Hmt' as <-.
    eapply (requeue_sorted c1 c2 LS1 target t RUNNING_STATE None i RUNNING_STATE); try done.
    2:{ by rewrite Hg1, decide_False. }
    assert (filter (fun q => q <> me) [] = filter (fun q => q <> me) (LS RUNNING_STATE)) as Hf.
    { rewrite (sc_running _ _ _ Hsc), filter_cons, decide_False by tauto. done. }
    unfold LS1. rewrite Hf.
    eapply (requeue_sorted (ctl s) c1 LS me mt st bd RUNNING_STATE j); try done. apply Hsc.
  - intros q. rewrite Hg2, Hg1. done.
  - rewrite He2 at 1. rewrite He1. done.
Qed.

End switching.

Lemma switched_process (s s' : kstate) LS me mt target t i j st bd : scheduled s LS me ->
  get_tcb (ctl s) me = Some mt -> get_tcb (ctl s) target = Some t -> list_index i -> target ∈ LS i ->
  target_list st bd = Some j -> pcbs (ctl s') = pcbs (ctl s) ->
  (forall q, get_tcb (ctl s') q = if decide (q = target) then Some (with_state RUNNING_STATE None t)
                             else if decide (q = me) then Some (with_state st bd mt) else get_tcb (ctl s) q) ->
  sched_ok (ctl s') (switched_lists (ctl s) LS me mt target st bd) ->
  scheduled s' (switched_lists (ctl s) LS me mt target st bd) target.
Proof.
  intros Hsc Hmt Ht Hi Hin Hj Hpcbs Hget Hs. split; [done| |].
  { unfold switched_lists. rewrite Hj. destruct (place _ _ _ _ _). by rewrite upd_eq. }
  assert (Hproc : forall p, is_Some (get_pcb (ctl s) p) -> is_Some (get_pcb (ctl s') p)).
  { intros p. unfold get_pcb. by rewrite Hpcbs. }
  assert (He : forall p k t', list_index k -> p ∈ LS k -> get_tcb (ctl s) p = Some t' -> is_Some (get_pcb (ctl s') (tcb_pcb t'))).
  { intros p k t' Hk Hp Hp'. by apply Hproc, (sc_process _ _ _ Hsc k p). }
  intros k p t' Hk Hp Htp. rewrite Hget in Htp.
  destruct (decide (p = target)) as [->|Hpt].
  { injection Htp as <-. rewrite tcb_pcb_with_state. by apply (He target i). }
  destruct (decide (p = me)) as [->|Hpm].
  { injection Htp as <-. rewrite tcb_pcb_with_state. apply (He me RUNNING_STATE); [done| |done].
    rewrite (sc_running _ _ _ Hsc). left. }
  apply (He p k); [done| |done]. unfold switched_lists in Hp. rewrite Hj in Hp.
  destruct (place (ctl s) (tcb_pcb mt) st bd (LS j)) as [M1 M2] eqn:Hpl. apply place_split in Hpl.
  unfold upd in Hp. destruct (decide (k = RUNNING_STATE)) as [->|].
  { apply elem_of_cons in Hp as [?|Hp]; [done|]. by apply not_elem_of_nil in Hp. }
  apply list_elem_of_filter in Hp as [_ Hp]. destruct (decide (k = j)) as [->|]; [|done].
  rewrite Hpl. set_solver.
Qed.

(** Everything [switch_context] does, for a listed target. *)
Lemma switch_context_ok (s : kstate) LS me mt target t i j st bd : scheduled s LS me ->
  get_tcb (ctl s) me = Some mt -> get_tcb (ctl s) target = Some t ->
  list_index i -> i <> RUNNING_STATE -> target ∈ LS i -> target_list st bd = Some j -> j <> RUNNING_STATE ->
  exists s' k, switch_context target st bd s = Switch me target s' k /\
    switched s LS me mt target t st bd s' /\
    forall s2, k s2 = Done OK (with_int_flag (int_flag s) s2).
Proof.
  intros Hsc Hmt Ht Hi Hir Hin Hj Hjr.
  destruct (switch_lists_ok s LS me Hsc mt target t i j st bd) as (c1 & c2 & H1 & H2 & Hs2 & Hso & Hg2 & He2); try done.
  destruct (sched_thread (ctl s) LS i target) as (Hn & _); [apply Hsc|done..|].
  destruct (target_list_guard _ _ _ Hj) as [Hst Hbd].
  destruct (sc_process _ _ _ Hsc i target t Hi Hin Ht) as [b Hb].
  set (s1 := with_ctl c1 s). set (s2 := with_ctl c2 s1). set (s3 := with_cpu_esp0 target s2).
  assert (E1 : running_tcb s = Done me s) by (apply running_tcb_ok; by eapply running_is).
  assert (E2 : ctl_op (alter_state me st bd) s = Done OK s1) by by apply ctl_op_ok.
  assert (E3 : ctl_op (alter_state target RUNNING_STATE None) s1 = Done OK s2) by by apply ctl_op_ok.
  assert (Ht3 : get_tcb (ctl s3) target = Some (with_state RUNNING_STATE None t)).
  { cbn [ctl s3 s2 with_cpu_esp0 with_ctl]. by rewrite Hg2, decide_True. }
  assert (Hb3 : get_pcb (ctl s3) (tcb_pcb (with_state RUNNING_STATE None t)) = Some b).
  { rewrite tcb_pcb_with_state. unfold get_pcb. cbn [ctl s3 s2 with_cpu_esp0 with_ctl]. rewrite He2. exact Hb. }
  unfold switch_context. rewrite decide_False by done.
  rewrite bool_decide_false by (unfold NEW_STATE, READY_STATE in *; lia).
  rewrite bool_decide_false by done. kstep E1. kstep E2. kstep E3.
  rewrite (bind_Done _ _ _ _ _ (modify_ok (with_cpu_esp0 target) s2)).
  unfold save_and_load. fold s3.
  change (_ s3) with
    (obind (fun _ => mret OK) ((t0 ← tcb_at target; b0 ← pcb_at (tcb_pcb t0); primitive (fun s0 =>
       Switch me target (with_cr3 (Z.lor (page_directory b0) (Z.land (cr3 s0) 4095)) s0)
      (fun s4 => Done tt (with_int_flag (int_flag s0) s4)))) s3)).
  rewrite (bind_Done _ _ _ _ _ (tcb_at_ok _ _ _ Ht3)), (bind_Done _ _ _ _ _ (pcb_at_ok _ _ _ Hb3)).
  eexists _, _. split; [reflexivity|]. split; [|reflexivity]. split.
  - eapply (switched_process s _ LS me mt target t i j); try done.
    cbn [ctl with_cr3 s3 s2 with_cpu_esp0 with_ctl]. rewrite He2. done.
  - exact Hso.
  - exact Hg2.
  - exact He2.
  - by exists b.
  - done.
  - done.
  - eapply same_threads_trans; by eapply alter_state_threads.
Qed.

Lemma switch_then_ok {A} (f : Z -> K A) (s : kstate) LS me mt target t i j st bd : scheduled s LS me ->
  get_tcb (ctl s) me = Some mt -> get_tcb (ctl s) target = Some t ->
  list_index i -> i <> RUNNING_STATE -> target ∈ LS i -> target_list st bd = Some j -> j <> RUNNING_STATE ->
  exists s' k, (switch_context target st bd ≫= f) s = Switch me target s' k /\
    switched s LS me mt target t st bd s' /\
    forall s2, k s2 = f OK (with_int_flag (int_flag s) s2).
Proof.
  intros Hsc Hmt Ht Hi Hir Hin Hj Hjr.
  destruct (switch_context_ok s LS me mt target t i j st bd) as (s' & k & H & Hsw & Hk); try done.
  kstep H. eexists _, _. split; [reflexivity|]. split; [done|]. intros s2. by rewrite Hk.
Qed.

(** Where threads are after a switch. *)
Section switched_lists.
Context (s : kstate) (LS : Z -> list addr) (me : addr) (mt : tcb_t) (target : addr) (st : Z)
  (bd : option blocking_detail_t) (i j : Z).
Context (Hsc : scheduled s LS me) (Hi : list_index i) (Hin : target ∈ LS i) (Hj : target_list st bd = Some j).

Lemma target_only_at k : list_index k -> target ∈ LS k -> k = i.
Proof.
  destruct (sched_thread (ctl s) LS i target) as (_ & t & Ht & Hh); [apply Hsc|done..|].
  eapply sched_not_elsewhere; [apply Hsc|exact Ht|exact Hh].
Qed.

Lemma switched_running : switched_lists (ctl s) LS me mt target st bd RUNNING_STATE = [target].
Proof. unfold switched_lists. rewrite Hj. destruct (place _ _ _ _ _). by rewrite upd_eq. Qed.

Lemma switched_other k : list_index k -> k <> RUNNING_STATE -> k <> j -> k <> i ->
  switched_lists (ctl s) LS me mt target st bd k = LS k.
Proof.
  intros Hk Hkr Hkj Hki. unfold switched_lists. rewrite Hj. destruct (place _ _ _ _ _) as [M1 M2].
  rewrite upd_ne, upd_ne by done. apply filter_ne_id. intros Hx. by apply Hki, target_only_at.
Qed.

Lemma switched_source : i <> RUNNING_STATE -> i <> j ->
  switched_lists (ctl s) LS me mt target st bd i = filter (fun q => q <> target) (LS i).
Proof.
  intros Hir Hij. unfold switched_lists. rewrite Hj. destruct (place _ _ _ _ _) as [M1 M2].
  by rewrite upd_ne, upd_ne.
Qed.

Lemma switched_dest : j <> RUNNING_STATE -> me <> target ->
  switched_lists (ctl s) LS me mt target st bd j ≡ₚ me :: filter (fun q => q <> target) (LS j).
Proof.
  intros Hjr Hne. unfold switched_lists. rewrite Hj. destruct (place _ _ _ _ _) as [M1 M2] eqn:Hpl.
  rewrite upd_ne, upd_eq by done. apply place_split in Hpl. rewrite Hpl, !filter_app, filter_cons.
  rewrite decide_True by done. by rewrite Permutation_middle.
Qed.

End switched_lists.

Lemma with_ctl_id s : with_ctl (ctl s) s = s.
Proof. by destruct s. Qed.
Lemma with_int_flag_twice a b s : with_int_flag a (with_int_flag b s) = with_int_flag a s.
Proof. done. Qed.

Lemma scheduled_ctl s s' LS me : ctl s' = ctl s -> scheduled s LS me -> scheduled s' LS me.
Proof. intros E [H1 H2 H3]. by split; rewrite ?E. Qed.

Lemma head_elem (l : list addr) x r : l = x :: r -> x ∈ l.
Proof. intros ->. left. Qed.

(** [round_robin] in the kernel. *)
Lemma round_robin_step s LS me : scheduled s LS me ->
  exists s', ctl_op round_robin s = Done (front_of (LS READY_STATE)) s' /\ s' = with_ctl (ctl s') s /\
    same_blocks (ctl s) (ctl s') /\
    scheduled s' (upd READY_STATE (rotate_ready (ctl s) (LS READY_STATE)) LS) me /\
    rotate_ready (ctl s) (LS READY_STATE) ≡ₚ LS READY_STATE /\ (LS READY_STATE = [] -> s' = s).
Proof.
  intros Hsc. destruct (round_robin_ok (ctl s) LS) as (c' & H1 & H2 & H3); [apply Hsc|].
  exists (with_ctl c' s). split; [by apply ctl_op_ok|]. split; [done|]. split; [done|].
  assert (Hp : rotate_ready (ctl s) (LS READY_STATE) ≡ₚ LS READY_STATE).
  { destruct (LS READY_STATE) as [|x r]; [done|]. cbn [rotate_ready].
    destruct (span_sat _ r) as [a0 b0] eqn:E. apply span_sat_app in E. destruct b0; [done|]. subst r.
    change (x :: a0 ++ z :: b0) with ((x :: a0) ++ z :: b0). apply Permutation_app_comm. }
  split; [|split; [done|]].
  - destruct Hsc as [S1 S2 S3]. split; [exact H3|by rewrite upd_ne|].
    intros i p t Hi Hin. cbn [ctl with_ctl]. rewrite (get_tcb_same _ _ H2). intros Ht.
    destruct H2 as [H2 _]. unfold get_pcb. rewrite H2. apply (S3 i p t); [done| |done].
    unfold upd in Hin. destruct (decide (i = READY_STATE)) as [->|]; [|done]. by rewrite <-Hp.
  - intros E. pose proof (thread_list_front (ctl s) LS READY_STATE ltac:(apply Hsc) ltac:(done)) as Hf.
    rewrite E in Hf. unfold round_robin in H1. rewrite Hf in H1. cbn [mbind option_bind] in H1.
    rewrite decide_True in H1 by done. injection H1 as _ <-. apply with_ctl_id.
Qed.

(** The thread [handle_yield] goes to. *)
Definition yield_choice (c : ctrl) (LS : Z -> list addr) (tid : Z) : addr :=
  if decide (tid = -1) then front_of (LS READY_STATE)
  else default NULL (first_sat (sought c tid READY_STATE) (LS READY_STATE)).

Lemma front_of_ready s LS me p : scheduled s LS me -> front_of (LS READY_STATE) = p -> p <> NULL ->
  p ∈ LS READY_STATE.
Proof. intros Hsc Hp Hn. destruct (LS READY_STATE); [by subst p|]. rewrite <-Hp. left. Qed.

Lemma front_of_empty s LS me i : scheduled s LS me -> list_index i -> front_of (LS i) = NULL -> LS i = [].
Proof.
  intros Hsc Hi Hf. destruct (LS i) as [|x r] eqn:E; [done|].
  destruct (sched_thread (ctl s) LS i x) as (Hn & _); [apply Hsc|done|by eapply head_elem|]. by destruct Hn.
Qed.

(** A yield that finds nobody to run. *)
Lemma handle_yield_refused (u : ureg_t) s LS me : scheduled s LS me ->
  yield_choice (ctl s) LS (s32 (esi u)) = NULL ->
  handle_yield u s = Done (set_eax (u32 (-1)) u) (with_int_flag true s).
Proof.
  intros Hsc Hch. unfold handle_yield, disable_interrupts, enable_interrupts, yield_choice in *. kpure.
  pose proof (scheduled_ctl s (with_int_flag false s) LS me eq_refl Hsc) as Hsc'.
  destruct (decide (s32 (esi u) = -1)) as [E|E].
  - destruct (round_robin_step _ _ _ Hsc') as (s1 & H1 & _ & _ & _ & _ & Hs1). rewrite Hch in H1. kstep H1.
    rewrite decide_True by done. kpure. rewrite Hs1; [done|]. by eapply front_of_empty.
  - assert (H1 : ctl_get (fun c => find_tcb_in_list c (s32 (esi u)) READY_STATE) (with_int_flag false s) =
                 Done NULL (with_int_flag false s)).
    { apply (ctl_get_ok (fun c => find_tcb_in_list c (s32 (esi u)) READY_STATE)).
      cbn [ctl with_int_flag]. rewrite (find_tcb_in_list_ok _ LS); [|apply Hsc|done]. by rewrite Hch. }
    kstep H1. rewrite decide_True by done. by kpure.
Qed.

(** A yield that switches. *)
Lemma handle_yield_switches (u : ureg_t) s LS me p : scheduled s LS me ->
  yield_choice (ctl s) LS (s32 (esi u)) = p -> p <> NULL ->
  exists mt t s1 LS1 s' k, handle_yield u s = Switch me p s' k /\
    get_tcb (ctl s) me = Some mt /\ get_tcb (ctl s) p = Some t /\ p ∈ LS READY_STATE /\
    scheduled s1 LS1 me /\ switched s1 LS1 me mt p t READY_STATE None s' /\
    same_blocks (ctl s) (ctl s1) /\ s1 = with_int_flag false (with_ctl (ctl s1) s) /\
    (forall i, i <> READY_STATE -> LS1 i = LS i) /\ LS1 READY_STATE ≡ₚ LS READY_STATE /\
    forall s2, k s2 = Done (set_eax 0 u) (with_int_flag true s2).
Proof.
  intros Hsc Hch Hp. destruct (running_home s LS me Hsc) as (mt & _ & Hmt & _).
  pose proof (scheduled_ctl s (with_int_flag false s) LS me eq_refl Hsc) as Hsc'.
  unfold handle_yield, disable_interrupts, enable_interrupts, yield_choice in *. kpure.
  destruct (decide (s32 (esi u) = -1)) as [E|E].
  - destruct (round_robin_step _ _ _ Hsc') as (s1 & H1 & He & Hsb & Hsc1 & Hperm & _).
    pose proof (front_of_ready s LS me p Hsc Hch Hp) as Hin. rewrite Hch in H1. kstep H1. rewrite decide_False by done.
    destruct (sched_thread (ctl s) LS READY_STATE p) as (_ & t & Ht & _); [apply Hsc|done|done|].
    pose proof (get_tcb_same _ _ Hsb) as Hg. cbn [ctl with_int_flag] in Hg.
    destruct (switch_then_ok (fun _ => modify (with_int_flag true);; mret (set_eax 0 u)) s1 _ me mt p t READY_STATE
                READY_STATE READY_STATE None Hsc1) as (s' & k & Hk & Hsw & Hres); try done.
    { by rewrite Hg. } { by rewrite Hg. } { rewrite upd_eq. by rewrite Hperm. }
    exists mt, t, s1, (upd READY_STATE (rotate_ready (ctl s) (LS READY_STATE)) LS), s', k.
    split; [exact Hk|]. split_and!; try done.
    intros i Hi. by rewrite upd_ne.
  - rewrite <-Hch in Hp. destruct (first_sat _ _) as [q|] eqn:Eq; cbn in Hp, Hch; [|done]. unfold id in Hch, Hp. subst q.
    assert (H1 : ctl_get (fun c => find_tcb_in_list c (s32 (esi u)) READY_STATE) (with_int_flag false s) =
                 Done p (with_int_flag false s)).
    { apply (ctl_get_ok (fun c => find_tcb_in_list c (s32 (esi u)) READY_STATE)).
      cbn [ctl with_int_flag]. rewrite (find_tcb_in_list_ok _ LS); [|apply Hsc|done]. by rewrite Eq. }
    apply first_sat_elem in Eq as [Hin _]. kstep H1. rewrite decide_False by done.
    destruct (sched_thread (ctl s) LS READY_STATE p) as (_ & t & Ht & _); [apply Hsc|done|done|].
    destruct (switch_then_ok (fun _ => modify (with_int_flag true);; mret (set_eax 0 u)) (with_int_flag false s)
                LS me mt p t READY_STATE READY_STATE READY_STATE None Hsc') as (s' & k & Hk & Hsw & Hres); try done.
    exists mt, t, (with_int_flag false s), LS, s', k. split; [exact Hk|].
    split_and!; try done; try (by destruct s). by destruct s as [[] ? ? ? ? ? ? ? ? ? ? ? ? ? ?].
Qed.

(** * The mutex *)

Lemma put_get_lock l m s s' : put_lock l m s = Some s' -> get_lock l s' = Some m.
Proof.
  destruct l as [p| | |]; cbn [put_lock get_lock]; [|by intros [= <-]..].
  intros (c & Hc & [= <-])%bind_Some. unfold upd_pcb, put_pcb, CtrlBlk.set_lock, set_data, get_pcb in *.
  apply bind_Some in Hc as (b & Hb & Hc). apply fmap_Some in Hb as (n & Hn & ->). rewrite Hn in Hc.
  cbn [mbind option_bind] in Hc. injection Hc as <-. cbn [ctl with_ctl pcbs set_pcbs cells].
  by rewrite lookup_insert_eq.
Qed.

Lemma put_lock_again l m s s' : put_lock l m s = Some s' -> forall m2, put_lock l m2 s' = put_lock l m2 s.
Proof.
  destruct l as [p| | |]; cbn [put_lock]; [|by intros [= <-]..].
  intros (c & Hc & [= <-])%bind_Some m2. unfold upd_pcb, put_pcb, CtrlBlk.set_lock, set_data, get_pcb in *.
  apply bind_Some in Hc as (b & Hb & Hc). apply fmap_Some in Hb as (n & Hn & ->). rewrite Hn in Hc |- *.
  cbn [mbind option_bind fmap option_fmap option_map] in *. injection Hc as <-.
  cbn [ctl with_ctl pcbs set_pcbs cells pool]. rewrite lookup_insert_eq.
  cbn [mbind option_bind fmap option_fmap option_map data]. rewrite insert_insert_eq. reflexivity.
Qed.

Lemma put_lock_same l m s : get_lock l s = Some m -> put_lock l m s = Some s.
Proof.
  destruct l as [p| | |]; cbn [put_lock get_lock].
  - intros (b & Hb & ->)%fmap_Some. pose proof Hb as Hb'. unfold get_pcb in Hb. apply fmap_Some in Hb as (n & Hn & ->).
    unfold upd_pcb, put_pcb, set_data. rewrite Hb'. cbn [mbind option_bind]. rewrite Hn. cbn [mbind option_bind].
    assert (CtrlBlk.set_lock (lock (data n)) (data n) = data n) as -> by (by destruct (data n)).
    destruct n as [nx pv d]. cbn [next previous data]. rewrite insert_id by done.
    by destruct s as [[? [] ? ? ? ? ? ?] ? ? ? ? ? ? ? ? ? ? ? ? ? ?].
  - intros [= <-]. by destruct s.
  - intros [= <-]. by destruct s.
  - intros [= <-]. by destruct s as [[] ? ? ? ? ? ? ? ? ? ? ? ? ? ?].
Qed.

Lemma put_lock_some l m m' s : get_lock l s = Some m -> is_Some (put_lock l m' s).
Proof.
  destruct l as [p| | |]; cbn [put_lock get_lock]; [|by eexists..].
  intros (b & Hb & _)%fmap_Some. pose proof Hb as Hb'. unfold get_pcb in Hb. apply fmap_Some in Hb as (n & Hn & ->).
  unfold upd_pcb, put_pcb, set_data. rewrite Hb'. cbn [mbind option_bind]. rewrite Hn. by eexists.
Qed.

(** Taking a lock changes nothing but the lock. *)
Lemma put_lock_ctl l m s s' : put_lock l m s = Some s' ->
  tcbs (ctl s') = tcbs (ctl s) /\ running (ctl s') = running (ctl s) /\ get_tcb (ctl s') = get_tcb (ctl s) /\
  links (ctl s') = links (ctl s) /\ thread_lists (ctl s') = thread_lists (ctl s).
Proof.
  destruct l as [p| | |]; cbn [put_lock]; [|by intros [= <-]..].
  intros (c & Hc & [= <-])%bind_Some. unfold upd_pcb, put_pcb in Hc.
  apply bind_Some in Hc as (b & _ & Hc). apply bind_Some in Hc as (z & _ & [= <-]). done.
Qed.

Lemma put_lock_scheduled l m s s' LS me : put_lock l m s = Some s' -> scheduled s LS me -> scheduled s' LS me.
Proof.
  intros Hput Hsc. destruct (put_lock_ctl _ _ _ _ Hput) as (_ & _ & Et & El & Eh).
  destruct Hsc as [[(ns & [A1 A2 A3 A4 A5 A6]) Hok] Hr Hp]. split; [split|done|].
  - exists ns. split; rewrite ?El, ?Eh; try done. intros i Hi. unfold thread_list. rewrite Eh. by apply A4.
  - intros i Hi. destruct (Hok i Hi) as [Hnd Ht]. split; [done|]. by rewrite Et.
  - intros i p t Hi Hin Ht. rewrite Et in Ht. specialize (Hp i p t Hi Hin Ht).
    destruct l as [q| | |]; cbn [put_lock] in Hput; [|by injection Hput as <-..].
    apply bind_Some in Hput as (c & Hc & [= <-]). unfold upd_pcb, put_pcb, set_data in Hc.
    apply bind_Some in Hc as (b & _ & Hc). apply bind_Some in Hc as (h & Hh & [= <-]).
    apply bind_Some in Hh as (n & _ & [= <-]). unfold get_pcb in *. cbn. destruct (decide (q = tcb_pcb t)) as [->|Hne]; [by rewrite lookup_insert_eq|].
    by rewrite lookup_insert_ne.
Qed.

Lemma mutex_lock_eq l : mutex_lock l = mutex_lock_with [] l.
Proof. reflexivity. Qed.

Lemma running_tid_of s me t : running (ctl s) = Some me -> get_tcb (ctl s) me = Some t ->
  running_tid s = Done (tid t) s.
Proof. apply running_tid_ok. Qed.

(** One round on a free lock, and the store of the owner. *)
Lemma lock_round_free l s m s1 : get_lock l s = Some m -> lock_state m = UNLOCKED ->
  put_lock l (Mutex LOCKED (owner_tid m)) s = Some s1 -> lock_round l tt s = Done (inr tt) s1.
Proof.
  intros Hg Hm Hp. unfold lock_round. kstep (load_lock_ok _ _ _ Hg).
  rewrite (bind_Done _ _ _ _ _ (store_lock_ok l s (xchange m LOCKED).2 s1 Hp)). cbn [xchange fst]. by rewrite decide_True.
Qed.

Lemma set_owner_ok l s m me t s' : get_lock l s = Some m -> running (ctl s) = Some me -> get_tcb (ctl s) me = Some t ->
  put_lock l (Mutex (lock_state m) (tid t)) s = Some s' -> set_owner l s = Done tt s'.
Proof.
  intros Hg Hme Ht Hp. unfold set_owner. kstep (running_tid_ok _ _ _ Hme Ht). kstep (load_lock_ok _ _ _ Hg).
  by apply store_lock_ok.
Qed.

(** A free lock is taken at once. *)
Lemma mutex_lock_with_ok irqs l s m me t : get_lock l s = Some m -> lock_state m = UNLOCKED ->
  running (ctl s) = Some me -> get_tcb (ctl s) me = Some t ->
  exists s', mutex_lock_with irqs l s = Done tt s' /\ put_lock l (Mutex LOCKED (tid t)) s = Some s'.
Proof.
  intros Hg Hm Hme Ht. destruct (put_lock_some l m (Mutex LOCKED (owner_tid m)) s Hg) as [s1 H1].
  destruct (put_lock_some l m (Mutex LOCKED (tid t)) s Hg) as [s2 H2]. exists s2. split; [|done].
  destruct (put_lock_ctl _ _ _ _ H1) as (_ & E1 & E2 & _).
  assert (set_owner l s1 = Done tt s2) as Ho.
  { eapply set_owner_ok; [by eapply put_get_lock|by rewrite E1|by rewrite E2|].
    rewrite (put_lock_again _ _ _ _ H1). exact H2. }
  pose proof (lock_round_free l s m s1 Hg Hm H1) as Hr. destruct irqs as [|irq irqs]; cbn [mutex_lock_with].
  - by rewrite (bind_Done _ _ _ _ _ (loop_now _ SPIN _ _ _ _ Hr)).
  - by kstep Hr.
Qed.

Lemma mutex_lock_ok l s m me t : get_lock l s = Some m -> lock_state m = UNLOCKED ->
  running (ctl s) = Some me -> get_tcb (ctl s) me = Some t ->
  exists s', mutex_lock l s = Done tt s' /\ put_lock l (Mutex LOCKED (tid t)) s = Some s'.
Proof. apply mutex_lock_with_ok. Qed.

(** One round on a taken lock is a yield to the owner. *)
Lemma lock_round_taken l s o : get_lock l s = Some (Mutex LOCKED o) ->
  lock_round l tt s = (handle_yield (set_esi (u32 o) ureg_zero);; mret (inl tt)) s.
Proof.
  intros Hg. unfold lock_round. kstep (load_lock_ok _ _ _ Hg).
  rewrite (bind_Done _ _ _ _ _ (store_lock_ok l s _ s (put_lock_same _ _ _ Hg))). cbn [xchange fst lock_state].
  rewrite decide_False by done. by kstep (load_lock_ok _ _ _ Hg).
Qed.

(** * The timer *)

Lemma front_tcb_ok s LS me i : scheduled s LS me -> list_index i ->
  front_tcb i s = Done (front_of (LS i)) s.
Proof.
  intros Hsc Hi. unfold front_tcb. pose proof (thread_list_front (ctl s) LS i ltac:(apply Hsc) Hi) as Hf.
  destruct (LS i) as [|x r] eqn:E.
  - kstep (ctl_get_ok (fun c => thread_list c i) _ _ Hf). by rewrite decide_True.
  - destruct Hf as (f & Hf & Hn & Hd). kstep (ctl_get_ok (fun c => thread_list c i) _ _ Hf).
    rewrite decide_False by done. by apply (ctl_get_ok (fun c => data <$> cells (links c) !! f)).
Qed.

(** The thread the timer gives the processor to: the first sleeper when it is
    due, else the front of the ready list. *)
Definition sleeper_due (c : ctrl) (LS : Z -> list addr) (now : Z) : bool :=
  match LS SLEEP with x :: _ => bool_decide (wake c x <= now) | [] => false end.
Definition timer_choice (c : ctrl) (LS : Z -> list addr) (now : Z) : addr :=
  front_of (LS (if sleeper_due c LS now then SLEEP else READY_STATE)).

(** The handler, after its tests. *)
Lemma handle_timer_eq s LS me : let now := u32 (tick_count s + 1) in
  scheduled s LS me ->
  handle_timer s =
    (if sleeper_due (ctl s) LS now then switch_context (front_of (LS SLEEP)) READY_STATE None;; mret tt
     else target ← ctl_op round_robin;
          when (bool_decide (target <> NULL)) (switch_context target READY_STATE None;; mret tt))
    (with_tick_count now s).
Proof.
  intros now Hsc. pose proof (scheduled_ctl s (with_tick_count now s) LS me eq_refl Hsc) as Hsc1.
  unfold handle_timer. rewrite (bind_Done _ _ _ _ _ (modify_ok _ s)). fold now.
  set (s0 := with_tick_count now s) in *. rewrite (bind_Done _ _ _ _ _ (gets_ok tick_count s0)).
  change (tick_count s0) with now. kstep (front_tcb_ok _ _ _ SLEEP Hsc1 ltac:(done)).
  unfold sleeper_due. rewrite (decide_True (P := now `mod` _ = 0)) by apply Z.mod_1_r.
  destruct (LS SLEEP) as [|x r] eqn:E; [done|].
  destruct (sched_thread (ctl s) LS SLEEP x) as (Hn & t & Ht & _); [apply Hsc|done|by eapply head_elem|].
  change (front_of (x :: r)) with x. rewrite decide_False by done.
  assert (H1 : (t0 ← tcb_at x; mret (bool_decide (wakeup_time (blocking_detail t0) <= now))) s0 =
    Done (bool_decide (wake (ctl s) x <= now)) s0).
  { unfold wake. rewrite Ht. by rewrite (bind_Done _ _ _ _ _ (tcb_at_ok s0 x t Ht)). }
  by kstep H1.
Qed.

(** Whom the handler switches to, and how. *)
Lemma handle_timer_switches s LS me p : let now := u32 (tick_count s + 1) in
  scheduled s LS me -> timer_choice (ctl s) LS now = p -> p <> NULL ->
  exists mt t s1 LS1 s' k, handle_timer s = Switch me p s' k /\ 
    p ∈ LS (if sleeper_due (ctl s) LS now then SLEEP else READY_STATE) /\
    get_tcb (ctl s) me = Some mt /\ get_tcb (ctl s) p = Some t /\
    scheduled s1 LS1 me /\ switched s1 LS1 me mt p t READY_STATE None s' /\
    same_blocks (ctl s) (ctl s1) /\ s1 = with_ctl (ctl s1) (with_tick_count now s) /\
    (forall k, k <> READY_STATE -> LS1 k = LS k) /\ LS1 READY_STATE ≡ₚ LS READY_STATE /\
    forall s2, k s2 = Done tt (with_int_flag (int_flag s) s2).
Proof.
  intros now Hsc Hch Hp. destruct (running_home s LS me Hsc) as (mt & _ & Hmt & _).
  pose proof (scheduled_ctl s (with_tick_count now s) LS me eq_refl Hsc) as Hsc1.
  rewrite (handle_timer_eq s LS me Hsc). fold now. unfold timer_choice in Hch.
  set (i := if sleeper_due (ctl s) LS now then SLEEP else READY_STATE) in *.
  assert (list_index i) as Hi by (unfold i; by destruct (sleeper_due _ _ _)).
  assert (p ∈ LS i) as Hin by (destruct (LS i); [by subst p|rewrite <-Hch; left]).
  destruct (sched_thread (ctl s) LS i p) as (_ & t & Ht & _); [apply Hsc|done|done|].
  destruct (sleeper_due (ctl s) LS now); unfold i in *.
  - rewrite Hch.
    destruct (switch_then_ok (fun _ => mret tt) (with_tick_count now s) LS me mt p t SLEEP READY_STATE READY_STATE None Hsc1)
      as (s' & k & Hk & Hsw & Hres); try done.
    exists mt, t, (with_tick_count now s), LS, s', k. split; [exact Hk|]. split_and!; try done; by destruct s as [[] ? ? ? ? ? ? ? ? ? ? ? ? ? ?].
  - destruct (round_robin_step _ _ _ Hsc1) as (s1 & H1 & He & Hsb & Hsc2 & Hperm & _).
    rewrite Hch in H1. kstep H1. rewrite bool_decide_true by done.
    pose proof (get_tcb_same _ _ Hsb) as Hg. cbn [ctl with_tick_count] in Hg.
    destruct (switch_then_ok (fun _ => mret tt) s1 _ me mt p t READY_STATE READY_STATE READY_STATE None Hsc2)
      as (s' & k & Hk & Hsw & Hres); try done.
    { by rewrite Hg. } { by rewrite Hg. } { rewrite upd_eq. by rewrite Hperm. }
    exists mt, t, s1, (upd READY_STATE (rotate_ready (ctl s) (LS READY_STATE)) LS), s', k.
    split; [exact Hk|]. split_and!; try done.
    + intros j Hj. by rewrite upd_ne.
    + intros s2. rewrite Hres, He. done.
Qed.

Lemma handle_timer_idle s LS me : let now := u32 (tick_count s + 1) in
  scheduled s LS me -> timer_choice (ctl s) LS now = NULL -> handle_timer s = Done tt (with_tick_count now s).
Proof.
  intros now Hsc Hch. pose proof (scheduled_ctl s (with_tick_count now s) LS me eq_refl Hsc) as Hsc1.
  rewrite (handle_timer_eq s LS me Hsc). fold now. unfold timer_choice in Hch.
  destruct (sleeper_due (ctl s) LS now) eqn:Hd.
  - exfalso. apply (front_of_empty s LS me) in Hch; [|done..]. unfold sleeper_due in Hd. by rewrite Hch in Hd.
  - destruct (round_robin_step _ _ _ Hsc1) as (s1 & H1 & _ & _ & _ & _ & He). rewrite Hch in H1. kstep H1.
    rewrite bool_decide_false by tauto. rewrite He; [done|]. by eapply front_of_empty.
Qed.

(** A switch does not touch the locks. *)
Lemma switched_get_lock s LS me mt p t st bd s' l : switched s LS me mt p t st bd s' -> get_lock l s' = get_lock l s.
Proof.
  intros [_ _ _ Hc _ _ Hr _]. assert (pcbs (ctl s') = pcbs (ctl s)) as E by (by rewrite Hc).
  assert (thread_manager_lock (ctl s') = thread_manager_lock (ctl s)) as E2 by (by rewrite Hc).
  destruct l; cbn [get_lock]; [unfold get_pcb; by rewrite E|by rewrite Hr..|by rewrite E2].
Qed.

(** * The theorems *)

(** C8. A context switch to a listed thread: the caller goes into the list of its
    new state, at the place that list's order gives it, the target leaves its
    list and becomes the only running thread, the lists stay well-formed and the
    sleep list sorted; of the threads only the states of these two change; the
    processor gets the target's kernel stack and its process's page directory;
    the call returns [0] when the caller is switched to again, with its own
    interrupt flag.  With a null target, an unknown state or no blocking detail
    for a waiting thread it returns [-1] and changes nothing. *)
Theorem switch_context_effect (s : kstate) (LS : Z -> list addr) (me target : addr) (mt t : tcb_t) (i j state : Z)
    (bd : option blocking_detail_t)
    (Hsc : scheduled s LS me) (Hmt : get_tcb (ctl s) me = Some mt) (Ht : get_tcb (ctl s) target = Some t)
    (Hi : list_index i) (Hir : i <> RUNNING_STATE) (Hin : target ∈ LS i)
    (Hj : target_list state bd = Some j) (Hjr : j <> RUNNING_STATE) :
  (exists s' k, switch_context target state bd s = Switch me target s' k /\
     switched s LS me mt target t state bd s' /\
     switched_lists (ctl s) LS me mt target state bd j ≡ₚ me :: filter (fun q => q <> target) (LS j) /\
     (i <> j -> switched_lists (ctl s) LS me mt target state bd i = filter (fun q => q <> target) (LS i)) /\
     (forall k, list_index k -> k <> RUNNING_STATE -> k <> j -> k <> i ->
        switched_lists (ctl s) LS me mt target state bd k = LS k) /\
     forall s2, k s2 = Done OK (with_int_flag (int_flag s) s2)) /\
  (forall target state bd,
     target = NULL \/ ~ (NEW_STATE <= state <= TERMINATED_STATE) \/ (state = WAITING_STATE /\ bd = None) ->
     switch_context target state bd s = Done FAIL s).
Proof.
  split.
  - destruct (switch_context_ok s LS me mt target t i j state bd) as (s' & k & H1 & H2 & H3); try done.
    exists s', k. split; [done|]. split; [done|]. split_and!; [| | |done].
    + by apply switched_dest, not_eq_sym, (not_running s LS me Hsc i).
    + intros Hij. by apply (switched_source s LS me mt target state bd i j).
    + intros q Hq Hqr Hqj Hqi. by apply (switched_other s LS me mt target state bd i j).
  - intros p st b H. unfold switch_context. case_decide; [done|]. case_bool_decide; [done|].
    case_bool_decide; [done|]. tauto.
Qed.

(** C28. Yield: with a thread id the processor goes to that thread if it is ready,
    with [-1] to the front of the ready list; the caller waits in the ready
    list, no thread is lost and the other lists are as before; when the caller
    runs again the call returns 0 with interrupts on.  If there is no such ready
    thread it returns [-1] at once and nothing changes. *)
Theorem handle_yield_hands_over (u : ureg_t) (s : kstate) (LS : Z -> list addr) (me : addr)
    (Hsc : scheduled s LS me) :
  let p := yield_choice (ctl s) LS (s32 (esi u)) in
  if decide (p = NULL) then handle_yield u s = Done (set_eax (u32 (-1)) u) (with_int_flag true s)
  else exists s' LS' k, handle_yield u s = Switch me p s' k /\ p ∈ LS READY_STATE /\
    scheduled s' LS' p /\ cpu_esp0 s' = p /\
    LS' READY_STATE ≡ₚ me :: filter (fun q => q <> p) (LS READY_STATE) /\
    (forall i, list_index i -> i <> READY_STATE -> i <> RUNNING_STATE -> LS' i = LS i) /\
    forall s2, k s2 = Done (set_eax 0 u) (with_int_flag true s2).
Proof.
  intros p. destruct (decide (p = NULL)) as [Hp|Hp]; [by eapply handle_yield_refused|].
  destruct (handle_yield_switches u s LS me p Hsc eq_refl Hp)
    as (mt & t & s1 & LS1 & s' & k & H1 & Hmt & Ht & Hin & Hsc1 & Hsw & _ & _ & Hother & Hready & Hk).
  exists s', (switched_lists (ctl s1) LS1 me mt p READY_STATE None), k.
  assert (p ∈ LS1 READY_STATE) as Hin1 by by rewrite Hready.
  split; [done|]. split; [done|]. split; [apply Hsw|]. split; [apply Hsw|]. split; [|split; [|done]].
  - rewrite switched_dest; [by rewrite Hready|done..|].
    apply not_eq_sym, (not_running s LS me Hsc READY_STATE); done.
  - intros i Hi Hi1 Hi2. rewrite <-(Hother i Hi1). by eapply (switched_other s1 LS1 me mt p READY_STATE None READY_STATE).
Qed.

(** C19. The timer interrupt: the tick counter advances (modulo 2^32); if the
    earliest sleeper is due the processor goes to it, and no due sleeper is
    earlier; otherwise it goes to the front of the ready list, if there is
    one.  The interrupted thread waits in the ready list and the sleep list
    stays sorted; with nobody to switch to only the counter changes. *)
Theorem handle_timer_preempts (s : kstate) (LS : Z -> list addr) (me : addr)
    (Hsc : scheduled s LS me) (Hsort : sleep_sorted (ctl s) LS) :
  let now := u32 (tick_count s + 1) in
  let p := timer_choice (ctl s) LS now in
  (forall q, q ∈ LS SLEEP -> wake (ctl s) q <= now -> p ∈ LS SLEEP /\ wake (ctl s) p <= wake (ctl s) q) /\
  if decide (p = NULL) then handle_timer s = Done tt (with_tick_count now s)
  else exists s' LS' k, handle_timer s = Switch me p s' k /\
    tick_count s' = now /\ scheduled s' LS' p /\ sleep_sorted (ctl s') LS' /\ me ∈ LS' READY_STATE /\
    p ∈ LS (if sleeper_due (ctl s) LS now then SLEEP else READY_STATE) /\
    forall s2, k s2 = Done tt (with_int_flag (int_flag s) s2).
Proof.
  intros now p. split.
  - intros q Hq Hw. unfold p, timer_choice, sleeper_due. unfold sleep_sorted in Hsort.
    destruct (LS SLEEP) as [|x r] eqn:E; [by apply not_elem_of_nil in Hq|].
    inversion Hsort as [|? ? _ Hx]; subst. rewrite Forall_forall in Hx.
    assert (wake (ctl s) x <= wake (ctl s) q) as Hxq by (apply elem_of_cons in Hq as [->|Hq]; [lia|by apply Hx]).
    rewrite bool_decide_true by lia. rewrite E. split; [left|done].
  - destruct (decide (p = NULL)) as [Hp|Hp]; [by eapply handle_timer_idle|].
    destruct (handle_timer_switches s LS me p Hsc eq_refl Hp)
      as (mt & t & s1 & LS1 & s' & k & H1 & Hin & Hmt & Ht & Hsc1 & Hsw & Hsb & He & Hother & Hready & Hk).
    exists s', (switched_lists (ctl s1) LS1 me mt p READY_STATE None), k.
    assert (p <> me) as Hne.
    { apply (not_running s LS me Hsc (if sleeper_due (ctl s) LS now then SLEEP else READY_STATE));
        [by destruct (sleeper_due _ _ _)..|done]. }
    split; [done|]. split; [by rewrite (sw_rest _ _ _ _ _ _ _ _ _ Hsw), He|]. split; [apply Hsw|].
    split; [|split; [|by split]].
    + apply (sw_sorted _ _ _ _ _ _ _ _ _ Hsw). unfold sleep_sorted. rewrite Hother by done.
      eapply sorted_ext; [|exact Hsort]. intros q _. unfold wake. by rewrite (get_tcb_same _ _ Hsb).
    + rewrite (switched_dest s1 LS1 me mt p READY_STATE None READY_STATE); [left|done..|by apply not_eq_sym].
Qed.

(** A round on a lock held by a thread that is not ready changes nothing and
    leaves interrupts on. *)
Lemma lock_round_idle l s LS me o : scheduled s LS me -> get_lock l s = Some (Mutex LOCKED o) ->
  yield_choice (ctl s) LS (s32 (u32 o)) = NULL -> lock_round l tt s = Done (inl tt) (with_int_flag true s).
Proof.
  intros Hsc Hm Hp. rewrite (lock_round_taken l s o Hm).
  by rewrite (bind_Done _ _ _ _ _ (handle_yield_refused (set_esi (u32 o) ureg_zero) s LS me Hsc Hp)).
Qed.

(** While no interrupt arrives the caller spins. *)
Lemma mutex_lock_spins (l : lock_id) (s : kstate) (LS : Z -> list addr) (me o : addr) :
  scheduled s LS me -> get_lock l s = Some (Mutex LOCKED o) -> yield_choice (ctl s) LS (s32 (u32 o)) = NULL ->
  exists s', mutex_lock l s = Spinning s' /\ with_int_flag (int_flag s) s' = s.
Proof.
  intros Hsc Hm Hp.
  destruct (loop_spins (lock_round l) (fun s' => with_int_flag (int_flag s) s' = s) SPIN tt s) as (s' & H1 & H2).
  { intros s1 Hs1. exists (with_int_flag true s1). split; [|by rewrite with_int_flag_twice].
    assert (ctl s1 = ctl s) as Hctl by (by rewrite <-Hs1).
    apply (lock_round_idle l s1 LS me o); [by apply (scheduled_ctl s)| |by rewrite Hctl].
    rewrite <-Hm, <-Hs1. by destruct l. }
  { by destruct s. }
  exists s'. split; [|done]. unfold mutex_lock. cbn [mutex_lock_with]. by kstep H1.
Qed.

(** A round on a lock held by a ready thread gives the processor to it. *)
Lemma lock_round_hands_over l s LS me o : let p := yield_choice (ctl s) LS (s32 (u32 o)) in
  scheduled s LS me -> get_lock l s = Some (Mutex LOCKED o) -> p <> NULL ->
  exists s' LS' k, lock_round l tt s = Switch me p s' k /\ scheduled s' LS' p /\
    get_lock l s' = Some (Mutex LOCKED o) /\ forall s2, k s2 = Done (inl tt) (with_int_flag true s2).
Proof.
  intros p Hsc Hm Hp. set (u := set_esi (u32 o) ureg_zero).
  destruct (handle_yield_switches u s LS me p Hsc eq_refl Hp)
    as (mt & t' & s1 & LS1 & s' & k & H1 & Hmt & Ht' & _ & Hsc1 & Hsw & Hsb & He & _ & _ & Hk).
  exists s', (switched_lists (ctl s1) LS1 me mt p READY_STATE None), (fun s2 => obind (fun _ => mret (inl tt)) (k s2)).
  split; [rewrite (lock_round_taken l s o Hm); fold u; by kstep H1|]. split; [apply Hsw|]. split.
  - rewrite (switched_get_lock _ _ _ _ _ _ _ _ _ l Hsw), <-Hm. destruct Hsb as [Hpc _].
    assert (pcbs (ctl s1) = pcbs (ctl s)) as E1 by (by rewrite Hpc).
    assert (thread_manager_lock (ctl s1) = thread_manager_lock (ctl s)) as E2 by (by rewrite Hpc).
    destruct l; cbn [get_lock]; [unfold get_pcb; by rewrite E1|by rewrite He..|by rewrite E2].
  - intros s2. by rewrite Hk.
Qed.

(** C17. [mutex_lock], for a running thread [me] of id [tid t] and a lock [l],
    with any interrupts between its rounds ([mutex_lock_with]):
    - a free lock is taken at once, and nothing but the lock changes;
    - a lock held by a thread that is ready to run makes the caller give the
      processor to the holder, the lock untouched; when the caller runs again it
      takes the interrupts there are and tries again, and if it finds the lock free
      it takes it for the thread then running, and returns;
    - when the lock is held and the holder is not ready (it is the caller, it sleeps,
      it waits for something) a round changes nothing but that interrupts are on
      after it; an interrupt that comes then is taken, and the call goes on in the
      state it leaves; as long as none comes the call does not end, for none of the
      2^64 rounds of the model changes the state. *)
Theorem mutex_lock_outcomes (l : lock_id) (s : kstate) (LS : Z -> list addr) (me : addr) (t : tcb_t) (m : mutex)
    (Hsc : scheduled s LS me) (Ht : get_tcb (ctl s) me = Some t) (Hm : get_lock l s = Some m) :
  (lock_state m = UNLOCKED -> forall irqs, exists s', mutex_lock_with irqs l s = Done tt s' /\
    put_lock l (Mutex LOCKED (tid t)) s = Some s') /\
  (lock_state m = LOCKED -> let p := yield_choice (ctl s) LS (s32 (u32 (owner_tid m))) in
   if decide (p = NULL) then
     (exists s', mutex_lock l s = Spinning s' /\ with_int_flag (int_flag s) s' = s) /\
     (forall irq irqs, mutex_lock_with (irq :: irqs) l s = (irq;; mutex_lock_with irqs l) (with_int_flag true s))
   else
     (exists s' LS' k, mutex_lock l s = Switch me p s' k /\ scheduled s' LS' p /\ get_lock l s' = Some m /\
        forall s2 q tq m2, running (ctl s2) = Some q -> get_tcb (ctl s2) q = Some tq ->
          get_lock l s2 = Some m2 -> lock_state m2 = UNLOCKED ->
          exists s3, k s2 = Done tt s3 /\ put_lock l (Mutex LOCKED (tid tq)) (with_int_flag true s2) = Some s3) /\
     (forall irq irqs, exists s' LS' k, mutex_lock_with (irq :: irqs) l s = Switch me p s' k /\ scheduled s' LS' p /\
        get_lock l s' = Some m /\ forall s2, k s2 = (irq;; mutex_lock_with irqs l) (with_int_flag true s2))).
Proof.
  split; [intros Hu irqs; eapply mutex_lock_with_ok; [done|done| |done]; by eapply running_is|].
  destruct m as [ls o]. cbn [lock_state owner_tid]. intros ->. cbv zeta. set (p := yield_choice _ _ _).
  destruct (decide (p = NULL)) as [Hp|Hp].
  - split; [by apply (mutex_lock_spins l s LS me o)|]. intros irq irqs. cbn [mutex_lock_with].
    by kstep (lock_round_idle l s LS me o Hsc Hm Hp).
  - destruct (lock_round_hands_over l s LS me o Hsc Hm Hp) as (s' & LS' & k & H1 & Hs' & Hl' & Hk). fold p in H1, Hs'. split.
    + destruct (loop_resume (lock_round l) 63 tt s me p s' _ H1) as (k' & H3 & Hres).
      exists s', LS', (fun s2 => obind (fun _ => set_owner l) (k' s2)).
      split; [unfold mutex_lock; cbn [mutex_lock_with]; change SPIN with 64%nat; by kstep H3|]. split; [done|]. split; [done|].
      intros s2 q tq m2 Hq Htq Hm2 Hu. set (s2' := with_int_flag true s2).
      assert (get_lock l s2' = Some m2) as Hm2' by (rewrite <-Hm2; by destruct l).
      destruct (put_lock_some l m2 (Mutex LOCKED (owner_tid m2)) s2' Hm2') as [s3 Hs3].
      destruct (put_lock_some l m2 (Mutex LOCKED (tid tq)) s2' Hm2') as [s4 Hs4]. exists s4. split; [|done].
      erewrite Hres; [|by rewrite Hk|by apply (lock_round_free l s2' m2)].
      destruct (put_lock_ctl _ _ _ _ Hs3) as (_ & E1 & E2 & _). cbn [obind].
      eapply set_owner_ok; [by eapply put_get_lock|by rewrite E1|by rewrite E2|].
      by rewrite (put_lock_again _ _ _ _ Hs3).
    + intros irq irqs. eexists s', LS', _. cbn [mutex_lock_with]. kstep H1. split; [reflexivity|]. split; [done|]. split; [done|].
      intros s2. cbn beta. by rewrite Hk.
Qed.

(** ** A concrete state *)

Definition demo_state : kstate := KState demo_ctrl demo_vm ∅ 65536 true 100 19 buf_init buf_init keyhelp_init
  mutex_init mutex_init demo_console [] [].

Lemma demo_scheduled : scheduled demo_state demo_LS 100.
Proof.
  split; [exact demo_sched_ok|reflexivity|].
  intros i p t Hi Hp Ht. assert (tcb_pcb t = process_of demo_ctrl p) as ->.
  { unfold process_of. change (ctl demo_state) with demo_ctrl in Ht. by rewrite Ht. }
  unfold demo_LS in Hp. repeat case_decide; subst;
    repeat (apply elem_of_cons in Hp as [->|Hp]; [by eexists|]); by apply not_elem_of_nil in Hp.
Qed.

Lemma switch_context_effect_witness : exists s' k,
  switch_context 110 WAITING_STATE (Some (BlockingDetail SLEEP 40)) demo_state = Switch 100 110 s' k /\
  cpu_esp0 s' = 110 /\ switch_context NULL READY_STATE None demo_state = Done FAIL demo_state.
Proof.
  destruct (switch_context_effect demo_state demo_LS 100 110 (demo_tcb 5000 1 RUNNING_STATE blocking_none)
    (demo_tcb 5000 2 READY_STATE blocking_none) READY_STATE SLEEP WAITING_STATE (Some (BlockingDetail SLEEP 40)))
    as ((s' & k & H1 & H2 & _) & H3);
    [exact demo_scheduled|reflexivity|reflexivity|done|discriminate|left|reflexivity|discriminate|].
  exists s', k. split; [done|]. split; [apply H2|]. apply H3. by left.
Defined.

Lemma handle_yield_hands_over_witness :
  (exists s' LS' k, handle_yield (set_esi 4 ureg_zero) demo_state = Switch 100 200 s' k /\
     scheduled s' LS' 200 /\ LS' READY_STATE ≡ₚ [100; 110]) /\
  handle_yield (set_esi 5 ureg_zero) demo_state = Done (set_eax (u32 (-1)) (set_esi 5 ureg_zero)) demo_state.
Proof.
  split.
  - pose proof (handle_yield_hands_over (set_esi 4 ureg_zero) demo_state demo_LS 100 demo_scheduled) as H.
    cbv zeta in H. rewrite decide_False in H by (vm_compute; discriminate).
    destruct H as (s' & LS' & k & H1 & _ & H2 & _ & H3 & _). exists s', LS', k. split_and!; [exact H1|exact H2|exact H3].
  - pose proof (handle_yield_hands_over (set_esi 5 ureg_zero) demo_state demo_LS 100 demo_scheduled) as H.
    cbv zeta in H. rewrite decide_True in H by reflexivity. exact H.
Defined.

Lemma handle_timer_preempts_witness :
  (exists s' LS' k, handle_timer demo_state = Switch 100 110 s' k /\ tick_count s' = 20 /\ scheduled s' LS' 110) /\
  (exists s' LS' k, handle_timer (with_tick_count 40 demo_state) = Switch 100 120 s' k /\ scheduled s' LS' 120).
Proof.
  split.
  - destruct (handle_timer_preempts demo_state demo_LS 100 demo_scheduled) as [_ H];
      [repeat constructor; vm_compute; discriminate|].
    rewrite decide_False in H by (vm_compute; discriminate).
    destruct H as (s' & LS' & k & H1 & H2 & H3 & _). exists s', LS', k. split_and!; [exact H1|exact H2|exact H3].
  - destruct (handle_timer_preempts (with_tick_count 40 demo_state) demo_LS 100) as [_ H];
      [apply (scheduled_ctl demo_state); [reflexivity|exact demo_scheduled]|
       repeat constructor; vm_compute; discriminate|].
    rewrite decide_False in H by (vm_compute; discriminate).
    destruct H as (s' & LS' & k & H1 & _ & H3 & _). exists s', LS', k. split; [exact H1|exact H3].
Defined.

(** A free lock; one held by the ready thread 4; one held by the thread 3, which
    sleeps: nothing happens until the timer comes and wakes it up, and the lock is
    taken when the caller runs again and finds it free. *)
Lemma mutex_lock_outcomes_witness :
  (exists s', mutex_lock InputLock demo_state = Done tt s' /\ input_lock s' = Mutex LOCKED 1) /\
  (exists s' k, mutex_lock InputLock (with_input_lock (Mutex LOCKED 4) demo_state) = Switch 100 200 s' k) /\
  (let s := with_tick_count 40 (with_input_lock (Mutex LOCKED 3) demo_state) in
   (exists s', mutex_lock InputLock s = Spinning s') /\
   exists s' k, mutex_lock_with [handle_timer] InputLock s = Switch 100 120 s' k /\
     exists s3, k demo_state = Done tt s3 /\ input_lock s3 = Mutex LOCKED 1).
Proof.
  split; [|split].
  - destruct (mutex_lock_outcomes InputLock demo_state demo_LS 100 (demo_tcb 5000 1 RUNNING_STATE blocking_none)
      mutex_init demo_scheduled) as [H _]; [reflexivity..|].
    destruct (H eq_refl []) as (s' & H1 & H2). exists s'. split; [exact H1|]. by injection H2 as <-.
  - destruct (mutex_lock_outcomes InputLock (with_input_lock (Mutex LOCKED 4) demo_state) demo_LS 100
      (demo_tcb 5000 1 RUNNING_STATE blocking_none) (Mutex LOCKED 4)) as [_ H];
      [apply (scheduled_ctl demo_state); [reflexivity|exact demo_scheduled]|reflexivity..|].
    specialize (H eq_refl). cbv zeta in H. rewrite decide_False in H by (vm_compute; discriminate).
    destruct H as [(s' & _ & k & H & _) _]. exists s', k. exact H.
  - intros s. assert (Hsc : scheduled s demo_LS 100) by (apply (scheduled_ctl demo_state); [reflexivity|exact demo_scheduled]).
    destruct (mutex_lock_outcomes InputLock s demo_LS 100 (demo_tcb 5000 1 RUNNING_STATE blocking_none) (Mutex LOCKED 3) Hsc)
      as [_ H]; [reflexivity..|]. specialize (H eq_refl). cbv zeta in H. rewrite decide_True in H by reflexivity.
    destruct H as [(s' & Hs & _) Hirq]. split; [exists s'; exact Hs|].
    destruct (handle_timer_switches (with_int_flag true s) demo_LS 100 120) as (_ & _ & _ & _ & s1 & k & Ht & _ & _ & _ & _ & _ & _ & _ & _ & _ & Hk);
      [by apply (scheduled_ctl s)|reflexivity|discriminate|].
    destruct (mutex_lock_ok InputLock demo_state mutex_init 100 (demo_tcb 5000 1 RUNNING_STATE blocking_none)) as (s3 & H3 & Hp); [reflexivity..|].
    eexists s1, _. split; [rewrite Hirq; kstep Ht; reflexivity|]. exists s3. split; [|by injection Hp as <-].
    cbn beta. rewrite Hk. exact H3.
Defined.
