(* ===== verification/UserMem.v ===== *)
(** User memory as the kernel sees it: address translation, the page fault
    handler ([kern/fault_handler.c]), the range checks of [kern/system_call.c]
    and [kern/virtual_interrupt.c], and the page loops of [kern/loader.c].

    The kernel runs in the address space of the running thread; an access goes
    through the page directory in [%cr3] (the translation lookaside buffer is
    not modelled).  In supervisor mode the R/W bit of a page is enforced only if
    [CR0.WP] is set.  A missing translation raises a page fault inside the
    kernel, which [handle] dispatches. *)
From S2P Require Import Prelude Ring KMutex Frames Vm Keyhelp Keyboard Console Machine CtrlBlk Kernel Sched.
#[local] Open Scope Z_scope.

Definition GUEST_MEM_SIZE : Z := 0x1400000.
Definition GUEST_CRASH_STATUS : Z := 0xDEADC0DE.

Section user_mem.
Context `{Platform}.

(** The result of a translation: the physical address, or the error code of
    the page fault (bit 0: the page is present, bit 1: a write). *)
Definition translate (v : Z) (write : bool) (s : kstate) : option (Z + Z) :=
  l ← find_frame (kvm s) (page_of (cr3 s)) v;
  let wr := if write then 2 else 0 in
  match found l with
  | PHYSICAL_FRAME_MAPPED =>
      e ← get_pte (kvm s) (pte_ptr l);
      if bool_decide (write = true /\ cr0_wp = true /\ pte_rw e = READ_ONLY) then Some (inr (wr + 1))
      else Some (inl (found_p_addr l + v `mod` PAGE_SIZE))
  | _ => Some (inr wr)
  end.

Definition byte_at (a : Z) (s : kstate) : Z := default 0 (mem s !! a).
Definition put_byte (a x : Z) (s : kstate) : kstate := with_mem (<[a := u8 x]> (mem s)) s.

(** Memory holds bytes. *)
Definition mem_ok (s : kstate) : Prop := forall a, 0 <= byte_at a s < 256.

(** An access that cannot fault in the code's reasoning; it crashes if it does. *)
Definition poke (v x : Z) : K unit :=
  primitive (fun s => match translate v true s with
                      | Some (inl a) => Done tt (put_byte a x s)
                      | _ => Crashed
                      end).

(** [memset((void *\)page, 0, PAGE_SIZE)] of a page just mapped. *)
Definition clear_page (page : Z) : K unit :=
  kfor (Z.to_nat PAGE_SIZE) 0 (fun i (_ : unit) => poke (page + i) 0) tt.

(** ** Page faults *)

(** The two repairs of [handle_page_fault]; [true]: the access can go on. *)
Definition repair_missing (page_dir v_addr : Z) (write : bool) : K bool :=
  '(r, availability) ← vm_get (get_availability page_dir v_addr);
  if bool_decide (~ r < 0 /\ availability = Some PAGE_AVAILABLE) then
    if write then
      r ← vm_op (fun me => map_new_frame me page_dir v_addr);
      if decide (r < 0) then mret false
      else clear_page (page_of v_addr);; mret true
    else
      r ← vm_op (fun _ => map_zero_frame page_dir v_addr);
      mret (bool_decide (~ r < 0))
  else mret false.

Definition repair_present (page_dir v_addr : Z) : K bool :=
  '(r, info) ← vm_get (check_user_page page_dir v_addr);
  if bool_decide (~ r < 0 /\ info = Some ZERO_FRAME_MAPPED) then
    r ← vm_op (fun me => unmap_frame me page_dir v_addr);
    if decide (r < 0) then mret false
    else
      r ← vm_op (fun me => map_new_frame me page_dir v_addr);
      if decide (r < 0) then mret false
      else clear_page (page_of v_addr);; mret true
  else mret false.

Definition handle_page_fault (u : ureg_t) : K unit :=
  pcb ← running_pcb;
  mutex_lock (PcbLock pcb);;
  let p := Z.land (error_code u) 1 in
  let wr := Z.land (Z.shiftr (error_code u) 1) 1 in
  let v_addr := cr2 u in
  page_dir ← current_page_dir;
  repaired ← (if decide (p = 0) then repair_missing page_dir v_addr (bool_decide (wr <> 0))
              else repair_present page_dir v_addr);
  mutex_unlock (PcbLock pcb);;
  if (repaired : bool) then mret tt else fault_kill_thread.

Definition handle_seg_fault : K unit := fault_kill_thread.
Definition handle_div_zero_fault : K unit := fault_kill_thread.

(** [handle_hv_exit] once it has its argument, and [crash_guest]. *)
Definition hv_exit (status : Z) : K unit :=
  pcb ← running_pcb;
  update_pcb pcb (set_status (s32 status));;
  handle_vanish.
Definition crash_guest : K unit := hv_exit GUEST_CRASH_STATUS.

(** What [handle] does when a page fault interrupts the kernel itself. *)
Definition kernel_fault (u : ureg_t) : K unit :=
  me ← running_tcb;
  t ← tcb_at me;
  b ← pcb_at (tcb_pcb t);
  if guest b then crash_guest
  else if decide (exception_stack t <> NULL) then
    update_tcb me (set_exception_stack NULL);;
    primitive (fun s => RunHandler u (exception_stack t) (handler t) (handler_arg t) s)
  else handle_page_fault u.

(** ** Accesses that may fault *)

Definition fault_ureg (v error : Z) : ureg_t :=
  Ureg IDT_PF v 0 0 0 0 0 0 0 0 0 0 0 0 error 0 SEGSEL_KERNEL_CS 0 0 0.

(** The access is retried until it has a translation: once, if the handler
    does its work. *)
Definition resolve (v : Z) (write : bool) : K Z :=
  loop 2 (fun _ : unit =>
    r ← primitive (fun s => match translate v write s with Some r => Done r s | None => Crashed end);
    match r with
    | inl a => mret (inr a)
    | inr error => kernel_fault (fault_ureg v error);; mret (inl tt)
    end) tt.

Definition load8 (v : Z) : K Z := a ← resolve v false; gets (byte_at a).
Definition store8 (v x : Z) : K unit := a ← resolve v true; modify (put_byte a x).

Fixpoint load_bytes (n : nat) (v : Z) : K (list Z) :=
  match n with
  | O => mret []
  | S n => x ← load8 v; xs ← load_bytes n (u32 (v + 1)); mret (x :: xs)
  end.
Fixpoint store_bytes (xs : list Z) (v : Z) : K unit :=
  match xs with
  | [] => mret tt
  | x :: xs => store8 v x;; store_bytes xs (u32 (v + 1))
  end.

(** Little-endian words. *)
Fixpoint word_of (xs : list Z) : Z :=
  match xs with [] => 0 | x :: xs => x + 256 * word_of xs end.
Definition bytes_of (w : Z) : list Z :=
  (fun i => Z.shiftr w (8 * i) `mod` 256) <$> [0; 1; 2; 3].

Definition load32 (v : Z) : K Z := xs ← load_bytes 4 v; mret (word_of xs).
Definition store32 (v w : Z) : K unit := store_bytes (bytes_of w) v.

(** ** Range checks *)

(** The values of [i] in [for (i = page(addr); i < addr + size; i += PAGE_SIZE)],
    a loop on 64-bit integers, as the [uint32_t] arguments of the calls in it. *)
Definition page_count (addr size : Z) : nat :=
  Z.to_nat ((addr + size - page_of addr + PAGE_SIZE - 1) / PAGE_SIZE).
Definition pages (addr size : Z) : list Z :=
  (fun i => u32 (page_of addr + i * PAGE_SIZE)) <$> seqZ 0 (Z.of_nat (page_count addr size)).

Fixpoint all_pages (check : Z -> option bool) (ps : list Z) : option bool :=
  match ps with
  | [] => Some true
  | p :: ps => b ← check p; if (b : bool) then all_pages check ps else Some false
  end.

(** The bodies of the loops of [is_writable] and [is_readable]; the [default]
    values are those of variables a failing query leaves unset. *)
Definition page_writable (page_dir i : Z) (s : vm) : option bool :=
  '(_, info) ← check_user_page page_dir i s;
  match info with
  | Some (PDE_NOT_PRESENT | PTE_NOT_PRESENT) =>
      '(_, availability) ← get_availability page_dir i s;
      a ← availability; Some (bool_decide (a = PAGE_AVAILABLE))
  | Some ZERO_FRAME_MAPPED => Some true
  | Some NEW_FRAME_MAPPED =>
      '(_, access) ← get_access page_dir i s;
      a ← access; Some (bool_decide (a = READ_WRITE))
  | None => None
  end.
Definition page_readable (page_dir i : Z) (s : vm) : option bool :=
  '(_, info) ← check_user_page page_dir i s;
  match info with
  | Some (PDE_NOT_PRESENT | PTE_NOT_PRESENT) =>
      '(_, availability) ← get_availability page_dir i s;
      a ← availability; Some (bool_decide (a = PAGE_AVAILABLE))
  | Some _ => Some true
  | None => None
  end.

Definition user_range (addr size : Z) : bool :=
  bool_decide (addr >= USER_MEM_START /\ size <= VIRTUAL_ADDR_END - addr).

Definition is_writable (addr size : Z) : K bool :=
  if decide (size > 0) then
    if user_range addr size then
      page_dir ← current_page_dir;
      vm_get (fun s => all_pages (fun i => page_writable page_dir i s) (pages addr size))
    else mret false
  else mret true.
Definition is_readable (addr size : Z) : K bool :=
  if decide (size > 0) then
    if user_range addr size then
      page_dir ← current_page_dir;
      vm_get (fun s => all_pages (fun i => page_readable page_dir i s) (pages addr size))
    else mret false
  else mret true.

(** The guest variants of [virtual_interrupt.c]. *)
Definition host_range (addr size : Z) : bool :=
  bool_decide (addr >= USER_MEM_START /\ addr + size <= USER_MEM_START + GUEST_MEM_SIZE).

Definition is_host_writable (addr size : Z) : K bool :=
  if decide (size > 0) then
    if host_range addr size then
      page_dir ← current_page_dir;
      vm_get (fun s => all_pages (fun i =>
        '(_, access) ← get_access page_dir i s;
        a ← access; Some (bool_decide (a = READ_WRITE))) (pages addr size))
    else mret false
  else mret true.
Definition is_host_readable (addr size : Z) : K bool :=
  if decide (size > 0) then mret (host_range addr size) else mret true.

(** ** The page loops of the loader *)

Fixpoint each_page (op : Z -> K Z) (ps : list Z) : K Z :=
  match ps with
  | [] => mret OK
  | p :: ps => r ← op p; if decide (r < 0) then mret FAIL else each_page op ps
  end.

Definition change_access (page_dir addr size access : Z) : K Z :=
  if decide (size > 0) then
    each_page (fun i => vm_op (fun _ => set_access page_dir i access)) (pages addr size)
  else mret OK.
Definition change_availability (page_dir addr size availability : Z) : K Z :=
  if decide (size > 0) then
    each_page (fun i => vm_op (fun _ => set_availability page_dir i availability)) (pages addr size)
  else mret OK.

(** The body of the loop of [map_and_clear]. *)
Definition map_page (page_dir : addr) (zero_frame : bool) (i : Z) : K Z :=
  '(r, info) ← vm_get (check_user_page page_dir i);
  if decide (r < 0) then mret FAIL
  else if bool_decide (info <> Some ZERO_FRAME_MAPPED /\ info <> Some NEW_FRAME_MAPPED) then
    '(_, availability) ← vm_get (get_availability page_dir i);
    if decide (availability <> Some PAGE_AVAILABLE) then mret FAIL
    else if zero_frame then vm_op (fun _ => map_zero_frame page_dir i)
    else
      r ← vm_op (fun me => map_new_frame me page_dir i);
      if decide (r < 0) then mret FAIL
      else clear_page (u32 i);; mret OK
  else mret OK.

Definition map_and_clear (addr size : Z) (zero_frame : bool) : K Z :=
  if decide (size > 0) then
    page_dir ← current_page_dir;
    each_page (map_page page_dir zero_frame) (pages addr size)
  else mret OK.

(** [push_val] of a value of [size] bytes at [*esp_ptr = esp]; the new [*esp_ptr]. *)
Definition push_val (esp : Z) (val : list Z) : K (Z * Z) :=
  let size := Z.of_nat (length val) in
  if decide (size > 0) then
    let new_esp := u32 (esp - size) / 4 * 4 in
    r ← map_and_clear new_esp (u32 (esp - new_esp)) false;
    if decide (r < 0) then mret (FAIL, esp)
    else
      store_bytes val new_esp;;
      (if decide (u32 (new_esp + size) < esp)
       then store_bytes (replicate (Z.to_nat (esp - u32 (new_esp + size))) 0) (u32 (new_esp + size))
       else mret tt);;
      mret (OK, new_esp)
  else mret (OK, esp).

End user_mem.

(** * Translation and the view *)

Section translation.
Context `{Platform}.

(** The running thread's address space is well-formed. *)
Definition space_ok (s : kstate) (F : list Z) : Prop :=
  vm_ok (kvm s) F /\ is_Some (pdirs (kvm s) !! page_of (cr3 s)).

(** What the page of [v] maps to in the running thread's space. *)
Definition here (s : kstate) (v : Z) : option page_view := view (kvm s) (page_of (cr3 s)) v.

(** The error code of a failing access. *)
Definition wr_bit (write : bool) : Z := if write then 2 else 0.

(** A mapped page the access may use. *)
Definition allowed (write : bool) (rw : Z) : bool :=
  negb (bool_decide (write = true /\ cr0_wp = true /\ rw = READ_ONLY)).

Lemma translate_ok s F v w : space_ok s F -> vword v ->
  translate v w s = Some (match here s v with
    | Some (Mapped f rw _) => if allowed w rw then inl (f + v `mod` PAGE_SIZE) else inr (wr_bit w + 1)
    | _ => inr (wr_bit w)
    end).
Proof.
  intros [[Ht Hf] Hd] Hv. unfold translate, here.
  destruct (find_frame_found (kvm s) (page_of (cr3 s)) v Ht Hd Hv) as (l & x & Hl & Hx & Hfa). run Hl. rewrite Hx.
  destruct x as [a|f rw us].
  - pose proof (unmapped_found _ _ _ _ _ Hfa) as Hun. by destruct (found l).
  - destruct (mapped_found _ _ _ _ _ _ _ Hfa) as (Hfo & Hpa & pde & e & _ & _ & Hptr & He & _ & _ & _ & Hrw & _).
    rewrite Hfo, Hptr. run He. rewrite Hrw, Hpa. unfold allowed, wr_bit.
    destruct (bool_decide _); done.
Qed.

(** Where a user address of the running thread is in memory: the frame of its
    page, provided it is not the shared zero frame. *)
Definition own_byte (s : kstate) (d v a : Z) : Prop :=
  vword v /\ USER_PAGE_START <= v /\
  exists f rw us, view (kvm s) d v = Some (Mapped f rw us) /\ f <> ZERO_FRAME /\ a = f + v `mod` PAGE_SIZE.

Lemma same_page_offset v w : vword v -> vword w -> page_no v = page_no w -> v `mod` PAGE_SIZE = w `mod` PAGE_SIZE -> v = w.
Proof.
  intros Hv Hw Hp Ho. apply page_of_no in Hp; [|done..]. rewrite !page_of_eq in Hp by done. lia.
Qed.

(** Distinct user addresses are distinct bytes, whatever processes they belong to. *)
Lemma own_byte_inj s F d v d' v' a : vm_ok (kvm s) F -> own_byte s d v a -> own_byte s d' v' a -> d = d' /\ v = v'.
Proof.
  intros [_ Hf] (Hv & Hu & f & rw & us & Hx & Hz & ->) (Hv' & Hu' & f' & rw' & us' & Hx' & Hz' & Ha).
  assert (Hff : forall g v rw us d, vword v -> USER_PAGE_START <= v -> view (kvm s) d v = Some (Mapped g rw us) ->
    g <> ZERO_FRAME -> g `mod` PAGE_SIZE = 0).
  { intros g w r u e Hw Hwu Hg Hgz. destruct (mapped_ok _ _ Hf _ _ _ _ _ Hw Hwu Hg) as [?|[Hg' _]]; [done|].
    by apply user_frame_facts. }
  pose proof (Hff _ _ _ _ _ Hv Hu Hx Hz) as H1. pose proof (Hff _ _ _ _ _ Hv' Hu' Hx' Hz') as H2.
  pose proof (Z.mod_pos_bound v PAGE_SIZE ltac:(done)). pose proof (Z.mod_pos_bound v' PAGE_SIZE ltac:(done)).
  assert (v `mod` PAGE_SIZE = v' `mod` PAGE_SIZE) as Ho.
  { pose proof (Z.div_mod f PAGE_SIZE ltac:(done)). pose proof (Z.div_mod f' PAGE_SIZE ltac:(done)).
    change PAGE_SIZE with 4096 in *. lia. }
  assert (f = f') as -> by lia.
  destruct (unique_ok _ _ Hf _ _ _ _ _ _ _ _ _ Hv Hv' Hu Hu' Hz Hx Hx') as [-> Hp].
  split; [done|]. by apply same_page_offset.
Qed.

(** ** Accesses that have a translation *)

Lemma resolve_ok s v w a : translate v w s = Some (inl a) -> resolve v w s = Done a s.
Proof.
  intros Ht. unfold resolve. apply loop_now. unfold mbind, K_bind, primitive. by rewrite Ht.
Qed.

Lemma load8_ok s v a : translate v false s = Some (inl a) -> load8 v s = Done (byte_at a s) s.
Proof. intros Ht. unfold load8. by kstep (resolve_ok _ _ _ _ Ht). Qed.

Lemma store8_ok s v x a : translate v true s = Some (inl a) -> store8 v x s = Done tt (put_byte a x s).
Proof. intros Ht. unfold store8. by kstep (resolve_ok _ _ _ _ Ht). Qed.

(** The memory after bytes are stored at given places. *)
Fixpoint put_bytes (abs : list (Z * Z)) (s : kstate) : kstate :=
  match abs with [] => s | (a, x) :: abs => put_bytes abs (put_byte a x s) end.

Lemma put_bytes_rest abs : forall s, put_bytes abs s = with_mem (mem (put_bytes abs s)) s.
Proof.
  induction abs as [|[a x] abs IH]; intros s; [by destruct s|]. cbn [put_bytes]. rewrite IH at 1. done.
Qed.

Lemma put_byte_get a x b s : byte_at b (put_byte a x s) = if decide (b = a) then u8 x else byte_at b s.
Proof.
  unfold byte_at, put_byte. cbn [mem with_mem]. dec_goal as [->|Hne]; [by rewrite lookup_insert_eq|].
  by rewrite lookup_insert_ne.
Qed.

Lemma put_bytes_other abs : forall s b, b ∉ abs.*1 -> byte_at b (put_bytes abs s) = byte_at b s.
Proof.
  induction abs as [|[a x] abs IH]; intros s b Hb; [done|]. cbn [put_bytes fmap list_fmap fst] in *.
  rewrite IH by set_solver. rewrite put_byte_get. by rewrite decide_False by set_solver.
Qed.

Lemma put_bytes_at abs : forall s i a x, NoDup abs.*1 -> abs !! i = Some (a, x) ->
  byte_at a (put_bytes abs s) = u8 x.
Proof.
  induction abs as [|[b y] abs IH]; intros s i a x Hnd Hi; [done|]. cbn [put_bytes fmap list_fmap fst] in *.
  apply NoDup_cons in Hnd as [Hb Hnd]. destruct i as [|i]; cbn in Hi.
  - injection Hi as -> ->. rewrite put_bytes_other by done. by rewrite put_byte_get, decide_True.
  - by apply (IH _ i).
Qed.

Lemma translate_rest v w s s' : kvm s' = kvm s -> cr3 s' = cr3 s -> translate v w s' = translate v w s.
Proof. unfold translate. by intros -> ->. Qed.

Lemma put_bytes_kvm abs s : kvm (put_bytes abs s) = kvm s /\ cr3 (put_bytes abs s) = cr3 s.
Proof. by rewrite put_bytes_rest. Qed.

(** A run of stores, and of loads. *)
Lemma store_bytes_ok xs : forall v s pas, 0 <= v -> v + Z.of_nat (length xs) <= 2 ^ 32 -> length pas = length xs ->
  (forall i a, pas !! i = Some a -> translate (v + Z.of_nat i) true s = Some (inl a)) ->
  store_bytes xs v s = Done tt (put_bytes (zip pas xs) s).
Proof.
  induction xs as [|x xs IH]; intros v s pas Hv Hlen Hl Htr; [by destruct pas|].
  destruct pas as [|a pas]; [done|]. cbn [store_bytes zip zip_with put_bytes length] in *.
  assert (translate v true s = Some (inl a)) as H0 by (rewrite <-(Z.add_0_r v); by apply (Htr 0%nat)).
  kstep (store8_ok s v x a H0). destruct xs as [|y xs].
  { destruct pas; [done|discriminate Hl]. }
  rewrite u32_small by (cbn [length] in Hlen; lia). apply IH; [lia|lia|by injection Hl|].
  intros i b Hi. rewrite (translate_rest _ _ s) by done. rewrite <-(Htr (S i) b) by done. f_equal. lia.
Qed.

Lemma load_bytes_ok n : forall v s pas, 0 <= v -> v + Z.of_nat n <= 2 ^ 32 -> length pas = n ->
  (forall i a, pas !! i = Some a -> translate (v + Z.of_nat i) false s = Some (inl a)) ->
  load_bytes n v s = Done ((fun a => byte_at a s) <$> pas) s.
Proof.
  induction n as [|n IH]; intros v s pas Hv Hlen Hl Htr; [by destruct pas|].
  destruct pas as [|a pas]; [done|]. cbn [load_bytes].
  assert (translate v false s = Some (inl a)) as H0 by (rewrite <-(Z.add_0_r v); by apply (Htr 0%nat)).
  kstep (load8_ok s v a H0). destruct n as [|n]; [by destruct pas|].
  rewrite u32_small by lia.
  assert (H1 : load_bytes (S n) (v + 1) s = Done ((fun a => byte_at a s) <$> pas) s).
  { apply IH; [lia|lia|by injection Hl|]. intros i b Hi. rewrite <-(Htr (S i) b) by done. f_equal. lia. }
  by kstep H1.
Qed.

End translation.

Section word.

Lemma byte_shift w i : 0 <= i -> Z.shiftr w (8 * i) `mod` 256 = (w / 256 ^ i) `mod` 256.
Proof. intros Hi. rewrite Z.shiftr_div_pow2 by lia. rewrite Z.pow_mul_r by lia. reflexivity. Qed.

Lemma word_bytes w : word_of (u8 <$> bytes_of w) = u32 w.
Proof.
  unfold bytes_of, u8, u32. cbn [fmap list_fmap word_of]. change (2 ^ 8) with 256.
  rewrite !Z.mod_mod by lia. rewrite !byte_shift by lia.
  change (256 ^ 0) with 1. change (256 ^ 1) with 256. rewrite Z.div_1_r.
  change (256 ^ 2) with (256 * 256). change (256 ^ 3) with (256 * 256 * 256).
  change (2 ^ 32) with (256 * 256 * 256 * 256). rewrite !Z.mod_eq by lia. rewrite <-!Z.div_div by lia. lia.
Qed.

End word.

Section translation_theorems.
Context `{Platform}.

(** [n] bytes of the running thread's memory it may write, in frames of their own. *)
Definition own_range (s : kstate) (v n : Z) : Prop :=
  USER_PAGE_START <= v /\ v + n <= 2 ^ 32 /\
  forall w, v <= w < v + n ->
    exists f rw us, here s w = Some (Mapped f rw us) /\ f <> ZERO_FRAME /\ allowed true rw = true.

(** The place of a byte. *)
Definition place_of (s : kstate) (v : Z) : Z :=
  match here s v with Some (Mapped f _ _) => f + v `mod` PAGE_SIZE | _ => 0 end.

Lemma own_range_word s v n w : own_range s v n -> v <= w < v + n -> vword w.
Proof. intros (H1 & H2 & _) Hw. change USER_PAGE_START with 16777216 in *. unfold vword. lia. Qed.

Lemma own_range_own s v n w : own_range s v n -> v <= w < v + n ->
  own_byte s (page_of (cr3 s)) w (place_of s w).
Proof.
  intros Hr Hw. split; [by eapply own_range_word|]. destruct Hr as (H1 & _ & H3). split; [lia|].
  destruct (H3 w Hw) as (f & rw & us & Hx & Hf & _). exists f, rw, us. unfold place_of. by rewrite Hx.
Qed.

Lemma own_range_translate s F v n w b : space_ok s F -> own_range s v n -> v <= w < v + n ->
  translate w b s = Some (inl (place_of s w)).
Proof.
  intros Hs Hr Hw. rewrite (translate_ok s F) by (done || by eapply own_range_word).
  destruct Hr as (_ & _ & H3). destruct (H3 w Hw) as (f & rw & us & Hx & _ & Ha). unfold place_of. rewrite Hx.
  assert (allowed b rw = true) as ->; [|done]. destruct b; [done|]. unfold allowed. by rewrite bool_decide_false by naive_solver.
Qed.

Lemma own_range_sub s v n w m : own_range s v n -> v <= w -> w + m <= v + n -> own_range s w m.
Proof. intros (H1 & H2 & H3) Hw Hm. split; [lia|]. split; [lia|]. intros x Hx. apply H3. lia. Qed.

(** The places of a range, in order. *)
Definition places (s : kstate) (v n : Z) : list Z := (fun i => place_of s (v + i)) <$> seqZ 0 n.

Lemma places_lookup s v n i a : places s v n !! i = Some a -> Z.of_nat i < n /\ a = place_of s (v + Z.of_nat i).
Proof.
  unfold places. rewrite list_lookup_fmap. intros (j & Hj & ->)%fmap_Some. apply lookup_seqZ in Hj as [-> ?].
  split; [lia|done].
Qed.

Lemma places_NoDup s F v n : space_ok s F -> own_range s v n -> NoDup (places s v n).
Proof.
  intros Hs Hr. apply NoDup_alt. intros i j a Hi Hj. apply places_lookup in Hi as [Hi ->], Hj as [Hj Hij].
  assert (E : v + Z.of_nat i = v + Z.of_nat j); [|lia].
  eapply (own_byte_inj s F); [apply Hs|eapply own_range_own; [done|lia]|]. rewrite Hij. eapply own_range_own; [done|lia].
Qed.

(** Stores to and loads from such a range. *)
Lemma store_range_ok (s : kstate) (F : list Z) (v : Z) (xs : list Z)
    (Hs : space_ok s F) (Hr : own_range s v (Z.of_nat (length xs))) :
  exists s', store_bytes xs v s = Done tt s' /\ s' = with_mem (mem s') s /\
    load_bytes (length xs) v s' = Done (u8 <$> xs) s' /\
    (forall w, xs = bytes_of w -> store32 v w s = Done tt s' /\ load32 v s' = Done (u32 w) s') /\
    (forall d w b, own_byte s d w b -> ~ (d = page_of (cr3 s) /\ v <= w < v + Z.of_nat (length xs)) ->
       byte_at b s' = byte_at b s).
Proof.
  set (n := Z.of_nat (length xs)) in *. set (pas := places s v n).
  assert (length pas = length xs) as Hlen by (unfold pas, places; rewrite length_fmap, length_seqZ; lia).
  pose proof (places_NoDup s F v n Hs Hr) as Hnd. fold pas in Hnd.
  assert (0 <= v) as Hv by (destruct Hr as [? _]; change USER_PAGE_START with 16777216 in *; lia).
  assert (Htr : forall b i a, pas !! i = Some a -> translate (v + Z.of_nat i) b s = Some (inl a)).
  { intros b i a Hi. apply places_lookup in Hi as [Hi ->]. eapply own_range_translate; [done..|lia]. }
  set (s' := put_bytes (zip pas xs) s). pose proof (put_bytes_kvm (zip pas xs) s) as [Hk Hc].
  assert (Hst : store_bytes xs v s = Done tt s') by (apply store_bytes_ok; [done|apply Hr|done|apply Htr]).
  assert (Hfst : (zip pas xs).*1 = pas) by (rewrite fst_zip; [done|lia]).
  assert (Hld : load_bytes (length xs) v s' = Done (u8 <$> xs) s').
  { rewrite (load_bytes_ok (length xs) v s' pas) by (done || apply Hr || (intros; rewrite (translate_rest _ _ s) by done; by apply Htr)).
    f_equal. apply list_eq. intros i. rewrite !list_lookup_fmap. destruct (pas !! i) as [a|] eqn:Ha.
    - destruct (xs !! i) as [x|] eqn:Hx; [|apply lookup_lt_Some in Ha; apply lookup_ge_None in Hx; lia].
      cbn. f_equal. apply (put_bytes_at (zip pas xs) s i); [by rewrite Hfst|]. apply lookup_zip_Some. done.
    - apply lookup_ge_None in Ha. destruct (xs !! i) eqn:Hx; [|done]. apply lookup_lt_Some in Hx. lia. }
  exists s'. split; [done|]. split; [apply put_bytes_rest|]. split; [done|]. split.
  - intros w ->. split; [done|]. unfold load32. change 4%nat with (length (bytes_of w)). kstep Hld. by rewrite word_bytes.
  - intros d w b Hb Hout. apply put_bytes_other. rewrite Hfst. intros Hin. apply Hout.
    apply list_elem_of_lookup in Hin as [i Hi]. apply places_lookup in Hi as [Hi ->].
    destruct (own_byte_inj s F d w (page_of (cr3 s)) (v + Z.of_nat i) (place_of s (v + Z.of_nat i))) as [-> ->];
      [apply Hs|done|eapply own_range_own; [done|lia]|]. split; [done|lia].
Qed.

(** C15. What the kernel stores in a user's buffer is what it reads back: over a
    range of writable pages with frames of their own, storing bytes (or a
    32-bit word, little-endian) never faults, changes nothing but memory, and a
    load of the range returns them; and no other byte of this or of any other
    process's own memory changes. *)
Theorem user_store_load (s : kstate) (F : list Z) (v : Z) (xs : list Z)
    (Hs : space_ok s F) (Hr : own_range s v (Z.of_nat (length xs))) :
  exists s', store_bytes xs v s = Done tt s' /\ s' = with_mem (mem s') s /\
    load_bytes (length xs) v s' = Done (u8 <$> xs) s' /\
    (forall w, xs = bytes_of w -> store32 v w s = Done tt s' /\ load32 v s' = Done (u32 w) s') /\
    (forall d w b, own_byte s d w b -> ~ (d = page_of (cr3 s) /\ v <= w < v + Z.of_nat (length xs)) ->
       byte_at b s' = byte_at b s).
Proof. by apply (store_range_ok s F). Qed.

(** C37. With [CR0.WP] clear, as the kernel leaves it, a system call that writes to
    a page it has accepted as writable because it maps the shared zero frame
    writes into that frame: no page fault splits the page off, and every
    other process that has a page mapped to the zero frame reads the value. *)
Theorem zero_frame_store_leaks (s : kstate) (F : list Z) (v d w x : Z)
    (Hwp : cr0_wp = false) (Hs : space_ok s F) (Hv : user_page (kvm s) (page_of (cr3 s)) v)
    (Hz : here s v = Some (Mapped ZERO_FRAME READ_ONLY 1))
    (Hw : user_page (kvm s) d w) (Hzw : view (kvm s) d w = Some (Mapped ZERO_FRAME READ_ONLY 1))
    (Hoff : v `mod` PAGE_SIZE = w `mod` PAGE_SIZE) :
  page_writable (page_of (cr3 s)) v (kvm s) = Some true /\
  exists s', store8 v x s = Done tt s' /\ kvm s' = kvm s /\
    load8 w (with_cr3 d s') = Done (u8 x) (with_cr3 d s').
Proof.
  split.
  { destruct (check_user_page_ok _ F _ _ (proj1 Hs) Hv) as (m & Hm & Hcase). unfold page_writable. run Hm.
    unfold here in Hz. rewrite Hz in Hcase. rewrite Hcase. by rewrite decide_True. }
  set (a := ZERO_FRAME + v `mod` PAGE_SIZE).
  assert (H1 : translate v true s = Some (inl a)).
  { rewrite (translate_ok s F) by (done || apply Hv). rewrite Hz. unfold allowed. by rewrite bool_decide_false by naive_solver congruence. }
  exists (put_byte a x s). split; [by apply store8_ok|]. split; [done|].
  destruct (Hw) as (Hd & Hww & _). assert (page_of d = d) as Hpd.
  { destruct Hd as [es Hes]. destruct (dir_ok _ (proj1 (proj1 Hs)) _ _ Hes) as [[Hdr Hda] _]. apply page_of_id; [lia|done]. }
  rewrite (load8_ok _ w a).
  - f_equal. change (byte_at a (with_cr3 d (put_byte a x s))) with (byte_at a (put_byte a x s)).
    by rewrite put_byte_get, decide_True.
  - rewrite (translate_ok _ F); [|split; [apply Hs|cbn; by rewrite Hpd]|done].
    unfold here. cbn [kvm cr3 with_cr3 put_byte with_mem]. rewrite Hpd, Hzw. unfold a. by rewrite Hoff.
Qed.

End translation_theorems.

(** * The page fault handler *)

Section page_faults.
Context `{Platform}.

Lemma poke_ok s v x a : translate v true s = Some (inl a) -> poke v x s = Done tt (put_byte a x s).
Proof. intros Ht. unfold poke, primitive. by rewrite Ht. Qed.

(** A frame of zeros; memory outside is as before. *)
Definition frame_cleared (f : Z) (s s' : kstate) : Prop :=
  forall b, byte_at b s' = if bool_decide (f <= b < f + PAGE_SIZE) then 0 else byte_at b s.

Lemma clear_page_ok s page f :
  (forall i, 0 <= i < PAGE_SIZE -> translate (page + i) true s = Some (inl (f + i))) ->
  exists s', clear_page page s = Done tt s' /\ s' = with_mem (mem s') s /\ frame_cleared f s s'.
Proof.
  intros Ht. unfold clear_page.
  destruct (kfor_inv (fun i (_ : unit) s' => s' = with_mem (mem s') s /\
      forall b, byte_at b s' = if bool_decide (f <= b < f + i) then 0 else byte_at b s)
    (fun i (_ : unit) => poke (page + i) 0) (Z.to_nat PAGE_SIZE) 0 tt s) as ([] & s' & Hs' & He & Hb).
  - intros i [] s1 Hi [He Hb]. rewrite Z2Nat.id in Hi by done.
    exists tt, (put_byte (f + i) 0 s1). split; [apply poke_ok; rewrite (translate_rest _ _ s); [by apply Ht|by rewrite He..]|].
    split; [unfold put_byte; by rewrite He|]. intros b. rewrite put_byte_get. case_decide as Hbi.
    + by rewrite bool_decide_true by lia.
    + rewrite Hb. rewrite (bool_decide_ext (f <= b < f + (i + 1)) (f <= b < f + i)); [done|]. split; lia.
  - split; [by destruct s|]. intros b. by rewrite bool_decide_false by lia.
  - exists s'. split; [done|]. split; [done|]. intros b. by rewrite Hb.
Qed.

(** Every address of a page has its view. *)
Lemma page_addresses v i : vword v -> 0 <= i < PAGE_SIZE ->
  vword (page_of v + i) /\ page_no (page_of v + i) = page_no v /\ (page_of v + i) `mod` PAGE_SIZE = i.
Proof.
  intros Hv Hi. unfold vword in *. rewrite page_of_eq by done. unfold page_no, PAGE_SHIFT.
  rewrite !Z.shiftr_div_pow2 by lia. change (2 ^ 12) with 4096. change PAGE_SIZE with 4096 in *.
  pose proof (Z.div_mod v 4096 ltac:(lia)) as Hd. pose proof (Z.mod_pos_bound v 4096 ltac:(lia)).
  replace (v - v `mod` 4096 + i) with (i + v / 4096 * 4096) by lia.
  rewrite Z.div_add, Z.mod_add, (Z.div_small i), (Z.mod_small i) by lia. split_and!; lia.
Qed.

(** A page just mapped to a frame is cleared through its own address. *)
Lemma clear_mapped s F v f : space_ok s F -> vword v -> 
  (forall w, vword w -> page_no w = page_no v -> here s w = Some (Mapped f READ_WRITE 1)) ->
  exists s', clear_page (page_of v) s = Done tt s' /\ s' = with_mem (mem s') s /\ frame_cleared f s s'.
Proof.
  intros Hs Hv Hx. apply clear_page_ok. intros i Hi. destruct (page_addresses v i Hv Hi) as (H1 & H2 & H3).
  rewrite (translate_ok s F) by done. rewrite Hx by done. rewrite H3. unfold allowed.
  by rewrite bool_decide_false by (by intros (_ & _ & ?)).
Qed.

(** The address space and memory with one more frame, cleared. *)
Definition gave_frame (s : kstate) (F : list Z) (v f : Z) (s' : kstate) : Prop :=
  f ∈ F /\ s' = with_mem (mem s') (with_kvm (kvm s') s) /\ space_ok s' (filter (fun g => g <> f) F) /\
  view_is (kvm s') (view_upd (view (kvm s)) (page_of (cr3 s)) v (Mapped f READ_WRITE 1)) /\
  frame_cleared f s s'.

Definition runs (s : kstate) (me : addr) (t : tcb_t) : Prop :=
  running (ctl s) = Some me /\ get_tcb (ctl s) me = Some t.

Lemma vm_op_done {A} (f : Z -> vm -> option (A * vm)) s me t a v : runs s me t ->
  f (tid t) (kvm s) = Some (a, v) -> vm_op f s = Done a (with_kvm v s).
Proof. intros [Hme Ht] Hf. unfold vm_op. kstep (running_tid_ok _ _ _ Hme Ht). by apply vm_step_ok. Qed.

(** [map_new_frame] followed by the clearing of the page. *)
Lemma map_and_clear_ok s F v me t : space_ok s F -> user_page (kvm s) (page_of (cr3 s)) v -> runs s me t ->
  (exists a, here s v = Some (Unmapped a)) ->
  exists s',
    ((exists f, gave_frame s F v f s' /\
        (r ← vm_op (fun me => map_new_frame me (page_of (cr3 s)) v);
         if decide (r < 0) then mret false else clear_page (page_of v);; mret true) s = Done true s') \/
     ((page_pool (kvm s) = [] \/ F = []) /\ s' = with_kvm (kvm s') s /\ space_ok s' F /\
      view_is (kvm s') (view (kvm s)) /\
      (r ← vm_op (fun me => map_new_frame me (page_of (cr3 s)) v);
         if decide (r < 0) then mret false else clear_page (page_of v);; mret true) s = Done false s')).
Proof.
  intros Hs Hup Hrun [a Ha]. set (d := page_of (cr3 s)) in *.
  destruct (map_new_frame_ok (tid t) (kvm s) F d v (proj1 Hs) Hup) as (r & v' & Hr & Hdom & Hcase).
  unfold here in Ha. fold d in Ha. rewrite Ha in Hcase.
  assert (Hdir : is_Some (pdirs v' !! d)) by (apply elem_of_dom; rewrite Hdom; apply elem_of_dom, Hs).
  rewrite (bind_Done _ _ _ _ _ (vm_op_done (fun me => map_new_frame me d v) s me t r v' Hrun Hr)).
  destruct Hcase as [(-> & _ & f & F' & -> & Hok & Hv)|(-> & Hok & Hv & Hmem%no_table_or)].
  - rewrite decide_False by done. destruct Hup as (_ & Hvw & _).
    assert (Hs' : space_ok (with_kvm v' s) F') by done.
    destruct (clear_mapped (with_kvm v' s) F' v f Hs' Hvw) as (s' & H1 & H2 & H3).
    { intros w Hw Hp. unfold here. cbn [kvm cr3 with_kvm]. fold d. rewrite Hv by done. unfold view_upd. by rewrite decide_True. }
    exists s'. left. exists f. split; [|by kstep H1]. unfold gave_frame.
    assert (Hk : kvm s' = v') by (rewrite H2; done). assert (Hc : cr3 s' = cr3 s) by (rewrite H2; done).
    destruct Hs as [[_ [(_ & _ & Hso & _) _ _ _]] _].
    assert (filter (fun g => g <> f) (f :: F') = F') as ->.
    { rewrite filter_cons, decide_False by tauto. apply filter_ne_id. inversion Hso as [|? ? _ Hlt]; subst.
      rewrite Forall_forall in Hlt. intros Hin%Hlt. lia. }
    split; [left|]. split; [rewrite Hk; exact H2|]. split; [|split; [by rewrite Hk|done]].
    unfold space_ok. rewrite Hk, Hc. done.
  - exists (with_kvm v' s). right. by rewrite decide_True.
Qed.

(** What repairs the fault of an access: a new frame for a write, the zero
    frame for a read, a new frame in place of the zero frame. *)
Inductive repair : Type := GiveFrame | GiveZero | SplitZero | NoRepair.

Definition repair_for (x : option page_view) (error : Z) : repair :=
  if decide (Z.land error 1 = 0) then
    match x with
    | Some (Unmapped a) =>
        if decide (a = PAGE_AVAILABLE) then
          if decide (Z.land (Z.shiftr error 1) 1 = 0) then GiveZero else GiveFrame
        else NoRepair
    | _ => NoRepair
    end
  else match x with Some (Mapped f _ _) => if decide (f = ZERO_FRAME) then SplitZero else NoRepair | _ => NoRepair end.

(** The same frames are free. *)
Definition same_frames (F F' : list Z) : Prop := forall g, g ∈ F' <-> g ∈ F.

(** The outcome of an attempt: done, or given up for want of memory. *)
Definition repaired (s : kstate) (F : list Z) (v : Z) (p : repair) (ok : bool) (s' : kstate) : Prop :=
  let V := view (kvm s) in
  let d := page_of (cr3 s) in
  match p, ok with
  | (GiveFrame | SplitZero), true => exists F' f, same_frames F F' /\ f ∈ F' /\ user_frame f /\
      s' = with_mem (mem s') (with_kvm (kvm s') s) /\ space_ok s' (filter (fun g => g <> f) F') /\
      view_is (kvm s') (view_upd V d v (Mapped f READ_WRITE 1)) /\ frame_cleared f s s'
  | GiveZero, true => s' = with_kvm (kvm s') s /\ space_ok s' F /\
      view_is (kvm s') (view_upd V d v (Mapped ZERO_FRAME READ_ONLY 1))
  | (GiveFrame | GiveZero), false => s' = with_kvm (kvm s') s /\ space_ok s' F /\ view_is (kvm s') V /\
      (page_pool (kvm s) = [] \/ F = [])
  | SplitZero, false => s' = with_kvm (kvm s') s /\ (exists F', same_frames F F' /\ space_ok s' F' /\
      (page_pool (kvm s) = [] \/ F' = [])) /\ view_is (kvm s') (view_upd V d v (Unmapped PAGE_AVAILABLE))
  | NoRepair, _ => ok = false /\ s' = s
  end.

Lemma repair_missing_ok s F v me t error : space_ok s F -> user_page (kvm s) (page_of (cr3 s)) v -> runs s me t ->
  Z.land error 1 = 0 ->
  exists ok s', repair_missing (page_of (cr3 s)) v (bool_decide (Z.land (Z.shiftr error 1) 1 <> 0)) s = Done ok s' /\
    repaired s F v (repair_for (here s v) error) ok s'.
Proof.
  intros Hs Hup Hrun He. set (d := page_of (cr3 s)) in *. unfold repair_missing, repair_for.
  rewrite (decide_True (P := Z.land error 1 = 0)) by done.
  rewrite (bind_Done _ _ _ _ _ (vm_get_ok (get_availability d v) s _ (get_availability_ok _ F d v (proj1 Hs) Hup))).
  unfold here. fold d. destruct (view (kvm s) d v) as [[a|f rw us]|] eqn:Hx; cbn beta iota.
  2-3: rewrite bool_decide_false by naive_solver; exists false, s; by split.
  destruct (decide (a = PAGE_AVAILABLE)) as [->|Ha].
  2:{ rewrite bool_decide_false by naive_solver. exists false, s. by split. }
  rewrite bool_decide_true by (split; [unfold OK; lia|done]).
  destruct (decide (Z.land (Z.shiftr error 1) 1 = 0)) as [Hw|Hw].
  - rewrite bool_decide_false by tauto.
    destruct (map_zero_frame_ok (kvm s) F d v (proj1 Hs) Hup) as (r & v' & Hr & Hdom & Hok & Hcase).
    rewrite Hx in Hcase. rewrite (bind_Done _ _ _ _ _ (vm_op_done (fun _ => map_zero_frame d v) s me t r v' Hrun Hr)).
    assert (Hdir : is_Some (pdirs v' !! d)) by (apply elem_of_dom; rewrite Hdom; apply elem_of_dom, Hs).
    destruct Hcase as [(-> & _ & Hv)|(-> & -> & Hm%no_table_pool)].
    + exists true, (with_kvm v' s). rewrite bool_decide_true by (unfold OK; lia). done.
    + exists false, (with_kvm (kvm s) s). rewrite bool_decide_false by (unfold FAIL; lia).
      split; [done|]. cbn. split_and!; try done. by left.
  - rewrite bool_decide_true by done.
    destruct (map_and_clear_ok s F v me t Hs Hup Hrun) as (s' & [(f & (G1 & G2 & G3 & G4 & G5) & H1)|(Hm & He' & Hok & Hv & H1)]);
      [by exists PAGE_AVAILABLE| |]; fold d in H1; rewrite H1.
    + exists true, s'. split; [done|]. exists F, f. split; [done|]. split; [done|]. split; [|done].
      destruct Hs as [[_ [(_ & _ & _ & Hu & _) _ _ _]] _]. rewrite Forall_forall in Hu. by apply Hu.
    + exists false, s'. done.
Qed.

End page_faults.

Lemma unmap_frame_pool me d v s r s' : unmap_frame me d v s = Some (r, s') -> page_pool s' = page_pool s.
Proof.
  unfold unmap_frame. destruct (user_page_ok d v); [|by intros [= _ <-]].
  destruct (find_frame s d v) as [l|]; [|done]. cbn [mbind option_bind]. case_decide; [|by intros [= _ <-]].
  intros (s1 & H1 & H2)%bind_Some. unfold set_pte in H1. inv_bind. unfold vm_free_frame in *. inv_bind. done.
Qed.

Section page_fault_theorem.
Context `{Platform}.

Lemma repair_present_ok s F v me t error : space_ok s F -> user_page (kvm s) (page_of (cr3 s)) v -> runs s me t ->
  Z.land error 1 <> 0 ->
  exists ok s', repair_present (page_of (cr3 s)) v s = Done ok s' /\
    repaired s F v (repair_for (here s v) error) ok s'.
Proof.
  intros Hs Hup Hrun He. set (d := page_of (cr3 s)) in *. unfold repair_present, repair_for.
  rewrite (decide_False (P := Z.land error 1 = 0)) by done.
  destruct (check_user_page_ok (kvm s) F d v (proj1 Hs) Hup) as (m & Hm & Hcase).
  rewrite (bind_Done _ _ _ _ _ (vm_get_ok (check_user_page d v) s _ Hm)).
  unfold here. fold d. destruct (view (kvm s) d v) as [[a|f rw us]|] eqn:Hx; cbn beta iota.
  - exists false, s. by rewrite bool_decide_false by naive_solver.
  - destruct (decide (f = ZERO_FRAME)) as [->|Hf].
    2:{ exists false, s. subst m. rewrite bool_decide_false by (by intros [_ ?]). done. }
    subst m. rewrite bool_decide_true by (split; [unfold OK; lia|done]).
    destruct (unmap_frame_ok (tid t) (kvm s) F d v (proj1 Hs) Hup) as (r & v1 & F1 & Hr & Hdom & Hok & Hcase).
    rewrite Hx in Hcase. destruct Hcase as (-> & Hv1 & Hin1 & Hin2 & _).
    assert (Hsame : same_frames F F1).
    { intros g. split; [|apply Hin1]. intros Hg. destruct (Hin2 g Hg) as [?| ->]; [done|]. exfalso.
      destruct Hok as [_ [(_ & _ & _ & Hu & _) _ _ _]]. rewrite Forall_forall in Hu.
      apply Hu, user_frame_facts in Hg. tauto. }
    rewrite (bind_Done _ _ _ _ _ (vm_op_done (fun me => unmap_frame me d v) s me t OK v1 Hrun Hr)).
    rewrite decide_False by (unfold OK; lia). set (s1 := with_kvm v1 s).
    assert (Hs1 : space_ok s1 F1).
    { split; [done|]. apply elem_of_dom. cbn [kvm s1 with_kvm cr3]. rewrite Hdom. apply elem_of_dom, Hs. }
    assert (Hup1 : user_page (kvm s1) (page_of (cr3 s1)) v) by by apply (user_page_dom (kvm s)).
    assert (Hx1 : here s1 v = Some (Unmapped PAGE_AVAILABLE)).
    { unfold here. cbn [kvm s1 with_kvm cr3]. rewrite Hv1 by apply Hup. unfold view_upd. by rewrite decide_True. }
    assert (Htw : forall s2 x, view_is s2 (view_upd (view v1) d v x) -> view_is s2 (view_upd (view (kvm s)) d v x)).
    { intros s2 x H2 d' w Hw. rewrite H2 by done. unfold view_upd. case_decide as Hc; [done|]. rewrite Hv1 by done.
      unfold view_upd. by rewrite decide_False. }
    destruct (map_and_clear_ok s1 F1 v me t Hs1 Hup1 Hrun) as (s' & [(g & (G1 & G2 & G3 & G4 & G5) & H1)|(Hm' & He' & Hok' & Hv' & H1)]);
      [by eexists| |]; change (page_of (cr3 s1)) with d in *; rewrite H1.
    + exists true, s'. split; [done|]. exists F1, g. split; [done|]. split; [done|]. split; [|split; [exact G2|]].
      { destruct Hok as [_ [(_ & _ & _ & Hu & _) _ _ _]]. rewrite Forall_forall in Hu. by apply Hu. }
      split; [done|]. split; [by apply Htw|done].
    + exists false, s'. split; [done|]. split; [exact He'|]. split.
      * exists F1. split; [done|]. split; [done|]. destruct Hm' as [Hm'|Hm']; [left|by right].
        by rewrite <-(unmap_frame_pool _ _ _ _ _ _ Hr).
      * intros e w Hw. rewrite Hv' by done. by apply Hv1.
  - done.
Qed.

End page_fault_theorem.

Section page_fault_handler.
Context `{Platform}.

Lemma put_pcb_lock_frame p m s s' v x : put_lock (PcbLock p) m s = Some s' ->
  s' = with_ctl (ctl s') s /\
  put_lock (PcbLock p) m (with_mem x (with_kvm v s)) = Some (with_mem x (with_kvm v s')).
Proof. cbn [put_lock]. intros (c & Hc & [= <-])%bind_Some. split; [done|]. cbn [ctl with_mem with_kvm]. by run Hc. Qed.

(** The lock taken and given back leaves no trace. *)
Lemma repaired_unlocked s c F v p ok s' : repaired (with_ctl c s) F v p ok s' ->
  s' = with_mem (mem s') (with_kvm (kvm s') (with_ctl c s)) /\
  repaired s F v p ok (with_mem (mem s') (with_kvm (kvm s') s)).
Proof.
  intros Hr. assert (exists m v', s' = with_mem m (with_kvm v' (with_ctl c s))) as (m & v' & ->).
  { assert (Hz : s' = with_kvm (kvm s') (with_ctl c s) -> s' = with_mem (mem s) (with_kvm (kvm s') (with_ctl c s))).
    { intros He. rewrite He at 1. by destruct s. }
    destruct p, ok; cbn [repaired] in Hr.
    1, 5: destruct Hr as (F' & f & _ & _ & _ & H4 & _); eauto.
    1-4: destruct Hr as [H1 _]; eauto.
    1: by destruct Hr.
    destruct Hr as [_ ->]. exists (mem s), (kvm s). by destruct s. }
  split; [done|]. destruct s; destruct p, ok; cbn [repaired] in Hr.
  1, 5: destruct Hr as (F' & f & H1 & H2 & H3 & _ & H4); by exists F', f.
  1-4: destruct Hr as [Hb Hx]; injection Hb as ->; exact (conj eq_refl Hx).
  all: destruct Hr as [Hb Hx]; try discriminate Hb; injection Hx as ? ?; by subst.
Qed.

(** The lock of the process around one attempt. *)
Lemma handle_page_fault_ok (u : ureg_t) (s : kstate) (F : list Z) (me : addr) (t : tcb_t)
    (Hrun : runs s me t) (Hl : get_lock (PcbLock (tcb_pcb t)) s = Some mutex_init)
    (Hs : space_ok s F) (Hup : user_page (kvm s) (page_of (cr3 s)) (cr2 u)) :
  exists ok s', repaired s F (cr2 u) (repair_for (here s (cr2 u)) (error_code u)) ok s' /\
    handle_page_fault u s = if (ok : bool) then Done tt s' else fault_kill_thread s'.
Proof.
  destruct Hrun as [Hme Ht]. set (l := PcbLock (tcb_pcb t)) in *.
  destruct (mutex_lock_ok l s mutex_init me t Hl eq_refl Hme Ht) as (s1 & Hlock & Hput).
  destruct (put_pcb_lock_frame _ _ _ _ (kvm s) (mem s) Hput) as [He1 _].
  destruct (put_lock_ctl _ _ _ _ Hput) as (_ & Er & Eg & _).
  assert (Hrun1 : runs s1 me t) by (split; [by rewrite Er|by rewrite Eg]).
  assert (Hre : exists ok s2,
    (if decide (Z.land (error_code u) 1 = 0)
     then repair_missing (page_of (cr3 s)) (cr2 u) (bool_decide (Z.land (Z.shiftr (error_code u) 1) 1 <> 0))
     else repair_present (page_of (cr3 s)) (cr2 u)) s1 = Done ok s2 /\
    repaired s1 F (cr2 u) (repair_for (here s (cr2 u)) (error_code u)) ok s2).
  { assert (Hs1 : space_ok s1 F) by (by rewrite He1).
    assert (Hup1 : user_page (kvm s1) (page_of (cr3 s1)) (cr2 u)) by (by rewrite He1).
    assert (here s (cr2 u) = here s1 (cr2 u)) as -> by (by rewrite He1).
    assert (cr3 s = cr3 s1) as -> by (by rewrite He1).
    destruct (decide (Z.land (error_code u) 1 = 0)); [by eapply repair_missing_ok|by eapply repair_present_ok]. }
  destruct Hre as (ok & s2 & Hre & Hrep). rewrite He1 in Hrep.
  destruct (repaired_unlocked _ _ _ _ _ _ _ Hrep) as [He2 Hrep2]. rewrite <-He1 in He2.
  exists ok, (with_mem (mem s2) (with_kvm (kvm s2) s)). split; [done|].
  assert (Hun : mutex_unlock l s2 = Done tt (with_mem (mem s2) (with_kvm (kvm s2) s))).
  { unfold mutex_unlock. assert (Hg : get_lock l s2 = Some (Mutex LOCKED (tid t))).
    { rewrite He2. apply (put_get_lock _ _ _ _ Hput). }
    kstep (load_lock_ok _ _ _ Hg). apply store_lock_ok. rewrite He2.
    apply put_pcb_lock_frame. rewrite (put_lock_again _ _ _ _ Hput). by apply put_lock_same. }
  unfold handle_page_fault. kstep (running_pcb_ok _ _ _ Hme Ht). fold l. kstep Hlock.
  assert (Hcd : current_page_dir s1 = Done (page_of (cr3 s)) s1) by (unfold current_page_dir, gets; by rewrite He1).
  kstep Hcd. kstep Hre. kstep Hun. by destruct ok.
Qed.

(** C9. The page fault handler repairs exactly the faults of lazily mapped memory:
    a write to an unmapped page marked available gets a new frame, a read of one
    the shared zero frame, a write to a page mapped to the zero frame a frame of
    its own; a new frame is taken from the free pool, is cleared, and nothing
    else in memory or in any address space changes, and the lock of the process
    is free again.  Every other fault, and these when memory has run out, kills
    the thread; a repair never fails while frames and heap pages are left. *)
Theorem handle_page_fault_repairs (u : ureg_t) (s : kstate) (F : list Z) (me : addr) (t : tcb_t)
    (Hrun : runs s me t) (Hl : get_lock (PcbLock (tcb_pcb t)) s = Some mutex_init)
    (Hs : space_ok s F) (Hup : user_page (kvm s) (page_of (cr3 s)) (cr2 u)) :
  exists ok s', repaired s F (cr2 u) (repair_for (here s (cr2 u)) (error_code u)) ok s' /\
    handle_page_fault u s = if (ok : bool) then Done tt s' else fault_kill_thread s'.
Proof. by apply (handle_page_fault_ok u s F me t). Qed.

End page_fault_handler.

(** * The range checks *)

Section range_checks.
Context `{Platform}.

Lemma all_pages_ok (check : Z -> option bool) (f : Z -> bool) ps :
  (forall p, p ∈ ps -> check p = Some (f p)) -> all_pages check ps = Some (forallb f ps).
Proof.
  induction ps as [|p ps IH]; intros Hc; [done|]. cbn [all_pages forallb]. rewrite Hc by left. cbn [mbind option_bind].
  destruct (f p); [|done]. apply IH. intros q Hq. apply Hc. by right.
Qed.

(** A page the kernel may be asked to write to, or to read. *)
Definition writable_view (x : option page_view) : bool :=
  match x with
  | Some (Unmapped a) => bool_decide (a = PAGE_AVAILABLE)
  | Some (Mapped f rw _) => bool_decide (f = ZERO_FRAME \/ rw = READ_WRITE)
  | None => false
  end.
Definition readable_view (x : option page_view) : bool :=
  match x with
  | Some (Unmapped a) => bool_decide (a = PAGE_AVAILABLE)
  | Some (Mapped _ _ _) => true
  | None => false
  end.

Lemma page_checks_ok s F d v : vm_ok s F -> user_page s d v ->
  page_writable d v s = Some (writable_view (view s d v)) /\ page_readable d v s = Some (readable_view (view s d v)).
Proof.
  intros Hok Hup. destruct (check_user_page_ok s F d v Hok Hup) as (m & Hm & Hcase).
  pose proof (get_availability_ok s F d v Hok Hup) as Ha. pose proof (get_access_ok s F d v Hok Hup) as Hr.
  unfold page_writable, page_readable. rewrite Hm. cbn [mbind option_bind].
  destruct (view s d v) as [[a|f rw us]|]; [| |done].
  - destruct Hcase as [->| ->]; rewrite Ha; done.
  - subst m. case_decide as Hf; cbn [writable_view]; [by rewrite bool_decide_true by auto|].
    rewrite Hr. cbn [mbind option_bind]. split; [|done]. f_equal. apply bool_decide_ext. tauto.
Qed.

(** The pages of a range are those of its addresses. *)
Lemma pages_elem addr size p : 0 <= addr -> 0 < size -> addr + size <= 2 ^ 32 ->
  p ∈ pages addr size -> vword p /\ page_of addr <= p /\ exists w, addr <= w < addr + size /\ page_no w = page_no p.
Proof.
  intros Ha Hs He Hp. unfold pages in Hp. apply list_elem_of_fmap in Hp as (i & -> & Hi).
  apply elem_of_seqZ in Hi. unfold page_count in Hi. rewrite page_of_eq in * by lia.
  change PAGE_SIZE with 4096 in *. pose proof (Z.mod_pos_bound addr 4096 ltac:(lia)) as Hm.
  pose proof (Z.div_mod addr 4096 ltac:(lia)) as Hd. set (o := addr `mod` 4096) in *. set (q := addr / 4096) in *.
  pose proof (Z.div_mod (addr + size - (addr - o) + 4096 - 1) 4096 ltac:(lia)) as Hd2.
  pose proof (Z.mod_pos_bound (addr + size - (addr - o) + 4096 - 1) 4096 ltac:(lia)) as Hm2.
  set (k := (addr + size - (addr - o) + 4096 - 1) / 4096) in *.
  assert (0 <= k) by lia. rewrite Z2Nat.id in Hi by lia.
  rewrite u32_small by lia. split; [unfold vword; lia|]. split; [lia|].
  exists (Z.max addr (addr - o + i * 4096)). split; [lia|].
  unfold page_no, PAGE_SHIFT. rewrite !Z.shiftr_div_pow2 by lia. change (2 ^ 12) with 4096.
  replace (addr - o + i * 4096) with ((q + i) * 4096) by lia. rewrite Z.div_mul by lia.
  destruct (decide (i = 0)) as [->|]; [|rewrite Z.max_r by lia; by rewrite Z.div_mul by lia].
  rewrite Z.max_l by lia. unfold q. lia.
Qed.

Lemma pages_cover addr size w : 0 <= addr -> 0 < size -> addr + size <= 2 ^ 32 -> addr <= w < addr + size ->
  page_of w ∈ pages addr size.
Proof.
  intros Ha Hs He Hw. unfold pages. apply list_elem_of_fmap. exists (w / 4096 - addr / 4096).
  unfold page_count. rewrite !page_of_eq by lia. change PAGE_SIZE with 4096.
  pose proof (Z.div_mod addr 4096 ltac:(lia)). pose proof (Z.div_mod w 4096 ltac:(lia)).
  pose proof (Z.mod_pos_bound addr 4096 ltac:(lia)). pose proof (Z.mod_pos_bound w 4096 ltac:(lia)).
  set (c := addr + size - (addr - addr `mod` 4096) + 4096 - 1).
  pose proof (Z.div_mod c 4096 ltac:(lia)). pose proof (Z.mod_pos_bound c 4096 ltac:(lia)). unfold c in *.
  split; [rewrite u32_small; lia|]. apply elem_of_seqZ. lia.
Qed.

Lemma forallb_view (g : option page_view -> bool) s F addr size : space_ok s F ->
  USER_PAGE_START <= addr -> 0 < size -> addr + size <= 2 ^ 32 ->
  forallb (fun p => g (here s p)) (pages addr size) = true <-> forall w, addr <= w < addr + size -> g (here s w) = true.
Proof.
  intros Hs Ha Hsz He. assert (0 <= addr) as Ha0 by (change USER_PAGE_START with 16777216 in *; lia).
  assert (Hsame : forall v w, vword v -> vword w -> page_no v = page_no w -> here s v = here s w).
  { intros v w Hv Hw Hp. unfold here, view. apply index_eq in Hp as [Hi Hj]; [|apply Hv|apply Hw]. by rewrite Hi, Hj. }
  rewrite forallb_forall. split.
  - intros H1 w Hw. assert (vword w) as Hww by (unfold vword; lia).
    rewrite (Hsame w (page_of w)) by (done || (pose proof (page_of_range w Hww); unfold vword in *; lia) || by rewrite page_no_page_of).
    apply H1, list_elem_of_In. by apply pages_cover.
  - intros H1 p Hp%list_elem_of_In. destruct (pages_elem addr size p) as (Hpw & _ & w & Hw & Hno); [done..|].
    rewrite <-(Hsame w p); [by apply H1|unfold vword; lia|done|done].
Qed.

Lemma check_range_ok (g : option page_view -> bool) (check : Z -> Z -> vm -> option bool) s F addr size :
  space_ok s F -> 0 <= addr < 2 ^ 32 -> 0 <= size < 2 ^ 32 ->
  (forall p, user_page (kvm s) (page_of (cr3 s)) p -> check (page_of (cr3 s)) p (kvm s) = Some (g (here s p))) ->
  exists b, (if decide (size > 0) then
     if user_range addr size then
       page_dir ← current_page_dir; vm_get (fun v => all_pages (fun i => check page_dir i v) (pages addr size))
     else mret false
   else mret true) s = Done b s /\
   (b = true <-> size = 0 \/ (USER_MEM_START <= addr /\ addr + size <= 2 ^ 32 /\
      forall w, addr <= w < addr + size -> g (here s w) = true)).
Proof.
  intros Hs Ha Hsz Hc. destruct (decide (size > 0)) as [Hp|Hp]; [|exists true; split; [done|]; split; [left; lia|done]].
  unfold user_range. change USER_MEM_START with USER_PAGE_START. case_bool_decide as Hr.
  2:{ exists false. split; [done|]. split; [done|]. intros [?|(H1 & H2 & _)]; [lia|]. exfalso. apply Hr.
      unfold VIRTUAL_ADDR_END. lia. }
  destruct Hr as [Hr1 Hr2]. unfold VIRTUAL_ADDR_END in Hr2.
  assert (Hpages : forall p, p ∈ pages addr size -> user_page (kvm s) (page_of (cr3 s)) p).
  { intros p Hin. destruct (pages_elem addr size p) as (Hpw & _ & w & Hw & Hno); [lia..|done|].
    split; [apply Hs|]. split; [done|]. eapply (user_page_no w p); [unfold vword; lia|done|done|lia]. }
  exists (forallb (fun p => g (here s p)) (pages addr size)). split.
  - unfold current_page_dir. rewrite (bind_Done _ _ _ _ _ (gets_ok _ s)).
    apply (vm_get_ok (fun v => all_pages (fun i => check (page_of (cr3 s)) i v) (pages addr size))).
    apply all_pages_ok. intros p Hin. by apply Hc, Hpages.
  - rewrite (forallb_view g s F addr size) by (done || lia). split; [intros; right; split_and!; [lia|lia|done]|].
    intros [?|(_ & _ & ?)]; [lia|done].
Qed.

Lemma is_writable_ok s F addr size : space_ok s F -> 0 <= addr < 2 ^ 32 -> 0 <= size < 2 ^ 32 ->
  exists b, is_writable addr size s = Done b s /\
   (b = true <-> size = 0 \/ (USER_MEM_START <= addr /\ addr + size <= 2 ^ 32 /\
      forall w, addr <= w < addr + size -> writable_view (here s w) = true)).
Proof.
  intros Hs Ha Hsz. apply (check_range_ok writable_view page_writable s F addr size Hs Ha Hsz).
  intros p Hp. by destruct (page_checks_ok (kvm s) F _ p (proj1 Hs) Hp).
Qed.

Lemma is_readable_ok s F addr size : space_ok s F -> 0 <= addr < 2 ^ 32 -> 0 <= size < 2 ^ 32 ->
  exists b, is_readable addr size s = Done b s /\
   (b = true <-> size = 0 \/ (USER_MEM_START <= addr /\ addr + size <= 2 ^ 32 /\
      forall w, addr <= w < addr + size -> readable_view (here s w) = true)).
Proof.
  intros Hs Ha Hsz. apply (check_range_ok readable_view page_readable s F addr size Hs Ha Hsz).
  intros p Hp. by destruct (page_checks_ok (kvm s) F _ p (proj1 Hs) Hp).
Qed.

(** C20. The kernel accepts a buffer exactly when it is empty or lies in user
    memory, without wrapping around the end of the address space, and every
    page it touches qualifies: for writing, a page still to be mapped that is
    available, the zero frame or a writable page; for reading, any mapped page
    or an available one.  The answer changes nothing. *)
Theorem range_checks_exact (s : kstate) (F : list Z) (addr size : Z)
    (Hs : space_ok s F) (Ha : 0 <= addr < 2 ^ 32) (Hsz : 0 <= size < 2 ^ 32) :
  (exists b, is_writable addr size s = Done b s /\
     (b = true <-> size = 0 \/ (USER_MEM_START <= addr /\ addr + size <= 2 ^ 32 /\
        forall w, addr <= w < addr + size -> writable_view (here s w) = true))) /\
  (exists b, is_readable addr size s = Done b s /\
     (b = true <-> size = 0 \/ (USER_MEM_START <= addr /\ addr + size <= 2 ^ 32 /\
        forall w, addr <= w < addr + size -> readable_view (here s w) = true))).
Proof. split; [by apply (is_writable_ok s F)|by apply (is_readable_ok s F)]. Qed.

End range_checks.

(** ** A concrete state: two address spaces, one with a page of each kind *)

#[export] Instance vm_op_ok_dec op s : Decision (vm_op_ok op s).
Proof. destruct op; cbn [vm_op_ok]; unfold vword; apply _. Defined.

Fixpoint run_vm_ops (me : Z) (ops : list Vm.vm_op) (s : vm) : option vm :=
  match ops with
  | [] => Some s
  | op :: ops => if decide (vm_op_ok op s) then s ← run_vm_op me op s; run_vm_ops me ops s else None
  end.

Lemma run_vm_ops_ok me ops : forall s s' F, run_vm_ops me ops s = Some s' -> vm_ok s F -> exists F', vm_ok s' F'.
Proof.
  induction ops as [|op ops IH]; intros s s' F; cbn [run_vm_ops]; [intros [= <-]; eauto|].
  case_decide as Hop; [|done]. intros (s1 & H1 & H2)%bind_Some Hok.
  destruct (run_vm_op_ok me op s F Hok Hop) as (s1' & F' & H1' & Hok'). rewrite H1 in H1'. injection H1' as <-. eauto.
Qed.

Definition demo_ops : list Vm.vm_op :=
  [PageOp MapNew 65536 0x1003000; PageOp MapZero 65536 0x1004000; PageOp (SetAvailability PAGE_AVAILABLE) 65536 0x1006000;
   Construct; PageOp MapZero 90112 0x1005000].
Definition demo_user_vm : vm := default demo_vm (run_vm_ops 1 demo_ops demo_vm).
Definition demo_user_state : kstate := with_kvm demo_user_vm demo_state.

#[export] Instance demo_platform : Platform := {|
  machine_phys_frames := 4109; exec2obj_userapp_TOC := []; cr0_wp := false |}.

Lemma demo_user_ok : exists F, space_ok demo_user_state F.
Proof.
  destruct (run_vm_ops 1 demo_ops demo_vm) as [s|] eqn:E; [|vm_compute in E; discriminate E].
  destruct (run_vm_ops_ok _ _ _ _ _ E demo_vm_ok) as [F HF]. exists F. unfold space_ok. 
  change (kvm demo_user_state) with demo_user_vm. split; [|decided].
  unfold demo_user_vm. by rewrite E.
Qed.

Lemma demo_views :
  here demo_user_state 0x1003ffc = Some (Mapped 0x1001000 READ_WRITE 1) /\
  here demo_user_state 0x1004010 = Some (Mapped ZERO_FRAME READ_ONLY 1) /\
  here demo_user_state 0x1006010 = Some (Unmapped PAGE_AVAILABLE) /\
  view demo_user_vm 90112 0x1005010 = Some (Mapped ZERO_FRAME READ_ONLY 1).
Proof. by vm_compute. Qed.

Lemma demo_user_page v : vword v -> USER_PAGE_START <= v -> user_page demo_user_vm 65536 v /\ user_page demo_user_vm 90112 v.
Proof. intros Hv Hu. split; (split; [decided|done]). Qed.

Lemma demo_range v n : 0x1003000 <= v -> v + n <= 0x1004000 -> own_range demo_user_state v n.
Proof.
  intros Hv Hn. split; [change USER_PAGE_START with 16777216; lia|]. split; [lia|]. intros w Hw.
  exists 0x1001000, READ_WRITE, 1. split; [|by split].
  assert (page_no w = page_no 0x1003ffc) as Hp.
  { unfold page_no, PAGE_SHIFT. rewrite !Z.shiftr_div_pow2 by lia. change (2 ^ 12) with 4096. 
    change (0x1003ffc / 4096) with 4099. pose proof (Z.div_mod w 4096). pose proof (Z.mod_pos_bound w 4096). lia. }
  rewrite <-(proj1 demo_views). unfold here, view. apply index_eq in Hp as [-> ->]; [done|lia|lia].
Qed.

Lemma user_store_load_witness : exists s', store32 0x1003ffc 0xC001C0DE demo_user_state = Done tt s' /\
  load32 0x1003ffc s' = Done 0xC001C0DE s'.
Proof.
  destruct demo_user_ok as [F HF].
  destruct (user_store_load demo_user_state F 0x1003ffc (bytes_of 0xC001C0DE) HF) as (s' & _ & _ & _ & H & _);
    [apply demo_range; vm_compute; discriminate|].
  exists s'. destruct (H 0xC001C0DE eq_refl) as [H1 H2]. split; [exact H1|exact H2].
Defined.

Lemma zero_frame_store_leaks_witness : exists s', store8 0x1004010 7 demo_user_state = Done tt s' /\
  load8 0x1005010 (with_cr3 90112 s') = Done 7 (with_cr3 90112 s').
Proof.
  destruct demo_user_ok as [F HF].
  destruct (zero_frame_store_leaks demo_user_state F 0x1004010 90112 0x1005010 7) as (_ & s' & H1 & _ & H2);
    [reflexivity|exact HF|apply demo_user_page; [done|vm_compute; discriminate]|apply demo_views|
     apply demo_user_page; [done|vm_compute; discriminate]|apply demo_views|reflexivity|].
  exists s'. split; [exact H1|exact H2].
Defined.

(** A write to the available page, and one to the page of the zero frame. *)
Definition demo_fault (v error : Z) : ureg_t := fault_ureg v error.

Lemma handle_page_fault_repairs_witness :
  repair_for (here demo_user_state 0x1006010) 2 = GiveFrame /\ repair_for (here demo_user_state 0x1004010) 3 = SplitZero /\
  repair_for (here demo_user_state 0x1003ffc) 3 = NoRepair /\
  exists F ok s', repaired demo_user_state F 0x1006010 GiveFrame ok s' /\
    handle_page_fault (demo_fault 0x1006010 2) demo_user_state = if (ok : bool) then Done tt s' else fault_kill_thread s'.
Proof.
  split; [by vm_compute|]. split; [by vm_compute|]. split; [by vm_compute|].
  destruct demo_user_ok as [F HF]. exists F.
  destruct (handle_page_fault_repairs (demo_fault 0x1006010 2) demo_user_state F 100
    (demo_tcb 5000 1 RUNNING_STATE blocking_none)) as (ok & s' & H1 & H2);
    [split; reflexivity|reflexivity|exact HF|apply demo_user_page; [done|vm_compute; discriminate]|].
  exists ok, s'. split; [exact H1|exact H2].
Defined.

Lemma range_checks_exact_witness :
  (exists b, is_writable 0x1003ff0 0x20 demo_user_state = Done b demo_user_state) /\
  exists b, is_readable 0xfffffff0 0x20 demo_user_state = Done b demo_user_state /\ b = false.
Proof.
  destruct demo_user_ok as [F HF]. split.
  - destruct (range_checks_exact demo_user_state F 0x1003ff0 0x20 HF) as [(b & H & _) _]; [lia|lia|]. by exists b.
  - destruct (range_checks_exact demo_user_state F 0xfffffff0 0x20 HF) as [_ (b & H & Hb)]; [lia|lia|].
    exists b. split; [exact H|]. destruct b; [|reflexivity]. exfalso.
    destruct (proj1 Hb eq_refl) as [?|(_ & ? & _)]; lia.
Defined.
