(* ===== verification/Elf.v ===== *)
(** The executables: [getbytes] of [kern/loader.c] on the bytes of a file, and
    the ELF reader of [410kern/elf/load_helper.c].

    Multi-byte fields are little-endian; offsets and sizes reach [getbytes] as
    [int]s.  A function has no value ([None]) when it reads outside the bytes of
    the file. *)
From S2P Require Import Prelude.
#[local] Open Scope Z_scope.

(** [memmove] out of the image of a file: [size] bytes from [offset] on, which
    must lie in the image. *)
Definition memmove_from (image : list Z) (offset size : Z) : option (list Z) :=
  if bool_decide (0 <= offset /\ 0 <= size /\ offset + size <= Z.of_nat (length image))
  then Some (take (Z.to_nat size) (drop (Z.to_nat offset) image)) else None.

(** The part of [getbytes] after the look-up of the file, for a buffer that is
    not [NULL]: the value returned and what has been copied to the buffer. *)
Definition file_bytes (file : option (list Z)) (offset size : Z) : option (Z * list Z) :=
  match file with
  | None => Some (FAIL, [])
  | Some image =>
      let execlen := Z.of_nat (length image) in
      if bool_decide (offset < 0 \/ size < 0) then Some (FAIL, [])
      else if decide (offset >= execlen) then Some (FAIL, [])
      else
        let size := if decide (size > execlen - offset) then execlen - offset else size in
        buf ← memmove_from image offset size;
        Some (size, buf)
  end.

(** Fields of the headers. *)
Fixpoint little_endian (xs : list Z) : Z :=
  match xs with [] => 0 | x :: xs => x + 256 * little_endian xs end.
Definition field (off width : nat) (hdr : list Z) : Z := little_endian (take width (drop off hdr)).

Definition EHDR_SIZE : Z := 52.
Definition SHDR_SIZE : Z := 40.
Definition e_type := field 16 2.
Definition e_machine := field 18 2.
Definition e_version := field 20 4.
Definition e_entry_field := field 24 4.
Definition e_shoff := field 32 4.
Definition e_shnum := field 48 2.
Definition e_shstrndx := field 50 2.
Definition sh_name := field 0 4.
Definition sh_addr := field 12 4.
Definition sh_offset := field 16 4.
Definition sh_size := field 20 4.

Definition ELFMAG : list Z := [0x7f; 69; 76; 70].
Definition ET_EXEC : Z := 2.
Definition EM_386 : Z := 3.
Definition EV_CURRENT : Z := 1.
Definition SHN_UNDEF : Z := 0.

(** [getbytes] into a buffer of [size] bytes, all of which it must fill. *)
Definition read_exactly (file : option (list Z)) (offset size : Z) : option (option (list Z)) :=
  '(ret, buf) ← file_bytes file (s32 offset) size;
  Some (if decide (ret = size) then Some buf else None).

Definition elf_check_header (file : option (list Z)) : option bool :=
  hdr ← read_exactly file 0 EHDR_SIZE;
  Some (match hdr with
        | None => false
        | Some hdr => bool_decide (take 4 hdr = ELFMAG /\ e_type hdr = ET_EXEC /\ e_machine hdr = EM_386 /\
                                   e_version hdr = EV_CURRENT)
        end).

Record simple_elf_t : Type := SimpleElf {
  e_entry : Z;
  e_txtoff : Z; e_txtlen : Z; e_txtstart : Z;
  e_datoff : Z; e_datlen : Z; e_datstart : Z;
  e_rodatoff : Z; e_rodatlen : Z; e_rodatstart : Z;
  e_bsslen : Z; e_bssstart : Z;
}.

(** Section names as C strings, with their final zero. *)
Definition dot_text : list Z := [46; 116; 101; 120; 116; 0].
Definition dot_rodata : list Z := [46; 114; 111; 100; 97; 116; 97; 0].
Definition dot_data : list Z := [46; 100; 97; 116; 97; 0].
Definition dot_bss : list Z := [46; 98; 115; 115; 0].

(** [strcmp(lit, section_name) == 0] on the zero-filled 10-byte buffer. *)
Definition named (lit section_name : list Z) : bool :=
  bool_decide (take (length lit) (section_name ++ replicate (10 - length section_name) 0) = lit).

(** The branches of the loop on the section's name. *)
Definition note_section (name sec : list Z) (e : simple_elf_t) : simple_elf_t :=
  if named dot_text name then
    SimpleElf (e_entry e) (sh_offset sec) (sh_size sec) (sh_addr sec)
      (e_datoff e) (e_datlen e) (e_datstart e) (e_rodatoff e) (e_rodatlen e) (e_rodatstart e)
      (e_bsslen e) (e_bssstart e)
  else if named dot_rodata name then
    SimpleElf (e_entry e) (e_txtoff e) (e_txtlen e) (e_txtstart e)
      (e_datoff e) (e_datlen e) (e_datstart e) (sh_offset sec) (sh_size sec) (sh_addr sec)
      (e_bsslen e) (e_bssstart e)
  else if named dot_data name then
    SimpleElf (e_entry e) (e_txtoff e) (e_txtlen e) (e_txtstart e)
      (sh_offset sec) (sh_size sec) (sh_addr sec) (e_rodatoff e) (e_rodatlen e) (e_rodatstart e)
      (e_bsslen e) (e_bssstart e)
  else if named dot_bss name then
    SimpleElf (e_entry e) (e_txtoff e) (e_txtlen e) (e_txtstart e)
      (e_datoff e) (e_datlen e) (e_datstart e) (e_rodatoff e) (e_rodatlen e) (e_rodatstart e)
      (sh_size sec) (sh_addr sec)
  else e.

(** The loop over the section headers, [n] of them left from [i]; [None] inside:
    the caller returns [ELF_NOTELF]. *)
Fixpoint scan_sections (file : option (list Z)) (shoff string_offset : Z) (n : nat) (i : Z)
    (e : simple_elf_t) : option (option simple_elf_t) :=
  match n with
  | O => Some (Some e)
  | S n =>
      sec ← read_exactly file (shoff + i * SHDR_SIZE) SHDR_SIZE;
      match sec with
      | None => Some None
      | Some sec =>
          if decide (sh_name sec = SHN_UNDEF) then scan_sections file shoff string_offset n (i + 1) e
          else
            '(ret, name) ← file_bytes file (s32 (string_offset + sh_name sec)) 10;
            if decide (ret < 0) then Some None
            else scan_sections file shoff string_offset n (i + 1) (note_section name sec e)
      end
  end.

(** [elf_load_helper]; [None] inside is [ELF_NOTELF]. *)
Definition elf_load_helper (file : option (list Z)) : option (option simple_elf_t) :=
  hdr ← read_exactly file 0 EHDR_SIZE;
  match hdr with
  | None => Some None
  | Some hdr =>
      strtab ← read_exactly file (e_shoff hdr + e_shstrndx hdr * SHDR_SIZE) SHDR_SIZE;
      match strtab with
      | None => Some None
      | Some strtab =>
          scan_sections file (e_shoff hdr) (sh_offset strtab) (Z.to_nat (e_shnum hdr)) 0
            (SimpleElf (e_entry_field hdr) 0 0 0 0 0 0 0 0 0 0 0)
      end
  end.

(** * A reference reader

    The loop keeps one record and overwrites parts of it as it goes.  The
    reference reads the table as a whole and looks each name up in it: the last
    section of the name counts. *)

(** The bytes from an offset on, as [getbytes] gets it. *)
Definition at_offset (bytes : list Z) (off : Z) : list Z := drop (Z.to_nat (s32 off)) bytes.
Definition inside (bytes : list Z) (off size : Z) : bool :=
  bool_decide (0 <= s32 off /\ s32 off + size <= Z.of_nat (length bytes)).
Definition slice (bytes : list Z) (off size : Z) : list Z := take (Z.to_nat size) (at_offset bytes off).

(** The C string at the head of some bytes; the end of the file ends it too. *)
Definition c_string (xs : list Z) : list Z := (span_sat (fun x => bool_decide (x = 0)) xs).1.

Section reference.
Context (bytes : list Z).

Definition ref_header : list Z := slice bytes 0 EHDR_SIZE.
Definition ref_strtab_off : Z := e_shoff ref_header + e_shstrndx ref_header * SHDR_SIZE.
Definition ref_strings : Z := sh_offset (slice bytes ref_strtab_off SHDR_SIZE).
Definition section_off (i : Z) : Z := e_shoff ref_header + i * SHDR_SIZE.
Definition ref_section (i : Z) : list Z := slice bytes (section_off i) SHDR_SIZE.
Definition section_named (w sec : list Z) : bool :=
  bool_decide (sh_name sec <> SHN_UNDEF) && bool_decide (c_string (at_offset bytes (ref_strings + sh_name sec)) = w).
Definition last_named (w : list Z) (secs : list (list Z)) : option (list Z) :=
  last (filter (fun sec => section_named w sec = true) secs).

(** The header of a section and its name lie in the file. *)
Definition section_inside (i : Z) : bool :=
  inside bytes (section_off i) SHDR_SIZE &&
  (bool_decide (sh_name (ref_section i) = SHN_UNDEF) || inside bytes (ref_strings + sh_name (ref_section i)) 1).
Definition elf_inside : bool :=
  inside bytes 0 EHDR_SIZE && inside bytes ref_strtab_off SHDR_SIZE &&
  forallb section_inside (seqZ 0 (Z.of_nat (Z.to_nat (e_shnum ref_header)))).

Definition name_text : list Z := [46; 116; 101; 120; 116].
Definition name_rodata : list Z := [46; 114; 111; 100; 97; 116; 97].
Definition name_data : list Z := [46; 100; 97; 116; 97].
Definition name_bss : list Z := [46; 98; 115; 115].

Definition elf_of (entry : Z) (secs : list (list Z)) : simple_elf_t :=
  let fld w (f : list Z -> Z) := from_option f 0 (last_named w secs) in
  SimpleElf entry (fld name_text sh_offset) (fld name_text sh_size) (fld name_text sh_addr)
    (fld name_data sh_offset) (fld name_data sh_size) (fld name_data sh_addr)
    (fld name_rodata sh_offset) (fld name_rodata sh_size) (fld name_rodata sh_addr)
    (fld name_bss sh_size) (fld name_bss sh_addr).
Definition elf_reference : simple_elf_t :=
  elf_of (e_entry_field ref_header) (ref_section <$> seqZ 0 (Z.of_nat (Z.to_nat (e_shnum ref_header)))).

(** ** Reads *)

Lemma memmove_from_ok off size : 0 <= off -> 0 <= size -> off + size <= Z.of_nat (length bytes) ->
  memmove_from bytes off size = Some (take (Z.to_nat size) (drop (Z.to_nat off) bytes)).
Proof. intros. unfold memmove_from. by rewrite bool_decide_true by lia. Qed.

Lemma read_exactly_spec off size : 0 < size ->
  read_exactly (Some bytes) off size = Some (if inside bytes off size then Some (slice bytes off size) else None).
Proof.
  intros Hs. unfold read_exactly, file_bytes, inside, slice, at_offset.
  destruct (decide (s32 off < 0)) as [Hn|Hn].
  { rewrite bool_decide_true by lia. rewrite bool_decide_false by lia. cbn. by rewrite decide_False by (unfold FAIL; lia). }
  rewrite bool_decide_false by lia. destruct (decide (s32 off >= _)) as [Hge|Hlt].
  { rewrite bool_decide_false by lia. cbn. by rewrite decide_False by (unfold FAIL; lia). }
  case_bool_decide as Hi.
  - rewrite (decide_False (P := size > _)) by lia. rewrite memmove_from_ok by lia. cbn. by rewrite decide_True.
  - rewrite (decide_True (P := size > _)) by lia. rewrite memmove_from_ok by lia. cbn. by rewrite decide_False by lia.
Qed.

(** The read of a name may come up short. *)
Lemma name_read_spec off : exists ret buf, file_bytes (Some bytes) (s32 off) 10 = Some (ret, buf) /\
  if inside bytes off 1 then 0 <= ret /\ buf = take 10 (at_offset bytes off) else ret < 0.
Proof.
  unfold file_bytes, inside, at_offset. destruct (decide (s32 off < 0)) as [Hn|Hn].
  { rewrite bool_decide_true by lia. rewrite bool_decide_false by lia. by eexists _, _. }
  rewrite bool_decide_false by lia. destruct (decide (s32 off >= _)) as [Hge|Hlt].
  { rewrite bool_decide_false by lia. by eexists _, _. }
  rewrite bool_decide_true by lia. destruct (decide (10 > _)) as [Hg|Hg]; rewrite memmove_from_ok by lia; do 2 eexists; (split; [done|]).
  - split; [lia|]. rewrite !take_ge; [done|rewrite length_drop; lia..].
  - done.
Qed.

(** The comparison with a name shorter than the buffer. *)
Lemma named_c_string w : forall n xs, (length w < n)%nat -> Forall (fun x => x <> 0) w ->
  take (S (length w)) (take n xs ++ replicate (n - length (take n xs)) 0) = w ++ [0] <-> c_string xs = w.
Proof.
  induction w as [|c w IH]; intros n xs Hn Hw; (destruct n as [|n]; [cbn in Hn; lia|]).
  - unfold c_string. destruct xs as [|x xs]; cbn; [done|]. case_bool_decide as Hx; cbn; [by subst|].
    destruct (span_sat _ xs) as [a b]. cbn. split; [intros [= ?]; done|done].
  - apply Forall_cons in Hw as [Hc Hw]. unfold c_string. destruct xs as [|x xs].
    + cbn. split; [intros [= ?]; congruence|done].
    + cbn [take app length span_sat]. specialize (IH n xs ltac:(cbn in Hn; lia) Hw). unfold c_string in IH.
      destruct (span_sat _ xs) as [a b]. cbn [fst] in IH. 
      replace (S n - S (length (take n xs)))%nat with (n - length (take n xs))%nat by lia.
      case_bool_decide as Hx; cbn [fst].
      * subst. split; [intros [= ?]; congruence|done].
      * split; [intros [= -> He]; f_equal; by apply IH|intros [= -> ->]; f_equal; by apply IH].
Qed.

Lemma named_spec w xs : (length w < 10)%nat -> Forall (fun x => x <> 0) w ->
  named (w ++ [0]) (take 10 xs) = bool_decide (c_string xs = w).
Proof.
  intros Hl Hw. unfold named. rewrite length_app, Nat.add_1_r.
  apply bool_decide_ext. by apply named_c_string.
Qed.

(** ** The loop *)

Definition note (e : simple_elf_t) (sec : list Z) : simple_elf_t :=
  if decide (sh_name sec = SHN_UNDEF) then e
  else note_section (take 10 (at_offset bytes (ref_strings + sh_name sec))) sec e.

Lemma scan_sections_spec n : forall i e,
  scan_sections (Some bytes) (e_shoff ref_header) ref_strings n i e =
  Some (if forallb section_inside (seqZ i (Z.of_nat n)) then Some (foldl note e (ref_section <$> seqZ i (Z.of_nat n))) else None).
Proof.
  induction n as [|n IH]; intros i e; [done|]. rewrite seqZ_cons by lia.
  replace (Z.pred (Z.of_nat (S n))) with (Z.of_nat n) by lia. replace (Z.succ i) with (i + 1) by lia.
  cbn [scan_sections forallb fmap list_fmap foldl]. rewrite read_exactly_spec by done.
  unfold section_inside at 1. fold (section_off i). fold (ref_section i). destruct (inside bytes (section_off i) SHDR_SIZE); [|done].
  cbn [mbind option_bind andb]. destruct (decide (sh_name (ref_section i) = SHN_UNDEF)) as [H0|H0].
  - rewrite bool_decide_true by done. cbn [orb andb]. rewrite IH.
    assert (note e (ref_section i) = e) as -> by (unfold note; by rewrite decide_True). done.
  - rewrite bool_decide_false by done. cbn [orb].
    destruct (name_read_spec (ref_strings + sh_name (ref_section i))) as (ret & buf & -> & Hb). cbn [mbind option_bind].
    destruct (inside bytes (ref_strings + _) 1); [|by rewrite decide_True by done]. destruct Hb as [Hret ->].
    rewrite decide_False by lia. cbn [andb]. rewrite IH.
    assert (note e (ref_section i) = note_section (take 10 (at_offset bytes (ref_strings + sh_name (ref_section i)))) (ref_section i) e) as ->
      by (unfold note; by rewrite decide_False). done.
Qed.

Lemma last_named_snoc w secs sec : last_named w (secs ++ [sec]) = if section_named w sec then Some sec else last_named w secs.
Proof.
  unfold last_named. rewrite filter_app, filter_cons, filter_nil. destruct (section_named w sec) eqn:E.
  - rewrite decide_True by done. by rewrite last_snoc.
  - rewrite decide_False by done. by rewrite app_nil_r.
Qed.

(** Overwriting the record section by section leaves the last section of each name. *)
Lemma foldl_note entry secs : foldl note (elf_of entry []) secs = elf_of entry secs.
Proof.
  induction secs as [|sec secs IH] using rev_ind; [done|]. rewrite foldl_app, IH. cbn [foldl].
  unfold note. set (str := at_offset bytes (ref_strings + sh_name sec)).
  assert (Hs : forall w, section_named w sec = bool_decide (sh_name sec <> SHN_UNDEF) && bool_decide (c_string str = w)) by done.
  unfold elf_of. rewrite !last_named_snoc, !Hs. destruct (decide (sh_name sec = SHN_UNDEF)) as [H0|H0].
  { by rewrite bool_decide_false by tauto. }
  rewrite bool_decide_true by done. cbn [andb].
  assert (Hn : forall w, (length w < 10)%nat -> Forall (fun x => x <> 0) w -> named (w ++ [0]) (take 10 str) = bool_decide (c_string str = w)).
  { intros w. apply named_spec. }
  unfold note_section. change dot_text with (name_text ++ [0]). change dot_rodata with (name_rodata ++ [0]).
  change dot_data with (name_data ++ [0]). change dot_bss with (name_bss ++ [0]).
  rewrite !Hn by (cbn; first [lia|by repeat constructor]). clear Hn Hs. set (cs := c_string str). clearbody cs.
  destruct (decide (cs = name_text)) as [->|H1]; [done|]. destruct (decide (cs = name_rodata)) as [->|H2]; [done|].
  destruct (decide (cs = name_data)) as [->|H3]; [done|]. destruct (decide (cs = name_bss)) as [->|H4]; [done|].
  by rewrite !bool_decide_false by done.
Qed.

(** C30. Reading an executable agrees with the reference on every file,
    well-formed or not, and never reads a byte outside the file's image (the
    result is never [None]): when the header, the string table's header, every
    section's header and the first byte of every section's name lie in the file,
    the result has the entry point and, for each of [.text], [.data], [.rodata]
    and [.bss], the offset, length and address of the last section of that name,
    or zeros when there is none; otherwise the file is refused.  A file that does
    not exist is refused too. *)
Theorem elf_load_helper_reference :
  elf_load_helper (Some bytes) = Some (if elf_inside then Some elf_reference else None) /\
  elf_load_helper None = Some None.
Proof.
  split; [|done]. unfold elf_load_helper, elf_inside. rewrite read_exactly_spec by done.
  destruct (inside bytes 0 EHDR_SIZE); [|done]. cbn [mbind option_bind]. fold ref_header. rewrite read_exactly_spec by done.
  fold ref_strtab_off. destruct (inside bytes ref_strtab_off SHDR_SIZE); [|done]. cbn [mbind option_bind andb].
  fold ref_strings. rewrite scan_sections_spec. destruct (forallb _ _); [|done]. do 2 f_equal. apply foldl_note.
Qed.

End reference.

(** A file of 172 bytes: header, two section headers after the undefined one's
    slot, and the names. *)
Definition demo_elf : list Z :=
  [0x7f; 69; 76; 70] ++ replicate 12 0 ++ [2; 0; 3; 0; 1; 0; 0; 0] ++ [0x10; 0; 0; 1] ++ replicate 4 0 ++ [52; 0; 0; 0] ++
  replicate 12 0 ++ [2; 0; 1; 0] ++
  ([1; 0; 0; 0] ++ replicate 8 0 ++ [0; 0; 0; 1] ++ [132; 0; 0; 0] ++ [16; 0; 0; 0] ++ replicate 16 0) ++
  (replicate 4 0 ++ replicate 12 0 ++ [132; 0; 0; 0] ++ [7; 0; 0; 0] ++ replicate 16 0) ++ [0] ++ name_text.

Lemma demo_elf_reads : elf_check_header (Some demo_elf) = Some true /\ elf_inside demo_elf = true /\
  elf_reference demo_elf = SimpleElf 0x1000010 132 16 0x1000000 0 0 0 0 0 0 0 0.
Proof. by vm_compute. Qed.
