(* ===== verification/Loader.v ===== *)
(** The loader, [kern/loader.c]: [getbytes] and [load_executable]. *)
From S2P Require Import Prelude Ring KMutex Frames Vm Keyhelp Keyboard Console Machine CtrlBlk Kernel Sched.
From S2P Require Import UserMem Elf.
#[local] Open Scope Z_scope.

(** Length of the user stack in double words. *)
Definition USER_STACK_LEN : Z := 0x10000.
Definition GUEST_LAUNCH_EAX : Z := 0x15410DE0.

(** A C string of the caller: a literal of the kernel, or user memory. *)
Inductive string_src : Type := KernelString (s : list Z) | UserString (p : addr).
(** An argument vector. *)
Inductive argv_src : Type := KernelArgv (args : list (list Z)) | UserArgv (p : addr).

#[export] Instance string_src_eq_dec : EqDecision string_src.
Proof. solve_decision. Defined.
#[export] Instance argv_src_eq_dec : EqDecision argv_src.
Proof. solve_decision. Defined.

Section loader.
Context `{Platform}.

(** The [i]-th character of a string. *)
Definition char_at (src : string_src) (i : Z) : K Z :=
  match src with
  | KernelString s => mret (default 0 (s !! Z.to_nat i))
  | UserString p => load8 (u32 (p + i))
  end.

(** The bytes up to the first zero ([strlen] and [strcpy]). *)
Definition read_string (src : string_src) : K (list Z) :=
  rev ← loop 32 (fun acc : list Z =>
    c ← char_at src (Z.of_nat (length acc));
    if decide (c = 0) then mret (inr acc) else mret (inl (c :: acc))) [];
  mret (reverse rev).

(** [strcmp(filename, name) == 0]. *)
Fixpoint string_is (src : string_src) (i : Z) (name : list Z) : K bool :=
  c ← char_at src i;
  match name with
  | [] => mret (bool_decide (c = 0))
  | x :: name => if decide (c = x) then string_is src (i + 1) name else mret false
  end.

(** The loop over the table of contents.  [getbytes] looks the name up at every
    call; here it is looked up once for the reads of one file. *)
Fixpoint find_in_toc (src : string_src) (toc : list (list Z * list Z)) : K (option (list Z)) :=
  match toc with
  | [] => mret None
  | (name, bytes) :: toc =>
      same ← string_is src 0 name;
      if (same : bool) then mret (Some bytes) else find_in_toc src toc
  end.
Definition find_file (src : string_src) : K (option (list Z)) :=
  match src with
  | UserString p => if decide (p = NULL) then mret None else find_in_toc src exec2obj_userapp_TOC
  | KernelString _ => find_in_toc src exec2obj_userapp_TOC
  end.

(** The rest of [getbytes] with a buffer in user memory. *)
Definition copy_out (file : option (list Z)) (offset size buf : Z) : K Z :=
  '(ret, bytes) ← lift (file_bytes file (s32 offset) (s32 size));
  if decide (ret < 0) then mret FAIL
  else if decide (buf = NULL) then mret FAIL
  else store_bytes bytes buf;; mret ret.
Definition getbytes (filename : string_src) (offset size buf : Z) : K Z :=
  file ← find_file filename; copy_out file offset size buf.

(** ** [load_executable] *)

Definition destruct_dir (page_dir : addr) : K unit :=
  vm_op (fun me s => s ← destruct_page_dir me page_dir s; Some (tt, s)).

(** A copy of a string on the kernel heap, [None] when [malloc] fails. *)
Definition copy_string (src : string_src) : K (option (list Z)) :=
  s ← read_string src;
  ok ← malloc_buf;
  mret (if (ok : bool) then Some s else None).

(** [argc], then the strings. *)
Definition count_args (argvec : argv_src) : K Z :=
  match argvec with
  | KernelArgv args => mret (Z.of_nat (length args))
  | UserArgv p =>
      loop 32 (fun argc : Z =>
        a ← load32 (u32 (p + 4 * argc));
        if decide (a = NULL) then mret (inr argc) else mret (inl (s32 (argc + 1)))) 0
  end.
Definition arg_at (argvec : argv_src) (i : Z) : K string_src :=
  match argvec with
  | KernelArgv args => mret (KernelString (default [] (args !! Z.to_nat i)))
  | UserArgv p => a ← load32 (u32 (p + 4 * i)); mret (UserString a)
  end.
Fixpoint copy_args (n : nat) (i : Z) (argvec : argv_src) : K (option (list (list Z))) :=
  match n with
  | O => mret (Some [])
  | S n =>
      src ← arg_at argvec i;
      arg ← copy_string src;
      match arg with
      | None => mret None
      | Some arg =>
          args ← copy_args n (i + 1) argvec;
          mret (args ← args; Some (arg :: args))
      end
  end.

(** Page directory and [%cr3] of the running process. *)
Definition use_page_dir (pcb page_dir cr3 : Z) : K unit :=
  update_pcb pcb (set_page_directory page_dir);; set_cr3 cr3.

(** The memory of the stack: [stack_high] and [stack_low], or [None]. *)
Definition make_stack (guest : bool) (page_dir : addr) : K (option (Z * Z)) :=
  if guest then
    r ← change_availability page_dir USER_MEM_START GUEST_MEM_SIZE PAGE_AVAILABLE;
    if decide (r < 0) then mret None
    else
      r ← map_and_clear USER_MEM_START GUEST_MEM_SIZE false;
      let stack_high := USER_MEM_START + GUEST_MEM_SIZE in
      mret (if decide (r < 0) then None else Some (stack_high, stack_high - USER_STACK_LEN * 4))
  else
    let stack_high := u32 VIRTUAL_ADDR_END in
    let stack_low := u32 (stack_high - USER_STACK_LEN * 4) in
    r ← change_availability page_dir stack_low (u32 (stack_high - stack_low)) PAGE_AVAILABLE;
    mret (if decide (r < 0) then None else Some (stack_high, stack_low)).

(** Push the strings, remembering where each one is. *)
Fixpoint push_strings (args : list (list Z)) (esp : Z) : K (option (Z * list Z)) :=
  match args with
  | [] => mret (Some (esp, []))
  | arg :: args =>
      '(r, esp) ← push_val esp (arg ++ [0]);
      if decide (r < 0) then mret None
      else
        rest ← push_strings args esp;
        mret ('(esp', ptrs) ← rest; Some (esp', esp :: ptrs))
  end.

(** The strings, then the [argv] array; its address, [NULL] without arguments. *)
Definition push_args (args : list (list Z)) (esp : Z) : K (option (Z * Z)) :=
  match args with
  | [] => mret (Some (esp, NULL))
  | _ =>
      r ← push_strings args esp;
      match r with
      | None => mret None
      | Some (esp, ptrs) =>
          '(r, esp) ← push_val esp (concat (bytes_of <$> ptrs));
          mret (if decide (r < 0) then None else Some (esp, esp))
      end
  end.

(** [push_val] of several words, until one fails. *)
Fixpoint push_words (ws : list Z) (esp : Z) : K (Z * Z) :=
  match ws with
  | [] => mret (OK, esp)
  | w :: ws =>
      '(r, esp) ← push_val esp (bytes_of w);
      if decide (r < 0) then mret (FAIL, esp) else push_words ws esp
  end.

(** [op < 0 || ...]: the operations in order until one fails. *)
Fixpoint all_ok (ops : list (K Z)) : K bool :=
  match ops with
  | [] => mret true
  | op :: ops => r ← op; if decide (r < 0) then mret false else all_ok ops
  end.

(** [success && len > 0]: a section that is not empty. *)
Definition unless_empty (len : Z) (ops : list (K Z)) : list (K Z) :=
  if decide (len > 0) then ops else [].

Definition load_guest_sections (file : option (list Z)) (e : simple_elf_t) : K bool :=
  all_ok (
    copy_out file (e_txtoff e) (e_txtlen e) (u32 (USER_MEM_START + e_txtstart e)) ::
    unless_empty (e_rodatlen e)
      [copy_out file (e_rodatoff e) (e_rodatlen e) (u32 (USER_MEM_START + e_rodatstart e))] ++
    unless_empty (e_datlen e)
      [copy_out file (e_datoff e) (e_datlen e) (u32 (USER_MEM_START + e_datstart e))]).

Definition load_user_sections (page_dir : addr) (file : option (list Z)) (e : simple_elf_t) : K bool :=
  all_ok (
    [change_availability page_dir (e_txtstart e) (e_txtlen e) PAGE_AVAILABLE;
     change_availability page_dir (e_rodatstart e) (e_rodatlen e) PAGE_AVAILABLE;
     change_availability page_dir (e_datstart e) (e_datlen e) PAGE_AVAILABLE;
     change_availability page_dir (e_bssstart e) (e_bsslen e) PAGE_AVAILABLE] ++
    [map_and_clear (e_txtstart e) (e_txtlen e) false;
     copy_out file (e_txtoff e) (e_txtlen e) (e_txtstart e)] ++
    unless_empty (e_rodatlen e)
      [map_and_clear (e_rodatstart e) (e_rodatlen e) false;
       copy_out file (e_rodatoff e) (e_rodatlen e) (e_rodatstart e)] ++
    unless_empty (e_datlen e)
      [map_and_clear (e_datstart e) (e_datlen e) false;
       copy_out file (e_datoff e) (e_datlen e) (e_datstart e)] ++
    [change_access page_dir (e_txtstart e) (e_txtlen e) READ_ONLY;
     change_access page_dir (e_rodatstart e) (e_rodatlen e) READ_ONLY;
     change_access page_dir (e_datstart e) (e_datlen e) READ_WRITE] ++
    unless_empty (e_bsslen e) [map_and_clear (e_bssstart e) (e_bsslen e) true]).

(** The registers of the new program. *)
Definition guest_registers (e : simple_elf_t) : ureg_t :=
  set_ds SEGSEL_GUEST_KERNEL_DS (set_es SEGSEL_GUEST_KERNEL_DS (set_fs SEGSEL_GUEST_KERNEL_DS
    (set_gs SEGSEL_GUEST_KERNEL_DS (set_ebx (GUEST_MEM_SIZE / PAGE_SIZE - 1)
    (set_ecx (GUEST_MEM_SIZE - 1) (set_eax GUEST_LAUNCH_EAX (set_eip (e_entry e)
    (set_cs SEGSEL_GUEST_KERNEL_CS (set_eflags (Z.lor EFL_IF EFL_RESV1)
    (set_ss SEGSEL_GUEST_KERNEL_DS ureg_zero)))))))))).
Definition user_registers (e : simple_elf_t) (esp : Z) : ureg_t :=
  set_ds SEGSEL_USER_DS (set_es SEGSEL_USER_DS (set_fs SEGSEL_USER_DS (set_gs SEGSEL_USER_DS
    (set_eip (e_entry e) (set_cs SEGSEL_USER_CS (set_eflags (Z.lor EFL_IF EFL_RESV1)
    (set_esp esp (set_ss SEGSEL_USER_DS ureg_zero)))))))).

(** [while (list != NULL) POP_FRONT(page_allocation_node_t, list)]. *)
Definition pop_allocation (pcb : addr) (c : ctrl) : option ctrl :=
  b ← get_pcb c pcb;
  '(z, front) ← POP_FRONT (page_allocation_list b) (allocations c);
  upd_pcb pcb (set_page_allocation_list front) (set_allocations z c).
Fixpoint drop_allocations (fuel : nat) (pcb : addr) (c : ctrl) : option ctrl :=
  b ← get_pcb c pcb;
  if decide (page_allocation_list b = NULL) then Some c
  else match fuel with
       | O => None
       | S fuel => c ← pop_allocation pcb c; drop_allocations fuel pcb c
       end.

(** From the switch to the new page directory to the sections loaded: the
    registers of the program, [None] when the loader has to back off. *)
Definition build_image (page_dir : addr) (file : option (list Z)) (e : simple_elf_t)
    (args : list (list Z)) (is_guest : bool) : K (option ureg_t) :=
  stack ← make_stack is_guest page_dir;
  match stack with
  | None => mret None
  | Some (stack_high, stack_low) =>
      pushed ← push_args args stack_high;
      match pushed with
      | None => mret None
      | Some (esp, arg_array) =>
          '(r, esp) ← push_words [stack_low; stack_high; arg_array; Z.of_nat (length args); 0] esp;
          if decide (r < 0) then mret None
          else
            r ← map_and_clear stack_low (u32 (esp - stack_low)) true;
            if decide (r < 0) then mret None
            else if is_guest then
              success ← load_guest_sections file e;
              mret (if (success : bool) then Some (guest_registers e) else None)
            else
              success ← load_user_sections page_dir file e;
              mret (if (success : bool) then Some (user_registers e esp) else None)
      end
  end.

(** The code and the new registers ([ureg_ptr] is stored to on success only). *)
Definition load_executable (execname : string_src) (argvec : argv_src) (u : ureg_t) : K (Z * ureg_t) :=
  if bool_decide (execname = UserString NULL) then mret (FAIL, u)
  else if bool_decide (argvec = UserArgv NULL) then mret (FAIL, u)
  else
    file ← find_file execname;
    is_elf ← lift (elf_check_header file);
    if negb is_elf then mret (FAIL, u)
    else
    elf ← lift (elf_load_helper file);
    match elf with
    | None => mret (FAIL, u)
    | Some e =>
        new_page_dir ← vm_step construct_page_dir;
        if decide (new_page_dir = NULL) then mret (FAIL, u)
        else
          name ← copy_string execname;
          args ← match name with
                 | None => mret None
                 | Some _ =>
                     argc ← count_args argvec;
                     if decide (argc > 0) then
                       ok ← malloc_buf;
                       if (ok : bool) then copy_args (Z.to_nat argc) 0 argvec else mret None
                     else mret (Some [])
                 end;
          match args with
          | None => destruct_dir new_page_dir;; mret (FAIL, u)
          | Some args =>
              pcb ← running_pcb;
              old_cr3 ← gets cr3;
              let old_page_dir := page_of old_cr3 in
              use_page_dir pcb new_page_dir (Z.lor new_page_dir (Z.land old_cr3 4095));;
              let is_guest := bool_decide (e_txtstart e < USER_MEM_START) in
              image ← build_image new_page_dir file e args is_guest;
              match image with
              | None =>
                  use_page_dir pcb old_page_dir old_cr3;;
                  destruct_dir new_page_dir;;
                  mret (FAIL, u)
              | Some u' =>
                  destruct_dir old_page_dir;;
                  ctl_upd (fun c => drop_allocations (nodes (cells (allocations c))) pcb c);;
                  update_pcb pcb (set_guest is_guest);;
                  mret (OK, u')
              end
          end
    end.

End loader.
