(* ===== verification/Fork.v ===== *)
(** Creating processes: [init_ctrl_blk] and [fork_ctrl_blk] of
    [kern/ctrl_blk.c], and the system calls fork and exec. *)
From S2P Require Import Prelude Ring KMutex Frames Vm Keyhelp Keyboard Console Machine CtrlBlk Kernel Sched.
From S2P Require Import UserMem Elf Loader.
#[local] Open Scope Z_scope.

(** Fields left out of a literal are zero. *)
Definition pcb_new (parent page_dir : addr) : pcb_t :=
  Pcb parent NULL NULL 0 page_dir NULL (Mutex 0 0) false
    (GuestResource false 0 (replicate (Z.to_nat VIRTUAL_IDT_LEN) 0)).
Definition tcb_new (pcb tid_ state_ : Z) : tcb_t := Tcb pcb tid_ state_ None 0 0 0 (BlockingDetail 0 0).

(** ** [init_ctrl_blk] *)

Definition push_first_tcb (pcb : addr) (c : ctrl) : option (bool * ctrl) :=
  b ← get_pcb c pcb;
  match pool (tcbs c) with
  | [] => Some (false, c)
  | _ =>
      '(success, z, front) ← PUSH_FRONT (tcb_list b) (tcb_new pcb (thread_count c) RUNNING_STATE) (tcbs c);
      c ← upd_pcb pcb (set_tcb_list front) (set_tcbs z c);
      Some (success, set_thread_count (s32 (thread_count c + 1)) c)
  end.

Definition pop_root (c : ctrl) : option ctrl :=
  '(z, front) ← POP_BACK (root_pcb_node_ptr c) (pcbs c);
  Some (set_root_pcb_node_ptr front (set_pcbs z c)).

Definition push_running (tcb : addr) (c : ctrl) : option (bool * ctrl) :=
  front ← thread_list c RUNNING_STATE;
  '(success, z, front) ← PUSH_FRONT front tcb (links c);
  c ← set_thread_list RUNNING_STATE front (set_links z c);
  Some (success, c).

Definition init_ctrl_blk : K Z :=
  free ← gets (fun s => pool (pcbs (ctl s)));
  match free with
  | [] => mret FAIL
  | _ =>
      page_dir ← vm_step construct_page_dir;
      ctl_upd (fun c =>
        '(_, z, front) ← PUSH_FRONT (root_pcb_node_ptr c) (pcb_new NULL page_dir) (pcbs c);
        Some (set_root_pcb_node_ptr front (set_pcbs z c)));;
      root ← gets (fun s => root_pcb_node_ptr (ctl s));
      success ← ctl_op (push_first_tcb root);
      if negb success then ctl_upd pop_root;; mret FAIL
      else
        update_pcb root (CtrlBlk.set_lock mutex_init);;
        b ← pcb_at root;
        success ← ctl_op (push_running (tcb_list b));
        if negb success then ctl_upd (pop_tcb root);; ctl_upd pop_root;; mret FAIL
        else
          modify (fun s => with_ctl (set_thread_manager_lock mutex_init (ctl s)) s);;
          mret OK
  end.

(** ** [fork_ctrl_blk] *)

Section fork.
Context `{Platform}.

(** [PUSH_BACK(pcb_node_t, parent->child_pcb_list, b, success)] and the new node. *)
Definition push_pcb (parent : addr) (b : pcb_t) (c : ctrl) : option (addr * ctrl) :=
  p ← get_pcb c parent;
  '(success, z, front) ← PUSH_BACK (child_pcb_list p) b (pcbs c);
  if (success : bool) then
    c ← upd_pcb parent (set_child_pcb_list front) (set_pcbs z c);
    fn ← cells (pcbs c) !! front;
    Some (previous fn, c)
  else Some (NULL, c).
Definition pop_pcb (parent : addr) (c : ctrl) : option ctrl :=
  p ← get_pcb c parent;
  '(z, front) ← POP_BACK (child_pcb_list p) (pcbs c);
  upd_pcb parent (set_child_pcb_list front) (set_pcbs z c).

(** The cases of the loop that copies the user pages; each returns the next
    [current_page], [None] when the fork has to be undone. *)
Definition copy_absent_table (parent_pd child_pd current_page : Z) : K (option Z) :=
  let next_page := Z.shiftl ((Z.shiftr current_page PAGE_SHIFT / PTE_COUNT + 1) * PTE_COUNT) PAGE_SHIFT in
  '(_, availability) ← vm_get (get_availability parent_pd current_page);
  a ← lift availability;
  if decide (a <> PAGE_UNAVAILABLE) then
    r ← each_page (fun i => vm_op (fun _ => set_availability child_pd i a))
          ((fun i => current_page + i * PAGE_SIZE) <$> seqZ 0 ((next_page - current_page) / PAGE_SIZE));
    mret (if decide (r < 0) then None else Some next_page)
  else mret (Some next_page).

Definition copy_absent_page (parent_pd child_pd current_page : Z) : K (option Z) :=
  '(_, availability) ← vm_get (get_availability parent_pd current_page);
  a ← lift availability;
  r ← vm_op (fun _ => set_availability child_pd current_page a);
  mret (if decide (r < 0) then None else Some (current_page + PAGE_SIZE)).

Definition copy_zero_page (child_pd current_page : Z) : K (option Z) :=
  ok ← all_ok [vm_op (fun _ => set_availability child_pd current_page PAGE_AVAILABLE);
               vm_op (fun _ => map_zero_frame child_pd current_page)];
  mret (if (ok : bool) then Some (current_page + PAGE_SIZE) else None).

(** [memmove] through a kernel buffer, in the address space of each. *)
Definition copy_frame (parent child_pd parent_pd parent_cr3 child_cr3 current_page : Z) : K unit :=
  buf ← load_bytes (Z.to_nat PAGE_SIZE) current_page;
  use_page_dir parent child_pd child_cr3;;
  store_bytes buf current_page;;
  use_page_dir parent parent_pd parent_cr3.

Definition copy_mapped_page (parent parent_pd child_pd parent_cr3 child_cr3 current_page : Z) : K (option Z) :=
  ok ← all_ok [vm_op (fun _ => set_availability child_pd current_page PAGE_AVAILABLE);
               vm_op (fun me => map_new_frame me child_pd current_page)];
  if negb ok then mret None
  else
    copy_frame parent child_pd parent_pd parent_cr3 child_cr3 current_page;;
    '(_, access) ← vm_get (get_access parent_pd current_page);
    a ← lift access;
    vm_op (fun _ => set_access child_pd current_page a);;
    mret (Some (current_page + PAGE_SIZE)).

Definition copy_page (parent parent_pd child_pd parent_cr3 child_cr3 current_page : Z) : K (option Z) :=
  '(_, info) ← vm_get (check_user_page parent_pd current_page);
  info ← lift info;
  match info with
  | PDE_NOT_PRESENT => copy_absent_table parent_pd child_pd current_page
  | PTE_NOT_PRESENT => copy_absent_page parent_pd child_pd current_page
  | ZERO_FRAME_MAPPED => copy_zero_page child_pd current_page
  | NEW_FRAME_MAPPED => copy_mapped_page parent parent_pd child_pd parent_cr3 child_cr3 current_page
  end.

(** [while (current_page < VIRTUAL_ADDR_END)], [false] when it is left early. *)
Definition copy_pages (parent parent_pd child_pd parent_cr3 child_cr3 : Z) : K bool :=
  loop 32 (fun current_page =>
    if decide (current_page < VIRTUAL_ADDR_END) then
      r ← copy_page parent parent_pd child_pd parent_cr3 child_cr3 current_page;
      match r with None => mret (inr false) | Some next_page => mret (inl next_page) end
    else mret (inr true)) USER_PAGE_START.

(** [PUSH_BACK] of one allocation to the child's list. *)
Definition push_allocation (pcb : addr) (a : page_allocation_t) (c : ctrl) : option (bool * ctrl) :=
  b ← get_pcb c pcb;
  '(success, z, front) ← PUSH_BACK (page_allocation_list b) a (allocations c);
  c ← upd_pcb pcb (set_page_allocation_list front) (set_allocations z c);
  Some (success, c).

(** The loop over the parent's allocations. *)
Definition copy_allocations (parent child : addr) : K bool :=
  p ← pcb_at parent;
  if decide (page_allocation_list p = NULL) then mret true
  else
    loop 32 (fun node =>
      n ← ctl_get (fun c => cells (allocations c) !! node);
      success ← ctl_op (push_allocation child (data n));
      if negb success then mret (inr false)
      else
        n ← ctl_get (fun c => cells (allocations c) !! node);
        p ← pcb_at parent;
        if decide (next n = page_allocation_list p) then mret (inr true) else mret (inl (next n)))
    (page_allocation_list p).

Definition clear_allocations (pcb : addr) : K unit :=
  ctl_upd (fun c => drop_allocations (nodes (cells (allocations c))) pcb c).

(** [PUSH_FRONT(tcb_node_t, child->tcb_list, t, success)] and the new front. *)
Definition push_front_tcb (pcb : addr) (t : tcb_t) (c : ctrl) : option (addr * ctrl) :=
  b ← get_pcb c pcb;
  '(success, z, front) ← PUSH_FRONT (tcb_list b) t (tcbs c);
  if (success : bool) then
    c ← upd_pcb pcb (set_tcb_list front) (set_tcbs z c); Some (front, c)
  else Some (NULL, c).

(** The new node at the end of the ready list. *)
Definition link_last (q : addr) (c : ctrl) : option ctrl :=
  front ← thread_list c READY_STATE;
  if decide (front = NULL) then link_alone q c
  else
    fn ← cells (links c) !! front;
    h ← set_previous q (previous fn) (cells (links c));
    h ← set_next q front h;
    n ← h !! q;
    h ← set_next (previous n) q h;
    n ← h !! q;
    h ← set_previous (next n) q h;
    Some (set_links_heap h c).

Definition undo_fork (parent child_pd : addr) : K Z :=
  ctl_upd (pop_pcb parent);; destruct_dir child_pd;; mret FAIL.

Definition fork_ctrl_blk (u : ureg_t) : K Z :=
  child_pd ← vm_step construct_page_dir;
  if decide (child_pd = NULL) then mret FAIL
  else
    buf ← malloc_buf;
    if negb buf then destruct_dir child_pd;; mret FAIL
    else
      old_tcb ← running_tcb;
      t ← tcb_at old_tcb;
      let parent := tcb_pcb t in
      child ← ctl_op (push_pcb parent (pcb_new parent child_pd));
      if decide (child = NULL) then destruct_dir child_pd;; mret FAIL
      else
        update_pcb child (CtrlBlk.set_lock mutex_init);;
        parent_cr3 ← gets cr3;
        let parent_pd := page_of parent_cr3 in
        let child_cr3 := Z.lor (Z.land parent_cr3 4095) child_pd in
        copied ← copy_pages parent parent_pd child_pd parent_cr3 child_cr3;
        if negb copied then undo_fork parent child_pd
        else
          copied ← copy_allocations parent child;
          if negb copied then clear_allocations child;; undo_fork parent child_pd
          else
            t ← tcb_at old_tcb;
            new_tcb ← ctl_op (push_front_tcb child t);
            if decide (new_tcb = NULL) then clear_allocations child;; undo_fork parent child_pd
            else
              update_tcb new_tcb (fun t => set_tcb_pcb child (set_state READY_STATE t));;
              new_tid ← fresh_tid;
              update_tcb new_tcb (set_tid new_tid);;
              save_ureg new_tcb u;;
              q ← ctl_op (new_link new_tcb);
              if decide (q = NULL) then
                ctl_upd (pop_tcb child);; clear_allocations child;; undo_fork parent child_pd
              else
                interrupt_enable_flag ← gets int_flag;
                disable_interrupts;;
                ctl_upd (link_last q);;
                when interrupt_enable_flag enable_interrupts;;
                mret new_tid.

(** Whether the running process has one thread that has not terminated. *)
Definition single_threading (pcb : addr) : K bool :=
  mutex_lock (PcbLock pcb);;
  '(r, alive) ← ctl_get (fun c => get_thread_alive_count c pcb);
  mutex_unlock (PcbLock pcb);;
  mret (bool_decide (~ r < 0 /\ alive = 1)).

Definition handle_fork (u : ureg_t) : K ureg_t :=
  pcb ← running_pcb;
  single ← single_threading pcb;
  if negb single then mret (set_eax (u32 (-1)) u)
  else
    new_tid ← fork_ctrl_blk u;
    mret (set_eax (if decide (new_tid < 0) then u32 (-1) else new_tid) u).

Definition handle_exec (u : ureg_t) : K ureg_t :=
  me ← running_tcb;
  pcb ← running_pcb;
  single ← single_threading pcb;
  if negb single then mret (set_eax (u32 (-1)) u)
  else
    execname ← load32 (esi u);
    argvec ← load32 (u32 (esi u + 4));
    '(r, u) ← load_executable (UserString execname) (UserArgv argvec) u;
    if decide (r < 0) then mret (set_eax (u32 (-1)) u)
    else
      update_tcb me (set_handler NULL);;
      mret u.

End fork.
