(* ===== verification/Syscall.v ===== *)
(** The system calls of [kern/system_call.c] that work on user memory. *)
From S2P Require Import Prelude Ring KMutex Frames Vm Keyhelp Keyboard Console Machine CtrlBlk Kernel Sched.
From Stdlib Require Import Sorting.Sorted.
From S2P Require Import UserMem Elf Loader Fork.
#[local] Open Scope Z_scope.

(** [eax = -1]. *)
Definition fail (u : ureg_t) : ureg_t := set_eax (u32 (-1)) u.
Definition succeed (u : ureg_t) : ureg_t := set_eax 0 u.

Definition IOPL_WIDTH : Z := 2.
(** [sizeof(ureg_t) + 7 * sizeof(uint32_t)]. *)
Definition EXCEPTION_STACK_SIZE_MIN : Z := 20 * 4 + 7 * 4.
Definition HANDLER_SIZE_MIN : Z := 1.

(** The IOPL bits may not change. *)
Definition iopl_mask : Z := u32 (Z.shiftl (Z.lnot (Z.shiftl (Z.shiftr (-1) IOPL_WIDTH) IOPL_WIDTH)) EFL_IOPL_SHIFT).
Definition check_eflags (old_eflags new_eflags : Z) : bool :=
  bool_decide (Z.land old_eflags iopl_mask = Z.land new_eflags iopl_mask).

Definition initialize_system_call : K Z :=
  store_lock InputLock mutex_init;; store_lock OutputLock mutex_init;; mret OK.

(** Console operations, for the thread that holds the console's lock. *)
Definition con_op {A} (f : console -> option (A * console)) : K A :=
  primitive (fun s => match f (kcon s) with
                      | Some (a, c) => Done a (with_kcon c s)
                      | None => Crashed
                      end).

Section syscalls.
Context `{Platform}.

(** ** Waiting for threads and processes *)

(** [handle_deschedule] with what the devices do: [spins] between the rounds of
    the lock, [irq n] at the [n]-th statement, if interrupts are on there. *)
Definition deschedule_with (irq : nat -> K unit) (spins : list (K unit)) (u : ureg_t) : K ureg_t :=
  let u := succeed u in
  interruptible (irq 0%nat);;
  pcb ← running_pcb;
  let reject := esi u in
  readable ← is_readable reject 4;
  interruptible (irq 1%nat);;
  if negb readable then mret (fail u)
  else
    mutex_lock_with spins (PcbLock pcb);;
    interruptible (irq 2%nat);;
    disable_interrupts;;
    interruptible (irq 3%nat);;
    val ← load32 reject;
    interruptible (irq 4%nat);;
    if decide (val <> 0) then
      mutex_unlock (PcbLock pcb);; enable_interrupts;; interruptible (irq 5%nat);; mret u
    else
      next_tcb ← ctl_op find_next_thread;
      interruptible (irq 6%nat);;
      when (bool_decide (next_tcb = NULL)) handle_halt;;
      mutex_unlock (PcbLock pcb);;
      interruptible (irq 7%nat);;
      switch_context next_tcb WAITING_STATE (Some (BlockingDetail DESCHEDULE 0));;
      enable_interrupts;;
      interruptible (irq 8%nat);;
      mret u.
Definition handle_deschedule : ureg_t -> K ureg_t := deschedule_with (fun _ => mret tt) [].

(** [PUSH]-free list surgery of [handle_wait]: take the child's node out. *)
Definition detach_child (parent child : addr) (c : ctrl) : option ctrl :=
  n ← cells (pcbs c) !! child;
  if decide (child = next n) then upd_pcb parent (set_child_pcb_list NULL) c
  else
    p ← get_pcb c parent;
    c ← (if decide (child_pcb_list p = child)
         then upd_pcb parent (set_child_pcb_list (next n)) c else Some c);
    n ← cells (pcbs c) !! child;
    h ← set_previous (next n) (previous n) (cells (pcbs c));
    n ← h !! child;
    h ← set_next (previous n) (next n) h;
    h ← set_next child child h;
    h ← set_previous child child h;
    Some (set_pcbs (Zone h (pool (pcbs c))) c).

(** The grandchildren's list is put at the end of init's. *)
Definition splice_grandchildren (pcb init children grandchildren : addr) (c : ctrl) : option ctrl :=
  if decide (children = NULL) then upd_pcb pcb (set_child_pcb_list grandchildren) c
  else
    let h := cells (pcbs c) in
    g ← h !! grandchildren;
    let tmp := previous g in
    cn ← h !! children;
    h ← set_next (previous cn) grandchildren h;
    cn ← h !! children;
    h ← set_previous grandchildren (previous cn) h;
    h ← set_previous children tmp h;
    h ← set_next tmp children h;
    Some (set_pcbs (Zone h (pool (pcbs c))) c).

(** [while (node->data.parent_pcb_ptr != init) { ...; node = node->next; }]. *)
Fixpoint adopt (fuel : nat) (node init : addr) (c : ctrl) : option ctrl :=
  match fuel with
  | O => None
  | S fuel =>
      b ← get_pcb c node;
      if decide (parent_pcb_ptr b = init) then Some c
      else
        c ← upd_pcb node (set_parent_pcb_ptr init) c;
        n ← cells (pcbs c) !! node;
        adopt fuel (next n) init c
  end.

Definition adopt_grandchildren (pcb init child : addr) (c : ctrl) : option ctrl :=
  i ← get_pcb c init;
  b ← get_pcb c child;
  let grandchildren := child_pcb_list b in
  if decide (grandchildren = NULL) then Some c
  else
    c ← splice_grandchildren pcb init (child_pcb_list i) grandchildren c;
    b ← get_pcb c child;
    adopt (S (nodes (cells (pcbs c)))) (child_pcb_list b) init c.

(** [while (list) POP_FRONT(tcb_node_t, list)]. *)
Fixpoint pop_all {A} (fuel : nat) (front : addr) (z : zone A) : option (zone A) :=
  if decide (front = NULL) then Some z
  else match fuel with
       | O => None
       | S fuel => '(z, front) ← POP_FRONT front z; pop_all fuel front z
       end.

Definition free_threads (threads : addr) (c : ctrl) : option ctrl :=
  z ← pop_all (nodes (cells (tcbs c))) threads (tcbs c); Some (set_tcbs z c).
Definition free_terminated (c : ctrl) : option ctrl :=
  front ← thread_list c TERMINATED_STATE;
  z ← pop_all (nodes (cells (links c))) front (links c);
  set_thread_list TERMINATED_STATE NULL (set_links z c).
(** [POP_FRONT(pcb_node_t, child)] of the detached node. *)
Definition free_child (child : addr) (c : ctrl) : option ctrl :=
  '(z, _) ← POP_FRONT child (pcbs c); Some (set_pcbs z c).

(** One round of the loop of [handle_wait]: the exited child, [NULL] when there
    are no children left, or a wait for the next round. *)
Definition await_round (pcb : addr) : K (unit + addr) :=
  b ← pcb_at pcb;
  if decide (child_pcb_list b = NULL) then mret (inr NULL)
  else
    child ← find_exited_child pcb;
    if decide (child <> NULL) then
      ctl_op (unlock_children pcb child);; mret (inr child)
    else
      disable_interrupts;;
      ctl_op (unlock_children pcb NULL);;
      next_tcb ← ctl_op find_next_thread;
      when (bool_decide (next_tcb = NULL)) handle_halt;;
      mutex_unlock (PcbLock pcb);;
      switch_context next_tcb WAITING_STATE (Some (BlockingDetail VANISH_WAIT 0));;
      enable_interrupts;;
      mutex_lock (PcbLock pcb);;
      mret (inl tt).

(** The process is locked on the way out. *)
Definition await_child (pcb : addr) : K addr := loop 64 (fun _ : unit => await_round pcb) tt.

(** Everything after the child has been taken out: its resources are freed;
    the result is the thread id returned. *)
Definition release_child (child status_ptr : addr) : K Z :=
  b ← pcb_at child;
  first ← tcb_at (tcb_list b);
  ctl_upd (free_threads (tcb_list b));;
  ctl_upd free_terminated;;
  when (bool_decide (status_ptr <> NULL)) (b ← pcb_at child; store32 status_ptr (u32 (status b)));;
  b ← pcb_at child;
  destruct_dir (page_directory b);;
  clear_allocations child;;
  ctl_upd (free_child child);;
  mret (tid first).

(** What [handle_wait] does with the child it has found: take it out of the
    tree, give its children to init, release it and wake those who wait. *)
Definition reap_child (pcb child : addr) (u : ureg_t) : K ureg_t :=
  ctl_upd (detach_child pcb child);;
  root ← gets (fun s => root_pcb_node_ptr (ctl s));
  rb ← pcb_at root;
  let init := child_pcb_list rb in
  when (bool_decide (pcb <> init)) (mutex_lock (PcbLock init));;
  ctl_upd (adopt_grandchildren pcb init child);;
  when (bool_decide (pcb <> init)) (mutex_unlock (PcbLock init));;
  mutex_unlock (PcbLock pcb);;
  tid ← release_child child (esi u);
  disable_interrupts;;
  wake_waiter pcb;;
  wake_waiter init;;
  enable_interrupts;;
  mret (set_eax (u32 tid) u).

Definition handle_wait (u : ureg_t) : K ureg_t :=
  let status_ptr := esi u in
  writable ← (if decide (status_ptr <> NULL) then is_writable status_ptr 4 else mret true);
  if negb writable then mret (fail u)
  else
    pcb ← running_pcb;
    mutex_lock (PcbLock pcb);;
    child ← await_child pcb;
    if decide (child = NULL) then mutex_unlock (PcbLock pcb);; mret (fail u)
    else reap_child pcb child u.

(** ** Console *)

(** [putbytes] on user memory: each byte is read when its turn comes, and may
    fault with the ones before it on the screen. *)
Fixpoint put_user_bytes (n : nat) (v : Z) : K unit :=
  match n with
  | O => mret tt
  | S n =>
      ch ← load8 v;
      con_op (fun c => '(_, c) ← putbyte ch c; Some (tt, c));;
      put_user_bytes n (u32 (v + 1))
  end.

Definition handle_print (u : ureg_t) : K ureg_t :=
  len ← load32 (esi u);
  buf ← load32 (u32 (esi u + 4));
  let len := s32 len in
  if decide (len < 0) then mret (fail u)
  else
    readable ← is_readable buf len;
    if negb readable then mret (fail u)
    else
      mutex_lock OutputLock;;
      put_user_bytes (Z.to_nat len) buf;;
      mutex_unlock OutputLock;;
      mret (succeed u).

Definition handle_set_term_color (u : ureg_t) : K ureg_t :=
  let color := s32 (esi u) in
  mutex_lock OutputLock;;
  r ← con_op (fun c => Some (set_term_color color c));
  mutex_unlock OutputLock;;
  mret (if decide (r < 0) then fail u else succeed u).

Definition handle_set_cursor_pos (u : ureg_t) : K ureg_t :=
  row ← load32 (esi u);
  col ← load32 (u32 (esi u + 4));
  mutex_lock OutputLock;;
  r ← con_op (fun c => Some (set_cursor (s32 row) (s32 col) c));
  mutex_unlock OutputLock;;
  mret (if decide (r < 0) then fail u else succeed u).

(** [get_cursor(row, col)]. *)
Definition store_cursor (row col : addr) : K unit :=
  rc ← gets (fun s => get_cursor (kcon s));
  store32 row (u32 rc.1);;
  rc ← gets (fun s => get_cursor (kcon s));
  store32 col (u32 rc.2).

Definition handle_get_cursor_pos (u : ureg_t) : K ureg_t :=
  row ← load32 (esi u);
  col ← load32 (u32 (esi u + 4));
  row_ok ← is_writable row 4;
  col_ok ← (if (row_ok : bool) then is_writable col 4 else mret false);
  if negb col_ok then mret (fail u)
  else
    mutex_lock OutputLock;;
    store_cursor row col;;
    mutex_unlock OutputLock;;
    mret (succeed u).

Definition handle_getchar (u : ureg_t) : K ureg_t := mret (fail u).
Definition handle_new_console (u : ureg_t) : K ureg_t := mret (fail u).

(** ** Readline *)

Definition buf_op {A} (f : buf_t -> option (A * buf_t)) : K A :=
  primitive (fun s => match f (ch_buf s) with
                      | Some (a, b) => Done a (with_ch_buf b s)
                      | None => Crashed
                      end).
Definition push_ch (x : Z) : K unit := buf_op (fun b => '(_, b) ← push_tail b x; Some (tt, b)).
Definition pop_ch : K (option Z) := buf_op (fun b => '(_, e, b) ← pop_head b; Some (e, b)).
Definition unpush_ch : K unit := buf_op (fun b => '(_, _, b) ← pop_tail b; Some (tt, b)).

(** [while (ch_count < len && pop_head(&ch_buf, &ch) succeeds) buf[ch_count++] = ch;]
    the final [ch_count]. *)
Fixpoint deliver (n : nat) (ch_count buf : Z) : K Z :=
  match n with
  | O => mret ch_count
  | S n =>
      ch ← pop_ch;
      match ch with
      | None => mret ch_count
      | Some ch => store8 (u32 (buf + ch_count)) (u8 ch);; deliver n (ch_count + 1) buf
      end
  end.

(** The end of [handle_readline]: release the input and wake the next reader. *)
Definition finish_readline (len buf : Z) (u : ureg_t) : K ureg_t :=
  ch_count ← deliver (Z.to_nat len) 0 buf;
  disable_interrupts;;
  mutex_unlock InputLock;;
  reader ← front_tcb READLINE;
  when (bool_decide (reader <> NULL)) (switch_context reader READY_STATE None;; mret tt);;
  enable_interrupts;;
  mret (set_eax ch_count u).

Definition scan_ch : K (option Z) :=
  primitive (fun s => match extract_ch (scancode_buf s) (kh s) with
                      | Some (_, c, b, k) => Done c (with_kh k (with_scancode_buf b s))
                      | None => Crashed
                      end).

(** Block on the list of readers. *)
Definition block_reader (pcb : addr) (first : bool) : K unit :=
  target ← ctl_op find_next_thread;
  when (bool_decide (target = NULL)) handle_halt;;
  mutex_unlock (PcbLock pcb);;
  switch_context target WAITING_STATE (Some (BlockingDetail READLINE (if first then 1 else 0)));;
  mret tt.

(** Wait for a character typed. *)
Definition await_ch (pcb : addr) : K Z :=
  mutex_lock (PcbLock pcb);;
  disable_interrupts;;
  ch ← loop 64 (fun _ : unit =>
    c ← scan_ch;
    match c with
    | Some c => mret (inr c)
    | None =>
        block_reader pcb true;;
        enable_interrupts;;
        mutex_lock (PcbLock pcb);;
        disable_interrupts;;
        mret (inl tt)
    end) tt;
  enable_interrupts;;
  mutex_unlock (PcbLock pcb);;
  mret ch.

(** The body of [while (!newline)]: [true] when the line is complete. *)
Definition edit_line (pcb : addr) : K bool :=
  ch ← await_ch pcb;
  mutex_lock OutputLock;;
  con_op (fun c => '(r, c) ← putbyte ch c; Some (r, c));;
  mutex_unlock OutputLock;;
  if decide (ch = KHE_BACKSPACE) then unpush_ch;; mret false
  else if decide (ch = KHE_ENTER) then push_ch ch;; mret true
  else push_ch ch;; mret false.

(** Take [input_lock], or wait for the reader that has it. *)
Definition acquire_input (pcb : addr) : K unit :=
  mutex_lock (PcbLock pcb);;
  disable_interrupts;;
  r ← mutex_try_lock InputLock;
  if decide (r < 0) then
    block_reader pcb false;;
    mutex_try_lock InputLock;;
    enable_interrupts
  else
    enable_interrupts;;
    mutex_unlock (PcbLock pcb).

Definition handle_readline (u : ureg_t) : K ureg_t :=
  len ← load32 (esi u);
  buf ← load32 (u32 (esi u + 4));
  let len := s32 len in
  if bool_decide (len < 0 \/ len > BUF_LEN) then mret (fail u)
  else
    writable ← is_writable buf len;
    if negb writable then mret (fail u)
    else if decide (len = 0) then mret (succeed u)
    else
      pcb ← running_pcb;
      acquire_input pcb;;
      n ← gets (fun s => element_count (ch_buf s));
      if decide (n > 0) then finish_readline len buf u
      else
        loop 64 (fun _ : unit =>
          newline ← edit_line pcb;
          mret (if (newline : bool) then inr tt else inl tt)) tt;;
        finish_readline len buf u.

(** ** Memory *)

(** Undo the first [n] pages of a new allocation. *)
Fixpoint unmap_pages (n : nat) (page_dir page i : Z) : K unit :=
  match n with
  | O => mret tt
  | S n =>
      let previous_page := u32 (page + i * PAGE_SIZE) in
      vm_op (fun me => unmap_frame me page_dir previous_page);;
      vm_op (fun _ => set_availability page_dir previous_page PAGE_UNAVAILABLE);;
      unmap_pages n page_dir page (i + 1)
  end.

(** One page of a new allocation: it must have been unavailable before. *)
Definition new_page (page_dir current_page : Z) : K bool :=
  '(r, availability) ← vm_get (get_availability page_dir current_page);
  if bool_decide (r < 0 \/ availability <> Some PAGE_UNAVAILABLE) then mret false
  else
    r ← vm_op (fun _ => set_availability page_dir current_page PAGE_AVAILABLE);
    if decide (r < 0) then mret false
    else
      r ← vm_op (fun me => map_new_frame me page_dir current_page);
      if decide (r < 0) then
        vm_op (fun _ => set_availability page_dir current_page PAGE_UNAVAILABLE);; mret false
      else clear_page current_page;; mret true.

(** The loop over the pages: [false] when one failed and all were undone. *)
Fixpoint new_page_range (n : nat) (page_dir page i : Z) : K bool :=
  match n with
  | O => mret true
  | S n =>
      ok ← new_page page_dir (u32 (page + i * PAGE_SIZE));
      if (ok : bool) then new_page_range n page_dir page (i + 1)
      else unmap_pages (Z.to_nat i) page_dir page 0;; mret false
  end.

(** The allocation is recorded in the list, which is sorted by base. *)
Definition record_allocation (pcb : addr) (a : page_allocation_t) (c : ctrl) : option (bool * ctrl) :=
  b ← get_pcb c pcb;
  let front := page_allocation_list b in
  let h := cells (allocations c) in
  before ← (if decide (front = NULL) then Some true
            else n ← h !! front; Some (bool_decide (base (data n) >= base a)));
  if (before : bool) then
    '(success, z, front) ← PUSH_FRONT front a (allocations c);
    c ← upd_pcb pcb (set_page_allocation_list front) (set_allocations z c);
    Some (success, c)
  else
    n ← h !! front;
    node ← seek (S (nodes h)) (fun n => Some (bool_decide (base (data n) < base a))) h (next n) front;
    '(success, z, _) ← PUSH_FRONT node a (allocations c);
    Some (success, set_allocations z c).

Definition handle_new_pages (u : ureg_t) : K ureg_t :=
  pcb ← running_pcb;
  mutex_lock (PcbLock pcb);;
  base_ ← load32 (esi u);
  len ← load32 (u32 (esi u + 4));
  let len := s32 len in
  let page := page_of base_ in
  let page_count := Z.quot len PAGE_SIZE in
  if bool_decide (page <> base_ \/
       ~ (page_count > 0 /\
          page_count < s32 (machine_phys_frames - USER_PAGE_START / PAGE_SIZE) /\
          s32 (page_count * PAGE_SIZE) = len))
  then mutex_unlock (PcbLock pcb);; mret (fail u)
  else
    page_dir ← current_page_dir;
    ok ← new_page_range (Z.to_nat page_count) page_dir page 0;
    if negb ok then mutex_unlock (PcbLock pcb);; mret (fail u)
    else
      success ← ctl_op (record_allocation pcb (PageAllocation base_ len));
      if negb success then
        unmap_pages (Z.to_nat page_count) page_dir page 0;;
        mutex_unlock (PcbLock pcb);; mret (fail u)
      else
        mutex_unlock (PcbLock pcb);; mret (succeed u).

(** The search of [handle_remove_pages]: the next node is looked at only while
    its base is below the one wanted. *)
Definition find_allocation (base_ : Z) (c : ctrl) (front : addr) : option addr :=
  r ← walk next (fun p n (_ : unit) =>
        if decide (base (data n) = base_) then Some (inr p)
        else
          n' ← cells (allocations c) !! next n;
          if bool_decide (next n <> front /\ ~ base (data n') < base_) then Some (inr NULL)
          else Some (inl tt))
      (nodes (cells (allocations c))) (cells (allocations c)) front front tt;
  Some (match r with inr p => p | inl _ => NULL end).

(** Take the node out and free it. *)
Definition take_allocation (pcb node : addr) (c : ctrl) : option (Z * ctrl) :=
  b ← get_pcb c pcb;
  n ← cells (allocations c) !! node;
  if decide (node = page_allocation_list b) then
    c ← pop_allocation pcb c; Some (len (data n), c)
  else
    '(z, _) ← POP_FRONT node (allocations c);
    Some (len (data n), set_allocations z c).

Fixpoint remove_range (n : nat) (page_dir v_addr : Z) : K bool :=
  match n with
  | O => mret true
  | S n =>
      ok ← all_ok [vm_op (fun me => unmap_frame me page_dir v_addr);
                   vm_op (fun _ => set_availability page_dir v_addr PAGE_UNAVAILABLE)];
      if (ok : bool) then remove_range n page_dir (u32 (v_addr + PAGE_SIZE)) else mret false
  end.

Definition handle_remove_pages (u : ureg_t) : K ureg_t :=
  pcb ← running_pcb;
  mutex_lock (PcbLock pcb);;
  let base_ := esi u in
  cr3_ ← gets cr3;
  let page_dir := page_of cr3_ in
  b ← pcb_at pcb;
  node ← (if decide (page_allocation_list b = NULL) then mret NULL
          else ctl_get (fun c => find_allocation base_ c (page_allocation_list b)));
  if decide (node = NULL) then mutex_unlock (PcbLock pcb);; mret (fail u)
  else
    len ← ctl_op (take_allocation pcb node);
    ok ← remove_range (Z.to_nat ((u32 len + PAGE_SIZE - 1) / PAGE_SIZE)) page_dir base_;
    if negb ok then mutex_unlock (PcbLock pcb);; mret (fail u)
    else
      set_cr3 cr3_;;
      mutex_unlock (PcbLock pcb);; mret (succeed u).

(** ** Software exceptions *)

(** [load_ureg(new_ureg_ptr)]: the registers are read from user memory and the
    thread leaves the kernel with them. *)
Fixpoint load_words (n : nat) (p : addr) : K (list Z) :=
  match n with
  | O => mret []
  | S n => w ← load32 p; ws ← load_words n (u32 (p + 4)); mret (w :: ws)
  end.
Definition load_ureg_at (p : addr) : K ureg_t :=
  ws ← load_words 20 p;
  match ws with
  | [a0; a1; a2; a3; a4; a5; a6; a7; a8; a9; a10; a11; a12; a13; a14; a15; a16; a17; a18; a19] =>
      mret (Ureg a0 a1 a2 a3 a4 a5 a6 a7 a8 a9 a10 a11 a12 a13 a14 a15 a16 a17 a18 a19)
  | _ => primitive (fun _ => Crashed)
  end.
(** The offset of [eflags] in [ureg_t]. *)
Definition EFLAGS_OFFSET : Z := 68.

Definition handle_swexn (u : ureg_t) : K ureg_t :=
  exception_stack_ ← load32 (esi u);
  handler_ ← load32 (u32 (esi u + 4));
  arg ← load32 (u32 (esi u + 8));
  new_ureg ← load32 (u32 (esi u + 12));
  let registers := bool_decide (exception_stack_ <> NULL /\ handler_ <> NULL) in
  stack_ok ← (if (registers : bool) then
                w ← is_writable (u32 (exception_stack_ - EXCEPTION_STACK_SIZE_MIN)) EXCEPTION_STACK_SIZE_MIN;
                if (w : bool) then is_readable handler_ HANDLER_SIZE_MIN else mret false
              else mret true);
  success ← (if (stack_ok : bool) then
               if decide (new_ureg <> NULL) then
                 r ← is_readable new_ureg 80;
                 if (r : bool) then
                   fl ← load32 (u32 (new_ureg + EFLAGS_OFFSET));
                   mret (check_eflags (eflags u) fl)
                 else mret false
               else mret true
             else mret false);
  if negb success then mret (fail u)
  else
    let u := succeed u in
    me ← running_tcb;
    (if (registers : bool) then
       update_tcb me (fun t => set_handler_arg arg (set_handler handler_ (set_exception_stack exception_stack_ t)))
     else update_tcb me (set_exception_stack NULL));;
    if decide (new_ureg <> NULL) then
      new ← load_ureg_at new_ureg;
      primitive (fun s => UserMode new s)
    else mret u.

(** ** Files *)

Definition handle_readfile (u : ureg_t) : K ureg_t :=
  filename ← load32 (esi u);
  buf ← load32 (u32 (esi u + 4));
  count ← load32 (u32 (esi u + 8));
  offset ← load32 (u32 (esi u + 12));
  let count := s32 count in
  if decide (count < 0) then mret (fail u)
  else
    writable ← is_writable buf count;
    if negb writable then mret (fail u)
    else
      byte_count ← getbytes (UserString filename) (s32 offset) count buf;
      if decide (byte_count = -1) then mret (fail u)
      else mret (set_eax (u32 byte_count) u).

End syscalls.

(** * Allocating pages *)

Section new_pages.
Context `{Platform}.

Lemma view_same_page s d v w : vword v -> vword w -> page_no v = page_no w -> view s d v = view s d w.
Proof. intros Hv Hw Hp. unfold view. apply index_eq in Hp as [-> ->]; [done|apply Hv|apply Hw]. Qed.

(** The [j]-th page of the range, as the code computes it. *)
Definition nth_page (page j : Z) : Z := u32 (page + j * PAGE_SIZE).

(** The pages [lo] to [hi] of the range have been allocated, in the state [s1]
    reached from [s], and are clear; nothing else is mapped differently. *)
Record made (s : kstate) (page lo hi : Z) (s1 : kstate) (F1 : list Z) : Prop := {
  md_rest : s1 = with_mem (mem s1) (with_kvm (kvm s1) s);
  md_space : space_ok s1 F1;
  md_user : forall j, 0 <= j < hi -> USER_PAGE_START <= nth_page page j;
  md_old : forall j, 0 <= j < hi -> here s (nth_page page j) = Some (Unmapped PAGE_UNAVAILABLE);
  md_new : forall j, lo <= j < hi -> exists f, here s1 (nth_page page j) = Some (Mapped f READ_WRITE 1) /\
    f <> ZERO_FRAME /\ forall b, f <= b < f + PAGE_SIZE -> byte_at b s1 = 0;
  md_out : forall d w, vword w ->
    (d <> page_of (cr3 s) \/ forall j, lo <= j < hi -> page_no w <> page_no (nth_page page j)) ->
    view (kvm s1) d w = view (kvm s) d w;
  md_bytes : forall d w b, own_byte s d w b -> byte_at b s1 = byte_at b s;
  md_mem : mem_ok s -> mem_ok s1;
}.

Context (s : kstate) (page : Z) (me : addr) (t : tcb_t).
Context (Hpage : 0 <= page < 2 ^ 32) (Halign : page `mod` PAGE_SIZE = 0) (Hrun : runs s me t).

Lemma nth_page_word j : vword (nth_page page j).
Proof. unfold nth_page, vword. pose proof (u32_range (page + j * PAGE_SIZE)). lia. Qed.

(** User pages all: the range does not wrap around. *)
Lemma nth_page_eq hi : (forall j, 0 <= j < hi -> USER_PAGE_START <= nth_page page j) ->
  forall j, 0 <= j < hi -> nth_page page j = page + j * PAGE_SIZE /\ page + j * PAGE_SIZE < 2 ^ 32.
Proof.
  intros Hu j Hj. assert (page + j * PAGE_SIZE < 2 ^ 32) as Hlt.
  { destruct (decide (page + j * PAGE_SIZE < 2 ^ 32)) as [|Hge]; [done|]. exfalso.
    change PAGE_SIZE with 4096 in *. pose proof (Z.div_mod page 4096 ltac:(lia)) as Hd. rewrite Halign in Hd.
    set (k := 2 ^ 20 - page / 4096). assert (0 <= k <= j) as Hk by (unfold k; lia).
    pose proof (Hu k ltac:(lia)) as Hk2. unfold nth_page in Hk2. change PAGE_SIZE with 4096 in Hk2.
    replace (page + k * 4096) with (2 ^ 32) in Hk2 by (unfold k; lia). by vm_compute in Hk2. }
  split; [|done]. unfold nth_page. apply u32_small. change PAGE_SIZE with 4096 in *. lia.
Qed.

Lemma nth_page_distinct hi j k : (forall j, 0 <= j < hi -> USER_PAGE_START <= nth_page page j) ->
  0 <= j < hi -> 0 <= k < hi -> page_no (nth_page page j) = page_no (nth_page page k) -> j = k.
Proof.
  intros Hu Hj Hk He. destruct (nth_page_eq hi Hu j Hj) as [-> ?] in He. destruct (nth_page_eq hi Hu k Hk) as [-> ?] in He.
  unfold page_no, PAGE_SHIFT in He. rewrite !Z.shiftr_div_pow2 in He by lia. change (2 ^ 12) with PAGE_SIZE in He.
  rewrite !Z.div_add in He by done. lia.
Qed.

Lemma nth_page_aligned j : nth_page page j `mod` PAGE_SIZE = 0.
Proof.
  unfold nth_page, u32. change PAGE_SIZE with 4096 in *. change (2 ^ 32) with (4096 * 2 ^ 20).
  rewrite Z.rem_mul_r by lia. rewrite (Z.mul_comm 4096 (_ `mod` _)), Z.mod_add, Z.mod_mod by lia.
  rewrite Z.mod_add by lia. done.
Qed.

Lemma made_runs lo hi s1 F1 : made s page lo hi s1 F1 -> runs s1 me t /\ cr3 s1 = cr3 s.
Proof. intros Hm. rewrite (md_rest _ _ _ _ _ _ Hm). done. Qed.

(** The next page of the range, and what is known of it. *)
Lemma made_next lo hi s1 F1 : made s page lo hi s1 F1 -> user_page_ok (page_of (cr3 s)) (nth_page page hi) = true ->
  0 <= lo <= hi ->
  (forall j, 0 <= j < hi + 1 -> USER_PAGE_START <= nth_page page j) /\
  user_page (kvm s1) (page_of (cr3 s)) (nth_page page hi) /\ here s1 (nth_page page hi) = here s (nth_page page hi).
Proof.
  intros Hm Hu Hlo. unfold user_page_ok in Hu. apply andb_true_iff in Hu as [_ Hu%bool_decide_eq_true].
  pose proof (nth_page_word hi) as Hw. apply (proj1 (user_page_start_le _ Hw)) in Hu.
  assert (Hall : forall j, 0 <= j < hi + 1 -> USER_PAGE_START <= nth_page page j).
  { intros j Hj. destruct (decide (j = hi)) as [->|]; [done|]. apply (md_user _ _ _ _ _ _ Hm). lia. }
  split; [done|]. destruct (made_runs _ _ _ _ Hm) as [_ Hc]. split.
  - split; [|done]. rewrite <-Hc. apply (md_space _ _ _ _ _ _ Hm).
  - unfold here. rewrite Hc. apply (md_out _ _ _ _ _ _ Hm); [done|]. right. intros j Hj Hp.
    assert (hi = j); [|lia]. apply (nth_page_distinct (hi + 1)); [done|lia|lia|done].
Qed.

(** The bytes mapped before are still mapped, to other pages than those made. *)
Lemma made_own hi s2 d w b : (forall j, 0 <= j < hi -> here s (nth_page page j) = Some (Unmapped PAGE_UNAVAILABLE)) ->
  (forall d w, vword w -> (d <> page_of (cr3 s) \/ forall j, 0 <= j < hi -> page_no w <> page_no (nth_page page j)) ->
     view (kvm s2) d w = view (kvm s) d w) ->
  own_byte s d w b -> own_byte s2 d w b /\ forall j, 0 <= j < hi -> ~ (d = page_of (cr3 s) /\ page_no w = page_no (nth_page page j)).
Proof.
  intros Hold Hv (Hw & Hu & f & rw & us & Hx & Hf). assert (Hno : forall j, 0 <= j < hi -> ~ (d = page_of (cr3 s) /\ page_no w = page_no (nth_page page j))).
  { intros j Hj [-> Hp]. specialize (Hold j Hj). unfold here in Hold. rewrite <-(view_same_page _ _ w) in Hold by (done || apply nth_page_word).
    by rewrite Hx in Hold. }
  split; [|done]. split; [done|]. split; [done|]. exists f, rw, us. split; [|done]. rewrite Hv; [done|done|].
  destruct (decide (d = page_of (cr3 s))) as [->|]; [right|by left]. intros j Hj Hp. by apply (Hno j Hj).
Qed.

(** A change of one page, seen by the invariant: page [hi] made. *)
Lemma made_extend lo hi s1 F1 s2 F2 f : made s page lo hi s1 F1 -> 0 <= lo <= hi ->
  (forall j, 0 <= j < hi + 1 -> USER_PAGE_START <= nth_page page j) ->
  here s (nth_page page hi) = Some (Unmapped PAGE_UNAVAILABLE) -> f <> ZERO_FRAME ->
  s2 = with_mem (mem s2) (with_kvm (kvm s2) s) -> space_ok s2 F2 ->
  view_is (kvm s2) (view_upd (view (kvm s1)) (page_of (cr3 s)) (nth_page page hi) (Mapped f READ_WRITE 1)) ->
  frame_cleared f s1 s2 -> made s page lo (hi + 1) s2 F2.
Proof.
  intros Hm Hlo Hall Hold Hfz Hrest Hsp Hv Hclr. assert (Hc : cr3 s2 = cr3 s) by (rewrite Hrest; done).
  destruct (made_runs _ _ _ _ Hm) as [_ Hc1]. split; try done.
  - intros j Hj. destruct (decide (j = hi)) as [->|]; [done|]. apply (md_old _ _ _ _ _ _ Hm). lia.
  - intros j Hj. unfold here. rewrite Hc, Hv by apply nth_page_word. unfold view_upd.
    destruct (decide (j = hi)) as [->|Hne].
    + exists f. rewrite decide_True by done. split; [done|]. split; [done|]. intros b Hb. by rewrite Hclr, bool_decide_true.
    + rewrite decide_False by (intros [_ Hp]; apply Hne, (nth_page_distinct (hi + 1)); [done|lia|lia|done]).
      destruct (md_new _ _ _ _ _ _ Hm j ltac:(lia)) as (g & Hg & Hgz & Hz). exists g. split; [|split; [done|]].
      * unfold here in Hg. by rewrite Hc1 in Hg.
      * intros b Hb. rewrite Hclr. case_bool_decide; [done|]. by apply Hz.
  - intros d w Hw Hout. rewrite Hv by done. unfold view_upd. rewrite decide_False.
    + apply (md_out _ _ _ _ _ _ Hm); [done|]. destruct Hout as [?|Hout]; [by left|right]. intros j Hj. apply Hout. lia.
    + intros [-> Hp]. destruct Hout as [?|Hout]; [done|]. apply (Hout hi); [lia|done].
  - intros d w b Hb. rewrite Hclr. case_bool_decide as Hin; [|by apply (md_bytes _ _ _ _ _ _ Hm d w)]. exfalso.
    destruct (made_own (hi + 1) s2 d w b) as [Hb2 Hno]; [| |done|].
    + intros j Hj. destruct (decide (j = hi)) as [->|]; [done|]. apply (md_old _ _ _ _ _ _ Hm). lia.
    + intros e x Hx Hout. rewrite Hv by done. unfold view_upd. rewrite decide_False.
      * apply (md_out _ _ _ _ _ _ Hm); [done|]. destruct Hout as [?|Hout]; [by left|right]. intros j Hj. apply Hout. lia.
      * intros [-> Hp]. destruct Hout as [?|Hout]; [done|]. apply (Hout hi); [lia|done].
    + apply (Hno hi); [lia|]. destruct (page_addresses (nth_page page hi) (b - f) (nth_page_word hi) ltac:(lia)) as (P1 & P2 & P3).
      rewrite (page_of_id _ (nth_page_word hi) (nth_page_aligned hi)) in P1, P2, P3.
      destruct (own_byte_inj s2 F2 d w (page_of (cr3 s)) (nth_page page hi + (b - f)) b (proj1 Hsp) Hb2) as [-> ->]; [|done].
      split; [done|]. split; [pose proof (Hall hi ltac:(lia)); lia|]. exists f, READ_WRITE, 1. split; [|split; [done|lia]].
      rewrite Hv by done. unfold view_upd. by rewrite decide_True.
  - intros Hmem b. rewrite Hclr. case_bool_decide; [lia|]. by apply (md_mem _ _ _ _ _ _ Hm).
Qed.

End new_pages.

Section new_pages_proofs.
Context `{Platform}.
Context (s : kstate) (page : Z) (me : addr) (t : tcb_t).
Context (Hpage : 0 <= page < 2 ^ 32) (Halign : page `mod` PAGE_SIZE = 0) (Hrun : runs s me t).

(** A step of the manager that leaves the view of the spaces as it was. *)
Lemma made_same lo hi s1 F1 v2 F2 : made s page lo hi s1 F1 -> vm_ok v2 F2 -> is_Some (pdirs v2 !! page_of (cr3 s)) ->
  view_is v2 (view (kvm s1)) -> made s page lo hi (with_kvm v2 s1) F2.
Proof.
  intros Hm Hok Hd Hv. destruct (made_runs s page me t Hrun _ _ _ _ Hm) as [_ Hc]. split.
  - rewrite (md_rest _ _ _ _ _ _ Hm). done.
  - split; [done|]. cbn [cr3 with_kvm]. by rewrite Hc.
  - apply Hm.
  - apply Hm.
  - intros j Hj. destruct (md_new _ _ _ _ _ _ Hm j Hj) as (f & Hf & Hz). exists f. split; [|done].
    unfold here in *. cbn [kvm cr3 with_kvm]. rewrite Hv; [done|]. apply nth_page_word.
  - intros d w Hw Hout. cbn [kvm with_kvm]. rewrite Hv by done. by apply Hm.
  - apply Hm.
  - apply Hm.
Qed.

Lemma dir_kept (s1 : kstate) (v2 : vm) : is_Some (pdirs (kvm s1) !! page_of (cr3 s)) -> dom (pdirs v2) = dom (pdirs (kvm s1)) ->
  is_Some (pdirs v2 !! page_of (cr3 s)).
Proof. intros Hd He. apply elem_of_dom. rewrite He. by apply elem_of_dom. Qed.

Lemma made_dir lo hi s1 F1 : made s page lo hi s1 F1 -> is_Some (pdirs (kvm s1) !! page_of (cr3 s)).
Proof.
  intros Hm. destruct (made_runs s page me t Hrun _ _ _ _ Hm) as [_ <-]. apply (md_space _ _ _ _ _ _ Hm).
Qed.

(** A page that may not be allocated: not a user page, or in use. *)
Definition bad_page (s : kstate) (page j : Z) : Prop :=
  user_page_ok (page_of (cr3 s)) (nth_page page j) = false \/
  here s (nth_page page j) <> Some (Unmapped PAGE_UNAVAILABLE).

Section one_page.
Context (hi : Z) (s1 : kstate) (F1 : list Z) (Hm : made s page 0 hi s1 F1) (Hhi : 0 <= hi).
#[local] Abbreviation d := (page_of (cr3 s)).
#[local] Abbreviation p := (nth_page page hi).
Context (Hu : user_page_ok d p = true) (Hx : here s1 p = Some (Unmapped PAGE_UNAVAILABLE)).

(** The page has got the frame [f], which is cleared. *)
Lemma page_filled v2 v3 f F' : F1 = f :: F' -> vm_ok v3 F' -> is_Some (pdirs v3 !! d) ->
  view_is v3 (view_upd (view (kvm s1)) d p (Mapped f READ_WRITE 1)) ->
  exists s4, clear_page p (with_kvm v3 (with_kvm v2 s1)) = Done tt s4 /\ made s page 0 (hi + 1) s4 F'.
Proof.
  intros EF Hok3 Hdir3 Hv13. destruct (made_runs s page me t Hrun _ _ _ _ Hm) as [_ Hc1]. pose proof (nth_page_word page hi) as Hpw.
  destruct (made_next s page me t Hpage Halign Hrun 0 hi s1 F1 Hm Hu ltac:(lia)) as (Hall & _ & Hhere).
  set (s3 := with_kvm v3 (with_kvm v2 s1)).
  assert (Hsp3 : space_ok s3 F') by (split; [done|cbn [kvm cr3 s3 with_kvm]; by rewrite Hc1]).
  destruct (clear_mapped s3 F' p f Hsp3 Hpw) as (s4 & H4 & He4 & Hclr).
  { intros w Hw Hp. unfold here. cbn [kvm cr3 s3 with_kvm]. rewrite Hc1, Hv13 by done. unfold view_upd. by rewrite decide_True. }
  rewrite page_of_id in H4 by (done || by apply nth_page_aligned). exists s4. split; [done|].
  pose proof (md_space _ _ _ _ _ _ Hm) as [[_ [(_ & _ & _ & Huf & _) _ _ _]] _]. rewrite EF in Huf. apply Forall_cons in Huf as [Huf _].
  apply (made_extend s page me t Hpage Halign Hrun 0 hi s1 F1 s4 F' f); try done; [by rewrite <-Hhere|by apply user_frame_facts|..].
  - assert (kvm s4 = v3) as -> by (by rewrite He4). rewrite He4 at 1. unfold s3. rewrite (md_rest _ _ _ _ _ _ Hm) at 1. done.
  - rewrite He4. exact Hsp3.
  - rewrite He4. exact Hv13.
Qed.

(** There was no frame for it: it becomes unavailable again. *)
Lemma page_given_up v2 v3 : vm_ok v3 F1 -> is_Some (pdirs v3 !! d) -> has_table v3 d p ->
  user_page v3 d p -> view_is v3 (view_upd (view (kvm s1)) d p (Unmapped PAGE_AVAILABLE)) ->
  exists v4, vm_op (fun _ => set_availability d p PAGE_UNAVAILABLE) (with_kvm v3 (with_kvm v2 s1)) = Done OK (with_kvm v4 s1) /\
    made s page 0 hi (with_kvm v4 s1) F1 /\ (page_pool v3 = [] -> page_pool v4 = []).
Proof.
  intros Hok3 Hdir3 Htab3 Hup3 Hv3. destruct (made_runs s page me t Hrun _ _ _ _ Hm) as [Hr1 Hc1].
  pose proof (nth_page_word page hi) as Hpw. pose proof Hx as Hx1. unfold here in Hx1. rewrite Hc1 in Hx1.
  assert (Hx3 : view v3 d p = Some (Unmapped PAGE_AVAILABLE)) by (rewrite Hv3 by done; unfold view_upd; by rewrite decide_True).
  destruct (set_availability_ok v3 F1 d p PAGE_UNAVAILABLE Hok3 Hup3) as (r & v4 & Hs4 & Hd4 & Hok4 & Hcase).
  rewrite Hx3, decide_True in Hcase by auto.
  destruct (set_availability_table v3 v4 d p r Htab3 PAGE_UNAVAILABLE _ Hu Hx3 ltac:(auto) Hs4) as [-> _].
  destruct Hcase as [(_ & _ & Hv4)|[? _]]; [|done]. exists v4.
  split; [by apply (vm_op_done (fun _ => set_availability d p PAGE_UNAVAILABLE) (with_kvm v3 (with_kvm v2 s1)) me t)|].
  split; [apply (made_same 0 hi s1 F1); [done|done| |]|intros He; by eapply set_availability_empty; [|exact Hs4]].
  - by apply (dir_kept (with_kvm v3 s1)).
  - intros e w Hw. rewrite Hv4 by done. unfold view_upd at 1. case_decide as Hc.
    + destruct Hc as [-> Hp]. rewrite <-Hx1. by apply view_same_page.
    + rewrite Hv3 by done. unfold view_upd. by rewrite decide_False.
Qed.

End one_page.

(** Setting the page's availability there and back, and mapping it. *)
Lemma new_page_ok hi s1 F1 : made s page 0 hi s1 F1 -> 0 <= hi ->
  exists ok s2 F2, new_page (page_of (cr3 s)) (nth_page page hi) s1 = Done ok s2 /\
    made s page 0 (if (ok : bool) then hi + 1 else hi) s2 F2 /\
    length F1 = (if ok then S (length F2) else length F2) /\
    (ok = false -> bad_page s page hi \/ page_pool (kvm s2) = [] \/ F1 = []).
Proof.
  intros Hm Hhi. set (d := page_of (cr3 s)). set (p := nth_page page hi). unfold new_page.
  destruct (made_runs s page me t Hrun _ _ _ _ Hm) as [Hr1 Hc1]. pose proof (nth_page_word page hi) as Hpw.
  destruct (user_page_ok d p) eqn:Hu.
  2:{ assert (Hg : get_availability d p (kvm s1) = Some (FAIL, None)) by (unfold get_availability; by rewrite Hu).
      kstep (vm_get_ok (get_availability d p) s1 _ Hg). rewrite bool_decide_true by (left; done).
      exists false, s1, F1. split; [done|]. split; [done|]. split; [done|]. left. by left. }
  destruct (made_next s page me t Hpage Halign Hrun 0 hi s1 F1 Hm Hu ltac:(lia)) as (Hall & Hup & Hhere).
  pose proof (md_space _ _ _ _ _ _ Hm) as [Hok1 _].
  kstep (vm_get_ok (get_availability d p) s1 _ (get_availability_ok _ F1 d p Hok1 Hup)).
  unfold here in Hhere. rewrite Hc1 in Hhere. fold d p in Hhere.
  assert (Hbad : view (kvm s) d p <> Some (Unmapped PAGE_UNAVAILABLE) -> bad_page s page hi) by (by right).
  destruct (view (kvm s1) d p) as [[a|f rw us]|] eqn:Hx.
  2-3: rewrite bool_decide_true by (left; done); exists false, s1, F1; (split; [done|]); (split; [done|]); (split; [done|]).
  2-3: intros _; left; apply Hbad; congruence.
  destruct (decide (a = PAGE_UNAVAILABLE)) as [->|Ha].
  2:{ rewrite bool_decide_true by (right; congruence). exists false, s1, F1. split; [done|]. split; [done|]. split; [done|].
      left. apply Hbad. congruence. }
  rewrite bool_decide_false by (intros [?|?]; done).
  assert (Hx1 : here s1 p = Some (Unmapped PAGE_UNAVAILABLE)) by (unfold here; by rewrite Hc1).
  destruct (set_availability_ok (kvm s1) F1 d p PAGE_AVAILABLE Hok1 Hup) as (r & v2 & Hs2 & Hd2 & Hok2 & Hcase).
  rewrite Hx, decide_True in Hcase by auto.
  rewrite (bind_Done _ _ _ _ _ (vm_op_done (fun _ => set_availability d p PAGE_AVAILABLE) s1 me t r v2 Hr1 Hs2)).
  pose proof (dir_kept s1 v2 (made_dir _ _ _ _ Hm) Hd2) as Hdir2. destruct Hcase as [(-> & _ & Hv2)|(-> & -> & _ & Hempty%no_table_pool)].
  2:{ rewrite decide_True by done. exists false, (with_kvm (kvm s1) s1), F1. split; [done|]. split; [by eapply made_same|].
      split; [done|]. auto. }
  rewrite decide_False by done.
  pose proof (set_availability_has_table _ _ F1 d p PAGE_AVAILABLE PAGE_UNAVAILABLE Hok1 Hup Hx ltac:(done) Hs2) as Htab.
  assert (Hup2 : user_page v2 d p) by (by apply (user_page_dom (kvm s1))).
  assert (Hx2 : view v2 d p = Some (Unmapped PAGE_AVAILABLE)) by (rewrite Hv2 by done; unfold view_upd; by rewrite decide_True).
  destruct (map_new_frame_ok (tid t) v2 F1 d p Hok2 Hup2) as (r & v3 & Hs3 & Hd3 & Hcase). rewrite Hx2 in Hcase.
  rewrite (bind_Done _ _ _ _ _ (vm_op_done (fun me => map_new_frame me d p) (with_kvm v2 s1) me t r v3 Hr1 Hs3)).
  pose proof (dir_kept (with_kvm v2 s1) v3 Hdir2 Hd3) as Hdir3.
  destruct Hcase as [(-> & _ & f & F' & EF & Hok3 & Hv3)|(-> & Hok3 & Hv3 & Hempty%no_table_or)].
  - rewrite decide_False by done. destruct (page_filled hi s1 F1 Hm Hhi Hu Hx1 v2 v3 f F' EF Hok3 Hdir3) as (s4 & H4 & Hm4).
    { intros e w Hw. rewrite Hv3 by done. unfold view_upd. fold d p. case_decide as Hc; [done|]. rewrite Hv2 by done.
      unfold view_upd. by rewrite decide_False. }
    kstep H4. exists true, s4, F'. rewrite EF. by split.
  - rewrite decide_True by done. destruct (page_given_up hi s1 F1 Hm Hu Hx1 v2 v3) as (v4 & H4 & Hm4 & Hp4); [done|done| | | |].
    { apply (has_table_pdirs v2); [by eapply map_new_frame_table|done]. }
    { by apply (user_page_dom v2). }
    { intros e w Hw. by rewrite Hv3, Hv2 by done. }
    kstep H4. exists false, (with_kvm v4 s1), F1. split; [done|]. split; [done|]. split; [done|]. intros _. right.
    destruct Hempty as [Hempty|Hempty]; [left|by right]. apply Hp4. by eapply map_new_frame_empty.
Qed.

(** Undoing one page. *)
Lemma unmap_page_ok lo hi s1 F1 : made s page lo hi s1 F1 -> 0 <= lo < hi ->
  exists s2 F2, (vm_op (fun me => unmap_frame me (page_of (cr3 s)) (nth_page page lo));;
    vm_op (fun _ => set_availability (page_of (cr3 s)) (nth_page page lo) PAGE_UNAVAILABLE)) s1 = Done OK s2 /\
    made s page (lo + 1) hi s2 F2 /\ (page_pool (kvm s1) = [] -> page_pool (kvm s2) = []).
Proof.
  intros Hm Hlo. set (d := page_of (cr3 s)). set (p := nth_page page lo).
  destruct (made_runs s page me t Hrun _ _ _ _ Hm) as [Hr1 Hc1]. pose proof (nth_page_word page lo) as Hpw. fold p in Hpw.
  pose proof (md_space _ _ _ _ _ _ Hm) as [Hok1 _]. pose proof (made_dir _ _ _ _ Hm) as Hdir1.
  assert (Hup : user_page (kvm s1) d p) by (split; [done|split; [done|apply (md_user _ _ _ _ _ _ Hm); lia]]).
  destruct (md_new _ _ _ _ _ _ Hm lo ltac:(lia)) as (f & Hx & _). unfold here in Hx. rewrite Hc1 in Hx. fold d p in Hx.
  destruct (unmap_frame_ok (tid t) (kvm s1) F1 d p Hok1 Hup) as (r & v2 & F2 & Hs2 & Hd2 & Hok2 & Hcase).
  rewrite Hx in Hcase. destruct Hcase as (-> & Hv2 & _).
  rewrite (bind_Done _ _ _ _ _ (vm_op_done (fun me => unmap_frame me d p) s1 me t OK v2 Hr1 Hs2)).
  assert (Hup2 : user_page v2 d p) by (by apply (user_page_dom (kvm s1))).
  assert (Htab2 : has_table v2 d p).
  { apply (has_table_pdirs (kvm s1)); [|by eapply mapped_has_table].
    by eapply unmap_frame_table. }
  assert (Hx2 : view v2 d p = Some (Unmapped PAGE_AVAILABLE)).
  { rewrite Hv2 by done. unfold view_upd. by rewrite decide_True. }
  destruct (set_availability_ok v2 F2 d p PAGE_UNAVAILABLE Hok2 Hup2) as (r & v3 & Hs3 & Hd3 & Hok3 & Hcase).
  rewrite Hx2, decide_True in Hcase by auto.
  destruct (set_availability_table v2 v3 d p r Htab2 PAGE_UNAVAILABLE _ (user_page_ok_true v2 d p (proj1 Hok2) Hup2) Hx2 ltac:(auto) Hs3) as [-> _].
  destruct Hcase as [(_ & _ & Hv3)|[? _]]; [|done].
  exists (with_kvm v3 (with_kvm v2 s1)), F2. split.
  { by apply (vm_op_done (fun _ => set_availability d p PAGE_UNAVAILABLE) (with_kvm v2 s1) me t). }
  split; [|intros Hempty; eapply set_availability_empty; [|exact Hs3]; by eapply unmap_frame_empty].
  assert (Hv13 : forall e w, vword w -> view v3 e w = if decide (e = d /\ page_no w = page_no p)
     then Some (Unmapped PAGE_UNAVAILABLE) else view (kvm s1) e w).
  { intros e w Hw. rewrite Hv3 by done. unfold view_upd. case_decide as Hc; [done|]. rewrite Hv2 by done.
    unfold view_upd. by rewrite decide_False. }
  split.
  - rewrite (md_rest _ _ _ _ _ _ Hm). done.
  - split; [done|]. cbn [cr3 with_kvm]. rewrite Hc1. apply (dir_kept (with_kvm v2 s1)); [|done]. by apply (dir_kept s1).
  - apply Hm.
  - apply Hm.
  - intros j Hj. destruct (md_new _ _ _ _ _ _ Hm j ltac:(lia)) as (g & Hg & Hz). exists g. split; [|done].
    unfold here in *. cbn [kvm cr3 with_kvm]. rewrite Hc1 in Hg |- *. rewrite Hv13 by apply nth_page_word.
    rewrite decide_False; [done|]. intros [_ Hp].
    assert (j = lo); [|lia]. apply (nth_page_distinct page Hpage Halign hi); [apply Hm|lia|lia|done].
  - intros e w Hw Hout. cbn [kvm with_kvm]. rewrite Hv13 by done. case_decide as Hc.
    + destruct Hc as [-> Hp]. rewrite <-(md_old _ _ _ _ _ _ Hm lo) by lia. symmetry. by apply view_same_page.
    + apply (md_out _ _ _ _ _ _ Hm); [done|]. destruct Hout as [?|Hout]; [by left|].
      destruct (decide (e = d)) as [->|]; [right|by left]. intros j Hj.
      destruct (decide (j = lo)) as [->|]; [intros Hp; by apply Hc|apply Hout; lia].
  - apply Hm.
  - apply Hm.
Qed.

Lemma unmap_pages_ok n : forall lo s1 F1, made s page lo (lo + Z.of_nat n) s1 F1 -> 0 <= lo ->
  exists s2 F2, unmap_pages n (page_of (cr3 s)) page lo s1 = Done tt s2 /\
    made s page (lo + Z.of_nat n) (lo + Z.of_nat n) s2 F2 /\ (page_pool (kvm s1) = [] -> page_pool (kvm s2) = []).
Proof.
  induction n as [|n IH]; intros lo s1 F1 Hm Hlo.
  - exists s1, F1. split; [done|]. by replace (lo + Z.of_nat 0) with lo in * by lia.
  - destruct (unmap_page_ok lo _ s1 F1 Hm ltac:(lia)) as (s2 & F2 & H2 & Hm2 & He2).
    destruct (IH (lo + 1) s2 F2) as (s3 & F3 & H3 & Hm3 & He3); [by replace (lo + 1 + Z.of_nat n) with (lo + Z.of_nat (S n)) by lia|lia|].
    exists s3, F3. replace (lo + 1 + Z.of_nat n) with (lo + Z.of_nat (S n)) in Hm3 by lia. split; [|by auto].
    cbn [unmap_pages]. fold (nth_page page lo).
    apply bind_inv in H2 as (r1 & s1' & E1 & E2). kstep E1. by kstep E2.
Qed.

Lemma new_page_range_ok n : forall i s1 F1, made s page 0 i s1 F1 -> 0 <= i ->
  exists ok s2 F2, new_page_range n (page_of (cr3 s)) page i s1 = Done ok s2 /\
    if (ok : bool) then made s page 0 (i + Z.of_nat n) s2 F2
    else exists hi, i <= hi < i + Z.of_nat n /\ made s page hi hi s2 F2 /\
      (bad_page s page hi \/ page_pool (kvm s2) = [] \/ hi - i = Z.of_nat (length F1)).
Proof.
  induction n as [|n IH]; intros i s1 F1 Hm Hi.
  - exists true, s1, F1. split; [done|]. by replace (i + Z.of_nat 0) with i by lia.
  - cbn [new_page_range]. fold (nth_page page i).
    destruct (new_page_ok i s1 F1 Hm Hi) as (ok & s2 & F2 & H2 & Hm2 & Hlen & Hwhy). kstep H2. destruct ok.
    + destruct (IH (i + 1) s2 F2 Hm2 ltac:(lia)) as (ok & s3 & F3 & H3 & Hm3). exists ok, s3, F3. split; [done|].
      destruct ok; [by replace (i + Z.of_nat (S n)) with (i + 1 + Z.of_nat n) by lia|].
      destruct Hm3 as (hi & Hhi & Hm3 & Hr). exists hi. split; [lia|]. split; [done|].
      destruct Hr as [?|[?|?]]; auto. right. right. rewrite Hlen. lia.
    + destruct (unmap_pages_ok (Z.to_nat i) 0 s2 F2) as (s3 & F3 & H3 & Hm3 & He3).
      { by replace (0 + Z.of_nat (Z.to_nat i)) with i by lia. } { lia. }
      exists false, s3, F3. split; [by kstep H3|]. exists i. split; [lia|].
      split; [by replace (0 + Z.of_nat (Z.to_nat i)) with i in Hm3 by lia|].
      destruct (Hwhy eq_refl) as [?|[?| ->]]; auto. right. right. cbn. lia.
Qed.

Lemma made_start F : space_ok s F -> made s page 0 0 s F.
Proof.
  intros Hs. split; [by destruct s|done|intros; lia|intros; lia|intros; lia|done..].
Qed.

End new_pages_proofs.

(** * The list of allocations *)

(** A process's lock taken: the state, and the way back. *)
Lemma pcb_lock_ok s me t b : running (ctl s) = Some me -> get_tcb (ctl s) me = Some t ->
  get_pcb (ctl s) (tcb_pcb t) = Some b -> lock b = mutex_init ->
  exists c, mutex_lock (PcbLock (tcb_pcb t)) s = Done tt (with_ctl c s) /\
    upd_pcb (tcb_pcb t) (CtrlBlk.set_lock (Mutex LOCKED (tid t))) (ctl s) = Some c /\
    get_lock (PcbLock (tcb_pcb t)) (with_ctl c s) = Some (Mutex LOCKED (tid t)) /\
    get_pcb c (tcb_pcb t) = Some (CtrlBlk.set_lock (Mutex LOCKED (tid t)) b) /\
    allocations c = allocations (ctl s) /\ running c = running (ctl s) /\ get_tcb c = get_tcb (ctl s) /\
    mutex_unlock (PcbLock (tcb_pcb t)) (with_ctl c s) = Done tt s.
Proof.
  intros Hme Ht Hb Hl. set (l := PcbLock (tcb_pcb t)).
  assert (Hg : get_lock l s = Some mutex_init) by (cbn [get_lock l]; by rewrite Hb, <-Hl).
  destruct (mutex_lock_ok l s mutex_init me t Hg eq_refl Hme Ht) as (s1 & Hlock & Hput).
  pose proof (put_get_lock _ _ _ _ Hput) as Hg1. destruct (put_lock_ctl _ _ _ _ Hput) as (_ & Er & Eg & _).
  assert (Hun : mutex_unlock l s1 = Done tt s).
  { unfold mutex_unlock. kstep (load_lock_ok _ _ _ Hg1). apply store_lock_ok.
    rewrite (put_lock_again _ _ _ _ Hput). by apply put_lock_same. }
  pose proof Hput as Hput'. cbn [put_lock l] in Hput'. apply bind_Some in Hput' as (c & Hc & [= <-]).
  exists c. split; [done|]. split; [done|]. split; [done|]. split; [|split; [|done]].
  - unfold upd_pcb, put_pcb, set_data in Hc. rewrite Hb in Hc. cbn [mbind option_bind] in Hc. unfold get_pcb in *.
    apply fmap_Some in Hb as (n & Hn & ->). rewrite Hn in Hc. cbn [mbind option_bind] in Hc. injection Hc as <-.
    cbn. by rewrite lookup_insert_eq.
  - unfold upd_pcb, put_pcb in Hc. apply bind_Some in Hc as (b' & _ & Hc). apply bind_Some in Hc as (z & _ & [= <-]). done.
Qed.

Lemma fold_nodes_cons {A B R} (body : addr -> node A -> B -> option (B + R)) h p l b :
  fold_nodes body h (p :: l) b =
    (n ← h !! p; r ← body p n b; match r with inr r => Some (inr r) | inl b => fold_nodes body h l b end).
Proof. done. Qed.

(** The search stops before it could look at any allocation but the first. *)
Lemma find_allocation_walk (h : heap page_allocation_t) base_ front l : forall x n,
  h !! x = Some n -> base (data n) <> base_ -> front ∉ l -> chain h x l front ->
  exists r, fold_nodes (fun p n (_ : unit) =>
        if decide (base (data n) = base_) then Some (inr p)
        else
          n' ← h !! next n;
          if bool_decide (next n <> front /\ ~ base (data n') < base_) then Some (inr NULL)
          else Some (inl tt)) h (x :: l) tt = Some r /\ (r = inl tt \/ r = inr NULL).
Proof.
  induction l as [|y l IH]; intros x n Hx Hb Hf Hc; rewrite fold_nodes_cons, Hx; cbn [mbind option_bind];
    rewrite decide_False by done.
  - destruct Hc as [Hn Hp]. rewrite Hx in Hn. injection Hn as ->. apply fmap_Some in Hp as (m & Hm & _). rewrite Hm.
    cbn [mbind option_bind]. rewrite bool_decide_false by tauto. eauto.
  - destruct Hc as [[Hn Hp] Hc]. rewrite Hx in Hn. injection Hn as ->. apply fmap_Some in Hp as (m & Hm & _). rewrite Hm.
    cbn [mbind option_bind]. assert (y <> front) by set_solver. case_bool_decide as Hlt; [eauto|].
    apply (IH _ m Hm); [|set_solver|done]. intros ?. apply Hlt. split; [done|lia].
Qed.

Lemma find_allocation_ok c base_ x l n : ring (cells (allocations c)) (x :: l) ->
  cells (allocations c) !! x = Some n ->
  find_allocation base_ c x = Some (if decide (base (data n) = base_) then x else NULL).
Proof.
  intros Hr Hx. unfold find_allocation. rewrite (walk_ring _ _ _ l) by done.
  dec_goal as [Hb|Hb].
  - cbn [fold_nodes]. rewrite Hx. cbn [mbind option_bind]. by rewrite decide_True.
  - destruct Hr as (Hnd & _ & Hc). apply NoDup_cons in Hnd as [Hnd _].
    destruct (find_allocation_walk (cells (allocations c)) base_ x l x n) as (r & -> & [->| ->]); done.
Qed.

(** The place of a new allocation: before the first one that does not begin below it. *)
Definition place_allocation (a : page_allocation_t) (L : list page_allocation_t) : list page_allocation_t :=
  let '(M1, M2) := span_sat (fun x => bool_decide (base x >= base a)) L in M1 ++ a :: M2.

(** The allocations of a process, in the order of its list. *)
Definition allocations_are (c : ctrl) (pcb : addr) (L : list page_allocation_t) : Prop :=
  zone_ok (allocations c) /\ exists b l, get_pcb c pcb = Some b /\ page_allocation_list b = front_of l /\
    ring (cells (allocations c)) l /\ contents (cells (allocations c)) l L.

Abbreviation sorted_by_base := (StronglySorted (fun a b => base a <= base b)).

Lemma place_allocation_sorted a L : sorted_by_base L -> sorted_by_base (place_allocation a L).
Proof.
  unfold place_allocation. induction 1 as [|x L Hs IH Hx]; cbn [span_sat]; [repeat constructor|].
  case_bool_decide as Hb; cbn [app].
  - constructor; [by constructor|]. constructor; [lia|]. eapply Forall_impl; [exact Hx|]. cbn. lia.
  - destruct (span_sat _ L) as [M1 M2] eqn:E. cbn [app]. constructor; [exact IH|].
    apply span_sat_app in E. rewrite E in Hx. apply Forall_app in Hx as [H1 H2]. apply Forall_app. split; [done|].
    constructor; [lia|done].
Qed.

Lemma upd_pcb_other pcb f c c' q b : upd_pcb pcb f c = Some c' -> get_pcb c pcb = Some b ->
  c' = set_pcbs (pcbs c') c /\ get_pcb c' pcb = Some (f b) /\ (q <> pcb -> get_pcb c' q = get_pcb c q).
Proof.
  intros Hc Hb. unfold upd_pcb, put_pcb, set_data in Hc. rewrite Hb in Hc. cbn [mbind option_bind] in Hc. unfold get_pcb in *.
  apply fmap_Some in Hb as (n & Hn & ->). rewrite Hn in Hc. cbn [mbind option_bind] in Hc. injection Hc as <-.
  cbn. rewrite lookup_insert_eq. split; [done|]. split; [done|]. intros. by rewrite lookup_insert_ne.
Qed.

Lemma upd_pcb_some pcb f c b : get_pcb c pcb = Some b -> exists c', upd_pcb pcb f c = Some c'.
Proof.
  intros Hb. unfold upd_pcb, put_pcb, set_data. rewrite Hb. cbn [mbind option_bind]. unfold get_pcb in Hb.
  apply fmap_Some in Hb as (n & Hn & _). rewrite Hn. cbn [mbind option_bind]. by eexists.
Qed.

Lemma contents_push {A} (z z' : zone A) q d l m1 m2 M1 M2 : pushed z z' q d l -> q ∉ m1 ++ m2 ->
  contents (cells z) (m1 ++ m2) (M1 ++ M2) -> length m1 = length M1 -> contents (cells z') (m1 ++ q :: m2) (M1 ++ d :: M2).
Proof.
  intros Hp Hq Hc Hlen. assert (Hc' : contents (cells z') (m1 ++ m2) (M1 ++ M2)).
  { assert (H1 : forall p, p ∈ m1 ++ m2 -> data <$> cells z' !! p = data <$> cells z !! p).
    { intros p Hin. apply (pushed_other _ _ _ _ _ Hp). intros ->. done. }
    revert H1 Hc. generalize (m1 ++ m2) (M1 ++ M2). intros k K H1 Hc. induction Hc as [|p x k K Hpx Hc IH]; [constructor|].
    constructor; [rewrite H1 by left; done|]. apply IH. intros r Hr. apply H1. by right. }
  apply Forall2_app_inv in Hc' as [H1 H2]; [|done]. apply Forall2_app; [done|]. constructor; [apply Hp|done].
Qed.

(** What recording an allocation does to the process and its list. *)
Definition recorded (c : ctrl) (pcb : addr) (L : list page_allocation_t) (c' : ctrl) : Prop :=
  c' = set_pcbs (pcbs c') (set_allocations (allocations c') c) /\
  (forall q, q <> pcb -> get_pcb c' q = get_pcb c q) /\
  (forall b, get_pcb c pcb = Some b -> exists front, get_pcb c' pcb = Some (set_page_allocation_list front b)) /\
  allocations_are c' pcb L.

(** The list, at its new front if there is one, holds [L]. *)
Lemma recorded_front c pcb b z' f l L : get_pcb c pcb = Some b -> zone_ok z' -> ring (cells z') l -> f = front_of l -> contents (cells z') l L ->
  exists c', upd_pcb pcb (set_page_allocation_list f) (set_allocations z' c) = Some c' /\ recorded c pcb L c'.
Proof.
  intros Hb Hz Hr Hf Hc. destruct (upd_pcb_some pcb (set_page_allocation_list f) (set_allocations z' c) b Hb) as [c' Hc'].
  destruct (upd_pcb_other pcb _ (set_allocations z' c) c' NULL b Hc' Hb) as (E1 & E2 & _).
  exists c'. split; [done|]. split; [by rewrite E1|]. split; [|split].
  - intros r Hrq. by eapply (upd_pcb_other pcb _ (set_allocations z' c) c' r b).
  - intros b' Hb'. rewrite Hb in Hb'. injection Hb' as <-. eauto.
  - split; [by rewrite E1|]. exists (set_page_allocation_list f b), l. rewrite E2, E1. done.
Qed.

Lemma recorded_inside c pcb b z' l L : get_pcb c pcb = Some b -> zone_ok z' -> ring (cells z') l -> page_allocation_list b = front_of l ->
  contents (cells z') l L -> recorded c pcb L (set_allocations z' c).
Proof.
  intros Hb Hz Hr Hf Hc. split; [done|]. split; [done|]. split; [|by split; [|exists b, l]].
  intros b' Hb'. rewrite Hb in Hb'. injection Hb' as <-. exists (page_allocation_list b). unfold get_pcb in *. cbn. rewrite Hb. by destruct b.
Qed.

(** The place behind the node [x] and the nodes [m1]. *)
Lemma record_between c pcb b x m1 m2 L1 L2 a : get_pcb c pcb = Some b -> zone_ok (allocations c) ->
  page_allocation_list b = front_of (x :: m1 ++ m2) -> ring (cells (allocations c)) (x :: m1 ++ m2) ->
  contents (cells (allocations c)) ((x :: m1) ++ m2) (L1 ++ L2) -> length (x :: m1) = length L1 ->
  exists ok z' q, PUSH_FRONT (front_of (m2 ++ x :: m1)) a (allocations c) = Some (ok, z', q) /\ (ok = true <-> pool (allocations c) <> []) /\
    recorded c pcb (if ok then L1 ++ a :: L2 else L1 ++ L2) (set_allocations z' c).
Proof.
  intros Hb Hz Hf Hr Hc Hlen. assert (Hrot : ring (cells (allocations c)) (m2 ++ x :: m1)).
  { change (x :: m1 ++ m2) with ((x :: m1) ++ m2) in Hr. by apply ring_rotate in Hr. }
  destruct (pool (allocations c)) as [|q rest] eqn:Hpool.
  - rewrite PUSH_FRONT_full by done. do 3 eexists. split; [done|]. split; [by split|].
    by apply (recorded_inside c pcb b _ (x :: m1 ++ m2)).
  - destruct (PUSH_FRONT_ok (allocations c) _ q rest a Hz Hrot Hpool) as (z' & -> & Hr' & Hp).
    do 3 eexists. split; [done|]. split; [by split|].
    change (q :: m2 ++ x :: m1) with ((q :: m2) ++ x :: m1) in Hr'. apply ring_rotate in Hr'.
    apply (recorded_inside c pcb b z' ((x :: m1) ++ q :: m2)); [done|apply Hp|done|done|].
    apply (contents_push (allocations c) z' q a _ (x :: m1) m2 _ _ Hp); [|done|done].
    destruct Hr' as (Hnd & _). apply NoDup_app in Hnd as (_ & H1 & H2). apply NoDup_cons in H2 as [H2 _].
    intros Hin. apply elem_of_app in Hin as [Hin|Hin]; [|done]. apply (H1 q Hin). left.
Qed.

(** Recording an allocation. *)
Lemma record_allocation_ok c pcb a L : allocations_are c pcb L -> sorted_by_base L ->
  exists ok c', record_allocation pcb a c = Some (ok, c') /\ (ok = true <-> pool (allocations c) <> []) /\
    recorded c pcb (if ok then place_allocation a L else L) c'.
Proof.
  intros (Hz & b & l & Hb & Hf & Hr & Hc) Hsort. unfold record_allocation. rewrite Hb. cbn [mbind option_bind]. rewrite Hf.
  assert (Hbefore : (if decide (front_of l = NULL) then Some true
            else n ← cells (allocations c) !! front_of l; Some (bool_decide (base (data n) >= base a))) =
       Some match L with [] => true | x :: _ => bool_decide (base x >= base a) end).
  { destruct Hc as [|p x l L Hp _]; [done|]. rewrite decide_False.
    - change (front_of (p :: l)) with p. apply fmap_Some in Hp as (n & -> & ->). done.
    - destruct Hr as (_ & Hn & _). change (front_of (p :: l)) with p. set_solver. }
  rewrite Hbefore. cbn [mbind option_bind].
  destruct (match L with [] => true | x :: _ => bool_decide (base x >= base a) end) eqn:Hcase.
  - assert (place_allocation a L = a :: L) as ->.
    { unfold place_allocation. destruct L as [|x L]; [done|]. cbn [span_sat]. by rewrite Hcase. }
    destruct (pool (allocations c)) as [|q rest] eqn:Hpool.
    + rewrite PUSH_FRONT_full by done. cbn [mbind option_bind].
      destruct (recorded_front c pcb b (allocations c) (front_of l) l L) as (c' & -> & Hre); [done..|]. by exists false, c'.
    + destruct (PUSH_FRONT_ok (allocations c) l q rest a Hz Hr Hpool) as (z' & -> & Hr' & Hp). cbn [mbind option_bind].
      destruct (recorded_front c pcb b z' q (q :: l) (a :: L)) as (c' & -> & Hre); [done|apply Hp|done|done| |by exists true, c'].
      apply (contents_push _ _ q a l [] l [] L Hp); [|done|done]. destruct Hr' as (Hnd & _). by apply NoDup_cons in Hnd as [? _].
  - destruct Hc as [|x x0 l L Hx Hc]; [done|]. change (front_of (x :: l)) with x in *.
    apply fmap_Some in Hx as (n & Hn & ->). rewrite Hn. cbn [mbind option_bind].
    set (f := fun y => bool_decide (base y >= base a)).
    destruct (span_sat f L) as [M1 M2] eqn:Hsp. destruct (contents_span _ _ _ _ _ _ Hc Hsp) as (m1 & m2 & -> & Hl1 & Hl2 & Hfs).
    assert (place_allocation a (data n :: L) = (data n :: M1) ++ a :: M2) as ->.
    { unfold place_allocation. cbn [span_sat]. rewrite Hcase. fold f. by rewrite Hsp. }
    destruct (seek_ring (cells (allocations c)) (fun n0 => Some (bool_decide (base (data n0) < base a)))
      (on_data (cells (allocations c)) f) x (m1 ++ m2) Hr) as (n' & Hn' & Hs).
    { intros p Hp. destruct (ring_dom _ _ p Hr) as [m Hm]; [by right|]. exists m. split; [done|]. unfold on_data, f. rewrite Hm.
      rewrite <-bool_decide_not. f_equal. apply bool_decide_ext. lia. }
    rewrite Hn in Hn'. injection Hn' as <-. rewrite Hs. cbn [mbind option_bind]. rewrite Hfs.
    assert (default x (head m2) = front_of (m2 ++ x :: m1)) as -> by (by destruct m2).
    apply span_sat_app in Hsp. subst L.
    destruct (record_between c pcb b x m1 m2 (data n :: M1) M2 a) as (ok & z' & q & -> & Hok & Hre); [done..| |by cbn; f_equal|].
    { constructor; [by rewrite Hn|done]. }
    cbn [mbind option_bind]. by exists ok, (set_allocations z' c).
Qed.

(** * new_pages and remove_pages *)

Section pages_calls.
Context `{Platform}.

(** A range of mapped user memory, and the word there. *)
Definition mapped_range (s : kstate) (v n : Z) : Prop :=
  0 <= v /\ v + n <= 2 ^ 32 /\ forall w, v <= w < v + n -> exists f rw us, here s w = Some (Mapped f rw us).
Definition word_at (s : kstate) (v : Z) : Z := word_of ((fun a => byte_at a s) <$> places s v 4).

Lemma load_mapped s F v n : space_ok s F -> mapped_range s v (Z.of_nat n) ->
  load_bytes n v s = Done ((fun a => byte_at a s) <$> places s v (Z.of_nat n)) s.
Proof.
  intros Hs (R1 & R2 & R3). apply load_bytes_ok; [done|done|unfold places; rewrite length_fmap, length_seqZ; lia|].
  intros i a Hi. apply places_lookup in Hi as [Hi ->]. rewrite (translate_ok s F) by (done || (unfold vword; lia)).
  destruct (R3 (v + Z.of_nat i)) as (f & rw & us & Hx); [lia|]. unfold place_of. rewrite Hx. unfold allowed.
  by rewrite bool_decide_false by naive_solver.
Qed.

Lemma load_bytes_first s F v n : space_ok s F -> mapped_range s v (Z.of_nat (S n)) ->
  exists x, load8 v s = Done x s /\
    (fun a => byte_at a s) <$> places s v (Z.of_nat (S n)) = x :: ((fun a => byte_at a s) <$> places s (v + 1) (Z.of_nat n)).
Proof.
  intros Hs (R1 & R2 & R3). exists (byte_at (place_of s v) s). split.
  - apply load8_ok. rewrite (translate_ok s F) by (done || (unfold vword; lia)).
    destruct (R3 v) as (f & rw & us & Hx); [lia|]. unfold place_of. rewrite Hx. unfold allowed. by rewrite bool_decide_false by naive_solver.
  - unfold places. rewrite seqZ_cons by lia. cbn [fmap list_fmap]. rewrite Z.add_0_r. f_equal.
    replace (Z.pred (Z.of_nat (S n))) with (Z.of_nat n) by lia. rewrite <-(fmap_add_seqZ 1 0), <-!list_fmap_compose. apply list_fmap_ext.
    intros i j _. cbn. by rewrite Z.add_assoc.
Qed.

Lemma put_user_bytes_ok n : forall v s F, space_ok s F -> mapped_range s v (Z.of_nat n) -> console_ok (kcon s) ->
  exists c, put_user_bytes n v s = Done tt (with_kcon c s) /\ console_ok c /\
    putbytes ((fun a => byte_at a s) <$> places s v (Z.of_nat n)) (kcon s) = Some c.
Proof.
  induction n as [|n IH]; intros v s F Hs Hr Hc; [exists (kcon s); by destruct s|].
  destruct (load_bytes_first s F v n Hs Hr) as (x & H1 & E). rewrite E. cbn [put_user_bytes putbytes]. kstep H1.
  destruct (putbyte_ok x (kcon s) Hc) as (c & Hp & Hc'). rewrite Hp.
  assert (H2 : con_op (fun c => '(_, c) ← putbyte x c; Some (tt, c)) s = Done tt (with_kcon c s)) by (unfold con_op, primitive; by rewrite Hp).
  kstep H2. destruct n as [|n].
  { exists c. by destruct s. }
  destruct Hr as (R1 & R2 & R3). rewrite u32_small by lia.
  destruct (IH (v + 1) (with_kcon c s) F) as (c2 & H3 & Hc2 & Hp2); [done| |done|by exists c2].
  split; [lia|]. split; [lia|]. intros w Hw. apply (R3 w). lia.
Qed.

Lemma load32_mapped s F v : space_ok s F -> mapped_range s v 4 -> load32 v s = Done (word_at s v) s.
Proof. intros Hs Hr. unfold load32. by kstep (load_mapped s F v 4 Hs Hr). Qed.

Lemma mapped_range_sub s v n w m : mapped_range s v n -> v <= w -> w + m <= v + n -> mapped_range s w m.
Proof. intros (H1 & H2 & H3) Hw Hm. split; [lia|]. split; [lia|]. intros x Hx. apply H3. lia. Qed.

Lemma own_range_mapped s v n : own_range s v n -> mapped_range s v n.
Proof.
  intros (H1 & H2 & H3). split; [change USER_PAGE_START with 16777216 in *; lia|]. split; [done|].
  intros w Hw. destruct (H3 w Hw) as (f & rw & us & Hx & _). eauto.
Qed.

(** The lock given back after the lists of allocations have changed. *)
Lemma unlock_pcb s pcb b m : get_pcb (ctl s) pcb = Some b -> 
  exists c, mutex_unlock (PcbLock pcb) s = Done tt (with_ctl c s) /\ get_lock (PcbLock pcb) (with_ctl c s) = Some mutex_init /\
    allocations c = allocations (ctl s) /\ tcbs c = tcbs (ctl s) /\ links c = links (ctl s) /\
    thread_lists c = thread_lists (ctl s) /\
    get_pcb c pcb = Some (CtrlBlk.set_lock mutex_init b) /\
    (forall L, m = L -> allocations_are (ctl s) pcb L -> allocations_are c pcb L).
Proof.
  intros Hb. assert (Hg : get_lock (PcbLock pcb) s = Some (lock b)) by (cbn; by rewrite Hb).
  destruct (upd_pcb_some pcb (CtrlBlk.set_lock mutex_init) (ctl s) b Hb) as [c Hc].
  destruct (upd_pcb_other pcb _ (ctl s) c NULL b Hc Hb) as (E1 & E2 & _). exists c. split.
  { unfold mutex_unlock. kstep (load_lock_ok _ _ _ Hg). apply store_lock_ok. cbn [put_lock].
    change (KMutex.mutex_unlock (lock b)) with mutex_init. by run Hc. }
  split; [cbn [get_lock ctl with_ctl]; by rewrite E2|]. rewrite E1. split; [done|]. split; [done|]. split; [done|]. split; [done|].
  rewrite <-E1. split; [done|]. intros L _ (Hz & b' & l & Hb' & Hf & Hr & Hct). rewrite Hb in Hb'. injection Hb' as <-.
  rewrite E1. split; [done|]. exists (CtrlBlk.set_lock mutex_init b), l. rewrite <-E1. split; [done|]. split; [by rewrite <-Hf|]. by rewrite E1.
Qed.

(** C38. A call of [remove_pages] can remove no allocation but the first of the
    process's list, the one with the lowest base: called with the base of any other
    allocation, or with no allocation's base, it fails and changes nothing.  (Once
    the first has been removed the next is the first.) *)
Theorem remove_pages_first_only (u : ureg_t) (s : kstate) (me : addr) (t : tcb_t) (b : pcb_t) (a : page_allocation_t)
    (L : list page_allocation_t) (Hrun : runs s me t) (Hb : get_pcb (ctl s) (tcb_pcb t) = Some b)
    (Hl : lock b = mutex_init) (Ha : allocations_are (ctl s) (tcb_pcb t) (a :: L)) :
  find_allocation (esi u) (ctl s) (page_allocation_list b) =
    Some (if decide (base a = esi u) then page_allocation_list b else NULL) /\
  (base a <> esi u -> handle_remove_pages u s = Done (fail u) s).
Proof.
  destruct Hrun as [Hme Ht]. destruct Ha as (Hz & b' & l & Hb' & Hf & Hr & Hc). rewrite Hb in Hb'. injection Hb' as <-.
  destruct l as [|x l]; [by apply Forall2_nil_inv_l in Hc|]. apply Forall2_cons_1 in Hc as [Hx _].
  change (front_of (x :: l)) with x in Hf. apply fmap_Some in Hx as (n & Hn & ->). rewrite Hf.
  assert (x <> NULL) as Hxn by (destruct Hr as (_ & Hnull & _); set_solver).
  split; [by apply (find_allocation_ok (ctl s) (esi u) x l n)|]. intros Hne.
  destruct (pcb_lock_ok s me t b Hme Ht Hb Hl) as (c & H1 & _ & _ & Hb1 & Hal & Er & Eg & Hun).
  unfold handle_remove_pages. kstep (running_pcb_ok _ _ _ Hme Ht). kstep H1. rewrite (bind_Done _ _ _ _ _ (gets_ok cr3 _)).
  kstep (pcb_at_ok (with_ctl c s) (tcb_pcb t) _ Hb1). cbn [page_allocation_list CtrlBlk.set_lock]. rewrite Hf.
  rewrite decide_False by done.
  assert (Hfind : ctl_get (fun c => find_allocation (esi u) c x) (with_ctl c s) = Done NULL (with_ctl c s)).
  { apply (ctl_get_ok (fun c => find_allocation (esi u) c x)). cbn [ctl with_ctl].
    rewrite (find_allocation_ok c (esi u) x l n) by (by rewrite Hal). by rewrite decide_False. }
  kstep Hfind. rewrite decide_True by done. by kstep Hun.
Qed.

(** The arguments of [new_pages] that are accepted. *)
Definition new_pages_args (base_ len : Z) : bool :=
  let page_count := Z.quot len PAGE_SIZE in
  bool_decide (page_of base_ = base_ /\ page_count > 0 /\
    page_count < s32 (machine_phys_frames - USER_PAGE_START / PAGE_SIZE) /\ s32 (page_count * PAGE_SIZE) = len).

End pages_calls.

Section new_pages_theorem.
Context `{Platform}.

(** The undoing of a whole range, after the list could not take the allocation. *)
Lemma made_empty_view s page hi s1 F1 : made s page hi hi s1 F1 -> view_is (kvm s1) (view (kvm s)).
Proof. intros Hm d w Hw. apply (md_out _ _ _ _ _ _ Hm); [done|]. right. lia. Qed.

(** The state of the space does not depend on the lists of the kernel. *)
Lemma made_ctl s c c1 page lo hi s1 F1 : made (with_ctl c s) page lo hi s1 F1 ->
  made s page lo hi (with_ctl (ctl s) (with_ctl c1 s1)) F1.
Proof.
  intros [M1 M2 M3 M4 M5 M6 M7 M8]. split; try done. cbn. rewrite M1. by destruct s.
Qed.

Lemma page_base_range x : page_of x = x -> 0 <= x < 2 ^ 32.
Proof. intros <-. apply u32_range. Qed.
Lemma page_base_aligned x : page_of x = x -> x `mod` PAGE_SIZE = 0.
Proof. intros Hx. rewrite <-Hx. apply page_of_aligned, page_base_range, Hx. Qed.

(** What is left alone: the threads and their lists, every byte that was mapped, and
    whatever is not memory or a block of the kernel. *)
Record kept (s : kstate) (p : addr) (s' : kstate) : Prop := {
  kp_rest : s' = with_mem (mem s') (with_kvm (kvm s') (with_ctl (ctl s') s));
  kp_threads : tcbs (ctl s') = tcbs (ctl s) /\ links (ctl s') = links (ctl s) /\ thread_lists (ctl s') = thread_lists (ctl s);
  kp_bytes : forall d w b, own_byte s d w b -> byte_at b s' = byte_at b s;
  kp_mem : mem_ok s -> mem_ok s';
  kp_guest : guest <$> get_pcb (ctl s') p = guest <$> get_pcb (ctl s) p;
}.

Lemma made_kept s p c page lo hi s2 F2 c3 : made (with_ctl c s) page lo hi s2 F2 ->
  tcbs c3 = tcbs (ctl s) -> links c3 = links (ctl s) -> thread_lists c3 = thread_lists (ctl s) ->
  guest <$> get_pcb c3 p = guest <$> get_pcb (ctl s) p -> kept s p (with_ctl c3 s2).
Proof. intros [M1 _ _ _ _ _ M7 M8] E1 E2 E3 E4. split; [|done|exact M7|exact M8|exact E4]. rewrite M1. by destruct s. Qed.

(** What [new_pages] leaves behind, with the lock free again. *)
Definition new_pages_post (s : kstate) (F : list Z) (p : addr) (L : list page_allocation_t) (base_ len : Z)
    (ok : bool) (s' : kstate) : Prop :=
  get_lock (PcbLock p) s' = Some mutex_init /\ (exists F', space_ok s' F') /\ kept s p s' /\
  allocations_are (ctl s') p (if ok then place_allocation (PageAllocation base_ len) L else L) /\
  sorted_by_base (if ok then place_allocation (PageAllocation base_ len) L else L) /\
  if ok then new_pages_args base_ len = true /\
             exists F', made s base_ 0 (Z.quot len PAGE_SIZE) (with_ctl (ctl s) s') F'
  else view_is (kvm s') (view (kvm s)) /\
    (new_pages_args base_ len = false \/ (exists j, 0 <= j < Z.quot len PAGE_SIZE /\ bad_page s base_ j) \/
     page_pool (kvm s') = [] \/ Z.of_nat (length F) < Z.quot len PAGE_SIZE \/ pool (allocations (ctl s)) = []).

Section locked_call.
Context (s : kstate) (F : list Z) (me : addr) (t : tcb_t) (b : pcb_t) (L : list page_allocation_t) (base_ len : Z).
Context (c : ctrl) (lb : pcb_t).
Let p := tcb_pcb t.
Let n := Z.quot len PAGE_SIZE.
Let s1 := with_ctl c s.
Context (Hsort : sorted_by_base L) (Hok : new_pages_args base_ len = true).
Context (Hrun1 : runs s1 me t) (Hb1 : get_pcb c p = Some lb) (Hal1 : allocations_are c p L).
Context (Hsame : allocations c = allocations (ctl s) /\ tcbs c = tcbs (ctl s) /\ links c = links (ctl s) /\
  thread_lists c = thread_lists (ctl s)).
Context (Hguest : guest <$> get_pcb (ctl s) p = Some (guest lb)).

(** A page failed and the others were undone. *)
Lemma new_pages_undone_post s2 F2 hi : made s1 base_ hi hi s2 F2 -> 0 <= hi < n ->
  (bad_page s1 base_ hi \/ page_pool (kvm s2) = [] \/ Z.of_nat (length F) < n) ->
  exists c3, mutex_unlock (PcbLock p) s2 = Done tt (with_ctl c3 s2) /\
    new_pages_post s F p L base_ len false (with_ctl c3 s2).
Proof.
  intros Hm2 Hhi Hwhy. pose proof (md_rest _ _ _ _ _ _ Hm2) as He2.
  assert (Hb2 : get_pcb (ctl s2) p = Some lb) by (rewrite He2; done).
  destruct (unlock_pcb s2 p _ L Hb2) as (c3 & H3 & Hg3 & Ha3 & E1 & E2 & E3 & Hb3 & Hal3). rewrite He2 in E1, E2, E3.
  destruct Hsame as (_ & S1 & S2 & S3).
  exists c3. split; [done|]. split; [done|]. split; [exists F2; apply Hm2|].
  split; [apply (made_kept s p c _ _ _ _ _ c3 Hm2); [by rewrite E1|by rewrite E2|by rewrite E3|by rewrite Hb3, Hguest]|].
  split; [apply (Hal3 L eq_refl); rewrite He2; exact Hal1|]. split; [done|].
  split; [exact (made_empty_view s1 base_ hi s2 F2 Hm2)|]. right. fold n.
  destruct Hwhy as [Hbp|Hwhy]; [left; by exists hi|tauto].
Qed.

(** All pages are there and the allocation is recorded. *)
Lemma new_pages_recorded_post s2 F2 c3 front : made s1 base_ 0 n s2 F2 ->
  c3 = set_pcbs (pcbs c3) (set_allocations (allocations c3) c) ->
  allocations_are c3 p (place_allocation (PageAllocation base_ len) L) ->
  get_pcb c3 p = Some (set_page_allocation_list front lb) ->
  exists c4, mutex_unlock (PcbLock p) (with_ctl c3 s2) = Done tt (with_ctl c4 (with_ctl c3 s2)) /\
    new_pages_post s F p L base_ len true (with_ctl c4 (with_ctl c3 s2)).
Proof.
  intros Hm2 He3 Ha3 Hb3. destruct Hsame as (_ & S1 & S2 & S3).
  destruct (unlock_pcb (with_ctl c3 s2) p _ (place_allocation (PageAllocation base_ len) L) Hb3)
    as (c4 & H4 & Hg4 & _ & E1 & E2 & E3 & Hb4 & Hal4). cbn [ctl with_ctl] in E1, E2, E3. rewrite He3 in E1, E2, E3.
  exists c4. split; [done|]. split; [exact Hg4|]. split; [exists F2; apply Hm2|].
  split; [apply (made_kept s p c _ _ _ _ _ c4 Hm2); [by rewrite E1|by rewrite E2|by rewrite E3|by rewrite Hb4, Hguest]|].
  split; [by apply (Hal4 _ eq_refl)|]. split; [by apply place_allocation_sorted|].
  split; [done|]. exists F2. exact (made_ctl s c c4 base_ 0 n s2 F2 Hm2).
Qed.

(** All pages are there but the list took no node: the pages are taken back. *)
Lemma new_pages_unlisted_post s2 F2 c3 front : made s1 base_ 0 n s2 F2 -> 0 < n ->
  c3 = set_pcbs (pcbs c3) (set_allocations (allocations c3) c) -> allocations_are c3 p L ->
  get_pcb c3 p = Some (set_page_allocation_list front lb) -> pool (allocations c) = [] ->
  exists s4 c5, unmap_pages (Z.to_nat n) (page_of (cr3 s)) base_ 0 (with_ctl c3 s2) = Done tt s4 /\
    mutex_unlock (PcbLock p) s4 = Done tt (with_ctl c5 s4) /\
    new_pages_post s F p L base_ len false (with_ctl c5 s4).
Proof.
  intros Hm2 Hn He3 Ha3 Hb3 Hpool. destruct Hsame as (S0 & S1 & S2 & S3). set (s0 := with_ctl c3 s).
  pose proof Hok as (Hpb & _)%bool_decide_eq_true.
  pose proof (page_base_range base_ Hpb) as Hbr. pose proof (page_base_aligned base_ Hpb) as Hba4.
  assert (Hm3 : made s0 base_ 0 (0 + Z.of_nat (Z.to_nat n)) (with_ctl c3 s2) F2).
  { replace (0 + Z.of_nat (Z.to_nat n)) with n by lia. destruct Hm2 as [M1 M2 M3 M4 M5 M6 M7 M8]. split; try done. by rewrite M1. }
  assert (Hrun3 : runs s0 me t).
  { destruct Hrun1 as [R1 R2]. split; cbn [ctl with_ctl s0]; rewrite He3; [exact R1|exact R2]. }
  destruct (unmap_pages_ok s0 base_ me t Hbr Hba4 Hrun3 (Z.to_nat n) 0 _ F2 Hm3 ltac:(lia)) as (s4 & F4 & H4 & Hm4 & _).
  pose proof (md_rest _ _ _ _ _ _ Hm4) as He4.
  assert (Hb4 : get_pcb (ctl s4) p = get_pcb c3 p) by (rewrite He4; done). rewrite Hb3 in Hb4.
  destruct (unlock_pcb s4 p _ L Hb4) as (c5 & H5 & Hg5 & _ & E1 & E2 & E3 & Hb5 & Hal5). rewrite He4 in E1, E2, E3.
  cbn [ctl with_mem with_kvm with_ctl s0] in E1, E2, E3. rewrite He3 in E1, E2, E3.
  exists s4, c5. split; [exact H4|]. split; [exact H5|]. split; [exact Hg5|]. split; [exists F4; apply Hm4|].
  split; [apply (made_kept s p c3 _ _ _ _ _ c5 Hm4); [by rewrite E1|by rewrite E2|by rewrite E3|by rewrite Hb5, Hguest]|].
  split; [apply (Hal5 L eq_refl); rewrite He4; exact Ha3|]. split; [done|].
  split; [exact (made_empty_view s0 base_ _ s4 F4 Hm4)|]. rewrite <-S0. tauto.
Qed.

End locked_call.

(** The two words of the arguments. *)
Lemma load_two_args s F v : space_ok s F -> mapped_range s v 8 ->
  load32 v s = Done (word_at s v) s /\ load32 (u32 (v + 4)) s = Done (word_at s (v + 4)) s.
Proof.
  intros Hs Hr. pose proof Hr as (H0 & H8 & _). split.
  - rewrite (load32_mapped s F) by (done || (apply (mapped_range_sub s v 8); [done|lia|lia])). done.
  - rewrite u32_small by lia. rewrite (load32_mapped s F) by (done || (apply (mapped_range_sub s v 8); [done|lia|lia])). done.
Qed.

(** The call as a whole. *)
Lemma new_pages_ok (u : ureg_t) (s : kstate) (F : list Z) (me : addr) (t : tcb_t) (b : pcb_t)
    (L : list page_allocation_t)
    (Hs : space_ok s F) (Hrun : runs s me t) (Hb : get_pcb (ctl s) (tcb_pcb t) = Some b) (Hl : lock b = mutex_init)
    (Hal : allocations_are (ctl s) (tcb_pcb t) L) (Hsort : sorted_by_base L) (Hargs : mapped_range s (esi u) 8) :
  let base_ := word_at s (esi u) in
  let len := s32 (word_at s (esi u + 4)) in
  let n := Z.quot len PAGE_SIZE in
  exists (ok : bool) s', handle_new_pages u s = Done (if ok then succeed u else fail u) s' /\
    get_lock (PcbLock (tcb_pcb t)) s' = Some mutex_init /\ (exists F', space_ok s' F') /\ kept s (tcb_pcb t) s' /\
    allocations_are (ctl s') (tcb_pcb t) (if ok then place_allocation (PageAllocation base_ len) L else L) /\
    sorted_by_base (if ok then place_allocation (PageAllocation base_ len) L else L) /\
    if ok then new_pages_args base_ len = true /\ exists F', made s base_ 0 n (with_ctl (ctl s) s') F'
    else view_is (kvm s') (view (kvm s)) /\
      (new_pages_args base_ len = false \/ (exists j, 0 <= j < n /\ bad_page s base_ j) \/
       page_pool (kvm s') = [] \/ Z.of_nat (length F) < n \/ pool (allocations (ctl s)) = []).
Proof.
  intros base_ len n. set (p := tcb_pcb t) in *. pose proof Hrun as [Hme Ht].
  enough (exists (ok : bool) s', handle_new_pages u s = Done (if ok then succeed u else fail u) s' /\
            new_pages_post s F p L base_ len ok s') as (ok & s' & Hend & Hp) by (by exists ok, s').
  destruct (pcb_lock_ok s me t b Hme Ht Hb Hl) as (c & H1 & Hupd & Hg1 & Hb1 & Hal1 & Er & Eg & Hun). fold p in H1, Hb1, Hun.
  assert (Hsame : allocations c = allocations (ctl s) /\ tcbs c = tcbs (ctl s) /\ links c = links (ctl s) /\ thread_lists c = thread_lists (ctl s)).
  { destruct (upd_pcb_other _ _ _ _ NULL b Hupd Hb) as (-> & _). done. }
  assert (Hguest : guest <$> get_pcb (ctl s) p = Some (guest (CtrlBlk.set_lock (Mutex LOCKED (tid t)) b))) by (by rewrite Hb).
  set (s1 := with_ctl c s) in *.
  assert (Hrun1 : runs s1 me t) by (split; [by rewrite <-Hme|by rewrite <-Ht, <-Eg]).
  destruct (load_two_args s1 F (esi u) Hs Hargs) as [L1 L2].
  change (word_at s1 (esi u)) with base_ in L1. change (word_at s1 (esi u + 4)) with (word_at s (esi u + 4)) in L2.
  assert (Hal1' : allocations_are c p L).
  { destruct Hal as (Hz & b' & l & Hb' & Hf & Hr & Hc). rewrite Hb in Hb'. injection Hb' as <-. rewrite <-Hal1 in Hz, Hr, Hc.
    split; [done|]. by exists (CtrlBlk.set_lock (Mutex LOCKED (tid t)) b), l. }
  unfold handle_new_pages. kstep (running_pcb_ok _ _ _ Hme Ht). fold p. kstep H1. kstep L1. kstep L2. fold len n.
  case_bool_decide as Hbad.
  { kstep Hun. exists false, s. split; [done|]. split; [cbn; rewrite Hb; cbn; by rewrite Hl|]. split; [by exists F|].
    split; [split; try done; by destruct s|]. do 3 (split; [done|]). left. unfold new_pages_args. apply bool_decide_eq_false. tauto. }
  assert (Hok : new_pages_args base_ len = true).
  { unfold new_pages_args. apply bool_decide_eq_true. fold n. apply dec_stable. tauto. }
  pose proof Hok as (Hpb & Hn & _)%bool_decide_eq_true. fold n in Hn. rewrite Hpb.
  assert (Hcd : current_page_dir s1 = Done (page_of (cr3 s)) s1) by done. kstep Hcd.
  destruct (new_page_range_ok s1 base_ me t (page_base_range base_ Hpb) (page_base_aligned base_ Hpb)
      Hrun1 (Z.to_nat n) 0 s1 F (made_start s1 base_ me t Hrun1 F Hs) ltac:(lia)) as (ok & s2 & F2 & H2 & Hm2).
  change (page_of (cr3 s1)) with (page_of (cr3 s)) in H2. kstep H2. rewrite Z2Nat.id in Hm2 by lia. destruct ok; cbn [negb].
  2:{ destruct Hm2 as (hi & Hhi & Hm2 & Hwhy). exists false.
      destruct (new_pages_undone_post s F t L base_ len c _ Hsort Hb1 Hal1' Hsame Hguest s2 F2 hi Hm2) as (c3 & H3 & Hp);
        [lia|intuition lia|]. fold p in H3. kstep H3. by eexists. }
  replace (0 + n) with n in Hm2 by lia. assert (Hctl2 : ctl s2 = c) by (by rewrite (md_rest _ _ _ _ _ _ Hm2)).
  destruct (record_allocation_ok c p (PageAllocation base_ len) L Hal1' Hsort) as (ok & c3 & H3 & Hiff & He3 & _ & Hb3 & Hal3).
  destruct (Hb3 _ Hb1) as [front Hb3']. rewrite <-Hctl2 in H3. kstep (ctl_op_ok _ _ _ _ H3). exists ok. destruct ok; cbn [negb].
  - destruct (new_pages_recorded_post s F t L base_ len c _ Hsort Hok Hsame Hguest s2 F2 c3 front Hm2 He3 Hal3 Hb3') as (c4 & H4 & Hp).
    fold p in H4. kstep H4. by eexists.
  - destruct (new_pages_unlisted_post s F me t L base_ len c (CtrlBlk.set_lock (Mutex LOCKED (tid t)) b) Hsort Hok Hrun1 Hsame Hguest s2 F2 c3 front Hm2) as (s4 & c5 & H4 & H5 & Hp);
      [lia|done|done|done|destruct (pool (allocations c)); [done|by discriminate (proj2 Hiff)]|].
    fold n in H4. fold p in H5. kstep H4. kstep H5. by eexists.
Qed.

(** C14. [new_pages] is all or nothing.  On success the arguments were in order,
    every page of the range was an unused user page, each is now mapped to a
    frame of its own, writable and clear, no other page of any space and no byte
    that was mapped has changed, and the allocation is in the process's list, which stays sorted by
    base.  On failure no page of any space and no allocation has changed, and
    there is a reason: bad arguments, a page in use or outside user memory, or
    no frame, heap page or list node left.  The lock is free again. *)
Theorem new_pages_all_or_nothing (u : ureg_t) (s : kstate) (F : list Z) (me : addr) (t : tcb_t) (b : pcb_t)
    (L : list page_allocation_t)
    (Hs : space_ok s F) (Hrun : runs s me t) (Hb : get_pcb (ctl s) (tcb_pcb t) = Some b) (Hl : lock b = mutex_init)
    (Hal : allocations_are (ctl s) (tcb_pcb t) L) (Hsort : sorted_by_base L) (Hargs : mapped_range s (esi u) 8) :
  let base_ := word_at s (esi u) in
  let len := s32 (word_at s (esi u + 4)) in
  let n := Z.quot len PAGE_SIZE in
  exists (ok : bool) s', handle_new_pages u s = Done (if ok then succeed u else fail u) s' /\
    get_lock (PcbLock (tcb_pcb t)) s' = Some mutex_init /\ (exists F', space_ok s' F') /\ kept s (tcb_pcb t) s' /\
    allocations_are (ctl s') (tcb_pcb t) (if ok then place_allocation (PageAllocation base_ len) L else L) /\
    sorted_by_base (if ok then place_allocation (PageAllocation base_ len) L else L) /\
    if ok then new_pages_args base_ len = true /\ exists F', made s base_ 0 n (with_ctl (ctl s) s') F'
    else view_is (kvm s') (view (kvm s)) /\
      (new_pages_args base_ len = false \/ (exists j, 0 <= j < n /\ bad_page s base_ j) \/
       page_pool (kvm s') = [] \/ Z.of_nat (length F) < n \/ pool (allocations (ctl s)) = []).
Proof. exact (new_pages_ok u s F me t b L Hs Hrun Hb Hl Hal Hsort Hargs). Qed.

End new_pages_theorem.

(** ** Concrete calls *)

(** Bytes in the memory of the running thread's page at 0x1003000. *)
Definition demo_args (ws : list Z) (s : kstate) : kstate :=
  put_bytes (imap (fun i x => (0x1001000 + Z.of_nat i, x)) (concat (bytes_of <$> ws))) s.

Definition demo_alloc_state : kstate := demo_args [0x1008000; 8192] demo_user_state.
Definition demo_call : ureg_t := set_esi 0x1003000 ureg_zero.

Lemma demo_alloc_space : exists F, space_ok demo_alloc_state F.
Proof. destruct demo_user_ok as [F HF]. by exists F. Qed.

Lemma demo_alloc_mapped : mapped_range demo_alloc_state 0x1003000 8.
Proof.
  destruct (demo_range 0x1003000 8) as (_ & _ & H); [lia|lia|]. split; [lia|]. split; [lia|].
  intros w Hw. destruct (H w Hw) as (f & rw & us & Hx & _). by exists f, rw, us.
Qed.

Lemma demo_allocations : allocations_are demo_ctrl 5000 [].
Proof.
  split; [|exists (demo_pcb 100), []; split; [reflexivity|split; [reflexivity|split; [decided|constructor]]]].
  split_and!; [decided|decided| |reflexivity]. intros p _. reflexivity.
Qed.

Lemma new_pages_all_or_nothing_witness :
  word_at demo_alloc_state 0x1003000 = 0x1008000 /\ word_at demo_alloc_state 0x1003004 = 8192 /\
  exists (ok : bool) s', handle_new_pages demo_call demo_alloc_state = Done (if ok then succeed demo_call else fail demo_call) s' /\
    allocations_are (ctl s') 5000 (if ok then [PageAllocation 0x1008000 8192] else []).
Proof.
  split; [by vm_compute|]. split; [by vm_compute|]. destruct demo_alloc_space as [F HF].
  destruct (new_pages_all_or_nothing demo_call demo_alloc_state F 100 (demo_tcb 5000 1 RUNNING_STATE blocking_none)
    (demo_pcb 100) [] HF) as (ok & s' & H1 & _ & _ & _ & H2 & _);
    [split; reflexivity|reflexivity|reflexivity|exact demo_allocations|constructor|exact demo_alloc_mapped|].
  exists ok, s'. split; [exact H1|]. destruct ok; [|exact H2].
  replace [PageAllocation 0x1008000 8192] with
    (place_allocation (PageAllocation (word_at demo_alloc_state 0x1003000) (s32 (word_at demo_alloc_state 0x1003004))) []);
    [exact H2|by vm_compute].
Defined.

(** And it succeeds. *)
Lemma demo_new_pages : match handle_new_pages demo_call demo_alloc_state with
  | Done u s => eax u = 0 /\ here s 0x1009abc = Some (Mapped 0x1003000 READ_WRITE 1)
  | _ => False end.
Proof. vm_compute. by split. Qed.

(** A process with allocations at 0x1007000 and 0x1009000. *)
Definition demo_two_ctrl : ctrl :=
  set_pcbs (Zone (list_to_map [(5000, Node 5000 5000 (set_page_allocation_list 600 (demo_pcb 100)));
                               (5100, Node 5100 5100 (demo_pcb 200))]) [5200; 5300])
    (set_allocations (Zone (list_to_map [(600, Node 610 610 (PageAllocation 0x1007000 4096));
                                         (610, Node 600 600 (PageAllocation 0x1009000 4096))]) [700; 710]) demo_ctrl).

Lemma remove_pages_first_only_witness :
  handle_remove_pages (set_esi 0x1009000 ureg_zero) (with_ctl demo_two_ctrl demo_user_state) =
    Done (fail (set_esi 0x1009000 ureg_zero)) (with_ctl demo_two_ctrl demo_user_state).
Proof.
  destruct (remove_pages_first_only (set_esi 0x1009000 ureg_zero) (with_ctl demo_two_ctrl demo_user_state) 100
    (demo_tcb 5000 1 RUNNING_STATE blocking_none) (set_page_allocation_list 600 (demo_pcb 100))
    (PageAllocation 0x1007000 4096) [PageAllocation 0x1009000 4096]) as [_ H];
    [split; reflexivity|reflexivity|reflexivity| |apply H; vm_compute; discriminate].
  split; [|exists (set_page_allocation_list 600 (demo_pcb 100)), [600; 610];
           split; [reflexivity|split; [reflexivity|split; [decided|by repeat constructor]]]].
  split_and!; [decided|decided| |reflexivity]. intros p Hp.
  apply elem_of_cons in Hp as [->|[->|Hp]%elem_of_cons]; [reflexivity..|by apply not_elem_of_nil in Hp].
Defined.
