(* ===== verification/VirtInt.v ===== *)
(** The hypervisor: virtual interrupts and hypervisor calls,
    [kern/virtual_interrupt.c]. *)
From S2P Require Import Prelude Ring KMutex Frames Vm Keyhelp Keyboard Console Machine CtrlBlk Kernel Sched.
From S2P Require Import UserMem Elf Loader Fork Syscall.
#[local] Open Scope Z_scope.

Definition HV_INT : Z := 0xDE.
Definition HV_MAGIC : Z := 0xC001C0DE.
Definition HV_PRINT_MAX : Z := 410.
Definition GUEST_INTERRUPT_UMODE : Z := 0x13370000.
Definition GUEST_INTERRUPT_KMODE : Z := 0x1337.
Definition HV_MAGIC_OP : Z := 0.
Definition HV_EXIT_OP : Z := 1.
Definition HV_IRET_OP : Z := 2.
Definition HV_SETIDT_OP : Z := 3.
Definition HV_DISABLE_OP : Z := 4.
Definition HV_ENABLE_OP : Z := 5.
Definition HV_SETPD_OP : Z := 6.
Definition HV_ADJUSTPG_OP : Z := 7.
Definition HV_PRINT_OP : Z := 8.
Definition HV_SET_COLOR_OP : Z := 9.
Definition HV_SET_CURSOR_OP : Z := 10.
Definition HV_GET_CURSOR_OP : Z := 11.
Definition HV_PRINT_AT_OP : Z := 12.
Definition HVCALL_HANDLER_ARRAY_LEN : Z := HV_PRINT_AT_OP + 1.

(** ** Page directories of guests *)

(** [page_table[pte_idx].us = us]. *)
Definition put_us (us : Z) (e : pte_t) : pte_t :=
  Pte (pte_p e) (pte_rw e) us (pte_write_through e) (pte_pcd e) (pte_accessed e)
    (pte_dirty e) (pte_pat e) (pte_g e) (pte_available e) (page_addr e).

(** The loop of [alter_page_dir] over the [n] pages from [addr]. *)
Fixpoint alter_pages (n : nat) (page_dir addr us : Z) (s : vm) : option (Z * vm) :=
  match n with
  | O => Some (OK, s)
  | S n =>
      pde ← get_pde s (page_dir, pde_index addr);
      if decide (pde_p pde <> 1) then Some (FAIL, s)
      else
        let pte_ptr := (table_of pde, pte_index addr) in
        pte ← get_pte s pte_ptr;
        if decide (pte_p pte <> 1) then Some (FAIL, s)
        else
          s ← set_pte pte_ptr (put_us us pte) s;
          alter_pages n page_dir (addr + PAGE_SIZE) us s
  end.

Definition alter_page_dir (page_dir : addr) (kernel_mode : bool) (s : vm) : option (Z * vm) :=
  if decide (page_dir = NULL) then Some (FAIL, s)
  else alter_pages (Z.to_nat ((USER_MEM_START + USER_MEM_START - USER_PAGE_START) / PAGE_SIZE))
         page_dir USER_PAGE_START (if kernel_mode then 1 else 0) s.

Definition update_guest (pcb : addr) (f : guest_resource_t -> guest_resource_t) : K unit :=
  update_pcb pcb (fun b => set_guest_resource (f (guest_resource b)) b).

Section virtual_interrupts.
Context `{Platform}.

(** The arguments of a hypervisor call are on the guest's stack. *)
Definition hv_arg (u : ureg_t) (i : Z) : K Z := load32 (u32 (esp u + USER_MEM_START + 4 * i)).
Definition guest_addr (p : Z) : Z := u32 (p + USER_MEM_START).

(** ** The calls *)

Definition handle_hv_magic (u : ureg_t) : K ureg_t := mret (set_eax HV_MAGIC u).

Definition handle_hv_disable_interrupts (u : ureg_t) : K ureg_t :=
  pcb ← running_pcb; update_guest pcb (set_interrupt_enable_flag false);; mret u.
Definition handle_hv_enable_interrupts (u : ureg_t) : K ureg_t :=
  pcb ← running_pcb; update_guest pcb (set_interrupt_enable_flag true);; mret u.

(** [virtual_idt[irqno] = v]. *)
Definition store_vidt (irqno v : Z) (b : pcb_t) : option pcb_t :=
  l ← aset irqno v (virtual_idt (guest_resource b));
  Some (set_guest_resource (set_virtual_idt l (guest_resource b)) b).

Definition handle_hv_setidt (u : ureg_t) : K ureg_t :=
  irqno ← hv_arg u 0;
  eip_ ← hv_arg u 1;
  let irqno := s32 irqno in
  if decide (irqno >= VIRTUAL_IDT_LEN) then mret u
  else
    pcb ← running_pcb;
    b ← pcb_at pcb;
    b ← lift (store_vidt irqno (if decide (eip_ = NULL) then 0 else u32 (eip_ + USER_MEM_START)) b);
    update_pcb pcb (fun _ => b);;
    mret u.

Definition handle_hv_exit (u : ureg_t) : K unit :=
  status ← hv_arg u 0; hv_exit status.

(** [crash_guest(); return;]. *)
Definition crash (u : ureg_t) : K ureg_t := crash_guest;; mret u.

Definition handle_hv_iret (u : ureg_t) : K ureg_t :=
  eip_ ← hv_arg u 0;
  eflags_ ← hv_arg u 1;
  esp_ ← hv_arg u 2;
  esp0_ ← hv_arg u 3;
  eax_ ← hv_arg u 4;
  if bool_decide (esp0_ <> NULL \/ check_eflags (eflags u) eflags_ = false) then crash u
  else
    pcb ← running_pcb;
    update_guest pcb (set_interrupt_enable_flag (bool_decide (Z.land eflags_ EFL_IF <> 0)));;
    mret (set_eax eax_ (set_esp esp_ (set_eflags (Z.lor eflags_ EFL_IF) (set_eip eip_ u)))).

(** The checks of the printing calls. *)
Definition print_args_ok (len buf : Z) : K bool :=
  if bool_decide (len < 0 \/ len > HV_PRINT_MAX) then mret false else is_host_readable buf len.

Definition print_bytes (len buf : Z) : K unit := put_user_bytes (Z.to_nat len) buf.

Definition handle_hv_print (u : ureg_t) : K ureg_t :=
  len ← hv_arg u 0;
  buf ← hv_arg u 1;
  let len := s32 len in
  let buf := guest_addr buf in
  ok ← print_args_ok len buf;
  if negb ok then crash u
  else
    mutex_lock OutputLock;;
    print_bytes len buf;;
    mutex_unlock OutputLock;;
    mret u.

Definition handle_hv_cons_set_term_color (u : ureg_t) : K ureg_t :=
  color ← hv_arg u 0;
  mutex_lock OutputLock;;
  r ← con_op (fun c => Some (set_term_color (s32 color) c));
  mutex_unlock OutputLock;;
  if decide (r < 0) then crash u else mret u.

Definition handle_hv_cons_set_cursor_pos (u : ureg_t) : K ureg_t :=
  row ← hv_arg u 0;
  col ← hv_arg u 1;
  mutex_lock OutputLock;;
  r ← con_op (fun c => Some (set_cursor (s32 row) (s32 col) c));
  mutex_unlock OutputLock;;
  if decide (r < 0) then crash u else mret u.

Definition handle_hv_cons_get_cursor_pos (u : ureg_t) : K ureg_t :=
  row ← hv_arg u 0;
  col ← hv_arg u 1;
  let row := guest_addr row in
  let col := guest_addr col in
  row_ok ← is_host_writable row 4;
  col_ok ← (if (row_ok : bool) then is_host_writable col 4 else mret false);
  if negb col_ok then crash u
  else
    mutex_lock OutputLock;;
    store_cursor row col;;
    mutex_unlock OutputLock;;
    mret u.

Definition handle_hv_print_at (u : ureg_t) : K ureg_t :=
  len ← hv_arg u 0;
  buf ← hv_arg u 1;
  row ← hv_arg u 2;
  col ← hv_arg u 3;
  color ← hv_arg u 4;
  let len := s32 len in
  let buf := guest_addr buf in
  ok ← print_args_ok len buf;
  if negb ok then crash u
  else
    mutex_lock OutputLock;;
    old ← gets (fun s => get_cursor (kcon s));
    old_color ← gets (fun s => get_term_color (kcon s));
    placed ← all_ok [con_op (fun c => Some (set_cursor (s32 row) (s32 col) c));
                     con_op (fun c => Some (set_term_color (s32 color) c))];
    if negb placed then
      con_op (fun c => Some (set_cursor old.1 old.2 c));;
      con_op (fun c => Some (set_term_color old_color c));;
      mutex_unlock OutputLock;;
      crash u
    else
      print_bytes len buf;;
      con_op (fun c => Some (set_cursor old.1 old.2 c));;
      con_op (fun c => Some (set_term_color old_color c));;
      mutex_unlock OutputLock;;
      mret u.

Definition handle_hv_setpd (u : ureg_t) : K ureg_t := crash u.
Definition handle_hv_adjustpg (u : ureg_t) : K ureg_t := crash u.

(** [hvcall_handler_array], as [initialize_virtual_interrupt] fills it. *)
Definition hvcall_handler (call_num : Z) : option (ureg_t -> K ureg_t) :=
  if decide (call_num = HV_MAGIC_OP) then Some handle_hv_magic
  else if decide (call_num = HV_EXIT_OP) then Some (fun u => handle_hv_exit u;; mret u)
  else if decide (call_num = HV_IRET_OP) then Some handle_hv_iret
  else if decide (call_num = HV_SETIDT_OP) then Some handle_hv_setidt
  else if decide (call_num = HV_DISABLE_OP) then Some handle_hv_disable_interrupts
  else if decide (call_num = HV_ENABLE_OP) then Some handle_hv_enable_interrupts
  else if decide (call_num = HV_PRINT_OP) then Some handle_hv_print
  else if decide (call_num = HV_SET_COLOR_OP) then Some handle_hv_cons_set_term_color
  else if decide (call_num = HV_SET_CURSOR_OP) then Some handle_hv_cons_set_cursor_pos
  else if decide (call_num = HV_GET_CURSOR_OP) then Some handle_hv_cons_get_cursor_pos
  else if decide (call_num = HV_PRINT_AT_OP) then Some handle_hv_print_at
  else if decide (call_num = HV_SETPD_OP) then Some handle_hv_setpd
  else if decide (call_num = HV_ADJUSTPG_OP) then Some handle_hv_adjustpg
  else None.

(** ** Delivery *)

(** [handle_virtual_interrupt] takes the character of a keyboard interrupt from
    the port through the scancode queue. *)
Definition keyboard_interrupt : K Z :=
  scancode ← read_port;
  push_scancode scancode;;
  primitive (fun s =>
    match pop_head (scancode_buf s) with
    | Some (_, e, b) =>
        match process_scancode (default scancode e) (kh s) with
        | Some (augmented_ch, k) => Done augmented_ch (with_kh k (with_scancode_buf b s))
        | None => Crashed
        end
    | None => Crashed
    end).

(** The stack frame: the words pushed for an interrupt of the guest's user mode
    or kernel mode, then what is pushed for both. *)
Definition virtual_eflags (enabled : bool) (eflags : Z) : Z :=
  if enabled then Z.lor eflags EFL_IF else Z.land eflags (u32 (Z.lnot EFL_IF)).
Definition frame_head (u : ureg_t) (eflags : Z) : list Z :=
  if decide (cs u <> SEGSEL_GUEST_KERNEL_CS) then [esp u; eflags; GUEST_INTERRUPT_UMODE]
  else [eflags; GUEST_INTERRUPT_KMODE].
Definition frame_tail (u : ureg_t) (augmented_ch : Z) : list Z :=
  let interrupt := cause u in
  [eip u;
   (if bool_decide (interrupt = IDT_GP \/ interrupt = IDT_PF) then error_code u
    else if decide (interrupt = KEY_IDT_ENTRY) then augmented_ch else 0);
   (if decide (interrupt = IDT_PF) then u32 (cr2 u - USER_MEM_START) else 0)].

(** The registers the handler of the guest starts with. *)
Definition enter_guest_kernel (esp_ eip_ : Z) (u : ureg_t) : ureg_t :=
  set_ds SEGSEL_GUEST_KERNEL_DS (set_es SEGSEL_GUEST_KERNEL_DS (set_fs SEGSEL_GUEST_KERNEL_DS
    (set_gs SEGSEL_GUEST_KERNEL_DS (set_eip eip_ (set_cs SEGSEL_GUEST_KERNEL_CS
    (set_esp esp_ (set_ss SEGSEL_GUEST_KERNEL_DS u))))))).

Definition deliver_interrupt (pcb : addr) (entry augmented_ch : Z) (u : ureg_t) : K ureg_t :=
  b ← pcb_at pcb;
  let eflags_ := virtual_eflags (interrupt_enable_flag (guest_resource b)) (eflags u) in
  update_guest pcb (set_interrupt_enable_flag false);;
  let esp_ := if decide (cs u <> SEGSEL_GUEST_KERNEL_CS) then esp0 (guest_resource b)
              else u32 (esp u + USER_MEM_START) in
  '(r, esp_) ← push_words (frame_head u eflags_) esp_;
  if decide (r < 0) then crash u
  else
    '(r, esp_) ← push_words (frame_tail u augmented_ch) esp_;
    if decide (r < 0) then crash u
    else
      cr3_ ← gets cr3;
      vm_step (alter_page_dir (page_of cr3_) true);;
      set_cr3 cr3_;;
      mret (enter_guest_kernel (u32 (esp_ - USER_MEM_START)) (u32 (entry - USER_MEM_START)) u).

(** The entry of the virtual IDT, 0 when there is none. *)
Definition vidt_entry (interrupt : Z) (b : pcb_t) : Z :=
  if decide (interrupt < VIRTUAL_IDT_LEN)
  then default 0 (aget (virtual_idt (guest_resource b)) interrupt) else 0.

(** The end of [handle_virtual_interrupt]. *)
Definition deliver_or_crash (pcb : addr) (augmented_ch : Z) (u : ureg_t) : K ureg_t :=
  b ← pcb_at pcb;
  let entry := vidt_entry (cause u) b in
  if decide (entry <> 0) then deliver_interrupt pcb entry augmented_ch u else crash u.

Definition handle_virtual_interrupt (u : ureg_t) : K ureg_t :=
  let interrupt := cause u in
  pcb ← running_pcb;
  match (if decide (interrupt = HV_INT) then hvcall_handler (eax u) else None) with
  | Some call => call u
  | None =>
      if decide (interrupt = TIMER_IDT_ENTRY) then
        handle_timer;;
        b ← pcb_at pcb;
        if interrupt_enable_flag (guest_resource b) then deliver_or_crash pcb 0 u else mret u
      else if decide (interrupt = KEY_IDT_ENTRY) then
        augmented_ch ← keyboard_interrupt;
        b ← pcb_at pcb;
        if interrupt_enable_flag (guest_resource b) then deliver_or_crash pcb augmented_ch u else mret u
      else deliver_or_crash pcb 0 u
  end.

End virtual_interrupts.
