(* ===== verification/Exceptions.v ===== *)
(** Software exceptions and faults of the kernel itself: what
    [handle_swexn] accepts and loads, and what becomes of a system call that
    meets a missing page while it holds the lock of its process. *)
From S2P Require Import Prelude Ring KMutex Frames Vm Keyhelp Keyboard Console Machine CtrlBlk Kernel Sched.
From S2P Require Import UserMem Elf Loader Fork Syscall.
#[local] Open Scope Z_scope.

(** * Software exceptions *)

Section swexn.
Context `{Platform}.

(** The registers stored at an address. *)
Definition ureg_at (s : kstate) (p : addr) : ureg_t :=
  let w i := word_at s (p + 4 * i) in
  Ureg (w 0) (w 1) (w 2) (w 3) (w 4) (w 5) (w 6) (w 7) (w 8) (w 9) (w 10) (w 11) (w 12) (w 13) (w 14)
    (w 15) (w 16) (w 17) (w 18) (w 19).

Lemma load32_at s F v n off : space_ok s F -> mapped_range s v n -> 0 <= off -> off + 4 <= n ->
  load32 (u32 (v + off)) s = Done (word_at s (v + off)) s.
Proof.
  intros Hs Hr Ho Hn. pose proof Hr as (H1 & H2 & _). rewrite u32_small by lia.
  apply (load32_mapped s F); [done|]. apply (mapped_range_sub s v n); [done|lia|lia].
Qed.

Lemma load_words_ok s F p size n : space_ok s F -> mapped_range s p size -> forall k, 0 <= k -> 4 * (k + Z.of_nat n) <= size ->
  load_words n (u32 (p + 4 * k)) s = Done ((fun i => word_at s (p + 4 * i)) <$> seqZ k (Z.of_nat n)) s.
Proof.
  intros Hs Hr. induction n as [|n IH]; intros k Hk Hn; [done|]. cbn [load_words].
  kstep (load32_at s F p size (4 * k) Hs Hr ltac:(lia) ltac:(lia)).
  replace (u32 (u32 (p + 4 * k) + 4)) with (u32 (p + 4 * (k + 1))).
  2:{ unfold u32. rewrite Zplus_mod_idemp_l. f_equal. lia. }
  kstep (IH (k + 1) ltac:(lia) ltac:(lia)). rewrite (seqZ_cons k) by lia.
  replace (Z.succ k) with (k + 1) by lia. by replace (Z.pred (Z.of_nat (S n))) with (Z.of_nat n) by lia.
Qed.

Lemma load_ureg_at_ok s F p : space_ok s F -> mapped_range s p 80 -> load_ureg_at p s = Done (ureg_at s p) s.
Proof.
  intros Hs Hr. pose proof Hr as (H1 & H2 & _). unfold load_ureg_at.
  pose proof (load_words_ok s F p 80 20 Hs Hr 0 ltac:(lia) ltac:(lia)) as Hw.
  replace (u32 (p + 4 * 0)) with p in Hw by (rewrite u32_small by lia; lia). kstep Hw. done.
Qed.

Lemma word_at_range s v : mem_ok s -> 0 <= word_at s v < 2 ^ 32.
Proof.
  intros Hm. unfold word_at, places. change (seqZ 0 4) with [0; 1; 2; 3]. cbn [fmap list_fmap word_of].
  pose proof (Hm (place_of s (v + 0))). pose proof (Hm (place_of s (v + 1))).
  pose proof (Hm (place_of s (v + 2))). pose proof (Hm (place_of s (v + 3))). lia.
Qed.

(** What the call checks of its arguments. *)
Definition writable_range (s : kstate) (addr size : Z) : Prop :=
  USER_MEM_START <= addr /\ addr + size <= 2 ^ 32 /\ forall w, addr <= w < addr + size -> writable_view (here s w) = true.
Definition readable_range (s : kstate) (addr size : Z) : Prop :=
  USER_MEM_START <= addr /\ addr + size <= 2 ^ 32 /\ forall w, addr <= w < addr + size -> readable_view (here s w) = true.

Definition swexn_accepts (s : kstate) (old_eflags stack handler new : Z) : Prop :=
  (stack <> NULL -> handler <> NULL ->
     writable_range s (u32 (stack - EXCEPTION_STACK_SIZE_MIN)) EXCEPTION_STACK_SIZE_MIN /\
     readable_range s handler HANDLER_SIZE_MIN) /\
  (new <> NULL -> readable_range s new 80 /\ check_eflags old_eflags (word_at s (new + EFLAGS_OFFSET)) = true).

(** The registration it leaves. *)
Definition swexn_registers (stack handler arg : Z) (t : tcb_t) : tcb_t :=
  if decide (stack <> NULL /\ handler <> NULL)
  then set_handler_arg arg (set_handler handler (set_exception_stack stack t))
  else set_exception_stack NULL t.

(** The range checks answer these questions. *)
Lemma readable_iff s F addr size : space_ok s F -> 0 <= addr < 2 ^ 32 -> 0 < size < 2 ^ 32 ->
  exists b, is_readable addr size s = Done b s /\ (b = true <-> readable_range s addr size).
Proof.
  intros Hs Ha Hz. destruct (is_readable_ok s F addr size Hs Ha ltac:(lia)) as (b & Hb & Hi). exists b. split; [done|].
  rewrite Hi. unfold readable_range. split; [intros [?|?]; [lia|done]|tauto].
Qed.
Lemma writable_iff s F addr size : space_ok s F -> 0 <= addr < 2 ^ 32 -> 0 < size < 2 ^ 32 ->
  exists b, is_writable addr size s = Done b s /\ (b = true <-> writable_range s addr size).
Proof.
  intros Hs Ha Hz. destruct (is_writable_ok s F addr size Hs Ha ltac:(lia)) as (b & Hb & Hi). exists b. split; [done|].
  rewrite Hi. unfold writable_range. split; [intros [?|?]; [lia|done]|tauto].
Qed.

Lemma upd_tcb_some p f (c : ctrl) t : get_tcb c p = Some t -> exists c', upd_tcb p f c = Some c'.
Proof.
  intros Ht. unfold upd_tcb. run Ht. unfold put_tcb, set_data. unfold get_tcb in Ht.
  apply fmap_Some in Ht as (n & Hn & _). run Hn. by eexists.
Qed.

Lemma stack_check s F stack handler : space_ok s F -> mem_ok s -> 0 <= stack < 2 ^ 32 -> 0 <= handler < 2 ^ 32 ->
  exists b, (if bool_decide (stack <> NULL /\ handler <> NULL) then
      w ← is_writable (u32 (stack - EXCEPTION_STACK_SIZE_MIN)) EXCEPTION_STACK_SIZE_MIN;
      if (w : bool) then is_readable handler HANDLER_SIZE_MIN else mret false
    else mret true) s = Done b s /\
  (b = true <-> (stack <> NULL -> handler <> NULL ->
     writable_range s (u32 (stack - EXCEPTION_STACK_SIZE_MIN)) EXCEPTION_STACK_SIZE_MIN /\
     readable_range s handler HANDLER_SIZE_MIN)).
Proof.
  intros Hs Hm H1 H2. case_bool_decide as Hd; [|exists true; split; [done|tauto]].
  destruct (writable_iff s F (u32 (stack - EXCEPTION_STACK_SIZE_MIN)) EXCEPTION_STACK_SIZE_MIN Hs (u32_range _) ltac:(done))
    as (b1 & B1 & I1). kstep B1.
  destruct (readable_iff s F handler HANDLER_SIZE_MIN Hs H2 ltac:(done)) as (b2 & B2 & I2).
  destruct b1; [exists b2|exists false]; (split; [done|]); naive_solver.
Qed.

Lemma registers_check s F old new b1 : space_ok s F -> mem_ok s -> 0 <= new < 2 ^ 32 ->
  (new <> NULL -> mapped_range s new 80) ->
  exists b, (if (b1 : bool) then
      if decide (new <> NULL) then
        r ← is_readable new 80;
        if (r : bool) then fl ← load32 (u32 (new + EFLAGS_OFFSET)); mret (check_eflags old fl) else mret false
      else mret true
    else mret false) s = Done b s /\
  (b = true <-> b1 = true /\
     (new <> NULL -> readable_range s new 80 /\ check_eflags old (word_at s (new + EFLAGS_OFFSET)) = true)).
Proof.
  intros Hs Hm H1 Hnew. destruct b1; [|exists false; split; [done|]; naive_solver].
  destruct (decide (new <> NULL)) as [Hn|Hn]; [|exists true; split; [done|]; naive_solver].
  destruct (readable_iff s F new 80 Hs H1 ltac:(lia)) as (b & B & I). kstep B.
  destruct b; [|exists false; split; [done|]; naive_solver].
  kstep (load32_at s F new 80 EFLAGS_OFFSET Hs (Hnew Hn) ltac:(done) ltac:(done)).
  eexists. split; [done|]. naive_solver.
Qed.

(** The call as a whole. *)
Lemma swexn_ok (u : ureg_t) (s : kstate) (F : list Z) (me : addr) (t : tcb_t)
    (Hs : space_ok s F) (Hm : mem_ok s) (Hrun : runs s me t) (Hargs : mapped_range s (esi u) 16)
    (Hnew : word_at s (esi u + 12) <> NULL -> mapped_range s (word_at s (esi u + 12)) 80) :
  let stack := word_at s (esi u) in
  let handler := word_at s (esi u + 4) in
  let arg := word_at s (esi u + 8) in
  let new := word_at s (esi u + 12) in
  exists ok : bool, (ok = true <-> swexn_accepts s (eflags u) stack handler new) /\
    if ok then exists c, upd_tcb me (swexn_registers stack handler arg) (ctl s) = Some c /\
      handle_swexn u s = if decide (new = NULL) then Done (succeed u) (with_ctl c s)
                         else UserMode (ureg_at s new) (with_ctl c s)
    else handle_swexn u s = Done (fail u) s.
Proof.
  intros stack handler arg new. destruct Hrun as [Hme Ht]. pose proof Hargs as (Hu0 & Hu1 & _).
  assert (L0 : load32 (esi u) s = Done stack s).
  { pose proof (load32_at s F (esi u) 16 0 Hs Hargs ltac:(lia) ltac:(lia)) as L. rewrite Z.add_0_r in L.
    by rewrite u32_small in L by lia. }
  pose proof (load32_at s F (esi u) 16 4 Hs Hargs ltac:(lia) ltac:(lia)) as L1. fold handler in L1.
  pose proof (load32_at s F (esi u) 16 8 Hs Hargs ltac:(lia) ltac:(lia)) as L2. fold arg in L2.
  pose proof (load32_at s F (esi u) 16 12 Hs Hargs ltac:(lia) ltac:(lia)) as L3. fold new in L3, Hnew.
  unfold handle_swexn. kstep L0. kstep L1. kstep L2. kstep L3. set (regs := bool_decide (stack <> NULL /\ handler <> NULL)).
  destruct (stack_check s F stack handler Hs Hm) as (b1 & B1 & I1); [by apply word_at_range..|]. fold regs in B1. kstep B1.
  destruct (registers_check s F (eflags u) new b1 Hs Hm) as (b2 & B2 & I2); [by apply word_at_range|done|]. kstep B2.
  exists b2. split; [rewrite I2, I1; unfold swexn_accepts; tauto|].
  destruct b2; cbn [negb]; [|done]. kstep (running_tcb_ok _ _ Hme).
  destruct (upd_tcb_some me (swexn_registers stack handler arg) (ctl s) t Ht) as [c Hc]. exists c. split; [done|].
  assert (U : (if regs then update_tcb me (fun t => set_handler_arg arg (set_handler handler (set_exception_stack stack t)))
               else update_tcb me (set_exception_stack NULL)) s = Done tt (with_ctl c s)).
  { unfold swexn_registers in Hc. unfold regs. case_bool_decide as Hd.
    - apply ctl_upd_ok. rewrite <-Hc. unfold upd_tcb. rewrite Ht. cbn. by rewrite decide_True.
    - apply ctl_upd_ok. rewrite <-Hc. unfold upd_tcb. rewrite Ht. cbn. by rewrite decide_False. }
  kstep U. destruct (decide (new = NULL)) as [Hn|Hn].
  - by rewrite decide_False by tauto.
  - rewrite decide_True by done. by kstep (load_ureg_at_ok (with_ctl c s) F new Hs (Hnew Hn)).
Qed.

(** C21. [swexn], for arguments in mapped memory: it accepts exactly when, if a
    stack and a handler are given, the exception frame below the stack's top is
    writable and the handler readable, and, if registers are given, they are
    readable and leave the I/O privilege level as it is.  Otherwise it fails and
    changes nothing.  When it accepts, the thread's registration is replaced (or
    removed, when the stack or the handler is missing), and the thread leaves
    the kernel with exactly the twenty words of the given registers, or with
    [eax = 0] when there are none.  Nothing else is asked of the registers: not
    the code segment, nor the stack segment, nor the interrupt flag. *)
Theorem swexn_loads_any_registers (u : ureg_t) (s : kstate) (F : list Z) (me : addr) (t : tcb_t)
    (Hs : space_ok s F) (Hm : mem_ok s) (Hrun : runs s me t) (Hargs : mapped_range s (esi u) 16)
    (Hnew : word_at s (esi u + 12) <> NULL -> mapped_range s (word_at s (esi u + 12)) 80) :
  let stack := word_at s (esi u) in
  let handler := word_at s (esi u + 4) in
  let arg := word_at s (esi u + 8) in
  let new := word_at s (esi u + 12) in
  exists ok : bool, (ok = true <-> swexn_accepts s (eflags u) stack handler new) /\
    if ok then exists c, upd_tcb me (swexn_registers stack handler arg) (ctl s) = Some c /\
      handle_swexn u s = if decide (new = NULL) then Done (succeed u) (with_ctl c s)
                         else UserMode (ureg_at s new) (with_ctl c s)
    else handle_swexn u s = Done (fail u) s.
Proof. exact (swexn_ok u s F me t Hs Hm Hrun Hargs Hnew). Qed.

End swexn.

(** Registers in the kernel's code segment, at 0x1003100; the packet of the
    call, at 0x1003000, names them and no handler. *)
Definition demo_kernel_ureg : list Z :=
  [0; 0; SEGSEL_USER_DS; SEGSEL_USER_DS; SEGSEL_USER_DS; SEGSEL_USER_DS; 0; 0; 0; 0; 0; 0; 0; 0; 0; 0x1003200;
   SEGSEL_KERNEL_CS; 0x202; 0x1003ffc; SEGSEL_USER_DS].
Definition demo_swexn_state : kstate :=
  demo_args ([0; 0; 0; 0x1003100] ++ replicate 60 0 ++ demo_kernel_ureg) demo_user_state.
Definition demo_swexn_call : ureg_t := set_esi 0x1003000 (set_eflags 0x202 ureg_zero).

Lemma mem_ok_put abs : forall s, mem_ok s -> mem_ok (put_bytes abs s).
Proof.
  induction abs as [|[a x] abs IH]; intros s Hs; [done|]. cbn [put_bytes]. apply IH. intros b. rewrite put_byte_get.
  case_decide; [apply (u8_range x)|apply Hs].
Qed.

(** A word stored in the user's own memory. *)
Lemma store_own `{Platform} s F v w : space_ok s F -> own_range s v 4 -> mem_ok s ->
  exists m, store32 v w s = Done tt (with_mem m s) /\ mem_ok (with_mem m s).
Proof.
  intros Hs Hr Hm. pose proof Hr as (H1 & H2 & _). change USER_PAGE_START with 16777216 in H1.
  exists (mem (put_bytes (zip (places s v 4) (bytes_of w)) s)). rewrite <-put_bytes_rest. split; [|by apply mem_ok_put].
  apply store_bytes_ok; [lia|done|done|]. intros i a Hi. apply places_lookup in Hi as [Hi ->].
  apply (own_range_translate s F v 4); [done|done|lia].
Qed.

Lemma demo_swexn_space : exists F, space_ok demo_swexn_state F.
Proof.
  destruct demo_user_ok as [F [H1 H2]]. exists F. unfold space_ok, demo_swexn_state, demo_args.
  destruct (put_bytes_kvm (imap (fun i x => (0x1001000 + Z.of_nat i, x))
    (concat (bytes_of <$> ([0; 0; 0; 0x1003100] ++ replicate 60 0 ++ demo_kernel_ureg)))) demo_user_state) as [-> ->].
  by split.
Qed.

Lemma demo_swexn_here w : here demo_swexn_state w = here demo_user_state w.
Proof.
  unfold here, demo_swexn_state, demo_args.
  destruct (put_bytes_kvm (imap (fun i x => (0x1001000 + Z.of_nat i, x))
    (concat (bytes_of <$> ([0; 0; 0; 0x1003100] ++ replicate 60 0 ++ demo_kernel_ureg)))) demo_user_state) as [-> ->]. done.
Qed.

Lemma demo_swexn_range v n : 0x1003000 <= v -> v + n <= 0x1004000 ->
  mapped_range demo_swexn_state v n /\ readable_range demo_swexn_state v n.
Proof.
  intros Hv Hn. destruct (demo_range v n Hv Hn) as (_ & _ & Hd).
  assert (Hall : forall w, v <= w < v + n -> exists f rw us, here demo_swexn_state w = Some (Mapped f rw us)).
  { intros w Hw. rewrite demo_swexn_here. destruct (Hd w Hw) as (f & rw & us & Hx & _). eauto. }
  split; [split; [lia|split; [lia|done]]|]. split; [change USER_MEM_START with 16777216; lia|]. split; [lia|].
  intros w Hw. by destruct (Hall w Hw) as (f & rw & us & ->).
Qed.

Lemma demo_swexn_runs : runs demo_swexn_state 100 (demo_tcb 5000 1 RUNNING_STATE blocking_none).
Proof. unfold runs, demo_swexn_state, demo_args. rewrite put_bytes_rest. by split. Qed.

Lemma swexn_loads_any_registers_witness : exists c,
  handle_swexn demo_swexn_call demo_swexn_state = UserMode (ureg_at demo_swexn_state 0x1003100) (with_ctl c demo_swexn_state) /\
  cs (ureg_at demo_swexn_state 0x1003100) = SEGSEL_KERNEL_CS.
Proof.
  destruct demo_swexn_space as [F HF].
  assert (W0 : word_at demo_swexn_state (0x1003000) = 0) by (vm_compute; reflexivity).
  assert (W1 : word_at demo_swexn_state (0x1003000 + 4) = 0) by (vm_compute; reflexivity).
  assert (W3 : word_at demo_swexn_state (0x1003000 + 12) = 0x1003100) by (vm_compute; reflexivity).
  destruct (swexn_loads_any_registers demo_swexn_call demo_swexn_state F 100 (demo_tcb 5000 1 RUNNING_STATE blocking_none) HF)
    as (ok & Hok & H).
  - apply mem_ok_put. intros a. vm_compute. split; [discriminate|reflexivity].
  - exact demo_swexn_runs.
  - apply demo_swexn_range; change (esi demo_swexn_call) with 0x1003000; lia.
  - change (esi demo_swexn_call) with 0x1003000. rewrite W3. intros _. apply demo_swexn_range; lia.
  - change (esi demo_swexn_call) with 0x1003000 in *. rewrite W0, W1, W3 in *.
    assert (ok = true) as ->.
    { apply Hok. split; [intros []; reflexivity|]. intros _. split; [apply demo_swexn_range; lia|]. vm_compute. reflexivity. }
    destruct H as (c & _ & H). exists c. split; [exact H|]. vm_compute. reflexivity.
Defined.

(** * Faults of the kernel *)

Section kernel_faults.
Context `{Platform}.

(** No thread of the ready list has this id. *)
Definition tid_not_ready (c : ctrl) (LS : Z -> list addr) (tid_ : Z) : Prop :=
  forall p t, p ∈ LS READY_STATE -> get_tcb c p = Some t -> tid t <> tid_.

Lemma yield_choice_none c LS tid_ : 0 <= tid_ < 2 ^ 31 -> tid_not_ready c LS tid_ ->
  yield_choice c LS (s32 (u32 tid_)) = NULL.
Proof.
  intros Hr Hn. rewrite u32_small, s32_small by lia. unfold yield_choice. rewrite decide_False by lia.
  destruct (first_sat _ _) as [p|] eqn:E; [|done]. exfalso. apply first_sat_elem in E as [Hp Hs]. unfold sought in Hs.
  destruct (get_tcb c p) as [t|] eqn:Et; [|done]. rewrite decide_False in Hs by done.
  apply bool_decide_eq_true in Hs. rewrite s32_small in Hs by lia. by apply (Hn p t).
Qed.

(** The two ways a fault of the kernel can go for a thread that holds its
    process's lock. *)
Lemma kernel_fault_locked u s LS me t b : scheduled s LS me -> get_tcb (ctl s) me = Some t ->
  get_pcb (ctl s) (tcb_pcb t) = Some b -> guest b = false -> lock b = Mutex LOCKED (tid t) ->
  0 <= tid t < 2 ^ 31 -> tid_not_ready (ctl s) LS (tid t) ->
  exists s', get_lock (PcbLock (tcb_pcb t)) s' = Some (Mutex LOCKED (tid t)) /\
    kernel_fault u s = if decide (exception_stack t = NULL) then Spinning s'
                       else RunHandler u (exception_stack t) (handler t) (handler_arg t) s'.
Proof.
  intros Hsc Ht Hb Hg Hl Htid Hnr. pose proof (running_is s LS me Hsc) as Hme.
  assert (Hgl : get_lock (PcbLock (tcb_pcb t)) s = Some (Mutex LOCKED (tid t))) by (cbn; by rewrite Hb, <-Hl).
  unfold kernel_fault. kstep (running_tcb_ok _ _ Hme). kstep (tcb_at_ok _ _ _ Ht). kstep (pcb_at_ok _ _ _ Hb). rewrite Hg.
  destruct (decide (exception_stack t = NULL)) as [He|He].
  - rewrite decide_False by tauto.
    destruct (mutex_lock_spins _ s LS me (tid t) Hsc Hgl (yield_choice_none _ _ _ Htid Hnr)) as (s' & Hs' & Hfl).
    exists s'. split; [by rewrite <-Hgl, <-Hfl|]. unfold handle_page_fault. kstep (running_pcb_ok _ _ _ Hme Ht). by kstep Hs'.
  - rewrite decide_True by done. destruct (upd_tcb_some me (set_exception_stack NULL) (ctl s) t Ht) as [c Hc].
    exists (with_ctl c s). split.
    { cbn [get_lock ctl with_ctl]. unfold upd_tcb, put_tcb in Hc. apply bind_Some in Hc as (? & _ & Hc).
      apply bind_Some in Hc as (? & _ & [= <-]). cbn. unfold get_pcb in *. cbn. by rewrite Hb, <-Hl. }
    assert (U : update_tcb me (set_exception_stack NULL) s = Done tt (with_ctl c s)) by (by apply ctl_upd_ok).
    by kstep U.
Qed.

(** An access that has no translation is such a fault. *)
Lemma load32_faults v s err o : translate v false s = Some (inr err) -> kernel_fault (fault_ureg v err) s = o ->
  match o with
  | Spinning s' => load32 v s = Spinning s'
  | RunHandler u st h a s' => load32 v s = RunHandler u st h a s'
  | _ => True
  end.
Proof.
  intros Ht Hk. destruct o as [| | | |u st h a s'|s'|]; try done.
  - assert (Hl : load8 v s = RunHandler u st h a s').
    { unfold load8. assert (resolve v false s = RunHandler u st h a s') as Hr; [|by kstep Hr].
      unfold resolve. apply loop_handler. unfold mbind, K_bind at 1, primitive. rewrite Ht. cbn [obind]. by kstep Hk. }
    unfold load32. assert (load_bytes 4 v s = RunHandler u st h a s') as Hb by (cbn [load_bytes]; by kstep Hl). by kstep Hb.
  - assert (Hl : load8 v s = Spinning s').
    { unfold load8. assert (resolve v false s = Spinning s') as Hr; [|by kstep Hr].
      unfold resolve. apply loop_spinning. unfold mbind, K_bind at 1, primitive. rewrite Ht. cbn [obind]. by kstep Hk. }
    unfold load32. assert (load_bytes 4 v s = Spinning s') as Hb by (cbn [load_bytes]; by kstep Hl). by kstep Hb.
Qed.

(** C35. [new_pages] reads its arguments with the lock of the process held.  Called
    with a pointer to a page that is not mapped, it never returns an error: the
    page fault it takes wants the same lock, whose holder is the caller itself,
    so the thread spins for ever with the lock held; and if the thread has
    registered an exception handler, the handler is entered in the middle of the
    call, with the lock held and the kernel's registers. *)
Theorem new_pages_bad_pointer_hangs (u : ureg_t) (s : kstate) (F : list Z) (LS : Z -> list addr) (me : addr) (t : tcb_t)
    (b : pcb_t) (a : Z)
    (Hs : space_ok s F) (Hsc : scheduled s LS me) (Ht : get_tcb (ctl s) me = Some t)
    (Hb : get_pcb (ctl s) (tcb_pcb t) = Some b) (Hl : lock b = mutex_init) (Hg : guest b = false)
    (Htid : 0 <= tid t < 2 ^ 31) (Hnr : tid_not_ready (ctl s) LS (tid t))
    (Hv : vword (esi u)) (Hx : here s (esi u) = Some (Unmapped a)) :
  exists s', get_lock (PcbLock (tcb_pcb t)) s' = Some (Mutex LOCKED (tid t)) /\
    handle_new_pages u s =
      if decide (exception_stack t = NULL) then Spinning s'
      else RunHandler (fault_ureg (esi u) 0) (exception_stack t) (handler t) (handler_arg t) s'.
Proof.
  pose proof (running_is s LS me Hsc) as Hme.
  destruct (pcb_lock_ok s me t b Hme Ht Hb Hl) as (c & H1 & Hupd & _ & Hb1 & _ & Er & Eg & _).
  assert (Hput : put_lock (PcbLock (tcb_pcb t)) (Mutex LOCKED (tid t)) s = Some (with_ctl c s)) by (cbn; by run Hupd).
  pose proof (put_lock_scheduled _ _ _ _ LS me Hput Hsc) as Hsc1.
  assert (Htr : translate (esi u) false (with_ctl c s) = Some (inr 0)).
  { rewrite (translate_ok (with_ctl c s) F) by done. unfold here in *. cbn [kvm cr3 with_ctl]. by rewrite Hx. }
  destruct (kernel_fault_locked (fault_ureg (esi u) 0) (with_ctl c s) LS me t
    (CtrlBlk.set_lock (Mutex LOCKED (tid t)) b) Hsc1) as (s' & Hgl & Hk);
    [cbn [ctl with_ctl]; by rewrite Eg|exact Hb1|done|done|done|cbn [ctl with_ctl]; unfold tid_not_ready; by rewrite Eg|].
  exists s'. split; [done|]. pose proof (load32_faults _ _ _ _ Htr Hk) as Hld.
  unfold handle_new_pages. kstep (running_pcb_ok _ _ _ Hme Ht). kstep H1.
  destruct (decide (exception_stack t = NULL)); by kstep Hld.
Qed.

End kernel_faults.

Lemma new_pages_bad_pointer_hangs_witness : exists s',
  handle_new_pages (set_esi 0x1007000 ureg_zero) demo_user_state = Spinning s' /\
  get_lock (PcbLock 5000) s' = Some (Mutex LOCKED 1).
Proof.
  destruct demo_user_ok as [F HF].
  destruct (new_pages_bad_pointer_hangs (set_esi 0x1007000 ureg_zero) demo_user_state F demo_LS 100
    (demo_tcb 5000 1 RUNNING_STATE blocking_none) (demo_pcb 100) PAGE_UNAVAILABLE) as (s' & H1 & H2);
    [exact HF|exact (scheduled_ctl demo_state demo_user_state demo_LS 100 eq_refl demo_scheduled)|reflexivity|reflexivity|reflexivity|reflexivity|
     cbn; lia| |vm_compute; split; [discriminate|reflexivity]|vm_compute; reflexivity|].
  - intros p t Hp. apply elem_of_cons in Hp as [->|[->|Hp]%elem_of_cons]; [| |by apply not_elem_of_nil in Hp].
    + vm_compute. intros [= <-]. discriminate.
    + vm_compute. intros [= <-]. discriminate.
  - exists s'. split; [exact H2|exact H1].
Defined.
