(* ===== verification/Blocking.v ===== *)
(** The system calls that block: sleep, deschedule and make_runnable.  Each
    takes the lock of the process, chooses the thread to run next, releases the
    lock and switches; the theorems say in which list the caller waits, and who
    takes it out again. *)
From S2P Require Import Prelude Ring KMutex Frames Vm Keyhelp Keyboard Console Machine CtrlBlk Kernel Sched.
From S2P Require Import UserMem Elf Loader Fork Syscall Exceptions.
#[local] Open Scope Z_scope.

(** The thread that runs next: another one of the process, or the front of the
    ready list. *)
Definition next_choice (c : ctrl) (LS : Z -> list addr) (ts : list addr) : addr :=
  default (front_of (LS READY_STATE)) (first_sat (fun p => bool_decide (state_of c p = READY_STATE)) ts).

(** A thread of the process whose state says it is ready is on the ready list. *)
Definition ready_listed (c : ctrl) (LS : Z -> list addr) (ts : list addr) : Prop :=
  forall p, p ∈ ts -> state_of c p = READY_STATE -> p ∈ LS READY_STATE.

Lemma same_blocks_refl c : same_blocks c c.
Proof. split; [by destruct c|done]. Qed.

Section blocking.
Context (s : kstate) (LS : Z -> list addr) (me : addr) (t : tcb_t) (b : pcb_t) (ts : list addr).
Context (Hsc : scheduled s LS me) (Ht : get_tcb (ctl s) me = Some t).
Context (Hb : get_pcb (ctl s) (tcb_pcb t) = Some b) (Hts : threads_of (ctl s) b ts) (Hrl : ready_listed (ctl s) LS ts).

Lemma next_thread_ok : exists s' LS', ctl_op find_next_thread s = Done (next_choice (ctl s) LS ts) s' /\
  s' = with_ctl (ctl s') s /\ same_blocks (ctl s) (ctl s') /\ scheduled s' LS' me /\
  (forall i, i <> READY_STATE -> LS' i = LS i) /\ LS' READY_STATE ≡ₚ LS READY_STATE /\
  (next_choice (ctl s) LS ts = NULL \/ next_choice (ctl s) LS ts ∈ LS READY_STATE).
Proof.
  pose proof (find_next_thread_ok (ctl s) me t b ts (running_is s LS me Hsc) Ht Hb Hts) as Hf. unfold next_choice.
  destruct (first_sat _ ts) as [p|] eqn:E; cbn [default from_option]; unfold id.
  - exists s, LS. split; [rewrite <-(with_ctl_id s) at 2; by apply ctl_op_ok|]. 
    split; [by rewrite with_ctl_id|]. split; [apply same_blocks_refl|]. do 3 (split; [done|]). right.
    apply first_sat_elem in E as [Hp Hr%bool_decide_eq_true]. by apply Hrl.
  - destruct (round_robin_step s LS me Hsc) as (s' & H1 & H2 & H3 & H4 & H5 & _).
    exists s', (upd READY_STATE (rotate_ready (ctl s) (LS READY_STATE)) LS).
    split; [rewrite <-H1; unfold ctl_op; by rewrite Hf|]. do 3 (split; [done|]).
    split; [intros i Hi; by rewrite upd_ne|]. split; [by rewrite upd_eq|].
    destruct (decide (front_of (LS READY_STATE) = NULL)) as [->|Hn]; [by left|right]. by eapply front_of_ready.
Qed.

End blocking.

Lemma unlock_ok l s m : get_lock l s = Some m -> exists s', mutex_unlock l s = Done tt s' /\
  put_lock l (KMutex.mutex_unlock m) s = Some s'.
Proof.
  intros Hg. destruct (put_lock_some l m (KMutex.mutex_unlock m) s Hg) as [s' Hs']. exists s'. split; [|done].
  unfold mutex_unlock. kstep (load_lock_ok _ _ _ Hg). by apply store_lock_ok.
Qed.

Lemma unlock_quiet {A} l s m (f : K A) : get_lock l s = Some m ->
  (mutex_unlock l;; interruptible (mret tt);; f) s = (mutex_unlock l;; f) s.
Proof. intros Hg. destruct (unlock_ok l s m Hg) as (s1 & H1 & _). kstep H1. kstep H1. by kpure. Qed.

Lemma put_lock_frame l m s s' : put_lock l m s = Some s' ->
  tick_count s' = tick_count s /\ int_flag s' = int_flag s /\ forall p, state_of (ctl s') p = state_of (ctl s) p.
Proof.
  intros Hp. destruct (put_lock_ctl _ _ _ _ Hp) as (_ & _ & E & _). split; [|split].
  3:{ intros p. unfold state_of. by rewrite E. }
  all: destruct l; cbn [put_lock] in Hp; [apply bind_Some in Hp as (c & _ & [= <-])|injection Hp as <-..]; done.
Qed.

(** What a process leaves to its parent. *)
Definition exit_status (s : kstate) (p : addr) : option Z := status <$> get_pcb (ctl s) p.

Lemma put_lock_status l m s s' : put_lock l m s = Some s' -> forall p, exit_status s' p = exit_status s p.
Proof.
  intros Hput p. destruct l as [q| | |]; cbn [put_lock] in Hput; [|by injection Hput as <-..].
  apply bind_Some in Hput as (c & Hc & [= <-]). assert (exists b, get_pcb (ctl s) q = Some b) as [b Hb].
  { unfold upd_pcb in Hc. apply bind_Some in Hc as (b & Hb & _). by exists b. }
  destruct (upd_pcb_other q _ _ _ p b Hc Hb) as (_ & Hq & Ho). unfold exit_status. cbn [ctl with_ctl].
  destruct (decide (p = q)) as [->|Hne]; [by rewrite Hq, Hb|by rewrite Ho].
Qed.

Lemma sleep_sorted_ext s s' LS : get_tcb (ctl s') = get_tcb (ctl s) -> sleep_sorted (ctl s) LS -> sleep_sorted (ctl s') LS.
Proof. intros E H. eapply sorted_ext; [|exact H]. intros q _. unfold wake. by rewrite E. Qed.

(** The end of a blocking call: release the lock, leave for another thread, and
    go on with the rest of the call when switched to. *)
Lemma block_tail {A} (l : lock_id) (m : mutex) (s : kstate) LS me mt p st bd j (f : K A) :
  scheduled s LS me -> get_tcb (ctl s) me = Some mt -> p ∈ LS READY_STATE -> get_lock l s = Some m ->
  target_list st bd = Some j -> j <> READY_STATE -> j <> RUNNING_STATE ->
  exists s' LS' k t, (mutex_unlock l;; switch_context p st bd;; f) s = Switch me p s' k /\
    scheduled s' LS' p /\ get_tcb (ctl s) p = Some t /\
    (forall q, get_tcb (ctl s') q = if decide (q = p) then Some (with_state RUNNING_STATE None t)
       else if decide (q = me) then Some (with_state st bd mt) else get_tcb (ctl s) q) /\
    LS' j ≡ₚ me :: LS j /\ LS' READY_STATE = filter (fun q => q <> p) (LS READY_STATE) /\
    (forall i, list_index i -> i <> RUNNING_STATE -> i <> READY_STATE -> i <> j -> LS' i = LS i) /\
    (sleep_sorted (ctl s) LS -> sleep_sorted (ctl s') LS') /\ (forall q, exit_status s' q = exit_status s q) /\
    get_lock l s' = Some (KMutex.mutex_unlock m) /\ forall s2, k s2 = f (with_int_flag (int_flag s) s2).
Proof.
  intros Hsc Hmt Hp Hl Hj Hjr Hjn. destruct (unlock_ok l s m Hl) as (s1 & H1 & Hput). kstep H1.
  pose proof (put_lock_scheduled _ _ _ _ LS me Hput Hsc) as Hsc1. destruct (put_lock_ctl _ _ _ _ Hput) as (_ & _ & Eg & _).
  destruct (put_lock_frame _ _ _ _ Hput) as (_ & Ei & _).
  destruct (sched_thread (ctl s1) LS READY_STATE p) as (_ & tp & Htp & _); [apply Hsc1|done|done|].
  rewrite <-Eg in Hmt. assert (Hpj : p ∉ LS j).
  { intros Hin. apply Hjr. eapply (target_only_at s1 LS me p READY_STATE); try done.
    eapply (target_list_index _ _ _ Hj). }
  assert (Hmp : p <> me) by (by apply (not_running s1 LS me Hsc1 READY_STATE)).
  destruct (switch_then_ok (fun _ => f) s1 LS me mt p tp READY_STATE j st bd Hsc1) as (s' & k & H2 & Hsw & Hk); try done.
  exists s', (switched_lists (ctl s1) LS me mt p st bd), k, tp. split; [exact H2|]. split; [apply Hsw|].
  split; [by rewrite <-Eg|]. split; [intros q; rewrite (sw_tcb _ _ _ _ _ _ _ _ _ Hsw); by rewrite Eg|].
  split; [|split; [|split; [|split; [|split; [|split]]]]].
  - rewrite (switched_dest s1 LS me mt p st bd j Hj); [|done|by apply not_eq_sym]. by rewrite filter_ne_id.
  - by apply (switched_source s1 LS me mt p st bd READY_STATE j).
  - intros i Hi Hir Hid Hij. by eapply (switched_other s1 LS me mt p st bd READY_STATE j).
  - intros Hso. apply (sw_sorted _ _ _ _ _ _ _ _ _ Hsw). by apply (sleep_sorted_ext s).
  - intros q. rewrite <-(put_lock_status _ _ _ _ Hput). unfold exit_status, get_pcb. by rewrite (sw_ctl _ _ _ _ _ _ _ _ _ Hsw).
  - rewrite (switched_get_lock _ _ _ _ _ _ _ _ _ _ Hsw). exact (put_get_lock _ _ _ _ Hput).
  - intros s2. by rewrite Hk, Ei.
Qed.

(** The caller is a scheduled thread of a process whose lock is free. *)
Record caller (s : kstate) (LS : Z -> list addr) (me : addr) (t : tcb_t) (b : pcb_t) (ts : list addr) : Prop := {
  ca_sched : scheduled s LS me;
  ca_tcb : get_tcb (ctl s) me = Some t;
  ca_pcb : get_pcb (ctl s) (tcb_pcb t) = Some b;
  ca_lock : lock b = mutex_init;
  ca_threads : threads_of (ctl s) b ts;
  ca_ready : ready_listed (ctl s) LS ts;
}.

(** The same caller inside the call: it holds the lock, interrupts are off. *)
Record inside_call (s : kstate) (LS : Z -> list addr) (me : addr) (t : tcb_t) (s1 : kstate) (LS1 : Z -> list addr) : Prop := {
  ic_sched : scheduled s1 LS1 me;
  ic_tcb : get_tcb (ctl s1) = get_tcb (ctl s);
  ic_lock : get_lock (PcbLock (tcb_pcb t)) s1 = Some (Mutex LOCKED (tid t));
  ic_space : kvm s1 = kvm s /\ cr3 s1 = cr3 s /\ mem s1 = mem s /\ tick_count s1 = tick_count s /\
    forall q, exit_status s1 q = exit_status s q;
  ic_others : forall i, i <> READY_STATE -> LS1 i = LS i;
  ic_ready : LS1 READY_STATE ≡ₚ LS READY_STATE;
}.

Lemma locked_ok s LS me t b ts : caller s LS me t b ts ->
  exists s1, mutex_lock (PcbLock (tcb_pcb t)) s = Done tt s1 /\
    inside_call s LS me t (with_int_flag false s1) LS /\ 
    mutex_unlock (PcbLock (tcb_pcb t)) (with_int_flag false s1) = Done tt (with_int_flag false s) /\
    get_pcb (ctl s1) (tcb_pcb t) = Some (CtrlBlk.set_lock (Mutex LOCKED (tid t)) b) /\
    threads_of (ctl s1) b ts /\ ready_listed (ctl s1) LS ts /\
    next_choice (ctl s1) LS ts = next_choice (ctl s) LS ts.
Proof.
  intros [C1 C2 C3 C4 C5 C6]. pose proof (running_is s LS me C1) as Hme.
  destruct (pcb_lock_ok s me t b Hme C2 C3 C4) as (c & H1 & Hupd & Hg & Hb1 & _ & _ & Eg & Hun).
  assert (Hput : put_lock (PcbLock (tcb_pcb t)) (Mutex LOCKED (tid t)) s = Some (with_ctl c s)) by (cbn; by run Hupd).
  destruct (put_lock_ctl _ _ _ _ Hput) as (Et & _).
  assert (Est : forall p, state_of c p = state_of (ctl s) p) by (intros p; unfold state_of; by rewrite Eg).
  exists (with_ctl c s). split; [done|]. split; [|split].
  - split; try done; [|by do 4 (split; [done|]); apply (put_lock_status _ _ _ _ Hput)]. apply (scheduled_ctl (with_ctl c s)); [done|]. exact (put_lock_scheduled _ _ _ _ LS me Hput C1).
  - unfold mutex_unlock in *. kstep (load_lock_ok (PcbLock (tcb_pcb t)) (with_int_flag false (with_ctl c s)) _ Hg).
    apply store_lock_ok. cbn [put_lock ctl with_int_flag with_ctl].
    pose proof (put_lock_again _ _ _ _ Hput mutex_init) as Hag.
    rewrite (put_lock_same (PcbLock (tcb_pcb t)) mutex_init s) in Hag by (cbn; by rewrite C3, <-C4).
    cbn [put_lock ctl with_ctl] in Hag. apply bind_Some in Hag as (c' & Hc' & He).
    change (KMutex.mutex_unlock (Mutex LOCKED (tid t))) with mutex_init. run Hc'. injection He as He.
    rewrite <-He at 2. done.
  - split; [done|]. split; [|split].
    + destruct C5 as [R1 R2]. split; [|done]. cbn [ctl with_ctl] in Et |- *. by rewrite Et.
    + intros p Hp Hst. apply C6; [done|]. by rewrite <-Est.
    + unfold next_choice. f_equal. apply first_sat_ext. intros p _. cbn [ctl with_ctl]. by rewrite Est.
Qed.

Lemma choose_ok s LS me t b ts s1 b1 : inside_call s LS me t s1 LS ->
  get_tcb (ctl s) me = Some t -> get_pcb (ctl s1) (tcb_pcb t) = Some b1 -> threads_of (ctl s1) b1 ts ->
  ready_listed (ctl s1) LS ts -> next_choice (ctl s1) LS ts = next_choice (ctl s) LS ts -> caller s LS me t b ts ->
  exists s2 LS2, ctl_op find_next_thread s1 = Done (next_choice (ctl s) LS ts) s2 /\ inside_call s LS me t s2 LS2 /\
    (next_choice (ctl s) LS ts <> NULL -> next_choice (ctl s) LS ts ∈ LS2 READY_STATE).
Proof.
  intros [I1 I2 I3 I4 I5 I6] Ht Hb1 Hts Hrl He Hca.
  destruct (next_thread_ok s1 LS me t b1 ts I1) as (s2 & LS2 & H1 & H2 & H3 & H4 & H5 & H6 & H7); try done.
  { by rewrite I2. }
  rewrite He in H1, H7. exists s2, LS2. split; [done|]. split.
  - split; try done.
    + by rewrite (get_tcb_same _ _ H3).
    + destruct H3 as [H3 _]. rewrite <-I3. cbn [get_lock]. unfold get_pcb. by rewrite H3.
    + destruct I4 as (K1 & K2 & K3 & K4 & K5). rewrite H2. do 4 (split; [done|]). intros q. rewrite <-K5. unfold exit_status, get_pcb.
      by destruct H3 as [-> _].
  - intros Hn. destruct H7 as [?|Hin]; [done|]. by rewrite H6.
Qed.

Lemma enter_ok s LS me t b ts : caller s LS me t b ts ->
  exists s1 s2 LS2, mutex_lock (PcbLock (tcb_pcb t)) s = Done tt s1 /\
    inside_call s LS me t (with_int_flag false s1) LS /\
    mutex_unlock (PcbLock (tcb_pcb t)) (with_int_flag false s1) = Done tt (with_int_flag false s) /\
    ctl_op find_next_thread (with_int_flag false s1) = Done (next_choice (ctl s) LS ts) s2 /\
    inside_call s LS me t s2 LS2 /\ (next_choice (ctl s) LS ts <> NULL -> next_choice (ctl s) LS ts ∈ LS2 READY_STATE).
Proof.
  intros Hca. destruct (locked_ok s LS me t b ts Hca) as (s1 & H1 & Hin & Hun & Hb1 & Hts & Hrl & Hne).
  destruct (choose_ok s LS me t b ts (with_int_flag false s1) (CtrlBlk.set_lock (Mutex LOCKED (tid t)) b) Hin) as (s2 & LS2 & H2 & Hin2 & Hn2); try done; [apply Hca|].
  by exists s1, s2, LS2.
Qed.

(** How a thread waits after the switch: in the list of the reason, behind
    nobody lost, the lock of its process free; and it returns the value when it
    is switched to, with interrupts on. *)
Definition waits {A} (s : kstate) (LS : Z -> list addr) (me : addr) (t : tcb_t) (bd : blocking_detail_t) (p : addr) (v : A)
    (o : outcome A) : Prop :=
  exists s' LS' k, o = Switch me p s' k /\ scheduled s' LS' p /\
    get_tcb (ctl s') me = Some (with_state WAITING_STATE (Some bd) t) /\
    LS' (reason bd) ≡ₚ me :: LS (reason bd) /\ LS' READY_STATE ≡ₚ filter (fun q => q <> p) (LS READY_STATE) /\
    (sleep_sorted (ctl s) LS -> sleep_sorted (ctl s') LS') /\
    get_lock (PcbLock (tcb_pcb t)) s' = Some mutex_init /\
    forall s2, k s2 = Done v (with_int_flag true s2).

Lemma wait_ok {A} s LS me t s2 LS2 p bd (v : A) (f : K A) : inside_call s LS me t s2 LS2 -> get_tcb (ctl s) me = Some t ->
  p ∈ LS2 READY_STATE -> target_list WAITING_STATE (Some bd) = Some (reason bd) ->
  (forall s, f s = Done v (with_int_flag true s)) ->
  waits s LS me t bd p v ((mutex_unlock (PcbLock (tcb_pcb t));; switch_context p WAITING_STATE (Some bd);; f) s2).
Proof.
  intros [I1 I2 I3 I4 I5 I6] Ht Hp Hj Hf.
  assert (reason bd <> READY_STATE /\ reason bd <> RUNNING_STATE) as [Hr1 Hr2].
  { unfold target_list in Hj. rewrite decide_True in Hj by done. cbn [mbind option_bind] in Hj.
    case_bool_decide as Hd; [|done]. destruct Hd as [->|[->|[->| ->]]]; done. }
  destruct (block_tail (PcbLock (tcb_pcb t)) (Mutex LOCKED (tid t)) s2 LS2 me t p WAITING_STATE (Some bd) (reason bd)
    f I1) as (s' & LS' & k & tp & H1 & H2 & _ & H3 & H4 & H5 & _ & H6 & _ & H7 & H8); try done; [by rewrite I2|].
  assert (me <> p) as Hne by (apply not_eq_sym; by apply (not_running s2 LS2 me I1 READY_STATE)).
  exists s', LS', k. split; [done|]. split; [done|]. split; [by rewrite H3, decide_False, decide_True by done|]. split; [by rewrite H4, I5|].
  split; [by rewrite H5, I6|]. split; [|split; [done|intros s3; by rewrite H8, Hf]]. intros Hs. apply H6. unfold sleep_sorted. rewrite I5 by done.
  eapply sorted_ext; [|exact Hs]. intros q _. unfold wake. by rewrite I2.
Qed.

(** ** Interrupts in the midst of [deschedule]

    Between any two statements of the call at which interrupts are on, a device
    handler may run and give the processor away; the call goes on, in whatever
    state it is switched back to, only as itself: running, its address space
    loaded, the word it looks at still mapped. *)

Lemma interruptible_off irq s : int_flag s = false -> interruptible irq s = Done tt s.
Proof. intros Hi. unfold interruptible. rewrite (bind_Done _ _ _ _ _ (gets_ok _ _)). by rewrite Hi. Qed.

Section interrupted.
Context `{Platform} (me p d a : addr).

(** [me] sleeps until it is made runnable; the word at [a] in its address space [d]. *)
Definition asleep (s : kstate) : Prop :=
  exists t, get_tcb (ctl s) me = Some t /\ home_list t = Some DESCHEDULE.
Definition own_word (s : kstate) : Z := word_at (with_cr3 d s) a.

(** The call of [me], a thread of the process [p], is being run. *)
Definition underway (s : kstate) : Prop :=
  exists LS F t b ts, scheduled s LS me /\ get_tcb (ctl s) me = Some t /\ tcb_pcb t = p /\
    get_pcb (ctl s) p = Some b /\ (lock_state (lock b) = UNLOCKED \/ lock_state (lock b) = LOCKED) /\
    threads_of (ctl s) b ts /\ ready_listed (ctl s) LS ts /\
    space_ok s F /\ page_of (cr3 s) = page_of d /\ mapped_range s a 4.

(** However the computation is resumed, [me] is put to sleep only when the word
    is zero, and a normal end satisfies [P]. *)
Fixpoint sleeps_on_zero {A} (P : A -> kstate -> Prop) (o : outcome A) : Prop :=
  match o with
  | Done v s => P v s
  | Switch _ _ s k => (asleep s -> own_word s = 0) /\ forall s', underway s' -> sleeps_on_zero P (k s')
  | _ => True
  end.

(** What a device may do: give the processor away and come back any number of
    times, but not put the interrupted thread to sleep. *)
Definition device (irq : K unit) : Prop := forall s, underway s -> sleeps_on_zero (fun _ => underway) (irq s).

Lemma zero_bind {A B} (P : A -> kstate -> Prop) (Q : B -> kstate -> Prop) (f : A -> K B) (o : outcome A) :
  sleeps_on_zero P o -> (forall v s, P v s -> sleeps_on_zero Q (f v s)) -> sleeps_on_zero Q (obind f o).
Proof.
  intros Ho Hf. induction o as [v s|o1 o2 s k IH|s|u s|u st h g s|s|]; cbn in *; try done; [by apply Hf|].
  destruct Ho as [H1 H2]. split; [done|]. intros s' Hs'. by apply IH, H2.
Qed.

Lemma device_bind {A} (Q : A -> kstate -> Prop) (irq : K unit) (f : K A) s : device irq -> underway s ->
  (forall s', underway s' -> sleeps_on_zero Q (f s')) -> sleeps_on_zero Q ((interruptible irq;; f) s).
Proof.
  intros Hd Hs Hf. apply (zero_bind (fun _ => underway)); [|intros _; apply Hf].
  unfold interruptible. rewrite (bind_Done _ _ _ _ _ (gets_ok _ _)). destruct (int_flag s); cbn [when]; [by apply Hd|done].
Qed.

Lemma underway_ext s s' : ctl s' = ctl s -> kvm s' = kvm s -> cr3 s' = cr3 s -> underway s -> underway s'.
Proof.
  intros Ec Ek Er (LS & F & t & b & ts & H1 & H2 & H3 & H4 & H5 & H6 & H7 & H8 & H9 & H10).
  exists LS, F, t, b, ts. unfold space_ok, mapped_range, here. rewrite Ec, Ek, Er. split; [by apply (scheduled_ctl s)|]. done.
Qed.

Lemma underway_lock s m s' : underway s -> put_lock (PcbLock p) m s = Some s' ->
  lock_state m = UNLOCKED \/ lock_state m = LOCKED -> underway s'.
Proof.
  intros (LS & F & t & b & ts & H1 & H2 & H3 & H4 & _ & H6 & H7 & H8 & H9 & H10) Hp Hm.
  pose proof (put_lock_scheduled _ _ _ _ LS me Hp H1) as Hsc. destruct (put_lock_ctl _ _ _ _ Hp) as (Et & _ & Eg & _).
  pose proof (put_get_lock _ _ _ _ Hp) as Hg. cbn [get_lock] in Hg. apply fmap_Some in Hg as (b' & Hb' & Em).
  assert (tcb_list b' = tcb_list b /\ s' = with_ctl (ctl s') s) as [El Es].
  { cbn [put_lock] in Hp. apply bind_Some in Hp as (c & Hc & [= <-]). split; [|done].
    destruct (upd_pcb_other _ _ _ _ p b Hc H4) as (_ & Hq & _). cbn [ctl with_ctl] in Hb'. rewrite Hq in Hb'. by injection Hb' as <-. }
  exists LS, F, t, b', ts. split; [done|]. rewrite Eg, <-Em. do 4 (split; [done|]). split; [|split].
  - destruct H6 as [R1 R2]. split; [by rewrite Et|by rewrite El].
  - intros q Hq. unfold state_of. rewrite Eg. by apply H7.
  - rewrite Es. done.
Qed.

(** After a switch that makes it ready [me] is not asleep. *)
Lemma ready_awake s LS mt q t s' : switched s LS me mt q t READY_STATE None s' -> q <> me -> ~ asleep s'.
Proof.
  intros Hsw Hq (t' & Ht & Hh). rewrite (sw_tcb _ _ _ _ _ _ _ _ _ Hsw), decide_False, decide_True in Ht by done.
  by injection Ht as <-.
Qed.

Lemma yield_underway u s : underway s -> sleeps_on_zero (fun _ => underway) (handle_yield u s).
Proof.
  intros Hu. pose proof Hu as (LS & F & t & b & ts & Hsc & _).
  destruct (decide (yield_choice (ctl s) LS (s32 (esi u)) = NULL)) as [Hp|Hp].
  - rewrite (handle_yield_refused u s LS me Hsc Hp). by apply (underway_ext s).
  - destruct (handle_yield_switches u s LS me _ Hsc eq_refl Hp)
      as (mt & tq & s1 & LS1 & s' & k & -> & _ & _ & Hin & _ & Hsw & _ & _ & _ & _ & Hk).
    split; [intros Ha; by destruct (ready_awake _ _ _ _ _ _ Hsw (not_running s LS me Hsc READY_STATE _ ltac:(done) ltac:(done) Hin))|].
    intros s2 Hs2. rewrite Hk. by apply (underway_ext s2).
Qed.

(** The lock of the process, with any interrupts between the rounds. *)
Lemma round_underway s : underway s -> sleeps_on_zero (fun _ => underway) (lock_round (PcbLock p) tt s).
Proof.
  intros Hu. pose proof Hu as (LS & F & t & b & ts & Hsc & _ & _ & Hb & Hl & _).
  assert (Hg : get_lock (PcbLock p) s = Some (lock b)) by (cbn; by rewrite Hb). destruct Hl as [Hl|Hl].
  - destruct (put_lock_some _ _ (Mutex LOCKED (owner_tid (lock b))) s Hg) as [s1 H1].
    rewrite (lock_round_free _ s _ s1 Hg Hl H1). eapply underway_lock; [done..|by right].
  - destruct (lock b) as [ls o]. cbn [lock_state] in Hl. subst ls. rewrite (lock_round_taken _ s o Hg).
    by apply (zero_bind (fun _ => underway)); [by apply yield_underway|].
Qed.

Lemma owner_underway s : underway s -> sleeps_on_zero (fun _ => underway) (set_owner (PcbLock p) s).
Proof.
  intros Hu. pose proof Hu as (LS & F & t & b & ts & Hsc & Ht & _ & Hb & Hl & _).
  assert (Hg : get_lock (PcbLock p) s = Some (lock b)) by (cbn; by rewrite Hb).
  destruct (put_lock_some _ _ (Mutex (lock_state (lock b)) (tid t)) s Hg) as [s1 H1].
  rewrite (set_owner_ok _ s _ me t s1 Hg (running_is s LS me Hsc) Ht H1). by eapply underway_lock.
Qed.

Lemma rounds_underway n s : underway s -> sleeps_on_zero (fun _ => underway) (rounds n (lock_round (PcbLock p)) tt s).
Proof.
  revert s. induction n as [|n IH]; intros s Hs; [by apply round_underway|]. rewrite rounds_S.
  apply (zero_bind (fun _ => underway)); [by apply IH|]. intros [[]|[]] s1 H1; [by apply IH|done].
Qed.

Lemma lock_underway spins s : Forall device spins -> underway s ->
  sleeps_on_zero (fun _ => underway) (mutex_lock_with spins (PcbLock p) s).
Proof.
  intros Hd. revert s. induction Hd as [|irq spins Hi Hd IH]; intros s Hs; cbn [mutex_lock_with].
  - apply (zero_bind (fun _ => underway)); [|intros _; apply owner_underway]. unfold loop.
    apply (zero_bind (fun _ => underway)); [by apply rounds_underway|]. by intros [[]|[]] s1 H1.
  - apply (zero_bind (fun _ => underway)); [by apply round_underway|]. intros [[]|[]] s1 H1; [|by apply owner_underway].
    by apply device_bind.
Qed.

Lemma own_word_here s : page_of (cr3 s) = page_of d -> own_word s = word_at s a.
Proof. intros E. unfold own_word, word_at, places, place_of, here. cbn [cr3 with_cr3 kvm mem]. by rewrite E. Qed.

Section look.
Context (irq : nat -> K unit) (Hirq : forall n, device (irq n)).

(** From a word that is zero to the sleep, interrupts off all the way. *)
Lemma sleep_underway (v : ureg_t) s : underway s -> int_flag s = false -> own_word s = 0 ->
  sleeps_on_zero (fun _ _ => True)
    ((next_tcb ← ctl_op find_next_thread;
      interruptible (irq 6%nat);;
      when (bool_decide (next_tcb = NULL)) handle_halt;;
      mutex_unlock (PcbLock p);;
      interruptible (irq 7%nat);;
      switch_context next_tcb WAITING_STATE (Some (BlockingDetail DESCHEDULE 0));;
      enable_interrupts;; interruptible (irq 8%nat);; mret v) s).
Proof.
  intros Hu Hi Hw. pose proof Hu as (LS & F & t & b & ts & Hsc & Ht & Hp & Hb & Hl & Hts & Hrl & _). rewrite <-Hp in Hb.
  destruct (next_thread_ok s LS me t b ts Hsc Ht Hb Hts Hrl) as (s1 & LS1 & H1 & E1 & Hsb & Hsc1 & _ & Hr & Hn).
  kstep H1. assert (int_flag s1 = false) as Hi1 by by rewrite E1. kstep (interruptible_off (irq 6%nat) s1 Hi1).
  destruct (decide (next_choice (ctl s) LS ts = NULL)) as [Hq|Hq]; [by rewrite bool_decide_true|].
  rewrite bool_decide_false by done. cbn [when]. rewrite (bind_Done (mret tt) _ _ _ _ eq_refl).
  destruct Hn as [?|Hin]; [done|]. rewrite <-Hr in Hin.
  assert (Hg : get_lock (PcbLock p) s1 = Some (lock b)).
  { cbn [get_lock]. destruct Hsb as [Hsb _]. unfold get_pcb. rewrite Hsb. change (lock <$> get_pcb (ctl s) p = Some (lock b)). by rewrite <-Hp, Hb. }
  destruct (unlock_ok _ s1 _ Hg) as (s2 & H2 & Hput). kstep H2.
  destruct (put_lock_frame _ _ _ _ Hput) as (_ & Ei2 & _). rewrite <-Ei2 in Hi1. kstep (interruptible_off (irq 7%nat) s2 Hi1).
  pose proof (put_lock_scheduled _ _ _ _ LS1 me Hput Hsc1) as Hsc2. destruct (put_lock_ctl _ _ _ _ Hput) as (_ & _ & Eg & _).
  destruct (sched_thread (ctl s2) LS1 READY_STATE (next_choice (ctl s) LS ts)) as (_ & tq & Htq & _); [apply Hsc2|done|done|].
  destruct (switch_then_ok (fun _ => enable_interrupts;; interruptible (irq 8%nat);; mret v) s2 LS1 me t (next_choice (ctl s) LS ts) tq READY_STATE DESCHEDULE
    WAITING_STATE (Some (BlockingDetail DESCHEDULE 0)) Hsc2) as (s3 & k & H3 & Hsw & Hk); try done.
  { rewrite Eg. by rewrite (get_tcb_same _ _ Hsb). }
  rewrite H3. split.
  - intros _. rewrite <-Hw. unfold own_word, word_at, places, place_of, here, byte_at. rewrite (sw_rest _ _ _ _ _ _ _ _ _ Hsw).
    cbn [put_lock] in Hput. apply bind_Some in Hput as (c & _ & [= <-]). by rewrite E1.
  - intros s4 Hs4. rewrite Hk. unfold enable_interrupts. rewrite (bind_Done _ _ _ _ _ (modify_ok _ _)).
    apply device_bind; [done|by apply (underway_ext s4)|done].
Qed.

Lemma look_underway (u : ureg_t) s : a = esi u -> underway s ->
  sleeps_on_zero (fun _ _ => True)
    ((disable_interrupts;;
      interruptible (irq 3%nat);;
      val ← load32 (esi u);
      interruptible (irq 4%nat);;
      if decide (val <> 0) then
        mutex_unlock (PcbLock p);; enable_interrupts;; interruptible (irq 5%nat);; mret u
      else
        next_tcb ← ctl_op find_next_thread;
        interruptible (irq 6%nat);;
        when (bool_decide (next_tcb = NULL)) handle_halt;;
        mutex_unlock (PcbLock p);;
        interruptible (irq 7%nat);;
        switch_context next_tcb WAITING_STATE (Some (BlockingDetail DESCHEDULE 0));;
        enable_interrupts;; interruptible (irq 8%nat);; mret u) s).
Proof.
  intros Ha Hu0. unfold disable_interrupts at 1. rewrite (bind_Done _ _ _ _ _ (modify_ok _ _)).
  assert (Hu : underway (with_int_flag false s)) by (by apply (underway_ext s)).
  set (s1 := with_int_flag false s) in *. pose proof Hu as (LS & F & t & b & ts & Hsc & Ht & Hp & Hb & Hl & _ & _ & Hsp & Hd & Hm).
  kstep (interruptible_off (irq 3%nat) s1 eq_refl). rewrite <-Ha. kstep (load32_mapped s1 F a Hsp Hm).
  kstep (interruptible_off (irq 4%nat) s1 eq_refl). case_decide as Hw.
  - assert (Hg : get_lock (PcbLock p) s1 = Some (lock b)) by (cbn [get_lock]; by rewrite Hb).
    destruct (unlock_ok _ s1 _ Hg) as (s2 & H2 & Hput). kstep H2. unfold enable_interrupts. rewrite (bind_Done _ _ _ _ _ (modify_ok _ _)).
    apply device_bind; [done| |done]. apply (underway_ext s2); [done..|]. eapply underway_lock; [done..|by left].
  - apply sleep_underway; [done|done|]. rewrite own_word_here by done. lia.
Qed.

End look.
End interrupted.

(** The handlers of the timer and of the keyboard are such devices. *)
Lemma switch_device me p d a q t s LS mt i : scheduled s LS me -> get_tcb (ctl s) me = Some mt -> get_tcb (ctl s) q = Some t ->
  list_index i -> i <> RUNNING_STATE -> q ∈ LS i ->
  sleeps_on_zero me p d a (fun _ => underway me p d a) ((switch_context q READY_STATE None;; mret tt) s).
Proof.
  intros Hsc Hmt Hq Hi Hir Hin.
  destruct (switch_then_ok (fun _ => mret tt) s LS me mt q t i READY_STATE READY_STATE None Hsc) as (s' & k & -> & Hsw & Hk); try done.
  split; [|intros s2 Hs2; rewrite Hk; by apply (underway_ext me p d a s2)].
  intros Ha. by destruct (ready_awake me _ _ _ _ _ _ Hsw (not_running s LS me Hsc i q Hi Hir Hin)).
Qed.

Lemma timer_device me p d a : device me p d a handle_timer.
Proof.
  intros s Hu. pose proof Hu as (LS & F & t & b & ts & Hsc & _). set (now := u32 (tick_count s + 1)).
  destruct (decide (timer_choice (ctl s) LS now = NULL)) as [Hp|Hp].
  - rewrite (handle_timer_idle s LS me Hsc Hp). by apply (underway_ext me p d a s).
  - destruct (handle_timer_switches s LS me _ Hsc eq_refl Hp)
      as (mt & tq & s1 & LS1 & s' & k & -> & Hin & _ & _ & _ & Hsw & _ & _ & _ & _ & Hk). fold now in Hin, Hsw.
    split; [|intros s2 Hs2; rewrite Hk; by apply (underway_ext me p d a s2)]. intros Ha.
    refine (False_ind _ (ready_awake me _ _ _ _ _ _ Hsw _ Ha)).
    apply (not_running s LS me Hsc (if sleeper_due (ctl s) LS now then SLEEP else READY_STATE)); [by destruct (sleeper_due _ _ _)..|done].
Qed.

Lemma keyboard_device me p d a : device me p d a handle_keyboard.
Proof.
  intros s Hu. unfold handle_keyboard.
  assert (exists x s1, read_port s = Done x s1 /\ underway me p d a s1) as (x & s1 & H1 & Hu1).
  { unfold read_port. destruct (port s) as [|y r]; eexists _, _; (split; [reflexivity|]); [done|by apply (underway_ext me p d a s)]. }
  kstep H1. unfold push_scancode at 1. destruct (push_tail (scancode_buf s1) x) as [[z b]|] eqn:E.
  2:{ assert (push_scancode x s1 = Crashed) as Hc by (unfold push_scancode; by rewrite E). by kstep Hc. }
  assert (push_scancode x s1 = Done tt (with_scancode_buf b s1)) as H2 by (unfold push_scancode; by rewrite E). kstep H2.
  assert (Hu2 : underway me p d a (with_scancode_buf b s1)) by by apply (underway_ext me p d a s1).
  clear H2 E Hu Hu1 H1. revert Hu2. generalize (with_scancode_buf b s1) as s2. intros s2 Hu2.
  pose proof Hu2 as (LS & F & t & pb & ts & Hsc & Ht & _).
  kstep (front_tcb_ok s2 LS me READLINE Hsc ltac:(done)). case_decide as Hr; [done|].
  assert (front_of (LS READLINE) ∈ LS READLINE) as Hin by (destruct (LS READLINE); [done|left]).
  destruct (sched_thread (ctl s2) LS READLINE (front_of (LS READLINE))) as (_ & tr & Htr & _); [apply Hsc|done|done|].
  kstep (tcb_at_ok _ _ _ Htr). destruct (first_reader _); cbn [when]; [|done].
  by apply (switch_device me p d a _ tr s2 LS t READLINE).
Qed.

Lemma caller_underway s LS F me t b ts a : caller s LS me t b ts -> space_ok s F -> mapped_range s a 4 ->
  underway me (tcb_pcb t) (cr3 s) a s.
Proof.
  intros [C1 C2 C3 C4 C5 C6] HF Hm. exists LS, F, t, b, ts. do 4 (split; [done|]). split; [left; by rewrite C4|done].
Qed.

Lemma deschedule_sleeps_on_zero `{Platform} me p d (u : ureg_t) s irq spins : vword (esi u) ->
  (forall n, device me p d (esi u) (irq n)) -> Forall (device me p d (esi u)) spins -> underway me p d (esi u) s ->
  sleeps_on_zero me p d (esi u) (fun _ _ => True) (deschedule_with irq spins u s).
Proof.
  intros Hv Hirq Hsp Hs. unfold deschedule_with. change (esi (succeed u)) with (esi u). apply device_bind; [done|done|].
  clear s Hs. intros s Hs. pose proof Hs as (LS & F & t & b & ts & Hsc & Ht & Hp & _ & _ & _ & _ & HF & _).
  kstep (running_pcb_ok _ _ _ (running_is s LS me Hsc) Ht). rewrite Hp.
  destruct (readable_iff s F (esi u) 4 HF Hv ltac:(lia)) as (rd & Hrd & _). kstep Hrd. apply device_bind; [done|done|].
  clear s Hs LS F t b ts Hsc Ht Hp HF Hrd. intros s Hs. destruct rd; cbn [negb]; [|done].
  apply (zero_bind me p d (esi u) (fun _ => underway me p d (esi u))); [by apply lock_underway|].
  clear s Hs. intros _ s Hs. apply device_bind; [done|done|]. clear s Hs. intros s Hs. exact (look_underway me p d (esi u) irq Hirq (succeed u) s eq_refl Hs).
Qed.

Section calls.
Context `{Platform}.

(** C23. [sleep]: a negative count is refused and zero returns at once; for a
    positive one the thread leaves the processor to the next thread of its
    process, or to the front of the ready list, and waits in the sleep list with
    its wake-up time set that many ticks ahead; the list stays sorted by wake-up
    time, nobody else is lost, the lock of the process is free again, and when
    the thread is switched to the call returns 0.  When there is no other thread
    to run the machine halts. *)
Theorem sleep_waits_in_order (u : ureg_t) (s : kstate) (LS : Z -> list addr) (me : addr) (t : tcb_t) (b : pcb_t)
    (ts : list addr) (Hca : caller s LS me t b ts) :
  let ticks := s32 (esi u) in
  let p := next_choice (ctl s) LS ts in
  (ticks < 0 -> handle_sleep u s = Done (set_eax (u32 (-1)) u) s) /\
  (ticks = 0 -> handle_sleep u s = Done (set_eax 0 u) s) /\
  (0 < ticks -> if decide (p = NULL) then exists s', handle_sleep u s = Halted s'
                else waits s LS me t (BlockingDetail SLEEP (u32 (tick_count s + ticks))) p (set_eax 0 u) (handle_sleep u s)).
Proof.
  intros ticks p. unfold handle_sleep. fold ticks. split; [intros Hn; by rewrite decide_True|].
  split; [intros H0; rewrite decide_False by lia; by rewrite decide_True|]. intros Hp.
  rewrite (decide_False (P := ticks < 0)), (decide_False (P := ticks = 0)) by lia. pose proof (running_is s LS me (ca_sched _ _ _ _ _ _ Hca)) as Hme.
  kstep (running_pcb_ok _ _ _ Hme (ca_tcb _ _ _ _ _ _ Hca)).
  destruct (enter_ok s LS me t b ts Hca) as (s1 & s2 & LS2 & H1 & _ & _ & H2 & Hin & Hne). kstep H1.
  rewrite (bind_Done _ _ _ _ _ (modify_ok (with_int_flag false) s1)). kstep H2. fold p in H2, Hne |- *.
  destruct (decide (p = NULL)) as [Hp0|Hp0].
  - rewrite bool_decide_true by done. exists s2. done.
  - rewrite bool_decide_false by done. cbn [when]. kpure.
    assert (tick_count s2 = tick_count s) as -> by apply Hin.
    apply (wait_ok s LS me t s2 LS2 p _ (set_eax 0 u) _ Hin); [apply Hca|by apply Hne|done..].
Qed.

(** A listed thread [w] that is not running goes from the list [i] to the list
    [j] of its new state, to the place that list has for it. *)
Record requeued (s : kstate) (LS : Z -> list addr) (q w : addr) (st : Z) (bd : option blocking_detail_t) (i j : Z)
    (s' : kstate) (LS' : Z -> list addr) : Prop := {
  rq_rest : s' = with_ctl (ctl s') s;
  rq_sched : scheduled s' LS' q;
  rq_lists : exists M1 M2, place (ctl s) (process_of (ctl s) w) st bd (LS j) = (M1, M2) /\
    LS' = upd j (M1 ++ w :: M2) (upd i (filter (fun x => x <> w) (LS i)) LS);
  rq_tcb : forall x, get_tcb (ctl s') x = if decide (x = w) then with_state st bd <$> get_tcb (ctl s) w else get_tcb (ctl s) x;
  rq_ctl : ctl s' = set_tcbs (tcbs (ctl s')) (set_thread_lists (thread_lists (ctl s')) (set_links (links (ctl s')) (ctl s)));
  rq_nodes : same_threads (ctl s) (ctl s');
  rq_sorted : sleep_sorted (ctl s) LS -> sleep_sorted (ctl s') LS';
}.

Lemma requeue_ok s LS q w st bd i j : scheduled s LS q -> list_index i -> i <> RUNNING_STATE -> w ∈ LS i ->
  target_list st bd = Some j -> j <> RUNNING_STATE -> i <> j ->
  exists s' LS', ctl_op (alter_state w st bd) s = Done OK s' /\ requeued s LS q w st bd i j s' LS'.
Proof.
  intros Hsc Hi Hir Hw Hj Hjr Hij. destruct (sched_thread (ctl s) LS i w) as (_ & tw & Htw & Hh); [apply Hsc|done|done|].
  assert (Hpo : process_of (ctl s) w = tcb_pcb tw) by (unfold process_of; by rewrite Htw).
  pose proof (target_list_index _ _ _ Hj) as Hji.
  destruct (alter_state_requeue (ctl s) LS w tw st bd i j) as (c' & M1 & M2 & H1 & Hpl & Hok & Hg & He); try done; [apply Hsc|].
  exists (with_ctl c' s), (upd j (M1 ++ w :: M2) (upd i (filter (fun x => x <> w) (LS i)) LS)). split; [by apply ctl_op_ok|].
  split; [done| |exists M1, M2; by rewrite Hpo| |done|by eapply alter_state_threads|].
  3:{ intros Hso. eapply requeue_sorted; [apply Hsc|done..]. }
  2:{ intros x. cbn [ctl with_ctl]. by rewrite Hg, Htw. }
  split; [exact Hok|by rewrite !upd_ne; [apply Hsc|..]|].
  intros k p tp Hk Hp Htp. cbn [ctl with_ctl] in *. rewrite Hg in Htp. rewrite He. change (get_pcb _ ?x) with (get_pcb (ctl s) x).
  destruct (decide (p = w)) as [->|Hne].
  - injection Htp as <-. rewrite tcb_pcb_with_state. by apply (sc_process _ _ _ Hsc i w tw).
  - assert (p ∈ LS k) as Hin; [|by apply (sc_process _ _ _ Hsc k p tp)]. apply place_split in Hpl. unfold upd in Hp.
    destruct (decide (k = j)) as [->|]; [rewrite Hpl; set_solver|]. destruct (decide (k = i)) as [->|]; [|done].
    by apply list_elem_of_filter in Hp as [_ Hp].
Qed.

(** A listed thread that is not running goes back to the ready list: behind the
    others when there are others. *)
Record woken (s : kstate) (LS : Z -> list addr) (q w : addr) (i : Z) (s' : kstate) (LS' : Z -> list addr) : Prop := {
  wo_rest : s' = with_ctl (ctl s') s;
  wo_sched : scheduled s' LS' q;
  wo_source : LS' i = filter (fun x => x <> w) (LS i);
  wo_ready : LS' READY_STATE ≡ₚ w :: LS READY_STATE;
  wo_front : front_of (LS' READY_STATE) = front_of (LS READY_STATE ++ [w]);
  wo_other : forall k, k <> i -> k <> READY_STATE -> LS' k = LS k;
  wo_tcb : forall x, get_tcb (ctl s') x = if decide (x = w) then with_state READY_STATE None <$> get_tcb (ctl s) w else get_tcb (ctl s) x;
  wo_ctl : ctl s' = set_tcbs (tcbs (ctl s')) (set_thread_lists (thread_lists (ctl s')) (set_links (links (ctl s')) (ctl s)));
  wo_nodes : same_threads (ctl s) (ctl s');
}.

Lemma place_ready_front c pcb l w M1 M2 : place c pcb READY_STATE None l = (M1, M2) ->
  front_of (M1 ++ w :: M2) = front_of (l ++ [w]).
Proof.
  unfold place. rewrite decide_True by done. destruct (span_sat _ (reverse l)) as [a r] eqn:E.
  apply span_sat_app in E. destruct r as [|y r]; intros [= <- <-]; [done|].
  assert (l = reverse (y :: r) ++ reverse a) as -> by (rewrite <-reverse_app, <-E; by rewrite reverse_involutive).
  rewrite reverse_cons. by destruct (reverse r).
Qed.

Lemma wake_ok s LS q w i : scheduled s LS q -> list_index i -> i <> RUNNING_STATE -> i <> READY_STATE -> w ∈ LS i ->
  exists s' LS', ctl_op (alter_state w READY_STATE None) s = Done OK s' /\ woken s LS q w i s' LS'.
Proof.
  intros Hsc Hi Hir Hid Hw.
  destruct (requeue_ok s LS q w READY_STATE None i READY_STATE Hsc) as (s' & LS' & H1 & [Q1 Q2 (M1 & M2 & Hpl & ->) Q4 Q5 Q6 _]); try done.
  exists s', (upd READY_STATE (M1 ++ w :: M2) (upd i (filter (fun x => x <> w) (LS i)) LS)). split; [done|].
  pose proof (place_split _ _ _ _ _ _ _ Hpl) as Hm. split; try done.
  - by rewrite upd_ne, upd_eq.
  - rewrite upd_eq, Hm. by rewrite Permutation_middle.
  - rewrite upd_eq. by eapply place_ready_front.
  - intros k Hk Hkr. by rewrite !upd_ne.
Qed.

(** C24. [deschedule] and [make_runnable] are a pair.  [deschedule] refuses a
    pointer that may not be read; when the word there is not zero it returns 0 at
    once, and when it is zero the thread waits in the list of descheduled threads
    until it is made runnable, and then returns 0.  The look and the sleep are one
    step to everybody else: whatever handlers of devices run between the
    statements of the call where interrupts are on, and between the rounds of its
    lock, whoever they give the processor to and in whatever state the call is
    resumed, the switch that puts the caller to sleep happens in a state in which
    the word is zero.  [make_runnable] takes the first thread with the given id out
    of the list and puts it in the ready list, nobody else moving; when no
    descheduled thread has the id it fails and moves nobody. *)
Theorem deschedule_and_make_runnable (u : ureg_t) (s : kstate) (LS : Z -> list addr) (F : list Z) (me : addr) (t : tcb_t)
    (b : pcb_t) (ts : list addr) (Hca : caller s LS me t b ts) (Hs : space_ok s F) (Hu : vword (esi u)) :
  let p := next_choice (ctl s) LS ts in
  let w := first_sat (sought (ctl s) (s32 (esi u)) DESCHEDULE) (LS DESCHEDULE) in
  (~ readable_range s (esi u) 4 -> handle_deschedule u s = Done (fail u) s) /\
  (readable_range s (esi u) 4 -> mapped_range s (esi u) 4 -> word_at s (esi u) <> 0 ->
     handle_deschedule u s = Done (succeed u) (with_int_flag true s)) /\
  (readable_range s (esi u) 4 -> mapped_range s (esi u) 4 -> word_at s (esi u) = 0 ->
     if decide (p = NULL) then exists s', handle_deschedule u s = Halted s'
     else waits s LS me t (BlockingDetail DESCHEDULE 0) p (succeed u) (handle_deschedule u s)) /\
  (mapped_range s (esi u) 4 -> forall irq spins,
     (forall n, device me (tcb_pcb t) (cr3 s) (esi u) (irq n)) -> Forall (device me (tcb_pcb t) (cr3 s) (esi u)) spins ->
     sleeps_on_zero me (tcb_pcb t) (cr3 s) (esi u) (fun _ _ => True) (deschedule_with irq spins u s)) /\
  match w with
  | None => handle_make_runnable u s = Done (set_eax (u32 (-1)) u) (with_int_flag true s)
  | Some w => exists s' LS', handle_make_runnable u s = Done (set_eax 0 u) s' /\ scheduled s' LS' me /\
      LS' DESCHEDULE = filter (fun x => x <> w) (LS DESCHEDULE) /\ LS' READY_STATE ≡ₚ w :: LS READY_STATE /\
      forall k, k <> DESCHEDULE -> k <> READY_STATE -> LS' k = LS k
  end.
Proof.
  intros p w. pose proof (running_is s LS me (ca_sched _ _ _ _ _ _ Hca)) as Hme.
  destruct (readable_iff s F (esi u) 4 Hs Hu ltac:(lia)) as (rd & Hrd & Hiff).
  assert (Hdes : readable_range s (esi u) 4 -> mapped_range s (esi u) 4 ->
    if decide (word_at s (esi u) <> 0) then handle_deschedule u s = Done (succeed u) (with_int_flag true s)
    else if decide (p = NULL) then exists s', handle_deschedule u s = Halted s'
         else waits s LS me t (BlockingDetail DESCHEDULE 0) p (succeed u) (handle_deschedule u s)).
  { intros Hr Hmap. apply Hiff in Hr as ->. unfold handle_deschedule, deschedule_with. kpure.
    kstep (running_pcb_ok _ _ _ Hme (ca_tcb _ _ _ _ _ _ Hca)).
    change (esi (succeed u)) with (esi u). kstep Hrd. kpure. cbn [negb].
    destruct (enter_ok s LS me t b ts Hca) as (s1 & s2 & LS2 & H1 & Hin1 & Hun & H2 & Hin & Hne). rewrite mutex_lock_eq in H1. kstep H1.
    unfold disable_interrupts. kpure. fold p in H2, Hne.
    destruct (ic_space _ _ _ _ _ _ Hin1) as (Ek & Ec & Em & _).
    assert (L : load32 (esi u) (with_int_flag false s1) = Done (word_at s (esi u)) (with_int_flag false s1)).
    { rewrite (load32_mapped _ F).
      - unfold word_at, places, place_of, byte_at, here. by rewrite Ek, Ec, Em.
      - unfold space_ok. by rewrite Ek, Ec.
      - unfold mapped_range, here. by rewrite Ek, Ec. }
    kstep L. kpure. destruct (decide (word_at s (esi u) <> 0)) as [Hw|Hw].
    - kstep Hun. unfold enable_interrupts. kpure. done.
    - kstep H2. kpure. destruct (decide (p = NULL)) as [Hp|Hp].
      + rewrite bool_decide_true by done. by exists s2.
      + rewrite bool_decide_false by done. cbn [when]. kpure.
        rewrite (unlock_quiet _ _ _ _ (ic_lock _ _ _ _ _ _ Hin)).
        apply (wait_ok s LS me t s2 LS2 p _ (succeed u) _ Hin); [apply Hca|by apply Hne|done|].
        intros s3. unfold enable_interrupts. kpure. done. }
  split; [|split; [|split; [|split]]].
  - intros Hn. destruct rd; [by destruct Hn; apply Hiff|]. unfold handle_deschedule, deschedule_with. kpure.
    kstep (running_pcb_ok _ _ _ Hme (ca_tcb _ _ _ _ _ _ Hca)). change (esi (succeed u)) with (esi u). kstep Hrd. by kpure.
  - intros Hr Hmap Hw. specialize (Hdes Hr Hmap). by rewrite decide_True in Hdes.
  - intros Hr Hmap Hw. specialize (Hdes Hr Hmap). by rewrite decide_False in Hdes by tauto.
  - intros Hmap irq spins Hirq Hsp. apply deschedule_sleeps_on_zero; [done..|]. by eapply caller_underway.
  - assert (Hf : ctl_get (fun c => find_tcb_in_list c (s32 (esi u)) DESCHEDULE) (with_int_flag false s) =
      Done (default NULL w) (with_int_flag false s)).
    { apply (ctl_get_ok (fun c => find_tcb_in_list c (s32 (esi u)) DESCHEDULE)). cbn [ctl with_int_flag].
      apply find_tcb_in_list_ok; [apply Hca|done]. }
    unfold handle_make_runnable, disable_interrupts, enable_interrupts. kpure. kstep Hf.
    destruct w as [x|] eqn:Ew; cbn [default from_option]; unfold id; [|by rewrite decide_True].
    apply first_sat_elem in Ew as [Hx _].
    pose proof (scheduled_ctl s (with_int_flag false s) LS me eq_refl (ca_sched _ _ _ _ _ _ Hca)) as Hsc.
    destruct (sched_thread (ctl s) LS DESCHEDULE x) as (Hxn & _); [apply Hca|done|done|]. rewrite decide_False by done.
    destruct (wake_ok (with_int_flag false s) LS me x DESCHEDULE Hsc) as (s' & LS' & H1 & [_ H2 H3 H4 _ H5 _ _ _]); try done.
    kstep H1. kpure. exists (with_int_flag true s'), LS'. split; [done|]. split; [by apply (scheduled_ctl s')|done].
Qed.

End calls.

Lemma demo_caller : caller demo_user_state demo_LS 100 (demo_tcb 5000 1 RUNNING_STATE blocking_none) (demo_pcb 100) [100; 110; 120].
Proof.
  split; [exact (scheduled_ctl demo_state demo_user_state demo_LS 100 eq_refl demo_scheduled)|done|done|done|exact demo_threads|].
  intros p Hp. rewrite !elem_of_cons, elem_of_nil in Hp. destruct Hp as [->|[->|[->|[]]]]; vm_compute.
  - intros [=].
  - intros _. left.
  - intros [=].
Qed.

Lemma sleep_waits_in_order_witness :
  waits demo_user_state demo_LS 100 (demo_tcb 5000 1 RUNNING_STATE blocking_none) 
    (BlockingDetail SLEEP (u32 (tick_count demo_user_state + 5))) 110 (set_eax 0 (set_esi 5 ureg_zero))
    (handle_sleep (set_esi 5 ureg_zero) demo_user_state).
Proof.
  destruct (sleep_waits_in_order (set_esi 5 ureg_zero) _ _ _ _ _ _ demo_caller) as (_ & _ & H).
  exact (H eq_refl).
Defined.

(** In the demo state the word is zero: the caller sleeps; and with the timer and
    the keyboard at every statement of the call it sleeps only if it still is. *)
Lemma deschedule_and_make_runnable_witness :
  waits demo_user_state demo_LS 100 (demo_tcb 5000 1 RUNNING_STATE blocking_none) (BlockingDetail DESCHEDULE 0) 110
    (succeed (set_esi 0x1003010 ureg_zero)) (handle_deschedule (set_esi 0x1003010 ureg_zero) demo_user_state) /\
  sleeps_on_zero 100 5000 (cr3 demo_user_state) 0x1003010 (fun _ _ => True)
    (deschedule_with (fun n => if Nat.even n then handle_keyboard else handle_timer) [handle_timer; handle_keyboard]
       (set_esi 0x1003010 ureg_zero) demo_user_state).
Proof.
  destruct demo_user_ok as [F HF].
  destruct (deschedule_and_make_runnable (set_esi 0x1003010 ureg_zero) _ _ F _ _ _ _ demo_caller HF) as (_ & _ & H & Hz & _);
    [split; [discriminate|reflexivity]|].
  destruct (demo_range 0x1003010 4) as (_ & _ & Hd); [lia|lia|].
  assert (Hm : mapped_range demo_user_state 0x1003010 4).
  { split; [discriminate|]. split; [discriminate|]. intros v Hv. destruct (Hd v Hv) as (f & rw & us & Hx & _). eauto. }
  split.
  - apply H; [|exact Hm|vm_compute; reflexivity].
    split; [discriminate|]. split; [discriminate|]. intros v Hv. destruct (Hd v Hv) as (f & rw & us & Hx & _). by rewrite Hx.
  - apply (Hz Hm).
    + intros n. destruct (Nat.even n); [apply keyboard_device|apply timer_device].
    + constructor; [apply timer_device|]. constructor; [apply keyboard_device|constructor].
Defined.
