(* ===== verification/ThreadFork.v ===== *)
(** The birth of a thread: [handle_thread_fork] of [kern/system_call.c] and
    [thread_fork_ctrl_blk] of [kern/ctrl_blk.c].  The theorem says where the new
    thread is, what it starts with, and that a call that cannot be served leaves
    nothing behind. *)
From S2P Require Import Prelude Ring KMutex Frames Vm Keyhelp Keyboard Console Machine CtrlBlk Kernel Sched.
From S2P Require Import UserMem Elf Loader Fork Syscall Exceptions Blocking.
#[local] Open Scope Z_scope.

(** * A link node for the ready list *)

(** The lists depend on the link nodes and the fronts only. *)
Lemma lists_are_same c c' ns LS : links c' = links c -> thread_lists c' = thread_lists c -> lists_are c ns LS -> lists_are c' ns LS.
Proof.
  intros El Eh [A1 A2 A3 A4 A5 A6]. split; rewrite ?El, ?Eh; try done. intros i Hi. unfold thread_list. rewrite Eh. by apply A4.
Qed.

Lemma lists_are_node c ns LS i q : lists_are c ns LS -> list_index i -> q ∈ ns i -> is_Some (cells (links c) !! q).
Proof.
  intros Hla Hi Hq. pose proof (la_data _ _ _ Hla i Hi) as Hd. apply list_elem_of_lookup in Hq as [k Hk].
  destruct (Forall2_lookup_l _ _ _ _ _ Hd Hk) as (x & _ & Hx). apply fmap_Some in Hx as (n & Hn & _). by exists n.
Qed.

(** A new node is on no list. *)
Lemma new_link_ok c ns LS n q rest : lists_are c ns LS -> pool (links c) = q :: rest ->
  exists c', new_link n c = Some (q, c') /\ lists_are c' ns LS /\ data <$> cells (links c') !! q = Some n /\ q <> NULL /\
    (forall i, list_index i -> q ∉ ns i) /\ c' = set_links (links c') c.
Proof.
  intros Hla Hp. unfold new_link. rewrite Hp. eexists. split; [done|]. pose proof Hla as [A1 (Z1 & Z2 & Z3 & Z4) A3 A4 A5 A6]. rewrite Hp in *.
  assert (Hq : cells (links c) !! q = None) by (apply Z3; left).
  assert (Hout : forall i, list_index i -> q ∉ ns i).
  { intros i Hi Hin. destruct (lists_are_node c ns LS i q Hla Hi Hin) as [x Hx]. congruence. }
  assert (Hqn : q <> NULL) by (intros ->; apply Z2; left). apply NoDup_cons in Z1 as [Hqr Hnd].
  split; [|split; [by cbn; rewrite lookup_insert_eq|done]]. split; try done; cbn [links set_links cells pool].
  - unfold zone_ok. cbn [cells pool]. split; [done|]. split; [set_solver|]. split.
    + intros p Hpr. rewrite lookup_insert_ne by (by intros ->). apply Z3. by right.
    + by rewrite lookup_insert_ne.
  - intros i Hi. eapply ring_frame; [|by apply A3]. intros p Hpi. rewrite lookup_insert_ne; [done|]. intros <-. by apply (Hout i).
  - intros i Hi. eapply Forall2_impl; [by apply A5|]. cbn. intros p x Hpx. rewrite lookup_insert_ne; [done|]. intros <-. by rewrite Hq in Hpx.
Qed.

(** The loops of [thread_fork_ctrl_blk] and of [alter_state] find the same place,
    and link the node there in the same way. *)
Lemma link_new_source q dest c : q <> dest -> dest <> NULL -> is_Some (cells (links c) !! q) ->
  link_source q dest false READY_STATE c = h ← link_new q dest (cells (links c)); Some (set_links_heap h c).
Proof.
  intros Hqd Hd [n Hn]. unfold link_source, link_new. rewrite decide_False by done.
  assert (Hs : exists m, set_next q dest (cells (links c)) = Some (<[q:=m]> (cells (links c)))) by (unfold set_next; rewrite Hn; by eexists).
  destruct Hs as [m Hs]. rewrite !Hs. cbn [mbind option_bind]. rewrite lookup_insert_ne by done.
  destruct (cells (links c) !! dest) as [d|]; [|done]. cbn [mbind option_bind].
  destruct (set_previous q (previous d) _) as [h|]; [|done]. cbn [mbind option_bind]. destruct (h !! q) as [n1|]; [|done]. cbn [mbind option_bind].
  destruct (set_previous (next n1) q h) as [h1|]; [|done]. cbn [mbind option_bind]. destruct (h1 !! q) as [n2|]; done.
Qed.

Lemma link_thread_eq q pcb t c ns LS : sched_ok c LS -> lists_are c ns LS -> tcb_pcb t = pcb -> is_Some (cells (links c) !! q) ->
  q ∉ ns READY_STATE -> forall d f j, find_destination c t READY_STATE None = Some (Some (d, f, j)) -> 
  (ns READY_STATE <> [] -> d ∈ ns READY_STATE) -> link_thread q pcb c = link_source q d false READY_STATE c.
Proof.
  intros Hs Hla <- Hq Hout d f j Hf Hd. unfold link_thread. unfold find_destination in Hf.
  rewrite decide_False, decide_True in Hf by done.
  assert (Hin : d ∈ ns READY_STATE -> d <> NULL /\ q <> d).
  { intros Hin. split; [|by intros ->]. intros ->. destruct (la_ring _ _ _ Hla READY_STATE ltac:(done)) as (_ & Hn & _). done. }
  destruct (list_cases c ns LS Hla (proj2 Hs) READY_STATE ltac:(done)) as [(E1 & E2 & Hfr)|(x & l & E & Hfr & Hx & Hring)]; rewrite Hfr in Hf |- *;
    cbn [mbind option_bind] in Hf |- *.
  - rewrite decide_True in Hf by done. injection Hf as <- _ _. rewrite !(decide_True (P := NULL = NULL)) by done. cbn [mbind option_bind].
    rewrite (decide_False (P := NULL <> NULL)) by (intros Hx; by apply Hx). unfold link_source. by rewrite !(decide_True (P := NULL = NULL)) by done.
  - rewrite decide_False in Hf by done. rewrite !(decide_False (P := x = NULL)) by done. destruct Hin as [Hdn Hqd]; [apply Hd; by rewrite E|].
    destruct (cells (links c) !! x) as [fn|]; [|done]. cbn [mbind option_bind] in Hf |- *.
    destruct (search previous _ (cells (links c)) (previous fn) (previous fn)) as [same|]; [|done]. cbn [mbind option_bind] in Hf |- *.
    destruct (decide (same = NULL)) as [Hsame|Hsame].
    + injection Hf as -> _ _. rewrite (decide_False (P := same <> NULL)) by (intros Hne; by apply Hne). by rewrite link_new_source.
    + rewrite decide_True by done. destruct (cells (links c) !! same) as [m|]; [|done]. cbn [mbind option_bind] in Hf |- *.
      injection Hf as -> _ _. by rewrite link_new_source.
Qed.

Lemma link_thread_ok q n t c ns LS M1 M2 : sched_ok c LS -> lists_are c ns LS -> data <$> cells (links c) !! q = Some n -> q <> NULL ->
  (forall i, list_index i -> q ∉ ns i) -> place c (tcb_pcb t) READY_STATE None (LS READY_STATE) = (M1, M2) ->
  exists c', link_thread q (tcb_pcb t) c = Some c' /\ same_blocks c c' /\
    lists_are c' (upd READY_STATE (take (length M1) (ns READY_STATE) ++ q :: drop (length M1) (ns READY_STATE)) ns) (upd READY_STATE (M1 ++ n :: M2) LS).
Proof.
  intros Hs Hla Hq Hqn Hout Hpl. destruct (find_destination_ok c ns LS Hla (proj2 Hs) t READY_STATE None READY_STATE M1 M2) as [_ (m1 & m2 & fp & E1 & E2 & E3 & E4)];
    [done|done|]. assert (is_Some (cells (links c) !! q)) as Hqs by (by apply fmap_Some in Hq as (x & -> & _)).
  assert (Hfp : m1 <> [] \/ m2 = []).
  { destruct fp; [|done]. exfalso. clear - E4. unfold find_destination in E4. rewrite decide_False, decide_True in E4 by done.
    destruct (thread_list c READY_STATE); [|done]. cbn [mbind option_bind] in E4. case_decide; [done|].
    destruct (cells (links c) !! z); [|done]. cbn [mbind option_bind] in E4. destruct (search _ _ _ _ _); [|done]. cbn [mbind option_bind] in E4.
    case_decide; [done|]. by destruct (cells (links c) !! z0). }
  rewrite (link_thread_eq q _ t c ns LS Hs Hla eq_refl Hqs (Hout READY_STATE ltac:(done)) _ _ _ E4).
  2:{ intros Hne. rewrite E1 in *. destruct (m2 ++ m1) as [|y l] eqn:E; [apply app_eq_nil in E as [-> ->]; done|]. change (front_of (y :: l)) with y.
      assert (y ∈ m2 ++ m1) as Hy by (rewrite E; left). set_solver. }
  destruct (link_source_ok c ns LS Hla READY_STATE m1 m2 q M1 n M2 false) as (c' & H1 & H2 & H3); try done.
  { by apply place_split in Hpl. }
  exists c'. split; [done|]. split; [done|]. rewrite E1, <-E2, take_app_length, drop_app_length. exact H3.
Qed.

(** * The block of the new thread *)

(** The block [n] joins the ring of its process. *)
Record block_added (c : ctrl) (pcb : addr) (b : pcb_t) (ts : list addr) (n : addr) (t : tcb_t) (c' : ctrl) : Prop := {
  ba_pcb : get_pcb c' pcb = Some (set_tcb_list (front_of (ts ++ [n])) b);
  ba_others : forall q, q <> pcb -> get_pcb c' q = get_pcb c q;
  ba_ring : ring (cells (tcbs c')) (ts ++ [n]);
  ba_pushed : pushed (tcbs c) (tcbs c') n t ts;
  ba_ctl : c' = set_pcbs (pcbs c') (set_tcbs (tcbs c') c);
}.

Lemma push_tcb_ok c pcb b t ts n rest : get_pcb c pcb = Some b -> threads_of c b ts -> zone_ok (tcbs c) -> pool (tcbs c) = n :: rest ->
  exists c', push_tcb pcb t c = Some (n, c') /\ block_added c pcb b ts n t c'.
Proof.
  intros Hb [Hr Hf] Hz Hp. destruct (PUSH_BACK_ok (tcbs c) ts n rest t Hz Hr Hp) as (z & H1 & Hr' & Hpu).
  unfold push_tcb. run Hb. rewrite Hf. run H1.
  assert (Hb1 : get_pcb (set_tcbs z c) pcb = Some b) by done.
  destruct (upd_pcb_some pcb (set_tcb_list (front_of (ts ++ [n]))) (set_tcbs z c) b Hb1) as [c' Hc'].
  run Hc'. assert (Hoth : forall q, q <> pcb -> get_pcb c' q = get_pcb c q).
  { intros q. by destruct (upd_pcb_other _ _ _ _ q b Hc' Hb1) as (_ & _ & H). }
  destruct (upd_pcb_other _ _ _ _ pcb b Hc' Hb1) as (E & Hg & _).
  assert (Ez : tcbs c' = z) by (by rewrite E). rewrite Ez.
  assert (exists x l, ts ++ [n] = x :: l /\ default x (last l) = n) as (x & l & El & Hl).
  { destruct ts as [|x l]; [by exists n, []|]. exists x, (l ++ [n]). by rewrite last_snoc. }
  rewrite El in *. destruct (ring_head _ _ _ Hr') as (m & Hm & _ & Hprev). change (front_of (x :: l)) with x in *. run Hm.
  exists c'. split; [by rewrite Hprev, Hl|]. split; rewrite ?El, ?Ez; first [done|exact E].
Qed.

Lemma pop_tcb_ok c pcb b ts n : get_pcb c pcb = Some b -> threads_of c b (ts ++ [n]) -> zone_ok (tcbs c) ->
  exists c', pop_tcb pcb c = Some c' /\ get_pcb c' pcb = Some (set_tcb_list (front_of ts) b) /\
    (forall q, q <> pcb -> get_pcb c' q = get_pcb c q) /\ ring (cells (tcbs c')) ts /\
    popped (tcbs c) (tcbs c') n (ts ++ [n]) /\ c' = set_pcbs (pcbs c') (set_tcbs (tcbs c') c).
Proof.
  intros Hb [Hr Hf] Hz. destruct (POP_BACK_ok (tcbs c) ts n Hz Hr) as (z & H1 & Hr' & Hpo).
  unfold pop_tcb. run Hb. rewrite Hf. run H1.
  assert (Hb1 : get_pcb (set_tcbs z c) pcb = Some b) by done.
  destruct (upd_pcb_some pcb (set_tcb_list (front_of ts)) (set_tcbs z c) b Hb1) as [c' Hc'].
  assert (Hoth : forall q, q <> pcb -> get_pcb c' q = get_pcb c q).
  { intros q. by destruct (upd_pcb_other _ _ _ _ q b Hc' Hb1) as (_ & _ & H). }
  destruct (upd_pcb_other _ _ _ _ pcb b Hc' Hb1) as (E & Hg & _). assert (Ez : tcbs c' = z) by (by rewrite E).
  exists c'. split; [exact Hc'|]. rewrite Ez. by split_and!.
Qed.

(** The stores to the new block, and the next thread id. *)
Record prepared (s : kstate) (n : addr) (t' : tcb_t) (s' : kstate) : Prop := {
  pp_tcb : forall q, get_tcb (ctl s') q = if decide (q = n) then Some t' else get_tcb (ctl s) q;
  pp_nodes : same_threads (ctl s) (ctl s');
  pp_state : exists k, s' = with_ctl (set_thread_count k (set_tcbs (tcbs (ctl s')) (ctl s))) s;
}.

Lemma update_tcb_prepared s n f t : get_tcb (ctl s) n = Some t -> exists s', update_tcb n f s = Done tt s' /\ prepared s n (f t) s' /\
  thread_count (ctl s') = thread_count (ctl s).
Proof.
  intros Ht. destruct (put_tcb_ok n t (f t) (ctl s) Ht) as (h & Hput & Hd & Hdata & _ & Hn & Hpr).
  eexists. split; [apply ctl_upd_ok; unfold upd_tcb; run Ht; exact Hput|]. split; [|done]. split.
  - intros q. by apply get_tcb_put.
  - split; [done|]. split; [done|]. intros q. split; [apply Hn|apply Hpr].
  - exists (thread_count (ctl s)). by destruct s as [[] ? ? ? ? ? ? ? ? ? ? ? ? ? ?].
Qed.

Lemma fresh_tid_ok s me t : running (ctl s) = Some me -> get_tcb (ctl s) me = Some t -> thread_manager_lock (ctl s) = mutex_init ->
  fresh_tid s = Done (thread_count (ctl s)) (with_ctl (set_thread_count (s32 (thread_count (ctl s) + 1)) (ctl s)) s).
Proof.
  intros Hme Ht Hl. destruct (mutex_lock_ok ThreadManagerLock s mutex_init me t) as (s1 & H1 & Hput); [cbn; by rewrite Hl|done..|].
  injection Hput as Hs1. unfold fresh_tid. kstep H1. kpure. subst s1.
  set (s2 := with_ctl _ (with_ctl _ s)). assert (Hg : get_lock ThreadManagerLock s2 = Some (Mutex LOCKED (tid t))) by done.
  assert (Hu : mutex_unlock ThreadManagerLock s2 = Done tt (with_ctl (set_thread_count (s32 (thread_count (ctl s) + 1)) (ctl s)) s)).
  { unfold mutex_unlock. kstep (load_lock_ok _ _ _ Hg). apply store_lock_ok. cbn [put_lock]. f_equal. unfold s2.
    destruct s as [[] ? ? ? ? ? ? ? ? ? ? ? ? ? ?]. cbn in Hl |- *. by rewrite Hl. }
  kstep Hu. done.
Qed.

Lemma prepared_trans s1 s2 s3 n t t' : prepared s1 n t s2 -> prepared s2 n t' s3 -> prepared s1 n t' s3.
Proof.
  intros [A1 A2 [k A3]] [B1 B2 [k' B3]]. split.
  - intros q. rewrite B1, A1. by case_decide.
  - by eapply same_threads_trans.
  - exists k'. rewrite B3 at 1. rewrite A3. done.
Qed.

(** What the new thread starts with. *)
Definition new_thread (t : tcb_t) (id : Z) (u : ureg_t) : tcb_t :=
  set_kernel_stack (Some (set_eax 0 u)) (set_tid id (set_state READY_STATE (set_exception_stack NULL t))).

Lemma prepare_ok s me tm n t u : running (ctl s) = Some me -> get_tcb (ctl s) me = Some tm -> me <> n -> get_tcb (ctl s) n = Some t ->
  thread_manager_lock (ctl s) = mutex_init ->
  exists s1 s2 s3 s4, update_tcb n (fun t => set_state READY_STATE (set_exception_stack NULL t)) s = Done tt s1 /\
    fresh_tid s1 = Done (thread_count (ctl s)) s2 /\ update_tcb n (set_tid (thread_count (ctl s))) s2 = Done tt s3 /\
    save_ureg n u s3 = Done tt s4 /\ prepared s n (new_thread t (thread_count (ctl s)) u) s4 /\
    thread_count (ctl s4) = s32 (thread_count (ctl s) + 1).
Proof.
  intros Hme Htm Hne Ht Hl. destruct (update_tcb_prepared s n (fun t => set_state READY_STATE (set_exception_stack NULL t)) t Ht) as (s1 & H1 & P1 & C1).
  pose proof P1 as [A1 _ [k A3]]. assert (Er : running (ctl s1) = Some me) by (rewrite A3; exact Hme).
  assert (Etm : get_tcb (ctl s1) me = Some tm) by (rewrite A1, decide_False by done; exact Htm).
  pose proof (fresh_tid_ok s1 me tm Er Etm ltac:(by rewrite A3)) as H2. rewrite C1 in H2.
  set (s2 := with_ctl _ s1) in H2. assert (P2 : prepared s1 n (set_state READY_STATE (set_exception_stack NULL t)) s2).
  { split; [|done|].
    - intros q. change (get_tcb (ctl s2) q) with (get_tcb (ctl s1) q). rewrite A1. by case_decide.
    - eexists. unfold s2. cbn [ctl with_ctl tcbs set_thread_count]. by destruct s1 as [[] ? ? ? ? ? ? ? ? ? ? ? ? ? ?]. }
  destruct (update_tcb_prepared s2 n (set_tid (thread_count (ctl s))) (set_state READY_STATE (set_exception_stack NULL t))) as (s3 & H3 & P3 & C3).
  { rewrite (pp_tcb _ _ _ _ P2). by rewrite decide_True. }
  destruct (update_tcb_prepared s3 n (set_kernel_stack (Some (set_eax 0 u))) _ ltac:(rewrite (pp_tcb _ _ _ _ P3); by rewrite decide_True)) as (s4 & H4 & P4 & C4).
  exists s1, s2, s3, s4. split; [done|]. split; [done|]. split; [done|]. split; [exact H4|]. split; [|by rewrite C4, C3].
  eapply prepared_trans; [exact P1|]. eapply prepared_trans; [exact P2|]. eapply prepared_trans; [exact P3|exact P4].
Qed.

(** * The call *)

(** The lists of a state, from those of its link nodes. *)
Lemma scheduled_lists s s' LS LS' me ns : scheduled s LS me -> lists_are (ctl s') ns LS' -> LS' RUNNING_STATE = LS RUNNING_STATE ->
  (forall i, list_index i -> NoDup (LS' i)) ->
  (forall i p, list_index i -> p ∈ LS' i -> p <> NULL /\ exists t, get_tcb (ctl s') p = Some t /\ home_list t = Some i /\
     is_Some (get_pcb (ctl s') (tcb_pcb t))) -> scheduled s' LS' me.
Proof.
  intros Hsc Hla Hr Hnd Hp. split.
  - split; [by exists ns|]. intros i Hi. split; [by apply Hnd|]. intros p Hin. destruct (Hp i p Hi Hin) as (Hn & t & Ht & Hh & _).
    split; [done|]. by exists t.
  - rewrite Hr. apply Hsc.
  - intros i p t Hi Hin Ht. destruct (Hp i p Hi Hin) as (_ & t' & Ht' & _ & Hb). rewrite Ht in Ht'. by injection Ht' as <-.
Qed.

(** What a successful call leaves: the block [n] of the process [b], ready,
    behind the last ready thread of its process; everything else as it was. *)
Record forked (s : kstate) (LS : Z -> list addr) (me : addr) (t : tcb_t) (b : pcb_t) (ts : list addr) (n : addr) (u : ureg_t)
    (s' : kstate) (LS' : Z -> list addr) : Prop := {
  fk_sched : scheduled s' LS' me;
  fk_place : exists M1 M2, place (ctl s) (tcb_pcb t) READY_STATE None (LS READY_STATE) = (M1, M2) /\ LS' = upd READY_STATE (M1 ++ n :: M2) LS;
  fk_tcb : forall q, get_tcb (ctl s') q = if decide (q = n) then Some (new_thread t (thread_count (ctl s)) u) else get_tcb (ctl s) q;
  fk_pcb : forall q, get_pcb (ctl s') q = if decide (q = tcb_pcb t) then Some (set_tcb_list (front_of (ts ++ [n])) b) else get_pcb (ctl s) q;
  fk_ring : ring (cells (tcbs (ctl s'))) (ts ++ [n]);
  fk_frame : forall q, q ∉ ts -> q <> n -> same_links (cells (tcbs (ctl s))) (cells (tcbs (ctl s'))) q;
  fk_zone : zone_ok (tcbs (ctl s')) /\ thread_manager_lock (ctl s') = mutex_init;
  fk_count : thread_count (ctl s') = s32 (thread_count (ctl s) + 1);
  fk_rest : s' = with_int_flag true (with_ctl (ctl s') s);
}.

(** What a refused call leaves. *)
Record unforked (s : kstate) (LS : Z -> list addr) (me : addr) (b : pcb_t) (ts : list addr) (s' : kstate) : Prop := {
  uf_sched : scheduled s' LS me;
  uf_tcb : forall q, get_tcb (ctl s') q = get_tcb (ctl s) q;
  uf_pcb : forall q, get_pcb (ctl s') q = get_pcb (ctl s) q;
  uf_ring : ring (cells (tcbs (ctl s'))) ts;
  uf_frame : forall q, q ∉ ts -> same_links (cells (tcbs (ctl s))) (cells (tcbs (ctl s'))) q;
  uf_zone : zone_ok (tcbs (ctl s')) /\ thread_manager_lock (ctl s') = mutex_init;
  uf_rest : s' = with_ctl (ctl s') s;
}.

(** The lock of a process is given back, whatever else its block has become. *)
Lemma unlock_process s p b : get_pcb (ctl s) p = Some b -> exists c, mutex_unlock (PcbLock p) s = Done tt (with_ctl c s) /\
  c = set_pcbs (pcbs c) (ctl s) /\ forall q, get_pcb c q = if decide (q = p) then Some (CtrlBlk.set_lock mutex_init b) else get_pcb (ctl s) q.
Proof.
  intros Hb. destruct (unlock_ok (PcbLock p) s (lock b)) as (s' & H1 & Hput); [cbn; by rewrite Hb|].
  cbn [put_lock] in Hput. apply bind_Some in Hput as (c & Hc & [= <-]). exists c. split; [done|].
  destruct (upd_pcb_other _ _ _ _ p b Hc Hb) as (E & Hg & _). split; [done|]. intros q. case_decide as Hq; [by subst q|].
  by destruct (upd_pcb_other _ _ _ _ q b Hc Hb) as (_ & _ & Ho); rewrite Ho.
Qed.

(** The block of the process with its lock as it was. *)
Lemma restored b m (x y : addr) : lock b = mutex_init -> CtrlBlk.set_lock mutex_init (set_tcb_list y (set_tcb_list x (CtrlBlk.set_lock m b))) = set_tcb_list y b.
Proof. destruct b. cbn. by intros ->. Qed.
Lemma set_tcb_list_same b : set_tcb_list (tcb_list b) b = b.
Proof. by destruct b. Qed.

(** The place in the ready list depends on its threads only. *)
Lemma span_sat_ext {A} (f g : A -> bool) l : (forall x, x ∈ l -> f x = g x) -> span_sat f l = span_sat g l.
Proof.
  induction l as [|x l IH]; intros Hf; [done|]. cbn [span_sat]. rewrite Hf by left. rewrite IH; [done|].
  intros y Hy. apply Hf. by right.
Qed.
Lemma place_ready_ext c c' pcb l : (forall q, q ∈ l -> get_tcb c' q = get_tcb c q) -> place c' pcb READY_STATE None l = place c pcb READY_STATE None l.
Proof.
  intros Hl. unfold place. rewrite !(decide_True (P := READY_STATE = READY_STATE)) by done.
  rewrite (span_sat_ext (fun q => bool_decide (process_of c' q = pcb)) (fun q => bool_decide (process_of c q = pcb)) (reverse l)); [done|].
  intros x Hx. apply elem_of_reverse in Hx. rewrite ?reverse_involutive in Hx. unfold process_of. by rewrite (Hl x Hx).
Qed.

(** A new thread among the ready ones. *)
Lemma joins_ready s s' LS me ns n t' M1 M2 : scheduled s LS me -> LS READY_STATE = M1 ++ M2 -> n <> NULL ->
  (forall i p, list_index i -> p ∈ LS i -> p <> n) -> home_list t' = Some READY_STATE -> is_Some (get_pcb (ctl s') (tcb_pcb t')) ->
  (forall p, get_tcb (ctl s') p = if decide (p = n) then Some t' else get_tcb (ctl s) p) ->
  (forall p, is_Some (get_pcb (ctl s) p) -> is_Some (get_pcb (ctl s') p)) ->
  lists_are (ctl s') ns (upd READY_STATE (M1 ++ n :: M2) LS) -> scheduled s' (upd READY_STATE (M1 ++ n :: M2) LS) me.
Proof.
  intros Hsc Hsplit Hn Hold Hh Hpcb Eg Eb Hla. pose proof (sc_sched _ _ _ Hsc) as [_ Hok].
  apply (scheduled_lists s _ LS _ me ns Hsc Hla); [by rewrite upd_ne| |].
  - intros i Hi. unfold upd. destruct (decide (i = READY_STATE)) as [->|]; [|by apply Hok].
    destruct (Hok READY_STATE Hi) as [Hnd _]. rewrite Hsplit in Hnd.
    apply (NoDup_Permutation_proper _ _ (Permutation_middle M1 M2 n)). constructor; [|done].
    rewrite <-Hsplit. intros Hin. by apply (Hold READY_STATE n).
  - intros i p Hi Hin. destruct (decide (p = n)) as [->|Hpn].
    + split; [done|]. exists t'. rewrite Eg, decide_True by done.
      assert (i = READY_STATE) as ->; [|done]. unfold upd in Hin. case_decide as Hd; [done|]. exfalso. by apply (Hold i n).
    + assert (Hin' : p ∈ LS i).
      { unfold upd in Hin. case_decide as Hd; [|done]. subst i. rewrite Hsplit. set_solver. }
      destruct (Hok i Hi) as [_ Hall]. destruct (Hall p Hin') as (Hpn' & tp & Htp & Hht). split; [done|]. exists tp.
      rewrite Eg, decide_False by done. split; [done|]. split; [done|]. by apply Eb, (sc_process _ _ _ Hsc i p).
Qed.

Section thread_fork.
Context (u : ureg_t) (s : kstate) (LS : Z -> list addr) (me : addr) (t : tcb_t) (b : pcb_t) (ts : list addr).
Context (Hca : caller s LS me t b ts) (Hz : zone_ok (tcbs (ctl s))) (Htm : thread_manager_lock (ctl s) = mutex_init).

(** The call up to the new block. *)
Lemma fork_enters n rest : pool (tcbs (ctl s)) = n :: rest -> exists c m c1,
  running (ctl s) = Some me /\ mutex_lock (PcbLock (tcb_pcb t)) s = Done tt (with_ctl c s) /\
  c = set_pcbs (pcbs c) (ctl s) /\ (forall q, get_pcb c q = if decide (q = tcb_pcb t) then Some (CtrlBlk.set_lock m b) else get_pcb (ctl s) q) /\
  push_tcb (tcb_pcb t) t c = Some (n, c1) /\ block_added c (tcb_pcb t) (CtrlBlk.set_lock m b) ts n t c1.
Proof using Hca Hz.
  intros Hp. pose proof Hca as [C1 C2 C3 C4 C5 C6]. pose proof (running_is s LS me C1) as Hme.
  destruct (pcb_lock_ok s me t b Hme C2 C3 C4) as (c & H1 & Hupd & _ & Hb1 & _).
  destruct (upd_pcb_other _ _ _ _ (tcb_pcb t) b Hupd C3) as (E & _ & _).
  assert (Ht1 : threads_of c (CtrlBlk.set_lock (Mutex LOCKED (tid t)) b) ts) by (rewrite E; exact C5).
  assert (Hz1 : zone_ok (tcbs c)) by (by rewrite E). assert (Hp1 : pool (tcbs c) = n :: rest) by (by rewrite E).
  destruct (push_tcb_ok c (tcb_pcb t) _ t ts n rest Hb1 Ht1 Hz1 Hp1) as (c1 & H2 & Hba).
  exists c, (Mutex LOCKED (tid t)), c1. split; [done|]. split; [done|]. split; [done|]. split; [|done].
  intros q. case_decide as Hq; [by subst q|]. destruct (upd_pcb_other _ _ _ _ q b Hupd C3) as (_ & _ & Ho). by apply Ho.
Qed.

(** A thread of the lists is not the new block. *)
Lemma listed_old n rest i p : pool (tcbs (ctl s)) = n :: rest -> list_index i -> p ∈ LS i -> p <> n.
Proof using Hca Hz.
  intros Hp Hi Hin ->. destruct (sched_thread (ctl s) LS i n) as (_ & x & Hx & _); [apply Hca|done|done|].
  destruct Hz as (_ & _ & Hz3 & _). unfold get_tcb in Hx. rewrite Hz3 in Hx; [done|]. rewrite Hp. left.
Qed.

(** The call up to the list node. *)
Lemma fork_prepares n rest : pool (tcbs (ctl s)) = n :: rest -> exists c m c1 s4,
  mutex_lock (PcbLock (tcb_pcb t)) s = Done tt (with_ctl c s) /\
  (forall q, get_pcb c q = if decide (q = tcb_pcb t) then Some (CtrlBlk.set_lock m b) else get_pcb (ctl s) q) /\
  block_added (ctl s) (tcb_pcb t) (CtrlBlk.set_lock m b) ts n t c1 /\
  (forall q, get_pcb c1 q = if decide (q = tcb_pcb t) then Some (set_tcb_list (front_of (ts ++ [n])) (CtrlBlk.set_lock m b)) else get_pcb (ctl s) q) /\
  n <> NULL /\ prepared (with_ctl c1 s) n (new_thread t (thread_count (ctl s)) u) s4 /\
  thread_count (ctl s4) = s32 (thread_count (ctl s) + 1) /\
  thread_fork_ctrl_blk u (with_ctl c s) =
    (q ← ctl_op (new_link n);
     if decide (q = NULL) then ctl_upd (pop_tcb (tcb_pcb t));; mret FAIL
     else disable_interrupts;; ctl_upd (link_thread q (tcb_pcb t));; enable_interrupts;; mret (thread_count (ctl s))) s4.
Proof using Hca Hz Htm.
  intros Hp. destruct (fork_enters n rest Hp) as (c & m & c1 & Hme & H1 & E & Hpc & H2 & Hba). pose proof Hca as [C1 C2 C3 C4 C5 C6].
  pose proof Hba as [B1 B2 B3 B4 B5]. pose proof Hz as (Z1 & Z2 & Z3 & Z4).
  assert (Hn : n <> NULL) by (intros ->; apply Z2; rewrite Hp; left).
  assert (Hno : get_tcb (ctl s) n = None) by (unfold get_tcb; rewrite Z3; [done|rewrite Hp; left]).
  assert (Hmn : me <> n) by (intros ->; congruence).
  assert (Etb : tcbs c = tcbs (ctl s)) by by rewrite E.
  assert (Hg : forall q, q <> n -> get_tcb c1 q = get_tcb (ctl s) q).
  { intros q Hq. unfold get_tcb. rewrite (pushed_other _ _ _ _ _ B4) by done. by rewrite Etb. }
  destruct (prepare_ok (with_ctl c1 s) me t n t u) as (s1 & s2 & s3 & s4 & P1 & P2 & P3 & P4 & Hpp & Hct).
  - cbn [ctl with_ctl]. rewrite B5, E. exact Hme.
  - cbn [ctl with_ctl]. by rewrite Hg.
  - done.
  - apply (pushed_data _ _ _ _ _ B4).
  - cbn [ctl with_ctl]. by rewrite B5, E.
  - assert (Ect : thread_count (ctl (with_ctl c1 s)) = thread_count (ctl s)) by (cbn [ctl with_ctl]; by rewrite B5, E). rewrite Ect in *.
    exists c, m, c1, s4. split; [done|]. split; [done|]. split.
    { split; [done| |done|by rewrite <-Etb|by rewrite B5, E]. intros q Hq. rewrite B2, Hpc by done. by rewrite decide_False. }
    split; [|split; [done|split; [done|split; [done|]]]].
    { intros q. case_decide as Hq; [by subst q|]. rewrite B2, Hpc by done. by rewrite decide_False. }
    unfold thread_fork_ctrl_blk. assert (Hme1 : running (ctl (with_ctl c s)) = Some me) by (cbn [ctl with_ctl]; by rewrite E).
    assert (Ht1 : get_tcb (ctl (with_ctl c s)) me = Some t) by (cbn [ctl with_ctl]; by rewrite E).
    kstep (running_tcb_ok _ _ Hme1). kstep (tcb_at_ok _ _ _ Ht1).
    pose proof (ctl_op_ok (push_tcb (tcb_pcb t) t) (with_ctl c s) n c1 H2) as H2'. kstep H2'.
    rewrite decide_False by done. change (with_ctl c1 (with_ctl c s)) with (with_ctl c1 s). kstep P1. kstep P2. kstep P3. by kstep P4.
Qed.

(** No block: nothing has changed. *)
Lemma fork_no_block : pool (tcbs (ctl s)) = [] -> handle_thread_fork u s = Done (set_eax (u32 (-1)) u) s.
Proof using Hca.
  intros Hp. pose proof Hca as [C1 C2 C3 C4 C5 C6]. pose proof (running_is s LS me C1) as Hme.
  destruct (pcb_lock_ok s me t b Hme C2 C3 C4) as (c & H1 & Hupd & _ & Hb1 & _ & Er & Eg & Hun).
  destruct (upd_pcb_other _ _ _ _ (tcb_pcb t) b Hupd C3) as (E & _ & _).
  unfold handle_thread_fork. kstep (running_pcb_ok _ _ _ Hme C2). kstep H1.
  assert (Hme1 : running (ctl (with_ctl c s)) = Some me) by (cbn [ctl with_ctl]; by rewrite Er).
  assert (Ht1 : get_tcb (ctl (with_ctl c s)) me = Some t) by (cbn [ctl with_ctl]; by rewrite Eg).
  assert (H2 : push_tcb (tcb_pcb t) t c = Some (NULL, c)).
  { unfold push_tcb. run Hb1. rewrite PUSH_BACK_full by by rewrite E. done. }
  pose proof (ctl_op_ok (push_tcb (tcb_pcb t) t) (with_ctl c s) NULL c H2) as H2'.
  assert (H3 : thread_fork_ctrl_blk u (with_ctl c s) = Done FAIL (with_ctl c s)).
  { unfold thread_fork_ctrl_blk. kstep (running_tcb_ok _ _ Hme1). kstep (tcb_at_ok _ _ _ Ht1). kstep H2'. by rewrite decide_True. }
  kstep H3. kstep Hun. done.
Qed.

(** The state in front of the link, seen from the start. *)
Lemma prepared_state n rest c1 m s4 : pool (tcbs (ctl s)) = n :: rest -> block_added (ctl s) (tcb_pcb t) (CtrlBlk.set_lock m b) ts n t c1 ->
  prepared (with_ctl c1 s) n (new_thread t (thread_count (ctl s)) u) s4 ->
  (forall q, get_tcb (ctl s4) q = if decide (q = n) then Some (new_thread t (thread_count (ctl s)) u) else get_tcb (ctl s) q) /\
  ring (cells (tcbs (ctl s4))) (ts ++ [n]) /\ zone_ok (tcbs (ctl s4)) /\
  (forall q, q ∉ ts -> q <> n -> same_links (cells (tcbs (ctl s))) (cells (tcbs (ctl s4))) q) /\
  (forall q, get_pcb (ctl s4) q = get_pcb c1 q) /\ links (ctl s4) = links (ctl s) /\ thread_lists (ctl s4) = thread_lists (ctl s) /\
  thread_manager_lock (ctl s4) = mutex_init /\ s4 = with_ctl (ctl s4) s.
Proof using Hz Htm.
  intros Hp [B1 B2 B3 B4 B5] [A1 A2 [k A3]]. cbn [ctl with_ctl] in *.
  assert (Hl : forall q, same_links (cells (tcbs c1)) (cells (tcbs (ctl s4))) q) by apply A2.
  split_and!.
  - intros q. rewrite A1. case_decide as Hq; [done|]. unfold get_tcb. by rewrite (pushed_other _ _ _ _ _ B4).
  - eapply ring_ext; [|exact B3]. intros q _. apply Hl.
  - eapply same_threads_zone; [exact A2|apply B4].
  - intros q Hq Hn. eapply same_links_trans; [|apply Hl]. unfold same_links. by rewrite (pushed_frame _ _ _ _ _ B4).
  - intros q. rewrite A3. done.
  - by rewrite A3, B5.
  - by rewrite A3, B5.
  - by rewrite A3, B5.
  - by rewrite A3.
Qed.

(** No list node: the block is given back. *)
Lemma fork_no_link n rest : pool (tcbs (ctl s)) = n :: rest -> pool (links (ctl s)) = [] ->
  exists s', handle_thread_fork u s = Done (set_eax (u32 (-1)) u) s' /\ unforked s LS me b ts s'.
Proof using Hca Hz Htm.
  intros Hp Hpl. destruct (fork_prepares n rest Hp) as (c & m & c1 & s4 & H1 & Hpc & Hba & Hpc1 & Hn & Hpp & Hct & Hrun).
  destruct (prepared_state n rest c1 m s4 Hp Hba Hpp) as (Q1 & Q2 & Q3 & Q4 & Q5 & Q6 & Q7 & Q8 & Q9).
  set (b4 := set_tcb_list (front_of (ts ++ [n])) (CtrlBlk.set_lock m b)).
  assert (Hb4 : get_pcb (ctl s4) (tcb_pcb t) = Some b4) by (rewrite Q5, Hpc1; by rewrite decide_True).
  destruct (pop_tcb_ok (ctl s4) (tcb_pcb t) b4 ts n Hb4) as (c5 & H5 & R1 & R2 & R3 & R4 & R5); [by split|done|].
  assert (H6 : thread_fork_ctrl_blk u (with_ctl c s) = Done FAIL (with_ctl c5 s4)).
  { rewrite Hrun. assert (Hnl : new_link n (ctl s4) = Some (NULL, ctl s4)) by (unfold new_link; by rewrite Q6, Hpl).
    kstep (ctl_op_ok (new_link n) s4 NULL (ctl s4) Hnl). rewrite with_ctl_id, decide_True by done.
    by kstep (ctl_upd_ok (pop_tcb (tcb_pcb t)) s4 c5 H5). }
  destruct (unlock_process (with_ctl c5 s4) (tcb_pcb t) _ R1) as (c7 & H7 & E7 & Hg7). cbn [ctl with_ctl] in E7, Hg7.
  exists (with_ctl c7 (with_ctl c5 s4)). pose proof Hca as [C1 C2 C3 C4 C5 C6]. split.
  { unfold handle_thread_fork. kstep (running_pcb_ok _ _ _ (running_is s LS me C1) C2). kstep H1. kstep H6. by kstep H7. }
  assert (Et : forall q, get_tcb c7 q = get_tcb (ctl s) q).
  { intros q. rewrite E7. change (get_tcb (set_pcbs (pcbs c7) c5) q) with (get_tcb c5 q). unfold get_tcb at 1.
    destruct (decide (q = n)) as [->|Hq].
    - rewrite (popped_gone _ _ _ _ R4). unfold get_tcb. destruct Hz as (_ & _ & Hz3 & _). rewrite Hz3; [done|rewrite Hp; left].
    - rewrite (popped_other _ _ _ _ R4) by done. change (get_tcb (ctl s4) q = get_tcb (ctl s) q). rewrite Q1. by rewrite decide_False. }
  assert (Eb : forall q, get_pcb c7 q = get_pcb (ctl s) q).
  { intros q. rewrite Hg7. case_decide as Hq; [subst q|by rewrite R2, Q5, Hpc1, decide_False by done]. rewrite C3. f_equal.
    unfold b4. rewrite restored by done. destruct C5 as [_ <-]. apply set_tcb_list_same. }
  assert (El : links c7 = links (ctl s)) by (rewrite E7, <-Q6, R5; done).
  assert (Eh : thread_lists c7 = thread_lists (ctl s)) by (rewrite E7, <-Q7, R5; done).
  assert (Etm : thread_manager_lock c7 = mutex_init) by (rewrite E7, <-Q8, R5; done).
  assert (Ets : tcbs c7 = tcbs c5) by by rewrite E7. split; cbn [ctl with_ctl]; try done.
  - destruct C1 as [[[ns Hla] Hok] X2 X3]. split; [split|done|].
    + exists ns. by apply (lists_are_same (ctl s)).
    + intros i Hi. destruct (Hok i Hi) as [Hnd Hin]. split; [done|]. intros p Hpi. rewrite Et. by apply Hin.
    + intros i p tp Hi Hin. rewrite Et, Eb. by apply (X3 i).
  - rewrite Ets. exact R3.
  - intros q Hq. rewrite Ets. destruct (decide (q = n)) as [->|Hqn].
    + unfold same_links. rewrite (popped_gone _ _ _ _ R4). destruct Hz as (_ & _ & Hz3 & _). rewrite Hz3; [done|rewrite Hp; left].
    + eapply same_links_trans; [by apply Q4|]. unfold same_links. rewrite (popped_frame _ _ _ _ R4); [done|set_solver|done].
  - rewrite Ets. by split; [apply R4|].
  - by rewrite Q9.
Qed.

(** A block and a node: the thread is there. *)
Lemma fork_served n rest q rq : pool (tcbs (ctl s)) = n :: rest -> pool (links (ctl s)) = q :: rq -> 0 <= thread_count (ctl s) ->
  exists s' LS', handle_thread_fork u s = Done (set_eax (thread_count (ctl s)) u) s' /\ forked s LS me t b ts n u s' LS'.
Proof using Hca Hz Htm.
  intros Hp Hpl Hcount. destruct (fork_prepares n rest Hp) as (c & m & c1 & s4 & H1 & Hpc & Hba & Hpc1 & Hn & Hpp & Hct & Hrun).
  destruct (prepared_state n rest c1 m s4 Hp Hba Hpp) as (Q1 & Q2 & Q3 & Q4 & Q5 & Q6 & Q7 & Q8 & Q9).
  pose proof Hca as [C1 C2 C3 C4 C5 C6]. destruct (sc_sched _ _ _ C1) as [[ns Hla] Hok].
  assert (Hold : forall i p, list_index i -> p ∈ LS i -> p <> n) by (intros i p; by apply (listed_old n rest)).
  destruct (new_link_ok (ctl s4) ns LS n q rq) as (c5 & H5 & Hla5 & Hd5 & Hq & Hout & E5);
    [by apply (lists_are_same (ctl s))|by rewrite Q6|].
  assert (Hg5 : forall p, get_tcb c5 p = if decide (p = n) then Some (new_thread t (thread_count (ctl s)) u) else get_tcb (ctl s) p).
  { intros p. rewrite E5. apply Q1. }
  destruct (place (ctl s) (tcb_pcb t) READY_STATE None (LS READY_STATE)) as [M1 M2] eqn:Hplace.
  assert (Hpl5 : place c5 (tcb_pcb t) READY_STATE None (LS READY_STATE) = (M1, M2)).
  { rewrite (place_ready_ext (ctl s)); [done|]. intros p Hin. rewrite Hg5, decide_False; [done|]. by apply (Hold READY_STATE). }
  assert (Hs5 : sched_ok c5 LS).
  { split; [by exists ns|]. intros i Hi. destruct (Hok i Hi) as [Hnd Hin]. split; [done|]. intros p Hpi. rewrite Hg5, decide_False by by apply (Hold i).
    by apply Hin. }
  destruct (link_thread_ok q n t c5 ns LS M1 M2 Hs5 Hla5 Hd5 Hq Hout Hpl5) as (c6 & H6 & [E6 _] & Hla6).
  set (LS' := upd READY_STATE (M1 ++ n :: M2) LS) in *.
  set (s6 := with_int_flag true (with_ctl c6 s4)).
  assert (H7 : thread_fork_ctrl_blk u (with_ctl c s) = Done (thread_count (ctl s)) s6).
  { rewrite Hrun. kstep (ctl_op_ok (new_link n) s4 q c5 H5). rewrite decide_False by done.
    unfold disable_interrupts, enable_interrupts. kpure.
    pose proof (ctl_upd_ok (link_thread q (tcb_pcb t)) (with_int_flag false (with_ctl c5 s4)) c6 H6) as H6'. kstep H6'. by kpure. }
  assert (Hb6 : get_pcb (ctl s6) (tcb_pcb t) = Some (set_tcb_list (front_of (ts ++ [n])) (CtrlBlk.set_lock m b))).
  { cbn [ctl s6 with_int_flag with_ctl]. rewrite E6, E5. change (get_pcb (ctl s4) (tcb_pcb t) = Some (set_tcb_list (front_of (ts ++ [n])) (CtrlBlk.set_lock m b))).
    rewrite Q5, Hpc1. by rewrite decide_True. }
  destruct (unlock_process s6 (tcb_pcb t) _ Hb6) as (c8 & H8 & E8 & Hg8). cbn [ctl s6 with_int_flag with_ctl] in E8, Hg8.
  exists (with_ctl c8 s6), LS'. split.
  { unfold handle_thread_fork. kstep (running_pcb_ok _ _ _ (running_is s LS me C1) C2). kstep H1. kstep H7. kstep H8. by rewrite decide_False by lia. }
  assert (Et : tcbs c8 = tcbs (ctl s4)) by (rewrite E8, E6, E5; done).
  assert (Eg : forall p, get_tcb c8 p = if decide (p = n) then Some (new_thread t (thread_count (ctl s)) u) else get_tcb (ctl s) p).
  { intros p. unfold get_tcb at 1. rewrite Et. apply Q1. }
  assert (Eb : forall p, get_pcb c8 p = if decide (p = tcb_pcb t) then Some (set_tcb_list (front_of (ts ++ [n])) b) else get_pcb (ctl s) p).
  { intros p. rewrite Hg8. case_decide as Hd.
    - rewrite <-(restored b m NULL (front_of (ts ++ [n])) C4). done.
    - rewrite E6, E5. change (get_pcb (ctl s4) p = get_pcb (ctl s) p). by rewrite Q5, Hpc1, decide_False. }
  split; cbn [ctl with_ctl].
  - apply (joins_ready s _ LS me (upd READY_STATE (take (length M1) (ns READY_STATE) ++ q :: drop (length M1) (ns READY_STATE)) ns) n
      (new_thread t (thread_count (ctl s)) u) M1 M2); try done; cbn [ctl with_ctl].
    + by apply place_split in Hplace.
    + rewrite Eb. by rewrite decide_True.
    + intros p Hsp. rewrite Eb. by case_decide.
    + by apply (lists_are_same c6); [rewrite E8|rewrite E8|].
  - by exists M1, M2.
  - exact Eg.
  - exact Eb.
  - by rewrite Et.
  - intros p Hp1 Hp2. rewrite Et. by apply Q4.
  - rewrite Et. split; [done|]. rewrite E8, E6, E5. exact Q8.
  - rewrite E8, E6, E5. exact Hct.
  - unfold s6. by rewrite Q9.
Qed.

End thread_fork.

(** * The theorem *)

(** C25. [thread_fork] gives the id of the new thread to the caller, and the new
    thread is the next block of the pool, behind the other threads of its process,
    ready at the end of the ready list's run of that process, with the caller's
    registers except [eax], which is 0, no exception stack and a fresh id; no other
    block, list, lock or memory changes.  When the block or the list node cannot be
    allocated the caller gets a negative number and every block and list is as
    before. *)
Theorem thread_fork_starts_thread (u : ureg_t) (s : kstate) (LS : Z -> list addr) (me : addr) (t : tcb_t) (b : pcb_t) (ts : list addr) :
  caller s LS me t b ts -> zone_ok (tcbs (ctl s)) -> thread_manager_lock (ctl s) = mutex_init -> 0 <= thread_count (ctl s) ->
  match pool (tcbs (ctl s)), pool (links (ctl s)) with
  | n :: _, _ :: _ => exists s' LS', handle_thread_fork u s = Done (set_eax (thread_count (ctl s)) u) s' /\ forked s LS me t b ts n u s' LS'
  | _, _ => exists s', handle_thread_fork u s = Done (set_eax (u32 (-1)) u) s' /\ unforked s LS me b ts s'
  end.
Proof.
  intros Hca Hz Htm Hc. destruct (pool (tcbs (ctl s))) as [|n rest] eqn:Hp.
  - exists s. split; [by eapply fork_no_block|]. pose proof Hca as [C1 C2 C3 C4 [C5 _] C6].
    split; try done. by destruct s.
  - destruct (pool (links (ctl s))) as [|q rq] eqn:Hq; [by eapply fork_no_link|by eapply fork_served].
Qed.

Lemma thread_fork_starts_thread_witness :
  exists s' LS', handle_thread_fork ureg_zero demo_user_state = Done (set_eax 6 ureg_zero) s' /\
    forked demo_user_state demo_LS 100 (demo_tcb 5000 1 RUNNING_STATE blocking_none) (demo_pcb 100) [100; 110; 120] 900 ureg_zero s' LS'.
Proof.
  apply (thread_fork_starts_thread ureg_zero _ _ _ _ _ _ demo_caller); [|reflexivity|discriminate].
  split; [decided|]. split; [decided|]. split; [|reflexivity].
  intros p Hp. change (p ∈ [900; 910]) in Hp. rewrite !elem_of_cons, elem_of_nil in Hp. destruct Hp as [->|[->|[]]]; reflexivity.
Defined.
