(* ===== verification/Readline.v ===== *)
(** [readline]: the line editor of [handle_readline] in [kern/system_call.c],
    with the threads it leaves to while nothing is typed.  The reference is the
    function [edit] on lists of characters; the theorem follows a call through any
    number of stops to the line it delivers. *)
From S2P Require Import Prelude Ring KMutex Frames Vm Keyhelp Keyboard Console Machine CtrlBlk Kernel Sched.
From S2P Require Import UserMem Elf Loader Fork Syscall Exceptions Blocking.
#[local] Open Scope Z_scope.

(** * Computations with stops *)

(** One stop: the thread switched to, the state left behind, and the state in
    which somebody switches back. *)
Record stop : Type := Stop { next_thread : addr; left : kstate; back : kstate }.

(** [resumed me h o o']: the outcome [o] of thread [me], resumed after each of the
    stops [h], ends up as [o']. *)
Inductive resumed {A} (me : addr) : list stop -> outcome A -> outcome A -> Prop :=
| resumed_now o : resumed me [] o o
| resumed_later p s k s2 h o : resumed me h (k s2) o -> resumed me (Stop p s s2 :: h) (Switch me p s k) o.

Section resumed.
Context {A B : Type} (me : addr).

Lemma resumed_bind (f : A -> K B) h o a s h' o' : resumed me h o (Done a s) -> resumed me h' (f a s) o' ->
  resumed me (h ++ h') (obind f o) o'.
Proof.
  intros Hr. remember (Done a s) as od eqn:E. revert E. induction Hr as [|p s1 k s2 h o Hr IH]; intros -> Hf; [done|].
  apply (resumed_later me p s1 (fun s => obind f (k s))). by apply IH.
Qed.

Lemma resumed_step (m : K A) (f : A -> K B) s a s1 h o : m s = Done a s1 -> resumed me h (f a s1) o -> resumed me h ((m ≫= f) s) o.
Proof. intros Hm. by rewrite (bind_Done _ _ _ _ _ Hm). Qed.

Lemma resumed_bind' (m : K A) (f : A -> K B) s h a s1 h' o : resumed me h (m s) (Done a s1) -> resumed me h' (f a s1) o ->
  resumed me (h ++ h') ((m ≫= f) s) o.
Proof. apply resumed_bind. Qed.

End resumed.

(** Loops whose rounds may stop. *)
Section resumed_loops.
Context {S R : Type} (me : addr) (body : S -> K (S + R)).

Inductive rsteps : nat -> list stop -> S -> kstate -> S -> kstate -> Prop :=
| rsteps_refl x s : rsteps 0 [] x s x s
| rsteps_step n h h' x s x1 s1 x2 s2 : resumed me h (body x s) (Done (inl x1) s1) ->
    rsteps n h' x1 s1 x2 s2 -> rsteps (Datatypes.S n) (h ++ h') x s x2 s2.

Lemma rsteps_split n1 n2 : forall h x s x2 s2, rsteps (n1 + n2) h x s x2 s2 ->
  exists h1 h2 x1 s1, h = h1 ++ h2 /\ rsteps n1 h1 x s x1 s1 /\ rsteps n2 h2 x1 s1 x2 s2.
Proof.
  induction n1 as [|n1 IH]; intros h x s x2 s2 H; [exists [], h, x, s; do 2 (split; [done || constructor|]); done|].
  inversion H as [|? h1 h' ? ? x3 s3 ? ? Hb Hs]; subst. destruct (IH _ _ _ _ _ Hs) as (h2 & h3 & x' & s' & -> & H1 & H2).
  exists (h1 ++ h2), h3, x', s'. split; [by rewrite app_assoc|]. split; [by econstructor|done].
Qed.

Lemma rounds_all_resumed d : forall h x s x' s', rsteps (2 ^ d)%nat h x s x' s' -> resumed me h (rounds d body x s) (Done (inl x') s').
Proof.
  induction d as [|d IH]; intros h x s x' s' H.
  - cbn in H. inversion H as [|? ? ? ? ? ? ? ? ? Hb Hs]; subst. inversion Hs; subst. by rewrite app_nil_r.
  - rewrite rounds_S. replace (2 ^ Datatypes.S d)%nat with (2 ^ d + 2 ^ d)%nat in H by (cbn; lia).
    apply rsteps_split in H as (h1 & h2 & x1 & s1 & -> & H1 & H2).
    eapply resumed_bind'; [by apply IH|]. by apply IH.
Qed.

Lemma rounds_end_resumed d : forall n h h' x s x' s' r s2, (n < 2 ^ d)%nat -> rsteps n h x s x' s' ->
  resumed me h' (body x' s') (Done (inr r) s2) -> resumed me (h ++ h') (rounds d body x s) (Done (inr r) s2).
Proof.
  induction d as [|d IH]; intros n h h' x s x' s' r s2 Hn H Hb.
  - cbn in Hn. assert (n = 0)%nat as -> by lia. inversion H; subst. done.
  - rewrite rounds_S. destruct (decide (n < 2 ^ d)%nat) as [Hlt|Hge].
    + rewrite <-(app_nil_r (h ++ h')). eapply resumed_bind'; [by eapply IH|constructor].
    + replace n with (2 ^ d + (n - 2 ^ d))%nat in H by lia.
      apply rsteps_split in H as (h1 & h2 & x1 & s1 & -> & H1 & H2). rewrite <-app_assoc.
      eapply resumed_bind'; [by apply rounds_all_resumed|]. eapply IH; [|done|done]. cbn in Hn. lia.
Qed.

(** A loop that ends after [n] more rounds. *)
Lemma loop_end_resumed d n h h' x s x' s' r s2 : (n < 2 ^ d)%nat -> rsteps n h x s x' s' ->
  resumed me h' (body x' s') (Done (inr r) s2) -> resumed me (h ++ h') (loop d body x s) (Done r s2).
Proof.
  intros Hn H Hb. unfold loop. rewrite <-(app_nil_r (h ++ h')). eapply resumed_bind'; [by eapply rounds_end_resumed|constructor].
Qed.

End resumed_loops.

(** * The reference *)

(** What a character does to the line: a backspace takes the last one away, any
    other is added if there is room. *)
Definition edit (l : list Z) (c : Z) : list Z :=
  if decide (c = KHE_BACKSPACE) then removelast l
  else if decide (Z.of_nat (length l) < BUF_LEN) then l ++ [c] else l.

(** What a reader works on: the line so far, the scancodes not yet looked at, the
    state of the keyboard and the console that echoes. *)
Record input : Type := Input { line : list Z; codes : list Z; keys : keyhelp; screen : console }.

(** The next character and what it leaves. *)
Definition next_char (i : input) : option (option Z * input) :=
  '(c, q, k) ← extract_spec (codes i) (keys i);
  match c with
  | None => Some (None, Input (line i) q k (screen i))
  | Some c => '(_, con) ← putbyte c (screen i); Some (Some c, Input (edit (line i) c) q k con)
  end.

(** The state holds this input. *)
Record holds (s : kstate) (i : input) : Prop := {
  ho_line : buf_is (ch_buf s) (line i);
  ho_codes : buf_is (scancode_buf s) (codes i);
  ho_keys : kh s = keys i /\ kh_ok (keys i);
  ho_screen : kcon s = screen i /\ console_ok (screen i);
}.

(** A thread of the process [pcb] runs, its process unlocked, nobody printing; and
    one that finds another thread to leave to. *)
Definition present (me pcb : addr) (s : kstate) : Prop :=
  output_lock s = mutex_init /\ exists LS t b ts, caller s LS me t b ts /\ tcb_pcb t = pcb.
Definition may_leave (me pcb : addr) (s : kstate) : Prop :=
  exists LS t b ts, caller s LS me t b ts /\ tcb_pcb t = pcb /\ next_choice (ctl s) LS ts <> NULL.

(** The next character typed, from state [s] and input [i] on.  The reader stops when
    the scancodes have no character and is resumed in the states [ws], with what has
    been typed since then; nobody else touches the line.  [s'] is the state it was
    last resumed in and [i'] the input after the character. *)
Inductive typed (me pcb : addr) : kstate -> input -> list kstate -> kstate -> Z -> input -> Prop :=
| typed_now s i c i' : next_char i = Some (Some c, i') -> typed me pcb s i [] s c i'
| typed_later s i i1 s2 i2 ws s' c i' : next_char i = Some (None, i1) -> may_leave me pcb s ->
    present me pcb s2 -> holds s2 i2 -> line i2 = line i ->
    typed me pcb s2 i2 ws s' c i' -> typed me pcb s i (s2 :: ws) s' c i'.

(** A line typed: [n] characters and a newline. *)
Inductive session (me pcb : addr) : nat -> kstate -> input -> list kstate -> kstate -> input -> Prop :=
| ses_enter s i ws s' i' : typed me pcb s i ws s' KHE_ENTER i' -> session me pcb 0 s i ws s' i'
| ses_char n s i ws1 s1 c i1 ws2 s' i' : typed me pcb s i ws1 s1 c i1 -> c <> KHE_ENTER ->
    session me pcb n s1 i1 ws2 s' i' -> session me pcb (S n) s i (ws1 ++ ws2) s' i'.

(** How a reader waits: first of the readers if it has the input, else last, its
    process unlocked and another thread running. *)
Definition waiting_reader (me pcb : addr) (first : bool) (s : kstate) (st : stop) : Prop :=
  exists LS LS' t, scheduled s LS me /\ get_tcb (ctl s) me = Some t /\ next_thread st ∈ LS READY_STATE /\
    scheduled (left st) LS' (next_thread st) /\
    LS' READLINE = (if first then me :: LS READLINE else LS READLINE ++ [me]) /\
    get_tcb (ctl (left st)) me = Some (with_state WAITING_STATE (Some (BlockingDetail READLINE (if first then 1 else 0))) t) /\
    get_lock (PcbLock pcb) (left st) = Some mutex_init.

(** The stops of a reader that has the input: it leaves with every scancode looked
    at, and finds the line as it left it. *)
Fixpoint reader_stops (me pcb : addr) (s : kstate) (h : list stop) : Prop :=
  match h with
  | [] => True
  | st :: h => waiting_reader me pcb true s st /\ buf_is (scancode_buf (left st)) [] /\
      (exists l, buf_is (ch_buf (left st)) l /\ buf_is (ch_buf (back st)) l) /\ reader_stops me pcb (back st) h
  end.

(** * Leaving *)

Lemma caller_ctl s s' LS me t b ts : ctl s' = ctl s -> caller s LS me t b ts -> caller s' LS me t b ts.
Proof. intros E [C1 C2 C3 C4 C5 C6]. split; rewrite ?E; try done. by apply (scheduled_ctl s). Qed.

(** The lock of the process is taken and given back in any state with the same
    control blocks. *)
Lemma process_lock me pcb s : present me pcb s -> exists c,
  (forall s1, ctl s1 = ctl s -> mutex_lock (PcbLock pcb) s1 = Done tt (with_ctl c s1)) /\
  (forall s1, ctl s1 = c -> mutex_unlock (PcbLock pcb) s1 = Done tt (with_ctl (ctl s) s1)).
Proof.
  intros (_ & LS & t & b & ts & Hca & <-). pose proof Hca as [C1 C2 C3 C4 _ _]. pose proof (running_is s LS me C1) as Hme.
  destruct (pcb_lock_ok s me t b Hme C2 C3 C4) as (c & _ & Hupd & _). exists c.
  assert (Hall : forall s1, ctl s1 = ctl s -> mutex_lock (PcbLock (tcb_pcb t)) s1 = Done tt (with_ctl c s1) /\
    mutex_unlock (PcbLock (tcb_pcb t)) (with_ctl c s1) = Done tt s1).
  { intros s1 E. destruct (pcb_lock_ok s1 me t b) as (c' & H1 & Hup & _ & _ & _ & _ & _ & H2); [by rewrite E..|done|].
    rewrite E, Hupd in Hup. by injection Hup as <-. }
  split; intros s1 E; [by apply Hall|].
  destruct (Hall (with_ctl (ctl s) s1) eq_refl) as [_ H2]. subst c. change (with_ctl (ctl s1) (with_ctl (ctl s) s1)) with (with_ctl (ctl s1) s1) in H2.
  by rewrite with_ctl_id in H2.
Qed.

Lemma ctl_op_inv {A} (f : ctrl -> option (A * ctrl)) s a s' : ctl_op f s = Done a s' -> exists c, s' = with_ctl c s.
Proof. unfold ctl_op. destruct (f (ctl s)) as [[x c]|]; [|done]. intros [= <- <-]. by exists c. Qed.

(** The place of a reader among the readers. *)
Lemma switched_readers s LS me mt p (first : bool) : p ∉ LS READLINE -> me <> p ->
  switched_lists (ctl s) LS me mt p WAITING_STATE (Some (BlockingDetail READLINE (if first then 1 else 0))) READLINE =
  if first then me :: LS READLINE else LS READLINE ++ [me].
Proof.
  intros Hp Hne. unfold switched_lists. change (target_list WAITING_STATE _) with (Some READLINE). cbv iota.
  assert (Hpl : place (ctl s) (tcb_pcb mt) WAITING_STATE (Some (BlockingDetail READLINE (if first then 1 else 0))) (LS READLINE) =
    if first then ([], LS READLINE) else (LS READLINE, [])).
  { unfold place. rewrite decide_False, decide_False, decide_True by done. by destruct first. }
  rewrite Hpl. destruct first; rewrite upd_ne, upd_eq by done; apply filter_ne_id; set_solver.
Qed.

Lemma block_reader_ok (first : bool) s LS me t b ts c : caller s LS me t b ts ->
  next_choice (ctl s) LS ts <> NULL -> mutex_lock (PcbLock (tcb_pcb t)) s = Done tt (with_ctl c s) ->
  exists p s' k, block_reader (tcb_pcb t) first (with_int_flag false (with_ctl c s)) = Switch me p s' k /\
    (forall s2, waiting_reader me (tcb_pcb t) first s (Stop p s' s2)) /\ 
    (exists r c' e, s' = with_cr3 r (with_cpu_esp0 e (with_ctl c' (with_int_flag false s)))) /\
    forall s2, k s2 = Done tt (with_int_flag false s2).
Proof.
  intros Hca Hnc Hlk. destruct (enter_ok s LS me t b ts Hca) as (s1 & s2 & LS2 & H1 & _ & _ & H2 & Hin & Hne).
  rewrite Hlk in H1. injection H1 as <-. specialize (Hne Hnc). set (p := next_choice (ctl s) LS ts) in *.
  pose proof Hin as [I1 I2 I3 _ I5 I6]. pose proof (ca_tcb _ _ _ _ _ _ Hca) as Ht.
  destruct (unlock_ok _ _ _ I3) as (s3 & H3 & Hput). pose proof (put_lock_scheduled _ _ _ _ LS2 me Hput I1) as Hsc3.
  destruct (put_lock_ctl _ _ _ _ Hput) as (_ & _ & Eg & _). pose proof (put_get_lock _ _ _ _ Hput) as Hg3.
  destruct (sched_thread (ctl s3) LS2 READY_STATE p) as (_ & tp & Htp & _); [apply Hsc3|done|done|].
  assert (Ht3 : get_tcb (ctl s3) me = Some t) by (by rewrite Eg, I2).
  assert (E3 : exists c', s3 = with_ctl c' (with_int_flag false s)).
  { apply ctl_op_inv in H2 as [c2 ->]. cbn [put_lock] in Hput. apply bind_Some in Hput as (c3 & _ & [= <-]). by exists c3. }
  destruct E3 as [c3 E3]. set (bd := BlockingDetail READLINE (if first then 1 else 0)).
  destruct (switch_then_ok (fun _ => mret tt) s3 LS2 me t p tp READY_STATE READLINE WAITING_STATE (Some bd) Hsc3) as (s' & k & H4 & Hsw & Hk); try done.
  assert (Hpr : p ∉ LS2 READLINE).
  { intros Hx. enough (READLINE = READY_STATE) by done. by eapply (target_only_at s3 LS2 me p READY_STATE). }
  assert (Hmp : me <> p) by (apply not_eq_sym; by apply (not_running s3 LS2 me Hsc3 READY_STATE)).
  exists p, s', k. split; [|split; [|split]].
  - unfold block_reader. kstep H2. rewrite bool_decide_false by done. cbn [when]. kpure. kstep H3. exact H4.
  - intros s4. exists LS, (switched_lists (ctl s3) LS2 me t p WAITING_STATE (Some bd)), t. cbn [left back next_thread].
    split; [apply Hca|]. split; [done|]. split; [by rewrite <-I6|]. split; [apply Hsw|]. split; [|split].
    + unfold bd. by rewrite switched_readers, !I5 by done.
    + by rewrite (sw_tcb _ _ _ _ _ _ _ _ _ Hsw), decide_False, decide_True by done.
    + by rewrite (switched_get_lock _ _ _ _ _ _ _ _ _ _ Hsw).
  - rewrite (sw_rest _ _ _ _ _ _ _ _ _ Hsw), E3. by eexists _, _, _.
  - intros s4. rewrite Hk, E3. done.
Qed.

(** * A character *)

Lemma extract_spec_char q : forall k c q' k', extract_spec q k = Some (c, q', k') ->
  match c with Some x => s8 x = x | None => q' = [] end.
Proof.
  induction q as [|s q IH]; intros k c q' k'; cbn [extract_spec]; [by intros [= <- <- <-]|].
  destruct (process_scancode s k) as [[res k1]|]; [|done]. cbn [mbind option_bind]. case_match; [|by apply IH].
  intros [= <- <- <-]. unfold s8. rewrite Zplus_mod_idemp_l || idtac.
  rewrite Z.sub_add. by rewrite Z.mod_mod.
Qed.

Lemma next_char_none i i1 : next_char i = Some (None, i1) ->
  extract_spec (codes i) (keys i) = Some (None, [], keys i1) /\ i1 = Input (line i) [] (keys i1) (screen i).
Proof.
  unfold next_char. destruct (extract_spec _ _) as [[[[c|] q] k]|] eqn:E; [|..|done]; cbn [mbind option_bind].
  - by destruct (putbyte c (screen i)) as [[r con]|].
  - apply extract_spec_char in E as ->. by intros [= <-].
Qed.

Lemma next_char_some i c i1 : next_char i = Some (Some c, i1) -> s8 c = c /\
  extract_spec (codes i) (keys i) = Some (Some c, codes i1, keys i1) /\ 
  exists r, putbyte c (screen i) = Some (r, screen i1) /\ line i1 = edit (line i) c.
Proof.
  unfold next_char. destruct (extract_spec _ _) as [[[[x|] q] k]|] eqn:E; [|done..]. cbn [mbind option_bind].
  destruct (putbyte x (screen i)) as [[r con]|] eqn:Hp; [|done]. intros [= -> <-]. apply extract_spec_char in E as Hs.
  split; [done|]. split; [done|]. by exists r.
Qed.

Lemma scan_ok s i : holds s i -> exists c q k b, extract_spec (codes i) (keys i) = Some (c, q, k) /\
  scan_ch s = Done c (with_kh k (with_scancode_buf b s)) /\ buf_is b q /\ kh_ok k.
Proof.
  intros [H1 H2 [H3 H4] H5]. rewrite <-H3 in H4. 
  destruct (extract_loop_ok (codes i) (S (length (codes i))) (scancode_buf s) (kh s) H2 H4) as (c & q & k & b & Hs & Hb & Hk & He); [lia|].
  exists c, q, k, b. rewrite <-H3. split; [done|]. split; [|done].
  unfold scan_ch, primitive, extract_ch. destruct H2 as [_ _ [-> _] _]. rewrite Nat2Z.id. by rewrite He.
Qed.

(** A state of the call since [s]: its buffers, keyboard and console hold the input,
    its control blocks are [c]. *)
Definition mid (s : kstate) (fl : bool) (c : ctrl) (i : input) (s1 : kstate) : Prop :=
  holds s1 i /\ exists m con k sb cb,
    s1 = with_int_flag fl (with_ctl c (with_input_lock m (with_kcon con (with_kh k (with_scancode_buf sb (with_ch_buf cb s)))))).

Definition locks (me pcb : addr) (s : kstate) (c : ctrl) : Prop :=
  (forall s1, ctl s1 = ctl s -> mutex_lock (PcbLock pcb) s1 = Done tt (with_ctl c s1)) /\
  (forall s1, ctl s1 = c -> mutex_unlock (PcbLock pcb) s1 = Done tt (with_ctl (ctl s) s1)).

(** A round of the waiting loop. *)
Definition await_round (pcb : addr) (_ : unit) : K (unit + Z) :=
  c ← scan_ch;
  match c with
  | Some c => mret (inr c)
  | None =>
      block_reader pcb true;;
      enable_interrupts;;
      mutex_lock (PcbLock pcb);;
      disable_interrupts;;
      mret (inl tt)
  end.

Lemma round_char pcb s fl c i s1 x q k : mid s fl c i s1 -> extract_spec (codes i) (keys i) = Some (Some x, q, k) ->
  exists s2, await_round pcb tt s1 = Done (inr x) s2 /\ mid s fl c (Input (line i) q k (screen i)) s2.
Proof.
  intros [Hh (mi & con & kk & sb & cb & ->)] Hx. destruct (scan_ok _ _ Hh) as (c' & q' & k' & b & Hs & H1 & Hb & Hk).
  rewrite Hx in Hs. injection Hs as <- <- <-. eexists. split; [unfold await_round; by kstep H1|].
  split; [|by exists mi, con, k, b, cb]. destruct Hh as [A1 A2 [A3 A4] A5]. by split.
Qed.

Lemma waiting_reader_ctl me pcb first s s' st : ctl s' = ctl s -> waiting_reader me pcb first s st -> waiting_reader me pcb first s' st.
Proof.
  intros E (LS & LS' & t & H1 & H2 & H3). exists LS, LS', t. split; [by apply (scheduled_ctl s)|]. by rewrite E.
Qed.

Lemma round_wait me pcb s c i s1 i1 s2 c2 : locks me pcb s c -> mid s false c i s1 -> next_char i = Some (None, i1) ->
  may_leave me pcb s -> locks me pcb s2 c2 ->
  exists st, back st = s2 /\ waiting_reader me pcb true s st /\ holds (left st) i1 /\
    resumed me [st] (await_round pcb tt s1) (Done (inl tt) (with_int_flag false (with_ctl c2 s2))).
Proof.
  intros [L1 _] [Hh (mi & con & kk & sb & cb & E)] [Hx Ei]%next_char_none (LS & t & b & ts & Hca & <- & Hnc) [L2 _].
  destruct (scan_ok _ _ Hh) as (c' & q' & k' & bf & Hs & H1 & Hb & Hk). rewrite Hx in Hs. injection Hs as <- <- <-.
  set (u := with_int_flag true (with_ctl (ctl s) (with_kh (keys i1) (with_scancode_buf bf s1)))).
  assert (Hu : with_kh (keys i1) (with_scancode_buf bf s1) = with_int_flag false (with_ctl c u)) by (unfold u; by rewrite E).
  destruct (block_reader_ok true u LS me t b ts c) as (p & s' & k & H2 & H3 & (r & c' & e & E4) & H5);
    [by apply (caller_ctl s)|done|by apply L1|].
  exists (Stop p s' s2). split; [done|]. split; [by apply (waiting_reader_ctl _ _ _ u), H3|]. split.
  - cbn [left]. rewrite E4, Ei. destruct Hh as [A1 A2 [A3 A4] A5]. split; try done.
  - unfold await_round. kstep H1. rewrite Hu. kstep H2. constructor. rewrite H5.
    change (resumed me [] ((enable_interrupts;; mutex_lock (PcbLock (tcb_pcb t));; disable_interrupts;; mret (inl tt)) (with_int_flag false s2))
      (Done (inl tt : unit + Z) (with_int_flag false (with_ctl c2 s2)))).
    unfold enable_interrupts, disable_interrupts. kpure. rewrite (bind_Done _ _ _ _ _ (L2 (with_int_flag true (with_int_flag false s2)) eq_refl)). kpure. constructor.
Qed.

(** The loop that waits for a character. *)
Lemma typed_rounds me pcb s i ws s' x i' : typed me pcb s i ws s' x i' -> present me pcb s ->
  forall c s1, locks me pcb s c -> mid s false c i s1 ->
  exists h s2 s3 c' il, back <$> h = ws /\ reader_stops me pcb s h /\ present me pcb s' /\ locks me pcb s' c' /\
    rsteps me (await_round pcb) (length ws) h tt s1 tt s2 /\ await_round pcb tt s2 = Done (inr x) s3 /\
    mid s' false c' (Input (line il) (codes i') (keys i') (screen il)) s3 /\ next_char il = Some (Some x, i').
Proof.
  induction 1 as [s i x i' Hx|s i i1 s2 i2 ws s' x i' Hx Hml Hpr2 Hh2 Hl2 Ht IH]; intros Hpr c s1 Hlk Hmid.
  - pose proof (next_char_some _ _ _ Hx) as (_ & Hs & _). destruct (round_char pcb s false c i s1 x _ _ Hmid Hs) as (s3 & H1 & H2).
    exists [], s1, s3, c, i. split_and!; try done. apply rsteps_refl.
  - destruct (process_lock me pcb s2 Hpr2) as (c2 & Hlk2).
    destruct (round_wait me pcb s c i s1 i1 s2 c2 Hlk Hmid Hx Hml Hlk2) as (st & E & Hw & Hhl & Hres).
    destruct (IH Hpr2 c2 (with_int_flag false (with_ctl c2 s2)) Hlk2) as (h & s3 & s4 & c' & il & E2 & Hst & Hpr' & Hlk' & Hr & H1 & H2 & H3).
    { split; [by destruct Hh2; split|]. exists (input_lock s2), (kcon s2), (kh s2), (scancode_buf s2), (ch_buf s2). by destruct s2. }
    exists (st :: h), s3, s4, c', il. split; [by cbn; rewrite E, E2|]. split; [|split_and!; try done].
    + pose proof (next_char_none _ _ Hx) as [_ Ei]. split; [done|]. rewrite Ei in Hhl. split; [apply Hhl|]. rewrite E. split; [|done].
      exists (line i). split; [apply Hhl|rewrite <-Hl2; apply Hh2].
    + by apply (rsteps_step me _ _ [st] h tt s1 tt (with_int_flag false (with_ctl c2 s2))).
Qed.

Lemma typed_ok me pcb s i ws s' x i' s1 : typed me pcb s i ws s' x i' -> present me pcb s -> (length ws < 2 ^ 64)%nat ->
  mid s true (ctl s) i s1 ->
  exists h s3 il, back <$> h = ws /\ reader_stops me pcb s h /\ present me pcb s' /\
    resumed me h (await_ch pcb s1) (Done x s3) /\ 
    mid s' true (ctl s') (Input (line il) (codes i') (keys i') (screen il)) s3 /\ next_char il = Some (Some x, i').
Proof.
  intros Ht Hpr Hn [Hh (mi & con & kk & sb & cb & E)]. destruct (process_lock me pcb s Hpr) as (c & Hlk).
  destruct (typed_rounds me pcb s i ws s' x i' Ht Hpr c (with_int_flag false (with_ctl c s1)) Hlk) as
    (h & s2 & s3 & c' & il & E2 & Hst & Hpr' & [_ Hlk'] & Hr & H1 & [H2 (mi' & con' & kk' & sb' & cb' & E3)] & H3).
  { split; [by destruct Hh; split|]. exists mi, con, kk, sb, cb. by rewrite E. }
  exists h, (with_int_flag true (with_ctl (ctl s') s3)), il. do 3 (split; [done|]). split; [|split; [|done]].
  - unfold await_ch. apply (resumed_step me _ _ _ tt (with_ctl c s1)); [apply Hlk; by rewrite E|].
    unfold disable_interrupts, enable_interrupts. kpure.
    rewrite <-(app_nil_r h). eapply resumed_bind'.
    { rewrite <-(app_nil_r h). eapply (loop_end_resumed me (await_round pcb)); [exact Hn|exact Hr|]. rewrite H1. constructor. }
    kpure. apply (resumed_step me _ _ _ tt (with_ctl (ctl s') (with_int_flag true s3))); [apply Hlk'; by rewrite E3|].
    kpure. constructor.
  - split; [by destruct H2; split|]. exists mi', con', kk', sb', cb'. by rewrite E3.
Qed.

(** * A line *)

Lemma push_ch_ok s l x : buf_is (ch_buf s) l -> s8 x = x -> exists b, push_ch x s = Done tt (with_ch_buf b s) /\
  buf_is b (if decide (Z.of_nat (length l) < BUF_LEN) then l ++ [x] else l).
Proof.
  intros Hb Hx. destruct (push_tail_ok (ch_buf s) l x Hb) as (r & b & Hp & Hr). exists b.
  unfold push_ch, buf_op, primitive. rewrite Hp. cbn [mbind option_bind]. split; [done|]. rewrite Hx in Hr. case_decide; [apply Hr|].
  by destruct Hr as [_ ->].
Qed.

Lemma unpush_ch_ok s l : buf_is (ch_buf s) l -> exists b, unpush_ch s = Done tt (with_ch_buf b s) /\ buf_is b (removelast l).
Proof.
  intros Hb. unfold unpush_ch, buf_op, primitive. destruct l as [|x l _] using rev_ind.
  - exists (ch_buf s). by rewrite (pop_tail_empty _ Hb).
  - destruct (pop_tail_ok _ _ _ Hb) as (b & Hp & Hb'). exists b. rewrite Hp. by rewrite removelast_last.
Qed.

Lemma output_lock_ok s me t : output_lock s = mutex_init -> running (ctl s) = Some me -> get_tcb (ctl s) me = Some t ->
  exists m, mutex_lock OutputLock s = Done tt (with_output_lock m s).
Proof.
  intros Ho Hme Ht. destruct (mutex_lock_ok OutputLock s mutex_init me t) as (s' & H1 & Hput); [cbn; by rewrite Ho|done..|].
  cbn [put_lock] in Hput. injection Hput as <-. by eexists.
Qed.

(** The echo and the edit. *)
Lemma echo_ok me pcb s il i' x s1 : present me pcb s -> next_char il = Some (Some x, i') ->
  mid s true (ctl s) (Input (line il) (codes i') (keys i') (screen il)) s1 ->
  exists s2, (mutex_lock OutputLock;; con_op (fun c => '(r, c) ← putbyte x c; Some (r, c));; mutex_unlock OutputLock;;
      if decide (x = KHE_BACKSPACE) then unpush_ch;; mret false
      else if decide (x = KHE_ENTER) then push_ch x;; mret true else push_ch x;; mret false) s1 = Done (bool_decide (x = KHE_ENTER)) s2 /\
    mid s true (ctl s) i' s2.
Proof.
  intros [Ho (LS & t & b & ts & Hca & _)] (Hs8 & _ & r & Hp & Hl)%next_char_some [[A1 A2 [A3 A4] [A5 A6]] (mi & con & kk & sb & cb & E)].
  cbn [line codes keys screen] in *. pose proof (running_is s LS me (ca_sched _ _ _ _ _ _ Hca)) as Hme.
  destruct (output_lock_ok s1 me t) as (m & H1); [by rewrite E..|rewrite E; apply Hca|].
  destruct (putbyte_ok x (screen il) A6) as (con' & Hp' & Hco). rewrite Hp in Hp'. injection Hp' as _ <-.
  set (s2 := with_output_lock mutex_init (with_kcon (screen i') s1)).
  assert (Hs2 : s2 = with_kcon (screen i') s1) by (unfold s2; rewrite E; destruct s; cbn in Ho |- *; by rewrite Ho).
  kstep H1. assert (H2 : con_op (fun c => '(r, c) ← putbyte x c; Some (r, c)) (with_output_lock m s1) = Done r (with_kcon (screen i') (with_output_lock m s1))).
  { unfold con_op, primitive. cbn [kcon with_output_lock]. rewrite A5, Hp. done. }
  kstep H2. assert (H3 : mutex_unlock OutputLock (with_kcon (screen i') (with_output_lock m s1)) = Done tt s2).
  { unfold mutex_unlock. kstep (load_lock_ok OutputLock (with_kcon (screen i') (with_output_lock m s1)) m eq_refl). by apply store_lock_ok. }
  kstep H3. assert (Hmid : forall b, buf_is b (line i') -> mid s true (ctl s) i' (with_ch_buf b s2)).
  { intros bf Hb. rewrite Hs2. split; [by split|]. exists mi, (screen i'), kk, sb, bf. by rewrite E. }
  unfold edit in Hl. destruct (decide (x = KHE_BACKSPACE)) as [Hx|Hx].
  { destruct (unpush_ch_ok s2 _ A1) as (bf & H4 & Hb). kstep H4. rewrite <-Hl in Hb. eexists. split; [|by apply Hmid]. by subst x. }
  destruct (push_ch_ok s2 _ x A1 Hs8) as (bf & H4 & Hb). rewrite <-Hl in Hb. destruct (decide (x = KHE_ENTER)) as [Hx'|Hx']; kstep H4.
  - rewrite bool_decide_true by done. eexists. split; [done|by apply Hmid].
  - rewrite bool_decide_false by done. eexists. split; [done|by apply Hmid].
Qed.

Lemma edit_line_ok me pcb s i ws s' x i' s1 : typed me pcb s i ws s' x i' -> present me pcb s -> (length ws < 2 ^ 64)%nat ->
  mid s true (ctl s) i s1 ->
  exists h s2, back <$> h = ws /\ reader_stops me pcb s h /\ present me pcb s' /\
    resumed me h (edit_line pcb s1) (Done (bool_decide (x = KHE_ENTER)) s2) /\ mid s' true (ctl s') i' s2.
Proof.
  intros Ht Hpr Hn Hmid. destruct (typed_ok me pcb s i ws s' x i' s1 Ht Hpr Hn Hmid) as (h & s3 & il & E & Hst & Hpr' & Hr & Hm & Hx).
  destruct (echo_ok me pcb s' il i' x s3 Hpr' Hx Hm) as (s4 & H4 & Hm4). exists h, s4. do 3 (split; [done|]). split; [|done].
  rewrite <-(app_nil_r h). eapply resumed_bind'; [exact Hr|]. rewrite H4. constructor.
Qed.

Lemma typed_last me pcb s i ws s' x i' : typed me pcb s i ws s' x i' -> s' = default s (last ws).
Proof. induction 1 as [|s i i1 s2 i2 ws s' c i' _ _ _ _ _ _ IH]; [done|]. rewrite last_cons, IH. by destruct (last ws). Qed.

Lemma reader_stops_app me pcb h : forall s h', reader_stops me pcb s h -> reader_stops me pcb (default s (last (back <$> h))) h' ->
  reader_stops me pcb s (h ++ h').
Proof.
  induction h as [|st h IH]; intros s h'; [done|]. cbn [reader_stops app fmap list_fmap]. intros (H1 & H2 & H3 & H4) H'.
  do 3 (split; [done|]). apply IH; [done|]. rewrite last_cons in H'. by destruct (last (back <$> h)).
Qed.

(** A round of the loop over characters. *)
Definition line_round (pcb : addr) (_ : unit) : K (unit + unit) :=
  newline ← edit_line pcb; mret (if (newline : bool) then inr tt else inl tt).

Lemma session_ok me pcb n s i ws s' i' : session me pcb n s i ws s' i' -> present me pcb s -> (length ws < 2 ^ 64)%nat ->
  forall s1, mid s true (ctl s) i s1 ->
  exists h h' s2 s3, back <$> (h ++ h') = ws /\ reader_stops me pcb s (h ++ h') /\ present me pcb s' /\
    rsteps me (line_round pcb) n h tt s1 tt s2 /\ resumed me h' (line_round pcb tt s2) (Done (inr tt) s3) /\
    mid s' true (ctl s') i' s3.
Proof.
  induction 1 as [s i ws s' i' Ht|n s i ws1 s0 c i1 ws2 s' i' Ht Hc Hs IH]; intros Hpr Hn s1 Hmid.
  - destruct (edit_line_ok _ _ _ _ _ _ _ _ s1 Ht Hpr Hn Hmid) as (h & s2 & E & Hst & Hpr' & Hr & Hm).
    exists [], h, s1, s2. do 3 (split; [done|]). split; [apply rsteps_refl|]. split; [|done].
    rewrite <-(app_nil_r h). eapply resumed_bind'; [exact Hr|]. rewrite bool_decide_true by done. constructor.
  - rewrite length_app in Hn. destruct (edit_line_ok _ _ _ _ _ _ _ _ s1 Ht Hpr ltac:(lia) Hmid) as (h1 & s2 & E & Hst & Hpr' & Hr & Hm).
    destruct (IH Hpr' ltac:(lia) s2 Hm) as (h & h' & s3 & s4 & E' & Hst' & Hpr2 & Hrs & Hend & Hm2).
    exists (h1 ++ h), h', s3, s4. rewrite <-app_assoc. split; [by rewrite fmap_app, E, E'|].
    split; [apply reader_stops_app; [done|]; rewrite E; by rewrite <-(typed_last _ _ _ _ _ _ _ _ Ht)|].
    split; [done|]. split; [|done]. apply (rsteps_step me _ n h1 h tt s1 tt s2); [|done].
    rewrite <-(app_nil_r h1). eapply resumed_bind'; [exact Hr|]. rewrite bool_decide_false by done. constructor.
Qed.

(** * The end of the call *)

Section finish.
Context `{Platform}.

Lemma pop_ch_ok s x l : buf_is (ch_buf s) (x :: l) -> exists b, pop_ch s = Done (Some x) (with_ch_buf b s) /\ buf_is b l.
Proof.
  intros Hb. destruct (pop_head_ok _ _ Hb) as (b & Hp & Hb'). exists b. split; [|done]. unfold pop_ch, buf_op, primitive. by rewrite Hp.
Qed.
Lemma pop_ch_empty s : buf_is (ch_buf s) [] -> pop_ch s = Done None s.
Proof. intros Hb. destruct (pop_head_ok _ _ Hb) as (b & Hp & ->). unfold pop_ch, buf_op, primitive. rewrite Hp. by destruct s. Qed.

Lemma deliver_chars buf n : forall l cc s pas, buf_is (ch_buf s) l -> 0 <= buf -> 0 <= cc -> buf + cc + Z.of_nat n <= 2 ^ 32 ->
  length pas = length (take n l) ->
  (forall i a, pas !! i = Some a -> translate (buf + cc + Z.of_nat i) true s = Some (inl a)) ->
  exists b, deliver n cc buf s = Done (cc + Z.of_nat (length (take n l))) (put_bytes (zip pas (u8 <$> take n l)) (with_ch_buf b s)) /\
    buf_is b (drop n l).
Proof.
  induction n as [|n IH]; intros l cc s pas Hb H0 Hc Hw Hlen Htr; cbn [deliver].
  - destruct pas; [|done]. exists (ch_buf s). rewrite Z.add_0_r. split; [by destruct s|done].
  - destruct l as [|x l].
    + kstep (pop_ch_empty s Hb). exists (ch_buf s). destruct pas; [|done]. cbn. rewrite Z.add_0_r. split; [by destruct s|done].
    + destruct (pop_ch_ok s x l Hb) as (b & H1 & Hb'). kstep H1. destruct pas as [|a pas]; [done|].
      assert (Hst : store8 (u32 (buf + cc)) (u8 x) (with_ch_buf b s) = Done tt (put_byte a (u8 x) (with_ch_buf b s))).
      { apply store8_ok. rewrite u32_small by lia. rewrite (translate_rest _ _ s) by done. specialize (Htr 0%nat a eq_refl).
        by rewrite Z.add_0_r in Htr. }
      kstep Hst. destruct (IH l (cc + 1) (put_byte a (u8 x) (with_ch_buf b s)) pas) as (b2 & H2 & Hb2); [done|lia|lia|lia|by injection Hlen|..].
      { intros i y Hi. rewrite (translate_rest _ _ s) by done. specialize (Htr (S i) y Hi). rewrite <-Htr. f_equal. lia. }
      exists b2. rewrite H2. split; [|done]. cbn [take length zip fmap list_fmap put_bytes]. f_equal. lia.
Qed.

(** What the call leaves when [i] was the input in state [s]: the first [len]
    characters of the line in the buffer, in order, no other byte of anybody's
    memory changed, the rest of the line kept for the next reader, the input free. *)
Record delivered (s : kstate) (i : input) (len buf : Z) (s' : kstate) : Prop := {
  de_bytes : forall j c, take (Z.to_nat len) (line i) !! j = Some c -> byte_at (place_of s (buf + Z.of_nat j)) s' = u8 c;
  de_others : forall d w a, own_byte s d w a ->
    ~ (d = page_of (cr3 s) /\ buf <= w < buf + Z.of_nat (length (take (Z.to_nat len) (line i)))) -> byte_at a s' = byte_at a s;
  de_line : buf_is (ch_buf s') (drop (Z.to_nat len) (line i));
  de_input : buf_is (scancode_buf s') (codes i) /\ kh s' = keys i /\ kcon s' = screen i;
  de_lock : input_lock s' = mutex_init;
  de_space : kvm s' = kvm s;
}.

(** The call ends with the number of characters; if a reader waits for the input it
    runs first. *)
Definition hands_over (me pcb : addr) (s : kstate) (i : input) (len buf : Z) (u : ureg_t) (o : outcome ureg_t) : Prop :=
  let v := set_eax (Z.of_nat (length (take (Z.to_nat len) (line i)))) u in
  exists LS t b ts, caller s LS me t b ts /\ tcb_pcb t = pcb /\
  match LS READLINE with
  | [] => exists s', o = Done v s' /\ delivered s i len buf s' /\ scheduled s' LS me
  | r :: rest => exists s' LS' k, o = Switch me r s' k /\ delivered s i len buf s' /\ scheduled s' LS' r /\
      LS' READLINE = rest /\ LS' READY_STATE ≡ₚ me :: LS READY_STATE /\ forall s2, k s2 = Done v (with_int_flag true s2)
  end.

Lemma deliver_line s s1 c i F len buf : mid s true c i s1 -> space_ok s F -> own_range s buf len -> 0 < len ->
  exists s2, deliver (Z.to_nat len) 0 buf s1 = Done (Z.of_nat (length (take (Z.to_nat len) (line i)))) s2 /\
    ctl s2 = c /\ delivered s i len buf (with_input_lock mutex_init s2).
Proof.
  intros [[A1 A2 [A3 _] [A5 _]] (mi & con & kk & sb & cb & E)] Hs Hr Hl. set (out := take (Z.to_nat len) (line i)) in *.
  assert (Hout : Z.of_nat (length out) <= len) by (unfold out; rewrite length_take; lia).
  assert (Hr' : own_range s buf (Z.of_nat (length out))) by (eapply own_range_sub; [exact Hr|lia|lia]). set (pas := places s buf (Z.of_nat (length out))).
  assert (Hlen : length pas = length out) by (unfold pas, places; rewrite length_fmap, length_seqZ; lia).
  assert (Ez : kvm s1 = kvm s /\ cr3 s1 = cr3 s /\ mem s1 = mem s /\ ctl s1 = c) by (by rewrite E). destruct Ez as (Ek & Ec & Em & Ectl).
  destruct Hr as (R1 & R2 & R3). change USER_PAGE_START with 16777216 in *.
  destruct (deliver_chars buf (Z.to_nat len) (line i) 0 s1 pas A1) as (b & H1 & Hb); [lia|lia|lia|exact Hlen|..].
  { intros j a Hj. apply places_lookup in Hj as [Hj ->]. rewrite Z.add_0_r, (translate_rest _ _ s) by done.
    apply (own_range_translate s F buf (Z.of_nat (length out))); [done|done|lia]. }
  fold out in H1. set (abs := zip pas (u8 <$> out)) in *. eexists. split; [exact H1|]. pose proof (put_bytes_rest abs (with_ch_buf b s1)) as Erest.
  split; [by rewrite Erest|]. assert (Hfst : abs.*1 = pas) by (unfold abs; rewrite fst_zip; [done|rewrite length_fmap; lia]).
  assert (Hm : forall a, byte_at a (with_ch_buf b s1) = byte_at a s) by (intros a; unfold byte_at; cbn [mem with_ch_buf]; by rewrite Em).
  split; try (cbn [with_input_lock kvm ch_buf scancode_buf kh kcon input_lock]; try rewrite Erest; done).
  - intros j x Hj. change (byte_at ?a (with_input_lock _ ?z)) with (byte_at a z). fold out in Hj.
    rewrite (put_bytes_at abs (with_ch_buf b s1) j _ (u8 x)); [apply Z.mod_mod; lia|rewrite Hfst; by eapply places_NoDup|].
    unfold abs. apply lookup_zip_Some. split; [|by rewrite list_lookup_fmap, Hj].
    pose proof (lookup_lt_Some _ _ _ Hj) as Hlt. rewrite <-Hlen in Hlt. destruct (lookup_lt_is_Some_2 _ _ Hlt) as [a Ha]. rewrite Ha.
    by apply places_lookup in Ha as [_ ->].
  - intros d w a Ha Hout'. fold out in Hout'. change (byte_at ?a (with_input_lock _ ?z)) with (byte_at a z).
    rewrite put_bytes_other; [done|]. rewrite Hfst. intros Hin. apply Hout'.
    apply list_elem_of_lookup in Hin as [j Hj]. apply places_lookup in Hj as [Hj ->].
    destruct (own_byte_inj s F d w (page_of (cr3 s)) (buf + Z.of_nat j) (place_of s (buf + Z.of_nat j))) as [-> ->];
      [apply Hs|done|eapply own_range_own; [done|lia]|]. split; [done|lia].
Qed.

Lemma delivered_int fl s i len buf s' : delivered s i len buf s' -> delivered s i len buf (with_int_flag fl s').
Proof. by intros []. Qed.

Lemma finish_ok me pcb s i s1 F len buf u : present me pcb s -> mid s true (ctl s) i s1 -> space_ok s F -> own_range s buf len -> 0 < len ->
  hands_over me pcb s i len buf u (finish_readline len buf u s1).
Proof.
  intros [_ (LS & t & b & ts & Hca & Hpcb)] Hm Hs Hr Hl. exists LS, t, b, ts. split; [done|]. split; [done|].
  destruct (deliver_line s s1 (ctl s) i F len buf Hm Hs Hr Hl) as (s2 & H1 & Ec & Hd). unfold finish_readline. kstep H1.
  set (v := set_eax _ u). set (s3 := with_input_lock mutex_init (with_int_flag false s2)).
  assert (H2 : mutex_unlock InputLock (with_int_flag false s2) = Done tt s3).
  { unfold mutex_unlock. kstep (load_lock_ok InputLock (with_int_flag false s2) (input_lock s2) eq_refl). by apply store_lock_ok. }
  unfold disable_interrupts, enable_interrupts. kpure. kstep H2.
  assert (Hsc : scheduled s3 LS me) by (apply (scheduled_ctl s); [done|apply Hca]).
  kstep (front_tcb_ok s3 LS me READLINE Hsc ltac:(done)). pose proof (delivered_int false _ _ _ _ _ Hd) as Hd3. change (with_int_flag false _) with s3 in Hd3.
  destruct (LS READLINE) as [|r rest] eqn:Er.
  - rewrite bool_decide_false by (intros Hx; by apply Hx). cbn [when]. kpure. eexists. split; [done|].
    split; [by apply (delivered_int true)|by apply (scheduled_ctl s3)].
  - change (front_of (r :: rest)) with r. assert (Hin : r ∈ LS READLINE) by (rewrite Er; left).
    destruct (sched_thread (ctl s3) LS READLINE r) as (Hrn & tr & Htr & _); [apply Hsc|done|done|].
    rewrite bool_decide_true by done. cbn [when].
    assert (Ht3 : get_tcb (ctl s3) me = Some t) by (change (ctl s3) with (ctl s2); rewrite Ec; apply Hca).
    destruct (switch_then_ok (fun _ => mret tt) s3 LS me t r tr READLINE READY_STATE READY_STATE None Hsc) as (s4 & k & H3 & Hsw & Hk); try done.
    kstep H3. exists s4, (switched_lists (ctl s3) LS me t r READY_STATE None). eexists. split; [done|].
    assert (Hmr : me <> r) by (apply not_eq_sym; by apply (not_running s3 LS me Hsc READLINE)).
    split; [|split; [apply Hsw|split; [|split]]].
    + pose proof (sw_rest _ _ _ _ _ _ _ _ _ Hsw) as E4. destruct Hd3 as [D1 D2 D3 D4 D5 D6]. split; rewrite E4; done.
    + rewrite (switched_source s3 LS me t r READY_STATE None READLINE READY_STATE) by done. rewrite Er, filter_cons, decide_False by tauto.
      apply filter_ne_id. pose proof (sched_NoDup _ _ READLINE (sc_sched _ _ _ Hsc) ltac:(done)) as Hnd. rewrite Er in Hnd. by apply NoDup_cons in Hnd as [? _].
    + rewrite (switched_dest s3 LS me t r READY_STATE None READY_STATE) by done. rewrite filter_ne_id; [done|].
      intros Hx. enough (READY_STATE = READLINE) by done. by eapply (target_only_at s3 LS me r READLINE).
    + intros s5. cbn beta. rewrite Hk. done.
Qed.

End finish.

(** * The beginning of the call *)

(** The reader gets the input in state [s0]: at once when it is free, else after a
    stop at the end of the readers, when the one that has it hands it over. *)
Definition admitted (me pcb : addr) (s : kstate) (ws : list kstate) (s0 : kstate) : Prop :=
  present me pcb s0 /\ input_lock s0 = mutex_init /\
  match ws with
  | [] => s0 = s
  | _ => ws = [s0] /\ lock_state (input_lock s) = LOCKED /\ may_leave me pcb s
  end.

Lemma try_input_free s me t : input_lock s = mutex_init -> running (ctl s) = Some me -> get_tcb (ctl s) me = Some t ->
  exists m, mutex_try_lock InputLock s = Done OK (with_input_lock m s).
Proof.
  intros Hl Hme Ht. exists (Mutex LOCKED (tid t)). unfold mutex_try_lock. kstep (load_lock_ok InputLock s _ eq_refl).
  set (s1 := with_input_lock (xchange (input_lock s) LOCKED).2 s).
  rewrite (bind_Done _ _ _ _ _ (store_lock_ok InputLock s _ s1 eq_refl)). rewrite decide_True by by rewrite Hl.
  assert (H1 : set_owner InputLock s1 = Done tt (with_input_lock (Mutex LOCKED (tid t)) s)) by (by apply (set_owner_ok InputLock s1 _ me t _ eq_refl)).
  by kstep H1.
Qed.

Lemma try_input_busy s : lock_state (input_lock s) = LOCKED -> mutex_try_lock InputLock s = Done FAIL s.
Proof.
  intros Hl. unfold mutex_try_lock. kstep (load_lock_ok InputLock s _ eq_refl).
  assert (Hst : put_lock InputLock (xchange (input_lock s) LOCKED).2 s = Some s).
  { cbn. rewrite <-Hl. destruct s as [? ? ? ? ? ? ? ? ? ? [] ? ? ? ?]. done. }
  rewrite (bind_Done _ _ _ _ _ (store_lock_ok InputLock s _ s Hst)). rewrite decide_False; [done|]. cbn. by rewrite Hl.
Qed.

Lemma acquire_free me pcb s : present me pcb s -> input_lock s = mutex_init ->
  exists m, acquire_input pcb s = Done tt (with_int_flag true (with_input_lock m s)).
Proof.
  intros Hpr Hl. destruct (process_lock me pcb s Hpr) as (c & L1 & L2). pose proof (L1 s eq_refl) as H1.
  destruct Hpr as [_ (LS & t & b & ts & [C1 C2 C3 C4 C5 C6] & <-)].
  destruct (pcb_lock_ok s me t b (running_is s LS me C1) C2 C3 C4) as (c' & H1' & _ & _ & _ & _ & Er & Eg & _). rewrite H1 in H1'. injection H1' as <-.
  destruct (try_input_free (with_int_flag false (with_ctl c s)) me t) as (m & H2);
    [done|cbn [ctl with_int_flag with_ctl]; rewrite Er; by apply (running_is s LS)|cbn [ctl with_int_flag with_ctl]; by rewrite Eg|].
  exists m. unfold acquire_input, disable_interrupts, enable_interrupts. kstep H1. kpure. kstep H2. rewrite decide_False by done. kpure.
  by rewrite (L2 (with_int_flag true (with_input_lock m (with_int_flag false (with_ctl c s)))) eq_refl).
Qed.

Lemma acquire_busy me pcb s s0 : present me pcb s -> lock_state (input_lock s) = LOCKED -> may_leave me pcb s ->
  present me pcb s0 -> input_lock s0 = mutex_init ->
  exists st m, back st = s0 /\ waiting_reader me pcb false s st /\
    resumed me [st] (acquire_input pcb s) (Done tt (with_int_flag true (with_input_lock m s0))).
Proof.
  intros Hpr Hl (LS & t & b & ts & Hca & <- & Hnc) [_ (LS0 & t0 & b0 & ts0 & Hca0 & _)] Hl0.
  destruct (process_lock me (tcb_pcb t) s Hpr) as (c & L1 & _). pose proof (L1 s eq_refl) as H1.
  destruct (block_reader_ok false s LS me t b ts c Hca Hnc H1) as (p & s' & k & H2 & H3 & _ & Hk).
  destruct (try_input_free (with_int_flag false s0) me t0) as (m & H4);
    [done|apply (running_is s0 LS0); apply Hca0|apply Hca0|].
  exists (Stop p s' s0), m. split; [done|]. split; [done|].
  unfold acquire_input, disable_interrupts, enable_interrupts. kstep H1. kpure.
  rewrite (bind_Done _ _ _ _ _ (try_input_busy (with_int_flag false (with_ctl c s)) Hl)). rewrite decide_True by done. kstep H2. constructor.
  rewrite Hk. change (obind _ (Done tt (with_int_flag false s0))) with
    ((mutex_try_lock InputLock;; modify (with_int_flag true)) (with_int_flag false s0)). kstep H4. constructor.
Qed.

Lemma acquire_ok me pcb s ws s0 : present me pcb s -> admitted me pcb s ws s0 ->
  exists h m, back <$> h = ws /\ Forall (waiting_reader me pcb false s) h /\
    resumed me h (acquire_input pcb s) (Done tt (with_int_flag true (with_input_lock m s0))).
Proof.
  intros Hpr (Hp0 & Hl0 & Hws). destruct ws as [|w ws].
  - subst s0. destruct (acquire_free me pcb s Hpr Hl0) as (m & H). exists [], m. split; [done|]. split; [done|]. rewrite H. constructor.
  - destruct Hws as ([= -> ->] & Hl & Hml). destruct (acquire_busy me pcb s s0 Hpr Hl Hml Hp0 Hl0) as (st & m & E & Hw & H).
    exists [st], m. split; [by cbn; rewrite E|]. split; [by constructor|done].
Qed.

(** * The theorem *)

Section readline.
Context `{Platform}.

(** The call, its last loop by name. *)
Lemma handle_readline_eq (u : ureg_t) : handle_readline u =
  (len ← load32 (esi u);
  buf ← load32 (u32 (esi u + 4));
  if bool_decide (s32 len < 0 \/ s32 len > BUF_LEN) then mret (fail u)
  else
    writable ← is_writable buf (s32 len);
    if negb writable then mret (fail u)
    else if decide (s32 len = 0) then mret (succeed u)
    else
      pcb ← running_pcb; acquire_input pcb;; n ← gets (fun s => element_count (ch_buf s));
    if decide (n > 0) then finish_readline (s32 len) buf u else loop 64 (line_round pcb) tt;; finish_readline (s32 len) buf u).
Proof. unfold handle_readline, line_round. reflexivity. Qed.

(** What the reader finds: a line left over by an earlier call is served as it is,
    otherwise one is typed. *)
Definition line_found (me pcb : addr) (n : nat) (s0 : kstate) (i : input) (ws : list kstate) (s' : kstate) (i' : input) : Prop :=
  match line i with
  | [] => session me pcb n s0 i ws s' i'
  | _ => ws = [] /\ s' = s0 /\ i' = i
  end.

Lemma line_served me pcb n s0 i ws s' i' F len buf u m : present me pcb s0 -> holds s0 i -> line_found me pcb n s0 i ws s' i' ->
  space_ok s' F -> own_range s' buf len -> 0 < len -> Z.of_nat (length ws + n) < 2 ^ 64 ->
  exists h o, back <$> h = ws /\ reader_stops me pcb s0 h /\ hands_over me pcb s' i' len buf u o /\
    resumed me h ((n ← gets (fun s => element_count (ch_buf s));
      if decide (n > 0) then finish_readline len buf u
      else loop 64 (line_round pcb) tt;; finish_readline len buf u) (with_int_flag true (with_input_lock m s0))) o.
Proof.
  intros Hpr Hh Hlf Hs Hr Hl Hn. set (s1 := with_int_flag true (with_input_lock m s0)).
  assert (Hm : mid s0 true (ctl s0) i s1).
  { split; [by destruct Hh; split|]. exists m, (kcon s0), (kh s0), (scancode_buf s0), (ch_buf s0). by destruct s0. }
  kpure. pose proof (ho_line _ _ (proj1 Hm)) as [_ _ [Hcnt _] _]. rewrite Hcnt. unfold line_found in Hlf.
  destruct (line i) as [|x l] eqn:El.
  - rewrite decide_False by (cbn; lia). assert (E64 : (2 ^ 64)%nat = Z.to_nat (2 ^ 64)) by (rewrite <-(Nat2Z.id (2 ^ 64)), Nat2Z.inj_pow; done).
    destruct (session_ok me pcb n s0 i ws s' i' Hlf Hpr ltac:(rewrite E64; lia) s1 Hm) as (h & h' & s2 & s3 & E & Hst & Hpr' & H1 & H2 & Hm').
    exists (h ++ h'), (finish_readline len buf u s3). split; [done|]. split; [done|]. split; [by eapply finish_ok|].
    rewrite <-(app_nil_r (h ++ h')). eapply resumed_bind'; [|apply resumed_now].
    eapply (loop_end_resumed me (line_round pcb)); [|exact H1|exact H2]. rewrite E64. lia.
  - destruct Hlf as (-> & -> & ->). rewrite decide_True by (cbn [length]; lia). exists [], (finish_readline len buf u s1).
    split; [done|]. split; [done|]. split; [by eapply finish_ok|]. constructor.
Qed.

(** C26. [readline].  A length outside 0..1024 or a buffer that may not be written is
    refused and nothing changes; a length of 0 returns at once.  Otherwise the
    thread gets the input, waiting behind the other readers while one of them has
    it; if no line is left over it takes characters as they are typed, leaving to
    another thread as the first of the readers whenever there is none, until a
    newline; every character is shown on the console, a backspace takes back the
    last one of the line.  However often it is resumed, it then stores the first
    [len] characters of the edited line in the buffer and no other byte, keeps the
    rest for the next call, frees the input, lets the next reader run if there is
    one, and returns the number stored. *)
Theorem readline_edits_line (u : ureg_t) (s : kstate) (F : list Z) (me pcb : addr)
    (Hpr : present me pcb s) (Hs : space_ok s F) (Hmem : mem_ok s) (Hargs : mapped_range s (esi u) 8) :
  let len := s32 (word_at s (esi u)) in
  let buf := word_at s (esi u + 4) in
  (~ (0 <= len <= BUF_LEN) \/ 0 < len /\ ~ writable_range s buf len -> handle_readline u s = Done (fail u) s) /\
  (len = 0 -> handle_readline u s = Done (succeed u) s) /\
  (0 < len <= BUF_LEN -> writable_range s buf len -> forall ws0 s0 i n ws s' i' F',
     admitted me pcb s ws0 s0 -> holds s0 i -> line_found me pcb n s0 i ws s' i' ->
     space_ok s' F' -> own_range s' buf len -> Z.of_nat (length ws + n) < 2 ^ 64 ->
     exists h0 h o, resumed me (h0 ++ h) (handle_readline u s) o /\ hands_over me pcb s' i' len buf u o /\
       back <$> h0 = ws0 /\ Forall (waiting_reader me pcb false s) h0 /\
       back <$> h = ws /\ reader_stops me pcb s0 h).
Proof.
  intros len buf. destruct (load_two_args s F (esi u) Hs Hargs) as [L1 L2].
  assert (Hb : 0 <= buf < 2 ^ 32) by by apply word_at_range.
  destruct (decide (0 <= len <= BUF_LEN)) as [Hlen|Hlen].
  2:{ assert (Href : handle_readline u s = Done (fail u) s).
      { rewrite handle_readline_eq. kstep L1. kstep L2. fold len. by rewrite bool_decide_true by lia. }
      split; [done|]. unfold BUF_LEN in *. split; intros; lia. }
  unfold BUF_LEN in Hlen. destruct (is_writable_ok s F buf len Hs Hb ltac:(lia)) as (w & Hw & Hiff).
  assert (Hstart : handle_readline u s = (if negb w then mret (fail u) else if decide (len = 0) then mret (succeed u) else
    pcb ← running_pcb; acquire_input pcb;; n ← gets (fun s => element_count (ch_buf s));
    if decide (n > 0) then finish_readline len buf u else loop 64 (line_round pcb) tt;; finish_readline len buf u) s).
  { rewrite handle_readline_eq. kstep L1. kstep L2. fold len buf. rewrite bool_decide_false by (unfold BUF_LEN; lia). by kstep Hw. }
  rewrite Hstart. split; [|split].
  - intros [?|[Hl Hnw]]; [unfold BUF_LEN in *; lia|]. destruct w; [|done]. exfalso. apply Hnw. destruct (proj1 Hiff eq_refl); [lia|done].
  - intros Hl. assert (w = true) as -> by (apply Hiff; by left). by rewrite decide_True.
  - intros Hl Hwr ws0 s0 i n ws s' i' F' Hadm Hh Hlf Hs' Hr Hn. assert (w = true) as -> by (apply Hiff; by right). cbn [negb].
    rewrite decide_False by lia. destruct Hpr as [Ho (LS & t & b & ts & Hca & <-)].
    kstep (running_pcb_ok s me t (running_is s LS me (ca_sched _ _ _ _ _ _ Hca)) (ca_tcb _ _ _ _ _ _ Hca)).
    destruct (acquire_ok me (tcb_pcb t) s ws0 s0) as (h0 & m & E0 & Hw0 & H0); [split; [done|by exists LS, t, b, ts]|done|].
    destruct (line_served me (tcb_pcb t) n s0 i ws s' i' F' len buf u m (proj1 Hadm) Hh Hlf Hs' Hr ltac:(lia) Hn) as (h & o & E & Hst & Ho' & Hres).
    exists h0, h, o. split_and!; try done. eapply resumed_bind'; [exact H0|exact Hres].
Qed.

End readline.

(** ** A concrete call: nothing typed at first, then h i backspace i newline *)

Definition demo_read_state : kstate := demo_args [5; 0x1003100] demo_user_state.
Definition demo_codes : list Z := [0x23; 0x17; 0x0e; 0x17; 0x1c].
Definition demo_typed_state : kstate := with_scancode_buf (Buf 0 5 (demo_codes ++ replicate 1019 0)) demo_read_state.

Definition demo_step (i : input) : input := default i (snd <$> next_char i).
Definition demo_input (q : list Z) : input := Input [] q keyhelp_init demo_console.
Definition demo_line : input := Nat.iter 5 demo_step (demo_input demo_codes).

Lemma demo_next i c : fst <$> next_char i = Some c -> next_char i = Some (c, demo_step i).
Proof. unfold demo_step. destruct (next_char i) as [[c' i']|]; [|done]. by intros [= ->]. Qed.

Lemma demo_caller_at s : ctl s = demo_ctrl ->
  caller s demo_LS 100 (demo_tcb 5000 1 RUNNING_STATE blocking_none) (demo_pcb 100) [100; 110; 120].
Proof. intros E. by apply (caller_ctl demo_user_state); [|exact demo_caller]. Qed.

Lemma demo_present s : ctl s = demo_ctrl -> output_lock s = mutex_init -> present 100 5000 s.
Proof. intros E Ho. split; [done|]. eexists _, _, _, _. split; [by apply demo_caller_at|done]. Qed.

Lemma demo_holds s : ch_buf s = buf_init -> kh s = keyhelp_init -> kcon s = demo_console -> forall q, buf_is (scancode_buf s) q ->
  holds s (demo_input q).
Proof. intros E1 E2 E3 q Hq. split; [rewrite E1; exact buf_init_empty|done|split; [done|exact keyhelp_init_ok]|split; [done|exact demo_console_ok]]. Qed.

Lemma demo_codes_buf : buf_is (scancode_buf demo_typed_state) demo_codes.
Proof.
  split; [by vm_compute|by vm_compute|split; [done|by vm_compute]|].
  intros i x Hi. do 5 (destruct i as [|i]; [injection Hi as <-; by vm_compute|]). by destruct i.
Qed.

Lemma demo_session : session 100 5000 4 demo_read_state (demo_input []) [demo_typed_state] demo_typed_state demo_line.
Proof.
  apply (ses_char 100 5000 3 _ _ [demo_typed_state] demo_typed_state 104 (demo_step (demo_input demo_codes)) []); [|done|].
  - apply (typed_later 100 5000 _ _ (demo_input []) _ (demo_input demo_codes)); [by vm_compute| | | |done|].
    + eexists _, _, _, _. split; [by apply demo_caller_at|]. split; [done|by vm_compute].
    + by apply demo_present.
    + apply demo_holds; [done..|exact demo_codes_buf].
    + apply typed_now. apply demo_next. by vm_compute.
  - do 3 (eapply (ses_char 100 5000 _ _ _ [] demo_typed_state _ _ []); [apply typed_now, demo_next; vm_compute; reflexivity|done|]).
    apply ses_enter, typed_now, demo_next. by vm_compute.
Qed.

Lemma readline_edits_line_witness : line demo_line = [104; 105; 10] /\
  exists h0 h o, resumed 100 (h0 ++ h) (handle_readline demo_call demo_read_state) o /\
    hands_over 100 5000 demo_typed_state demo_line 5 0x1003100 demo_call o /\ length (h0 ++ h) = 1%nat.
Proof.
  split; [by vm_compute|]. destruct demo_user_ok as [F HF].
  destruct (readline_edits_line demo_call demo_read_state F 100 5000) as (_ & _ & H);
    [by apply demo_present|exact HF|apply mem_ok_put; intros a; vm_compute; by split|exact demo_alloc_mapped|].
  assert (word_at demo_read_state (esi demo_call) = 5) as E1 by by vm_compute.
  assert (word_at demo_read_state (esi demo_call + 4) = 0x1003100) as E2 by by vm_compute.
  rewrite E1, E2 in H. assert (E3 : s32 5 = 5) by done. rewrite E3 in H. assert (Hw : writable_range demo_read_state 0x1003100 5).
  { split; [done|]. split; [done|]. intros w Hw.
    assert (w = 0x1003100 \/ w = 0x1003101 \/ w = 0x1003102 \/ w = 0x1003103 \/ w = 0x1003104) as Hc by lia.
    by destruct Hc as [->|[->|[->|[->| ->]]]]; vm_compute. }
  destruct (H ltac:(by split) Hw [] demo_read_state (demo_input []) 4%nat [demo_typed_state] demo_typed_state demo_line F)
    as (h0 & h & o & H1 & H2 & H3 & _ & H4 & _).
  - split; [by apply demo_present|]. split; [reflexivity|]. cbv iota. reflexivity.
  - apply demo_holds; [done..|]. exact buf_init_empty.
  - exact demo_session.
  - exact HF.
  - by apply demo_range.
  - by vm_compute.
  - exists h0, h, o. split; [done|]. split; [done|]. rewrite length_app, <-(length_fmap back h0), <-(length_fmap back h), H3, H4. done.
Defined.
