(* ===== verification/Vanish.v ===== *)
(** Leaving: [handle_vanish] of [kern/system_call.c].  The theorem says who runs
    next, that the caller ends in the list of terminated threads and is no longer
    counted as alive, and that a waiting parent is woken by the last thread. *)
From S2P Require Import Prelude Ring KMutex Frames Vm Keyhelp Keyboard Console Machine CtrlBlk Kernel Sched.
From S2P Require Import UserMem Elf Loader Fork Syscall Exceptions Blocking.
#[local] Open Scope Z_scope.

(** ** The threads that are alive *)

Definition live (c : ctrl) (ts : list addr) : list addr := filter (fun p => state_of c p <> TERMINATED_STATE) ts.

Lemma live_ext c c' ts : (forall p, p ∈ ts -> state_of c' p = TERMINATED_STATE <-> state_of c p = TERMINATED_STATE) ->
  live c' ts = live c ts.
Proof.
  induction ts as [|x ts IH]; intros H; [done|]. unfold live in *. rewrite !filter_cons.
  assert (state_of c' x = TERMINATED_STATE <-> state_of c x = TERMINATED_STATE) as Hx by (apply H; left).
  rewrite IH by (intros p Hp; apply H; by right). repeat case_decide; tauto.
Qed.

Lemma live_leaves c c' ts me : NoDup ts -> me ∈ ts -> state_of c me <> TERMINATED_STATE -> state_of c' me = TERMINATED_STATE ->
  (forall p, p <> me -> state_of c' p = TERMINATED_STATE <-> state_of c p = TERMINATED_STATE) ->
  length (live c ts) = S (length (live c' ts)).
Proof.
  intros Hnd Hin H1 H2 H3. apply list_elem_of_split in Hin as (l1 & l2 & ->). apply NoDup_app in Hnd as (_ & Hd & Hnd).
  apply NoDup_cons in Hnd as [Hn2 _]. assert (me ∉ l1) as Hn1 by (intros Hx; apply (Hd _ Hx); left).
  assert (forall l, me ∉ l -> live c' l = live c l) as He.
  { intros l Hl. apply live_ext. intros p Hp. apply H3. by intros ->. }
  unfold live in *. rewrite !filter_app, !filter_cons, !length_app. rewrite decide_True, decide_False by tauto.
  rewrite !He by done. cbn [length]. lia.
Qed.

(** A thread of a list is alive, unless the list is that of the terminated ones. *)
Lemma listed_alive c LS i p : sched_ok c LS -> list_index i -> p ∈ LS i -> i <> TERMINATED_STATE ->
  state_of c p <> TERMINATED_STATE.
Proof.
  intros Hs Hi Hp Hit He. destruct (sched_thread c LS i p Hs Hi Hp) as (_ & t & Ht & Hh). unfold state_of in He. rewrite Ht in He.
  unfold home_list in Hh. rewrite He in Hh. rewrite bool_decide_true, decide_False in Hh by done. congruence.
Qed.

Lemma listed_terminated c LS p : sched_ok c LS -> p ∈ LS TERMINATED_STATE -> state_of c p = TERMINATED_STATE.
Proof.
  intros Hs Hp. destruct (sched_thread c LS TERMINATED_STATE p Hs ltac:(done) Hp) as (_ & t & Ht & Hh). unfold state_of. rewrite Ht.
  unfold home_list in Hh. case_bool_decide; [|done]. case_decide; [|by injection Hh]. case_bool_decide as Hr; [|done].
  injection Hh as E. rewrite E in Hr. lia.
Qed.

Lemma state_of_tcb c p t : get_tcb c p = Some t -> state_of c p = state t.
Proof. intros H. unfold state_of. by rewrite H. Qed.

(** ** Waking the parent *)

(** Nothing, when nobody waits. *)
Definition waiter_woken (s : kstate) (LS : Z -> list addr) (q : addr) (w : option addr) (s' : kstate) (LS' : Z -> list addr) : Prop :=
  match w with
  | None => s' = s /\ LS' = LS
  | Some w => w ∈ LS VANISH_WAIT /\ woken s LS q w VANISH_WAIT s' LS'
  end.

Lemma wake_waiter_ok s LS q pcb : scheduled s LS q ->
  exists s' LS', wake_waiter pcb s = Done tt s' /\
    waiter_woken s LS q (first_sat (sought (ctl s) pcb VANISH_WAIT) (LS VANISH_WAIT)) s' LS'.
Proof.
  intros Hsc. unfold wake_waiter.
  assert (Hf : ctl_get (fun c => find_tcb_in_list c pcb VANISH_WAIT) s =
    Done (default NULL (first_sat (sought (ctl s) pcb VANISH_WAIT) (LS VANISH_WAIT))) s).
  { apply (ctl_get_ok (fun c => find_tcb_in_list c pcb VANISH_WAIT)). apply find_tcb_in_list_ok; [apply Hsc|done]. }
  kstep Hf. destruct (first_sat _ _) as [w|] eqn:E; cbn [default from_option]; unfold id.
  - apply first_sat_elem in E as [Hw _]. destruct (sched_thread (ctl s) LS VANISH_WAIT w) as (Hn & _); [apply Hsc|done|done|].
    rewrite bool_decide_true by done. cbn [when].
    destruct (wake_ok s LS q w VANISH_WAIT Hsc) as (s' & LS' & H1 & H2); [done..|]. kstep H1. by exists s', LS'.
  - rewrite bool_decide_false by tauto. by exists s, LS.
Qed.

Section woken_facts.
Context (s : kstate) (LS : Z -> list addr) (q : addr) (w : option addr) (s' : kstate) (LS' : Z -> list addr).
Context (Hsc : scheduled s LS q) (Hw : waiter_woken s LS q w s' LS').

Lemma ww_rest : s' = with_ctl (ctl s') s /\ pcbs (ctl s') = pcbs (ctl s).
Proof. destruct w as [x|]; [destruct Hw as [_ [E _ _ _ _ _ _ Hc _]]; split; [done|by rewrite Hc]|]. destruct Hw as [-> _]. split; [symmetry; apply with_ctl_id|done]. Qed.

Lemma ww_sched : scheduled s' LS' q.
Proof. destruct w as [x|]; [apply Hw|]. by destruct Hw as [-> ->]. Qed.

Lemma ww_ready : LS' READY_STATE ≡ₚ option_list w ++ LS READY_STATE /\
  front_of (LS' READY_STATE) = front_of (LS READY_STATE ++ option_list w).
Proof. destruct w as [x|]; [destruct Hw as [_ []]; by split|]. destruct Hw as [_ ->]. cbn. by rewrite app_nil_r. Qed.

Lemma ww_others k : list_index k -> k <> READY_STATE -> LS' k = filter (fun p => Some p <> w) (LS k).
Proof.
  intros Hk Hr. destruct w as [x|].
  - destruct Hw as [Hx [_ _ H1 _ _ H2 _ _ _]].
    assert (filter (fun p => Some p <> Some x) (LS k) = filter (fun p => p <> x) (LS k)) as ->
      by (apply list_filter_iff; intros p; split; congruence).
    destruct (decide (k = VANISH_WAIT)) as [->|Hne]; [done|]. rewrite H2 by done. rewrite filter_ne_id; [done|].
    intros Hin. apply Hne. destruct (sched_thread (ctl s) LS VANISH_WAIT x) as (_ & t & Ht & Hh); [apply Hsc|done|done|].
    eapply sched_not_elsewhere; [apply Hsc|exact Ht|exact Hh|done|done].
  - destruct Hw as [_ ->]. induction (LS k) as [|p l IH]; [done|]. rewrite filter_cons, decide_True by done. by rewrite <-IH.
Qed.

Lemma ww_state p : state_of (ctl s') p = TERMINATED_STATE <-> state_of (ctl s) p = TERMINATED_STATE.
Proof.
  destruct w as [x|]; [|by destruct Hw as [-> _]]. destruct Hw as [Hx [_ _ _ _ _ _ Ht _ _]].
  unfold state_of at 1. rewrite Ht. case_decide as He; [|done]. subst x.
  pose proof (listed_alive (ctl s) LS VANISH_WAIT p ltac:(apply Hsc) ltac:(done) Hx ltac:(done)) as Ha.
  unfold state_of in Ha |- *. destruct (get_tcb (ctl s) p); cbn; [|done]. split; [done|tauto].
Qed.

Lemma ww_tcb p : p = q -> get_tcb (ctl s') p = get_tcb (ctl s) p.
Proof.
  intros ->. destruct w as [x|]; [|by destruct Hw as [-> _]]. destruct Hw as [Hx [_ _ _ _ _ _ Ht _ _]].
  rewrite Ht, decide_False; [done|]. intros <-. by eapply (not_running s LS q Hsc VANISH_WAIT).
Qed.

End woken_facts.

(** ** The last thread leaves *)

(** The ready list once a waiting parent has joined it. *)
Definition ready_then (c : ctrl) (LS : Z -> list addr) (parent : addr) : list addr :=
  LS READY_STATE ++ option_list (first_sat (sought c parent VANISH_WAIT) (LS VANISH_WAIT)).

Lemma leave_process_ok s LS q pcb b : scheduled s LS q -> get_pcb (ctl s) pcb = Some b ->
  let p := front_of (ready_then (ctl s) LS (parent_pcb_ptr b)) in
  let w := first_sat (sought (ctl s) (parent_pcb_ptr b) VANISH_WAIT) (LS VANISH_WAIT) in
  exists s' LS', leave_process pcb s = (if decide (p = NULL) then Halted s' else Done p s') /\
    scheduled s' LS' q /\ (p <> NULL -> p ∈ LS' READY_STATE) /\
    LS' READY_STATE ≡ₚ ready_then (ctl s) LS (parent_pcb_ptr b) /\
    (forall k, list_index k -> k <> READY_STATE -> LS' k = filter (fun x => Some x <> w) (LS k)) /\
    (forall x, state_of (ctl s') x = TERMINATED_STATE <-> state_of (ctl s) x = TERMINATED_STATE) /\
    get_tcb (ctl s') q = get_tcb (ctl s) q /\ s' = with_ctl (ctl s') s /\ pcbs (ctl s') = pcbs (ctl s).
Proof.
  intros Hsc Hb p w. destruct (wake_waiter_ok s LS q (parent_pcb_ptr b) Hsc) as (s1 & LS1 & H1 & Hw). fold w in Hw.
  pose proof (ww_sched _ _ _ _ _ _ Hsc Hw) as Hsc1. destruct (ww_rest _ _ _ _ _ _ Hw) as [E1 P1].
  destruct (ww_ready _ _ _ _ _ _ Hw) as [R1 R2]. fold (ready_then (ctl s) LS (parent_pcb_ptr b)) in R2. fold p in R2.
  destruct (round_robin_step s1 LS1 q Hsc1) as (s2 & H2 & E2 & Hsb & Hsc2 & Hrot & _). rewrite R2 in H2.
  pose proof (get_tcb_same _ _ Hsb) as Hg.
  exists s2, (upd READY_STATE (rotate_ready (ctl s1) (LS1 READY_STATE)) LS1). split; [|split; [done|]].
  { unfold leave_process. kstep (pcb_at_ok _ _ _ Hb). kstep H1. kstep H2. case_decide; [by rewrite bool_decide_true by done|].
    rewrite bool_decide_false by done. cbn [when]. by kpure. }
  rewrite upd_eq. split_and!.
  - intros Hp. rewrite Hrot. by eapply front_of_ready.
  - rewrite Hrot, R1. unfold ready_then. fold w. apply Permutation_app_comm.
  - intros k Hk Hr. rewrite upd_ne by done. by eapply ww_others.
  - intros x. rewrite <-(ww_state _ _ _ _ _ _ Hsc Hw). unfold state_of. by rewrite Hg.
  - rewrite Hg. by eapply ww_tcb.
  - rewrite E2, E1 at 1. done.
  - rewrite <-P1. by destruct Hsb as [-> _].
Qed.

(** ** The end of a thread *)

Definition without (w : option addr) (l : list addr) : list addr := filter (fun x => Some x <> w) l.

(** The thread has gone: [p] runs, the caller is in the list of terminated
    threads, [w] in no list but that of the ready threads, the others where they
    were, the lock of the process is free, and one thread less is alive; the exit
    statuses stay. *)
Definition departs (s : kstate) (LS : Z -> list addr) (me : addr) (t : tcb_t) (ts : list addr) (p : addr)
    (queue : list addr) (w : option addr) (o : outcome unit) : Prop :=
  exists s' LS' k, o = Switch me p s' k /\ scheduled s' LS' p /\
    get_tcb (ctl s') me = Some (set_state TERMINATED_STATE t) /\
    LS' READY_STATE ≡ₚ filter (fun q => q <> p) queue /\
    (forall i, list_index i -> i <> READY_STATE -> i <> RUNNING_STATE ->
       LS' i ≡ₚ (if decide (i = TERMINATED_STATE) then [me] else []) ++ without w (LS i)) /\
    get_lock (PcbLock (tcb_pcb t)) s' = Some mutex_init /\
    length (live (ctl s) ts) = S (length (live (ctl s') ts)) /\
    (forall q, exit_status s' q = exit_status s q).

Lemma running_alive s LS me t : scheduled s LS me -> get_tcb (ctl s) me = Some t -> state_of (ctl s) me <> TERMINATED_STATE.
Proof.
  intros Hsc Ht. apply (listed_alive (ctl s) LS RUNNING_STATE); [apply Hsc|done| |done].
  rewrite (sc_running _ _ _ Hsc). left.
Qed.

Lemma depart_ok s LS me t ts s2 LS2 p queue w : scheduled s LS me -> get_tcb (ctl s) me = Some t -> NoDup ts -> me ∈ ts ->
  scheduled s2 LS2 me -> get_tcb (ctl s2) me = Some t -> get_lock (PcbLock (tcb_pcb t)) s2 = Some (Mutex LOCKED (tid t)) ->
  (forall x, state_of (ctl s2) x = TERMINATED_STATE <-> state_of (ctl s) x = TERMINATED_STATE) ->
  (forall q, exit_status s2 q = exit_status s q) -> p ∈ LS2 READY_STATE -> LS2 READY_STATE ≡ₚ queue ->
  (forall k, list_index k -> k <> READY_STATE -> LS2 k = without w (LS k)) ->
  departs s LS me t ts p queue w ((mutex_unlock (PcbLock (tcb_pcb t));; switch_context p TERMINATED_STATE None;; enable_interrupts) s2).
Proof.
  intros Hsc Ht Hnd Hin Hsc2 Ht2 Hl Hst Hes Hp Hq Ho.
  destruct (block_tail (PcbLock (tcb_pcb t)) (Mutex LOCKED (tid t)) s2 LS2 me t p TERMINATED_STATE None TERMINATED_STATE
    enable_interrupts Hsc2) as (s' & LS' & k & tp & H1 & H2 & Htp & H3 & H4 & H5 & H6 & _ & H8 & H7 & _); try done.
  assert (me <> p) as Hne by (apply not_eq_sym; by apply (not_running s2 LS2 me Hsc2 READY_STATE)).
  exists s', LS', k. split; [done|]. split; [done|]. split_and!.
  - by rewrite H3, decide_False, decide_True by done.
  - by rewrite H5, Hq.
  - intros i Hi Hr Hn. case_decide as Hc; [subst i; by rewrite H4, Ho|]. by rewrite H6, Ho.
  - done.
  - apply (live_leaves _ _ _ me); [done|done|by eapply running_alive| |].
    + unfold state_of. by rewrite H3, decide_False, decide_True by done.
    + intros x Hx. rewrite <-Hst. unfold state_of at 1. rewrite H3. case_decide as Hxp; [subst x|by rewrite decide_False].
      split; [done|]. intros Hc. destruct (listed_alive (ctl s2) LS2 READY_STATE p); [apply Hsc2|done..].
  - intros q. by rewrite H8, Hes.
Qed.

Section vanish.
Context (s : kstate) (LS : Z -> list addr) (me : addr) (t : tcb_t) (b : pcb_t) (ts : list addr).
Context (Hca : caller s LS me t b ts) (Hpcb : tcb_pcb t <> NULL) (Hin : me ∈ ts) (Hlen : Z.of_nat (length ts) < 2 ^ 31).

(** The call up to the choice of the next thread. *)
Lemma vanish_enters : exists s1, inside_call s LS me t s1 LS /\ int_flag s1 = false /\
  get_pcb (ctl s1) (tcb_pcb t) = Some (CtrlBlk.set_lock (Mutex LOCKED (tid t)) b) /\
  threads_of (ctl s1) (CtrlBlk.set_lock (Mutex LOCKED (tid t)) b) ts /\ ready_listed (ctl s1) LS ts /\
  next_choice (ctl s1) LS ts = next_choice (ctl s) LS ts /\
  handle_vanish s = (next_tcb ← (if decide (length (live (ctl s) ts) = 1%nat) then leave_process (tcb_pcb t) else ctl_op find_next_thread);
    mutex_unlock (PcbLock (tcb_pcb t));; switch_context next_tcb TERMINATED_STATE None;; enable_interrupts) s1.
Proof.
  pose proof (running_is s LS me (ca_sched _ _ _ _ _ _ Hca)) as Hme.
  destruct (locked_ok s LS me t b ts Hca) as (s1 & H1 & Hic & _ & Hb1 & Hts & Hrl & Hne).
  exists (with_int_flag false s1). split; [done|]. do 5 (split; [done|]). unfold handle_vanish.
  kstep (running_pcb_ok _ _ _ Hme (ca_tcb _ _ _ _ _ _ Hca)). kstep H1.
  assert (Hc : ctl_get (fun c => get_thread_alive_count c (tcb_pcb t)) s1 = Done (OK, Z.of_nat (length (live (ctl s) ts))) s1).
  { apply (ctl_get_ok (fun c => get_thread_alive_count c (tcb_pcb t))).
    rewrite (get_thread_alive_count_ok (ctl s1) _ _ ts Hpcb Hb1 Hts Hlen). do 3 f_equal. change (length (live (ctl s1) ts) = length (live (ctl s) ts)).
    f_equal. apply live_ext. intros p _. pose proof (ic_tcb _ _ _ _ _ _ Hic) as E. cbn [ctl with_int_flag] in E. unfold state_of. by rewrite E. }
  kstep Hc. cbn beta iota. rewrite (bind_Done _ _ _ _ _ (affirm_ok (bool_decide (OK = 0)) s1 (bool_decide_true _ eq_refl))). unfold disable_interrupts. kpure.
  destruct (decide (Z.of_nat _ = 1)), (decide (length _ = 1%nat)); try done; lia.
Qed.

Lemma without_none l : without None l = l.
Proof. unfold without. induction l as [|x l IH]; [done|]. rewrite filter_cons, decide_True by done. by rewrite IH. Qed.

(** The call of the last thread. *)
Lemma vanish_last : length (live (ctl s) ts) = 1%nat ->
  let w := first_sat (sought (ctl s) (parent_pcb_ptr b) VANISH_WAIT) (LS VANISH_WAIT) in
  let queue := ready_then (ctl s) LS (parent_pcb_ptr b) in
  if decide (front_of queue = NULL) then exists s', handle_vanish s = Halted s'
  else departs s LS me t ts (front_of queue) queue w (handle_vanish s).
Proof.
  intros Hlast w queue. pose proof Hca as [C1 C2 C3 C4 [C5 _] C6]. assert (NoDup ts) as Hnd by apply C5.
  destruct vanish_enters as (s1 & Hic & Hif & Hb1 & Hts & Hrl & Hne & ->). pose proof Hic as [I1 I2 I3 (_ & _ & _ & _ & Hes) _ _].
  rewrite (decide_True (P := length _ = 1%nat)) by done.
  destruct (leave_process_ok s1 LS me (tcb_pcb t) _ I1 Hb1) as (s2 & LS2 & H1 & J1 & J2 & J3 & J4 & J5 & J6 & _ & J8).
  assert (Ew : first_sat (sought (ctl s1) (parent_pcb_ptr b) VANISH_WAIT) (LS VANISH_WAIT) = w).
  { apply first_sat_ext. intros p _. unfold sought. by rewrite I2. }
  change (parent_pcb_ptr (CtrlBlk.set_lock (Mutex LOCKED (tid t)) b)) with (parent_pcb_ptr b) in *.
  assert (Eq : ready_then (ctl s1) LS (parent_pcb_ptr b) = queue) by (unfold queue, ready_then; by rewrite Ew).
  rewrite Eq in *. rewrite Ew in J4. case_decide as Hq; [kstep H1; by exists s2|]. kstep H1.
  apply (depart_ok s LS me t ts s2 LS2); try done; [by rewrite J6, I2| | | |by apply J2].
  - rewrite <-I3. cbn [get_lock]. unfold get_pcb. by rewrite J8.
  - intros x. rewrite J5. unfold state_of. by rewrite I2.
  - intros q. rewrite <-Hes. unfold exit_status, get_pcb. by rewrite J8.
Qed.

End vanish.

Section theorems.
Context `{Platform}.

(** C11. [vanish]: a thread that vanishes leaves the processor for good.  The
    caller ends in the list of terminated threads, one thread less of its process
    is alive, and the lock of the process is free.  The last thread of a process
    first makes the first thread of the parent that waits for a child ready, and
    then leaves to the front of the ready list; when nobody is ready the machine
    halts.  A thread that is not the last leaves to another thread of its process
    or to the front of the ready list; when there is none, the switch is refused
    and the call returns to the thread that called it, which runs on. *)
Theorem vanish_leaves (s : kstate) (LS : Z -> list addr) (me : addr) (t : tcb_t) (b : pcb_t) (ts : list addr)
    (Hca : caller s LS me t b ts) (Hpcb : tcb_pcb t <> NULL) (Hin : me ∈ ts) (Hlen : Z.of_nat (length ts) < 2 ^ 31) :
  let w := first_sat (sought (ctl s) (parent_pcb_ptr b) VANISH_WAIT) (LS VANISH_WAIT) in
  let queue := ready_then (ctl s) LS (parent_pcb_ptr b) in
  if decide (length (live (ctl s) ts) = 1%nat) then
    if decide (front_of queue = NULL) then exists s', handle_vanish s = Halted s'
    else departs s LS me t ts (front_of queue) queue w (handle_vanish s)
  else
    let p := next_choice (ctl s) LS ts in
    if decide (p = NULL) then exists s' LS', handle_vanish s = Done tt s' /\ scheduled s' LS' me /\ (forall i, LS' i ≡ₚ LS i) /\
      get_tcb (ctl s') = get_tcb (ctl s) /\ get_lock (PcbLock (tcb_pcb t)) s' = Some mutex_init
    else departs s LS me t ts p (LS READY_STATE) None (handle_vanish s).
Proof.
  intros w queue. pose proof Hca as [C1 C2 C3 C4 [C5 _] C6]. assert (NoDup ts) as Hnd by apply C5.
  case_decide as Hlast; [by apply (vanish_last s LS me t b ts)|].
  destruct (vanish_enters s LS me t b ts Hca Hpcb Hlen) as (s1 & Hic & Hif & Hb1 & Hts & Hrl & Hne & ->).
  pose proof Hic as [I1 I2 I3 _ _ _]. rewrite (decide_False (P := length _ = 1%nat)) by done.
  intros p. destruct (choose_ok s LS me t b ts s1 _ Hic C2 Hb1 Hts Hrl Hne Hca) as (s2 & LS2 & H1 & Hic2 & Hp).
  fold p in H1, Hp. kstep H1. pose proof Hic2 as [J1 J2 J3 (_ & _ & _ & _ & Hes) J5 J6]. case_decide as Hpn.
  - rewrite Hpn. destruct (unlock_ok _ _ _ J3) as (s3 & H2 & Hput). kstep H2.
    assert (Hx : switch_context NULL TERMINATED_STATE None s3 = Done FAIL s3) by done. kstep Hx.
    destruct (put_lock_ctl _ _ _ _ Hput) as (_ & _ & Eg & _). exists (with_int_flag true s3), LS2. split; [done|].
    split; [apply (scheduled_ctl s3); [done|]; by apply (put_lock_scheduled _ _ _ _ LS2 me Hput)|].
    split; [|split; [cbn [ctl with_int_flag]; congruence|exact (put_get_lock _ _ _ _ Hput)]].
    intros i. destruct (decide (i = READY_STATE)) as [->|Hi]; [done|by rewrite J5].
  - apply (depart_ok s LS me t ts s2 LS2); try done; [by rewrite J2| |by apply Hp|].
    + intros x. unfold state_of. by rewrite J2.
    + intros k Hk Hr. by rewrite J5, without_none.
Qed.

End theorems.

(** ** A process whose parent waits for it *)

(** Thread 100 runs; thread 110 of the same process has gone or sleeps; thread
    200 of the parent waits for a child. *)
Definition other_list (gone : bool) : Z := if gone then TERMINATED_STATE else SLEEP.
Definition family_pcb (parent threads : addr) : pcb_t :=
  Pcb parent NULL threads 0 65536 NULL mutex_init false (GuestResource false 0 (replicate 0x22 0)).
Definition family_ctrl (gone : bool) : ctrl := Ctrl
  (Zone (list_to_map [
     (100, Node 110 110 (demo_tcb 5000 1 RUNNING_STATE blocking_none));
     (110, Node 100 100 (if gone then demo_tcb 5000 2 TERMINATED_STATE blocking_none
                         else demo_tcb 5000 2 WAITING_STATE (BlockingDetail SLEEP 30)));
     (200, Node 200 200 (demo_tcb 5100 4 WAITING_STATE (BlockingDetail VANISH_WAIT 0)))]) [900; 910])
  (Zone (list_to_map [(5000, Node 5000 5000 (family_pcb 5100 100)); (5100, Node 5100 5100 (family_pcb NULL 200))]) [5200; 5300])
  (Zone (list_to_map [(300, Node 300 300 100); (310, Node 310 310 110); (320, Node 320 320 200)]) [800; 810])
  (Zone ∅ [700; 710])
  (if gone then [0; 0; 300; 0; 310; 0; 0; 0; 320] else [0; 0; 300; 0; 0; 310; 0; 0; 320]) 3 mutex_init 5100.

Definition family_ns (gone : bool) (i : Z) : list addr :=
  if decide (i = RUNNING_STATE) then [300] else if decide (i = other_list gone) then [310]
  else if decide (i = VANISH_WAIT) then [320] else [].
Definition family_LS (gone : bool) (i : Z) : list addr :=
  if decide (i = RUNNING_STATE) then [100] else if decide (i = other_list gone) then [110]
  else if decide (i = VANISH_WAIT) then [200] else [].

Lemma family_sched_ok gone : sched_ok (family_ctrl gone) (family_LS gone).
Proof. destruct gone; [apply (sched_check_ok _ (family_ns true))|apply (sched_check_ok _ (family_ns false))]; unfold sched_check; decided. Qed.

Definition family_state (gone : bool) : kstate := with_ctl (family_ctrl gone) demo_user_state.

Lemma family_caller gone : caller (family_state gone) (family_LS gone) 100 (demo_tcb 5000 1 RUNNING_STATE blocking_none)
  (family_pcb 5100 100) [100; 110].
Proof.
  split; [split|..]; [apply family_sched_ok|by destruct gone| |by destruct gone..|split; [destruct gone; decided|done]|].
  - intros i p t Hi Hp Ht. assert (process_of (family_ctrl gone) p = tcb_pcb t) as E.
    { unfold process_of. change (ctl (family_state gone)) with (family_ctrl gone) in Ht. by rewrite Ht. }
    rewrite <-E. unfold family_LS in Hp. destruct gone; repeat case_decide; subst;
      repeat (apply elem_of_cons in Hp as [->|Hp]; [by eexists|]); by apply not_elem_of_nil in Hp.
  - intros p Hp. rewrite !elem_of_cons, elem_of_nil in Hp. destruct Hp as [->|[->|[]]]; destruct gone; vm_compute; intros [=].
Qed.

(** The last thread wakes the parent and leaves to it; a thread that is not the
    last, with nobody to leave to, comes back. *)
Lemma vanish_leaves_witness :
  (exists s' k, handle_vanish (family_state true) = Switch 100 200 s' k) /\
  (exists s', handle_vanish (family_state false) = Done tt s').
Proof.
  split.
  - destruct (vanish_leaves _ _ _ _ _ _ (family_caller true) ltac:(done) ltac:(left) ltac:(done)) as (s' & LS' & k & H & _).
    by exists s', k.
  - destruct (vanish_leaves _ _ _ _ _ _ (family_caller false) ltac:(done) ltac:(left) ltac:(done)) as (s' & LS' & H & _).
    by exists s'.
Defined.
