(* ===== verification/TaskVanish.v ===== *)
(** The end of a process: [handle_task_vanish] of [kern/system_call.c].  The
    theorem is about a process none of whose threads has gone yet; the lemma at
    the end shows what the loop does to a thread that has. *)
From S2P Require Import Prelude Ring KMutex Frames Vm Keyhelp Keyboard Console Machine CtrlBlk Kernel Sched.
From S2P Require Import UserMem Elf Loader Fork Syscall Exceptions Blocking Vanish.
#[local] Open Scope Z_scope.

(** ** The other threads go *)

(** The threads [X], in this order, have gone from their lists to the end of
    that of the terminated ones. *)
Definition killed_lists (LS : Z -> list addr) (X : list addr) (i : Z) : list addr :=
  if decide (i = TERMINATED_STATE) then LS i ++ X else filter (fun q => q ∉ X) (LS i).

Record killed (s : kstate) (LS : Z -> list addr) (me : addr) (X : list addr) (s' : kstate) (LS' : Z -> list addr) : Prop := {
  ki_rest : s' = with_ctl (ctl s') s;
  ki_sched : scheduled s' LS' me;
  ki_lists : forall i, list_index i -> LS' i = killed_lists LS X i;
  ki_tcb : forall q, get_tcb (ctl s') q = if decide (q ∈ X) then with_state TERMINATED_STATE None <$> get_tcb (ctl s) q else get_tcb (ctl s) q;
  ki_pcbs : pcbs (ctl s') = pcbs (ctl s);
  ki_nodes : same_threads (ctl s) (ctl s');
  ki_sorted : sleep_sorted (ctl s) LS -> sleep_sorted (ctl s') LS';
}.

Lemma killed_none s LS me : scheduled s LS me -> killed s LS me [] s LS.
Proof.
  intros Hsc. split; try done; [by destruct s|]. intros i _. unfold killed_lists. case_decide; [by rewrite app_nil_r|].
  induction (LS i) as [|x l IH]; [done|]. rewrite filter_cons, decide_True by apply not_elem_of_nil. by rewrite <-IH.
Qed.

Lemma filter_out_snoc (X l : list addr) q : filter (fun x => x ∉ X ++ [q]) l = filter (fun x => x <> q) (filter (fun x => x ∉ X) l).
Proof.
  rewrite list_filter_filter. apply list_filter_iff. intros x. rewrite elem_of_app, list_elem_of_singleton. tauto.
Qed.

Lemma killed_one s LS me X s1 LS1 q i : killed s LS me X s1 LS1 -> q ∉ X -> list_index i -> i <> RUNNING_STATE ->
  i <> TERMINATED_STATE -> q ∈ LS i ->
  exists s2 LS2, ctl_op (alter_state q TERMINATED_STATE None) s1 = Done OK s2 /\ killed s LS me (X ++ [q]) s2 LS2.
Proof.
  intros [K1 K2 K3 K4 K5 K6 K7] Hq Hi Hir Hit Hin.
  assert (Hin1 : q ∈ LS1 i) by (rewrite K3 by done; unfold killed_lists; rewrite decide_False by done; by apply list_elem_of_filter).
  destruct (requeue_ok s1 LS1 me q TERMINATED_STATE None i TERMINATED_STATE K2 Hi Hir Hin1)
    as (s2 & LS2 & H1 & [Q1 Q2 (M1 & M2 & Hpl & Q3) Q4 Q5 Q6 Q7]); [done..|].
  exists s2, LS2. split; [done|]. unfold place in Hpl. rewrite !decide_False in Hpl by done. injection Hpl as <- <-.
  destruct (sched_thread (ctl s1) LS1 i q) as (_ & tq & Htq & Hh); [apply K2|done|done|].
  pose proof (sched_not_elsewhere (ctl s1) LS1 q tq i (sc_sched _ _ _ K2) Htq Hh) as Hno.
  split; [by rewrite Q1, K1|done| | |by rewrite Q5|by eapply same_threads_trans|by intros; apply Q7, K7].
  - intros k Hk. rewrite Q3. unfold killed_lists. case_decide as Hkt.
    + subst k. rewrite upd_eq, K3 by done. unfold killed_lists. by rewrite decide_True, <-app_assoc by done.
    + rewrite upd_ne, filter_out_snoc by done.
      assert (LS1 k = filter (fun x => x ∉ X) (LS k)) as <- by (rewrite K3 by done; unfold killed_lists; by rewrite decide_False).
      unfold upd. case_decide as Hki; [by subst k|]. symmetry. apply filter_ne_id. intros Hqk. by apply Hki, Hno.
  - intros x. rewrite Q4, !K4. rewrite (decide_False (P := q ∈ X)) by done. destruct (decide (x = q)) as [->|Hx].
    + by rewrite decide_True by set_solver.
    + destruct (decide (x ∈ X)); [by rewrite decide_True by set_solver|by rewrite decide_False by set_solver].
Qed.

(** ** The loop over the threads *)

Lemma ring_next_node {A} (h : heap A) dn x todo : ring h (dn ++ x :: todo) ->
  exists n, h !! x = Some n /\ next n = default (front_of (dn ++ x :: todo)) (head todo).
Proof.
  intros Hr. assert (Hc : exists y, linked h x y /\ y = default (front_of (dn ++ x :: todo)) (head todo)).
  { apply ring_rotate in Hr as (_ & _ & Hc). cbn [app] in Hc. destruct todo as [|y todo]; cbn in Hc |- *; [|exists y; by destruct Hc].
    destruct dn as [|d dn]; cbn in Hc |- *; [by exists x|]. exists d. by destruct Hc. }
  destruct Hc as (y & [Hl _] & ->). apply fmap_Some in Hl as (n & Hn & He). by exists n.
Qed.

Section loop.
Context (s : kstate) (LS : Z -> list addr) (me pcb : addr) (b : pcb_t) (ts : list addr).
Context (Hsc : scheduled s LS me) (Hb : get_pcb (ctl s) pcb = Some b) (Hts : threads_of (ctl s) b ts).
Context (Hall : forall q, q ∈ ts -> q <> me -> exists i, list_index i /\ i <> TERMINATED_STATE /\ q ∈ LS i).
#[local] Abbreviation others l := (filter (fun q => q <> me) l).

#[local] Abbreviation kill_round := (terminate_round me pcb).

Lemma kill_step dn node todo s1 LS1 : ts = dn ++ node :: todo -> killed s LS me (others dn) s1 LS1 ->
  exists s2 LS2, when (bool_decide (node <> me)) (ctl_op (alter_state node TERMINATED_STATE None);; mret tt) s1 = Done tt s2 /\
    killed s LS me (others (dn ++ [node])) s2 LS2.
Proof.
  intros He Hk. rewrite filter_app. destruct (decide (node = me)) as [->|Hn].
  - rewrite bool_decide_false by tauto. exists s1, LS1. split; [done|]. rewrite filter_cons, decide_False by tauto. cbn. by rewrite app_nil_r.
  - rewrite bool_decide_true by done. rewrite filter_cons, decide_True by done. cbn [when].
    destruct (Hall node) as (i & Hi & Hit & Hin); [rewrite He; set_solver|done|].
    destruct (killed_one s LS me (others dn) s1 LS1 node i Hk) as (s2 & LS2 & H1 & H2); try done.
    + intros [_ Hd]%list_elem_of_filter. destruct Hts as [(Hnd & _) _]. rewrite He in Hnd.
      apply NoDup_app in Hnd as (_ & Hnd & _). apply (Hnd node Hd). left.
    + intros ->. rewrite (sc_running _ _ _ Hsc) in Hin. by apply list_elem_of_singleton in Hin.
    + kstep H1. by exists s2, LS2.
Qed.

Lemma kill_round_ok dn node todo s1 LS1 : ts = dn ++ node :: todo -> killed s LS me (others dn) s1 LS1 ->
  exists s2 LS2, kill_round node s1 = Done (match todo with [] => inr tt | x :: _ => inl x end) s2 /\
    killed s LS me (others (dn ++ [node])) s2 LS2.
Proof.
  intros He Hk. destruct (kill_step dn node todo s1 LS1 He Hk) as (s2 & LS2 & H1 & H2). exists s2, LS2. split; [|done].
  unfold terminate_round. kstep H1. pose proof H2 as [_ _ _ _ Hp Hn _]. destruct Hts as [Hr Hf].
  assert (Hr2 : ring (cells (tcbs (ctl s2))) ts) by by eapply same_threads_ring. rewrite He in Hr2.
  destruct (ring_next_node _ _ _ _ Hr2) as (n & Hnode & Hnext). rewrite <-He in Hnext, Hr2.
  kstep (ctl_get_ok (fun c => cells (tcbs c) !! node) s2 _ Hnode).
  assert (Hb2 : get_pcb (ctl s2) pcb = Some b) by (unfold get_pcb; by rewrite Hp). kstep (pcb_at_ok _ _ _ Hb2).
  rewrite Hnext, Hf. destruct todo as [|y todo]; cbn [head default from_option]; [by rewrite decide_True|].
  unfold id. rewrite decide_False; [done|]. intros Hy. destruct Hr2 as (Hnd & _). rewrite He in Hnd, Hy.
  rewrite NoDup_app in Hnd. destruct Hnd as (_ & Hd & Hnd). destruct dn as [|d dn]; cbn in Hy.
  - subst y. apply NoDup_cons in Hnd as [Hnd _]. apply Hnd. left.
  - subst y. apply (Hd d); [left|]. right. left.
Qed.

Lemma kill_rounds todo : forall dn node s1 LS1, ts = dn ++ node :: todo -> killed s LS me (others dn) s1 LS1 ->
  exists n x s2 s3 LS3, (n <= length todo)%nat /\ steps kill_round n node s1 x s2 /\ kill_round x s2 = Done (inr tt) s3 /\
    killed s LS me (others ts) s3 LS3.
Proof.
  induction todo as [|y todo IH]; intros dn node s1 LS1 He Hk; destruct (kill_round_ok _ _ _ _ _ He Hk) as (s2 & LS2 & H1 & H2).
  - exists 0%nat, node, s1, s2, LS2. split; [done|]. split; [constructor|]. split; [done|]. by rewrite He.
  - destruct (IH (dn ++ [node]) y s2 LS2) as (n & x & s3 & s4 & LS4 & H3 & H4 & H5 & H6); [by rewrite He, <-app_assoc|done|].
    exists (S n), x, s3, s4, LS4. split; [cbn; lia|]. split; [by econstructor|done].
Qed.

Lemma terminate_others_ok : me ∈ ts -> Z.of_nat (length ts) < 2 ^ 31 ->
  exists s' LS', terminate_others me pcb s = Done tt s' /\ killed s LS me (others ts) s' LS'.
Proof.
  intros Hin Hlen. unfold terminate_others. kstep (pcb_at_ok _ _ _ Hb). destruct Hts as [_ Hf].
  assert (exists x todo, ts = x :: todo) as (x & todo & Ets) by (destruct ts; [by apply elem_of_nil in Hin|by do 2 eexists]). rewrite Hf.
  destruct (kill_rounds todo [] x s LS) as (n & y & s2 & s3 & LS3 & H1 & H2 & H3 & H4); [done|by apply killed_none|].
  exists s3, LS3. split; [|done]. rewrite Ets. change (front_of (x :: todo)) with x.
  apply (loop_end kill_round 32 n x s y s2 tt s3); [|exact H2|exact H3].
  apply Nat2Z.inj_lt. rewrite Nat2Z.inj_pow. rewrite Ets in Hlen. cbn [length] in Hlen. change (Z.of_nat 2 ^ Z.of_nat 32) with (2 ^ 32). lia.
Qed.

End loop.

(** ** The call *)

Lemma live_none c l : (forall q, q ∈ l -> state_of c q = TERMINATED_STATE) -> live c l = [].
Proof.
  induction l as [|x l IH]; intros H; [done|]. unfold live. rewrite filter_cons, decide_False by (intros Hx; apply Hx, H; left).
  apply IH. intros q Hq. apply H. by right.
Qed.

Lemma live_only c ts me : NoDup ts -> me ∈ ts -> state_of c me <> TERMINATED_STATE ->
  (forall q, q ∈ ts -> q <> me -> state_of c q = TERMINATED_STATE) -> length (live c ts) = 1%nat.
Proof.
  intros Hnd Hin Hme Ho. apply list_elem_of_split in Hin as (l1 & l2 & ->). apply NoDup_app in Hnd as (_ & Hd & Hnd).
  apply NoDup_cons in Hnd as [Hnd _]. unfold live. rewrite filter_app, filter_cons, decide_True by done.
  change (length (live c l1 ++ me :: live c l2) = 1%nat). rewrite !live_none; [done| |]; intros q Hq; apply Ho; set_solver.
Qed.

(** A change of one process block. *)
Lemma upd_pcb_scheduled s LS me p f c b : get_pcb (ctl s) p = Some b -> upd_pcb p f (ctl s) = Some c -> scheduled s LS me ->
  scheduled (with_ctl c s) LS me /\ get_pcb c p = Some (f b) /\ tcbs c = tcbs (ctl s).
Proof.
  intros Hb Hc [[(ns & [A1 A2 A3 A4 A5 A6]) Hok] Hr Hp]. destruct (upd_pcb_other p f _ _ p b Hc Hb) as (Ec & Hg & _).
  assert (Et : tcbs c = tcbs (ctl s)) by by rewrite Ec. assert (El : links c = links (ctl s)) by by rewrite Ec.
  assert (Eh : thread_lists c = thread_lists (ctl s)) by by rewrite Ec.
  split; [|done]. split; [split|done|]; cbn [ctl with_ctl].
  - exists ns. split; rewrite ?El, ?Eh; try done. intros i Hi. unfold thread_list. rewrite Eh. by apply A4.
  - unfold get_tcb. rewrite Et. exact Hok.
  - intros i q tq Hi Hq Ht. unfold get_tcb in Ht. rewrite Et in Ht. specialize (Hp i q tq Hi Hq Ht).
    destruct (upd_pcb_other p f _ _ (tcb_pcb tq) b Hc Hb) as (_ & _ & Ho). destruct (decide (tcb_pcb tq = p)) as [->|Hne]; [by eexists|].
    by rewrite Ho.
Qed.

Section call.
Context `{Platform} (s : kstate) (LS : Z -> list addr) (me : addr) (t : tcb_t) (b : pcb_t) (ts : list addr).
Context (Hca : caller s LS me t b ts) (Hpcb : tcb_pcb t <> NULL) (Hin : me ∈ ts) (Hlen : Z.of_nat (length ts) < 2 ^ 31).
Context (Hall : forall q, q ∈ ts -> exists i, list_index i /\ i <> TERMINATED_STATE /\ q ∈ LS i).
#[local] Abbreviation X := (filter (fun q => q <> me) ts).

(** The call up to [handle_vanish]: only the caller is left, and the status is
    stored. *)
Lemma task_vanish_enters u : exists s4 LS4 b4, handle_task_vanish u s = handle_vanish s4 /\ caller s4 LS4 me t b4 ts /\
  parent_pcb_ptr b4 = parent_pcb_ptr b /\ status b4 = s32 (esi u) /\
  (forall i, list_index i -> LS4 i = killed_lists LS X i) /\
  (forall q, q ∉ X -> get_tcb (ctl s4) q = get_tcb (ctl s) q) /\ (forall q, q ∈ X -> state_of (ctl s4) q = TERMINATED_STATE).
Proof.
  pose proof Hca as [C1 C2 C3 C4 C5 C6]. pose proof (running_is s LS me C1) as Hme.
  destruct (locked_ok s LS me t b ts Hca) as (s1 & H1 & Hic & _ & Hb1 & Hts & _). pose proof Hic as [I1 I2 I3 _ _ _].
  set (sI := with_int_flag false s1) in *. set (b1 := CtrlBlk.set_lock (Mutex LOCKED (tid t)) b) in *.
  destruct (terminate_others_ok sI LS me (tcb_pcb t) b1 ts I1 Hb1 Hts) as (s2 & LS2 & H2 & [K1 K2 K3 K4 K5 K6 _]); [by intros; apply Hall|done..|].
  assert (Hg2 : get_pcb (ctl s2) (tcb_pcb t) = Some b1) by (unfold get_pcb; by rewrite K5).
  destruct (unlock_ok (PcbLock (tcb_pcb t)) (with_int_flag true s2) (lock b1)) as (s3 & H3 & Hput); [cbn; by rewrite Hg2|].
  cbn [put_lock] in Hput. apply bind_Some in Hput as (c3 & Hc3 & [= <-]). cbn [ctl with_int_flag] in Hc3.
  destruct (upd_pcb_scheduled (with_int_flag true s2) LS2 me _ _ c3 b1 Hg2 Hc3) as (S3 & G3 & T3); [by apply (scheduled_ctl s2)|].
  destruct (upd_pcb_some (tcb_pcb t) (set_status (s32 (esi u))) c3 _ G3) as [c4 Hc4].
  destruct (upd_pcb_scheduled (with_ctl c3 (with_int_flag true s2)) LS2 me _ _ c4 _ G3 Hc4 S3) as (S4 & G4 & T4). cbn [ctl with_ctl with_int_flag] in T3, T4, S3.
  set (s4 := with_ctl c4 (with_ctl c3 (with_int_flag true s2))) in *.
  assert (Hg : get_tcb (ctl s4) = get_tcb (ctl s2)) by (unfold get_tcb; cbn [ctl with_ctl s4]; by rewrite T4, T3).
  assert (Hx : forall q, q ∈ X -> state_of (ctl s4) q = TERMINATED_STATE).
  { intros q Hq. unfold state_of. rewrite Hg, K4, decide_True by done. apply list_elem_of_filter in Hq as [_ Hq].
    destruct (Hall q Hq) as (i & Hi & _ & Hqi). destruct (sched_thread (ctl s) LS i q (sc_sched _ _ _ C1) Hi Hqi) as (_ & tq & Htq & _).
    cbn [ctl with_int_flag sI] in I2 |- *. unfold sI in I2. cbn [ctl with_int_flag] in I2. by rewrite I2, Htq. }
  assert (Hn : forall q, q ∉ X -> get_tcb (ctl s4) q = get_tcb (ctl s) q) by (intros q Hq; by rewrite Hg, K4, decide_False, I2).
  assert (Hmx : me ∉ X) by (intros [? _]%list_elem_of_filter; done).
  eexists s4, LS2, _. split; [|split; [split; [exact S4|by rewrite Hn|exact G4|done| |]|done]].
  - unfold handle_task_vanish. kstep (running_tcb_ok _ _ Hme). kstep (running_pcb_ok _ _ _ Hme C2). kstep H1.
    unfold disable_interrupts, enable_interrupts. kpure. fold sI. kstep H2. kpure. kstep H3.
    assert (H4 : update_pcb (tcb_pcb t) (set_status (s32 (esi u))) (with_ctl c3 (with_int_flag true s2)) = Done tt s4) by (by apply ctl_upd_ok).
    by kstep H4.
  - destruct Hts as [Hr Hf]. split; [|done]. cbn [ctl with_ctl s4]. rewrite T4, T3. by eapply same_threads_ring.
  - intros q Hq Hst. destruct (decide (q = me)) as [->|Hne].
    + exfalso. unfold state_of in Hst. rewrite Hn in Hst by done. apply (not_running s LS me C1 READY_STATE me); [done|done| |done].
      by apply C6.
    + rewrite Hx in Hst by (by apply list_elem_of_filter). done.
Qed.
(** The thread that waits for the process, if the parent has one that is left. *)
Definition heir (s : kstate) (LS : Z -> list addr) (X : list addr) (parent : addr) : option addr :=
  first_sat (sought (ctl s) parent VANISH_WAIT) (killed_lists LS X VANISH_WAIT).

Lemma heir_same s4 LS4 parent : (forall i, list_index i -> LS4 i = killed_lists LS X i) ->
  (forall q, q ∉ X -> get_tcb (ctl s4) q = get_tcb (ctl s) q) ->
  first_sat (sought (ctl s4) parent VANISH_WAIT) (LS4 VANISH_WAIT) = heir s LS X parent.
Proof.
  intros Hl Hg. rewrite Hl by done. apply first_sat_ext. intros q Hq. unfold sought. rewrite Hg; [done|].
  unfold killed_lists in Hq. rewrite decide_False in Hq by done. by apply list_elem_of_filter in Hq as [Hq _].
Qed.

End call.

Lemma without_id w l : (forall x, w = Some x -> x ∉ l) -> without w l = l.
Proof.
  intros Hw. destruct w as [x|]; [|apply without_none]. unfold without.
  rewrite <-(filter_ne_id l x) at 2 by by apply Hw. apply list_filter_iff. intros y. split; congruence.
Qed.

Lemma others_perm (me : addr) ts : NoDup ts -> me ∈ ts -> ts ≡ₚ me :: filter (fun q => q <> me) ts.
Proof.
  intros Hnd Hin. apply list_elem_of_split in Hin as (l1 & l2 & ->). rewrite filter_out by done. by rewrite Permutation_middle.
Qed.

Section theorem.
Context `{Platform}.

(** C12. [task_vanish] ends a process none of whose threads has gone yet.  The
    status it is given is stored for the parent; every thread of the process, on
    whatever list it was, is on the list of terminated threads, once, and its
    state says so; the other threads of that list are still there; the first
    thread of the parent that waits for a child is ready, nobody else has moved
    but the thread that runs next, the front of the ready list as it then is; the
    lock of the process is free.  When nobody is ready the machine halts. *)
Theorem task_vanish_ends_process (u : ureg_t) (s : kstate) (LS : Z -> list addr) (me : addr) (t : tcb_t) (b : pcb_t) (ts : list addr)
    (Hca : caller s LS me t b ts) (Hpcb : tcb_pcb t <> NULL) (Hin : me ∈ ts) (Hlen : Z.of_nat (length ts) < 2 ^ 31)
    (Hall : forall q, q ∈ ts -> exists i, list_index i /\ i <> TERMINATED_STATE /\ q ∈ LS i) :
  let X := filter (fun q => q <> me) ts in
  let w := heir s LS X (parent_pcb_ptr b) in
  let queue := killed_lists LS X READY_STATE ++ option_list w in
  let p := front_of queue in
  if decide (p = NULL) then exists s', handle_task_vanish u s = Halted s'
  else exists s' LS' k, handle_task_vanish u s = Switch me p s' k /\ scheduled s' LS' p /\
    exit_status s' (tcb_pcb t) = Some (s32 (esi u)) /\
    (forall q, q ∈ ts -> state_of (ctl s') q = TERMINATED_STATE) /\
    LS' TERMINATED_STATE ≡ₚ ts ++ LS TERMINATED_STATE /\
    LS' READY_STATE ≡ₚ filter (fun q => q <> p) queue /\
    (forall i, list_index i -> i <> READY_STATE -> i <> RUNNING_STATE -> i <> TERMINATED_STATE ->
       LS' i ≡ₚ without w (filter (fun q => q ∉ X) (LS i))) /\
    get_lock (PcbLock (tcb_pcb t)) s' = Some mutex_init.
Proof.
  intros X w queue p. pose proof Hca as [C1 C2 _ _ [[Hnd _] _] _].
  destruct (task_vanish_enters s LS me t b ts Hca Hin Hlen Hall u) as (s4 & LS4 & b4 & -> & Hca4 & Epar & Est & Hl & Hg & Hx).
  fold X in Hl, Hg, Hx. assert (Hmx : me ∉ X) by (intros [? _]%list_elem_of_filter; done).
  assert (Hw : first_sat (sought (ctl s4) (parent_pcb_ptr b4) VANISH_WAIT) (LS4 VANISH_WAIT) = w) by (rewrite Epar; by apply heir_same).
  assert (Hlive : length (live (ctl s4) ts) = 1%nat).
  { apply (live_only _ _ me); [done..| |].
    - unfold state_of. rewrite Hg by done. by apply (running_alive s LS me t).
    - intros q Hq Hqm. apply Hx. by apply list_elem_of_filter. }
  pose proof (vanish_last s4 LS4 me t b4 ts Hca4 Hpcb Hin Hlen Hlive) as Hv. cbn zeta in Hv. unfold ready_then in Hv.
  rewrite Hw, (Hl READY_STATE) in Hv by done. fold queue p in Hv. case_decide as Hp; [exact Hv|].
  destruct Hv as (s' & LS' & k & V1 & V2 & V3 & V4 & V5 & V6 & V7 & V8). exists s', LS', k. split; [done|]. split; [done|].
  split; [|split; [|split; [|split; [done|split; [|done]]]]].
  - rewrite V8. unfold exit_status. by rewrite (ca_pcb _ _ _ _ _ _ Hca4), <-Est.
  - intros q Hq. assert (live (ctl s') ts = []) as He by (apply nil_length_inv; lia).
    destruct (decide (state_of (ctl s') q = TERMINATED_STATE)) as [|Hne]; [done|].
    assert (q ∈ live (ctl s') ts) as Hqe by by apply list_elem_of_filter. rewrite He in Hqe. by apply elem_of_nil in Hqe.
  - rewrite V5, decide_True, (Hl TERMINATED_STATE) by done. unfold killed_lists. rewrite decide_True by done. rewrite without_id.
    + transitivity ((me :: X) ++ LS TERMINATED_STATE); [cbn; by rewrite Permutation_app_comm|]. apply Permutation_app_tail. symmetry. by apply others_perm.
    + intros x Hxw. apply first_sat_elem in Hxw as [Hxw _]. unfold killed_lists in Hxw. rewrite decide_False in Hxw by done.
      apply list_elem_of_filter in Hxw as [Hxx Hxw]. rewrite elem_of_app. intros [Hxt|?]; [|done].
      destruct (sched_thread (ctl s) LS VANISH_WAIT x) as (_ & tx & Htx & Hh); [apply C1|done|done|].
      by pose proof (sched_not_elsewhere (ctl s) LS x tx _ (sc_sched _ _ _ C1) Htx Hh TERMINATED_STATE ltac:(done) Hxt).
  - intros i Hi Hr Hru Hte. rewrite V5, Hl by done. unfold killed_lists. by rewrite !decide_False.
Qed.

End theorem.

(** ** Examples *)

(** The process of [family_ctrl false] ends: its other thread slept. *)
Lemma task_vanish_ends_process_witness : exists s' k,
  handle_task_vanish (set_esi 7 ureg_zero) (family_state false) = Switch 100 200 s' k /\
  exit_status s' 5000 = Some 7 /\ state_of (ctl s') 110 = TERMINATED_STATE.
Proof.
  destruct (task_vanish_ends_process (set_esi 7 ureg_zero) _ _ _ _ _ _ (family_caller false)) as (s' & LS' & k & H1 & _ & H2 & H3 & _);
    [done|left|done| |].
  - intros q Hq. rewrite !elem_of_cons, elem_of_nil in Hq. destruct Hq as [->|[->|[]]]; [exists RUNNING_STATE|exists SLEEP]; decided.
  - exists s', k. split; [exact H1|]. split; [exact H2|]. apply H3. right. left.
Defined.

(** A thread that has gone already and is at the front of the list of terminated
    threads: [alter_state] takes it out and links it to itself.  It is on no
    list any more, and its node is never freed. *)
Lemma terminated_front_is_lost : exists s' k,
  handle_task_vanish (set_esi 7 ureg_zero) (family_state true) = Switch 100 200 s' k /\
  thread_list (ctl s') TERMINATED_STATE = Some 300 /\
  cells (links (ctl s')) !! 300 = Some (Node 300 300 100) /\ cells (links (ctl s')) !! 310 = Some (Node 310 310 110).
Proof. do 2 eexists. split; [vm_compute; reflexivity|]. repeat split. Qed.
