(* ===== verification/Family.v ===== *)
(** The process tree: a process and the ring of its children in
    [kern/ctrl_blk.c] and [handle_wait] of [kern/system_call.c].  The search for
    an exited child locks the children it passes and the unlocking gives them all
    back; detaching a child and adopting grandchildren are list operations. *)
From S2P Require Import Prelude Ring KMutex Frames Vm Keyhelp Keyboard Console Machine CtrlBlk Kernel Sched.
From S2P Require Import UserMem Elf Loader Fork Syscall Exceptions Blocking Vanish.
#[local] Open Scope Z_scope.

(** ** The same change to several processes *)

Definition over_node (l : list addr) (f : pcb_t -> pcb_t) (p : addr) (n : node pcb_t) : option (node pcb_t) :=
  Some (if decide (p ∈ l) then Node (previous n) (next n) (f (data n)) else n).
Definition over (l : list addr) (f : pcb_t -> pcb_t) (c : ctrl) : ctrl :=
  set_pcbs (Zone (map_imap (over_node l f) (cells (pcbs c))) (pool (pcbs c))) c.

Lemma over_lookup l f c p : cells (pcbs (over l f c)) !! p = cells (pcbs c) !! p ≫= over_node l f p.
Proof. cbn. by rewrite map_lookup_imap. Qed.

Lemma ctrl_pcbs_eq c c' : c' = set_pcbs (pcbs c') c -> pool (pcbs c') = pool (pcbs c) ->
  (forall p, cells (pcbs c') !! p = cells (pcbs c) !! p) -> c' = c.
Proof.
  intros He Hp Hc. assert (pcbs c' = pcbs c) as E.
  { destruct (pcbs c') as [h' q'], (pcbs c) as [h q]. cbn in *. subst q'. f_equal. by apply map_eq. }
  rewrite He, E. by destruct c.
Qed.

Lemma set_pcbs_pcbs z1 z2 c : set_pcbs z1 (set_pcbs z2 c) = set_pcbs z1 c.
Proof. done. Qed.

Lemma over_nil f c : over [] f c = c.
Proof.
  apply ctrl_pcbs_eq; [done|done|]. intros p. rewrite over_lookup. unfold over_node.
  by destruct (cells (pcbs c) !! p).
Qed.

Lemma over_over l k f c : (forall p, p ∈ l -> p ∉ k) -> over l f (over k f c) = over (k ++ l) f c.
Proof.
  intros Hd. apply ctrl_pcbs_eq; [done|done|]. intros p. rewrite !over_lookup. unfold over_node.
  destruct (cells (pcbs c) !! p) as [n|]; [|done]. cbn. f_equal. specialize (Hd p).
  destruct (decide (p ∈ k)), (decide (p ∈ l)), (decide (p ∈ k ++ l)); set_solver.
Qed.

Lemma over_undo l f g c : (forall p n, p ∈ l -> cells (pcbs c) !! p = Some n -> g (f (data n)) = data n) ->
  over l g (over l f c) = c.
Proof.
  intros H. apply ctrl_pcbs_eq; [done|done|]. intros p. rewrite !over_lookup. unfold over_node.
  destruct (cells (pcbs c) !! p) as [n|] eqn:E; [|done]. cbn. f_equal. case_decide; [|done]. cbn. rewrite (H p n) by done.
  by destruct n.
Qed.

Lemma over_pcb l f c p : get_pcb (over l f c) p = if decide (p ∈ l) then f <$> get_pcb c p else get_pcb c p.
Proof.
  unfold get_pcb. rewrite over_lookup. unfold over_node. destruct (cells (pcbs c) !! p); cbn; by case_decide.
Qed.

Lemma over_links l f c p : same_links (cells (pcbs c)) (cells (pcbs (over l f c))) p.
Proof. unfold same_links. rewrite over_lookup. unfold over_node. destruct (cells (pcbs c) !! p); cbn; [|done]. by case_decide. Qed.

Lemma upd_pcb_over p f c : is_Some (get_pcb c p) -> upd_pcb p f c = Some (over [p] f c).
Proof.
  intros [b Hb]. pose proof Hb as Hb'. unfold get_pcb in Hb. apply fmap_Some in Hb as (n & Hn & ->).
  unfold upd_pcb, put_pcb, set_data. rewrite Hb'. cbn [mbind option_bind]. rewrite Hn. cbn [mbind option_bind]. f_equal.
  apply ctrl_pcbs_eq; [done|done|]. intros q. rewrite over_lookup. unfold over_node. cbn [pcbs set_pcbs cells].
  destruct (decide (q = p)) as [->|Hq].
  - rewrite lookup_insert_eq, Hn. cbn. by rewrite decide_True by left.
  - rewrite lookup_insert_ne by done. destruct (cells (pcbs c) !! q); [|done]. cbn. rewrite decide_False; [done|].
    intros [?|[]%elem_of_nil]%elem_of_cons; done.
Qed.

Lemma over_snoc l p f c : is_Some (get_pcb c p) -> p ∉ l -> upd_pcb p f (over l f c) = Some (over (l ++ [p]) f c).
Proof.
  intros [b Hb] Hp. rewrite upd_pcb_over by (rewrite over_pcb; case_decide; [done|by exists b]). rewrite over_over; [done|].
  intros q [->|[]%elem_of_nil]%elem_of_cons; done.
Qed.

(** ** The children of a process *)

(** The children of the process at [P] are the nodes of a ring, each with its
    threads and with its lock free. *)
Record children (c : ctrl) (P : addr) (b : pcb_t) (kids : list addr) (threads : addr -> list addr) : Prop := {
  ch_pcb : get_pcb c P = Some b;
  ch_front : child_pcb_list b = front_of kids;
  ch_ring : ring (cells (pcbs c)) kids;
  ch_self : P ∉ kids;
  ch_len : Z.of_nat (length kids) < 2 ^ 31;
  ch_kid : forall p, p ∈ kids -> exists bp, get_pcb c p = Some bp /\ lock bp = mutex_init /\
    threads_of c bp (threads p) /\ Z.of_nat (length (threads p)) < 2 ^ 31;
}.

(** No thread of the child is alive. *)
Definition exited (c : ctrl) (threads : addr -> list addr) (p : addr) : bool := bool_decide (live c (threads p) = []).

Section search.
Context (s : kstate) (me : addr) (t : tcb_t) (P : addr) (b : pcb_t) (kids : list addr) (threads : addr -> list addr).
Context (Hme : running (ctl s) = Some me) (Ht : get_tcb (ctl s) me = Some t) (Hch : children (ctl s) P b kids threads).

Definition locked_kids (l : list addr) : kstate := with_ctl (over l (CtrlBlk.set_lock (Mutex LOCKED (tid t))) (ctl s)) s.

Lemma kid_locks k1 x k2 : kids = k1 ++ x :: k2 -> mutex_lock (PcbLock x) (locked_kids k1) = Done tt (locked_kids (k1 ++ [x])).
Proof.
  intros E. destruct Hch as [_ _ Hr _ _ Hk]. destruct (Hk x ltac:(rewrite E; set_solver)) as (bx & Hbx & Hlx & _).
  assert (x ∉ k1) as Hx. { destruct Hr as (Hnd & _). rewrite E in Hnd. apply NoDup_app in Hnd as (_ & Hd & _). intros Hin. apply (Hd x Hin). left. }
  assert (Hg : get_lock (PcbLock x) (locked_kids k1) = Some mutex_init).
  { cbn [get_lock locked_kids ctl with_ctl]. by rewrite over_pcb, decide_False, Hbx, <-Hlx by done. }
  destruct (mutex_lock_ok (PcbLock x) (locked_kids k1) mutex_init me t Hg) as (s' & -> & Hput); [done..|]. f_equal.
  cbn [put_lock locked_kids ctl with_ctl] in Hput. rewrite over_snoc in Hput by (done || by exists bx). by injection Hput as <-.
Qed.

Lemma kid_count k x : x ∈ kids -> x ∈ k ->
  get_thread_alive_count (ctl (locked_kids k)) x = Some (OK, Z.of_nat (length (live (ctl s) (threads x)))).
Proof.
  intros Hx Hxk. pose proof Hch as [_ _ Hr _ _ Hk]. destruct (Hk x Hx) as (bx & Hbx & _ & Hth & Hlen).
  eapply (get_thread_alive_count_ok (ctl (locked_kids k)) x (CtrlBlk.set_lock (Mutex LOCKED (tid t)) bx)); [|..].
  - intros ->. by destruct Hr as (_ & Hn & _).
  - cbn [locked_kids ctl with_ctl]. by rewrite over_pcb, decide_True, Hbx.
  - exact Hth.
  - done.
Qed.

Lemma kid_next k1 x k2 l : kids = k1 ++ x :: k2 ->
  exists n, cells (pcbs (ctl (locked_kids l))) !! x = Some n /\ next n = front_of (k2 ++ k1 ++ [x]) /\
    (next n = front_of kids <-> k2 = []).
Proof.
  intros E. pose proof (ch_ring _ _ _ _ _ Hch) as Hr. pose proof Hr as (Hnd & _).
  assert (ring (cells (pcbs (ctl (locked_kids l)))) (x :: k2 ++ k1)) as Hr2.
  { eapply ring_ext; [intros p _; apply over_links|]. change (x :: k2 ++ k1) with ((x :: k2) ++ k1). apply ring_rotate. by rewrite <-E. }
  destruct (ring_head _ _ _ Hr2) as (n & Hn & Hnx & _). rewrite <-app_assoc in Hnx. exists n. split; [done|]. split; [done|].
  rewrite Hnx, E. destruct k2 as [|y k2]; [by destruct k1|]. split; [|done]. cbn. rewrite E in Hnd. destruct k1 as [|z k1]; cbn.
  - intros ->. apply NoDup_cons in Hnd as [Hnd _]. set_solver.
  - intros ->. cbn in Hnd. apply NoDup_cons in Hnd as [Hnd _]. set_solver.
Qed.

(** The nodes the search passes: up to and including the first child that has
    exited. *)
Fixpoint passed (l : list addr) : list addr :=
  match l with
  | [] => []
  | x :: l => if exited (ctl s) threads x then [x] else x :: passed l
  end.

Lemma visit_ok k1 x k2 : kids = k1 ++ x :: k2 ->
  visit_child P x (locked_kids k1) = Done (if exited (ctl s) threads x then inr x else match k2 with [] => inr NULL | y :: _ => inl y end)
    (locked_kids (k1 ++ [x])).
Proof.
  intros E. unfold visit_child. kstep (kid_locks k1 x k2 E).
  pose proof (kid_count (k1 ++ [x]) x ltac:(rewrite E; set_solver) ltac:(set_solver)) as Hc.
  rewrite (bind_Done _ _ _ _ _ (ctl_get_ok (fun c => get_thread_alive_count c x) _ _ Hc)). cbn beta iota.
  rewrite (bind_Done _ _ _ _ _ (affirm_ok (bool_decide (OK = 0)) _ (bool_decide_true _ eq_refl))).
  unfold exited. destruct (live (ctl s) (threads x)) as [|z l]; [by rewrite decide_True, bool_decide_true by done|].
  rewrite decide_False, bool_decide_false by (cbn; lia || done).
  destruct (kid_next k1 x k2 (k1 ++ [x]) E) as (n & Hn & Hnx & Hiff).
  rewrite (bind_Done _ _ _ _ _ (ctl_get_ok (fun c => cells (pcbs c) !! x) _ _ Hn)). pose proof Hch as [Hb Hf _ Hself _ _].
  assert (Hb' : get_pcb (ctl (locked_kids (k1 ++ [x]))) P = Some b).
  { cbn [locked_kids ctl with_ctl]. rewrite over_pcb, decide_False; [done|]. intros Hin. apply Hself. rewrite E. set_solver. }
  kstep (pcb_at_ok _ _ _ Hb'). rewrite Hf. destruct k2 as [|y k2]; [by rewrite decide_True by tauto|].
  rewrite decide_False by (rewrite Hiff; done). by rewrite Hnx.
Qed.

Lemma visits k2 : forall k1 x, kids = k1 ++ x :: k2 -> exists n x' s', (n <= length k2)%nat /\
  steps (visit_child P) n x (locked_kids k1) x' s' /\
  visit_child P x' s' = Done (inr (default NULL (first_sat (exited (ctl s) threads) (x :: k2)))) (locked_kids (k1 ++ passed (x :: k2))).
Proof.
  induction k2 as [|y k2 IH]; intros k1 x E; pose proof (visit_ok k1 x _ E) as Hv; cbn [passed first_sat] in *;
    destruct (exited (ctl s) threads x); cbn [default from_option] in *; unfold id in *.
  1-3: exists O, x, (locked_kids k1); (split; [lia|]); by split; [constructor|].
  destruct (IH (k1 ++ [x]) y) as (n & x' & s' & Hn & Hst & Hb); [by rewrite E, <-app_assoc|].
  exists (S n), x', s'. split; [cbn; lia|]. split; [by econstructor|]. by rewrite Hb, <-app_assoc.
Qed.

(** The search finds the first child that has exited, and has locked the
    children up to it. *)
Lemma find_exited_child_ok : find_exited_child P s =
  Done (default NULL (first_sat (exited (ctl s) threads) kids)) (locked_kids (passed kids)).
Proof.
  pose proof Hch as [Hb Hf Hr _ Hlen _]. unfold find_exited_child. kstep (pcb_at_ok _ _ _ Hb). rewrite Hf.
  assert (E0 : locked_kids [] = s) by (unfold locked_kids; rewrite over_nil; apply with_ctl_id).
  assert (kids = [] \/ exists x k, kids = x :: k) as [E|(x & k & E)] by (destruct kids; eauto).
  { rewrite E, decide_True by done. cbn [passed first_sat default from_option]. by rewrite E0. }
  assert (front_of kids <> NULL) as Hn by (eapply front_of_nonnull; [done|by rewrite E]). rewrite decide_False by done.
  destruct (visits k [] x E) as (n & x' & s' & Hle & Hst & Hb'). rewrite E0 in Hst. rewrite <-E in Hb'. cbn [app] in Hb'.
  assert (front_of kids = x) as -> by (by rewrite E).
  assert (Hlt : (n < 2 ^ 32)%nat).
  { rewrite E in Hlen. cbn [length] in Hlen. apply Nat2Z.inj_lt. rewrite Nat2Z.inj_pow. change (Z.of_nat 2 ^ Z.of_nat 32) with (2 ^ 32). lia. }
  exact (loop_end (visit_child P) 32 n x s x' s' _ _ Hlt Hst Hb').
Qed.

End search.

(** ** Giving the locks back *)

Definition unlocked (b : pcb_t) : pcb_t := CtrlBlk.set_lock (KMutex.mutex_unlock (lock b)) b.

Lemma fold_over {A} f (h : heap A) l : forall k c, NoDup (k ++ l) -> (forall p, p ∈ l -> is_Some (h !! p) /\ is_Some (get_pcb c p)) ->
  fold_nodes (fun p _ c => c ← upd_pcb p f c; Some (inl c : ctrl + unit)) h l (over k f c) = Some (inl (over (k ++ l) f c)).
Proof.
  induction l as [|x l IH]; intros k c Hnd H; [by rewrite app_nil_r|]. cbn [fold_nodes].
  destruct (H x ltac:(left)) as [[n Hn] Hb]. rewrite Hn. cbn [mbind option_bind].
  assert (x ∉ k) as Hx by (apply NoDup_app in Hnd as (_ & Hd & _); intros Hin; apply (Hd x Hin); left).
  rewrite over_snoc by done. cbn [mbind option_bind]. rewrite IH.
  - by rewrite <-app_assoc.
  - by rewrite <-app_assoc.
  - intros p Hp. apply H. by right.
Qed.

(** The nodes from the front up to any other are a chain that ends at its
    successor. *)
Lemma ring_prefix {A} (h : heap A) x l k : ring h (x :: l ++ k) ->
  chain h x l (front_of (k ++ [x])) /\ front_of (k ++ [x]) ∉ l.
Proof.
  intros (Hnd & _ & Hc). apply NoDup_cons in Hnd as [Hx Hnd]. destruct k as [|y k]; cbn [app front_of head default] in *.
  - rewrite app_nil_r in *. done.
  - apply chain_app in Hc as [Hc _]. split; [done|]. apply NoDup_app in Hnd as (_ & Hd & _). intros Hin. apply (Hd _ Hin). left.
Qed.

Lemma unlock_prefix c P b x l k stop : get_pcb c P = Some b -> ring (cells (pcbs c)) (x :: l ++ k) ->
  child_pcb_list b = x ->
  (stop = NULL /\ k = [] \/ stop <> NULL /\ next <$> cells (pcbs c) !! stop = Some (front_of (k ++ [x]))) ->
  unlock_children P stop c = Some (OK, over (x :: l) unlocked c).
Proof.
  intros Hb Hr Hf Hs. unfold unlock_children. run Hb. rewrite Hf. pose proof Hr as (Hnd & Hn & _).
  rewrite decide_False by (intros ->; apply Hn; left).
  assert (Hl : (if decide (stop = NULL) then Some x else next <$> cells (pcbs c) !! stop) = Some (front_of (k ++ [x]))).
  { destruct Hs as [[-> ->]|[Hs1 Hs2]]; [by rewrite decide_True|by rewrite decide_False]. }
  rewrite Hl. cbn [mbind option_bind]. destruct (ring_prefix _ _ _ _ Hr) as [Hc Hni].
  rewrite (walk_next_chain _ (cells (pcbs c)) l x (front_of (k ++ [x]))); [|done|done|].
  2:{ pose proof (ring_fuel _ _ Hr) as Hfu. cbn [length] in *. rewrite length_app in Hfu. lia. }
  rewrite <-(over_nil unlocked c) at 2. rewrite fold_over; [done| |].
  - cbn [app]. change (x :: l ++ k) with ((x :: l) ++ k) in Hnd. by apply NoDup_app in Hnd as [? _].
  - intros p Hp. destruct (ring_dom _ _ p Hr) as [n Hpn]; [change (x :: l ++ k) with ((x :: l) ++ k); set_solver|].
    unfold get_pcb. rewrite Hpn. split; by eexists.
Qed.

Section unlocking.
Context (s : kstate) (t : tcb_t) (P : addr) (b : pcb_t) (kids : list addr) (threads : addr -> list addr).
Context (Hch : children (ctl s) P b kids threads).

Lemma relocked k : (forall p, p ∈ k -> p ∈ kids) -> over k unlocked (ctl (locked_kids s t k)) = ctl s.
Proof.
  intros Hk. apply over_undo. intros p n Hp Hn. destruct (ch_kid _ _ _ _ _ Hch p (Hk p Hp)) as (bp & Hbp & Hl & _).
  unfold get_pcb in Hbp. rewrite Hn in Hbp. injection Hbp as <-. unfold unlocked.
  change (CtrlBlk.set_lock mutex_init (data n) = data n). rewrite <-Hl. by destruct (data n).
Qed.

Lemma locked_ring k : ring (cells (pcbs (ctl (locked_kids s t k)))) kids.
Proof. eapply ring_ext; [intros p _; apply over_links|]. apply Hch. Qed.

Lemma locked_parent k : (forall p, p ∈ k -> p ∈ kids) -> get_pcb (ctl (locked_kids s t k)) P = Some b.
Proof.
  intros Hk. cbn [locked_kids ctl with_ctl]. rewrite over_pcb, decide_False; [apply Hch|]. intros Hin.
  by apply (ch_self _ _ _ _ _ Hch), Hk.
Qed.

Lemma passed_split l : match first_sat (exited (ctl s) threads) l with
  | Some x => exists l1 l2, l = l1 ++ x :: l2 /\ passed s threads l = l1 ++ [x]
  | None => passed s threads l = l
  end.
Proof.
  induction l as [|y l IH]; [done|]. cbn [first_sat passed]. destruct (exited _ _ y); [by exists [], l|].
  destruct (first_sat _ l) as [x|]; [|by rewrite IH]. destruct IH as (l1 & l2 & -> & ->). by exists (y :: l1), l2.
Qed.

(** What the search locked, [unlock_children] gives back. *)
Lemma unlock_children_ok : ctl_op (unlock_children P (default NULL (first_sat (exited (ctl s) threads) kids)))
  (locked_kids s t (passed s threads kids)) = Done OK s.
Proof.
  pose proof (passed_split kids) as Hp. pose proof (ch_front _ _ _ _ _ Hch) as Hf. pose proof (ch_ring _ _ _ _ _ Hch) as Hr.
  assert (Hu : forall k, (forall p, p ∈ k -> p ∈ kids) -> with_ctl (over k unlocked (ctl (locked_kids s t k))) (locked_kids s t k) = s).
  { intros k Hk. rewrite relocked by done. change (with_ctl (ctl s) s = s). apply with_ctl_id. }
  destruct (first_sat _ kids) as [x|] eqn:E; cbn [default from_option]; unfold id.
  - destruct Hp as (l1 & l2 & Ek & ->). assert (Hin : forall p, p ∈ l1 ++ [x] -> p ∈ kids) by (intros p; rewrite Ek; set_solver).
    rewrite <-(Hu (l1 ++ [x]) Hin) at 2. apply ctl_op_ok. pose proof (locked_ring (l1 ++ [x])) as Hlr.
    assert (x <> NULL) as Hxn by (intros ->; destruct Hr as (_ & Hn & _); apply Hn; rewrite Ek; set_solver).
    assert (exists y l, l1 ++ [x] = y :: l) as (y & l & El) by (destruct l1; cbn [app]; by do 2 eexists). rewrite El in *.
    apply (unlock_prefix _ P b y l l2); [by apply locked_parent| | |].
    + change (y :: l ++ l2) with ((y :: l) ++ l2). rewrite <-El, <-app_assoc. cbn [app]. rewrite <-Ek. apply locked_ring.
    + rewrite Hf, Ek. destruct l1 as [|z l1]; cbn [app] in El; injection El as El _; by rewrite <-El.
    + right. split; [done|]. assert (Hlr2 : ring (cells (pcbs (ctl (locked_kids s t (y :: l))))) (x :: l2 ++ l1)).
      { change (x :: l2 ++ l1) with ((x :: l2) ++ l1). apply ring_rotate. rewrite <-Ek. apply locked_ring. }
      destruct (ring_head _ _ _ Hlr2) as (n & Hn & Hnx & _). rewrite Hn. cbn. f_equal. rewrite Hnx, <-app_assoc, El. by destruct l2.
  - rewrite Hp. assert (kids = [] \/ exists y l, kids = y :: l) as [Ek|(y & l & Ek)] by (destruct kids; eauto).
    + rewrite <-(Hu [] ltac:(intros p []%elem_of_nil)) at 2. rewrite over_nil, Ek. apply ctl_op_ok. unfold unlock_children.
      pose proof (locked_parent [] ltac:(intros p []%elem_of_nil)) as Hb. run Hb. by rewrite Hf, Ek.
    + rewrite <-(Hu kids ltac:(done)) at 2. apply ctl_op_ok. rewrite Ek at 2.
      apply (unlock_prefix _ P b y l []); [by apply locked_parent| |by rewrite Hf, Ek|by left].
      rewrite app_nil_r, <-Ek. apply locked_ring.
Qed.

End unlocking.

(** ** Detaching a child *)

(** A change of the process tree: only the nodes of processes, each with the
    data [f] makes of it, and no node comes or goes. *)
Definition tree_change (f : addr -> pcb_t -> pcb_t) (c c' : ctrl) : Prop :=
  c' = set_pcbs (pcbs c') c /\ pool (pcbs c') = pool (pcbs c) /\ forall p, get_pcb c' p = f p <$> get_pcb c p.

Lemma over_same l f c : (forall p n, p ∈ l -> cells (pcbs c) !! p = Some n -> f (data n) = data n) -> over l f c = c.
Proof.
  intros H. apply ctrl_pcbs_eq; [done|done|]. intros p. rewrite over_lookup. unfold over_node.
  destruct (cells (pcbs c) !! p) as [n|] eqn:E; [|done]. cbn. case_decide; [|done]. rewrite (H p n) by done. by destruct n.
Qed.

Lemma tree_change_over l f c : tree_change (fun p b => if decide (p ∈ l) then f b else b) c (over l f c).
Proof. split; [done|]. split; [done|]. intros p. rewrite over_pcb. case_decide; [done|]. by destruct (get_pcb c p). Qed.

Lemma heap_pcb c h p : get_pcb (set_pcbs (Zone h (pool (pcbs c))) c) p = data <$> h !! p.
Proof. done. Qed.

(** A node taken out of a ring and closed on itself. *)
Lemma detach_node {A} (h : heap A) x l : ring h (x :: l) ->
  exists n h1 n1 h2 h3 h4, h !! x = Some n /\ set_previous (next n) (previous n) h = Some h1 /\
    h1 !! x = Some n1 /\ set_next (previous n1) (next n1) h1 = Some h2 /\ set_next x x h2 = Some h3 /\ set_previous x x h3 = Some h4 /\
    ring h4 l /\ ring h4 [x] /\ (forall q, data <$> h4 !! q = data <$> h !! q) /\
    (forall q, q ∉ x :: l -> h4 !! q = h !! q).
Proof.
  intros Hr. pose proof Hr as (Hnd & Hnn & _). apply NoDup_cons in Hnd as [Hx _].
  destruct (unlink_swapped _ _ _ Hr) as (n & h1 & n1 & h2 & Hn & _ & H1 & Hn1 & H2 & Hring & Hdom & Hdata & Hframe).
  assert (is_Some (h2 !! x)) as [m Hm] by (apply (dom_lookup _ _ _ Hdom); by exists n).
  exists n, h1, n1, h2, (<[x := Node (previous m) x (data m)]> h2), (<[x := Node x x (data m)]> h2). split_and!; try done.
  - by apply set_next_ok.
  - rewrite (set_previous_ok _ _ _ (Node (previous m) x (data m))) by (by rewrite lookup_insert_eq). by rewrite insert_insert_eq.
  - eapply ring_frame; [|exact Hring]. intros p Hp. rewrite lookup_insert_ne; [done|by intros <-].
  - apply ring_single. intros ->. apply Hnn. left.
  - intros q. destruct (decide (q = x)) as [->|Hq]; [by rewrite lookup_insert_eq, <-Hdata, Hm|by rewrite lookup_insert_ne by done].
  - intros q Hq. apply not_elem_of_cons in Hq as [Hq1 Hq2]. rewrite lookup_insert_ne by done. by apply Hframe.
Qed.

Lemma detach_ok c P b kids k1 x k2 : get_pcb c P = Some b -> child_pcb_list b = front_of kids -> ring (cells (pcbs c)) kids ->
  P ∉ kids -> kids = k1 ++ x :: k2 ->
  exists c', detach_child P x c = Some c' /\
    tree_change (fun p b => if decide (p = P) then set_child_pcb_list (front_of (k1 ++ k2)) b else b) c c' /\
    ring (cells (pcbs c')) (k1 ++ k2) /\ ring (cells (pcbs c')) [x] /\
    forall q, q ∉ kids -> same_links (cells (pcbs c)) (cells (pcbs c')) q.
Proof.
  intros Hb Hf Hr HP E. pose proof Hr as (Hnd & Hnn & _). rewrite E in Hnd, Hnn.
  assert (Hr2 : ring (cells (pcbs c)) (x :: k2 ++ k1)).
  { change (x :: k2 ++ k1) with ((x :: k2) ++ k1). apply ring_rotate. by rewrite <-E. }
  destruct (ring_head _ _ _ Hr2) as (n & Hn & Hnx & _). unfold detach_child. run Hn.
  destruct (decide (x = next n)) as [Hone|Hmany].
  - assert (k2 ++ k1 = []) as [-> ->]%app_eq_nil.
    { destruct (k2 ++ k1) as [|y l] eqn:El; [done|]. rewrite <-Hone in Hnx. cbn in Hnx. subst y.
      destruct Hr2 as (Hd & _). apply NoDup_cons in Hd as [Hd _]. destruct Hd. left. }
    rewrite upd_pcb_over by (by exists b). eexists. split; [done|]. split; [|split; [|split]].
    + split; [done|]. split; [done|]. intros p. rewrite over_pcb. destruct (decide (p = P)) as [->|Hp].
      * by rewrite decide_True by left.
      * rewrite decide_False; [by destruct (get_pcb c p)|]. intros [?|[]%elem_of_nil]%elem_of_cons; done.
    + apply ring_nil.
    + eapply ring_ext; [intros p _; apply over_links|]. by rewrite E in Hr.
    + intros q _. apply over_links.
  - set (g := set_child_pcb_list (front_of (k1 ++ k2))). assert (Hk : k2 ++ k1 <> []).
    { intros [-> ->]%app_eq_nil. by rewrite Hnx in Hmany. }
    assert (Hup : (if decide (child_pcb_list b = x) then upd_pcb P (set_child_pcb_list (next n)) c else Some c) = Some (over [P] g c)).
    { destruct (decide _) as [Hx|Hx].
      - assert (k1 = []) as ->. { destruct k1 as [|y k1]; [done|]. rewrite Hf, E in Hx. cbn in Hx. subst y. apply NoDup_cons in Hnd as [Hnd _]. set_solver. }
        rewrite upd_pcb_over by (by exists b). f_equal. unfold g. rewrite Hnx. by destruct k2.
      - f_equal. symmetry. apply over_same. intros p q Hp Hq. apply elem_of_cons in Hp as [->|[]%elem_of_nil].
        unfold get_pcb in Hb. rewrite Hq in Hb. injection Hb as Hb. unfold g. rewrite Hb.
        destruct k1 as [|y k1]; [by rewrite Hf, E in Hx|]. rewrite E in Hf. change (front_of ((y :: k1) ++ k2)) with y.
        change (child_pcb_list b = y) in Hf. rewrite <-Hf. by destruct b. }
    run Hb. run Hup. assert (Hr3 : ring (cells (pcbs (over [P] g c))) (x :: k2 ++ k1)) by (eapply ring_ext; [intros p _; apply over_links|done]).
    destruct (detach_node _ _ _ Hr3) as (n0 & h1 & n1 & h2 & h3 & h4 & Hn0 & H1 & Hn1 & H2 & H3 & H4 & Hring & Hone & Hdata & Hframe).
    run Hn0. run H1. run Hn1. run H2. run H3. run H4. eexists. split; [done|]. split; [|split; [|split]].
    + split; [done|]. split; [done|]. intros p. unfold get_pcb at 1. cbn [cells pcbs set_pcbs]. rewrite Hdata.
      change (data <$> cells (pcbs (over [P] g c)) !! p) with (get_pcb (over [P] g c) p).
      rewrite over_pcb. destruct (decide (p = P)) as [->|Hp]; [by rewrite decide_True by left|].
      rewrite decide_False; [by destruct (get_pcb c p)|]. intros [?|[]%elem_of_nil]%elem_of_cons; done.
    + by apply ring_rotate_iff.
    + done.
    + intros q Hq. unfold same_links. cbn [cells pcbs set_pcbs]. rewrite Hframe by (rewrite E in Hq; set_solver). apply over_links.
Qed.


(** ** Joining two rings *)

Lemma last_in {A} (x : A) l : default x (last l) ∈ x :: l.
Proof.
  revert x. induction l as [|y l IH]; intros x; [left|]. right. assert (default x (last (y :: l)) = default y (last l)) as -> by (rewrite last_cons; by destruct (last l)).
  apply IH.
Qed.

Lemma chain_end {A} (h h' : heap A) l : forall x y y', NoDup (x :: l) -> chain h x l y ->
  (forall q, q ∈ x :: l -> q <> default x (last l) -> next <$> h' !! q = next <$> h !! q) ->
  (forall q, q ∈ l -> previous <$> h' !! q = previous <$> h !! q) ->
  next <$> h' !! (default x (last l)) = Some y' -> previous <$> h' !! y' = Some (default x (last l)) ->
  chain h' x l y'.
Proof.
  induction l as [|z l IH]; intros x y y' Hnd Hc Hn Hp He1 He2; [by split|]. destruct Hc as [[H1 H2] Hc].
  pose proof Hnd as [Hx Hnd2]%NoDup_cons. assert (El : default x (last (z :: l)) = default z (last l)) by (rewrite last_cons; by destruct (last l)).
  rewrite El in *. split; [split|].
  - rewrite Hn; [done|left|]. intros ->. apply Hx, last_in.
  - rewrite Hp; [done|left].
  - apply (IH z y); [done|done| | |done|done]; intros q Hq; [|apply Hp; by right]. intros Hne. apply Hn; [by right|done].
Qed.

(** The ring of [g] is put behind the ring of [x]. *)
Lemma splice_rings {A} (h : heap A) x l g m : ring h (x :: l) -> ring h (g :: m) -> (forall q, q ∈ x :: l -> q ∉ g :: m) ->
  exists gn cn h1 cn1 h2 h3 h4, h !! g = Some gn /\ h !! x = Some cn /\ set_next (previous cn) g h = Some h1 /\
    h1 !! x = Some cn1 /\ set_previous g (previous cn1) h1 = Some h2 /\ set_previous x (previous gn) h2 = Some h3 /\
    set_next (previous gn) x h3 = Some h4 /\ ring h4 ((x :: l) ++ g :: m) /\ (forall q, data <$> h4 !! q = data <$> h !! q) /\
    (forall q, q ∉ (x :: l) ++ g :: m -> h4 !! q = h !! q).
Proof.
  intros Hr1 Hr2 Hd. destruct (ring_head _ _ _ Hr1) as (cn & Hcn & _ & Hpc). destruct (ring_head _ _ _ Hr2) as (gn & Hgn & _ & Hpg).
  set (a := default x (last l)) in *. set (z := default g (last m)) in *.
  assert (Ha : a ∈ x :: l) by apply last_in. assert (Hz : z ∈ g :: m) by apply last_in.
  destruct (ring_dom _ _ a Hr1 Ha) as [an Han]. destruct (ring_dom _ _ z Hr2 Hz) as [zn Hzn].
  pose proof (set_next_ok _ _ g _ Han) as H1. set (h1 := <[a := _]> h) in H1.
  destruct (set_next_spec _ _ _ _ H1) as (A1 & A2 & A3 & A4 & A5).
  assert (exists cn1, h1 !! x = Some cn1 /\ previous cn1 = a) as (cn1 & Hcn1 & Hp1).
  { pose proof (A2 x) as Hx. rewrite Hcn in Hx. cbn in Hx. apply fmap_Some in Hx as (cn1 & ? & Hx). exists cn1. split; [done|congruence]. }
  destruct (dom_lookup h h1 g A5 ltac:(by exists gn)) as [gn1 Hgn1].
  pose proof (set_previous_ok _ _ a _ Hgn1) as H2. set (h2 := <[g := _]> h1) in H2.
  destruct (set_previous_spec _ _ _ _ H2) as (B1 & B2 & B3 & B4 & B5).
  destruct (dom_lookup h1 h2 x B5 ltac:(by exists cn1)) as [cn2 Hcn2].
  pose proof (set_previous_ok _ _ z _ Hcn2) as H3. set (h3 := <[x := _]> h2) in H3.
  destruct (set_previous_spec _ _ _ _ H3) as (C1 & C2 & C3 & C4 & C5).
  destruct (dom_lookup h h3 z ltac:(congruence) ltac:(by exists zn)) as [zn3 Hzn3].
  pose proof (set_next_ok _ _ x _ Hzn3) as H4. set (h4 := <[z := _]> h3) in H4.
  destruct (set_next_spec _ _ _ _ H4) as (D1 & D2 & D3 & D4 & D5).
  assert (Hxg : x <> g) by (intros ->; apply (Hd g); left).
  assert (Haz : a <> z) by (intros Heq; rewrite Heq in Ha; by apply (Hd z)).
  assert (Hnext : forall q, next <$> h4 !! q = if decide (q = z) then Some x else if decide (q = a) then Some g else next <$> h !! q).
  { intros q. rewrite D1. case_decide; [done|]. by rewrite C2, B2, A1. }
  assert (Hprev : forall q, previous <$> h4 !! q = if decide (q = x) then Some z else if decide (q = g) then Some a else previous <$> h !! q).
  { intros q. rewrite D2, C1. case_decide; [done|]. by rewrite B1, A2. }
  exists gn, cn, h1, cn1, h2, h3, h4. rewrite Hpc, Hpg, Hp1. split_and!; try done.
  - pose proof Hr1 as (N1 & M1 & R1). pose proof Hr2 as (N2 & M2 & R2). split; [|split].
    + apply NoDup_app. split_and!; [done|exact Hd|done].
    + intros [?|?]%elem_of_app; done.
    + cbn [app]. apply chain_app. split.
      * apply (chain_end h _ l x x); [done|done| | | |]; fold a.
        -- intros q Hq Hqa. rewrite Hnext, !decide_False; [done|done|]. intros ->. by apply (Hd z).
        -- intros q Hq. apply NoDup_cons in N1 as [N1 _]. rewrite Hprev, !decide_False; [done| |by intros ->]. intros ->. apply (Hd g); [by right|left].
        -- by rewrite Hnext, decide_False, decide_True.
        -- by rewrite Hprev, decide_False, decide_True.
      * apply (chain_end h _ m g g); [done|done| | | |]; fold z.
        -- intros q Hq Hqa. rewrite Hnext, !decide_False; [done| |done]. intros ->. by apply (Hd a).
        -- intros q Hq. apply NoDup_cons in N2 as [N2 _]. rewrite Hprev, !decide_False; [done|by intros ->|]. intros ->. apply (Hd x); [left|by right].
        -- by rewrite Hnext, decide_True.
        -- by rewrite Hprev, decide_True.
  - intros q. by rewrite D3, C3, B3, A3.
  - intros q Hq. rewrite D4, C4, B4, A4; [done|..]; intros ->; apply Hq; set_solver.
Qed.

(** ** Adopting grandchildren *)

(** The loop goes along a chain and ends at a process that has the parent. *)
Lemma adopt_chain c init l : forall k x stop fuel, chain (cells (pcbs c)) x l stop -> NoDup (k ++ x :: l) ->
  (forall p, p ∈ x :: l -> exists b, get_pcb c p = Some b /\ parent_pcb_ptr b <> init) ->
  (exists b, get_pcb (over (k ++ x :: l) (set_parent_pcb_ptr init) c) stop = Some b /\ parent_pcb_ptr b = init) ->
  (length (x :: l) < fuel)%nat ->
  adopt fuel x init (over k (set_parent_pcb_ptr init) c) = Some (over (k ++ x :: l) (set_parent_pcb_ptr init) c).
Proof.
  induction l as [|y l IH]; intros k x stop fuel Hc Hnd Hpar Hstop Hf; (destruct fuel as [|fuel]; [cbn in Hf; lia|]); cbn [adopt].
  all: destruct (Hpar x ltac:(left)) as (b & Hb & Hbp).
  all: assert (x ∉ k) as Hx by (apply NoDup_app in Hnd as (_ & Hd & _); intros Hin; apply (Hd x Hin); left).
  all: assert (get_pcb (over k (set_parent_pcb_ptr init) c) x = Some b) as Hb' by (by rewrite over_pcb, decide_False).
  all: run Hb'; rewrite decide_False by done; rewrite over_snoc by (done || by exists b); cbn [mbind option_bind].
  all: rewrite over_lookup; unfold over_node.
  - destruct Hc as [Hn _]. apply fmap_Some in Hn as (n & Hn & ->). rewrite Hn. cbn [mbind option_bind].
    destruct Hstop as (bs & Hbs & Hps). destruct fuel as [|fuel]; [cbn in Hf; lia|]. cbn [adopt].
    case_decide; cbn [next]; run Hbs; by rewrite decide_True.
  - destruct Hc as [[Hn _] Hc]. apply fmap_Some in Hn as (n & Hn & ->). rewrite Hn. cbn [mbind option_bind].
    assert (k ++ x :: next n :: l = (k ++ [x]) ++ next n :: l) as E by (by rewrite <-app_assoc). rewrite E in *.
    case_decide; cbn [next]; (apply (IH (k ++ [x]) (next n) stop); [done|done| |done|cbn in *; lia]; intros p Hp; apply Hpar; by right).
Qed.

(** The children [ks] of [I] and the grandchildren [gs], which are not empty,
    become one ring. *)
Lemma splice_ok c P I i ks gs : get_pcb c I = Some i -> ring (cells (pcbs c)) ks -> ring (cells (pcbs c)) gs ->
  child_pcb_list i = front_of ks -> (forall q, q ∈ ks -> q ∉ gs) -> (ks = [] -> P = I) -> gs <> [] ->
  exists c', splice_grandchildren P I (front_of ks) (front_of gs) c = Some c' /\
    tree_change (fun p b => if decide (p = I) then set_child_pcb_list (front_of (ks ++ gs)) b else b) c c' /\
    ring (cells (pcbs c')) (ks ++ gs) /\ (forall q, q ∉ ks ++ gs -> same_links (cells (pcbs c)) (cells (pcbs c')) q).
Proof.
  intros Hi Hrk Hrg Hf Hd Hemp Hg. unfold splice_grandchildren. destruct ks as [|x l].
  - rewrite decide_True by done. rewrite Hemp by done. rewrite upd_pcb_over by (by exists i). eexists. split; [done|].
    split; [|split; [eapply ring_ext; [intros p _; apply over_links|done]|intros q _; apply over_links]].
    split; [done|]. split; [done|]. intros p. rewrite over_pcb. destruct (decide (p = I)) as [->|Hp]; [by rewrite decide_True by left|].
    rewrite decide_False; [by destruct (get_pcb c p)|]. intros [?|[]%elem_of_nil]%elem_of_cons; done.
  - change (front_of (x :: l)) with x. rewrite decide_False by (intros ->; destruct Hrk as (_ & Hn & _); apply Hn; left).
    destruct gs as [|g m]; [done|]. change (front_of (g :: m)) with g.
    destruct (splice_rings _ _ _ _ _ Hrk Hrg Hd) as (gn & cn & h1 & cn1 & h2 & h3 & h4 & Hgn & Hcn & H1 & Hcn1 & H2 & H3 & H4 & Hr & Hdata & Hframe).
    run Hgn. run Hcn. run H1. run Hcn1. run H2. run H3. run H4. eexists. split; [done|]. split; [|split; [done|]].
    + split; [done|]. split; [done|]. intros p. unfold get_pcb at 1. cbn [cells pcbs set_pcbs]. rewrite Hdata. fold (get_pcb c p).
      case_decide as Hp; [|by destruct (get_pcb c p)]. subst p. rewrite Hi. cbn. f_equal.
      change (front_of ((x :: l) ++ g :: m)) with x. change (child_pcb_list i = x) in Hf. rewrite <-Hf. by destruct i.
    + intros q Hq. unfold same_links. cbn [cells pcbs set_pcbs]. by rewrite Hframe.
Qed.

(** The children of [I] after the grandchildren, the children of [x], have
    joined them. *)
Lemma adopt_grandchildren_ok c P I x i bx ks gs :
  get_pcb c I = Some i -> get_pcb c x = Some bx -> ring (cells (pcbs c)) ks -> ring (cells (pcbs c)) gs ->
  child_pcb_list i = front_of ks -> child_pcb_list bx = front_of gs -> (forall q, q ∈ ks -> q ∉ gs) ->
  I ∉ ks -> I ∉ gs -> x <> I -> x ∉ gs -> (ks = [] -> P = I) ->
  (forall p, p ∈ ks -> exists b, get_pcb c p = Some b /\ parent_pcb_ptr b = I) ->
  (forall p, p ∈ gs -> exists b, get_pcb c p = Some b /\ parent_pcb_ptr b = x) ->
  exists c', adopt_grandchildren P I x c = Some c' /\
    tree_change (fun p b => if decide (p = I) then set_child_pcb_list (front_of (ks ++ gs)) b
                            else if decide (p ∈ gs) then set_parent_pcb_ptr I b else b) c c' /\
    ring (cells (pcbs c')) (ks ++ gs) /\ forall q, q ∉ ks ++ gs -> same_links (cells (pcbs c)) (cells (pcbs c')) q.
Proof.
  intros Hi Hx Hrk Hrg Hfi Hfg Hd HIk HIg HxI Hxg Hemp Hpk Hpg. unfold adopt_grandchildren. run Hi. run Hx. rewrite Hfi, Hfg.
  destruct (decide (gs = [])) as [->|Hne].
  - rewrite decide_True by done. exists c. rewrite app_nil_r. split; [done|]. split; [|split; [done|by intros]].
    split; [by destruct c|]. split; [done|]. intros p. case_decide as Hp.
    + subst p. rewrite Hi. cbn. f_equal. rewrite <-Hfi. by destruct i.
    + destruct (get_pcb c p); [|done]. cbn. by rewrite decide_False by (by intros ?%elem_of_nil).
  - rewrite decide_False by (by eapply front_of_nonnull).
    destruct (splice_ok c P I i ks gs Hi Hrk Hrg Hfi Hd Hemp Hne) as (c1 & H1 & (E1 & P1 & G1) & Hr1 & Hf1).
    run H1. assert (Hx1 : get_pcb c1 x = Some bx) by (rewrite G1, Hx; cbn; by rewrite decide_False).
    run Hx1. rewrite Hfg. assert (exists g m, gs = g :: m) as (g & m & Eg) by (destruct gs; [done|by do 2 eexists]).
    assert (Hg1 : forall p, p ∈ gs -> get_pcb c1 p = get_pcb c p).
    { intros p Hp. destruct (Hpg p Hp) as (b & Hb & _). rewrite G1, Hb. cbn. by rewrite decide_False by (by intros ->). }
    assert (Ha : adopt (S (nodes (cells (pcbs c1)))) (front_of gs) I c1 = Some (over gs (set_parent_pcb_ptr I) c1)).
    { rewrite <-(over_nil (set_parent_pcb_ptr I) c1) at 2. rewrite Eg. change (front_of (g :: m)) with g.
      destruct (ring_prefix (cells (pcbs c1)) g m ks) as [Hc _]; [change (g :: m ++ ks) with ((g :: m) ++ ks); rewrite <-Eg; by apply ring_rotate|].
      apply (adopt_chain c1 I m [] g _ _ Hc); cbn [app]; rewrite <-?Eg; [apply Hrg| | |].
      - intros p Hp. rewrite Hg1 by done. destruct (Hpg p Hp) as (b & Hb & Hpb). exists b. split; [done|congruence].
      - destruct ks as [|k ks]; cbn [app front_of head default from_option]; unfold id; rewrite over_pcb.
        + rewrite decide_True by (rewrite Eg; left). destruct (Hpg g) as (b & Hb & _); [rewrite Eg; left|]. rewrite Hg1, Hb by (rewrite Eg; left).
          by eexists.
        + destruct (Hpk k) as (b & Hb & Hpb); [left|]. rewrite decide_False by (apply Hd; left).
          rewrite G1, Hb. cbn. rewrite decide_False by (intros ->; apply HIk; left). by eexists.
      - pose proof (ring_fuel _ _ Hr1) as Hfu. rewrite length_app in Hfu. lia. }
    exists (over gs (set_parent_pcb_ptr I) c1). split; [exact Ha|]. split; [|split].
    + split; [|split; [done|]]; [by rewrite E1|]. intros p. rewrite over_pcb, G1.
      destruct (get_pcb c p); cbn; [|by case_decide]. destruct (decide (p ∈ gs)) as [Hp|Hp]; cbn; [|done]. case_decide; [by subst p|done].
    + eapply ring_ext; [intros p _; apply over_links|done].
    + intros q Hq. destruct (Hf1 q Hq) as [L1 L2]. destruct (over_links gs (set_parent_pcb_ptr I) c1 q) as [L3 L4]. split; congruence.
Qed.
