(* ===== verification/Wait.v ===== *)
(** Reaping: [handle_wait] of [kern/system_call.c].  The theorem says when the
    call fails, when it waits, and that otherwise the first child that has exited
    is taken out of the process tree, its resources are freed, its children go to
    init, and its status and thread id are returned. *)
From S2P Require Import Prelude Ring KMutex Frames Vm Keyhelp Keyboard Console Machine CtrlBlk Kernel Sched.
From S2P Require Import UserMem Elf Loader Fork Syscall Exceptions Blocking Vanish Family.
#[local] Open Scope Z_scope.

(** ** Emptying a list *)

(** The nodes of [l] are gone; the rest of the heap is as it was. *)
Definition emptied {A} (l : list addr) (z z' : zone A) : Prop :=
  zone_ok z' /\ (forall p, p ∈ l -> cells z' !! p = None) /\ forall p, p ∉ l -> cells z' !! p = cells z !! p.

Lemma emptied_nil {A} (z : zone A) : zone_ok z -> emptied [] z z.
Proof. intros Hz. split; [done|]. split; [by intros p ?%elem_of_nil|done]. Qed.

Lemma emptied_cons {A} x l (z z1 z2 : zone A) : x ∉ l -> popped z z1 x (x :: l) -> emptied l z1 z2 -> emptied (x :: l) z z2.
Proof.
  intros Hx [_ _ Hg _ Hf] (H1 & H2 & H3). split; [done|]. split.
  - intros p [->|Hp]%elem_of_cons; [by rewrite H3|by apply H2].
  - intros p [Hp1 Hp2]%not_elem_of_cons. rewrite H3 by done. apply Hf; [|done]. by apply not_elem_of_cons.
Qed.

Lemma pop_all_ok {A} l : forall fuel (z : zone A), zone_ok z -> ring (cells z) l -> (length l <= fuel)%nat ->
  exists z', pop_all fuel (front_of l) z = Some z' /\ emptied l z z'.
Proof.
  induction l as [|x l IH]; intros fuel z Hz Hr Hf.
  - exists z. split; [by destruct fuel|by apply emptied_nil].
  - destruct fuel as [|fuel]; [cbn in Hf; lia|]. destruct (POP_FRONT_ok z x l Hz Hr) as (z1 & H1 & Hr1 & Hp).
    destruct (IH fuel z1) as (z2 & H2 & He); [apply Hp|done|cbn in Hf; lia|]. exists z2. pose proof Hr as (Hnd & Hn & _).
    split; [|eapply emptied_cons; [by apply NoDup_cons in Hnd as [? _]|done|done]]. cbn [pop_all]. change (front_of (x :: l)) with x.
    rewrite decide_False by (intros ->; apply Hn; left). by run H1.
Qed.

Lemma free_threads_ok c ts : zone_ok (tcbs c) -> ring (cells (tcbs c)) ts ->
  exists z, free_threads (front_of ts) c = Some (set_tcbs z c) /\ emptied ts (tcbs c) z.
Proof.
  intros Hz Hr. destruct (pop_all_ok ts (nodes (cells (tcbs c))) _ Hz Hr (ring_fuel _ _ Hr)) as (z & H1 & H2).
  exists z. split; [|done]. unfold free_threads. by run H1.
Qed.

Lemma emptied_tcb ts c z p : emptied ts (tcbs c) z -> get_tcb (set_tcbs z c) p = if decide (p ∈ ts) then None else get_tcb c p.
Proof. intros (_ & H1 & H2). unfold get_tcb. cbn. case_decide; [by rewrite H1|by rewrite H2]. Qed.

(** The list of terminated threads is emptied. *)
Lemma free_terminated_ok c ns LS : lists_are c ns LS ->
  exists c', free_terminated c = Some c' /\ c' = set_thread_lists (thread_lists c') (set_links (links c') c) /\
    lists_are c' (upd TERMINATED_STATE [] ns) (upd TERMINATED_STATE [] LS).
Proof.
  intros [A1 A2 A3 A4 A5 A6]. assert (list_index TERMINATED_STATE) as Hi by done.
  destruct (pop_all_ok (ns TERMINATED_STATE) (nodes (cells (links c))) _ A2 (A3 _ Hi) (ring_fuel _ _ (A3 _ Hi))) as (z & H1 & Hz & Hg & Hf).
  destruct (thread_list_set (set_links z c) TERMINATED_STATE NULL A1 Hi) as (c' & Hc' & E & Hl & Ht).
  exists c'. unfold free_terminated. rewrite A4 by done. cbn [mbind option_bind]. run H1. split; [done|].
  assert (Hsame : forall i p, list_index i -> i <> TERMINATED_STATE -> p ∈ ns i -> cells (links c') !! p = cells (links c) !! p).
  { intros i p Hii Hne Hp. rewrite E. cbn. apply Hf. intros Hin. apply Hne. by apply (A6 _ _ p). }
  split; [rewrite E; done|]. split; [by rewrite Hl|by rewrite E|..]; intros i; unfold upd.
  - intros Hii. case_decide; [apply ring_nil|]. apply (ring_frame (cells (links c))); [|by apply A3]. intros p. by apply Hsame.
  - intros Hii. rewrite Ht by done. case_decide; [done|]. by apply A4.
  - intros Hii. case_decide; [constructor|]. apply (contents_frame (cells (links c))); [|by apply A5].
    intros p Hp. by rewrite (Hsame i).
  - intros j p Hii Hj. repeat case_decide; try by intros ?%elem_of_nil. 1: by intros _ ?%elem_of_nil. by apply A6.
Qed.

Lemma drop_allocations_ok x als : forall fuel c b, get_pcb c x = Some b -> page_allocation_list b = front_of als ->
  zone_ok (allocations c) -> ring (cells (allocations c)) als -> (length als <= fuel)%nat ->
  exists z, drop_allocations fuel x c = Some (set_allocations z (over [x] (set_page_allocation_list NULL) c)) /\
    emptied als (allocations c) z.
Proof.
  induction als as [|a als IH]; intros fuel c b Hb Hf Hz Hr Hl.
  - exists (allocations c). split; [|by apply emptied_nil]. change (page_allocation_list b = NULL) in Hf.
    assert (over [x] (set_page_allocation_list NULL) c = c) as E.
    { apply over_same. intros p n Hp Hn. apply elem_of_cons in Hp as [->|[]%elem_of_nil]. unfold get_pcb in Hb. rewrite Hn in Hb.
      injection Hb as Hb. rewrite Hb, <-Hf. by destruct b. }
    rewrite E. assert (set_allocations (allocations c) c = c) as -> by (by destruct c).
    destruct fuel; cbn [drop_allocations]; run Hb; by rewrite decide_True.
  - destruct fuel as [|fuel]; [cbn in Hl; lia|]. destruct (POP_FRONT_ok _ a als Hz Hr) as (z1 & H1 & Hr1 & Hp). pose proof Hr as (Hnd & Hn & _).
    set (c1 := set_allocations z1 c). set (g := set_page_allocation_list (front_of als)).
    assert (Hup : upd_pcb x g c1 = Some (over [x] g c1)) by (apply upd_pcb_over; by exists b).
    destruct (IH fuel (over [x] g c1) (g b)) as (z2 & H2 & He); [rewrite over_pcb, decide_True by left; change (get_pcb c1 x) with (get_pcb c x); by rewrite Hb|done|apply Hp|done|cbn in Hl; lia|].
    exists z2. split; [|eapply emptied_cons; [by apply NoDup_cons in Hnd as [? _]|done|done]].
    cbn [drop_allocations]. run Hb. rewrite Hf. change (front_of (a :: als)) with a. rewrite decide_False by (intros ->; apply Hn; left).
    unfold pop_allocation. run Hb. rewrite Hf. change (front_of (a :: als)) with a. run H1. fold c1 g. run Hup. rewrite H2. f_equal.
    assert (over [x] (set_page_allocation_list NULL) (over [x] g c1) = over [x] (set_page_allocation_list NULL) c1) as ->; [|done].
    apply ctrl_pcbs_eq; [done|done|]. intros p. rewrite !over_lookup. unfold over_node. destruct (cells (pcbs c1) !! p) as [n|]; [|done].
    cbn. by case_decide.
Qed.

(** The rest of a process whose threads have all gone. *)
Lemma free_child_ok x c : zone_ok (pcbs c) -> ring (cells (pcbs c)) [x] ->
  exists z, free_child x c = Some (set_pcbs z c) /\ emptied [x] (pcbs c) z.
Proof.
  intros Hz Hr. destruct (POP_FRONT_ok _ x [] Hz Hr) as (z & H1 & _ & Hp). exists z. unfold free_child. run H1. split; [done|].
  apply (emptied_cons x []  _ z); [by intros ?%elem_of_nil|done|]. apply emptied_nil, Hp.
Qed.

Lemma over_zone l f c : zone_ok (pcbs c) -> zone_ok (pcbs (over l f c)).
Proof.
  intros (H1 & H2 & H3 & H4). split; [done|]. split; [done|]. split; [intros p Hp|]; rewrite over_lookup; [by rewrite H3|by rewrite H4].
Qed.

(** ** Releasing the child *)

Section releasing.
Context `{Platform}.

(** The status is stored where the caller wants it, if anywhere. *)
Definition stored_at (s : kstate) (v : addr) (w : Z) : Prop := v = NULL \/ word_at s v = u32 w.

Lemma store_status_ok s F v w : space_ok s F -> v = NULL \/ own_range s v 4 ->
  exists s', (if decide (v = NULL) then Done tt s else store32 v (u32 w) s) = Done tt s' /\ s' = with_mem (mem s') s /\ stored_at s' v w.
Proof.
  intros Hs Hv. destruct (decide (v = NULL)) as [->|Hn].
  - exists s. split; [done|]. split; [by destruct s|by left].
  - destruct Hv as [?|Hr]; [done|]. change 4 with (Z.of_nat (length (bytes_of (u32 w)))) in Hr.
    destruct (store_range_ok s F v (bytes_of (u32 w)) Hs Hr) as (s' & _ & E & _ & Hst & _). destruct (Hst (u32 w) eq_refl) as [H1 H2].
    exists s'. split; [done|]. split; [done|]. right.
    assert (Hs' : space_ok s' F) by (rewrite E; exact Hs).
    assert (Hm : mapped_range s' v 4).
    { destruct Hr as (R1 & R2 & R3). change (Z.of_nat (length (bytes_of (u32 w)))) with 4 in *. change USER_PAGE_START with 16777216 in R1.
      split; [lia|]. split; [lia|].
      intros q Hq. destruct (R3 q Hq) as (f & rw & us & Hx & _). exists f, rw, us. unfold here. rewrite E. exact Hx. }
    rewrite (load32_mapped s' F v Hs' Hm) in H2. injection H2 as H2. rewrite H2. unfold u32. by rewrite Z.mod_mod by done.
Qed.

Lemma word_at_same s s' v : mem s' = mem s -> cr3 s' = cr3 s -> (forall w, here s' w = here s w) -> word_at s' v = word_at s v.
Proof.
  intros Em Ec Hh. unfold word_at. f_equal. unfold places. rewrite <-!list_fmap_compose. apply list_fmap_ext. intros i q _.
  unfold compose, byte_at, place_of. by rewrite Em, Hh.
Qed.

(** What is left when the child at [x] with the threads [ts], the allocations
    [als] and the page directory [d] has been freed. *)
Record released (s : kstate) (LS : Z -> list addr) (me x : addr) (ts als : list addr) (d : addr) (s' : kstate) : Prop := {
  re_sched : scheduled s' (upd TERMINATED_STATE [] LS) me;
  re_pcbs : emptied [x] (pcbs (ctl s)) (pcbs (ctl s'));
  re_tcbs : emptied ts (tcbs (ctl s)) (tcbs (ctl s'));
  re_allocations : emptied als (allocations (ctl s)) (allocations (ctl s'));
  re_rest : s' = with_mem (mem s') (with_kvm (kvm s') (with_ctl (ctl s') s));
  re_root : root_pcb_node_ptr (ctl s') = root_pcb_node_ptr (ctl s);
  re_space : exists F, space_ok s' F;
  re_dirs : dom (pdirs (kvm s')) = dom (pdirs (kvm s)) ∖ {[d]};
  re_views : forall d' v, d' <> d -> view (kvm s') d' v = view (kvm s) d' v;
}.

(** The child can be released: its threads have gone, and its memory is not the
    caller's. *)
Record releasable (s : kstate) (LS : Z -> list addr) (F : list Z) (x : addr) (bx : pcb_t) (ts als : list addr) (first : tcb_t) : Prop := {
  rl_pcb : get_pcb (ctl s) x = Some bx;
  rl_zones : zone_ok (pcbs (ctl s)) /\ zone_ok (tcbs (ctl s)) /\ zone_ok (allocations (ctl s));
  rl_alone : ring (cells (pcbs (ctl s))) [x];
  rl_threads : threads_of (ctl s) bx ts;
  rl_first : get_tcb (ctl s) (front_of ts) = Some first;
  rl_unlisted : forall i q, list_index i -> i <> TERMINATED_STATE -> q ∈ LS i -> q ∉ ts /\ process_of (ctl s) q <> x;
  rl_allocations : ring (cells (allocations (ctl s))) als /\ page_allocation_list bx = front_of als;
  rl_space : space_ok s F;
  rl_dir : is_Some (pdirs (kvm s) !! page_directory bx) /\ page_directory bx <> page_of (cr3 s);
}.

(** The scheduler after something went: the lists are part of the old ones, and
    the threads in them and their processes are still there. *)
Lemma scheduled_part s s' ns LS LS' me : scheduled s LS me -> lists_are (ctl s') ns LS' -> LS' RUNNING_STATE = [me] ->
  (forall i, list_index i -> LS' i = LS i \/ LS' i = []) ->
  (forall i p, list_index i -> p ∈ LS' i -> get_tcb (ctl s') p = get_tcb (ctl s) p /\
     (is_Some (get_pcb (ctl s) (process_of (ctl s) p)) -> is_Some (get_pcb (ctl s') (process_of (ctl s) p)))) ->
  scheduled s' LS' me.
Proof.
  intros [[_ Hok] Hrun Hpr] Hla Hr Hpart Hkeep. split; [split|done|].
  - by exists ns.
  - intros i Hi. destruct (Hpart i Hi) as [E|E]; rewrite E; [|split; [constructor|by intros p ?%elem_of_nil]].
    destruct (Hok i Hi) as [Hnd Ht]. split; [done|]. intros p Hp. destruct (Hkeep i p Hi) as [-> _]; [by rewrite E|]. by apply Ht.
  - intros i p t Hi Hp Ht. destruct (Hkeep i p Hi Hp) as [Eg Hpc]. rewrite Eg in Ht.
    assert (process_of (ctl s) p = tcb_pcb t) as E by (unfold process_of; by rewrite Ht). rewrite E in Hpc. apply Hpc.
    destruct (Hpart i Hi) as [El|El]; rewrite El in Hp; [by apply (Hpr i p t)|by apply elem_of_nil in Hp].
Qed.

(** The threads of the child and the list of terminated threads are freed: nobody
    in another list is touched. *)
Record lists_freed (s : kstate) (LS : Z -> list addr) (x : addr) (ts : list addr) (c : ctrl) : Prop := {
  lf_pcbs : pcbs c = pcbs (ctl s);
  lf_allocations : allocations c = allocations (ctl s);
  lf_root : root_pcb_node_ptr c = root_pcb_node_ptr (ctl s);
  lf_tcbs : emptied ts (tcbs (ctl s)) (tcbs c);
  lf_lists : exists ns, lists_are c ns (upd TERMINATED_STATE [] LS);
  lf_listed : forall i p, list_index i -> p ∈ upd TERMINATED_STATE [] LS i ->
    get_tcb c p = get_tcb (ctl s) p /\ process_of (ctl s) p <> x;
}.

Lemma free_lists_ok s LS me F x bx ts als first : scheduled s LS me -> releasable s LS F x bx ts als first ->
  exists c1 c2, free_threads (front_of ts) (ctl s) = Some c1 /\ free_terminated c1 = Some c2 /\ lists_freed s LS x ts c2.
Proof.
  intros Hsc [_ (_ & Hzt & _) _ [Hth _] _ Hun _ _ _]. destruct (free_threads_ok (ctl s) ts Hzt Hth) as (zt & H1 & Ht).
  destruct (sc_sched _ _ _ Hsc) as [(ns & Hla) _]. assert (Hla1 : lists_are (set_tcbs zt (ctl s)) ns LS) by (destruct Hla; by split).
  destruct (free_terminated_ok _ _ _ Hla1) as (c2 & H2 & E2 & Hla2). exists (set_tcbs zt (ctl s)), c2. split; [done|]. split; [done|].
  assert (tcbs c2 = zt) as Et by by rewrite E2. split; try by rewrite E2.
  - by eexists.
  - intros i p Hi Hp. unfold upd in Hp. case_decide as Hc; [by apply elem_of_nil in Hp|]. destruct (Hun i p Hi Hc Hp) as [Hnt Hpx].
    split; [|done]. destruct Ht as (_ & _ & Hk). unfold get_tcb. by rewrite Et, Hk.
Qed.

Lemma lists_freed_scheduled s LS me x ts c s' : scheduled s LS me -> lists_freed s LS x ts c ->
  (exists ns, lists_are (ctl s') ns (upd TERMINATED_STATE [] LS)) -> get_tcb (ctl s') = get_tcb c ->
  (forall p, p <> x -> get_pcb (ctl s') p = get_pcb (ctl s) p) -> scheduled s' (upd TERMINATED_STATE [] LS) me.
Proof.
  intros Hsc Hlf [ns Hla] Eg Hp. eapply (scheduled_part s); [done|exact Hla|by rewrite upd_ne; [apply Hsc|]| |].
  - intros i _. unfold upd. case_decide; [by right|by left].
  - intros i q Hi Hq. destruct (lf_listed _ _ _ _ _ Hlf i q Hi Hq) as [Hg Hx]. rewrite Eg, Hp by done. by split.
Qed.

(** The allocations of the child and its block are freed. *)
Lemma free_process_ok x bx als c : get_pcb c x = Some bx -> zone_ok (pcbs c) -> ring (cells (pcbs c)) [x] ->
  zone_ok (allocations c) -> ring (cells (allocations c)) als -> page_allocation_list bx = front_of als ->
  exists c1 c2, drop_allocations (nodes (cells (allocations c))) x c = Some c1 /\ free_child x c1 = Some c2 /\
    emptied [x] (pcbs c) (pcbs c2) /\ emptied als (allocations c) (allocations c2) /\
    c2 = set_pcbs (pcbs c2) (set_allocations (allocations c2) c).
Proof.
  intros Hb Hzp Hal Hza Hra Hfa.
  destruct (drop_allocations_ok x als (nodes (cells (allocations c))) c bx) as (za & H6 & Hza'); [done..|by apply ring_fuel|].
  set (c1 := set_allocations za _) in H6. destruct (free_child_ok x c1) as (zp & H7 & Hzp').
  { by apply over_zone. }
  { eapply ring_ext; [intros p _; apply over_links|done]. }
  exists c1, (set_pcbs zp c1). split; [done|]. split; [done|]. split; [|by split].
  split; [apply Hzp'|]. split; [apply Hzp'|]. intros p Hp. destruct Hzp' as (_ & _ & Hk). cbn [pcbs set_pcbs]. rewrite Hk by done. unfold c1.
  cbn [pcbs set_allocations]. rewrite over_lookup. unfold over_node. destruct (cells (pcbs c) !! p); [|done]. cbn. by rewrite decide_False.
Qed.

Lemma release_ok s LS me F x bx ts als first st : scheduled s LS me -> releasable s LS F x bx ts als first ->
  st = NULL \/ own_range s st 4 ->
  exists s', release_child x st s = Done (tid first) s' /\ released s LS me x ts als (page_directory bx) s' /\
    stored_at s' st (status bx).
Proof.
  intros Hsc Hrl Hst. pose proof Hrl as [Hbx (Hzp & Hzt & Hza) Hal [Hth Hfr] Hfirst _ [Hra Hfa] [Hvm Hcr] [Hd Hdc]].
  unfold release_child. kstep (pcb_at_ok _ _ _ Hbx). rewrite Hfr. kstep (tcb_at_ok _ _ _ Hfirst).
  destruct (free_lists_ok s LS me F x bx ts als first Hsc Hrl) as (c1 & c2 & H1 & H2 & Hlf). pose proof Hlf as [Ep2 Ea2 Er2 Ht2 Hla2 _].
  kstep (ctl_upd_ok _ _ _ H1). kstep (ctl_upd_ok _ (with_ctl c1 s) _ H2).
  set (s2 := with_ctl c2 (with_ctl c1 s)). assert (Hb2 : get_pcb c2 x = Some bx) by (unfold get_pcb; by rewrite Ep2).
  assert (Hsc2 : scheduled s2 (upd TERMINATED_STATE [] LS) me).
  { eapply lists_freed_scheduled; [done|done|exact Hla2|done|]. intros p _. unfold get_pcb. cbn [ctl with_ctl s2]. by rewrite Ep2. }
  (* the status *)
  destruct (store_status_ok s2 F st (status bx)) as (s3 & H3 & E3 & Hst3); [by split|exact Hst|].
  assert (Hwhen : when (bool_decide (st <> NULL)) (b ← pcb_at x; store32 st (u32 (status b))) s2 = Done tt s3).
  { rewrite <-H3. destruct (decide (st = NULL)); [by rewrite bool_decide_false by tauto|]. rewrite bool_decide_true by done. cbn [when].
    by kstep (pcb_at_ok s2 _ _ Hb2). }
  kstep Hwhen. assert (ctl s3 = c2 /\ kvm s3 = kvm s /\ cr3 s3 = cr3 s) as (Ec3 & Ek & Ecr) by (by rewrite E3).
  rewrite <-Ec3 in Hb2. kstep (pcb_at_ok _ _ _ Hb2). rewrite Ec3 in Hb2.
  (* the page directory *)
  destruct (running_home s2 _ me Hsc2) as (t & _ & Htm & _). pose proof (running_is _ _ _ Hsc2) as Hr2.
  destruct (destruct_page_dir_ok (tid t) (kvm s3) F (page_directory bx)) as (v4 & F' & H4 & Hvm4 & Hdom & Hview & _); [by rewrite Ek..|].
  assert (H5 : destruct_dir (page_directory bx) s3 = Done tt (with_kvm v4 s3)).
  { unfold destruct_dir. apply (vm_op_done _ _ me t); [split; by rewrite Ec3|]. cbv beta. by run H4. }
  kstep H5. set (s4 := with_kvm v4 s3).
  (* the allocations and the process itself *)
  destruct (free_process_ok x bx als c2 Hb2) as (c5 & c6 & H6 & H7 & Hep & Hea & E6); [by rewrite ?Ep2, ?Ea2..|].
  unfold clear_allocations. rewrite <-Ec3 in H6 at 1 2. kstep (ctl_upd_ok (fun c => drop_allocations (nodes (cells (allocations c))) x c) s4 _ H6).
  kstep (ctl_upd_ok _ (with_ctl c5 s4) _ H7). eexists. split; [reflexivity|]. rewrite Ep2 in Hep. rewrite Ea2 in Hea. 
  split; [split; cbn [ctl with_ctl]; [|done|by rewrite E6|done| |by rewrite E6| | |]|].
  - eapply lists_freed_scheduled; [done|done| | |]; cbn [ctl with_ctl].
    + destruct Hla2 as [ns Hla]. exists ns. rewrite E6. destruct Hla. by split.
    + by rewrite E6.
    + intros p Hp. unfold get_pcb. destruct Hep as (_ & _ & Hk). rewrite Hk; [done|]. by intros [?|[]%elem_of_nil]%elem_of_cons.
  - unfold s4. rewrite E3. by destruct s.
  - exists F'. split; [done|]. change (is_Some (pdirs v4 !! page_of (cr3 s3))). rewrite Ecr. apply elem_of_dom. rewrite Hdom, Ek.
    apply elem_of_difference. split; [by apply elem_of_dom|]. intros ?%elem_of_singleton. by apply Hdc.
  - cbn [kvm with_ctl with_kvm s4]. by rewrite Hdom, Ek.
  - intros d' v Hne. cbn [kvm with_ctl with_kvm s4]. by rewrite Hview, Ek.
  - destruct Hst3 as [?|Hw]; [by left|right]. rewrite <-Hw. apply word_at_same; [done..|]. intros w. unfold here. cbn [kvm cr3 with_ctl with_kvm s4].
    rewrite Hview; [done|]. rewrite Ecr. by apply not_eq_sym.
Qed.

End releasing.

(** ** The process tree *)

(** The children of each process are a ring, and each names its parent. *)
Record tree (c : ctrl) (kids : addr -> list addr) : Prop := {
  tr_zone : zone_ok (pcbs c);
  tr_kids : forall p b, get_pcb c p = Some b -> ring (cells (pcbs c)) (kids p) /\ child_pcb_list b = front_of (kids p);
  tr_parent : forall p b q, get_pcb c p = Some b -> q ∈ kids p -> exists bq, get_pcb c q = Some bq /\ parent_pcb_ptr bq = p;
  tr_self : forall p b, get_pcb c p = Some b -> parent_pcb_ptr b <> p;
  tr_root : exists rb, get_pcb c (root_pcb_node_ptr c) = Some rb /\ parent_pcb_ptr rb = NULL;
}.

(** The children once [x] has been reaped and its own children have gone to
    [I]. *)
Definition kids_after (kids : addr -> list addr) (I x p : addr) : list addr :=
  let rest := filter (fun q => q <> x) (kids p) in if decide (p = I) then rest ++ kids x else rest.

Lemma tree_change_trans f g c1 c2 c3 : tree_change f c1 c2 -> tree_change g c2 c3 -> tree_change (fun p b => g p (f p b)) c1 c3.
Proof.
  intros (E1 & P1 & G1) (E2 & P2 & G2). split; [by rewrite E2, E1|]. split; [congruence|]. intros p. rewrite G2, G1.
  by destruct (get_pcb c1 p).
Qed.

Lemma tree_change_ext f g c c' : (forall p b, get_pcb c p = Some b -> f p b = g p b) -> tree_change f c c' -> tree_change g c c'.
Proof.
  intros H (E & P & G). split; [done|]. split; [done|]. intros p. rewrite G. destruct (get_pcb c p) eqn:Hp; [|done]. cbn. by rewrite (H p).
Qed.

Lemma tree_change_pcb f c c' p b : tree_change f c c' -> get_pcb c p = Some b -> get_pcb c' p = Some (f p b).
Proof. intros (_ & _ & G) H. by rewrite G, H. Qed.

(** Locking and unlocking a process are such changes. *)
Definition locked_at (l : addr) (m : mutex) (p : addr) (b : pcb_t) : pcb_t := if decide (p = l) then CtrlBlk.set_lock m b else b.

Lemma put_lock_change l m s s' : put_lock (PcbLock l) m s = Some s' -> exists c', s' = with_ctl c' s /\
  tree_change (locked_at l m) (ctl s) c' /\ forall q, same_links (cells (pcbs (ctl s))) (cells (pcbs c')) q.
Proof.
  intros H. cbn [put_lock] in H. apply bind_Some in H as (c & Hc & [= <-]). exists c. split; [done|].
  assert (is_Some (get_pcb (ctl s) l)) as Hb.
  { unfold upd_pcb in Hc. destruct (get_pcb (ctl s) l); [by eexists|done]. }
  rewrite upd_pcb_over in Hc by done. injection Hc as <-. split; [|apply over_links].
  eapply tree_change_ext; [|apply tree_change_over]. intros p b _. cbn. unfold locked_at.
  destruct (decide (p = l)) as [->|Hp]; [by rewrite decide_True by left|by rewrite decide_False by (by intros [?|[]%elem_of_nil]%elem_of_cons)].
Qed.

Lemma lock_change l s b me t : get_pcb (ctl s) l = Some b -> lock b = mutex_init -> running (ctl s) = Some me -> get_tcb (ctl s) me = Some t ->
  exists c', mutex_lock (PcbLock l) s = Done tt (with_ctl c' s) /\ tree_change (locked_at l (Mutex LOCKED (tid t))) (ctl s) c' /\
    forall q, same_links (cells (pcbs (ctl s))) (cells (pcbs c')) q.
Proof.
  intros Hb Hl Hme Ht. destruct (mutex_lock_ok (PcbLock l) s mutex_init me t) as (s' & H1 & Hput); [cbn; by rewrite Hb, <-Hl|done..|].
  destruct (put_lock_change _ _ _ _ Hput) as (c' & -> & H). by exists c'.
Qed.

Lemma unlock_change l s b m : get_pcb (ctl s) l = Some b -> lock b = Mutex LOCKED m ->
  exists c', mutex_unlock (PcbLock l) s = Done tt (with_ctl c' s) /\ tree_change (locked_at l mutex_init) (ctl s) c' /\
    forall q, same_links (cells (pcbs (ctl s))) (cells (pcbs c')) q.
Proof.
  intros Hb Hl. destruct (unlock_ok (PcbLock l) s (Mutex LOCKED m)) as (s' & H1 & Hput); [cbn; by rewrite Hb, <-Hl|].
  change (KMutex.mutex_unlock (Mutex LOCKED m)) with mutex_init in Hput.
  destruct (put_lock_change _ _ _ _ Hput) as (c' & -> & H). by exists c'.
Qed.

Section facts.
Context (c : ctrl) (kids : addr -> list addr).
Context (Ht : tree c kids).

Lemma kids_disjoint p p' b b' q : get_pcb c p = Some b -> get_pcb c p' = Some b' -> p <> p' -> q ∈ kids p -> q ∉ kids p'.
Proof.
  intros Hp Hp' Hne Hq Hq'. destruct (tr_parent _ _ Ht p b q Hp Hq) as (bq & Hbq & <-).
  destruct (tr_parent _ _ Ht p' b' q Hp' Hq') as (bq' & Hbq' & Hpar). congruence.
Qed.

Lemma kids_self p b : get_pcb c p = Some b -> p ∉ kids p.
Proof.
  intros Hp Hin. destruct (tr_parent _ _ Ht p b p Hp Hin) as (bq & Hbq & Hpar). by apply (tr_self _ _ Ht p bq).
Qed.

Lemma kids_some p b q : get_pcb c p = Some b -> q ∈ kids p -> is_Some (get_pcb c q) /\ q <> NULL.
Proof.
  intros Hp Hq. destruct (tr_parent _ _ Ht p b q Hp Hq) as (bq & Hbq & _). split; [by exists bq|]. intros ->.
  destruct (tr_zone _ _ Ht) as (_ & _ & _ & Hn). unfold get_pcb in Hbq. by rewrite Hn in Hbq.
Qed.

Lemma root_not_kid p b : get_pcb c p = Some b -> root_pcb_node_ptr c ∉ kids p.
Proof.
  intros Hp Hin. destruct (tr_parent _ _ Ht p b _ Hp Hin) as (bq & Hbq & Hpar). destruct (tr_root _ _ Ht) as (rb & Hrb & Hn).
  assert (p = NULL) as -> by congruence. destruct (tr_zone _ _ Ht) as (_ & _ & _ & Hz). unfold get_pcb in Hp. by rewrite Hz in Hp.
Qed.

End facts.

(** ** Taking the child out *)

(** What the move makes of each process. *)
Definition moved (kids : addr -> list addr) (P I x p : addr) (b : pcb_t) : pcb_t :=
  let b := if decide (p = P) then set_child_pcb_list (front_of (kids_after kids I x P)) b else b in
  if decide (p = I) then set_child_pcb_list (front_of (kids_after kids I x I)) b
  else if decide (p ∈ kids x) then set_parent_pcb_ptr I b else b.

Lemma filter_middle (l1 l2 : list addr) x : NoDup (l1 ++ x :: l2) -> filter (fun q => q <> x) (l1 ++ x :: l2) = l1 ++ l2.
Proof.
  intros Hnd. apply NoDup_app in Hnd as (_ & Hd & Hnd). apply NoDup_cons in Hnd as [Hn _].
  rewrite filter_app, filter_cons, decide_False by tauto. rewrite !filter_ne_id; [done|done|]. intros Hin. apply (Hd x Hin). left.
Qed.

Lemma tree_change_rest f c c' : tree_change f c c' ->
  root_pcb_node_ptr c' = root_pcb_node_ptr c /\ running c' = running c /\ get_tcb c' = get_tcb c.
Proof. intros (-> & _). done. Qed.

Section moving.
Context (s : kstate) (me : addr) (t : tcb_t) (kids : addr -> list addr) (P I x : addr) (b i bx : pcb_t).
Context (Hme : running (ctl s) = Some me) (Htcb : get_tcb (ctl s) me = Some t) (Htree : tree (ctl s) kids).
Context (Hb : get_pcb (ctl s) P = Some b) (Hlb : lock b = mutex_init) (Hx : x ∈ kids P) (Hbx : get_pcb (ctl s) x = Some bx).
Context (Hi : get_pcb (ctl s) I = Some i) (Hli : lock i = mutex_init) (Hroot : front_of (kids (root_pcb_node_ptr (ctl s))) = I).
Context (HIin : I ∈ kids (root_pcb_node_ptr (ctl s))) (HPR : P <> root_pcb_node_ptr (ctl s)) (Hinit : P = I \/ kids I <> []).

Lemma mv_facts : x <> P /\ x <> I /\ x <> root_pcb_node_ptr (ctl s) /\ I ∉ kids x /\ x ∉ kids x.
Proof.
  destruct (tr_root _ _ Htree) as (rb & Hrb & Hn). set (R := root_pcb_node_ptr (ctl s)) in *.
  assert (x <> R) as HxR by (intros ->; by apply (root_not_kid _ _ Htree P b)).
  split; [intros ->; by apply (kids_self _ _ Htree P b)|].
  split; [intros ->; by apply (kids_disjoint _ _ Htree P R b rb I Hb Hrb)|]. split; [done|].
  split; [|by apply (kids_self _ _ Htree x bx)]. by apply (kids_disjoint _ _ Htree R x rb bx I Hrb Hbx).
Qed.

(** The child is detached, and both locks are held. *)
Definition detached_at (l : mutex) (p : addr) (b0 : pcb_t) : pcb_t :=
  (if decide (P = I) then fun _ b => b else locked_at I l) p
    (if decide (p = P) then set_child_pcb_list (front_of (filter (fun q => q <> x) (kids P))) (locked_at P l p b0)
     else locked_at P l p b0).

(** Both locks are given back, so nothing is left of them. *)
Lemma moved_locks l p b0 : get_pcb (ctl s) p = Some b0 ->
  locked_at P mutex_init p
    ((if decide (P = I) then fun _ b => b else locked_at I mutex_init) p
      ((fun p b => if decide (p = I) then set_child_pcb_list (front_of (kids_after kids I x I)) b
                   else if decide (p ∈ kids x) then set_parent_pcb_ptr I b else b) p (detached_at l p b0))) = moved kids P I x p b0.
Proof.
  intros Hp. unfold moved, detached_at, locked_at. assert (Hl : p = P \/ p = I -> lock b0 = mutex_init) by (intros [->| ->]; congruence).
  assert (Hk : P <> I -> kids_after kids I x P = filter (fun q => q <> x) (kids P)) by (intros Hne; unfold kids_after; by rewrite decide_False).
  destruct b0; cbn in Hl. destruct (decide (P = I)) as [E|Hne]; [rewrite <-E|rewrite Hk by done]; repeat case_decide; subst;
    try (rewrite Hl by tauto); cbn; done.
Qed.

Lemma init_locks s2 i2 : running (ctl s2) = Some me -> get_tcb (ctl s2) me = Some t -> get_pcb (ctl s2) I = Some i2 -> (P <> I -> lock i2 = mutex_init) ->
  exists c3, when (bool_decide (P <> I)) (mutex_lock (PcbLock I)) s2 = Done tt (with_ctl c3 s2) /\
    tree_change (if decide (P = I) then fun _ b => b else locked_at I (Mutex LOCKED (tid t))) (ctl s2) c3 /\
    forall q, same_links (cells (pcbs (ctl s2))) (cells (pcbs c3)) q.
Proof.
  intros Hr Ht Hi2 Hl. destruct (decide (P = I)) as [E|Hne].
  - rewrite bool_decide_false by tauto. exists (ctl s2). rewrite with_ctl_id. split; [done|]. split; [|done].
    split; [by destruct (ctl s2)|]. split; [done|]. intros p. by destruct (get_pcb (ctl s2) p).
  - rewrite bool_decide_true by done. cbn [when]. eapply lock_change; [done|by apply Hl|done..].
Qed.

Lemma init_unlocks s4 i4 : get_pcb (ctl s4) I = Some i4 -> (P <> I -> lock i4 = Mutex LOCKED (tid t)) ->
  exists c5, when (bool_decide (P <> I)) (mutex_unlock (PcbLock I)) s4 = Done tt (with_ctl c5 s4) /\
    tree_change (if decide (P = I) then fun _ b => b else locked_at I mutex_init) (ctl s4) c5 /\
    forall q, same_links (cells (pcbs (ctl s4))) (cells (pcbs c5)) q.
Proof.
  intros Hi4 Hl. destruct (decide (P = I)) as [E|Hne].
  - rewrite bool_decide_false by tauto. exists (ctl s4). rewrite with_ctl_id. split; [done|]. split; [|done].
    split; [by destruct (ctl s4)|]. split; [done|]. intros p. by destruct (get_pcb (ctl s4) p).
  - rewrite bool_decide_true by done. cbn [when]. eapply unlock_change; [done|by apply Hl].
Qed.

#[local] Abbreviation ks := (filter (fun q => q <> x) (kids I)).

(** The children of the child are adopted while both locks are held. *)
Lemma grandchildren_ok l c3 : tree_change (detached_at l) (ctl s) c3 ->
  (forall q, q ∉ kids P -> same_links (cells (pcbs (ctl s))) (cells (pcbs c3)) q) ->
  ring (cells (pcbs c3)) (filter (fun q => q <> x) (kids P)) ->
  exists c4, adopt_grandchildren P I x c3 = Some c4 /\
    tree_change (fun p b => if decide (p = I) then set_child_pcb_list (front_of (ks ++ kids x)) b
                            else if decide (p ∈ kids x) then set_parent_pcb_ptr I b else b) c3 c4 /\
    ring (cells (pcbs c4)) (ks ++ kids x) /\
    forall q, q ∉ ks ++ kids x -> same_links (cells (pcbs c3)) (cells (pcbs c4)) q.
Proof.
  intros T13 L13 R3. destruct mv_facts as (HxP & HxI & HxR & HIx & Hxx).
  destruct (tr_kids _ _ Htree I i Hi) as [HrI HfI]. destruct (tr_kids _ _ Htree x bx Hbx) as [Hrx Hfx].
  assert (HkI : P <> I -> ks = kids I).
  { intros Hne. apply filter_ne_id. by apply (kids_disjoint _ _ Htree P I b i). }
  assert (Hpar : forall q b0 p, get_pcb (ctl s) q = Some b0 -> parent_pcb_ptr b0 = p ->
    exists b1, get_pcb c3 q = Some b1 /\ parent_pcb_ptr b1 = p).
  { intros q b0 p Hq Hp. eexists. split; [exact (tree_change_pcb _ _ _ _ _ T13 Hq)|]. unfold detached_at, locked_at.
    destruct (decide (P = I)); repeat case_decide; exact Hp. }
  apply (adopt_grandchildren_ok c3 P I x _ _ ks (kids x) (tree_change_pcb _ _ _ _ _ T13 Hi) (tree_change_pcb _ _ _ _ _ T13 Hbx)); try done.
  - destruct (decide (I = P)) as [E|Hne]; [by rewrite E|]. rewrite HkI by by apply not_eq_sym.
    eapply ring_ext; [|exact HrI]. intros p Hp. apply L13. by apply (kids_disjoint _ _ Htree I P i b).
  - eapply ring_ext; [|exact Hrx]. intros p Hp. apply L13. by apply (kids_disjoint _ _ Htree x P bx b).
  - unfold detached_at, locked_at. destruct (decide (P = I)) as [E|Hne].
    + rewrite (decide_True (P := I = P)) by done. cbn. by rewrite <-E.
    + rewrite (decide_True (P := I = I)), !(decide_False (P := I = P)) by (done || by apply not_eq_sym). cbn. by rewrite HkI, HfI by done.
  - unfold detached_at, locked_at. destruct (decide (P = I)); repeat (rewrite decide_False by done); exact Hfx.
  - intros q Hq. apply list_elem_of_filter in Hq as [_ Hq]. by apply (kids_disjoint _ _ Htree I x i bx).
  - intros Hin. apply list_elem_of_filter in Hin as [_ Hin]. by apply (kids_self _ _ Htree I i).
  - intros E. destruct Hinit as [?|Hn]; [done|]. destruct (decide (P = I)) as [?|Hne]; [done|]. exfalso. apply Hn. by rewrite <-HkI.
  - intros p Hp. apply list_elem_of_filter in Hp as [_ Hp]. destruct (tr_parent _ _ Htree I i p Hi Hp) as (bq & Hq & Hpq). by eapply Hpar.
  - intros p Hp. destruct (tr_parent _ _ Htree x bx p Hbx Hp) as (bq & Hq & Hpq). by eapply Hpar.
Qed.

(** From the lock of the parent taken to the lock given back. *)
Lemma move_ok {A} (f : addr -> K A) c1 : tree_change (locked_at P (Mutex LOCKED (tid t))) (ctl s) c1 ->
  (forall q, same_links (cells (pcbs (ctl s))) (cells (pcbs c1)) q) ->
  exists c6, (ctl_upd (detach_child P x);;
      root ← gets (fun s => root_pcb_node_ptr (ctl s));
      rb ← pcb_at root;
      when (bool_decide (P <> child_pcb_list rb)) (mutex_lock (PcbLock (child_pcb_list rb)));;
      ctl_upd (adopt_grandchildren P (child_pcb_list rb) x);;
      when (bool_decide (P <> child_pcb_list rb)) (mutex_unlock (PcbLock (child_pcb_list rb)));;
      mutex_unlock (PcbLock P);;
      f (child_pcb_list rb)) (with_ctl c1 s) = f I (with_ctl c6 s) /\
    tree_change (moved kids P I x) (ctl s) c6 /\
    ring (cells (pcbs c6)) [x] /\ ring (cells (pcbs c6)) (kids_after kids I x P) /\ ring (cells (pcbs c6)) (kids_after kids I x I) /\
    forall q, q ∉ kids P -> q ∉ kids I -> q ∉ kids x -> same_links (cells (pcbs (ctl s))) (cells (pcbs c6)) q.
Proof.
  intros T1 L1. destruct mv_facts as (HxP & HxI & HxR & HIx & Hxx). destruct (tr_root _ _ Htree) as (rb & Hrb & _).
  destruct (tr_kids _ _ Htree P b Hb) as [HrP HfP]. destruct (tr_kids _ _ Htree I i Hi) as [HrI HfI].
  destruct (tr_kids _ _ Htree x bx Hbx) as [Hrx Hfx]. destruct (tr_kids _ _ Htree _ rb Hrb) as [_ HfR].
  pose proof (list_elem_of_split _ _ Hx) as (k1 & k2 & Ek). assert (Hk12 : filter (fun q => q <> x) (kids P) = k1 ++ k2).
  { rewrite Ek. apply filter_middle. rewrite <-Ek. apply HrP. }
  (* detach *)
  destruct (detach_ok c1 P _ (kids P) k1 x k2 (tree_change_pcb _ _ _ _ _ T1 Hb)) as (c2 & H2 & T2 & R2 & X2 & L2).
  { unfold locked_at. by rewrite decide_True. }
  { eapply ring_ext; [intros p _; apply L1|done]. }
  { by apply (kids_self _ _ Htree P b). }
  { done. }
  rewrite <-Hk12 in T2, R2. kstep (ctl_upd_ok _ (with_ctl c1 s) _ H2). kpure.
  pose proof (tree_change_trans _ _ _ _ _ T1 T2) as T12. cbv beta in T12. destruct (tree_change_rest _ _ _ T12) as (Er & Erun & Eg).
  set (s2 := with_ctl c2 (with_ctl c1 s)). change (root_pcb_node_ptr (ctl s2)) with (root_pcb_node_ptr c2). rewrite Er.
  assert (Hrb2 : get_pcb (ctl s2) (root_pcb_node_ptr (ctl s)) = Some rb).
  { pose proof (tree_change_pcb _ _ _ _ _ T12 Hrb) as Hrb2. unfold locked_at in Hrb2. by rewrite !decide_False in Hrb2 by done. }
  kstep (pcb_at_ok s2 _ _ Hrb2). rewrite HfR, Hroot.
  (* the lock of init *)
  pose proof (tree_change_pcb _ _ _ _ _ T12 Hi) as Hi2. cbv beta in Hi2.
  destruct (init_locks s2 _ ltac:(cbn; congruence) ltac:(cbn; congruence) Hi2) as (c3 & H3 & T3 & L3).
  { intros Hne. unfold locked_at. by rewrite !decide_False by done. }
  kstep H3. pose proof (tree_change_trans _ _ _ _ _ T12 T3) as T13. cbv beta in T13.
  assert (L13 : forall q, q ∉ kids P -> same_links (cells (pcbs (ctl s))) (cells (pcbs c3)) q).
  { intros q Hq. eapply same_links_trans; [apply L1|]. eapply same_links_trans; [by apply L2|apply L3]. }
  (* the grandchildren *)
  assert (HkI : kids_after kids I x I = ks ++ kids x) by (unfold kids_after; by rewrite decide_True).
  destruct (grandchildren_ok _ c3 T13 L13) as (c4 & H4 & T4 & R4 & L4); [by eapply ring_ext; [intros p _; apply L3|]|].
  kstep (ctl_upd_ok _ (with_ctl c3 s2) _ H4). pose proof (tree_change_trans _ _ _ _ _ T13 T4) as T14. cbv beta in T14.
  (* the locks *)
  destruct (init_unlocks (with_ctl c4 (with_ctl c3 s2)) _ (tree_change_pcb _ _ _ _ _ T14 Hi)) as (c5 & H5 & T5 & L5).
  { intros Hne. unfold locked_at. rewrite (decide_False (P := P = I)), !(decide_True (P := I = I)) by done. done. }
  kstep H5. pose proof (tree_change_trans _ _ _ _ _ T14 T5) as T15. cbv beta in T15.
  destruct (unlock_change P (with_ctl c5 (with_ctl c4 (with_ctl c3 s2))) _ (tid t) (tree_change_pcb _ _ _ _ _ T15 Hb)) as (c6 & H6 & T6 & L6).
  { unfold locked_at. destruct (decide (P = I)); repeat case_decide; done. }
  kstep H6. pose proof (tree_change_trans _ _ _ _ _ T15 T6) as T16. cbv beta in T16.
  exists c6. split; [done|]. split.
  { eapply tree_change_ext; [|exact T16]. intros p b0 Hp. rewrite <-(moved_locks (Mutex LOCKED (tid t)) p b0 Hp), HkI. unfold detached_at. done. }
  assert (L46 : forall q, q ∉ ks -> q ∉ kids x -> same_links (cells (pcbs c3)) (cells (pcbs c6)) q).
  { intros q Hq Hq2. eapply same_links_trans; [apply L4; set_solver|]. eapply same_links_trans; [apply L5|apply L6]. }
  assert (R6 : ring (cells (pcbs c6)) (ks ++ kids x)).
  { eapply ring_ext; [|exact R4]. intros q _. eapply same_links_trans; [apply L5|apply L6]. }
  split; [|split; [|split; [by rewrite HkI|]]].
  - eapply ring_ext; [|exact X2]. intros q [->|[]%elem_of_nil]%elem_of_cons. eapply same_links_trans; [apply L3|]. apply L46; [|done].
    intros Hin. apply list_elem_of_filter in Hin as [? _]. done.
  - destruct (decide (P = I)) as [->|Hne]; [by rewrite HkI|]. unfold kids_after. rewrite decide_False by done.
    eapply ring_ext; [|exact R2]. intros q Hq. assert (q ∈ kids P) as Hq' by by apply list_elem_of_filter in Hq as [_ Hq].
    eapply same_links_trans; [apply L3|]. apply L46; [|by apply (kids_disjoint _ _ Htree P x b bx); [..|apply not_eq_sym|]].
    intros Hin. apply list_elem_of_filter in Hin as [_ Hin]. by apply (kids_disjoint _ _ Htree P I b i q).
  - intros q Hq1 Hq2 Hq3. eapply same_links_trans; [by apply L13|]. apply L46; [|done]. intros Hin. by apply list_elem_of_filter in Hin as [_ Hin].
Qed.

End moving.

(** ** The processes of the system *)

(** The process tree, the threads, the allocations and the locks of all
    processes. *)
Record family (c : ctrl) (kids threads allocs : addr -> list addr) : Prop := {
  fa_tree : tree c kids;
  fa_zones : zone_ok (tcbs c) /\ zone_ok (allocations c);
  fa_size : Z.of_nat (nodes (cells (pcbs c))) < 2 ^ 31 /\ Z.of_nat (nodes (cells (tcbs c))) < 2 ^ 31;
  fa_threads : forall p b, get_pcb c p = Some b -> threads_of c b (threads p) /\ threads p <> [];
  fa_owner : forall p b q, get_pcb c p = Some b -> q ∈ threads p -> process_of c q = p;
  fa_allocs : forall p b, get_pcb c p = Some b -> ring (cells (allocations c)) (allocs p) /\ page_allocation_list b = front_of (allocs p);
  fa_apart : forall p p' b b' q, get_pcb c p = Some b -> get_pcb c p' = Some b' -> p <> p' -> q ∈ allocs p -> q ∉ allocs p';
  fa_locks : forall p b, get_pcb c p = Some b -> lock b = mutex_init;
}.

(** The listed threads are threads of their processes. *)
Definition listed (c : ctrl) (LS threads : Z -> list addr) : Prop :=
  forall i q, list_index i -> q ∈ LS i -> q ∈ threads (process_of c q).

(** Each process has a page directory of its own. *)
Definition directories (s : kstate) : Prop :=
  (forall p b, get_pcb (ctl s) p = Some b -> is_Some (pdirs (kvm s) !! page_directory b)) /\
  forall p p' b b', get_pcb (ctl s) p = Some b -> get_pcb (ctl s) p' = Some b' -> p <> p' -> page_directory b <> page_directory b'.

(** Waking a thread keeps the processes. *)
Lemma family_woken s s' LS LS' q w i kids threads allocs : woken s LS q w i s' LS' -> family (ctl s) kids threads allocs ->
  family (ctl s') kids threads allocs.
Proof.
  intros [_ _ _ _ _ _ Ht Hc Hn] [[T1 T2 T3 T4 T5] [F2 F2'] F3 F4 F5 F6 F7 F8].
  assert (pcbs (ctl s') = pcbs (ctl s) /\ allocations (ctl s') = allocations (ctl s) /\ root_pcb_node_ptr (ctl s') = root_pcb_node_ptr (ctl s))
    as (Hp & Ha & Hr) by (by rewrite Hc).
  assert (Hpc : forall p, get_pcb (ctl s') p = get_pcb (ctl s) p) by (intros p; unfold get_pcb; by rewrite Hp).
  assert (Hpo : forall p, process_of (ctl s') p = process_of (ctl s) p).
  { intros p. unfold process_of. rewrite Ht. case_decide as E; [|done]. subst p. destruct (get_tcb (ctl s) w); done. }
  split.
  - split.
    + by rewrite Hp.
    + intros p b. rewrite Hpc, Hp. apply T2.
    + intros p b x. rewrite !Hpc. apply T3.
    + intros p b. rewrite Hpc. apply T4.
    + rewrite Hr. destruct T5 as (rb & Hrb & Hn5). exists rb. by rewrite Hpc.
  - rewrite Ha. split; [by eapply same_threads_zone|done].
  - rewrite Hp. split; [apply F3|]. destruct F3 as [_ F3]. unfold nodes in *. rewrite <-!size_dom in *. destruct Hn as (_ & -> & _). done.
  - intros p b Hb. rewrite Hpc in Hb. destruct (F4 p b Hb) as [[R1 R2] R3]. split; [|done]. split; [by eapply same_threads_ring|done].
  - intros p b x Hb Hx. rewrite Hpo. rewrite Hpc in Hb. by eapply F5.
  - intros p b Hb. rewrite Ha. rewrite Hpc in Hb. by apply F6.
  - intros p p' b b' x. rewrite !Hpc. apply F7.
  - intros p b. rewrite Hpc. apply F8.
Qed.

Lemma moved_same kids P I x p b : parent_pcb_ptr (moved kids P I x p b) =
    (if decide (p = I) then parent_pcb_ptr b else if decide (p ∈ kids x) then I else parent_pcb_ptr b) /\
  tcb_list (moved kids P I x p b) = tcb_list b /\ page_allocation_list (moved kids P I x p b) = page_allocation_list b /\
  lock (moved kids P I x p b) = lock b /\ page_directory (moved kids P I x p b) = page_directory b /\ status (moved kids P I x p b) = status b.
Proof. unfold moved. destruct b. repeat case_decide; done. Qed.

Lemma moved_list kids P I x p b : child_pcb_list b = front_of (kids p) -> (p <> P -> p <> I -> x ∉ kids p) ->
  child_pcb_list (moved kids P I x p b) = front_of (kids_after kids I x p).
Proof.
  intros Hf Hx. unfold moved. destruct (decide (p = I)) as [->|Hi]; [by destruct b|].
  destruct (decide (p = P)) as [->|Hp]; [by case_decide; destruct b|].
  assert (kids_after kids I x p = kids p) as -> by (unfold kids_after; rewrite decide_False by done; apply filter_ne_id; tauto).
  case_decide; by destruct b.
Qed.

Section after.
Context (c : ctrl) (kids threads allocs : addr -> list addr) (P I x : addr) (b i bx : pcb_t) (c6 c7 : ctrl).
Context (Hfam : family c kids threads allocs).
Context (Hb : get_pcb c P = Some b) (Hi : get_pcb c I = Some i) (Hbx : get_pcb c x = Some bx) (Hx : x ∈ kids P).
Context (HxI : x <> I) (HIx : I ∉ kids x).
Context (T6 : tree_change (moved kids P I x) c c6).
Context (RP : ring (cells (pcbs c6)) (kids_after kids I x P)) (RI : ring (cells (pcbs c6)) (kids_after kids I x I)).
Context (L6 : forall q, q ∉ kids P -> q ∉ kids I -> q ∉ kids x -> same_links (cells (pcbs c)) (cells (pcbs c6)) q).
Context (Ep : emptied [x] (pcbs c6) (pcbs c7)) (Et : emptied (threads x) (tcbs c6) (tcbs c7)).
Context (Ea : emptied (allocs x) (allocations c6) (allocations c7)) (Er : root_pcb_node_ptr c7 = root_pcb_node_ptr c6).

Lemma af_cell p : p <> x -> cells (pcbs c7) !! p = cells (pcbs c6) !! p.
Proof. intros Hp. destruct Ep as (_ & _ & H). apply H. intros [?|[]%elem_of_nil]%elem_of_cons; done. Qed.

Lemma af_pcb p b7 : get_pcb c7 p = Some b7 -> p <> x /\ exists b0, get_pcb c p = Some b0 /\ b7 = moved kids P I x p b0.
Proof.
  intros Hp. assert (p <> x) as Hne. { intros ->. destruct Ep as (_ & H & _). unfold get_pcb in Hp. rewrite H in Hp by left. done. }
  split; [done|]. unfold get_pcb in Hp. rewrite af_cell in Hp by done. fold (get_pcb c6 p) in Hp.
  destruct T6 as (_ & _ & G). rewrite G in Hp. apply fmap_Some in Hp as (b0 & Hb0 & ->). by exists b0.
Qed.

Lemma af_pcb_back p b0 : p <> x -> get_pcb c p = Some b0 -> get_pcb c7 p = Some (moved kids P I x p b0).
Proof. intros Hne Hp. unfold get_pcb. rewrite af_cell by done. fold (get_pcb c6 p). by apply (tree_change_pcb _ _ _ _ _ T6). Qed.

Lemma af_not_x p b0 : get_pcb c p = Some b0 -> p <> P -> x ∉ kids p.
Proof. intros Hp Hne. apply (kids_disjoint _ _ (fa_tree _ _ _ _ Hfam) P p b b0 x Hb Hp); [by apply not_eq_sym|done]. Qed.

Lemma af_ring p b0 : p <> x -> get_pcb c p = Some b0 -> ring (cells (pcbs c7)) (kids_after kids I x p).
Proof.
  intros Hne Hp. pose proof (fa_tree _ _ _ _ Hfam) as Ht.
  assert (H6 : ring (cells (pcbs c6)) (kids_after kids I x p)).
  { destruct (decide (p = I)) as [->|HpI]; [done|]. destruct (decide (p = P)) as [->|HpP]; [done|].
    assert (kids_after kids I x p = kids p) as ->.
    { unfold kids_after. rewrite decide_False by done. apply filter_ne_id. by apply (af_not_x p b0). }
    eapply ring_ext; [|apply (tr_kids _ _ Ht p b0 Hp)]. intros q Hq. apply L6.
    - by apply (kids_disjoint _ _ Ht p P b0 b).
    - by apply (kids_disjoint _ _ Ht p I b0 i).
    - by apply (kids_disjoint _ _ Ht p x b0 bx). }
  eapply ring_frame; [|exact H6]. intros q Hq. apply af_cell. intros ->.
  assert (x ∉ filter (fun q => q <> x) (kids p)) as Hn by (intros [? _]%list_elem_of_filter; done).
  unfold kids_after in Hq. case_decide; [|done]. apply elem_of_app in Hq as [?|Hq]; [done|]. by apply (kids_self _ _ Ht x bx).
Qed.

Lemma af_tree : tree c7 (kids_after kids I x).
Proof.
  pose proof (fa_tree _ _ _ _ Hfam) as Ht. split.
  - apply Ep.
  - intros p b7 Hp. destruct (af_pcb p b7 Hp) as (Hne & b0 & Hb0 & ->). split; [by eapply af_ring|].
    apply moved_list; [by apply (tr_kids _ _ Ht)|]. intros HpP _. by eapply af_not_x.
  - intros p b7 q Hp Hq. destruct (af_pcb p b7 Hp) as (Hne & b0 & Hb0 & ->). unfold kids_after in Hq.
    assert (Hcases : q <> x /\ (q ∈ kids p \/ p = I /\ q ∈ kids x)).
    { destruct (decide (p = I)); [apply elem_of_app in Hq as [[? ?]%list_elem_of_filter|Hq]|apply list_elem_of_filter in Hq as [? ?]]; try tauto.
      split; [|tauto]. intros ->. by apply (kids_self _ _ Ht x bx). }
    destruct Hcases as [Hqx [Hq'|[-> Hq']]].
    + destruct (tr_parent _ _ Ht p b0 q Hb0 Hq') as (bq & Hbq & Hpar). exists (moved kids P I x q bq). split; [by apply af_pcb_back|].
      destruct (moved_same kids P I x q bq) as [-> _]. destruct (decide (q = I)); [done|]. destruct (decide (q ∈ kids x)) as [Hqk|]; [|done].
      exfalso. revert Hqk. by apply (kids_disjoint _ _ Ht p x b0 bx).
    + destruct (tr_parent _ _ Ht x bx q Hbx Hq') as (bq & Hbq & Hpar). exists (moved kids P I x q bq). split; [by apply af_pcb_back|].
      destruct (moved_same kids P I x q bq) as [-> _]. destruct (decide (q = I)); [by subst q|]. by destruct (decide (q ∈ kids x)).
  - intros p b7 Hp. destruct (af_pcb p b7 Hp) as (Hne & b0 & Hb0 & ->). destruct (moved_same kids P I x p b0) as [-> _].
    pose proof (tr_self _ _ Ht p b0 Hb0). destruct (decide (p = I)); [done|]. destruct (decide (p ∈ kids x)); [by apply not_eq_sym|done].
  - destruct (tr_root _ _ Ht) as (rb & Hrb & Hn). destruct T6 as (E6 & _). assert (root_pcb_node_ptr c7 = root_pcb_node_ptr c) as E by (by rewrite Er, E6).
    rewrite E. exists (moved kids P I x (root_pcb_node_ptr c) rb). split.
    + apply af_pcb_back; [|done]. intros Heq. apply (root_not_kid _ _ Ht P b Hb). by rewrite Heq.
    + destruct (moved_same kids P I x (root_pcb_node_ptr c) rb) as [-> _]. destruct (decide (_ = I)); [done|].
      destruct (decide (_ ∈ kids x)) as [Hk|]; [|done]. exfalso. revert Hk. by apply (root_not_kid _ _ Ht x bx).
Qed.

Lemma nodes_fewer {A} (h h' : heap A) : dom h' ⊆ dom h -> (nodes h' <= nodes h)%nat.
Proof. intros H. unfold nodes. rewrite <-!size_dom. by apply subseteq_size. Qed.

Lemma emptied_dom {A} l (z z' : zone A) : emptied l z z' -> dom (cells z') ⊆ dom (cells z).
Proof.
  intros (_ & H1 & H2) p Hp. apply elem_of_dom in Hp. apply elem_of_dom. destruct (decide (p ∈ l)) as [Hl|Hl].
  - rewrite H1 in Hp by done. by destruct Hp.
  - by rewrite <-H2.
Qed.

Lemma emptied_ring {A} l k (z z' : zone A) : emptied l z z' -> (forall q, q ∈ k -> q ∉ l) -> ring (cells z) k -> ring (cells z') k.
Proof. intros (_ & _ & H) Hd Hr. eapply ring_frame; [|exact Hr]. intros q Hq. by apply H, Hd. Qed.

Lemma tree_change_dom f c1 c2 : tree_change f c1 c2 -> dom (cells (pcbs c2)) = dom (cells (pcbs c1)).
Proof.
  intros (_ & _ & G). apply set_eq. intros p. rewrite !elem_of_dom. specialize (G p). unfold get_pcb in G.
  destruct (cells (pcbs c1) !! p), (cells (pcbs c2) !! p); try done; split; by intros [].
Qed.

Lemma tree_change_zone f c1 c2 : tree_change f c1 c2 -> zone_ok (pcbs c1) -> zone_ok (pcbs c2).
Proof.
  intros Ht (Z1 & Z2 & Z3 & Z4). pose proof (tree_change_dom _ _ _ Ht) as Hd. destruct Ht as (_ & Hp & _).
  assert (Hn : forall q, cells (pcbs c1) !! q = None -> cells (pcbs c2) !! q = None).
  { intros q Hq. apply not_elem_of_dom. rewrite Hd. by apply not_elem_of_dom. }
  split; [by rewrite Hp|]. split; [by rewrite Hp|]. split; [|by apply Hn]. intros q Hq. apply Hn, Z3. by rewrite <-Hp.
Qed.

Lemma af_thread q p b0 : p <> x -> get_pcb c p = Some b0 -> q ∈ threads p -> q ∉ threads x.
Proof.
  intros Hne Hp Hq Hqx. apply Hne. rewrite <-(fa_owner _ _ _ _ Hfam p b0 q Hp Hq). by apply (fa_owner _ _ _ _ Hfam x bx q).
Qed.

Lemma af_tcb q : q ∉ threads x -> get_tcb c7 q = get_tcb c q.
Proof. intros Hq. destruct Et as (_ & _ & H). unfold get_tcb. rewrite H by done. destruct T6 as (-> & _). done. Qed.

(** The processes after the child is gone. *)
Lemma family_after : family c7 (kids_after kids I x) threads allocs.
Proof.
  pose proof Hfam as [_ [_ _] [S1 S2] F4 F5 F6 F7 F8]. destruct T6 as (E6 & _).
  assert (tcbs c6 = tcbs c /\ allocations c6 = allocations c) as [Ect Eca] by (by rewrite E6). split.
  - apply af_tree.
  - split; [apply Et|apply Ea].
  - pose proof (nodes_fewer _ _ (emptied_dom _ _ _ Ep)) as N1. pose proof (nodes_fewer _ _ (emptied_dom _ _ _ Et)) as N2. rewrite Ect in N2.
    assert (nodes (cells (pcbs c6)) = nodes (cells (pcbs c))) as N3 by (unfold nodes; by rewrite <-!size_dom, (tree_change_dom _ _ _ T6)). lia.
  - intros p b7 Hp. destruct (af_pcb p b7 Hp) as (Hne & b0 & Hb0 & ->). destruct (F4 p b0 Hb0) as [[R1 R2] R3]. split; [|done].
    destruct (moved_same kids P I x p b0) as (_ & Hl & _). split; [|by rewrite Hl].
    apply (emptied_ring _ _ _ _ Et); [|by rewrite Ect]. intros q Hq. by apply (af_thread q p b0).
  - intros p b7 q Hp Hq. destruct (af_pcb p b7 Hp) as (Hne & b0 & Hb0 & ->). unfold process_of.
    rewrite af_tcb by (by apply (af_thread q p b0)). by apply (F5 p b0 q).
  - intros p b7 Hp. destruct (af_pcb p b7 Hp) as (Hne & b0 & Hb0 & ->). destruct (F6 p b0 Hb0) as [R1 R2].
    destruct (moved_same kids P I x p b0) as (_ & _ & Hl & _). rewrite Hl. split; [|done].
    apply (emptied_ring _ _ _ _ Ea); [|by rewrite Eca]. intros q Hq. by apply (F7 p x b0 bx).
  - intros p p' b7 b7' q Hp Hp'. destruct (af_pcb p b7 Hp) as (_ & b0 & Hb0 & ->). destruct (af_pcb p' b7' Hp') as (_ & b0' & Hb0' & ->).
    by apply (F7 p p' b0 b0').
  - intros p b7 Hp. destruct (af_pcb p b7 Hp) as (_ & b0 & Hb0 & ->). destruct (moved_same kids P I x p b0) as (_ & _ & _ & -> & _).
    by apply (F8 p b0).
Qed.

End after.

(** ** Waking those who wait *)

Section waking.
Context (s : kstate) (LS : Z -> list addr) (q : addr) (w : option addr) (s' : kstate) (LS' : Z -> list addr).
Context (Hsc : scheduled s LS q) (Hw : waiter_woken s LS q w s' LS').

Lemma ww_tcb_pcb p : tcb_pcb <$> get_tcb (ctl s') p = tcb_pcb <$> get_tcb (ctl s) p.
Proof.
  destruct w as [x|]; [|by destruct Hw as [-> _]]. destruct Hw as [_ [_ _ _ _ _ _ Ht _ _]]. rewrite Ht. case_decide as E; [|done]. subst x.
  by destruct (get_tcb (ctl s) p).
Qed.

Lemma ww_process p : process_of (ctl s') p = process_of (ctl s) p.
Proof. pose proof (ww_tcb_pcb p) as E. unfold process_of. destruct (get_tcb (ctl s') p), (get_tcb (ctl s) p); cbn in E; congruence. Qed.

Lemma ww_sought v p : sought (ctl s') v VANISH_WAIT p = sought (ctl s) v VANISH_WAIT p.
Proof.
  pose proof (ww_tcb_pcb p) as E. unfold sought.
  destruct (get_tcb (ctl s') p), (get_tcb (ctl s) p); cbn in E; try done.
  injection E as E. rewrite !decide_True by done. by rewrite E.
Qed.

Lemma ww_family kids threads allocs : family (ctl s) kids threads allocs -> family (ctl s') kids threads allocs.
Proof. intros Hf. destruct w as [x|]; [|by destruct Hw as [-> _]]. destruct Hw as [_ Hwo]. by eapply family_woken. Qed.

Lemma ww_listed threads : listed (ctl s) LS threads -> listed (ctl s') LS' threads.
Proof.
  intros Hl i p Hi Hp. rewrite ww_process. destruct (decide (i = READY_STATE)) as [->|Hr].
  - destruct (ww_ready _ _ _ _ _ _ Hw) as [Hready _]. rewrite Hready in Hp. apply elem_of_app in Hp as [Hp|Hp]; [|by apply (Hl READY_STATE)].
    destruct w as [x|]; [|by apply elem_of_nil in Hp]. apply list_elem_of_singleton in Hp as ->. destruct Hw as [Hx _]. by apply (Hl VANISH_WAIT).
  - rewrite (ww_others _ _ _ _ _ _ Hsc Hw i Hi Hr) in Hp. apply list_elem_of_filter in Hp as [_ Hp]. by apply (Hl i).
Qed.

Lemma ww_allocations : allocations (ctl s') = allocations (ctl s).
Proof. destruct w as [x|]; [|by destruct Hw as [-> _]]. destruct Hw as [_ [_ _ _ _ _ _ _ Hc _]]. by rewrite Hc. Qed.

Lemma ww_directories : directories s -> directories s'.
Proof.
  destruct (ww_rest _ _ _ _ _ _ Hw) as [E Ep]. unfold directories, get_pcb. rewrite Ep. rewrite E. done.
Qed.

Lemma ww_space F : space_ok s F -> space_ok s' F.
Proof. destruct (ww_rest _ _ _ _ _ _ Hw) as [E _]. rewrite E. done. Qed.

End waking.

Lemma two_wakes s7 LS7 s8 LS8 s9 LS9 me P I : scheduled s7 LS7 me ->
  waiter_woken s7 LS7 me (first_sat (sought (ctl s7) P VANISH_WAIT) (LS7 VANISH_WAIT)) s8 LS8 ->
  waiter_woken s8 LS8 me (first_sat (sought (ctl s8) I VANISH_WAIT) (LS8 VANISH_WAIT)) s9 LS9 ->
  let w1 := first_sat (sought (ctl s7) P VANISH_WAIT) (LS7 VANISH_WAIT) in
  let w2 := first_sat (sought (ctl s7) I VANISH_WAIT) (without w1 (LS7 VANISH_WAIT)) in
  (LS7 TERMINATED_STATE = [] -> LS9 TERMINATED_STATE = []) /\
  LS9 VANISH_WAIT = without w2 (without w1 (LS7 VANISH_WAIT)) /\
  LS9 READY_STATE ≡ₚ option_list w2 ++ option_list w1 ++ LS7 READY_STATE.
Proof.
  intros Hsc7 W8 W9 w1 w2. pose proof (ww_sched _ _ _ _ _ _ Hsc7 W8) as Hsc8. fold w1 in W8.
  assert (O8 : forall k, list_index k -> k <> READY_STATE -> LS8 k = without w1 (LS7 k)) by (intros k; by eapply ww_others).
  assert (Ew : first_sat (sought (ctl s8) I VANISH_WAIT) (LS8 VANISH_WAIT) = w2).
  { rewrite O8 by done. apply first_sat_ext. intros q _. by eapply ww_sought. }
  rewrite Ew in W9. assert (O9 : forall k, list_index k -> k <> READY_STATE -> LS9 k = without w2 (LS8 k)) by (intros k; by eapply ww_others).
  split; [|split].
  - intros E. by rewrite O9, O8, E by done.
  - by rewrite O9, O8 by done.
  - destruct (ww_ready _ _ _ _ _ _ W9) as [R9 _]. destruct (ww_ready _ _ _ _ _ _ W8) as [R8 _]. by rewrite R9, R8.
Qed.

(** ** The call *)

Section wait.
Context `{Platform}.
Context (kids threads allocs : addr -> list addr).

(** The caller of [wait]: a thread of a process that is not the root, in a system
    whose processes are in order and whose first user process is [I]. *)
Record waiter (s : kstate) (LS : Z -> list addr) (me : addr) (t : tcb_t) (b : pcb_t) (I : addr) (F : list Z) : Prop := {
  wt_caller : caller s LS me t b (threads (tcb_pcb t));
  wt_family : family (ctl s) kids threads allocs;
  wt_listed : listed (ctl s) LS threads;
  wt_dirs : directories s;
  wt_space : space_ok s F;
  wt_here : page_directory b = page_of (cr3 s);
  wt_root : tcb_pcb t <> root_pcb_node_ptr (ctl s);
  wt_init : front_of (kids (root_pcb_node_ptr (ctl s))) = I /\ I ∈ kids (root_pcb_node_ptr (ctl s));
  wt_descends : tcb_pcb t = I \/ kids I <> [];
}.

(** The child at [x] has been reaped: its thread id is returned and its status
    stored; its node, threads, allocations and page directory are gone; its
    children are init's; the address spaces of the others are untouched; the whole
    list of terminated threads is emptied, and the first waiting thread of the
    caller's process and then that of init are ready. *)
Definition reaped (s : kstate) (LS : Z -> list addr) (me P I x : addr) (u : ureg_t) (o : outcome ureg_t) : Prop :=
  exists s' LS' bx first, get_pcb (ctl s) x = Some bx /\ get_tcb (ctl s) (tcb_list bx) = Some first /\
    o = Done (set_eax (u32 (tid first)) u) s' /\ stored_at s' (esi u) (status bx) /\
    (scheduled s' LS' me /\ family (ctl s') (kids_after kids I x) threads allocs /\ listed (ctl s') LS' threads /\
     directories s' /\ exists F, space_ok s' F) /\
    (get_pcb (ctl s') x = None /\ (forall q, q ∈ threads x -> get_tcb (ctl s') q = None) /\
     (forall q, q ∈ allocs x -> cells (allocations (ctl s')) !! q = None) /\ pdirs (kvm s') !! page_directory bx = None) /\
    (forall d v, d <> page_directory bx -> view (kvm s') d v = view (kvm s) d v) /\
    (let w1 := first_sat (sought (ctl s) P VANISH_WAIT) (LS VANISH_WAIT) in
     let w2 := first_sat (sought (ctl s) I VANISH_WAIT) (without w1 (LS VANISH_WAIT)) in
     LS' TERMINATED_STATE = [] /\ LS' VANISH_WAIT = without w2 (without w1 (LS VANISH_WAIT)) /\
     LS' READY_STATE ≡ₚ option_list w2 ++ option_list w1 ++ LS READY_STATE).

Lemma scheduled_tree f s LS me c' : scheduled s LS me -> tree_change f (ctl s) c' -> scheduled (with_ctl c' s) LS me.
Proof.
  intros Hsc Ht. destruct (sc_sched _ _ _ Hsc) as [(ns & Hla) _]. pose proof Ht as (E & _ & G).
  eapply (scheduled_part s); [done| |apply Hsc|by left|].
  - cbn [ctl with_ctl]. rewrite E. destruct Hla. by split.
  - intros j p Hj Hp. cbn [ctl with_ctl]. split; [by rewrite E|]. intros [b0 Hb0]. rewrite G, Hb0. by eexists.
Qed.

Section reaping.
Context (s : kstate) (LS : Z -> list addr) (me : addr) (t : tcb_t) (b : pcb_t) (I : addr) (F : list Z) (x : addr) (bx : pcb_t).
Context (Hw : waiter s LS me t b I F) (Hx : x ∈ kids (tcb_pcb t)) (Hbx : get_pcb (ctl s) x = Some bx)
  (Hex : live (ctl s) (threads x) = []).
Abbreviation P := (tcb_pcb t).

Lemma rp_init : exists i, get_pcb (ctl s) I = Some i /\ lock i = mutex_init.
Proof.
  pose proof (wt_family _ _ _ _ _ _ _ Hw) as Hf. destruct (tr_root _ _ (fa_tree _ _ _ _ Hf)) as (rb & Hrb & _).
  destruct (tr_parent _ _ (fa_tree _ _ _ _ Hf) _ rb I Hrb) as (i & Hi & _); [apply (wt_init _ _ _ _ _ _ _ Hw)|].
  exists i. split; [done|]. by apply (fa_locks _ _ _ _ Hf I).
Qed.

(** The threads of the child are in no list but that of the terminated ones. *)
Lemma rp_unlisted j q : list_index j -> j <> TERMINATED_STATE -> q ∈ LS j -> q ∉ threads x /\ process_of (ctl s) q <> x.
Proof.
  intros Hj Hjt Hq. pose proof (ca_sched _ _ _ _ _ _ (wt_caller _ _ _ _ _ _ _ Hw)) as Hsc.
  pose proof (listed_alive (ctl s) LS j q (sc_sched _ _ _ Hsc) Hj Hq Hjt) as Ha.
  assert (q ∉ threads x) as Hn.
  { intros Hin. assert (q ∈ live (ctl s) (threads x)) as Hl by (by apply list_elem_of_filter). rewrite Hex in Hl. by apply elem_of_nil in Hl. }
  split; [done|]. intros E. apply Hn. rewrite <-E. by apply (wt_listed _ _ _ _ _ _ _ Hw j q).
Qed.

Lemma rp_unmoved : moved kids P I x x bx = bx.
Proof.
  destruct rp_init as (i & Hi & _). pose proof (wt_caller _ _ _ _ _ _ _ Hw) as Hca. pose proof (fa_tree _ _ _ _ (wt_family _ _ _ _ _ _ _ Hw)) as Ht.
  destruct (mv_facts s kids P I x b bx Ht (ca_pcb _ _ _ _ _ _ Hca) Hx Hbx) as (H1 & H2 & _ & _ & H3);
    [apply Hw|apply Hw|]. unfold moved. by rewrite !decide_False.
Qed.

(** The state after the move, ready for the release. *)
Lemma rp_releasable c6 first : tree_change (moved kids P I x) (ctl s) c6 -> ring (cells (pcbs c6)) [x] ->
  get_tcb (ctl s) (tcb_list bx) = Some first ->
  releasable (with_ctl c6 s) LS F x bx (threads x) (allocs x) first.
Proof.
  intros T6 R6 Hfirst. pose proof (wt_family _ _ _ _ _ _ _ Hw) as Hf. pose proof T6 as (E6 & _).
  assert (Hsame : tcbs c6 = tcbs (ctl s) /\ allocations c6 = allocations (ctl s)) by (by rewrite E6). destruct Hsame as [Et Ea].
  destruct (fa_threads _ _ _ _ Hf x bx Hbx) as [[Hr Hfr] _]. destruct (fa_allocs _ _ _ _ Hf x bx Hbx) as [Hra Hfa].
  destruct (fa_zones _ _ _ _ Hf) as [Z1 Z2]. split; cbn [ctl with_ctl kvm cr3].
  - rewrite <-rp_unmoved. by apply (tree_change_pcb _ _ _ _ _ T6).
  - rewrite Et, Ea. split; [|done]. eapply tree_change_zone; [done|]. apply (fa_tree _ _ _ _ Hf).
  - done.
  - split; [by rewrite Et|done].
  - rewrite <-Hfr. unfold get_tcb. rewrite Et. exact Hfirst.
  - intros j q Hj Hjt Hq. destruct (rp_unlisted j q Hj Hjt Hq) as [? ?]. split; [done|]. unfold process_of, get_tcb. by rewrite Et.
  - by rewrite Ea.
  - apply Hw.
  - pose proof (wt_caller _ _ _ _ _ _ _ Hw) as Hca. destruct (wt_dirs _ _ _ _ _ _ _ Hw) as [D1 D2]. split; [by eapply D1|].
    rewrite <-(wt_here _ _ _ _ _ _ _ Hw). eapply D2; [exact Hbx|apply Hca|]. intros ->.
    apply (kids_self _ _ (fa_tree _ _ _ _ Hf) P b); [apply Hca|done].
Qed.

(** The state after the release: the parts of the invariant. *)
Lemma rp_after c6 s7 : tree_change (moved kids P I x) (ctl s) c6 ->
  ring (cells (pcbs c6)) (kids_after kids I x P) -> ring (cells (pcbs c6)) (kids_after kids I x I) ->
  (forall q, q ∉ kids P -> q ∉ kids I -> q ∉ kids x -> same_links (cells (pcbs (ctl s))) (cells (pcbs c6)) q) ->
  released (with_ctl c6 s) LS me x (threads x) (allocs x) (page_directory bx) s7 ->
  family (ctl s7) (kids_after kids I x) threads allocs /\ listed (ctl s7) (upd TERMINATED_STATE [] LS) threads /\ directories s7 /\
  (forall q, q ∉ threads x -> get_tcb (ctl s7) q = get_tcb (ctl s) q).
Proof.
  intros T6 RP RI L6 [Hsc7 Ep Et Ea Hrest Er _ Hdirs _]. pose proof (wt_family _ _ _ _ _ _ _ Hw) as Hf. pose proof (wt_caller _ _ _ _ _ _ _ Hw) as Hca.
  destruct rp_init as (i & Hi & _). destruct (mv_facts s kids P I x b bx (fa_tree _ _ _ _ Hf) (ca_pcb _ _ _ _ _ _ Hca) Hx Hbx)
    as (HxP & HxI & _ & HIx & _); [apply Hw|apply Hw|].
  assert (Hpcb : forall p b7, get_pcb (ctl s7) p = Some b7 -> p <> x /\ exists b0, get_pcb (ctl s) p = Some b0 /\ page_directory b7 = page_directory b0).
  { intros p b7 Hp. destruct (af_pcb (ctl s) kids P I x c6 (ctl s7) T6 Ep p b7 Hp) as (Hne & b0 & Hb0 & ->). split; [done|]. exists b0.
    split; [done|]. apply moved_same. }
  assert (Htcb : forall q, q ∉ threads x -> get_tcb (ctl s7) q = get_tcb (ctl s) q).
  { intros q Hq. by apply (af_tcb (ctl s) kids threads P I x c6 (ctl s7) T6 Et). }
  split; [|split; [|split; [|exact Htcb]]].
  - eapply (family_after (ctl s) kids threads allocs P I x b i bx c6); try done; apply Hca.
  - intros j q Hj Hq. unfold upd in Hq. case_decide as Hc; [by apply elem_of_nil in Hq|].
    destruct (rp_unlisted j q Hj Hc Hq) as [Hn _]. unfold process_of. rewrite Htcb by done. by apply (wt_listed _ _ _ _ _ _ _ Hw j q).
  - destruct (wt_dirs _ _ _ _ _ _ _ Hw) as [D1 D2]. split.
    + intros p b7 Hp. destruct (Hpcb p b7 Hp) as (Hne & b0 & Hb0 & ->). apply elem_of_dom. rewrite Hdirs. apply elem_of_difference.
      split; [by eapply elem_of_dom, D1|]. intros ?%elem_of_singleton. by apply (D2 p x b0 bx).
    + intros p p' b7 b7' Hp Hp' Hne. destruct (Hpcb p b7 Hp) as (_ & b0 & Hb0 & ->). destruct (Hpcb p' b7' Hp') as (_ & b0' & Hb0' & ->). by apply (D2 p p').
Qed.

Lemma reap_ok u c1 : esi u = NULL \/ own_range s (esi u) 4 -> tree_change (locked_at P (Mutex LOCKED (tid t))) (ctl s) c1 ->
  (forall q, same_links (cells (pcbs (ctl s))) (cells (pcbs c1)) q) ->
  reaped s LS me P I x u (reap_child P x u (with_ctl c1 s)).
Proof.
  intros Hst T1 L1. pose proof (wt_family _ _ _ _ _ _ _ Hw) as Hf. pose proof (wt_caller _ _ _ _ _ _ _ Hw) as Hca.
  pose proof (ca_sched _ _ _ _ _ _ Hca) as Hsc. destruct rp_init as (i & Hi & Hli). destruct (wt_init _ _ _ _ _ _ _ Hw) as [HI1 HI2].
  unfold reap_child. destruct (move_ok s me t kids P I x b i bx (running_is _ _ _ Hsc) (ca_tcb _ _ _ _ _ _ Hca) (fa_tree _ _ _ _ Hf)
    (ca_pcb _ _ _ _ _ _ Hca) (ca_lock _ _ _ _ _ _ Hca) Hx Hbx Hi Hli HI1 HI2 (wt_root _ _ _ _ _ _ _ Hw) (wt_descends _ _ _ _ _ _ _ Hw)
    (fun init => tid ← release_child x (esi u); disable_interrupts;; wake_waiter P;; wake_waiter init;; enable_interrupts;; mret (set_eax (u32 tid) u))
    c1 T1 L1) as (c6 & -> & T6 & RX & RP & RI & L6).
  destruct (fa_threads _ _ _ _ Hf x bx Hbx) as [[Hr Hfr] Hne].
  assert (exists first, get_tcb (ctl s) (tcb_list bx) = Some first) as (first & Hfirst).
  { rewrite Hfr. destruct (ring_dom _ _ (front_of (threads x)) Hr) as [n Hn]; [destruct (threads x); [done|left]|].
    exists (data n). unfold get_tcb. by rewrite Hn. }
  destruct (release_ok (with_ctl c6 s) LS me F x bx (threads x) (allocs x) first (esi u)) as (s7 & H7 & Hrel & Hstored);
    [by eapply scheduled_tree|by apply rp_releasable|exact Hst|]. kstep H7.
  destruct (rp_after c6 s7 T6 RP RI L6 Hrel) as (Hfam7 & Hl7 & Hd7 & Ht7).
  unfold disable_interrupts, enable_interrupts. kpure. set (s7' := with_int_flag false s7).
  assert (Hsc7 : scheduled s7' (upd TERMINATED_STATE [] LS) me) by (eapply scheduled_ctl; [|apply Hrel]; done).
  destruct (wake_waiter_ok s7' _ me P Hsc7) as (s8 & LS8 & H8 & W8). kstep H8. pose proof (ww_sched _ _ _ _ _ _ Hsc7 W8) as Hsc8.
  destruct (wake_waiter_ok s8 _ me I Hsc8) as (s9 & LS9 & H9 & W9). kstep H9. kpure. pose proof (ww_sched _ _ _ _ _ _ Hsc8 W9) as Hsc9.
  destruct (ww_rest _ _ _ _ _ _ W8) as [E8 P8]. destruct (ww_rest _ _ _ _ _ _ W9) as [E9 P9].
  assert (Hrest : s9 = with_ctl (ctl s9) s7') by (rewrite E9 at 1; by rewrite E8). pose proof Hrel as [_ Rp Rt Ra _ _ [F7 Hsp] Rd Rv].
  exists (with_int_flag true s9), LS9, bx, first. split; [done|]. split; [done|]. split; [done|].
  split; [rewrite Hrest; exact Hstored|]. split; [|split; [|split]].
  - split; [by apply (scheduled_ctl s9)|]. split; [exact (ww_family _ _ _ _ _ _ W9 _ _ _ (ww_family _ _ _ _ _ _ W8 _ _ _ Hfam7))|].
    split; [exact (ww_listed _ _ _ _ _ _ Hsc8 W9 _ (ww_listed _ _ _ _ _ _ Hsc7 W8 _ Hl7))|].
    split; [exact (ww_directories _ _ _ _ _ _ W9 (ww_directories _ _ _ _ _ _ W8 Hd7))|]. exists F7. rewrite Hrest. exact Hsp.
  - cbn [ctl with_int_flag]. split; [unfold get_pcb; rewrite P9, P8; destruct Rp as (_ & Rp & _); by rewrite Rp by left|].
    split; [|split].
    + intros q Hq. pose proof (ww_tcb_pcb _ _ _ _ _ _ W9 q) as E. rewrite (ww_tcb_pcb _ _ _ _ _ _ W8 q) in E.
      destruct Rt as (_ & Rt & _). assert (get_tcb (ctl s7') q = None) as Hn by (unfold get_tcb; cbn [s7' ctl with_int_flag]; by rewrite Rt).
      rewrite Hn in E. by destruct (get_tcb (ctl s9) q).
    + intros q Hq. rewrite (ww_allocations _ _ _ _ _ _ W9), (ww_allocations _ _ _ _ _ _ W8). by apply Ra.
    + apply not_elem_of_dom. rewrite Hrest. cbn [kvm with_int_flag with_ctl s7']. rewrite Rd. intros [_ Hn]%elem_of_difference.
      apply Hn. by apply elem_of_singleton.
  - intros d v Hd. rewrite Hrest. by apply Rv.
  - assert (Hs7 : forall v q, q ∈ LS VANISH_WAIT -> sought (ctl s7) v VANISH_WAIT q = sought (ctl s) v VANISH_WAIT q).
    { intros v q Hq. unfold sought. rewrite Ht7; [done|]. by apply (rp_unlisted VANISH_WAIT q). }
    assert (Ev : upd TERMINATED_STATE [] LS VANISH_WAIT = LS VANISH_WAIT) by (by rewrite upd_ne).
    assert (Er : upd TERMINATED_STATE [] LS READY_STATE = LS READY_STATE) by (by rewrite upd_ne).
    destruct (two_wakes _ _ _ _ _ _ me P I Hsc7 W8 W9) as (A1 & A2 & A3). rewrite Ev in *. rewrite Er in *.
    rewrite (first_sat_ext (sought (ctl s7') P VANISH_WAIT) (sought (ctl s) P VANISH_WAIT)) in A2, A3 by (intros q Hq; by apply Hs7).
    rewrite (first_sat_ext (sought (ctl s7') I VANISH_WAIT) (sought (ctl s) I VANISH_WAIT)) in A2, A3
      by (intros q [_ Hq]%list_elem_of_filter; by apply Hs7).
    split; [apply A1; by rewrite upd_eq|done].
Qed.

End reaping.
End wait.

(** ** Looking for a child *)

Lemma family_children c kids threads allocs P b : family c kids threads allocs -> get_pcb c P = Some b -> children c P b (kids P) threads.
Proof.
  intros [Ht _ [S1 S2] F4 _ _ _ F8] Hb. destruct (tr_kids _ _ Ht P b Hb) as [Hr Hf]. split; [done|done|done| | |].
  - by apply (kids_self _ _ Ht P b).
  - pose proof (ring_fuel _ _ Hr). lia.
  - intros p Hp. destruct (tr_parent _ _ Ht P b p Hb Hp) as (bp & Hbp & _). exists bp. split; [done|]. split; [by eapply F8|].
    destruct (F4 p bp Hbp) as [Hth _]. split; [done|]. pose proof (ring_fuel _ _ (proj1 Hth)). lia.
Qed.

(** With the lock of the parent held the children are as before. *)
Lemma children_locked c c1 P b kids threads m : children c P b kids threads -> tree_change (locked_at P m) c c1 ->
  (forall q, same_links (cells (pcbs c)) (cells (pcbs c1)) q) -> children c1 P (CtrlBlk.set_lock m b) kids threads.
Proof.
  intros [H1 H2 H3 H4 H5 H6] T1 L1. split.
  - pose proof (tree_change_pcb _ _ _ _ _ T1 H1) as Hb. unfold locked_at in Hb. by rewrite decide_True in Hb.
  - done.
  - eapply ring_ext; [intros p _; apply L1|done].
  - done.
  - done.
  - intros p Hp. destruct (H6 p Hp) as (bp & Hbp & Hl & Hth & Hlen). exists bp. split; [|split; [done|split; [|done]]].
    + pose proof (tree_change_pcb _ _ _ _ _ T1 Hbp) as Hb. unfold locked_at in Hb. rewrite decide_False in Hb; [done|]. by intros ->.
    + destruct Hth as [R1 R2]. split; [|done]. destruct T1 as (-> & _). done.
Qed.

Section awaiting.
Context (s : kstate) (me : addr) (t : tcb_t) (P : addr) (b : pcb_t) (kids : list addr) (threads : addr -> list addr).
Context (Hme : running (ctl s) = Some me) (Ht : get_tcb (ctl s) me = Some t) (Hch : children (ctl s) P b kids threads).

Lemma await_no_child : kids = [] -> await_child P s = Done NULL s.
Proof.
  intros E. unfold await_child. apply loop_now. unfold await_round. pose proof (ch_front _ _ _ _ _ Hch) as Hf. rewrite E in Hf.
  kstep (pcb_at_ok _ _ _ (ch_pcb _ _ _ _ _ Hch)). rewrite Hf. by rewrite decide_True.
Qed.

Lemma round_found x : first_sat (exited (ctl s) threads) kids = Some x -> await_round P s = Done (inr x) s.
Proof.
  intros E. pose proof (ch_front _ _ _ _ _ Hch) as Hf. pose proof (ch_ring _ _ _ _ _ Hch) as Hr. pose proof (first_sat_elem _ _ _ E) as [Hx _].
  assert (kids <> []) as Hne by (intros E'; rewrite E' in Hx; by apply elem_of_nil in Hx).
  assert (x <> NULL) as Hn by (intros ->; by destruct Hr as (_ & Hn & _)).
  unfold await_round. kstep (pcb_at_ok _ _ _ (ch_pcb _ _ _ _ _ Hch)). rewrite Hf. rewrite decide_False by (by eapply front_of_nonnull).
  kstep (find_exited_child_ok s me t P b kids threads Hme Ht Hch). rewrite E. cbn [default from_option]. unfold id. rewrite decide_True by done.
  pose proof (unlock_children_ok s t P b kids threads Hch) as Hu. rewrite E in Hu. cbn [default from_option] in Hu. unfold id in Hu. by kstep Hu.
Qed.

Lemma await_found x : first_sat (exited (ctl s) threads) kids = Some x -> await_child P s = Done x s.
Proof. intros E. unfold await_child. apply loop_now. by apply round_found. Qed.

(** Nobody has exited: the search leaves no trace, and the thread waits. *)
Lemma round_waits : kids <> [] -> first_sat (exited (ctl s) threads) kids = None ->
  await_round P s =
    (next_tcb ← ctl_op find_next_thread;
     when (bool_decide (next_tcb = NULL)) handle_halt;;
     mutex_unlock (PcbLock P);;
     switch_context next_tcb WAITING_STATE (Some (BlockingDetail VANISH_WAIT 0));;
     enable_interrupts;;
     mutex_lock (PcbLock P);;
     mret (inl tt)) (with_int_flag false s).
Proof.
  intros Hne E. pose proof (ch_front _ _ _ _ _ Hch) as Hf. pose proof (ch_ring _ _ _ _ _ Hch) as Hr.
  unfold await_round. kstep (pcb_at_ok _ _ _ (ch_pcb _ _ _ _ _ Hch)). rewrite Hf. rewrite decide_False by (by eapply front_of_nonnull).
  kstep (find_exited_child_ok s me t P b kids threads Hme Ht Hch). rewrite E. cbn [default from_option]. rewrite decide_False by tauto.
  unfold disable_interrupts. kpure.
  pose proof (unlock_children_ok (with_int_flag false s) t P b kids threads Hch) as Hu. cbn [ctl with_int_flag] in Hu. rewrite E in Hu. by kstep Hu.
Qed.

End awaiting.

(** ** The theorem *)

Section theorems.
Context `{Platform}.

(** Where the status goes: nowhere, or to a writable word of the caller's own. *)
Definition status_ok (s : kstate) (u : ureg_t) : Prop := esi u = NULL \/ (writable_range s (esi u) 4 /\ own_range s (esi u) 4).

(** The caller waits for a child: it is in the list of those who do, the lock of
    its process is free, and when it runs again it looks again: if a child has
    exited by then, that child is reaped. *)
Definition waits_for_child (s : kstate) (LS : Z -> list addr) (me : addr) (t : tcb_t) (u : ureg_t) (p : addr)
    (o : outcome ureg_t) : Prop :=
  exists s' LS' k, o = Switch me p s' k /\ scheduled s' LS' p /\
    get_tcb (ctl s') me = Some (with_state WAITING_STATE (Some (BlockingDetail VANISH_WAIT 0)) t) /\
    LS' VANISH_WAIT ≡ₚ me :: LS VANISH_WAIT /\ LS' READY_STATE ≡ₚ filter (fun q => q <> p) (LS READY_STATE) /\
    get_lock (PcbLock (tcb_pcb t)) s' = Some mutex_init /\
    forall kids threads allocs s2 LS2 t2 b2 I F x, waiter kids threads allocs s2 LS2 me t2 b2 I F -> tcb_pcb t2 = tcb_pcb t ->
      status_ok s2 u -> first_sat (exited (ctl s2) threads) (kids (tcb_pcb t)) = Some x ->
      reaped kids threads allocs (with_int_flag true s2) LS2 me (tcb_pcb t) I x u (k s2).

Section proof.
Context (kids threads allocs : addr -> list addr) (s : kstate) (LS : Z -> list addr) (me : addr) (t : tcb_t) (b : pcb_t) (I : addr) (F : list Z).
Context (Hw : waiter kids threads allocs s LS me t b I F).

Lemma own_status (s0 : kstate) u : status_ok s0 u -> esi u = NULL \/ own_range s0 (esi u) 4.
Proof. intros [?|[_ ?]]; [by left|by right]. Qed.

Lemma wait_lock : exists c1, mutex_lock (PcbLock (tcb_pcb t)) s = Done tt (with_ctl c1 s) /\
  mutex_unlock (PcbLock (tcb_pcb t)) (with_ctl c1 s) = Done tt s /\
  tree_change (locked_at (tcb_pcb t) (Mutex LOCKED (tid t))) (ctl s) c1 /\
  (forall q, same_links (cells (pcbs (ctl s))) (cells (pcbs c1)) q) /\
  running c1 = Some me /\ get_tcb c1 = get_tcb (ctl s) /\
  children c1 (tcb_pcb t) (CtrlBlk.set_lock (Mutex LOCKED (tid t)) b) (kids (tcb_pcb t)) threads /\
  forall p, exited c1 threads p = exited (ctl s) threads p.
Proof.
  pose proof (wt_caller _ _ _ _ _ _ _ _ _ _ Hw) as [C1 C2 C3 C4 C5 C6]. pose proof (running_is s LS me C1) as Hme.
  destruct (pcb_lock_ok s me t b Hme C2 C3 C4) as (c & H1 & Hupd & _ & _ & _ & Er & Eg & Hun).
  destruct (put_lock_change (tcb_pcb t) (Mutex LOCKED (tid t)) s (with_ctl c s)) as (c' & Ec & T1 & L1); [cbn; by run Hupd|].
  injection Ec as <-. exists c. do 4 (split; [done|]). split; [by rewrite Er|]. split; [done|]. split.
  - eapply children_locked; [|done|done]. eapply family_children; [apply Hw|done].
  - intros p. unfold exited. assert (live c (threads p) = live (ctl s) (threads p)) as ->; [|done]. apply live_ext.
    intros q _. unfold state_of. by rewrite Eg.
Qed.

(** A child that has exited is found and reaped. *)
Lemma found_reaped u x c1 : status_ok s u -> tree_change (locked_at (tcb_pcb t) (Mutex LOCKED (tid t))) (ctl s) c1 ->
  (forall q, same_links (cells (pcbs (ctl s))) (cells (pcbs c1)) q) ->
  first_sat (exited (ctl s) threads) (kids (tcb_pcb t)) = Some x ->
  reaped kids threads allocs s LS me (tcb_pcb t) I x u (reap_child (tcb_pcb t) x u (with_ctl c1 s)) /\ x <> NULL.
Proof.
  intros Hst T1 L1 E. pose proof (first_sat_elem _ _ _ E) as [Hx Hex]. apply bool_decide_eq_true in Hex.
  pose proof (fa_tree _ _ _ _ (wt_family _ _ _ _ _ _ _ _ _ _ Hw)) as Ht. pose proof (ca_pcb _ _ _ _ _ _ (wt_caller _ _ _ _ _ _ _ _ _ _ Hw)) as Hb.
  destruct (tr_parent _ _ Ht _ b x Hb Hx) as (bx & Hbx & _). split; [|apply (kids_some _ _ Ht _ b x Hb Hx)].
  eapply (reap_ok kids threads allocs s LS me t b I F x bx); [exact Hw|exact Hx|exact Hbx|exact Hex|by apply own_status|exact T1|exact L1].
Qed.

Lemma wait_writable u : status_ok s u ->
  (if decide (esi u <> NULL) then is_writable (esi u) 4 else mret true) s = Done true s.
Proof.
  intros [->|[Hwr Hown]]; [by rewrite decide_False by tauto|]. case_decide; [|done].
  destruct (writable_iff s F (esi u) 4) as (rd & Hrd & Hiff); [apply Hw| |lia|].
  - destruct Hwr as (W1 & W2 & _). change USER_MEM_START with 16777216 in W1. lia.
  - rewrite Hrd. f_equal. by apply Hiff.
Qed.

End proof.

(** Interrupts do not matter to it. *)
Lemma waiter_flag kids threads allocs s LS me t b I F fl : waiter kids threads allocs s LS me t b I F ->
  waiter kids threads allocs (with_int_flag fl s) LS me t b I F.
Proof.
  intros [[C1 C2 C3 C4 C5 C6] W2 W3 W4 W5 W6 W7 W8 W9]. split; try done. split; try done. by apply (scheduled_ctl s).
Qed.

(** Nobody has exited. *)
Lemma wait_blocks kids threads allocs s LS me t b I F (Hw : waiter kids threads allocs s LS me t b I F) u c1 : mutex_lock (PcbLock (tcb_pcb t)) s = Done tt (with_ctl c1 s) ->
  children c1 (tcb_pcb t) (CtrlBlk.set_lock (Mutex LOCKED (tid t)) b) (kids (tcb_pcb t)) threads ->
  running c1 = Some me -> get_tcb c1 me = Some t ->
  kids (tcb_pcb t) <> [] -> first_sat (exited c1 threads) (kids (tcb_pcb t)) = None ->
  let p := next_choice (ctl s) LS (threads (tcb_pcb t)) in
  let o := (child ← await_child (tcb_pcb t);
            if decide (child = NULL) then mutex_unlock (PcbLock (tcb_pcb t));; mret (fail u)
            else reap_child (tcb_pcb t) child u) (with_ctl c1 s) in
  if decide (p = NULL) then exists s', o = Halted s' else waits_for_child s LS me t u p o.
Proof.
  intros Hlock Hch Hr1 Ht1 Hne E p o. pose proof (wt_caller _ _ _ _ _ _ _ _ _ _ Hw) as Hca.
  destruct (locked_ok s LS me t b _ Hca) as (s1 & H1 & Hic & _ & Hb1 & Hts & Hrl & Hnc). rewrite Hlock in H1. injection H1 as <-.
  destruct (choose_ok s LS me t b _ _ _ Hic (ca_tcb _ _ _ _ _ _ Hca) Hb1 Hts Hrl Hnc Hca) as (s2 & LS2 & H2 & Hic2 & Hp).
  fold p in H2, Hp. pose proof (round_waits (with_ctl c1 s) me t (tcb_pcb t) _ _ threads Hr1 Ht1 Hch Hne E) as Hround.
  set (r := fun next_tcb => _) in Hround. assert (Hr : await_round (tcb_pcb t) (with_ctl c1 s) = r p s2) by (rewrite Hround; by kstep H2). clear Hround.
  unfold r in Hr. clear r. cbv beta in Hr. case_decide as Hpn.
  - rewrite bool_decide_true in Hr by done. exists s2. unfold o, await_child. by rewrite (bind_Halted _ _ _ _ (loop_halted _ 64 tt _ _ Hr)).
  - rewrite bool_decide_false in Hr by done. cbn [when] in Hr. rewrite (bind_Done (mret tt) _ _ _ _ eq_refl) in Hr.
    pose proof Hic2 as [J1 J2 J3 _ J5 J6].
    destruct (block_tail (PcbLock (tcb_pcb t)) (Mutex LOCKED (tid t)) s2 LS2 me t p WAITING_STATE (Some (BlockingDetail VANISH_WAIT 0)) VANISH_WAIT
      (enable_interrupts;; mutex_lock (PcbLock (tcb_pcb t));; (mret (inl tt) : K (unit + addr))) J1) as (s' & LS' & k & tp & K1 & K2 & _ & K3 & K4 & K5 & _ & _ & _ & K7 & K8);
      [by rewrite J2; apply Hca|by apply Hp|done..|]. rewrite K1 in Hr.
    destruct (loop_resume (fun _ : unit => await_round (tcb_pcb t)) 63 tt _ _ _ _ _ Hr) as (k' & Hk' & Hres).
    assert (me <> p) as Hmp by (apply not_eq_sym; apply (not_running s2 LS2 me J1 READY_STATE); [done|done|by apply Hp]).
    eexists s', LS', _. split; [unfold o, await_child; by rewrite (bind_Switch _ _ _ _ _ _ _ Hk')|]. split; [done|].
    split; [by rewrite K3, decide_False, decide_True by done|]. split; [by rewrite K4, J5|]. split; [by rewrite K5, J6|]. split; [done|].
    intros kids' threads' allocs' s3 LS3 t3 b3 I' F' x Hw3 Et Hst3 Hx3. pose proof (waiter_flag _ _ _ _ _ _ _ _ _ _ true Hw3) as Hw4.
    destruct (wait_lock _ _ _ _ _ _ _ _ _ _ Hw4) as (c4 & Hl4 & _ & T4 & L4 & R4 & G4 & Ch4 & Ex4). rewrite Et in *.
    assert (Hk : k s3 = Done (inl tt) (with_ctl c4 (with_int_flag true s3))).
    { rewrite K8. unfold enable_interrupts. kpure. rewrite with_int_flag_twice. by kstep Hl4. }
    assert (Hb : await_round (tcb_pcb t) (with_ctl c4 (with_int_flag true s3)) = Done (inr x) (with_ctl c4 (with_int_flag true s3))).
    { eapply (round_found _ me t3); [exact R4|cbn [ctl with_ctl]; rewrite G4; apply (wt_caller _ _ _ _ _ _ _ _ _ _ Hw4)|exact Ch4|].
      rewrite <-Hx3. apply first_sat_ext. intros q _. apply Ex4. }
    rewrite (Hres _ _ _ _ _ Hk Hb). cbn [obind]. rewrite <-Et in T4, Hx3.
    destruct (found_reaped _ _ _ _ _ _ _ _ _ _ Hw4 u x c4 Hst3 T4 L4 Hx3) as [Hre Hxn]. rewrite Et in Hre. by rewrite decide_False.
Qed.

(** C13. [wait].  A status pointer that may not be written is refused, and so is a
    call without children.  If a child has exited (none of its threads is
    alive), the first such child is reaped ([reaped]): its thread id is returned
    and its status stored; its process block, its thread blocks, its allocations and
    its page directory are gone, while the address spaces of the others are as they
    were; the whole list of terminated threads is emptied, threads of processes
    that have not been waited for included; the child's own children become init's,
    so that the process tree stays a tree; the first waiting thread of the caller's
    process and then that of init are made ready; and the other invariants of the
    system hold again.  If no child has exited the thread
    waits until it is woken and then looks again ([waits_for_child]); when there is
    nobody to run meanwhile the machine halts. *)
Theorem wait_reaps_or_waits (kids threads allocs : addr -> list addr) (u : ureg_t) (s : kstate) (LS : Z -> list addr) (me : addr)
    (t : tcb_t) (b : pcb_t) (I : addr) (F : list Z)
    (Hw : waiter kids threads allocs s LS me t b I F) (Hu : vword (esi u)) :
  let P := tcb_pcb t in
  let p := next_choice (ctl s) LS (threads P) in
  (esi u <> NULL -> ~ writable_range s (esi u) 4 -> handle_wait u s = Done (fail u) s) /\
  (status_ok s u -> kids P = [] -> handle_wait u s = Done (fail u) s) /\
  (status_ok s u -> kids P <> [] ->
     match first_sat (exited (ctl s) threads) (kids P) with
     | Some x => reaped kids threads allocs s LS me P I x u (handle_wait u s)
     | None => if decide (p = NULL) then exists s', handle_wait u s = Halted s'
               else waits_for_child s LS me t u p (handle_wait u s)
     end).
Proof.
  intros P p. pose proof (wt_caller _ _ _ _ _ _ _ _ _ _ Hw) as Hca. pose proof (running_is s LS me (ca_sched _ _ _ _ _ _ Hca)) as Hme.
  destruct (wait_lock _ _ _ _ _ _ _ _ _ _ Hw) as (c1 & H1 & Hun & T1 & L1 & R1 & G1 & Ch1 & Ex1).
  assert (Hg1 : get_tcb c1 me = Some t) by (rewrite G1; apply Hca).
  assert (Hent : status_ok s u -> handle_wait u s = (child ← await_child P;
      if decide (child = NULL) then mutex_unlock (PcbLock P);; mret (fail u) else reap_child P child u) (with_ctl c1 s)).
  { intros Hst. unfold handle_wait. kstep (wait_writable _ _ _ _ _ _ _ _ _ _ Hw u Hst). cbn [negb].
    kstep (running_pcb_ok _ _ _ Hme (ca_tcb _ _ _ _ _ _ Hca)). by kstep H1. }
  split; [|split].
  - intros Hn Hnw. unfold handle_wait. rewrite decide_True by done.
    destruct (writable_iff s F (esi u) 4) as (rd & Hrd & Hiff); [apply Hw|apply Hu|lia|]. kstep Hrd.
    destruct rd; [by destruct Hnw; apply Hiff|done].
  - intros Hst Hk. rewrite Hent by done.
    kstep (await_no_child (with_ctl c1 s) P _ _ _ Ch1 Hk). rewrite decide_True by done. by kstep Hun.
  - intros Hst Hk. rewrite Hent by done. rewrite (first_sat_ext (exited (ctl s) threads) (exited c1 threads)) by (intros q _; by rewrite Ex1).
    destruct (first_sat _ (kids P)) as [x|] eqn:E.
    + kstep (await_found (with_ctl c1 s) me t P _ _ threads R1 Hg1 Ch1 x E).
      rewrite (first_sat_ext _ (exited (ctl s) threads)) in E by (intros q _; by rewrite Ex1).
      destruct (found_reaped _ _ _ _ _ _ _ _ _ _ Hw u x c1 Hst T1 L1 E) as [Hre Hxn]. by rewrite decide_False.
    + by apply (wait_blocks _ _ _ _ _ _ _ _ _ _ Hw).
Qed.

End theorems.

(** ** A concrete family *)

(** The root, init, which calls [wait], its child that has exited with status 42,
    and a grandchild. *)
Definition orphan_boot : vm := Vm demo_alloc ∅ ∅ ((fun i => 65536 + i * 4096) <$> seqZ 0 32).
Definition orphan_ops : list Vm.vm_op := [Construct; Construct; Construct; Construct; PageOp MapNew 86016 0x1003000].
Definition orphan_vm : vm := default orphan_boot (run_vm_ops 1 orphan_ops orphan_boot).

Definition orphan_pcb (parent child threads st dir : Z) : pcb_t :=
  Pcb parent child threads st dir NULL mutex_init false (GuestResource false 0 (replicate 0x22 0)).
Definition orphan_ctrl : ctrl := Ctrl
  (Zone (list_to_map [
     (90, Node 90 90 (demo_tcb 9000 1 WAITING_STATE (BlockingDetail VANISH_WAIT 0)));
     (100, Node 100 100 (demo_tcb 5000 2 RUNNING_STATE blocking_none));
     (120, Node 120 120 (demo_tcb 6000 3 TERMINATED_STATE blocking_none));
     (130, Node 130 130 (demo_tcb 7000 4 READY_STATE blocking_none))]) [900; 910])
  (Zone (list_to_map [
     (9000, Node 9000 9000 (orphan_pcb NULL 5000 90 0 65536)); (5000, Node 5000 5000 (orphan_pcb 9000 6000 100 0 86016));
     (6000, Node 6000 6000 (orphan_pcb 5000 7000 120 42 106496)); (7000, Node 7000 7000 (orphan_pcb 6000 NULL 130 0 126976))]) [5200; 5300])
  (Zone (list_to_map [(300, Node 300 300 130); (310, Node 310 310 100); (320, Node 320 320 120); (330, Node 330 330 90)]) [800; 810])
  (Zone ∅ [700; 710])
  [0; 300; 310; 0; 320; 0; 0; 0; 330] 5 mutex_init 9000.
Definition orphan_state : kstate := with_cr3 86016 (with_kvm orphan_vm (with_ctl orphan_ctrl demo_state)).

Definition orphan_kids (p : addr) : list addr :=
  if decide (p = 9000) then [5000] else if decide (p = 5000) then [6000] else if decide (p = 6000) then [7000] else [].
Definition orphan_threads (p : addr) : list addr :=
  if decide (p = 9000) then [90] else if decide (p = 5000) then [100] else if decide (p = 6000) then [120]
  else if decide (p = 7000) then [130] else [].
Definition orphan_ns (i : Z) : list addr :=
  if decide (i = READY_STATE) then [300] else if decide (i = RUNNING_STATE) then [310]
  else if decide (i = TERMINATED_STATE) then [320] else if decide (i = VANISH_WAIT) then [330] else [].
Definition orphan_LS (i : Z) : list addr :=
  if decide (i = READY_STATE) then [130] else if decide (i = RUNNING_STATE) then [100]
  else if decide (i = TERMINATED_STATE) then [120] else if decide (i = VANISH_WAIT) then [90] else [].

Lemma orphan_cases p b : get_pcb orphan_ctrl p = Some b ->
  (p = 9000 /\ b = orphan_pcb NULL 5000 90 0 65536) \/ (p = 5000 /\ b = orphan_pcb 9000 6000 100 0 86016) \/
  (p = 6000 /\ b = orphan_pcb 5000 7000 120 42 106496) \/ (p = 7000 /\ b = orphan_pcb 6000 NULL 130 0 126976).
Proof.
  unfold get_pcb. intros (n & Hn & ->)%fmap_Some. cbn [orphan_ctrl pcbs cells list_to_map foldr fst snd uncurry] in Hn.
  repeat (apply lookup_insert_Some in Hn as [[<- <-]|[_ Hn]]; [tauto|]). by rewrite lookup_empty in Hn.
Qed.

Lemma orphan_listed i q : list_index i -> q ∈ orphan_LS i -> q ∈ orphan_threads (process_of orphan_ctrl q).
Proof.
  intros _ Hq. unfold orphan_LS in Hq. repeat case_decide; try (by apply elem_of_nil in Hq); apply list_elem_of_singleton in Hq as ->; left.
Qed.

Lemma orphan_scheduled : scheduled orphan_state orphan_LS 100.
Proof.
  split; [|done|].
  - apply (sched_check_ok _ orphan_ns). unfold sched_check. decided.
  - intros i p t _ Hp Ht. assert (process_of orphan_ctrl p = tcb_pcb t) as E.
    { unfold process_of. change (ctl orphan_state) with orphan_ctrl in Ht. by rewrite Ht. }
    rewrite <-E. unfold orphan_LS in Hp. repeat case_decide; try (by apply elem_of_nil in Hp); apply list_elem_of_singleton in Hp as ->; by eexists.
Qed.

Lemma orphan_family : family orphan_ctrl orphan_kids orphan_threads (fun _ => []).
Proof.
  assert (forall p b, get_pcb orphan_ctrl p = Some b -> ring (cells (pcbs orphan_ctrl)) (orphan_kids p) /\ child_pcb_list b = front_of (orphan_kids p)) as Hk.
  { intros p b Hb. destruct (orphan_cases p b Hb) as [[-> ->]|[[-> ->]|[[-> ->]|[-> ->]]]]; decided. }
  split.
  - split.
    + split_and!; [decided|decided| |reflexivity]. intros p Hp. by apply elem_of_cons in Hp as [->|[->|[]%elem_of_nil]%elem_of_cons].
    + exact Hk.
    + intros p b q Hb Hq. destruct (orphan_cases p b Hb) as [[-> ->]|[[-> ->]|[[-> ->]|[-> ->]]]];
        (apply list_elem_of_singleton in Hq as -> || by apply elem_of_nil in Hq); by eexists.
    + intros p b Hb. destruct (orphan_cases p b Hb) as [[-> ->]|[[-> ->]|[[-> ->]|[-> ->]]]]; discriminate.
    + by eexists.
  - split; (split_and!; [decided|decided| |reflexivity]); intros p Hp; by apply elem_of_cons in Hp as [->|[->|[]%elem_of_nil]%elem_of_cons].
  - split; reflexivity.
  - intros p b Hb. destruct (orphan_cases p b Hb) as [[-> ->]|[[-> ->]|[[-> ->]|[-> ->]]]]; (split; [split; [decided|done]|done]).
  - intros p b q Hb Hq. destruct (orphan_cases p b Hb) as [[-> ->]|[[-> ->]|[[-> ->]|[-> ->]]]]; by apply list_elem_of_singleton in Hq as ->.
  - intros p b Hb. split; [apply ring_nil|]. by destruct (orphan_cases p b Hb) as [[-> ->]|[[-> ->]|[[-> ->]|[-> ->]]]].
  - by intros p p' b b' q _ _ _ ?%elem_of_nil.
  - intros p b Hb. by destruct (orphan_cases p b Hb) as [[-> ->]|[[-> ->]|[[-> ->]|[-> ->]]]].
Qed.

Lemma orphan_space : exists F, space_ok orphan_state F.
Proof.
  destruct (run_vm_ops 1 orphan_ops orphan_boot) as [v|] eqn:E; [|vm_compute in E; discriminate E].
  assert (vm_boot orphan_boot demo_frames) as Hb.
  { split; [done|]. split; [done|]. split; [apply demo_alloc_ok|]. split; apply bool_decide_unpack with (dec := decide _); by vm_compute. }
  destruct (run_vm_ops_ok _ _ _ _ _ E (vm_boot_ok _ _ Hb)) as [F HF]. exists F. unfold space_ok.
  change (kvm orphan_state) with orphan_vm. split; [|decided]. unfold orphan_vm. by rewrite E.
Qed.

Lemma orphan_waiter : exists F, waiter orphan_kids orphan_threads (fun _ => []) orphan_state orphan_LS 100
  (demo_tcb 5000 2 RUNNING_STATE blocking_none) (orphan_pcb 9000 6000 100 0 86016) 5000 F.
Proof.
  destruct orphan_space as [F HF]. exists F. split; [split|..]; try done.
  - exact orphan_scheduled.
  - split; [decided|done].
  - intros p Hp Hst. change (tcb_pcb _) with 5000 in Hp. apply list_elem_of_singleton in Hp as ->. vm_compute in Hst. discriminate.
  - exact orphan_family.
  - exact orphan_listed.
  - split.
    + intros p b Hb. destruct (orphan_cases p b Hb) as [[-> ->]|[[-> ->]|[[-> ->]|[-> ->]]]]; decided.
    + intros p p' b b' Hb Hb' Hne. destruct (orphan_cases p b Hb) as [[-> ->]|[[-> ->]|[[-> ->]|[-> ->]]]];
        destruct (orphan_cases p' b' Hb') as [[-> ->]|[[-> ->]|[[-> ->]|[-> ->]]]]; done.
  - split; [reflexivity|left].
  - by left.
Qed.

Definition orphan_call : ureg_t := set_esi 0x1003010 ureg_zero.

Lemma orphan_status : status_ok orphan_state orphan_call.
Proof.
  right. change (esi orphan_call) with 0x1003010.
  assert (Hv : forall w, 0x1003010 <= w < 0x1003010 + 4 -> here orphan_state w = Some (Mapped 0x1001000 READ_WRITE 1)).
  { intros w Hw. assert (w = 0x1003010 \/ w = 0x1003011 \/ w = 0x1003012 \/ w = 0x1003013) as [->|[->|[->| ->]]] by lia; vm_compute; reflexivity. }
  split; (split; [discriminate|]); (split; [discriminate|]); intros w Hw.
  - rewrite Hv by done. reflexivity.
  - exists 0x1001000, READ_WRITE, 1. by rewrite Hv.
Qed.

Lemma wait_reaps_or_waits_witness : exists s',
  handle_wait orphan_call orphan_state = Done (set_eax 3 orphan_call) s' /\ word_at s' 0x1003010 = 42 /\
  get_pcb (ctl s') 6000 = None /\ tree (ctl s') (kids_after orphan_kids 5000 6000) /\ kids_after orphan_kids 5000 6000 5000 = [7000].
Proof.
  destruct orphan_waiter as [F HF].
  destruct (wait_reaps_or_waits _ _ _ orphan_call _ _ _ _ _ _ _ HF) as (_ & _ & H); [split; [discriminate|reflexivity]|].
  destruct (H orphan_status ltac:(discriminate)) as (s' & LS' & bx & first & Hb & Hf & Ho & Hst & (_ & Hfam & _) & (Hg & _) & _).
  assert (bx = orphan_pcb 5000 7000 120 42 106496) as -> by (vm_compute in Hb; injection Hb as <-; reflexivity).
  assert (first = demo_tcb 6000 3 TERMINATED_STATE blocking_none) as -> by (vm_compute in Hf; injection Hf as <-; reflexivity).
  exists s'. split; [exact Ho|]. split; [destruct Hst as [Hn|Hw]; [discriminate Hn|exact Hw]|]. split; [exact Hg|].
  split; [apply Hfam|reflexivity].
Defined.
