(* ===== verification/ForkCopy.v ===== *)
(** The copy of an address space in [fork_ctrl_blk]: the child's pages have the
    parent's contents, in frames of their own. *)
From S2P Require Import Prelude Ring KMutex Frames Vm Keyhelp Keyboard Console Machine CtrlBlk Kernel Sched.
From S2P Require Import UserMem Elf Loader Fork Syscall.
#[local] Open Scope Z_scope.

(** ** Whole pages *)

Section pages.
Context `{Platform}.

Lemma page_end cur : vword cur -> cur `mod` PAGE_SIZE = 0 -> cur + PAGE_SIZE <= 2 ^ 32.
Proof. unfold vword. change PAGE_SIZE with 4096. intros Hc Hm. pose proof (Z.div_mod cur 4096 ltac:(lia)). lia. Qed.

(** The bytes of a mapped page, through its address. *)
Lemma page_translate s F cur f rw us w i : space_ok s F -> vword cur -> cur `mod` PAGE_SIZE = 0 ->
  here s cur = Some (Mapped f rw us) -> allowed w rw = true -> 0 <= i < PAGE_SIZE -> translate (cur + i) w s = Some (inl (f + i)).
Proof.
  intros Hs Hv Ha Hx Hal Hi. pose proof (page_end cur Hv Ha). assert (Hw : vword (cur + i)) by (unfold vword in *; lia).
  rewrite (translate_ok s F) by done. unfold here in *. rewrite (view_same_page _ _ (cur + i) cur), Hx by (done || (apply page_no_range; [done|lia])).
  rewrite Hal. do 3 f_equal. rewrite <-Z.add_mod_idemp_l by done. rewrite Ha. by apply Z.mod_small.
Qed.

Definition frame_bytes (f : Z) (s : kstate) : list Z := (fun i => byte_at (f + i) s) <$> seqZ 0 PAGE_SIZE.

Lemma load_page_ok s F cur f rw us : space_ok s F -> vword cur -> cur `mod` PAGE_SIZE = 0 ->
  here s cur = Some (Mapped f rw us) -> load_bytes (Z.to_nat PAGE_SIZE) cur s = Done (frame_bytes f s) s.
Proof.
  intros Hs Hv Ha Hx. pose proof (page_end cur Hv Ha).
  rewrite (load_bytes_ok _ cur s ((fun i => f + i) <$> seqZ 0 PAGE_SIZE)).
  - unfold frame_bytes. by rewrite <-list_fmap_compose.
  - apply Hv.
  - by rewrite Z2Nat.id.
  - by rewrite length_fmap, length_seqZ.
  - intros i a Hi. rewrite list_lookup_fmap in Hi. apply fmap_Some in Hi as (j & Hj & ->). apply lookup_seqZ in Hj as [-> Hj].
    eapply page_translate; [done..| |lia]. unfold allowed. by rewrite bool_decide_false by naive_solver.
Qed.

(** The memory after a page is written. *)
Definition frame_written (f : Z) (xs : list Z) (s s' : kstate) : Prop :=
  s' = with_mem (mem s') s /\ (forall b, ~ (f <= b < f + PAGE_SIZE) -> byte_at b s' = byte_at b s) /\
  (forall i x, xs !! i = Some x -> byte_at (f + Z.of_nat i) s' = u8 x).

Lemma store_page_ok s F cur f us xs : space_ok s F -> vword cur -> cur `mod` PAGE_SIZE = 0 ->
  here s cur = Some (Mapped f READ_WRITE us) -> length xs = Z.to_nat PAGE_SIZE ->
  exists s', store_bytes xs cur s = Done tt s' /\ frame_written f xs s s'.
Proof.
  intros Hs Hv Ha Hx Hlen. pose proof (page_end cur Hv Ha). set (pas := (fun i => f + i) <$> seqZ 0 PAGE_SIZE).
  assert (Hpl : length pas = length xs) by (unfold pas; by rewrite length_fmap, length_seqZ).
  assert (Hnd : NoDup pas) by (apply NoDup_fmap_2_strong; [intros ? ? _ _ ?; lia|apply NoDup_seqZ]).
  assert (Hpi : forall i, (i < length xs)%nat -> pas !! i = Some (f + Z.of_nat i)).
  { intros i Hi. unfold pas. rewrite list_lookup_fmap, lookup_seqZ_lt by lia. done. }
  assert (Hfst : (zip pas xs).*1 = pas) by (rewrite fst_zip; [done|lia]).
  exists (put_bytes (zip pas xs) s). split; [|split; [apply put_bytes_rest|split]].
  - apply store_bytes_ok; [apply Hv|rewrite Hlen, Z2Nat.id by done; lia|done|]. intros i a Hi.
    assert (Hil : (i < length xs)%nat) by (rewrite <-Hpl; by eapply lookup_lt_Some). rewrite (Hpi i Hil) in Hi. injection Hi as <-.
    eapply page_translate; [done..| |rewrite Hlen in Hil; lia]. unfold allowed. by rewrite bool_decide_false by (by intros (_ & _ & ?)).
  - intros b Hb. apply put_bytes_other. rewrite Hfst. unfold pas. intros (i & -> & Hi)%list_elem_of_fmap. apply elem_of_seqZ in Hi. lia.
  - intros i x Hi. apply (put_bytes_at _ _ i); [by rewrite Hfst|]. apply lookup_zip_Some. split; [|done].
    apply Hpi. by eapply lookup_lt_Some.
Qed.

(** The page directory of a process set, and set back. *)
Lemma upd_pcb_back p f g c b : get_pcb c p = Some b -> g (f b) = b -> exists c1, upd_pcb p f c = Some c1 /\ upd_pcb p g c1 = Some c.
Proof.
  intros Hb Hg. unfold upd_pcb, put_pcb, set_data. unfold get_pcb in *. apply fmap_Some in Hb as (n & Hn & ->).
  rewrite Hn. cbn [mbind option_bind fmap option_fmap option_map]. eexists. split; [reflexivity|].
  cbn [pcbs set_pcbs cells pool]. rewrite lookup_insert_eq. cbn [mbind option_bind fmap option_fmap option_map data previous next].
  rewrite insert_insert_eq, Hg. destruct n. rewrite insert_id by done. by destruct c as [? [] ? ? ? ? ? ?].
Qed.

End pages.

Section copying.
Context `{Platform}.

(** The address [b] lies in one of the frames. *)
Definition in_frames (F : list Z) (b : Z) : Prop := exists f, f ∈ F /\ f <= b < f + PAGE_SIZE.

(** The copy starts in [s0], with the free frames [F0], for the parent's
    directory [P] and the child's [C]. *)
Context (s0 : kstate) (F0 : list Z) (P C : addr).

(** The child's page of [v]: not mapped with the same availability, mapped to the
    zero frame, or mapped with the same access to a frame that was free and has
    the same bytes now. *)
Definition page_copied (s : kstate) (v : Z) : Prop :=
  match view (kvm s0) P v with
  | Some (Unmapped a) => view (kvm s) C v = Some (Unmapped a)
  | Some (Mapped f rw _) =>
      if decide (f = ZERO_FRAME) then view (kvm s) C v = Some (Mapped ZERO_FRAME READ_ONLY 1)
      else exists f', f' ∈ F0 /\ view (kvm s) C v = Some (Mapped f' rw 1) /\
        forall i, 0 <= i < PAGE_SIZE -> byte_at (f' + i) s = byte_at (f + i) s0
  | None => False
  end.

(** What the copy leaves alone: everything but the child's directory and the
    frames that were free. *)
Record undisturbed (s : kstate) (F : list Z) : Prop := {
  un_rest : s = with_mem (mem s) (with_kvm (kvm s) s0);
  un_vm : vm_ok (kvm s) F;
  un_dirs : dom (pdirs (kvm s)) = dom (pdirs (kvm s0));
  un_free : F ⊆ F0;
  un_views : forall d v, d <> C -> vword v -> view (kvm s) d v = view (kvm s0) d v;
  un_mem : forall b, ~ in_frames F0 b -> byte_at b s = byte_at b s0;
}.

(** The pages below [cur] are copied, the others not yet touched. *)
Record copying (cur : Z) (s : kstate) (F : list Z) : Prop := {
  cp_un : undisturbed s F;
  cp_done : forall v, vword v -> USER_PAGE_START <= v < cur -> page_copied s v;
  cp_todo : forall v, vword v -> USER_PAGE_START <= v -> cur <= v -> view (kvm s) C v = Some (Unmapped PAGE_UNAVAILABLE);
}.

(** The directories differ and exist, the memory holds bytes, the parent's pages
    have sane access bits, and the parent runs. *)
Record parent_child : Prop := {
  pc_space : space_ok s0 F0;
  pc_parent : page_of (cr3 s0) = P;
  pc_child : is_Some (pdirs (kvm s0) !! C);
  pc_ne : C <> P;
  pc_mem : mem_ok s0;
  pc_access : forall v f rw us, vword v -> USER_PAGE_START <= v -> view (kvm s0) P v = Some (Mapped f rw us) -> rw = READ_ONLY \/ rw = READ_WRITE;
}.
Context (Hpc : parent_child).

Lemma frame_apart f g b : f `mod` PAGE_SIZE = 0 -> g `mod` PAGE_SIZE = 0 -> f <= b < f + PAGE_SIZE -> g <= b < g + PAGE_SIZE -> f = g.
Proof.
  intros Hf Hg. change PAGE_SIZE with 4096 in *. pose proof (Z.div_mod f 4096 ltac:(lia)). pose proof (Z.div_mod g 4096 ltac:(lia)). lia.
Qed.

Lemma free_frame_facts s F f : undisturbed s F -> f ∈ F -> user_frame f.
Proof. intros Hun Hf. destruct (pool_ok _ _ (proj2 (un_vm _ _ Hun))) as (_ & _ & _ & Hu & _). rewrite Forall_forall in Hu. by apply Hu. Qed.

(** A frame a page is mapped to is not among the free ones. *)
Lemma mapped_not_free s F d v f rw us i : vm_ok (kvm s) F -> vword v -> USER_PAGE_START <= v ->
  view (kvm s) d v = Some (Mapped f rw us) -> f <> ZERO_FRAME -> 0 <= i < PAGE_SIZE -> ~ in_frames F (f + i).
Proof.
  intros Hok Hv Hu Hx Hz Hi (g & Hg & Hb). destruct (mapped_ok _ _ (proj2 Hok) _ _ _ _ _ Hv Hu Hx) as [?|[Huf Hnf]]; [done|].
  destruct (pool_ok _ _ (proj2 Hok)) as (_ & _ & _ & Hup & _). rewrite Forall_forall in Hup.
  pose proof (user_frame_facts _ Huf) as (_ & Hfa & _). pose proof (user_frame_facts _ (Hup g Hg)) as (_ & Hga & _).
  assert (f = g) as ->; [apply (frame_apart f g (f + i)); [done|done|lia|done]|done].
Qed.

(** One round of the copy. *)
Lemma copying_step cur next s F s' F' : copying cur s F -> USER_PAGE_START <= cur <= next -> undisturbed s' F' ->
  (forall v, vword v -> ~ (cur <= v < next) -> view (kvm s') C v = view (kvm s) C v) ->
  (forall b, ~ in_frames F b -> byte_at b s' = byte_at b s) ->
  (forall v, vword v -> cur <= v < next -> page_copied s' v) -> copying next s' F'.
Proof.
  intros [Hun Hdone Htodo] Hcur Hun' Hview Hmem Hnew. split; [done| |].
  - intros v Hv Hr. destruct (decide (v < cur)) as [Hlt|]; [|apply Hnew; [done|lia]].
    pose proof (Hdone v Hv ltac:(lia)) as Hc. unfold page_copied in *. rewrite Hview by (done || lia).
    destruct (view (kvm s0) P v) as [[a|f rw us]|]; [done| |done]. case_decide; [done|].
    destruct Hc as (f' & Hf' & Hx & Hb). exists f'. split; [done|]. split; [done|]. intros i Hi. rewrite <-Hb by done.
    apply Hmem. eapply mapped_not_free; [apply Hun|exact Hv|lia|exact Hx| |done].
    destruct (pool_ok _ _ (proj2 (proj1 (pc_space Hpc)))) as (_ & _ & _ & Hup & _). rewrite Forall_forall in Hup.
    by destruct (user_frame_facts _ (Hup f' Hf')) as (_ & _ & ?).
  - intros v Hv Hu Hr. destruct (decide (cur <= v < next)) as [Hin|Hout].
    + lia.
    + rewrite Hview by done. apply Htodo; [done|done|]. lia.
Qed.

(** ** Operations on a page of the child *)

Lemma undisturbed_runs s F me t : undisturbed s F -> runs s0 me t -> runs s me t.
Proof. intros [-> _ _ _ _ _]. done. Qed.

Lemma child_change s F v' F' v x : undisturbed s F -> vm_ok v' F' -> dom (pdirs v') = dom (pdirs (kvm s)) -> F' ⊆ F ->
  view_is v' (view_upd (view (kvm s)) C v x) -> undisturbed (with_kvm v' s) F'.
Proof.
  intros [Hrest Hok Hdirs Hfree Hviews Hmem] Hok' Hdom Hsub Hv. split; cbn [kvm mem with_kvm].
  - rewrite Hrest. done.
  - done.
  - by rewrite Hdom.
  - set_solver.
  - intros d w Hd Hw. rewrite Hv by done. unfold view_upd. rewrite decide_False by naive_solver. by apply Hviews.
  - exact Hmem.
Qed.

Lemma child_page s F v : undisturbed s F -> vword v -> USER_PAGE_START <= v -> user_page (kvm s) C v.
Proof.
  intros Hun Hv Hu. split; [|done]. apply elem_of_dom. rewrite (un_dirs _ _ Hun). apply elem_of_dom, Hpc.
Qed.

Lemma parent_page s F v : undisturbed s F -> vword v -> USER_PAGE_START <= v -> user_page (kvm s) P v.
Proof.
  intros Hun Hv Hu. split; [|done]. apply elem_of_dom. rewrite (un_dirs _ _ Hun). apply elem_of_dom.
  rewrite <-(pc_parent Hpc). apply Hpc.
Qed.

(** What an operation may do to a page, whatever memory there is for it. *)
Definition page_effect (op : page_op) (x : page_view) (r : Z) (x' : page_view) : Prop :=
  match op, x with
  | MapNew, Unmapped _ => (r = OK /\ exists f, user_frame f /\ x' = Mapped f READ_WRITE 1) \/ (r = FAIL /\ x' = x)
  | MapZero, Unmapped _ => (r = OK /\ x' = Mapped ZERO_FRAME READ_ONLY 1) \/ (r = FAIL /\ x' = x)
  | Unmap, Mapped _ _ _ => r = OK /\ x' = Unmapped PAGE_AVAILABLE
  | SetAccess a, Mapped f _ us =>
      if decide (a = READ_ONLY \/ a = READ_WRITE) then r = OK /\ x' = Mapped f a us else r = FAIL /\ x' = x
  | SetAvailability a, Unmapped _ =>
      if decide (a = PAGE_AVAILABLE \/ a = PAGE_UNAVAILABLE)
      then (r = OK /\ x' = Unmapped a) \/ (r = FAIL /\ x' = x) else r = FAIL /\ x' = x
  | _, _ => r = FAIL /\ x' = x
  end.

Lemma page_spec_effect untabled noded op x F r x' F' : Forall user_frame F ->
  page_spec untabled noded op x F = (r, x', F') -> page_effect op x r x'.
Proof.
  intros Hu Hsp. destruct op, x; cbn in Hsp |- *; repeat (case_match || case_decide); simplify_eq; try done; try (by auto); try tauto; [|by match goal with Hn : ~ _, Ha : _ /\ _ |- _ => destruct (Hn (proj1 Ha)) end].
  left. split; [done|]. apply Forall_cons in Hu as [Hu _]. eauto.
Qed.

(** The frames an operation other than unmapping takes. *)
Lemma page_spec_taken untabled noded op x F r x' F' : op <> Unmap ->
  page_spec untabled noded op x F = (r, x', F') ->
  F' ⊆ F /\ forall a f rw us, x = Unmapped a -> x' = Mapped f rw us -> f = ZERO_FRAME \/ f ∈ F.
Proof.
  intros Hop Hsp. destruct op, x; cbn in Hsp; repeat (case_match || case_decide); simplify_eq; (split; [set_solver|]);
    intros; simplify_eq; first [by left|right; left].
Qed.

(** What an operation on the child's page of [v] does: [x'] is its new view. *)
Definition child_post (s : kstate) (F : list Z) (v : Z) (op : page_op) (x : page_view) (r : Z) (s' : kstate) : Prop :=
  exists F' x', page_effect op x r x' /\ undisturbed s' F' /\ F' ⊆ F /\ mem s' = mem s /\
    view_is (kvm s') (view_upd (view (kvm s)) C v x') /\
    (forall f rw us, x = Unmapped PAGE_AVAILABLE -> x' = Mapped f rw us -> f = ZERO_FRAME \/ f ∈ F).

Section ops.
Context (me : addr) (t : tcb_t) (Hrun : runs s0 me t).

Lemma child_op_ok op s F v x : op <> Unmap -> undisturbed s F -> vword v -> USER_PAGE_START <= v -> view (kvm s) C v = Some x ->
  exists r s', vm_op (fun me => run_page_op me op C v) s = Done r s' /\ child_post s F v op x r s'.
Proof.
  intros Hop Hun Hv Hu Hx. pose proof (undisturbed_runs _ _ _ _ Hun Hrun) as Hr. pose proof (un_vm _ _ Hun) as Hok.
  pose proof (child_page _ _ _ Hun Hv Hu) as Hup.
  destruct (run_page_op_ok (tid t) op (kvm s) F C v x Hok Hup Hx) as (r & v' & F' & x' & Hop' & Hspec & Hok' & Hdom & Hview).
  destruct (page_spec_taken _ _ _ _ _ _ _ _ Hop Hspec) as [Hsub Hnew].
  destruct (pool_ok _ _ (proj2 Hok)) as (_ & _ & _ & Huf & _). exists r, (with_kvm v' s).
  split; [by apply (vm_op_done _ s me t r v' Hr)|]. exists F', x'.
  split_and!; [by eapply page_spec_effect| |done|done|done|by apply Hnew]. by eapply child_change.
Qed.


(** ** The cases of the loop *)

Definition copy_outcome (cur : Z) (r : option Z) (s' : kstate) : Prop :=
  match r with
  | Some next => cur < next /\ next `mod` PAGE_SIZE = 0 /\ exists F', copying next s' F'
  | None => exists F', undisturbed s' F'
  end.

Definition user_at (cur : Z) : Prop := vword cur /\ USER_PAGE_START <= cur /\ cur `mod` PAGE_SIZE = 0.

(** A page copied. *)
Lemma copied_one cur s F s' F' : copying cur s F -> user_at cur -> undisturbed s' F' ->
  (forall v, vword v -> page_no v <> page_no cur -> view (kvm s') C v = view (kvm s) C v) ->
  (forall b, ~ in_frames F b -> byte_at b s' = byte_at b s) -> page_copied s' cur ->
  copy_outcome cur (Some (cur + PAGE_SIZE)) s'.
Proof.
  intros Hcp (Hv & Hu & Ha) Hun Hview Hmem Hnew. split; [change PAGE_SIZE with 4096; lia|]. split.
  { by rewrite Z.add_mod, Ha by done. }
  exists F'. eapply (copying_step cur); [done|change PAGE_SIZE with 4096; lia|done| |done|].
  - intros v Hw Hout. apply Hview; [done|]. by rewrite page_no_range.
  - intros v Hw Hin. apply page_no_range in Hin; [|done]. unfold page_copied in *.
    by rewrite (view_same_page (kvm s0) P v cur), (view_same_page (kvm s') C v cur) by done.
Qed.

Lemma view_upd_other V d v x w : page_no w <> page_no v -> view_upd V d v x d w = V d w.
Proof. intros Hne. unfold view_upd. by rewrite decide_False by naive_solver. Qed.

Lemma availability_ok s F cur a : undisturbed s F -> user_at cur -> view (kvm s0) P cur = Some (Unmapped a) ->
  vm_get (get_availability P cur) s = Done (OK, Some a) s.
Proof.
  intros Hun (Hv & Hu & _) Hx. apply vm_get_ok. rewrite (get_availability_ok _ F) by (apply Hun || by eapply parent_page).
  rewrite (un_views _ _ Hun) by (done || apply not_eq_sym, Hpc). by rewrite Hx.
Qed.

Lemma child_todo cur s F : copying cur s F -> user_at cur -> view (kvm s) C cur = Some (Unmapped PAGE_UNAVAILABLE).
Proof. intros Hcp (Hv & Hu & _). by apply (cp_todo _ _ _ Hcp). Qed.

Lemma post_bytes s F v op x r s' : child_post s F v op x r s' -> forall b, byte_at b s' = byte_at b s.
Proof. intros (F' & x' & _ & _ & _ & Hm & _) b. unfold byte_at. by rewrite Hm. Qed.

Lemma copy_availability_ok cur s F a : copying cur s F -> user_at cur -> view (kvm s0) P cur = Some (Unmapped a) ->
  exists r s', vm_op (fun _ => set_availability C cur a) s = Done r s' /\
    (r = OK /\ copy_outcome cur (Some (cur + PAGE_SIZE)) s' \/ r = FAIL /\ copy_outcome cur None s').
Proof.
  intros Hcp Hat Hx. pose proof Hat as (Hv & Hu & _). pose proof (cp_un _ _ _ Hcp) as Hun.
  destruct (child_op_ok (SetAvailability a) s F cur (Unmapped PAGE_UNAVAILABLE)) as (r & s1 & Hop & Hpost); [done..|by eapply child_todo|].
  pose proof (post_bytes _ _ _ _ _ _ _ Hpost) as Hb. destruct Hpost as (F' & x' & Hspec & Hun' & Hsub & _ & Hview & _).
  exists r, s1. split; [exact Hop|]. cbn [page_effect] in Hspec.
  case_decide as Ha; [destruct Hspec as [Hs|[-> _]]; [destruct Hs as (-> & ->)|right; by split; [|exists F']]|destruct Hspec as (-> & _); right; by split; [|exists F']].
  left. split; [done|]. eapply copied_one; [done|done|done| |intros; apply Hb|].
  - intros v Hw Hne. rewrite Hview by done. by apply view_upd_other.
  - unfold page_copied. rewrite Hx, Hview by done. apply view_upd_here.
Qed.

Lemma copy_absent_page_ok cur s F a : copying cur s F -> user_at cur -> view (kvm s0) P cur = Some (Unmapped a) ->
  exists r s', copy_absent_page P C cur s = Done r s' /\ copy_outcome cur r s'.
Proof.
  intros Hcp Hat Hx. unfold copy_absent_page. kstep (availability_ok s F cur a (cp_un _ _ _ Hcp) Hat Hx).
  rewrite (bind_Done (lift (Some a)) _ _ _ _ eq_refl). destruct (copy_availability_ok cur s F a Hcp Hat Hx) as (r & s1 & Hop & Hcase).
  kstep Hop. destruct Hcase as [[-> Hc]|[-> Hc]]; do 2 eexists; by split.
Qed.

(** The first operation on a page that will be mapped. *)
Lemma make_available_ok cur s F : copying cur s F -> user_at cur ->
  exists r s1, vm_op (fun _ => set_availability C cur PAGE_AVAILABLE) s = Done r s1 /\ (forall b, byte_at b s1 = byte_at b s) /\
    exists F1, undisturbed s1 F1 /\ F1 ⊆ F /\
    ((r = OK /\ view (kvm s1) C cur = Some (Unmapped PAGE_AVAILABLE) /\
      forall v, vword v -> page_no v <> page_no cur -> view (kvm s1) C v = view (kvm s) C v) \/ r = FAIL).
Proof.
  intros Hcp Hat. pose proof Hat as (Hv & Hu & _). pose proof (cp_un _ _ _ Hcp) as Hun.
  destruct (child_op_ok (SetAvailability PAGE_AVAILABLE) s F cur (Unmapped PAGE_UNAVAILABLE)) as (r & s1 & Hop & Hpost); [done..|by eapply child_todo|].
  pose proof (post_bytes _ _ _ _ _ _ _ Hpost) as Hb. destruct Hpost as (F1 & x' & Hspec & Hun' & Hsub & _ & Hview & _).
  exists r, s1. split; [exact Hop|]. split; [done|]. exists F1. split; [done|]. split; [done|].
  cbn [page_effect] in Hspec. rewrite decide_True in Hspec by (by left). destruct Hspec as [[-> ->]|[-> _]]; [left|by right].
  split; [done|]. rewrite Hview by done. split; [apply view_upd_here|]. intros w Hw Hne. rewrite Hview by done. by apply view_upd_other.
Qed.

Lemma copy_zero_page_ok cur s F rw us : copying cur s F -> user_at cur -> view (kvm s0) P cur = Some (Mapped ZERO_FRAME rw us) ->
  exists r s', copy_zero_page C cur s = Done r s' /\ copy_outcome cur r s'.
Proof.
  intros Hcp Hat Hx. pose proof Hat as (Hv & Hu & _). unfold copy_zero_page. cbn [all_ok].
  destruct (make_available_ok cur s F Hcp Hat) as (r1 & s1 & Hop & Hb & F1 & Hun1 & Hsub & Hcase).
  assert (Hall : forall rest, (r ← vm_op (fun _ => set_availability C cur PAGE_AVAILABLE); if decide (r < 0) then mret false else rest) s
     = (if decide (r1 < 0) then mret false else rest) s1) by (intros rest; by kstep Hop).
  destruct Hcase as [(-> & Hx1 & Hv1)| ->].
  - destruct (child_op_ok MapZero s1 F1 cur (Unmapped PAGE_AVAILABLE)) as (r & s2 & Hop2 & Hpost); [done..|].
    pose proof (post_bytes _ _ _ _ _ _ _ Hpost) as Hb2. destruct Hpost as (F2 & x' & Hspec & Hun2 & Hsub2 & _ & Hview & _).
    cbn [run_page_op] in Hop2. rewrite (bind_Done _ _ s (bool_decide (~ r < 0)) s2).
    2:{ rewrite Hall. rewrite decide_False by done. kstep Hop2. destruct Hspec as [(-> & _)|(-> & _)]; done. }
    destruct Hspec as [(-> & ->)|(-> & ->)].
    + exists (Some (cur + PAGE_SIZE)), s2. split; [done|]. eapply copied_one; [done|done|done| | |].
      * intros v Hw Hne. rewrite Hview by done. rewrite view_upd_other by done. by apply Hv1.
      * intros b _. by rewrite Hb2.
      * unfold page_copied. rewrite Hx, Hview by done. rewrite decide_True by done. apply view_upd_here.
    + exists None, s2. split; [done|]. by exists F2.
  - rewrite (bind_Done _ _ s false s1) by (by rewrite Hall). exists None, s1. split; [done|]. by exists F1.
Qed.


(** The contents of a page, through the address space of each. *)
Context (b : pcb_t) (Hpcb : get_pcb (ctl s0) (tcb_pcb t) = Some b) (Hdir : page_directory b = P).
Context (child_cr3 : Z) (Hchild : page_of child_cr3 = C).

Lemma undisturbed_space s F : undisturbed s F -> space_ok s F /\ page_of (cr3 s) = P /\ ctl s = ctl s0 /\ cr3 s = cr3 s0.
Proof.
  intros Hun. assert (Hr : s = with_mem (mem s) (with_kvm (kvm s) s0)) by apply Hun.
  assert (ctl s = ctl s0 /\ cr3 s = cr3 s0) as [Hc H3] by (rewrite Hr; done). rewrite H3, (pc_parent Hpc). split; [|done].
  split; [apply Hun|]. rewrite H3. apply elem_of_dom. rewrite (un_dirs _ _ Hun). apply elem_of_dom, Hpc.
Qed.

Lemma copy_frame_ok s F cur f rw us f' us' : undisturbed s F -> user_at cur -> view (kvm s) P cur = Some (Mapped f rw us) ->
  view (kvm s) C cur = Some (Mapped f' READ_WRITE us') ->
  exists s', copy_frame (tcb_pcb t) C P (cr3 s0) child_cr3 cur s = Done tt s' /\ frame_written f' (frame_bytes f s) s s'.
Proof.
  intros Hun (Hv & Hu & Ha) Hx Hx'. destruct (undisturbed_space s F Hun) as (Hs & HP & Hctl & Hcr3). unfold copy_frame.
  kstep (load_page_ok s F cur f rw us Hs Hv Ha ltac:(unfold here; by rewrite HP)).
  destruct (upd_pcb_back (tcb_pcb t) (set_page_directory C) (set_page_directory P) (ctl s) b) as (c1 & Hup & Hback).
  { by rewrite Hctl. }
  { destruct b. cbn in *. by subst. }
  set (s1 := with_cr3 child_cr3 (with_ctl c1 s)).
  assert (H1 : use_page_dir (tcb_pcb t) C child_cr3 s = Done tt s1).
  { unfold use_page_dir, update_pcb. kstep (ctl_upd_ok _ _ _ Hup). done. }
  kstep H1. destruct (store_page_ok s1 F cur f' us' (frame_bytes f s)) as (s2 & H2 & Hrest & Hother & Hbytes); [|done|done| | |].
  - split; [apply Hs|]. cbn. rewrite Hchild. apply elem_of_dom. rewrite (un_dirs _ _ Hun). apply elem_of_dom, Hpc.
  - unfold here. cbn. by rewrite Hchild.
  - unfold frame_bytes. by rewrite length_fmap, length_seqZ.
  - kstep H2. assert (Hc2 : ctl s2 = c1) by (rewrite Hrest; done).
    assert (H3 : use_page_dir (tcb_pcb t) P (cr3 s0) s2 = Done tt (with_mem (mem s2) s)).
    { unfold use_page_dir, update_pcb. rewrite <-Hc2 in Hback. kstep (ctl_upd_ok _ _ _ Hback).
      unfold set_cr3, modify. f_equal. rewrite Hrest, <-Hcr3. by destruct s. }
    exists (with_mem (mem s2) s). split; [exact H3|]. split; [done|]. split.
    + intros b' Hb'. change (byte_at b' (with_mem (mem s2) s)) with (byte_at b' s2). by rewrite Hother.
    + intros i x Hi. by apply Hbytes.
Qed.

Lemma written_undisturbed s F f xs s' : undisturbed s F -> f ∈ F0 -> frame_written f xs s s' -> undisturbed s' F.
Proof.
  intros [Hrest Hok Hdirs Hfree Hviews Hmem] Hf (Hr & Ho & _). assert (Hk : kvm s' = kvm s) by (rewrite Hr; done).
  split; rewrite ?Hk; try done.
  - rewrite Hr, Hrest. done.
  - intros b' Hb'. rewrite Ho; [by apply Hmem|]. intros Hin. apply Hb'. by exists f.
Qed.

Lemma in_frames_mono F F' b' : F' ⊆ F -> in_frames F' b' -> in_frames F b'.
Proof. intros Hs (f & Hf & Hb). exists f. split; [by apply Hs|done]. Qed.

Lemma copy_mapped_page_ok cur s F f rw us : copying cur s F -> user_at cur -> view (kvm s0) P cur = Some (Mapped f rw us) -> f <> ZERO_FRAME ->
  exists r s', copy_mapped_page (tcb_pcb t) P C (cr3 s0) child_cr3 cur s = Done r s' /\ copy_outcome cur r s'.
Proof.
  intros Hcp Hat Hx Hz. pose proof Hat as (Hv & Hu & Ha). pose proof (un_free _ _ (cp_un _ _ _ Hcp)) as HF. unfold copy_mapped_page. cbn [all_ok].
  destruct (make_available_ok cur s F Hcp Hat) as (r1 & s1 & Hop & Hb & F1 & Hun1 & Hsub & Hcase).
  assert (Hall : forall rest, (r ← vm_op (fun _ => set_availability C cur PAGE_AVAILABLE); if decide (r < 0) then mret false else rest) s
     = (if decide (r1 < 0) then mret false else rest) s1) by (intros rest; by kstep Hop).
  destruct Hcase as [(-> & Hx1 & Hv1)| ->].
  2:{ rewrite (bind_Done _ _ s false s1) by (by rewrite Hall). exists None, s1. split; [done|]. by exists F1. }
  destruct (child_op_ok MapNew s1 F1 cur (Unmapped PAGE_AVAILABLE)) as (r & s2 & Hop2 & Hpost); [done..|].
  pose proof (post_bytes _ _ _ _ _ _ _ Hpost) as Hb2. destruct Hpost as (F2 & x' & Hspec & Hun2 & Hsub2 & _ & Hview & Hfrom).
  cbn [run_page_op] in Hop2. rewrite (bind_Done _ _ s (bool_decide (~ r < 0)) s2).
  2:{ rewrite Hall. rewrite decide_False by done. kstep Hop2. destruct Hspec as [[-> _]|[-> _]]; done. }
  destruct Hspec as [(-> & f' & Huf & ->)|(-> & ->)].
  2:{ exists None, s2. split; [done|]. by exists F2. }
  assert (Hf' : f' ∈ F1).
  { destruct (Hfrom f' READ_WRITE 1 eq_refl eq_refl) as [->|?]; [|done]. by apply user_frame_facts in Huf as (_ & _ & ?). }
  assert (Hx2 : view (kvm s2) C cur = Some (Mapped f' READ_WRITE 1)) by (rewrite Hview by done; apply view_upd_here).
  assert (HxP : view (kvm s2) P cur = Some (Mapped f rw us)) by (rewrite (un_views _ _ Hun2) by (done || apply not_eq_sym, Hpc); done).
  destruct (copy_frame_ok s2 F2 cur f rw us f' 1 Hun2 Hat HxP Hx2) as (s3 & Hop3 & Hwr).
  rewrite bool_decide_true by done. cbn [negb]. kstep Hop3.
  assert (Hf0 : f' ∈ F0) by (by apply HF, Hsub). pose proof (written_undisturbed _ _ _ _ _ Hun2 Hf0 Hwr) as Hun3.
  assert (Hk3 : kvm s3 = kvm s2) by (destruct Hwr as [-> _]; done).
  rewrite (bind_Done _ _ _ _ _ (vm_get_ok (get_access P cur) s3 (OK, Some rw) ltac:(rewrite (get_access_ok _ F2) by (apply Hun3 || by eapply parent_page); by rewrite Hk3, HxP))).
  rewrite (bind_Done (lift (Some rw)) _ _ _ _ eq_refl).
  destruct (child_op_ok (SetAccess rw) s3 F2 cur (Mapped f' READ_WRITE 1)) as (r4 & s4 & Hop4 & Hpost4); [done..|by rewrite Hk3|].
  pose proof (post_bytes _ _ _ _ _ _ _ Hpost4) as Hb4. destruct Hpost4 as (F4 & x4 & Hspec4 & Hun4 & Hsub4 & _ & Hview4 & _).
  cbn [run_page_op] in Hop4. kstep Hop4. cbn [page_effect] in Hspec4.
  rewrite decide_True in Hspec4 by (by eapply (pc_access Hpc)). destruct Hspec4 as [_ ->].
  exists (Some (cur + PAGE_SIZE)), s4. split; [done|]. destruct Hwr as (_ & Hout & Hin). eapply copied_one; [done|done|done| | |].
  - intros v Hw Hne. rewrite Hview4 by done. rewrite view_upd_other by done. rewrite Hk3, Hview by done. rewrite view_upd_other by done. by apply Hv1.
  - intros b' Hb'. rewrite Hb4, Hout, Hb2, Hb; [done|]. intros Hi. apply Hb'. exists f'. split; [by apply Hsub|done].
  - unfold page_copied. rewrite Hx. rewrite decide_False by done. exists f'. split; [done|].
    rewrite Hview4 by done. split; [apply view_upd_here|]. intros i Hi. rewrite Hb4.
    specialize (Hin (Z.to_nat i) (byte_at (f + i) s2)). rewrite Z2Nat.id in Hin by lia. rewrite Hin.
    + rewrite (un_mem _ _ Hun2); [apply u8_small, (pc_mem Hpc)|].
      eapply (mapped_not_free s0 F0 P cur); [apply Hpc|done..].
    + unfold frame_bytes. rewrite list_lookup_fmap, lookup_seqZ_lt by lia. cbn. do 2 f_equal. lia.
Qed.


(** The pages of a missing table. *)
Definition next_table (cur : Z) : Z := Z.shiftl ((Z.shiftr cur PAGE_SHIFT / PTE_COUNT + 1) * PTE_COUNT) PAGE_SHIFT.

Lemma next_table_eq cur : next_table cur = (cur / 2 ^ 22 + 1) * 2 ^ 22.
Proof.
  unfold next_table, PAGE_SHIFT. change PTE_COUNT with 1024. rewrite Z.shiftl_mul_pow2, Z.shiftr_div_pow2 by lia.
  rewrite Z.div_div by lia. change (2 ^ 12 * 1024) with (2 ^ 22). change (2 ^ 12) with 4096. change (2 ^ 22) with (1024 * 4096). lia.
Qed.

Lemma next_table_pages cur : user_at cur -> exists n : nat, next_table cur = cur + Z.of_nat n * PAGE_SIZE /\ (next_table cur - cur) / PAGE_SIZE = Z.of_nat n /\
  cur < next_table cur /\ next_table cur <= 2 ^ 32.
Proof.
  intros (Hv & _ & Ha). rewrite next_table_eq. unfold vword in Hv. change PAGE_SIZE with 4096 in *. change (2 ^ 22) with (4096 * 1024) in *.
  pose proof (Z.div_mod cur (4096 * 1024) ltac:(lia)) as H1. pose proof (Z.mod_pos_bound cur (4096 * 1024) ltac:(lia)).
  pose proof (Z.div_mod cur 4096 ltac:(lia)) as H2. rewrite <-Z.div_div in * by lia.
  exists (Z.to_nat ((cur / 4096 / 1024 + 1) * 1024 - cur / 4096)).
  replace ((cur / 4096 / 1024 + 1) * (4096 * 1024) - cur) with (((cur / 4096 / 1024 + 1) * 1024 - cur / 4096) * 4096) by lia.
  rewrite Z.div_mul by lia. change (2 ^ 32) with (1024 * (4096 * 1024)) in *. lia.
Qed.

Lemma next_table_index cur v : vword cur -> cur <= v < next_table cur -> pde_index v = pde_index cur.
Proof.
  intros Hcur Hin. rewrite next_table_eq in Hin. unfold pde_index, PAGE_SHIFT. change PTE_COUNT with 1024. unfold vword in *.
  rewrite !Z.shiftr_div_pow2, !Z.div_div by lia. change (2 ^ 12 * 1024) with (2 ^ 22). f_equal. change (2 ^ 22) with 4194304 in *.
  pose proof (Z.div_mod cur 4194304 ltac:(lia)). pose proof (Z.mod_pos_bound cur 4194304 ltac:(lia)).
  symmetry. apply Z.div_unique with (v - cur / 4194304 * 4194304); lia.
Qed.

Lemma absent_table_view s F d cur : vm_ok s F -> user_page s d cur -> check_user_page d cur s = Some (OK, Some PDE_NOT_PRESENT) ->
  exists a, forall v, pde_index v = pde_index cur -> view s d v = Some (Unmapped a).
Proof.
  intros [Ht Hf] Hup Hc. unfold check_user_page in Hc. rewrite (user_page_ok_true s) in Hc by done. pose proof Hup as (Hd & Hv & _).
  destruct (find_frame_found s d cur Ht Hd Hv) as (l & x & Hl & Hx & _ & pde & Hpde & Hcase). rewrite Hl in Hc. cbn in Hc.
  case_decide as Hp; [|destruct Hcase as (_ & e & _ & _ & _ & Hfd); case_decide; [rewrite Hfd in Hc; done|]].
  - exists (pde_available pde). intros v Hi. unfold view. rewrite Hi. run Hpde. by rewrite decide_True.
  - destruct Hfd as [Hfd _]. rewrite Hfd in Hc. by case_decide.
Qed.

Lemma copy_absent_run n a : forall cur s F, copying cur s F -> cur `mod` PAGE_SIZE = 0 -> USER_PAGE_START <= cur ->
  (forall i, 0 <= i < Z.of_nat n -> vword (cur + i * PAGE_SIZE) /\ view (kvm s0) P (cur + i * PAGE_SIZE) = Some (Unmapped a)) ->
  exists r s', each_page (fun i => vm_op (fun _ => set_availability C i a)) ((fun i => cur + i * PAGE_SIZE) <$> seqZ 0 (Z.of_nat n)) s = Done r s' /\
    (r = OK /\ (exists F', copying (cur + Z.of_nat n * PAGE_SIZE) s' F') \/ r = FAIL /\ exists F', undisturbed s' F').
Proof.
  induction n as [|n IH]; intros cur s F Hcp Ha Hu Hall.
  { exists OK, s. split; [done|]. left. split; [done|]. exists F. by rewrite Z.mul_0_l, Z.add_0_r. }
  destruct (Hall 0 ltac:(lia)) as [Hv Hx]. rewrite Z.mul_0_l, Z.add_0_r in Hv, Hx.
  rewrite seqZ_cons by lia. rewrite fmap_cons. cbn [each_page]. rewrite Z.mul_0_l, Z.add_0_r.
  destruct (copy_availability_ok cur s F a Hcp ltac:(done) Hx) as (r & s1 & Hop & Hcase). kstep Hop.
  destruct Hcase as [(-> & _ & Ha' & F1 & Hcp1)|[-> [F1 Hun1]]].
  2:{ exists FAIL, s1. split; [done|]. right. split; [done|]. by exists F1. }
  rewrite decide_False by done. destruct (IH (cur + PAGE_SIZE) s1 F1 Hcp1 Ha') as (r & s2 & Heach & Hres).
  { change PAGE_SIZE with 4096. lia. }
  { intros i Hi. replace (cur + PAGE_SIZE + i * PAGE_SIZE) with (cur + (i + 1) * PAGE_SIZE) by lia. apply Hall. lia. }
  exists r, s2. split.
  - rewrite <-Heach. f_equal. replace (Z.pred (Z.of_nat (S n))) with (Z.of_nat n) by lia. change (Z.succ 0) with (1 + 0).
    rewrite <-(fmap_add_seqZ 1 0), <-list_fmap_compose. apply list_fmap_ext. intros _ i _. cbn. lia.
  - by replace (cur + Z.of_nat (S n) * PAGE_SIZE) with (cur + PAGE_SIZE + Z.of_nat n * PAGE_SIZE) by lia.
Qed.

Lemma copy_absent_table_ok cur s F : copying cur s F -> user_at cur -> check_user_page P cur (kvm s) = Some (OK, Some PDE_NOT_PRESENT) ->
  exists r s', copy_absent_table P C cur s = Done r s' /\ copy_outcome cur r s'.
Proof.
  intros Hcp Hat Hchk. pose proof Hat as (Hv & Hu & Ha). pose proof (cp_un _ _ _ Hcp) as Hun. unfold copy_absent_table. fold (next_table cur).
  destruct (absent_table_view _ F P cur (un_vm _ _ Hun)) as [a Hview]; [by eapply parent_page|done|].
  destruct (next_table_pages cur Hat) as (n & Hn & Hdiv & Hlt & Hmax).
  assert (Hx : forall v, vword v -> cur <= v < next_table cur -> view (kvm s0) P v = Some (Unmapped a)).
  { intros v Hw Hin. rewrite <-(un_views _ _ Hun) by (done || apply not_eq_sym, Hpc). apply Hview. by apply next_table_index. }
  kstep (availability_ok s F cur a Hun Hat (Hx cur Hv ltac:(lia))). rewrite (bind_Done (lift (Some a)) _ _ _ _ eq_refl).
  assert (Hna : next_table cur `mod` PAGE_SIZE = 0) by (rewrite Hn, Z.mod_add; [done|done]). case_decide as Hav.
  - rewrite Hdiv. destruct (copy_absent_run n a cur s F Hcp Ha Hu) as (r & s1 & Heach & Hres).
    { intros i Hi. change PAGE_SIZE with 4096 in *. assert (vword (cur + i * 4096)) by (unfold vword in *; lia). split; [done|]. apply Hx; [done|]. lia. }
    kstep Heach. destruct Hres as [(-> & F' & Hcp')|(-> & F' & Hun')]; do 2 eexists; (split; [done|]); [|by exists F'].
    split; [done|]. split; [done|]. exists F'. by rewrite Hn.
  - assert (a = PAGE_UNAVAILABLE) as -> by (by destruct (decide (a = PAGE_UNAVAILABLE))).
    exists (Some (next_table cur)), s. split; [done|]. split; [done|]. split; [done|]. exists F.
    eapply (copying_step cur); [done|lia|done|done|done|]. intros v Hw Hin. unfold page_copied. rewrite Hx by done.
    apply (cp_todo _ _ _ Hcp); [done|lia|lia].
Qed.


(** ** The whole copy *)

Lemma copy_page_ok cur s F : copying cur s F -> user_at cur ->
  exists r s', copy_page (tcb_pcb t) P C (cr3 s0) child_cr3 cur s = Done r s' /\ copy_outcome cur r s'.
Proof.
  intros Hcp Hat. pose proof Hat as (Hv & Hu & _). pose proof (cp_un _ _ _ Hcp) as Hun. unfold copy_page.
  destruct (check_user_page_ok (kvm s) F P cur (un_vm _ _ Hun)) as (m & Hm & Hcase); [by eapply parent_page|].
  kstep (vm_get_ok (check_user_page P cur) s _ Hm). rewrite (bind_Done (lift (Some m)) _ _ _ _ eq_refl).
  rewrite (un_views _ _ Hun) in Hcase by (done || apply not_eq_sym, Hpc).
  destruct (view (kvm s0) P cur) as [[a|f rw us]|] eqn:Hx; [| |done].
  - destruct Hcase as [->| ->]; [by eapply copy_absent_table_ok|by eapply copy_absent_page_ok].
  - case_decide as Hf; subst m; [subst f; by eapply copy_zero_page_ok|by eapply copy_mapped_page_ok].
Qed.

Lemma copy_pages_ok : (forall v, vword v -> USER_PAGE_START <= v -> view (kvm s0) C v = Some (Unmapped PAGE_UNAVAILABLE)) ->
  exists ok s', copy_pages (tcb_pcb t) P C (cr3 s0) child_cr3 s0 = Done ok s' /\ (exists F', undisturbed s' F') /\
    (ok = true -> forall v, vword v -> USER_PAGE_START <= v -> page_copied s' v).
Proof.
  intros Hfresh. unfold copy_pages.
  destruct (loop_inv (fun current_page : Z => if decide (current_page < VIRTUAL_ADDR_END) then
      r ← copy_page (tcb_pcb t) P C (cr3 s0) child_cr3 current_page;
      match r with None => mret (inr false) | Some next_page => mret (inl next_page) end
    else mret (inr true))
    32%nat (fun cur s => USER_PAGE_START <= cur /\ cur `mod` PAGE_SIZE = 0 /\ exists F, copying cur s F)
    (fun ok s => (exists F, undisturbed s F) /\ (ok = true -> forall v, vword v -> USER_PAGE_START <= v -> page_copied s v))
    (fun cur => Z.max 0 (2 ^ 32 - cur)) USER_PAGE_START s0) as (ok & s' & Hl & HQ).
  - intros cur s (Hu & Ha & F & Hcp). split; [lia|]. case_decide as Hend.
    + assert (Hat : user_at cur).
      { split; [|done]. unfold vword. change VIRTUAL_ADDR_END with (2 ^ 32) in Hend. change USER_PAGE_START with 16777216 in Hu. lia. }
      destruct (copy_page_ok cur s F Hcp Hat) as (r & s1 & Hr & Hout). kstep Hr. destruct r as [next|].
      * destruct Hout as (Hlt & Hna & HF). do 2 eexists. split; [done|]. split; [split; [lia|done]|].
        change VIRTUAL_ADDR_END with (2 ^ 32) in Hend. lia.
      * do 2 eexists. split; [done|]. by split.
    + do 2 eexists. split; [done|]. split; [exists F; apply Hcp|]. intros _ v Hv Hu'. apply (cp_done _ _ _ Hcp); [done|].
      change VIRTUAL_ADDR_END with (2 ^ 32) in Hend. unfold vword in Hv. lia.
  - split; [done|]. split; [done|]. exists F0. split; [|intros; lia|intros; by apply Hfresh].
    split; [by destruct s0|apply (pc_space Hpc)|done|done|done|done].
  - change (Z.of_nat 32) with 32. change USER_PAGE_START with 16777216. lia.
  - exists ok, s'. done.
Qed.

End ops.
End copying.

Section fork_theorem.
Context `{Platform}.

(** The access bits in the tables are 0 or 1. *)
Definition access_ok (s : vm) : Prop := forall t es, ptabs s !! t = Some es -> Forall (fun e => pte_rw e = READ_ONLY \/ pte_rw e = READ_WRITE) es.

Lemma access_view s d v f rw us : access_ok s -> view s d v = Some (Mapped f rw us) -> rw = READ_ONLY \/ rw = READ_WRITE.
Proof.
  intros Hs Hx. unfold view in Hx. apply bind_Some in Hx as (pde & _ & Hx). case_decide; [done|]. apply bind_Some in Hx as (e & He & Hx).
  unfold pte_view in Hx. case_decide; [done|]. injection Hx as _ <- _. apply get_pte_tab in He as (es & Hes & He).
  specialize (Hs _ _ Hes). rewrite Forall_forall in Hs. apply Hs. by eapply list_elem_of_lookup_2.
Qed.

(** C10. Fork copies the parent's memory.  From a well-formed state, a new
    directory for the child is built, or memory runs out with nothing lost; the
    copy then goes through all the user pages and ends.  Whether or not it runs
    out of memory on the way, every other process keeps its address space, every
    frame that was in use keeps its bytes, the pages stay isolated ([vm_ok]) and
    the parent runs on in its own address space; and if the copy succeeds, every
    page of the child is as the parent's: not mapped, with the same availability;
    mapped to the zero frame; or mapped with the same access to a frame that was
    free, with the bytes the parent's page had. *)
Theorem fork_copies_memory (s : kstate) (F : list Z) (me : addr) (t : tcb_t) (b : pcb_t)
    (Hs : space_ok s F) (Hmem : mem_ok s) (Hacc : access_ok (kvm s)) (Hrun : runs s me t)
    (Hpcb : get_pcb (ctl s) (tcb_pcb t) = Some b) (Hdir : page_directory b = page_of (cr3 s)) :
  exists C s1, vm_step construct_page_dir s = Done C s1 /\ s1 = with_kvm (kvm s1) s /\ vm_ok (kvm s1) F /\
    (forall d v, is_Some (pdirs (kvm s) !! d) -> view (kvm s1) d v = view (kvm s) d v) /\
    (C <> NULL -> forall child_cr3, page_of child_cr3 = C ->
      exists ok s2, copy_pages (tcb_pcb t) (page_of (cr3 s)) C (cr3 s) child_cr3 s1 = Done ok s2 /\
        (exists F', undisturbed s1 F C s2 F') /\
        (ok = true -> forall v, vword v -> USER_PAGE_START <= v -> page_copied s1 F (page_of (cr3 s)) C s2 v)).
Proof.
  destruct Hs as [Hok Hd]. destruct (construct_page_dir_ok (kvm s) F Hok) as (C & v1 & Hc & Hok1 & _ & Hold & Hout).
  exists C, (with_kvm v1 s). split; [by apply vm_step_ok|]. split; [done|]. split; [done|]. split; [done|].
  intros HC child_cr3 Hcc. unfold construct_outcome in Hout. rewrite decide_False in Hout by done. destruct Hout as (HnC & Hdom & Hfresh).
  assert (Hpd : is_Some (pdirs v1 !! page_of (cr3 s))) by (apply elem_of_dom; rewrite Hdom; apply elem_of_dom in Hd; set_solver).
  apply (copy_pages_ok (with_kvm v1 s) F (page_of (cr3 s)) C) with (me := me) (b := b); [|done|done|done|done|].
  - split; [by split|done| | |exact Hmem|].
    + apply elem_of_dom. cbn. rewrite Hdom. set_solver.
    + intros ->. rewrite HnC in Hd. by destruct Hd.
    + intros v f rw us Hv Hu Hx. cbn in Hx. rewrite Hold in Hx by done. by eapply access_view.
  - intros v Hv Hu. cbn. rewrite Hfresh by done. unfold fresh_view. by destruct (Z.ltb_spec v USER_PAGE_START); [lia|].
Qed.

End fork_theorem.

(** ** A concrete fork *)

(** A process with a page of its own, a page on the zero frame and one that is
    only available. *)
Definition demo_fork_vm : vm := default demo_vm (run_vm_ops 1
  [PageOp MapNew 65536 0x1003000; PageOp MapZero 65536 0x1004000; PageOp (SetAvailability PAGE_AVAILABLE) 65536 0x1006000] demo_vm).
Definition demo_fork_state : kstate :=
  let s := put_byte 0x1001004 42 (with_kvm demo_fork_vm demo_state) in
  match upd_pcb 5000 (set_page_directory 65536) (ctl s) with Some c => with_ctl c s | None => s end.
Definition demo_fork_copy : outcome bool :=
  match vm_step construct_page_dir demo_fork_state with
  | Done C s => copy_pages 5000 65536 C 65536 C s
  | _ => Crashed
  end.

Lemma demo_fork_space : exists F, space_ok demo_fork_state F.
Proof.
  destruct (run_vm_ops 1 [PageOp MapNew 65536 0x1003000; PageOp MapZero 65536 0x1004000; PageOp (SetAvailability PAGE_AVAILABLE) 65536 0x1006000] demo_vm)
    as [s|] eqn:E; [|vm_compute in E; discriminate E].
  destruct (run_vm_ops_ok _ _ _ _ _ E demo_vm_ok) as [F HF]. exists F. unfold space_ok.
  change (kvm demo_fork_state) with demo_fork_vm. split; [|decided]. unfold demo_fork_vm. by rewrite E.
Qed.

Lemma fork_copies_memory_witness : exists C s2 f',
  demo_fork_copy = Done true s2 /\ view (kvm s2) C 0x1003004 = Some (Mapped f' READ_WRITE 1) /\ byte_at (f' + 4) s2 = 42.
Proof.
  destruct demo_fork_space as [F HF].
  destruct (fork_copies_memory demo_fork_state F 100 (demo_tcb 5000 1 RUNNING_STATE blocking_none) (set_page_directory 65536 (demo_pcb 100)) HF)
    as (C & s1 & H1 & H2 & _ & H3 & H4).
  - intros a. unfold byte_at. change (mem demo_fork_state) with (<[0x1001004 := 42]> (∅ : gmap Z Z)). destruct (decide (a = 0x1001004)) as [->|Hne].
    + rewrite lookup_insert_eq. by vm_compute.
    + rewrite lookup_insert_ne by (intros Hx; by apply Hne). by vm_compute.
  - intros q es Hes. apply (map_Forall_lookup_1 (fun _ es => Forall (fun e => pte_rw e = READ_ONLY \/ pte_rw e = READ_WRITE) es)
      (ptabs (kvm demo_fork_state)) q es); [decided|exact Hes].
  - split; vm_compute; reflexivity.
  - vm_compute. reflexivity.
  - vm_compute. reflexivity.
  - assert (HC : match vm_step construct_page_dir demo_fork_state with Done C _ => C | _ => 0 end = 90112) by (vm_compute; reflexivity).
    rewrite H1 in HC.
    destruct (H4 ltac:(rewrite HC; discriminate) C) as (ok & s2 & H5 & _ & H6); [rewrite HC; reflexivity|].
    assert (H7 : demo_fork_copy = Done ok s2) by (unfold demo_fork_copy; rewrite H1; exact H5).
    assert (ok = true) as ->.
    { assert (Hb : match demo_fork_copy with Done b _ => b | _ => false end = true) by (vm_compute; reflexivity). by rewrite H7 in Hb. }
    specialize (H6 eq_refl 0x1003004 ltac:(split; [discriminate|reflexivity]) ltac:(discriminate)). unfold page_copied in H6.
    rewrite H3 in H6 by decided.
    assert (Hx : view (kvm demo_fork_state) (page_of (cr3 demo_fork_state)) 0x1003004 = Some (Mapped 0x1001000 READ_WRITE 1)) by (vm_compute; reflexivity).
    rewrite Hx in H6. rewrite decide_False in H6 by discriminate. destruct H6 as (f' & _ & H8 & H9).
    exists C, s2, f'. split; [exact H7|]. split; [exact H8|]. rewrite H9 by (split; [discriminate|reflexivity]). rewrite H2. vm_compute. reflexivity.
Defined.
