(* ===== verification/Guest.v ===== *)
(** What the hypervisor of [kern/virtual_interrupt.c] guarantees a guest: the
    table of virtual interrupts, the protection of its pages, and the frame and
    registers of a virtual interrupt. *)
From S2P Require Import Prelude Ring KMutex Frames Vm Keyhelp Keyboard Console Machine CtrlBlk Kernel Sched.
From S2P Require Import UserMem Elf Loader Fork Syscall VirtInt Exceptions.
#[local] Open Scope Z_scope.

(** * The pages of a guest *)

(** The user/supervisor bit of a page. *)
Definition set_us (us : Z) (x : option page_view) : option page_view :=
  match x with Some (Mapped f rw _) => Some (Mapped f rw us) | _ => x end.

(** The pages of [alter_page_dir]: from the start of user memory, as many as the
    kernel has pages. *)
Definition ALTERED : Z := (USER_MEM_START + USER_MEM_START - USER_PAGE_START) / PAGE_SIZE.

(** The view with the bit of [n] pages from [addr] changed. *)
Definition us_range (V : Z -> Z -> option page_view) (d addr n us : Z) : Z -> Z -> option page_view :=
  fun d' w => if decide (d' = d /\ addr <= w < addr + n * PAGE_SIZE) then set_us us (V d' w) else V d' w.

Lemma alter_pages_ok d us n : forall s F addr, vm_ok s F -> is_Some (pdirs s !! d) -> USER_PAGE_START <= addr ->
  addr `mod` PAGE_SIZE = 0 -> addr + Z.of_nat n * PAGE_SIZE <= 2 ^ 32 ->
  exists r s' k, alter_pages n d addr us s = Some (r, s') /\ vm_ok s' F /\ dom (pdirs s') = dom (pdirs s) /\
    0 <= k <= Z.of_nat n /\ (r = OK <-> k = Z.of_nat n) /\ (r = OK \/ r = FAIL) /\
    (k < Z.of_nat n -> exists a, view s d (addr + k * PAGE_SIZE) = Some (Unmapped a)) /\
    view_is s' (us_range (view s) d addr k us).
Proof.
  induction n as [|n IH]; intros s F addr Hok Hd Hu Ha He.
  { exists OK, s, 0. split; [done|]. split; [done|]. split; [done|]. split; [lia|]. split; [done|]. split; [by left|].
    split; [lia|]. intros d' w Hw. unfold us_range. by rewrite decide_False by lia. }
  assert (Hv : vword addr) by (unfold vword; change USER_PAGE_START with 16777216 in *; change PAGE_SIZE with 4096 in *; lia).
  assert (Hup : user_page s d addr) by done.
  destruct (find_frame_found s d addr (proj1 Hok) Hd Hv) as (l & x & _ & Hx & Hfa).
  assert (Hstop : forall av, x = Unmapped av -> exists r s' k, Some (FAIL, s) = Some (r, s') /\ vm_ok s' F /\
    dom (pdirs s') = dom (pdirs s) /\ 0 <= k <= Z.of_nat (S n) /\ (r = OK <-> k = Z.of_nat (S n)) /\ (r = OK \/ r = FAIL) /\
    (k < Z.of_nat (S n) -> exists a, view s d (addr + k * PAGE_SIZE) = Some (Unmapped a)) /\
    view_is s' (us_range (view s) d addr k us)).
  { intros av ->. exists FAIL, s, 0. split; [done|]. split; [done|]. split; [done|]. split; [lia|].
    split; [split; [done|lia]|]. split; [by right|]. split; [intros _; exists av; by rewrite Z.add_0_r|].
    intros d' w Hw. unfold us_range. by rewrite decide_False by lia. }
  cbn [alter_pages]. destruct x as [av|f rw us0].
  - destruct Hfa as (_ & pde & Hpde & Hcase). run Hpde. destruct (decide (pde_p pde = 0)) as [Hp|Hp].
    { rewrite decide_True by lia. by eapply Hstop. }
    destruct (get_pde_some s d addr (proj1 Hok) Hd Hv) as (pde' & Hpde' & Hp01). rewrite Hpde in Hpde'. injection Hpde' as <-.
    rewrite decide_False by lia. destruct Hcase as (_ & e & He' & _ & Hpv & _). run He'.
    unfold pte_view in Hpv. case_decide as Hpe; [|done]. rewrite decide_True by lia. by eapply Hstop.
  - destruct (mapped_found _ _ _ _ _ _ _ Hfa) as (_ & _ & pde & e & Hpde & Hp & _ & Hpte & Heok & Hpe & Hfr & Hrw & Hus).
    destruct (get_pde_some s d addr (proj1 Hok) Hd Hv) as (pde' & Hpde' & Hp01). rewrite Hpde in Hpde'. injection Hpde' as <-.
    run Hpde. rewrite decide_False by lia. run Hpte. rewrite decide_False by (destruct Heok as [[?|?] _]; lia).
    destruct (set_flags_ok s F d addr pde e (put_us us e) f rw us0) as (s1 & H1 & Hdom1 & Hok1 & Hv1); try done.
    { unfold pte_view, put_us, frame_of in *. cbn. rewrite decide_False by done. by rewrite Hfr. }
    cbn [put_us pte_rw pte_us] in Hv1. rewrite Hrw in Hv1. run H1.
    destruct (IH s1 F (addr + PAGE_SIZE)) as (r & s' & k & H2 & Hok2 & Hdom2 & Hk & Hr & Hrr & Hun & Hv2).
    { done. } { apply elem_of_dom. rewrite Hdom1. by apply elem_of_dom. }
    { change PAGE_SIZE with 4096; lia. }
    { change PAGE_SIZE with 4096 in *. rewrite <-Z.add_mod_idemp_r, Z.mod_same, Z.add_0_r by lia. done. }
    { change PAGE_SIZE with 4096 in *; lia. }
    exists r, s', (k + 1). split; [done|]. split; [done|]. split; [congruence|]. split; [lia|]. split; [rewrite Hr; lia|].
    split; [done|]. change PAGE_SIZE with 4096 in *. split.
    + intros Hlt. destruct (Hun ltac:(lia)) as [av Hav]. exists av. rewrite <-Hav.
      replace (addr + (k + 1) * 4096) with (addr + 4096 + k * 4096) by lia.
      rewrite Hv1 by (unfold vword; change USER_PAGE_START with 16777216 in *; lia).
      unfold view_upd. rewrite decide_False; [done|]. intros [_ Hpn]. apply (page_no_range addr) in Hpn; [|done].
      change PAGE_SIZE with 4096 in *. lia.
    + intros d' w Hw. rewrite Hv2 by done. unfold us_range. change PAGE_SIZE with 4096.
      rewrite Hv1 by done. unfold view_upd. pose proof (page_no_range addr w Ha) as Hpn. change PAGE_SIZE with 4096 in Hpn.
      destruct (decide (d' = d)) as [->|Hne]; [|by rewrite !decide_False by tauto].
      destruct (decide (addr <= w < addr + 4096)) as [Hin|Hout].
      * rewrite decide_False by lia. rewrite decide_True by tauto. rewrite decide_True by lia.
        rewrite <-(view_same_page s d addr w) by (done || (symmetry; tauto)). by rewrite Hx.
      * rewrite (decide_False (P := d = d /\ page_no w = page_no addr)) by tauto.
        destruct (decide (addr + 4096 <= w < addr + 4096 + k * 4096)).
        -- by rewrite !decide_True by lia.
        -- by rewrite !decide_False by lia.
Qed.

(** C36. [alter_page_dir] gives the guest's kernel, or takes from its user code,
    the pages from the start of user memory up to twice that address, in order,
    stopping at the first one that is not mapped; it reports failure exactly
    when it stopped.  Only the user/supervisor bit changes, in that directory
    only, and the page directories stay well-formed.  The last four megabytes of
    a guest's memory lie beyond these pages and keep their bit whatever the
    mode. *)
Theorem alter_page_dir_sets_us (s : vm) (F : list Z) (d : addr) (kernel_mode : bool)
    (Hok : vm_ok s F) (Hd : is_Some (pdirs s !! d)) :
  (exists r s' k, alter_page_dir d kernel_mode s = Some (r, s') /\ vm_ok s' F /\ 0 <= k <= ALTERED /\
     (r = OK <-> k = ALTERED) /\ (r = OK \/ r = FAIL) /\
     (k < ALTERED -> exists a, view s d (USER_PAGE_START + k * PAGE_SIZE) = Some (Unmapped a)) /\
     view_is s' (us_range (view s) d USER_PAGE_START k (if kernel_mode then 1 else 0)) /\
     (forall w, 2 * USER_MEM_START <= w < USER_MEM_START + GUEST_MEM_SIZE -> view s' d w = view s d w)) /\
  2 * USER_MEM_START < USER_MEM_START + GUEST_MEM_SIZE.
Proof.
  split; [|done]. destruct (dir_ok _ (proj1 Hok) d) with (es := default [] (pdirs s !! d)) as [Hdo _].
  { destruct Hd as [es ->]. done. }
  destruct (alter_pages_ok d (if kernel_mode then 1 else 0) (Z.to_nat ALTERED) s F USER_PAGE_START Hok Hd)
    as (r & s' & k & H1 & H2 & _ & H3 & H4 & H5 & H6 & H7); [done..|].
  rewrite Z2Nat.id in H3, H4, H6 by done. exists r, s', k.
  split; [unfold alter_page_dir; rewrite decide_False by (unfold NULL; destruct Hdo; lia); exact H1|].
  do 6 (split; [done|]). intros w Hw. rewrite H7.
  - unfold us_range. rewrite decide_False; [done|]. change ALTERED with 4096 in H3. change PAGE_SIZE with 4096.
    change USER_PAGE_START with 16777216. change USER_MEM_START with 16777216 in Hw. lia.
  - unfold vword. change USER_MEM_START with 16777216 in Hw. change GUEST_MEM_SIZE with 20971520 in Hw. lia.
Qed.

(** * Pushing words *)

Section pushing.
Context `{Platform}.

Lemma each_page_same (op : Z -> K Z) ps s : (forall p, p ∈ ps -> op p s = Done OK s) -> each_page op ps s = Done OK s.
Proof.
  induction ps as [|p ps IH]; intros Hop; [done|]. cbn [each_page]. kstep (Hop p ltac:(left)).
  rewrite decide_False by done. apply IH. intros q Hq. apply Hop. by right.
Qed.

(** Nothing is mapped anew in a range that has frames of its own. *)
Lemma map_and_clear_mapped s F v n : space_ok s F -> own_range s v n -> 0 < n -> map_and_clear v n false s = Done OK s.
Proof.
  intros Hs Hr Hn. pose proof Hr as (H1 & H2 & H3). unfold map_and_clear. rewrite decide_True by lia.
  unfold current_page_dir. rewrite (bind_Done _ _ _ _ _ (gets_ok _ s)). apply each_page_same. intros p Hp.
  assert (0 <= v) as Hv0 by (change USER_PAGE_START with 16777216 in *; lia).
  destruct (pages_elem v n p Hv0 Hn H2 Hp) as (Hpw & _ & w & Hw & Hno).
  destruct (H3 w Hw) as (f & rw & us & Hx & Hz & _).
  assert (vword w) as Hww by (unfold vword; lia).
  assert (Hup : user_page (kvm s) (page_of (cr3 s)) p).
  { split; [apply Hs|]. split; [done|]. by apply (user_page_no w p); [..|lia]. }
  destruct (check_user_page_ok (kvm s) F _ p (proj1 Hs) Hup) as (m & Hm & Hcase).
  unfold here in Hx. rewrite (view_same_page _ _ w p Hww Hpw Hno) in Hx. rewrite Hx in Hcase. subst m.
  unfold map_page. kstep (vm_get_ok (check_user_page (page_of (cr3 s)) p) s _ Hm).
  rewrite decide_False by done. rewrite decide_False by done. by rewrite bool_decide_false by tauto.
Qed.

(** States that differ in memory only, and there only inside a range of the
    running thread's space. *)
Definition memory_changed (s s' : kstate) (v n : Z) : Prop :=
  s' = with_mem (mem s') s /\
  forall d w a, own_byte s d w a -> ~ (d = page_of (cr3 s) /\ v <= w < v + n) -> byte_at a s' = byte_at a s.

Lemma memory_same s s' v n : memory_changed s s' v n -> kvm s' = kvm s /\ cr3 s' = cr3 s /\ ctl s' = ctl s.
Proof. intros [E _]. by rewrite E. Qed.

Lemma word_outside s s' v n w : memory_changed s s' v n -> own_range s w 4 -> w + 4 <= v \/ v + n <= w ->
  word_at s' w = word_at s w.
Proof.
  intros Hm Hr Ho. destruct (memory_same _ _ _ _ Hm) as (Ek & Ec & _). destruct Hm as [_ Hm].
  unfold word_at. f_equal. unfold places. rewrite <-!list_fmap_compose. apply list_fmap_ext. intros i x Hx.
  apply lookup_seqZ in Hx as [-> Hx]. cbn [compose]. unfold compose.
  assert (place_of s' (w + (0 + Z.of_nat i)) = place_of s (w + (0 + Z.of_nat i))) as -> by (unfold place_of, here; by rewrite Ek, Ec).
  apply (Hm _ _ _ (own_range_own s w 4 (w + (0 + Z.of_nat i)) Hr ltac:(lia))). lia.
Qed.

Lemma push_word_ok s F esp w : space_ok s F -> own_range s (esp - 4) 4 -> esp `mod` 4 = 0 -> esp < 2 ^ 32 ->
  exists s', push_val esp (bytes_of w) s = Done (OK, esp - 4) s' /\ memory_changed s s' (esp - 4) 4 /\
    word_at s' (esp - 4) = u32 w.
Proof.
  intros Hs Hr Ha Hlt. pose proof Hr as (H1 & H2 & _). change USER_PAGE_START with 16777216 in H1.
  destruct (store_range_ok s F (esp - 4) (bytes_of w) Hs Hr) as (s' & Hst & Hrest & _ & Hw & Hout).
  destruct (Hw w eq_refl) as [_ Hld]. assert (Hm : memory_changed s s' (esp - 4) 4) by done.
  destruct (memory_same _ _ _ _ Hm) as (Ek & Ec & _).
  exists s'. split; [|split; [done|]].
  - unfold push_val. change (Z.of_nat (length (bytes_of w))) with 4. rewrite (decide_True (P := 4 > 0)) by lia.
    assert (u32 (esp - 4) / 4 * 4 = esp - 4) as ->.
    { rewrite u32_small by lia. pose proof (Z.div_mod (esp - 4) 4 ltac:(lia)). pose proof (Z.div_mod esp 4 ltac:(lia)).
      assert ((esp - 4) `mod` 4 = 0) by (rewrite Zminus_mod, Ha; done). lia. }
    replace (u32 (esp - (esp - 4))) with 4 by (rewrite u32_small by lia; lia).
    kstep (map_and_clear_mapped s F (esp - 4) 4 Hs Hr ltac:(lia)). rewrite decide_False by done. kstep Hst.
    rewrite u32_small by lia. by rewrite decide_False by lia.
  - rewrite (load32_mapped s' F) in Hld; [by injection Hld| |].
    + unfold space_ok. by rewrite Ek, Ec.
    + unfold mapped_range, here. rewrite Ek, Ec. by apply own_range_mapped.
Qed.

(** The words end up below one another. *)
Lemma push_words_ok ws : forall s F esp, space_ok s F -> own_range s (esp - 4 * Z.of_nat (length ws)) (4 * Z.of_nat (length ws)) ->
  esp `mod` 4 = 0 -> esp < 2 ^ 32 ->
  exists s', push_words ws esp s = Done (OK, esp - 4 * Z.of_nat (length ws)) s' /\
    memory_changed s s' (esp - 4 * Z.of_nat (length ws)) (4 * Z.of_nat (length ws)) /\
    forall i w, ws !! i = Some w -> word_at s' (esp - 4 * (Z.of_nat i + 1)) = u32 w.
Proof.
  induction ws as [|w ws IH]; intros s F esp Hs Hr Ha Hlt.
  { exists s. replace (esp - 4 * Z.of_nat (length (@nil Z))) with esp by (cbn; lia). split; [done|]. split; [|done].
    split; [by destruct s|done]. }
  set (n := Z.of_nat (length ws)). replace (Z.of_nat (length (w :: ws))) with (n + 1) in * by (unfold n; cbn [length]; lia).
  assert (0 <= n) by (unfold n; lia).
  assert (Hr1 : own_range s (esp - 4) 4) by (eapply own_range_sub; [exact Hr|lia|lia]).
  destruct (push_word_ok s F esp w Hs Hr1 Ha Hlt) as (s1 & H1 & Hm1 & Hw1).
  destruct (memory_same _ _ _ _ Hm1) as (Ek & Ec & _).
  assert (Hrs : own_range s (esp - 4 * (n + 1)) (4 * n)) by (eapply own_range_sub; [exact Hr|lia|lia]).
  destruct (IH s1 F (esp - 4)) as (s2 & H2 & Hm2 & Hw2).
  { unfold space_ok. by rewrite Ek, Ec. }
  { fold n. replace (esp - 4 - 4 * n) with (esp - 4 * (n + 1)) by lia. unfold own_range, here. by rewrite Ek, Ec. }
  { by rewrite Zminus_mod, Ha. }
  { lia. }
  fold n in H2, Hm2. replace (esp - 4 - 4 * n) with (esp - 4 * (n + 1)) in H2, Hm2 by lia.
  exists s2. split; [|split; [split|]].
  - cbn [push_words]. kstep H1. cbv iota beta. rewrite decide_False by done. exact H2.
  - destruct Hm2 as [-> _]. destruct Hm1 as [-> _]. done.
  - intros d v a Hb Ho. destruct Hm2 as [_ Hm2]. rewrite (Hm2 d v a).
    + destruct Hm1 as [_ Hm1]. apply (Hm1 d v); [done|]. lia.
    + unfold own_byte. by rewrite Ek.
    + rewrite Ec. lia.
  - intros [|i] x Hx; cbn in Hx.
    + injection Hx as <-. replace (esp - 4 * (Z.of_nat 0 + 1)) with (esp - 4) by lia. rewrite <-Hw1.
      eapply word_outside; [exact Hm2| |lia]. unfold own_range, here. by rewrite Ek, Ec.
    + rewrite <-(Hw2 i x Hx). f_equal. lia.
Qed.

End pushing.

(** * Virtual interrupts *)

Section delivery.
Context `{Platform}.

Lemma push_words_app a : forall b esp s e s', push_words (a ++ b) esp s = Done (OK, e) s' ->
  exists e1 s1, push_words a esp s = Done (OK, e1) s1 /\ push_words b e1 s1 = Done (OK, e) s'.
Proof.
  induction a as [|w a IH]; intros b esp s e s' Hp; [by exists esp, s|]. cbn [app push_words] in *.
  apply bind_inv in Hp as ([r e1] & s1 & H1 & Hp). cbv iota beta in Hp. destruct (decide (r < 0)) as [Hr|Hr]; [done|].
  destruct (IH _ _ _ _ _ Hp) as (e2 & s2 & H2 & H3). exists e2, s2. split; [|done]. kstep H1. cbv iota beta.
  by rewrite decide_False.
Qed.

(** The stack the frame goes to, and the frame. *)
Definition delivery_stack (b : pcb_t) (u : ureg_t) : Z :=
  if decide (cs u <> SEGSEL_GUEST_KERNEL_CS) then esp0 (guest_resource b) else u32 (esp u + USER_MEM_START).
Definition saved_eflags (b : pcb_t) (u : ureg_t) : Z :=
  virtual_eflags (interrupt_enable_flag (guest_resource b)) (eflags u).
Definition frame (b : pcb_t) (ch : Z) (u : ureg_t) : list Z := frame_head u (saved_eflags b u) ++ frame_tail u ch.

Lemma place_us s (v' : vm) n us w : vword w ->
  view_is v' (us_range (view (kvm s)) (page_of (cr3 s)) USER_PAGE_START n us) ->
  place_of (with_kvm v' s) w = place_of s w.
Proof.
  intros Hw Hv. unfold place_of, here. cbn [kvm cr3 with_kvm]. rewrite Hv by done. unfold us_range. case_decide; [|done].
  by destruct (view (kvm s) (page_of (cr3 s)) w) as [[]|].
Qed.

(** With interrupts off for the guest: the state between. *)
Definition masked (b : pcb_t) (on : bool) : pcb_t :=
  set_guest_resource (set_interrupt_enable_flag on (guest_resource b)) b.

Lemma update_guest_ok s pcb b on : get_pcb (ctl s) pcb = Some b ->
  exists c, update_guest pcb (set_interrupt_enable_flag on) s = Done tt (with_ctl c s) /\ get_pcb c pcb = Some (masked b on).
Proof.
  intros Hb. destruct (upd_pcb_some pcb (fun b => masked b on) (ctl s) b Hb) as [c Hc]. exists c. split.
  - by apply ctl_upd_ok.
  - unfold upd_pcb, put_pcb in Hc. rewrite Hb in Hc. cbn [mbind option_bind] in Hc.
    apply bind_Some in Hc as (h & Hh & [= <-]). unfold set_data in Hh. apply bind_Some in Hh as (n & _ & [= <-]).
    unfold get_pcb. cbn. by rewrite lookup_insert_eq.
Qed.

Lemma deliver_ok (u : ureg_t) s F pcb b entry ch : space_ok s F -> get_pcb (ctl s) pcb = Some b ->
  let e0 := delivery_stack b u in
  let n := Z.of_nat (length (frame b ch u)) in
  own_range s (e0 - 4 * n) (4 * n) -> e0 `mod` 4 = 0 -> e0 < 2 ^ 32 ->
  exists s', deliver_interrupt pcb entry ch u s =
      Done (enter_guest_kernel (u32 (e0 - 4 * n - USER_MEM_START)) (u32 (entry - USER_MEM_START)) u) s' /\
    get_pcb (ctl s') pcb = Some (masked b false) /\
    (forall i w, frame b ch u !! i = Some w -> word_at s' (e0 - 4 * (Z.of_nat i + 1)) = u32 w) /\
    (forall d v a, own_byte s d v a -> ~ (d = page_of (cr3 s) /\ e0 - 4 * n <= v < e0) -> byte_at a s' = byte_at a s) /\
    (exists k, 0 <= k <= ALTERED /\
       view_is (kvm s') (us_range (view (kvm s)) (page_of (cr3 s)) USER_PAGE_START k 1)) /\
    cr3 s' = cr3 s /\ space_ok s' F.
Proof.
  intros Hs Hb e0 n Hr Ha Hlt. destruct (update_guest_ok s pcb b false Hb) as (c & H1 & Hb1). set (s1 := with_ctl c s) in *.
  destruct (push_words_ok (frame b ch u) s1 F e0) as (s2 & H2 & Hm & Hw); [done|exact Hr|done|done|]. fold n in H2, Hm.
  destruct (push_words_app _ _ _ _ _ _ H2) as (e1 & s3 & H3 & H4). destruct (memory_same _ _ _ _ Hm) as (Ek & Ec & Ect).
  destruct (alter_pages_ok (page_of (cr3 s)) 1 (Z.to_nat ALTERED) (kvm s2) F USER_PAGE_START)
    as (r & v' & k & H5 & Hok5 & Hdom5 & Hk & _ & _ & _ & Hv5); [by rewrite Ek; apply Hs|by rewrite Ek; apply Hs|done..|].
  assert (page_of (cr3 s) <> NULL) as Hn.
  { destruct Hs as [[Ht _] [es Hes]]. destruct (dir_ok _ Ht _ _ Hes) as [[? _] _]. unfold NULL. lia. }
  assert (H6 : vm_step (alter_page_dir (page_of (cr3 s)) true) s2 = Done r (with_kvm v' s2)).
  { apply vm_step_ok. unfold alter_page_dir. rewrite decide_False by done. exact H5. }
  assert (Hc3 : cr3 s2 = cr3 s) by (by rewrite Ec).
  exists (with_cr3 (cr3 s) (with_kvm v' s2)). rewrite Ek in Hv5.
  split; [|split; [|split; [|split; [|split; [|split]]]]].
  - unfold deliver_interrupt. kstep (pcb_at_ok _ _ _ Hb). fold (saved_eflags b u). kstep H1. fold (delivery_stack b u). fold e0.
    kstep H3. cbv iota beta. rewrite decide_False by done. kstep H4. cbv iota beta. rewrite decide_False by done.
    rewrite (bind_Done _ _ _ _ _ (gets_ok cr3 s2)), Hc3. kstep H6.
    rewrite (bind_Done _ _ _ _ _ (modify_ok (with_cr3 (cr3 s)) _)). done.
  - cbn [ctl with_cr3 with_kvm]. by rewrite Ect.
  - intros i w Hi. rewrite <-(Hw i w Hi). unfold word_at, places. rewrite <-!list_fmap_compose. f_equal.
    apply list_fmap_ext. intros j x Hx. apply lookup_seqZ in Hx as [-> Hj]. unfold compose.
    change (byte_at ?a (with_cr3 _ (with_kvm v' s2))) with (byte_at a s2). f_equal.
    rewrite <-(place_us s2 v' k 1).
    + unfold place_of, here. cbn [kvm cr3 with_cr3 with_kvm]. by rewrite Hc3.
    + apply lookup_lt_Some in Hi. unfold n in Hr. destruct Hr as (R1 & _). change USER_PAGE_START with 16777216 in R1. unfold vword. lia.
    + rewrite Ek, Hc3. exact Hv5.
  - intros d v a Hown Hout. destruct Hm as [_ Hm]. change (byte_at a s2 = byte_at a s1). apply (Hm d v); [done|].
    change (cr3 s1) with (cr3 s). intros [Hd Hv]. apply Hout. split; [done|lia].
  - exists k. split; [by rewrite Z2Nat.id in Hk|exact Hv5].
  - done.
  - split; [done|]. cbn [kvm cr3 with_cr3 with_kvm]. apply elem_of_dom. rewrite Hdom5, Ek. apply elem_of_dom. apply Hs.
Qed.

(** The interrupt flag a guest sees is a bit of the flags saved for it. *)
Lemma virtual_eflags_flag on ef : bool_decide (Z.land (virtual_eflags on ef) EFL_IF <> 0) = on.
Proof.
  unfold virtual_eflags. destruct on.
  - apply bool_decide_true. rewrite Z.land_lor_distr_l, Z.land_diag. intros E. apply Z.lor_eq_0_iff in E as [_ E]. done.
  - apply bool_decide_false. rewrite <-Z.land_assoc. change (Z.land (u32 (Z.lnot EFL_IF)) EFL_IF) with 0.
    rewrite Z.land_0_r. tauto.
Qed.
Lemma virtual_eflags_iopl on ef old : check_eflags old (virtual_eflags on ef) = check_eflags old ef.
Proof.
  unfold check_eflags. assert (Z.land (virtual_eflags on ef) iopl_mask = Z.land ef iopl_mask) as ->; [|done].
  unfold virtual_eflags. destruct on.
  - rewrite Z.land_lor_distr_l. change (Z.land EFL_IF iopl_mask) with 0. by rewrite Z.lor_0_r.
  - rewrite <-Z.land_assoc. by change (Z.land (u32 (Z.lnot EFL_IF)) iopl_mask) with iopl_mask.
Qed.
Lemma virtual_eflags_lor on ef : 0 <= ef < 2 ^ 32 -> Z.lor (virtual_eflags on ef) EFL_IF = Z.lor ef EFL_IF.
Proof.
  intros He. unfold virtual_eflags. destruct on; [by rewrite <-Z.lor_assoc, Z.lor_diag|].
  rewrite Z.lor_land_distr_l. change (Z.lor (u32 (Z.lnot EFL_IF)) EFL_IF) with (Z.ones 32).
  rewrite Z.land_ones by lia. apply Z.mod_small. apply (lor_bound ef EFL_IF 32); [lia|lia|done].
Qed.
Lemma virtual_eflags_range on ef : 0 <= ef < 2 ^ 32 -> 0 <= virtual_eflags on ef < 2 ^ 32.
Proof.
  intros He. unfold virtual_eflags. destruct on; [by apply (lor_bound ef EFL_IF 32)|].
  apply (land_bound ef _ 32); [lia|apply u32_range].
Qed.

End delivery.

(** * The calls of the guest *)

Section calls.
Context `{Platform}.

(** The address of a call's arguments. *)
Definition args_at (u : ureg_t) : Z := u32 (esp u + USER_MEM_START).

Lemma hv_arg_ok s F u n i : space_ok s F -> mapped_range s (args_at u) n -> 0 <= i -> 4 * i + 4 <= n ->
  hv_arg u i s = Done (word_at s (args_at u + 4 * i)) s.
Proof.
  intros Hs Hr Hi Hn. pose proof Hr as (H1 & H2 & _). unfold hv_arg.
  replace (u32 (esp u + USER_MEM_START + 4 * i)) with (u32 (args_at u + 4 * i)).
  - apply (load32_at s F (args_at u) n (4 * i)); [done|done|lia|lia].
  - unfold args_at, u32. by rewrite Zplus_mod_idemp_l.
Qed.

(** [hv_iret] with arguments in mapped memory. *)
Lemma hv_iret_ok (u : ureg_t) s F me t b : space_ok s F -> runs s me t -> get_pcb (ctl s) (tcb_pcb t) = Some b ->
  mapped_range s (args_at u) 20 ->
  let arg i := word_at s (args_at u + 4 * i) in
  if bool_decide (arg 3 = NULL /\ check_eflags (eflags u) (arg 1) = true) then
    exists c, handle_hv_iret u s = Done (set_eax (arg 4) (set_esp (arg 2)
        (set_eflags (Z.lor (arg 1) EFL_IF) (set_eip (arg 0) u)))) (with_ctl c s) /\
      get_pcb c (tcb_pcb t) = Some (masked b (bool_decide (Z.land (arg 1) EFL_IF <> 0)))
  else handle_hv_iret u s = crash u s.
Proof.
  intros Hs [Hme Ht] Hb Hr arg. unfold handle_hv_iret.
  kstep (hv_arg_ok s F u 20 0 Hs Hr ltac:(lia) ltac:(lia)). kstep (hv_arg_ok s F u 20 1 Hs Hr ltac:(lia) ltac:(lia)).
  kstep (hv_arg_ok s F u 20 2 Hs Hr ltac:(lia) ltac:(lia)). kstep (hv_arg_ok s F u 20 3 Hs Hr ltac:(lia) ltac:(lia)).
  kstep (hv_arg_ok s F u 20 4 Hs Hr ltac:(lia) ltac:(lia)). fold (arg 0) (arg 1) (arg 2) (arg 3) (arg 4).
  destruct (check_eflags (eflags u) (arg 1)) eqn:Ec.
  2:{ rewrite bool_decide_false by (intros [_ ?]; done). by rewrite bool_decide_true by (by right). }
  destruct (decide (arg 3 = NULL)) as [H3|H3].
  2:{ rewrite bool_decide_false by tauto. by rewrite bool_decide_true by (by left). }
  rewrite bool_decide_true by done. rewrite bool_decide_false by (intros [?|?]; done).
  destruct (update_guest_ok s (tcb_pcb t) b (bool_decide (Z.land (arg 1) EFL_IF <> 0)) Hb) as (c & H1 & Hb1).
  exists c. split; [|done]. kstep (running_pcb_ok _ _ _ Hme Ht). by kstep H1.
Qed.

(** C16. A virtual interrupt and the return from it.  Delivering an interrupt
    pushes its frame, on the guest's current stack in guest kernel mode and on
    [esp0] otherwise: word for word the interrupted state, the kind of the
    interrupt and its operands, with the guest's own interrupt flag in the saved
    flags; no other byte of any process changes; the guest's interrupts are then
    off, its pages up to twice the start of user memory belong to its kernel, and
    its registers enter the kernel's segments at the handler's address on the new
    stack.  And a handler that was entered from guest kernel mode and ends with
    [hv_iret], giving back what the frame saved, finds its guest as the interrupt
    found it: same instruction pointer, stack pointer, [eax] and interrupt flag. *)
Theorem virtual_interrupt_round_trip (u : ureg_t) (s : kstate) (F : list Z) (pcb : addr) (b : pcb_t) (entry ch : Z)
    (Hs : space_ok s F) (Hb : get_pcb (ctl s) pcb = Some b)
    (Hr : let n := Z.of_nat (length (frame b ch u)) in own_range s (delivery_stack b u - 4 * n) (4 * n))
    (Ha : delivery_stack b u `mod` 4 = 0) (Hlt : delivery_stack b u < 2 ^ 32)
    (Hu : vword (eip u) /\ vword (esp u) /\ vword (eflags u) /\ vword (eax u)) :
  let e0 := delivery_stack b u in
  let n := Z.of_nat (length (frame b ch u)) in
  (exists s', deliver_interrupt pcb entry ch u s =
      Done (enter_guest_kernel (u32 (e0 - 4 * n - USER_MEM_START)) (u32 (entry - USER_MEM_START)) u) s' /\
    get_pcb (ctl s') pcb = Some (masked b false) /\
    (forall i w, frame b ch u !! i = Some w -> word_at s' (e0 - 4 * (Z.of_nat i + 1)) = u32 w) /\
    (forall d v a, own_byte s d v a -> ~ (d = page_of (cr3 s) /\ e0 - 4 * n <= v < e0) -> byte_at a s' = byte_at a s) /\
    (exists k, 0 <= k <= ALTERED /\
       view_is (kvm s') (us_range (view (kvm s)) (page_of (cr3 s)) USER_PAGE_START k 1)) /\
    cr3 s' = cr3 s /\ space_ok s' F) /\
  (forall u2 s2 F2 me t, cs u = SEGSEL_GUEST_KERNEL_CS -> space_ok s2 F2 -> runs s2 me t -> tcb_pcb t = pcb ->
     get_pcb (ctl s2) pcb = Some (masked b false) -> check_eflags (eflags u2) (eflags u) = true ->
     mapped_range s2 (args_at u2) 20 ->
     word_at s2 (args_at u2 + 4 * 0) = u32 (eip u) -> word_at s2 (args_at u2 + 4 * 1) = u32 (saved_eflags b u) ->
     word_at s2 (args_at u2 + 4 * 2) = u32 (esp u) -> word_at s2 (args_at u2 + 4 * 3) = NULL ->
     word_at s2 (args_at u2 + 4 * 4) = u32 (eax u) ->
     exists u3 s3, handle_hv_iret u2 s2 = Done u3 s3 /\ eip u3 = eip u /\ esp u3 = esp u /\ eax u3 = eax u /\
       eflags u3 = Z.lor (eflags u) EFL_IF /\ cs u3 = cs u2 /\ get_pcb (ctl s3) pcb = Some b).
Proof.
  intros e0 n. split; [exact (deliver_ok u s F pcb b entry ch Hs Hb Hr Ha Hlt)|].
  intros u2 s2 F2 me t Hcs Hs2 Hrun Htp Hb2 Hfl Hm W0 W1 W2 W3 W4. destruct Hu as (U1 & U2 & U3 & U4). subst pcb.
  rewrite u32_small in W0, W2, W4 by done.
  assert (W1' : word_at s2 (args_at u2 + 4 * 1) = saved_eflags b u).
  { rewrite W1. apply u32_small. by apply virtual_eflags_range. }
  pose proof (hv_iret_ok u2 s2 F2 me t _ Hs2 Hrun Hb2 Hm) as Hi. cbv beta zeta in Hi. rewrite W0, W1', W2, W3, W4 in Hi.
  assert (check_eflags (eflags u2) (saved_eflags b u) = true) as Hio by (unfold saved_eflags; by rewrite virtual_eflags_iopl).
  rewrite bool_decide_true in Hi by done.
  destruct Hi as (c & Hi & Hbc). eexists _, _. split; [exact Hi|]. do 3 (split; [done|]).
  split; [unfold saved_eflags; cbn; by apply virtual_eflags_lor|]. split; [done|]. cbn [ctl with_ctl]. rewrite Hbc.
  unfold saved_eflags. rewrite virtual_eflags_flag. by destruct b as [? ? ? ? ? ? ? ? []].
Qed.

(** [hv_setidt] by its argument: a vector below the table's length gets the
    given handler, moved into the host's address space, and that handler is the
    one a later interrupt of the vector finds, the others unchanged; a vector
    beyond the table is ignored; but the vector is a signed integer and only its
    upper bound is checked, so a negative one is stored to, in front of the table. *)
Theorem hv_setidt_by_vector (u : ureg_t) (s : kstate) (F : list Z) (me : addr) (t : tcb_t) (b : pcb_t)
    (Hs : space_ok s F) (Hrun : runs s me t) (Hb : get_pcb (ctl s) (tcb_pcb t) = Some b)
    (Hlen : length (virtual_idt (guest_resource b)) = Z.to_nat VIRTUAL_IDT_LEN)
    (Hargs : mapped_range s (args_at u) 8) :
  let irqno := s32 (word_at s (args_at u + 4 * 0)) in
  let eip_ := word_at s (args_at u + 4 * 1) in
  let handler := if decide (eip_ = NULL) then 0 else u32 (eip_ + USER_MEM_START) in
  (irqno >= VIRTUAL_IDT_LEN -> handle_hv_setidt u s = Done u s) /\
  (0 <= irqno < VIRTUAL_IDT_LEN -> exists c b', handle_hv_setidt u s = Done u (with_ctl c s) /\
     get_pcb c (tcb_pcb t) = Some b' /\ vidt_entry irqno b' = handler /\
     (forall v, 0 <= v -> v <> irqno -> vidt_entry v b' = vidt_entry v b) /\
     interrupt_enable_flag (guest_resource b') = interrupt_enable_flag (guest_resource b)) /\
  (irqno < 0 -> handle_hv_setidt u s = Crashed).
Proof.
  intros irqno eip_ handler. destruct Hrun as [Hme Ht].
  pose proof (hv_arg_ok s F u 8 0 Hs Hargs ltac:(lia) ltac:(lia)) as A0.
  pose proof (hv_arg_ok s F u 8 1 Hs Hargs ltac:(lia) ltac:(lia)) as A1.
  unfold handle_hv_setidt. kstep A0. kstep A1. fold irqno eip_. fold handler. 
  split; [intros Hge; by rewrite decide_True|]. split.
  - intros Hin. rewrite decide_False by lia. kstep (running_pcb_ok _ _ _ Hme Ht). kstep (pcb_at_ok _ _ _ Hb).
    set (l := <[Z.to_nat irqno := handler]> (virtual_idt (guest_resource b))).
    assert (Hst : store_vidt irqno handler b = Some (set_guest_resource (set_virtual_idt l (guest_resource b)) b)).
    { unfold store_vidt. by rewrite aset_Some by (rewrite Hlen, Z2Nat.id by done; lia). }
    rewrite Hst. unfold lift at 1. rewrite (bind_Done _ _ s _ _ eq_refl).
    set (b' := set_guest_resource (set_virtual_idt l (guest_resource b)) b).
    destruct (upd_pcb_some (tcb_pcb t) (fun _ => b') (ctl s) b Hb) as [c Hc].
    assert (U : update_pcb (tcb_pcb t) (fun _ => b') s = Done tt (with_ctl c s)) by by apply ctl_upd_ok.
    kstep U. exists c, b'. split; [done|]. split.
    { unfold upd_pcb, put_pcb in Hc. rewrite Hb in Hc. cbn [mbind option_bind] in Hc.
      apply bind_Some in Hc as (h & Hh & [= <-]). unfold set_data in Hh. apply bind_Some in Hh as (n & _ & [= <-]).
      unfold get_pcb. cbn. by rewrite lookup_insert_eq. }
    assert (Hv : virtual_idt (guest_resource b') = l) by (by destruct b as [? ? ? ? ? ? ? ? []]).
    split; [|split].
    + unfold vidt_entry. rewrite decide_True by lia. rewrite Hv. unfold aget. rewrite decide_True by lia.
      unfold l. by rewrite list_lookup_insert_eq by (rewrite Hlen; lia).
    + intros v Hv0 Hne. unfold vidt_entry. destruct (decide (v < VIRTUAL_IDT_LEN)); [|done]. rewrite Hv. unfold aget.
      rewrite !decide_True by lia. unfold l. by rewrite list_lookup_insert_ne by lia.
    + by destruct b as [? ? ? ? ? ? ? ? []].
  - intros Hneg. rewrite decide_False by (unfold VIRTUAL_IDT_LEN; lia).
    kstep (running_pcb_ok _ _ _ Hme Ht). kstep (pcb_at_ok _ _ _ Hb).
    assert (store_vidt irqno handler b = None) as ->; [|done].
    unfold store_vidt, aset. by rewrite decide_False by lia.
Qed.

End calls.

(** ** Concrete calls *)

Lemma alter_page_dir_sets_us_witness : exists r s' k, alter_page_dir 65536 true demo_vm = Some (r, s') /\ 0 <= k <= ALTERED /\
  view_is s' (us_range (view demo_vm) 65536 USER_PAGE_START k 1).
Proof.
  destruct (alter_page_dir_sets_us demo_vm demo_frames 65536 true demo_vm_ok) as [(r & s' & k & H1 & _ & H2 & _ & _ & _ & H3 & _) _];
    [by vm_compute; eexists|]. exists r, s', k. split; [exact H1|split; [exact H2|exact H3]].
Defined.

(** A guest in kernel mode with its stack at 0x4000, interrupted by the timer. *)
Definition demo_guest_ureg : ureg_t :=
  set_cause TIMER_IDT_ENTRY (set_cs SEGSEL_GUEST_KERNEL_CS (set_esp 0x4000 (set_eip 0x1234 (set_eflags 0x202 ureg_zero)))).

Lemma virtual_interrupt_round_trip_witness : exists s',
  deliver_interrupt 5000 0x1008000 0 demo_guest_ureg demo_user_state =
    Done (enter_guest_kernel 0x3fec 0x8000 demo_guest_ureg) s' /\
  word_at s' 0x1003ff4 = 0x1234.
Proof.
  destruct demo_user_ok as [F HF].
  destruct (virtual_interrupt_round_trip demo_guest_ureg demo_user_state F 5000 (demo_pcb 100) 0x1008000 0 HF)
    as [(s' & H1 & _ & H2 & _) _];
    [reflexivity|apply demo_range; vm_compute; discriminate|reflexivity|reflexivity|
     repeat split; vm_compute; first [discriminate|reflexivity]|].
  exists s'. split; [exact H1|exact (H2 2%nat 0x1234 eq_refl)].
Defined.

Definition demo_setidt_state (irqno : Z) : kstate := demo_args [irqno; 0x500] demo_user_state.
Definition demo_setidt_call : ureg_t := set_esp 0x3000 ureg_zero.

Lemma demo_setidt_ok irqno : (exists F, space_ok (demo_setidt_state irqno) F) /\
  runs (demo_setidt_state irqno) 100 (demo_tcb 5000 1 RUNNING_STATE blocking_none) /\
  mapped_range (demo_setidt_state irqno) 0x1003000 8.
Proof.
  unfold demo_setidt_state, demo_args. set (abs := imap _ _). destruct (put_bytes_kvm abs demo_user_state) as [Ek Ec].
  unfold space_ok, mapped_range, here, runs. rewrite Ek, Ec. rewrite put_bytes_rest. split; [exact demo_user_ok|]. split; [by split|].
  split; [lia|]. split; [lia|]. destruct (demo_range 0x1003000 8) as (_ & _ & Hd); [lia|lia|].
  intros w Hw. destruct (Hd w Hw) as (f & rw & us & Hx & _). by exists f, rw, us.
Qed.

Lemma hv_setidt_by_vector_witness :
  handle_hv_setidt demo_setidt_call (demo_setidt_state 0xffffffff) = Crashed /\
  exists c b', handle_hv_setidt demo_setidt_call (demo_setidt_state 0x20) = Done demo_setidt_call (with_ctl c (demo_setidt_state 0x20)) /\
    get_pcb c 5000 = Some b' /\ vidt_entry 0x20 b' = 0x1000500.
Proof.
  split.
  - destruct (demo_setidt_ok 0xffffffff) as ([F HF] & Hr & Hm).
    destruct (hv_setidt_by_vector demo_setidt_call _ F 100 _ (demo_pcb 100) HF Hr) as (_ & _ & H);
      [vm_compute; reflexivity|reflexivity|exact Hm|]. apply H. vm_compute. reflexivity.
  - destruct (demo_setidt_ok 0x20) as ([F HF] & Hr & Hm).
    destruct (hv_setidt_by_vector demo_setidt_call _ F 100 _ (demo_pcb 100) HF Hr) as (_ & H & _);
      [vm_compute; reflexivity|reflexivity|exact Hm|].
    destruct H as (c & b' & H1 & H2 & H3 & _); [vm_compute; split; [discriminate|reflexivity]|].
    exists c, b'. split; [exact H1|]. split; [exact H2|].
    transitivity (if decide (word_at (demo_setidt_state 0x20) (args_at demo_setidt_call + 4 * 1) = NULL) then 0
      else u32 (word_at (demo_setidt_state 0x20) (args_at demo_setidt_call + 4 * 1) + USER_MEM_START)); [|vm_compute; reflexivity].
    rewrite <-H3. f_equal.
Defined.
