(* ===== verification/Interrupt.v ===== *)
(** Interrupt dispatch and set-up: [kern/interrupt.c], [kern/segmentation.c],
    the installers of the drivers, and the boot sequence of [kern/kernel.c].

    The address of an assembly wrapper [wrap_handler<n>] is a parameter: the
    linker chooses it. *)
From S2P Require Import Prelude Ring KMutex Frames Vm Keyhelp Keyboard Console Machine CtrlBlk Kernel Sched.
From S2P Require Import UserMem Elf Loader Fork Syscall VirtInt.
#[local] Open Scope Z_scope.

Definition FORK_INT : Z := 0x41.
Definition EXEC_INT : Z := 0x42.
Definition WAIT_INT : Z := 0x44.
Definition YIELD_INT : Z := 0x45.
Definition DESCHEDULE_INT : Z := 0x46.
Definition MAKE_RUNNABLE_INT : Z := 0x47.
Definition GETTID_INT : Z := 0x48.
Definition NEW_PAGES_INT : Z := 0x49.
Definition REMOVE_PAGES_INT : Z := 0x4A.
Definition SLEEP_INT : Z := 0x4B.
Definition GETCHAR_INT : Z := 0x4C.
Definition READLINE_INT : Z := 0x4D.
Definition PRINT_INT : Z := 0x4E.
Definition SET_TERM_COLOR_INT : Z := 0x4F.
Definition SET_CURSOR_POS_INT : Z := 0x50.
Definition GET_CURSOR_POS_INT : Z := 0x51.
Definition THREAD_FORK_INT : Z := 0x52.
Definition GET_TICKS_INT : Z := 0x53.
Definition HALT_INT : Z := 0x55.
Definition TASK_VANISH_INT : Z := 0x57.
Definition NEW_CONSOLE_INT : Z := 0x58.
Definition SET_STATUS_INT : Z := 0x59.
Definition VANISH_INT : Z := 0x60.
Definition READFILE_INT : Z := 0x62.
Definition SWEXN_INT : Z := 0x74.

(** ** Gates *)

(** [gate_t]; the two members of the union have the same fields. *)
Record gate_t : Type := Gate {
  offset1 : Z; segment_selector : Z; reserved_bits : Z; padding1 : Z; d : Z;
  padding2 : Z; dpl : Z; p : Z; offset2 : Z;
}.

#[export] Instance gate_eq_dec : EqDecision gate_t.
Proof. solve_decision. Defined.

Definition make_gate (kind wrapper pl : Z) (old : gate_t) : gate_t :=
  Gate (u16 wrapper) SEGSEL_KERNEL_CS (reserved_bits old) (kind `mod` 2 ^ 6) 1 0 (pl `mod` 2 ^ 2) 1
    (u16 (Z.shiftr wrapper 16)).

Abbreviation idt := (list gate_t) (only parsing).

Definition add_trap_gate (interrupt wrapper pl : Z) (t : idt) : option idt :=
  old ← aget t interrupt; aset interrupt (make_gate 0x38 wrapper pl old) t.
Definition add_interrupt_gate (interrupt wrapper pl : Z) (t : idt) : option idt :=
  old ← aget t interrupt; aset interrupt (make_gate 0x30 wrapper pl old) t.

Section idt_setup.
Context (wrap_handler : Z -> Z).

(** [ADD_DUMMY_GATE(0); ... ADD_DUMMY_GATE(255);]. *)
Definition add_dummy_gates (t : idt) : option idt :=
  for_loop 256 0 (fun n t => add_trap_gate n (wrap_handler n) KERNEL_PL t) t.

(** The vectors whose gates the system calls install, in order. *)
Definition syscall_vectors : list Z :=
  [GETTID_INT; FORK_INT; EXEC_INT; HALT_INT; WAIT_INT; VANISH_INT; TASK_VANISH_INT; SET_STATUS_INT;
   YIELD_INT; DESCHEDULE_INT; MAKE_RUNNABLE_INT; PRINT_INT; READLINE_INT; GETCHAR_INT; NEW_PAGES_INT;
   REMOVE_PAGES_INT; SWEXN_INT; SLEEP_INT; READFILE_INT; THREAD_FORK_INT; GET_TICKS_INT;
   SET_TERM_COLOR_INT; SET_CURSOR_POS_INT; GET_CURSOR_POS_INT; NEW_CONSOLE_INT].

(** The wrapper's number is the vector written in decimal. *)
Fixpoint add_user_gates (vectors : list Z) (t : idt) : option idt :=
  match vectors with
  | [] => Some t
  | n :: vectors => t ← add_trap_gate n (wrap_handler n) USER_PL t; add_user_gates vectors t
  end.

(** [initialize_virtual_interrupt]'s gate. *)
Definition initialize_virtual_interrupt (t : idt) : option idt :=
  add_trap_gate HV_INT (wrap_handler 222) USER_PL t.

(** [register_timer] and [install_keyboard]. *)
Definition register_timer (t : idt) : option idt :=
  add_interrupt_gate TIMER_IDT_ENTRY (wrap_handler 32) KERNEL_PL t.
Definition install_keyboard (t : idt) : option idt :=
  add_interrupt_gate KEY_IDT_ENTRY (wrap_handler 33) KERNEL_PL t.

(** The gates [initialize_idt] leaves in the table. *)
Definition initialize_gates (t : idt) : option idt :=
  t ← add_dummy_gates t;
  t ← register_timer t;
  t ← install_keyboard t;
  t ← add_user_gates syscall_vectors t;
  initialize_virtual_interrupt t.

End idt_setup.

(** ** The timer device *)

Definition TIMER_RATE : Z := 1193182.
Definition TIMER_SQUARE_WAVE : Z := 0x36.
Definition TIMER_MODE_IO_PORT : Z := 0x43.
Definition TIMER_PERIOD_IO_PORT : Z := 0x40.

(** The [outb]s of [start_timer], in order: port and byte. *)
Definition start_timer : list (Z * Z) :=
  let cycle_count := Z.quot TIMER_RATE TIMER_INTERRUPT_HZ in
  [(TIMER_MODE_IO_PORT, u8 TIMER_SQUARE_WAVE);
   (TIMER_PERIOD_IO_PORT, u8 cycle_count);
   (TIMER_PERIOD_IO_PORT, u8 (Z.shiftr cycle_count 8))].

(** ** Segments *)

Definition SEGMENT_LIMIT_SCALE : Z := 0x1000.

Record segment_descriptor_t : Type := SegmentDescriptor {
  segment_limit1 : Z; base_addr1 : Z; base_addr2 : Z; type_ : Z; s_ : Z; seg_dpl : Z; seg_p : Z;
  segment_limit2 : Z; avl : Z; padding : Z; d_b : Z; g : Z; base_addr3 : Z;
}.

Definition segment_limit : Z := (VIRTUAL_ADDR_END - USER_MEM_START - 1) / SEGMENT_LIMIT_SCALE.
Definition user_descriptor (type : Z) : segment_descriptor_t :=
  SegmentDescriptor (u16 segment_limit) (u16 USER_MEM_START) (u8 (Z.shiftr USER_MEM_START 16)) type 1
    USER_PL 1 (Z.shiftr segment_limit 16 `mod` 2 ^ 4) 0 0 1 1 (u16 (Z.shiftr USER_MEM_START 24) `mod` 2 ^ 8).

(** The selectors of the guest's segments: guest kernel and user, code and data. *)
Definition initialize_gdt (gdt : list segment_descriptor_t) : option (list segment_descriptor_t) :=
  gdt ← aset SEGSEL_SPARE0_IDX (user_descriptor 10) gdt;
  gdt ← aset SEGSEL_SPARE1_IDX (user_descriptor 2) gdt;
  gdt ← aset SEGSEL_SPARE2_IDX (user_descriptor 10) gdt;
  aset SEGSEL_SPARE3_IDX (user_descriptor 2) gdt.

(** ** Dispatch *)

Section dispatch.
Context `{Platform}.

(** A handler that leaves the registers alone. *)
Definition keeping (m : K unit) (u : ureg_t) : K ureg_t := m;; mret u.

(** [handler_array], as [initialize_idt] and the installers fill it. *)
Definition handler_array (interrupt : Z) : option (ureg_t -> K ureg_t) :=
  let on n := bool_decide (interrupt = n) in
  if on IDT_PF then Some (fun u => keeping (handle_page_fault u) u)
  else if on IDT_SS then Some (keeping handle_seg_fault)
  else if on IDT_DE then Some (keeping handle_div_zero_fault)
  else if on TIMER_IDT_ENTRY then Some (keeping handle_timer)
  else if on KEY_IDT_ENTRY then Some (keeping handle_keyboard)
  else if on GETTID_INT then Some handle_gettid
  else if on FORK_INT then Some handle_fork
  else if on EXEC_INT then Some handle_exec
  else if on HALT_INT then Some (keeping handle_halt)
  else if on WAIT_INT then Some handle_wait
  else if on VANISH_INT then Some (keeping handle_vanish)
  else if on TASK_VANISH_INT then Some (fun u => keeping (handle_task_vanish u) u)
  else if on SET_STATUS_INT then Some handle_set_status
  else if on YIELD_INT then Some handle_yield
  else if on DESCHEDULE_INT then Some handle_deschedule
  else if on MAKE_RUNNABLE_INT then Some handle_make_runnable
  else if on PRINT_INT then Some handle_print
  else if on READLINE_INT then Some handle_readline
  else if on GETCHAR_INT then Some handle_getchar
  else if on NEW_PAGES_INT then Some handle_new_pages
  else if on REMOVE_PAGES_INT then Some handle_remove_pages
  else if on SWEXN_INT then Some handle_swexn
  else if on SLEEP_INT then Some handle_sleep
  else if on READFILE_INT then Some handle_readfile
  else if on THREAD_FORK_INT then Some handle_thread_fork
  else if on GET_TICKS_INT then Some handle_get_ticks
  else if on SET_TERM_COLOR_INT then Some handle_set_term_color
  else if on SET_CURSOR_POS_INT then Some handle_set_cursor_pos
  else if on GET_CURSOR_POS_INT then Some handle_get_cursor_pos
  else if on NEW_CONSOLE_INT then Some handle_new_console
  else None.

(** The faults a registered handler of the user takes. *)
Definition user_fault (interrupt : Z) : bool :=
  bool_decide (interrupt = IDT_DE \/ interrupt = IDT_NP \/ interrupt = IDT_PF).

(** The part of [handle] for processes that are not guests. *)
Definition dispatch (me : addr) (u : ureg_t) : K ureg_t :=
  t ← tcb_at me;
  if bool_decide (user_fault (cause u) = true /\ exception_stack t <> NULL) then
    update_tcb me (set_exception_stack NULL);;
    primitive (fun s => RunHandler u (exception_stack t) (handler t) (handler_arg t) s)
  else match handler_array (cause u) with
  | Some handler => handler u
  | None => keeping fault_kill_thread u
  end.

Definition handle (u : ureg_t) : K ureg_t :=
  let interrupt := cause u in
  me ← running_tcb;
  t ← tcb_at me;
  b ← pcb_at (tcb_pcb t);
  if guest b then
    if decide (cs u = SEGSEL_KERNEL_CS) then
      if bool_decide (interrupt <> TIMER_IDT_ENTRY /\ interrupt <> KEY_IDT_ENTRY) then crash u
      else dispatch me u
    else handle_virtual_interrupt u
  else dispatch me u.

(** ** Boot *)

(** [initialize_idt] apart from the table: the drivers and the locks. *)
Definition initialize_drivers : K Z :=
  con_op (fun c => c ← install_console c; Some (tt, c));;
  initialize_system_call.

(** [init_page_dir_manager], with the [memset] of the zero frame in
    [init_allocator] (paging is not on yet). *)
Definition clear_frame (frame : Z) (m : gmap Z Z) : gmap Z Z :=
  foldr (fun i m => <[frame + i := 0]> m) m (seqZ 0 PAGE_SIZE).
Definition init_paging : K Z :=
  r ← vm_step (init_page_dir_manager machine_phys_frames);
  when (bool_decide (~ r < 0)) (modify (fun s => with_mem (clear_frame ZERO_FRAME (mem s)) s));;
  mret r.

Definition init_name : list Z := [105; 110; 105; 116].
Definition idle_name : list Z := [105; 100; 108; 101].

Definition kernel_main : K unit :=
  r ← initialize_drivers;
  affirm (bool_decide (~ r < 0));;
  con_op (fun c => c ← clear_console c; Some (tt, c));;
  r ← init_paging;
  affirm (bool_decide (~ r < 0));;
  r ← init_ctrl_blk;
  affirm (bool_decide (~ r < 0));;
  me ← running_tcb;
  set_esp0 me;;
  pcb ← running_pcb;
  b ← pcb_at pcb;
  old ← gets cr3;
  set_cr3 (Z.lor (Z.land old 4095) (page_directory b));;
  '(r, u) ← load_executable (KernelString init_name) (KernelArgv [init_name]) ureg_zero;
  affirm (bool_decide (~ r < 0));;
  r ← fork_ctrl_blk u;
  affirm (bool_decide (~ r < 0));;
  '(r, u) ← load_executable (KernelString idle_name) (KernelArgv [idle_name]) u;
  affirm (bool_decide (~ r < 0));;
  primitive (fun s => UserMode u s).

End dispatch.

(** * The tables the processor reads *)

(** A gate as the processor decodes it: the address of the handler and the word
    of attributes. *)
Definition gate_offset (g : gate_t) : Z := offset1 g + offset2 g * 2 ^ 16.
Definition gate_attributes (g : gate_t) : Z :=
  reserved_bits g + padding1 g * 2 ^ 5 + d g * 2 ^ 11 + padding2 g * 2 ^ 12 + dpl g * 2 ^ 13 + p g * 2 ^ 15.
(** Bits 8 to 12: the descriptor's type; 14 is a 32-bit interrupt gate, 15 a trap gate. *)
Definition gate_type (g : gate_t) : Z := (gate_attributes g / 2 ^ 8) `mod` 2 ^ 5.
Definition INTERRUPT_GATE : Z := 14.
Definition TRAP_GATE : Z := 15.

Section idt_theorems.
Context (wrap_handler : Z -> Z).

(** A table of gates: 256 of them, whose five reserved bits may be anything. *)
Definition idt_ok (t : idt) : Prop :=
  length t = Z.to_nat IDT_ENTS /\ Forall (fun g => 0 <= reserved_bits g < 2 ^ 5) t.

(** The first [n] gates of a table. *)
Definition gates_are (kind level : Z -> Z) (n : Z) (t : idt) : Prop :=
  idt_ok t /\
  forall i, 0 <= i < n -> exists old, t !! Z.to_nat i = Some (make_gate (kind i) (wrap_handler i) (level i) old).

Lemma gates_add (adder : Z -> Z -> Z -> idt -> option idt) (k m pl n : Z) (kind level : Z -> Z) (t : idt) :
  (forall m w pl t, adder m w pl t = (old ← aget t m; aset m (make_gate k w pl old) t)) ->
  0 <= m <= n -> m < IDT_ENTS -> gates_are kind level n t ->
  exists t', adder m (wrap_handler m) pl t = Some t' /\
    gates_are (fun i => if decide (i = m) then k else kind i) (fun i => if decide (i = m) then pl else level i)
      (Z.max n (m + 1)) t'.
Proof.
  intros Ha Hm Hlt [[Hlen Hres] Hg]. assert (0 <= m < Z.of_nat (length t)) as Hb by (rewrite Hlen, Z2Nat.id by done; lia).
  destruct (aget_Some t m Hb) as (old & Hold & Hin). eexists. split.
  - rewrite Ha, Hold. cbn [mbind option_bind]. by apply aset_Some.
  - split; [split; [by rewrite length_insert|]; apply Forall_insert; [done|]; by apply (Forall_lookup_1 _ _ _ _ Hres Hin)|]. intros i Hi. cbn beta.
    destruct (decide (i = m)) as [->|Hne].
    + exists old. apply list_lookup_insert_eq. lia.
    + rewrite list_lookup_insert_ne by lia. apply Hg. lia.
Qed.

Lemma dummy_gates (t : idt) : idt_ok t ->
  exists t', add_dummy_gates wrap_handler t = Some t' /\ gates_are (fun _ => 0x38) (fun _ => KERNEL_PL) IDT_ENTS t'.
Proof.
  intros Hlen. unfold add_dummy_gates.
  destruct (for_loop_inv (fun n t => add_trap_gate n (wrap_handler n) KERNEL_PL t)
    (gates_are (fun _ => 0x38) (fun _ => KERNEL_PL)) 256 0 t) as (t' & Ht' & Hg); [split; [done|lia]| |by exists t'].
  intros j u Hj Hu. destruct (gates_add add_trap_gate 0x38 j KERNEL_PL j (fun _ => 0x38) (fun _ => KERNEL_PL) u)
    as (u' & H1 & H2 & H3); [done|lia|unfold IDT_ENTS; lia|done|]. exists u'. split; [done|]. split; [done|].
  intros i Hi. destruct (H3 i ltac:(lia)) as [old Hold]. exists old. rewrite Hold. by destruct (decide (i = j)).
Qed.

Lemma user_gates vectors : forall (kind level : Z -> Z) (t : idt),
  Forall (fun m => 0 <= m < IDT_ENTS) vectors -> gates_are kind level IDT_ENTS t ->
  exists t', add_user_gates wrap_handler vectors t = Some t' /\
    gates_are (fun i => if decide (i ∈ vectors) then 0x38 else kind i)
      (fun i => if decide (i ∈ vectors) then USER_PL else level i) IDT_ENTS t'.
Proof.
  induction vectors as [|m vectors IH]; intros kind level t Hv Hg.
  - exists t. split; [done|]. destruct Hg as [Hl Hg]. split; [done|]. intros i Hi. 
    rewrite !decide_False by (apply not_elem_of_nil). by apply Hg.
  - apply Forall_cons in Hv as [Hm Hv]. cbn [add_user_gates].
    destruct (gates_add add_trap_gate 0x38 m USER_PL IDT_ENTS kind level t) as (t1 & H1 & Hg1); [done|lia|lia|done|].
    rewrite Z.max_l in Hg1 by lia. run H1. destruct (IH _ _ _ Hv Hg1) as (t2 & H2 & Hl2 & Hg2).
    exists t2. split; [done|]. split; [done|]. intros i Hi. destruct (Hg2 i Hi) as [old Hold]. exists old. rewrite Hold.
    cbn beta. f_equal. destruct (decide (i ∈ vectors)); destruct (decide (i = m)); destruct (decide (i ∈ m :: vectors));
      set_solver.
Qed.

(** The gates of the user: system calls and hypervisor calls. *)
Definition user_vector (n : Z) : bool := bool_decide (n ∈ HV_INT :: syscall_vectors).
(** The vectors of the devices. *)
Definition device_vector (n : Z) : bool := bool_decide (n = TIMER_IDT_ENTRY \/ n = KEY_IDT_ENTRY).

Lemma make_gate_decodes kind w pl old : 0 <= w < 2 ^ 32 -> 0 <= pl < 4 -> 0 <= reserved_bits old < 2 ^ 5 ->
  kind = 0x38 \/ kind = 0x30 ->
  let g := make_gate kind w pl old in
  gate_offset g = w /\ gate_type g = (if decide (kind = 0x30) then INTERRUPT_GATE else TRAP_GATE) /\
  segment_selector g = SEGSEL_KERNEL_CS /\ dpl g = pl /\ p g = 1.
Proof.
  intros Hw Hpl Hr Hk. cbv zeta. unfold gate_offset, gate_type, gate_attributes, make_gate, u16.
  cbn [offset1 offset2 reserved_bits padding1 d padding2 dpl p segment_selector].
  rewrite Z.shiftr_div_pow2 by lia. rewrite (Z.mod_small pl) by lia.
  split; [|split; [|done]].
  - rewrite (Z.mod_small (w / 2 ^ 16)) by (split; [apply Z.div_pos; lia|apply Z.div_lt_upper_bound; lia]).
    pose proof (Z.div_mod w (2 ^ 16) ltac:(lia)). lia.
  - assert (forall x k, 0 <= x < 256 -> (x + k * 2 ^ 8) / 2 ^ 8 = k) as Hd.
    { intros x k Hx. rewrite Z.div_add by lia. rewrite Z.div_small by lia. done. }
    destruct Hk as [->| ->].
    + replace (reserved_bits old + 0x38 `mod` 2 ^ 6 * 2 ^ 5 + 1 * 2 ^ 11 + 0 * 2 ^ 12 + pl * 2 ^ 13 + 1 * 2 ^ 15)
        with (reserved_bits old + (15 + (pl + 4) * 2 ^ 5) * 2 ^ 8) by (change (0x38 `mod` 2 ^ 6) with 0x38; lia).
      rewrite Hd by lia. rewrite Z.mod_add by lia. done.
    + replace (reserved_bits old + 0x30 `mod` 2 ^ 6 * 2 ^ 5 + 1 * 2 ^ 11 + 0 * 2 ^ 12 + pl * 2 ^ 13 + 1 * 2 ^ 15)
        with (reserved_bits old + (14 + (pl + 4) * 2 ^ 5) * 2 ^ 8) by (change (0x30 `mod` 2 ^ 6) with 0x30; lia).
      rewrite Hd by lia. rewrite Z.mod_add by lia. done.
Qed.

(** C22. The interrupt descriptor table after [initialize_idt], decoded as the
    processor does, whatever the linker made of the wrappers' addresses: every
    one of the 256 vectors has a present gate to its own wrapper in the kernel's
    code segment; the timer's and the keyboard's are interrupt gates, which
    disable interrupts, all others trap gates; and user code may raise exactly
    the vectors of the system calls and of hypervisor calls, no fault and no
    device interrupt. *)
Theorem idt_complete (t : idt) (Ht : idt_ok t) (Hw : forall n, 0 <= wrap_handler n < 2 ^ 32) :
  exists t', initialize_gates wrap_handler t = Some t' /\ idt_ok t' /\
    forall n, 0 <= n < IDT_ENTS -> exists g, t' !! Z.to_nat n = Some g /\
      gate_offset g = wrap_handler n /\
      gate_type g = (if device_vector n then INTERRUPT_GATE else TRAP_GATE) /\
      segment_selector g = SEGSEL_KERNEL_CS /\
      dpl g = (if user_vector n then USER_PL else KERNEL_PL) /\ p g = 1.
Proof.
  destruct (dummy_gates t Ht) as (t1 & H1 & G1).
  destruct (gates_add add_interrupt_gate 0x30 TIMER_IDT_ENTRY KERNEL_PL IDT_ENTS _ _ t1 (fun _ _ _ _ => eq_refl) ltac:(done) ltac:(done) G1)
    as (t2 & H2 & G2).
  destruct (gates_add add_interrupt_gate 0x30 KEY_IDT_ENTRY KERNEL_PL IDT_ENTS _ _ t2 (fun _ _ _ _ => eq_refl) ltac:(done) ltac:(done) G2)
    as (t3 & H3 & G3).
  assert (Hv : Forall (fun m => 0 <= m < IDT_ENTS) syscall_vectors) by (apply (bool_decide_unpack _); by vm_compute).
  destruct (user_gates syscall_vectors _ _ t3 Hv G3) as (t4 & H4 & G4).
  destruct (gates_add add_trap_gate 0x38 HV_INT USER_PL IDT_ENTS _ _ t4 (fun _ _ _ _ => eq_refl) ltac:(done) ltac:(done) G4)
    as (t5 & H5 & [Hok5 G5]).
  exists t5. split.
  { unfold initialize_gates, register_timer, install_keyboard, initialize_virtual_interrupt. run H1.
    change (wrap_handler 32) with (wrap_handler TIMER_IDT_ENTRY). run H2.
    change (wrap_handler 33) with (wrap_handler KEY_IDT_ENTRY). run H3. run H4. exact H5. }
  split; [done|]. intros n Hn. destruct (G5 n Hn) as [old Hold]. eexists. split; [exact Hold|].
  assert (0 <= reserved_bits old < 2 ^ 5) as Hr.
  { destruct Hok5 as [_ Hf]. exact (Forall_lookup_1 _ _ _ _ Hf Hold). }
  cbn beta in Hold |- *. set (k := if decide (n = HV_INT) then _ else _) in *. set (pl := if decide (n = HV_INT) then USER_PL else _) in *.
  assert (Hk : k = if device_vector n then 0x30 else 0x38).
  { unfold k, device_vector. destruct (decide (n = HV_INT)) as [->|]; [done|].
    destruct (decide (n ∈ syscall_vectors)) as [Hin|].
    - rewrite bool_decide_false; [done|]. intros [->| ->]; revert Hin; apply (bool_decide_unpack _); by vm_compute.
    - destruct (decide (n = KEY_IDT_ENTRY)) as [->|]; [done|]. destruct (decide (n = TIMER_IDT_ENTRY)) as [->|]; [done|].
      by rewrite bool_decide_false by tauto. }
  assert (Hpl : pl = if user_vector n then USER_PL else KERNEL_PL).
  { unfold pl, user_vector. destruct (decide (n = HV_INT)) as [->|]; [done|].
    destruct (decide (n ∈ syscall_vectors)) as [Hin|]; [by rewrite bool_decide_true by (by right)|].
    rewrite bool_decide_false by (rewrite elem_of_cons; tauto).
    destruct (decide (n = KEY_IDT_ENTRY)); [done|]. by destruct (decide (n = TIMER_IDT_ENTRY)). }
  clearbody k pl. subst. destruct (make_gate_decodes (if device_vector n then 0x30 else 0x38) (wrap_handler n)
    (if user_vector n then USER_PL else KERNEL_PL) old) as (D1 & D2 & D3 & D4 & D5); [apply Hw|by destruct (user_vector n)|done| |].
  { destruct (device_vector n); auto. }
  do 4 (split; [first [exact D1|rewrite D2; by destruct (device_vector n)|exact D3|exact D4]|]). exact D5.
Qed.

End idt_theorems.

(** ** The segments of guests *)

(** A descriptor as the processor decodes it: base and highest valid offset. *)
Definition descriptor_base (x : segment_descriptor_t) : Z :=
  base_addr1 x + base_addr2 x * 2 ^ 16 + base_addr3 x * 2 ^ 24.
Definition descriptor_limit (x : segment_descriptor_t) : Z :=
  let limit := segment_limit1 x + segment_limit2 x * 2 ^ 16 in
  if decide (g x = 1) then limit * 4096 + 4095 else limit.
(** The bit that makes a segment executable. *)
Definition descriptor_code (x : segment_descriptor_t) : bool := Z.testbit (type_ x) 3.

Definition guest_selectors : list Z := [SEGSEL_SPARE0_IDX; SEGSEL_SPARE1_IDX; SEGSEL_SPARE2_IDX; SEGSEL_SPARE3_IDX].

Lemma user_descriptor_decodes type : type = 10 \/ type = 2 ->
  descriptor_base (user_descriptor type) = USER_MEM_START /\
  USER_MEM_START + descriptor_limit (user_descriptor type) = VIRTUAL_ADDR_END - 1 /\
  descriptor_code (user_descriptor type) = bool_decide (type = 10) /\
  seg_dpl (user_descriptor type) = USER_PL /\ seg_p (user_descriptor type) = 1.
Proof. by intros [->| ->]; vm_compute. Qed.

(** Guests run in segments of their own: [initialize_gdt] fills the four
    spare entries of the table and leaves every other one alone; each of the
    four, decoded as the processor does, starts where user memory starts and
    ends with the address space, so an offset within its limit is a linear
    address in user memory, without wrap-around, and never one of the kernel's;
    the first and third are for code, the others for data, all at the user's
    privilege level. *)
Theorem guest_segments_in_user_memory (gdt : list segment_descriptor_t) (Hlen : (9 < length gdt)%nat) :
  exists gdt', initialize_gdt gdt = Some gdt' /\ length gdt' = length gdt /\
    (forall n, n ∉ guest_selectors -> 0 <= n -> gdt' !! Z.to_nat n = gdt !! Z.to_nat n) /\
    forall n, n ∈ guest_selectors -> exists x, gdt' !! Z.to_nat n = Some x /\
      (forall offset, 0 <= offset <= descriptor_limit x ->
         USER_MEM_START <= descriptor_base x + offset < VIRTUAL_ADDR_END) /\
      descriptor_base x = USER_MEM_START /\
      descriptor_code x = bool_decide (n = SEGSEL_SPARE0_IDX \/ n = SEGSEL_SPARE2_IDX) /\
      seg_dpl x = USER_PL /\ seg_p x = 1.
Proof.
  unfold initialize_gdt. rewrite aset_Some by (change SEGSEL_SPARE0_IDX with 6; lia). cbn [mbind option_bind].
  rewrite aset_Some by (rewrite length_insert; change SEGSEL_SPARE1_IDX with 7; lia). cbn [mbind option_bind].
  rewrite aset_Some by (rewrite !length_insert; change SEGSEL_SPARE2_IDX with 8; lia). cbn [mbind option_bind].
  rewrite aset_Some by (rewrite !length_insert; change SEGSEL_SPARE3_IDX with 9; lia).
  change (Z.to_nat SEGSEL_SPARE0_IDX) with 6%nat. change (Z.to_nat SEGSEL_SPARE1_IDX) with 7%nat.
  change (Z.to_nat SEGSEL_SPARE2_IDX) with 8%nat. change (Z.to_nat SEGSEL_SPARE3_IDX) with 9%nat.
  eexists. split; [done|]. split; [by rewrite !length_insert|]. split.
  - intros n Hn Hn0. unfold guest_selectors in Hn. rewrite !not_elem_of_cons in Hn.
    change SEGSEL_SPARE0_IDX with 6 in Hn. change SEGSEL_SPARE1_IDX with 7 in Hn.
    change SEGSEL_SPARE2_IDX with 8 in Hn. change SEGSEL_SPARE3_IDX with 9 in Hn.
    by rewrite !list_lookup_insert_ne by lia.
  - intros n Hn.
    assert (exists type, (type = 10 \/ type = 2) /\
      <[9%nat:=user_descriptor 2]> (<[8%nat:=user_descriptor 10]> (<[7%nat:=user_descriptor 2]>
        (<[6%nat:=user_descriptor 10]> gdt))) !! Z.to_nat n = Some (user_descriptor type) /\
      bool_decide (type = 10) = bool_decide (n = SEGSEL_SPARE0_IDX \/ n = SEGSEL_SPARE2_IDX)) as (type & Ht & Hl & Hc).
    { unfold guest_selectors in Hn. rewrite !elem_of_cons, elem_of_nil in Hn.
      destruct Hn as [->|[->|[->|[->|[]]]]]; [exists 10|exists 2|exists 10|exists 2];
        (split; [by auto|]); (split; [|done]); cbn [Z.to_nat SEGSEL_SPARE0_IDX];
        rewrite ?list_lookup_insert_ne by done; apply list_lookup_insert_eq; rewrite ?length_insert; lia. }
    exists (user_descriptor type). split; [done|].
    destruct (user_descriptor_decodes type Ht) as (D1 & D2 & D3 & D4 & D5).
    split; [intros offset Ho; rewrite D1; lia|]. split; [done|]. split; [by rewrite D3|done].
Qed.

(** A table as the assembly code leaves it, with some reserved bits set. *)
Definition demo_idt : idt := replicate 256 (Gate 0 0 7 0 0 0 0 0 0).

Lemma idt_complete_witness : exists t', initialize_gates (fun n => 0x100000 + 16 * (n `mod` 256)) demo_idt = Some t' /\
  exists g, t' !! 0x45%nat = Some g /\ gate_offset g = 0x100450 /\ dpl g = 3.
Proof.
  destruct (idt_complete (fun n => 0x100000 + 16 * (n `mod` 256)) demo_idt) as (t' & H1 & _ & H2).
  - split; [reflexivity|]. apply Forall_replicate. cbn. lia.
  - intros n. pose proof (Z.mod_pos_bound n 256 eq_refl). lia.
  - exists t'. split; [exact H1|]. destruct (H2 0x45) as (g & Hg & Ho & _ & _ & Hd & _); [unfold IDT_ENTS; lia|].
    exists g. split; [exact Hg|]. split; [exact Ho|exact Hd].
Defined.

Lemma guest_segments_in_user_memory_witness :
  exists gdt', initialize_gdt (replicate 10 (user_descriptor 0)) = Some gdt' /\ length gdt' = 10%nat.
Proof.
  destruct (guest_segments_in_user_memory (replicate 10 (user_descriptor 0))) as (gdt' & H1 & H2 & _);
    [rewrite length_replicate; lia|]. exists gdt'. split; [exact H1|exact H2].
Defined.
