(* ===== verification/UAutostack.v ===== *)
(** Automatic stack growth, [src/user/libautostack/autostack.c]: the page fault
    handler of a user program that extends the program's stack, the frame it is
    entered with ([wrap_user_provided_handler] of [kern/handler_wrapper.S]) and the
    stubs of the two system calls it makes.  The theorem follows a fault below the
    stack from the processor's interrupt to the retried instruction.

    The handler runs on the exception stack.  What the system calls and the C
    compiler push there below the arguments is not modelled: the arguments lie
    wherever the caller put them ([sp]). *)
From S2P Require Import Prelude Ring KMutex Frames Vm Keyhelp Keyboard Console Machine CtrlBlk Kernel Sched.
From S2P Require Import UserMem Elf Loader Fork Syscall VirtInt Exceptions Blocking Guest Interrupt.
#[local] Open Scope Z_scope.

Definition AUTOSTACK_EXCEPTION_STACK_SIZE : Z := 2048.
Definition ROUND_STACK (stack : Z) : Z := stack / 4 * 4.
Definition SWEXN_CAUSE_PAGEFAULT : Z := 0x0E.

(** Where the linker puts the variables and the handler of the file. *)
Class AutostackImage : Type := {
  autostack_execption_stack_space : addr;
  current_stack_low : addr;
  handle_autostack_text : addr;
}.

(** * The code *)

Section autostack.
Context `{Platform} `{AutostackImage}.

(** [pushl] of words, on a stack whose pages are there. *)
Fixpoint pushl (ws : list Z) (esp : Z) : K Z :=
  match ws with
  | [] => mret esp
  | w :: ws => store32 (u32 (esp - 4)) w;; pushl ws (u32 (esp - 4))
  end.

(** The registers in the order they are pushed. *)
Definition ureg_words (u : ureg_t) : list Z :=
  [ss u; esp u; eflags u; cs u; eip u; error_code u; eax u; ecx u; edx u; ebx u; zero u; ebp u; esi u; edi u;
   gs u; fs u; es u; ds u; cr2 u; cause u].

(** [wrap_user_provided_handler] up to the jump: the kernel's stack pointer, the
    registers, what the stub saves of its own, and the arguments of the handler
    under a null return address.  It returns the handler's stack pointer and the
    address of the registers. *)
Definition wrap_user_provided_handler (kernel_esp ureg_ptr : Z) (u : ureg_t) (exception_stack handler arg : Z) : K (Z * Z) :=
  frame ← pushl (kernel_esp :: ureg_words u) exception_stack;
  sp ← pushl [ureg_ptr; exception_stack; handler; frame; arg; NULL] frame;
  mret (sp, frame).

(** A stub: the arguments are on the caller's stack and [esi] points to them. *)
Fixpoint store_args (args : list Z) (sp : Z) : K unit :=
  match args with
  | [] => mret tt
  | a :: args => store32 sp a;; store_args args (u32 (sp + 4))
  end.
Definition stub (vector : Z) (u : ureg_t) (sp : Z) (args : list Z) : K Z :=
  store_args args sp;;
  r ← handle (set_cause vector (set_esi sp u));
  mret (s32 (eax r)).
Definition swexn (u : ureg_t) (sp esp3 eip arg newureg : Z) : K Z := stub SWEXN_INT u sp [esp3; eip; arg; newureg].
Definition new_pages (u : ureg_t) (sp base len : Z) : K Z := stub NEW_PAGES_INT u sp [base; len].

Definition autostack_top : Z := ROUND_STACK (autostack_execption_stack_space + AUTOSTACK_EXCEPTION_STACK_SIZE).

Definition install_autostack (u : ureg_t) (sp stack_high stack_low : Z) : K unit :=
  handler_installation ← swexn u sp autostack_top handle_autostack_text NULL NULL;
  affirm (bool_decide (handler_installation >= 0));;
  store32 current_stack_low stack_low.

(** The condition under which the fault is left to the kernel. *)
Definition not_below_stack (ureg base : Z) : K bool :=
  cause ← load32 ureg;
  if decide (cause <> SWEXN_CAUSE_PAGEFAULT) then mret true
  else
    error_code ← load32 (u32 (ureg + 56));
    if decide (Z.land error_code 0x1 <> 0) then mret true
    else
      low ← load32 current_stack_low;
      mret (bool_decide (base / PAGE_SIZE * PAGE_SIZE <> u32 (low - PAGE_SIZE))).

Definition handle_autostack (u : ureg_t) (sp arg ureg : Z) : K unit :=
  cr2 ← load32 (u32 (ureg + 4));
  let base := cr2 / PAGE_SIZE * PAGE_SIZE in
  refuse ← not_below_stack ureg base;
  when refuse (swexn u sp NULL NULL NULL ureg;; mret tt);;
  page_allocation ← new_pages u sp base PAGE_SIZE;
  when (bool_decide (page_allocation < 0)) (swexn u sp NULL NULL NULL ureg;; mret tt);;
  low ← load32 current_stack_low;
  store32 current_stack_low (u32 (low - PAGE_SIZE));;
  swexn u sp autostack_top handle_autostack_text NULL ureg;;
  swexn u sp NULL NULL NULL ureg;;
  mret tt.

(** A fault of the program, from the interrupt to the registers the thread leaves
    the kernel with: the handler is entered with the frame; [u'] are its registers
    at its calls, [sp'] is where it puts their arguments. *)
Definition fault_with_autostack (kernel_esp ureg_ptr : Z) (u' : ureg_t) (sp' : Z) (u : ureg_t) (s : kstate) : outcome unit :=
  match handle u s with
  | RunHandler u exception_stack handler arg s1 =>
      if decide (handler = handle_autostack_text) then
        ('(sp, frame) ← wrap_user_provided_handler kernel_esp ureg_ptr u exception_stack handler arg;
         arg ← load32 (u32 (sp + 4));
         ureg ← load32 (u32 (sp + 8));
         handle_autostack u' sp' arg ureg) s1
      else RunHandler u exception_stack handler arg s1
  | Done _ s1 => Done tt s1
  | Switch me p s1 k => Switch me p s1 (fun s2 => obind (fun _ => mret tt) (k s2))
  | Halted s1 => Halted s1
  | UserMode u1 s1 => UserMode u1 s1
  | Spinning s1 => Spinning s1
  | Crashed => Crashed
  end.

End autostack.

(** * Memory *)

Section memory.
Context `{Platform}.

Lemma bind_UserMode {A B} (m : K A) (f : A -> K B) s u s' : m s = UserMode u s' -> (m ≫= f) s = UserMode u s'.
Proof. intros Hm. unfold mbind, K_bind. by rewrite Hm. Qed.

Lemma changed_trans s s1 s2 v n : memory_changed s s1 v n -> memory_changed s1 s2 v n -> memory_changed s s2 v n.
Proof.
  intros H1 H2. destruct (memory_same _ _ _ _ H1) as (Ek & Ec & _). destruct H1 as [E1 H1], H2 as [E2 H2]. split; [rewrite E2, E1; done|].
  intros d w a Hb Ho. rewrite (H2 d w a); [by apply (H1 d w)|unfold own_byte; by rewrite Ek|by rewrite Ec].
Qed.
Lemma changed_weaken s s' v n w m : memory_changed s s' v n -> w <= v -> v + n <= w + m -> memory_changed s s' w m.
Proof. intros [E Hm] Hw Hn. split; [done|]. intros d x a Hb Ho. apply (Hm d x a Hb). lia. Qed.

Lemma changed_own s s' v n w m : memory_changed s s' v n -> own_range s w m -> own_range s' w m.
Proof. intros Hm. destruct (memory_same _ _ _ _ Hm) as (Ek & Ec & _). unfold own_range, here. by rewrite Ek, Ec. Qed.
Lemma changed_space s s' v n F : memory_changed s s' v n -> space_ok s F -> space_ok s' F.
Proof. intros Hm. destruct (memory_same _ _ _ _ Hm) as (Ek & Ec & _). unfold space_ok. by rewrite Ek, Ec. Qed.

Lemma store_word_ok s F v w : space_ok s F -> own_range s v 4 ->
  exists s', store32 v w s = Done tt s' /\ memory_changed s s' v 4 /\ word_at s' v = u32 w /\ (mem_ok s -> mem_ok s').
Proof.
  intros Hs Hr. pose proof Hr as (H1 & H2 & _). change USER_PAGE_START with 16777216 in H1.
  destruct (store_range_ok s F v (bytes_of w) Hs Hr) as (s' & Hst & Hrest & _ & Hw & Hout).
  destruct (Hw w eq_refl) as [H3 Hld]. assert (Hm : memory_changed s s' v 4) by done.
  exists s'. split; [done|]. split; [done|]. split.
  - rewrite (load32_mapped s' F) in Hld; [by injection Hld|by eapply changed_space|]. apply own_range_mapped. by eapply changed_own.
  - intros Hmem. destruct (store_own s F v w Hs Hr Hmem) as (m & Hm' & Hok). rewrite H3 in Hm'. by injection Hm' as ->.
Qed.

(** Words stored one after the other. *)
Lemma store_args_ok args : forall s F sp, space_ok s F -> own_range s sp (4 * Z.of_nat (length args)) ->
  exists s', store_args args sp s = Done tt s' /\ memory_changed s s' sp (4 * Z.of_nat (length args)) /\
    (forall i a, args !! i = Some a -> word_at s' (sp + 4 * Z.of_nat i) = u32 a) /\ (mem_ok s -> mem_ok s').
Proof.
  induction args as [|a args IH]; intros s F sp Hs Hr.
  { exists s. split; [done|]. split; [split; [by destruct s|done]|done]. }
  cbn [length] in *. set (n := Z.of_nat (length args)) in *. replace (Z.of_nat (S (length args))) with (n + 1) in * by (unfold n; lia).
  assert (0 <= n) by (unfold n; lia). pose proof Hr as (Hr0 & Hr1 & _). change USER_PAGE_START with 16777216 in Hr0.
  destruct (store_word_ok s F sp a Hs ltac:(eapply own_range_sub; [exact Hr|lia|lia])) as (s1 & H1 & Hm1 & Hw1 & Hk1).
  cbn [store_args]. kstep H1. destruct (decide (n = 0)) as [Hn|Hn].
  { destruct args; [|unfold n in Hn; cbn in Hn; lia]. exists s1. split; [done|]. split; [by eapply changed_weaken; [exact Hm1|lia|lia]|].
    split; [|done]. intros [|i] x Hx; [|done]. cbn in Hx. injection Hx as <-. by rewrite Z.add_0_r. }
  rewrite u32_small by lia. assert (Hr' : own_range s1 (sp + 4) (4 * n)).
  { eapply changed_own; [exact Hm1|]. eapply own_range_sub; [exact Hr|lia|lia]. }
  destruct (IH s1 F (sp + 4) (changed_space _ _ _ _ _ Hm1 Hs) Hr') as (s2 & H2 & Hm2 & Hw2 & Hk2). fold n in Hm2.
  exists s2. split; [done|]. split; [|split; [|by auto]].
  - eapply changed_trans; (eapply changed_weaken; [done|lia|lia]).
  - intros [|i] x Hx; cbn in Hx.
    + injection Hx as <-. rewrite Z.add_0_r, <-Hw1. eapply word_outside; [exact Hm2| |lia].
      eapply changed_own; [exact Hm1|]. eapply own_range_sub; [exact Hr|lia|lia].
    + rewrite <-(Hw2 i x Hx). f_equal. lia.
Qed.

(** Words pushed below one another. *)
Lemma pushl_ok ws : forall s F esp, space_ok s F -> own_range s (esp - 4 * Z.of_nat (length ws)) (4 * Z.of_nat (length ws)) ->
  exists s', pushl ws esp s = Done (esp - 4 * Z.of_nat (length ws)) s' /\
    memory_changed s s' (esp - 4 * Z.of_nat (length ws)) (4 * Z.of_nat (length ws)) /\
    (forall i w, ws !! i = Some w -> word_at s' (esp - 4 * (Z.of_nat i + 1)) = u32 w) /\ (mem_ok s -> mem_ok s').
Proof.
  induction ws as [|w ws IH]; intros s F esp Hs Hr.
  { exists s. replace (esp - 4 * Z.of_nat (length (@nil Z))) with esp by (cbn; lia). split; [done|]. split; [split; [by destruct s|done]|done]. }
  cbn [length] in *. set (n := Z.of_nat (length ws)) in *. replace (Z.of_nat (S (length ws))) with (n + 1) in * by (unfold n; lia).
  assert (0 <= n) by (unfold n; lia). pose proof Hr as (Hr0 & Hr1 & _). change USER_PAGE_START with 16777216 in Hr0.
  assert (Hra : own_range s (esp - 4) 4) by (eapply own_range_sub; [exact Hr|lia|lia]).
  destruct (store_word_ok s F (esp - 4) w Hs Hra) as (s1 & H1 & Hm1 & Hw1 & Hk1).
  cbn [pushl]. rewrite u32_small by lia. kstep H1.
  assert (Hr' : own_range s1 (esp - 4 - 4 * n) (4 * n)).
  { eapply changed_own; [exact Hm1|]. eapply own_range_sub; [exact Hr|lia|lia]. }
  destruct (IH s1 F (esp - 4) (changed_space _ _ _ _ _ Hm1 Hs) Hr') as (s2 & H2 & Hm2 & Hw2 & Hk2). fold n in H2, Hm2.
  replace (esp - 4 - 4 * n) with (esp - 4 * (n + 1)) in H2, Hm2 by lia.
  exists s2. split; [exact H2|]. split; [|split; [|by auto]].
  - eapply changed_trans; (eapply changed_weaken; [done|lia|lia]).
  - intros [|i] x Hx; cbn in Hx.
    + injection Hx as <-. replace (esp - 4 * (Z.of_nat 0 + 1)) with (esp - 4) by lia. rewrite <-Hw1.
      eapply word_outside; [exact Hm2| |lia]. by eapply changed_own.
    + rewrite <-(Hw2 i x Hx). f_equal. lia.
Qed.

(** Registers that are words, and where they are after the push. *)
Definition ureg_ok (u : ureg_t) : Prop := Forall (fun w => 0 <= w < 2 ^ 32) (ureg_words u).

Lemma ureg_pushed s u top k : ureg_ok u -> 
  (forall i w, (k :: ureg_words u) !! i = Some w -> word_at s (top - 4 * (Z.of_nat i + 1)) = u32 w) -> ureg_at s (top - 84) = u.
Proof.
  intros Hu Hw. assert (Hall : forall i w, ureg_words u !! i = Some w -> word_at s (top - 84 + 4 * (19 - Z.of_nat i)) = w).
  { intros i w Hi. rewrite <-(u32_small w) by (by eapply (Forall_lookup_1 _ _ i) in Hu). rewrite <-(Hw (S i) w Hi). f_equal. lia. }
  destruct u as [c1 c2 c3 c4 c5 c6 c7 c8 c9 c10 c11 c12 c13 c14 c15 c16 c17 c18 c19 c20]. unfold ureg_at.
  pose proof (fun i w => Hall i w) as Hx. cbn in Hx. f_equal.
  - exact (Hx 19%nat _ eq_refl).
  - exact (Hx 18%nat _ eq_refl).
  - exact (Hx 17%nat _ eq_refl).
  - exact (Hx 16%nat _ eq_refl).
  - exact (Hx 15%nat _ eq_refl).
  - exact (Hx 14%nat _ eq_refl).
  - exact (Hx 13%nat _ eq_refl).
  - exact (Hx 12%nat _ eq_refl).
  - exact (Hx 11%nat _ eq_refl).
  - exact (Hx 10%nat _ eq_refl).
  - exact (Hx 9%nat _ eq_refl).
  - exact (Hx 8%nat _ eq_refl).
  - exact (Hx 7%nat _ eq_refl).
  - exact (Hx 6%nat _ eq_refl).
  - exact (Hx 5%nat _ eq_refl).
  - exact (Hx 4%nat _ eq_refl).
  - exact (Hx 3%nat _ eq_refl).
  - exact (Hx 2%nat _ eq_refl).
  - exact (Hx 1%nat _ eq_refl).
  - exact (Hx 0%nat _ eq_refl).
Qed.

End memory.

(** * The calls of the handler *)

Section calls.
Context `{Platform} `{AutostackImage}.

(** The program: its exception stack and its variable are its own memory, apart from
    each other, the handler's text is readable, and the kernel's blocks of the
    process are in order. *)
Record program_ok (s : kstate) (F : list Z) (me : addr) (t : tcb_t) (b : pcb_t) (L : list page_allocation_t) : Prop := {
  po_space : space_ok s F;
  po_mem : mem_ok s;
  po_runs : runs s me t;
  po_pcb : get_pcb (ctl s) (tcb_pcb t) = Some b;
  po_block : guest b = false /\ lock b = mutex_init;
  po_allocations : allocations_are (ctl s) (tcb_pcb t) L /\ sorted_by_base L;
  po_stack : own_range s autostack_execption_stack_space AUTOSTACK_EXCEPTION_STACK_SIZE;
  po_writable : writable_range s autostack_execption_stack_space AUTOSTACK_EXCEPTION_STACK_SIZE;
  po_low : own_range s current_stack_low 4;
  po_apart : current_stack_low + 4 <= autostack_execption_stack_space \/
    autostack_execption_stack_space + AUTOSTACK_EXCEPTION_STACK_SIZE <= current_stack_low;
  po_end : autostack_execption_stack_space + AUTOSTACK_EXCEPTION_STACK_SIZE < 2 ^ 32;
  po_text : readable_range s handle_autostack_text HANDLER_SIZE_MIN;
}.

(** A range of the exception stack. *)
Definition on_stack (v n : Z) : Prop :=
  autostack_execption_stack_space <= v /\ v + n <= autostack_execption_stack_space + AUTOSTACK_EXCEPTION_STACK_SIZE.

Lemma same_view_ranges s s' v n : kvm s' = kvm s -> cr3 s' = cr3 s ->
  (writable_range s v n -> writable_range s' v n) /\ (readable_range s v n -> readable_range s' v n).
Proof. intros Ek Ec. unfold writable_range, readable_range, here. by rewrite Ek, Ec. Qed.

Lemma program_changed s s' F me t b L v n : program_ok s F me t b L -> memory_changed s s' v n -> mem_ok s' -> program_ok s' F me t b L.
Proof.
  intros [P1 P2 P3 P4 P5 P6 P7 P8 P9 P10 P11 P12] Hm Hk. destruct (memory_same _ _ _ _ Hm) as (Ek & Ec & El).
  split; try done; unfold runs; rewrite ?El; try done.
  - by eapply changed_space.
  - by eapply changed_own.
  - by apply (same_view_ranges s).
  - by eapply changed_own.
  - by apply (same_view_ranges s).
Qed.

Section with_program.
Context (s : kstate) (F : list Z) (me : addr) (t : tcb_t) (b : pcb_t) (L : list page_allocation_t).
Context (Hp : program_ok s F me t b L).

Lemma stack_own v n : on_stack v n -> own_range s v n.
Proof using Hp. intros [H1 H2]. eapply own_range_sub; [apply Hp|lia|lia]. Qed.

Lemma stack_bounds : 16777216 <= autostack_execption_stack_space /\ autostack_execption_stack_space + 2048 < 2 ^ 32.
Proof using Hp. destruct (po_stack _ _ _ _ _ _ Hp) as (H1 & H2 & _). split; [exact H1|exact (po_end _ _ _ _ _ _ Hp)]. Qed.

Lemma top_bounds : autostack_execption_stack_space + 2045 <= autostack_top <= autostack_execption_stack_space + 2048.
Proof using.
  unfold autostack_top, ROUND_STACK, AUTOSTACK_EXCEPTION_STACK_SIZE.
  pose proof (Z.div_mod (autostack_execption_stack_space + 2048) 4 ltac:(lia)).
  pose proof (Z.mod_pos_bound (autostack_execption_stack_space + 2048) 4 ltac:(lia)). lia.
Qed.

Lemma handle_call u h : user_fault (cause u) = false -> handler_array (cause u) = Some h -> handle u s = h u s.
Proof using Hp.
  intros Hf Hh. destruct (po_runs _ _ _ _ _ _ Hp) as [Hme Ht]. unfold handle.
  kstep (running_tcb_ok _ _ Hme). kstep (tcb_at_ok _ _ _ Ht). kstep (pcb_at_ok _ _ _ (po_pcb _ _ _ _ _ _ Hp)).
  rewrite (proj1 (po_block _ _ _ _ _ _ Hp)). unfold dispatch. kstep (tcb_at_ok _ _ _ Ht).
  rewrite bool_decide_false by (rewrite Hf; by intros [? _]). by rewrite Hh.
Qed.

Lemma stack_readable v : on_stack v 80 -> readable_range s v 80.
Proof using Hp.
  intros Ho. destruct (stack_own v 80 Ho) as (H1 & H2 & H3). split; [exact H1|]. split; [done|]. intros w Hw.
  by destruct (H3 w Hw) as (f & rw & us & -> & _).
Qed.

Lemma ureg_unchanged s' v n frame : memory_changed s s' v n -> on_stack frame 80 -> frame + 80 <= v \/ v + n <= frame ->
  ureg_at s' frame = ureg_at s frame.
Proof using Hp.
  intros Hm Ho Hd. assert (Hw : forall i, 0 <= i <= 19 -> word_at s' (frame + 4 * i) = word_at s (frame + 4 * i)).
  { intros i Hi. eapply word_outside; [exact Hm| |lia]. apply stack_own. unfold on_stack in *. lia. }
  unfold ureg_at. by rewrite !Hw by lia.
Qed.

End with_program.

(** The registration with [swexn] that leaves with the registers of the frame. *)
Lemma swexn_leaves s F me t b L u' u sp frame (again : bool) : program_ok s F me t b L -> on_stack sp 16 -> on_stack frame 80 ->
  sp + 16 <= frame -> ureg_at s frame = u -> check_eflags (eflags u') (eflags u) = true ->
  let stack := if again then autostack_top else NULL in
  let text := if again then handle_autostack_text else NULL in
  exists s1 c, swexn u' sp stack text NULL frame s = UserMode u (with_ctl c s1) /\ memory_changed s s1 sp 16 /\
    (mem_ok s1) /\ upd_tcb me (swexn_registers stack text NULL) (ctl s) = Some c.
Proof.
  intros Hp Hsp Hfr Hd Hu Hfl stack text. pose proof (stack_bounds _ _ _ _ _ _ Hp) as Hb. pose proof top_bounds as Ht.
  destruct (po_text _ _ _ _ _ _ Hp) as (Ht1 & Ht2 & _). change USER_MEM_START with 16777216 in Ht1.
  destruct (store_args_ok [stack; text; NULL; frame] s F sp) as (s1 & H1 & Hm & Hw & Hk); [apply Hp|by apply (stack_own _ _ _ _ _ _ Hp)|].
  specialize (Hk (po_mem _ _ _ _ _ _ Hp)). pose proof (program_changed _ _ _ _ _ _ _ _ _ Hp Hm Hk) as Hp1.
  assert (Hu1 : ureg_at s1 frame = u) by (rewrite <-Hu; eapply ureg_unchanged; [exact Hp|exact Hm|done|cbn; lia]).
  set (v := set_cause SWEXN_INT (set_esi sp u')).
  assert (W : word_at s1 (esi v) = stack /\ word_at s1 (esi v + 4) = text /\ word_at s1 (esi v + 8) = NULL /\ word_at s1 (esi v + 12) = frame).
  { unfold on_stack, AUTOSTACK_EXCEPTION_STACK_SIZE in Hfr. assert (0 <= stack < 2 ^ 32 /\ 0 <= text < 2 ^ 32) as [B1 B2] by (unfold stack, text, HANDLER_SIZE_MIN, NULL in *; destruct again; lia).
    pose proof (Hw 0%nat _ eq_refl) as W0. pose proof (Hw 1%nat _ eq_refl) as W1. pose proof (Hw 2%nat _ eq_refl) as W2. pose proof (Hw 3%nat _ eq_refl) as W3.
    rewrite u32_small in W0, W1, W3 by lia. change (esi v) with sp. rewrite Z.add_0_r in W0. done. }
  destruct W as (W0 & W1 & W2 & W3).
  destruct (swexn_ok v s1 F me t) as (ok & Hiff & Hres); [apply Hp1|done|apply Hp1| | |].
  { apply own_range_mapped. by apply (stack_own _ _ _ _ _ _ Hp1). }
  { intros _. rewrite W3. apply own_range_mapped. by apply (stack_own _ _ _ _ _ _ Hp1). }
  rewrite W0, W1, W2, W3 in *. assert (ok = true) as ->.
  { apply Hiff. split.
    - intros Hs Ht0. unfold stack, text in *. destruct again; [|done]. split; [|apply Hp1].
      destruct (po_writable _ _ _ _ _ _ Hp1) as (V1 & V2 & V3). unfold EXCEPTION_STACK_SIZE_MIN. rewrite u32_small by lia.
      change USER_MEM_START with 16777216. unfold writable_range. change USER_MEM_START with 16777216. unfold AUTOSTACK_EXCEPTION_STACK_SIZE in *.
      split; [lia|]. split; [lia|]. intros w Hww. apply V3. lia.
    - intros _. split; [by apply (stack_readable _ _ _ _ _ _ Hp1)|]. change (eflags v) with (eflags u').
      assert (word_at s1 (frame + EFLAGS_OFFSET) = eflags u) as -> by (by rewrite <-Hu1). done. }
  destruct Hres as (c & Hc & Hres). unfold on_stack, AUTOSTACK_EXCEPTION_STACK_SIZE in Hfr. rewrite decide_False in Hres by (unfold NULL; lia). rewrite Hu1 in Hres.
  exists s1, c. split; [|split; [done|split; [done|]]].
  - unfold swexn, stub. kstep H1. fold v.
    rewrite (bind_UserMode _ _ s1 u (with_ctl c s1)); [done|]. rewrite (handle_call _ _ _ _ _ _ Hp1 v handle_swexn); done.
  - destruct (memory_same _ _ _ _ Hm) as (_ & _ & <-). done.
Qed.

(** Pages that were in use are as before. *)
Definition used_kept (s s' : kstate) : Prop :=
  cr3 s' = cr3 s /\ forall d w, vword w -> view (kvm s) d w <> Some (Unmapped PAGE_UNAVAILABLE) -> view (kvm s') d w = view (kvm s) d w.

Lemma used_ranges s s' v n : used_kept s s' -> vword v ->
  (own_range s v n -> own_range s' v n) /\ (writable_range s v n -> writable_range s' v n) /\ (readable_range s v n -> readable_range s' v n).
Proof.
  intros [Ec Hk] Hv. assert (Hh : forall w, vword w -> here s w <> Some (Unmapped PAGE_UNAVAILABLE) -> here s' w = here s w).
  { intros w Hw Hn. unfold here in *. rewrite Ec. by apply Hk. }
  split; [|split]; intros (H1 & H2 & H3); split; try done; (split; [done|]); intros w Hw; assert (vword w) as Hww by (unfold vword in *; lia).
  - destruct (H3 w Hw) as (f & rw & us & Hx & Hy). exists f, rw, us. rewrite Hh by (done || by rewrite Hx). done.
  - specialize (H3 w Hw). rewrite Hh; [done|done|]. intros Hx. by rewrite Hx in H3.
  - specialize (H3 w Hw). rewrite Hh; [done|done|]. intros Hx. by rewrite Hx in H3.
Qed.

Lemma used_word s p s' v : kept s p s' -> used_kept s s' -> own_range s v 4 -> word_at s' v = word_at s v.
Proof.
  intros Hk [Ec Hu] Hr. unfold word_at. f_equal. unfold places. rewrite <-!list_fmap_compose. apply list_fmap_ext. intros i x Hx.
  apply lookup_seqZ in Hx as [-> Hx]. cbn [compose]. unfold compose. pose proof (own_range_own s v 4 (v + (0 + Z.of_nat i)) Hr ltac:(lia)) as Hb.
  assert (place_of s' (v + (0 + Z.of_nat i)) = place_of s (v + (0 + Z.of_nat i))) as ->.
  { unfold place_of, here. rewrite Ec, Hu; [done|apply Hb|]. destruct Hb as (_ & _ & f & rw & us & -> & _). done. }
  by eapply (kp_bytes _ _ _ Hk).
Qed.

(** One page more, clear, at [base], if [ok]; every other page as before. *)
Definition page_more (s : kstate) (base : Z) (ok : bool) (s' : kstate) : Prop :=
  if ok then here s base = Some (Unmapped PAGE_UNAVAILABLE) /\
    (exists f, here s' base = Some (Mapped f READ_WRITE 1) /\ f <> ZERO_FRAME /\
      forall a, f <= a < f + PAGE_SIZE -> byte_at a s' = 0) /\
    forall d w, vword w -> ~ (d = page_of (cr3 s) /\ page_no w = page_no base) -> view (kvm s') d w = view (kvm s) d w
  else view_is (kvm s') (view (kvm s)).

Lemma page_more_used s base ok s' : cr3 s' = cr3 s -> vword base -> page_more s base ok s' -> used_kept s s'.
Proof.
  intros Ec Hb Hm. split; [done|]. intros d w Hw Hn. destruct ok; [|by apply Hm]. destruct Hm as (H1 & _ & H3). apply H3; [done|].
  intros [-> Hp]. apply Hn. rewrite <-H1. unfold here. by apply view_same_page.
Qed.

Lemma nth_page_0 base_ : vword base_ -> nth_page base_ 0 = base_.
Proof. intros Hv. unfold nth_page. rewrite Z.add_0_r. by apply u32_small. Qed.

(** Why [new_pages] of one page may fail: the machine is too small, the page is in
    use or not the user's, or there is no heap page (afterwards), no frame or no
    list node left. *)
Definition no_room (s : kstate) (F : list Z) (base : Z) (s' : kstate) : Prop :=
  new_pages_args base PAGE_SIZE = false \/ bad_page s base 0 \/ page_pool (kvm s') = [] \/ F = [] \/
  pool (allocations (ctl s)) = [].

Lemma no_room_ext s1 s2 F base s1' s2' : kvm s2 = kvm s1 -> cr3 s2 = cr3 s1 -> allocations (ctl s2) = allocations (ctl s1) ->
  kvm s2' = kvm s1' -> no_room s1 F base s1' -> no_room s2 F base s2'.
Proof. unfold no_room, bad_page, here. by intros -> -> -> ->. Qed.

Lemma new_pages_call s F me t b L u' sp base : program_ok s F me t b L -> on_stack sp 16 -> vword base -> 
  exists (ok : bool) s1 s2 F' b' L', new_pages u' sp base PAGE_SIZE s = Done (if ok then 0 else -1) s2 /\
    memory_changed s s1 sp 16 /\ kept s1 (tcb_pcb t) s2 /\ program_ok s2 F' me t b' L' /\ page_more s1 base ok s2 /\
    (ok = false -> no_room s1 F base s2).
Proof.
  intros Hp Hsp Hb. pose proof (stack_bounds _ _ _ _ _ _ Hp) as Hbd.
  assert (Hs8 : own_range s sp 8) by (apply (stack_own _ _ _ _ _ _ Hp); unfold on_stack in *; lia).
  destruct (store_args_ok [base; PAGE_SIZE] s F sp) as (s1 & H1 & Hm & Hw & Hk); [apply Hp|exact Hs8|].
  specialize (Hk (po_mem _ _ _ _ _ _ Hp)). pose proof (program_changed _ _ _ _ _ _ _ _ _ Hp Hm Hk) as Hp1.
  pose proof Hp1 as [P1 P2 P3 P4 [P5 P6] [P7 P8] P9 P10 P11 P12 P13 P14].
  set (v := set_cause NEW_PAGES_INT (set_esi sp u')).
  assert (W : word_at s1 (esi v) = base /\ word_at s1 (esi v + 4) = PAGE_SIZE).
  { pose proof (Hw 0%nat _ eq_refl) as W0. pose proof (Hw 1%nat _ eq_refl) as W1. rewrite u32_small in W0 by exact Hb.
    change (esi v) with sp. rewrite Z.add_0_r in W0. done. }
  destruct W as [W0 W1].
  destruct (new_pages_ok v s1 F me t b L P1 P3 P4 P6 P7 P8) as (ok & s2 & H2 & Hg & (F' & Hs2) & Hkp & Hal & Hso & Hres).
  { apply own_range_mapped. by eapply changed_own. }
  rewrite W0, W1 in Hres, Hal, Hso. change (Z.quot (s32 PAGE_SIZE) PAGE_SIZE) with 1 in Hres.
  pose proof Hkp as [K1 (K2 & K3 & K4) K5 K6 K7]. assert (Ec : cr3 s2 = cr3 s1) by (by rewrite K1).
  assert (Hmore : page_more s1 base ok s2).
  { destruct ok; [|apply Hres]. destruct Hres as (_ & F2 & [_ _ _ M4 M5 M6 _ _]). specialize (M4 0 ltac:(lia)). specialize (M5 0 ltac:(lia)).
    rewrite (nth_page_0 base Hb) in M4, M5. split; [done|]. split; [exact M5|]. intros d w Hww Hno. apply M6; [done|].
    destruct (decide (d = page_of (cr3 s1))) as [->|]; [right|by left]. intros j Hj. assert (j = 0) as -> by lia. rewrite (nth_page_0 base Hb).
    intros Hpg. by apply Hno. }
  pose proof (page_more_used s1 base ok s2 Ec Hb Hmore) as Hused.
  cbn [get_lock] in Hg. apply fmap_Some in Hg as (b' & Hb' & Hl'). rewrite Hb', P4 in K7. injection K7 as Hgu.
  exists ok, s1, s2, F', b', (if ok then place_allocation (PageAllocation base (s32 PAGE_SIZE)) L else L).
  split; [|split; [by eapply changed_weaken; [exact Hm|cbn; lia|cbn; lia]|split; [done|split; [|split; [done|]]]]].
  - unfold new_pages, stub. kstep H1. fold v. assert (H3 : handle v s1 = Done (if ok then succeed v else fail v) s2).
    { rewrite <-H2. by apply (handle_call _ _ _ _ _ _ Hp1 v handle_new_pages). }
    kstep H3. by destruct ok.
  - assert (R3 : runs s2 me t).
    { destruct P3 as [R1 R2]. split; [unfold running, thread_list in *; by rewrite K4, K3|unfold get_tcb in *; by rewrite K2]. }
    assert (V : vword autostack_execption_stack_space /\ vword current_stack_low /\ vword handle_autostack_text).
    { destruct P11 as (A1 & A2 & _), P14 as (B1 & B2 & _). change USER_MEM_START with 16777216 in B1. change USER_PAGE_START with 16777216 in A1.
      unfold HANDLER_SIZE_MIN in B2. unfold vword. lia. }
    destruct V as (V1 & V2 & V3). split; try done.
    + by apply K6.
    + by rewrite Hgu.
    + by apply (used_ranges s1 s2 _ _ Hused V1).
    + by apply (used_ranges s1 s2 _ _ Hused V1).
    + by apply (used_ranges s1 s2 _ _ Hused V2).
    + by apply (used_ranges s1 s2 _ _ Hused V3).
  - intros ->. destruct Hres as [_ Hr]. unfold no_room. change (s32 PAGE_SIZE) with PAGE_SIZE in Hr.
    destruct Hr as [Hr|[(j & Hj & Hr)|[Hr|[Hr|Hr]]]]; [by left|right; left|by do 2 right; left|do 3 right; left|by do 4 right].
    + by replace j with 0 in Hr by lia.
    + destruct F; [done|cbn in Hr; lia].
Qed.

(** * The handler *)

(** The thread's registration replaced, the other threads as before. *)
Definition registered (s : kstate) (me : addr) (t' : tcb_t) (s' : kstate) : Prop :=
  forall q, get_tcb (ctl s') q = if decide (q = me) then Some t' else get_tcb (ctl s) q.

Lemma upd_tcb_get p f c c' t : upd_tcb p f c = Some c' -> get_tcb c p = Some t ->
  forall q, get_tcb c' q = if decide (q = p) then Some (f t) else get_tcb c q.
Proof.
  intros Hu Ht q. unfold upd_tcb in Hu. rewrite Ht in Hu. cbn [mbind option_bind] in Hu.
  destruct (put_tcb_ok p t (f t) c Ht) as (h & Hput & _ & Hd & _). rewrite Hput in Hu. injection Hu as <-. by apply get_tcb_put.
Qed.

(** Bytes of anybody's memory but the exception stack (and, if [low], the variable). *)
Definition others_kept (s : kstate) (low : bool) (s' : kstate) : Prop :=
  forall d w a, own_byte s d w a ->
    ~ (d = page_of (cr3 s) /\ on_stack w 1) -> ~ (low = true /\ d = page_of (cr3 s) /\ current_stack_low <= w < current_stack_low + 4) ->
    byte_at a s' = byte_at a s.

(** The fault is left to the kernel: no handler is registered any more and nothing
    else has changed. *)
Record left_to_kernel (s : kstate) (me : addr) (t : tcb_t) (s' : kstate) : Prop := {
  lk_thread : registered s me (set_exception_stack NULL t) s';
  lk_view : view_is (kvm s') (view (kvm s)) /\ cr3 s' = cr3 s;
  lk_bytes : others_kept s false s';
}.

(** The stack has one page more, clear, and the handler is registered again. *)
Record stack_grown (s : kstate) (me : addr) (t : tcb_t) (base : Z) (s' : kstate) : Prop := {
  sg_thread : registered s me (set_handler_arg NULL (set_handler handle_autostack_text (set_exception_stack autostack_top t))) s';
  sg_page : page_more s base true s' /\ cr3 s' = cr3 s;
  sg_low : word_at s' current_stack_low = base;
  sg_bytes : others_kept s true s';
}.

Definition fault_base (u : ureg_t) : Z := cr2 u / PAGE_SIZE * PAGE_SIZE.

(** The fault is one on a missing page just below the stack. *)
Definition below_stack (s : kstate) (u : ureg_t) : bool :=
  bool_decide (cause u = SWEXN_CAUSE_PAGEFAULT /\ Z.land (error_code u) 1 = 0 /\ fault_base u = u32 (word_at s current_stack_low - PAGE_SIZE)).

Section handler.
Context (s : kstate) (F : list Z) (me : addr) (t : tcb_t) (b : pcb_t) (L : list page_allocation_t).
Context (u' u : ureg_t) (sp frame : Z).
Context (Hp : program_ok s F me t b L) (Hsp : on_stack sp 16) (Hfr : on_stack frame 80) (Hd : sp + 16 <= frame).
Context (Hu : ureg_at s frame = u) (Hok : ureg_ok u) (Hfl : check_eflags (eflags u') (eflags u) = true).

Lemma base_of_base : fault_base u / PAGE_SIZE * PAGE_SIZE = fault_base u.
Proof using. unfold fault_base. by rewrite Z.div_mul. Qed.

Lemma fault_base_page : vword (cr2 u) -> vword (fault_base u) /\ page_no (fault_base u) = page_no (cr2 u).
Proof using.
  unfold fault_base, vword. change PAGE_SIZE with 4096. intros Hc. pose proof (Z.div_mod (cr2 u) 4096 ltac:(lia)).
  pose proof (Z.mod_pos_bound (cr2 u) 4096 ltac:(lia)). split; [lia|]. unfold page_no, PAGE_SHIFT. rewrite !Z.shiftr_div_pow2 by lia.
  change (2 ^ 12) with 4096. by rewrite Z.div_mul.
Qed.

Lemma cr2_word : vword (cr2 u).
Proof using Hok. unfold ureg_ok in Hok. by apply (Forall_lookup_1 _ _ 18 (cr2 u)) in Hok. Qed.

Lemma frame_word k w : word_at s (frame + k) = w -> 0 <= k -> k + 4 <= 80 -> load32 (u32 (frame + k)) s = Done w s.
Proof using Hp Hfr.
  intros <- Hk Hk2. apply (load32_at s F frame 80); [apply Hp| |done|done]. apply own_range_mapped. by apply (stack_own _ _ _ _ _ _ Hp).
Qed.

Lemma low_word : load32 current_stack_low s = Done (word_at s current_stack_low) s.
Proof using Hp. apply (load32_mapped s F); [apply Hp|]. apply own_range_mapped, Hp. Qed.

Lemma refuse_ok : not_below_stack frame (fault_base u) s = Done (negb (below_stack s u)) s.
Proof using Hp Hfr Hu.
  unfold not_below_stack, below_stack. pose proof (frame_word 0 (cause u)) as L0. rewrite Z.add_0_r, u32_small in L0.
  2:{ pose proof (stack_bounds _ _ _ _ _ _ Hp). unfold on_stack, AUTOSTACK_EXCEPTION_STACK_SIZE in *. lia. }
  rewrite (bind_Done _ _ _ _ _ (L0 ltac:(rewrite <-Hu; cbn; by rewrite Z.add_0_r) ltac:(lia) ltac:(lia))). case_decide as H1.
  { by rewrite bool_decide_false by (by intros [? _]). }
  rewrite (bind_Done _ _ _ _ _ (frame_word 56 (error_code u) ltac:(by rewrite <-Hu) ltac:(lia) ltac:(lia))). case_decide as H2.
  { by rewrite bool_decide_false by (by intros (_ & ? & _)). }
  kstep low_word. rewrite base_of_base. unfold mret, K_ret. f_equal. rewrite <-bool_decide_not. apply bool_decide_ext. tauto.
Qed.

End handler.

(** Back to the kernel, from a state later in the handler. *)
Lemma leave_ok s s1 F F1 me t b b1 L L1 u' u sp frame : program_ok s F me t b L -> program_ok s1 F1 me t b1 L1 ->
  on_stack sp 16 -> on_stack frame 80 -> sp + 16 <= frame -> ureg_at s1 frame = u -> check_eflags (eflags u') (eflags u) = true ->
  view_is (kvm s1) (view (kvm s)) -> cr3 s1 = cr3 s -> (forall q, get_tcb (ctl s1) q = get_tcb (ctl s) q) -> others_kept s false s1 ->
  exists s', swexn u' sp NULL NULL NULL frame s1 = UserMode u s' /\ left_to_kernel s me t s' /\ kvm s' = kvm s1.
Proof.
  intros Hp Hp1 Hsp Hfr Hd Hu Hfl Hv Hc Ht Ho.
  destruct (swexn_leaves s1 F1 me t b1 L1 u' u sp frame false Hp1 Hsp Hfr Hd Hu Hfl) as (s2 & c & H1 & Hm & Hk & Hupd).
  destruct (memory_same _ _ _ _ Hm) as (Ek & Ec & _). exists (with_ctl c s2). split; [exact H1|]. split; [|exact Ek]. split.
  - intros q. cbn [ctl with_ctl]. rewrite (upd_tcb_get _ _ _ _ t Hupd) by apply (po_runs _ _ _ _ _ _ Hp1). by rewrite Ht.
  - split; [|by cbn [cr3 with_ctl]; rewrite Ec]. intros d w Hw. cbn [kvm with_ctl]. rewrite Ek. by apply Hv.
  - intros d w a Hb Hns Hnl. change (byte_at a (with_ctl c s2)) with (byte_at a s2). rewrite <-(Ho d w a Hb Hns Hnl).
    destruct Hm as [_ Hm]. apply (Hm d w).
    + destruct Hb as (B1 & B2 & B3). split; [done|]. split; [done|]. by rewrite Hv.
    + rewrite Hc. intros [-> Hw]. apply Hns. split; [done|]. unfold on_stack in *. lia.
Qed.

Section grow.
Context (s : kstate) (F : list Z) (me : addr) (t : tcb_t) (b : pcb_t) (L : list page_allocation_t).
Context (u' u : ureg_t) (sp frame : Z).
Context (Hp : program_ok s F me t b L) (Hsp : on_stack sp 16) (Hfr : on_stack frame 80) (Hd : sp + 16 <= frame).
Context (Hu : ureg_at s frame = u) (Hok : ureg_ok u) (Hfl : check_eflags (eflags u') (eflags u) = true).

(** After the call for a page: what has not changed. *)
Lemma after_pages s1 s2 F' b' L' ok : memory_changed s s1 sp 16 -> kept s1 (tcb_pcb t) s2 -> program_ok s2 F' me t b' L' ->
  page_more s1 (fault_base u) ok s2 ->
  used_kept s s2 /\ ureg_at s2 frame = u /\ (forall q, get_tcb (ctl s2) q = get_tcb (ctl s) q) /\ others_kept s false s2 /\
  word_at s2 current_stack_low = word_at s current_stack_low /\ page_more s (fault_base u) ok s2.
Proof using Hp Hsp Hfr Hd Hu Hok.
  intros Hm Hk Hp2 Hmore. destruct (memory_same _ _ _ _ Hm) as (Ek & Ec & El). pose proof Hk as [K1 (K2 & _) K5 _ _].
  assert (Ec2 : cr3 s2 = cr3 s1) by (by rewrite K1).
  destruct (fault_base_page u (cr2_word _ Hok)) as [Hb _].
  pose proof (page_more_used s1 (fault_base u) ok s2 Ec2 Hb Hmore) as Hus.
  assert (Hss : used_kept s s2) by (destruct Hus as [U1 U2]; split; [by rewrite U1|by rewrite Ek in U2]).
  assert (Hapart : current_stack_low + 4 <= sp \/ sp + 16 <= current_stack_low).
  { pose proof (po_apart _ _ _ _ _ _ Hp). unfold on_stack, AUTOSTACK_EXCEPTION_STACK_SIZE in *. lia. }
  split; [done|]. split; [|split; [|split; [|split]]].
  - assert (Hu1 : ureg_at s1 frame = u) by (rewrite <-Hu; eapply ureg_unchanged; [exact Hp|exact Hm|done|lia]).
    rewrite <-Hu1. assert (Hw : forall i, 0 <= i <= 19 -> word_at s2 (frame + 4 * i) = word_at s1 (frame + 4 * i)).
    { intros i Hi. eapply used_word; [exact Hk|exact Hus|]. eapply changed_own; [exact Hm|]. apply (stack_own _ _ _ _ _ _ Hp). unfold on_stack in *. lia. }
    unfold ureg_at. by rewrite !Hw by lia.
  - intros q. unfold get_tcb. by rewrite K2, El.
  - intros d w a Hb' Hns _. rewrite (K5 d w a) by (unfold own_byte; by rewrite Ek). destruct Hm as [_ Hm]. apply (Hm d w a Hb').
    intros [-> Hw]. apply Hns. split; [done|]. unfold on_stack in *. lia.
  - rewrite (used_word s1 _ s2 _ Hk Hus) by (eapply changed_own; [exact Hm|apply Hp]). eapply word_outside; [exact Hm|apply Hp|lia].
  - destruct ok; [|unfold page_more in *; by rewrite Ek in Hmore]. unfold page_more, here in *. by rewrite Ek, Ec in Hmore.
Qed.

(** Memory changed later on, on the stack and in the variable only, does not touch
    the new page. *)
Lemma page_more_changed s2 s3 v n : page_more s (fault_base u) true s2 -> used_kept s s2 -> memory_changed s2 s3 v n -> own_range s v n -> 
  page_more s (fault_base u) true s3.
Proof using Hp Hok.
  intros (M1 & (f & M2 & M3 & M4) & M5) Hus Hm Hr. destruct (memory_same _ _ _ _ Hm) as (Ek & Ec & _).
  destruct (fault_base_page u (cr2_word _ Hok)) as [Hb _]. split; [done|]. split; [|unfold here in *; by rewrite Ek].
  exists f. unfold here in *. rewrite Ek, Ec. split; [done|]. split; [done|]. intros a Ha. rewrite <-(M4 a Ha).
  assert (Hub : USER_PAGE_START <= fault_base u).
  { destruct (decide (USER_PAGE_START <= fault_base u)) as [|Hlt]; [done|]. destruct (po_space _ _ _ _ _ _ Hp) as [[_ Hf] Hdir].
    pose proof (kernel_ok _ _ Hf _ (fault_base u) Hdir ltac:(unfold vword in Hb; lia)) as Hk. by rewrite Hk in M1. }
  assert (Hpo : page_of (fault_base u) = fault_base u).
  { apply page_of_id; [done|]. unfold fault_base. by rewrite Z.mod_mul. }
  destruct (page_addresses (fault_base u) (a - f) Hb ltac:(lia)) as (P1 & P2 & P3). rewrite Hpo in P1, P2, P3.
  assert (Hsame : forall d, view (kvm s2) d (fault_base u + (a - f)) = view (kvm s2) d (fault_base u)) by (intros d; by apply view_same_page).
  destruct Hm as [_ Hm]. apply (Hm (page_of (cr3 s2)) (fault_base u + (a - f)) a).
  - split; [done|]. split; [lia|]. exists f, READ_WRITE, 1. rewrite Hsame. split; [done|]. split; [done|lia].
  - intros [_ Hw]. destruct Hr as (R1 & R2 & R3). destruct (R3 _ Hw) as (g & rw & us & Hx & _). unfold here in Hx.
    rewrite (view_same_page _ _ _ (fault_base u)) in Hx by done. congruence.
Qed.

Lemma handle_autostack_ok arg : exists s', handle_autostack u' sp arg frame s = UserMode u s' /\
  if below_stack s u
  then stack_grown s me t (fault_base u) s' \/ left_to_kernel s me t s' /\ no_room s F (fault_base u) s'
  else left_to_kernel s me t s'.
Proof using Hp Hsp Hfr Hd Hu Hok Hfl.
  unfold handle_autostack. kstep (frame_word s F me t b L frame Hp Hfr 4 (cr2 u) ltac:(by rewrite <-Hu) ltac:(lia) ltac:(lia)).
  fold (fault_base u). kstep (refuse_ok s F me t b L u frame Hp Hfr Hu). destruct (below_stack s u) eqn:Hbs; cbn [negb when].
  2:{ destruct (leave_ok s s F F me t b b L L u' u sp frame Hp Hp Hsp Hfr Hd Hu Hfl) as (s' & H1 & H2 & _); try done.
      exists s'. split; [|done]. apply bind_UserMode. by apply bind_UserMode. }
  kpure. destruct (fault_base_page u (cr2_word _ Hok)) as [Hb _].
  destruct (new_pages_call s F me t b L u' sp (fault_base u) Hp Hsp Hb) as (ok & s1 & s2 & F' & b' & L' & H1 & Hm & Hk & Hp2 & Hmore & Hno).
  destruct (after_pages s1 s2 F' b' L' ok Hm Hk Hp2 Hmore) as (Hus & Hu2 & Ht2 & Ho2 & Hw2 & Hmore2). kstep H1.
  destruct ok.
  2:{ rewrite bool_decide_true by done. cbn [when].
      destruct (leave_ok s s2 F F' me t b b' L L' u' u sp frame Hp Hp2 Hsp Hfr Hd Hu2 Hfl) as (s' & H2 & H3 & H4); try done; [apply Hus|].
      destruct (memory_same _ _ _ _ Hm) as (Ek & Ec & El).
      exists s'. split; [|right; split; [done|]; eapply no_room_ext; [by rewrite Ek|by rewrite Ec|by rewrite El|exact H4|by apply Hno]]. apply bind_UserMode. by apply bind_UserMode. }
  rewrite bool_decide_false by done. cbn [when]. kpure. kstep (low_word s2 F' me t b' L' Hp2). rewrite Hw2.
  assert (Hbase : fault_base u = u32 (word_at s current_stack_low - PAGE_SIZE)) by (by apply bool_decide_eq_true in Hbs as (_ & _ & ?)).
  rewrite <-Hbase. destruct (store_word_ok s2 F' current_stack_low (fault_base u)) as (s3 & H3 & Hm3 & Hw3 & Hk3); [apply Hp2..|].
  kstep H3. pose proof (program_changed _ _ _ _ _ _ _ _ _ Hp2 Hm3 (Hk3 (po_mem _ _ _ _ _ _ Hp2))) as Hp3.
  assert (Hapart : current_stack_low + 4 <= frame \/ frame + 80 <= current_stack_low).
  { pose proof (po_apart _ _ _ _ _ _ Hp). unfold on_stack, AUTOSTACK_EXCEPTION_STACK_SIZE in *. lia. }
  assert (Hu3 : ureg_at s3 frame = u) by (rewrite <-Hu2; eapply ureg_unchanged; [exact Hp2|exact Hm3|done|lia]).
  destruct (swexn_leaves s3 F' me t b' L' u' u sp frame true Hp3 Hsp Hfr Hd Hu3 Hfl) as (s4 & c & H4 & Hm4 & Hk4 & Hupd).
  destruct (memory_same _ _ _ _ Hm3) as (Ek3 & Ec3 & El3). destruct (memory_same _ _ _ _ Hm4) as (Ek4 & Ec4 & El4).
  exists (with_ctl c s4). split; [by apply bind_UserMode|]. left.
  assert (Hr3 : own_range s current_stack_low 4) by apply Hp. assert (Hr4 : own_range s sp 16) by by apply (stack_own _ _ _ _ _ _ Hp).
  pose proof (page_more_changed s2 s3 _ _ Hmore2 Hus Hm3 Hr3) as Hmore3.
  assert (Hus3 : used_kept s s3) by (destruct Hus as [U1 U2]; split; [by rewrite Ec3|by rewrite Ek3]).
  split.
  - intros q. cbn [ctl with_ctl]. rewrite (upd_tcb_get _ _ _ _ t Hupd) by (rewrite El3; apply (po_runs _ _ _ _ _ _ Hp2)). rewrite El3, Ht2.
    case_decide; [|done]. f_equal. unfold swexn_registers. rewrite decide_True; [done|].
    pose proof (stack_bounds _ _ _ _ _ _ Hp). pose proof top_bounds. destruct (po_text _ _ _ _ _ _ Hp) as (Ht1 & _).
    change USER_MEM_START with 16777216 in Ht1. unfold NULL. lia.
  - split; [exact (page_more_changed s3 s4 _ _ Hmore3 Hus3 Hm4 Hr4)|]. cbn [cr3 with_ctl]. rewrite Ec4. apply Hus3.
  - change (word_at (with_ctl c s4) current_stack_low) with (word_at s4 current_stack_low).
    rewrite <-(u32_small (fault_base u)) by exact Hb. rewrite <-Hw3. eapply word_outside; [exact Hm4|apply Hp3|].
    unfold on_stack, AUTOSTACK_EXCEPTION_STACK_SIZE in *. pose proof (po_apart _ _ _ _ _ _ Hp). unfold AUTOSTACK_EXCEPTION_STACK_SIZE in *. lia.
  - intros d w a Hb' Hns Hnl. change (byte_at a (with_ctl c s4)) with (byte_at a s4).
    assert (Hown : forall s', used_kept s s' -> own_byte s' d w a).
    { intros s' [_ U]. destruct Hb' as (B1 & B2 & f & rw & us & B3 & B4). split; [done|]. split; [done|]. exists f, rw, us. rewrite U; [done|done|by rewrite B3]. }
    rewrite <-(Ho2 d w a Hb' Hns) by (by intros [? _]).
    destruct Hm4 as [_ Hm4]. rewrite (Hm4 d w a); [destruct Hm3 as [_ Hm3]; apply (Hm3 d w a)|by apply Hown|].
    + by apply Hown.
    + destruct Hus as [-> _]. intros [-> Hw]. by apply Hnl.
    + destruct Hus3 as [-> _]. intros [-> Hw]. apply Hns. split; [done|]. unfold on_stack in *. lia.
Qed.

End grow.

(** * From the fault to the retry *)

Lemma program_unregistered s F me t b L : program_ok s F me t b L ->
  exists c, update_tcb me (set_exception_stack NULL) s = Done tt (with_ctl c s) /\
    program_ok (with_ctl c s) F me (set_exception_stack NULL t) b L /\ allocations c = allocations (ctl s) /\
    forall q, get_tcb c q = if decide (q = me) then Some (set_exception_stack NULL t) else get_tcb (ctl s) q.
Proof.
  intros [P1 P2 [R1 R2] P4 P5 [P6 P7] P8 P9 P10 P11 P12 P13]. destruct (upd_tcb_some me (set_exception_stack NULL) (ctl s) t R2) as [c Hc].
  pose proof (upd_tcb_get _ _ _ _ t Hc R2) as Hg. exists c. split; [by apply ctl_upd_ok|].
  assert (E : c = set_tcbs (tcbs c) (ctl s)).
  { unfold upd_tcb in Hc. rewrite R2 in Hc. cbn [mbind option_bind] in Hc.
    destruct (put_tcb_ok me t (set_exception_stack NULL t) (ctl s) R2) as (h & Hput & _). rewrite Hput in Hc. by injection Hc as <-. }
  split; [|split; [by rewrite E|done]]. split; try done; cbn [ctl with_ctl].
  - split; cbn [ctl with_ctl]; [by rewrite E|]. by rewrite Hg, decide_True.
  - by rewrite E.
  - split; [|done]. by rewrite E.
Qed.

(** The frame. *)
Lemma frame_ok s F me t b L kernel_esp ureg_ptr u arg : program_ok s F me t b L -> ureg_ok u ->
  let frame := autostack_top - 84 in
  exists s', wrap_user_provided_handler kernel_esp ureg_ptr u autostack_top handle_autostack_text arg s = Done (frame - 24, frame) s' /\
    memory_changed s s' (frame - 24) 108 /\ mem_ok s' /\ ureg_at s' frame = u /\ word_at s' (frame - 16) = frame.
Proof.
  intros Hp Hu frame. pose proof (stack_bounds _ _ _ _ _ _ Hp) as Hb. pose proof top_bounds as Ht.
  destruct (pushl_ok (kernel_esp :: ureg_words u) s F autostack_top) as (s1 & H1 & Hm1 & Hw1 & Hk1); [apply Hp| |].
  { apply (stack_own _ _ _ _ _ _ Hp). unfold on_stack, AUTOSTACK_EXCEPTION_STACK_SIZE. cbn. lia. }
  specialize (Hk1 (po_mem _ _ _ _ _ _ Hp)). pose proof (program_changed _ _ _ _ _ _ _ _ _ Hp Hm1 Hk1) as Hp1.
  change (4 * Z.of_nat (length (kernel_esp :: ureg_words u))) with 84 in H1, Hm1. fold frame in H1, Hm1.
  pose proof (ureg_pushed s1 u autostack_top kernel_esp Hu Hw1) as Hu1. fold frame in Hu1.
  destruct (pushl_ok [ureg_ptr; autostack_top; handle_autostack_text; frame; arg; NULL] s1 F frame) as (s2 & H2 & Hm2 & Hw2 & Hk2); [apply Hp1| |].
  { apply (stack_own _ _ _ _ _ _ Hp1). unfold on_stack, AUTOSTACK_EXCEPTION_STACK_SIZE, frame. cbn. lia. }
  change (4 * Z.of_nat (length [ureg_ptr; autostack_top; handle_autostack_text; frame; arg; NULL])) with 24 in H2, Hm2.
  exists s2. split; [|split; [|split; [by apply Hk2|split]]].
  - unfold wrap_user_provided_handler. kstep H1. by kstep H2.
  - eapply changed_trans; (eapply changed_weaken; [done|lia|lia]).
  - rewrite <-Hu1. eapply ureg_unchanged; [exact Hp1|exact Hm2| |lia]. unfold on_stack, AUTOSTACK_EXCEPTION_STACK_SIZE, frame. lia.
  - specialize (Hw2 3%nat frame eq_refl). rewrite u32_small in Hw2 by (unfold frame; lia). replace (frame - 16) with (frame - 4 * (Z.of_nat 3 + 1)) by lia. exact Hw2.
Qed.

(** Seen from the state of the fault: the frame is on the exception stack. *)
Lemma from_fault s c s2 F me t b L v n : program_ok s F me t b L -> 
  (forall q, get_tcb c q = if decide (q = me) then Some (set_exception_stack NULL t) else get_tcb (ctl s) q) ->
  allocations c = allocations (ctl s) -> memory_changed (with_ctl c s) s2 v n -> on_stack v n ->
  (forall u, below_stack s2 u = below_stack s u) /\
  (forall s', left_to_kernel s2 me (set_exception_stack NULL t) s' -> left_to_kernel s me t s') /\
  (forall base s', stack_grown s2 me (set_exception_stack NULL t) base s' -> stack_grown s me t base s') /\
  (forall base s', no_room s2 F base s' -> no_room s F base s').
Proof.
  intros Hp Hg Ha Hm Hon. destruct (memory_same _ _ _ _ Hm) as (Ek & Ec & El). cbn [ctl kvm cr3 with_ctl] in Ek, Ec, El.
  assert (Hreg : forall t' s', registered s2 me t' s' -> registered s me t' s').
  { intros t' s' Hr q. rewrite Hr, El, Hg. by case_decide. }
  assert (Hoth : forall low s', others_kept s2 low s' -> others_kept s low s').
  { intros low s' Ho d w a Hb Hns Hnl. rewrite (Ho d w a); [|unfold own_byte; by rewrite Ek|by rewrite Ec|by rewrite Ec].
    destruct Hm as [_ Hm]. apply (Hm d w a Hb). cbn [cr3 with_ctl]. intros [-> Hw]. apply Hns. split; [done|]. unfold on_stack in *. lia. }
  split; [|split; [|split]].
  - intros u. unfold below_stack. assert (word_at s2 current_stack_low = word_at s current_stack_low) as ->; [|done].
    change (word_at s current_stack_low) with (word_at (with_ctl c s) current_stack_low). eapply word_outside; [exact Hm|apply Hp|].
    pose proof (po_apart _ _ _ _ _ _ Hp). unfold on_stack, AUTOSTACK_EXCEPTION_STACK_SIZE in *. lia.
  - intros s' [H1 [H2 H3] H4]. split; [by apply Hreg|rewrite <-Ek, <-Ec; done|by apply Hoth].
  - intros base s' [H1 [H2 H3] H4 H5]. split; [by apply Hreg| |done|by apply Hoth].
    rewrite <-Ec. split; [|done]. unfold page_more, here in *. by rewrite <-Ek, <-Ec.
  - intros base s'. apply no_room_ext; [done|done|by rewrite El|done].
Qed.

(** C27. The stack of a program linked with libautostack grows.  When the program
    touches a missing page and its handler is registered, the kernel builds the
    frame on the exception stack and enters the handler, which ends by leaving the
    kernel with exactly the registers of the fault, so the instruction is tried
    again.  If the page is the one just below the stack, it is then mapped, writable
    and clear, the recorded end of the stack is its base, the handler is registered
    for the next fault, and no other page and no byte elsewhere has changed, unless
    there was no room for the page ([no_room]: it was not an unused user page, or
    the machine is out of frames, heap pages or list nodes).  When there is no room,
    and when the fault is elsewhere, the handler is not registered any more, so that
    the kernel itself deals with the fault when it comes again, and nothing else has
    changed. *)
Theorem stack_grows_on_fault (u u' : ureg_t) (s : kstate) (F : list Z) (me : addr) (t : tcb_t) (b : pcb_t) (L : list page_allocation_t)
    (kernel_esp ureg_ptr sp' : Z)
    (Hp : program_ok s F me t b L) (Hreg : exception_stack t = autostack_top /\ handler t = handle_autostack_text)
    (Hcause : cause u = IDT_PF) (Hu : ureg_ok u)
    (Hsp : autostack_execption_stack_space <= sp' /\ sp' + 16 <= autostack_top - 108)
    (Hfl : check_eflags (eflags u') (eflags u) = true) :
  exists s', fault_with_autostack kernel_esp ureg_ptr u' sp' u s = UserMode u s' /\
    if below_stack s u then
      stack_grown s me t (fault_base u) s' /\ (exists f, here s' (cr2 u) = Some (Mapped f READ_WRITE 1)) \/
      left_to_kernel s me t s' /\ no_room s F (fault_base u) s'
    else left_to_kernel s me t s'.
Proof.
  pose proof (stack_bounds _ _ _ _ _ _ Hp) as Hb. pose proof top_bounds as Ht. destruct Hreg as [Hes Hh].
  destruct (po_runs _ _ _ _ _ _ Hp) as [Hme Htm]. destruct (program_unregistered s F me t b L Hp) as (c & H1 & Hp1 & Hal & Hg).
  assert (Hrun : handle u s = RunHandler u autostack_top handle_autostack_text (handler_arg t) (with_ctl c s)).
  { unfold handle. kstep (running_tcb_ok _ _ Hme). kstep (tcb_at_ok _ _ _ Htm). kstep (pcb_at_ok _ _ _ (po_pcb _ _ _ _ _ _ Hp)).
    rewrite (proj1 (po_block _ _ _ _ _ _ Hp)). unfold dispatch. kstep (tcb_at_ok _ _ _ Htm).
    rewrite bool_decide_true by (rewrite Hcause, Hes; split; [done|unfold NULL; lia]). kstep H1. by rewrite Hes, Hh. }
  destruct (frame_ok (with_ctl c s) F me _ b L kernel_esp ureg_ptr u (handler_arg t) Hp1 Hu) as (s2 & H2 & Hm & Hk & Hu2 & Hw).
  pose proof (program_changed _ _ _ _ _ _ _ _ _ Hp1 Hm Hk) as Hp2. set (frame := autostack_top - 84) in *.
  assert (Hon : on_stack (frame - 24) 108) by (unfold on_stack, AUTOSTACK_EXCEPTION_STACK_SIZE, frame; lia).
  destruct (from_fault s c s2 F me t b L _ _ Hp Hg Hal Hm Hon) as (Hbs & Hl & Hgr & Hno).
  assert (Hfr : on_stack frame 80) by (unfold on_stack, AUTOSTACK_EXCEPTION_STACK_SIZE, frame; lia).
  destruct (handle_autostack_ok s2 F me _ b L u' u sp' frame Hp2) with (arg := word_at s2 (frame - 20)) as (s' & H3 & H4);
    [unfold on_stack, AUTOSTACK_EXCEPTION_STACK_SIZE; lia|done|unfold frame; lia|done..|].
  exists s'. split.
  - unfold fault_with_autostack. rewrite Hrun, decide_True by done. kstep H2. cbv iota beta.
    assert (Hld : forall k, 0 <= k -> k + 4 <= 24 -> load32 (u32 (frame - 24 + k)) s2 = Done (word_at s2 (frame - 24 + k)) s2).
    { intros k K1 K2. apply (load32_at s2 F (frame - 24) 24); [apply Hp2| |lia|lia]. apply own_range_mapped.
      apply (stack_own _ _ _ _ _ _ Hp2). unfold on_stack in *. lia. }
    kstep (Hld 4 ltac:(lia) ltac:(lia)). kstep (Hld 8 ltac:(lia) ltac:(lia)).
    replace (frame - 24 + 4) with (frame - 20) by lia. replace (frame - 24 + 8) with (frame - 16) by lia. by rewrite Hw.
  - rewrite Hbs in H4. destruct (below_stack s u); [|by apply Hl]. destruct H4 as [H4|[H4 H5]]; [left|right; split; [by apply Hl|by apply Hno]].
    split; [by apply Hgr|]. destruct (sg_page _ _ _ _ _ H4) as [(_ & (f & Hf & _) & _) _]. exists f.
    destruct (fault_base_page u (cr2_word _ Hu)) as [Hvb Hpg]. rewrite <-Hf. unfold here. apply view_same_page; [by apply cr2_word|done|done].
Qed.


(** What [install_autostack] sets up is what the theorem asks for. *)
Lemma install_autostack_ok s F me t b L u sp stack_high stack_low : program_ok s F me t b L -> own_range s sp 16 ->
  sp + 16 <= current_stack_low \/ current_stack_low + 4 <= sp -> vword stack_low ->
  exists s', install_autostack u sp stack_high stack_low s = Done tt s' /\
    program_ok s' F me (set_handler_arg NULL (set_handler handle_autostack_text (set_exception_stack autostack_top t))) b L /\
    word_at s' current_stack_low = stack_low.
Proof.
  intros Hp Hsp Hd Hl. pose proof (stack_bounds _ _ _ _ _ _ Hp) as Hb. pose proof top_bounds as Ht.
  destruct (po_text _ _ _ _ _ _ Hp) as (Ht1 & Ht2 & _). change USER_MEM_START with 16777216 in Ht1. unfold HANDLER_SIZE_MIN in Ht2.
  set (args := [autostack_top; handle_autostack_text; NULL; NULL]).
  destruct (store_args_ok args s F sp) as (s1 & H1 & Hm & Hw & Hk); [apply Hp|exact Hsp|].
  specialize (Hk (po_mem _ _ _ _ _ _ Hp)). pose proof (program_changed _ _ _ _ _ _ _ _ _ Hp Hm Hk) as Hp1.
  set (v := set_cause SWEXN_INT (set_esi sp u)).
  assert (W : word_at s1 (esi v) = autostack_top /\ word_at s1 (esi v + 4) = handle_autostack_text /\ word_at s1 (esi v + 8) = NULL /\
    word_at s1 (esi v + 12) = NULL).
  { pose proof (Hw 0%nat _ eq_refl) as W0. pose proof (Hw 1%nat _ eq_refl) as W1. pose proof (Hw 2%nat _ eq_refl) as W2. pose proof (Hw 3%nat _ eq_refl) as W3.
    rewrite u32_small in W0, W1 by lia. change (esi v) with sp. rewrite Z.add_0_r in W0. done. }
  destruct W as (W0 & W1 & W2 & W3). destruct (swexn_ok v s1 F me t) as (ok & Hiff & Hres); [apply Hp1|done|apply Hp1| |by intros []|].
  { apply own_range_mapped. by eapply changed_own. }
  rewrite W0, W1, W2, W3 in *. assert (ok = true) as ->.
  { apply Hiff. split; [|by intros []]. intros _ _. split; [|apply Hp1]. destruct (po_writable _ _ _ _ _ _ Hp1) as (V1 & V2 & V3).
    unfold EXCEPTION_STACK_SIZE_MIN, writable_range, AUTOSTACK_EXCEPTION_STACK_SIZE in *. rewrite u32_small by lia. change USER_MEM_START with 16777216.
    split; [lia|]. split; [lia|]. intros w Hww. apply V3. lia. }
  destruct Hres as (c & Hc & Hres). rewrite decide_True in Hres by done.
  assert (Hreg : swexn_registers autostack_top handle_autostack_text NULL t =
    set_handler_arg NULL (set_handler handle_autostack_text (set_exception_stack autostack_top t))).
  { unfold swexn_registers. rewrite decide_True; [done|]. unfold NULL. lia. }
  pose proof (upd_tcb_get _ _ _ _ t Hc (proj2 (po_runs _ _ _ _ _ _ Hp1))) as Hg. rewrite Hreg in Hg.
  assert (E : c = set_tcbs (tcbs c) (ctl s1)).
  { unfold upd_tcb in Hc. rewrite (proj2 (po_runs _ _ _ _ _ _ Hp1)) in Hc. cbn [mbind option_bind] in Hc.
    destruct (put_tcb_ok me t (swexn_registers autostack_top handle_autostack_text NULL t) (ctl s1) (proj2 (po_runs _ _ _ _ _ _ Hp1))) as (h & Hput & _).
    rewrite Hput in Hc. by injection Hc as <-. }
  assert (Hp2 : program_ok (with_ctl c s1) F me (set_handler_arg NULL (set_handler handle_autostack_text (set_exception_stack autostack_top t))) b L).
  { destruct Hp1 as [P1 P2 [R1 R2] P4 P5 [P6 P7] P8 P9 P10 P11 P12 P13]. split; try done; cbn [ctl with_ctl].
    - split; cbn [ctl with_ctl]; [by rewrite E|]. by rewrite Hg, decide_True.
    - by rewrite E.
    - split; [|done]. by rewrite E. }
  destruct (store_word_ok (with_ctl c s1) F current_stack_low stack_low) as (s2 & H2 & Hm2 & Hw2 & Hk2); [apply Hp2..|].
  exists s2. split; [|split; [by eapply program_changed; [exact Hp2|exact Hm2|by apply Hk2, Hp2]|by rewrite Hw2, u32_small]].
  unfold install_autostack, swexn, stub.
  assert (H3 : (store_args args sp;; r ← handle (set_cause SWEXN_INT (set_esi sp u)); mret (s32 (eax r))) s = Done 0 (with_ctl c s1)).
  { kstep H1. fold v. assert (H4 : handle v s1 = Done (succeed v) (with_ctl c s1)) by (rewrite <-Hres; by apply (handle_call _ _ _ _ _ _ Hp1 v handle_swexn)).
    by kstep H4. }
  kstep H3. rewrite bool_decide_true by done. rewrite (bind_Done _ _ _ _ _ (affirm_ok true (with_ctl c s1) eq_refl)). exact H2.
Qed.

End calls.

(** ** A concrete fault *)

#[export] Instance demo_image : AutostackImage := {|
  autostack_execption_stack_space := 0x1003000; current_stack_low := 0x1003900; handle_autostack_text := 0x1003a00 |}.

Definition demo_program_tcb : tcb_t :=
  set_handler_arg NULL (set_handler 0x1003a00 (set_exception_stack 0x1003800 (demo_tcb 5000 1 RUNNING_STATE blocking_none))).
Definition demo_program_ctrl : ctrl :=
  set_tcbs (Zone (<[100 := Node 120 110 demo_program_tcb]> (cells (tcbs demo_ctrl))) (pool (tcbs demo_ctrl))) demo_ctrl.

(** The stack ends at 0x1009000; the program writes a word below. *)
Definition demo_program : kstate :=
  with_ctl demo_program_ctrl (put_bytes (imap (fun i x => (0x1001900 + Z.of_nat i, x)) (bytes_of 0x1009000)) demo_user_state).
Definition demo_stack_fault : ureg_t :=
  Ureg IDT_PF 0x1008ffc 43 43 43 43 0 0 0x1009010 0 0 0 0 7 6 0x1000100 35 0x202 0x1008ffc 43.

Lemma demo_room_page w : 0x1003000 <= w < 0x1004000 -> here demo_program w = Some (Mapped 0x1001000 READ_WRITE 1).
Proof.
  intros Hw. change (here demo_program w) with (here demo_user_state w). rewrite <-(proj1 demo_views). unfold here.
  apply view_same_page; [unfold vword; lia|done|]. unfold page_no, PAGE_SHIFT. rewrite !Z.shiftr_div_pow2 by lia.
  change (2 ^ 12) with 4096. change (0x1003ffc / 4096) with 4099. pose proof (Z.div_mod w 4096). pose proof (Z.mod_pos_bound w 4096). lia.
Qed.

Lemma demo_program_ok : exists F, program_ok demo_program F 100 demo_program_tcb (demo_pcb 100) [].
Proof.
  destruct demo_user_ok as [F HF]. exists F.
  assert (Hv : forall (g : option page_view -> bool) v n, 0x1003000 <= v -> v + n <= 0x1004000 -> g (Some (Mapped 0x1001000 READ_WRITE 1)) = true ->
    USER_MEM_START <= v /\ v + n <= 2 ^ 32 /\ forall w, v <= w < v + n -> g (here demo_program w) = true).
  { intros g v n H1 H2 Hg. change USER_MEM_START with 16777216. split; [lia|]. split; [lia|]. intros w Hw. by rewrite demo_room_page by lia. }
  split; try done.
  - change (mem_ok (put_bytes (imap (fun i x => (0x1001900 + Z.of_nat i, x)) (bytes_of 0x1009000)) demo_user_state)).
    apply mem_ok_put. intros a. vm_compute. by split.
  - split; [exact demo_allocations|constructor].
  - by apply (demo_range 0x1003000 2048).
  - by apply (Hv writable_view).
  - by apply (demo_range 0x1003900 4).
  - right. done.
  - by apply (Hv readable_view).
Qed.

(** There is a heap page left whatever the handler does. *)
Lemma demo_heap_left : match fault_with_autostack 0x8000 0x7f00 demo_stack_fault 0x1003100 demo_stack_fault demo_program with
  | UserMode _ s' => page_pool (kvm s') <> [] | _ => False end.
Proof. vm_compute. discriminate. Qed.

Lemma stack_grows_on_fault_witness :
  exists s', fault_with_autostack 0x8000 0x7f00 demo_stack_fault 0x1003100 demo_stack_fault demo_program = UserMode demo_stack_fault s' /\
    stack_grown demo_program 100 demo_program_tcb 0x1008000 s' /\ (exists f, here s' 0x1008ffc = Some (Mapped f READ_WRITE 1)).
Proof.
  destruct demo_program_ok as [F Hp].
  destruct (stack_grows_on_fault demo_stack_fault demo_stack_fault demo_program F 100 demo_program_tcb (demo_pcb 100) [] 0x8000 0x7f00 0x1003100 Hp)
    as (s' & H1 & H2); [split; reflexivity|reflexivity| |split; vm_compute; discriminate|vm_compute; reflexivity|].
  - unfold ureg_ok, ureg_words, demo_stack_fault. cbn [cause cr2 ds es fs gs edi esi ebp zero ebx edx ecx eax error_code eip cs eflags esp ss].
    repeat (constructor; [split; [discriminate|reflexivity]|]). constructor.
  - exists s'. split; [exact H1|]. assert (E : below_stack demo_program demo_stack_fault = true) by (vm_compute; reflexivity). rewrite E in H2.
    destruct H2 as [H2|[_ H2]]; [exact H2|exfalso]. pose proof demo_heap_left as Hleft. rewrite H1 in Hleft.
    destruct H2 as [H2|[[H2|H2]|[H2|[H2|H2]]]].
    + vm_compute in H2. discriminate H2.
    + vm_compute in H2. discriminate H2.
    + apply H2. vm_compute. reflexivity.
    + exact (Hleft H2).
    + destruct (po_space _ _ _ _ _ _ Hp) as [[_ Hf] _]. destruct (pool_ok _ _ Hf) as (Hz & _ & _ & _ & l & Hr & Hal & Hc). subst F.
      apply Forall2_nil_inv_r in Hc. subst l. vm_compute in Hal. discriminate Hal.
    + vm_compute in H2. discriminate H2.
Defined.
