(* ===== verification/Steady.v ===== *)
(** The invariant of the kernel between calls and inside them ([within]), what a
    change of its state must leave alone for the invariant to stay, and what it
    means that a call ends well however it is interleaved with others ([ends]). *)
From S2P Require Import Prelude Ring KMutex Frames Vm Keyhelp Keyboard Console Machine CtrlBlk Kernel Sched.
From S2P Require Import UserMem Elf Loader Fork Syscall VirtInt Exceptions Blocking Vanish TaskVanish.
#[local] Open Scope Z_scope.

(** * The invariant *)

(** The processes and their threads. *)
Abbreviation family_tree := (gmap addr (list addr)) (only parsing).

Definition listed (LS : Z -> list addr) (q : addr) : Prop := exists i, list_index i /\ q ∈ LS i.
Definition member (T : gmap addr (list addr)) (q : addr) : Prop := exists p ts, T !! p = Some ts /\ q ∈ ts.

(** The process [p]: an ordinary one with these threads and a page directory of
    its own; its lock is free unless it is the one that is [held]. *)
Definition process_ok (held : option addr) (s : kstate) (p : addr) (ts : list addr) : Prop :=
  p <> NULL /\ Z.of_nat (length ts) < 2 ^ 31 /\ exists b, get_pcb (ctl s) p = Some b /\ guest b = false /\
    threads_of (ctl s) b ts /\ is_Some (pdirs (kvm s) !! page_directory b) /\ (held <> Some p -> lock b = mutex_init).

(** What the devices and the users' memory are in: the buffer of scancodes, the
    lock of the output, the screen, the bytes. *)
Definition devices (s : kstate) := (scancode_buf s, output_lock s, kcon s, mem s).
Definition devices_ok (s : kstate) : Prop :=
  (exists q, buf_is (scancode_buf s) q) /\ output_lock s = mutex_init /\ console_ok (kcon s) /\ mem_ok s.

Lemma devices_ok_ext s s' : devices s' = devices s -> devices_ok s -> devices_ok s'.
Proof. intros [= E1 E2 E3 E4]. unfold devices_ok, mem_ok, byte_at. by rewrite E1, E2, E3, E4. Qed.

(** The scheduler's lists are well-formed, one thread runs, the sleepers are in
    the order they wake up in; the threads of the processes are exactly those on
    the lists, each on one list only, the one its state names; address spaces and
    devices are well-formed. *)
Record steady (T : gmap addr (list addr)) (held : option addr) (s : kstate) (LS : Z -> list addr) (me : addr) : Prop := {
  sy_sched : scheduled s LS me;
  sy_sorted : sleep_sorted (ctl s) LS;
  sy_listed : forall q, listed LS q <-> member T q;
  sy_home : forall p ts q, T !! p = Some ts -> q ∈ ts -> process_of (ctl s) q = p;
  sy_procs : forall p ts, T !! p = Some ts -> process_ok held s p ts;
  sy_space : exists F, space_ok s F;
  sy_devices : devices_ok s;
}.

(** The same without the lists: inside a call of [me], and between calls. *)
Definition within (T : gmap addr (list addr)) (held : option addr) (me : addr) (s : kstate) : Prop :=
  exists LS, steady T held s LS me.

(** A thread the processor can be given to. *)
Definition movable (T : gmap addr (list addr)) (me p : addr) : Prop := member T p /\ p <> me.

(** What a change of the lists must not touch. *)
Record untouched (s s' : kstate) : Prop := {
  un_process : forall q, process_of (ctl s') q = process_of (ctl s) q;
  un_nodes : same_threads (ctl s) (ctl s');
  un_pcbs : pcbs (ctl s') = pcbs (ctl s);
  un_kvm : kvm s' = kvm s;
  un_devices : devices s' = devices s;
}.

Lemma steady_moves T held s LS me s' LS' me' : steady T held s LS me -> untouched s s' ->
  scheduled s' LS' me' -> sleep_sorted (ctl s') LS' -> (forall q, listed LS' q <-> listed LS q) ->
  is_Some (pdirs (kvm s) !! page_of (cr3 s')) -> steady T held s' LS' me'.
Proof.
  intros [H1 H2 H3 H4 H5 [F [H6 _]] H7] [U1 U2 U3 U4 U5] Hs Hso Hl Hd. split; [done|done| | | | |].
  - intros q. by rewrite Hl, H3.
  - intros p ts q Hp Hq. rewrite U1. by eapply H4.
  - intros p ts Hp. destruct (H5 p ts Hp) as (Hn & Hlen & b & Hb & Hg & [R1 R2] & Hpd & Hlk).
    split; [done|]. split; [done|]. exists b. split; [unfold get_pcb; by rewrite U3|]. split; [done|].
    split; [split; [by eapply same_threads_ring|done]|]. by rewrite U4.
  - exists F. split; by rewrite U4.
  - by eapply devices_ok_ext.
Qed.

Lemma same_threads_refl c : same_threads c c.
Proof. done. Qed.

(** The control blocks do not change. *)
Lemma within_devices T held me s s' : within T held me s -> ctl s' = ctl s -> kvm s' = kvm s -> cr3 s' = cr3 s ->
  devices_ok s' -> within T held me s'.
Proof.
  intros [LS [X1 X2 X3 X4 X5 [F X6] X7]] Ec Ek Er Hd. exists LS.
  split; [by eapply scheduled_ctl|by rewrite Ec|done|by rewrite Ec| | |done].
  - intros p ts Hp. unfold process_ok. rewrite Ec, Ek. by apply X5.
  - exists F. unfold space_ok. by rewrite Ek, Er.
Qed.

Lemma within_ctl T held me s s' : within T held me s -> ctl s' = ctl s -> kvm s' = kvm s -> cr3 s' = cr3 s ->
  devices s' = devices s -> within T held me s'.
Proof.
  intros Hw Ec Ek Er Ed. apply (within_devices T held me s); [done..|]. destruct Hw as [LS Hsy].
  eapply devices_ok_ext; [done|apply Hsy].
Qed.

Section inside.
Context (T : gmap addr (list addr)) (held : option addr) (s : kstate) (LS : Z -> list addr) (me : addr).
Context (Hsy : steady T held s LS me).

Lemma listed_movable i p : list_index i -> i <> RUNNING_STATE -> p ∈ LS i -> movable T me p.
Proof.
  intros Hi Hr Hp. split; [apply Hsy; by exists i|]. by apply (not_running s LS me (sy_sched _ _ _ _ _ Hsy) i).
Qed.

Lemma movable_listed p : movable T me p -> exists i t, list_index i /\ i <> RUNNING_STATE /\ p ∈ LS i /\
  get_tcb (ctl s) p = Some t.
Proof.
  intros [Hm Hne]. apply (sy_listed _ _ _ _ _ Hsy) in Hm as (i & Hi & Hp).
  destruct (sched_thread (ctl s) LS i p) as (_ & t & Ht & _); [apply Hsy|done|done|]. exists i, t. split; [done|].
  split; [|done]. intros ->. rewrite (sc_running _ _ _ (sy_sched _ _ _ _ _ Hsy)) in Hp. by apply list_elem_of_singleton in Hp.
Qed.

(** The running thread and its process. *)
Lemma me_member : exists t ts, running (ctl s) = Some me /\ get_tcb (ctl s) me = Some t /\ T !! tcb_pcb t = Some ts /\ me ∈ ts.
Proof.
  destruct (running_home s LS me (sy_sched _ _ _ _ _ Hsy)) as (t & _ & Ht & _).
  assert (member T me) as (p & ts & Hp & Hin).
  { apply Hsy. exists RUNNING_STATE. split; [done|]. rewrite (sc_running _ _ _ (sy_sched _ _ _ _ _ Hsy)). left. }
  pose proof (sy_home _ _ _ _ _ Hsy p ts me Hp Hin) as He. unfold process_of in He. rewrite Ht in He. subst p.
  exists t, ts. split; [by eapply running_is, Hsy|done].
Qed.

(** The threads of a process are on the lists their states name. *)
Lemma members_ready p ts : T !! p = Some ts -> ready_listed (ctl s) LS ts.
Proof.
  intros Hp q Hq Hst. assert (listed LS q) as (i & Hi & Hin) by (apply Hsy; by exists p, ts).
  destruct (sched_thread (ctl s) LS i q) as (_ & t & Ht & Hh); [apply Hsy|done|done|].
  unfold state_of in Hst. rewrite Ht in Hst. unfold home_list in Hh. rewrite Hst in Hh.
  rewrite bool_decide_true, decide_False in Hh by done. by injection Hh as <-.
Qed.

End inside.

(** ** The lists change *)

Lemma listed_of LS i q : list_index i -> q ∈ LS i -> listed LS q.
Proof. intros Hi Hq. by exists i. Qed.

Lemma page_of_cr3 pd c : page_ok pd -> page_of (Z.lor pd (Z.land c 4095)) = pd.
Proof.
  intros [Hr Ha]. rewrite <-(page_of_id pd) at 2 by (done || lia). unfold page_of, PAGE_SHIFT.
  rewrite Z.shiftr_lor, Z.shiftr_land. change (Z.shiftr 4095 12) with 0. by rewrite Z.land_0_r, Z.lor_0_r.
Qed.

Lemma round_robin_within T held me s : within T held me s ->
  exists p s', ctl_op round_robin s = Done p s' /\ within T held me s' /\ (p = NULL \/ movable T me p).
Proof.
  intros [LS Hsy]. pose proof Hsy as [H1 H2 _ _ _ [F HF] _].
  destruct (round_robin_step s LS me H1) as (s' & R1 & R2 & R3 & R4 & R5 & _).
  set (LS' := upd READY_STATE (rotate_ready (ctl s) (LS READY_STATE)) LS) in *.
  assert (Hin : forall i q, q ∈ LS' i <-> q ∈ LS i).
  { intros i q. unfold LS', upd. case_decide as Hd; [|done]. rewrite Hd. by rewrite R5. }
  exists (front_of (LS READY_STATE)), s'. split; [done|]. split.
  - exists LS'. eapply steady_moves; [done| |done| | |rewrite R2; apply HF].
    + destruct R3 as [R3 _]. split; first [by rewrite R3|by rewrite R2].
    + unfold sleep_sorted, LS'. rewrite upd_ne by done. eapply sorted_ext; [|exact H2].
      intros q _. unfold wake. by rewrite (get_tcb_same _ _ R3).
    + intros q. unfold listed. split; intros (i & Hi & Hq); exists i; (split; [done|]); by apply Hin.
  - destruct (decide (front_of (LS READY_STATE) = NULL)) as [|Hn]; [by left|right].
    eapply (listed_movable T held s LS me Hsy READY_STATE); [done|done|by eapply front_of_ready].
Qed.

Lemma wake_within T held me s i w : forall LS, steady T held s LS me -> list_index i -> i <> RUNNING_STATE -> i <> READY_STATE ->
  w ∈ LS i -> exists s', ctl_op (alter_state w READY_STATE None) s = Done OK s' /\ within T held me s'.
Proof.
  intros LS Hsy Hi Hir Hid Hw. pose proof Hsy as [H1 H2 _ _ _ [F HF] _].
  destruct (wake_ok s LS me w i H1) as (s' & LS' & E & [W1 W2 W3 W4 _ W6 W7 W8 W9]); try done.
  exists s'. split; [done|]. exists LS'. assert (Hg : forall q, LS' READY_STATE ≡ₚ w :: LS READY_STATE -> q ∈ LS' READY_STATE <-> q = w \/ q ∈ LS READY_STATE).
  { intros q ->. by rewrite elem_of_cons. }
  eapply steady_moves; [done| |done| | |rewrite W1; apply HF].
  - split; [|done|by rewrite W8|by rewrite W1..]. intros q. unfold process_of. rewrite W7. case_decide as Hq; [subst q|done].
    destruct (get_tcb (ctl s) w) as [tw|]; [exact (tcb_pcb_with_state READY_STATE None tw)|done].
  - unfold sleep_sorted in *. assert (LS' SLEEP = filter (fun x => x <> w) (LS SLEEP)) as ->.
    { destruct (decide (i = SLEEP)) as [<-|Hs]; [done|]. rewrite W6 by done. rewrite filter_ne_id; [done|]. intros Hin.
      destruct (sched_thread (ctl s) LS i w) as (_ & t & Ht & Hh); [apply H1|done|done|]. apply Hs. symmetry.
      eapply sched_not_elsewhere; [apply H1|exact Ht|exact Hh|done|done]. }
    apply (sorted_ext (wake (ctl s))); [|by apply (sorted_filter (ctl s))]. intros q [Hq _]%list_elem_of_filter. unfold wake. by rewrite W7, decide_False.
  - intros q. unfold listed. split; intros (k & Hk & Hq).
    + destruct (decide (k = READY_STATE)) as [->|Hkr]; [apply Hg in Hq as [->|Hq]; [by exists i|by exists READY_STATE|done]|].
      exists k. split; [done|]. destruct (decide (k = i)) as [->|Hki]; [|by rewrite W6 in Hq].
      rewrite W3 in Hq. by apply list_elem_of_filter in Hq as [_ Hq].
    + destruct (decide (q = w)) as [->|Hqw]; [exists READY_STATE; split; [done|]; apply Hg; [done|by left]|].
      destruct (decide (k = READY_STATE)) as [->|Hkr]; [exists READY_STATE; split; [done|]; apply Hg; [done|by right]|].
      exists k. split; [done|]. destruct (decide (k = i)) as [->|Hki]; [rewrite W3; by apply list_elem_of_filter|by rewrite W6].
Qed.

(** The other threads of a process are terminated. *)
Lemma killed_steady T held me s LS X s' LS' : steady T held s LS me -> killed s LS me X s' LS' ->
  (forall q, q ∈ X -> listed LS q) -> steady T held s' LS' me.
Proof.
  intros Hsy [K1 K2 K3 K4 K5 K6 K7] HX. eapply steady_moves; [exact Hsy| |done|by apply K7, Hsy| |].
  - split; [|done|done|by rewrite K1..]. intros q. unfold process_of. rewrite K4. case_decide; [|done].
    destruct (get_tcb (ctl s) q) as [tq|]; [exact (tcb_pcb_with_state TERMINATED_STATE None tq)|done].
  - intros q. split; intros (i & Hi & Hq).
    + rewrite K3 in Hq by done. unfold killed_lists in Hq. case_decide.
      * apply elem_of_app in Hq as [Hq|Hq]; [by exists i|by apply HX].
      * apply list_elem_of_filter in Hq as [_ Hq]. by exists i.
    + destruct (decide (q ∈ X)) as [Hx|Hx]; [exists TERMINATED_STATE|exists i]; (split; [done|]); rewrite K3 by done; unfold killed_lists.
      * rewrite decide_True by done. apply elem_of_app. by right.
      * case_decide; [apply elem_of_app; by left|by apply list_elem_of_filter].
  - rewrite K1. destruct (sy_space _ _ _ _ _ Hsy) as [F HF]. apply HF.
Qed.

(** A context switch. *)
Lemma switched_listed s LS me mt p st bd j i : scheduled s LS me -> target_list st bd = Some j -> j <> RUNNING_STATE ->
  list_index i -> i <> RUNNING_STATE -> p ∈ LS i ->
  forall q, listed (switched_lists (ctl s) LS me mt p st bd) q <-> listed LS q.
Proof.
  intros Hsc Hj Hjr Hi Hir Hp q. unfold switched_lists. rewrite Hj. destruct (place _ _ _ _ _) as [M1 M2] eqn:Hpl.
  apply place_split in Hpl. pose proof (target_list_index _ _ _ Hj) as Hji. pose proof (sc_running _ _ _ Hsc) as Hrun.
  assert (Hmid : forall k, k <> RUNNING_STATE -> q ∈ upd j (M1 ++ me :: M2) LS k <-> q ∈ LS k \/ (k = j /\ q = me)).
  { intros k Hk. unfold upd. case_decide as Hd; [rewrite Hd, Hpl; set_solver|]. naive_solver. }
  unfold listed. split.
  - intros (k & Hk & Hq). unfold upd at 1 in Hq. destruct (decide (k = RUNNING_STATE)) as [->|Hkr].
    { apply list_elem_of_singleton in Hq as ->. by exists i. }
    apply list_elem_of_filter in Hq as [_ Hq]. apply Hmid in Hq as [Hq|[-> ->]]; [by exists k| |done].
    exists RUNNING_STATE. split; [done|]. rewrite Hrun. left.
  - intros (k & Hk & Hq). destruct (decide (q = p)) as [->|Hqp].
    { exists RUNNING_STATE. split; [done|]. rewrite upd_eq. left. }
    destruct (decide (k = RUNNING_STATE)) as [->|Hkr].
    + rewrite Hrun in Hq. apply list_elem_of_singleton in Hq as ->. exists j. split; [done|]. rewrite upd_ne by done.
      apply list_elem_of_filter. split; [done|]. apply Hmid; [done|]. by right.
    + exists k. split; [done|]. rewrite upd_ne by done. apply list_elem_of_filter. split; [done|]. apply Hmid; [done|]. by left.
Qed.

Lemma switch_steady T s LS me mt p t st bd j i s' : steady T None s LS me -> get_tcb (ctl s) me = Some mt -> get_tcb (ctl s) p = Some t ->
  target_list st bd = Some j -> j <> RUNNING_STATE -> list_index i -> i <> RUNNING_STATE -> p ∈ LS i ->
  switched s LS me mt p t st bd s' -> steady T None s' (switched_lists (ctl s) LS me mt p st bd) p.
Proof.
  intros Hsy Hmt Ht Hj Hjr Hi Hir Hp [W1 W2 W3 W4 (b & Hb & Hcr) _ W7 W8]. pose proof Hsy as [H1 H2 H3 H4 H5 [F HF] _].
  assert (member T p) as (o & ts & Ho & Hin) by (apply H3; by exists i).
  pose proof (H4 o ts p Ho Hin) as He. unfold process_of in He. rewrite Ht in He. subst o.
  destruct (H5 _ _ Ho) as (_ & _ & b' & Hb' & _ & _ & Hpd & _). rewrite Hb in Hb'. injection Hb' as <-.
  eapply steady_moves; [done| |done|by apply W2| |].
  - split; [|done|by rewrite W4|by rewrite W7..]. intros q. unfold process_of. rewrite W3.
    repeat case_decide; subst; rewrite ?Hmt, ?Ht, ?tcb_pcb_with_state; done.
  - by eapply switched_listed.
  - rewrite Hcr, page_of_cr3; [done|]. destruct Hpd as [es Hes]. destruct HF as [[Htab _] _]. by apply (dir_ok _ Htab) in Hes as [? _].
Qed.

(** ** The control blocks change *)

(** The same process, list and wake-up time. *)
Definition alike (t t' : tcb_t) : Prop :=
  tcb_pcb t' = tcb_pcb t /\ home_list t' = home_list t /\ wakeup_time (blocking_detail t') = wakeup_time (blocking_detail t).

#[local] Instance alike_refl : Reflexive alike.
Proof. done. Qed.

Lemma alike_back s s' q t : option_Forall2 alike (get_tcb (ctl s) q) (get_tcb (ctl s') q) -> get_tcb (ctl s') q = Some t ->
  exists t0, get_tcb (ctl s) q = Some t0 /\ alike t0 t.
Proof. intros Ha Ht. rewrite Ht in Ha. inversion Ha as [t0 ? Hal|]; subst. by exists t0. Qed.

(** What a change of the control blocks must not touch. *)
Record same_lists (s s' : kstate) : Prop := {
  sl_links : links (ctl s') = links (ctl s);
  sl_lists : thread_lists (ctl s') = thread_lists (ctl s);
  sl_threads : forall q, option_Forall2 alike (get_tcb (ctl s) q) (get_tcb (ctl s') q);
  sl_pcbs : forall p, is_Some (get_pcb (ctl s) p) -> is_Some (get_pcb (ctl s') p);
  sl_rest : kvm s' = kvm s /\ cr3 s' = cr3 s /\ devices s' = devices s;
}.

Lemma same_lists_scheduled s s' LS me : same_lists s s' -> scheduled s LS me -> scheduled s' LS me.
Proof.
  intros [El Eh Ht Hpc _] [[(ns & [A1 A2 A3 A4 A5 A6]) Hok] Hr Hp]. split; [split|done|].
  - exists ns. split; rewrite ?El, ?Eh; try done. intros i Hi. unfold thread_list. rewrite Eh. by apply A4.
  - intros i Hi. destruct (Hok i Hi) as [Hnd Hin]. split; [done|]. intros p Hpi. destruct (Hin p Hpi) as (Hn & t & Hg & Hh).
    split; [done|]. pose proof (Ht p) as Ha. rewrite Hg in Ha. inversion Ha as [? t' (_ & Ha2 & _) E1 E2|]; subst. exists t'. by rewrite Ha2.
  - intros i p t Hi Hin Hg. destruct (alike_back _ _ _ _ (Ht p) Hg) as (t0 & Hg0 & -> & _). by eapply Hpc, Hp.
Qed.

Lemma steady_blocks T held held' s LS me s' : steady T held s LS me -> same_lists s s' ->
  (forall p ts, T !! p = Some ts -> process_ok held s p ts -> process_ok held' s' p ts) -> steady T held' s' LS me.
Proof.
  intros [H1 H2 H3 H4 H5 [F HF] H7] Hsl Hpr. pose proof Hsl as [_ _ Ht _ (Ek & Er & Eb)].
  split; [by eapply same_lists_scheduled| |done| | | |by eapply devices_ok_ext].
  - eapply sorted_ext; [|exact H2]. intros q _. unfold wake. specialize (Ht q). inversion Ht as [? ? (_ & _ & E)|]; congruence.
  - intros p ts q Hp Hq. rewrite <-(H4 p ts q Hp Hq). unfold process_of. specialize (Ht q). inversion Ht as [? ? (E & _ & _)|]; congruence.
  - intros p ts Hp. by apply Hpr; [|apply H5].
  - exists F. unfold space_ok. by rewrite Ek, Er.
Qed.

(** One process block changes. *)
Lemma upd_pcb_steady T held held' s LS me p f c : steady T held s LS me -> upd_pcb p f (ctl s) = Some c ->
  (forall b, guest (f b) = guest b /\ tcb_list (f b) = tcb_list b /\ page_directory (f b) = page_directory b) ->
  (forall b q, get_pcb (ctl s) q = Some b -> (held <> Some q -> lock b = mutex_init) ->
     held' <> Some q -> lock (if decide (q = p) then f b else b) = mutex_init) ->
  steady T held' (with_ctl c s) LS me.
Proof.
  intros Hsy Hc Hf Hl. unfold upd_pcb, put_pcb, set_data in Hc.
  apply bind_Some in Hc as (b0 & Hb0 & Hc). apply bind_Some in Hc as (h & Hh & [= <-]). apply bind_Some in Hh as (n & Hn & [= <-]).
  assert (Hg : forall q, get_pcb (set_pcbs (Zone (<[p:=Node (previous n) (next n) (f b0)]> (cells (pcbs (ctl s)))) (pool (pcbs (ctl s)))) (ctl s)) q =
    if decide (q = p) then Some (f b0) else get_pcb (ctl s) q).
  { intros q. unfold get_pcb. cbn. case_decide as Hd; [subst q; by rewrite lookup_insert_eq|by rewrite lookup_insert_ne]. }
  eapply steady_blocks; [done| |].
  - split; [done..| | |done].
    + intros q. change (get_tcb (ctl _) q) with (get_tcb (ctl s) q) at 2. destruct (get_tcb (ctl s) q); by constructor.
    + intros q. cbn [ctl with_ctl]. rewrite Hg. by case_decide.
  - intros q ts Hq (H1 & H2 & b & Hb & H3 & H4 & H5 & H6). split; [done|]. split; [done|].
    exists (if decide (q = p) then f b else b). destruct (Hf b) as (F1 & F2 & F3). specialize (Hl b q Hb H6).
    split; [|split; [|split; [|split]]].
    + cbn [ctl with_ctl]. rewrite Hg. case_decide; [subst q; congruence|done].
    + case_decide; congruence.
    + destruct H4 as [R1 R2]. split; [done|]. case_decide; congruence.
    + cbn [kvm with_ctl]. case_decide; congruence.
    + exact Hl.
Qed.

(** The lock of a process is taken and given back. *)
Lemma lock_within T me t s p : within T None me s -> p = tcb_pcb t -> get_tcb (ctl s) me = Some t ->
  exists s', mutex_lock (PcbLock p) s = Done tt s' /\ within T (Some p) me s'.
Proof.
  intros [LS Hsy] -> Ht. destruct (me_member T None s LS me Hsy) as (t' & ts & Hme & Ht' & Hp & _).
  rewrite Ht in Ht'. injection Ht' as <-.
  destruct (sy_procs _ _ _ _ _ Hsy _ _ Hp) as (_ & _ & b & Hb & _ & _ & _ & Hl).
  destruct (pcb_lock_ok s me t b Hme Ht Hb) as (c & H1 & Hupd & _); [by apply Hl|].
  eexists. split; [done|]. exists LS. eapply upd_pcb_steady; [done|done|done|].
  intros b1 q _ Hq Hne. rewrite decide_False by congruence. by apply Hq.
Qed.

Lemma unlock_within T me s p : within T (Some p) me s -> is_Some (T !! p) ->
  exists s', mutex_unlock (PcbLock p) s = Done tt s' /\ within T None me s'.
Proof.
  intros [LS Hsy] [ts Hp]. destruct (sy_procs _ _ _ _ _ Hsy p ts Hp) as (_ & _ & b & Hb & _).
  destruct (unlock_ok (PcbLock p) s (lock b)) as (s' & H1 & Hput); [cbn; by rewrite Hb|].
  exists s'. split; [done|]. cbn in Hput. apply bind_Some in Hput as (c & Hc & [= <-]). exists LS.
  eapply upd_pcb_steady; [done|done|done|]. intros b1 q _ Hq _. case_decide as Hd; [done|]. apply Hq. congruence.
Qed.

(** The fields that scheduling does not read. *)
Lemma update_tcb_within T held me s p f t : within T held me s -> get_tcb (ctl s) p = Some t -> alike t (f t) ->
  exists s', update_tcb p f s = Done tt s' /\ within T held me s' /\ get_tcb (ctl s') p = Some (f t).
Proof.
  intros [LS Hsy] Ht Ha. destruct (put_tcb_ok p t (f t) (ctl s) Ht) as (h & Hput & Hd & Hdata & Hne & Hn & Hpr).
  eexists. split; [apply ctl_upd_ok; unfold upd_tcb; run Ht; exact Hput|].
  assert (Hg : forall q, get_tcb (set_tcbs (Zone h (pool (tcbs (ctl s)))) (ctl s)) q = if decide (q = p) then Some (f t) else get_tcb (ctl s) q).
  { intros q. unfold get_tcb. cbn. by rewrite Hdata. }
  split; [exists LS; eapply steady_blocks; [done| |]|cbn [ctl with_ctl]; by rewrite Hg, decide_True].
  - split; [done..| |done|done]. intros q. cbn [ctl with_ctl]. rewrite Hg. case_decide as Hq; [subst q; rewrite Ht; by constructor|].
    destruct (get_tcb (ctl s) q); by constructor.
  - intros q ts Hq (H1 & H2 & b & Hb & H3 & [R1 R2] & H5). split; [done|]. split; [done|]. exists b. split; [done|]. split; [done|].
    split; [split; [|done]|done]. eapply ring_ext; [|exact R1]. intros x _. split; cbn; by rewrite ?Hn, ?Hpr.
Qed.

Lemma update_pcb_within T me s p f : within T None me s -> is_Some (T !! p) ->
  (forall b, guest (f b) = guest b /\ tcb_list (f b) = tcb_list b /\ page_directory (f b) = page_directory b /\ lock (f b) = lock b) ->
  exists s', update_pcb p f s = Done tt s' /\ within T None me s'.
Proof.
  intros [LS Hsy] [ts Hp] Hf. destruct (sy_procs _ _ _ _ _ Hsy p ts Hp) as (_ & _ & b & Hb & _).
  destruct (upd_pcb_some p f (ctl s) b Hb) as [c Hc]. exists (with_ctl c s). split; [by apply ctl_upd_ok|]. exists LS.
  eapply upd_pcb_steady; [done|done| |]; [intros b1; destruct (Hf b1) as (? & ? & ? & ?); done|].
  intros b1 q Hb1 Hq _. destruct (Hf b1) as (_ & _ & _ & Hl). case_decide; [rewrite Hl|]; by apply Hq.
Qed.

(** * How a call may end *)

(** [o] ends well: with [Q], or by giving the processor to another thread in a
    steady state, going on well from every steady state in which it is given
    back, or by leaving for user code or halting the machine. *)
Fixpoint ends {A} (T : gmap addr (list addr)) (Q : A -> kstate -> Prop) (o : outcome A) : Prop :=
  match o with
  | Done a s => Q a s
  | Switch me p s k => within T None p s /\ forall s', within T None me s' -> ends T Q (k s')
  | UserMode _ s | RunHandler _ _ _ _ s => exists me, within T None me s
  | Halted _ => True
  | Spinning _ | Crashed => False
  end.

Lemma ends_bind {A B} T (Q : B -> kstate -> Prop) (f : A -> K B) (o : outcome A) :
  ends T (fun a s => ends T Q (f a s)) o -> ends T Q (obind f o).
Proof.
  induction o as [a s|me p s k IH| | | | |]; cbn; try done. intros [H1 H2]. split; [done|]. intros s' Hs'. by apply IH, H2.
Qed.

Lemma ends_mono {A} T (Q Q' : A -> kstate -> Prop) (o : outcome A) : (forall a s, Q a s -> Q' a s) -> ends T Q o -> ends T Q' o.
Proof.
  intros HQ. induction o as [a s|me p s k IH| | | | |]; cbn; try done; [apply HQ|]. intros [H1 H2]. split; [done|].
  intros s' Hs'. by apply IH, H2.
Qed.

Section steps.
Context (T : gmap addr (list addr)).

Lemma within_flag held me s f : within T held me s -> within T held me (with_int_flag f s).
Proof. intros H. by eapply within_ctl. Qed.
Lemma within_ticks held me s n : within T held me s -> within T held me (with_tick_count n s).
Proof. intros H. by eapply within_ctl. Qed.

(** The running thread of a steady state. *)
Lemma within_me held me s : within T held me s ->
  exists t, running (ctl s) = Some me /\ get_tcb (ctl s) me = Some t /\ is_Some (T !! tcb_pcb t).
Proof. intros [LS Hsy]. destruct (me_member T held s LS me Hsy) as (t & ts & H1 & H2 & H3 & _). by exists t. Qed.

Lemma switch_ends {A} Q (f : Z -> K A) me p st bd j s : within T None me s -> movable T me p ->
  target_list st bd = Some j -> j <> RUNNING_STATE -> (forall s', within T None me s' -> ends T Q (f OK s')) ->
  ends T Q ((switch_context p st bd ≫= f) s).
Proof.
  intros [LS Hsy] Hp Hj Hjr Hf. destruct (me_member T None s LS me Hsy) as (mt & _ & _ & Hmt & _).
  destruct (movable_listed T None s LS me Hsy p Hp) as (i & t & Hi & Hir & Hin & Ht).
  destruct (switch_then_ok f s LS me mt p t i j st bd) as (s' & k & -> & Hsw & Hk); try done; [apply Hsy|].
  cbn [ends]. split.
  - exists (switched_lists (ctl s) LS me mt p st bd). by eapply switch_steady.
  - intros s2 Hs2. rewrite Hk. by apply Hf, within_flag.
Qed.

Lemma next_within held me s : within T held me s ->
  exists p s', ctl_op find_next_thread s = Done p s' /\ within T held me s' /\ (p = NULL \/ movable T me p).
Proof.
  intros Hw. pose proof Hw as [LS Hsy]. destruct (me_member T held s LS me Hsy) as (t & ts & Hme & Ht & Hp & _).
  destruct (sy_procs _ _ _ _ _ Hsy _ _ Hp) as (_ & _ & b & Hb & _ & Hts & _).
  pose proof (find_next_thread_ok (ctl s) me t b ts Hme Ht Hb Hts) as Hf. destruct (first_sat _ ts) as [p|] eqn:E.
  - exists p, s. split; [rewrite <-(with_ctl_id s) at 2; by apply ctl_op_ok|]. split; [done|right].
    apply first_sat_elem in E as [Hin Hst%bool_decide_eq_true]. apply (listed_movable T held s LS me Hsy READY_STATE); try done.
    by apply (members_ready T held s LS me Hsy _ _ Hp).
  - destruct (round_robin_within T held me s Hw) as (p & s' & H1 & H2 & H3). exists p, s'. split; [|done].
    rewrite <-H1. unfold ctl_op. by rewrite Hf.
Qed.

Lemma find_within held s LS me v i : steady T held s LS me -> list_index i -> exists p,
  ctl_get (fun c => find_tcb_in_list c v i) s = Done p s /\ (p = NULL \/ p <> NULL /\ p ∈ LS i).
Proof.
  intros Hsy Hi. pose proof (sy_sched _ _ _ _ _ Hsy) as Hsc. eexists. split.
  - apply (ctl_get_ok (fun c => find_tcb_in_list c v i)). apply find_tcb_in_list_ok; [apply Hsc|done].
  - destruct (first_sat _ _) as [p|] eqn:E; cbn [default from_option]; unfold id; [right|by left].
    apply first_sat_elem in E as [Hin _]. by destruct (sched_thread (ctl s) LS i p (sc_sched _ _ _ Hsc) Hi Hin) as [? _].
Qed.

(** The threads of a process that has not begun to end. *)
Definition none_gone (c : ctrl) (ts : list addr) : Prop := forall q, q ∈ ts -> state_of c q <> TERMINATED_STATE.

Lemma terminate_within held me s p ts : within T held me s -> T !! p = Some ts -> me ∈ ts -> none_gone (ctl s) ts ->
  exists s', terminate_others me p s = Done tt s' /\ within T held me s'.
Proof.
  intros [LS Hsy] Hp Hin Ha. destruct (sy_procs _ _ _ _ _ Hsy p ts Hp) as (_ & Hlen & b & Hb & _ & Hts & _).
  assert (Hl : forall q, q ∈ ts -> listed LS q) by (intros q Hq; apply Hsy; by exists p, ts).
  destruct (terminate_others_ok s LS me p b ts) as (s' & LS' & H1 & H2); try done; [apply Hsy| |].
  - intros q Hq _. destruct (Hl q Hq) as (i & Hi & Hqi). exists i. split; [done|]. split; [|done]. intros ->. apply (Ha q Hq).
    eapply listed_terminated; [apply Hsy|done].
  - exists s'. split; [done|]. exists LS'. eapply killed_steady; [done|done|]. intros q [_ Hq]%list_elem_of_filter. by apply Hl.
Qed.

(** The end of a blocking call. *)
Lemma block_ends {A} Q (f : K A) me p o st bd j s : within T (Some o) me s -> is_Some (T !! o) -> movable T me p ->
  target_list st bd = Some j -> j <> RUNNING_STATE -> (forall s', within T None me s' -> ends T Q (f s')) ->
  ends T Q ((mutex_unlock (PcbLock o);; switch_context p st bd;; f) s).
Proof.
  intros Hw Ho Hp Hj Hjr Hf. destruct (unlock_within T me s o Hw Ho) as (s1 & H1 & Hw1). kstep H1. by eapply switch_ends.
Qed.

(** A choice that may fail halts the machine. *)
Lemma or_halt_ends {A} Q (f : K A) held me p s : within T held me s -> p = NULL \/ movable T me p ->
  (movable T me p -> ends T Q (f s)) -> ends T Q ((when (bool_decide (p = NULL)) handle_halt;; f) s).
Proof.
  intros [LS Hsy] Hp Hf. case_bool_decide as Hn; [done|]. cbn [when]. kpure. destruct Hp as [?|Hp]; [done|]. by apply Hf.
Qed.

End steps.
