(* ===== verification/Kmachine.v ===== *)
(** The kernel as a machine: threads that enter it through [handle] of
    [kern/interrupt.c], give the processor to one another inside it, and come
    back to the rest of their call when they are switched to.  The theorem at the
    end is about every interleaving of the interrupts, the faults and the calls
    that do not change what processes and pages there are. *)
From stdpp Require Import relations.
From S2P Require Import Prelude Ring KMutex Frames Vm Keyhelp Keyboard Console Machine CtrlBlk Kernel Sched.
From S2P Require Import UserMem Elf Loader Fork Syscall VirtInt Exceptions Blocking Vanish TaskVanish Interrupt Steady.
#[local] Open Scope Z_scope.

(** * The calls *)

Section calls.
Context `{Platform} (T : gmap addr (list addr)) (me : addr).
#[local] Abbreviation at_rest := (within T None me).
#[local] Abbreviation fine o := (ends T (fun _ s' => at_rest s') o).

Lemma fine_bind {A B} (f : A -> K B) (m : K A) s : ends T (fun _ s' => at_rest s') (m s) ->
  (forall a s', at_rest s' -> ends T (fun _ s' => at_rest s') (f a s')) -> ends T (fun _ s' => at_rest s') ((m ≫= f) s).
Proof. intros Hm Hf. apply ends_bind. eapply ends_mono; [|exact Hm]. intros a s1. apply Hf. Qed.

Lemma gettid_ends u s : at_rest s -> fine (handle_gettid u s).
Proof. intros Hw. destruct (within_me T None me s Hw) as (t & Hme & Ht & _). unfold handle_gettid. by kstep (running_tid_ok _ _ _ Hme Ht). Qed.

Lemma get_ticks_ends u s : at_rest s -> fine (handle_get_ticks u s).
Proof. done. Qed.

Lemma set_status_ends u s : at_rest s -> fine (handle_set_status u s).
Proof.
  intros Hw. destruct (within_me T None me s Hw) as (t & Hme & Ht & Hp). unfold handle_set_status. kstep (running_pcb_ok _ _ _ Hme Ht).
  destruct (update_pcb_within T me s (tcb_pcb t) (set_status (s32 (esi u))) Hw Hp) as (s1 & H1 & Hw1); [done|]. by kstep H1.
Qed.

(** The end of a call that went through the scheduler. *)
Lemma switch_back_ends {A} (v : A) p st bd j s : at_rest s -> movable T me p -> target_list st bd = Some j -> j <> RUNNING_STATE ->
  fine ((switch_context p st bd;; enable_interrupts;; mret v) s).
Proof.
  intros Hw Hp Hj Hjr. eapply (switch_ends T _ (fun _ => enable_interrupts;; mret v)); [done..|]. intros s' Hs'.
  unfold enable_interrupts. kpure. by apply within_flag.
Qed.

Lemma yield_ends u s : at_rest s -> fine (handle_yield u s).
Proof.
  intros Hw. pose proof (within_flag T None me s false Hw) as Hw0. unfold handle_yield. unfold disable_interrupts. kpure.
  destruct (decide (s32 (esi u) = -1)).
  - destruct (round_robin_within T None me _ Hw0) as (p & s1 & H1 & Hw1 & Hp). kstep H1. case_decide as Hn.
    { unfold enable_interrupts. kpure. by apply within_flag. }
    destruct Hp as [?|Hp]; [done|]. by eapply switch_back_ends.
  - pose proof Hw0 as [LS Hsy]. destruct (find_within T None _ LS me (s32 (esi u)) READY_STATE Hsy ltac:(done)) as (p & H1 & Hp).
    kstep H1. case_decide as Hn; [unfold enable_interrupts; kpure; by apply within_flag|].
    destruct Hp as [?|[_ Hp]]; [done|]. eapply switch_back_ends; [done| |done|done].
    by apply (listed_movable T None _ LS me Hsy READY_STATE).
Qed.

Lemma make_runnable_ends u s : at_rest s -> fine (handle_make_runnable u s).
Proof.
  intros Hw. pose proof (within_flag T None me s false Hw) as Hw0. unfold handle_make_runnable. unfold disable_interrupts. kpure.
  pose proof Hw0 as [LS Hsy]. destruct (find_within T None _ LS me (s32 (esi u)) DESCHEDULE Hsy ltac:(done)) as (p & H1 & Hp).
  kstep H1. case_decide as Hn; [unfold enable_interrupts; kpure; by apply within_flag|]. destruct Hp as [?|[_ Hp]]; [done|].
  destruct (wake_within T None me _ DESCHEDULE p LS Hsy) as (s1 & H2 & Hw1); [done..|]. kstep H2.
  unfold enable_interrupts. kpure. by apply within_flag.
Qed.

Lemma sleep_ends u s : at_rest s -> fine (handle_sleep u s).
Proof.
  intros Hw. unfold handle_sleep. case_decide as Hc1; [done|]. case_decide as Hc2; [done|].
  destruct (within_me T None me s Hw) as (t & Hme & Ht & Hp). kstep (running_pcb_ok _ _ _ Hme Ht).
  destruct (lock_within T me t s _ Hw eq_refl Ht) as (s1 & H1 & Hw1). kstep H1.
  pose proof (within_flag T _ me s1 false Hw1) as Hw1'. unfold disable_interrupts. kpure.
  destruct (next_within T _ me _ Hw1') as (p & s2 & H2 & Hw2 & Hq). kstep H2.
  eapply (or_halt_ends T _ _ _ me); [done|done|]. intros Hm. kpure. eapply block_ends; [done..|].
  intros s' Hs'. unfold enable_interrupts. kpure. by apply within_flag.
Qed.

(** A word that is in memory, or may not be read. *)
Definition word_present (s : kstate) (v : Z) : Prop :=
  vword v /\ (readable_range s v 4 -> mapped_range s v 4).

Lemma deschedule_ends u s : at_rest s -> word_present s (esi u) -> fine (handle_deschedule u s).
Proof.
  intros Hw [Hv Hpres]. pose proof Hw as [LS Hsy]. destruct (sy_space _ _ _ _ _ Hsy) as [F HF]. unfold handle_deschedule, deschedule_with. kpure.
  destruct (within_me T None me s Hw) as (t & Hme & Ht & Hp). kstep (running_pcb_ok _ _ _ Hme Ht).
  change (esi (succeed u)) with (esi u). destruct (readable_iff s F (esi u) 4 HF Hv ltac:(lia)) as (rd & H0 & Hrd). kstep H0. kpure.
  destruct rd; [|done]. cbn [negb]. destruct (Hpres (proj1 Hrd eq_refl)) as (M1 & M2 & M3).
  destruct (sy_procs _ _ _ _ _ Hsy (tcb_pcb t) (default [] (T !! tcb_pcb t))) as (_ & _ & b & Hb & _ & _ & _ & Hl).
  { by destruct Hp as [ts ->]. }
  destruct (pcb_lock_ok s me t b Hme Ht Hb ltac:(by apply Hl)) as (c & H1 & _).
  destruct (lock_within T me t s _ Hw eq_refl Ht) as (s1 & H1' & Hw1). rewrite H1 in H1'. injection H1' as <-. rewrite mutex_lock_eq in H1. kstep H1.
  pose proof (within_flag T _ me _ false Hw1) as Hw1'. unfold disable_interrupts. kpure.
  set (s1 := with_int_flag false (with_ctl c s)) in *.
  pose proof (load32_mapped s1 F (esi u) HF (conj M1 (conj M2 M3))) as H2. kstep H2. kpure. case_decide as Hc1.
  - destruct (unlock_within T me s1 _ Hw1' Hp) as (s2 & H3 & Hw2). kstep H3. unfold enable_interrupts. kpure. by apply within_flag.
  - destruct (next_within T _ me _ Hw1') as (p & s2 & H3 & Hw2 & Hq). kstep H3. kpure.
    eapply (or_halt_ends T _ _ _ me); [done|done|]. intros Hm.
    destruct (unlock_within T me s2 _ Hw2 Hp) as (s3 & H4 & Hw3). kstep H4. kpure.
    eapply (switch_ends T _ (fun _ => enable_interrupts;; interruptible (mret tt);; mret (succeed u))); [done..|].
    intros s' Hs'. unfold enable_interrupts. kpure. by apply within_flag.
Qed.

(** ** The end of a thread *)

Lemma alive_count_within held s p : within T held me s -> is_Some (T !! p) -> exists n,
  ctl_get (fun c => get_thread_alive_count c p) s = Done (OK, n) s.
Proof.
  intros [LS Hsy] [ts Hp]. destruct (sy_procs _ _ _ _ _ Hsy p ts Hp) as (Hn & Hlen & b & Hb & _ & Hts & _).
  eexists. apply (ctl_get_ok (fun c => get_thread_alive_count c p)). by apply (get_thread_alive_count_ok _ _ b ts).
Qed.

Lemma leave_process_within held s p : within T held me s -> is_Some (T !! p) ->
  (exists s', leave_process p s = Halted s') \/
  exists q s', leave_process p s = Done q s' /\ within T held me s' /\ movable T me q.
Proof.
  intros Hw [ts Hp]. pose proof Hw as [LS Hsy]. destruct (sy_procs _ _ _ _ _ Hsy p ts Hp) as (_ & _ & b & Hb & _).
  unfold leave_process, wake_waiter. kstep (pcb_at_ok _ _ _ Hb).
  destruct (find_within T held s LS me (parent_pcb_ptr b) VANISH_WAIT Hsy ltac:(done)) as (w & H1 & Hq).
  assert (exists s1, (t ← ctl_get (fun c => find_tcb_in_list c (parent_pcb_ptr b) VANISH_WAIT);
    when (bool_decide (t <> NULL)) (ctl_op (alter_state t READY_STATE None);; mret tt)) s = Done tt s1 /\ within T held me s1) as (s1 & H2 & Hw1).
  { kstep H1. destruct Hq as [->|[Hn Hin]]; [by exists s|]. rewrite bool_decide_true by done. cbn [when].
    destruct (wake_within T held me s VANISH_WAIT w LS Hsy) as (s1 & H2 & Hw1); [done..|]. kstep H2. by exists s1. }
  kstep H2. destruct (round_robin_within T held me s1 Hw1) as (q & s2 & H3 & Hw2 & Hm). kstep H3.
  case_bool_decide; [left; by eexists|right]. cbn [when]. kpure. exists q, s2. split; [done|]. split; [done|]. by destruct Hm.
Qed.

Lemma vanish_ends s : at_rest s -> fine (handle_vanish s).
Proof.
  intros Hw. unfold handle_vanish. destruct (within_me T None me s Hw) as (t & Hme & Ht & Hp). kstep (running_pcb_ok _ _ _ Hme Ht).
  destruct (lock_within T me t s _ Hw eq_refl Ht) as (s1 & H1 & Hw1). kstep H1.
  destruct (alive_count_within _ s1 _ Hw1 Hp) as (n & H2). kstep H2.
  rewrite (bind_Done _ _ _ _ _ (affirm_ok (bool_decide (OK = 0)) s1 (bool_decide_true _ eq_refl))). unfold disable_interrupts. kpure.
  pose proof (within_flag T _ me s1 false Hw1) as Hw1'.
  assert (Hend : forall q s2, within T (Some (tcb_pcb t)) me s2 -> q = NULL \/ movable T me q ->
    fine ((mutex_unlock (PcbLock (tcb_pcb t));; switch_context q TERMINATED_STATE None;; enable_interrupts) s2)).
  { intros q s2 Hw2 [->|Hq].
    - destruct (unlock_within T me s2 _ Hw2 Hp) as (s3 & H3 & Hw3). kstep H3.
      assert (Hx : switch_context NULL TERMINATED_STATE None s3 = Done FAIL s3) by done. kstep Hx. by apply within_flag.
    - eapply block_ends; [done..|]. intros s' Hs'. by apply within_flag. }
  case_decide.
  - destruct (leave_process_within _ _ _ Hw1' Hp) as [(s2 & H3)|(q & s2 & H3 & Hw2 & Hq)]; kstep H3; [done|]. apply Hend; [done|by right].
  - destruct (next_within T _ me _ Hw1') as (q & s2 & H3 & Hw2 & Hq). kstep H3. by apply Hend.
Qed.

(** The process that runs has lost no thread yet. *)
Definition all_alive (s : kstate) : Prop := forall me q, running (ctl s) = Some me ->
  process_of (ctl s) q = process_of (ctl s) me -> state_of (ctl s) q <> TERMINATED_STATE.

Lemma task_vanish_ends u s : at_rest s -> all_alive s -> fine (handle_task_vanish u s).
Proof.
  intros Hw Ha. pose proof Hw as [LS Hsy]. destruct (me_member T None s LS me Hsy) as (t & ts & Hme & Ht & Hp & Hin).
  destruct (sy_procs _ _ _ _ _ Hsy _ _ Hp) as (_ & _ & b & Hb & _ & _ & _ & Hl).
  unfold handle_task_vanish. kstep (running_tcb_ok _ _ Hme). kstep (running_pcb_ok _ _ _ Hme Ht).
  destruct (pcb_lock_ok s me t b Hme Ht Hb ltac:(by apply Hl)) as (c & H1 & _ & _ & _ & _ & _ & Eg & _).
  destruct (lock_within T me t s _ Hw eq_refl Ht) as (s1 & H1' & Hw1). rewrite H1 in H1'. injection H1' as <-. kstep H1.
  unfold disable_interrupts, enable_interrupts. kpure. pose proof (within_flag T _ me _ false Hw1) as Hw2.
  destruct (terminate_within T _ me _ _ ts Hw2 Hp Hin) as (s2 & H2 & Hw3).
  { intros q Hq. unfold state_of. cbn [ctl with_int_flag with_ctl]. rewrite Eg. apply (Ha me); [done|].
    by rewrite (sy_home _ _ _ _ _ Hsy _ _ q Hp Hq), (sy_home _ _ _ _ _ Hsy _ _ me Hp Hin). }
  kstep H2. kpure. destruct (unlock_within T me _ _ (within_flag T _ me _ true Hw3)) as (s3 & H3 & Hw4); [by eexists|]. kstep H3.
  destruct (update_pcb_within T me s3 (tcb_pcb t) (set_status (s32 (esi u))) Hw4) as (s4 & H4 & Hw5); [by eexists|done|]. kstep H4.
  by apply vanish_ends.
Qed.

Lemma kill_ends s : at_rest s -> fine (fault_kill_thread s).
Proof.
  intros Hw. unfold fault_kill_thread. destruct (within_me T None me s Hw) as (t & Hme & Ht & Hp). kstep (running_pcb_ok _ _ _ Hme Ht).
  destruct (lock_within T me t s _ Hw eq_refl Ht) as (s1 & H1 & Hw1). kstep H1.
  destruct (alive_count_within _ s1 _ Hw1 Hp) as (n & H2). kstep H2.
  destruct (unlock_within T me s1 _ Hw1 Hp) as (s2 & H3 & Hw2). kstep H3.
  assert (exists s3, when (bool_decide (n <= 1)) (update_pcb (tcb_pcb t) (set_status (-2))) s2 = Done tt s3 /\ at_rest s3) as (s3 & H4 & Hw3).
  { case_bool_decide; [|by exists s2]. by apply update_pcb_within. }
  kstep H4. by apply vanish_ends.
Qed.

(** ** The devices *)

Lemma front_within s LS i : steady T None s LS me -> list_index i -> exists p, front_tcb i s = Done p s /\ (p = NULL \/ p <> NULL /\ p ∈ LS i).
Proof.
  intros Hsy Hi. exists (front_of (LS i)). split; [by eapply front_tcb_ok; [apply Hsy|]|].
  destruct (LS i) as [|x l] eqn:E; [by left|right]. assert (x ∈ LS i) as Hx by (rewrite E; left).
  destruct (sched_thread (ctl s) LS i x (sc_sched _ _ _ (sy_sched _ _ _ _ _ Hsy)) Hi Hx) as [Hn _]. split; [done|left].
Qed.

Lemma preempt_ends p s : at_rest s -> movable T me p -> fine ((switch_context p READY_STATE None;; mret tt) s).
Proof. intros Hw Hp. by eapply (switch_ends T _ (fun _ => mret tt)). Qed.

Lemma timer_ends s : at_rest s -> fine (handle_timer s).
Proof.
  intros Hw. unfold handle_timer. rewrite (bind_Done _ _ _ _ _ (modify_ok _ s)). set (now := u32 (tick_count s + 1)).
  set (s0 := with_tick_count now s). pose proof (within_ticks T None me s now Hw) as Hw0. fold s0 in Hw0.
  rewrite (bind_Done _ _ _ _ _ (gets_ok tick_count s0)). pose proof Hw0 as [LS Hsy].
  destruct (front_within s0 LS SLEEP Hsy ltac:(done)) as (p & H1 & Hp). kstep H1.
  assert (Hm : p <> NULL -> movable T me p).
  { intros Hn. destruct Hp as [?|[_ Hp]]; [done|]. by apply (listed_movable T None s0 LS me Hsy SLEEP). }
  assert (exists due : bool, (if decide (p = NULL) then mret false
    else t ← tcb_at p; mret (bool_decide (wakeup_time (blocking_detail t) <= tick_count s0))) s0 = Done due s0 /\ (due = true -> p <> NULL)) as (due & H2 & Hd).
  { case_decide as Hn; [by exists false|]. destruct (movable_listed T None s0 LS me Hsy p (Hm Hn)) as (_ & t & _ & _ & _ & Ht).
    kstep (tcb_at_ok _ _ _ Ht). by eexists. }
  kstep H2. destruct due; [by apply preempt_ends; [|apply Hm, Hd]|].
  destruct (decide (tick_count s0 `mod` (TIMER_INTERRUPT_HZ / ROUND_ROBIN_HZ) = 0)); [|exact Hw0].
  destruct (round_robin_within T None me s0 Hw0) as (q & s1 & H3 & Hw1 & Hq). kstep H3. case_bool_decide; [|exact Hw1].
  cbn [when]. destruct Hq as [?|Hq]; [done|]. by apply preempt_ends.
Qed.

Lemma keyboard_ends s : at_rest s -> fine (handle_keyboard s).
Proof.
  intros Hw. unfold handle_keyboard. assert (exists x s1, read_port s = Done x s1 /\ at_rest s1) as (x & s1 & H1 & Hw1).
  { unfold read_port. destruct (port s) as [|b rest]; [by exists 0, s|]. exists (s8 b), (with_port rest s). split; [done|].
    by eapply within_ctl. }
  kstep H1. destruct Hw1 as [LS Hsy]. destruct (sy_devices _ _ _ _ _ Hsy) as [[q Hq] Hdev]. destruct (push_tail_ok _ q x Hq) as (r & b & H2 & Hb).
  assert (steady T None (with_scancode_buf b s1) LS me) as Hsy2.
  { destruct Hsy as [X1 X2 X3 X4 X5 X6 X7]. split; try done; [by apply (scheduled_ctl s1)|].
    split; [|exact Hdev]. case_decide; [destruct Hb as [_ Hb]; by eexists|]. destruct Hb as [_ ->]. by exists q. }
  assert (H3 : push_scancode x s1 = Done tt (with_scancode_buf b s1)) by (unfold push_scancode; by rewrite H2).
  kstep H3. destruct (front_within _ LS READLINE Hsy2 ltac:(done)) as (p & H4 & Hp). kstep H4.
  assert (Hw2 : at_rest (with_scancode_buf b s1)) by by exists LS.
  destruct (decide (p = NULL)) as [Hn|Hn]; [exact Hw2|]. destruct Hp as [?|[_ Hp]]; [done|].
  assert (Hm : movable T me p) by by apply (listed_movable T None _ LS me Hsy2 READLINE).
  destruct (movable_listed T None _ LS me Hsy2 p Hm) as (_ & t & _ & _ & _ & Ht). kstep (tcb_at_ok _ _ _ Ht).
  destruct (first_reader _); [|exact Hw2]. cbn [when]. by apply preempt_ends.
Qed.

(** ** The console and the user's registers *)

(** The lock of the output is free between calls. *)
Lemma output_locked s : at_rest s -> exists o, mutex_lock OutputLock s = Done tt (with_output_lock o s).
Proof.
  intros Hw. destruct (within_me T None me s Hw) as (t & Hme & Ht & _). pose proof Hw as [LS Hsy].
  destruct (sy_devices _ _ _ _ _ Hsy) as (_ & Ho & _).
  destruct (mutex_lock_ok OutputLock s mutex_init me t) as (s1 & H1 & Hput); [by rewrite <-Ho|done..|].
  injection Hput as <-. by eexists.
Qed.

(** The end of a section in which only the screen and the memory have changed. *)
Lemma output_ends {A} (v : A) o c m s : at_rest s -> console_ok c -> mem_ok (with_mem m s) ->
  fine ((mutex_unlock OutputLock;; mret v) (with_mem m (with_kcon c (with_output_lock o s)))).
Proof.
  intros Hw Hc Hm. unfold mutex_unlock. set (s1 := with_mem m _).
  assert (H1 : (m0 ← load_lock OutputLock; store_lock OutputLock (KMutex.mutex_unlock m0)) s1 = Done tt (with_output_lock mutex_init s1)) by done.
  kstep H1. eapply (within_devices T None me s); [done..|]. destruct Hw as [LS Hsy]. by destruct (sy_devices _ _ _ _ _ Hsy) as (Hk & _).
Qed.

Lemma set_term_color_ends u s : at_rest s -> fine (handle_set_term_color u s).
Proof.
  intros Hw. pose proof Hw as [LS Hsy]. destruct (sy_devices _ _ _ _ _ Hsy) as (_ & _ & Hc & Hm).
  destruct (output_locked s Hw) as (o & H1). unfold handle_set_term_color. kstep H1.
  destruct (set_term_color (s32 (esi u)) (kcon s)) as [r c] eqn:E.
  assert (H2 : con_op (fun c => Some (set_term_color (s32 (esi u)) c)) (with_output_lock o s) = Done r (with_kcon c (with_output_lock o s))).
  { unfold con_op, primitive. cbn [kcon with_output_lock]. by rewrite E. }
  kstep H2. apply (output_ends _ o c (mem s) s Hw); [|done]. unfold set_term_color in E. case_decide; injection E as _ <-; done.
Qed.

Lemma set_cursor_ends u s : at_rest s -> mapped_range s (esi u) 8 -> fine (handle_set_cursor_pos u s).
Proof.
  intros Hw Hr. pose proof Hw as [LS Hsy]. destruct (sy_space _ _ _ _ _ Hsy) as [F HF]. destruct (sy_devices _ _ _ _ _ Hsy) as (_ & _ & Hc & Hm).
  destruct (load_two_args s F (esi u) HF Hr) as [L1 L2]. unfold handle_set_cursor_pos. kstep L1. kstep L2.
  destruct (output_locked s Hw) as (o & H1). kstep H1.
  destruct (set_cursor (s32 (word_at s (esi u))) (s32 (word_at s (esi u + 4))) (kcon s)) as [r c] eqn:E.
  assert (H2 : con_op (fun c => Some (set_cursor (s32 (word_at s (esi u))) (s32 (word_at s (esi u + 4))) c)) (with_output_lock o s) =
    Done r (with_kcon c (with_output_lock o s))).
  { unfold con_op, primitive. cbn [kcon with_output_lock]. by rewrite E. }
  kstep H2. apply (output_ends _ o c (mem s) s Hw); [|done]. unfold set_cursor in E.
  destruct (validate_pos _ _) eqn:Ev; cbn [negb] in E; injection E as _ <-; [|done]. split; [apply Hc|exact Ev].
Qed.

(** Bytes that are in memory, or may not be read. *)
Definition bytes_present (s : kstate) (v n : Z) : Prop := readable_range s v n -> mapped_range s v n.

Lemma print_ends u s : at_rest s -> mapped_range s (esi u) 8 ->
  bytes_present s (word_at s (esi u + 4)) (s32 (word_at s (esi u))) -> fine (handle_print u s).
Proof.
  intros Hw Hr Hb. pose proof Hw as [LS Hsy]. destruct (sy_space _ _ _ _ _ Hsy) as [F HF]. destruct (sy_devices _ _ _ _ _ Hsy) as (_ & _ & Hc & Hm).
  destruct (load_two_args s F (esi u) HF Hr) as [L1 L2]. unfold handle_print. kstep L1. kstep L2.
  set (len := s32 (word_at s (esi u))) in *. set (buf := word_at s (esi u + 4)) in *. case_decide as Hl; [done|].
  pose proof (s32_range (word_at s (esi u))) as Hlr. fold len in Hlr. pose proof (word_at_range s (esi u + 4) Hm) as Hbr. fold buf in Hbr.
  destruct (is_readable_ok s F buf len HF Hbr ltac:(lia)) as (b & H1 & Hi). kstep H1. destruct b; cbn [negb]; [|done].
  destruct (output_locked s Hw) as (o & H2). kstep H2.
  assert (exists c, put_user_bytes (Z.to_nat len) buf (with_output_lock o s) = Done tt (with_kcon c (with_output_lock o s)) /\ console_ok c)
    as (c & H3 & Hc').
  { destruct (decide (len = 0)) as [->|Hz]; [exists (kcon s); by destruct s|].
    destruct (put_user_bytes_ok (Z.to_nat len) buf (with_output_lock o s) F) as (c & H3 & Hc' & _); [done| |done|by exists c].
    rewrite Z2Nat.id by lia. apply Hb. destruct (proj1 Hi eq_refl); [lia|done]. }
  kstep H3. by apply (output_ends _ o c (mem s) s Hw).
Qed.

(** A word that is in memory and the caller's own, or may not be written. *)
Definition word_writable (s : kstate) (v : Z) : Prop := vword v /\ (writable_range s v 4 -> own_range s v 4).

Lemma store_cursor_ok s F row col : space_ok s F -> own_range s row 4 -> own_range s col 4 -> mem_ok s ->
  exists m, store_cursor row col s = Done tt (with_mem m s) /\ mem_ok (with_mem m s).
Proof.
  intros Hs Hr Hc Hm. unfold store_cursor. kpure. destruct (store_own s F row (u32 (get_cursor (kcon s)).1) Hs Hr Hm) as (m & H1 & Hm1). kstep H1.
  kpure. destruct (store_own (with_mem m s) F col (u32 (get_cursor (kcon s)).2) Hs Hc Hm1) as (m2 & H2 & Hm2). by exists m2.
Qed.

Lemma get_cursor_ends u s : at_rest s -> mapped_range s (esi u) 8 -> word_writable s (word_at s (esi u)) ->
  word_writable s (word_at s (esi u + 4)) -> fine (handle_get_cursor_pos u s).
Proof.
  intros Hw Hr [Vr Hrow] [Vc Hcol]. pose proof Hw as [LS Hsy]. destruct (sy_space _ _ _ _ _ Hsy) as [F HF].
  destruct (sy_devices _ _ _ _ _ Hsy) as (_ & _ & Hc & Hm). destruct (load_two_args s F (esi u) HF Hr) as [L1 L2].
  unfold handle_get_cursor_pos. kstep L1. kstep L2. set (row := word_at s (esi u)) in *. set (col := word_at s (esi u + 4)) in *.
  destruct (writable_iff s F row 4 HF Vr ltac:(lia)) as (b1 & H1 & I1). kstep H1.
  assert (exists b, (if b1 then is_writable col 4 else mret false) s = Done b s /\ (b = true -> own_range s row 4 /\ own_range s col 4)) as (b & H2 & I2).
  { destruct b1; [|by exists false]. destruct (writable_iff s F col 4 HF Vc ltac:(lia)) as (b & H2 & I2). exists b. split; [done|].
    intros Hb. split; [by apply Hrow, I1|by apply Hcol, I2]. }
  kstep H2. destruct b; cbn [negb]; [|done]. destruct (I2 eq_refl) as [O1 O2]. destruct (output_locked s Hw) as (o & H3). kstep H3.
  destruct (store_cursor_ok (with_output_lock o s) F row col HF O1 O2 Hm) as (m & H4 & Hm'). kstep H4.
  by apply (output_ends _ o (kcon s) m s Hw).
Qed.

Lemma swexn_ends u s : at_rest s -> mapped_range s (esi u) 16 ->
  (word_at s (esi u + 12) <> NULL -> mapped_range s (word_at s (esi u + 12)) 80) -> fine (handle_swexn u s).
Proof.
  intros Hw Hr Hn. destruct (within_me T None me s Hw) as (t & Hme & Ht & _). pose proof Hw as [LS Hsy].
  destruct (sy_space _ _ _ _ _ Hsy) as [F HF]. destruct (sy_devices _ _ _ _ _ Hsy) as (_ & _ & _ & Hm).
  destruct (swexn_ok u s F me t HF Hm (conj Hme Ht) Hr Hn) as (ok & _ & H1). destruct ok; [|by rewrite H1].
  destruct H1 as (c & Hc & ->). set (f := swexn_registers _ _ _) in Hc.
  destruct (update_tcb_within T None me s me f t Hw Ht) as (s1 & H1 & Hw1 & _); [unfold f, swexn_registers; by case_decide|].
  unfold update_tcb in H1. rewrite (ctl_upd_ok _ _ _ Hc) in H1. injection H1 as <-. case_decide; [done|by exists me].
Qed.

End calls.

(** ** Page faults *)

(** A directory exists when it maps something, or nothing, at address 0. *)
Lemma view_dir s d : tables_ok s -> is_Some (pdirs s !! d) <-> is_Some (view s d 0).
Proof.
  intros Ht. unfold view, get_pde, get_pte. change (pde_index 0) with 0%nat. change (pte_index 0) with 0%nat. cbn [fst snd]. split.
  - intros [es He]. destruct (dir_ok _ Ht _ _ He) as (_ & Hlen & _). destruct es as [|e es]; [done|].
    rewrite He. cbn.
    case_decide as Hp; [by eexists|]. destruct (present_ok _ Ht d 0%nat e) as [es' He']; [|done|].
    { unfold get_pde. cbn [fst]. by rewrite He. }
    rewrite He'. cbn. destruct (tab_ok _ Ht _ _ He') as (_ & Hlen' & _). destruct es'; [done|]. by eexists.
  - intros [x Hx]. by destruct (pdirs s !! d).
Qed.

Lemma views_dirs s s' d : tables_ok s -> tables_ok s' -> is_Some (pdirs s !! d) ->
  (is_Some (view s d 0) -> is_Some (view s' d 0)) -> is_Some (pdirs s' !! d).
Proof. intros Ht Ht' Hd Hv. by apply view_dir, Hv, view_dir. Qed.

Lemma view_upd_some (V : Z -> Z -> option page_view) d v x d' w : is_Some (V d' w) -> is_Some (view_upd V d v x d' w).
Proof. intros Hv. unfold view_upd. case_decide; [by eexists|done]. Qed.

(** What an attempt at a repair leaves. *)
Lemma repaired_frame s F v p ok s' : space_ok s F -> repaired s F v p ok s' ->
  s' = with_mem (mem s') (with_kvm (kvm s') s) /\ (exists F', space_ok s' F') /\
  forall d, is_Some (pdirs (kvm s) !! d) -> is_Some (pdirs (kvm s') !! d).
Proof.
  intros Hs Hr. assert (Hid : forall s0 : kstate, s0 = with_mem (mem s0) (with_kvm (kvm s0) s0)) by by intros [].
  assert (Hk : s' = with_kvm (kvm s') s -> s' = with_mem (mem s') (with_kvm (kvm s') s)) by (intros ->; by destruct s).
  assert (Hd : forall V, (exists F', space_ok s' F') -> view_is (kvm s') V -> (forall d, is_Some (view (kvm s) d 0) -> is_Some (V d 0)) ->
    forall d, is_Some (pdirs (kvm s) !! d) -> is_Some (pdirs (kvm s') !! d)).
  { intros V [F' [[Ht' _] _]] Hv HV d Hdir. destruct Hs as [[Ht _] _]. eapply views_dirs; [exact Ht|exact Ht'|done|].
    intros Hx. rewrite Hv by done. by apply HV. }
  destruct p, ok; cbn [repaired] in Hr.
  1, 5: destruct Hr as (F' & f & _ & _ & _ & H1 & H2 & H3 & _); (split; [done|]);
    assert (exists F', space_ok s' F') as HF by eauto; (split; [done|]); eapply (Hd _ HF H3); intros d; apply view_upd_some.
  1: destruct Hr as (H1 & H2 & H3 & _).
  2: destruct Hr as (H1 & H2 & H3).
  3: destruct Hr as (H1 & H2 & H3 & _).
  4: destruct Hr as (H1 & (F' & _ & H2 & _) & H3).
  1-4: (split; [by apply Hk|]); assert (exists F', space_ok s' F') as HF by eauto; (split; [done|]);
    eapply (Hd _ HF H3); intros d; first [done|apply view_upd_some].
  all: destruct Hr as [_ ->]; (split; [apply Hid|]); split; [by eexists|done].
Qed.

Lemma repaired_mem s F v p ok s' : repaired s F v p ok s' -> mem_ok s -> mem_ok s'.
Proof.
  intros Hr Hm. assert (Hk : mem s' = mem s -> mem_ok s') by (intros E a; unfold byte_at; rewrite E; apply Hm).
  assert (Hc : forall f, frame_cleared f s s' -> mem_ok s').
  { intros f Hf a. rewrite Hf. case_bool_decide; [lia|apply Hm]. }
  destruct p, ok; cbn [repaired] in Hr; first
    [ destruct Hr as (F' & f & _ & _ & _ & _ & _ & _ & H1); by apply (Hc f)
    | destruct Hr as (H1 & _); apply Hk; by rewrite H1
    | destruct Hr as (_ & ->); done ].
Qed.

Lemma repaired_within T me s F v p ok s' : within T None me s -> space_ok s F -> repaired s F v p ok s' -> within T None me s'.
Proof.
  intros [LS Hsy] Hs Hr. destruct (repaired_frame s F v p ok s' Hs Hr) as (E & HF & Hd). pose proof (repaired_mem _ _ _ _ _ _ Hr) as Hm. exists LS.
  destruct Hsy as [X1 X2 X3 X4 X5 X6 X7]. assert (Ec : ctl s' = ctl s) by by rewrite E. split; try done.
  - by eapply scheduled_ctl.
  - by rewrite Ec.
  - by rewrite Ec.
  - intros q ts Hq. destruct (X5 q ts Hq) as (H1 & H2 & b & H3 & H4 & H5 & H6 & H7). split; [done|]. split; [done|].
    exists b. rewrite Ec. split; [done|]. split; [done|]. split; [done|]. split; [by apply Hd|done].
  - destruct X7 as (Y1 & Y2 & Y3 & Y4). split; [by rewrite E|]. split; [by rewrite E|]. split; [by rewrite E|by apply Hm].
Qed.

Section faults.
Context `{Platform} (T : gmap addr (list addr)) (me : addr).
#[local] Abbreviation at_rest := (within T None me).
#[local] Abbreviation fine o := (ends T (fun _ s' => at_rest s') o).

(** An address below user memory. *)
Lemma kernel_page s u : 0 <= cr2 u < USER_PAGE_START ->
  (if decide (Z.land (error_code u) 1 = 0)
   then repair_missing (page_of (cr3 s)) (cr2 u) (bool_decide (Z.land (Z.shiftr (error_code u) 1) 1 <> 0))
   else repair_present (page_of (cr3 s)) (cr2 u)) s = Done false s.
Proof.
  intros Hv. assert (Hu : user_page_ok (page_of (cr3 s)) (cr2 u) = false).
  { unfold user_page_ok. rewrite (bool_decide_false (USER_PAGE_START <= page_of (cr2 u))); [apply andb_false_r|].
    change USER_PAGE_START with 16777216 in *. pose proof (page_of_range (cr2 u)). lia. }
  case_decide; [unfold repair_missing|unfold repair_present].
  - assert (G : get_availability (page_of (cr3 s)) (cr2 u) (kvm s) = Some (FAIL, None)) by (unfold get_availability; by rewrite Hu).
    kstep (vm_get_ok (get_availability (page_of (cr3 s)) (cr2 u)) s _ G). done.
  - assert (G : check_user_page (page_of (cr3 s)) (cr2 u) (kvm s) = Some (FAIL, None)) by (unfold check_user_page; by rewrite Hu).
    kstep (vm_get_ok (check_user_page (page_of (cr3 s)) (cr2 u)) s _ G). done.
Qed.

Lemma page_fault_ends u s : at_rest s -> vword (cr2 u) -> fine (handle_page_fault u s).
Proof.
  intros Hw Hv. destruct (within_me T None me s Hw) as (t & Hme & Ht & Hp). pose proof Hw as [LS Hsy].
  destruct (sy_space _ _ _ _ _ Hsy) as [F HF]. destruct Hp as [ts Hp].
  destruct (sy_procs _ _ _ _ _ Hsy _ _ Hp) as (_ & _ & b & Hb & _ & _ & _ & Hl). specialize (Hl ltac:(done)).
  destruct (decide (USER_PAGE_START <= cr2 u)) as [Hu|Hu].
  - destruct (handle_page_fault_ok u s F me t) as (ok & s' & Hr & ->).
    + by split.
    + cbn [get_lock]. by rewrite Hb, <-Hl.
    + done.
    + split; [apply HF|done].
    + pose proof (repaired_within T me _ _ _ _ _ _ Hw HF Hr) as Hw'. destruct ok; [done|by apply kill_ends].
  - destruct (pcb_lock_ok s me t b Hme Ht Hb Hl) as (c & H1 & _ & _ & _ & _ & _ & _ & H2).
    unfold handle_page_fault. kstep (running_pcb_ok _ _ _ Hme Ht). kstep H1.
    assert (Hcd : current_page_dir (with_ctl c s) = Done (page_of (cr3 (with_ctl c s))) (with_ctl c s)) by done. kstep Hcd.
    assert (Hlow : 0 <= cr2 u < USER_PAGE_START) by (unfold vword in Hv; lia).
    pose proof (kernel_page (with_ctl c s) u Hlow) as H3. kstep H3. kstep H2. by apply kill_ends.
Qed.

(** * Entering the kernel *)

(** The calls this file says nothing about. *)
Definition other_calls : list Z :=
  [FORK_INT; EXEC_INT; WAIT_INT; READLINE_INT; NEW_PAGES_INT; REMOVE_PAGES_INT; READFILE_INT; THREAD_FORK_INT].

(** An interrupt, a fault or a call the running thread may raise: the arguments in
    user memory that the call reads are there, and the pages it looks at have been
    touched; [task_vanish] is called in a process that has lost no thread yet. *)
Record enters (s : kstate) (u : ureg_t) : Prop := {
  en_call : cause u ∉ other_calls;
  en_address : vword (cr2 u);
  en_deschedule : cause u = DESCHEDULE_INT -> word_present s (esi u);
  en_print : cause u = PRINT_INT ->
    mapped_range s (esi u) 8 /\ bytes_present s (word_at s (esi u + 4)) (s32 (word_at s (esi u)));
  en_set_cursor : cause u = SET_CURSOR_POS_INT -> mapped_range s (esi u) 8;
  en_get_cursor : cause u = GET_CURSOR_POS_INT ->
    mapped_range s (esi u) 8 /\ word_writable s (word_at s (esi u)) /\ word_writable s (word_at s (esi u + 4));
  en_swexn : cause u = SWEXN_INT ->
    mapped_range s (esi u) 16 /\ (word_at s (esi u + 12) <> NULL -> mapped_range s (word_at s (esi u + 12)) 80);
  en_task_vanish : cause u = TASK_VANISH_INT -> all_alive s;
}.

(** The calls whose arguments matter. *)
Definition argument_calls : list Z :=
  [DESCHEDULE_INT; PRINT_INT; SET_CURSOR_POS_INT; GET_CURSOR_POS_INT; SWEXN_INT; TASK_VANISH_INT].

Lemma enters_plain s u : bool_decide (cause u ∉ other_calls ++ argument_calls) = true -> vword (cr2 u) -> enters s u.
Proof.
  intros Hc%bool_decide_eq_true Hv. rewrite not_elem_of_app in Hc. destruct Hc as [H1 H2].
  split; [done|done|..]; intros E; exfalso; apply H2; rewrite E; decided.
Qed.

Lemma enters_flag s u f : enters s u -> enters (with_int_flag f s) u.
Proof. by intros [E1 E2 E3 E4 E5 E6 E7 E8]. Qed.

Lemma keeping_ends (m : K unit) u s : fine (m s) -> fine (keeping m u s).
Proof. intros Hm. unfold keeping. by apply (fine_bind T me). Qed.

(** One call of the table. *)
Ltac call_ends Hw Hen Hn :=
  lazymatch goal with
  | |- ends _ _ (handle_gettid _ _) => exact (gettid_ends _ _ _ _ Hw)
  | |- ends _ _ (handle_get_ticks _ _) => exact (get_ticks_ends _ _ _ _ Hw)
  | |- ends _ _ (handle_set_status _ _) => exact (set_status_ends _ _ _ _ Hw)
  | |- ends _ _ (handle_yield _ _) => exact (yield_ends _ _ _ _ Hw)
  | |- ends _ _ (handle_sleep _ _) => exact (sleep_ends _ _ _ _ Hw)
  | |- ends _ _ (handle_deschedule _ _) => exact (deschedule_ends _ _ _ _ Hw (en_deschedule _ _ Hen Hn))
  | |- ends _ _ (handle_make_runnable _ _) => exact (make_runnable_ends _ _ _ _ Hw)
  | |- ends _ _ (handle_print _ _) => destruct (en_print _ _ Hen Hn); by apply print_ends
  | |- ends _ _ (handle_set_term_color _ _) => exact (set_term_color_ends _ _ _ _ Hw)
  | |- ends _ _ (handle_set_cursor_pos _ _) => exact (set_cursor_ends _ _ _ _ Hw (en_set_cursor _ _ Hen Hn))
  | |- ends _ _ (handle_get_cursor_pos _ _) => destruct (en_get_cursor _ _ Hen Hn) as (? & ? & ?); by apply get_cursor_ends
  | |- ends _ _ (handle_swexn _ _) => destruct (en_swexn _ _ Hen Hn); by apply swexn_ends
  | |- ends _ _ (handle_getchar _ _) => exact Hw
  | |- ends _ _ (handle_new_console _ _) => exact Hw
  | |- ends _ _ (keeping handle_timer _ _) => exact (keeping_ends _ _ _ (timer_ends _ _ _ Hw))
  | |- ends _ _ (keeping handle_keyboard _ _) => exact (keeping_ends _ _ _ (keyboard_ends _ _ _ Hw))
  | |- ends _ _ (keeping handle_vanish _ _) => exact (keeping_ends _ _ _ (vanish_ends _ _ _ Hw))
  | |- ends _ _ (keeping (handle_task_vanish _) _ _) =>
      exact (keeping_ends _ _ _ (task_vanish_ends _ _ _ _ Hw (en_task_vanish _ _ Hen Hn)))
  | |- ends _ _ (keeping handle_halt _ _) => exact I
  | |- ends _ _ (keeping (handle_page_fault _) _ _) => exact (keeping_ends _ _ _ (page_fault_ends _ _ Hw (en_address _ _ Hen)))
  | |- ends _ _ (keeping _ _ _) => exact (keeping_ends _ _ _ (kill_ends _ _ _ Hw))
  end.

Lemma handler_ends u s : at_rest s -> enters s u ->
  match handler_array (cause u) with Some h => fine (h u s) | None => True end.
Proof.
  intros Hw Hen. unfold handler_array.
  repeat (case_bool_decide as Hn; [first
    [ exfalso; apply (en_call _ _ Hen); rewrite Hn; decided | call_ends Hw Hen Hn ]|]; clear Hn); exact I.
Qed.

Lemma dispatch_ends u s : at_rest s -> enters s u -> fine (dispatch me u s).
Proof.
  intros Hw Hen. destruct (within_me T None me s Hw) as (t & Hme & Ht & Hp). unfold dispatch. kstep (tcb_at_ok _ _ _ Ht).
  case_bool_decide as Hd.
  - destruct (update_tcb_within T None me s me (set_exception_stack NULL) t Hw Ht) as (s1 & H1 & Hw1 & _); [done|]. kstep H1.
    by exists me.
  - pose proof (handler_ends u s Hw Hen) as Hh. destruct (handler_array (cause u)) as [h|]; [exact Hh|]. by apply keeping_ends, kill_ends.
Qed.

Lemma handle_ends u s : at_rest s -> enters s u -> fine (handle u s).
Proof.
  intros Hw Hen. destruct (within_me T None me s Hw) as (t & Hme & Ht & ts & Hp). unfold handle.
  kstep (running_tcb_ok _ _ Hme). kstep (tcb_at_ok _ _ _ Ht). pose proof Hw as [LS Hsy].
  destruct (sy_procs _ _ _ _ _ Hsy _ _ Hp) as (_ & _ & b & Hb & Hg & _). kstep (pcb_at_ok _ _ _ Hb). rewrite Hg.
  by apply dispatch_ends.
Qed.

End faults.

(** * The machine *)

(** The state of the kernel, and for each thread that gave up the processor
    inside a call the rest of that call. *)
Inductive machine : Type :=
| Active (s : kstate) (parked : gmap addr (kstate -> outcome ureg_t))
| Stopped
| Broken.

(** The gates of the devices clear the interrupt flag; [iret] loads the flags of
    the thread. *)
Definition gate (u : ureg_t) (s : kstate) : kstate :=
  if bool_decide (cause u = TIMER_IDT_ENTRY \/ cause u = KEY_IDT_ENTRY) then with_int_flag false s else s.
Definition iret (u : ureg_t) (s : kstate) : kstate := with_int_flag (Z.testbit (eflags u) 9) s.

Definition after (parked : gmap addr (kstate -> outcome ureg_t)) (o : outcome ureg_t) : machine :=
  match o with
  | Done u s | UserMode u s => Active (iret u s) parked
  | RunHandler _ _ _ _ s => Active s parked
  | Switch me _ s k => Active s (<[me:=k]> parked)
  | Halted _ => Stopped
  | Spinning _ | Crashed => Broken
  end.

(** The running thread enters the kernel from user code, or goes on with the
    call it is in. *)
Inductive kernel_step `{Platform} : machine -> machine -> Prop :=
| enter_step s parked me u : running (ctl s) = Some me -> parked !! me = None -> enters s u ->
    kernel_step (Active s parked) (after parked (handle u (gate u s)))
| resume_step s parked me k : running (ctl s) = Some me -> parked !! me = Some k ->
    kernel_step (Active s parked) (after (delete me parked) (k s)).

(** The invariant of the machine: between calls the state is steady, and every
    call that is interrupted ends well. *)
Definition machine_ok (T : gmap addr (list addr)) (m : machine) : Prop :=
  match m with
  | Active s parked => (exists me, within T None me s) /\
      forall q k, parked !! q = Some k -> forall s', within T None q s' -> ends T (fun _ s => exists me, within T None me s) (k s')
  | Stopped => True
  | Broken => False
  end.

Lemma within_running T held me q s : within T held me s -> running (ctl s) = Some q -> q = me.
Proof. intros Hw Hq. destruct (within_me T held me s Hw) as (t & Hme & _). congruence. Qed.

Lemma after_ok T parked o : ends T (fun _ s => exists me, within T None me s) o ->
  (forall q k, parked !! q = Some k -> forall s', within T None q s' -> ends T (fun _ s => exists me, within T None me s) (k s')) ->
  machine_ok T (after parked o).
Proof.
  intros Ho Hp. destruct o as [u s|me p s k|s|u s|u st h a s|s|]; cbn in *; try done.
  - destruct Ho as [me Hw]. split; [exists me; by apply within_flag|done].
  - destruct Ho as [H1 H2]. split; [by exists p|]. intros q k0 Hq. apply lookup_insert_Some in Hq as [[<- <-]|[_ Hq]]; [|by apply Hp].
    intros s' Hs'. by apply H2.
  - destruct Ho as [me Hw]. split; [exists me; by apply within_flag|done].
Qed.

Section machine_theorem.
Context `{Platform}.

Lemma step_ok T m m' : machine_ok T m -> kernel_step m m' -> machine_ok T m'.
Proof.
  intros Hok Hst. destruct Hst as [s parked me u Hme Hp Hen|s parked me k Hme Hp]; destruct Hok as [[q Hw] Hpk];
    pose proof (within_running T None q me s Hw Hme) as ->.
  - apply after_ok; [|done]. eapply ends_mono; [|apply (handle_ends T q u)].
    + intros a s' Hs'. by exists q.
    + unfold gate. case_bool_decide; [by apply within_flag|done].
    + unfold gate. case_bool_decide; [by apply enters_flag|done].
  - apply after_ok; [by apply (Hpk q k)|]. intros x kx Hx. apply lookup_delete_Some in Hx as [_ Hx]. by apply Hpk.
Qed.

Lemma machine_progress T s parked : machine_ok T (Active s parked) -> exists m', kernel_step (Active s parked) m'.
Proof.
  intros [[me Hw] _]. destruct (within_me T None me s Hw) as (t & Hme & _). destruct (parked !! me) as [k|] eqn:E.
  - eexists. by eapply resume_step.
  - eexists. apply (enter_step s parked me (set_cause TIMER_IDT_ENTRY ureg_zero)); [done|done|].
    by apply enters_plain.
Qed.

(** C2. The kernel, left to any sequence of timer and keyboard interrupts, of
    faults, and of those calls that [enters] admits, each of which may give the
    processor to another thread in its midst and go on later, keeps its invariant.
    What [enters] demands of a call, and the code does not check:
    - it is not one of the eight of [other_calls] (fork, exec, wait, readline,
      new_pages, remove_pages, readfile, thread_fork);
    - what the kernel reads for it of user memory (the word of deschedule, the
      arguments of print, swexn and the cursor calls, the text to print) is mapped
      or else refused by the range check of the call, and what it writes is in
      pages of the caller's own: where they have not been touched yet the kernel
      itself takes a page fault, with the lock of the process held in deschedule;
    - task_vanish is raised only in a process none of whose threads has
      terminated (otherwise the list of terminated threads can lose one).
    Then the kernel never crashes and never waits for a lock for ever; whenever it
    is not in a handler, one thread runs, every thread of every process is on
    exactly one list, the one its state names, no thread has been lost or
    duplicated, the sleepers are in the order they wake up in, every process lock
    and the lock of the output are free, the address spaces, the screen and the
    keyboard's buffer are well-formed; and, unless it has halted, it can go on.
    Interrupts come between the steps: a handler runs undisturbed until it
    switches or ends. *)
Theorem kernel_runs_safely (T : gmap addr (list addr)) (s : kstate) (LS : Z -> list addr) (me : addr) (m : machine)
    (Hsy : steady T None s LS me) (Hrun : rtc kernel_step (Active s ∅) m) :
  m <> Broken /\
  forall s' parked, m = Active s' parked ->
    (exists LS' me', steady T None s' LS' me' /\ running (ctl s') = Some me' /\
       (forall p ts q, T !! p = Some ts -> q ∈ ts -> exists! i, list_index i /\ q ∈ LS' i)) /\
    exists m', kernel_step m m'.
Proof.
  assert (Hm : machine_ok T m).
  { assert (machine_ok T (Active s ∅)) as H0 by (split; [exists me; by exists LS|intros q k Hq; by rewrite lookup_empty in Hq]).
    induction Hrun as [|m1 m2 m3 Hst _ IH]; [done|]. apply IH. by eapply step_ok. }
  split; [by intros ->|]. intros s' parked ->. split; [|by eapply machine_progress]. destruct Hm as [(q & LS' & Hsy') _].
  exists LS', q. split; [done|]. split; [by eapply running_is, Hsy'|]. intros p ts x Hp Hx.
  assert (listed LS' x) as (i & Hi & Hin) by (apply Hsy'; by exists p, ts). exists i. split; [done|]. intros k [Hk Hxk].
  destruct (sched_thread (ctl s') LS' i x (sc_sched _ _ _ (sy_sched _ _ _ _ _ Hsy')) Hi Hin) as (_ & t & Ht & Hh).
  symmetry. eapply sched_not_elsewhere; [apply Hsy'|exact Ht|exact Hh|done|done].
Qed.

End machine_theorem.

(** ** Two processes, five threads *)

Definition demo_tree : gmap addr (list addr) := list_to_map [(5000, [100; 110; 120]); (5100, [200; 210])].

Lemma demo_tree_lookup p ts : demo_tree !! p = Some ts -> (p = 5000 /\ ts = [100; 110; 120]) \/ (p = 5100 /\ ts = [200; 210]).
Proof.
  intros Hp. apply elem_of_list_to_map_2 in Hp. rewrite !elem_of_cons, elem_of_nil in Hp.
  destruct Hp as [[= -> ->]|[[= -> ->]|[]]]; [by left|by right].
Qed.

Lemma demo_listed q : listed demo_LS q <-> q ∈ [100; 110; 120; 200; 210].
Proof.
  unfold listed, demo_LS. split.
  - intros (i & _ & Hq). repeat case_decide; set_solver.
  - intros Hq. rewrite !elem_of_cons, elem_of_nil in Hq. destruct Hq as [->|[->|[->|[->|[->|[]]]]]];
      [exists RUNNING_STATE|exists READY_STATE|exists SLEEP|exists READY_STATE|exists SLEEP]; (split; [done|]); decided.
Qed.

Lemma demo_steady : steady demo_tree None demo_user_state demo_LS 100.
Proof.
  split.
  - apply (scheduled_ctl demo_state); [done|exact demo_scheduled].
  - change (demo_LS SLEEP) with [120; 210]. repeat constructor. vm_compute. discriminate.
  - intros q. rewrite demo_listed. split.
    + intros Hq. rewrite !elem_of_cons, elem_of_nil in Hq.
      destruct Hq as [->|[->|[->|[->|[->|[]]]]]]; [exists 5000|exists 5000|exists 5000|exists 5100|exists 5100]; eexists;
        (split; [reflexivity|]); set_solver.
    + intros (p & ts & Hp & Hq). apply demo_tree_lookup in Hp as [[-> ->]|[-> ->]]; set_solver.
  - intros p ts q Hp Hq. apply demo_tree_lookup in Hp as [[-> ->]|[-> ->]]; rewrite !elem_of_cons, elem_of_nil in Hq;
      repeat (destruct Hq as [->|Hq]; [reflexivity|]); done.
  - intros p ts Hp. apply demo_tree_lookup in Hp as [[-> ->]|[-> ->]]; (split; [done|]); (split; [done|]); eexists;
      (split; [reflexivity|]); (split; [done|]); (split; [split; [decided|done]|]); (split; [decided|done]).
  - exact demo_user_ok.
  - split; [exists []; exact buf_init_empty|]. split; [done|]. split; [exact demo_console_ok|]. intros a. vm_compute. by split.
Qed.

(** Thread 100 sleeps for one tick, thread 110 is interrupted by the timer, thread
    100 goes on, sets the colour of the terminal and ends its process. *)
Definition demo_sleep : ureg_t := set_cause SLEEP_INT (set_esi 1 ureg_zero).
Definition demo_tick : ureg_t := set_cause TIMER_IDT_ENTRY ureg_zero.
Definition demo_color : ureg_t := set_cause SET_TERM_COLOR_INT (set_esi 4 ureg_zero).
Definition demo_end : ureg_t := set_cause TASK_VANISH_INT (set_esi 3 ureg_zero).

(** One step, computed. *)
Definition turn (u : ureg_t) (m : machine) : machine :=
  match m with
  | Active s parked =>
      match running (ctl s) with
      | Some me => match parked !! me with
                   | Some k => after (delete me parked) (k s)
                   | None => after parked (handle u (gate u s))
                   end
      | None => Broken
      end
  | _ => Broken
  end.
Definition active (m : machine) : bool :=
  match m with Active s _ => bool_decide (is_Some (running (ctl s))) | _ => false end.

Lemma turn_step u m : active m = true ->
  match m with Active s _ => enters s u | _ => True end -> kernel_step m (turn u m).
Proof.
  intros Ha Hen. destruct m as [s parked| |]; [|done..]. cbn in Ha |- *. apply bool_decide_eq_true in Ha as [me Hme]. rewrite Hme.
  destruct (parked !! me) as [k|] eqn:E; [by apply (resume_step _ _ me)|by apply (enter_step _ _ me)].
Qed.

Lemma plain_turn u m : active m = true -> bool_decide (cause u ∉ other_calls ++ argument_calls) = true -> vword (cr2 u) ->
  kernel_step m (turn u m).
Proof. intros Ha H1 H2. apply turn_step; [done|]. destruct m; [by apply enters_plain|done..]. Qed.

(** [all_alive], computed. *)
Definition alive_check (s : kstate) : bool :=
  match running (ctl s) with
  | Some me => bool_decide (map_Forall (fun _ n => tcb_pcb (data n) = process_of (ctl s) me -> state (data n) <> TERMINATED_STATE)
                              (cells (tcbs (ctl s))))
  | None => true
  end.

Lemma alive_checked s : alive_check s = true -> all_alive s.
Proof.
  unfold alive_check. intros H me q Hme Hp. rewrite Hme in H. apply bool_decide_eq_true in H. unfold state_of.
  destruct (get_tcb (ctl s) q) as [tq|] eqn:Hq; [|done]. unfold process_of at 1 in Hp. rewrite Hq in Hp. unfold get_tcb in Hq.
  apply fmap_Some in Hq as (n & Hn & ->). by apply (H q n).
Qed.

Lemma end_turn u m : active m = true -> cause u = TASK_VANISH_INT -> vword (cr2 u) ->
  match m with Active s _ => alive_check s | _ => false end = true -> kernel_step m (turn u m).
Proof.
  intros Ha Hc Hv Hal. apply turn_step; [done|]. destruct m as [s p| |]; [|done..].
  split; rewrite ?Hc; try done; [decided|intros _; by apply alive_checked].
Qed.

Lemma kernel_runs_safely_witness : exists m, rtc kernel_step (Active demo_user_state ∅) m /\ m <> Broken /\
  match m with
  | Active s _ => running (ctl s) = Some 200 /\ tick_count s = 20 /\ exit_status s 5000 = Some 3 /\
      current_color (terminal (kcon s)) = 4 /\ state_of (ctl s) 120 = TERMINATED_STATE
  | _ => False
  end.
Proof.
  set (m1 := turn demo_color (turn demo_tick (turn demo_tick (turn demo_sleep (Active demo_user_state ∅))))).
  exists (turn demo_end m1). assert (Hr : rtc kernel_step (Active demo_user_state ∅) (turn demo_end m1)).
  { eapply rtc_l; [apply (plain_turn demo_sleep); [vm_compute; reflexivity..|done]|].
    eapply rtc_l; [apply (plain_turn demo_tick); [vm_compute; reflexivity..|done]|].
    eapply rtc_l; [apply (plain_turn demo_tick); [vm_compute; reflexivity..|done]|].
    eapply rtc_l; [apply (plain_turn demo_color); [vm_compute; reflexivity..|done]|].
    eapply rtc_l; [apply (end_turn demo_end); [vm_compute; reflexivity|done|done|vm_compute; reflexivity]|]. apply rtc_refl. }
  split; [exact Hr|]. split; [exact (proj1 (kernel_runs_safely demo_tree _ _ _ _ demo_steady Hr))|].
  vm_compute. repeat split.
Defined.
