(* ===== verification/Task.v ===== *)
(** User tasks: the threads of one process as the thread library of
    [src/user/libthread] sees them.

    The threads share memory and are preempted between any two instructions, so
    a C function is a program over atomic actions: accesses to words of memory,
    the exchange instruction, the functions of the course allocator and the
    system calls.  The semantics interleaves them in every possible way; what an
    action leaves open (the address the allocator chooses, whether a yield finds
    its thread) is a [choice] of the step. *)
From S2P Require Import Prelude.
From Stdlib Require Import FunctionalExtensionality.
#[local] Open Scope Z_scope.

(** ** Programs *)

Inductive action : Set :=
  | Load (a : addr)
  | Store (a v : Z)
  | Xchange (a v : Z)
  | Malloc (size : Z)
  | Free (a : addr)
  | Local (v : Z)
  | Unlocal (a : addr)
  | Gettid
  | Yield (tid : Z)
  | Deschedule (reject : addr)
  | Asleep
  | MakeRunnable (tid : Z)
  | Vanish
  | TaskVanish (status : Z)
  | Swexn (stack handler arg : Z).

(** A program ends with a value, performs an action, starts a thread, or loops:
    [Iter body x k] runs [body] from [x] until it answers [inr]. *)
Inductive prog (A : Type) : Type :=
  | Ret (a : A)
  | Act (a : action) (k : Z -> prog A)
  | Fork (p : prog unit) (k : Z -> prog A)
  | Iter {S R : Set} (body : S -> prog (S + R)) (x : S) (k : R -> prog A).
Arguments Ret {A}.
Arguments Act {A}.
Arguments Fork {A}.
Arguments Iter {A S R}.

Fixpoint prog_bind {A B} (f : A -> prog B) (m : prog A) : prog B :=
  match m with
  | Ret a => f a
  | Act a k => Act a (fun z => prog_bind f (k z))
  | Fork p k => Fork p (fun z => prog_bind f (k z))
  | Iter body x k => Iter body x (fun r => prog_bind f (k r))
  end.
#[export] Instance prog_mret : MRet prog := @Ret.
#[export] Instance prog_mbind : MBind prog := @prog_bind.

Lemma prog_bind_assoc {A B C} (m : prog A) (f : A -> prog B) (g : B -> prog C) :
  prog_bind g (prog_bind f m) = prog_bind (fun a => prog_bind g (f a)) m.
Proof.
  revert f. induction m as [A a|A a k IH|A p _ k IH|A S R body _ x k IH]; intros f; cbn; [done|..];
    f_equal; apply functional_extensionality; intros z; apply IH.
Qed.

Lemma prog_bind_ret {A} (m : prog A) : prog_bind Ret m = m.
Proof.
  induction m as [A a|A a k IH|A p _ k IH|A S R body _ x k IH]; cbn; [done|..];
    f_equal; apply functional_extensionality; intros z; apply IH.
Qed.

Lemma prog_bind_ext {A B} (m : prog A) (f g : A -> prog B) : (forall a, f a = g a) -> prog_bind f m = prog_bind g m.
Proof. intros H. f_equal. by apply functional_extensionality. Qed.

Definition act (a : action) : prog Z := Act a Ret.
Definition load (a : addr) : prog Z := act (Load a).
Definition store (a v : Z) : prog unit := Act (Store a v) (fun _ => Ret tt).
Definition xchange (a v : Z) : prog Z := act (Xchange a v).
Definition gettid : prog Z := act Gettid.
Definition yield (tid : Z) : prog Z := act (Yield tid).
Definition deschedule (reject : addr) : prog Z := act (Deschedule reject).
Definition make_runnable (tid : Z) : prog Z := act (MakeRunnable tid).
Definition task_vanish (status : Z) : prog unit := Act (TaskVanish status) (fun _ => Ret tt).
Definition vanish : prog unit := Act Vanish (fun _ => Ret tt).
Definition swexn (stack handler arg : Z) : prog Z := act (Swexn stack handler arg).
Definition fork (p : prog unit) : prog Z := Fork p Ret.

(** [while (c != 0) body]. *)
Definition while (c : prog Z) (body : prog unit) : prog unit :=
  Iter (fun _ : unit => z ← c; if decide (z = 0) then Ret (inr tt) else body;; Ret (inl tt)) tt Ret.
Definition loop {S R : Set} (body : S -> prog (S + R)) (x : S) : prog R := Iter body x Ret.

(** ** The state of a task

    Words of memory by address, the blocks the allocator has handed out with
    their sizes in bytes, the threads that sleep in [deschedule], the identifiers
    of all threads there have been (the kernel counts them up and gives none a
    second time), and the exit status once [task_vanish] has been called. *)
Record task : Type := Task {
  tmem : gmap Z Z;
  tblocks : gmap Z Z;
  tasleep : gset Z;
  tids : gset Z;
  tgone : option Z;
}.

Definition set_tmem (m : gmap Z Z) (s : task) : task := Task m (tblocks s) (tasleep s) (tids s) (tgone s).
Definition set_tblocks (b : gmap Z Z) (s : task) : task := Task (tmem s) b (tasleep s) (tids s) (tgone s).
Definition set_tasleep (x : gset Z) (s : task) : task := Task (tmem s) (tblocks s) x (tids s) (tgone s).
Definition set_tids (x : gset Z) (s : task) : task := Task (tmem s) (tblocks s) (tasleep s) x (tgone s).
Definition set_tgone (x : option Z) (s : task) : task := Task (tmem s) (tblocks s) (tasleep s) (tids s) x.

(** The addresses of the words of a block. *)
Definition words (p size : Z) : list Z := (fun i => p + 4 * i) <$> seqZ 0 (size / 4).
Definition fill (p size : Z) (v : Z -> Z) : gmap Z Z := list_to_map ((fun a => (a, v a)) <$> words p size).

(** What an action leaves open: a number, and the contents of fresh memory. *)
Record choice : Type := Choice { pick : Z; junk : Z -> Z }.

Section semantics.
(** Whether the allocator may run out of memory. *)
Context (may_fail : bool).

(** [_malloc]: nothing for a request of no bytes, else a block at an aligned
    address of the environment's choice. *)
Definition malloc_step (c : choice) (size : Z) (s : task) : option (Z * task) :=
  if decide (size = 0) then Some (NULL, s)
  else if decide (pick c = NULL) then guard (may_fail = true);; Some (NULL, s)
  else
    guard (0 < pick c /\ pick c `mod` 4 = 0 /\ Forall (fun a => tmem s !! a = None) (words (pick c) size) /\ tblocks s !! pick c = None);;
    Some (pick c, set_tblocks (<[pick c := size]> (tblocks s)) (set_tmem (fill (pick c) size (junk c) ∪ tmem s) s)).

(** [_free].  It does not look whether the block is allocated: what it does with
    the heap otherwise is not said, and the model stops the thread there. *)
Definition free_step (a : addr) (s : task) : option task :=
  if decide (a = NULL) then Some s
  else
    size ← tblocks s !! a;
    Some (set_tblocks (delete a (tblocks s)) (set_tmem (foldr delete (tmem s) (words a size)) s)).

(** One action of thread [t]: its result and the new state; [None] when the
    processor faults or the allocator is misused, or when the choice is not a
    possible one. *)
Definition act_step (c : choice) (t : Z) (a : action) (s : task) : option (Z * task) :=
  match a with
  | Load a => v ← tmem s !! a; Some (v, s)
  | Store a v => _ ← tmem s !! a; Some (0, set_tmem (<[a := v]> (tmem s)) s)
  | Xchange a v => old ← tmem s !! a; Some (old, set_tmem (<[a := v]> (tmem s)) s)
  | Malloc size => malloc_step c size s
  | Free a => s ← free_step a s; Some (0, s)
  | Local v =>
      guard (0 < pick c /\ tmem s !! pick c = None);; Some (pick c, set_tmem (<[pick c := v]> (tmem s)) s)
  | Unlocal a => _ ← tmem s !! a; Some (0, set_tmem (delete a (tmem s)) s)
  | Gettid => Some (t, s)
  | Yield _ => Some (if decide (pick c = 0) then 0 else -1, s)
  | Deschedule a =>
      match tmem s !! a with
      | None => Some (-1, s)
      | Some v => Some (0, if decide (v = 0) then set_tasleep ({[t]} ∪ tasleep s) s else s)
      end
  | Asleep => Some (0, s)
  | MakeRunnable t' =>
      Some (if decide (t' ∈ tasleep s) then (0, set_tasleep (tasleep s ∖ {[t']}) s) else (-1, s))
  | Vanish => Some (0, s)
  | TaskVanish status => Some (0, set_tgone (Some status) s)
  | Swexn _ _ _ => Some (if decide (pick c = 0) then 0 else -1, s)
  end.

(** A thread: its identifier and what it still has to do. *)
Record thread : Type := Thread { thread_id : Z; code : prog unit }.

(** One step of a thread.  A thread that has put itself to sleep goes on with
    [Asleep], where it stays until somebody makes it runnable; [vanish] and
    [task_vanish] do not return; when the task has vanished every thread ends. *)
Definition thread_step (c : choice) (th : thread) (s : task) : option (thread * task * list thread) :=
  let t := thread_id th in
  match code th, tgone s with
  | Ret _, _ => None
  | _, Some _ => Some (Thread t (Ret tt), s, [])
  | Iter body x k, None =>
      Some (Thread t (body x ≫= fun r => match r with inl x => Iter body x k | inr r => k r end), s, [])
  | Fork p k, None =>
      if decide (pick c < 0) then Some (Thread t (k (-1)), s, [])
      else guard (pick c ∉ tids s /\ pick c ∉ tasleep s);;
           Some (Thread t (k (pick c)), set_tids ({[pick c]} ∪ tids s) s, [Thread (pick c) p])
  | Act a k, None =>
      '(z, s') ← act_step c t a s;
      let next := match a with
                  | Vanish | TaskVanish _ => Ret tt
                  | Deschedule _ => if decide (t ∈ tasleep s') then Act Asleep k else k z
                  | Asleep => if decide (t ∈ tasleep s') then code th else k z
                  | _ => k z
                  end in
      Some (Thread t next, s', [])
  end.

(** The threads of a task and its state; one step of any thread. *)
Definition config : Type := list thread * task.
Inductive step : config -> config -> Prop :=
  | Step c ths1 th ths2 s th' s' new : thread_step c th s = Some (th', s', new) ->
      step (ths1 ++ th :: ths2, s) (ths1 ++ th' :: ths2 ++ new, s').

(** Run a schedule: which thread steps, with which choice. *)
Fixpoint run (schedule : list (nat * choice)) (cf : config) : option config :=
  match schedule with
  | [] => Some cf
  | (i, c) :: rest =>
      let '(ths, s) := cf in
      th ← ths !! i;
      '(th', s', new) ← thread_step c th s;
      run rest (<[i := th']> ths ++ new, s')
  end.

(** Every run is an execution. *)
Lemma run_steps schedule : forall cf cf', run schedule cf = Some cf' -> rtc step cf cf'.
Proof.
  induction schedule as [|[i c] rest IH]; intros [ths s] cf' H; cbn in H; [injection H as <-; constructor|].
  destruct (ths !! i) as [th|] eqn:Hi; [|done]. cbn in H.
  destruct (thread_step c th s) as [[[th' s'] new]|] eqn:Hs; [|done]. cbn in H.
  apply IH in H. eapply rtc_l; [|exact H].
  pose proof (lookup_lt_Some _ _ _ Hi). rewrite <-(take_drop_middle _ _ _ Hi) at 1.
  rewrite insert_take_drop by done. rewrite <-app_assoc. by apply (Step c).
Qed.

Lemma run_reaches cf sch {A} (f : config -> A) (a : A) : f <$> run sch cf = Some a ->
  exists cf', rtc (step) cf cf' /\ f cf' = a.
Proof.
  destruct (run sch cf) as [cf'|] eqn:H; [|done]. intros [= <-]. exists cf'. split; [|done]. by eapply run_steps.
Qed.

(** A schedule from a list of turns, with the choices of a helpful kernel: system
    calls succeed, fresh memory (of zeros) is at ever higher addresses; the turns
    of threads that cannot go on are left out. *)
Definition helpful (n : nat) (th : thread) : choice :=
  match code th with
  | Act (Swexn _ _ _) _ | Act (Yield _) _ => Choice 0 (fun _ => 0)
  | _ => Choice (10000 + 1000 * Z.of_nat n) (fun _ => 0)
  end.
Fixpoint plan (n : nat) (turns : list nat) (cf : config) : list (nat * choice) :=
  match turns with
  | [] => []
  | i :: turns =>
      match cf.1 !! i with
      | None => plan n turns cf
      | Some th =>
          let c := helpful n th in
          match run [(i, c)] cf with Some cf => (i, c) :: plan (Datatypes.S n) turns cf | None => plan n turns cf end
      end
  end.
Definition turns (l : list (nat * nat)) : list nat := concat ((fun x => replicate x.2 x.1) <$> l).

(** An execution in two parts, and what is seen in the middle and at the end. *)
Definition plan_on (first : list (nat * choice)) (turns : list nat) (cf : config) : list (nat * choice) :=
  match run first cf with Some cf => plan (length first) turns cf | None => [] end.
Lemma run_twice start sch1 sch2 {A B} (f : config -> A) (g : config -> B) a b :
  match run sch1 start with
  | Some cf => (f cf, g <$> run sch2 cf) = (a, Some b)
  | None => False
  end -> exists cf1 cf2, rtc step start cf1 /\ rtc step cf1 cf2 /\ f cf1 = a /\ g cf2 = b.
Proof.
  destruct (run sch1 start) as [cf1|] eqn:H1; [|done]. intros [= Ha Hb].
  destruct (run sch2 cf1) as [cf2|] eqn:H2; [|done]. injection Hb as Hb. exists cf1, cf2.
  split; [by eapply run_steps|]. by split; [eapply run_steps|].
Qed.

(** Addresses above everything in use. *)
Lemma above (X : gset Z) : exists p, 0 < p /\ p `mod` 4 = 0 /\ forall a, a ∈ X -> a < p.
Proof.
  assert (exists p, 0 < p /\ forall a, a ∈ X -> a < p) as (p & Hp & H).
  { induction X as [|x X _ (p & Hp & H)] using set_ind_L; [exists 1; set_solver by lia|].
    exists (Z.max p (x + 1)). split; [lia|]. intros a [->%elem_of_singleton|Ha%H]%elem_of_union; lia. }
  exists (p * 4). split; [lia|]. split; [by apply Z.mod_mul|]. intros a Ha%H. lia.
Qed.

(** A thread that has not ended and can make no step has crashed. *)
Definition crashed (th : thread) (s : task) : Prop :=
  code th <> Ret tt /\ forall c, thread_step c th s = None.

End semantics.
