(* ===== verification/TaskLogic.v ===== *)
(** A separation logic for the threads of a task.

    The interleaving semantics of [Task] is an instance of Iris's notion of a
    language; a thread owns words of memory, blocks of the allocator, and the
    right to be asleep.  [wpt t m Φ] says that thread [t] can run the program [m]
    without crashing, whatever the others do, and that [Φ] holds of its result. *)
From S2P Require Import Prelude Task.
From iris.proofmode Require Import proofmode.
From iris.program_logic Require Import weakestpre lifting adequacy.
From iris.base_logic.lib Require Import ghost_map invariants.
#[local] Open Scope Z_scope.
#[export] Set Warnings "-rewrite-rw".

(** ** The language *)

Definition task_val : Type := Z.
Definition thread_of_val (t : task_val) : thread := Thread t (Ret tt).
Definition thread_to_val (th : thread) : option task_val :=
  match code th with Ret _ => Some (thread_id th) | _ => None end.

(** The logic is for tasks whose allocator does not run out of memory. *)
Definition task_step (th : thread) (s : task) (_ : list unit) (th' : thread) (s' : task) (new : list thread) : Prop :=
  exists c, thread_step false c th s = Some (th', s', new).

Lemma task_mixin : LanguageMixin thread_of_val thread_to_val task_step.
Proof.
  split; [done| |].
  - intros [t c] v. unfold thread_to_val. cbn. destruct c as [[]| | |]; [|done..]. by intros [= ->].
  - intros [t c] s κ th' s' new (ch & H). unfold thread_step in H. unfold thread_to_val. cbn in *. by destruct c.
Qed.
Canonical Structure task_lang : language := Language task_mixin.

(** ** Ghost state *)

Class taskGS (Σ : gFunctors) : Type := TaskGS {
  task_invGS : invGS Σ;
  task_memG :: ghost_mapG Σ Z Z;
  task_sleepG :: ghost_mapG Σ Z bool;
  task_bornG :: ghost_mapG Σ Z unit;
  mem_name : gname;
  blocks_name : gname;
  sleep_name : gname;
  born_name : gname;
}.

(** The sleepers are the threads whose entry says so. *)
Definition sleep_ok (m : gmap Z bool) (s : task) : Prop :=
  (forall t, t ∈ tasleep s <-> m !! t = Some true) /\ dom m ⊆ tids s.

Definition task_interp `{!taskGS Σ} (s : task) : iProp Σ :=
  ghost_map_auth mem_name 1 (tmem s) ∗ ghost_map_auth blocks_name 1 (tblocks s) ∗
  ghost_map_auth born_name 1 (gset_to_gmap () (tids s)) ∗
  ∃ m, ghost_map_auth sleep_name 1 m ∗ ⌜sleep_ok m s⌝.

#[export] Instance task_irisGS `{!taskGS Σ} : irisGS task_lang Σ := {
  iris_invGS := task_invGS;
  state_interp s _ _ _ := task_interp s;
  fork_post _ := True%I;
  num_laters_per_step _ := 0%nat;
  state_interp_mono _ _ _ _ := fupd_intro _ _;
}.

Notation "a ↦ v" := (@ghost_map_elem _ Z Z _ _ task_memG mem_name a (DfracOwn 1) v) (at level 20, format "a  ↦  v") : bi_scope.

Section logic.
Context `{!taskGS Σ}.
Implicit Types P Q : iProp Σ.

(** Ownership of a block of the allocator, of a thread's being asleep, and of its
    identifier. *)
Definition block_of (p size : Z) : iProp Σ := p ↪[blocks_name] size.
Definition sleeping (t : Z) (b : bool) : iProp Σ := t ↪[sleep_name] b.
Definition born (t : Z) : iProp Σ := t ↪[born_name] ().

Definition wpt (t : Z) {A} (m : prog A) (Φ : A -> iProp Σ) : iProp Σ :=
  ∀ K : A -> prog unit, (∀ a, Φ a -∗ WP Thread t (K a) {{ _, True }}) -∗
    WP Thread t (prog_bind K m) {{ _, True }}.

Lemma wpt_ret t {A} (a : A) Φ : Φ a -∗ wpt t (Ret a) Φ.
Proof. iIntros "H" (K) "HK". by iApply "HK". Qed.

Lemma wpt_bind t {A B} (m : prog A) (f : A -> prog B) Φ :
  wpt t m (fun a => wpt t (f a) Φ) -∗ wpt t (prog_bind f m) Φ.
Proof.
  iIntros "H" (K) "HK". rewrite prog_bind_assoc. iApply "H". iIntros (a) "Ha". by iApply "Ha".
Qed.

Lemma wpt_wand t {A} (m : prog A) Φ Ψ : wpt t m Φ -∗ (∀ a, Φ a -∗ Ψ a) -∗ wpt t m Ψ.
Proof. iIntros "H HΦ" (K) "HK". iApply "H". iIntros (a) "Ha". iApply "HK". by iApply "HΦ". Qed.

Lemma fupd_wpt t {A} (m : prog A) Φ : (|={⊤}=> wpt t m Φ) -∗ wpt t m Φ.
Proof. iIntros "H" (K) "HK". iApply fupd_wp. iMod "H". by iApply "H". Qed.

Lemma wpt_run t (m : prog unit) : wpt t m (fun _ => True) -∗ WP Thread t m {{ _, True }}.
Proof.
  iIntros "H". iSpecialize ("H" $! Ret). rewrite prog_bind_ret.
  iApply "H". iIntros ([]) "_". by iApply (wp_value' NotStuck ⊤ _ (t : val task_lang)).
Qed.

(** A step that does not depend on the continuation ends the thread when the
    task is gone. *)
Lemma wp_thread_step t (e : prog unit) :
  thread_to_val (Thread t e) = None ->
  (∀ s, ⌜tgone s = None⌝ -∗ task_interp s ={⊤,∅}=∗
    ⌜exists c r, thread_step false c (Thread t e) s = Some r⌝ ∗
    ▷ ∀ c th' s' new, ⌜thread_step false c (Thread t e) s = Some (th', s', new)⌝ ={∅,⊤}=∗
      task_interp s' ∗ WP th' {{ _, True }} ∗ [∗ list] th ∈ new, WP th {{ _, True }}) -∗
  WP Thread t e {{ _, True }}.
Proof.
  iIntros (Hv) "H". iApply wp_lift_step_fupd; [done|]. iIntros (s ns κ κs nt) "Hs".
  destruct (tgone s) as [st|] eqn:Hg.
  - iApply fupd_mask_intro; [set_solver|]. iIntros "Hclose". iSplit.
    { iPureIntro. exists [], (Thread t (Ret tt)), s, [], (Choice 0 id). unfold thread_step. cbn. rewrite Hg. by destruct e. }
    iIntros (th' s' new (c & Hst)) "_ !> !>". iMod "Hclose" as "_". iModIntro.
    assert (th' = Thread t (Ret tt) /\ s' = s /\ new = []) as (-> & -> & ->).
    { unfold thread_step in Hst. cbn in Hst. rewrite Hg in Hst. destruct e; by simplify_eq. }
    iFrame. iSplit; [|done]. by iApply (wp_value' NotStuck ⊤ _ (t : val task_lang)).
  - iMod ("H" with "[//] Hs") as "[%Hred H]". iModIntro. iSplit.
    { iPureIntro. destruct Hred as (c & [[th' s'] new] & Hst). by exists [], th', s', new, c. }
    iIntros (th' s' new (c & Hst)) "_ !> !>". iMod ("H" with "[//]") as "($ & $ & $)". done.
Qed.

(** Actions that return and put nobody to sleep. *)
Definition plain (a : action) : bool :=
  match a with Deschedule _ | Asleep | Vanish | TaskVanish _ => false | _ => true end.

Lemma wpt_act t a Φ : plain a = true ->
  (∀ s, task_interp s ={⊤,∅}=∗ ⌜exists c r, act_step false c t a s = Some r⌝ ∗
    ▷ ∀ c z s', ⌜act_step false c t a s = Some (z, s')⌝ ={∅,⊤}=∗ task_interp s' ∗ Φ z) -∗
  wpt t (act a) Φ.
Proof.
  iIntros (Hp) "H". iIntros (K) "HK". iApply wp_thread_step; [done|]. iIntros (s Hg) "Hs".
  iMod ("H" with "Hs") as "[%Hred H]". iModIntro. iSplit.
  { iPureIntro. destruct Hred as (c & [z s'] & Hst). exists c. unfold thread_step. cbn. rewrite Hg Hst. by eexists. }
  iNext. iIntros (c th' s' new Hst). unfold thread_step in Hst. cbn in Hst. rewrite Hg in Hst.
  destruct (act_step false c t a s) as [[z s1]|] eqn:Ha; [|done]. cbn in Hst.
  iMod ("H" with "[//]") as "[Hs HΦ]". assert (th' = Thread t (K z) /\ s' = s1 /\ new = []) as (-> & -> & ->).
  { by destruct a; simplify_eq. }
  iModIntro. iFrame. iSplit; [|done]. by iApply "HK".
Qed.


(** ** The rules of the actions

    Every rule lets invariants be opened around its action. *)

Lemma wpt_load t a E Φ : (|={⊤,E}=> ∃ v, a ↦ v ∗ ▷ (a ↦ v ={E,⊤}=∗ Φ v)) -∗ wpt t (load a) Φ.
Proof.
  iIntros "H". iApply wpt_act; [done|]. iIntros (s) "(Hm & Hb & Hs)". iMod "H" as (v) "[Ha H]".
  iDestruct (ghost_map_lookup with "Hm Ha") as %Hl. iApply fupd_mask_intro; [set_solver|]. iIntros "Hclose". iSplit.
  { iPureIntro. exists (Choice 0 id). cbn. rewrite Hl. by eexists. }
  iIntros "!>" (c z s' Hst). cbn in Hst. rewrite Hl in Hst. injection Hst as <- <-. iMod "Hclose" as "_".
  iFrame. by iApply "H".
Qed.

(** A word that is read only. *)
Lemma wpt_load_only t a dq v Φ : a ↪[mem_name]{dq} v -∗ ▷ (a ↪[mem_name]{dq} v -∗ Φ v) -∗ wpt t (load a) Φ.
Proof.
  iIntros "Ha H". iApply wpt_act; [done|]. iIntros (s) "(Hm & Hb & Hs)".
  iDestruct (ghost_map_lookup with "Hm Ha") as %Hl. iApply fupd_mask_intro; [set_solver|]. iIntros "Hclose". iSplit.
  { iPureIntro. exists (Choice 0 id). cbn. rewrite Hl. by eexists. }
  iIntros "!>" (c z s' Hst). cbn in Hst. rewrite Hl in Hst. injection Hst as <- <-. iMod "Hclose" as "_".
  iFrame. by iApply "H".
Qed.

Lemma update_mem s a v w : task_interp s -∗ a ↦ v ==∗ task_interp (set_tmem (<[a := w]> (tmem s)) s) ∗ a ↦ w.
Proof. iIntros "(Hm & Hb & Hs) Ha". iMod (ghost_map_update w with "Hm Ha") as "[$ $]". by iFrame. Qed.

Lemma wpt_store_act t a v E Φ : (|={⊤,E}=> ∃ w, a ↦ w ∗ ▷ (a ↦ v ={E,⊤}=∗ Φ 0)) -∗ wpt t (act (Store a v)) Φ.
Proof.
  iIntros "H". iApply wpt_act; [done|]. iIntros (s) "Hs". iMod "H" as (w) "[Ha H]".
  iAssert ⌜tmem s !! a = Some w⌝%I as %Hl; [iDestruct "Hs" as "[Hm _]"; iApply (ghost_map_lookup with "Hm Ha")|].
  iApply fupd_mask_intro; [set_solver|]. iIntros "Hclose". iSplit.
  { iPureIntro. exists (Choice 0 id). cbn. rewrite Hl. by eexists. }
  iIntros "!>" (c z s' Hst). cbn in Hst. rewrite Hl in Hst. injection Hst as <- <-. iMod "Hclose" as "_".
  iMod (update_mem with "Hs Ha") as "[$ Ha]". by iApply "H".
Qed.

Lemma wpt_store t a v E Φ : (|={⊤,E}=> ∃ w, a ↦ w ∗ ▷ (a ↦ v ={E,⊤}=∗ Φ tt)) -∗ wpt t (store a v) Φ.
Proof.
  iIntros "H". change (store a v) with (prog_bind (fun _ => Ret tt) (act (Store a v))). iApply wpt_bind.
  iApply wpt_store_act. iMod "H" as (w) "[Ha H]". iModIntro. iExists w. iFrame "Ha". iIntros "!> Ha".
  iMod ("H" with "Ha") as "H". by iApply wpt_ret.
Qed.

Lemma wpt_xchange t a v E Φ : (|={⊤,E}=> ∃ w, a ↦ w ∗ ▷ (a ↦ v ={E,⊤}=∗ Φ w)) -∗ wpt t (xchange a v) Φ.
Proof.
  iIntros "H". iApply wpt_act; [done|]. iIntros (s) "Hs". iMod "H" as (w) "[Ha H]".
  iAssert ⌜tmem s !! a = Some w⌝%I as %Hl; [iDestruct "Hs" as "[Hm _]"; iApply (ghost_map_lookup with "Hm Ha")|].
  iApply fupd_mask_intro; [set_solver|]. iIntros "Hclose". iSplit.
  { iPureIntro. exists (Choice 0 id). cbn. rewrite Hl. by eexists. }
  iIntros "!>" (c z s' Hst). cbn in Hst. rewrite Hl in Hst. injection Hst as <- <-. iMod "Hclose" as "_".
  iMod (update_mem with "Hs Ha") as "[$ Ha]". by iApply "H".
Qed.

(** Actions that change nothing. *)
Lemma wpt_silent t a Φ : plain a = true ->
  (forall c s z s', act_step false c t a s = Some (z, s') -> s' = s) ->
  (forall s, is_Some (act_step false (Choice 0 id) t a s)) ->
  ▷ (∀ z, ⌜exists c s s', act_step false c t a s = Some (z, s')⌝ -∗ Φ z) -∗ wpt t (act a) Φ.
Proof.
  iIntros (Hp Hsame Hred) "H". iApply wpt_act; [done|]. iIntros (s) "Hs".
  iApply fupd_mask_intro; [set_solver|]. iIntros "Hclose". iSplit.
  { iPureIntro. destruct (Hred s) as [r Hr]. by exists (Choice 0 id), r. }
  iIntros "!>" (c z s' Hst). iMod "Hclose" as "_". pose proof (Hsame _ _ _ _ Hst) as ->. iFrame.
  iApply "H". iPureIntro. by exists c, s, s.
Qed.

Lemma wpt_gettid t Φ : ▷ Φ t -∗ wpt t gettid Φ.
Proof.
  iIntros "H". iApply wpt_silent; [done|by intros c s z s' [= <- <-]|by eexists|].
  iIntros "!>" (z (c & s & s' & [= <- <-])). done.
Qed.

Lemma wpt_yield t t' Φ : ▷ (∀ z, Φ z) -∗ wpt t (yield t') Φ.
Proof.
  iIntros "H". iApply wpt_silent; [done|by intros c s z s' [= <- <-]|by eexists|]. iIntros "!>" (z _). done.
Qed.

(** Fresh memory. *)
Lemma lookup_fill p size v a : fill p size v !! a = if decide (a ∈ words p size) then Some (v a) else None.
Proof.
  unfold fill. case_decide as H.
  - apply elem_of_list_to_map_1'; [|by apply list_elem_of_fmap_2' with a].
    intros y (a' & [= <- <-] & _)%list_elem_of_fmap. done.
  - apply not_elem_of_list_to_map_1. rewrite -list_fmap_compose. intros (a' & -> & Ha)%list_elem_of_fmap. done.
Qed.

Lemma words_NoDup p size : NoDup (words p size).
Proof. apply NoDup_fmap_2; [intros i j H; lia|apply NoDup_seqZ]. Qed.

Lemma elem_of_words p size a : a ∈ words p size -> p <= a.
Proof. intros (i & -> & Hi%elem_of_seqZ)%list_elem_of_fmap. lia. Qed.

Lemma wpt_malloc t size Φ : size <> 0 ->
  ▷ (∀ p, ⌜0 < p /\ p `mod` 4 = 0⌝ -∗ block_of p size -∗ ([∗ list] a ∈ words p size, ∃ v, a ↦ v) -∗ Φ p) -∗
  wpt t (act (Malloc size)) Φ.
Proof.
  iIntros (Hsize) "H". iApply wpt_act; [done|]. iIntros (s) "(Hm & Hb & Hs)".
  iApply fupd_mask_intro; [set_solver|]. iIntros "Hclose". iSplit.
  { iPureIntro. destruct (above (dom (tmem s) ∪ dom (tblocks s))) as (p & Hp & Hal & Habove). exists (Choice p id).
    cbn. unfold malloc_step. cbn. rewrite decide_False; [|done]. rewrite decide_False; [|unfold NULL; lia].
    assert (Hfresh : forall a, p <= a -> a ∉ dom (tmem s) ∪ dom (tblocks s)) by (intros a Ha Hin%Habove; lia).
    case_guard as Hg; [by eexists|]. destruct Hg. split; [done|]. split; [done|]. split.
    - apply Forall_forall. intros a Ha%elem_of_words. apply not_elem_of_dom. pose proof (Hfresh a Ha). set_solver.
    - apply not_elem_of_dom. pose proof (Hfresh p). set_solver by lia. }
  iIntros "!>" (c z s' Hst). cbn in Hst. unfold malloc_step in Hst.
  case_decide; [done|]. case_decide; [case_guard; [done|by simplify_eq]|]. case_guard as Hg; [|done].
  destruct Hg as (Hp & Hal & Hfresh & Hnb).
  injection Hst as <- <-. iMod "Hclose" as "_". rewrite Forall_forall in Hfresh.
  iMod (ghost_map_insert (pick c) size with "Hb") as "[$ Hblk]"; [done|].
  iMod (ghost_map_insert_big (fill (pick c) size (junk c)) with "Hm") as "[$ Hw]".
  { apply map_disjoint_spec. intros a v w Hv Hw. rewrite lookup_fill in Hv. case_decide as Ha; [|done].
    by rewrite (Hfresh a Ha) in Hw. }
  iFrame. iApply ("H" with "[] Hblk"); [done|]. unfold fill. rewrite big_sepM_list_to_map.
  - rewrite big_sepL_fmap. iApply (big_sepL_impl with "Hw"). iIntros "!> !>" (i a _) "Ha". by iExists _.
  - rewrite -list_fmap_compose (list_fmap_ext _ id) ?list_fmap_id; [apply words_NoDup|done].
Qed.

Lemma delete_words (l : list Z) (m : gmap Z Z) : ghost_map_auth mem_name 1 m -∗ ([∗ list] a ∈ l, ∃ v, a ↦ v) ==∗
  ghost_map_auth mem_name 1 (foldr delete m l).
Proof.
  iIntros "Hm Hl". iInduction l as [|a l] "IH"; [done|]. iDestruct "Hl" as "[(%v & Ha) Hl]".
  iMod ("IH" with "Hm Hl") as "Hm". by iMod (ghost_map_delete with "Hm Ha") as "Hm".
Qed.

Lemma wpt_free t p size Φ : 0 < p ->
  block_of p size -∗ ([∗ list] a ∈ words p size, ∃ v, a ↦ v) -∗ ▷ Φ 0 -∗ wpt t (act (Free p)) Φ.
Proof.
  iIntros (Hp) "Hblk Hw H". iApply wpt_act; [done|]. iIntros (s) "(Hm & Hb & Hs)".
  iDestruct (ghost_map_lookup with "Hb Hblk") as %Hl.
  assert (Hst0 : forall c, act_step false c t (Free p) s = Some (0, set_tblocks (delete p (tblocks s))
            (set_tmem (foldr delete (tmem s) (words p size)) s))).
  { intros c. cbn. unfold free_step. rewrite decide_False; [|unfold NULL; lia]. by rewrite Hl. }
  iApply fupd_mask_intro; [set_solver|]. iIntros "Hclose". iSplit; [iPureIntro; exists (Choice 0 id); by eexists|].
  iIntros "!>" (c z s' Hst). rewrite Hst0 in Hst. injection Hst as <- <-. iMod "Hclose" as "_".
  iMod (ghost_map_delete with "Hb Hblk") as "$". iMod (delete_words with "Hm Hw") as "$". by iFrame.
Qed.

Lemma wpt_free_null t Φ : ▷ Φ 0 -∗ wpt t (act (Free NULL)) Φ.
Proof.
  iIntros "H". iApply wpt_silent; [done|by intros c s z s' [= <- <-]|by eexists|].
  iIntros "!>" (z (c & s & s' & [= <- <-])). done.
Qed.

(** A local variable whose address is taken. *)
Lemma wpt_local t v Φ : ▷ (∀ a, ⌜0 < a⌝ -∗ a ↦ v -∗ Φ a) -∗ wpt t (act (Local v)) Φ.
Proof.
  iIntros "H". iApply wpt_act; [done|]. iIntros (s) "(Hm & Hb & Hs)".
  iApply fupd_mask_intro; [set_solver|]. iIntros "Hclose". iSplit.
  { iPureIntro. destruct (above (dom (tmem s))) as (p & Hp & _ & Habove). exists (Choice p id). cbn.
    case_guard as Hg; [by eexists|]. destruct Hg. split; [done|]. apply not_elem_of_dom. intros Hin%Habove. lia. }
  iIntros "!>" (c z s' Hst). cbn in Hst. case_guard as Hg; [|done]. destruct Hg as [Hp Hf]. injection Hst as <- <-.
  iMod "Hclose" as "_". iMod (ghost_map_insert (pick c) v with "Hm") as "[$ Ha]"; [done|]. iFrame.
  by iApply ("H" with "[//]").
Qed.

Lemma wpt_unlocal t a v Φ : a ↦ v -∗ ▷ Φ 0 -∗ wpt t (act (Unlocal a)) Φ.
Proof.
  iIntros "Ha H". iApply wpt_act; [done|]. iIntros (s) "(Hm & Hb & Hs)".
  iDestruct (ghost_map_lookup with "Hm Ha") as %Hl.
  iApply fupd_mask_intro; [set_solver|]. iIntros "Hclose". iSplit.
  { iPureIntro. exists (Choice 0 id). cbn. rewrite Hl. by eexists. }
  iIntros "!>" (c z s' Hst). cbn in Hst. rewrite Hl in Hst. injection Hst as <- <-. iMod "Hclose" as "_".
  iMod (ghost_map_delete with "Hm Ha") as "$". by iFrame.
Qed.

(** ** Sleeping *)

Lemma sleep_awake s m t : sleep_ok m s -> m !! t = Some false -> t ∉ tasleep s.
Proof. intros [H _] Hm Ht%H. by rewrite Hm in Ht. Qed.

Lemma sleep_set s m t b b' X : sleep_ok m s -> m !! t = Some b -> (forall t', t' ∈ X <-> if decide (t' = t) then b' = true else t' ∈ tasleep s) ->
  sleep_ok (<[t := b']> m) (set_tasleep X s).
Proof.
  intros [H1 H2] Hm HX. split.
  - intros t'. cbn. rewrite HX. destruct (decide (t' = t)) as [->|Hne].
    + rewrite lookup_insert_eq. naive_solver.
    + by rewrite lookup_insert_ne.
  - cbn. rewrite dom_insert_L. apply elem_of_dom_2 in Hm. set_solver.
Qed.

Lemma wpt_make_runnable t t' E Φ :
  (|={⊤,E}=> ∃ b, sleeping t' b ∗ ▷ (sleeping t' false ={E,⊤}=∗ Φ (if b then 0 else -1))) -∗
  wpt t (make_runnable t') Φ.
Proof.
  iIntros "H". iApply wpt_act; [done|]. iIntros (s) "(Hm & Hb & Hbn & (%m & Hs & %Hok))". iMod "H" as (b) "[Ht H]".
  iDestruct (ghost_map_lookup with "Hs Ht") as %Hl.
  iApply fupd_mask_intro; [set_solver|]. iIntros "Hclose". iSplit; [iPureIntro; exists (Choice 0 id); by eexists|].
  iIntros "!>" (c z s' Hst). cbn in Hst. iMod "Hclose" as "_". destruct b.
  - rewrite decide_True in Hst; [|by apply Hok]. injection Hst as <- <-.
    iMod (ghost_map_update false with "Hs Ht") as "[Hs Ht]". iMod ("H" with "Ht") as "$". iFrame. iPureIntro.
    apply (sleep_set s m t' true); [done|done|]. intros t''. case_decide; set_solver.
  - rewrite decide_False in Hst; [|by apply (sleep_awake s m)]. injection Hst as <- <-.
    iMod ("H" with "Ht") as "$". by iFrame.
Qed.

Lemma wpt_deschedule t a E Φ :
  (|={⊤,E}=> ∃ v, a ↦ v ∗ sleeping t false ∗
     ▷ (if decide (v = 0) then a ↦ v -∗ sleeping t true ={E,⊤}=∗ wpt t (act Asleep) Φ
        else a ↦ v -∗ sleeping t false ={E,⊤}=∗ Φ 0)) -∗
  wpt t (deschedule a) Φ.
Proof.
  iIntros "H" (K) "HK". iApply wp_thread_step; [done|]. iIntros (s Hg) "(Hm & Hb & Hbn & (%m & Hs & %Hok))".
  iMod "H" as (v) "(Ha & Ht & H)".
  iDestruct (ghost_map_lookup with "Hs Ht") as %Hl. iDestruct (ghost_map_lookup with "Hm Ha") as %Hv.
  pose proof (sleep_awake _ _ _ Hok Hl) as Haw.
  iApply fupd_mask_intro; [set_solver|]. iIntros "Hclose".
  iSplit; [iPureIntro; exists (Choice 0 id); unfold thread_step; cbn; rewrite Hg Hv; by eexists|].
  iIntros "!>" (c th' s' new Hst). unfold thread_step in Hst. cbn in Hst. rewrite Hg Hv in Hst. cbn in Hst.
  iMod "Hclose" as "_". destruct (decide (v = 0)) as [->|Hne].
  - rewrite decide_True in Hst; [|cbn; set_solver]. injection Hst as <- <- <-.
    iMod (ghost_map_update true with "Hs Ht") as "[Hs Ht]". iMod ("H" with "Ha Ht") as "H". iFrame. iModIntro.
    iSplit; [iPureIntro|iSplit; [|done]; by iApply ("H" with "HK")].
    apply (sleep_set s m t false); [done|done|]. intros t'. case_decide; set_solver.
  - rewrite decide_False in Hst; [|done]. injection Hst as <- <- <-. iMod ("H" with "Ha Ht") as "H".
    iFrame. iModIntro. iSplit; [done|]. iSplit; [|done]. by iApply "HK".
Qed.

Lemma wpt_asleep t E Φ :
  (|={⊤,E}=> ∃ b, sleeping t b ∗ ▷ (sleeping t b ={E,⊤}=∗ if b : bool then wpt t (act Asleep) Φ else Φ 0)) -∗
  wpt t (act Asleep) Φ.
Proof.
  iIntros "H" (K) "HK". iApply wp_thread_step; [done|]. iIntros (s Hg) "(Hm & Hb & Hbn & (%m & Hs & %Hok))".
  iMod "H" as (b) "(Ht & H)". iDestruct (ghost_map_lookup with "Hs Ht") as %Hl.
  iApply fupd_mask_intro; [set_solver|]. iIntros "Hclose".
  iSplit; [iPureIntro; exists (Choice 0 id); unfold thread_step; cbn; rewrite Hg; by eexists|].
  iIntros "!>" (c th' s' new Hst). unfold thread_step in Hst. cbn in Hst. rewrite Hg in Hst. cbn in Hst.
  iMod "Hclose" as "_". iMod ("H" with "Ht") as "H". iFrame. destruct b.
  - rewrite decide_True in Hst; [|by apply Hok]. injection Hst as <- <- <-. iFrame. iModIntro.
    iSplit; [done|]. iSplit; [|done]. by iApply ("H" with "HK").
  - rewrite decide_False in Hst; [|by apply (sleep_awake s m)]. injection Hst as <- <- <-. iFrame. iModIntro.
    iSplit; [done|]. iSplit; [|done]. by iApply "HK".
Qed.

(** ** Threads and loops *)

Lemma wpt_vanish t Φ : sleeping t false -∗ wpt t vanish Φ.
Proof.
  iIntros "Ht" (K) "HK". iApply wp_thread_step; [done|]. iIntros (s Hg) "(Hm & Hb & Hbn & (%m & Hs & %Hok))".
  iDestruct (ghost_map_lookup with "Hs Ht") as %Hl.
  iApply fupd_mask_intro; [set_solver|]. iIntros "Hclose".
  iSplit; [iPureIntro; exists (Choice 0 id); unfold thread_step; cbn; rewrite Hg; by eexists|].
  iIntros "!>" (c th' s' new Hst). unfold thread_step in Hst. cbn in Hst. rewrite Hg in Hst. injection Hst as <- <- <-.
  iMod "Hclose" as "_". iMod (ghost_map_delete with "Hs Ht") as "Hs". iFrame. iModIntro.
  iSplit; [iPureIntro|iSplit; [by iApply (wp_value' NotStuck ⊤ _ (t : val task_lang))|done]].
  destruct Hok as [H1 H2]. split; cbn.
  - intros t'. rewrite H1. destruct (decide (t' = t)) as [->|Hne]; [rewrite lookup_delete_eq Hl; naive_solver|].
    by rewrite lookup_delete_ne.
  - rewrite dom_delete_L. set_solver.
Qed.

Lemma wpt_task_vanish t status Φ : ⊢ wpt t (task_vanish status) Φ.
Proof.
  iIntros (K) "HK". iApply wp_thread_step; [done|]. iIntros (s Hg) "Hs".
  iApply fupd_mask_intro; [set_solver|]. iIntros "Hclose".
  iSplit; [iPureIntro; exists (Choice 0 id); unfold thread_step; cbn; rewrite Hg; by eexists|].
  iIntros "!>" (c th' s' new Hst). unfold thread_step in Hst. cbn in Hst. rewrite Hg in Hst. injection Hst as <- <- <-.
  iMod "Hclose" as "_". iFrame. iModIntro. iSplit; [by iApply (wp_value' NotStuck ⊤ _ (t : val task_lang))|done].
Qed.

(** A fork fails, or starts a thread with an identifier of its own; what the two
    threads get is arranged at that moment. *)
Lemma wpt_fork t p Φ :
  ▷ ((∀ z, ⌜z < 0⌝ -∗ Φ z) ∧
     (∀ t', ⌜0 <= t'⌝ -∗ sleeping t' false -∗ born t' ={⊤}=∗ wpt t' p (fun _ => True) ∗ Φ t')) -∗
  wpt t (fork p) Φ.
Proof.
  iIntros "H" (K) "HK". iApply wp_thread_step; [done|]. iIntros (s Hg) "(Hm & Hb & Hbn & (%m & Hs & %Hok))".
  iApply fupd_mask_intro; [set_solver|]. iIntros "Hclose".
  iSplit; [iPureIntro; exists (Choice (-1) id); unfold thread_step; cbn; rewrite Hg; by eexists|].
  iIntros "!>" (c th' s' new Hst). unfold thread_step in Hst. cbn in Hst. rewrite Hg in Hst.
  iMod "Hclose" as "_". case_decide as Hneg.
  - injection Hst as <- <- <-. iFrame. iModIntro. iSplit; [done|]. iSplit; [|done]. iApply "HK".
    iDestruct "H" as "[H _]". by iApply "H".
  - case_guard as Hf; [|done]. destruct Hf as [Hf1 Hf2]. injection Hst as <- <- <-. destruct Hok as [H1 H2].
    assert (Hn : m !! pick c = None) by (apply not_elem_of_dom; set_solver).
    iMod (ghost_map_insert (pick c) false with "Hs") as "[Hs Ht]"; [done|].
    iMod (ghost_map_insert (pick c) () with "Hbn") as "[Hbn Hbt]"; [by apply lookup_gset_to_gmap_None|].
    iDestruct "H" as "[_ H]". iMod ("H" with "[] Ht Hbt") as "[Hp HΦ]"; [iPureIntro; lia|].
    iModIntro. iSplitL "Hm Hb Hs Hbn".
    { unfold task_interp. cbn [tmem tblocks tids set_tids]. rewrite gset_to_gmap_union_singleton. iFrame. iPureIntro. split; cbn.
      - intros t'. rewrite H1. destruct (decide (t' = pick c)) as [->|Hne]; [rewrite lookup_insert_eq Hn; naive_solver|].
        by rewrite lookup_insert_ne.
      - rewrite dom_insert_L. set_solver. }
    iSplitL "HΦ HK"; [by iApply "HK"|]. rewrite big_sepL_singleton. by iApply wpt_run.
Qed.

(** A loop is its first round followed by the rest. *)
Definition unrolled {S R : Set} {A} (body : S -> prog (S + R)) (x : S) (k : R -> prog A) : prog A :=
  prog_bind (fun r => match r with inl x => Iter body x k | inr r => k r end) (body x).

Lemma wpt_unroll t {S R : Set} {A} (body : S -> prog (S + R)) (x : S) (k : R -> prog A) Φ :
  ▷ wpt t (unrolled body x k) Φ -∗ wpt t (Iter body x k) Φ.
Proof.
  iIntros "H" (K) "HK". iApply wp_thread_step; [done|]. iIntros (s Hg) "Hs".
  iApply fupd_mask_intro; [set_solver|]. iIntros "Hclose".
  iSplit; [iPureIntro; exists (Choice 0 id); unfold thread_step; cbn; rewrite Hg; by eexists|].
  iIntros "!>" (c th' s' new Hst). unfold thread_step in Hst. cbn in Hst. rewrite Hg in Hst. injection Hst as <- <- <-.
  iMod "Hclose" as "_". iFrame. iModIntro. iSplit; [|done]. iSpecialize ("H" with "HK"). unfold unrolled.
  rewrite prog_bind_assoc. erewrite (prog_bind_ext (body x)); [iExact "H"|]. by intros [].
Qed.

Lemma wpt_iter t {S R : Set} {A} (body : S -> prog (S + R)) (x : S) (k : R -> prog A) Φ :
  ▷ wpt t (body x) (fun r => match r with inl x => wpt t (Iter body x k) Φ | inr r => wpt t (k r) Φ end) -∗
  wpt t (Iter body x k) Φ.
Proof.
  iIntros "H". iApply wpt_unroll. iNext. iApply wpt_bind. iApply (wpt_wand with "H"). iIntros ([]) "H"; iExact "H".
Qed.

(** A loop whose every round keeps [I]. *)
Lemma wpt_loop t {S R : Set} (body : S -> prog (S + R)) (I : S -> iProp Σ) x Φ :
  □ (∀ x, I x -∗ wpt t (body x) (fun r => match r with inl x => I x | inr r => Φ r end)) -∗
  I x -∗ wpt t (loop body x) Φ.
Proof.
  iIntros "#Hb HI". iLöb as "IH" forall (x). iApply wpt_iter. iNext. iApply (wpt_wand with "[HI]"); [by iApply "Hb"|].
  iIntros ([x'|r]) "H"; [by iApply "IH"|by iApply wpt_ret].
Qed.

Lemma wpt_while t c body (I : iProp Σ) (Φ : iProp Σ) :
  □ (I -∗ wpt t c (fun z => if decide (z = 0) then Φ else wpt t body (fun _ => I))) -∗
  I -∗ wpt t (while c body) (fun _ => Φ).
Proof.
  iIntros "#Hb HI". iApply (wpt_loop t _ (fun _ => I) tt with "[] HI"). iIntros "!>" (x) "HI". iApply wpt_bind.
  iApply (wpt_wand with "[HI]"); [by iApply "Hb"|]. iIntros (z) "H". case_decide; [by iApply wpt_ret|].
  iApply wpt_bind. iApply (wpt_wand with "H"). iIntros (_) "HI". by iApply wpt_ret.
Qed.

End logic.

(** ** Adequacy

    What is proved in the logic holds of every execution. *)

Lemma step_erased cf cf' : Task.step false cf cf' -> erased_step (Λ := task_lang) cf cf'.
Proof. intros [c ths1 th ths2 s th' s' new H]. exists []. econstructor; [done|done|]. by exists c. Qed.

Lemma task_adequacy Σ `{!invGpreS Σ, !ghost_mapG Σ Z Z, !ghost_mapG Σ Z bool, !ghost_mapG Σ Z unit} ths s ths' s' (φ : task -> Prop) :
  NoDup (thread_id <$> ths) -> (forall th, th ∈ ths -> thread_id th ∈ tids s) -> tasleep s = ∅ ->
  (forall `{!taskGS Σ}, ⊢ ([∗ map] a ↦ v ∈ tmem s, a ↦ v) -∗ ([∗ list] th ∈ ths, sleeping (thread_id th) false) -∗
     ([∗ set] t ∈ tids s, born t) ={⊤}=∗
     ([∗ list] th ∈ ths, wpt (thread_id th) (code th) (fun _ => True)) ∗
     (∀ s', task_interp s' ={⊤,∅}=∗ ⌜φ s'⌝)) ->
  rtc (Task.step false) (ths, s) (ths', s') ->
  φ s' /\ Forall (fun th => ~ crashed false th s') ths'.
Proof.
  intros Hnd Hids Hsl Hwp Hst.
  assert (exists n κs, language.nsteps (Λ := task_lang) n (ths, s) κs (ths', s')) as (n & κs & Hn).
  { apply erased_steps_nsteps. clear -Hst. induction Hst as [|cf1 cf2 cf3 H _ IH]; [done|].
    eapply rtc_l; [by apply step_erased|done]. }
  enough (φ s' /\ forall th, th ∈ ths' -> not_stuck (Λ := task_lang) th s') as [Hφ Hns].
  { split; [done|]. apply Forall_forall. intros th Hin [Hc1 Hc2]. destruct (Hns th Hin) as [[v Hv]|(κ & th1 & s1 & efs & c & H)].
    - unfold to_val in Hv. cbn in Hv. unfold thread_to_val in Hv. destruct (code th) as [[]| | |]; [done|done..].
    - by rewrite Hc2 in H. }
  refine (wp_strong_adequacy Σ task_lang NotStuck ths s n κs ths' s' _ (fun _ => 0%nat) _ Hn).
  iIntros (Hinv).
  iMod (ghost_map_alloc (tmem s)) as (γm) "[Hm Hw]". iMod (ghost_map_alloc (tblocks s)) as (γb) "[Hb _]".
  iMod (ghost_map_alloc (list_to_map ((fun th => (thread_id th, false)) <$> ths) : gmap Z bool)) as (γs) "[Hs Ht]".
  iMod (ghost_map_alloc (gset_to_gmap () (tids s))) as (γn) "[Hbn Hborn]". rewrite big_sepM_gset_to_gmap.
  set (G := TaskGS Σ Hinv _ _ _ γm γb γs γn).
  iMod (Hwp G with "Hw [Ht] Hborn") as "[Hths Hφ]".
  { rewrite big_sepM_list_to_map.
    - by rewrite big_sepL_fmap.
    - by rewrite -list_fmap_compose. }
  iModIntro. iExists (fun s _ _ _ => task_interp s), ((fun _ _ => True%I) <$> ths), (fun _ => True%I), (fun _ _ _ _ => fupd_intro _ _).
  iSplitL "Hm Hb Hs Hbn".
  { iFrame. iPureIntro. split.
    - intros t. rewrite Hsl. split; [set_solver|]. intros Hl%elem_of_list_to_map_2. by apply list_elem_of_fmap in Hl as (th & [=] & _).
    - intros t. rewrite dom_list_to_map_L elem_of_list_to_set -list_fmap_compose. intros (th & -> & Hin)%list_elem_of_fmap. by apply Hids. }
  iSplitL "Hths".
  { rewrite big_sepL2_fmap_r. iApply big_sepL_sepL2_diag. iApply (big_sepL_impl with "Hths"). iIntros "!>" (i [t c] _) "H".
    by iApply (wpt_run t c with "H"). }
  iIntros (es' t2' -> Hlen Hns) "Hs _ _". iMod ("Hφ" with "Hs") as %Hphi. iPureIntro. split; [done|].
  intros th Hin. by apply Hns.
Qed.

(** Steps of a proof: an access to a word the thread owns. *)
Tactic Notation "wload" constr(H) :=
  try iApply wpt_bind; iApply wpt_load; iModIntro; iExists _; iFrame H; iNext; iIntros H; iModIntro; cbn beta.
Tactic Notation "wstore" constr(H) :=
  try iApply wpt_bind; iApply wpt_store; iModIntro; iExists _; iFrame H; iNext; iIntros H; iModIntro; cbn beta.
