(* ===== verification/UMutex.v ===== *)
(** The mutexes of the thread library, [src/user/libthread/mutex.c], and what is
    built on them alone: the allocation wrappers of [malloc.c].

    A mutex protects a resource: whoever returns from [mutex_lock] owns it until
    the call of [mutex_unlock], whatever the schedule. *)
From S2P Require Import Prelude Task TaskLogic.
From iris.proofmode Require Import proofmode.
From iris.base_logic.lib Require Import invariants token.
#[local] Open Scope Z_scope.

(** [mutex_type.h]; [mutex_t] is two words. *)
Definition UNLOCKED : Z := 1.
Definition LOCKED : Z := 0.
Definition mutex_lock_state (mp : addr) : addr := mp.
Definition mutex_tid (mp : addr) : addr := mp + 4.
Definition sizeof_mutex_t : Z := 8.

(** [thread.c]. *)
Definition thr_getid : prog Z := gettid.
Definition thr_yield (tid : Z) : prog Z :=
  r ← yield tid;
  if decide (r < 0) then Ret (-1) else Ret 0.

Definition mutex_init (mp : addr) : prog Z :=
  if decide (mp = NULL) then Ret (-1)
  else
    store (mutex_tid mp) (-1);;
    store (mutex_lock_state mp) UNLOCKED;;
    Ret 0.

Definition mutex_destroy (mp : addr) : prog unit := Ret tt.

Definition mutex_lock (mp : addr) : prog unit :=
  if decide (mp = NULL) then Ret tt
  else
    loop (fun _ : unit =>
      old ← xchange (mutex_lock_state mp) LOCKED;
      if decide (old = UNLOCKED) then Ret (inr tt)
      else
        tid ← load (mutex_tid mp);
        _ ← thr_yield tid;
        Ret (inl tt)) tt;;
    tid ← thr_getid;
    store (mutex_tid mp) tid.

Definition mutex_unlock (mp : addr) : prog unit :=
  if decide (mp = NULL) then Ret tt
  else
    store (mutex_tid mp) (-1);;
    _ ← xchange (mutex_lock_state mp) UNLOCKED;
    Ret tt.

(** [malloc.c]: the global [alloc_mutex] is where the linker puts it. *)
Class Globals : Type := { alloc_mutex : addr }.

Section malloc.
Context `{Globals}.

Definition malloc (size : Z) : prog Z :=
  mutex_lock alloc_mutex;;
  allocated_space ← act (Malloc size);
  mutex_unlock alloc_mutex;;
  Ret allocated_space.

Definition free (buf : addr) : prog unit :=
  mutex_lock alloc_mutex;;
  _ ← act (Free buf);
  mutex_unlock alloc_mutex.

End malloc.

(** ** What a mutex promises *)

Section proofs.
Context `{!taskGS Σ, !tokenG Σ}.
Definition mutexN : namespace := nroot .@ "mutex".

Definition held (γ : gname) : iProp Σ := token γ.

Definition mutex_inv (γ : gname) (mp : addr) (R : iProp Σ) : iProp Σ :=
  ∃ st tid, mutex_lock_state mp ↦ st ∗ mutex_tid mp ↦ tid ∗
    (⌜st = LOCKED⌝ ∨ ⌜st = UNLOCKED⌝ ∗ held γ ∗ R).

(** [mp] is an initialised mutex that protects [R]. *)
Definition is_mutex (γ : gname) (mp : addr) (R : iProp Σ) : iProp Σ :=
  ⌜mp <> NULL⌝ ∗ inv mutexN (mutex_inv γ mp R).

#[export] Instance is_mutex_persistent γ mp R : Persistent (is_mutex γ mp R).
Proof. apply _. Qed.

Lemma mutex_make mp R st tid : mp <> NULL -> st = UNLOCKED -> R -∗ mutex_lock_state mp ↦ st -∗ mutex_tid mp ↦ tid ={⊤}=∗ ∃ γ, is_mutex γ mp R.
Proof.
  iIntros (Hmp ->) "HR Hst Htid". iMod token_alloc as (γ) "Hγ". iExists γ. iSplitR; [done|].
  iApply inv_alloc. iIntros "!>". iExists _, _. iFrame. iRight. by iFrame.
Qed.

Lemma umutex_init_ok t mp a b Φ : mp <> NULL -> mutex_lock_state mp ↦ a -∗ mutex_tid mp ↦ b -∗
  (mutex_lock_state mp ↦ UNLOCKED -∗ mutex_tid mp ↦ (-1) -∗ Φ 0) -∗ wpt t (mutex_init mp) Φ.
Proof.
  iIntros (Hmp) "Ha Hb H". unfold mutex_init. rewrite decide_False; [|done].
  iApply wpt_bind. iApply wpt_store. iModIntro. iExists _. iFrame "Hb". iIntros "!> Hb !>".
  iApply wpt_bind. iApply wpt_store. iModIntro. iExists _. iFrame "Ha". iIntros "!> Ha !>".
  iApply wpt_ret. iApply ("H" with "Ha Hb").
Qed.

Lemma umutex_lock_ok γ mp R t Φ : is_mutex γ mp R -∗ (held γ -∗ R -∗ Φ tt) -∗ wpt t (mutex_lock mp) Φ.
Proof.
  iIntros "[%Hmp #I] HΦ". unfold mutex_lock. rewrite decide_False; [|done]. iApply wpt_bind.
  iApply (wpt_wand with "[]"); first iApply (wpt_loop t _ (fun _ => True%I) tt (fun _ => held γ ∗ R)%I with "[] [//]").
  - iIntros "!>" (x) "_". iApply wpt_bind. iApply wpt_xchange. iInv "I" as (st tid) "(>Hst & >Htid & Hs)" "Hclose".
    iModIntro. iExists st. iFrame "Hst". iIntros "!> Hst". iDestruct "Hs" as "[->|(-> & Hγ & HR)]".
    + iMod ("Hclose" with "[Hst Htid]") as "_"; [iIntros "!>"; iExists _, _; iFrame; by iLeft|]. iModIntro.
      cbn beta. case_decide; [done|]. iApply wpt_bind. iApply wpt_load.
      iInv "I" as (st' tid') "(Hst & >Htid & Hs)" "Hclose". iModIntro. iExists _. iFrame "Htid". iIntros "!> Htid".
      iMod ("Hclose" with "[Hst Htid Hs]") as "_"; [iExists _, _; by iFrame|]. iModIntro.
      iApply wpt_bind. unfold thr_yield. iApply wpt_bind. iApply wpt_yield. iIntros "!>" (z).
      case_decide; iApply wpt_ret; by iApply wpt_ret.
    + iMod ("Hclose" with "[Hst Htid]") as "_"; [iIntros "!>"; iExists _, _; iFrame; by iLeft|]. iModIntro.
      cbn beta. case_decide; [|done]. iApply wpt_ret. iFrame.
  - iIntros ([]) "[Hγ HR]". iApply wpt_bind. iApply wpt_gettid. iNext. iApply wpt_store.
    iInv "I" as (st tid) "(Hst & >Htid & Hs)" "Hclose". iModIntro. iExists _. iFrame "Htid". iIntros "!> Htid".
    iMod ("Hclose" with "[Hst Htid Hs]") as "_"; [iExists _, _; by iFrame|]. iModIntro. iApply ("HΦ" with "Hγ HR").
Qed.

Lemma umutex_unlock_ok γ mp R t Φ : is_mutex γ mp R -∗ held γ -∗ R -∗ Φ tt -∗ wpt t (mutex_unlock mp) Φ.
Proof.
  iIntros "[%Hmp #I] Hγ HR HΦ". unfold mutex_unlock. rewrite decide_False; [|done].
  iApply wpt_bind. iApply wpt_store. iInv "I" as (st tid) "(Hst & >Htid & Hs)" "Hclose". iModIntro. iExists _.
  iFrame "Htid". iIntros "!> Htid". iMod ("Hclose" with "[Hst Htid Hs]") as "_"; [iExists _, _; by iFrame|]. iModIntro.
  iApply wpt_bind. iApply wpt_xchange. iInv "I" as (st' tid') "(>Hst & >Htid & _)" "Hclose". iModIntro. iExists _.
  iFrame "Hst". iIntros "!> Hst". iMod ("Hclose" with "[Hst Htid Hγ HR]") as "_".
  { iIntros "!>". iExists _, _. iFrame. iRight. by iFrame. }
  iModIntro. by iApply wpt_ret.
Qed.

(** A mutex that nobody else knows: its owner takes it at once. *)
Definition own_mutex (mp : addr) (st : Z) : iProp Σ :=
  ⌜mp <> NULL⌝ ∗ mutex_lock_state mp ↦ st ∗ ∃ tid, mutex_tid mp ↦ tid.

Lemma own_mutex_lock_ok t mp Φ : own_mutex mp UNLOCKED -∗ (own_mutex mp LOCKED -∗ Φ tt) -∗ wpt t (mutex_lock mp) Φ.
Proof.
  iIntros "(%Hmp & Hst & %tid & Htid) HΦ". unfold mutex_lock. rewrite decide_False; [|done]. iApply wpt_bind.
  iApply wpt_iter. iNext. iApply wpt_bind. iApply wpt_xchange. iModIntro. iExists _. iFrame "Hst". iIntros "!> Hst !>".
  case_decide; [|done]. iApply wpt_ret. iApply wpt_ret. iApply wpt_bind. iApply wpt_gettid. iNext. wstore "Htid".
  iApply "HΦ". by iFrame.
Qed.

Lemma own_mutex_unlock_ok t mp st Φ : own_mutex mp st -∗ (own_mutex mp UNLOCKED -∗ Φ tt) -∗ wpt t (mutex_unlock mp) Φ.
Proof.
  iIntros "(%Hmp & Hst & %tid & Htid) HΦ". unfold mutex_unlock. rewrite decide_False; [|done]. wstore "Htid".
  iApply wpt_bind. iApply wpt_xchange. iModIntro. iExists _. iFrame "Hst". iIntros "!> Hst !>". iApply wpt_ret.
  iApply "HΦ". by iFrame.
Qed.

(** How a thread goes through a mutex once: what it finds behind it, and what
    it leaves for what. *)
Definition can_lock (t : Z) (mp : addr) (A : iProp Σ) : iProp Σ :=
  ∀ Φ, (A -∗ Φ tt) -∗ wpt t (mutex_lock mp) Φ.
Definition can_unlock (t : Z) (mp : addr) (A B : iProp Σ) : iProp Σ :=
  ∀ Φ, A -∗ (B -∗ Φ tt) -∗ wpt t (mutex_unlock mp) Φ.

Lemma shared_lock γ mp R t : is_mutex γ mp R -∗ can_lock t mp (held γ ∗ R) ∗ can_unlock t mp (held γ ∗ R) True.
Proof.
  iIntros "#I". iSplitL.
  - iIntros (Φ) "HΦ". iApply (umutex_lock_ok with "I"). iIntros "Hγ HR". iApply "HΦ". iFrame.
  - iIntros (Φ) "[Hγ HR] HΦ". iApply (umutex_unlock_ok with "I Hγ HR"). by iApply "HΦ".
Qed.

Lemma owned_lock mp R t : own_mutex mp UNLOCKED -∗ R -∗
  can_lock t mp (own_mutex mp LOCKED ∗ R) ∗ ∀ R', can_unlock t mp (own_mutex mp LOCKED ∗ R') (own_mutex mp UNLOCKED ∗ R').
Proof.
  iIntros "Hm HR". iSplitL.
  - iIntros (Φ) "HΦ". iApply (own_mutex_lock_ok with "Hm"). iIntros "Hm". iApply "HΦ". iFrame.
  - iIntros (R' Φ) "[Hm HR] HΦ". iApply (own_mutex_unlock_ok with "Hm"). iIntros "Hm". iApply "HΦ". iFrame.
Qed.

(** The allocator behind its mutex. *)
Context `{Globals}.

Lemma malloc_aligned_ok γ t size Φ : size <> 0 -> is_mutex γ alloc_mutex True -∗
  (∀ p, ⌜0 < p /\ p `mod` 4 = 0⌝ -∗ block_of p size -∗ ([∗ list] a ∈ words p size, ∃ v, a ↦ v) -∗ Φ p) -∗
  wpt t (malloc size) Φ.
Proof.
  iIntros (Hs) "#I HΦ". unfold malloc. iApply wpt_bind. iApply (umutex_lock_ok with "I"). iIntros "Hγ _".
  iApply wpt_bind. iApply wpt_malloc; [done|]. iIntros "!>" (p Hp) "Hb Hw".
  iApply wpt_bind. iApply (umutex_unlock_ok with "I Hγ [//]"). iApply wpt_ret. by iApply ("HΦ" with "[//] Hb").
Qed.

Lemma malloc_ok γ t size Φ : size <> 0 -> is_mutex γ alloc_mutex True -∗
  (∀ p, ⌜0 < p⌝ -∗ block_of p size -∗ ([∗ list] a ∈ words p size, ∃ v, a ↦ v) -∗ Φ p) -∗ wpt t (malloc size) Φ.
Proof.
  iIntros (Hs) "#I HΦ". iApply (malloc_aligned_ok with "I"); [done|]. iIntros (p [Hp _]) "Hb Hw". by iApply ("HΦ" with "[//] Hb").
Qed.

Lemma free_ok γ t p size Φ : 0 < p -> is_mutex γ alloc_mutex True -∗ block_of p size -∗
  ([∗ list] a ∈ words p size, ∃ v, a ↦ v) -∗ Φ tt -∗ wpt t (free p) Φ.
Proof.
  iIntros (Hp) "#I Hb Hw HΦ". unfold free. iApply wpt_bind. iApply (umutex_lock_ok with "I"). iIntros "Hγ _".
  iApply wpt_bind. iApply (wpt_free with "Hb Hw"); [done|]. iNext. by iApply (umutex_unlock_ok with "I Hγ [//]").
Qed.

End proofs.
