(* ===== verification/UList.v ===== *)
(** The linked lists of the thread library, [src/user/libthread/linked_list.c]:
    circular, doubly linked, the head being the node a pointer leads to.

    [ring head L] owns the nodes of the list [L] of addresses and data.  The
    links between neighbours are owned pairwise, [link a b] being the pointer
    from [a] to its successor and the one back. *)
From S2P Require Import Prelude Task TaskLogic UMutex.
From iris.proofmode Require Import proofmode.
From iris.base_logic.lib Require Import ghost_map invariants token.
#[local] Open Scope Z_scope.

(** [linked_list.h]. *)
Definition node_data (p : addr) : addr := p.
Definition node_next (p : addr) : addr := p + 4.
Definition node_previous (p : addr) : addr := p + 8.
Definition sizeof_list_node : Z := 12.

Section list.
Context `{Globals}.

Definition append_node (head : addr) (data : Z) : prog addr :=
  new_node_ptr ← malloc sizeof_list_node;
  if decide (new_node_ptr = NULL) then Ret head
  else
    store (node_data new_node_ptr) data;;
    if decide (head = NULL) then
      store (node_next new_node_ptr) new_node_ptr;;
      store (node_previous new_node_ptr) new_node_ptr;;
      Ret new_node_ptr
    else
      store (node_next new_node_ptr) head;;
      previous ← load (node_previous head);
      store (node_previous new_node_ptr) previous;;
      next ← load (node_next new_node_ptr);
      store (node_previous next) new_node_ptr;;
      previous ← load (node_previous new_node_ptr);
      store (node_next previous) new_node_ptr;;
      Ret head.

(** The head after the removal of [current]. *)
Definition next_head (head current : addr) : prog addr :=
  if decide (head = current) then
    next ← load (node_next head);
    if decide (head = next) then Ret NULL else load (node_next head)
  else Ret head.

Definition unlink_node (current : addr) : prog unit :=
  next ← load (node_next current);
  previous ← load (node_previous current);
  store (node_next previous) next;;
  previous ← load (node_previous current);
  next ← load (node_next current);
  store (node_previous next) previous.

Definition remove_node (head node_ptr : addr) : prog addr :=
  if decide (head = NULL) then Ret NULL
  else
    loop (fun current : addr =>
      if decide (current = node_ptr) then
        new_head ← next_head head current;
        unlink_node current;;
        free current;;
        Ret (inr new_head)
      else
        next ← load (node_next current);
        if decide (next <> head) then Ret (inl next) else Ret (inr head)) head.

End list.

(** ** Representation *)

Section rep.
Context `{!taskGS Σ}.

Definition link (a b : addr) : iProp Σ := node_next a ↦ b ∗ node_previous b ↦ a.

(** The links from [a] through [l] to [z]. *)
Fixpoint path (a : addr) (l : list addr) (z : addr) : iProp Σ :=
  match l with [] => link a z | b :: l => link a b ∗ path b l z end.

Definition item (n : addr * Z) : iProp Σ :=
  ⌜0 < n.1⌝ ∗ node_data n.1 ↦ n.2 ∗ block_of n.1 sizeof_list_node.

Definition ring (head : addr) (L : list (addr * Z)) : iProp Σ :=
  match L with
  | [] => ⌜head = NULL⌝
  | (x, _) :: rest => ⌜head = x⌝ ∗ path x rest.*1 x ∗ [∗ list] n ∈ L, item n
  end.

Lemma path_app a l1 b l2 z : path a (l1 ++ b :: l2) z ⊣⊢ path a l1 b ∗ path b l2 z.
Proof. revert a. induction l1 as [|x l1 IH]; intros a; cbn; [done|]. by rewrite IH assoc. Qed.

Lemma last_cons (b : addr) l : forall a, List.last (b :: l) a = List.last l b.
Proof.
  revert b. induction l as [|c l IH]; intros b a; [done|].
  change (List.last (c :: l) a = List.last (c :: l) b). by rewrite !IH.
Qed.

(** The last link of a path, and what may come after it. *)
Lemma path_last a l z : path a l z -∗ link (List.last l a) z ∗
  ∀ l' z', path (List.last l a) l' z' -∗ path a (l ++ l') z'.
Proof.
  iIntros "H". iInduction l as [|b l] "IH" forall (a); cbn [path app].
  - iFrame. iIntros (l' z') "H". iExact "H".
  - iDestruct "H" as "[Hab H]". iDestruct ("IH" with "H") as "[Hl Hrest]".
    rewrite last_cons.
    iFrame. iIntros (l' z') "H". by iApply "Hrest".
Qed.

(** The first link of a path, and how to go on from its end. *)
Lemma path_first a l z : path a l z -∗ ∃ b, link a b ∗
  (∀ c l0, path c l0 b -∗ path c (l0 ++ l) z).
Proof.
  destruct l as [|b l]; cbn [path].
  - iIntros "H". iExists z. iFrame. iIntros (c l0) "H". by rewrite app_nil_r.
  - iIntros "[Hab Hl]". iExists b. iFrame. iIntros (c l0) "H". rewrite path_app. iFrame.
Qed.

Lemma words_node n : words n sizeof_list_node = [node_data n; node_next n; node_previous n].
Proof.
  unfold words, node_data, node_next, node_previous. change (seqZ 0 (sizeof_list_node / 4)) with [0; 1; 2]. cbn [fmap list_fmap].
  repeat f_equal; lia.
Qed.

Lemma item_words n d : item (n, d) -∗ ∀ a b, node_next n ↦ a -∗ node_previous n ↦ b -∗
  block_of n sizeof_list_node ∗ [∗ list] w ∈ words n sizeof_list_node, ∃ v, w ↦ v.
Proof.
  iIntros "(_ & Hd & Hb)" (a b) "Ha Hp". iFrame "Hb". rewrite words_node. cbn [big_opL]. iFrame.
Qed.

Lemma items_NoDup L : ([∗ list] n ∈ L, item n) -∗ ⌜NoDup L.*1⌝.
Proof.
  iIntros "H". iInduction L as [|[x d] L] "IH"; cbn; [iPureIntro; constructor|].
  iDestruct "H" as "[(_ & Hx & _) H]". iDestruct ("IH" with "H") as %Hnd.
  iAssert ⌜x ∉ L.*1⌝%I as %Hx; [|iPureIntro; by constructor].
  iIntros (Hin). apply list_elem_of_fmap in Hin as ([y e] & -> & Hin). cbn.
  apply list_elem_of_lookup in Hin as [i Hi]. iDestruct (big_sepL_lookup with "H") as "(_ & Hy & _)"; [done|].
  by iDestruct (ghost_map_elem_ne with "Hx Hy") as %Hne.
Qed.

Lemma ring_positive head L : ring head L -∗ ⌜Forall (fun n => 0 < n.1) L⌝.
Proof.
  iIntros "H". iAssert ([∗ list] n ∈ L, item n)%I with "[H]" as "H"; [destruct L as [|[x d] L]; [done|iDestruct "H" as "(_ & _ & $)"]|].
  rewrite Forall_forall. iIntros (n Hn). apply list_elem_of_lookup in Hn as [i Hi].
  by iDestruct (big_sepL_lookup with "H") as "[% _]".
Qed.

Lemma ring_nonnull head n L : ring head (n :: L) -∗ ⌜0 < head⌝.
Proof. destruct n. iIntros "(-> & _ & (%Hp & _) & _)". done. Qed.

End rep.

(** ** The operations *)

Section proofs.
Context `{!taskGS Σ, !tokenG Σ, !Globals}.
Context (γa : gname).

Lemma append_node_ok t head data L Φ : is_mutex γa alloc_mutex True -∗ ring head L -∗
  (∀ p h, ring h (L ++ [(p, data)]) -∗ Φ h) -∗ wpt t (append_node head data) Φ.
Proof.
  iIntros "#I HL HΦ". unfold append_node. iApply wpt_bind. iApply (malloc_ok with "I"); [done|]. iIntros (p Hp) "Hb Hw".
  rewrite words_node. iDestruct "Hw" as "((%d & Hd) & (%nx & Hn) & (%pv & Hp) & _)".
  rewrite decide_False; [|unfold NULL; lia].
  wstore "Hd".
  destruct L as [|[x dx] L]; cbn [ring].
  - iDestruct "HL" as %->. cbn beta. case_decide; [|done].
    wstore "Hn".
    wstore "Hp".
    iApply wpt_ret. iApply ("HΦ" $! p). cbn. by iFrame.
  - iDestruct "HL" as "(-> & HL & Hx & Hi)". iDestruct "Hx" as "(%Hx & Hx)". rewrite decide_False; [|unfold NULL; cbn in Hx; lia].
    iDestruct (path_last with "HL") as "[[Hln Hlp] HL]". set (last := List.last L.*1 x).
    wstore "Hn".
    wload "Hlp".
    wstore "Hp".
    wload "Hn".
    wstore "Hlp".
    wload "Hp".
    wstore "Hln".
    iApply wpt_ret. iApply ("HΦ" $! p). cbn [ring app fmap list_fmap]. iSplit; [done|].
    iSplitL "HL Hn Hp Hln Hlp".
    + rewrite fmap_app. iApply "HL". cbn. iFrame.
    + iFrame "Hx". iSplit; [done|]. iApply big_sepL_app. iFrame "Hi". cbn. by iFrame.
Qed.

Lemma ring_NoDup head L : ring head L -∗ ⌜NoDup L.*1⌝.
Proof.
  destruct L as [|[x d] L]; [iIntros "_"; iPureIntro; constructor|]. iIntros "(_ & _ & H)".
  iApply (items_NoDup with "H").
Qed.

(** The removal of the node [p] from a list of which it is a member. *)
Lemma next_head_ok t head p d L1 L2 Φ : ring head (L1 ++ (p, d) :: L2) -∗
  (∀ h, ⌜h = match L1 ++ L2 with [] => NULL | n :: _ => n.1 end⌝ -∗ ring head (L1 ++ (p, d) :: L2) -∗ Φ h) -∗
  wpt t (next_head head p) Φ.
Proof.
  iIntros "HL HΦ". unfold next_head. destruct L1 as [|[x dx] L1]; cbn [app ring].
  - iDestruct "HL" as "(-> & HL & Hi)". case_decide; [|done].
    destruct L2 as [|[y dy] L2]; cbn [fmap list_fmap path fst].
    + iDestruct "HL" as "[Hn Hp]". wload "Hn". case_decide; [|done]. iApply wpt_ret. iApply "HΦ"; [done|]. by iFrame.
    + iDestruct "HL" as "[[Hn Hp] HL]". wload "Hn". case_decide as Hxy.
      * subst y. iDestruct (items_NoDup with "Hi") as %Hnd. cbn in Hnd. apply NoDup_cons in Hnd as [Hnd _]. set_solver.
      * wload "Hn". iApply "HΦ"; [done|]. by iFrame.
  - iDestruct "HL" as "(-> & HL & Hi)". case_decide as Hxp.
    + subst p. iDestruct (items_NoDup with "Hi") as %Hnd. cbn in Hnd. apply NoDup_cons in Hnd as [Hnd _].
      rewrite fmap_app in Hnd. set_solver.
    + iApply wpt_ret. iApply "HΦ"; [done|]. by iFrame.
Qed.

Lemma unlink_node_ok t a p b Φ : link a p -∗ link p b -∗ (link a b -∗ node_next p ↦ b -∗ node_previous p ↦ a -∗ Φ tt) -∗
  wpt t (unlink_node p) Φ.
Proof.
  iIntros "[Ha1 Ha2] [Hb1 Hb2] HΦ". unfold unlink_node. wload "Hb1". wload "Ha2". wstore "Ha1". wload "Ha2". wload "Hb1".
  wstore "Hb2". by iApply ("HΦ" with "[$Ha1 $Hb2] Hb1 Ha2").
Qed.

Lemma unlink_single_ok t p Φ : link p p -∗ (node_next p ↦ p -∗ node_previous p ↦ p -∗ Φ tt) -∗ wpt t (unlink_node p) Φ.
Proof.
  iIntros "[Hn Hp] HΦ". unfold unlink_node. wload "Hn". wload "Hp". wstore "Hn". wload "Hp". wload "Hn". wstore "Hp".
  by iApply ("HΦ" with "Hn Hp").
Qed.

(** What the removal of [p] takes out of a list, and what is left when its
    neighbours have been linked. *)
Lemma ring_remove head p d L1 L2 : L1 ++ L2 <> [] -> ring head (L1 ++ (p, d) :: L2) -∗
  ∃ a b, link a p ∗ link p b ∗ item (p, d) ∗
    (link a b -∗ ring (match L1 ++ L2 with [] => NULL | n :: _ => n.1 end) (L1 ++ L2)).
Proof.
  iIntros (Hne) "HL". destruct L1 as [|[x dx] L1].
  - destruct L2 as [|[y dy] L2]; [done|]. cbn [app ring fmap list_fmap path fst snd].
    iDestruct "HL" as "(-> & [Hpy HL] & [Hp Hi])". iDestruct (path_last with "HL") as "[Hlast HL]".
    iExists _, _. iFrame "Hlast Hpy Hp Hi". iIntros "Hl". iSplit; [done|]. iSpecialize ("HL" $! [] y with "Hl").
    by rewrite app_nil_r.
  - cbn [app ring fst]. iDestruct "HL" as "(-> & HL & [Hx Hi])". rewrite fmap_app fmap_cons path_app. iDestruct "HL" as "[H1 H2]".
    iDestruct (path_last with "H1") as "[Ha H1]". iDestruct (path_first with "H2") as (b) "[Hb H2]".
    iDestruct (big_sepL_app with "Hi") as "[Hi1 [Hp Hi2]]". iExists _, b. iFrame "Ha Hb Hp". iIntros "Hl".
    iSplit; [done|]. iSpecialize ("H1" $! [] b with "Hl"). rewrite app_nil_r. rewrite fmap_app.
    iSplitL "H1 H2"; [by iApply "H2"|]. iFrame.
Qed.

(** [current] is the node [p]: it is unlinked and freed. *)
Lemma remove_here_ok t head p d L1 L2 Φ : is_mutex γa alloc_mutex True -∗ ring head (L1 ++ (p, d) :: L2) -∗
  (∀ h, ring h (L1 ++ L2) -∗ Φ h) -∗
  wpt t (new_head ← next_head head p; unlink_node p;; free p;; Ret (inr new_head : addr + addr))
    (fun r => match r with inl _ => False | inr h => Φ h end).
Proof.
  iIntros "#I HL HΦ". iApply wpt_bind. iApply (next_head_ok with "HL"). iIntros (h ->) "HL".
  iApply wpt_bind. destruct (decide (L1 ++ L2 = [])) as [[-> ->]%app_nil|Hne].
  - cbn [app ring fmap list_fmap path]. iDestruct "HL" as "(-> & Hl & Hi & _)".
    iApply (unlink_single_ok with "Hl"). iIntros "Hn Hp". iApply wpt_bind.
    iDestruct "Hi" as "(%Hp & Hi)". iDestruct (item_words with "[$Hi //] Hn Hp") as "[Hb Hw]".
    iApply (free_ok with "I Hb Hw"); [done|]. iApply wpt_ret. by iApply "HΦ".
  - iDestruct (ring_remove with "HL") as (a b) "(Ha & Hb & Hi & HL)"; [done|].
    iApply (unlink_node_ok with "Ha Hb"). iIntros "Hl Hn Hp". iApply wpt_bind.
    iDestruct "Hi" as "(%Hp & Hi)". iDestruct (item_words with "[$Hi //] Hn Hp") as "[Hb Hw]".
    iApply (free_ok with "I Hb Hw"); [done|]. iApply wpt_ret. iApply "HΦ". by iApply "HL".
Qed.

(** The successor of a node. *)
Lemma ring_next head c dc L1 L2 : ring head (L1 ++ (c, dc) :: L2) -∗
  let nx := match L2 with [] => head | n :: _ => n.1 end in
  node_next c ↦ nx ∗ (node_next c ↦ nx -∗ ring head (L1 ++ (c, dc) :: L2)).
Proof.
  iIntros "HL". destruct L1 as [|[x dx] L1]; cbn [app ring].
  - iDestruct "HL" as "(-> & HL & Hi)". destruct L2 as [|[y dy] L2]; cbn [fmap list_fmap path fst].
    + iDestruct "HL" as "[$ Hp]". iIntros "Hn". by iFrame.
    + iDestruct "HL" as "[[$ Hp] HL]". iIntros "Hn". by iFrame.
  - iDestruct "HL" as "(-> & HL & Hi)". rewrite fmap_app fmap_cons path_app. iDestruct "HL" as "[H1 HL]".
    destruct L2 as [|[y dy] L2]; cbn [fmap list_fmap path fst].
    + iDestruct "HL" as "[$ Hp]". iIntros "Hn". by iFrame.
    + iDestruct "HL" as "[[$ Hp] HL]". iIntros "Hn". by iFrame.
Qed.

(** The same ring, seen from another of its nodes. *)
Lemma ring_turn x d L1 y e L2 : ring x (((x, d) :: L1) ++ (y, e) :: L2) ⊢ ring y (((y, e) :: L2) ++ (x, d) :: L1).
Proof.
  cbn [ring app]. rewrite !fmap_app !fmap_cons !path_app. iIntros "(_ & [$ $] & Hx & Hi)". iSplit; [done|].
  iDestruct (big_sepL_app with "Hi") as "[Hi [Hy Hj]]". iFrame "Hy". iApply big_sepL_app. iFrame.
Qed.

Lemma ring_turned x d L1 y e L2 : ring x (((x, d) :: L1) ++ (y, e) :: L2) ⊣⊢ ring y (((y, e) :: L2) ++ (x, d) :: L1).
Proof. iSplit; iApply ring_turn. Qed.

(** A node in front of another: at the end of the list when that is its head. *)
Lemma append_before_ok t head p d data L1 L2 Φ : is_mutex γa alloc_mutex True -∗ ring head (L1 ++ (p, d) :: L2) -∗
  (∀ q, ring head (match L1 with [] => (p, d) :: L2 ++ [(q, data)] | _ => L1 ++ (q, data) :: (p, d) :: L2 end) -∗ Φ p) -∗
  wpt t (append_node p data) Φ.
Proof.
  iIntros "#I HL HΦ". destruct L1 as [|[x e] L1].
  - iAssert ⌜head = p⌝%I as %->; [by iDestruct "HL" as "[-> _]"|]. iApply (append_node_ok with "I HL"). iIntros (q h) "HL".
    iAssert ⌜h = p⌝%I as %->; [by iDestruct "HL" as "[-> _]"|]. by iApply ("HΦ" $! q).
  - iAssert ⌜head = x⌝%I as %->; [by iDestruct "HL" as "[-> _]"|]. rewrite ring_turned. iApply (append_node_ok with "I HL").
    iIntros (q h) "HL". iAssert ⌜h = p⌝%I as %->; [by iDestruct "HL" as "[-> _]"|].
    rewrite -app_assoc. change (((x, e) :: L1) ++ [(q, data)]) with ((x, e) :: (L1 ++ [(q, data)])). rewrite -ring_turned.
    iApply ("HΦ" $! q). by rewrite /= -app_assoc.
Qed.

(** The data of a node. *)
Lemma ring_item head c d L1 L2 : ring head (L1 ++ (c, d) :: L2) -∗
  node_data c ↦ d ∗ (node_data c ↦ d -∗ ring head (L1 ++ (c, d) :: L2)).
Proof.
  iIntros "H". destruct L1 as [|[x dx] L1]; cbn [app ring].
  - iDestruct "H" as "(-> & HL & (%Hc & Hd & Hb) & Hi)". iFrame "Hd". iIntros "Hd". by iFrame.
  - iDestruct "H" as "(-> & HL & Hx & Hi)". iDestruct (big_sepL_app with "Hi") as "[Hi1 [(%Hc & Hd & Hb) Hi2]]".
    iFrame "Hd". iIntros "Hd". iSplit; [done|]. iFrame "HL Hx". iApply big_sepL_app. by iFrame.
Qed.

(** The walk comes back to the head exactly at the last node. *)
Lemma ring_end head c d L1 L2 : ring head (L1 ++ (c, d) :: L2) -∗
  ⌜match L2 with [] => head | n :: _ => n.1 end = head <-> L2 = []⌝.
Proof.
  iIntros "H". iDestruct (ring_NoDup with "H") as %Hnd. destruct L2 as [|[y dy] L2]; [done|].
  iAssert ⌜exists x dx L', L1 ++ (c, d) :: (y, dy) :: L2 = (x, dx) :: L' /\ head = x /\ y ∈ L'.*1⌝%I as %(x & dx & L' & HL & -> & Hy).
  { destruct L1 as [|[x dx] L1]; iDestruct "H" as "(-> & _)"; iPureIntro; do 3 eexists; (split; [done|]); split; try done.
    - cbn. set_solver.
    - rewrite fmap_app. set_solver. }
  iPureIntro. split; [|done]. intros Hyx. cbn in Hyx. rewrite HL in Hnd. cbn in Hnd. apply NoDup_cons in Hnd as [Hnd _].
  by subst y.
Qed.

Lemma filter_others (p : addr) (l : list (addr * Z)) : p ∉ l.*1 -> filter (fun n => n.1 <> p) l = l.
Proof.
  intros Hl. induction l as [|[y dy] l IH]; [done|]. rewrite filter_cons. cbn in Hl.
  rewrite decide_True; [by rewrite IH; [|set_solver]|]. cbn. set_solver.
Qed.

Lemma remove_node_ok t head p L Φ : is_mutex γa alloc_mutex True -∗
  (∀ h, ring h (filter (fun n => n.1 <> p) L) -∗ Φ h) -∗ ring head L -∗ wpt t (remove_node head p) Φ.
Proof.
  iIntros "#I HΦ HL". unfold remove_node. destruct L as [|[x dx] L].
  { iDestruct "HL" as %->. case_decide; [|done]. iApply wpt_ret. by iApply "HΦ". }
  iDestruct (ring_nonnull with "HL") as %Hpos. rewrite decide_False; [|unfold NULL; lia].
  iAssert ⌜head = x⌝%I as %<-; [by iDestruct "HL" as "[-> _]"|].
  iDestruct (ring_NoDup with "HL") as %Hnd. remember ((head, dx) :: L) as all eqn:Eall.
  iApply (wpt_loop t _ (fun c => ∃ L1 dc L2, ⌜all = L1 ++ (c, dc) :: L2 /\ p ∉ L1.*1⌝ ∗ ring head all ∗
    (∀ h, ring h (filter (fun n => n.1 <> p) all) -∗ Φ h))%I with "[] [HL HΦ]").
  2:{ iExists [], dx, L. iFrame. iPureIntro. split; [done|]. apply not_elem_of_nil. }
  clear Eall. iIntros "!>" (c) "(%L1 & %dc & %L2 & [-> %Hp1] & HL & HΦ)". case_decide as Hc.
  - subst c. iApply (wpt_wand with "[-]").
    + iApply (remove_here_ok t head p dc L1 L2 Φ with "I HL"). iIntros (h) "HL". iApply "HΦ".
      rewrite filter_app filter_cons decide_False; [|by intros []].
      rewrite fmap_app fmap_cons in Hnd. apply NoDup_app in Hnd as (_ & _ & [Hp2 _]%NoDup_cons).
      by rewrite !filter_others.
    + iIntros ([|h]) "H"; [done|iExact "H"].
  - iDestruct (ring_end with "HL") as %Hend. iDestruct (ring_next with "HL") as "[Hn HL]". wload "Hn".
    iDestruct ("HL" with "Hn") as "HL". assert (p ∉ (L1 ++ [(c, dc)]).*1) as Hp2 by (rewrite fmap_app; set_solver).
    case_decide as Hnx; iApply wpt_ret; destruct L2 as [|[y dy] L2]; try (by destruct Hend; naive_solver).
    + iExists (L1 ++ [(c, dc)]), dy, L2. rewrite -app_assoc. by iFrame.
    + iApply "HΦ". by rewrite filter_others.
Qed.

Lemma filter_node (p : addr) (d : Z) l1 l2 : NoDup (l1 ++ (p, d) :: l2).*1 ->
  filter (fun n => n.1 <> p) (l1 ++ (p, d) :: l2) = l1 ++ l2.
Proof.
  rewrite fmap_app fmap_cons. intros (_ & H1 & [H2 _]%NoDup_cons)%NoDup_app.
  rewrite filter_app filter_cons decide_False; [|by intros []]. rewrite !filter_others; [done|done|]. intros Hin%H1. set_solver.
Qed.

(** The removal of a member. *)
Lemma remove_member_ok t head p d L1 L2 Φ : is_mutex γa alloc_mutex True -∗ ring head (L1 ++ (p, d) :: L2) -∗
  (∀ h, ring h (L1 ++ L2) -∗ Φ h) -∗ wpt t (remove_node head p) Φ.
Proof.
  iIntros "#I HL HΦ". iDestruct (ring_NoDup with "HL") as %Hnd. iApply (remove_node_ok with "I [HΦ] HL").
  by rewrite filter_node.
Qed.

End proofs.
