(* ===== verification/UCond.v ===== *)
(** Condition variables, [src/user/libthread/cond.c].

    A waiter enters itself in the list of the variable under the variable's own
    lock, gives up the caller's mutex, and deschedules itself; a signaller takes
    one entry out and makes that thread runnable, yielding to it until it really
    sleeps.  The proof follows one wait from the entry to the wake-up, so a
    wake-up can neither be lost nor be given twice. *)
From S2P Require Import Prelude Task TaskLogic UMutex UList.
From iris.proofmode Require Import proofmode.
From iris.base_logic.lib Require Import ghost_map ghost_var invariants token.
#[local] Open Scope Z_scope.

(** [cond_type.h]. *)
Definition cond_lock (cv : addr) : addr := cv.
Definition cond_tid_head (cv : addr) : addr := cv + sizeof_mutex_t.
Definition sizeof_cond_t : Z := 12.

Section cond.
Context `{Globals}.

Definition cond_init (cv : addr) : prog Z :=
  if decide (cv = NULL) then Ret (-1)
  else
    r ← mutex_init (cond_lock cv);
    if decide (r < 0) then Ret (-1)
    else store (cond_tid_head cv) NULL;; Ret 0.

Definition cond_destroy (cv : addr) : prog unit :=
  if decide (cv = NULL) then Ret tt
  else
    while (load (cond_tid_head cv))
      (head ← load (cond_tid_head cv);
       head ← remove_node head head;
       store (cond_tid_head cv) head);;
    mutex_destroy (cond_lock cv).

Definition cond_wait (cv mp : addr) : prog unit :=
  if decide (cv = NULL) then Ret tt
  else
    tid ← thr_getid;
    mutex_lock (cond_lock cv);;
    head ← load (cond_tid_head cv);
    head ← append_node head tid;
    store (cond_tid_head cv) head;;
    head ← load (cond_tid_head cv);
    my_node ← load (node_previous head);
    mutex_unlock (cond_lock cv);;
    mutex_unlock mp;;
    reject ← act (Local 0);
    r ← deschedule reject;
    (if decide (r < 0) then
       mutex_lock (cond_lock cv);;
       head ← load (cond_tid_head cv);
       head ← remove_node head my_node;
       store (cond_tid_head cv) head;;
       mutex_unlock (cond_lock cv)
     else Ret tt);;
    mutex_lock mp;;
    _ ← act (Unlocal reject);
    Ret tt.

(** [while (make_runnable(tid)) thr_yield(tid);] *)
Definition wake (tid : Z) : prog unit :=
  while (make_runnable tid) (_ ← thr_yield tid; Ret tt).

Definition cond_signal (cv : addr) : prog unit :=
  if decide (cv = NULL) then Ret tt
  else
    mutex_lock (cond_lock cv);;
    head ← load (cond_tid_head cv);
    find_thread ← (if decide (head <> NULL) then
        tid ← load (node_data head);
        head ← remove_node head head;
        store (cond_tid_head cv) head;;
        Ret (Some tid)
      else Ret None);
    mutex_unlock (cond_lock cv);;
    match find_thread with Some tid => wake tid | None => Ret tt end.

Definition cond_broadcast (cv : addr) : prog unit :=
  if decide (cv = NULL) then Ret tt
  else
    mutex_lock (cond_lock cv);;
    waiting_threads ← load (cond_tid_head cv);
    store (cond_tid_head cv) NULL;;
    mutex_unlock (cond_lock cv);;
    loop (fun waiting_threads : addr =>
      if decide (waiting_threads = NULL) then Ret (inr tt)
      else
        tid ← load (node_data waiting_threads);
        wake tid;;
        waiting_threads ← remove_node waiting_threads waiting_threads;
        Ret (inl waiting_threads)) waiting_threads.

End cond.

(** ** What a condition variable promises *)

Section proofs.
Context `{!taskGS Σ, !tokenG Σ, !ghost_varG Σ nat, !Globals}.
Context (γa : gname).
Let N := nroot .@ "wait".

(** One wait of thread [t], for [P].  [γ0] belongs to the waiter before it is
    asleep, [γx] while it sleeps, [γs] to the entry in the list. *)
Definition wait_inv (γ0 γx γs : gname) (t : Z) (P : iProp Σ) : iProp Σ :=
  (sleeping t false ∗ token γx) ∨
  (sleeping t true ∗ token γ0) ∨
  (sleeping t false ∗ token γ0 ∗ token γs ∗ P) ∨
  (token γ0 ∗ token γs ∗ token γx).

Definition entry (t : Z) (P : iProp Σ) : iProp Σ :=
  ∃ γ0 γx γs, token γs ∗ inv N (wait_inv γ0 γx γs t P).

Definition waiters (γ : gname) (n : nat) : iProp Σ := ghost_var γ (1/2) n.

Definition cond_res (γ : gname) (cv : addr) (P : iProp Σ) : iProp Σ :=
  ∃ head L, cond_tid_head cv ↦ head ∗ ring head L ∗ ([∗ list] n ∈ L, entry n.2 P) ∗ waiters γ (length L).

(** [cv] is an initialised condition variable whose waiters wait for [P];
    [waiters γ n] is the knowledge that there are [n] of them. *)
Definition is_cond (γl γ : gname) (cv : addr) (P : iProp Σ) : iProp Σ :=
  is_mutex γl (cond_lock cv) (cond_res γ cv P).

Lemma cond_make cv P a b : cv <> NULL -> a = UNLOCKED -> mutex_lock_state (cond_lock cv) ↦ a -∗
  mutex_tid (cond_lock cv) ↦ b -∗ cond_tid_head cv ↦ NULL ={⊤}=∗ ∃ γl γ, is_cond γl γ cv P ∗ waiters γ 0.
Proof.
  iIntros (Hcv Ha) "Ha Hb Hh". iMod (ghost_var_alloc 0%nat) as (γ) "[H1 H2]".
  iMod (mutex_make (cond_lock cv) (cond_res γ cv P) with "[Hh H1] Ha Hb") as (γl) "#Hl"; [done|done| |].
  { iExists NULL, []. iFrame "Hh". cbn. by iFrame. }
  iExists γl, γ. by iFrame.
Qed.

Lemma cond_init_ok t cv a b h Φ : cv <> NULL -> mutex_lock_state (cond_lock cv) ↦ a -∗ mutex_tid (cond_lock cv) ↦ b -∗
  cond_tid_head cv ↦ h -∗
  (mutex_lock_state (cond_lock cv) ↦ UNLOCKED -∗ mutex_tid (cond_lock cv) ↦ (-1) -∗ cond_tid_head cv ↦ NULL -∗ Φ 0) -∗
  wpt t (cond_init cv) Φ.
Proof.
  iIntros (Hcv) "Ha Hb Hh H". unfold cond_init. rewrite decide_False; [|done]. iApply wpt_bind.
  iApply (umutex_init_ok with "Ha Hb"); [done|]. iIntros "Ha Hb". case_decide; [lia|]. wstore "Hh". iApply wpt_ret.
  iApply ("H" with "Ha Hb Hh").
Qed.

(** The waiter falls asleep, and is woken with what it waits for. *)
Lemma asleep_ok γ0 γx γs t P Φ : inv N (wait_inv γ0 γx γs t P) -∗ token γx -∗
  (sleeping t false -∗ P -∗ Φ 0) -∗ wpt t (act Asleep) Φ.
Proof.
  iIntros "#W Hx HΦ". iLöb as "IH". iApply wpt_asleep.
  iInv "W" as "[(_ & >Hx')|[(>Ht & >H0)|[(>Ht & >H0 & >Hs & HP)|(_ & _ & >Hx')]]]" "Hclose".
  - iDestruct (token_exclusive with "Hx Hx'") as %[].
  - iModIntro. iExists true. iFrame "Ht". iIntros "!> Ht". iMod ("Hclose" with "[Ht H0]") as "_".
    { iIntros "!>". iRight. iLeft. iFrame. }
    iModIntro. by iApply ("IH" with "Hx").
  - iModIntro. iExists false. iFrame "Ht". iIntros "!> Ht". iMod ("Hclose" with "[H0 Hs Hx]") as "_".
    { iIntros "!>". do 3 iRight. iFrame. }
    iModIntro. iApply ("HΦ" with "Ht HP").
  - iDestruct (token_exclusive with "Hx Hx'") as %[].
Qed.

Lemma deschedule_ok γ0 γx γs t a P Φ : inv N (wait_inv γ0 γx γs t P) -∗ token γ0 -∗ a ↦ 0 -∗
  (a ↦ 0 -∗ sleeping t false -∗ P -∗ Φ 0) -∗ wpt t (deschedule a) Φ.
Proof.
  iIntros "#W H0 Ha HΦ". iApply wpt_deschedule.
  iInv "W" as "[(>Ht & >Hx)|[(_ & >H0')|[(_ & >H0' & _)|(>H0' & _)]]]" "Hclose";
    try by iDestruct (token_exclusive with "H0 H0'") as %[].
  iModIntro. iExists 0. iFrame "Ha Ht". iNext. iIntros "Ha Ht". iMod ("Hclose" with "[Ht H0]") as "_".
  { iIntros "!>". iRight. iLeft. iFrame. }
  iModIntro. iApply (asleep_ok with "W Hx"). iIntros "Ht HP". iApply ("HΦ" with "Ha Ht HP").
Qed.

(** The signaller wakes the thread of the entry it took. *)
Lemma cond_wake_ok t t' P Φ : entry t' P -∗ P -∗ Φ tt -∗ wpt t (wake t') Φ.
Proof.
  iIntros "(%γ0 & %γx & %γs & Hs & #W) HP HΦ".
  iApply (wpt_wand with "[Hs HP]"); first iApply (wpt_while t _ _ (token γs ∗ P)%I True%I with "[] [$Hs $HP]").
  - iIntros "!> [Hs HP]". iApply wpt_make_runnable.
    iInv "W" as "[(>Ht & >Hx)|[(>Ht & >H0)|[(_ & _ & >Hs' & _)|(_ & >Hs' & _)]]]" "Hclose";
      try by iDestruct (token_exclusive with "Hs Hs'") as %[].
    + iModIntro. iExists false. iFrame "Ht". iIntros "!> Ht". iMod ("Hclose" with "[Ht Hx]") as "_".
      { iIntros "!>". iLeft. iFrame. }
      iModIntro. case_decide; [done|]. iApply wpt_bind. unfold thr_yield. iApply wpt_bind. iApply wpt_yield.
      iIntros "!>" (z). case_decide; iApply wpt_ret; iApply wpt_ret; iFrame.
    + iModIntro. iExists true. iFrame "Ht". iIntros "!> Ht". iMod ("Hclose" with "[Ht H0 Hs HP]") as "_".
      { iIntros "!>". iRight. iRight. iLeft. iFrame. }
      iModIntro. by case_decide.
  - iIntros ([]) "_". done.
Qed.

Lemma ring_previous head L : L <> [] -> ring head L -∗ ∃ p, node_previous head ↦ p ∗ (node_previous head ↦ p -∗ ring head L).
Proof.
  destruct L as [|[x d] L]; [done|]. iIntros (_) "(-> & HL & Hi)". iDestruct (path_last with "HL") as "[[Hn Hp] HL]".
  iExists _. iFrame "Hp". iIntros "Hp". iSpecialize ("HL" $! [] x with "[$Hn $Hp]"). rewrite app_nil_r. by iFrame.
Qed.

(** [cond_wait], for a variable whose lock the waiter goes through once. *)
Lemma cond_wait_through γ γm t cv mp P R X Y n Φ : cv <> NULL -> is_mutex γa alloc_mutex True -∗
  can_lock t (cond_lock cv) (X ∗ cond_res γ cv P) -∗ can_unlock t (cond_lock cv) (X ∗ cond_res γ cv P) Y -∗
  is_mutex γm mp R -∗ held γm -∗ waiters γ n -∗ (Y -∗ waiters γ (S n) -∗ R) -∗ sleeping t false -∗
  (held γm -∗ R -∗ P -∗ sleeping t false -∗ Φ tt) -∗ wpt t (cond_wait cv mp) Φ.
Proof.
  iIntros (Hcv) "#Ia Hlock Hunlock #Im Hm Hn HR Ht HΦ". unfold cond_wait. rewrite decide_False; [|done].
  iApply wpt_bind. iApply wpt_gettid. iNext. iApply wpt_bind. iApply "Hlock".
  iIntros "(HX & %head & %L & Hh & HL & He & Hn')". iDestruct (ghost_var_agree with "Hn Hn'") as %->.
  wload "Hh". iApply wpt_bind. iApply (append_node_ok with "Ia HL"). iIntros (p h) "HL". wstore "Hh". wload "Hh".
  iDestruct (ring_previous with "HL") as (pv) "[Hpv HL]"; [by destruct L|]. wload "Hpv". iDestruct ("HL" with "Hpv") as "HL".
  iMod token_alloc as (γ0) "H0". iMod token_alloc as (γx) "Hx". iMod token_alloc as (γs) "Hs".
  iMod (inv_alloc N _ (wait_inv γ0 γx γs t P) with "[Ht Hx]") as "#W"; [iIntros "!>"; iLeft; iFrame|].
  iMod (ghost_var_update_halves (S (length L)) with "Hn Hn'") as "[Hn Hn']".
  iApply wpt_bind. iApply ("Hunlock" with "[HX Hh HL He Hn' Hs]").
  { iFrame "HX". iExists h, (L ++ [(p, t)]). iFrame "Hh HL". rewrite length_app Nat.add_1_r. iFrame "Hn'".
    rewrite big_sepL_app. iFrame "He". cbn. iSplit; [|done]. iExists _, _, _. by iFrame. }
  iIntros "HY". iApply wpt_bind. iApply (umutex_unlock_ok with "Im Hm [HR HY Hn]"); [iApply ("HR" with "HY Hn")|].
  iApply wpt_bind. iApply wpt_local. iIntros "!>" (a Ha) "Hloc". iApply wpt_bind.
  iApply (deschedule_ok with "W H0 Hloc"). iIntros "Hloc Ht HP". iApply wpt_bind.
  iApply wpt_ret. iApply wpt_bind. iApply (umutex_lock_ok with "Im"). iIntros "Hm HR".
  iApply wpt_bind. iApply (wpt_unlocal with "Hloc"). iNext. iApply wpt_ret. iApply ("HΦ" with "Hm HR HP Ht").
Qed.

Lemma cond_wait_ok γl γ γm t cv mp P R n Φ : cv <> NULL -> is_mutex γa alloc_mutex True -∗ is_cond γl γ cv P -∗
  is_mutex γm mp R -∗ held γm -∗ waiters γ n -∗ (waiters γ (S n) -∗ R) -∗ sleeping t false -∗
  (held γm -∗ R -∗ P -∗ sleeping t false -∗ Φ tt) -∗ wpt t (cond_wait cv mp) Φ.
Proof.
  iIntros (Hcv) "#Ia #Ic #Im Hm Hn HR Ht HΦ". iDestruct (shared_lock _ _ _ t with "Ic") as "[Hlock Hunlock]".
  iApply (cond_wait_through with "Ia Hlock Hunlock Im Hm Hn [HR] Ht HΦ"); [done|]. iIntros "_". iExact "HR".
Qed.

(** The first entry is taken out. *)
Lemma ring_data head x d L : ring head ((x, d) :: L) -∗ node_data head ↦ d ∗ (node_data head ↦ d -∗ ring head ((x, d) :: L)).
Proof. iIntros "(-> & HL & (%Hx & Hd & Hb) & Hi)". iFrame "Hd". iIntros "Hd". by iFrame. Qed.

Lemma remove_first_ok t head x d L Φ : is_mutex γa alloc_mutex True -∗ ring head ((x, d) :: L) -∗
  (∀ h, ring h L -∗ Φ h) -∗ wpt t (remove_node head head) Φ.
Proof.
  iIntros "#I HL HΦ". iAssert ⌜head = x⌝%I as %->; [by iDestruct "HL" as "[-> _]"|].
  by iApply (remove_member_ok _ _ _ _ _ [] with "I HL").
Qed.

Lemma cond_signal_through γ t cv P X Y n Φ : cv <> NULL -> is_mutex γa alloc_mutex True -∗
  can_lock t (cond_lock cv) (X ∗ cond_res γ cv P) -∗ can_unlock t (cond_lock cv) (X ∗ cond_res γ cv P) Y -∗ waiters γ n -∗
  match n with O => True | S _ => P end -∗ (Y -∗ waiters γ (pred n) -∗ Φ tt) -∗ wpt t (cond_signal cv) Φ.
Proof.
  iIntros (Hcv) "#Ia Hlock Hunlock Hn HP HΦ". unfold cond_signal. rewrite decide_False; [|done].
  iApply wpt_bind. iApply "Hlock". iIntros "(HX & %head & %L & Hh & HL & He & Hn')".
  iDestruct (ghost_var_agree with "Hn Hn'") as %->. wload "Hh". destruct L as [|[x t'] L].
  - iDestruct "HL" as %->. iApply wpt_bind. iApply wpt_ret. iApply wpt_bind.
    iApply ("Hunlock" with "[HX Hh He Hn']"); [iFrame "HX"; iExists NULL, []; by iFrame|]. iIntros "HY".
    iApply wpt_ret. iApply ("HΦ" with "HY Hn").
  - iDestruct (ring_nonnull with "HL") as %Hpos. iApply wpt_bind. rewrite decide_True; [|unfold NULL; lia].
    iDestruct (ring_data with "HL") as "[Hd HL]". wload "Hd". iDestruct ("HL" with "Hd") as "HL".
    iApply wpt_bind. iApply (remove_first_ok with "Ia HL"). iIntros (h) "HL". wstore "Hh". iApply wpt_ret.
    iDestruct "He" as "[He HeL]". iMod (ghost_var_update_halves (length L) with "Hn Hn'") as "[Hn Hn']".
    iApply wpt_bind. iApply ("Hunlock" with "[HX Hh HL HeL Hn']"); [iFrame "HX"; iExists h, L; by iFrame|]. iIntros "HY".
    iApply (cond_wake_ok with "He HP"). iApply ("HΦ" with "HY Hn").
Qed.

Lemma cond_signal_ok γl γ t cv P n Φ : cv <> NULL -> is_mutex γa alloc_mutex True -∗ is_cond γl γ cv P -∗ waiters γ n -∗
  match n with O => True | S _ => P end -∗ (waiters γ (pred n) -∗ Φ tt) -∗ wpt t (cond_signal cv) Φ.
Proof.
  iIntros (Hcv) "#Ia #Ic Hn HP HΦ". iDestruct (shared_lock _ _ _ t with "Ic") as "[Hlock Hunlock]".
  iApply (cond_signal_through with "Ia Hlock Hunlock Hn HP [HΦ]"); [done|]. iIntros "_". iExact "HΦ".
Qed.

(** A condition variable that is used only under one mutex: whoever holds the
    mutex owns it, with [n] threads waiting. *)
Definition own_cond (cv : addr) (P : iProp Σ) (n : nat) : iProp Σ :=
  ∃ γ, own_mutex (cond_lock cv) UNLOCKED ∗ cond_res γ cv P ∗ waiters γ n.

Lemma own_cond_make cv P st tid : cv <> NULL -> st = UNLOCKED -> mutex_lock_state (cond_lock cv) ↦ st -∗
  mutex_tid (cond_lock cv) ↦ tid -∗ cond_tid_head cv ↦ NULL ==∗ own_cond cv P 0.
Proof.
  iIntros (Hcv ->) "Hst Htid Hh". iMod (ghost_var_alloc 0%nat) as (γ) "[H1 H2]". iModIntro. iExists γ. iFrame "H1".
  iSplitL "Hst Htid"; [by iFrame|]. iExists NULL, []. iFrame "Hh". cbn. by iFrame.
Qed.

Lemma own_cond_wait_ok γm t cv mp P R n Φ : cv <> NULL -> is_mutex γa alloc_mutex True -∗ own_cond cv P n -∗
  is_mutex γm mp R -∗ held γm -∗ (own_cond cv P (S n) -∗ R) -∗ sleeping t false -∗
  (held γm -∗ R -∗ P -∗ sleeping t false -∗ Φ tt) -∗ wpt t (cond_wait cv mp) Φ.
Proof.
  iIntros (Hcv) "#Ia (%γ & Hl & Hc & Hn) #Im Hm HR Ht HΦ".
  iDestruct (owned_lock _ _ t with "Hl Hc") as "[Hlock Hunlock]".
  iApply (cond_wait_through with "Ia Hlock Hunlock Im Hm Hn [HR] Ht HΦ"); [done|].
  iIntros "[Hl Hc] Hn". iApply "HR". iExists γ. iFrame.
Qed.

Lemma own_cond_signal_ok t cv P n Φ : cv <> NULL -> is_mutex γa alloc_mutex True -∗ own_cond cv P n -∗
  match n with O => True | S _ => P end -∗ (own_cond cv P (pred n) -∗ Φ tt) -∗ wpt t (cond_signal cv) Φ.
Proof.
  iIntros (Hcv) "#Ia (%γ & Hl & Hc & Hn) HP HΦ".
  iDestruct (owned_lock _ _ t with "Hl Hc") as "[Hlock Hunlock]".
  iApply (cond_signal_through with "Ia Hlock Hunlock Hn HP [HΦ]"); [done|].
  iIntros "[Hl Hc] Hn". iApply "HΦ". iExists γ. iFrame.
Qed.

(** Without waiters it can be destroyed: its words are left. *)
Lemma own_cond_destroy_ok t cv P Φ : cv <> NULL -> own_cond cv P 0 -∗
  (own_mutex (cond_lock cv) UNLOCKED -∗ cond_tid_head cv ↦ NULL -∗ Φ tt) -∗ wpt t (cond_destroy cv) Φ.
Proof.
  iIntros (Hcv) "(%γ & Hl & (%head & %L & Hh & HL & He & Hn') & Hn) HΦ". unfold cond_destroy. rewrite decide_False; [|done].
  iDestruct (ghost_var_agree with "Hn Hn'") as %HL. destruct L; [|done]. iDestruct "HL" as %->.
  iApply wpt_bind. iApply wpt_iter. iNext. wload "Hh". case_decide; [|done]. iApply wpt_ret. iApply wpt_ret. iApply wpt_ret.
  iApply ("HΦ" with "Hl Hh").
Qed.

Lemma cond_broadcast_ok γl γ t cv P n Φ : cv <> NULL -> is_mutex γa alloc_mutex True -∗ is_cond γl γ cv P -∗ waiters γ n -∗
  ([∗ list] _ ∈ seq 0 n, P) -∗ (waiters γ 0 -∗ Φ tt) -∗ wpt t (cond_broadcast cv) Φ.
Proof.
  iIntros (Hcv) "#Ia #Ic Hn HP HΦ". unfold cond_broadcast. rewrite decide_False; [|done].
  iApply wpt_bind. iApply (umutex_lock_ok with "Ic"). iIntros "Hl (%head & %L & Hh & HL & He & Hn')".
  iDestruct (ghost_var_agree with "Hn Hn'") as %->. wload "Hh". wstore "Hh".
  iMod (ghost_var_update_halves 0%nat with "Hn Hn'") as "[Hn Hn']".
  iApply wpt_bind. iApply (umutex_unlock_ok with "Ic Hl [Hh Hn']"); [iExists NULL, []; cbn; by iFrame|].
  iApply (wpt_wand with "[HP HL He]"); first iApply (wpt_loop t _ (fun h => ∃ L, ring h L ∗ ([∗ list] n ∈ L, entry n.2 P) ∗
    [∗ list] _ ∈ seq 0 (length L), P)%I head (fun _ => True)%I with "[] [HP HL He]").
  - iIntros "!>" (h) "(%L' & HL & He & HP)". destruct L' as [|[x t'] L'].
    + iDestruct "HL" as %->. case_decide; [|done]. by iApply wpt_ret.
    + iDestruct (ring_nonnull with "HL") as %Hpos. rewrite decide_False; [|unfold NULL; lia].
      iDestruct (ring_data with "HL") as "[Hd HL]". wload "Hd". iDestruct ("HL" with "Hd") as "HL".
      iDestruct "He" as "[He HeL]". cbn [length seq big_opL]. iDestruct "HP" as "[HP HPL]". iApply wpt_bind.
      iApply (cond_wake_ok with "He HP"). iApply wpt_bind. iApply (remove_first_ok with "Ia HL"). iIntros (h') "HL".
      iApply wpt_ret. iExists L'. iFrame "HL HeL". rewrite -fmap_S_seq big_sepL_fmap. iFrame "HPL".
  - iExists L. iFrame.
  - iIntros ([]) "_". by iApply "HΦ".
Qed.

End proofs.
