(* ===== verification/USem.v ===== *)
(** Semaphores, [src/user/libthread/sem.c].

    The count goes below zero by one for every waiter, and a signal hands its
    unit directly to the waiter it takes out of the list; so a waiter waits once
    and does not look at the count again. *)
From S2P Require Import Prelude Task TaskLogic UMutex UList UCond.
From iris.proofmode Require Import proofmode.
From iris.base_logic.lib Require Import ghost_map ghost_var invariants token.
#[local] Open Scope Z_scope.

(** [sem_type.h]. *)
Definition sem_count (sem : addr) : addr := sem.
Definition sem_lock (sem : addr) : addr := sem + 4.
Definition sem_cond (sem : addr) : addr := sem + 4 + sizeof_mutex_t.
Definition sizeof_sem_t : Z := 24.

Section sem.
Context `{Globals}.

Definition sem_init (sem count : Z) : prog Z :=
  if decide (sem = NULL) then Ret (-1)
  else
    store (sem_count sem) (s32 count);;
    r ← mutex_init (sem_lock sem);
    if decide (r <> 0) then Ret (-1)
    else
      r ← cond_init (sem_cond sem);
      if decide (r <> 0) then Ret (-1) else Ret 0.

Definition sem_wait (sem : addr) : prog unit :=
  if decide (sem = NULL) then Ret tt
  else
    mutex_lock (sem_lock sem);;
    count ← load (sem_count sem);
    store (sem_count sem) (s32 (count - 1));;
    count ← load (sem_count sem);
    (if decide (count < 0) then cond_wait (sem_cond sem) (sem_lock sem) else Ret tt);;
    mutex_unlock (sem_lock sem).

Definition sem_signal (sem : addr) : prog unit :=
  if decide (sem = NULL) then Ret tt
  else
    mutex_lock (sem_lock sem);;
    count ← load (sem_count sem);
    (if decide (count < 0) then cond_signal (sem_cond sem) else Ret tt);;
    count ← load (sem_count sem);
    store (sem_count sem) (s32 (count + 1));;
    mutex_unlock (sem_lock sem).

Definition sem_destroy (sem : addr) : prog unit :=
  if decide (sem = NULL) then Ret tt
  else
    mutex_destroy (sem_lock sem);;
    cond_destroy (sem_cond sem).

End sem.

(** ** What a semaphore promises *)

Section proofs.
Context `{!taskGS Σ, !tokenG Σ, !ghost_varG Σ nat, !Globals}.
Context (γa : gname).

Fixpoint copies (n : nat) (P : iProp Σ) : iProp Σ :=
  match n with O => True | S n => P ∗ copies n P end.

(** A unit of the semaphore is worth [P]; a thread that may wait has a
    [ticket].  There are never so many of either that the count overflows. *)
Context (P ticket : iProp Σ).
Definition bounded (Q : iProp Σ) : Prop := forall n, copies n Q ⊢ ⌜Z.of_nat n < 2 ^ 31⌝.
Context (HP : bounded P) (Hticket : bounded ticket).

Definition sem_res (γ : gname) (sem : addr) : iProp Σ :=
  ∃ count : Z, sem_count sem ↦ count ∗ waiters γ (Z.to_nat (- count)) ∗
    copies (Z.to_nat count) P ∗ copies (Z.to_nat (- count)) ticket.

Definition is_sem (γm γl γ : gname) (sem : addr) : iProp Σ :=
  ⌜0 < sem⌝ ∗ is_mutex γm (sem_lock sem) (sem_res γ sem) ∗ is_cond γl γ (sem_cond sem) (P ∗ ticket).

Lemma sem_make sem a b c d count : 0 < sem -> 0 <= count -> a = UNLOCKED -> c = UNLOCKED -> sem_count sem ↦ count -∗ copies (Z.to_nat count) P -∗
  mutex_lock_state (sem_lock sem) ↦ a -∗ mutex_tid (sem_lock sem) ↦ b -∗
  mutex_lock_state (cond_lock (sem_cond sem)) ↦ c -∗ mutex_tid (cond_lock (sem_cond sem)) ↦ d -∗
  cond_tid_head (sem_cond sem) ↦ NULL ={⊤}=∗ ∃ γm γl γ, is_sem γm γl γ sem.
Proof.
  iIntros (Hs Hc -> ->) "Hcount HPs Ha Hb Hc Hd Hh".
  iMod (cond_make (sem_cond sem) (P ∗ ticket) with "Hc Hd Hh") as (γl γ) "[#Hc Hw]";
    [unfold sem_cond, sizeof_mutex_t, NULL; lia|done|].
  iMod (mutex_make (sem_lock sem) (sem_res γ sem) with "[Hcount HPs Hw] Ha Hb") as (γm) "#Hm";
    [unfold sem_lock, NULL; lia|done| |].
  { iExists count. iFrame "Hcount HPs". replace (Z.to_nat (- count)) with 0%nat by lia. by iFrame. }
  iExists γm, γl, γ. by iFrame "Hm Hc".
Qed.

Lemma sem_init_ok t sem n x a b c d h Φ : 0 < sem -> s32 n = n -> sem_count sem ↦ x -∗
  mutex_lock_state (sem_lock sem) ↦ a -∗ mutex_tid (sem_lock sem) ↦ b -∗
  mutex_lock_state (cond_lock (sem_cond sem)) ↦ c -∗ mutex_tid (cond_lock (sem_cond sem)) ↦ d -∗
  cond_tid_head (sem_cond sem) ↦ h -∗
  (sem_count sem ↦ n -∗ mutex_lock_state (sem_lock sem) ↦ UNLOCKED -∗ mutex_tid (sem_lock sem) ↦ (-1) -∗
   mutex_lock_state (cond_lock (sem_cond sem)) ↦ UNLOCKED -∗ mutex_tid (cond_lock (sem_cond sem)) ↦ (-1) -∗
   cond_tid_head (sem_cond sem) ↦ NULL -∗ Φ 0) -∗ wpt t (sem_init sem n) Φ.
Proof.
  iIntros (Hs Hn) "Hx Ha Hb Hc Hd Hh HΦ". unfold sem_init. rewrite decide_False; [|unfold NULL; lia]. rewrite Hn.
  wstore "Hx". iApply wpt_bind. iApply (umutex_init_ok with "Ha Hb"); [unfold sem_lock, NULL; lia|]. iIntros "Ha Hb".
  iApply wpt_bind. iApply (cond_init_ok with "Hc Hd Hh"); [unfold sem_cond, sizeof_mutex_t, NULL; lia|].
  iIntros "Hc Hd Hh". iApply wpt_ret. iApply ("HΦ" with "Hx Ha Hb Hc Hd Hh").
Qed.

Lemma sem_wait_ok γm γl γ t sem Φ : is_mutex γa alloc_mutex True -∗ is_sem γm γl γ sem -∗ ticket -∗ sleeping t false -∗
  (P -∗ ticket -∗ sleeping t false -∗ Φ tt) -∗ wpt t (sem_wait sem) Φ.
Proof.
  iIntros "#Ia (%Hs & #Im & #Ic) Htk Ht HΦ". unfold sem_wait. rewrite decide_False; [|unfold NULL; lia].
  iApply wpt_bind. iApply (umutex_lock_ok with "Im"). iIntros "Hm (%c & Hc & Hw & HPs & Hts)".
  wload "Hc". wstore "Hc". wload "Hc". iApply wpt_bind.
  destruct (decide (0 < c)) as [Hpos|Hneg].
  - replace (Z.to_nat c) with (S (Z.to_nat (c - 1))) by lia. iDestruct (HP with "HPs") as %Hb. iDestruct "HPs" as "[Hp HPs]".
    rewrite s32_small; [|lia]. rewrite decide_False; [|lia]. iApply wpt_ret.
    iApply (umutex_unlock_ok with "Im Hm [Hc Hw HPs]"); [|iApply ("HΦ" with "Hp Htk Ht")].
    iExists (c - 1). iFrame "Hc HPs". replace (Z.to_nat (- (c - 1))) with 0%nat by lia.
    replace (Z.to_nat (- c)) with 0%nat by lia. by iFrame.
  - iAssert (copies (S (Z.to_nat (- c))) ticket) with "[$Htk $Hts]" as "Hts". iDestruct (Hticket with "Hts") as %Hb.
    rewrite s32_small; [|lia]. rewrite decide_True; [|lia].
    iApply (cond_wait_ok with "Ia Ic Im Hm Hw [Hc HPs Hts] Ht"); [unfold sem_cond, sizeof_mutex_t, NULL; lia| |].
    + iIntros "Hw". iExists (c - 1). iFrame "Hc". replace (Z.to_nat (- (c - 1))) with (S (Z.to_nat (- c))) by lia.
      replace (Z.to_nat (c - 1)) with 0%nat by lia. iFrame. done.
    + iIntros "Hm HR [Hp Htk] Ht". iApply (umutex_unlock_ok with "Im Hm HR"). iApply ("HΦ" with "Hp Htk Ht").
Qed.

Lemma sem_signal_ok γm γl γ t sem Φ : is_mutex γa alloc_mutex True -∗ is_sem γm γl γ sem -∗ P -∗ Φ tt -∗
  wpt t (sem_signal sem) Φ.
Proof.
  iIntros "#Ia (%Hs & #Im & #Ic) Hp HΦ". unfold sem_signal. rewrite decide_False; [|unfold NULL; lia].
  iApply wpt_bind. iApply (umutex_lock_ok with "Im"). iIntros "Hm (%c & Hc & Hw & HPs & Hts)".
  wload "Hc". iApply wpt_bind. destruct (decide (c < 0)) as [Hneg|Hpos].
  - replace (Z.to_nat (- c)) with (S (Z.to_nat (- (c + 1)))) by lia. iDestruct (Hticket with "Hts") as %Hb.
    iDestruct "Hts" as "[Htk Hts]". iApply (cond_signal_ok with "Ia Ic Hw [$Hp $Htk]"); [unfold sem_cond, sizeof_mutex_t, NULL; lia|].
    iIntros "Hw". wload "Hc". wstore "Hc". rewrite s32_small; [|lia].
    iApply (umutex_unlock_ok with "Im Hm [Hc Hw HPs Hts]"); [|done]. iExists (c + 1). iFrame "Hc Hw Hts".
    by replace (Z.to_nat (c + 1)) with 0%nat by lia.
  - iApply wpt_ret. wload "Hc". wstore "Hc".
    iAssert (copies (S (Z.to_nat c)) P) with "[$Hp $HPs]" as "HPs". iDestruct (HP with "HPs") as %Hb.
    rewrite s32_small; [|lia]. iApply (umutex_unlock_ok with "Im Hm [Hc Hw HPs Hts]"); [|done]. iExists (c + 1). iFrame "Hc".
    replace (Z.to_nat (c + 1)) with (S (Z.to_nat c)) by lia. iFrame "HPs".
    replace (Z.to_nat (- (c + 1))) with 0%nat by lia. replace (Z.to_nat (- c)) with 0%nat by lia. iFrame.
Qed.

End proofs.
