(* ===== verification/Alone.v ===== *)
(** Programs that run alone on a region of memory.

    A program that owns some words need not know of other threads: its runs are
    sequential ones, by an evaluator on the words alone.  This is how the closed
    theorems describe what the client code of the library does. *)
From S2P Require Import Prelude Task TaskLogic.
From iris.proofmode Require Import proofmode.
From iris.program_logic Require Import weakestpre adequacy.
From iris.base_logic.lib Require Import ghost_map ghost_var invariants token.
#[local] Open Scope Z_scope.

(** One step of a program that runs alone on the words of a region; [None] when
    it has ended, or does anything but access the region. *)
Definition alone_step {A} (m : prog A) (μ : gmap Z Z) : option (prog A * gmap Z Z) :=
  match m with
  | Act (Load a) k => v ← μ !! a; Some (k v, μ)
  | Act (Store a w) k => _ ← μ !! a; Some (k 0, <[a := w]> μ)
  | Iter body x k => Some (prog_bind (fun r => match r with inl x => Iter body x k | inr r => k r end) (body x), μ)
  | _ => None
  end.
Fixpoint alone {A} (n : nat) (m : prog A) (μ : gmap Z Z) : option (prog A * gmap Z Z) :=
  match n with
  | O => Some (m, μ)
  | Datatypes.S n => '(m, μ) ← alone_step m μ; alone n m μ
  end.

(** Run alone from a region that satisfies [I], the program stays inside the
    region, and when it ends with [a] the region satisfies [Q a]. *)
Definition runs_alone (D : gset Z) (I : gmap Z Z -> Prop) {A} (Q : A -> gmap Z Z -> Prop) (c : prog A) : Prop :=
  forall μ n c' μ', dom μ = D -> I μ -> alone n c μ = Some (c', μ') ->
    is_Some (alone_step c' μ') \/ exists a, c' = Ret a /\ Q a μ'.

(** The words of a region in the memory of a task. *)
Definition region (D : gset Z) (m : gmap Z Z) : gmap Z Z := filter (fun x => x.1 ∈ D) m.

Lemma alone_step_dom {A} (m : prog A) μ m' μ' : alone_step m μ = Some (m', μ') -> dom μ' = dom μ.
Proof.
  destruct m as [|[] k| |]; cbn; try done; intros H.
  - destruct (μ !! a); by simplify_option_eq.
  - destruct (μ !! a) eqn:E; [|done]. simplify_option_eq. rewrite dom_insert_L. apply elem_of_dom_2 in E. set_solver.
  - by simplify_option_eq.
Qed.

Lemma alone_snoc {A} n (m : prog A) μ m1 μ1 r : alone n m μ = Some (m1, μ1) -> alone_step m1 μ1 = Some r ->
  alone (Datatypes.S n) m μ = Some r.
Proof.
  revert m μ. induction n as [|n IH]; intros m μ H Hs.
  - injection H as -> ->. cbn. rewrite Hs. by destruct r.
  - change (alone (Datatypes.S (Datatypes.S n)) m μ) with ('(m, μ) ← alone_step m μ; alone (Datatypes.S n) m μ).
    cbn in H. destruct (alone_step m μ) as [[m2 μ2]|]; [|done]. by apply IH.
Qed.

(** One step of a program that only reads the region, and does not change it. *)
Definition look {A} (m : prog A) (μ : gmap Z Z) : option (prog A) :=
  match m with Act (Store _ _) _ => None | _ => fst <$> alone_step m μ end.
Fixpoint looks {A} (n : nat) (m : prog A) (μ : gmap Z Z) : option (prog A) :=
  match n with
  | O => Some m
  | Datatypes.S n => m ← look m μ; looks n m μ
  end.

(** A program that, on a region that satisfies [I], reads the region and nothing
    else until it ends. *)
Definition reads_alone (D : gset Z) (I : gmap Z Z -> Prop) {A} (c : prog A) : Prop :=
  forall μ n c', dom μ = D -> I μ -> looks n c μ = Some c' -> is_Some (look c' μ) \/ exists a, c' = Ret a.

Lemma looks_snoc {A} n (m : prog A) μ m1 m2 : looks n m μ = Some m1 -> look m1 μ = Some m2 -> looks (Datatypes.S n) m μ = Some m2.
Proof.
  revert m. induction n as [|n IH]; intros m H Hs.
  - injection H as ->. cbn. by rewrite Hs.
  - change (looks (Datatypes.S (Datatypes.S n)) m μ) with (m ← look m μ; looks (Datatypes.S n) m μ).
    cbn [looks] in H. destruct (look m μ); [|done]. by apply IH.
Qed.

Section proofs.
Context `{!taskGS Σ}.

Definition owned (μ : gmap Z Z) : iProp Σ := [∗ map] a ↦ v ∈ μ, a ↦ v.
Definition region_res (D : gset Z) (I : gmap Z Z -> Prop) : iProp Σ := ∃ μ, ⌜dom μ = D /\ I μ⌝ ∗ owned μ.

(** A program that owns the region runs as it would alone. *)
Lemma alone_ok t {A} (c : prog A) D (I : gmap Z Z -> Prop) Q μ n c0 μ0 : runs_alone D I Q c0 -> dom μ0 = D -> I μ0 ->
  alone n c0 μ0 = Some (c, μ) -> dom μ = D ->
  owned μ -∗ wpt t c (fun a => region_res D (Q a)).
Proof.
  intros Hr Hd0 Hi0. iIntros (Hn Hd) "Hμ". iLöb as "IH" forall (n c μ Hn Hd).
  destruct (Hr _ _ _ _ Hd0 Hi0 Hn) as [[[c' μ'] Hst]|(a & -> & Hi)]; last first.
  { iApply wpt_ret. iExists μ. by iFrame. }
  pose proof (alone_snoc _ _ _ _ _ _ Hn Hst) as Hn'. pose proof (alone_step_dom _ _ _ _ Hst) as Hdom. rewrite Hd in Hdom.
  destruct c as [|[] k| |S R body x k]; try done; cbn in Hst.
  - destruct (μ !! a) as [v|] eqn:Ha; [|done]. injection Hst as <- <-.
    change (Act (Load a) k) with (prog_bind k (load a)). iApply wpt_bind. iApply wpt_load. iModIntro. iExists v.
    iDestruct (big_sepM_lookup_acc with "Hμ") as "[Ha Hμ]"; [done|]. iFrame "Ha". iIntros "!> Ha !>".
    iApply ("IH" with "[//] [//]"). by iApply "Hμ".
  - destruct (μ !! a) as [w|] eqn:Ha; [|done]. injection Hst as <- <-.
    change (Act (Store a v) k) with (prog_bind k (act (Store a v))). iApply wpt_bind.
    iApply wpt_store_act. iModIntro. iExists w.
    iDestruct (big_sepM_insert_acc with "Hμ") as "[Ha Hμ]"; [done|]. iFrame "Ha". iIntros "!> Ha !>".
    iApply ("IH" with "[//] [//]"). by iApply "Hμ".
  - injection Hst as <- <-. iApply wpt_unroll. iNext. iApply ("IH" with "[//] [//] Hμ").
Qed.

Lemma runs_alone_ok t {A} (c : prog A) D I Q : runs_alone D I Q c -> region_res D I -∗ wpt t c (fun a => region_res D (Q a)).
Proof. iIntros (Hc) "(%μ & [%Hd %Hi] & Hμ)". by iApply (alone_ok t c D I Q μ 0 c μ with "Hμ"). Qed.

(** A share of the region: enough to read it. *)
Definition owned_part (q : Qp) (μ : gmap Z Z) : iProp Σ := [∗ map] a ↦ v ∈ μ, a ↪[mem_name]{#q} v.
Definition shared (D : gset Z) (I : gmap Z Z -> Prop) (q : Qp) : iProp Σ := ∃ μ, ⌜dom μ = D /\ I μ⌝ ∗ owned_part q μ.

Lemma shared_all D I : shared D I 1 ⊣⊢ region_res D I.
Proof. done. Qed.

Lemma owned_part_agree p q μ1 μ2 : dom μ1 = dom μ2 -> owned_part p μ1 -∗ owned_part q μ2 -∗ ⌜μ1 = μ2⌝.
Proof.
  iIntros (Hd) "H1 H2". iAssert (∀ a, ⌜μ1 !! a = μ2 !! a⌝)%I as %Ha; [|by iPureIntro; apply map_eq].
  iIntros (a). destruct (μ1 !! a) as [v|] eqn:H1.
  - assert (is_Some (μ2 !! a)) as [w H2] by (apply elem_of_dom; rewrite -Hd; by eapply elem_of_dom_2). rewrite H2.
    iDestruct (big_sepM_lookup with "H1") as "H1"; [done|]. iDestruct (big_sepM_lookup with "H2") as "H2"; [done|].
    by iDestruct (ghost_map_elem_agree with "H1 H2") as %->.
  - iPureIntro. symmetry. apply not_elem_of_dom. rewrite -Hd. by apply not_elem_of_dom.
Qed.

Lemma owned_part_split p q μ : owned_part (p + q) μ ⊣⊢ owned_part p μ ∗ owned_part q μ.
Proof. unfold owned_part. rewrite -big_sepM_sep. apply big_sepM_proper. intros a v _. apply ghost_map_elem_fractional. Qed.

Lemma shared_split D I p q : shared D I (p + q) ⊣⊢ shared D I p ∗ shared D I q.
Proof.
  iSplit.
  - iIntros "(%μ & [%Hd %Hi] & H)". iDestruct (owned_part_split with "H") as "[H1 H2]". iSplitL "H1"; iExists μ; by iFrame.
  - iIntros "[(%μ & [%Hd %Hi] & H1) (%μ' & [%Hd' %Hi'] & H2)]".
    iDestruct (owned_part_agree with "H1 H2") as %<-; [congruence|]. iExists μ. iSplit; [done|]. iApply owned_part_split. iFrame.
Qed.

(** A program that has a share of the region reads it as it would alone. *)
Lemma looks_ok t {A} (c : prog A) D (I : gmap Z Z -> Prop) μ q n c0 : reads_alone D I c0 -> dom μ = D -> I μ ->
  looks n c0 μ = Some c -> owned_part q μ -∗ wpt t c (fun _ => owned_part q μ).
Proof.
  intros Hr Hd Hi. iIntros (Hn) "Hμ". iLöb as "IH" forall (n c Hn).
  destruct (Hr _ _ _ Hd Hi Hn) as [[c' Hst]|(a & ->)]; [|by iApply wpt_ret].
  pose proof (looks_snoc _ _ _ _ _ Hn Hst) as Hn'. destruct c as [|[] k| |S R body x k]; try done; cbn in Hst.
  - destruct (μ !! a) as [v|] eqn:Ha; [|done]. injection Hst as <-.
    change (Act (Load a) k) with (prog_bind k (load a)). iApply wpt_bind.
    iDestruct (big_sepM_lookup_acc with "Hμ") as "[Ha Hμ]"; [done|]. iApply (wpt_load_only with "Ha"). iIntros "!> Ha".
    iApply ("IH" with "[//]"). by iApply "Hμ".
  - injection Hst as <-. iApply wpt_unroll. iNext. iApply ("IH" with "[//] Hμ").
Qed.

Lemma reads_alone_ok t {A} (c : prog A) D I q : reads_alone D I c -> shared D I q -∗ wpt t c (fun _ => shared D I q).
Proof.
  iIntros (Hc) "(%μ & [%Hd %Hi] & Hμ)". iApply (wpt_wand with "[Hμ]"); [by iApply (looks_ok t c D I μ q 0 c with "Hμ")|].
  iIntros (a) "Hμ". iExists μ. by iFrame.
Qed.

(** Taking the region out of the memory of the task. *)
Lemma region_dom D m : D ⊆ dom m -> dom (region D m) = D.
Proof.
  intros HD. apply set_eq. intros a. unfold region. rewrite elem_of_dom. split.
  - intros [v Hv%map_lookup_filter_Some]. apply Hv.
  - intros Ha. assert (is_Some (m !! a)) as [v Hv] by (apply elem_of_dom; set_solver). exists v.
    by apply map_lookup_filter_Some.
Qed.

Lemma region_take D m : ([∗ map] a ↦ v ∈ m, a ↦ v) ⊢ owned (region D m) ∗ [∗ map] a ↦ v ∈ filter (fun x => x.1 ∉ D) m, a ↦ v.
Proof.
  rewrite -{1}(map_filter_union_complement (fun x => x.1 ∈ D) m). rewrite big_sepM_union; [done|].
  apply map_disjoint_filter_complement.
Qed.

Lemma shared_read D I q s : shared D I q -∗ task_interp s -∗ ⌜I (region D (tmem s))⌝.
Proof.
  iIntros "(%μ & [%Hd %Hi] & Hμ) (Hm & _)".
  iAssert (∀ a v, ⌜μ !! a = Some v -> tmem s !! a = Some v⌝)%I as %Hsub.
  { iIntros (a v Ha). iDestruct (big_sepM_lookup with "Hμ") as "Ha"; [done|]. iApply (ghost_map_lookup with "Hm Ha"). }
  iPureIntro. replace (region D (tmem s)) with μ; [done|]. apply map_eq. intros a. destruct (decide (a ∈ D)) as [Ha|Ha].
  - assert (is_Some (μ !! a)) as [v Hv] by (apply elem_of_dom; by rewrite Hd). rewrite Hv. symmetry.
    apply map_lookup_filter_Some. split; [|done]. by apply Hsub.
  - rewrite (proj1 (not_elem_of_dom μ a)); [|by rewrite Hd]. symmetry. apply map_lookup_filter_None. right. by intros v _.
Qed.

Lemma region_read D I s : region_res D I -∗ task_interp s -∗ ⌜I (region D (tmem s))⌝.
Proof. rewrite -shared_all. apply shared_read. Qed.

#[export] Instance region_timeless D I : Timeless (region_res D I).
Proof. apply _. Qed.

(** The words of a list, out of the memory of the task. *)
Lemma take_words (l : list (Z * Z)) m : NoDup l.*1 -> (forall x, x ∈ l -> m !! x.1 = Some x.2) ->
  ([∗ map] a ↦ v ∈ m, a ↦ v) ⊢ [∗ list] x ∈ l, x.1 ↦ x.2.
Proof.
  intros Hnd Hl. rewrite -(big_sepM_list_to_map (fun a v => a ↦ v)%I l Hnd). apply big_sepM_subseteq; [apply _|].
  apply map_subseteq_spec. intros a v Ha%elem_of_list_to_map_2. by apply (Hl (a, v)).
Qed.

End proofs.
