(* ===== verification/Critical.v ===== *)
(** Critical sections: what the locks of the thread library mean for a program
    that uses them, stated on the interleaving semantics alone.

    A client may do what it likes as long as it touches a region of memory only
    between an acquisition and a release, with code that, run alone, keeps an
    invariant of the region.  Then the invariant holds whenever the lock is free,
    in every reachable state of every schedule, and no thread ever crashes. *)
From S2P Require Import Prelude Task TaskLogic UMutex UList UCond USem Alone.
From iris.proofmode Require Import proofmode.
From iris.program_logic Require Import weakestpre adequacy.
From iris.base_logic.lib Require Import ghost_map ghost_var invariants token.
#[local] Open Scope Z_scope.

(** ** Clients *)

(** A critical section keeps the invariant of the region. *)
Definition respects (D : gset Z) (I : gmap Z Z -> Prop) {A} (c : prog A) : Prop := runs_alone D I (fun _ => I) c.

(** Programs that do nothing on their own but compute, yield and ask for their
    thread id, around pieces that [section] allows. *)
Inductive disciplined (section : forall A : Type, prog A -> Prop) : forall {A : Type}, prog A -> Prop :=
  | disciplined_ret {A} (a : A) : disciplined section (Ret a)
  | disciplined_bind {A B} (m : prog A) (f : A -> prog B) : disciplined section m ->
      (forall a, disciplined section (f a)) -> disciplined section (m ≫= f)
  | disciplined_loop {S R : Set} (body : S -> prog (S + R)) (x : S) : (forall x, disciplined section (body x)) ->
      disciplined section (loop body x)
  | disciplined_yield t : disciplined section (yield t)
  | disciplined_gettid : disciplined section gettid
  | disciplined_section {A} (m : prog A) : section A m -> disciplined section m.

(** The pieces of a program that enters the region only between [acquire] and
    [release]. *)
Inductive critical (acquire release : prog unit) (D : gset Z) (I : gmap Z Z -> Prop) : forall A : Type, prog A -> Prop :=
  | critical_section {A} (c : prog A) : respects D I c -> critical acquire release D I A (acquire;; x ← c; release;; Ret x).

(** A task whose threads keep to a discipline, over a region that satisfies [I]. *)
Record clients (section : forall A : Type, prog A -> Prop) (D : gset Z) (I : gmap Z Z -> Prop) (ths : list thread) (s : task) : Prop := {
  cl_threads : Forall (fun th => disciplined section (code th)) ths;
  cl_ids : NoDup (thread_id <$> ths);
  cl_tids : forall th, th ∈ ths -> thread_id th ∈ tids s;
  cl_awake : tasleep s = ∅;
  cl_region : D ⊆ dom (tmem s);
  cl_inv : I (region D (tmem s));
}.

Section proofs.
Context `{!taskGS Σ}.

(** A lock that protects [R]: [ready t] is what thread [t] needs to acquire it,
    [H] what the holder has. *)
Definition lock_ok (acquire release : prog unit) (ready : Z -> iProp Σ) (H R : iProp Σ) : iProp Σ :=
  □ (∀ t Φ, ready t -∗ (ready t -∗ H -∗ R -∗ Φ tt) -∗ wpt t acquire Φ) ∗
  □ (∀ t Φ, H -∗ R -∗ Φ tt -∗ wpt t release Φ).

(** A program whose pieces are right is right. *)
Lemma disciplined_ok (section : forall A, prog A -> Prop) (J : iProp Σ) `{!Persistent J} (ready : Z -> iProp Σ) t {A} (m : prog A) Φ :
  (forall B (c : prog B) Ψ, section B c -> J -∗ ready t -∗ (∀ a, ready t -∗ Ψ a) -∗ wpt t c Ψ) ->
  disciplined section m -> J -∗ ready t -∗ (∀ a, ready t -∗ Φ a) -∗ wpt t m Φ.
Proof.
  iIntros (Hs Hm) "#HJ Ht HΦ". iInduction Hm as [A a|A B m f Hm IHm Hf IHf|S R body x Hb IHb|t'| |A c Hc] "IH" forall (Φ).
  - iApply wpt_ret. by iApply "HΦ".
  - iApply wpt_bind. iApply ("IH1" with "Ht"). iIntros (a) "Ht". iApply ("IH" with "Ht HΦ").
  - iApply (wpt_wand with "[Ht]").
    + iApply (wpt_loop t body (fun _ => ready t) x (fun _ => ready t) with "[] Ht"). iIntros "!>" (y) "Ht".
      iApply ("IH" with "Ht"). iIntros ([]) "Ht"; iExact "Ht".
    + iIntros (r) "Ht". by iApply "HΦ".
  - iApply wpt_yield. iIntros "!>" (z). by iApply "HΦ".
  - iApply wpt_gettid. by iApply "HΦ".
  - by iApply (Hs with "HJ Ht").
Qed.

Lemma critical_ok acquire release ready H D I t {A} (m : prog A) Φ : critical acquire release D I A m ->
  lock_ok acquire release ready H (region_res D I) -∗ ready t -∗ (∀ a, ready t -∗ Φ a) -∗ wpt t m Φ.
Proof.
  intros Hc. revert Φ. destruct Hc as [A c Hc]. iIntros (Φ) "#[Hacq Hrel] Ht HΦ". iApply wpt_bind. iApply ("Hacq" with "Ht"). iIntros "Ht HH HR".
  iApply wpt_bind. iApply (wpt_wand with "[HR]"); [by iApply (runs_alone_ok t c D I (fun _ => I) with "HR")|].
  iIntros (a) "HR". iApply wpt_bind. iApply ("Hrel" with "HH HR"). iApply wpt_ret. by iApply "HΦ".
Qed.

Lemma guarded_ok acquire release ready H D I t {A} (m : prog A) Φ : disciplined (critical acquire release D I) m ->
  lock_ok acquire release ready H (region_res D I) -∗ ready t -∗ (∀ a, ready t -∗ Φ a) -∗ wpt t m Φ.
Proof.
  intros Hm. apply (disciplined_ok (critical acquire release D I)); [apply _| |done].
  intros B c Ψ Hc. by apply critical_ok.
Qed.

End proofs.

(** The resources of the logic. *)
Definition libΣ : gFunctors := #[invΣ; ghost_mapΣ Z Z; ghost_mapΣ Z bool; ghost_mapΣ Z unit; tokenΣ; ghost_varΣ nat].

(** ** Mutexes *)

(** C3. The mutexes of the thread library exclude.  Take any number of threads
    that touch the words of a region only inside critical sections
    [mutex_lock mp; ...; mutex_unlock mp], each with code that, run alone on the
    region, keeps the invariant [I] (and may break it in between).  In every
    state of every schedule, whatever addresses the allocator hands out and
    whatever [xchange] races occur, no thread crashes, and when the word of the
    lock says it is free the region satisfies [I]. *)
Theorem mutex_excludes (mp : addr) (D : gset Z) (I : gmap Z Z -> Prop) ths s ths' s'
    (Hmp : mp <> NULL) (Hout : mutex_lock_state mp ∉ D /\ mutex_tid mp ∉ D)
    (Hfree : tmem s !! mutex_lock_state mp = Some UNLOCKED) (Hword : is_Some (tmem s !! mutex_tid mp))
    (Hcl : clients (critical (mutex_lock mp) (mutex_unlock mp) D I) D I ths s)
    (Hrun : rtc (Task.step false) (ths, s) (ths', s')) :
  Forall (fun th => ~ crashed false th s') ths' /\
  (tmem s' !! mutex_lock_state mp = Some UNLOCKED -> I (region D (tmem s'))).
Proof.
  destruct Hcl as [Hths Hnd Hids Hsl HD HI]. destruct Hword as [o Ho].
  apply and_comm. apply (task_adequacy libΣ ths s ths' s'
    (fun s => tmem s !! mutex_lock_state mp = Some UNLOCKED -> I (region D (tmem s)))); [done..| |done].
  iIntros (HG) "Hmem _ _".
  iDestruct (region_take D with "Hmem") as "[HR Hrest]".
  iDestruct (big_sepM_delete _ _ (mutex_lock_state mp) with "Hrest") as "[Hst Hrest]".
  { apply map_lookup_filter_Some. by split; [|apply Hout]. }
  iDestruct (big_sepM_delete _ _ (mutex_tid mp) with "Hrest") as "[Htid _]".
  { rewrite lookup_delete_ne; [|unfold mutex_lock_state, mutex_tid; lia]. apply map_lookup_filter_Some. by split; [|apply Hout]. }
  iMod (mutex_make mp (region_res D I) with "[HR] Hst Htid") as (γ) "#Hmu"; [done|done| |].
  { iExists _. iFrame "HR". iPureIntro. split; [by apply region_dom|done]. }
  iModIntro. iSplitR.
  - iApply big_sepL_intro. iIntros "!>" (i th Hi). apply list_elem_of_lookup_2 in Hi. rewrite Forall_forall in Hths.
    iApply (guarded_ok _ _ (fun _ => True%I) (held γ) D I); [by apply Hths| |done|by iIntros (a) "_"].
    iSplit; iIntros "!>" (t Φ).
    + iIntros "_ HΦ". iApply (umutex_lock_ok with "Hmu"). by iApply "HΦ".
    + iIntros "Hh HR HΦ". by iApply (umutex_unlock_ok with "Hmu Hh HR").
  - iIntros (s2) "Hs". iDestruct "Hmu" as "[_ Hinv]". iInv "Hinv" as (st tid) "(>Hst & >Htid & Hcase)" "_".
    iAssert ⌜tmem s2 !! mutex_lock_state mp = Some st⌝%I as %Hl.
    { iDestruct "Hs" as "[Hm _]". iApply (ghost_map_lookup with "Hm Hst"). }
    iDestruct "Hcase" as ">[->|(-> & _ & HR)]".
    + iApply fupd_mask_intro; [set_solver|]. iIntros "_". iPureIntro. rewrite Hl. intros Hx. by vm_compute in Hx.
    + iDestruct (region_read with "HR Hs") as %Hi. iApply fupd_mask_intro; [set_solver|]. iIntros "_". by iPureIntro.
Qed.

(** ** Semaphores *)

Section semaphores.
Context `{!taskGS Σ}.

Lemma copies_split n (P Q : iProp Σ) : copies n (P ∗ Q) ⊢ copies n P.
Proof. induction n as [|n IH]; cbn; [done|]. rewrite IH. iIntros "[[$ _] $]". Qed.

(** A unit that exists once. *)
Lemma bounded_once `{!tokenG Σ} γ (Q : iProp Σ) : bounded (token γ ∗ Q).
Proof.
  intros [|[|n]]; cbn; iIntros "H"; [done|done|]. iDestruct "H" as "([H1 _] & [H2 _] & _)".
  iDestruct (token_exclusive with "H1 H2") as %[].
Qed.

(** The tickets of a finite set of threads. *)
Definition ticket_of (γ : gname) (T : gset Z) : iProp Σ := ∃ t, ⌜t ∈ T⌝ ∗ t ↪[γ] 0.

Lemma tickets_distinct γ T n : copies n (ticket_of γ T) ⊢ ∃ l : list Z, ⌜length l = n /\ NoDup l /\ list_to_set l ⊆ T⌝ ∗ [∗ list] t ∈ l, t ↪[γ] 0.
Proof.
  induction n as [|n IH]; cbn; iIntros "H".
  - iExists []. cbn. iSplit; [|done]. iPureIntro. split; [done|]. split; [constructor|set_solver].
  - iDestruct "H" as "[(%t & %Ht & Hel) H]". iDestruct (IH with "H") as (l (Hn & Hnd & Hsub)) "Hl". iExists (t :: l).
    iAssert ⌜t ∉ l⌝%I as %Hnl.
    { iIntros ([i Hi]%list_elem_of_lookup). iDestruct (big_sepL_lookup with "Hl") as "Hel'"; [done|].
      by iDestruct (ghost_map_elem_ne with "Hel Hel'") as %[]. }
    iFrame. iPureIntro. split; [by rewrite /= Hn|]. split; [by constructor|set_solver].
Qed.

Lemma bounded_tickets γ T : Z.of_nat (size T) < 2 ^ 31 -> bounded (ticket_of γ T).
Proof.
  intros HT n. iIntros "H". iDestruct (tickets_distinct with "H") as (l (Hn & Hnd & Hsub)) "_". iPureIntro.
  apply subseteq_size in Hsub. rewrite size_list_to_set in Hsub; [|done]. lia.
Qed.

#[export] Instance copies_timeless n (P : iProp Σ) : Timeless P -> Timeless (copies n P).
Proof. intros H. induction n as [|n IH]; cbn; apply _. Qed.

End semaphores.

(** The words of a semaphore with one unit, as [sem_init] leaves them. *)
Definition sem_words (sem tid1 tid2 : Z) : list (Z * Z) :=
  [(sem_count sem, 1); (mutex_lock_state (sem_lock sem), UNLOCKED); (mutex_tid (sem_lock sem), tid1);
   (mutex_lock_state (cond_lock (sem_cond sem)), UNLOCKED); (mutex_tid (cond_lock (sem_cond sem)), tid2);
   (cond_tid_head (sem_cond sem), NULL)].

Definition sem_free (sem : addr) (s : task) : Prop :=
  tmem s !! mutex_lock_state (sem_lock sem) = Some UNLOCKED /\ tmem s !! sem_count sem = Some 1.

Section semaphore_theorem.
Context `{Globals}.

Definition alloc_words (tid : Z) : list (Z * Z) := [(mutex_lock_state alloc_mutex, UNLOCKED); (mutex_tid alloc_mutex, tid)].

(** C5. The semaphores of the thread library exclude.  With one unit in the
    semaphore and fewer than 2^31 threads (its count is a signed word), threads
    that touch a region only between [sem_wait] and [sem_signal] keep its
    invariant: when the semaphore's own lock is free and its count is 1, the
    region satisfies [I], in every state of every schedule; and no thread
    crashes.  The count goes below zero while threads wait; the condition
    variable, its list of waiters with the nodes on the heap, and the words
    [deschedule] sleeps on are all part of the run.  That a waiter is woken is
    not part of the statement; the witness shows a run in which one is. *)
Theorem semaphore_excludes (sem tid1 tid2 tid3 : Z) (D : gset Z) (I : gmap Z Z -> Prop) ths s ths' s'
    (Hsem : 0 < sem) (Halloc : alloc_mutex <> NULL)
    (Hnd : NoDup (sem_words sem tid1 tid2 ++ alloc_words tid3).*1)
    (Hmem : forall x, x ∈ sem_words sem tid1 tid2 ++ alloc_words tid3 -> tmem s !! x.1 = Some x.2 /\ x.1 ∉ D)
    (Hcl : clients (critical (sem_wait sem) (sem_signal sem) D I) D I ths s) (Hfew : Z.of_nat (length ths) < 2 ^ 31)
    (Hrun : rtc (Task.step false) (ths, s) (ths', s')) :
  Forall (fun th => ~ crashed false th s') ths' /\ (sem_free sem s' -> I (region D (tmem s'))).
Proof.
  destruct Hcl as [Hths Hnt Hids Hsl HD HI]. set (T := list_to_set (thread_id <$> ths) : gset Z).
  assert (HT : Z.of_nat (size T) < 2 ^ 31) by (unfold T; rewrite size_list_to_set; [by rewrite length_fmap|done]).
  apply and_comm. apply (task_adequacy libΣ ths s ths' s' (fun s => sem_free sem s -> I (region D (tmem s)))); [done..| |done].
  iIntros (HG) "Hmem Hths _". iDestruct (region_take D with "Hmem") as "[HR Hrest]".
  iDestruct (take_words _ _ Hnd with "Hrest") as "Hw".
  { intros x Hx. apply map_lookup_filter_Some. exact (Hmem x Hx). }
  iDestruct "Hw" as "[(Hc & Hl1 & Ht1 & Hl2 & Ht2 & Hh & _) (Ha & Hat & _)]". cbn [fst snd].
  iMod token_alloc as (γp) "Hp". iMod (ghost_map_alloc (gset_to_gmap 0 T)) as (γt) "[_ Htk]".
  iMod (mutex_make alloc_mutex True with "[//] Ha Hat") as (γa) "#Ha"; [done|done|].
  iMod (sem_make (token γp ∗ region_res D I) (ticket_of γt T) sem with "Hc [Hp HR] Hl1 Ht1 Hl2 Ht2 Hh") as (γm γl γ) "#Hs"; [done|lia|done|done| |].
  { cbn. iFrame "Hp". iExists _. iFrame "HR". iPureIntro. split; [by apply region_dom|done]. }
  iModIntro. iSplitL "Hths Htk".
  - iAssert ([∗ list] th ∈ ths, ticket_of γt T)%I with "[Htk]" as "Htk".
    { rewrite big_sepM_gset_to_gmap /T big_sepS_list_to_set; [|done]. rewrite big_sepL_fmap.
      iApply (big_sepL_impl with "Htk"). iIntros "!>" (i th Hi) "H". iExists (thread_id th). iFrame. iPureIntro.
      apply elem_of_list_to_set, list_elem_of_fmap_2. by apply list_elem_of_lookup_2 in Hi. }
    iCombine "Hths Htk" as "H". rewrite -big_sepL_sep. iApply (big_sepL_impl with "H"). iIntros "!>" (i th Hi) "H".
    apply list_elem_of_lookup_2 in Hi. rewrite Forall_forall in Hths.
    iApply (guarded_ok _ _ (fun t => sleeping t false ∗ ticket_of γt T)%I (token γp) D I with "[] H");
      [by apply Hths| |by iIntros (a) "_"].
    iSplit; iIntros "!>" (t Φ).
    + iIntros "[Ht Htk] HΦ". iApply (sem_wait_ok γa _ _ (bounded_once γp _) (bounded_tickets γt T HT) with "Ha Hs Htk Ht").
      iIntros "[Hp HR] Htk Ht". iApply ("HΦ" with "[$Ht $Htk] Hp HR").
    + iIntros "Hp HR HΦ". by iApply (sem_signal_ok γa _ _ (bounded_once γp _) (bounded_tickets γt T HT) with "Ha Hs [$Hp $HR]").
  - iIntros (s2) "Hs2". iDestruct "Hs" as "(_ & [_ Hinv] & _)". iInv "Hinv" as (st tid) "(>Hst & _ & Hcase)" "_".
    iAssert ⌜tmem s2 !! mutex_lock_state (sem_lock sem) = Some st⌝%I as %Hl.
    { iDestruct "Hs2" as "[Hm _]". iApply (ghost_map_lookup with "Hm Hst"). }
    iDestruct "Hcase" as ">[->|(-> & _ & (%count & Hc & _ & HR & _))]".
    + iApply fupd_mask_intro; [set_solver|]. iIntros "_". iPureIntro. intros [Hx _]. rewrite Hl in Hx. by vm_compute in Hx.
    + iAssert ⌜tmem s2 !! sem_count sem = Some count⌝%I as %Hct.
      { iDestruct "Hs2" as "[Hm _]". iApply (ghost_map_lookup with "Hm Hc"). }
      destruct (decide (count = 1)) as [->|Hne].
      * cbn. iDestruct "HR" as "[[_ HR] _]". iDestruct (region_read with "HR Hs2") as %Hi.
        iApply fupd_mask_intro; [set_solver|]. iIntros "_". by iPureIntro.
      * iApply fupd_mask_intro; [set_solver|]. iIntros "_". iPureIntro. intros [_ Hx]. rewrite Hct in Hx. by injection Hx.
Qed.

End semaphore_theorem.

(** ** Concrete clients *)

(** A word that is even outside critical sections, incremented twice inside. *)
Definition demo_word : addr := 3000.
Definition demo_region : gset Z := {[demo_word]}.
Definition demo_even (μ : gmap Z Z) : Prop := Z.Even (default 0 (μ !! demo_word)).
Definition demo_section : prog unit :=
  x ← load demo_word;
  store demo_word (x + 1);;
  y ← load demo_word;
  store demo_word (y + 1).
Definition demo_client (acquire release : prog unit) : prog unit :=
  loop (fun _ : unit => (acquire;; x ← demo_section; release;; Ret x);; Ret (inl tt)) tt.

Lemma demo_respects : respects demo_region demo_even demo_section.
Proof.
  intros μ n c' μ' Hd HI Hn. assert (is_Some (μ !! demo_word)) as [v Hv] by (apply elem_of_dom; rewrite Hd; set_solver).
  unfold demo_even in *. rewrite Hv in HI. cbn in HI.
  do 5 (destruct n as [|n]; [cbn in Hn; repeat (rewrite ?Hv ?lookup_insert_eq in Hn; cbn in Hn); injection Hn as <- <-;
          first [left; cbn; rewrite ?Hv ?lookup_insert_eq; by eexists
                |right; eexists; split; [reflexivity|]; rewrite lookup_insert_eq; cbn; destruct HI as [k ->]; exists (k + 1); lia]|
          cbn in Hn; rewrite ?Hv ?lookup_insert_eq in Hn; cbn in Hn]).
  done.
Qed.

Lemma demo_client_guarded acquire release : disciplined (critical acquire release demo_region demo_even) (demo_client acquire release).
Proof.
  apply disciplined_loop. intros _. apply disciplined_bind; [|intros; apply disciplined_ret]. apply disciplined_section, critical_section, demo_respects.
Qed.

Definition demo_threads (acquire release : prog unit) : list thread :=
  [Thread 1 (demo_client acquire release); Thread 2 (demo_client acquire release)].
Definition demo_task (words : list (Z * Z)) : task := Task (list_to_map ((demo_word, 0) :: words)) ∅ ∅ {[1; 2]} None.

Lemma demo_clients acquire release words : words.*1 ## [demo_word] ->
  clients (critical acquire release demo_region demo_even) demo_region demo_even (demo_threads acquire release) (demo_task words).
Proof.
  intros Hw. split.
  - apply Forall_cons; split; [apply demo_client_guarded|]. apply Forall_cons; split; [apply demo_client_guarded|constructor].
  - apply (bool_decide_unpack _). by vm_compute.
  - intros th [->|[->|[]%elem_of_nil]%elem_of_cons]%elem_of_cons; cbn; set_solver.
  - done.
  - cbn. rewrite dom_insert_L. set_solver.
  - unfold demo_even, region. assert (filter (fun x => x.1 ∈ demo_region) (tmem (demo_task words)) !! demo_word = Some 0) as ->.
    { apply map_lookup_filter_Some. cbn. rewrite lookup_insert_eq. set_solver. }
    by exists 0.
Qed.

Definition demo_start_mutex : config :=
  (demo_threads (mutex_lock 1200) (mutex_unlock 1200), demo_task [(1200, UNLOCKED); (1204, -1)]).
Definition demo_turns : list (nat * Task.choice) :=
  (fun i => (i, Choice 0 id)) <$> replicate 8 0%nat ++ replicate 5 1%nat ++ replicate 3 0%nat.

(** The second thread tries while the first is inside. *)
Lemma mutex_excludes_witness :
  exists ths' s', rtc (Task.step false) demo_start_mutex (ths', s') /\ tmem s' !! demo_word = Some 2 /\
    Forall (fun th => ~ crashed false th s') ths' /\ demo_even (region demo_region (tmem s')).
Proof.
  destruct (run_reaches false demo_start_mutex demo_turns (fun cf => (tmem cf.2 !! 1200, tmem cf.2 !! demo_word))
    (Some UNLOCKED, Some 2)) as ([ths' s'] & H1 & [= H2 H3]); [vm_compute; reflexivity|].
  destruct (mutex_excludes 1200 demo_region demo_even (demo_threads (mutex_lock 1200) (mutex_unlock 1200))
    (demo_task [(1200, UNLOCKED); (1204, -1)]) ths' s') as [H4 H5].
  - done.
  - split; unfold demo_region, demo_word, mutex_lock_state, mutex_tid; set_solver by lia.
  - vm_compute. reflexivity.
  - eexists. vm_compute. reflexivity.
  - apply demo_clients. intros x. unfold demo_word. set_solver by lia.
  - exact H1.
  - exists ths', s'. repeat split; try assumption. apply H5, H2.
Defined.

#[local] Instance demo_globals : Globals := {| alloc_mutex := 2000 |}.
Definition demo_sem_words : list (Z * Z) := sem_words 1000 (-1) (-1) ++ alloc_words (-1).
Definition demo_start_sem : config := (demo_threads (sem_wait 1000) (sem_signal 1000), demo_task demo_sem_words).

(** The second thread finds the unit taken and sleeps; the first one signals, and
    the second goes through its section too. *)
Lemma semaphore_excludes_witness :
  exists ths1 s1 ths' s', rtc (Task.step false) demo_start_sem (ths1, s1) /\ elements (tasleep s1) = [2] /\
    rtc (Task.step false) (ths1, s1) (ths', s') /\ tmem s' !! demo_word = Some 4 /\
    Forall (fun th => ~ crashed false th s') ths' /\ demo_even (region demo_region (tmem s')).
Proof.
  set (sch1 := plan false 0 (turns [(0, 14); (1, 100)]%nat) demo_start_sem).
  destruct (run_twice false demo_start_sem sch1 (plan_on false sch1 (turns [(0, 36); (1, 22)]%nat) demo_start_sem)
    (fun cf => elements (tasleep cf.2)) (fun cf => (tmem cf.2 !! 1004, tmem cf.2 !! 1000, tmem cf.2 !! demo_word))
    [2] (Some UNLOCKED, Some 1, Some 4)) as ([ths1 s1] & [ths' s'] & H0 & H1 & Hsl & [= H2 H3 H4]); [vm_compute; reflexivity|].
  destruct (semaphore_excludes 1000 (-1) (-1) (-1) demo_region demo_even (demo_threads (sem_wait 1000) (sem_signal 1000))
    (demo_task demo_sem_words) ths' s') as [H5 H6].
  - done.
  - done.
  - apply (bool_decide_unpack _). vm_compute. reflexivity.
  - clear. intros x Hx. change (x ∈ demo_sem_words) in Hx. repeat (apply elem_of_cons in Hx as [->|Hx];
      [split; [vm_compute; reflexivity|apply not_elem_of_singleton; by vm_compute]|]). by apply not_elem_of_nil in Hx.
  - clear. apply demo_clients. intros x. vm_compute. set_solver by lia.
  - done.
  - exact (transitivity H0 H1).
  - exists ths1, s1, ths', s'. split; [exact H0|]. split; [exact Hsl|]. split; [exact H1|]. split; [exact H4|].
    split; [exact H5|]. apply H6. split; [exact H2|exact H3].
Defined.
