(* ===== verification/URwlock.v ===== *)
(** Readers/writers locks, [src/user/libthread/rwlock.c].

    The list of a lock holds a record for every thread that has the lock or waits
    for it; each record has a condition variable of its own.  The threads that
    have the lock are the writer at the front, or the readers in front of the
    first writer. *)
From S2P Require Import Prelude Task UMutex UList UCond.
#[local] Open Scope Z_scope.

(** [rwlock.h], [rwlock_type.h]. *)
Definition RWLOCK_READ : Z := 0.
Definition RWLOCK_WRITE : Z := 1.
Definition rw_list (rwlock : addr) : addr := rwlock.
Definition rw_list_manipulation (rwlock : addr) : addr := rwlock + 4.
Definition rw_thread_id (r : addr) : addr := r.
Definition rw_lock_type (r : addr) : addr := r + 4.
Definition rw_lock_permission (r : addr) : addr := r + 8.
Definition sizeof_rw_record : Z := 20.

Section rwlock.
Context `{Globals}.

Definition rwlock_init (rwlock : addr) : prog Z :=
  if decide (rwlock = NULL) then Ret (-1)
  else
    store (rw_list rwlock) NULL;;
    r ← mutex_init (rw_list_manipulation rwlock);
    if decide (r <> 0) then Ret (-1) else Ret 0.

Definition is_rw_lock_type (type : Z) : bool := bool_decide (type = RWLOCK_READ \/ type = RWLOCK_WRITE).

(** [do { if (f(node_ptr->data)) return node_ptr; node_ptr = node_ptr->next; }
    while (node_ptr != rw_list);] *)
Definition find_node (f : addr -> prog bool) (list : addr) : prog addr :=
  if decide (list <> NULL) then
    loop (fun node_ptr : addr =>
      record_ptr ← load (node_data node_ptr);
      found ← f record_ptr;
      if (found : bool) then Ret (inr node_ptr)
      else
        next ← load (node_next node_ptr);
        if decide (next <> list) then Ret (inl next) else Ret (inr NULL)) list
  else Ret NULL.

Definition find_by_rw_lock_type (list type : Z) : prog addr :=
  find_node (fun r => t ← load (rw_lock_type r); Ret (bool_decide (t = type))) list.

Definition find_by_thread_id (list tid : Z) : prog addr :=
  find_node (fun r => t ← load (rw_thread_id r); Ret (bool_decide (t = tid))) list.

(** [rwlock->rw_list = append_node(rwlock->rw_list, data)]. *)
Definition append_record (rwlock data : Z) : prog unit :=
  list ← load (rw_list rwlock);
  list ← append_node list data;
  store (rw_list rwlock) list.

Definition await_permission (rwlock r : addr) : prog unit :=
  cond_wait (rw_lock_permission r) (rw_list_manipulation rwlock).

Definition enter_reader (rwlock r : addr) : prog unit :=
  list ← load (rw_list rwlock);
  first_w_node_ptr ← find_by_rw_lock_type list RWLOCK_WRITE;
  if decide (first_w_node_ptr = NULL) then append_record rwlock r
  else append_record rwlock r;; await_permission rwlock r.

Definition enter_writer (rwlock r : addr) : prog unit :=
  list ← load (rw_list rwlock);
  if decide (list = NULL) then append_record rwlock r
  else
    list ← load (rw_list rwlock);
    first_w_node_ptr ← find_by_rw_lock_type list RWLOCK_WRITE;
    (if decide (first_w_node_ptr = NULL) then
       list ← load (rw_list rwlock);
       _ ← append_node list r; Ret tt
     else
       list ← load (rw_list rwlock);
       first_r_node_ptr ← find_by_rw_lock_type list RWLOCK_READ;
       if decide (first_r_node_ptr = NULL) then
         list ← load (rw_list rwlock);
         _ ← append_node list r; Ret tt
       else
         _ ← append_node first_r_node_ptr r; Ret tt);;
    await_permission rwlock r.

Definition rwlock_lock (rwlock type : Z) : prog unit :=
  if decide (rwlock = NULL \/ is_rw_lock_type type = false) then Ret tt
  else
    new_record_ptr ← malloc sizeof_rw_record;
    if decide (new_record_ptr = NULL) then Ret tt
    else
      tid ← thr_getid;
      store (rw_thread_id new_record_ptr) tid;;
      store (rw_lock_type new_record_ptr) type;;
      c ← cond_init (rw_lock_permission new_record_ptr);
      if decide (c <> 0) then free new_record_ptr
      else
        mutex_lock (rw_list_manipulation rwlock);;
        t ← load (rw_lock_type new_record_ptr);
        (if decide (t = RWLOCK_READ) then enter_reader rwlock new_record_ptr
         else if decide (t = RWLOCK_WRITE) then enter_writer rwlock new_record_ptr
         else Ret tt);;
        mutex_unlock (rw_list_manipulation rwlock).

(** [case RWLOCK_READ] of [rwlock_unlock]. *)
Definition grant_writer (rwlock : addr) : prog unit :=
  list ← load (rw_list rwlock);
  if decide (list <> NULL) then
    first_record_ptr ← load (node_data list);
    t ← load (rw_lock_type first_record_ptr);
    if decide (t = RWLOCK_WRITE) then cond_signal (rw_lock_permission first_record_ptr) else Ret tt
  else Ret tt.

(** The loop that grants the lock to the readers in front of the first writer. *)
Definition grant_readers (rwlock node_ptr : Z) : prog unit :=
  loop (fun node_ptr : addr =>
    record_ptr ← load (node_data node_ptr);
    t ← load (rw_lock_type record_ptr);
    if decide (t = RWLOCK_WRITE) then Ret (inr tt)
    else
      cond_signal (rw_lock_permission record_ptr);;
      next ← load (node_next node_ptr);
      list ← load (rw_list rwlock);
      if decide (next <> list) then Ret (inl next) else Ret (inr tt)) node_ptr.

(** [case RWLOCK_WRITE]. *)
Definition grant_next (rwlock : addr) : prog unit :=
  list ← load (rw_list rwlock);
  if decide (list <> NULL) then
    first_record_ptr ← load (node_data list);
    t ← load (rw_lock_type first_record_ptr);
    if decide (t = RWLOCK_WRITE) then cond_signal (rw_lock_permission first_record_ptr)
    else list ← load (rw_list rwlock); grant_readers rwlock list
  else Ret tt.

(** The switch of [rwlock_unlock]: the first case has no [break]. *)
Definition grant (rwlock type : Z) : prog unit :=
  if decide (type = RWLOCK_READ) then grant_writer rwlock;; grant_next rwlock
  else if decide (type = RWLOCK_WRITE) then grant_next rwlock
  else Ret tt.

Definition rwlock_unlock (rwlock : addr) : prog unit :=
  if decide (rwlock = NULL) then Ret tt
  else
    my_thread_id ← thr_getid;
    mutex_lock (rw_list_manipulation rwlock);;
    list ← load (rw_list rwlock);
    my_node_ptr ← find_by_thread_id list my_thread_id;
    if decide (my_node_ptr = NULL) then mutex_unlock (rw_list_manipulation rwlock)
    else
      my_record_ptr ← load (node_data my_node_ptr);
      my_rw_lock_type ← load (rw_lock_type my_record_ptr);
      cond_destroy (rw_lock_permission my_record_ptr);;
      free my_record_ptr;;
      list ← load (rw_list rwlock);
      list ← remove_node list my_node_ptr;
      store (rw_list rwlock) list;;
      grant rwlock my_rw_lock_type;;
      mutex_unlock (rw_list_manipulation rwlock).

(** [rwlock_downgrade]: a permission for every node from the first reader on. *)
Definition signal_rest (rwlock node_ptr : Z) : prog unit :=
  loop (fun node_ptr : addr =>
    record_ptr ← load (node_data node_ptr);
    cond_signal (rw_lock_permission record_ptr);;
    next ← load (node_next node_ptr);
    list ← load (rw_list rwlock);
    if decide (next <> list) then Ret (inl next) else Ret (inr tt)) node_ptr.

(** The writers behind the first node go to the end. *)
Definition move_writers (rwlock node_ptr : Z) : prog unit :=
  loop (fun _ : unit =>
    record_ptr ← load (node_data node_ptr);
    t ← load (rw_lock_type record_ptr);
    if decide (t = RWLOCK_WRITE) then
      record_ptr ← load (node_data node_ptr);
      list ← load (rw_list rwlock);
      _ ← remove_node list node_ptr;
      list ← load (rw_list rwlock);
      _ ← append_node list record_ptr;
      Ret (inl tt)
    else Ret (inr tt)) tt.

Definition rwlock_downgrade (rwlock : addr) : prog unit :=
  if decide (rwlock = NULL) then Ret tt
  else
    my_thread_id ← thr_getid;
    mutex_lock (rw_list_manipulation rwlock);;
    list ← load (rw_list rwlock);
    if decide (list = NULL) then mutex_unlock (rw_list_manipulation rwlock)
    else
      first_record_ptr ← load (node_data list);
      tid ← load (rw_thread_id first_record_ptr);
      mine ← (if decide (tid <> my_thread_id) then Ret false
              else t ← load (rw_lock_type first_record_ptr); Ret (bool_decide (t = RWLOCK_WRITE)));
      if decide (mine = false) then mutex_unlock (rw_list_manipulation rwlock)
      else
        list ← load (rw_list rwlock);
        first_reader_node_ptr ← find_by_rw_lock_type list RWLOCK_READ;
        (if decide (first_reader_node_ptr <> NULL) then
           signal_rest rwlock first_reader_node_ptr;;
           list ← load (rw_list rwlock);
           node_ptr ← load (node_next list);
           move_writers rwlock node_ptr
         else Ret tt);;
        store (rw_lock_type first_record_ptr) RWLOCK_READ;;
        mutex_unlock (rw_list_manipulation rwlock).

Definition rwlock_destroy (rwlock : addr) : prog unit :=
  if decide (rwlock = NULL) then Ret tt
  else
    mutex_lock (rw_list_manipulation rwlock);;
    while (load (rw_list rwlock))
      (list ← load (rw_list rwlock);
       record_ptr ← load (node_data list);
       cond_destroy (rw_lock_permission record_ptr);;
       free record_ptr;;
       list ← load (rw_list rwlock);
       list ← remove_node list list;
       store (rw_list rwlock) list);;
    mutex_unlock (rw_list_manipulation rwlock);;
    mutex_destroy (rw_list_manipulation rwlock).

End rwlock.
