(* ===== verification/URwSpec.v ===== *)
(** What a readers/writers lock promises: [rwlock_lock] and [rwlock_unlock].

    The lock protects a resource [P 1]; a writer gets all of it, a reader some
    share.  The list of the lock is a queue: the granted writer at its head, or
    the granted readers in front of the first writer; all others wait, and every
    unlock hands the lock on so that the queue has this shape again. *)
From S2P Require Import Prelude Task TaskLogic UMutex UList UCond URwlock.
From iris.proofmode Require Import proofmode.
From iris.base_logic.lib Require Import ghost_map ghost_var invariants token.
#[local] Open Scope Z_scope.

(** ** The queue *)

(** What does not change of a record: its node, its address, whether it is a
    writer's, and the name of its share. *)
Record rinfo : Set := RInfo { i_node : addr; i_rec : addr; i_write : bool; i_share : gname }.
(** A record of thread [q_tid]; granted with a share, or waiting. *)
Record rwrec : Set := RwRec { q_tid : Z; q_info : rinfo; q_granted : option Qp }.
Definition rw_entries (L : list rwrec) : list (addr * Z) := (fun r => (i_node (q_info r), i_rec (q_info r))) <$> L.
Definition lock_type (w : bool) : Z := if w then RWLOCK_WRITE else RWLOCK_READ.

Definition writer (r : rwrec) : bool := i_write (q_info r).
Definition has_lock (r : rwrec) : bool := match q_granted r with Some _ => true | None => false end.
Definition waiting (r : rwrec) : Prop := has_lock r = false.
Definition reading (r : rwrec) : Prop := writer r = false /\ has_lock r = true.
Definition writer_first (L : list rwrec) : Prop := match L with [] => True | w :: _ => writer w = true end.

(** A granted writer in front of waiting threads. *)
Definition written (L : list rwrec) : Prop :=
  exists w L', L = w :: L' /\ writer w = true /\ has_lock w = true /\ Forall waiting L'.
(** Readers in front of waiting threads, the first of which is a writer. *)
Definition queue_ok (L : list rwrec) : Prop :=
  written L \/ exists Rs Ws, L = Rs ++ Ws /\ Forall reading Rs /\ Forall waiting Ws /\ writer_first Ws /\ (Rs = [] -> Ws = []).
(** What an unlock leaves: some readers may not have been granted the lock yet. *)
Definition loose (L : list rwrec) : Prop :=
  exists Rs Ws, L = Rs ++ Ws /\ Forall (fun r => writer r = false) Rs /\ Forall waiting Ws /\ writer_first Ws.

(** Every list of waiting threads is of the second shape. *)
Lemma waiting_loose L : Forall waiting L -> loose L.
Proof.
  intros H. induction L as [|r L IH]; [by exists [], []|]. apply Forall_cons in H as [Hr HL].
  destruct (writer r) eqn:Hw; [exists [], (r :: L); split; [done|]; split; [done|]; by split; [constructor|]|].
  destruct (IH HL) as (Rs & Ws & -> & HR & HW & Hf). exists (r :: Rs), Ws. split; [done|]. by split; [constructor|].
Qed.

Lemma queue_insert_end L r : queue_ok L -> L <> [] -> waiting r ->
  writer r = true \/ (exists r', r' ∈ L /\ writer r' = true) -> queue_ok (L ++ [r]).
Proof.
  intros [(w & L' & -> & Hw & Hh & HL)|(Rs & Ws & -> & HR & HW & Hf & He)] Hne Hr Hwr.
  - left. exists w, (L' ++ [r]). split; [done|]. split; [done|]. split; [done|]. by apply Forall_app; split; [|constructor].
  - right. exists Rs, (Ws ++ [r]). rewrite app_assoc. split; [done|]. split; [done|]. split; [by apply Forall_app; split; [|constructor]|].
    split; [|intros ->; by rewrite (He eq_refl) in Hne]. destruct Ws as [|w Ws]; [|done]. cbn.
    destruct Hwr as [Hwr|(r' & Hin & Hwr)]; [done|]. rewrite app_nil_r in Hin. rewrite Forall_forall in HR.
    destruct (HR r' Hin) as [Hn _]. congruence.
Qed.

Lemma queue_insert_reader L r : queue_ok L -> Forall (fun r => writer r = false) L -> reading r -> queue_ok (L ++ [r]).
Proof.
  intros [(w & L' & -> & Hw & _)|(Rs & Ws & -> & HR & HW & Hf & He)] Hno Hr.
  - apply Forall_cons in Hno as [Hn _]. congruence.
  - assert (Ws = []) as ->.
    { destruct Ws as [|w Ws]; [done|]. apply Forall_app in Hno as [_ [Hn _]%Forall_cons]. cbn in Hf. congruence. }
    right. exists (Rs ++ [r]), []. rewrite !app_nil_r. split; [done|]. split; [by apply Forall_app; split; [|constructor]|].
    split; [done|]. split; [done|]. by destruct Rs.
Qed.

(** A writer before the first reader, when writers come first. *)
Lemma queue_insert_writer L1 r L2 w : queue_ok (L1 ++ r :: L2) -> L1 <> [] -> Forall (fun r => writer r = true) L1 ->
  waiting w -> writer w = true -> queue_ok (L1 ++ w :: r :: L2).
Proof.
  intros [(w0 & L' & HL & Hw & Hh & HL')|(Rs & Ws & HL & HR & HW & Hf & He)] Hne Hwr Hww Hw0; destruct L1 as [|x L1]; try done.
  - injection HL as -> <-. left. exists w0, (L1 ++ w :: r :: L2). split; [done|]. split; [done|]. split; [done|].
    apply Forall_app in HL' as [H1 H2]. apply Forall_app. split; [done|]. by constructor.
  - apply Forall_cons in Hwr as [Hx _]. destruct Rs as [|x' Rs]; [by rewrite (He eq_refl) in HL|].
    injection HL as <- HL. apply Forall_cons in HR as [[Hx' _] _]. congruence.
Qed.

(** What is left when a thread that has the lock goes. *)
Lemma queue_leave L1 r L2 : queue_ok (L1 ++ r :: L2) -> has_lock r = true ->
  loose (L1 ++ L2) /\ (writer r = true -> L1 = [] /\ Forall waiting L2).
Proof.
  intros [(w & L' & HL & Hw & Hh & HL')|(Rs & Ws & HL & HR & HW & Hf & He)] Hr.
  - destruct L1 as [|x L1].
    + injection HL as -> ->. split; [by apply waiting_loose|done].
    + injection HL as -> <-. apply Forall_app in HL' as [_ [Hn _]%Forall_cons]. unfold waiting in Hn. congruence.
  - assert (exists Rs1 Rs2, Rs = Rs1 ++ r :: Rs2 /\ L1 = Rs1 /\ L2 = Rs2 ++ Ws) as (Rs1 & Rs2 & -> & -> & ->).
    { apply app_eq_app in HL as [l [[HRs HWs]|[HRs HWs]]].
      - subst. apply Forall_app in HW as [_ [Hn _]%Forall_cons]. unfold waiting in Hn. congruence.
      - destruct l as [|x l].
        + cbn in HWs. subst Ws. apply Forall_cons in HW as [Hn _]. unfold waiting in Hn. congruence.
        + injection HWs as <- ->. by exists L1, l. }
    apply Forall_app in HR as [HR1 [Hrd HR2]%Forall_cons]. split; [|by destruct Hrd; congruence].
    exists (Rs1 ++ Rs2), Ws. rewrite app_assoc. split; [done|]. split; [|done].
    apply Forall_app. split; eapply Forall_impl; [exact HR1| |exact HR2|]; by intros ? [].
Qed.

(** ** Shares *)

Definition oadd (a b : option Qp) : option Qp :=
  match a, b with Some p, Some q => Some (p + q)%Qp | Some p, None => Some p | None, b => b end.
Definition spent (L : list rwrec) : option Qp := foldr (fun r a => oadd (q_granted r) a) None L.

Lemma oadd_assoc a b c : oadd a (oadd b c) = oadd (oadd a b) c.
Proof. destruct a, b, c; cbn; try done. by rewrite Qp.add_assoc. Qed.
Lemma oadd_comm a b : oadd a b = oadd b a.
Proof. destruct a, b; cbn; try done. by rewrite Qp.add_comm. Qed.

Lemma spent_app L1 L2 : spent (L1 ++ L2) = oadd (spent L1) (spent L2).
Proof. induction L1 as [|r L1 IH]; cbn; [done|]. unfold spent in IH. by rewrite IH oadd_assoc. Qed.

Lemma spent_at L1 r L2 : spent (L1 ++ r :: L2) = oadd (q_granted r) (spent (L1 ++ L2)).
Proof. rewrite !spent_app. cbn. rewrite oadd_assoc (oadd_comm (spent L1)) -oadd_assoc. done. Qed.

Lemma spent_waiting L : Forall waiting L -> spent L = None.
Proof. intros H. induction H as [|r L Hr HL IH]; [done|]. unfold waiting, has_lock in Hr. cbn. unfold spent in IH. by destruct (q_granted r). Qed.

Definition grant_to (r : rwrec) (q : Qp) : rwrec := RwRec (q_tid r) (q_info r) (Some q).

Lemma rw_entries_grant L1 r L2 q : rw_entries (L1 ++ grant_to r q :: L2) = rw_entries (L1 ++ r :: L2).
Proof. unfold rw_entries. by rewrite !fmap_app. Qed.

Lemma rw_entries_split A r B : rw_entries (A ++ r :: B) = rw_entries A ++ (i_node (q_info r), i_rec (q_info r)) :: rw_entries B.
Proof. unfold rw_entries. by rewrite fmap_app. Qed.

(** A lock whose queue starts with a granted writer has only waiting threads behind. *)
Lemma written_spent w L : written (w :: L) -> spent (w :: L) = q_granted w.
Proof. intros (w' & L' & [= <- <-] & _ & _ & HL). cbn. rewrite -/(spent L) spent_waiting; [by destruct (q_granted w)|done]. Qed.

Section shares.
Context {Σ : gFunctors} (P : Qp -> iProp Σ).
Context (P_split : forall p q, P (p + q)%Qp ⊣⊢ P p ∗ P q).

(** What the lock keeps: the share nobody has. *)
Definition remaining (L : list rwrec) : iProp Σ :=
  ∃ o, ⌜oadd (spent L) o = Some 1%Qp⌝ ∗ match o with Some p => P p | None => ⌜written L⌝ end.

Lemma remaining_start : P 1%Qp -∗ remaining [].
Proof. iIntros "H". iExists (Some 1%Qp). by iFrame. Qed.

(** A reader gets half of what is left. *)
Lemma share_out L L' : ~ written L -> (forall q, spent (L' q) = oadd (Some q) (spent L)) ->
  remaining L -∗ ∃ q, P q ∗ remaining (L' q).
Proof.
  iIntros (Hw HL) "(%o & %Ho & H)". destruct o as [p|]; [|by iDestruct "H" as %?].
  rewrite -{1}(Qp.div_2 p) P_split. iDestruct "H" as "[H1 H2]". iExists (p / 2)%Qp. iFrame "H1".
  iExists (Some (p / 2)%Qp). iFrame. iPureIntro. rewrite HL (oadd_comm (Some _)) -oadd_assoc. cbn [oadd]. by rewrite Qp.div_2.
Qed.

(** A writer gets everything. *)
Lemma share_all r L L0 : spent L0 = None -> Forall waiting L -> writer r = true ->
  remaining L0 -∗ P 1%Qp ∗ remaining (grant_to r 1 :: L).
Proof.
  iIntros (HL0 HL Hr) "(%o & %Ho & H)". rewrite HL0 in Ho. cbn in Ho. subst o. iFrame "H".
  iExists None. iSplit; iPureIntro.
  - cbn. rewrite -/(spent L) spent_waiting; done.
  - by exists (grant_to r 1), L.
Qed.

(** What a thread had comes back when it goes. *)
Lemma share_back L1 r L2 q : q_granted r = Some q -> remaining (L1 ++ r :: L2) -∗ P q -∗ remaining (L1 ++ L2).
Proof.
  iIntros (Hq) "(%o & %Ho & H) HP". rewrite spent_at Hq in Ho. iExists (oadd (Some q) o). iSplit.
  - iPureIntro. by rewrite oadd_assoc (oadd_comm (spent _)).
  - destruct o as [p|]; [|done]. cbn [oadd]. rewrite P_split. iFrame.
Qed.

Lemma remaining_ext L L' : spent L = spent L' -> (written L -> written L') -> remaining L -∗ remaining L'.
Proof. iIntros (Hs Hw) "(%o & %Ho & H)". iExists o. rewrite -Hs. iSplit; [done|]. destruct o; [done|]. iDestruct "H" as %H. iPureIntro. auto. Qed.

End shares.

(** ** The lock *)

Section rwlock.
Context `{!taskGS Σ, !tokenG Σ, !ghost_varG Σ nat, !ghost_varG Σ Qp, !ghost_mapG Σ Z (option rinfo), !Globals}.
Context (γa γt : gname) (P : Qp -> iProp Σ).

(** The right of thread [t] to use the lock, while it does not have it, and what
    it has otherwise. *)
Definition rw_ticket (t : Z) : iProp Σ := t ↪[γt] None.
Definition half (t : Z) (i : rinfo) : iProp Σ := t ↪[γt]{#1/2} Some i.
Definition part (i : rinfo) (q : Qp) : iProp Σ := ghost_var (i_share i) (1/2) q.
Definition rw_holds (t : Z) (w : bool) (q : Qp) : iProp Σ :=
  ⌜w = true -> q = 1%Qp⌝ ∗ ∃ i, ⌜i_write i = w⌝ ∗ half t i ∗ part i q.

(** What a waiting thread is woken with. *)
Definition permission (i : rinfo) : iProp Σ := ∃ q, ⌜i_write i = true -> q = 1%Qp⌝ ∗ part i q ∗ P q.

Definition rw_rec (r : rwrec) : iProp Σ :=
  let i := q_info r in
  ⌜0 < i_rec i⌝ ∗ block_of (i_rec i) sizeof_rw_record ∗
  rw_thread_id (i_rec i) ↦ q_tid r ∗ rw_lock_type (i_rec i) ↦ lock_type (i_write i) ∗
  own_cond (rw_lock_permission (i_rec i)) (permission i) (if has_lock r then 0 else 1)%nat ∗ half (q_tid r) i ∗
  match q_granted r with Some q => part i q | None => ∃ q : Qp, ghost_var (i_share i) 1 q end.

Definition listed (M : gmap Z (option rinfo)) (L : list rwrec) : Prop :=
  forall t i, M !! t = Some (Some i) -> exists g, RwRec t i g ∈ L.

Definition rw_list_at (rw : addr) (L : list rwrec) : iProp Σ :=
  ∃ head, rw_list rw ↦ head ∗ ring head (rw_entries L) ∗ [∗ list] r ∈ L, rw_rec r.
Definition rw_res (rw : addr) : iProp Σ :=
  ∃ L M, rw_list_at rw L ∗ ghost_map_auth γt 1 M ∗ ⌜listed M L /\ queue_ok L⌝ ∗ remaining P L.

Definition is_rwlock (γ : gname) (rw : addr) : iProp Σ :=
  ⌜0 < rw⌝ ∗ is_mutex γa alloc_mutex True ∗ is_mutex γ (rw_list_manipulation rw) (rw_res rw).

(** The words of a record that a search reads. *)
Lemma rec_type r : rw_rec r -∗ rw_lock_type (i_rec (q_info r)) ↦ lock_type (writer r) ∗
  (rw_lock_type (i_rec (q_info r)) ↦ lock_type (writer r) -∗ rw_rec r).
Proof. iIntros "(%Hi & $ & $ & $ & H)". iIntros "$". by iFrame. Qed.

Lemma rec_thread r : rw_rec r -∗ rw_thread_id (i_rec (q_info r)) ↦ q_tid r ∗
  (rw_thread_id (i_rec (q_info r)) ↦ q_tid r -∗ rw_rec r).
Proof. iIntros "(%Hi & $ & $ & H)". iIntros "$". by iFrame. Qed.

(** The search for the first record that [test] accepts. *)
Definition found (test : rwrec -> bool) (L : list rwrec) (n : addr) : Prop :=
  n = NULL /\ Forall (fun r => test r = false) L \/
  exists L1 r L2, L = L1 ++ r :: L2 /\ n = i_node (q_info r) /\ 0 < n /\ test r = true /\ Forall (fun r => test r = false) L1.

Lemma find_node_ok t f test head L (Φ : addr -> iProp Σ) :
  □ (∀ r Ψ, rw_rec r -∗ (rw_rec r -∗ Ψ (test r)) -∗ wpt t (f (i_rec (q_info r))) Ψ) -∗
  ring head (rw_entries L) -∗ ([∗ list] r ∈ L, rw_rec r) -∗
  (∀ n, ring head (rw_entries L) -∗ ([∗ list] r ∈ L, rw_rec r) -∗ ⌜found test L n⌝ -∗ Φ n) -∗
  wpt t (find_node f head) Φ.
Proof.
  iIntros "#Hf HL HR HΦ". unfold find_node. destruct L as [|r0 L0].
  { iDestruct "HL" as %->. case_decide; [done|]. iApply wpt_ret. iApply ("HΦ" with "[//] HR"). by iLeft. }
  iDestruct (ring_nonnull with "HL") as %Hpos. iDestruct (ring_positive with "HL") as %Hall.
  iAssert ⌜head = i_node (q_info r0)⌝%I as %Hhead; [by iDestruct "HL" as "[-> _]"|].
  remember (r0 :: L0) as L eqn:HL0. rewrite decide_True; [|unfold NULL; lia].
  iApply (wpt_loop t _ (fun c => ∃ L1 r L2, ⌜L = L1 ++ r :: L2 /\ c = i_node (q_info r) /\ Forall (fun r => test r = false) L1⌝ ∗
    ring head (rw_entries L) ∗ ([∗ list] r ∈ L, rw_rec r) ∗
    ∀ n, ring head (rw_entries L) -∗ ([∗ list] r ∈ L, rw_rec r) -∗ ⌜found test L n⌝ -∗ Φ n)%I head with "[] [HL HR HΦ]").
  2:{ iExists [], r0, L0. iFrame. done. }
  clear HL0 Hhead. iIntros "!>" (c) "(%L1 & %r & %L2 & (%HL & -> & %Hno) & HL & HR & HΦ)".
  assert (HE : rw_entries L = rw_entries L1 ++ (i_node (q_info r), i_rec (q_info r)) :: rw_entries L2) by (subst L; apply rw_entries_split).
  rewrite HE. iDestruct (ring_item with "HL") as "[Hd HL]". wload "Hd". iDestruct ("HL" with "Hd") as "HL".
  iDestruct (big_sepL_elem_of_acc _ L r with "HR") as "[Hr HR]"; [set_solver|].
  iApply wpt_bind. iApply ("Hf" with "Hr"). iIntros "Hr". iDestruct ("HR" with "Hr") as "HR". destruct (test r) eqn:Htest.
  - iApply wpt_ret. iApply ("HΦ" with "HL HR"). iRight. iPureIntro. exists L1, r, L2. split; [done|]. split; [done|]. split; [|done].
    rewrite HE Forall_app Forall_cons in Hall. apply Hall.
  - iDestruct (ring_end with "HL") as %Hend. iDestruct (ring_next with "HL") as "[Hn HL]". wload "Hn".
    iDestruct ("HL" with "Hn") as "HL". assert (Hno' : Forall (fun r => test r = false) (L1 ++ [r])) by (apply Forall_app; by split; [|constructor]).
    case_decide as Hnx; iApply wpt_ret; (destruct L2 as [|r2 L2]; [|try by destruct Hend; naive_solver]).
    + by destruct Hend; naive_solver.
    + iExists (L1 ++ [r]), r2, L2. rewrite -HE. iFrame. iPureIntro. by rewrite HL -app_assoc.
    + iApply ("HΦ" with "HL HR"). iLeft. by rewrite HL.
Qed.

Lemma find_type_ok t head L w Φ :
  ring head (rw_entries L) -∗ ([∗ list] r ∈ L, rw_rec r) -∗
  (∀ n, ring head (rw_entries L) -∗ ([∗ list] r ∈ L, rw_rec r) -∗ ⌜found (fun r => Bool.eqb (writer r) w) L n⌝ -∗ Φ n) -∗
  wpt t (find_by_rw_lock_type head (lock_type w)) Φ.
Proof.
  iApply find_node_ok. iIntros "!>" (r Ψ) "Hr HΨ". iDestruct (rec_type with "Hr") as "[Ht Hr]". wload "Ht". iApply wpt_ret.
  iSpecialize ("HΨ" with "[Hr Ht]"); [by iApply "Hr"|]. by destruct (writer r), w.
Qed.

Lemma find_thread_record_ok t head L tid Φ :
  ring head (rw_entries L) -∗ ([∗ list] r ∈ L, rw_rec r) -∗
  (∀ n, ring head (rw_entries L) -∗ ([∗ list] r ∈ L, rw_rec r) -∗ ⌜found (fun r => bool_decide (q_tid r = tid)) L n⌝ -∗ Φ n) -∗
  wpt t (find_by_thread_id head tid) Φ.
Proof.
  iApply find_node_ok. iIntros "!>" (r Ψ) "Hr HΨ". iDestruct (rec_thread with "Hr") as "[Ht Hr]". wload "Ht". iApply wpt_ret.
  iApply "HΨ". by iApply "Hr".
Qed.

(** ** Locking *)

Context (P_split : forall p q, P (p + q)%Qp ⊣⊢ P p ∗ P q).

(** The record of a thread that enters: as its words, and ready for the list. *)
Definition raw_record (t rec : Z) (w : bool) : iProp Σ :=
  ⌜0 < rec⌝ ∗ block_of rec sizeof_rw_record ∗ rw_thread_id rec ↦ t ∗ rw_lock_type rec ↦ lock_type w ∗
  mutex_lock_state (cond_lock (rw_lock_permission rec)) ↦ UNLOCKED ∗
  (∃ o, mutex_tid (cond_lock (rw_lock_permission rec)) ↦ o) ∗ cond_tid_head (rw_lock_permission rec) ↦ NULL.
Definition new_record (t : Z) (i : rinfo) : iProp Σ :=
  ⌜0 < i_rec i⌝ ∗ block_of (i_rec i) sizeof_rw_record ∗ rw_thread_id (i_rec i) ↦ t ∗ rw_lock_type (i_rec i) ↦ lock_type (i_write i) ∗
  own_cond (rw_lock_permission (i_rec i)) (permission i) 0 ∗ ∃ q : Qp, ghost_var (i_share i) 1 q.

Lemma record_make t rec w node : raw_record t rec w ==∗ ∃ i, ⌜i_node i = node /\ i_rec i = rec /\ i_write i = w⌝ ∗ new_record t i.
Proof.
  iIntros "(%Hr & Hb & Ht & Hw & Hl & [%o Ho] & Hh)". iMod (ghost_var_alloc 1%Qp) as (γ) "Hγ".
  iMod (own_cond_make (rw_lock_permission rec) (permission (RInfo node rec w γ)) with "Hl Ho Hh") as "Hc"; [unfold rw_lock_permission, NULL; lia|done|].
  iModIntro. iExists (RInfo node rec w γ). iSplit; [done|]. cbn. by iFrame.
Qed.

(** A thread enters the list. *)
Lemma enlist t i g M L1 L2 : listed M (L1 ++ L2) -> ghost_map_auth γt 1 M -∗ rw_ticket t ==∗
  half t i ∗ half t i ∗ ∃ M', ghost_map_auth γt 1 M' ∗ ⌜listed M' (L1 ++ RwRec t i g :: L2)⌝.
Proof.
  iIntros (HM) "HA Ht". iMod (ghost_map_update (Some i) with "HA Ht") as "[HA Ht]".
  iEval (rewrite -Qp.half_half) in "Ht". iDestruct (ghost_map_elem_fractional with "Ht") as "[$ $]".
  iModIntro. iExists _. iFrame. iPureIntro. intros t' i' Hl.
  apply lookup_insert_Some in Hl as [[<- [= <-]]|[_ [g' Hg]%HM]]; [exists g|exists g']; set_solver.
Qed.

Lemma written_insert L1 r L2 : L1 <> [] -> waiting r -> written (L1 ++ L2) -> written (L1 ++ r :: L2).
Proof.
  intros Hne Hr (w & L' & HL & Hw & Hh & HL'). destruct L1 as [|x L1]; [done|]. injection HL as -> <-.
  exists w, (L1 ++ r :: L2). split; [done|]. split; [done|]. split; [done|].
  apply Forall_app in HL' as [H1 H2]. apply Forall_app. by split; [|constructor].
Qed.

(** It waits there until somebody grants it the lock. *)
Lemma wait_in_line γ rw t i head L1 L2 M Φ : let r := RwRec t i None in
  L1 <> [] -> listed M (L1 ++ L2) -> queue_ok (L1 ++ r :: L2) -> is_rwlock γ rw -∗ held γ -∗ rw_list rw ↦ head -∗
  ring head (rw_entries (L1 ++ r :: L2)) -∗ ([∗ list] r ∈ L1 ++ L2, rw_rec r) -∗ ghost_map_auth γt 1 M -∗ remaining P (L1 ++ L2) -∗
  rw_ticket t -∗ new_record t i -∗ sleeping t false -∗
  (held γ -∗ rw_res rw -∗ (∃ q, rw_holds t (i_write i) q ∗ P q) -∗ sleeping t false -∗ Φ tt) -∗
  wpt t (await_permission rw (i_rec i)) Φ.
Proof.
  iIntros (r Hne HM Hq) "(%Hrw & #Ia & #Im) Hm Hh HL HR HA Hrem Htk (%Hi & Hb & Ht & Hw & Hc & Hs) Hsl HΦ".
  iMod (enlist t i None with "HA Htk") as "(Hx & Hx' & %M' & HA & %HM')"; [done|]. unfold await_permission.
  iApply (own_cond_wait_ok with "Ia Hc Im Hm [-Hsl Hx' HΦ] Hsl"); [unfold rw_lock_permission, NULL; lia| |].
  - iIntros "Hc". iExists (L1 ++ r :: L2), M'. iFrame "HA". iSplitL "Hh HL HR Hb Ht Hw Hc Hs Hx".
    + iExists head. iFrame "Hh HL". iDestruct (big_sepL_app with "HR") as "[HR1 HR2]". iApply big_sepL_app. iFrame "HR1 HR2". by iFrame.
    + iSplit; [done|]. iApply (remaining_ext with "Hrem"); [by rewrite spent_at|by apply written_insert].
  - iIntros "Hm HR (%q & %Hq1 & Hp & HP) Hsl". iApply ("HΦ" with "Hm HR [Hx' Hp HP] Hsl"). iExists q. iFrame. iSplit; [done|done].
Qed.

(** It has the lock at once. *)
Lemma take_at_once rw t i head L q M' : let r := RwRec t i (Some q) in
  listed M' (L ++ [r]) -> queue_ok (L ++ [r]) -> (i_write i = true -> q = 1%Qp) -> rw_list rw ↦ head -∗
  ring head (rw_entries (L ++ [r])) -∗ ([∗ list] r ∈ L, rw_rec r) -∗ ghost_map_auth γt 1 M' -∗ remaining P (L ++ [r]) -∗
  half t i -∗ half t i -∗ new_record t i -∗ P q ==∗ rw_res rw ∗ ∃ q, rw_holds t (i_write i) q ∗ P q.
Proof.
  iIntros (r HM Hq Hq1) "Hh HL HR HA Hrem Hx Hx' (%Hi & Hb & Ht & Hw & Hc & [%q0 Hs]) HP".
  iMod (ghost_var_update q with "Hs") as "[Hs Hs']". iModIntro. iSplitR "HP Hx' Hs'".
  - iExists (L ++ [r]), M'. iFrame "HA Hrem". iSplit; [|done]. iExists head. iFrame "Hh HL". iApply big_sepL_app. iFrame "HR". iFrame. by iSplit.
  - iExists q. iFrame "HP". iSplit; [done|]. iExists i. by iFrame.
Qed.

Lemma append_record_ok t rw rec head L Φ : is_mutex γa alloc_mutex True -∗ rw_list rw ↦ head -∗ ring head (rw_entries L) -∗
  (∀ p head', rw_list rw ↦ head' -∗ ring head' (rw_entries L ++ [(p, rec)]) ={⊤}=∗ Φ tt) -∗ wpt t (append_record rw rec) Φ.
Proof.
  iIntros "#Ia Hh HL HΦ". unfold append_record. wload "Hh". iApply wpt_bind. iApply (append_node_ok with "Ia HL").
  iIntros (p h) "HL". iApply wpt_store. iModIntro. iExists _. iFrame "Hh". iIntros "!> Hh". iApply ("HΦ" with "Hh HL").
Qed.

Lemma rw_entries_snoc L t i g p rec : i_node i = p -> i_rec i = rec -> rw_entries (L ++ [RwRec t i g]) = rw_entries L ++ [(p, rec)].
Proof. intros <- <-. unfold rw_entries. by rewrite fmap_app. Qed.

Lemma not_written L : Forall (fun r => writer r = false) L -> ~ written L.
Proof. intros HL (w & L' & -> & Hw & _). apply Forall_cons in HL as [Hn _]. congruence. Qed.

Lemma eqb_writer w L : Forall (fun r => Bool.eqb (writer r) w = false) L -> Forall (fun r => writer r = negb w) L.
Proof. intros Hb. eapply Forall_impl; [exact Hb|]. intros r. cbn. destruct (writer r), w; cbn; congruence. Qed.

Lemma enter_reader_ok γ rw t rec Φ : is_rwlock γ rw -∗ held γ -∗ rw_res rw -∗ rw_ticket t -∗ raw_record t rec false -∗ sleeping t false -∗
  (held γ -∗ rw_res rw -∗ (∃ q, rw_holds t false q ∗ P q) -∗ sleeping t false -∗ Φ tt) -∗ wpt t (enter_reader rw rec) Φ.
Proof.
  iIntros "#I Hm (%L & %M & (%head & Hh & HL & HR) & HA & [%HM %Hq] & Hrem) Htk Hrec Hsl HΦ".
  iPoseProof "I" as "(_ & Ia & _)". unfold enter_reader. wload "Hh". iApply wpt_bind.
  iApply (find_type_ok t head L true with "HL HR"). iIntros (n) "HL HR %Hn". destruct Hn as [[-> Hno]|(L1 & r & L2 & -> & -> & Hpos & Hw & _)].
  - cbn beta. case_decide; [|done]. apply eqb_writer in Hno. iApply (append_record_ok with "Ia Hh HL"). iIntros (p h) "Hh HL".
    iMod (record_make _ _ _ p with "Hrec") as (i (Hp & Hr & Hwr)) "Hrec".
    iDestruct (share_out P P_split L (fun q => L ++ [RwRec t i (Some q)]) with "Hrem") as (q) "[HP Hrem]"; [by apply not_written| |].
    { intros q. by rewrite spent_at app_nil_r. }
    rewrite -(rw_entries_snoc L t i (Some q) p rec); [|done..].
    iMod (enlist t i (Some q) M L [] with "HA Htk") as "(Hx & Hx' & %M' & HA & %HM')"; [by rewrite app_nil_r|].
    iMod (take_at_once with "Hh HL HR HA Hrem Hx Hx' Hrec HP") as "[HC Hq]"; [done| |by rewrite Hwr|].
    { apply queue_insert_reader; [done|done|]. by split. }
    iModIntro. rewrite Hwr. iApply ("HΦ" with "Hm HC Hq Hsl").
  - cbn beta. rewrite decide_False; [|unfold NULL; lia]. iApply wpt_bind. iApply (append_record_ok with "Ia Hh HL"). iIntros (p h) "Hh HL".
    iMod (record_make _ _ _ p with "Hrec") as (i (Hp & <- & Hwr)) "Hrec".
    set (L := L1 ++ r :: L2) in *. rewrite -(rw_entries_snoc L t i None p (i_rec i)); [|done..].
    iModIntro. iApply (wait_in_line γ rw t i h L [] M with "I Hm Hh HL [HR] HA [Hrem] Htk Hrec Hsl"); rewrite ?app_nil_r; [by destruct L1|done| |done|done|].
    + apply queue_insert_end; [done|by destruct L1|done|]. right. exists r. split; [set_solver|]. by destruct (writer r).
    + rewrite Hwr. iExact "HΦ".
Qed.

Lemma append_end_ok t head rec L Φ : L <> [] -> is_mutex γa alloc_mutex True -∗ ring head (rw_entries L) -∗
  (∀ p, ring head (rw_entries L ++ [(p, rec)]) -∗ Φ head) -∗ wpt t (append_node head rec) Φ.
Proof.
  iIntros (Hne) "#Ia HL HΦ". destruct L as [|r L]; [done|]. iAssert ⌜head = i_node (q_info r)⌝%I as %->; [by iDestruct "HL" as "[-> _]"|].
  iApply (append_node_ok with "Ia HL"). iIntros (p h) "HL". iAssert ⌜h = i_node (q_info r)⌝%I as %->; [by iDestruct "HL" as "[-> _]"|].
  iApply ("HΦ" with "HL").
Qed.

(** A writer waits: at the end, or in front of the first reader when writers come
    first. *)
Lemma queue_writer_ok t rw rec head L (k : prog unit) Φ : L <> [] -> queue_ok L -> is_mutex γa alloc_mutex True -∗ rw_list rw ↦ head -∗
  ring head (rw_entries L) -∗ ([∗ list] r ∈ L, rw_rec r) -∗
  (∀ p L1 L2, ⌜L = L1 ++ L2 /\ L1 <> [] /\ forall i, i_write i = true -> queue_ok (L1 ++ RwRec t i None :: L2)⌝ -∗
     rw_list rw ↦ head -∗ ring head (rw_entries L1 ++ (p, rec) :: rw_entries L2) -∗ ([∗ list] r ∈ L, rw_rec r) -∗ wpt t k Φ) -∗
  wpt t (list ← load (rw_list rw); first_w_node_ptr ← find_by_rw_lock_type list RWLOCK_WRITE;
    (if decide (first_w_node_ptr = NULL) then list ← load (rw_list rw); _ ← append_node list rec; Ret tt
     else
       list ← load (rw_list rw); first_r_node_ptr ← find_by_rw_lock_type list RWLOCK_READ;
       if decide (first_r_node_ptr = NULL) then list ← load (rw_list rw); _ ← append_node list rec; Ret tt
       else _ ← append_node first_r_node_ptr rec; Ret tt);; k) Φ.
Proof.
  iIntros (Hne Hq) "#Ia Hh HL HR HΦ".
  assert (Hend : forall i, i_write i = true -> queue_ok (L ++ [RwRec t i None])) by (intros i Hi; apply queue_insert_end; auto; done).
  wload "Hh". iApply wpt_bind. iApply (find_type_ok t head L true with "HL HR"). iIntros (n) "HL HR %Hn". cbn beta.
  iApply wpt_bind. case_decide as Hn0.
  { wload "Hh". iApply wpt_bind. iApply (append_end_ok with "Ia HL"); [done|]. iIntros (p) "HL". iApply wpt_ret.
    iApply ("HΦ" $! p L [] with "[] Hh HL HR"). rewrite app_nil_r. done. }
  wload "Hh". iApply wpt_bind. iApply (find_type_ok t head L false with "HL HR"). iIntros (n') "HL HR %Hn'". cbn beta.
  destruct Hn' as [[-> Hno]|(L1 & r & L2 & -> & -> & Hpos & Hr & Hno)].
  { case_decide; [|done]. wload "Hh". iApply wpt_bind. iApply (append_end_ok with "Ia HL"); [done|]. iIntros (p) "HL". iApply wpt_ret.
    iApply ("HΦ" $! p L [] with "[] Hh HL HR"). rewrite app_nil_r. done. }
  rewrite decide_False; [|unfold NULL; lia]. iApply wpt_bind.
  rewrite rw_entries_split. iApply (append_before_ok with "Ia HL"). iIntros (p) "HL". iApply wpt_ret. destruct L1 as [|x L1].
  - iApply ("HΦ" $! p (r :: L2) [] with "[] Hh HL HR"). rewrite app_nil_r. done.
  - iApply ("HΦ" $! p (x :: L1) (r :: L2) with "[] Hh HL HR"). iPureIntro. split; [done|]. split; [done|]. intros i Hi.
    apply queue_insert_writer; try done. by apply eqb_writer in Hno.
Qed.

Lemma enter_writer_ok γ rw t rec Φ : is_rwlock γ rw -∗ held γ -∗ rw_res rw -∗ rw_ticket t -∗ raw_record t rec true -∗ sleeping t false -∗
  (held γ -∗ rw_res rw -∗ (∃ q, rw_holds t true q ∗ P q) -∗ sleeping t false -∗ Φ tt) -∗ wpt t (enter_writer rw rec) Φ.
Proof.
  iIntros "#I Hm (%L & %M & (%head & Hh & HL & HR) & HA & [%HM %Hq] & Hrem) Htk Hrec Hsl HΦ".
  iPoseProof "I" as "(_ & Ia & _)". unfold enter_writer. wload "Hh". destruct (decide (L = [])) as [->|Hne].
  - iDestruct "HL" as %->. cbn beta. case_decide; [|done]. iApply (append_record_ok _ _ _ _ [] with "Ia Hh [//]"). iIntros (p h) "Hh HL".
    iMod (record_make _ _ _ p with "Hrec") as (i (Hp & Hr & Hwr)) "Hrec". rewrite -(rw_entries_snoc [] t i (Some 1%Qp) p rec); [|done..].
    iDestruct (share_all P (RwRec t i None) [] [] with "Hrem") as "[HP Hrem]"; [done|done|done|].
    iMod (enlist t i (Some 1%Qp) M [] [] with "HA Htk") as "(Hx & Hx' & %M' & HA & %HM')"; [done|].
    iMod (take_at_once rw t i h [] with "Hh HL HR HA Hrem Hx Hx' Hrec HP") as "[HC Hq]"; [done| |done|].
    { left. by exists (RwRec t i (Some 1%Qp)), []. }
    iModIntro. rewrite Hwr. iApply ("HΦ" with "Hm HC Hq Hsl").
  - iAssert ⌜0 < head⌝%I as %Hpos; [destruct L; [done|]; by iApply (ring_nonnull with "HL")|].
    rewrite decide_False; [|unfold NULL; lia].
    iApply (queue_writer_ok with "Ia Hh HL HR"); [done|done|]. iIntros (p L1 L2 (-> & Hne1 & Hqi)) "Hh HL HR".
    iApply fupd_wpt. iMod (record_make _ _ _ p with "Hrec") as (i (<- & <- & Hwr)) "Hrec". iModIntro.
    iApply (wait_in_line γ rw t i head L1 L2 M with "I Hm Hh [HL] HR HA Hrem Htk Hrec Hsl"); [done|done|by apply Hqi| |].
    + unfold rw_entries. by rewrite fmap_app.
    + rewrite Hwr. iExact "HΦ".
Qed.

Lemma words_record n : words n sizeof_rw_record =
  [rw_thread_id n; rw_lock_type n; mutex_lock_state (cond_lock (rw_lock_permission n));
   mutex_tid (cond_lock (rw_lock_permission n)); cond_tid_head (rw_lock_permission n)].
Proof.
  unfold words. change (seqZ 0 (sizeof_rw_record / 4)) with [0; 1; 2; 3; 4]. cbn [fmap list_fmap].
  unfold rw_thread_id, rw_lock_type, mutex_lock_state, mutex_tid, cond_lock, rw_lock_permission, cond_tid_head, sizeof_mutex_t.
  repeat (apply (f_equal2 cons); [lia|]). done.
Qed.

Lemma rwlock_lock_ok γ rw t w Φ : is_rwlock γ rw -∗ rw_ticket t -∗ sleeping t false -∗
  (∀ q, rw_holds t w q -∗ P q -∗ sleeping t false -∗ Φ tt) -∗ wpt t (rwlock_lock rw (lock_type w)) Φ.
Proof.
  iIntros "#I Htk Hsl HΦ". iPoseProof "I" as "(%Hrw & Ia & Im)". unfold rwlock_lock.
  rewrite decide_False; [|intros [->|Hn]; [unfold NULL in *; lia|by destruct w]].
  iApply wpt_bind. iApply (malloc_ok with "Ia"); [done|]. iIntros (rec Hrec) "Hb Hws". rewrite words_record.
  iDestruct "Hws" as "((%x1 & Ht) & (%x2 & Hw) & (%x3 & Hl) & (%x4 & Ho) & (%x5 & Hh) & _)". cbn beta.
  rewrite decide_False; [|unfold NULL; lia]. iApply wpt_bind. iApply wpt_gettid. iNext. wstore "Ht". wstore "Hw".
  iApply wpt_bind. iApply (cond_init_ok with "Hl Ho Hh"); [unfold rw_lock_permission, NULL; lia|]. iIntros "Hl Ho Hh".
  case_decide; [done|]. iApply wpt_bind. iApply (umutex_lock_ok with "Im"). iIntros "Hm HC". wload "Hw".
  iAssert (raw_record t rec w) with "[Hb Ht Hw Hl Ho Hh]" as "Hrec"; [by iFrame|].
  iAssert (∀ q, held γ -∗ rw_res rw -∗ rw_holds t w q -∗ P q -∗ sleeping t false -∗ wpt t (mutex_unlock (rw_list_manipulation rw)) Φ)%I
    with "[HΦ]" as "HΦ".
  { iIntros (q) "Hm HC Hq HP Hsl". iApply (umutex_unlock_ok with "Im Hm HC"). iApply ("HΦ" with "Hq HP Hsl"). }
  iApply wpt_bind. destruct w; cbn [lock_type]; repeat (case_decide; try done).
  - iApply (enter_writer_ok with "I Hm HC Htk Hrec Hsl"). iIntros "Hm HC (%q & Hq & HP) Hsl". iApply ("HΦ" with "Hm HC Hq HP Hsl").
  - iApply (enter_reader_ok with "I Hm HC Htk Hrec Hsl"). iIntros "Hm HC (%q & Hq & HP) Hsl". iApply ("HΦ" with "Hm HC Hq HP Hsl").
Qed.

(** ** Unlocking *)

(** The permission of a record that has it is signalled for nothing. *)
Lemma signal_again_ok t r Φ : has_lock r = true -> is_mutex γa alloc_mutex True -∗ rw_rec r -∗ (rw_rec r -∗ Φ tt) -∗
  wpt t (cond_signal (rw_lock_permission (i_rec (q_info r)))) Φ.
Proof.
  iIntros (Hr) "#Ia (%Hi & Hb & Ht & Hw & Hc & Hx) HΦ". iEval (rewrite Hr) in "Hc".
  iApply (own_cond_signal_ok with "Ia Hc [//]"); [unfold rw_lock_permission, NULL; lia|]. iIntros "Hc". iApply "HΦ".
  unfold rw_rec. rewrite Hr. by iFrame.
Qed.

Lemma signal_grant_ok t r q Φ : waiting r -> (writer r = true -> q = 1%Qp) -> is_mutex γa alloc_mutex True -∗ rw_rec r -∗ P q -∗
  (rw_rec (grant_to r q) -∗ Φ tt) -∗ wpt t (cond_signal (rw_lock_permission (i_rec (q_info r)))) Φ.
Proof.
  iIntros (Hr Hq) "#Ia (%Hi & Hb & Ht & Hw & Hc & Hx & Hs) HP HΦ". unfold waiting in Hr. iEval (rewrite Hr) in "Hc".
  unfold has_lock in Hr. destruct (q_granted r) eqn:Hg; [done|]. iDestruct "Hs" as (q0) "Hs".
  iApply fupd_wpt. iMod (ghost_var_update q with "Hs") as "[Hs Hs']". iModIntro.
  iApply (own_cond_signal_ok with "Ia Hc [Hs' HP]"); [unfold rw_lock_permission, NULL; lia|iExists q; by iFrame|].
  iIntros "Hc". iApply "HΦ". unfold rw_rec. cbn. by iFrame.
Qed.

(** The same threads with the same records. *)
Definition same_threads (L L' : list rwrec) : Prop :=
  (fun r => (q_tid r, q_info r)) <$> L = (fun r => (q_tid r, q_info r)) <$> L'.

Lemma same_listed M L L' : same_threads L L' -> listed M L -> listed M L'.
Proof.
  intros Hs HM t i [g Hg]%HM. assert ((t, i) ∈ (fun r => (q_tid r, q_info r)) <$> L') as Hin.
  { rewrite -Hs. apply list_elem_of_fmap. by exists (RwRec t i g). }
  apply list_elem_of_fmap in Hin as ([t' i' g'] & [= -> ->] & Hin). by exists g'.
Qed.

Lemma same_grant L1 r L2 q : same_threads (L1 ++ r :: L2) (L1 ++ grant_to r q :: L2).
Proof. unfold same_threads. by rewrite !fmap_app. Qed.

Lemma loose_reader r L : loose (r :: L) -> writer r = false -> loose L.
Proof.
  intros (Rs & Ws & HL & HR & HW & Hf) Hr. destruct Rs as [|x Rs].
  - cbn in HL. subst Ws. cbn in Hf. congruence.
  - injection HL as <- ->. apply Forall_cons in HR as [_ HR]. by exists Rs, Ws.
Qed.

Lemma loose_writer A w L : Forall reading A -> A <> [] -> writer w = true -> loose (w :: L) -> queue_ok (A ++ w :: L).
Proof.
  intros HA Hne Hw (Rs & Ws & HL & HR & HW & Hf). destruct Rs as [|x Rs].
  - cbn in HL. subst Ws. right. by exists A, (w :: L).
  - injection HL as <- ->. apply Forall_cons in HR as [Hn _]. congruence.
Qed.

Lemma reading_queue A : Forall reading A -> queue_ok A.
Proof. intros HA. right. exists A, []. by rewrite app_nil_r. Qed.

(** What an unlock goes through: the list, and the share nobody has. *)
Definition granting (rw : addr) (L : list rwrec) : iProp Σ := rw_list_at rw L ∗ remaining P L.

Lemma first_reader_not_written A r B : Forall reading A -> writer r = false -> ~ written (A ++ r :: B).
Proof.
  intros HA Hr (w & L' & HL & Hw & _). destruct A as [|x A]; injection HL as -> _; [congruence|].
  apply Forall_cons in HA as [[Hx _] _]. congruence.
Qed.

(** A reader in front of the first writer ends up with the lock, and with some
    share if it had none. *)
Lemma signal_reader_ok t A r B Φ : Forall reading A -> writer r = false -> is_mutex γa alloc_mutex True -∗ rw_rec r -∗
  remaining P (A ++ r :: B) -∗
  (∀ r', ⌜reading r' /\ q_tid r' = q_tid r /\ q_info r' = q_info r⌝ -∗ rw_rec r' -∗ remaining P (A ++ r' :: B) -∗ Φ tt) -∗
  wpt t (cond_signal (rw_lock_permission (i_rec (q_info r)))) Φ.
Proof.
  iIntros (HA Hr) "#Ia Hr Hrem HΦ". destruct (has_lock r) eqn:Hl.
  - iApply (signal_again_ok with "Ia Hr"); [done|]. iIntros "Hr". by iApply ("HΦ" with "[] Hr Hrem").
  - iDestruct (share_out P P_split _ (fun q => A ++ grant_to r q :: B) with "Hrem") as (q) "[HP Hrem]".
    + by apply first_reader_not_written.
    + intros q. rewrite !spent_at. unfold has_lock in Hl. by destruct (q_granted r).
    + iApply (signal_grant_ok _ _ q with "Ia Hr HP"); [done|congruence|]. iIntros "Hr". by iApply ("HΦ" with "[] Hr Hrem").
Qed.

Lemma same_change L L1 r r' L2 : same_threads L (L1 ++ r :: L2) -> q_tid r' = q_tid r -> q_info r' = q_info r ->
  same_threads L (L1 ++ r' :: L2).
Proof. unfold same_threads. intros -> Ht Hi. rewrite !fmap_app. cbn. by rewrite Ht Hi. Qed.

Lemma rw_entries_change L1 r r' L2 : q_info r' = q_info r -> rw_entries (L1 ++ r' :: L2) = rw_entries (L1 ++ r :: L2).
Proof. intros Hi. unfold rw_entries. rewrite !fmap_app. cbn. by rewrite Hi. Qed.

(** The loop of [case RWLOCK_WRITE]: every reader in front of the first writer
    gets the lock. *)
Lemma grant_readers_ok t rw head r0 L0 Φ : writer r0 = false -> loose (r0 :: L0) -> is_mutex γa alloc_mutex True -∗
  rw_list rw ↦ head -∗ ring head (rw_entries (r0 :: L0)) -∗ ([∗ list] r ∈ r0 :: L0, rw_rec r) -∗ remaining P (r0 :: L0) -∗
  (∀ L', ⌜queue_ok L' /\ same_threads (r0 :: L0) L'⌝ -∗ granting rw L' -∗ Φ tt) -∗
  wpt t (grant_readers rw head) Φ.
Proof.
  iIntros (Hr0 Hloose) "#Ia Hh HL HR Hrem HΦ". unfold grant_readers.
  iAssert ⌜head = i_node (q_info r0)⌝%I as %Hhead; [by iDestruct "HL" as "[-> _]"|].
  iApply (wpt_loop t _ (fun c => ∃ A r B, ⌜c = i_node (q_info r) /\ same_threads (r0 :: L0) (A ++ r :: B) /\ Forall reading A /\
      loose (r :: B) /\ (A = [] -> writer r = false)⌝ ∗
    rw_list rw ↦ head ∗ ring head (rw_entries (A ++ r :: B)) ∗ ([∗ list] r ∈ A ++ r :: B, rw_rec r) ∗ remaining P (A ++ r :: B) ∗
    ∀ L', ⌜queue_ok L' /\ same_threads (r0 :: L0) L'⌝ -∗ granting rw L' -∗ Φ tt)%I head with "[] [-]").
  2:{ iExists [], r0, L0. iFrame. done. }
  clear Hr0 Hloose Hhead. iIntros "!>" (c) "(%A & %r & %B & (-> & %Hsame & %HA & %Hloose & %Hfirst) & Hh & HL & HR & Hrem & HΦ)".
  assert (HE : forall r', q_info r' = q_info r -> rw_entries (A ++ r' :: B) = rw_entries A ++ (i_node (q_info r), i_rec (q_info r)) :: rw_entries B).
  { intros r' Hi. by rewrite rw_entries_split Hi. }
  rewrite (HE r); [|done]. iDestruct (ring_item with "HL") as "[Hd HL]". wload "Hd". iDestruct ("HL" with "Hd") as "HL".
  iDestruct (big_sepL_app with "HR") as "[HRA HR]". iDestruct "HR" as "[Hr HRB]".
  iDestruct (rec_type with "Hr") as "[Ht Hr]". wload "Ht". iDestruct ("Hr" with "Ht") as "Hr". destruct (writer r) eqn:Hwr; cbn [lock_type].
  { case_decide; [|done]. iApply wpt_ret. rewrite -(HE r); [|done]. iApply ("HΦ" $! (A ++ r :: B) with "[] [-]").
    - iPureIntro. split; [|done]. apply loose_writer; [done| |done|done]. intros ->. by specialize (Hfirst eq_refl).
    - iFrame "Hrem". iExists head. iFrame "Hh HL". iApply big_sepL_app. iFrame. }
  case_decide; [done|]. iApply wpt_bind. iApply (signal_reader_ok t A r B with "Ia Hr Hrem"); [done|done|].
  iIntros (r' (Hrd & Htid & Hinfo)) "Hr Hrem". iDestruct (ring_end with "HL") as %Hend.
  iDestruct (ring_next with "HL") as "[Hn HL]". wload "Hn". iDestruct ("HL" with "Hn") as "HL". wload "Hh".
  assert (HA' : Forall reading (A ++ [r'])) by (apply Forall_app; by split; [|constructor]).
  assert (Hs' : same_threads (r0 :: L0) (A ++ r' :: B)) by by eapply same_change.
  iAssert ([∗ list] x ∈ A ++ r' :: B, rw_rec x)%I with "[HRA Hr HRB]" as "HR"; [iApply big_sepL_app; iSplitL "HRA"; [done|]; iSplitL "Hr"; [iExact "Hr"|iExact "HRB"]|].
  rewrite -(HE r'); [|done].
  case_decide as Hnx; iApply wpt_ret; destruct B as [|r2 B]; [by destruct Hnx| | |by apply Hend in Hnx].
  - iExists (A ++ [r']), r2, B. rewrite -app_assoc. iFrame. iPureIntro. split; [done|]. split; [done|]. split; [done|].
    split; [by eapply loose_reader|]. by destruct A.
  - iApply ("HΦ" $! (A ++ [r']) with "[] [-]"); [iPureIntro; split; [by apply reading_queue|done]|].
    iFrame "Hrem". iExists head. iFrame.
Qed.


(** The first thread is a writer: it gets everything, or has it already. *)
Lemma signal_writer_ok t r L Φ : writer r = true -> loose (r :: L) \/ written (r :: L) -> is_mutex γa alloc_mutex True -∗
  rw_rec r -∗ remaining P (r :: L) -∗
  (∀ r', ⌜written (r' :: L) /\ q_tid r' = q_tid r /\ q_info r' = q_info r⌝ -∗ rw_rec r' -∗ remaining P (r' :: L) -∗ Φ tt) -∗
  wpt t (cond_signal (rw_lock_permission (i_rec (q_info r)))) Φ.
Proof.
  iIntros (Hr Hq) "#Ia Hr Hrem HΦ". destruct (has_lock r) eqn:Hl.
  - iApply (signal_again_ok with "Ia Hr"); [done|]. iIntros "Hr". iApply ("HΦ" with "[] Hr Hrem"). iPureIntro.
    split; [|done]. destruct Hq as [(Rs & Ws & HL & HR & HW & Hf)|Hq]; [|done]. destruct Rs as [|x Rs].
    + cbn in HL. subst Ws. apply Forall_cons in HW as [Hn _]. unfold waiting in Hn. congruence.
    + injection HL as <- _. apply Forall_cons in HR as [Hn _]. congruence.
  - assert (Forall waiting (r :: L)) as HW.
    { destruct Hq as [(Rs & Ws & HL & HR & HW & Hf)|(w & L' & [= <- <-] & _ & Hh & _)]; [|congruence]. destruct Rs as [|x Rs]; [by rewrite HL|].
      injection HL as <- _. apply Forall_cons in HR as [Hn _]. congruence. }
    apply Forall_cons in HW as HW'. iDestruct (share_all P r L with "Hrem") as "[HP Hrem]"; [by apply spent_waiting|apply HW'|done|].
    iApply (signal_grant_ok _ _ 1 with "Ia Hr HP"); [done|done|]. iIntros "Hr". iApply ("HΦ" with "[] Hr Hrem"). iPureIntro.
    split; [|done]. exists (grant_to r 1), L. split; [done|]. by split; [|split; [|apply HW']].
Qed.

(** The head of the list, and the type of its record. *)
Lemma first_record_ok {A} t rw r L head (k : Z -> Z -> prog A) Φ : rw_list rw ↦ head -∗ ring head (rw_entries (r :: L)) -∗
  ([∗ list] r ∈ r :: L, rw_rec r) -∗
  (⌜0 < head⌝ -∗ rw_list rw ↦ head -∗ ring head (rw_entries (r :: L)) -∗ rw_rec r -∗ ([∗ list] r ∈ L, rw_rec r) -∗
    wpt t (k (i_rec (q_info r)) (lock_type (writer r))) Φ) -∗
  wpt t (first_record_ptr ← load (node_data head); ty ← load (rw_lock_type first_record_ptr); k first_record_ptr ty) Φ.
Proof.
  iIntros "Hh HL [Hr HR] HΦ". iAssert ⌜head = i_node (q_info r)⌝%I as %Hhead; [by iDestruct "HL" as "[-> _]"|].
  subst head. iDestruct (ring_nonnull with "HL") as %Hpos. change (rw_entries (r :: L)) with ((i_node (q_info r), i_rec (q_info r)) :: rw_entries L).
  iDestruct (ring_item _ _ _ [] with "HL") as "[Hd HL]". wload "Hd". iDestruct ("HL" with "Hd") as "HL".
  iDestruct (rec_type with "Hr") as "[Ht Hr]". wload "Ht". iDestruct ("Hr" with "Ht") as "Hr". by iApply ("HΦ" with "[//] Hh HL Hr HR").
Qed.

Lemma granting_first rw head r r' L : q_info r' = q_info r -> rw_list rw ↦ head -∗ ring head (rw_entries (r :: L)) -∗ rw_rec r' -∗
  ([∗ list] r ∈ L, rw_rec r) -∗ remaining P (r' :: L) -∗ granting rw (r' :: L).
Proof.
  iIntros (Hi) "Hh HL Hr HR Hrem". iFrame "Hrem". iExists head. iFrame "Hh Hr HR".
  by rewrite (rw_entries_change [] r r' L Hi).
Qed.

Lemma grant_writer_ok t rw L Φ : loose L -> is_mutex γa alloc_mutex True -∗ granting rw L -∗
  (∀ L', ⌜(loose L' \/ written L') /\ same_threads L L'⌝ -∗ granting rw L' -∗ Φ tt) -∗ wpt t (grant_writer rw) Φ.
Proof.
  iIntros (Hloose) "#Ia [(%head & Hh & HL & HR) Hrem] HΦ". unfold grant_writer. wload "Hh". destruct L as [|r L].
  { iDestruct "HL" as %->. case_decide; [done|]. iApply wpt_ret. iApply ("HΦ" $! []); [by iPureIntro; split; [left|]|]. by iFrame. }
  iDestruct (ring_nonnull with "HL") as %Hpos. rewrite decide_True; [|unfold NULL; lia].
  iApply (first_record_ok with "Hh HL HR"). iIntros "_ Hh HL Hr HR". destruct (writer r) eqn:Hwr; cbn [lock_type].
  - case_decide; [|done]. iApply (signal_writer_ok t r L with "Ia Hr Hrem"); [done|by left|]. iIntros (r' (Hw & Ht & Hi)) "Hr Hrem".
    iApply ("HΦ" $! (r' :: L)); [|by iApply (granting_first with "Hh HL Hr HR Hrem")]. iPureIntro. split; [by right|].
    by apply (same_change _ [] r).
  - case_decide; [done|]. iApply wpt_ret. iApply ("HΦ" $! (r :: L)); [by iPureIntro; split; [left|]|]. by iApply (granting_first with "Hh HL Hr HR Hrem").
Qed.

Lemma grant_next_ok t rw L Φ : loose L \/ written L -> is_mutex γa alloc_mutex True -∗ granting rw L -∗
  (∀ L', ⌜queue_ok L' /\ same_threads L L'⌝ -∗ granting rw L' -∗ Φ tt) -∗ wpt t (grant_next rw) Φ.
Proof.
  iIntros (Hq) "#Ia [(%head & Hh & HL & HR) Hrem] HΦ". unfold grant_next. wload "Hh". destruct L as [|r L].
  { iDestruct "HL" as %->. case_decide; [done|]. iApply wpt_ret. iApply ("HΦ" $! []); [iPureIntro; split; [by apply reading_queue|done]|].
    by iFrame. }
  iDestruct (ring_nonnull with "HL") as %Hpos. rewrite decide_True; [|unfold NULL; lia].
  iApply (first_record_ok with "Hh HL HR"). iIntros "_ Hh HL Hr HR". destruct (writer r) eqn:Hwr; cbn [lock_type].
  - case_decide; [|done]. iApply (signal_writer_ok t r L with "Ia Hr Hrem"); [done|done|]. iIntros (r' (Hw & Ht & Hi)) "Hr Hrem".
    iApply ("HΦ" $! (r' :: L)); [|by iApply (granting_first with "Hh HL Hr HR Hrem")]. iPureIntro. split; [by left|].
    by apply (same_change _ [] r).
  - case_decide; [done|]. wload "Hh". iApply (grant_readers_ok t rw head r L with "Ia Hh HL [Hr HR] Hrem HΦ"); [done| |by iFrame].
    destruct Hq as [Hq|(w & L' & [= <- <-] & Hw & _)]; [done|congruence].
Qed.

Lemma grant_ok t rw w L Φ : loose L -> is_mutex γa alloc_mutex True -∗ granting rw L -∗
  (∀ L', ⌜queue_ok L' /\ same_threads L L'⌝ -∗ granting rw L' -∗ Φ tt) -∗ wpt t (grant rw (lock_type w)) Φ.
Proof.
  iIntros (Hq) "#Ia HG HΦ". unfold grant. destruct w; cbn [lock_type].
  - case_decide; [done|]. case_decide; [|done]. iApply (grant_next_ok with "Ia HG HΦ"). by left.
  - case_decide; [|done]. iApply wpt_bind. iApply (grant_writer_ok with "Ia HG"); [done|]. iIntros (L1 [Hq1 Hs1]) "HG".
    iApply (grant_next_ok with "Ia HG"); [done|]. iIntros (L2 [Hq2 Hs2]) "HG". iApply ("HΦ" with "[] HG"). iPureIntro. split; [done|].
    by unfold same_threads in *; rewrite Hs1.
Qed.

(** The record of a thread that has the lock. *)
Lemma holder_record t w q M L : listed M L -> ghost_map_auth γt 1 M -∗ rw_holds t w q -∗ ([∗ list] r ∈ L, rw_rec r) -∗
  ⌜exists r, r ∈ L /\ q_tid r = t⌝.
Proof.
  iIntros (HM) "HA (_ & %i & _ & Hx & _) _". iDestruct (ghost_map_lookup with "HA Hx") as %Hi. iPureIntro.
  apply HM in Hi as [g Hg]. by exists (RwRec t i g).
Qed.

Lemma holder_granted t w q r : q_tid r = t -> rw_holds t w q -∗ rw_rec r -∗
  ⌜writer r = w /\ q_granted r = Some q⌝ ∗ rw_rec r ∗ rw_holds t w q.
Proof.
  iIntros (Ht) "(%Hq & %i & %Hw & Hx & Hp) (%Hi & Hb & Ht & Hlt & Hc & Hx' & Hs)". rewrite Ht.
  iDestruct (ghost_map_elem_agree with "Hx Hx'") as %[= ->]. destruct (q_granted r) as [q'|] eqn:Hg.
  - iDestruct (ghost_var_agree with "Hp Hs") as %<-. iSplit; [done|].
    iSplitL "Hb Ht Hlt Hc Hx' Hs"; [|iSplit; [done|]; iExists (q_info r); by iFrame]. unfold rw_rec. rewrite Ht Hg. by iFrame.
  - iDestruct "Hs" as (q') "Hs". iDestruct (ghost_var_valid_2 with "Hp Hs") as %[Hn _]. by destruct (Qp.not_add_le_r (1/2) 1).
Qed.

(** The thread goes, with its share. *)
Lemma delist t w q r M L1 L2 : q_tid r = t -> listed M (L1 ++ r :: L2) -> ghost_map_auth γt 1 M -∗ rw_holds t w q -∗ half t (q_info r) ==∗
  rw_ticket t ∗ ∃ M', ghost_map_auth γt 1 M' ∗ ⌜listed M' (L1 ++ L2)⌝.
Proof.
  iIntros (Ht HM) "HA (_ & %i & _ & Hx & _) Hx'". iDestruct (ghost_map_elem_agree with "Hx Hx'") as %[= ->].
  iCombine "Hx Hx'" as "Hx". iMod (ghost_map_update None with "HA Hx") as "[HA $]". iModIntro. iExists _. iFrame. iPureIntro.
  intros t' i' Hl. apply lookup_insert_Some in Hl as [[_ Hn]|[Hne Hl]]; [done|]. apply HM in Hl as [g Hg]. exists g.
  apply elem_of_app. apply elem_of_app in Hg as [Hg|[Hg|Hg]%elem_of_cons]; [by left|by subst r|by right].
Qed.

Lemma rwlock_unlock_ok γ rw t w q Φ : is_rwlock γ rw -∗ rw_holds t w q -∗ P q -∗ (rw_ticket t -∗ Φ tt) -∗ wpt t (rwlock_unlock rw) Φ.
Proof.
  iIntros "#I Hq HP HΦ". iPoseProof "I" as "(%Hrw & Ia & Im)". unfold rwlock_unlock. rewrite decide_False; [|unfold NULL; lia].
  iApply wpt_bind. iApply wpt_gettid. iNext. iApply wpt_bind. iApply (umutex_lock_ok with "Im").
  iIntros "Hm (%L & %M & (%head & Hh & HL & HR) & HA & [%HM %Hqu] & Hrem)". wload "Hh".
  iDestruct (holder_record with "HA Hq HR") as %(r0 & Hr0 & Ht0); [done|].
  iApply wpt_bind. iApply (find_thread_record_ok t head L t with "HL HR"). iIntros (n) "HL HR %Hn". cbn beta.
  destruct Hn as [[_ Hno]|(L1 & r & L2 & -> & -> & Hpos & Htid & _)].
  { rewrite Forall_forall in Hno. specialize (Hno r0 Hr0). cbn in Hno. by apply bool_decide_eq_false in Hno. }
  apply bool_decide_eq_true in Htid. case_decide as Hnull; [unfold NULL in Hnull; lia|]. clear Hnull.
  rewrite rw_entries_split. iDestruct (ring_item with "HL") as "[Hd HL]". wload "Hd". iDestruct ("HL" with "Hd") as "HL".
  iDestruct (big_sepL_app with "HR") as "[HR1 HR]". iDestruct "HR" as "[Hr HR2]".
  iDestruct (holder_granted with "Hq Hr") as "([%Hw %Hg] & Hr & Hq)"; [done|].
  iDestruct (share_back with "Hrem HP") as "Hrem"; [done..|].
  iDestruct "Hr" as "(%Hi & Hb & Ht & Hlt & Hc & Hx & _)". wload "Hlt".
  assert (has_lock r = true) as Hl by (unfold has_lock; by rewrite Hg). iEval (rewrite Hl) in "Hc".
  iApply wpt_bind. iApply (own_cond_destroy_ok with "Hc"); [unfold rw_lock_permission, NULL; lia|]. iIntros "(_ & Hcl & %o & Hco) Hch".
  iApply wpt_bind. iApply (free_ok with "Ia Hb [Ht Hlt Hcl Hco Hch]"); [done| |].
  { rewrite words_record. iSplitL "Ht"; [by iExists _|]. iSplitL "Hlt"; [by iExists _|]. iSplitL "Hcl"; [by iExists _|].
    iSplitL "Hco"; [by iExists _|]. iSplitL; [by iExists _|done]. }
  wload "Hh". iApply wpt_bind. iApply (remove_member_ok with "Ia HL"). iIntros (h) "HL". cbn beta. wstore "Hh".
  iEval (rewrite Htid) in "Hx". iApply fupd_wpt. iMod (delist with "HA Hq Hx") as "(Htk & %M' & HA & %HM')"; [done|done|]. iModIntro.
  apply queue_leave in Hqu as [Hloose _]; [|done]. rewrite -/(writer r). iApply wpt_bind.
  iApply (grant_ok t rw _ (L1 ++ L2) with "Ia [Hh HL HR1 HR2 Hrem]"); [done| |].
  { iFrame "Hrem". iExists h. iFrame "Hh". iSplitL "HL"; [|iApply big_sepL_app; iFrame]. unfold rw_entries. by rewrite fmap_app. }
  iIntros (L' [Hq' Hs']) "[HL Hrem]". iApply (umutex_unlock_ok with "Im Hm [HL HA Hrem]").
  - iExists L', M'. iFrame. iPureIntro. split; [by eapply same_listed|exact Hq'].
  - by iApply "HΦ".
Qed.

(** ** Making a lock *)

Lemma rwlock_make rw M tid : 0 < rw -> listed M [] -> is_mutex γa alloc_mutex True -∗ P 1%Qp -∗ ghost_map_auth γt 1 M -∗ rw_list rw ↦ NULL -∗
  mutex_lock_state (rw_list_manipulation rw) ↦ UNLOCKED -∗ mutex_tid (rw_list_manipulation rw) ↦ tid ={⊤}=∗ ∃ γ, is_rwlock γ rw.
Proof.
  iIntros (Hrw HM) "#Ia HP HA Hl Hst Htid".
  iMod (mutex_make (rw_list_manipulation rw) (rw_res rw) with "[HP HA Hl] Hst Htid") as (γ) "#Im"; [unfold rw_list_manipulation, NULL; lia|done| |].
  - iExists [], M. iFrame "HA". iSplitL "Hl"; [iExists NULL; iFrame "Hl"; by iSplit|]. iSplit; [|by iApply remaining_start].
    iPureIntro. split; [done|by apply reading_queue].
  - iModIntro. iExists γ. by iSplit; [|iSplit].
Qed.

Lemma rwlock_init_ok t rw M l st tid Φ : 0 < rw -> listed M [] -> is_mutex γa alloc_mutex True -∗ P 1%Qp -∗ ghost_map_auth γt 1 M -∗
  rw_list rw ↦ l -∗ mutex_lock_state (rw_list_manipulation rw) ↦ st -∗ mutex_tid (rw_list_manipulation rw) ↦ tid -∗
  (∀ γ, is_rwlock γ rw -∗ Φ 0) -∗ wpt t (rwlock_init rw) Φ.
Proof.
  iIntros (Hrw HM) "#Ia HP HA Hl Hst Htid HΦ". unfold rwlock_init. rewrite decide_False; [|unfold NULL; lia]. wstore "Hl".
  iApply wpt_bind. iApply (umutex_init_ok with "Hst Htid"); [unfold rw_list_manipulation, NULL; lia|]. iIntros "Hst Htid".
  case_decide; [done|]. iApply fupd_wpt. iMod (rwlock_make with "Ia HP HA Hl Hst Htid") as (γ) "I"; [done|done|].
  iModIntro. iApply wpt_ret. by iApply "HΦ".
Qed.

End rwlock.
