(* ===== verification/RwCritical.v ===== *)
(** What a readers/writers lock means for a program that uses it, stated on the
    interleaving semantics alone: writers have the region to themselves, and
    readers, of which there may be many at a time, find it as the writers left it. *)
From S2P Require Import Prelude Task TaskLogic UMutex UList UCond URwlock URwSpec Alone Critical.
From iris.proofmode Require Import proofmode.
From iris.program_logic Require Import weakestpre adequacy.
From iris.base_logic.lib Require Import ghost_map ghost_var invariants token.
#[local] Open Scope Z_scope.

Section rwlock.
Context `{!Globals}.

(** What the threads may do with the region: read it with a reader's lock, change
    it with a writer's. *)
Inductive rw_section (rw : addr) (D : gset Z) (I : gmap Z Z -> Prop) : forall A : Type, prog A -> Prop :=
  | read_section {A} (c : prog A) : reads_alone D I c -> rw_section rw D I A (rwlock_lock rw RWLOCK_READ;; x ← c; rwlock_unlock rw;; Ret x)
  | write_section {A} (c : prog A) : respects D I c -> rw_section rw D I A (rwlock_lock rw RWLOCK_WRITE;; x ← c; rwlock_unlock rw;; Ret x).

(** The words of a lock nobody has, as [rwlock_init] leaves them. *)
Definition rw_words (rw tid : Z) : list (Z * Z) :=
  [(rw_list rw, NULL); (mutex_lock_state (rw_list_manipulation rw), UNLOCKED); (mutex_tid (rw_list_manipulation rw), tid)].

(** The list is empty, or the record at its head is a reader's. *)
Definition no_writer (rw : addr) (s : task) : Prop :=
  tmem s !! rw_list rw = Some NULL \/
  exists node rec, tmem s !! rw_list rw = Some node /\ tmem s !! node_data node = Some rec /\ tmem s !! rw_lock_type rec = Some RWLOCK_READ.
Definition rw_quiet (rw : addr) (s : task) : Prop :=
  tmem s !! mutex_lock_state (rw_list_manipulation rw) = Some UNLOCKED /\ no_writer rw s.

Section proofs.
Context `{!taskGS Σ, !tokenG Σ, !ghost_varG Σ nat, !ghost_varG Σ Qp, !ghost_mapG Σ Z (option rinfo)}.
Context (γa γt γ : gname) (rw : addr) (D : gset Z) (I : gmap Z Z -> Prop).

Definition rw_ready (t : Z) : iProp Σ := sleeping t false ∗ rw_ticket γt t.

Lemma rw_section_ok t {A} (m : prog A) Φ : rw_section rw D I A m -> is_rwlock γa γt (shared D I) γ rw -∗ rw_ready t -∗
  (∀ a, rw_ready t -∗ Φ a) -∗ wpt t m Φ.
Proof.
  pose proof (shared_split D I) as Hsplit. intros Hm. revert Φ. destruct Hm as [A c Hc|A c Hc]; iIntros (Φ) "#I [Hsl Htk] HΦ"; iApply wpt_bind.
  - iApply (rwlock_lock_ok γa γt _ Hsplit γ rw t false with "I Htk Hsl"). iIntros (q) "Hq HP Hsl". iApply wpt_bind.
    iApply (wpt_wand with "[HP]"); [by iApply (reads_alone_ok t c D I q with "HP")|]. iIntros (a) "HP". iApply wpt_bind.
    iApply (rwlock_unlock_ok γa γt _ Hsplit with "I Hq HP"). iIntros "Htk". iApply wpt_ret. iApply "HΦ". iFrame.
  - iApply (rwlock_lock_ok γa γt _ Hsplit γ rw t true with "I Htk Hsl"). iIntros (q) "Hq HP Hsl".
    iAssert ⌜q = 1%Qp⌝%I as %->; [iDestruct "Hq" as "[%Hq _]"; by rewrite Hq|]. rewrite shared_all. iApply wpt_bind.
    iApply (wpt_wand with "[HP]"); [by iApply (runs_alone_ok t c D I (fun _ => I) with "HP")|]. iIntros (a) "HP". iApply wpt_bind.
    rewrite -shared_all. iApply (rwlock_unlock_ok γa γt _ Hsplit with "I Hq HP"). iIntros "Htk". iApply wpt_ret. iApply "HΦ". iFrame.
Qed.

(** Without a writer the lock has a share of the region left. *)
Lemma rw_res_quiet s : rw_res γt (shared D I) rw -∗ task_interp s -∗ ⌜no_writer rw s -> I (region D (tmem s))⌝.
Proof.
  iIntros "(%L & %M & (%head & Hh & HL & HR) & _ & _ & (%o & %Ho & Hrem)) Hs". destruct o as [p|].
  { iDestruct (shared_read with "Hrem Hs") as %Hi. by iPureIntro. }
  iDestruct "Hrem" as %(w & L' & -> & Hw & _). iDestruct (ring_nonnull with "HL") as %Hpos.
  iAssert ⌜head = i_node (q_info w)⌝%I as %Hhead; [by iDestruct "HL" as "[-> _]"|].
  change (rw_entries (w :: L')) with ((i_node (q_info w), i_rec (q_info w)) :: rw_entries L').
  iDestruct (ring_item _ _ _ [] with "HL") as "[Hd _]". iDestruct "HR" as "[Hr _]". iDestruct (rec_type with "Hr") as "[Ht _]".
  iDestruct "Hs" as "[Hm _]". iDestruct (ghost_map_lookup with "Hm Hh") as %H1. iDestruct (ghost_map_lookup with "Hm Hd") as %H2.
  iDestruct (ghost_map_lookup with "Hm Ht") as %H3. iPureIntro. rewrite Hw in H3. intros [Hn|(n & r & Hn & Hr & Hty)].
  - rewrite H1 in Hn. injection Hn as Hn. unfold NULL in Hn. lia.
  - rewrite H1 in Hn. injection Hn as <-. rewrite Hhead H2 in Hr. injection Hr as <-. by rewrite H3 in Hty.
Qed.

End proofs.

(** The resources of the logic. *)
Definition rwΣ : gFunctors := #[libΣ; ghost_varΣ Qp; ghost_mapΣ Z (option rinfo)].

(** C6. The readers/writers locks of the thread library exclude.  Threads read a
    region only between [rwlock_lock(rw, RWLOCK_READ)] and [rwlock_unlock(rw)],
    with code that, run alone on a region that satisfies [I], only reads it; and
    change it only under [RWLOCK_WRITE], with code that, run alone, keeps [I] (and
    may break it in between).  In every state of every schedule no thread
    crashes, so that readers never meet a region that does not satisfy [I]; and
    when the lock's own mutex is free and the list is empty or led by a reader,
    the region satisfies [I].  The queue of records, the condition variables in
    them, the hand-over to a writer or to a row of readers and the heap they live
    on are all part of the run. *)
Theorem rwlock_excludes (rw tid tida : Z) (D : gset Z) (I : gmap Z Z -> Prop) ths s ths' s'
    (Hrw : 0 < rw) (Halloc : alloc_mutex <> NULL)
    (Hnd : NoDup (rw_words rw tid ++ alloc_words tida).*1)
    (Hmem : forall x, x ∈ rw_words rw tid ++ alloc_words tida -> tmem s !! x.1 = Some x.2 /\ x.1 ∉ D)
    (Hcl : clients (rw_section rw D I) D I ths s)
    (Hrun : rtc (Task.step false) (ths, s) (ths', s')) :
  Forall (fun th => ~ crashed false th s') ths' /\ (rw_quiet rw s' -> I (region D (tmem s'))).
Proof.
  destruct Hcl as [Hths Hnt Hids Hsl HD HI]. set (T := list_to_set (thread_id <$> ths) : gset Z).
  apply and_comm. apply (task_adequacy rwΣ ths s ths' s' (fun s => rw_quiet rw s -> I (region D (tmem s)))); [done..| |done].
  iIntros (HG) "Hmem Hths _". iDestruct (region_take D with "Hmem") as "[HR Hrest]".
  iDestruct (take_words _ _ Hnd with "Hrest") as "Hw".
  { intros x Hx. apply map_lookup_filter_Some. exact (Hmem x Hx). }
  iDestruct "Hw" as "[(Hl & Hst & Htid & _) (Ha & Hat & _)]". cbn [fst snd].
  iMod (ghost_map_alloc (gset_to_gmap (None : option rinfo) T)) as (γt) "[HA Htk]".
  iMod (mutex_make alloc_mutex True with "[//] Ha Hat") as (γa) "#Ha"; [done|done|].
  iMod (rwlock_make γa γt (shared D I) rw _ tid with "Ha [HR] HA Hl Hst Htid") as (γ) "#Hrwl"; [done| | |].
  { intros t i Hl. apply lookup_gset_to_gmap_Some in Hl as [_ Hn]. done. }
  { rewrite shared_all. iExists _. iFrame "HR". iPureIntro. split; [by apply region_dom|done]. }
  iModIntro. iSplitL "Hths Htk".
  - rewrite big_sepM_gset_to_gmap /T big_sepS_list_to_set; [|done]. rewrite big_sepL_fmap. iCombine "Hths Htk" as "H". rewrite -big_sepL_sep.
    iApply (big_sepL_impl with "H"). iIntros "!>" (i th Hi) "H". apply list_elem_of_lookup_2 in Hi. rewrite Forall_forall in Hths.
    iApply (disciplined_ok (rw_section rw D I) _ (rw_ready γt) with "Hrwl H"); [|by apply Hths|by iIntros (a) "_"].
    intros B c Ψ Hc. by apply rw_section_ok.
  - iIntros (s2) "Hs2". iDestruct "Hrwl" as "(_ & _ & [_ Hinv])". iInv "Hinv" as (st otid) "(>Hst & _ & Hcase)" "_".
    iAssert ⌜tmem s2 !! mutex_lock_state (rw_list_manipulation rw) = Some st⌝%I as %Hst.
    { iDestruct "Hs2" as "[Hm _]". iApply (ghost_map_lookup with "Hm Hst"). }
    iDestruct "Hcase" as "[>->|(_ & _ & HR)]".
    + iApply fupd_mask_intro; [set_solver|]. iIntros "_". iPureIntro. intros [Hx _]. rewrite Hst in Hx. by vm_compute in Hx.
    + iAssert (▷ ⌜no_writer rw s2 -> I (region D (tmem s2))⌝)%I with "[HR Hs2]" as ">%Hq"; [iNext; iApply (rw_res_quiet with "HR Hs2")|].
      iApply fupd_mask_intro; [set_solver|]. iIntros "_". iPureIntro. intros [_ Hx]. by apply Hq.
Qed.

End rwlock.

(** ** Concrete clients *)

#[local] Instance demo_globals : Globals := {| alloc_mutex := 2000 |}.

(** A reader that would crash if it ever saw the word odd. *)
Definition demo_look : prog Z := x ← load demo_word; if decide (Z.even x = true) then Ret x else load 0.
Definition demo_reader : prog unit :=
  loop (fun _ : unit => (rwlock_lock 1000 RWLOCK_READ;; x ← demo_look; rwlock_unlock 1000;; Ret x);; Ret (inl tt)) tt.
Definition demo_writer : prog unit :=
  loop (fun _ : unit => (rwlock_lock 1000 RWLOCK_WRITE;; x ← demo_section; rwlock_unlock 1000;; Ret x);; Ret (inl tt)) tt.

Lemma demo_look_reads : reads_alone demo_region demo_even demo_look.
Proof.
  intros μ n c' Hd HI Hn. assert (is_Some (μ !! demo_word)) as [v Hv] by (apply elem_of_dom; rewrite Hd; set_solver).
  unfold demo_even in HI. rewrite Hv in HI. cbn in HI. apply Z.even_spec in HI.
  destruct n as [|n]; [injection Hn as <-; left; cbn; rewrite Hv; by eexists|].
  cbn in Hn. rewrite Hv in Hn. cbn in Hn. rewrite decide_True in Hn; [|done].
  destruct n as [|n]; [injection Hn as <-; right; by eexists|done].
Qed.

Definition demo_rw_threads : list thread := [Thread 1 demo_writer; Thread 2 demo_reader; Thread 3 demo_reader].
Definition demo_rw_words : list (Z * Z) := rw_words 1000 (-1) ++ alloc_words (-1).
Definition demo_rw_task : task := Task (list_to_map ((demo_word, 0) :: demo_rw_words)) ∅ ∅ {[1; 2; 3]} None.

Lemma demo_rw_clients : clients (rw_section 1000 demo_region demo_even) demo_region demo_even demo_rw_threads demo_rw_task.
Proof.
  assert (Hr : disciplined (rw_section 1000 demo_region demo_even) demo_reader).
  { apply disciplined_loop. intros _. apply disciplined_bind; [|intros; apply disciplined_ret]. apply disciplined_section, read_section, demo_look_reads. }
  assert (Hw : disciplined (rw_section 1000 demo_region demo_even) demo_writer).
  { apply disciplined_loop. intros _. apply disciplined_bind; [|intros; apply disciplined_ret]. apply disciplined_section, write_section, demo_respects. }
  split.
  - repeat (apply Forall_cons; split; [assumption|]). constructor.
  - apply (bool_decide_unpack _). by vm_compute.
  - intros th [->|[->|[->|[]%elem_of_nil]%elem_of_cons]%elem_of_cons]%elem_of_cons; cbn; set_solver.
  - done.
  - apply (bool_decide_unpack _). by vm_compute.
  - unfold demo_even, region. assert (filter (fun x => x.1 ∈ demo_region) (tmem demo_rw_task) !! demo_word = Some 0) as ->.
    { apply map_lookup_filter_Some. split; [by vm_compute|set_solver]. }
    by exists 0.
Qed.

(** The writer is stopped in the middle of its section, both readers queue up
    behind it and sleep; it hands the lock to both of them and queues up again,
    and one of them reads. *)
Definition demo_rw_start : config := (demo_rw_threads, demo_rw_task).
Definition demo_rw_schedule : list (nat * Task.choice) :=
  plan false 0 (turns [(0, 36); (1, 100); (2, 100); (0, 108); (1, 10)]%nat) demo_rw_start.
(** The lock's mutex, the type of the record at the head of its list, and the word. *)
Definition demo_rw_shows (cf : config) : option Z * option Z * option Z * option Z :=
  let m := tmem cf.2 in
  (m !! mutex_lock_state (rw_list_manipulation 1000), m !! rw_list 1000,
   n ← m !! rw_list 1000; r ← m !! node_data n; m !! rw_lock_type r, m !! demo_word).

Lemma rwlock_excludes_witness :
  exists ths' s', rtc (Task.step false) demo_rw_start (ths', s') /\ tmem s' !! demo_word = Some 2 /\ rw_quiet 1000 s' /\
    Forall (fun th => ~ crashed false th s') ths' /\ demo_even (region demo_region (tmem s')).
Proof.
  destruct (run_reaches false demo_rw_start demo_rw_schedule demo_rw_shows (Some UNLOCKED, Some 74000, Some RWLOCK_READ, Some 2))
    as ([ths' s'] & H1 & H2); [vm_compute; reflexivity|]. unfold demo_rw_shows in H2. cbn [snd] in H2. injection H2 as H2 H3 H4 H5.
  assert (Hq : rw_quiet 1000 s').
  { split; [exact H2|]. right. rewrite H3 in H4. cbn in H4. destruct (tmem s' !! node_data 74000) as [r|] eqn:Hr; [|done].
    by exists 74000, r. }
  destruct (rwlock_excludes 1000 (-1) (-1) demo_region demo_even demo_rw_threads demo_rw_task ths' s') as [H6 H7].
  - done.
  - done.
  - apply (bool_decide_unpack _). vm_compute. reflexivity.
  - intros x Hx. change (x ∈ demo_rw_words) in Hx. repeat (apply elem_of_cons in Hx as [->|Hx];
      [split; [vm_compute; reflexivity|apply not_elem_of_singleton; by vm_compute]|]). by apply not_elem_of_nil in Hx.
  - apply demo_rw_clients.
  - exact H1.
  - exists ths', s'. repeat split; try assumption; try apply Hq. apply H7, Hq.
Defined.
