(* ===== verification/UThread.v ===== *)
(** Threads, [src/user/libthread/thread.c].

    The library keeps a record of every thread of the task in a linked list that
    one mutex protects: [thr_create] enters the record and starts the thread,
    [thr_exit] leaves the status in it, [thr_join] waits for the status and takes
    the record out. *)
From S2P Require Import Prelude Task UMutex UList UCond.
#[local] Open Scope Z_scope.

(** [struct thread_info], word by word; a [bool] is the word it is padded to. *)
Definition info_tid (i : addr) : addr := i.
Definition info_stack_space (i : addr) : addr := i + 4.
Definition thread_crash_exception_stack_space (i : addr) : addr := i + 8.
Definition THREAD_CRASH_EXCEPTION_STACK_SIZE : Z := 512.
Definition info_func (i : addr) : addr := i + 520.
Definition info_arg (i : addr) : addr := i + 524.
Definition is_joined_on (i : addr) : addr := i + 528.
Definition status_ready (i : addr) : addr := i + 532.
Definition has_exited (i : addr) : addr := i + 544.
Definition info_status (i : addr) : addr := i + 548.
Definition sizeof_thread_info : Z := 552.

(** Addresses are taken as they are, not modulo 2^32. *)
Definition ROUND_STACK (stack : Z) : Z := stack / 4 * 4.

(** The globals of [thread.c], the address of the crash handler, the functions
    of the program (what the code at an address does when it is called with an
    argument) and the words of stack that the functions a thread calls need, their
    own calls included. *)
Class ThreadGlobals : Type := {
  thread_info_chain_mutex : addr;
  stack_size : addr;
  thread_info_chain : addr;
  crash_handler : addr;
  frame_words : nat;
  code_at : addr -> Z -> prog Z;
}.

Section thread.
Context `{Globals, ThreadGlobals}.

(** The stack of a thread: to call a function is to store frames in the words
    below the stack pointer, all that the function and what it calls will need, when
    the call is made.  What the frames hold is left out, and so are the returns;
    that the memory must be there and nobody else's is not. *)
Fixpoint push_frames (n : nat) (esp : addr) : prog unit :=
  match n with O => Ret tt | Datatypes.S n => store (esp - 4) 0;; push_frames n (esp - 4) end.
Definition call {A} (esp : addr) (function : prog A) : prog A := push_frames frame_words esp;; function.

(** The size of the stacks: a positive [int], and enough for the calls of a thread. *)
Definition stack_enough (size : Z) : Prop := 0 < size < 2 ^ 31 /\ 4 * Z.of_nat frame_words <= size.

(** [thread_fork_stub.S]: the new thread calls the wrapper on its own stack. *)
Definition thread_fork (stack : addr) (wrapper : addr -> prog unit) : prog Z := fork (call stack (wrapper stack)).

(** [panic.c], after it has printed its message. *)
Definition panic : prog unit := task_vanish (-1).
Definition assert (b : bool) : prog unit := if b then Ret tt else panic.

(** [swexn(ROUND_STACK(space + sizeof(space)), handle_thread_crash, NULL, NULL)]. *)
Definition register_crash_handler (stack : addr) : prog Z := swexn stack crash_handler NULL.
Definition exception_stack_of (i : addr) : addr :=
  ROUND_STACK (thread_crash_exception_stack_space i + THREAD_CRASH_EXCEPTION_STACK_SIZE).

(** [thread_info_chain = append_node(thread_info_chain, info)]. *)
Definition append_info (info : addr) : prog unit :=
  chain ← load thread_info_chain;
  chain ← append_node chain info;
  store thread_info_chain chain.

(** [thread_info_chain = remove_node(thread_info_chain, node)]. *)
Definition remove_info (node : addr) : prog unit :=
  chain ← load thread_info_chain;
  chain ← remove_node chain node;
  store thread_info_chain chain.

Definition thr_init (size : Z) : prog Z :=
  _ ← mutex_init alloc_mutex;
  _ ← mutex_init thread_info_chain_mutex;
  store stack_size (s32 size);;
  root_thread_info_ptr ← malloc sizeof_thread_info;
  if decide (root_thread_info_ptr = NULL) then Ret (-1)
  else
    r ← cond_init (status_ready root_thread_info_ptr);
    if decide (r <> 0) then free root_thread_info_ptr;; Ret (-1)
    else
      tid ← gettid;
      store (info_tid root_thread_info_ptr) tid;;
      store (is_joined_on root_thread_info_ptr) 0;;
      store (has_exited root_thread_info_ptr) 0;;
      store (info_stack_space root_thread_info_ptr) NULL;;
      chain ← append_node NULL root_thread_info_ptr;
      store thread_info_chain chain;;
      r ← register_crash_handler (exception_stack_of root_thread_info_ptr);
      if decide (r < 0) then free root_thread_info_ptr;; Ret (-1)
      else Ret 0.

(** The nodes of the chain from the oldest thread on:
    [do { ... node_ptr = node_ptr->next; } while (node_ptr != thread_info_chain);]
    The body says whether to [break], with what, or goes on with a new state. *)
Definition each_info {S R : Set} (body : addr -> addr -> S -> prog (S + R)) (chain : addr) (x : S) : prog (S + R) :=
  loop (fun '(node_ptr, x) =>
    info ← load (node_data node_ptr);
    r ← body node_ptr info x;
    match r with
    | inr r => Ret (inr (inr r))
    | inl x =>
        next ← load (node_next node_ptr);
        chain ← load thread_info_chain;
        if decide (next <> chain) then Ret (inl (next, x)) else Ret (inr (inl x))
    end) (chain, x).

(** The search of a thread's record. *)
Definition if_tid (tid node info : Z) (_ : unit) : prog (unit + (addr * addr)) :=
  t ← load (info_tid info);
  if decide (t = tid) then Ret (inr (node, info)) else Ret (inl tt).

(** [wrap_func], the function every thread starts with; [thr_exit] follows. *)
Definition find_start (tid : Z) : prog (addr * addr * Z) :=
  chain ← load thread_info_chain;
  found ← each_info (if_tid tid) chain tt;
  match found with
  | inr (_, info) =>
      func ← load (info_func info);
      arg ← load (info_arg info);
      Ret (exception_stack_of info, func, arg)
  | inl tt => Ret (NULL, NULL, NULL)
  end.

Definition destruct_each_thread : prog unit :=
  while (load thread_info_chain)
    (chain ← load thread_info_chain;
     last ← load (node_previous chain);
     info ← load (node_data last);
     cond_destroy (status_ready info);;
     stack ← load (info_stack_space info);
     free stack;;
     last ← load (node_previous last);
     remove_info last).

(** The round of [thr_exit]: the caller's own node, and the threads that have not
    exited. *)
Definition survey_node (tid node info : Z) (x : addr * Z) : prog ((addr * Z) + Empty_set) :=
  let '(current, alive) := x in
  t ← load (info_tid info);
  exited ← load (has_exited info);
  Ret (inl (if decide (t = tid) then node else current,
            if decide (exited = 0) then s32 (alive + 1) else alive)).

Definition survey (tid : Z) : prog (addr * Z) :=
  chain ← load thread_info_chain;
  if decide (chain <> NULL) then
    r ← each_info (survey_node tid) chain (NULL, 0);
    match r with inl x => Ret x | inr e => match (e : Empty_set) with end end
  else Ret (NULL, 0).

Definition thr_exit (status : Z) : prog unit :=
  tid ← gettid;
  mutex_lock thread_info_chain_mutex;;
  '(current, alive) ← survey tid;
  if decide (alive <= 1) then
    destruct_each_thread;;
    mutex_unlock thread_info_chain_mutex;;
    mutex_destroy thread_info_chain_mutex;;
    mutex_destroy alloc_mutex;;
    task_vanish status
  else
    info ← load (node_data current);
    store (has_exited info) 1;;
    store (info_status info) status;;
    joined ← load (is_joined_on info);
    (if decide (joined <> 0) then cond_signal (status_ready info) else Ret tt);;
    mutex_unlock thread_info_chain_mutex;;
    vanish.

Definition handle_thread_crash : prog unit :=
  mutex_lock thread_info_chain_mutex;;
  destruct_each_thread;;
  mutex_unlock thread_info_chain_mutex;;
  mutex_destroy thread_info_chain_mutex;;
  mutex_destroy alloc_mutex;;
  task_vanish (-1).

Definition wrap_func (esp : addr) : prog unit :=
  tid ← call esp gettid;
  call esp (mutex_lock thread_info_chain_mutex);;
  '(stack, func, arg) ← find_start tid;
  call esp (mutex_unlock thread_info_chain_mutex);;
  handler_installation ← call esp (register_crash_handler stack);
  assert (bool_decide (handler_installation >= 0));;
  status ← call esp (code_at func arg);
  call esp (thr_exit status).

Definition thr_create (func args : Z) : prog Z :=
  if decide (func = NULL) then Ret (-1)
  else
    new_thread_info_ptr ← malloc sizeof_thread_info;
    if decide (new_thread_info_ptr = NULL) then Ret (-1)
    else
      r ← cond_init (status_ready new_thread_info_ptr);
      if decide (r <> 0) then free new_thread_info_ptr;; Ret (-1)
      else
        size ← load stack_size;
        stack ← malloc (u32 size);
        store (info_stack_space new_thread_info_ptr) stack;;
        stack ← load (info_stack_space new_thread_info_ptr);
        if decide (stack = NULL) then free new_thread_info_ptr;; Ret (-1)
        else
          mutex_lock thread_info_chain_mutex;;
          append_info new_thread_info_ptr;;
          store (info_func new_thread_info_ptr) func;;
          store (info_arg new_thread_info_ptr) args;;
          stack ← load (info_stack_space new_thread_info_ptr);
          size ← load stack_size;
          tid ← thread_fork (ROUND_STACK (stack + size)) wrap_func;
          store (info_tid new_thread_info_ptr) tid;;
          store (is_joined_on new_thread_info_ptr) 0;;
          store (has_exited new_thread_info_ptr) 0;;
          tid ← load (info_tid new_thread_info_ptr);
          mutex_unlock thread_info_chain_mutex;;
          Ret tid.

(** The record of an exited thread is taken down: the end of both ways through
    [thr_join]. *)
Definition collect (node info statusp : Z) : prog Z :=
  (if decide (statusp <> NULL) then status ← load (info_status info); store statusp status else Ret tt);;
  cond_destroy (status_ready info);;
  stack ← load (info_stack_space info);
  free stack;;
  remove_info node;;
  mutex_unlock thread_info_chain_mutex;;
  Ret 0.

Definition find_info (tid : Z) : prog (option (addr * addr)) :=
  chain ← load thread_info_chain;
  if decide (chain <> NULL) then
    chain ← load thread_info_chain;
    found ← each_info (if_tid tid) chain tt;
    Ret (match found with inr x => Some x | inl _ => None end)
  else Ret None.

Definition thr_join (tid statusp : Z) : prog Z :=
  mutex_lock thread_info_chain_mutex;;
  found ← find_info tid;
  match found with
  | None => mutex_unlock thread_info_chain_mutex;; Ret (-1)
  | Some (node, info) =>
      exited ← load (has_exited info);
      if decide (exited <> 0) then collect node info statusp
      else
        joined ← load (is_joined_on info);
        if decide (joined <> 0) then mutex_unlock thread_info_chain_mutex;; Ret (-1)
        else
          store (is_joined_on info) 1;;
          while (exited ← load (has_exited info); Ret (if decide (exited = 0) then 1 else 0))
            (cond_wait (status_ready info) thread_info_chain_mutex);;
          collect node info statusp
  end.

End thread.
