(* ===== verification/UJoin.v ===== *)
(** What the thread library promises of threads: the record of a thread is the
    meeting point of its creator, the thread itself, and the one that joins it.

    A function of the program promises, from [pre f a], a status [v] with
    [post f a v].  Whoever creates a thread gives away [pre f a] and gets the
    right to join it; the join returns [post f a v] for the status delivered. *)
From S2P Require Import Prelude Task TaskLogic UMutex UList UCond UThread.
From iris.proofmode Require Import proofmode.
From iris.base_logic.lib Require Import ghost_map ghost_var invariants token.
#[local] Open Scope Z_scope.

(** ** Lists of records *)

(** What does not change in the record of a thread: its function and argument,
    the names of two tokens, its node, where the record is, and its stack. *)
Record tdata : Set := Tdata {
  d_func : addr; d_arg : Z; d_gate : gname; d_run : gname; d_node : addr; d_info : addr; d_stack : addr;
}.

(** A thread record in the chain: the root's, one whose [thread_fork] failed, or
    one of a thread that can be joined. *)
Inductive kind : Set := Root | Lost | Child (x : tdata) (joined exited : bool).
Record trec : Set := Trec { r_node : addr; r_info : addr; r_tid : Z; r_kind : kind }.
Definition entries (L : list trec) : list (addr * Z) := (fun r => (r_node r, r_info r)) <$> L.
Definition flag (b : bool) : Z := if b then 1 else 0.

Section walk.
Context `{!taskGS Σ, !ThreadGlobals}.

(** A walk over the chain: [I] for what has been passed, [Ψ] at a [break]. *)
Lemma each_info_ok t head L {S R : Set} (body : addr -> addr -> S -> prog (S + R)) x (I : list trec -> S -> iProp Σ) (Ψ : R -> iProp Σ) :
  L <> [] ->
  □ (∀ L1 r L2 x, ⌜L = L1 ++ r :: L2⌝ -∗ I L1 x -∗ wpt t (body (r_node r) (r_info r) x)
       (fun o => match o with inl x => I (L1 ++ [r]) x | inr y => Ψ y end)) -∗
  ring head (entries L) -∗ thread_info_chain ↦ head -∗ I [] x -∗
  wpt t (each_info body head x) (fun o => ring head (entries L) ∗ thread_info_chain ↦ head ∗
    match o with inl x => I L x | inr y => Ψ y end).
Proof.
  iIntros (Hne) "#Hbody HL Hh HI". destruct L as [|r0 L0]; [done|]. clear Hne. remember (r0 :: L0) as L eqn:HL.
  iAssert ⌜head = r_node r0⌝%I as %Hhead; [subst L; cbn; by iDestruct "HL" as "[-> _]"|].
  iApply (wpt_loop t _ (fun '(c, x) => ∃ L1 r L2, ⌜L = L1 ++ r :: L2 /\ c = r_node r⌝ ∗ ring head (entries L) ∗
    thread_info_chain ↦ head ∗ I L1 x)%I (head, x) with "[] [HL Hh HI]").
  2:{ iExists [], r0, L0. by iFrame. }
  clear HL Hhead x. iIntros "!>" ([c x]) "(%L1 & %r & %L2 & [%HL ->] & HL & Hh & HI)".
  assert (entries L = entries L1 ++ (r_node r, r_info r) :: entries L2) as HE by (rewrite HL; unfold entries; by rewrite fmap_app).
  rewrite HE. iDestruct (ring_item with "HL") as "[Hd HL]". wload "Hd". iDestruct ("HL" with "Hd") as "HL".
  iApply wpt_bind. iApply (wpt_wand with "[HI]"); [by iApply ("Hbody" with "[//] HI")|]. iIntros ([x'|y]) "HI".
  - iDestruct (ring_end with "HL") as %Hend. iDestruct (ring_next with "HL") as "[Hn HL]". wload "Hn".
    iDestruct ("HL" with "Hn") as "HL". wload "Hh". case_decide as Hnx; iApply wpt_ret.
    + destruct L2 as [|r2 L2]; [done|]. iExists (L1 ++ [r]), r2, L2. rewrite -HE. iFrame. iPureIntro.
      split; [|done]. by rewrite HL -app_assoc.
    + apply Hend in Hnx. destruct L2; [|done]. iFrame. by rewrite HL.
  - iApply wpt_ret. iFrame.
Qed.

End walk.

(** ** The chain *)

Section chain.
Context `{!taskGS Σ, !tokenG Σ, !ghost_varG Σ nat, !ghost_mapG Σ Z tdata, !Globals, !ThreadGlobals}.
Context (post : Z -> Z -> Z -> iProp Σ).

(** The names of the library's ghost state: the allocator's mutex and the
    chain's, the threads that can be joined, the number of records besides the
    root's. *)
Record names : Set := Names { n_alloc : gname; n_chain : gname; n_threads : gname; n_count : gname }.
Context (N : names).

(** What is known of a thread: its creator holds three quarters, the thread one. *)
Definition share (q : Qp) (t : Z) (x : tdata) : iProp Σ := t ↪[n_threads N]{#q} x.
Definition about (x : tdata) (f a : Z) : Prop := d_func x = f /\ d_arg x = a.
Definition joinable (t f a : Z) : iProp Σ := ∃ x, ⌜about x f a⌝ ∗ share (3/4) t x.
Definition runs_as (t : Z) (x : tdata) : iProp Σ := share (1/4) t x ∗ token (d_run x).

Definition flags (i t : Z) (j e : bool) : iProp Σ :=
  info_tid i ↦ t ∗ is_joined_on i ↦ flag j ∗ has_exited i ↦ flag e.

(** The stack of a thread, a block of the allocator: the thread's own until it
    exits, then with its record for the one who joins it. *)
Definition stack_block (p n : Z) : iProp Σ :=
  ⌜0 < p /\ p `mod` 4 = 0⌝ ∗ block_of p n ∗ [∗ list] a ∈ words p n, ∃ v, a ↦ v.
Definition stack_of (x : tdata) : iProp Σ := ∃ n, stack_block (d_stack x) n.

(** What the joining thread sleeps for: its own share, back from the record, and
    the proof that the thread has exited. *)
Definition gate (t : Z) (x : tdata) : iProp Σ := token (d_gate x) ∗ share (1/2) t x.

(** The record of a thread, with [n] threads asleep in [status_ready]. *)
Definition child_body (t : Z) (x : tdata) (j e : bool) (n : nat) : iProp Σ :=
  let i := d_info x in
  ⌜0 <= t /\ 0 < i⌝ ∗ born t ∗ flags i t j e ∗ info_func i ↦ d_func x ∗ info_arg i ↦ d_arg x ∗
  info_stack_space i ↦ d_stack x ∗
  own_cond (status_ready i) (gate t x) n ∗
  (∃ v, info_status i ↦ v ∗ (if e then post (d_func x) (d_arg x) v ∗ runs_as t x ∗ stack_of x else token (d_gate x))%I).
Definition child_res (t : Z) (x : tdata) (j e : bool) : iProp Σ :=
  (if j && negb e then child_body t x j e 1 ∗ share (1/2) t x else child_body t x j e 0)%I.

Definition rec_res (r : trec) : iProp Σ :=
  match r_kind r with
  | Root => ⌜0 <= r_tid r /\ 0 < r_info r⌝ ∗ born (r_tid r) ∗ flags (r_info r) (r_tid r) false false ∗
      info_stack_space (r_info r) ↦ NULL ∗ own_cond (status_ready (r_info r)) True 0
  | Lost => ⌜r_tid r < 0⌝ ∗ flags (r_info r) (r_tid r) false false
  | Child x j e => ⌜r_node r = d_node x /\ r_info r = d_info x⌝ ∗ child_res (r_tid r) x j e
  end.

(** Every thread that can be joined has its record. *)
Definition trec_of (t : Z) (x : tdata) (j e : bool) : trec := Trec (d_node x) (d_info x) t (Child x j e).
Definition recorded (M : gmap Z tdata) (L : list trec) : Prop :=
  forall t x, M !! t = Some x -> exists j e, trec_of t x j e ∈ L.
Definition chain_ok (M : gmap Z tdata) (L : list trec) : Prop :=
  recorded M L /\ (L <> [] -> exists r, r ∈ L /\ r_kind r = Root) /\ Z.of_nat (length L) < 2 ^ 31.

(** What the mutex of the chain protects; the list is empty at the very end. *)
Definition chain_at (head : addr) (L : list trec) (M : gmap Z tdata) : iProp Σ :=
  thread_info_chain ↦ head ∗ ring head (entries L) ∗ ghost_map_auth (n_threads N) 1 M ∗
  ⌜chain_ok M L⌝ ∗ ghost_var (n_count N) (1/2) (length L) ∗ [∗ list] r ∈ L, rec_res r.
Definition chain_res : iProp Σ := ∃ head L M, chain_at head L M.

(** The same with the record of [t] in sight. *)
Definition chain_with (t : Z) (x : tdata) (j e : bool) : iProp Σ := ∃ head L1 L2 M, chain_at head (L1 ++ trec_of t x j e :: L2) M.

Lemma chain_with_res t x j e : chain_with t x j e -∗ chain_res.
Proof. iIntros "(%head & %L1 & %L2 & %M & H)". by iExists _, _, _. Qed.

(** The library is initialised; the right to create and join threads, with the
    number of records besides the root's. *)
Definition is_threads : iProp Σ :=
  is_mutex (n_alloc N) alloc_mutex True ∗ is_mutex (n_chain N) thread_info_chain_mutex chain_res ∗
  ∃ n : Z, ⌜stack_enough n⌝ ∗ stack_size ↪[mem_name]□ n.
Definition manages (n : nat) : iProp Σ := ghost_var (n_count N) (1/2) (S n).

#[global] Instance is_threads_persistent : Persistent is_threads.
Proof. apply _. Qed.

(** No two threads have the same identifier. *)
Lemma child_born t x j e : child_res t x j e -∗ ⌜0 <= t /\ 0 < d_info x⌝ ∗ born t ∗ (born t -∗ child_res t x j e).
Proof.
  unfold child_res, child_body. iIntros "H". destruct (j && negb e); [iDestruct "H" as "[(% & $ & H) Hs]"|iDestruct "H" as "(% & $ & H)"];
    (iSplitR; [done|]); iIntros "$"; by iFrame.
Qed.

Lemma rec_child t x j e : rec_res (trec_of t x j e) ⊣⊢ child_res t x j e.
Proof. unfold rec_res. cbn. iSplit; [by iIntros "[_ $]"|by iIntros "$"]. Qed.

Lemma rec_born r : 0 <= r_tid r -> rec_res r -∗ born (r_tid r).
Proof.
  iIntros (Ht) "H". unfold rec_res. destruct (r_kind r).
  - by iDestruct "H" as "(_ & $ & _)".
  - iDestruct "H" as "(%Hneg & _)". lia.
  - iDestruct "H" as "(_ & H)". by iDestruct (child_born with "H") as "(_ & $ & _)".
Qed.

Lemma recs_unique L r r' : r ∈ L -> r' ∈ L -> r_tid r = r_tid r' -> 0 <= r_tid r ->
  ([∗ list] r ∈ L, rec_res r) -∗ ⌜r = r'⌝.
Proof.
  iIntros (Hr Hr' Heq Ht) "H". apply list_elem_of_lookup in Hr as [i Hi]. apply list_elem_of_lookup in Hr' as [j Hj].
  destruct (decide (i = j)) as [->|Hij]; [iPureIntro; congruence|].
  iDestruct (big_sepL_delete _ _ i with "H") as "[Hr H]"; [done|].
  iDestruct (big_sepL_delete _ _ j with "H") as "[Hr' _]"; [done|]. rewrite decide_False; [|done].
  iDestruct (rec_born with "Hr") as "Hb"; [done|]. iDestruct (rec_born with "Hr'") as "Hb'"; [lia|].
  rewrite Heq. by iDestruct (ghost_map_elem_ne with "Hb Hb'") as %?.
Qed.

(** The search for a record. *)
Definition exited (r : trec) : bool := match r_kind r with Child _ _ e => e | _ => false end.

Lemma rec_read r : rec_res r -∗ info_tid (r_info r) ↦ r_tid r ∗ has_exited (r_info r) ↦ flag (exited r) ∗
  (info_tid (r_info r) ↦ r_tid r -∗ has_exited (r_info r) ↦ flag (exited r) -∗ rec_res r).
Proof.
  iIntros "H". destruct r as [n i t k]. unfold rec_res, exited. cbn [r_kind r_info r_tid r_node]. destruct k as [| |x j e].
  - iDestruct "H" as "($ & $ & ($ & $ & $) & Hs)". iIntros "$ $". by iFrame.
  - iDestruct "H" as "($ & ($ & $ & $))". by iIntros "$ $".
  - iDestruct "H" as "([-> ->] & H)". unfold child_res. destruct (j && negb e).
    + iDestruct "H" as "[($ & $ & ($ & $ & $) & Hs) Hq]". iIntros "$ $". by iFrame.
    + iDestruct "H" as "($ & $ & ($ & $ & $) & Hs)". iIntros "$ $". by iFrame.
Qed.

Lemma find_by_tid_ok t head L tid : L <> [] ->
  ring head (entries L) -∗ thread_info_chain ↦ head -∗ ([∗ list] r ∈ L, rec_res r) -∗
  wpt t (each_info (if_tid tid) head tt) (fun o => ring head (entries L) ∗ thread_info_chain ↦ head ∗
    ([∗ list] r ∈ L, rec_res r) ∗
    ⌜match o with inl _ => forall r, r ∈ L -> r_tid r <> tid
     | inr (node, info) => exists r, r ∈ L /\ r_tid r = tid /\ node = r_node r /\ info = r_info r end⌝).
Proof.
  iIntros (Hne) "HL Hh HR". iApply (wpt_wand with "[-]").
  - iApply (each_info_ok t head L (if_tid tid) tt
      (fun L1 _ => ([∗ list] r ∈ L, rec_res r) ∗ ⌜forall r, r ∈ L1 -> r_tid r <> tid⌝)%I
      (fun '(node, info) => ([∗ list] r ∈ L, rec_res r) ∗ ⌜exists r, r ∈ L /\ r_tid r = tid /\ node = r_node r /\ info = r_info r⌝)%I
      with "[] HL Hh [$HR]"); [done| |by iPureIntro; set_solver].
    iIntros "!>" (L1 r L2 [] HL) "[HR %Hno]". unfold if_tid.
    iDestruct (big_sepL_elem_of_acc _ L r with "HR") as "[Hr HR]"; [set_solver|].
    iDestruct (rec_read with "Hr") as "(Ht & He & Hr)". wload "Ht". iDestruct ("HR" with "[Hr Ht He]") as "HR"; [by iApply ("Hr" with "Ht He")|].
    case_decide; iApply wpt_ret; iFrame; iPureIntro; [|set_solver]. exists r. split; [set_solver|done].
  - iIntros (o) "($ & $ & H)". by destruct o as [[]|[node info]]; iDestruct "H" as "[$ %Ho]".
Qed.

(** With a share of a thread, its record is in the chain, and the search finds it. *)
Lemma share_recorded M L q t x : recorded M L -> ghost_map_auth (n_threads N) 1 M -∗ share q t x -∗
  ⌜M !! t = Some x /\ exists L1 L2 j e, L = L1 ++ trec_of t x j e :: L2⌝.
Proof.
  iIntros (HM) "HA Hx". iDestruct (ghost_map_lookup with "HA Hx") as %Hl. iPureIntro. split; [done|].
  destruct (HM _ _ Hl) as (j & e & Hr). apply list_elem_of_split in Hr as (L1 & L2 & HL). by exists L1, L2, j, e.
Qed.

Lemma find_thread_ok t head L1 L2 tid x j e : let L := L1 ++ trec_of tid x j e :: L2 in
  ring head (entries L) -∗ thread_info_chain ↦ head -∗ ([∗ list] r ∈ L, rec_res r) -∗
  wpt t (each_info (if_tid tid) head tt) (fun o => ⌜o = inr (d_node x, d_info x)⌝ ∗
    ring head (entries L) ∗ thread_info_chain ↦ head ∗ [∗ list] r ∈ L, rec_res r).
Proof.
  iIntros (L) "HL Hh HR". iApply (wpt_wand with "[HL Hh HR]"); [iApply (find_by_tid_ok with "HL Hh HR"); by destruct L1|].
  assert (Hr : trec_of tid x j e ∈ L) by set_solver.
  iIntros (o) "($ & $ & HR & %Ho)". destruct o as [u|[node info]]; [by edestruct Ho|].
  destruct Ho as (r' & Hr' & Ht' & -> & ->).
  iAssert ⌜0 <= tid⌝%I as %Hpos.
  { iDestruct (big_sepL_elem_of_acc _ L (trec_of tid x j e) with "HR") as "[Hr _]"; [done|]. rewrite rec_child.
    iDestruct (child_born with "Hr") as "([% _] & _)". done. }
  iDestruct (recs_unique L (trec_of tid x j e) r' with "HR") as %<-; [done|done|done|done|]. by iFrame.
Qed.

(** ** Exit *)

Definition alive (r : trec) : Prop := exited r = false.
#[local] Instance alive_dec r : Decision (alive r) := decide (exited r = false).

Lemma alive_snoc L r : length (filter alive (L ++ [r])) = (length (filter alive L) + if exited r then 0 else 1)%nat.
Proof.
  rewrite filter_app length_app filter_cons. f_equal. unfold alive. case_decide as H1; destruct (exited r); done.
Qed.

Lemma survey_ok t head L tid : L <> [] -> 0 <= tid -> Z.of_nat (length L) < 2 ^ 31 ->
  ring head (entries L) -∗ thread_info_chain ↦ head -∗ ([∗ list] r ∈ L, rec_res r) -∗
  wpt t (survey tid) (fun '(current, n) => ring head (entries L) ∗ thread_info_chain ↦ head ∗ ([∗ list] r ∈ L, rec_res r) ∗
    ⌜n = Z.of_nat (length (filter alive L)) /\ forall r, r ∈ L -> r_tid r = tid -> current = r_node r⌝).
Proof.
  iIntros (Hne Htid Hlen) "HL Hh HR". unfold survey. wload "Hh".
  iAssert ⌜0 < head⌝%I as %Hpos; [destruct L; [done|]; by iApply (ring_nonnull with "HL")|].
  rewrite decide_True; [|unfold NULL; lia]. iApply wpt_bind. iApply (wpt_wand with "[-]").
  - iApply (each_info_ok t head L (survey_node tid) (NULL, 0)
      (fun L1 '(current, n) => ([∗ list] r ∈ L, rec_res r) ∗
        ⌜n = Z.of_nat (length (filter alive L1)) /\ forall r, r ∈ L1 -> r_tid r = tid -> current = r_node r⌝)%I
      (fun _ => False)%I with "[] HL Hh [$HR]"); [done| |by iPureIntro; set_solver].
    iIntros "!>" (L1 r L2 [c n] HL) "[HR [-> %Hc]]". unfold survey_node.
    iDestruct (big_sepL_elem_of_acc _ L r with "HR") as "[Hr HR]"; [set_solver|].
    iDestruct (rec_read with "Hr") as "(Ht & He & Hr)". wload "Ht". wload "He".
    iDestruct ("HR" with "[Hr Ht He]") as "HR"; [by iApply ("Hr" with "Ht He")|].
    iAssert ⌜forall r', r' ∈ L1 -> r_tid r' = tid -> r_tid r = tid -> r_node r' = r_node r⌝%I as %Huniq.
    { iIntros (r' Hr' Ht' Ht). iDestruct (recs_unique L r r' with "HR") as %<-; [set_solver..|congruence|lia|done]. }
    iApply wpt_ret. iFrame "HR". iPureIntro. split.
    + rewrite alive_snoc. subst L. rewrite length_app in Hlen. cbn in Hlen. pose proof (length_filter alive L1).
      destruct (exited r); cbn [flag]; case_decide; try lia. rewrite s32_small; lia.
    + intros r' Hr'. case_decide; set_solver.
  - iIntros ([[c n]|e]) "(HL & Hh & H)"; [|done]. iApply wpt_ret. iFrame. 
Qed.

Lemma two_alive L r r' : r ∈ L -> r' ∈ L -> alive r -> alive r' -> r <> r' -> (2 <= length (filter alive L))%nat.
Proof.
  intros Hr Hr' Ha Ha' Hne. assert (r ∈ filter alive L) as H1 by (by apply list_elem_of_filter).
  assert (r' ∈ filter alive L) as H2 by (by apply list_elem_of_filter).
  destruct (filter alive L) as [|x [|y l]]; [by destruct (not_elem_of_nil r)| |cbn; lia].
  apply list_elem_of_singleton in H1, H2. congruence.
Qed.

(** The chain with the record of a thread taken out. *)
Lemma chain_ok_update M L1 L2 t x j e j' e' :
  chain_ok M (L1 ++ trec_of t x j e :: L2) -> chain_ok M (L1 ++ trec_of t x j' e' :: L2).
Proof.
  intros (HM & Hroot & Hlen). split; [|split; [|rewrite length_app; by rewrite length_app in Hlen]].
  - intros t' x' (j1 & e1 & Hr)%HM. apply elem_of_app in Hr as [Hr|Hr]; [exists j1, e1; set_solver|].
    apply elem_of_cons in Hr as [Hr|Hr]; [|exists j1, e1; set_solver].
    exists j', e'. unfold trec_of in Hr. simplify_eq. set_solver.
  - intros _. destruct Hroot as (r & Hr & Hk); [by destruct L1|]. exists r. split; [|done].
    apply elem_of_app in Hr as [Hr|[->|Hr]%elem_of_cons]; [set_solver|done|set_solver].
Qed.

Lemma entries_update L1 L2 t x j e j' e' : entries (L1 ++ trec_of t x j e :: L2) = entries (L1 ++ trec_of t x j' e' :: L2).
Proof. unfold entries. by rewrite !fmap_app. Qed.

Lemma chain_take q t x : chain_res -∗ share q t x -∗ share q t x ∗
  ∃ j e, child_res t x j e ∗ (∀ j e, child_res t x j e -∗ chain_with t x j e).
Proof.
  iIntros "(%head & %L & %M & Hh & HL & HA & %Hok & Hn & HR) Hx".
  iDestruct (share_recorded with "HA Hx") as %(Hl & L1 & L2 & j & e & HL); [apply Hok|]. subst L. iFrame "Hx".
  iDestruct (big_sepL_app with "HR") as "[HR1 [Hr HR2]]". rewrite rec_child. iExists j, e. iFrame "Hr".
  iIntros (j' e') "Hr". iExists head, L1, L2, M. iFrame "Hh HA".
  rewrite (entries_update L1 L2 t x j e j' e'). iFrame "HL". iSplitR; [iPureIntro; by eapply chain_ok_update|].
  rewrite !length_app. iFrame "Hn". iApply big_sepL_app. iFrame "HR1". cbn [big_opL]. rewrite rec_child. by iFrame.
Qed.

(** The end of a thread that has been created by [thr_create]. *)
Lemma deliver_status_ok t x j v (k : prog unit) Φ : is_mutex (n_alloc N) alloc_mutex True -∗ child_res t x j false -∗ post (d_func x) (d_arg x) v -∗
  runs_as t x -∗ stack_of x -∗ (child_res t x j true -∗ wpt t k Φ) -∗
  wpt t (store (has_exited (d_info x)) 1;; store (info_status (d_info x)) v;; joined ← load (is_joined_on (d_info x));
         (if decide (joined <> 0) then cond_signal (status_ready (d_info x)) else Ret tt);; k) Φ.
Proof.
  iIntros "#Ia Hc Hv Hx Hstk HΦ".
  iAssert (child_body t x j false (if j then 1 else 0)%nat ∗ (if j then share (1/2) t x else True))%I with "[Hc]" as "[Hc Hs]".
  { unfold child_res. destruct j; cbn; by iFrame. }
  iDestruct "Hc" as "([% %] & Hb & (Ht & Hj & He) & Hf & Ha & Hst & Hc & %w & Hw & Hg)".
  wstore "He". wstore "Hw". wload "Hj". iApply wpt_bind. destruct j; cbn [flag].
  - case_decide; [|lia]. iApply (own_cond_signal_ok with "Ia Hc [$Hg $Hs]"); [unfold status_ready, NULL; lia|].
    iIntros "Hc". iApply "HΦ". unfold child_res. cbn. by iFrame.
  - case_decide; [lia|]. iApply wpt_ret. iApply "HΦ". unfold child_res. cbn. by iFrame.
Qed.

(** The root never exits while others do. *)
Lemma root_alive L t x j : (exists r, r ∈ L /\ r_kind r = Root) -> trec_of t x j false ∈ L ->
  (2 <= length (filter alive L))%nat.
Proof.
  intros (r & Hr & Hk) Hx. apply (two_alive L r (trec_of t x j false)); try done; [unfold alive, exited; by rewrite Hk|].
  by intros ->.
Qed.

(** A thread that still has its share has not exited. *)
Lemma not_yet t x j e : child_res t x j e -∗ runs_as t x -∗ ⌜0 <= t /\ e = false⌝.
Proof.
  iIntros "Hr [_ Hx]". iAssert ⌜0 <= t⌝%I as %Ht; [iDestruct (child_born with "Hr") as "([% _] & _)"; done|].
  iSplit; [done|]. destruct e; [|done]. unfold child_res. rewrite andb_false_r.
  iDestruct "Hr" as "(_ & _ & _ & _ & _ & _ & _ & %v & _ & _ & [_ Hx'] & _)". iDestruct (token_exclusive with "Hx Hx'") as %[].
Qed.

Lemma thr_exit_child_ok t x v Φ : is_threads -∗ runs_as t x -∗ stack_of x -∗ post (d_func x) (d_arg x) v -∗
  sleeping t false -∗ wpt t (thr_exit v) Φ.
Proof.
  iIntros "(#Ia & #Im & _) [Hx Hrun] Hstk Hv Ht". unfold thr_exit. iApply wpt_bind. iApply wpt_gettid. iNext.
  iApply wpt_bind. iApply (umutex_lock_ok with "Im"). iIntros "Hm (%head & %L & %M & Hh & HL & HA & %Hok & Hn & HR)".
  iDestruct (share_recorded with "HA Hx") as %(Hl & L1 & L2 & j & e & HL); [apply Hok|].
  assert (Hr : trec_of t x j e ∈ L) by (subst L; set_solver). assert (Hne : L <> []) by (subst L; by destruct L1).
  iAssert ⌜0 <= t /\ e = false⌝%I as %[Hpos ->].
  { iDestruct (big_sepL_elem_of_acc _ L (trec_of t x j e) with "HR") as "[Hr _]"; [done|]. rewrite rec_child.
    iApply (not_yet with "Hr [$Hx $Hrun]"). }
  iApply wpt_bind. iApply (wpt_wand with "[HL Hh HR]"); [iApply (survey_ok with "HL Hh HR"); [done|done|apply Hok]|].
  iIntros ([c n]) "(HL & Hh & HR & [-> %Hc])". rewrite (Hc (trec_of t x j false)); [|done..].
  rewrite decide_False; [|destruct Hok as (_ & Hroot & _); pose proof (root_alive L t x j (Hroot Hne) Hr); lia].
  assert (HE : entries L = entries L1 ++ (d_node x, d_info x) :: entries L2) by (subst L; unfold entries; by rewrite fmap_app).
  rewrite HE. iDestruct (ring_item with "HL") as "[Hd HL]". wload "Hd". iDestruct ("HL" with "Hd") as "HL". rewrite -HE.
  iAssert chain_res with "[Hh HL HA Hn HR]" as "HC"; [iExists head, L, M; by iFrame|].
  iDestruct (chain_take with "HC Hx") as "[Hx (%j' & %e' & Hc & HC)]".
  iDestruct (not_yet with "Hc [$Hx $Hrun]") as %[_ ->].
  iApply (deliver_status_ok with "Ia Hc Hv [$Hx $Hrun] Hstk"). iIntros "Hc". iApply wpt_bind.
  iApply (umutex_unlock_ok with "Im Hm [HC Hc]"); [iApply chain_with_res; by iApply "HC"|]. by iApply wpt_vanish.
Qed.

(** ** Join *)

(** Where the status is delivered, if anywhere. *)
Definition status_at (statusp v : Z) : iProp Σ := if decide (statusp = NULL) then True%I else (statusp ↦ v)%I.

Lemma child_body_exited t x j n : child_body t x j true n -∗
  ⌜0 < d_info x⌝ ∗ info_stack_space (d_info x) ↦ d_stack x ∗ stack_of x ∗ own_cond (status_ready (d_info x)) (gate t x) n ∗
  ∃ v, info_status (d_info x) ↦ v ∗ post (d_func x) (d_arg x) v ∗ runs_as t x.
Proof. iIntros "([_ %] & _ & _ & _ & _ & $ & $ & %v & Hv & $ & $ & $)". by iFrame. Qed.

Lemma recorded_delete M L1 L2 t x j e : chain_ok M (L1 ++ trec_of t x j e :: L2) -> chain_ok (delete t M) (L1 ++ L2).
Proof.
  intros (HM & Hroot & Hlen). split; [|split].
  - intros t' x' Hl. apply lookup_delete_Some in Hl as [Hne (j1 & e1 & Hr)%HM]. exists j1, e1.
    apply elem_of_app in Hr as [Hr|[Hr|Hr]%elem_of_cons]; [set_solver|unfold trec_of in Hr; congruence|set_solver].
  - intros _. destruct Hroot as (r & Hr & Hk); [by destruct L1|]. exists r. split; [|done].
    apply elem_of_app in Hr as [Hr|[->|Hr]%elem_of_cons]; [set_solver|done|set_solver].
  - rewrite length_app in Hlen |- *. cbn in Hlen. rewrite length_app. lia.
Qed.

(** The record of [t] is taken out of the chain. *)
Lemma remove_info_ok t0 head L1 L2 t x j e Φ : let L := L1 ++ trec_of t x j e :: L2 in
  is_mutex (n_alloc N) alloc_mutex True -∗ thread_info_chain ↦ head -∗ ring head (entries L) -∗
  (∀ head', thread_info_chain ↦ head' -∗ ring head' (entries (L1 ++ L2)) -∗ Φ tt) -∗ wpt t0 (remove_info (d_node x)) Φ.
Proof.
  iIntros (L) "#Ia Hh HL HΦ". unfold remove_info. wload "Hh". unfold L, entries. rewrite !fmap_app fmap_cons.
  iApply wpt_bind. iApply (remove_member_ok with "Ia HL"). iIntros (head') "HL". wstore "Hh". iApply ("HΦ" with "Hh HL").
Qed.

Lemma chain_ok_others M L1 L2 t x j e : chain_ok M (L1 ++ trec_of t x j e :: L2) -> (0 < length (L1 ++ L2))%nat.
Proof.
  intros (_ & Hroot & _). destruct Hroot as (r & Hr & Hk); [by destruct L1|].
  assert (r ∈ L1 ++ L2) as Hin.
  { apply elem_of_app in Hr as [Hr|[->|Hr]%elem_of_cons]; [set_solver|done|set_solver]. }
  destruct (L1 ++ L2); [by apply not_elem_of_nil in Hin|cbn; lia].
Qed.

(** [collect], by the thread that has the creator's share of an exited thread. *)
Lemma collect_ok t0 t x j statusp w n Φ : is_threads -∗ held (n_chain N) -∗
  chain_with t x j true -∗ share (3/4) t x -∗ manages n -∗ status_at statusp w -∗
  (∀ v, manages (pred n) -∗ post (d_func x) (d_arg x) v -∗ status_at statusp v -∗ Φ 0) -∗
  wpt t0 (collect (d_node x) (d_info x) statusp) Φ.
Proof.
  iIntros "(#Ia & #Im & _) Hm (%head & %L1 & %L2 & %M & Hh & HL & HA & %Hok & Hn & HR) Hx Hn' Hw HΦ".
  iDestruct (big_sepL_app with "HR") as "[HR1 [Hr HR2]]". rewrite rec_child /child_res andb_false_r.
  iDestruct (child_body_exited with "Hr") as "(%Hi & Hst & (%sz & [%Hp _] & Hb & Hws) & Hc & %v & Hv & Hpost & Hx' & _)".
  unfold collect. iApply wpt_bind. iApply (wpt_wand _ _ (fun _ => info_status (d_info x) ↦ v ∗ status_at statusp v)%I with "[Hv Hw]").
  { unfold status_at. case_decide.
    - rewrite decide_False; [|naive_solver]. iApply wpt_ret. iFrame.
    - rewrite decide_True; [|done]. wload "Hv". wstore "Hw". iFrame. }
  iIntros (_) "[Hv Hw]". iApply wpt_bind. iApply (own_cond_destroy_ok with "Hc"); [unfold status_ready, NULL; lia|]. iIntros "_ _".
  wload "Hst". iApply wpt_bind. iApply (free_ok with "Ia Hb Hws"); [done|]. iApply wpt_bind.
  iApply (remove_info_ok with "Ia Hh HL"). iIntros (head') "Hh HL".
  iDestruct (ghost_var_agree with "Hn Hn'") as %Hlen. pose proof (chain_ok_others _ _ _ _ _ _ _ Hok) as Hpos.
  iMod (ghost_var_update_halves (length (L1 ++ L2)) with "Hn Hn'") as "[Hn Hn']".
  iDestruct (ghost_map_elem_combine with "Hx Hx'") as "[Hx _]". iEval (rewrite dfrac_op_own Qp.three_quarter_quarter) in "Hx".
  iMod (ghost_map_delete with "HA Hx") as "HA". iApply wpt_bind.
  iApply (umutex_unlock_ok with "Im Hm [Hh HL HA Hn HR1 HR2]").
  { iExists head', (L1 ++ L2), (delete t M). iFrame "Hh HL HA Hn". iSplitR; [iPureIntro; by eapply recorded_delete|].
    iApply big_sepL_app. iFrame. }
  iApply wpt_ret. iApply ("HΦ" with "[Hn'] Hpost Hw"). unfold manages.
  replace (S (pred n)) with (length (L1 ++ L2)); [done|]. rewrite length_app in Hlen. cbn in Hlen.
  rewrite length_app in Hpos. rewrite length_app. lia.
Qed.

(** The search of [thr_join]. *)
Lemma find_info_ok t0 head L M q t x Φ : chain_at head L M -∗ share q t x -∗
  (chain_res -∗ share q t x -∗ Φ (Some (d_node x, d_info x))) -∗
  wpt t0 (find_info t) Φ.
Proof.
  iIntros "(Hh & HL & HA & %Hok & Hn & HR) Hx HΦ".
  iDestruct (share_recorded with "HA Hx") as %(Hl & L1 & L2 & j & e & HL); [apply Hok|]. subst L.
  unfold find_info. wload "Hh". iAssert ⌜0 < head⌝%I as %Hpos.
  { destruct L1; cbn [app entries fmap list_fmap]; by iApply (ring_nonnull with "HL"). }
  rewrite decide_True; [|unfold NULL; lia]. wload "Hh". iApply wpt_bind.
  iApply (wpt_wand with "[HL Hh HR]"); [iApply (find_thread_ok with "HL Hh HR")|]. iIntros (o) "(-> & HL & Hh & HR)".
  iApply wpt_ret. iApply ("HΦ" with "[-Hx] Hx"). iExists _, _, _. by iFrame.
Qed.

(** The wait of [thr_join]: the thread has its share back when it leaves. *)
Lemma join_wait_ok t0 t x Φ : is_threads -∗ sleeping t0 false -∗ held (n_chain N) -∗ share (1/4) t x -∗ share (1/2) t x -∗
  child_body t x true false 0 -∗ (∀ j e, child_res t x j e -∗ chain_with t x j e) -∗
  (sleeping t0 false -∗ held (n_chain N) -∗ share (1/4) t x -∗ share (1/2) t x -∗ (∃ j, child_res t x j true) -∗
    (∀ j e, child_res t x j e -∗ chain_with t x j e) -∗ Φ) -∗
  wpt t0 (while (exited ← load (has_exited (d_info x)); Ret (if decide (exited = 0) then 1 else 0))
      (cond_wait (status_ready (d_info x)) thread_info_chain_mutex)) (fun _ => Φ).
Proof.
  iIntros "(#Ia & #Im & _) Ht Hm Hx Hs Hc HC HΦ".
  iApply (wpt_wand _ _ (fun _ => sleeping t0 false ∗ held (n_chain N) ∗ share (1/4) t x ∗ share (1/2) t x ∗
    (∃ j, child_res t x j true) ∗ (∀ j e, child_res t x j e -∗ chain_with t x j e))%I with "[-HΦ]").
  2:{ iIntros (_) "(Ht & Hm & Hx & Hs & Hr & HC)". iApply ("HΦ" with "Ht Hm Hx Hs Hr HC"). }
  iApply (wpt_while t0 _ _ (sleeping t0 false ∗ held (n_chain N) ∗ share (1/4) t x ∗ share (1/2) t x ∗
    (∃ j e, ⌜e = false -> j = true⌝ ∗ child_body t x j e 0) ∗ (∀ j e, child_res t x j e -∗ chain_with t x j e))%I with "[]").
  2:{ iFrame "Ht Hm Hx Hs HC". iExists true, false. by iFrame. }
  iIntros "!> (Ht & Hm & Hx & Hs & (%j & %e & %Hj & Hc) & HC)".
  iDestruct "Hc" as "([% %] & Hb & (Hti & Hji & He) & Hf & Ha & Hst & Hc & Hw)". wload "He". iApply wpt_ret.
  destruct e; cbn [flag].
  - repeat case_decide; try done. iFrame. iExists j. unfold child_res. rewrite andb_false_r. by iFrame.
  - rewrite (Hj eq_refl). repeat case_decide; try done.
    iApply (own_cond_wait_ok with "Ia Hc Im Hm [-Ht Hx] Ht"); [unfold status_ready, NULL; lia| |].
    + iIntros "Hc". iApply chain_with_res. iApply ("HC" $! true false). unfold child_res. cbn. by iFrame.
    + iIntros "Hm HR [Hg Hs] Ht". iDestruct (chain_take with "HR Hx") as "[Hx (%j' & %e' & Hr & HC)]". iFrame.
      iExists j', e'. unfold child_res. destruct e'; [rewrite andb_false_r; by iFrame|]. rewrite andb_true_r.
      iAssert (child_body t x j' false (if j' then 1 else 0)%nat) with "[Hr]" as "(_ & _ & _ & _ & _ & _ & _ & %w & _ & Hg')".
      { destruct j'; [by iDestruct "Hr" as "[$ _]"|done]. }
      iDestruct (token_exclusive with "Hg Hg'") as %[].
Qed.

Lemma share_split t x : share (3/4) t x ⊣⊢ share (1/4) t x ∗ share (1/2) t x.
Proof. rewrite /share -ghost_map_elem_fractional. by replace (1/4 + 1/2)%Qp with (3/4)%Qp by compute_done. Qed.

(** A thread that can still be joined is joined by nobody else. *)
Lemma unjoined t x j e : child_res t x j e -∗ share (3/4) t x -∗ share (3/4) t x ∗ child_body t x j e 0 ∗ ⌜e = false -> j = false⌝.
Proof.
  iIntros "Hr Hx". unfold child_res. destruct j, e; cbn; [by iFrame| |by iFrame..].
  iDestruct "Hr" as "[_ Hs]". iDestruct (ghost_map_elem_valid_2 with "Hx Hs") as %[Hv _]. by rewrite dfrac_op_own in Hv.
Qed.

Lemma thr_join_ok t0 t f a statusp w n Φ : is_threads -∗ manages n -∗ joinable t f a -∗ sleeping t0 false -∗ status_at statusp w -∗
  (∀ v, manages (pred n) -∗ post f a v -∗ sleeping t0 false -∗ status_at statusp v -∗ Φ 0) -∗
  wpt t0 (thr_join t statusp) Φ.
Proof.
  iIntros "#I Hn (%x & [<- <-] & Hx) Ht Hw HΦ". iPoseProof "I" as "(Ia & Im & _)". unfold thr_join. iApply wpt_bind.
  iApply (umutex_lock_ok with "Im"). iIntros "Hm (%head & %L & %M & HC)". iApply wpt_bind.
  iApply (find_info_ok with "HC Hx"). iIntros "HC Hx". iDestruct (chain_take with "HC Hx") as "[Hx (%j & %e & Hr & HC)]".
  iDestruct (unjoined with "Hr Hx") as "(Hx & Hc & %Hj)".
  iDestruct "Hc" as "([% %] & Hb & (Hti & Hji & He) & Hc)". wload "He". destruct e; cbn [flag].
  - case_decide; [|done]. iApply (collect_ok with "I Hm [-Hx Hn Ht Hw HΦ] Hx Hn Hw").
    + iApply ("HC" $! j true). unfold child_res. rewrite andb_false_r. by iFrame.
    + iIntros (v) "Hn Hp Hw". iApply ("HΦ" with "Hn Hp Ht Hw").
  - rewrite (Hj eq_refl). case_decide; [done|]. wload "Hji". cbn [flag]. case_decide; [done|]. wstore "Hji".
    rewrite share_split. iDestruct "Hx" as "[Hx Hs]". iApply wpt_bind.
    iApply (join_wait_ok with "I Ht Hm Hx Hs [Hb Hti Hji He Hc] HC"); [by iFrame|].
    iIntros "Ht Hm Hx Hs (%j' & Hr) HC". iDestruct (share_split with "[$Hx $Hs]") as "Hx".
    iApply (collect_ok with "I Hm [HC Hr] Hx Hn Hw"); [by iApply "HC"|].
    iIntros (v) "Hn Hp Hw". iApply ("HΦ" with "Hn Hp Ht Hw").
Qed.

(** ** Start *)

Lemma register_ok t stack Φ : (∀ z, Φ z) -∗ wpt t (register_crash_handler stack) Φ.
Proof.
  iIntros "H". iApply wpt_silent; [done|by intros c s z s' [= <- <-]|by eexists|]. iIntros "!>" (z _). iApply "H".
Qed.

(** The search of [wrap_func]: the thread finds what it is to do. *)
Lemma find_start_ok t0 t x Φ : chain_res -∗ share (1/4) t x -∗
  (∀ stack, chain_res -∗ share (1/4) t x -∗ Φ (stack, d_func x, d_arg x)) -∗ wpt t0 (find_start t) Φ.
Proof.
  iIntros "(%head & %L & %M & Hh & HL & HA & %Hok & Hn & HR) Hx HΦ".
  iDestruct (share_recorded with "HA Hx") as %(Hl & L1 & L2 & j & e & HL); [apply Hok|]. subst L.
  unfold find_start. wload "Hh". iApply wpt_bind.
  iApply (wpt_wand with "[HL Hh HR]"); [iApply (find_thread_ok with "HL Hh HR")|]. iIntros (o) "(-> & HL & Hh & HR)".
  iAssert chain_res with "[Hh HL HA Hn HR]" as "HC"; [iExists head, _, M; by iFrame|].
  iDestruct (chain_take with "HC Hx") as "[Hx (%j' & %e' & Hr & HC)]".
  iAssert (∃ n, child_body t x j' e' n ∗ (child_body t x j' e' n -∗ child_res t x j' e'))%I with "[Hr]" as "(%n & Hc & Hr)".
  { unfold child_res. destruct (j' && negb e'); [iDestruct "Hr" as "[Hr Hs]"|]; iExists _; iFrame "Hr"; iIntros "$". by iFrame. }
  iDestruct "Hc" as "(Hp & Hb & Hfl & Hf & Ha & Hc)". wload "Hf". wload "Ha". iApply wpt_ret.
  iApply ("HΦ" with "[-Hx] Hx"). iApply chain_with_res. iApply "HC". iApply "Hr". iFrame.
Qed.

(** Frames go into the words of the block below the stack pointer. *)
Lemma push_frames_ok t p n k esp Φ : (exists m, esp = p + 4 * m /\ Z.of_nat k <= m <= n / 4) -> stack_block p n -∗
  (stack_block p n -∗ Φ tt) -∗ wpt t (push_frames k esp) Φ.
Proof.
  iIntros (Hm) "H HΦ". iInduction k as [|k IH] "IH" forall (esp Hm); cbn [push_frames]; [iApply wpt_ret; by iApply "HΦ"|].
  destruct Hm as (m & -> & Hm). iDestruct "H" as "(Hp & Hb & Hw)".
  assert (Hin : p + 4 * m - 4 ∈ words p n).
  { unfold words. replace (p + 4 * m - 4) with (p + 4 * (m - 1)) by lia.
    apply (list_elem_of_fmap_2 (fun i => p + 4 * i)), elem_of_seqZ. lia. }
  iDestruct (big_sepL_elem_of_acc _ _ _ Hin with "Hw") as "[(%w & Ha) Hw]". wstore "Ha".
  iApply ("IH" with "[] [Hp Hb Hw Ha] HΦ"); [iPureIntro; exists (m - 1); lia|]. iFrame "Hp Hb". iApply "Hw". by iExists _.
Qed.

(** A call on a stack of its own that is large enough. *)
Lemma call_ok {A} t p n (f : prog A) Φ : stack_enough n -> stack_block p n -∗
  (stack_block p n -∗ wpt t f Φ) -∗ wpt t (call (ROUND_STACK (p + n)) f) Φ.
Proof.
  iIntros ([Hn Hfr]) "H HΦ". iAssert ⌜p `mod` 4 = 0⌝%I as %Hal; [by iDestruct "H" as "([_ %] & _)"|].
  unfold call. iApply wpt_bind. iApply (push_frames_ok with "H HΦ"). exists (n / 4). unfold ROUND_STACK.
  pose proof (Z.div_mod p 4). pose proof (Z.div_mod n 4). pose proof (Z.mod_pos_bound n 4).
  replace (p + n) with (n + p / 4 * 4) by lia. rewrite Z.div_add; [|done].
  assert (Z.of_nat frame_words <= n / 4) by (apply Z.div_le_lower_bound; lia). lia.
Qed.

Lemma wrap_func_ok t x n Φ : stack_enough n -> is_threads -∗ runs_as t x -∗ stack_block (d_stack x) n -∗ sleeping t false -∗
  (sleeping t false -∗ wpt t (code_at (d_func x) (d_arg x)) (fun v => post (d_func x) (d_arg x) v ∗ sleeping t false)) -∗
  wpt t (wrap_func (ROUND_STACK (d_stack x + n))) Φ.
Proof.
  iIntros (Hn) "#I [Hx Hrun] Hk Ht Hf". iPoseProof "I" as "(Ia & Im & _)". unfold wrap_func.
  iApply wpt_bind. iApply (call_ok with "Hk"); [done|]. iIntros "Hk". iApply wpt_gettid. iNext.
  iApply wpt_bind. iApply (call_ok with "Hk"); [done|]. iIntros "Hk". iApply (umutex_lock_ok with "Im"). iIntros "Hm HC".
  iApply wpt_bind. iApply (find_start_ok with "HC Hx"). iIntros (stack) "HC Hx".
  iApply wpt_bind. iApply (call_ok with "Hk"); [done|]. iIntros "Hk". iApply (umutex_unlock_ok with "Im Hm HC").
  iApply wpt_bind. iApply (call_ok with "Hk"); [done|]. iIntros "Hk". iApply register_ok. iIntros (z).
  iApply wpt_bind. iApply (wpt_wand _ _ (fun _ => True)%I).
  { unfold assert. case_bool_decide; [by iApply wpt_ret|iApply wpt_task_vanish]. }
  iIntros (_) "_". iApply wpt_bind. iApply (call_ok with "Hk"); [done|]. iIntros "Hk".
  iApply (wpt_wand with "[Hf Ht]"); [by iApply "Hf"|]. iIntros (v) "[Hv Ht]".
  iApply (call_ok with "Hk"); [done|]. iIntros "Hk".
  iApply (thr_exit_child_ok with "I [$Hx $Hrun] [Hk] Hv Ht"). by iExists n.
Qed.

(** ** Creation *)

(** The words of a record that the library uses. *)
Definition info_words (i : addr) : list Z :=
  [info_tid i; info_stack_space i; info_func i; info_arg i; is_joined_on i; mutex_lock_state (cond_lock (status_ready i));
   mutex_tid (cond_lock (status_ready i)); cond_tid_head (status_ready i); has_exited i; info_status i].

Lemma info_words_eq i : info_words i = (fun k => i + 4 * k) <$> [0; 1; 130; 131; 132; 133; 134; 135; 136; 137].
Proof.
  unfold info_words, info_tid, info_stack_space, info_func, info_arg, is_joined_on, cond_lock, mutex_lock_state, mutex_tid,
    cond_tid_head, has_exited, info_status, status_ready, sizeof_mutex_t. cbn. repeat (apply (f_equal2 cons); [lia|]). done.
Qed.

Lemma info_words_rest i : exists rest, words i sizeof_thread_info ≡ₚ info_words i ++ rest.
Proof.
  apply submseteq_Permutation, NoDup_submseteq; rewrite info_words_eq.
  - apply NoDup_fmap_2; [intros a b Hab; lia|]. apply (bool_decide_unpack _). by vm_compute.
  - intros a (k & -> & Hk)%list_elem_of_fmap. apply (list_elem_of_fmap_2 (fun k => i + 4 * k)), elem_of_seqZ.
    change (sizeof_thread_info / 4) with 138. revert k Hk. apply Forall_forall. repeat constructor; lia.
Qed.

(** The record of a new thread and of nobody's: what [thr_create] fills in. *)
Lemma new_record_ok t Φ : is_mutex (n_alloc N) alloc_mutex True -∗
  (∀ i, ⌜0 < i⌝ -∗ block_of i sizeof_thread_info -∗ ([∗ list] a ∈ info_words i, ∃ v, a ↦ v) -∗
     (([∗ list] a ∈ info_words i, ∃ v, a ↦ v) -∗ [∗ list] a ∈ words i sizeof_thread_info, ∃ v, a ↦ v) -∗ Φ i) -∗
  wpt t (malloc sizeof_thread_info) Φ.
Proof.
  iIntros "#Ia HΦ". iApply (malloc_ok with "Ia"); [done|]. iIntros (i Hi) "Hb Hw". destruct (info_words_rest i) as [rest Hr].
  iEval (rewrite Hr) in "Hw". iDestruct (big_sepL_app with "Hw") as "[Hw Hrest]". iApply ("HΦ" with "[//] Hb Hw").
  iIntros "Hw". rewrite Hr. iApply big_sepL_app. iFrame.
Qed.

Lemma chain_ok_snoc M L t x : chain_ok M L -> L <> [] -> Z.of_nat (S (length L)) < 2 ^ 31 ->
  chain_ok (<[t := x]> M) (L ++ [trec_of t x false false]) /\
  forall r, r_kind r = Lost -> chain_ok M (L ++ [r]).
Proof.
  intros (HM & Hroot & _) Hne Hlen. destruct (Hroot Hne) as (r0 & Hr0 & Hk). split.
  - split; [|split; [intros _; exists r0; set_solver|rewrite length_app; cbn; lia]].
    intros t' x' Hl. apply lookup_insert_Some in Hl as [[<- <-]|[_ (j & e & Hr)%HM]]; [exists false, false|exists j, e]; set_solver.
  - intros r _. split; [|split; [intros _; exists r0; set_solver|rewrite length_app; cbn; lia]].
    intros t' x' (j & e & Hr)%HM. exists j, e. set_solver.
Qed.

(** The record is in the list, its thread is not yet started. *)
Lemma fork_ok t L M x n Φ : stack_enough n -> chain_ok M L -> L <> [] -> Z.of_nat (S (length L)) < 2 ^ 31 ->
  is_threads -∗ ghost_map_auth (n_threads N) 1 M -∗ ([∗ list] r ∈ L, rec_res r) -∗ token (d_run x) -∗
  stack_block (d_stack x) n -∗
  (∀ t', sleeping t' false -∗ wpt t' (code_at (d_func x) (d_arg x)) (fun v => post (d_func x) (d_arg x) v ∗ sleeping t' false)) -∗
  (∀ t' M' k, ([∗ list] r ∈ L, rec_res r) -∗ ghost_map_auth (n_threads N) 1 M' -∗
     ⌜chain_ok M' (L ++ [Trec (d_node x) (d_info x) t' k])⌝ -∗
     (⌜t' < 0 /\ k = Lost⌝ ∨ ⌜0 <= t' /\ k = Child x false false⌝ ∗ born t' ∗ share (3/4) t' x) -∗ Φ t') -∗
  wpt t (thread_fork (ROUND_STACK (d_stack x + n)) wrap_func) Φ.
Proof.
  iIntros (Hn Hok Hne Hlen) "#I HA HR Hrun Hk Hcode HΦ". unfold thread_fork. iApply wpt_fork. iNext. iSplit.
  - iIntros (t' Ht'). iApply ("HΦ" $! t' M Lost with "HR HA"); [iPureIntro; by apply (chain_ok_snoc M L t' x)|]. by iLeft.
  - iIntros (t' Ht') "Ht Hb". iAssert ⌜M !! t' = None⌝%I as %Hnew.
    { destruct (M !! t') as [x'|] eqn:Hl; [|done]. destruct Hok as (HM & _). destruct (HM _ _ Hl) as (j & e & Hr).
      iDestruct (big_sepL_elem_of_acc _ L with "HR") as "[Hr _]"; [done|]. rewrite rec_child.
      iDestruct (child_born with "Hr") as "(_ & Hb' & _)". by iDestruct (ghost_map_elem_ne with "Hb Hb'") as %?. }
    iMod (ghost_map_insert t' x with "HA") as "[HA Hx]"; [done|]. iEval (rewrite -Qp.three_quarter_quarter) in "Hx".
    iDestruct (ghost_map_elem_fractional with "Hx") as "[Hx Hx']". iModIntro. iSplitL "Hcode Hx' Hrun Hk Ht".
    + iApply (call_ok with "Hk"); [done|]. iIntros "Hk".
      iApply (wrap_func_ok with "I [$Hx' $Hrun] Hk Ht"); [done|]. iApply "Hcode".
    + iApply ("HΦ" $! t' (<[t':=x]> M) (Child x false false) with "HR HA").
      * iPureIntro. by apply (chain_ok_snoc M L t' x).
      * iRight. by iFrame.
Qed.

Lemma thr_create_ok t0 f a n Φ : f <> NULL -> Z.of_nat (S (S n)) < 2 ^ 31 -> is_threads -∗ manages n -∗
  (∀ t, sleeping t false -∗ wpt t (code_at f a) (fun v => post f a v ∗ sleeping t false)) -∗
  (∀ t, manages (S n) -∗ (⌜t < 0⌝ ∨ ⌜0 <= t⌝ ∗ joinable t f a) -∗ Φ t) -∗ wpt t0 (thr_create f a) Φ.
Proof.
  iIntros (Hf Hn) "#I Hm Hcode HΦ". iPoseProof "I" as "(Ia & Im & (%size & %Hsz & Hsize))". unfold thr_create. rewrite decide_False; [|done].
  iApply wpt_bind. iApply (new_record_ok with "Ia"). iIntros (i Hi) "_ Hw _". rewrite decide_False; [|unfold NULL; lia].
  iDestruct "Hw" as "((%w1 & Ht) & (%w2 & Hst) & (%w3 & Hf) & (%w4 & Ha) & (%w5 & Hj) & (%w6 & Hl) & (%w7 & Hlt) & (%w8 & Hc) & (%w9 & He) & (%w & Hv) & _)".
  iApply wpt_bind. iApply (cond_init_ok with "Hl Hlt Hc"); [unfold status_ready, NULL; lia|]. iIntros "Hl Hlt Hc".
  case_decide; [done|]. iApply wpt_bind. iApply (wpt_load_only with "Hsize"). iIntros "!> _".
  assert (u32 size = size) as -> by (apply u32_small; destruct Hsz; lia).
  iApply wpt_bind. iApply (malloc_aligned_ok with "Ia"); [destruct Hsz; lia|]. iIntros (p [Hp Hal]) "Hb Hws". wstore "Hst". wload "Hst".
  rewrite decide_False; [|unfold NULL; lia]. iApply wpt_bind. iApply (umutex_lock_ok with "Im").
  iIntros "Hm' (%head & %L & %M & Hh & HL & HA & %Hok & Hn & HR)". iDestruct (ghost_var_agree with "Hn Hm") as %Hlen.
  unfold append_info. iApply wpt_bind. wload "Hh". iApply wpt_bind. iApply (append_node_ok with "Ia HL"). iIntros (nd h) "HL".
  wstore "Hh". wstore "Hf". wstore "Ha". wload "Hst". iApply wpt_bind. iApply (wpt_load_only with "Hsize"). iIntros "!> _".
  iMod token_alloc as (γg) "Hg". iMod token_alloc as (γr) "Hr".
  iApply wpt_bind. iApply (fork_ok t0 L M (Tdata f a γg γr nd i p) with "I HA HR Hr [Hb Hws] [Hcode]"); [done|done|by destruct L|lia|by iFrame|by iApply "Hcode"|].
  iIntros (t' M' k) "HR HA %Hok' Hk". wstore "Ht". wstore "Hj". wstore "He". wload "Ht".
  iMod (own_cond_make (status_ready i) (gate t' (Tdata f a γg γr nd i p)) with "Hl Hlt Hc") as "Hc"; [unfold status_ready, NULL; lia|done|].
  iMod (ghost_var_update_halves (S (length L)) with "Hn Hm") as "[Hn Hm]".
  iAssert ((⌜t' < 0⌝ ∨ ⌜0 <= t'⌝ ∗ joinable t' f a) ∗ rec_res (Trec nd i t' k))%I with "[Hk Ht Hj He Hf Ha Hst Hc Hv Hg]" as "[Hk Hrec]".
  { iDestruct "Hk" as "[[%Hneg ->]|([%Hpos ->] & Hborn & Hx)]".
    - iSplitR; [by iLeft|]. cbn. by iFrame.
    - iSplitL "Hx"; [iRight; iSplit; [done|]; iExists _; by iFrame|]. iSplit; [done|]. unfold child_res. cbn. by iFrame. }
  iApply wpt_bind. iApply (umutex_unlock_ok with "Im Hm' [Hh HL HA Hn HR Hrec]").
  { iExists h, (L ++ [Trec nd i t' k]), M'. iFrame "Hh HA". iSplitL "HL"; [by rewrite /entries fmap_app|].
    iSplitR; [done|]. rewrite length_app Nat.add_1_r. iFrame "Hn". iApply big_sepL_app. iFrame "HR". by iFrame "Hrec". }
  iApply wpt_ret. rewrite -Hlen. iApply ("HΦ" with "Hm Hk").
Qed.

(** ** The end *)

Lemma free_null_ok t Φ : is_mutex (n_alloc N) alloc_mutex True -∗ Φ tt -∗ wpt t (free NULL) Φ.
Proof.
  iIntros "#Ia HΦ". unfold free. iApply wpt_bind. iApply (umutex_lock_ok with "Ia"). iIntros "Hγ _".
  iApply wpt_bind. iApply wpt_free_null. iNext. by iApply (umutex_unlock_ok with "Ia Hγ [//]").
Qed.

(** [destruct_each_thread] when only the root is left. *)
Lemma destruct_root_ok t head r Φ : r_kind r = Root -> is_mutex (n_alloc N) alloc_mutex True -∗
  thread_info_chain ↦ head -∗ ring head (entries [r]) -∗ rec_res r -∗ (thread_info_chain ↦ NULL -∗ Φ tt) -∗
  wpt t destruct_each_thread Φ.
Proof.
  iIntros (Hk) "#Ia Hh HL Hr HΦ". unfold rec_res. rewrite Hk. iDestruct "Hr" as "([_ %Hi] & _ & _ & Hst & Hc)".
  iDestruct (ring_nonnull with "HL") as %Hpos. unfold destruct_each_thread, while. iApply wpt_iter. iNext.
  wload "Hh". case_decide; [lia|]. iApply wpt_bind. wload "Hh". cbn [entries fmap list_fmap ring path].
  iDestruct "HL" as "(%Hx & [Hn Hp] & (_ & Hd & Hb) & _)". subst head. cbn [fst snd].
  wload "Hp". wload "Hd". iApply wpt_bind. iApply (own_cond_destroy_ok with "Hc"); [unfold status_ready, NULL; lia|]. iIntros "_ _".
  wload "Hst". iApply wpt_bind. iApply (free_null_ok with "Ia"). wload "Hp". unfold remove_info. wload "Hh". iApply wpt_bind.
  iApply (remove_node_ok _ t (r_node r) (r_node r) [(r_node r, r_info r)] with "Ia [Hh HΦ] [Hn Hp Hd Hb]").
  2:{ cbn. by iFrame. }
  iIntros (h). rewrite filter_cons decide_False; [|naive_solver]. iIntros "->". wstore "Hh". iApply wpt_ret. 
  iApply wpt_iter. iNext. wload "Hh". case_decide; [|done]. iApply wpt_ret. iApply wpt_ret. by iApply "HΦ".
Qed.

Lemma thr_exit_root_ok t v Φ : 0 <= t -> is_threads -∗ manages 0 -∗ wpt t (thr_exit v) Φ.
Proof.
  iIntros (Ht) "(#Ia & #Im & _) Hn'". unfold thr_exit. iApply wpt_bind. iApply wpt_gettid. iNext.
  iApply wpt_bind. iApply (umutex_lock_ok with "Im"). iIntros "Hm (%head & %L & %M & Hh & HL & HA & %Hok & Hn & HR)".
  iDestruct (ghost_var_agree with "Hn Hn'") as %Hlen. destruct L as [|r [|]]; try done.
  assert (r_kind r = Root) as Hk.
  { destruct Hok as (_ & Hroot & _). destruct Hroot as (r' & Hr & Hk); [done|]. apply list_elem_of_singleton in Hr. by subst. }
  iApply wpt_bind. iApply (wpt_wand with "[HL Hh HR]"); [iApply (survey_ok with "HL Hh HR"); [done|done|cbn; lia]|].
  iIntros ([c n]) "(HL & Hh & [Hr _] & [-> _])". rewrite decide_True.
  2:{ pose proof (length_filter alive [r]). cbn [length] in *. lia. }
  iApply wpt_bind. iApply (destruct_root_ok with "Ia Hh HL Hr"); [done|]. iIntros "Hh".
  iMod (ghost_var_update_halves 0%nat with "Hn Hn'") as "[Hn _]".
  iApply wpt_bind. iApply (umutex_unlock_ok with "Im Hm [Hh HA Hn]").
  { iExists NULL, [], M. iFrame. iSplit; [done|]. iSplit; [|done]. iPureIntro. split; [|by split].
    intros t' x (j & e & Hr)%Hok. apply list_elem_of_singleton in Hr. by subst r. }
  iApply wpt_bind. iApply wpt_ret. iApply wpt_bind. iApply wpt_ret. iApply wpt_task_vanish.
Qed.

End chain.

(** ** The beginning *)

Section init.
Context `{!taskGS Σ, !tokenG Σ, !ghost_varG Σ nat, !ghost_mapG Σ Z tdata, !Globals, !ThreadGlobals}.
Context (post : Z -> Z -> Z -> iProp Σ).

Definition mutex_words (mp : addr) : iProp Σ := ∃ a b, mutex_lock_state mp ↦ a ∗ mutex_tid mp ↦ b.

(** With the root's record in the list the library is ready. *)
Lemma threads_make γa t i nd head s : stack_enough s -> 0 <= t -> 0 < i -> alloc_mutex <> NULL -> thread_info_chain_mutex <> NULL ->
  is_mutex γa alloc_mutex True -∗ own_mutex thread_info_chain_mutex UNLOCKED -∗ stack_size ↦ s -∗ thread_info_chain ↦ head -∗
  ring head [(nd, i)] -∗ born t -∗ flags i t false false -∗ info_stack_space i ↦ NULL -∗ own_cond (status_ready i) True 0 ={⊤}=∗
  ∃ N, is_threads post N ∗ manages N 0.
Proof.
  iIntros (Hsz Ht Hi Ha Hc) "#Ia (_ & Hst & %tid & Htid) Hs Hh HL Hb Hf Hsp Hcd".
  iMod (ghost_map_alloc_empty (K := Z) (V := tdata)) as (γt) "HA". iMod (ghost_var_alloc 1%nat) as (γn) "[Hn Hn']".
  iMod (ghost_map_elem_persist with "Hs") as "Hs".
  iMod (mutex_make thread_info_chain_mutex (chain_res post (Names γa γa γt γn)) with "[Hh HL HA Hn Hb Hf Hsp Hcd] Hst Htid") as (γm) "#Im"; [done|done| |].
  { iExists head, [Trec nd i t Root], ∅. iFrame "Hh HL HA Hn". iSplitR.
    - iPureIntro. split; [by intros t' x|]. split; [|cbn; lia]. intros _. eexists. split; [by apply list_elem_of_singleton|done].
    - cbn. by iFrame. }
  iModIntro. iExists (Names γa γm γt γn). iFrame "Hn'". iSplit; [done|]. iSplit; [iExact "Im"|]. iExists s. by iFrame "Hs".
Qed.

Lemma thr_init_ok t size s h Φ : stack_enough size -> 0 <= t -> alloc_mutex <> NULL -> thread_info_chain_mutex <> NULL ->
  mutex_words alloc_mutex -∗ mutex_words thread_info_chain_mutex -∗ stack_size ↦ s -∗ thread_info_chain ↦ h -∗ born t -∗
  (∀ z, (⌜z = -1⌝ ∨ ⌜z = 0⌝ ∗ ∃ N, is_threads post N ∗ manages N 0) -∗ Φ z) -∗ wpt t (thr_init size) Φ.
Proof.
  iIntros (Hsz Ht Ha Hc) "(%a1 & %a2 & Ha1 & Ha2) (%c1 & %c2 & Hc1 & Hc2) Hs Hh Hb HΦ". unfold thr_init.
  iApply wpt_bind. iApply (umutex_init_ok with "Ha1 Ha2"); [done|]. iIntros "Ha1 Ha2".
  iApply wpt_bind. iApply (umutex_init_ok with "Hc1 Hc2"); [done|]. iIntros "Hc1 Hc2". wstore "Hs". assert (s32 size = size) as -> by (apply s32_small; destruct Hsz; lia).
  iMod (mutex_make alloc_mutex True with "[//] Ha1 Ha2") as (γa) "#Ia"; [done|done|].
  iApply wpt_bind. iApply (new_record_ok (Names γa γa γa γa) with "Ia"). iIntros (i Hi) "Hblk Hw Hback".
  rewrite decide_False; [|unfold NULL; lia].
  iDestruct "Hw" as "((%w1 & Ht) & (%w2 & Hst) & (%w3 & Hf) & (%w4 & Harg) & (%w5 & Hj) & (%w6 & Hl) & (%w7 & Hlt) & (%w8 & Hcd) & (%w9 & He) & (%w & Hv) & _)".
  iApply wpt_bind. iApply (cond_init_ok with "Hl Hlt Hcd"); [unfold status_ready, NULL; lia|]. iIntros "Hl Hlt Hcd".
  case_decide; [done|]. iApply wpt_bind. iApply wpt_gettid. iNext. wstore "Ht". wstore "Hj". wstore "He". wstore "Hst".
  iApply wpt_bind. iApply (append_node_ok _ t NULL i [] with "Ia [//]"). iIntros (nd hd) "HL". wstore "Hh".
  iApply wpt_bind. iApply register_ok. iIntros (z). case_decide.
  - iApply wpt_bind. iApply (free_ok with "Ia Hblk [-HΦ]"); [done| |].
    + iApply "Hback". cbn. iFrame.
    + iApply wpt_ret. iApply "HΦ". by iLeft.
  - iMod (own_cond_make (status_ready i) True with "Hl Hlt Hcd") as "Hcd"; [unfold status_ready, NULL; lia|done|].
    iMod (threads_make γa t i nd hd with "Ia [Hc1 Hc2] Hs Hh HL Hb [Ht Hj He] Hst Hcd") as "H"; [done..|by iFrame|by iFrame|].
    iApply wpt_ret. iApply "HΦ". iRight. by iFrame.
Qed.

End init.
