(* ===== verification/Parallel.v ===== *)
(** Threads that are created and joined: what the thread library means for a
    program that hands out work and collects the results, stated on the
    interleaving semantics alone.

    The initial thread initialises the library, creates a thread for every job,
    joins them all and exits.  Each job computes on a region of its own; the
    statuses and regions that the initial thread finds after the joins are those
    the jobs compute when they run alone. *)
From S2P Require Import Prelude Task TaskLogic UMutex UList UCond UThread UJoin Alone.
From iris.proofmode Require Import proofmode.
From iris.program_logic Require Import weakestpre adequacy.
From iris.base_logic.lib Require Import ghost_map ghost_var invariants token.
#[local] Open Scope Z_scope.

(** ** The program *)

(** A function, its argument, and where its status is wanted. *)
Record job : Set := Job { j_func : addr; j_arg : Z; j_status : addr }.

Section program.
Context `{Globals, ThreadGlobals}.

(** A thread for every job; [None] when one could not be created. *)
Fixpoint create_all (jobs : list job) : prog (option (list (Z * addr))) :=
  match jobs with
  | [] => Ret (Some [])
  | j :: jobs =>
      tid ← thr_create (j_func j) (j_arg j);
      if decide (tid < 0) then Ret None
      else
        tids ← create_all jobs;
        Ret (match tids with Some tids => Some ((tid, j_status j) :: tids) | None => None end)
  end.

Fixpoint join_all (tids : list (Z * addr)) : prog unit :=
  match tids with
  | [] => Ret tt
  | (tid, statusp) :: tids => _ ← thr_join tid statusp; join_all tids
  end.

Definition fork_join (size : Z) (jobs : list job) (done_ptr : addr) : prog unit :=
  r ← thr_init size;
  if decide (r < 0) then Ret tt
  else
    tids ← create_all jobs;
    match tids with
    | None => Ret tt
    | Some tids => join_all tids;; store done_ptr 1;; thr_exit 0
    end.

End program.

(** What the functions of the program compute: from a region [D f a] with [I f a]
    to a status [v] and a region with [Q f a v]. *)
Record contract : Type := Contract {
  c_region : addr -> Z -> gset Z;
  c_pre : addr -> Z -> gmap Z Z -> Prop;
  c_post : addr -> Z -> Z -> gmap Z Z -> Prop;
}.
Definition j_region (C : contract) (j : job) : gset Z := c_region C (j_func j) (j_arg j).
Definition job_ok `{ThreadGlobals} (C : contract) (s : task) (j : job) : Prop :=
  j_func j <> NULL /\ j_status j <> NULL /\ j_region C j ⊆ dom (tmem s) /\
  c_pre C (j_func j) (j_arg j) (region (j_region C j) (tmem s)) /\
  runs_alone (j_region C j) (c_pre C (j_func j) (j_arg j)) (c_post C (j_func j) (j_arg j)) (code_at (j_func j) (j_arg j)).
Definition job_done (C : contract) (s : task) (j : job) : Prop :=
  exists v, tmem s !! j_status j = Some v /\ c_post C (j_func j) (j_arg j) v (region (j_region C j) (tmem s)).

(** ** Proof *)

Section proofs.
Context `{!taskGS Σ, !tokenG Σ, !ghost_varG Σ nat, !ghost_mapG Σ Z tdata, !Globals, !ThreadGlobals}.
Context (C : contract).

Definition post_res (f a v : Z) : iProp Σ := region_res (c_region C f a) (c_post C f a v).
Definition pre_res (j : job) : iProp Σ := region_res (j_region C j) (c_pre C (j_func j) (j_arg j)).
Definition done_res (j : job) : iProp Σ := ∃ v, j_status j ↦ v ∗ post_res (j_func j) (j_arg j) v.

(** A job under way. *)
Definition pending (N : names) (j : job) (x : Z * addr) : iProp Σ :=
  ⌜x.2 = j_status j⌝ ∗ joinable N x.1 (j_func j) (j_arg j) ∗ ∃ w, j_status j ↦ w.

Lemma create_all_ok t N jobs n (Φ : _ -> iProp Σ) :
  Forall (fun j => j_func j <> NULL /\ runs_alone (j_region C j) (c_pre C (j_func j) (j_arg j)) (c_post C (j_func j) (j_arg j)) (code_at (j_func j) (j_arg j))) jobs ->
  Z.of_nat (n + length jobs + 1) < 2 ^ 31 ->
  is_threads post_res N -∗ manages N n -∗ ([∗ list] j ∈ jobs, pre_res j ∗ ∃ w, j_status j ↦ w) -∗
  (∀ o, match o with None => True | Some tids => manages N (n + length jobs) ∗ [∗ list] j; x ∈ jobs; tids, pending N j x end -∗ Φ o) -∗
  wpt t (create_all jobs) Φ.
Proof.
  iIntros (Hjobs Hn) "#I Hm Hj HΦ". iInduction jobs as [|j jobs IH] "IH" forall (n Φ Hn); cbn [create_all length].
  - iApply wpt_ret. iApply "HΦ". rewrite Nat.add_0_r. by iFrame.
  - apply Forall_cons in Hjobs as [[Hf Hr] Hjobs]. cbn [length] in Hn. iDestruct "Hj" as "[[Hp Hw] Hj]".
    iApply wpt_bind. iApply (thr_create_ok with "I Hm [Hp]"); [done|lia| |].
    + iIntros (t') "Ht". iApply (wpt_wand with "[Hp]"); [by iApply (runs_alone_ok with "Hp")|]. iIntros (v) "Hv". iFrame.
    + iIntros (tid) "Hm [%Hneg|[%Hpos Hjoin]]".
      * rewrite decide_True; [|done]. iApply wpt_ret. by iApply "HΦ".
      * rewrite decide_False; [|lia]. iApply wpt_bind. iApply ("IH" with "[//] [] Hm Hj"); [iPureIntro; lia|].
        iIntros ([tids|]) "Ho"; iApply wpt_ret; iApply "HΦ"; [|done]. iDestruct "Ho" as "[Hm Ht]".
        rewrite Nat.add_succ_r. cbn [fmap option_fmap option_map]. iFrame "Hm Ht". by iFrame.
Qed.

Lemma join_all_ok t N jobs tids n Φ : Forall (fun j => j_status j <> NULL) jobs -> n = length jobs ->
  is_threads post_res N -∗ manages N n -∗ sleeping t false -∗ ([∗ list] j; x ∈ jobs; tids, pending N j x) -∗
  (manages N 0 -∗ ([∗ list] j ∈ jobs, done_res j) -∗ Φ tt) -∗ wpt t (join_all tids) Φ.
Proof.
  iIntros (Hjobs ->) "#I Hm Ht Hj HΦ". iInduction jobs as [|j jobs IH] "IH" forall (tids Φ).
  - iDestruct (big_sepL2_nil_inv_l with "Hj") as %->. iApply wpt_ret. by iApply ("HΦ" with "Hm").
  - iDestruct (big_sepL2_cons_inv_l with "Hj") as ([tid w] tids' ->) "[(%Hw & Hjoin & %w' & Hst) Hj]". cbn in Hw. subst w.
    apply Forall_cons in Hjobs as [Hnn Hjobs]. cbn [join_all]. iApply wpt_bind.
    iApply (thr_join_ok _ _ _ _ _ _ _ w' with "I Hm Hjoin Ht [Hst]"); [unfold status_at; by rewrite decide_False|].
    iIntros (v) "Hm Hp Ht Hst". iApply ("IH" with "[//] Hm Ht Hj"). iIntros "Hm Hd". iApply ("HΦ" with "Hm"). iFrame "Hd".
    iExists v. iFrame "Hp". unfold status_at. by rewrite decide_False.
Qed.

Definition doneN : namespace := nroot .@ "done".
Definition done_inv (done_ptr : addr) (jobs : list job) : iProp Σ :=
  ∃ d, done_ptr ↦ d ∗ (⌜d <> 1⌝ ∨ [∗ list] j ∈ jobs, done_res j).

Lemma fork_join_ok t size jobs done_ptr s h : stack_enough size -> 0 <= t -> alloc_mutex <> NULL -> thread_info_chain_mutex <> NULL ->
  Forall (fun j => j_func j <> NULL /\ runs_alone (j_region C j) (c_pre C (j_func j) (j_arg j)) (c_post C (j_func j) (j_arg j)) (code_at (j_func j) (j_arg j))) jobs ->
  Forall (fun j => j_status j <> NULL) jobs -> Z.of_nat (length jobs + 1) < 2 ^ 31 ->
  inv doneN (done_inv done_ptr jobs) -∗ born t -∗ sleeping t false -∗
  mutex_words alloc_mutex -∗ mutex_words thread_info_chain_mutex -∗ stack_size ↦ s -∗ thread_info_chain ↦ h -∗
  ([∗ list] j ∈ jobs, pre_res j ∗ ∃ w, j_status j ↦ w) -∗ wpt t (fork_join size jobs done_ptr) (fun _ => True).
Proof.
  iIntros (Hsize Ht Ha Hc Hjobs Hst Hlen) "#Id Hb Hs Ha Hc Hsz Hh Hj". unfold fork_join. iApply wpt_bind.
  iApply (thr_init_ok post_res with "Ha Hc Hsz Hh Hb"); [done..|]. iIntros (z) "[->|(-> & %N & #I & Hm)]".
  { case_decide; [by iApply wpt_ret|lia]. }
  case_decide; [lia|]. iApply wpt_bind. iApply (create_all_ok with "I Hm Hj"); [done|done|].
  iIntros ([tids|]) "Ho"; [|by iApply wpt_ret]. iDestruct "Ho" as "[Hm Hj]". iApply wpt_bind.
  iApply (join_all_ok with "I Hm Hs Hj"); [done..|]. iIntros "Hm Hd". iApply wpt_bind. iApply wpt_store.
  iInv "Id" as (d) "[>Hd' _]" "Hclose". iModIntro. iExists d. iFrame "Hd'". iIntros "!> Hd'".
  iMod ("Hclose" with "[Hd' Hd]") as "_"; [iIntros "!>"; iExists 1; iFrame; by iRight|]. iModIntro.
  by iApply (thr_exit_root_ok with "I Hm").
Qed.

End proofs.

(** ** The memory of the task *)

Section memory.
Context `{!taskGS Σ, !Globals, !ThreadGlobals}.

Lemma region_other D D' (m : gmap Z Z) : D ## D' -> region D' (filter (fun x => x.1 ∉ D) m) = region D' m.
Proof.
  intros Hd. apply map_eq. intros a. unfold region. apply option_eq. intros v.
  rewrite !map_lookup_filter_Some. cbn. set_solver.
Qed.

Lemma regions_take (Ds : list (gset Z)) m : ForallOrdPairs (##) Ds ->
  ([∗ map] a ↦ v ∈ m, a ↦ v) ⊢ ([∗ list] D ∈ Ds, owned (region D m)) ∗
    [∗ map] a ↦ v ∈ filter (fun x => Forall (fun D => x.1 ∉ D) Ds) m, a ↦ v.
Proof.
  intros Hds. induction Hds as [|D Ds HD Hds IH] in m |- *; cbn.
  - rewrite left_id map_filter_id; [done|]. by intros; apply Forall_nil.
  - rewrite region_take IH. iIntros "($ & HDs & Hm)". iSplitL "HDs".
    + iApply (big_sepL_impl with "HDs"). iIntros "!>" (i D' Hi) "H". rewrite region_other; [done|].
      rewrite Forall_forall in HD. apply HD. by eapply list_elem_of_lookup_2.
    + rewrite map_filter_filter. iApply (big_sepM_subseteq with "Hm"). apply map_subseteq_spec. intros a v.
      rewrite !map_lookup_filter_Some. cbn. rewrite Forall_cons. naive_solver.
Qed.

Lemma take_addresses (l : list Z) (m : gmap Z Z) : NoDup l -> (forall a, a ∈ l -> is_Some (m !! a)) ->
  ([∗ map] a ↦ v ∈ m, a ↦ v) ⊢ [∗ list] a ∈ l, ∃ v, ⌜m !! a = Some v⌝ ∗ a ↦ v.
Proof.
  intros Hnd Hl. rewrite (take_words ((fun a => (a, default 0 (m !! a))) <$> l)).
  - rewrite big_sepL_fmap. iIntros "H". iApply (big_sepL_impl with "H"). iIntros "!>" (i a Hi) "H". iExists _. iFrame.
    iPureIntro. cbn. destruct (Hl a) as [v Hv]; [by eapply list_elem_of_lookup_2|]. by rewrite Hv.
  - rewrite -list_fmap_compose. rewrite (list_fmap_ext _ id) ?list_fmap_id; [done|done].
  - intros x (a & -> & Ha)%list_elem_of_fmap. cbn. destruct (Hl a Ha) as [v Hv]. by rewrite Hv.
Qed.

End memory.

(** Where the words of the program are: the globals of the library, the statuses,
    the word that says that all is done; all apart, and apart from the regions. *)
Definition global_words `{Globals, ThreadGlobals} (done_ptr : addr) : list Z :=
  [mutex_lock_state alloc_mutex; mutex_tid alloc_mutex; mutex_lock_state thread_info_chain_mutex;
   mutex_tid thread_info_chain_mutex; stack_size; thread_info_chain; done_ptr].

Record ready `{Globals, ThreadGlobals} (C : contract) (jobs : list job) (done_ptr : addr) (t : Z) (s : task) : Prop := {
  rd_root : 0 <= t /\ t ∈ tids s;
  rd_awake : tasleep s = ∅;
  rd_jobs : Forall (job_ok C s) jobs;
  rd_few : Z.of_nat (length jobs + 1) < 2 ^ 31;
  rd_apart : ForallOrdPairs (##) (j_region C <$> jobs);
  rd_nonnull : alloc_mutex <> NULL /\ thread_info_chain_mutex <> NULL;
  rd_words : NoDup (global_words done_ptr ++ (j_status <$> jobs));
  rd_memory : forall a, a ∈ global_words done_ptr ++ (j_status <$> jobs) ->
    is_Some (tmem s !! a) /\ Forall (fun D => a ∉ D) (j_region C <$> jobs);
  rd_done : tmem s !! done_ptr <> Some 1;
}.

Section reading.
Context `{!taskGS Σ, !Globals, !ThreadGlobals}.
Context (C : contract).

Lemma jobs_start jobs s (m : gmap Z Z) : Forall (job_ok C s) jobs ->
  ([∗ list] D ∈ j_region C <$> jobs, owned (region D (tmem s))) -∗
  ([∗ list] a ∈ j_status <$> jobs, ∃ v, ⌜m !! a = Some v⌝ ∗ a ↦ v) -∗
  [∗ list] j ∈ jobs, pre_res C j ∗ ∃ w, j_status j ↦ w.
Proof.
  iIntros (Hjobs) "HD Hw". rewrite !big_sepL_fmap big_sepL_sep. iSplitL "HD".
  - iApply (big_sepL_impl with "HD"). iIntros "!>" (i j Hj) "H". iExists _. iFrame. iPureIntro.
    rewrite Forall_forall in Hjobs. destruct (Hjobs j) as (_ & _ & HD & Hpre & _); [by eapply list_elem_of_lookup_2|].
    split; [by apply region_dom|done].
  - iApply (big_sepL_impl with "Hw"). iIntros "!>" (i j Hj) "(%v & _ & H)". by iExists v.
Qed.

Lemma results_read jobs s : ([∗ list] j ∈ jobs, done_res C j) -∗ task_interp s -∗ ⌜Forall (job_done C s) jobs⌝.
Proof.
  iIntros "H Hs". rewrite Forall_forall. iIntros (j Hj). apply list_elem_of_lookup in Hj as [i Hi].
  iDestruct (big_sepL_lookup with "H") as "(%v & Hv & HR)"; [done|]. unfold job_done. iExists v.
  iSplit; [iDestruct "Hs" as "[Hm _]"; iApply (ghost_map_lookup with "Hm Hv")|]. iApply (region_read with "HR Hs").
Qed.

End reading.

Definition joinΣ : gFunctors :=
  #[invΣ; ghost_mapΣ Z Z; ghost_mapΣ Z bool; ghost_mapΣ Z unit; ghost_mapΣ Z tdata; tokenΣ; ghost_varΣ nat].

(** C4. Threads do their work once and their results arrive.  A program
    initialises the library, creates a thread for every job, joins them all,
    says that it is done and exits; job [j] runs a function that, alone on its
    region, computes a status and a result.  When the stacks asked for are large
    enough for the calls of a thread ([stack_enough]) and [malloc] finds memory, in
    every state of every schedule no thread crashes: none stores a frame outside
    its stack or in memory that has been freed, and no block is freed twice.  Once
    the program says that it is done, the status word of every job holds the status
    its function returned and its region the matching result: no join returns
    early, takes the status of another thread, or is missed, whether the thread
    exits before or after it is joined on.  [thread_fork] may fail, in which case
    the program stops.

    The frames of a call are stored when it is made.  That the exiting thread still
    returns from its last [mutex_unlock] and calls [vanish] on a stack its joiner
    may have freed by then is not a store of the model;
    [UFaults.stack_freed_under_exiting_thread] shows that it happens. *)
Theorem fork_join_delivers `{Globals, ThreadGlobals} (C : contract) size jobs done_ptr t s ths' s'
    (Hready : ready C jobs done_ptr t s) (Hsize : stack_enough size)
    (Hrun : rtc (Task.step false) ([Thread t (fork_join size jobs done_ptr)], s) (ths', s')) :
  Forall (fun th => ~ crashed false th s') ths' /\
  (tmem s' !! done_ptr = Some 1 -> Forall (job_done C s') jobs).
Proof.
  destruct Hready as [[Ht Hin] Hsl Hjobs Hfew Hap [Hna Hnc] Hnd Hmem Hdone].
  apply and_comm. apply (task_adequacy joinΣ [Thread t (fork_join size jobs done_ptr)] s ths' s'
    (fun s => tmem s !! done_ptr = Some 1 -> Forall (job_done C s) jobs));
    [apply NoDup_singleton|by intros th ->%list_elem_of_singleton|done| |done].
  iIntros (HG) "Hm [Ht _] Hborn". iDestruct (big_sepS_elem_of with "Hborn") as "Hborn"; [done|].
  iDestruct (regions_take with "Hm") as "[HDs Hm]"; [done|].
  iDestruct (take_addresses with "Hm") as "Hw"; [done| |].
  { intros a [[v Hv] Ha]%Hmem. exists v. by apply map_lookup_filter_Some. }
  iDestruct (big_sepL_app with "Hw") as "[Hg Hst]".
  iDestruct "Hg" as "((%a1 & _ & Ha1) & (%a2 & _ & Ha2) & (%b1 & _ & Hb1) & (%b2 & _ & Hb2) & (%sz & _ & Hsz) & (%h & _ & Hh) & (%d & %Hd & Hd) & _)".
  apply map_lookup_filter_Some in Hd as [Hd _].
  iMod (inv_alloc doneN _ (done_inv C done_ptr jobs) with "[Hd]") as "#Id".
  { iIntros "!>". iExists d. iFrame "Hd". iLeft. iPureIntro. congruence. }
  iDestruct (jobs_start with "HDs Hst") as "Hj"; [done|]. iModIntro. iSplitL.
  - rewrite big_sepL_singleton. iApply (fork_join_ok C with "Id Hborn Ht [Ha1 Ha2] [Hb1 Hb2] Hsz Hh Hj"); [done..| | |done|iFrame|iFrame].
    + eapply Forall_impl; [exact Hjobs|]. by intros j (? & _ & _ & _ & ?).
    + eapply Forall_impl; [exact Hjobs|]. by intros j (_ & ? & _).
  - iIntros (s2) "Hs". iInv "Id" as (d') "[>Hd Hres]" "_".
    iAssert ⌜tmem s2 !! done_ptr = Some d'⌝%I as %Hl; [iDestruct "Hs" as "[Hm _]"; iApply (ghost_map_lookup with "Hm Hd")|].
    iDestruct "Hres" as ">[%Hne|Hres]".
    + iApply fupd_mask_intro; [set_solver|]. iIntros "_". iPureIntro. congruence.
    + iDestruct (results_read with "Hres Hs") as %Hres. iApply fupd_mask_intro; [set_solver|]. iIntros "_". by iPureIntro.
Qed.

(** ** Two jobs *)

Definition demo_globals : Globals := {| alloc_mutex := 2000 |}.
#[local] Existing Instance demo_globals.
(** The function at address 100 doubles the word at its argument and returns what
    the word was. *)
Definition demo_double (a : Z) : prog Z := x ← load a; store a (2 * x);; Ret x.
Definition demo_program : ThreadGlobals := {|
  thread_info_chain_mutex := 2100; stack_size := 2200; thread_info_chain := 2204; crash_handler := 104; frame_words := 8;
  code_at := fun f a => if decide (f = 100) then demo_double a else Ret 0;
|}.
#[local] Existing Instance demo_program.
Definition demo_done : addr := 2208.
Definition demo_jobs : list job := [Job 100 3000 2300; Job 100 3004 2304].
Definition demo_contract : contract := {|
  c_region := fun _ a => {[a]};
  c_pre := fun _ a μ => μ !! a = Some 21;
  c_post := fun _ a v μ => v = 21 /\ μ !! a = Some 42;
|}.
Definition demo_memory : gmap Z Z :=
  list_to_map (((fun a => (a, 0)) <$> global_words demo_done ++ [2300; 2304]) ++ [(3000, 21); (3004, 21)]).
Definition demo_task : task := Task demo_memory ∅ ∅ {[1]} None.
Definition demo_start : config := ([Thread 1 (fork_join 64 demo_jobs demo_done)], demo_task).
Definition demo_schedule : list (nat * Task.choice) := plan false 0 (turns [(0, 300); (1, 400); (2, 400); (0, 400)]%nat) demo_start.

Lemma demo_double_runs a : runs_alone {[a]} (c_pre demo_contract 100 a) (c_post demo_contract 100 a) (demo_double a).
Proof.
  intros μ n c' μ' _ Hv Hn. cbn in Hv. unfold c_post. cbn.
  destruct n as [|[|[|n]]]; cbn in Hn; repeat (rewrite ?Hv in Hn; cbn in Hn); try discriminate; injection Hn as <- <-.
  - left. cbn. rewrite Hv. by eexists.
  - left. cbn. rewrite Hv. by eexists.
  - right. eexists. split; [reflexivity|]. split; [done|]. by rewrite lookup_insert_eq.
Qed.

Lemma demo_job_ok a w : a = 3000 \/ a = 3004 -> w <> NULL -> job_ok demo_contract demo_task (Job 100 a w).
Proof.
  intros Ha Hw. split; [done|]. split; [done|]. split; [|split].
  - intros x Hx. change (x ∈ ({[a]} : gset Z)) in Hx. apply elem_of_singleton in Hx as ->. apply elem_of_dom. destruct Ha as [->| ->]; eexists; vm_compute; reflexivity.
  - change (region {[a]} demo_memory !! a = Some 21). apply map_lookup_filter_Some. split; [|by apply elem_of_singleton]. destruct Ha as [->| ->]; vm_compute; reflexivity.
  - apply demo_double_runs.
Qed.

Lemma demo_ready : ready demo_contract demo_jobs demo_done 1 demo_task.
Proof.
  assert (Hw : Forall (fun a => is_Some (demo_memory !! a) /\ a <> 3000 /\ a <> 3004) (global_words demo_done ++ [2300; 2304])).
  { repeat (apply Forall_cons; split; [split; [eexists; vm_compute; reflexivity|by vm_compute]|]). constructor. }
  split; [split; [done|set_solver]|done| |done| |done| | |by vm_compute].
  - apply Forall_cons. split; [by apply demo_job_ok; [left|]|]. apply Forall_cons. split; [by apply demo_job_ok; [right|]|]. constructor.
  - repeat constructor. cbn. set_solver.
  - apply (bool_decide_unpack _). by vm_compute.
  - intros a Ha. rewrite Forall_forall in Hw. destruct (Hw a Ha) as (Hs & H1 & H2). split; [done|]. repeat constructor; set_solver.
Qed.

Lemma demo_stack : stack_enough 64.
Proof. split; [split; reflexivity|]. vm_compute. discriminate. Qed.

(** Both words are doubled, and both statuses delivered. *)
Lemma fork_join_delivers_witness :
  exists ths' s', rtc (Task.step false) demo_start (ths', s') /\ tmem s' !! demo_done = Some 1 /\
    Forall (fun th => ~ crashed false th s') ths' /\ Forall (job_done demo_contract s') demo_jobs.
Proof.
  destruct (run_reaches (A := option Z) false demo_start demo_schedule (fun cf => tmem cf.2 !! demo_done) (Some 1)) as ([ths' s'] & H1 & H2);
    [vm_compute; reflexivity|].
  destruct (fork_join_delivers demo_contract 64 demo_jobs demo_done 1 demo_task ths' s' demo_ready demo_stack H1) as [H3 H4].
  exists ths', s'. split; [exact H1|]. split; [exact H2|]. split; [exact H3|exact (H4 H2)].
Defined.
