(* ===== verification/UFaults.v ===== *)
(** Executions of the thread library that go wrong: two of [rwlock_downgrade],
    one of [cond_wait] without memory, one of [thr_exit] with a thread that has
    not been joined, one of a thread whose stack is freed before it has left it. *)
From S2P Require Import Prelude Task UMutex UList UCond URwlock UThread.
#[local] Open Scope Z_scope.

(** A task with words at known addresses: a readers/writers lock at 1000, a
    condition variable at 1100, a mutex at 1200, the allocator's mutex at 2000,
    everything free and empty. *)
Definition demo_globals : Globals := {| alloc_mutex := 2000 |}.
#[local] Existing Instance demo_globals.
Definition the_lock : addr := 1000.
Definition the_cond : addr := 1100.
Definition the_mutex : addr := 1200.
Definition demo_mutex (mp : addr) : list (Z * Z) := [(mutex_lock_state mp, UNLOCKED); (mutex_tid mp, -1)].
Definition demo_memory : list (Z * Z) :=
  [(rw_list the_lock, NULL); (cond_tid_head the_cond, NULL)] ++ demo_mutex (rw_list_manipulation the_lock) ++
  demo_mutex (cond_lock the_cond) ++ demo_mutex the_mutex ++ demo_mutex alloc_mutex.
Definition demo_start (ps : list (prog unit)) : config :=
  (imap (fun n p => Thread (Z.of_nat n + 1) p) ps,
   Task (list_to_map demo_memory) ∅ ∅ (list_to_set (seqZ 1 (Z.of_nat (length ps)))) None).

(** A thread about to read a word that is not there. *)
Definition reads_nothing (s : task) (th : thread) : bool :=
  match code th, tgone s with Act (Load a) _, None => bool_decide (tmem s !! a = None) | _, _ => false end.
Lemma reads_nothing_crashed may_fail s th : reads_nothing s th = true -> crashed may_fail th s.
Proof.
  unfold reads_nothing. destruct th as [t [|[] k| |]]; cbn; try done. destruct (tgone s) eqn:Hg; [done|].
  intros Hn%bool_decide_eq_true. split; [done|]. intros c. unfold thread_step. cbn. by rewrite Hg, Hn.
Qed.

(** C33. [rwlock_downgrade] breaks the exclusion of writers.  One thread reads,
    then a writer, a reader and another writer queue up in this order; the first
    reader unlocks, the writer gets the lock and downgrades: its loop gives a
    permission to every node from the first reader to the end of the list, the
    second writer included.  In the state reached the downgraded thread and the
    reader have the lock for reading and the second writer has it for writing:
    all calls have returned and nobody has unlocked. *)
Theorem rwlock_downgrade_admits_writer :
  exists ths s, rtc (step false)
    (demo_start [rwlock_lock the_lock RWLOCK_READ;; rwlock_unlock the_lock;
                 rwlock_lock the_lock RWLOCK_WRITE;; rwlock_downgrade the_lock;
                 rwlock_lock the_lock RWLOCK_READ;
                 rwlock_lock the_lock RWLOCK_WRITE]) (ths, s) /\
    code <$> ths = [Ret tt; Ret tt; Ret tt; Ret tt].
Proof.
  set (start := demo_start _).
  destruct (run_reaches false start
    (plan false 0 (turns [(0, 33); (1, 65); (2, 68); (3, 71); (0, 79); (1, 93); (2, 8); (3, 8)]%nat) start) (fun cf => code <$> cf.1) [Ret tt; Ret tt; Ret tt; Ret tt]) as ([ths s] & H1 & H2); [vm_compute; reflexivity|].
  by exists ths, s.
Qed.

(** [rwlock_downgrade] reads a node it has freed: when a writer is queued in
    front of a reader, the loop that moves the waiting writers to the end of the
    list removes the writer's node, which frees it, and then looks at the same
    node again.  If the allocator does not hand out the very same memory for the
    new node the thread crashes, with the lock of the list held. *)
Theorem rwlock_downgrade_reads_freed_node :
  exists ths s th, rtc (step false)
    (demo_start [rwlock_lock the_lock RWLOCK_WRITE;; rwlock_downgrade the_lock;
                 rwlock_lock the_lock RWLOCK_WRITE;
                 rwlock_lock the_lock RWLOCK_READ]) (ths, s) /\
    ths !! 0%nat = Some th /\ crashed false th s /\
    tmem s !! mutex_lock_state (rw_list_manipulation the_lock) = Some LOCKED.
Proof.
  set (start := demo_start _).
  destruct (run_reaches false start (plan false 0 (turns [(0, 33); (1, 69); (2, 64); (0, 91)]%nat) start)
    (fun cf => (reads_nothing cf.2 <$> cf.1 !! 0%nat, tmem cf.2 !! mutex_lock_state (rw_list_manipulation the_lock)))
    (Some true, Some LOCKED)) as ([ths s] & H1 & [= H2 H3]); [vm_compute; reflexivity|].
  cbn [fst snd] in *. destruct (ths !! 0%nat) as [th|] eqn:Hth; [|done]. injection H2 as H2. exists ths, s, th. split; [done|]. split; [done|].
  split; [by apply reads_nothing_crashed|done].
Qed.

(** [cond_wait] does not look whether [append_node] could enter the waiter in
    the list.  When the allocator is out of memory and nobody else waits, the
    list is still empty and [cond_wait] follows its null head: the thread
    crashes, with the lock of the condition variable and the caller's mutex
    held. *)
Theorem cond_wait_without_memory_crashes :
  exists ths s th, rtc (step true) (demo_start [mutex_lock the_mutex;; cond_wait the_cond the_mutex]) (ths, s) /\
    ths !! 0%nat = Some th /\ crashed true th s /\
    tmem s !! mutex_lock_state (cond_lock the_cond) = Some LOCKED /\
    tmem s !! mutex_lock_state the_mutex = Some LOCKED.
Proof.
  destruct (run_reaches true (demo_start [mutex_lock the_mutex;; cond_wait the_cond the_mutex])
    (replicate 19 (0%nat, Choice NULL id))
    (fun cf => (reads_nothing cf.2 <$> cf.1 !! 0%nat, tmem cf.2 !! mutex_lock_state (cond_lock the_cond),
                tmem cf.2 !! mutex_lock_state the_mutex))
    (Some true, Some LOCKED, Some LOCKED)) as ([ths s] & H1 & [= H2 H3 H4]); [vm_compute; reflexivity|].
  cbn [fst snd] in *. destruct (ths !! 0%nat) as [th|] eqn:Hth; [|done]. injection H2 as H2. exists ths, s, th.
  split; [done|]. split; [done|]. split; [by apply reads_nothing_crashed|done].
Qed.

(** What a thread is about to do: free a block, leave the task. *)
Definition freeing (th : thread) : option addr := match code th with Act (Free a) _ => Some a | _ => None end.
Definition leaving (th : thread) : bool := match code th with Act Vanish _ => true | _ => false end.

(** A thread's record: its identifier, its stack, and whether it has exited. *)
Definition record_at (i : addr) (s : task) : option (Z * addr * Z) :=
  t ← tmem s !! info_tid i; p ← tmem s !! info_stack_space i; e ← tmem s !! has_exited i; Some (t, p, e).

(** A program whose threads do nothing. *)
Definition idle_program : ThreadGlobals := {|
  thread_info_chain_mutex := 1300; stack_size := 1400; thread_info_chain := 1404; crash_handler := 104; frame_words := 4;
  code_at := fun _ _ => Ret 0;
|}.
#[local] Existing Instance idle_program.
Definition thread_start : config :=
  ([Thread 1 (_ ← thr_init 64; _ ← thr_create 100 0; thr_exit 0)],
   Task (list_to_map (demo_mutex alloc_mutex ++ demo_mutex thread_info_chain_mutex ++ [(stack_size, 0); (thread_info_chain, 0)]))
     ∅ ∅ {[1]} None).

(** C34. [destruct_each_thread] frees the resources of one thread and removes the
    node of another.  When the last thread exits and an exited thread has not
    been joined, the loop frees the stack of the newest thread, removes the node
    in front of it, and meets the newest thread again.  In this execution the
    last thread is about to free the stack [p] of the record [i], whose thread [t]
    has exited, and [p] is allocated; later it is about to free [p] again, and [p]
    is not allocated any more. *)
Theorem unjoined_thread_freed_twice :
  exists ths1 s1 ths2 s2 i t p, rtc (step false) thread_start (ths1, s1) /\ rtc (step false) (ths1, s1) (ths2, s2) /\
    record_at i s1 = Some (t, p, 1) /\ thread_id <$> ths1 = [1; t] /\ t <> 1 /\
    (freeing <$> ths1 !! 0%nat = Some (Some p) /\ tblocks s1 !! p = Some 64) /\
    (freeing <$> ths2 !! 0%nat = Some (Some p) /\ tblocks s2 !! p = None /\ tgone s2 = None).
Proof.
  set (sch1 := plan false 0 (turns [(0, 85); (1, 300); (0, 29)]%nat) thread_start).
  destruct (run_twice false thread_start sch1 (plan_on false sch1 (turns [(0, 34)]%nat) thread_start)
    (fun cf => (record_at 46000 cf.2, thread_id <$> cf.1, freeing <$> cf.1 !! 0%nat, tblocks cf.2 !! 57000))
    (fun cf => (freeing <$> cf.1 !! 0%nat, tblocks cf.2 !! 57000, tgone cf.2))
    (Some (87000, 57000, 1), [1; 87000], Some (Some 57000), Some 64) (Some (Some 57000), None, None))
    as ([ths1 s1] & [ths2 s2] & H1 & H2 & [= H3 H4 H5 H6] & [= H7 H8 H9]); [vm_compute; reflexivity|].
  by exists ths1, s1, ths2, s2, 46000, 87000, 57000.
Qed.

(** A program that joins the thread it has created. *)
Definition join_start : config :=
  ([Thread 1 (_ ← thr_init 64; tid ← thr_create 100 0; _ ← thr_join tid NULL; thr_exit 0)], thread_start.2).

(** [thr_exit] gives its stack away before it has left it: once the exiting thread
    has unlocked the chain, its joiner may free the stack, while the exiting thread
    has still to return from [mutex_unlock] and to call [vanish] on it.  In this
    execution the thread [t] of the record [i] has unlocked and is about to vanish,
    its stack [p] is allocated; later it is still about to vanish, and its stack is
    gone, the word at its top included. *)
Theorem stack_freed_under_exiting_thread :
  exists ths1 s1 ths2 s2 i t p, rtc (step false) join_start (ths1, s1) /\ rtc (step false) (ths1, s1) (ths2, s2) /\
    record_at i s1 = Some (t, p, 1) /\
    (thread_id <$> ths1 !! 1%nat = Some t /\ leaving <$> ths1 !! 1%nat = Some true /\ tblocks s1 !! p = Some 64) /\
    (thread_id <$> ths2 !! 1%nat = Some t /\ leaving <$> ths2 !! 1%nat = Some true /\ tblocks s2 !! p = None /\
     tmem s2 !! (ROUND_STACK (p + 64) - 4) = None /\ tgone s2 = None).
Proof.
  set (sch1 := plan false 0 (turns [(0, 85); (1, 71)]%nat) join_start).
  destruct (run_twice false join_start sch1 (plan_on false sch1 (turns [(0, 60)]%nat) join_start)
    (fun cf => (record_at 46000 cf.2, thread_id <$> cf.1 !! 1%nat, leaving <$> cf.1 !! 1%nat, tblocks cf.2 !! 57000))
    (fun cf => (thread_id <$> cf.1 !! 1%nat, leaving <$> cf.1 !! 1%nat, tblocks cf.2 !! 57000, tmem cf.2 !! 57060, tgone cf.2))
    (Some (87000, 57000, 1), Some 87000, Some true, Some 64) (Some 87000, Some true, None, None, None))
    as ([ths1 s1] & [ths2 s2] & H1 & H2 & [= H3 H4 H5 H6] & [= H7 H8 H9 H10 H11]); [vm_compute; reflexivity|].
  by exists ths1, s1, ths2, s2, 46000, 87000, 57000.
Qed.
